(* ===== verification/_CoqProject ===== *)
-Q . S2P
Prelude.v
Bits.v
MemList.v
HashTable.v
RlcAmTypes.v
RlcAmEntity.v
RlcAmWindows.v
RlcAmTxBuffer.v
RlcTimers.v
RlcAmTimers.v
RlcAmStatusCodec.v
RlcAmInSdu.v
RlcAmLi.v
RlcAmPolling.v
RlcAmRetransmit.v
RlcAmResegment.v
RlcAmSegment.v
RlcAmSegmentSpec.v
RlcAmRxPdu.v
RlcAmTransfer.v
RlcAmRxList.v
RlcAmReassembly.v
RlcAmCarry.v
RlcAmStatusRx.v
RlcAmArq.v
RlcAmStatusTx.v
RlcAmReceiver.v
RlcAmReorder.v
RlcAm.v
RlcAmService.v
RlcAmLossless.v
RlcUmTypes.v
RlcUmWindow.v
RlcUmLi.v
RlcUmReassembly.v
RlcUmSegment.v
RlcUmSegmentSpec.v
RlcUmDar.v
RlcUmReordering.v
RlcUmDarSpec.v
RlcUm.v
RlcUmDelivery.v
RlcUmLossy.v
RlcUmSender.v
RlcUmOrder.v
RlcUmService.v
RlcUmTransfer.v
RlcTm.v
RlcStore.v
RlcDispatch.v
RlcStoreSpec.v
RlcDispatchSpec.v
RlcLink.v
Snow3g.v
StreamCipher.v
PdcpTypes.v
PdcpSequence.v
PdcpSecurity.v
Pdcp.v
PdcpConfig.v
PdcpTransfer.v
PdcpConfigSpec.v
PdcpErrors.v
MacPdu.v
MacDemux.v
MacPduSpec.v
MacHeaderSpec.v
MacTransfer.v
MacUlsch.v
MacUeList.v
MacUplink.v
MacAccess.v
PhyCrc.v
PhySegmentation.v
PhyTransportBlock.v
PhyRateMatching.v
PhyRateMatchingSpec.v
PhyRateLink.v
PhyScrambling.v
PhyMcs.v
