(* ===== verification/Prelude.v ===== *)
(** * Layer 2 and channel coding of OpenAirInterface, verified

    OpenAirInterface is an LTE protocol stack in C.  This development models
    its layer 2 (src/openair2/LAYER2): the RLC sublayer (3GPP TS 36.322), which
    turns the SDUs of PDCP into the transport blocks that MAC asks for and
    back; PDCP above it (PDCP_v10.1.0, TS 36.323), which numbers, ciphers and
    protects the packets of RRC and the network; and of MAC below it (TS
    36.321) the PDUs, the demultiplexing of blocks and the list of UEs of the
    eNB.  Of the physical layer (src/openair1/PHY) it models what the DL-SCH
    does to the bits of a transport block (TS 36.212, 36.211), the turbo code
    itself apart.  It proves them correct as far as they are; where the code is
    not what it means to be, the theorem states what it does and the manifest
    lists the finding.

    A packet goes from pdcp_data_req through rlc_data_req into the queue of an
    RLC entity; MAC asks for it by mac_rlc_data_req, writes the header of its
    block and hands the block to the physical layer; at the other side
    ue_send_sdu or rx_sdu takes the block apart and calls mac_rlc_data_ind,
    which ends in pdcp_data_ind.  On the air the block has its CRC and is cut
    into code blocks; each is turbo coded, interleaved and rate matched, and
    the bits of all of them are scrambled.  The tables of entities of RLC and PDCP are
    hash tables; the calls out of a component are recorded as events.

    ** Reading guide

    Every function of the source is a Definition or Fixpoint of the same name
    (a loop or a long block of one function has a name of its own).  State is
    passed explicitly: [r <| field := v |>] is the assignment [r->field = v].
    A function that can reach an assertion, read or write outside an object
    or dereference NULL returns a [res]: [Ok], [Err FatalAssert],
    [Err UndefinedBehaviour]; [Err OutOfFuel] is no behaviour of the program
    and is proved unreachable for the fuel the definitions give.  Integers
    are [Z], wrapped to the width of the C type ([u8], [u16], [i16], [u32])
    wherever an assignment can overflow.  A memory block is the list of its
    bytes.  The build is the one of release 14 (the tables of timers of AM and UM).  Mutexes, traces and message charts are left out.

    ** Files

    - Prelude: results, record update, machine integers, arrays, tactics.
      Bits: bit strings and bytes, for the formats on the wire.
    - MemList: the lists of memory blocks (UTIL/LISTS/list.c, list2.c) on an
      explicit heap, refined by Rocq lists; the other files use lists.
    - RlcAmTypes, RlcAmEntity: constants, structures, the AM entity
      (rlc_am_constants.h, rlc_am_structs.h, rlc_am_entity.h).
    - RlcAmWindows (rlc_am_windows.c): sequence numbers modulo 1024 and the
      two windows.  RlcAmTxBuffer: the 512 transmitted PDUs, the accounting of
      bytes to retransmit, the window invariant [tx_inv].
    - RlcAmTimers (rlc_am_timer_*.c), RlcAmPolling (rlc_am_segment.c).
    - RlcAmStatusCodec, RlcAmStatusRx, RlcAmStatusTx (rlc_am_status_report.c):
      encoding, decoding, processing and construction of STATUS PDUs;
      RlcAmRetransmit, RlcAmResegment (rlc_am_retransmit.c): ACK, NACK, copies
      and PDU segments.  RlcAmArq: the transmitting side under reports.
    - RlcAmInSdu (rlc_am_in_sdu.c): the ring of SDUs, also as a queue.
      RlcAmLi: length indicators, and
      the way SDUs fill a PDU, the same in AM and UM.  RlcAmSegment (rlc_am_segment.c):
      segmentation; RlcAmSegmentSpec and RlcAmTransfer: its specification.
    - RlcAmRxPdu, RlcAmReceiver (rlc_am_receiver.c): header decoding, routing,
      receive variables.  RlcAmRxList (rlc_am_rx_list.c): the reception
      buffer.  RlcAmReassembly (rlc_am_reassembly.c).  RlcAmCarry and
      RlcAmReorder: what reassembly and reordering do with the PDUs of a
      sender, in any order.
    - RlcAm (rlc_am_init.c, rlc_am.c): initialisation, configuration and
      interfaces.  RlcAmService: an entity in service and data requests.
      RlcAmLossless: two entities back to back.
    - RlcTimers: the test of a running timer, which AM and UM share.
    - RlcUmTypes (rlc_um_structs.h, rlc_um_entity.h, rlc_um_constants.h),
      RlcUmWindow and RlcUmDar (rlc_um_dar.c, rlc_um_receiver.c): the reordering
      window, the reception buffer, t-Reordering.  RlcUmLi, RlcUmReassembly
      (rlc_um_dar.c, rlc_um_reassembly.c): length indicators, reassembly.
      RlcUmSegment (rlc_um_segment.c).  RlcUm (rlc_um.c, rlc_um_fsm.c,
      rlc_um_control_primitives.c): state machine, configuration, interfaces.
    - RlcUmReordering: the receiver on unbounded numbers, an abstract machine:
      that of 36.322 5.1.2.2 but for the two deviations of rlc_um_dar.c (lines
      1120 and 1154), which RlcUmDarSpec proves that rlc_um_dar.c refines; RlcUmOrder:
      its runs on PDUs in sequence.  RlcUmDelivery: the SDUs of a
      stream of PDUs and those a receiver delivers of it.  RlcUmSegmentSpec,
      RlcUmSender: the sender makes such a stream.  RlcUmLossy: the receiver on
      one.  RlcUmService: configuration.  RlcUmTransfer: sender and receiver.
    - HashTable (src/common/utils/hashtable/hashtable.c): the table of RLC's
      entities and its refinement by finite maps; the class [Table] is what its
      users rely on, and the hash table an instance.
    - RlcTm (TM_v9.3.0/rlc_tm.c, rlc_tm_init.c): the transparent mode.
    - RlcStore (rlc.h, rlc_rrc.c): the entities of all UEs in a table, found
      by radio bearer or logical channel, and what RRC does to them.
      RlcDispatch (rlc.c, rlc_mac.c): requests of PDCP, RRC and MAC.
      RlcStoreSpec and RlcDispatchSpec: what they promise, over any [Table].
      RlcLink: a UM bearer between the sublayers of a UE and an eNB.
    - Snow3g, StreamCipher (UTIL/OSA/osa_snow3g.c, osa_stream_eea.c,
      osa_stream_eia.c): ciphering and integrity, with the null algorithm and
      SNOW 3G; AES, which the code takes from a library, is a parameter.
    - PdcpTypes (pdcp.h, pdcp_primitives.c): the entity, headers.
      PdcpSequence (pdcp_sequence_manager.c), PdcpSecurity (pdcp_security.c):
      numbers, COUNT, protection of a PDU in its block.  Pdcp, PdcpConfig
      (pdcp.c): requests and indications, configuration and removal.
      PdcpTransfer, PdcpConfigSpec, PdcpErrors: what they promise.
    - MacPdu (eNB_scheduler_dlsch.c, eNB_scheduler_ulsch.c, ue_procedures.c):
      the headers of blocks, written and parsed.  MacDemux (ue_procedures.c):
      what the UE does with a block; buffer status tables.  MacUlsch
      (eNB_scheduler_primitives.c, eNB_scheduler_ulsch.c): the list of UEs and
      rx_sdu.  MacPduSpec: a header as a list of elements; MacHeaderSpec: the
      writers write such a list, the parsers read it.  MacTransfer: from the
      eNB to the UE.  MacUeList: the list as a table of slots.  MacUplink: from
      the UE to the eNB.  MacAccess: contention resolution and C-RNTI.
    - PhyCrc (CODING/crc_byte.c): the checks.  PhySegmentation
      (CODING/lte_segmentation.c), PhyTransportBlock (LTE_TRANSPORT/
      dlsch_coding.c, dlsch_decoding.c): a block, its code blocks and back.
      PhyRateMatching (CODING/lte_rate_matching.c): interleavers, rate
      matching; PhyRateMatchingSpec: the interleaver as a permutation;
      PhyRateLink: sender and receiver.  PhyScrambling (LTE_TRANSPORT/
      dlsch_scrambling.c).  PhyMcs (LTE_TRANSPORT/lte_mcs.c,
      dlsch_tbs_full.h, pmch.c): schemes, block sizes, bits of a subframe.

    ** Theorems

    The contract of AM is [RlcAmLossless.in_order_delivery]: SDUs given to one
    entity, sent as a sequence of grants asks (within the limits of the tables,
    which the theorem states), received in any order with
    duplicates and gaps, come out of the other entity in order, once, up to
    the first missing PDU.  It rests on [RlcAmTransfer.segmentation_spec] (a
    PDU carries exactly the bytes that leave the queue and decodes to them),
    [RlcAmReassembly.reassemble_pdu_spec] and the reordering of RlcAmReorder.
    [RlcAmArq.status_report_spec] gives the effect of a STATUS PDU on the
    transmitting side and its invariant.  The formats have round trips
    ([RlcAmStatusCodec], [RlcAmRxPdu]) and, for STATUS PDUs, an exact
    characterisation of what the decoder accepts.  Timers expire exactly on
    time across the wrap of a 32 bit clock, and early at the wrap of the 10 bit
    frame number; windows are circular intervals; lists
    refine Rocq lists.

    The contract of UM is [RlcUmTransfer.um_transfer_spec]: whatever happens to
    the PDUs on the way (inside a window), for SDUs and queues within the limits of
    [um_tx_legal], the receiver delivers exactly the SDUs all of whose PDUs
    it accepted, in order and once.  [um_in_sequence_spec] adds that with PDUs
    in sequence, some of them lost, t-Reordering makes it deliver every SDU of which
    nothing was lost, and [um_lossless_spec] that without losses every SDU sent arrives.
    They rest on [um_segment_spec] (the sender), [um_reassemble_pdu_spec]
    (one PDU) and [um_receiver_refines] (the receiver against its abstract
    machine).  [um_zero_timer_stalls] and [um_reconfigure_ignored] state what the
    code does where it does not do what it means to.

    The sublayer is one state, [rlc_store]: the table and a heap of entities.
    [RlcStoreSpec.rlc_store_refines] shows that its operations on the bearers of UEs
    (a second MBMS session breaks the table) are those of two maps, entities by bearer and bearers by channel; [rlc_isolation] that an
    operation on one bearer leaves the others alone.  The operations call the
    three modes, whose theorems then apply to the entity found:
    [RlcLink.um_bearer_transfer] does so for UM, from PDCP at the UE through
    MAC's buffer ([RlcDispatchSpec.tb_roundtrip]) to PDCP at the eNB.  The
    identifiers must be distinct: [lcid_collision] shows what happens otherwise.
    The instance [HashTable.hash_table_table] discharges the assumption on the table;
    [hashtable_refines] is the whole contract of hashtable.c.
    [RlcTm.tm_sender_refines] and [tm_transfer_spec] give TM as it is.

    The contract of PDCP is [PdcpTransfer.pdcp_data_transfer]: a packet that one
    entity protects and the other receives with the numbers in step comes out
    with its bytes.  [PdcpSecurity.pdcp_count_sync] keeps the numbers in step
    over any sequence of packets, [StreamCipher.cipher_roundtrip] inverts
    ciphering, [snow3g_typed] keeps the cipher in 32-bit words.
    [PdcpConfigSpec] has configuration and removal.  [PdcpErrors] states what
    happens to a wrong MAC-I, over AM towards GTP-U, with short numbers and past
    the end of a ciphered PDU.

    The contract of MAC's PDUs is [MacTransfer.dl_sch_transfer] and
    [MacUplink.ul_sch_transfer]: the control elements and SDUs that one side
    puts in a block reach the layers of the other, in order and with their
    bytes.  [MacAccess.contention_resolved] follows a random access from Msg3 to
    Msg4.  [MacUeList.ue_list_refines] and [ue_list_invariant] give the list of
    UEs, [MacTransfer.bsr_index_bounds] the buffer status tables; [mch_transfer]
    is the parser of MCH.  [long_bsr_mismatch], [crnti_msg3_lost] and
    [new_ue_inherits_buffers] state where the two sides do not agree.

    The contract of channel coding is in two theorems, the turbo code between
    them: [PhyTransportBlock.transport_block_roundtrip] (the bytes of a block
    whose code blocks come out of the turbo decoder as they went into the
    encoder are put together again and accepted) and
    [PhyRateLink.rate_matching_roundtrip] (every bit of a code word arrives in its
    place, with the soft values of its repetitions added up).  They rest on
    [PhyCrc.crc_remainder] (the checks are remainders by the polynomials of the
    standard; [crc_detects] has what they find), on
    [PhySegmentation.segmentation_sizes], on the permutation of
    PhyRateMatchingSpec and on [PhyRateLink.dummy_w_nulls]: the receiver knows
    where the sender skips.  [rate_matching_fills] shows that the blocks fill
    the subframe and no more.  [PhyScrambling.gold_sequence_spec] derives the
    generator from the recurrences of the standard, [scrambling_roundtrip] undoes it.
    [PhyMcs.tbs_no_filler] goes through the table of block sizes: every one is
    segmented exactly.  [segmentation_underflow] shows what happens to another.

    ** Bounds and fuel

    Loops over sequence numbers have fuel 1024, one turn of the circle; the
    loop over the NACKs of a report 2048, a turn plus 1023 NACKs; the loops of
    segmentation 129, the LIs of a PDU plus one; the reassembly loop a square
    of the length of the buffer, since each round removes or marks an element;
    the UM loops over sequence numbers 1025, a turn and the last test.
    The theorems that use a loop prove that it ends within its fuel.
    The search of the list of UEs has 16, its slots; the parsers of MAC the length
    of the block, since every turn moves the pointer; the bisection of the
    buffer status table the length of the table.  A turn of the circular buffer
    of rate matching has the size of the buffer, and there are at most as many
    turns as bits, since each sends one unless all of them are NULL.

    ** Not modelled

    The manifest lists every part of the repository.  Of PDCP, the exchange of
    packets with the kernel, the thread, the loop of pdcp_run over ITTI messages
    and osa_key_deriver.c (one call of HMAC-SHA256) are left out; AES and CMAC
    are a parameter with its laws.  Of MAC, the schedulers, the configuration
    and the timers of the UE are left out: they work on tables of the physical
    layer.  A link of two AM entities through the dispatch is left out
    (RlcAmLossless has it without).
    What get_free_mem_block and calloc give is an argument, stale bytes
    included, of the construction of new PDUs (AM, UM, TM), of the requests of
    PDCP, of the blocks that MAC hands over, and of the addition, configuration
    and initialisation of entities.  The blocks that a receiver needs for SDUs in construction
    and for segments it cuts, and those of retransmissions and of STATUS PDUs of AM, are taken to be
    there: without them the code stops by an assertion or dereferences NULL.
    ASN.1 code is generated by the build; of the physical
    layer the modulation, the turbo and convolutional codes and the HARQ
    processes are left out, most of it fixed-point SIMD code; drivers, simulators and tools have no protocol logic. *)

From stdpp Require Export base decidable option list numbers gmap.
From Stdlib Require Export ZArith Lia.

Open Scope Z_scope.

(** ** Results

    [AssertFatal], [assert] and [exit] stop the program; reading or writing
    outside an array and dereferencing a NULL or dangling pointer are
    undefined behaviour.  Both end a computation of the model: a function of
    the source that can do so returns a [res].  [OutOfFuel] is no behaviour of
    the program: a loop whose recursion is not structural carries a fuel, and
    it is proved that the fuel given is enough. *)
Inductive fault :=
| FatalAssert
| UndefinedBehaviour
| OutOfFuel.

Inductive res (A : Type) :=
| Ok (a : A)
| Err (f : fault).
Arguments Ok {A} a.
Arguments Err {A} f.

#[export] Instance res_ret : MRet res := fun A a => Ok a.
#[export] Instance res_bind : MBind res :=
  fun A B k m => match m with Ok a => k a | Err f => Err f end.
#[export] Instance res_fmap : FMap res :=
  fun A B k m => match m with Ok a => Ok (k a) | Err f => Err f end.

#[export] Instance fault_eq_dec : EqDecision fault.
Proof. solve_decision. Defined.

(** [assert_that b]: the source's [AssertFatal (b, ...)]. *)
Definition assert_that (b : bool) : res unit :=
  if b then Ok tt else Err FatalAssert.

(** [deref o]: the source dereferences a pointer (or reads an array cell)
    whose target the model looked up as [o]. *)
Definition deref {A} (o : option A) : res A :=
  match o with Some a => Ok a | None => Err UndefinedBehaviour end.

Definition is_ok {A} (m : res A) : bool :=
  match m with Ok _ => true | Err _ => false end.

Lemma bind_ok_inv {A B} (m : res A) (k : A -> res B) (b : B) :
  m ≫= k = Ok b -> exists a, m = Ok a /\ k a = Ok b.
Proof. destruct m as [a | f]; intros H; [by exists a | discriminate H]. Qed.

Lemma deref_ok_inv {A} (o : option A) (a : A) :
  deref o = Ok a -> o = Some a.
Proof. destruct o; intros H; [by injection H as -> | discriminate H]. Qed.

Lemma assert_ok_inv (b : bool) (u : unit) : assert_that b = Ok u -> b = true.
Proof. by destruct b. Qed.

(** [res_inv] opens every successful step of a monadic hypothesis. *)
Ltac res_inv :=
  repeat match goal with
  | H : (_ ≫= _) = Ok _ |- _ =>
      let a := fresh "a" in let H1 := fresh "Hstep" in
      apply bind_ok_inv in H as (a & H1 & H)
  | H : deref _ = Ok _ |- _ => apply deref_ok_inv in H
  | H : assert_that _ = Ok _ |- _ => apply assert_ok_inv in H
  | H : Ok _ = Ok _ |- _ => injection H as H
  | H : mret _ = Ok _ |- _ => injection H as H
  | H : Err _ = Ok _ |- _ => discriminate H
  end.

(** ** Functional update of records

    [r <| proj := v |>] is the record [r] with one field changed: the model of
    an assignment [r->field = v].  An instance of [Eta] rebuilds a record from
    its projections; the setter of a field is found by abstracting that
    projection in the eta-expansion. *)
Class Eta (R : Type) := eta_expand : R -> R.
Class Setter {R F : Type} (proj : R -> F) := update_field : (F -> F) -> R -> R.

Ltac find_setter :=
  match goal with
  | |- @Setter ?R ?F ?proj =>
      let body := eval hnf in (@eta_expand R _) in
      match eval pattern proj in body with
      | ?abs _ =>
          let s := eval cbv beta in
            (fun (f : F -> F) (r : R) => abs (fun r0 => f (proj r0)) r) in
          exact s
      end
  end.
#[export] Hint Extern 1 (Setter _) => find_setter : typeclass_instances.

Notation "r <| proj := v |>" := (update_field (proj := proj) (fun _ => v) r)
  (at level 1, left associativity, proj at level 1,
   format "r  <|  proj  :=  v  |>").

(** ** Machine integers

    A C integer of [w] bits is the [Z] it denotes.  Assigning to an unsigned
    (signed) object of [w] bits wraps the value with [wrapu w] ([wraps w]). *)
Definition wrapu (w : Z) (z : Z) : Z := z mod 2 ^ w.
Definition wraps (w : Z) (z : Z) : Z := (z + 2 ^ (w - 1)) mod 2 ^ w - 2 ^ (w - 1).

Definition u8 (z : Z) : Z := wrapu 8 z.
Definition u16 (z : Z) : Z := wrapu 16 z.
Definition u32 (z : Z) : Z := wrapu 32 z.
Definition i8 (z : Z) : Z := wraps 8 z.
Definition i16 (z : Z) : Z := wraps 16 z.
Definition i32 (z : Z) : Z := wraps 32 z.

(** The value of a C condition. *)
Definition b2z (b : bool) : Z := if b then 1 else 0.

Declare Scope c_scope.
Delimit Scope c_scope with C.
(** C's truth value of an integer. *)
Notation "'truthy' x" := (negb (x =? 0)) (at level 10) : c_scope.
Open Scope c_scope.

Lemma wrapu_small w z : 0 <= z < 2 ^ w -> wrapu w z = z.
Proof. intros H. by apply Z.mod_small. Qed.

Lemma wrapu_range w z : 0 <= w -> 0 <= wrapu w z < 2 ^ w.
Proof. intros H. apply Z.mod_pos_bound. by apply Z.pow_pos_nonneg. Qed.

Lemma wraps_small w z : 0 < w -> - 2 ^ (w - 1) <= z < 2 ^ (w - 1) -> wraps w z = z.
Proof.
  intros Hw H. unfold wraps.
  assert (2 ^ w = 2 * 2 ^ (w - 1)) as E
    by (rewrite <- Z.pow_succ_r by lia; f_equal; lia).
  rewrite Z.mod_small; lia.
Qed.

(** Reduction modulo 1024 commutes with the 16-bit wrap of [rlc_usn_t]. *)
Lemma u16_mod_1024 z : u16 z mod 1024 = z mod 1024.
Proof.
  unfold u16, wrapu. change (2 ^ 16) with (1024 * 64).
  rewrite Z.rem_mul_r by lia.
  rewrite Z.mul_comm, Z_mod_plus_full. apply Z.mod_mod. lia.
Qed.

(** [c_int] puts the bounds of every width in the context and calls [lia]. *)
Ltac c_unfold := unfold u8, u16, u32, i8, i16, i32, wrapu, wraps in *.
Ltac mod_lia := Z.div_mod_to_equations; lia.

(** Masks are remainders, shifts are products and quotients. *)
Lemma land_1023 z : Z.land z 1023 = z mod 1024.
Proof. change 1023 with (Z.ones 10). by rewrite Z.land_ones. Qed.

Lemma land_ones_mod z n : 0 <= n -> Z.land z (2 ^ n - 1) = z mod 2 ^ n.
Proof. intros H. rewrite <- Z.land_ones by lia. by rewrite Z.ones_equiv, <- Z.sub_1_r. Qed.

(** Disjoint bit ranges: [lor] is addition. *)
Lemma lor_shiftl_add a b n :
  0 <= n -> 0 <= b < 2 ^ n -> Z.lor (Z.shiftl a n) b = a * 2 ^ n + b.
Proof.
  intros Hn Hb. rewrite <- Z.shiftl_mul_pow2 by lia.
  symmetry. apply Z.add_nocarry_lor, Z.bits_inj'. intros i Hi.
  rewrite Z.land_spec, Z.bits_0.
  destruct (Z.ltb_spec i n).
  - rewrite Z.shiftl_spec_low by lia. done.
  - rewrite andb_comm. rewrite <- (Z.mod_small b (2 ^ n)) by done.
    rewrite Z.mod_pow2_bits_high by lia. done.
Qed.

(** Testing one bit with a mask. *)
Lemma land_bit x n : 0 <= n -> Z.land x (2 ^ n) = (x / 2 ^ n) mod 2 * 2 ^ n.
Proof.
  intros Hn. rewrite <- Z.bit0_mod, Z.div_pow2_bits by lia. rewrite Z.add_0_l.
  apply Z.bits_inj'. intros i Hi. rewrite Z.land_spec, Z.pow2_bits_eqb by done.
  destruct (Z.testbit x n) eqn:E; cbn [Z.b2z].
  - rewrite Z.mul_1_l, Z.pow2_bits_eqb by done. destruct (Z.eqb_spec n i) as [<- | _].
    + by rewrite E.
    + by rewrite andb_false_r.
  - rewrite Z.mul_0_l, Z.bits_0. destruct (Z.eqb_spec n i) as [<- | _]; [by rewrite E|].
    by rewrite andb_false_r.
Qed.

(** ** Arrays

    A C array is a list; a cell is read and written at a [Z] index, and an
    index outside the array is undefined behaviour. *)
Definition array_get {A} (l : list A) (i : Z) : res A :=
  if 0 <=? i then deref (l !! Z.to_nat i) else Err UndefinedBehaviour.

Definition array_set {A} (l : list A) (i : Z) (v : A) : res (list A) :=
  if (0 <=? i) && (i <? Z.of_nat (length l))
  then Ok (<[Z.to_nat i := v]> l) else Err UndefinedBehaviour.

Lemma array_get_ok {A} (l : list A) i :
  0 <= i < Z.of_nat (length l) -> exists v, array_get l i = Ok v /\ l !! Z.to_nat i = Some v.
Proof.
  intros H. unfold array_get. destruct (lookup_lt_is_Some_2 l (Z.to_nat i)) as [v Hv]; [lia|].
  exists v. rewrite Hv. destruct (Z.leb_spec 0 i); [done | lia].
Qed.

Lemma array_get_inv {A} (l : list A) i v :
  array_get l i = Ok v -> 0 <= i < Z.of_nat (length l) /\ l !! Z.to_nat i = Some v.
Proof.
  unfold array_get. destruct (Z.leb_spec 0 i); intros H1; [|discriminate H1].
  res_inv. apply lookup_lt_Some in H1 as H2. split; [lia | done].
Qed.

Lemma array_set_ok {A} (l : list A) i v :
  0 <= i < Z.of_nat (length l) -> array_set l i v = Ok (<[Z.to_nat i := v]> l).
Proof.
  intros H. unfold array_set.
  destruct (Z.leb_spec 0 i), (Z.ltb_spec i (Z.of_nat (length l))); done || lia.
Qed.

Lemma array_set_inv {A} (l l' : list A) i v :
  array_set l i v = Ok l' ->
  0 <= i < Z.of_nat (length l) /\ l' = <[Z.to_nat i := v]> l.
Proof.
  unfold array_set. intros H.
  destruct (Z.leb_spec 0 i), (Z.ltb_spec i (Z.of_nat (length l)));
    simpl in H; try discriminate H.
  res_inv. subst. split; [lia | done].
Qed.

(** [memcpy] from and to a block of bytes: the [n] bytes from offset [off], and
    the bytes [src] written at [off].  Leaving the block is undefined
    behaviour; so is a negative size, which becomes a huge [size_t]. *)
Definition mem_read (b : list Z) (off n : Z) : res (list Z) :=
  if (0 <=? off) && (0 <=? n) && (off + n <=? Z.of_nat (length b))
  then Ok (take (Z.to_nat n) (drop (Z.to_nat off) b)) else Err UndefinedBehaviour.

Definition mem_write (b : list Z) (off : Z) (src : list Z) : res (list Z) :=
  if (0 <=? off) && (off + Z.of_nat (length src) <=? Z.of_nat (length b))
  then Ok (take (Z.to_nat off) b ++ src ++ drop (Z.to_nat off + length src) b)
  else Err UndefinedBehaviour.

Lemma mem_read_ok b off n :
  0 <= off -> 0 <= n -> off + n <= Z.of_nat (length b) ->
  mem_read b off n = Ok (take (Z.to_nat n) (drop (Z.to_nat off) b)).
Proof.
  intros H1 H2 H3. unfold mem_read.
  by rewrite (proj2 (Z.leb_le _ _) H1), (proj2 (Z.leb_le _ _) H2), (proj2 (Z.leb_le _ _) H3).
Qed.

Lemma mem_read_inv b off n x :
  mem_read b off n = Ok x ->
  0 <= off /\ 0 <= n /\ off + n <= Z.of_nat (length b) /\
  x = take (Z.to_nat n) (drop (Z.to_nat off) b) /\ Z.of_nat (length x) = n.
Proof.
  unfold mem_read. destruct ((0 <=? off) && (0 <=? n) && _) eqn:E; intros H; [|discriminate H].
  injection H as <-. rewrite !andb_true_iff, !Z.leb_le in E. destruct E as [[? ?] ?].
  repeat (split; [lia|]). split; [done|]. rewrite length_take, length_drop. lia.
Qed.

Lemma mem_write_ok b off src :
  0 <= off -> off + Z.of_nat (length src) <= Z.of_nat (length b) ->
  mem_write b off src =
    Ok (take (Z.to_nat off) b ++ src ++ drop (Z.to_nat off + length src) b).
Proof.
  intros H1 H2. unfold mem_write.
  by rewrite (proj2 (Z.leb_le _ _) H1), (proj2 (Z.leb_le _ _) H2).
Qed.

Lemma mem_write_inv b off src x :
  mem_write b off src = Ok x ->
  0 <= off /\ off + Z.of_nat (length src) <= Z.of_nat (length b) /\
  x = take (Z.to_nat off) b ++ src ++ drop (Z.to_nat off + length src) b /\
  length x = length b.
Proof.
  unfold mem_write. destruct ((0 <=? off) && _) eqn:E; intros H; [|discriminate H].
  injection H as <-. rewrite !andb_true_iff, !Z.leb_le in E. destruct E as [? ?].
  repeat (split; [lia|]). split; [done|]. rewrite !length_app, length_take, length_drop. lia.
Qed.

(** ** Sums over arrays *)
Definition sumZ {A} (f : A -> Z) (l : list A) : Z := foldr (fun x acc => f x + acc) 0 l.

Lemma sumZ_app {A} (f : A -> Z) l k : sumZ f (l ++ k) = sumZ f l + sumZ f k.
Proof. induction l as [|x l IH]; simpl; [lia|]. unfold sumZ in *. simpl. lia. Qed.

Lemma sumZ_insert {A} (f : A -> Z) l i x y :
  l !! i = Some x -> sumZ f (<[i := y]> l) = sumZ f l - f x + f y.
Proof.
  revert i. induction l as [|z l IH]; intros [|i] H; try discriminate H; simpl in *.
  - injection H as ->. lia.
  - rewrite (IH i H). lia.
Qed.

Lemma sumZ_nonneg {A} (f : A -> Z) l : (forall x, x ∈ l -> 0 <= f x) -> 0 <= sumZ f l.
Proof.
  induction l as [|x l IH]; intros H; simpl; [lia|].
  assert (0 <= f x) by (apply H; left). assert (0 <= sumZ f l) by (apply IH; intros; apply H; by right).
  unfold sumZ in *. lia.
Qed.

Lemma sumZ_pos_elem {A} (f : A -> Z) l x :
  (forall y, y ∈ l -> 0 <= f y) -> x ∈ l -> f x <= sumZ f l.
Proof.
  intros H Hx. apply list_elem_of_split in Hx as (l1 & l2 & ->).
  assert (0 <= sumZ f l1) by (apply sumZ_nonneg; intros; apply H; set_solver).
  assert (0 <= sumZ f l2) by (apply sumZ_nonneg; intros; apply H; set_solver).
  rewrite sumZ_app. simpl. unfold sumZ in *. lia.
Qed.

(** ** Automation

    [bool_lia] turns the boolean comparisons of the hypotheses and of the goal
    into propositions and calls [lia]; [case_bool] splits on the first one. *)
Create Rewrite HintDb rlc.
#[export] Hint Rewrite Z.eqb_eq Z.eqb_neq Z.ltb_lt Z.ltb_ge Z.leb_le Z.leb_gt
  andb_true_iff andb_false_iff orb_true_iff orb_false_iff negb_true_iff
  negb_false_iff Z.geb_leb Z.gtb_ltb : rlc.
Ltac bool_prop := autorewrite with rlc in *.
Ltac bool_lia := bool_prop; lia.

Ltac case_cond :=
  match goal with
  | |- context [if ?b then _ else _] =>
      lazymatch b with context [if _ then _ else _] => fail | _ => idtac end;
      let E := fresh "E" in destruct b eqn:E
  end.
Ltac case_cond_in H :=
  match type of H with
  | context [if ?b then _ else _] =>
      lazymatch b with context [if _ then _ else _] => fail | _ => idtac end;
      let E := fresh "E" in destruct b eqn:E
  end.

(** ** Arrays as concatenations *)
Lemma array_get_app {A} (l k : list A) x i :
  i = Z.of_nat (length l) -> array_get (l ++ x :: k) i = Ok x.
Proof.
  intros ->. unfold array_get. rewrite (proj2 (Z.leb_le _ _)) by lia.
  by rewrite Nat2Z.id, list_lookup_middle.
Qed.

Lemma array_set_app {A} (l k : list A) x v i :
  i = Z.of_nat (length l) -> array_set (l ++ x :: k) i v = Ok (l ++ v :: k).
Proof.
  intros ->. rewrite array_set_ok by (rewrite length_app; cbn [length]; lia).
  by rewrite Nat2Z.id, insert_app_r_alt, Nat.sub_diag by lia.
Qed.

(** Writing behind the first bytes of a block. *)
Lemma mem_write_mid l tail off src :
  off = Z.of_nat (length l) -> (length src <= length tail)%nat ->
  mem_write (l ++ tail) off src = Ok (l ++ src ++ drop (length src) tail).
Proof.
  intros -> H. rewrite mem_write_ok by (rewrite ?length_app; lia).
  by rewrite Nat2Z.id, take_app_length, drop_app_add.
Qed.

Lemma mem_read_app l k off n :
  off = Z.of_nat (length l) -> 0 <= n <= Z.of_nat (length k) ->
  mem_read (l ++ k) off n = Ok (take (Z.to_nat n) k).
Proof.
  intros -> Hn. rewrite mem_read_ok by (rewrite ?length_app; lia).
  by rewrite Nat2Z.id, drop_app_length.
Qed.

(** A part in the middle of a block. *)
Lemma mem_write_between (pre mid post src : list Z) off :
  off = Z.of_nat (length pre) -> length mid = length src ->
  mem_write (pre ++ mid ++ post) off src = Ok (pre ++ src ++ post).
Proof.
  intros -> Hl. rewrite mem_write_ok by (rewrite ?length_app; lia). rewrite Nat2Z.id, take_app_length.
  by rewrite <- Hl, <- drop_drop, drop_app_length, drop_app_length.
Qed.
Lemma mem_read_mid (pre mid post : list Z) off n :
  off = Z.of_nat (length pre) -> n = Z.of_nat (length mid) -> mem_read (pre ++ mid ++ post) off n = Ok mid.
Proof.
  intros -> ->. rewrite mem_read_ok by (rewrite ?length_app; lia). by rewrite !Nat2Z.id, drop_app_length, take_app_length.
Qed.

(** Induction two elements at a time. *)
Lemma pair_ind {A} (P : list A -> Prop) :
  P [] -> (forall a, P [a]) -> (forall a b l, P l -> P (a :: b :: l)) -> forall l, P l.
Proof.
  intros H0 H1 H2. refine (fix F l := match l with
    | [] => H0 | [a] => H1 a | a :: b :: l' => H2 a b l' (F l') end).
Qed.
