(* ===== verification/Bits.v ===== *)
(** * Bit strings

    The headers of the protocol are strings of fields of any width, most
    significant bit first, packed in bytes.  [bits_of n v] is the field of
    width [n] holding [v], [val_of] reads a field back and [bits] is the bit
    string of an array of bytes. *)

From S2P Require Import Prelude.

Fixpoint bits_of (n : nat) (v : Z) : list bool :=
  match n with
  | O => []
  | S n' => Z.testbit v (Z.of_nat n') :: bits_of n' v
  end.

Definition val_of (bs : list bool) : Z := foldl (fun acc b => 2 * acc + b2z b) 0 bs.

Definition bits (data : list Z) : list bool := concat (map (bits_of 8) data).

Definition is_byte (b : Z) : Prop := 0 <= b < 256.

Lemma length_bits_of n v : length (bits_of n v) = n.
Proof. induction n; simpl; congruence. Qed.

Lemma length_bits data : length (bits data) = (8 * length data)%nat.
Proof. induction data as [|b data IH]; [done|]. unfold bits in *. simpl in *. lia. Qed.

Lemma bits_app xs ys : bits (xs ++ ys) = bits xs ++ bits ys.
Proof. unfold bits. by rewrite map_app, concat_app. Qed.

Lemma bits_cons b xs : bits (b :: xs) = bits_of 8 b ++ bits xs.
Proof. done. Qed.

Lemma val_of_app xs ys : val_of (xs ++ ys) = val_of xs * 2 ^ Z.of_nat (length ys) + val_of ys.
Proof.
  unfold val_of. rewrite foldl_app. generalize (foldl (fun acc b => 2 * acc + b2z b) 0 xs).
  induction ys as [|y ys IH] using rev_ind; intros a; simpl; [lia|].
  rewrite !foldl_app, IH, length_app. simpl.
  rewrite Nat2Z.inj_add, Z.pow_add_r by lia. simpl. lia.
Qed.

Lemma val_of_cons b bs : val_of (b :: bs) = b2z b * 2 ^ Z.of_nat (length bs) + val_of bs.
Proof. change (b :: bs) with ([b] ++ bs). rewrite val_of_app. unfold val_of at 1. simpl. lia. Qed.

Lemma val_of_bound bs : 0 <= val_of bs < 2 ^ Z.of_nat (length bs).
Proof.
  induction bs as [|b bs IH]; [done|]. rewrite val_of_cons. simpl length.
  rewrite Nat2Z.inj_succ, Z.pow_succ_r by lia. destruct b; simpl; lia.
Qed.

Lemma testbit_mod v n : Z.testbit v n = true -> 0 <= n -> v mod 2 ^ (n + 1) = 2 ^ n + v mod 2 ^ n.
Proof.
  intros H Hn. rewrite Z.pow_add_r, Z.pow_1_r by lia.
  rewrite Z.rem_mul_r by lia. rewrite Z.testbit_true in H by done. lia.
Qed.
Lemma testbit_mod_false v n : Z.testbit v n = false -> 0 <= n -> v mod 2 ^ (n + 1) = v mod 2 ^ n.
Proof.
  intros H Hn. rewrite Z.pow_add_r, Z.pow_1_r by lia.
  rewrite Z.rem_mul_r by lia. rewrite Z.testbit_false in H by done. lia.
Qed.

Lemma val_of_bits_of n v : val_of (bits_of n v) = v mod 2 ^ Z.of_nat n.
Proof.
  induction n as [|n IH]; [simpl; by rewrite Z.mod_1_r|].
  cbn [bits_of]. rewrite val_of_cons, length_bits_of, IH, Nat2Z.inj_succ, <- Z.add_1_r.
  destruct (Z.testbit v (Z.of_nat n)) eqn:E; cbn [b2z].
  - rewrite (testbit_mod v (Z.of_nat n)) by (done || lia). lia.
  - rewrite (testbit_mod_false v (Z.of_nat n)) by (done || lia). lia.
Qed.

Lemma bits_of_val_of bs : bits_of (length bs) (val_of bs) = bs.
Proof.
  assert (Hgen : forall bs n v, n = length bs -> v mod 2 ^ Z.of_nat n = val_of bs -> bits_of n v = bs).
  { clear bs. induction bs as [|b bs IH]; intros n v -> H; [done|].
    cbn [length] in H. rewrite Nat2Z.inj_succ, <- Z.add_1_r in H. rewrite val_of_cons in H.
    pose proof (val_of_bound bs). cbn [bits_of length].
    pose proof (Z.mod_pos_bound v (2 ^ Z.of_nat (length bs))).
    destruct (Z.testbit v (Z.of_nat (length bs))) eqn:E.
    - rewrite (testbit_mod v _ E) in H by lia. destruct b; cbn [b2z] in H; [|lia].
      f_equal. apply IH; lia.
    - rewrite (testbit_mod_false v _ E) in H by lia. destruct b; cbn [b2z] in H; [lia|].
      f_equal. apply IH; lia. }
  apply Hgen; [done|]. apply Z.mod_small, val_of_bound.
Qed.

Lemma bits_of_mod n v w : v mod 2 ^ Z.of_nat n = w mod 2 ^ Z.of_nat n -> bits_of n v = bits_of n w.
Proof.
  intros H. rewrite <- (bits_of_val_of (bits_of n v)), <- (bits_of_val_of (bits_of n w)).
  by rewrite !length_bits_of, !val_of_bits_of, H.
Qed.

Lemma bits_of_inj n v w :
  0 <= v < 2 ^ Z.of_nat n -> 0 <= w < 2 ^ Z.of_nat n -> bits_of n v = bits_of n w -> v = w.
Proof.
  intros Hv Hw H. apply (f_equal val_of) in H. rewrite !val_of_bits_of in H.
  by rewrite !Z.mod_small in H.
Qed.

(** The low [m] bits of a field, and the rest. *)
Lemma bits_of_app n m v : bits_of (n + m) v = bits_of n (Z.shiftr v (Z.of_nat m)) ++ bits_of m v.
Proof.
  induction n as [|n IH]; [done|]. simpl. rewrite IH. f_equal.
  rewrite Z.shiftr_spec by lia. f_equal. lia.
Qed.

Lemma take_bits_of n m v : take n (bits_of (n + m) v) = bits_of n (Z.shiftr v (Z.of_nat m)).
Proof. rewrite bits_of_app, take_app_length'; [done|]. by rewrite length_bits_of. Qed.
Lemma drop_bits_of n m v : drop n (bits_of (n + m) v) = bits_of m v.
Proof. rewrite bits_of_app, drop_app_length'; [done|]. by rewrite length_bits_of. Qed.

Lemma bits_of_zero n v : v mod 2 ^ Z.of_nat n = 0 -> bits_of n v = replicate n false.
Proof.
  intros H. rewrite (bits_of_mod n v 0).
  - clear H. induction n as [|n IH]; [done|]. simpl. rewrite Z.testbit_0_l. by rewrite IH.
  - by rewrite H, Z.mod_0_l by lia.
Qed.

Lemma replicate_bits_of n : replicate n false = bits_of n 0.
Proof. symmetry. apply bits_of_zero. by rewrite Z.mod_0_l by lia. Qed.

Lemma val_of_zeros n : val_of (replicate n false) = 0.
Proof. by rewrite replicate_bits_of, val_of_bits_of, Z.mod_0_l by lia. Qed.

(** A byte among the others. *)
Lemma bits_lookup data pos b :
  data !! pos = Some b ->
  bits data = bits (take pos data) ++ bits_of 8 b ++ bits (drop (S pos) data).
Proof.
  intros H. rewrite <- (take_drop_middle data pos b H) at 1.
  by rewrite bits_app, bits_cons.
Qed.

Lemma bits_insert data pos b :
  (pos < length data)%nat ->
  bits (<[pos := b]> data) = bits (take pos data) ++ bits_of 8 b ++ bits (drop (S pos) data).
Proof. intros H. rewrite insert_take_drop by done. by rewrite bits_app, bits_cons. Qed.

Lemma drop_bits data pos b bit :
  data !! pos = Some b -> (bit <= 8)%nat ->
  drop (8 * pos + bit) (bits data) = drop bit (bits_of 8 b) ++ bits (drop (S pos) data).
Proof.
  intros H Hb. pose proof (lookup_lt_Some _ _ _ H). rewrite (bits_lookup _ _ _ H).
  assert (Hl : length (bits (take pos data)) = (8 * pos)%nat)
    by (rewrite length_bits, length_take; lia).
  rewrite <- drop_drop, <- Hl, drop_app_length.
  rewrite drop_app_le; [done|]. rewrite length_bits_of. lia.
Qed.

Lemma bits_bytes_ext xs ys :
  Forall is_byte xs -> Forall is_byte ys -> length xs = length ys -> bits xs = bits ys -> xs = ys.
Proof.
  revert ys. induction xs as [|x xs IH]; intros [|y ys] Hx Hy Hl H; try done.
  apply Forall_cons in Hx as [Hx1 Hx]. apply Forall_cons in Hy as [Hy1 Hy].
  rewrite !bits_cons in H. apply app_inj_1 in H as [H1 H2]; [|by rewrite !length_bits_of].
  apply (bits_of_inj 8) in H1; [|done|done]. subst. f_equal. apply IH; auto.
Qed.
