(* ===== verification/MemList.v ===== *)
(** * Linked lists of memory blocks (openair2/UTIL/LISTS)

    [list.c] (singly linked [list_t]), [list2.c] (doubly linked [list2_t]) and
    the two insertions of [rlc_am_rx_list.c] over an explicit heap of
    [mem_block_t].  A pointer is an [option positive] ([None] is NULL);
    following or assigning through a pointer that is not allocated is
    undefined behaviour.  The names of the lists are only displayed and are
    left out.  The theorems show that on a well-formed list every operation
    runs without undefined behaviour and does on the sequence of elements what
    its name says, leaves the blocks outside the list and every payload
    untouched: the components that keep PDUs in a [list2_t] model it, on this
    ground, as a Rocq list. *)

From S2P Require Import Prelude.

Set Warnings "-clear-no-such-hyp".

Section MemList.
Context {D : Type}.

Abbreviation ptr := positive.

(** ** Blocks, heap, lists *)

(** [mem_block_t]: the links and the payload. *)
Record mem_block_t := Mk_mem_block {
  next : option ptr;
  previous : option ptr;
  data : D
}.
#[export] Instance eta_mem_block : Eta mem_block_t :=
  fun b => Mk_mem_block (next b) (previous b) (data b).

Abbreviation heap := (gmap ptr mem_block_t).

(** [list_t] and [list2_t] are the same structure. *)
Record list_t := Mk_list {
  head : option ptr;
  tail : option ptr;
  nb_elements : Z
}.
#[export] Instance eta_list : Eta list_t :=
  fun l => Mk_list (head l) (tail l) (nb_elements l).

(** [p->next], [p->previous] and the assignments to them. *)
Definition block (h : heap) (p : option ptr) : res mem_block_t :=
  match p with Some q => deref (h !! q) | None => Err UndefinedBehaviour end.
Definition get_next (h : heap) (p : option ptr) : res (option ptr) :=
  b ← block h p; Ok (next b).
Definition get_previous (h : heap) (p : option ptr) : res (option ptr) :=
  b ← block h p; Ok (previous b).
Definition update_block (f : mem_block_t -> mem_block_t) (h : heap) (p : option ptr)
  : res heap :=
  b ← block h p;
  match p with Some q => Ok (<[q := f b]> h) | None => Err UndefinedBehaviour end.
Definition set_next (h : heap) (p v : option ptr) : res heap :=
  update_block (fun b => b <| next := v |>) h p.
Definition set_previous (h : heap) (p v : option ptr) : res heap :=
  update_block (fun b => b <| previous := v |>) h p.

Definition is_null (p : option ptr) : bool := bool_decide (p = None).
Definition same (p q : option ptr) : bool := bool_decide (p = q).

(** ** list.c *)

(** [nameP] only names the list. *)
Definition list_init (l : list_t) : list_t :=
  l <| tail := None |> <| head := None |> <| nb_elements := 0 |>.

Definition list_get_head (l : list_t) : option ptr := head l.

Definition list_remove_head (h : heap) (l : list_t) : res (option ptr * heap * list_t) :=
  let hd := head l in
  if negb (is_null hd) then
    n ← get_next h hd;
    let l1 := l <| head := n |> <| nb_elements := nb_elements l - 1 |> in
    if is_null (head l1) then
      Ok (hd, h, l1 <| tail := None |>)
    else
      h1 ← set_next h hd None;
      Ok (hd, h1, l1)
  else Ok (hd, h, l).

(** The walk of [list_remove_element] over the elements after the head: fuel
    bounds the number of elements visited. *)
Fixpoint list_remove_walk (fuel : nat) (h : heap) (cur elementP : option ptr) (l : list_t)
  : res (heap * list_t) :=
  match fuel with
  | O => Err UndefinedBehaviour
  | S fuel' =>
      if negb (is_null cur) then
        n ← get_next h cur;
        if same n elementP then
          en ← get_next h elementP;
          h1 ← set_next h cur en;
          let l1 := l <| nb_elements := nb_elements l - 1 |> in
          Ok (h1, if same (tail l1) elementP then l1 <| tail := cur |> else l1)
        else list_remove_walk fuel' h n elementP l
      else Ok (h, l)
  end.

Definition list_remove_element (fuel : nat) (h : heap) (elementP : option ptr) (l : list_t)
  : res (option ptr * heap * list_t) :=
  if negb (is_null elementP) then
    if same (head l) elementP then
      n ← get_next h (head l);
      let l1 := l <| head := n |> <| nb_elements := nb_elements l - 1 |> in
      if is_null (head l1) then
        Ok (elementP, h, l1 <| tail := None |>)
      else
        h1 ← set_next h (head l) None;
        Ok (elementP, h1, l1)
    else
      '(h1, l1) ← list_remove_walk fuel h (head l) elementP l;
      Ok (elementP, h1, l1)
  else Ok (elementP, h, l).

(** A sole element keeps the [next] it had. *)
Definition list_add_head (h : heap) (elementP : option ptr) (l : list_t)
  : res (heap * list_t) :=
  if negb (is_null elementP) then
    let hd := head l in
    let l1 := l <| nb_elements := nb_elements l + 1 |> in
    if is_null hd then
      Ok (h, l1 <| head := elementP |> <| tail := elementP |>)
    else
      h1 ← set_next h elementP hd;
      Ok (h1, l1 <| head := elementP |>)
  else Ok (h, l).

Definition list_add_tail_eurecom (h : heap) (elementP : option ptr) (l : list_t)
  : res (heap * list_t) :=
  if negb (is_null elementP) then
    let l1 := l <| nb_elements := nb_elements l + 1 |> in
    h1 ← set_next h elementP None;
    let tl := tail l1 in
    if is_null tl then
      Ok (h1, l1 <| head := elementP |> <| tail := elementP |>)
    else
      h2 ← set_next h1 tl elementP;
      Ok (h2, l1 <| tail := elementP |>)
  else Ok (h, l).

(** The result is the heap, the emptied sublist and the extended list. *)
Definition list_add_list (h : heap) (sub l : list_t) : res (heap * list_t * list_t) :=
  if negb (is_null (head sub)) then
    '(h1, l1) ← (if is_null (tail l) then Ok (h, l <| head := head sub |>)
                 else h1 ← set_next h (tail l) (head sub); Ok (h1, l));
    let l2 := l1 <| tail := tail sub |> in
    let sub1 := sub <| head := None |> <| tail := None |> in
    let l3 := l2 <| nb_elements := nb_elements l2 + nb_elements sub1 |> in
    Ok (h1, sub1 <| nb_elements := 0 |>, l3)
  else Ok (h, sub, l).

(** ** list2.c *)

Definition list2_init (l : list_t) : list_t :=
  l <| tail := None |> <| head := None |> <| nb_elements := 0 |>.

Definition list2_get_head (l : list_t) : option ptr := head l.
Definition list2_get_tail (l : list_t) : option ptr := tail l.

Definition list2_remove_element (h : heap) (elementP : option ptr) (l : list_t)
  : res (option ptr * heap * list_t) :=
  if negb (is_null elementP) then
    '(h1, l1) ←
      (if same elementP (head l) then
         n ← get_next h elementP;
         let l1 := l <| head := n |> in
         if is_null (head l1) then Ok (h, l1 <| tail := None |>)
         else
           h1 ← set_previous h n None;
           h2 ← set_next h1 elementP None;
           Ok (h2, l1)
       else if same elementP (tail l) then
         p ← get_previous h elementP;
         let l1 := l <| tail := p |> in
         h1 ← set_next h (tail l1) None;
         h2 ← set_previous h1 elementP None;
         Ok (h2, l1)
       else
         p ← get_previous h elementP;
         n ← get_next h elementP;
         h1 ← set_next h p n;
         n1 ← get_next h1 elementP;
         p1 ← get_previous h1 elementP;
         h2 ← set_previous h1 n1 p1;
         h3 ← set_next h2 elementP None;
         h4 ← set_previous h3 elementP None;
         Ok (h4, l));
    Ok (elementP, h1, l1 <| nb_elements := nb_elements l1 - 1 |>)
  else Ok (elementP, h, l).

Definition list2_remove_head (h : heap) (l : list_t) : res (option ptr * heap * list_t) :=
  let hd := head l in
  if negb (is_null hd) then
    n ← get_next h hd;
    let l1 := l <| head := n |> <| nb_elements := nb_elements l - 1 |> in
    if is_null (head l1) then Ok (hd, h, l1 <| tail := None |>)
    else
      h1 ← set_previous h (head l1) None;
      h2 ← set_next h1 hd None;
      Ok (hd, h2, l1)
  else Ok (hd, h, l).

Definition list2_remove_tail (h : heap) (l : list_t) : res (option ptr * heap * list_t) :=
  let tl := tail l in
  if negb (is_null tl) then
    let l1 := l <| nb_elements := nb_elements l - 1 |> in
    '(h1, l2) ←
      (if same (head l1) tl then Ok (h, l1 <| head := None |> <| tail := None |>)
       else
         p ← get_previous h tl;
         h1 ← set_next h p None;
         Ok (h1, l1 <| tail := p |>));
    h2 ← set_previous h1 tl None;
    Ok (tl, h2, l2)
  else Ok (tl, h, l).

Definition list2_add_head (h : heap) (elementP : option ptr) (l : list_t)
  : res (heap * list_t) :=
  if negb (is_null elementP) then
    let hd := head l in
    let l1 := l <| nb_elements := nb_elements l + 1 |> in
    if is_null hd then
      h1 ← set_previous h elementP None;
      h2 ← set_next h1 elementP None;
      Ok (h2, l1 <| head := elementP |> <| tail := elementP |>)
    else
      h1 ← set_next h elementP hd;
      h2 ← set_previous h1 hd elementP;
      h3 ← set_previous h2 elementP None;
      Ok (h3, l1 <| head := elementP |>)
  else Ok (h, l).

Definition list2_add_tail (h : heap) (elementP : option ptr) (l : list_t)
  : res (heap * list_t) :=
  if negb (is_null elementP) then
    let l1 := l <| nb_elements := nb_elements l + 1 |> in
    h1 ← set_next h elementP None;
    let tl := tail l1 in
    '(h2, l2) ←
      (if is_null tl then
         h2 ← set_previous h1 elementP None;
         Ok (h2, l1 <| head := elementP |>)
       else
         h2 ← set_next h1 tl elementP;
         h3 ← set_previous h2 elementP tl;
         Ok (h3, l1));
    Ok (h2, l2 <| tail := elementP |>)
  else Ok (h, l).

(** The sublist keeps its [nb_elements]. *)
Definition list2_add_list (h : heap) (sub l : list_t) : res (heap * list_t * list_t) :=
  '(h2, sub2, l2) ←
    (if negb (is_null (head sub)) then
       '(h1, l1) ←
         (if is_null (tail l) then Ok (h, l <| head := head sub |>)
          else
            h1 ← set_next h (tail l) (head sub);
            h2 ← set_previous h1 (head sub) (tail l);
            Ok (h2, l));
       let l2 := l1 <| tail := tail sub |> in
       Ok (h1, sub <| head := None |> <| tail := None |>, l2)
     else Ok (h, sub, l));
  Ok (h2, sub2, l2 <| nb_elements := nb_elements l2 + nb_elements sub2 |>).

(** ** rlc_am_rx_list.c: insertion next to an element *)

Definition list2_insert_before_element (h : heap) (ins elt : option ptr) (l : list_t)
  : res (option ptr * heap * list_t) :=
  if negb (is_null ins) && negb (is_null elt) then
    let l1 := l <| nb_elements := nb_elements l + 1 |> in
    prev ← get_previous h elt;
    h1 ← set_previous h ins prev;
    h2 ← set_next h1 ins elt;
    h3 ← set_previous h2 elt ins;
    if negb (is_null prev) then
      h4 ← set_next h3 prev ins;
      Ok (ins, h4, l1)
    else if same (head l1) elt then Ok (ins, h3, l1 <| head := ins |>)
    else Ok (ins, h3, l1)
  else Err FatalAssert.

Definition list2_insert_after_element (h : heap) (ins elt : option ptr) (l : list_t)
  : res (option ptr * heap * list_t) :=
  if negb (is_null ins) && negb (is_null elt) then
    let l1 := l <| nb_elements := nb_elements l + 1 |> in
    nxt ← get_next h elt;
    h1 ← set_previous h ins elt;
    h2 ← set_next h1 ins nxt;
    h3 ← set_next h2 elt ins;
    if negb (is_null nxt) then
      h4 ← set_previous h3 nxt ins;
      Ok (ins, h4, l1)
    else if same (tail l1) elt then Ok (ins, h3, l1 <| tail := ins |>)
    else Ok (ins, h3, l1)
  else Err FatalAssert.

(** [list_free] and [list2_free]: heads are removed until none is left, each
    block going back to its owner ([free_mem_block]), which the list no longer
    sees.  The result holds the blocks in the order they are freed. *)
Fixpoint list_free (fuel : nat) (h : heap) (l : list_t) : res (list ptr * heap * list_t) :=
  match fuel with
  | O => Err UndefinedBehaviour
  | S fuel' =>
      '(le, h1, l1) ← list_remove_head h l;
      match le with
      | None => Ok ([], h1, l1)
      | Some p =>
          '(freed, h2, l2) ← list_free fuel' (delete p h1) l1;
          Ok (p :: freed, h2, l2)
      end
  end.

Fixpoint list2_free (fuel : nat) (h : heap) (l : list_t) : res (list ptr * heap * list_t) :=
  match fuel with
  | O => Err UndefinedBehaviour
  | S fuel' =>
      '(le, h1, l1) ← list2_remove_head h l;
      match le with
      | None => Ok ([], h1, l1)
      | Some p =>
          '(freed, h2, l2) ← list2_free fuel' (delete p h1) l1;
          Ok (p :: freed, h2, l2)
      end
  end.

(** ** Well-formed lists

    [dlseg h prev ps nxt]: the blocks [ps] are linked in this order, the first
    one points back to [prev] and the last one on to [nxt]. *)
Definition first (ps : list ptr) (nxt : option ptr) : option ptr :=
  match ps with [] => nxt | p :: _ => Some p end.
Definition final (prev : option ptr) (ps : list ptr) : option ptr :=
  match last ps with None => prev | Some p => Some p end.

Fixpoint dlseg (h : heap) (prev : option ptr) (ps : list ptr) (nxt : option ptr) : Prop :=
  match ps with
  | [] => True
  | p :: ps' =>
      (exists b, h !! p = Some b /\ previous b = prev /\ next b = first ps' nxt)
      /\ dlseg h (Some p) ps' nxt
  end.

Fixpoint slseg (h : heap) (ps : list ptr) (nxt : option ptr) : Prop :=
  match ps with
  | [] => True
  | p :: ps' => (exists b, h !! p = Some b /\ next b = first ps' nxt) /\ slseg h ps' nxt
  end.

(** The descriptor of a list whose blocks are [ps]. *)
Definition descr (l : list_t) (ps : list ptr) : Prop :=
  head l = first ps None /\ tail l = last ps /\ nb_elements l = Z.of_nat (length ps).

Definition list2_rep (h : heap) (l : list_t) (ps : list ptr) : Prop :=
  dlseg h None ps None /\ NoDup ps /\ descr l ps.
Definition list_rep (h : heap) (l : list_t) (ps : list ptr) : Prop :=
  slseg h ps None /\ NoDup ps /\ descr l ps.

(** Between [h] and [h'] only links of [ps] changed: no payload, no other block. *)
Definition relinked (ps : list ptr) (h h' : heap) : Prop :=
  (forall q, q ∉ ps -> h' !! q = h !! q) /\
  (forall q, data <$> h' !! q = data <$> h !! q).

Lemma relinked_refl ps h : relinked ps h h.
Proof. done. Qed.

Lemma relinked_insert ps h h1 p b b0 :
  p ∈ ps -> h !! p = Some b0 -> data b = data b0 ->
  relinked ps h h1 -> relinked ps h (<[p := b]> h1).
Proof.
  intros Hp Hb Hd [H1 H2]. split; intros q; [intros Hq|];
    (destruct (decide (p = q)) as [<- | Hne];
     [rewrite ?lookup_insert_eq | rewrite lookup_insert_ne by done]); auto.
  - done.
  - rewrite Hb. simpl. by rewrite Hd.
Qed.

Lemma block_Some h p b : h !! p = Some b -> block h (Some p) = Ok b.
Proof. intros H. unfold block. by rewrite H. Qed.
Lemma get_next_Some h p b : h !! p = Some b -> get_next h (Some p) = Ok (next b).
Proof. intros H. unfold get_next. by rewrite (block_Some _ _ _ H). Qed.
Lemma get_previous_Some h p b : h !! p = Some b -> get_previous h (Some p) = Ok (previous b).
Proof. intros H. unfold get_previous. by rewrite (block_Some _ _ _ H). Qed.
Lemma set_next_Some h p b v :
  h !! p = Some b -> set_next h (Some p) v = Ok (<[p := b <| next := v |>]> h).
Proof. intros H. unfold set_next, update_block. by rewrite (block_Some _ _ _ H). Qed.
Lemma set_previous_Some h p b v :
  h !! p = Some b -> set_previous h (Some p) v = Ok (<[p := b <| previous := v |>]> h).
Proof. intros H. unfold set_previous, update_block. by rewrite (block_Some _ _ _ H). Qed.

Lemma first_app xs ys nxt : first (xs ++ ys) nxt = first xs (first ys nxt).
Proof. by destruct xs. Qed.
Lemma final_app prev xs ys : final prev (xs ++ ys) = final (final prev xs) ys.
Proof. unfold final. rewrite last_app. by destruct (last ys). Qed.
Lemma final_cons prev p ps : final prev (p :: ps) = final (Some p) ps.
Proof. unfold final. rewrite last_cons. by destruct (last ps). Qed.
Lemma final_None ps : final None ps = last ps.
Proof. unfold final. by destruct (last ps). Qed.

Lemma dlseg_app h prev xs ys nxt :
  dlseg h prev (xs ++ ys) nxt <->
  dlseg h prev xs (first ys nxt) /\ dlseg h (final prev xs) ys nxt.
Proof.
  revert prev. induction xs as [|x xs IH]; intros prev; simpl; [tauto|].
  rewrite IH, first_app, final_cons. tauto.
Qed.

Lemma slseg_app h xs ys nxt :
  slseg h (xs ++ ys) nxt <-> slseg h xs (first ys nxt) /\ slseg h ys nxt.
Proof.
  induction xs as [|x xs IH]; simpl; [tauto|]. rewrite IH, first_app. tauto.
Qed.

(** Blocks outside a segment do not matter to it. *)
Lemma dlseg_insert h prev ps nxt p b :
  p ∉ ps -> dlseg h prev ps nxt -> dlseg (<[p := b]> h) prev ps nxt.
Proof.
  revert prev. induction ps as [|q ps IH]; intros prev; simpl; [done|].
  rewrite not_elem_of_cons. intros [Hne Hp] [(b0 & Hb & H1) H2].
  split; [exists b0; by rewrite lookup_insert_ne | by apply IH].
Qed.

Lemma slseg_insert h ps nxt p b :
  p ∉ ps -> slseg h ps nxt -> slseg (<[p := b]> h) ps nxt.
Proof.
  induction ps as [|q ps IH]; simpl; [done|].
  rewrite not_elem_of_cons. intros [Hne Hp] [(b0 & Hb & H1) H2].
  split; [exists b0; by rewrite lookup_insert_ne | by apply IH].
Qed.

Lemma dlseg_lookup h prev ps nxt p : dlseg h prev ps nxt -> p ∈ ps -> is_Some (h !! p).
Proof.
  revert prev. induction ps as [|q ps IH]; intros prev; simpl; [by rewrite elem_of_nil|].
  intros [(b & Hb & _) H] [-> | Hin]%elem_of_cons; eauto.
Qed.

Lemma dlseg_snoc h prev xs x nxt :
  dlseg h prev (xs ++ [x]) nxt <->
  dlseg h prev xs (Some x) /\
  exists b, h !! x = Some b /\ previous b = final prev xs /\ next b = nxt.
Proof. rewrite dlseg_app. simpl. tauto. Qed.

Lemma slseg_snoc h xs x nxt :
  slseg h (xs ++ [x]) nxt <->
  slseg h xs (Some x) /\ exists b, h !! x = Some b /\ next b = nxt.
Proof. rewrite slseg_app. simpl. tauto. Qed.

Lemma is_null_Some p : is_null (Some p) = false.
Proof. done. Qed.
Lemma same_ne p q : p <> q -> same (Some p) (Some q) = false.
Proof. intros H. apply bool_decide_eq_false. congruence. Qed.
Lemma same_refl p : same p p = true.
Proof. by apply bool_decide_eq_true. Qed.

Lemma same_sym p q : same p q = same q p.
Proof. unfold same. apply bool_decide_ext. naive_solver. Qed.
Lemma same_first p xs x : p ∉ xs -> p <> x -> same (Some p) (first xs (Some x)) = false.
Proof. intros H1 H2. destruct xs; apply same_ne; set_solver. Qed.
Lemma same_last p xs : p ∉ xs -> same (Some p) (last xs) = false.
Proof.
  intros H. destruct (last xs) as [q|] eqn:E; [|done].
  apply same_ne. intros <-. apply H. by apply last_Some_elem_of.
Qed.

Lemma NoDup_mid (xs : list ptr) p ys : NoDup (xs ++ p :: ys) <-> NoDup (xs ++ ys) /\ p ∉ xs ++ ys.
Proof.
  rewrite <- Permutation_middle, NoDup_cons. tauto.
Qed.

Lemma descr_intro hd tl n ps :
  hd = first ps None -> tl = last ps -> n = Z.of_nat (length ps) ->
  descr (Mk_list hd tl n) ps.
Proof. done. Qed.

End MemList.

(** The tactics of the list proofs: [links] runs the next reads and writes of
    links, [nodup] opens the [NoDup] and membership hypotheses, [relink]
    proves that only links changed, [segs] re-establishes segments. *)
Ltac ptr_ne := first [done | congruence | set_solver].
Ltac lookup_ptr :=
  repeat first
    [ eassumption
    | rewrite lookup_insert_eq; reflexivity
    | rewrite lookup_insert_ne by ptr_ne ].
Ltac link1 :=
  first
    [ erewrite get_next_Some by lookup_ptr
    | erewrite get_previous_Some by lookup_ptr
    | erewrite set_next_Some by lookup_ptr
    | erewrite set_previous_Some by lookup_ptr
    | match goal with
      | E : next ?b = _ |- context [next ?b] => rewrite E
      | E : previous ?b = _ |- context [previous ?b] => rewrite E
      | E : head ?l = Some _ |- context [head ?l] => rewrite E
      | E : tail ?l = Some _ |- context [tail ?l] => rewrite E
      end
    | rewrite same_refl
    | rewrite same_ne by ptr_ne ];
  simpl.
Ltac links := repeat link1.
Ltac nodup :=
  repeat match goal with
  | H : NoDup (_ :: _) |- _ => apply NoDup_cons in H as [? ?]
  | H : NoDup (_ ++ _) |- _ => apply NoDup_app in H as (? & ? & ?)
  | H : exists _, _ |- _ => destruct H
  | H : _ /\ _ |- _ => destruct H
  end.
Ltac segs :=
  repeat first
    [ eassumption
    | apply dlseg_insert; [set_solver|]
    | apply slseg_insert; [set_solver|] ].
Ltac relink :=
  repeat first
    [ apply relinked_refl
    | eapply relinked_insert; [set_solver | lookup_ptr | simpl; congruence |] ].

(** [keep] protects a hypothesis from the tactics that open conjunctions. *)
Definition keep (P : Prop) : Prop := P.
Ltac list_fin :=
  simpl; rewrite <- ?app_assoc; simpl; rewrite ?first_app, ?last_app_cons, ?last_cons_cons, ?last_snoc; simpl in *;
  first [done | congruence | rewrite ?length_app in *; simpl in *; lia].
Ltac descriptor := apply descr_intro; list_fin.
Ltac at_joint := rewrite <- ?app_assoc; simpl; apply dlseg_app; split; [segs|]; simpl.
Ltac sl_joint := rewrite <- ?app_assoc; simpl; apply slseg_app; split; [segs|]; simpl.
Ltac new_state := do 2 eexists; split; [reflexivity | split; [split; [|split]|relink]].
Ltac joint := eexists; split; [lookup_ptr | by auto].

Section Correctness.
Context {D : Type}.
Implicit Types h : gmap positive (@mem_block_t D).

Lemma list2_remove_element_rep h l xs p ys :
  list2_rep h l (xs ++ p :: ys) ->
  exists h' l', list2_remove_element h (Some p) l = Ok (Some p, h', l') /\
    list2_rep h' l' (xs ++ ys) /\ relinked (xs ++ p :: ys) h h'.
Proof.
  intros (Hseg & Hnd & Hh & Ht & Hn). unfold list2_remove_element. simpl.
  rewrite Hh, Ht. apply NoDup_mid in Hnd as [Hnd Hp]. pose proof (Hnd : keep _) as Hnd'.
  destruct xs as [|x xs _] using rev_ind.
  - simpl in *. nodup. links.
    destruct ys as [|q ys]; simpl in *; nodup; links; new_state.
    + first [done|rewrite <- ?app_assoc; exact Hnd'].
    + first [done|rewrite <- ?app_assoc; exact Hnd'].
    + descriptor.
    + split; [joint | segs].
    + first [done|rewrite <- ?app_assoc; exact Hnd'].
    + descriptor.
  - rewrite <- app_assoc in *. simpl in *. 
    rewrite first_app, ?last_app_cons, ?last_cons_cons in *. cbn [first] in *.
    apply dlseg_app in Hseg as [Hxs Hseg]. 
    nodup. rewrite same_first by set_solver.
    destruct ys as [|q ys]; cbn [dlseg first] in *; nodup; [| rewrite last_cons_cons, same_last by set_solver]; links; new_state. 
    + at_joint. split; [joint|done].
    + first [done|rewrite <- ?app_assoc; exact Hnd'].
    + descriptor.
    + at_joint. split; [joint|]. split; [joint|segs].
    + first [done|rewrite <- ?app_assoc; exact Hnd']. 
    + descriptor. 
Qed.

Lemma list2_insert_before_rep h l xs p ys q b :
  list2_rep h l (xs ++ p :: ys) -> q ∉ xs ++ p :: ys -> h !! q = Some b ->
  exists h' l', list2_insert_before_element h (Some q) (Some p) l = Ok (Some q, h', l') /\
    list2_rep h' l' (xs ++ q :: p :: ys) /\ relinked (xs ++ q :: p :: ys) h h'.
Proof.
  intros (Hseg & Hnd & Hh & Ht & Hn) Hq Hb. unfold list2_insert_before_element. simpl.
  assert (Hnd' : keep (NoDup (xs ++ q :: p :: ys))) by (by apply NoDup_mid).
  destruct xs as [|x xs _] using rev_ind.
  - simpl in *. nodup. links. new_state.
    + split; [joint|]. split; [joint|segs].
    + exact Hnd'.
    + descriptor.
  - rewrite <- app_assoc in *. simpl in *. rewrite ?last_app_cons, first_app in *.
    apply dlseg_app in Hseg as [Hxs Hseg]. cbn [first dlseg] in *. nodup. links. new_state.
    + at_joint. split; [joint|]. split; [joint|]. split; [joint|segs].
    + rewrite <- ?app_assoc. exact Hnd'.
    + descriptor.
Qed.

Lemma list2_insert_after_rep h l xs p ys q b :
  list2_rep h l (xs ++ p :: ys) -> q ∉ xs ++ p :: ys -> h !! q = Some b ->
  exists h' l', list2_insert_after_element h (Some q) (Some p) l = Ok (Some q, h', l') /\
    list2_rep h' l' (xs ++ p :: q :: ys) /\ relinked (xs ++ p :: q :: ys) h h'.
Proof.
  intros (Hseg & Hnd & Hh & Ht & Hn) Hq Hb. unfold list2_insert_after_element. simpl.
  assert (Hnd' : keep (NoDup (xs ++ p :: q :: ys))).
  { change (xs ++ p :: q :: ys) with (xs ++ [p] ++ q :: ys). rewrite app_assoc.
    apply NoDup_mid. by rewrite <- app_assoc. }
  apply dlseg_app in Hseg as [Hxs Hseg]. rewrite first_app, last_app_cons in *.
  destruct ys as [|y ys]; simpl in *; nodup; links; new_state;
    first [exact Hnd' | descriptor | at_joint].
  - split; [joint|]. split; [joint|done].
  - split; [joint|]. split; [joint|]. split; [joint|segs].
Qed.

Lemma list2_add_head_rep h l ps q b :
  list2_rep h l ps -> q ∉ ps -> h !! q = Some b ->
  exists h' l', list2_add_head h (Some q) l = Ok (h', l') /\
    list2_rep h' l' (q :: ps) /\ relinked (q :: ps) h h'.
Proof.
  intros (Hseg & Hnd & Hh & Ht & Hn) Hq Hb. unfold list2_add_head. simpl. rewrite Hh.
  assert (Hnd' : keep (NoDup (q :: ps))) by (by apply NoDup_cons).
  destruct ps as [|p ps]; simpl in *; nodup; links; new_state;
    first [exact Hnd' | descriptor | idtac].
  - split; [joint|done].
  - split; [joint|]. split; [joint|segs].
Qed.

Lemma list2_add_tail_rep h l ps q b :
  list2_rep h l ps -> q ∉ ps -> h !! q = Some b ->
  exists h' l', list2_add_tail h (Some q) l = Ok (h', l') /\
    list2_rep h' l' (ps ++ [q]) /\ relinked (ps ++ [q]) h h'.
Proof.
  intros (Hseg & Hnd & Hh & Ht & Hn) Hq Hb. unfold list2_add_tail. simpl.
  assert (Hnd' : keep (NoDup (ps ++ [q]))) by (apply NoDup_mid; by rewrite app_nil_r).
  destruct ps as [|p ps _] using rev_ind; simpl in *.
  - links. rewrite ?Ht. simpl. links. new_state; first [exact Hnd' | descriptor | idtac].
    split; [joint|done].
  - apply dlseg_snoc in Hseg as [Hps Hseg]. rewrite last_snoc in Ht.
    rewrite first_app in Hh. simpl in Hh. nodup.
    links. rewrite ?Ht. simpl. links. new_state; first [exact Hnd' | descriptor | at_joint].
    split; [joint|]. split; [joint|done].
Qed.

Lemma list2_remove_head_rep h l ps :
  list2_rep h l ps ->
  exists h' l', list2_remove_head h l = Ok (list.head ps, h', l') /\
    list2_rep h' l' (List.tl ps) /\ relinked ps h h'.
Proof.
  intros (Hseg & Hnd & Hh & Ht & Hn). unfold list2_remove_head. simpl. rewrite Hh.
  assert (Hnd' : keep (NoDup (List.tl ps))) by (destruct ps; [done | by nodup]).
  destruct ps as [|p [|q ps]]; simpl in *; nodup; links; new_state;
    first [exact Hnd' | descriptor | idtac]; [done|done|].
  split; [joint|segs].
Qed.

Lemma list2_remove_tail_rep h l ps q :
  list2_rep h l (ps ++ [q]) ->
  exists h' l', list2_remove_tail h l = Ok (Some q, h', l') /\
    list2_rep h' l' ps /\ relinked (ps ++ [q]) h h'.
Proof.
  intros (Hseg & Hnd & Hh & Ht & Hn). unfold list2_remove_tail. simpl.
  rewrite last_snoc in Ht. rewrite Ht.
  apply NoDup_mid in Hnd as [Hnd Hq]. rewrite app_nil_r in *.
  assert (Hnd' : keep (NoDup ps)) by done.
  destruct ps as [|p ps _] using rev_ind; simpl in *.
  - nodup. rewrite Hh. links. new_state; first [exact Hnd' | descriptor | done].
  - rewrite <- app_assoc in *. simpl in *. apply dlseg_app in Hseg as [Hps Hseg].
    rewrite first_app in Hh. simpl in *. nodup. rewrite Hh.
    replace (same (first ps (Some p)) (Some q)) with false; cycle 1.
    { symmetry. destruct ps; apply same_ne; set_solver. }
    links. new_state; first [exact Hnd' | descriptor | at_joint].
    split; [joint|done].
Qed.

(** Concatenation; the blocks of the two lists are distinct. *)
Lemma list2_add_list_rep h sub l qs ps :
  list2_rep h sub qs -> list2_rep h l ps -> NoDup (ps ++ qs) ->
  exists h' sub' l', list2_add_list h sub l = Ok (h', sub', l') /\
    list2_rep h' l' (ps ++ qs) /\ relinked (ps ++ qs) h h' /\
    head sub' = None /\ tail sub' = None /\ nb_elements sub' = nb_elements sub.
Proof.
  intros (Hsq & _ & Hhq & Htq & Hnq) (Hsp & _ & Hhp & Htp & Hnp) Hnd.
  unfold list2_add_list. rewrite Hhq, Htp.
  destruct qs as [|q qs]; simpl in *.
  { rewrite app_nil_r in *. do 3 eexists. split; [reflexivity|].
    split; [split; [done|split; [done|]]|]; [descriptor | done]. }
  assert (Hnd' : keep (NoDup (ps ++ q :: qs))) by done.
  destruct ps as [|p ps _] using rev_ind; simpl in *.
  - do 3 eexists; split; [reflexivity|].
    split; [split; [exact Hsq|split; [done|descriptor]] | by split; [relink|]].
  - apply dlseg_snoc in Hsp as [Hsp ?]. rewrite first_app in Hhp. simpl in Hhp.
    rewrite last_snoc in *. rewrite <- app_assoc in *. simpl in *. nodup.
    do 3 eexists; split; [links; reflexivity|].
    split; [split; [|split; [done|]] | by split; [relink|]].
    + at_joint. split; [joint|]. split; [joint|segs].
    + descriptor.
Qed.

Lemma slseg_dlseg h prev ps nxt : dlseg h prev ps nxt -> slseg h ps nxt.
Proof.
  revert prev. induction ps as [|p ps IH]; intros prev; simpl; [done|].
  intros [(b & ? & ? & ?) Hs]. split; [by exists b | eauto].
Qed.

Lemma list_remove_head_rep h l ps :
  list_rep h l ps ->
  exists h' l', list_remove_head h l = Ok (list.head ps, h', l') /\
    list_rep h' l' (List.tl ps) /\ relinked ps h h'.
Proof.
  intros (Hseg & Hnd & Hh & Ht & Hn). unfold list_remove_head. simpl. rewrite Hh.
  assert (Hnd' : keep (NoDup (List.tl ps))) by (destruct ps; [done | by nodup]).
  destruct ps as [|p [|q ps]]; simpl in *; nodup; links; new_state;
    first [exact Hnd' | descriptor | idtac]; [done|done|].
  split; [joint|segs].
Qed.

Lemma list_add_tail_rep h l ps q b :
  list_rep h l ps -> q ∉ ps -> h !! q = Some b ->
  exists h' l', list_add_tail_eurecom h (Some q) l = Ok (h', l') /\
    list_rep h' l' (ps ++ [q]) /\ relinked (ps ++ [q]) h h'.
Proof.
  intros (Hseg & Hnd & Hh & Ht & Hn) Hq Hb. unfold list_add_tail_eurecom. simpl.
  assert (Hnd' : keep (NoDup (ps ++ [q]))) by (apply NoDup_mid; by rewrite app_nil_r).
  destruct ps as [|p ps _] using rev_ind; simpl in *.
  - links. rewrite ?Ht. simpl. links. new_state; first [exact Hnd' | descriptor | idtac].
    split; [joint|done].
  - apply slseg_snoc in Hseg as [Hps Hseg]. rewrite last_snoc in Ht.
    rewrite first_app in Hh. simpl in Hh. nodup. links.
    new_state; first [exact Hnd' | descriptor | sl_joint].
    split; [joint|]. split; [joint|done].
Qed.

(** [list_add_head] needs a block whose [next] is NULL when the list is empty. *)
Lemma list_add_head_rep h l ps q b :
  list_rep h l ps -> q ∉ ps -> h !! q = Some b -> (ps = [] -> next b = None) ->
  exists h' l', list_add_head h (Some q) l = Ok (h', l') /\
    list_rep h' l' (q :: ps) /\ relinked (q :: ps) h h'.
Proof.
  intros (Hseg & Hnd & Hh & Ht & Hn) Hq Hb Hz. unfold list_add_head. simpl. rewrite Hh.
  assert (Hnd' : keep (NoDup (q :: ps))) by (by apply NoDup_cons).
  destruct ps as [|p ps]; simpl in *; nodup; links; new_state;
    first [exact Hnd' | descriptor | idtac].
  - split; [|done]. eexists; eauto.
  - split; [joint|]. split; [joint|segs].
Qed.

Lemma list_add_list_rep h sub l qs ps :
  list_rep h sub qs -> list_rep h l ps -> NoDup (ps ++ qs) ->
  exists h' sub' l', list_add_list h sub l = Ok (h', sub', l') /\
    list_rep h' l' (ps ++ qs) /\ list_rep h' sub' [] /\ relinked (ps ++ qs) h h'.
Proof.
  intros (Hsq & _ & Hhq & Htq & Hnq) (Hsp & _ & Hhp & Htp & Hnp) Hnd.
  unfold list_add_list. rewrite Hhq, Htp.
  destruct qs as [|q qs]; simpl in *.
  { rewrite app_nil_r in *. do 3 eexists. split; [reflexivity|].
    split; [split; [done|split; [done|done]]|].
    split; [split; [done|split; [apply NoDup_nil_2|done]] | relink]. }
  assert (Hnd' : keep (NoDup (ps ++ q :: qs))) by done.
  destruct ps as [|p ps _] using rev_ind; simpl in *.
  - do 3 eexists; split; [reflexivity|].
    split; [split; [exact Hsq|split; [done|descriptor]] |].
    split; [split; [done|split; [apply NoDup_nil_2|done]] | relink].
  - apply slseg_snoc in Hsp as [Hsp ?]. rewrite first_app in Hhp. simpl in Hhp.
    rewrite last_snoc in *. rewrite <- app_assoc in *. simpl in *. nodup.
    do 3 eexists; split; [links; reflexivity|].
    split; [split; [|split; [done|]] | ].
    + sl_joint. split; [joint|]. split; [joint|segs].
    + descriptor.
    + split; [split; [done|split; [apply NoDup_nil_2|done]] | relink].
Qed.

Lemma list_remove_walk_rep h l fuel xs x p ys :
  slseg h (xs ++ x :: p :: ys) None -> NoDup (xs ++ x :: p :: ys) ->
  (length xs < fuel)%nat ->
  exists b bp, h !! x = Some b /\ h !! p = Some bp /\
  list_remove_walk fuel h (first xs (Some x)) (Some p) l =
    Ok (<[x := b <| next := next bp |>]> h,
        let l1 := l <| nb_elements := nb_elements l - 1 |> in
        if same (tail l1) (Some p) then l1 <| tail := Some x |> else l1).
Proof.
  intros Hseg Hnd Hf. revert xs Hseg Hnd Hf. induction fuel as [|fuel IH]; [lia|].
  intros [|y xs] Hseg Hnd Hf; simpl in *.
  - nodup. do 2 eexists. split; [eassumption|]. split; [eassumption|]. by links.
  - apply NoDup_cons in Hnd as [Hy Hnd].
    destruct Hseg as [(b & Hb & Hbn) Hseg].
    destruct (IH xs) as (bx & bp & Hx & Hp & Hw); [done..|lia|].
    exists bx, bp. split; [done|]. split; [done|].
    rewrite (get_next_Some _ _ _ Hb). simpl. rewrite Hbn, first_app. simpl.
    replace (same (first xs (Some x)) (Some p)) with false; [exact Hw|].
    symmetry. apply NoDup_app in Hnd as (_ & Hx1 & Hx2%NoDup_cons).
    destruct xs; apply same_ne; set_solver.
Qed.

(** The element must be in the list and the fuel cover the list's length. *)
Lemma list_remove_element_rep h l xs p ys fuel :
  list_rep h l (xs ++ p :: ys) -> (length xs <= fuel)%nat ->
  exists h' l', list_remove_element fuel h (Some p) l = Ok (Some p, h', l') /\
    list_rep h' l' (xs ++ ys) /\ relinked (xs ++ p :: ys) h h'.
Proof.
  intros (Hseg & Hnd & Hh & Ht & Hn) Hfuel. unfold list_remove_element. simpl. rewrite Hh.
  pose proof Hnd as [Hnd1 Hp]%NoDup_mid. pose proof (Hnd1 : keep _) as Hnd'.
  destruct xs as [|x xs _] using rev_ind.
  - simpl in *. rewrite same_refl. nodup. links.
    destruct ys as [|q ys]; simpl in *; nodup; links; new_state;
      first [exact Hnd' | descriptor | idtac]; [done|].
    split; [joint|segs].
  - rewrite <- app_assoc in *. simpl in *. rewrite first_app, last_app_cons in *.
    rewrite length_app in Hfuel. simpl in *.
    replace (same (first xs (Some x)) (Some p)) with false; cycle 1.
    { symmetry. destruct xs; apply same_ne; set_solver. }
    destruct (list_remove_walk_rep h l fuel xs x p ys) as (b & bp & Hb & Hbp & ->);
      [done|done|lia|].
    apply slseg_app in Hseg as [Hxs Hseg]. simpl in Hseg. nodup. simplify_eq. simpl.
    destruct ys as [|y ys]; [simpl in * | rewrite last_cons_cons in Ht]; rewrite Ht.
    + rewrite same_refl. new_state; [| |descriptor].
      * sl_joint. split; [joint|done].
      * rewrite <- app_assoc. exact Hnd'.
    + rewrite same_sym, same_last by done. cbn [slseg] in *. nodup.
      new_state; [| |descriptor].
      * sl_joint. split; [joint|]. split; [joint|segs].
      * rewrite <- app_assoc. exact Hnd'.
Qed.

Lemma dlseg_delete h prev ps nxt p :
  p ∉ ps -> dlseg h prev ps nxt -> dlseg (delete p h) prev ps nxt.
Proof.
  revert prev. induction ps as [|q ps IH]; intros prev; simpl; [done|].
  rewrite not_elem_of_cons. intros [Hne Hp] [(b0 & Hb & H1) H2].
  split; [exists b0; by rewrite lookup_delete_ne | by apply IH].
Qed.
Lemma slseg_delete h ps nxt p : p ∉ ps -> slseg h ps nxt -> slseg (delete p h) ps nxt.
Proof.
  induction ps as [|q ps IH]; simpl; [done|].
  rewrite not_elem_of_cons. intros [Hne Hp] [(b0 & Hb & H1) H2].
  split; [exists b0; by rewrite lookup_delete_ne | by apply IH].
Qed.

(** What is promised of a list to the code that owns it: the sequence of its
    elements, the operations on it being total on this domain. *)
Inductive list2_op :=
| AddHead (p : positive)
| AddTail (p : positive)
| RemoveHead
| RemoveTail
| RemoveElement (p : positive)
| InsertBefore (q p : positive)
| InsertAfter (q p : positive).

(** The abstract operation: [None] when the caller breaks the contract (a block
    put twice in the list, a block that is not in it removed). *)
Fixpoint insert_at (q p : positive) (after : bool) (ps : list positive) : list positive :=
  match ps with
  | [] => []
  | x :: ps' =>
      if decide (x = p) then (if after then x :: q :: ps' else q :: x :: ps')
      else x :: insert_at q p after ps'
  end.

Definition spec_op (o : list2_op) (ps : list positive) : option (list positive) :=
  match o with
  | AddHead p => if decide (p ∈ ps) then None else Some (p :: ps)
  | AddTail p => if decide (p ∈ ps) then None else Some (ps ++ [p])
  | RemoveHead => Some (List.tl ps)
  | RemoveTail => Some (take (length ps - 1) ps)
  | RemoveElement p => if decide (p ∈ ps) then Some (filter (.≠ p) ps) else None
  | InsertBefore q p =>
      if decide (p ∈ ps /\ q ∉ ps) then Some (insert_at q p false ps) else None
  | InsertAfter q p =>
      if decide (p ∈ ps /\ q ∉ ps) then Some (insert_at q p true ps) else None
  end.

(** The same operation on the heap. *)
Definition run_op (o : list2_op) h l : res (gmap positive (@mem_block_t D) * list_t) :=
  match o with
  | AddHead p => list2_add_head h (Some p) l
  | AddTail p => list2_add_tail h (Some p) l
  | RemoveHead => '(_, h1, l1) ← list2_remove_head h l; Ok (h1, l1)
  | RemoveTail => '(_, h1, l1) ← list2_remove_tail h l; Ok (h1, l1)
  | RemoveElement p => '(_, h1, l1) ← list2_remove_element h (Some p) l; Ok (h1, l1)
  | InsertBefore q p =>
      '(_, h1, l1) ← list2_insert_before_element h (Some q) (Some p) l; Ok (h1, l1)
  | InsertAfter q p =>
      '(_, h1, l1) ← list2_insert_after_element h (Some q) (Some p) l; Ok (h1, l1)
  end.

Fixpoint spec_ops (os : list list2_op) (ps : list positive) : option (list positive) :=
  match os with
  | [] => Some ps
  | o :: os' => ps' ← spec_op o ps; spec_ops os' ps'
  end.
Fixpoint run_ops (os : list list2_op) h l : res (gmap positive (@mem_block_t D) * list_t) :=
  match os with
  | [] => Ok (h, l)
  | o :: os' => '(h1, l1) ← run_op o h l; run_ops os' h1 l1
  end.

(** The blocks an operation puts in the list. *)
Definition op_block (o : list2_op) : list positive :=
  match o with
  | AddHead p | AddTail p | InsertBefore p _ | InsertAfter p _ => [p]
  | _ => []
  end.

Lemma insert_at_split q p after xs ys :
  p ∉ xs ->
  insert_at q p after (xs ++ p :: ys) =
  xs ++ (if after then p :: q :: ys else q :: p :: ys).
Proof.
  induction xs as [|x xs IH]; simpl; intros H.
  - rewrite decide_True by done. by destruct after.
  - rewrite decide_False by set_solver. f_equal. apply IH. set_solver.
Qed.

Lemma filter_ne_notin (p : positive) (ps : list positive) : p ∉ ps -> filter (.≠ p) ps = ps.
Proof.
  induction ps as [|x ps IH]; [done|]. intros H.
  rewrite filter_cons_True by set_solver. f_equal. apply IH. set_solver.
Qed.

Lemma filter_ne_mid (p : positive) (xs ys : list positive) :
  NoDup (xs ++ p :: ys) -> filter (.≠ p) (xs ++ p :: ys) = xs ++ ys.
Proof.
  intros [_ Hp]%NoDup_mid. rewrite filter_app, filter_cons_False by naive_solver.
  by rewrite !filter_ne_notin by set_solver.
Qed.

Lemma relinked_payload ps h h' : relinked ps h h' -> forall q, data <$> h' !! q = data <$> h !! q.
Proof. by intros [_ H]. Qed.

(** One operation of the contract. *)
Lemma run_op_refines o h l ps ps' :
  list2_rep h l ps -> Forall (fun p => is_Some (h !! p)) (op_block o) ->
  spec_op o ps = Some ps' ->
  exists h' l', run_op o h l = Ok (h', l') /\ list2_rep h' l' ps' /\
    forall q, data <$> h' !! q = data <$> h !! q.
Proof.
  intros Hrep Ha Hs. pose proof Hrep as (_ & Hnd & _).
  assert (Hsplit : forall p, p ∈ ps -> exists xs ys, ps = xs ++ p :: ys /\ p ∉ xs).
  { intros p (xs & ys & ->)%list_elem_of_split. exists xs, ys. split; [done|].
    apply NoDup_mid in Hnd as [_ H]. set_solver. }
  destruct o; simpl in *; try (apply Forall_cons in Ha as [[b Hb] _]);
    try (case_decide; simplify_eq).
  - destruct (list2_add_head_rep _ _ _ _ _ Hrep H Hb) as (h' & l' & -> & ? & ?);
      do 2 eexists; eauto using relinked_payload.
  - destruct (list2_add_tail_rep _ _ _ _ _ Hrep H Hb) as (h' & l' & -> & ? & ?);
      do 2 eexists; eauto using relinked_payload.
  - injection Hs as <-.
    destruct (list2_remove_head_rep _ _ _ Hrep) as (h' & l' & -> & ? & ?);
      simpl; do 2 eexists; eauto using relinked_payload.
  - injection Hs as <-. destruct ps as [|p ps _] using rev_ind.
    + destruct Hrep as (? & ? & ? & Ht & ?). unfold list2_remove_tail. simpl in Ht.
      rewrite Ht. simpl. exists h, l. split; [done|]. split; [|done]. by repeat split.
    + destruct (list2_remove_tail_rep _ _ _ _ Hrep) as (h' & l' & -> & ? & ?).
      rewrite length_app, take_app_length' by (simpl; lia).
      simpl; do 2 eexists; eauto using relinked_payload.
  - destruct (Hsplit p) as (xs & ys & -> & _); [done|].
    rewrite filter_ne_mid by done.
    destruct (list2_remove_element_rep _ _ _ _ _ Hrep) as (h' & l' & -> & ? & ?);
      simpl; do 2 eexists; eauto using relinked_payload.
  - destruct (Hsplit p) as (xs & ys & -> & ?); [tauto|]. rewrite insert_at_split by done.
    destruct (list2_insert_before_rep _ _ _ _ _ q b Hrep) as (h' & l' & -> & ? & ?);
      [tauto|done|]; simpl; do 2 eexists; eauto using relinked_payload.
  - destruct (Hsplit p) as (xs & ys & -> & ?); [tauto|]. rewrite insert_at_split by done.
    destruct (list2_insert_after_rep _ _ _ _ _ q b Hrep) as (h' & l' & -> & ? & ?);
      [tauto|done|]; simpl; do 2 eexists; eauto using relinked_payload.
Qed.

Lemma is_Some_payload h h' q :
  (forall q, data <$> h' !! q = data <$> h !! q) -> is_Some (h !! q) -> is_Some (h' !! q).
Proof. intros H. rewrite <- !(fmap_is_Some data), H. done. Qed.

(** C36: any sequence of list2 operations that respects the contract runs on the
    heap without undefined behaviour, leaves a well-formed doubly linked list
    whose elements are the ones of the abstract sequence of operations, and
    keeps the payload of every block. *)
Theorem list2_ops_refine os h l ps ps' :
  list2_rep h l ps ->
  Forall (fun o => Forall (fun p => is_Some (h !! p)) (op_block o)) os ->
  spec_ops os ps = Some ps' ->
  exists h' l', run_ops os h l = Ok (h', l') /\ list2_rep h' l' ps' /\
    forall q, data <$> h' !! q = data <$> h !! q.
Proof.
  revert h l ps. induction os as [|o os IH]; simpl; intros h l ps Hrep Ha Hs.
  { simplify_eq. by exists h, l. }
  apply bind_Some in Hs as (ps1 & Ho & Hs). apply Forall_cons in Ha as [Ha1 Ha2].
  destruct (run_op_refines _ _ _ _ _ Hrep Ha1 Ho) as (h1 & l1 & -> & Hrep1 & Hd1).
  simpl. destruct (IH h1 l1 ps1 Hrep1) as (h2 & l2 & ? & ? & Hd2); [|done|].
  { eapply Forall_impl; [exact Ha2|]. intros o' Ho'.
    eapply Forall_impl; [exact Ho'|]. intros p. by apply is_Some_payload. }
  exists h2, l2. split; [done|]. split; [done|]. intros q. by rewrite Hd2, Hd1.
Qed.

(** Freeing a list frees its blocks in order and nothing else. *)
Lemma list2_free_all h l ps fuel :
  list2_rep h l ps -> (length ps < fuel)%nat ->
  exists h' l', list2_free fuel h l = Ok (ps, h', l') /\ list2_rep h' l' [] /\
    forall q, (q ∈ ps -> h' !! q = None) /\ (q ∉ ps -> h' !! q = h !! q).
Proof.
  revert h l ps. induction fuel as [|fuel IH]; [lia|]. intros h l ps Hrep Hf. simpl.
  destruct (list2_remove_head_rep _ _ _ Hrep) as (h1 & l1 & -> & Hrep1 & Hl). simpl.
  destruct ps as [|p ps]; simpl in *.
  { exists h1, l1. split; [done|]. split; [done|]. intros q.
    split; [by intros ?%elem_of_nil | apply Hl]. }
  pose proof Hrep as (_ & [Hp _]%NoDup_cons & _).
  destruct (IH (delete p h1) l1 ps) as (h2 & l2 & -> & Hrep2 & H2); [|lia|].
  { destruct Hrep1 as (Hseg & ? & ?). split; [by apply dlseg_delete | done]. }
  exists h2, l2. split; [done|]. split; [done|]. intros q. split.
  - intros [-> | Hq]%elem_of_cons; [|by apply H2].
    rewrite (proj2 (H2 p)) by done. apply lookup_delete_eq.
  - intros [Hne Hq]%not_elem_of_cons. rewrite (proj2 (H2 q)), lookup_delete_ne by done.
    apply Hl. set_solver.
Qed.

Lemma list_free_all h l ps fuel :
  list_rep h l ps -> (length ps < fuel)%nat ->
  exists h' l', list_free fuel h l = Ok (ps, h', l') /\ list_rep h' l' [] /\
    forall q, (q ∈ ps -> h' !! q = None) /\ (q ∉ ps -> h' !! q = h !! q).
Proof.
  revert h l ps. induction fuel as [|fuel IH]; [lia|]. intros h l ps Hrep Hf. simpl.
  destruct (list_remove_head_rep _ _ _ Hrep) as (h1 & l1 & -> & Hrep1 & Hl). simpl.
  destruct ps as [|p ps]; simpl in *.
  { exists h1, l1. split; [done|]. split; [done|]. intros q.
    split; [by intros ?%elem_of_nil | apply Hl]. }
  pose proof Hrep as (_ & [Hp _]%NoDup_cons & _).
  destruct (IH (delete p h1) l1 ps) as (h2 & l2 & -> & Hrep2 & H2); [|lia|].
  { destruct Hrep1 as (Hseg & ? & ?). split; [by apply slseg_delete | done]. }
  exists h2, l2. split; [done|]. split; [done|]. intros q. split.
  - intros [-> | Hq]%elem_of_cons; [|by apply H2].
    rewrite (proj2 (H2 p)) by done. apply lookup_delete_eq.
  - intros [Hne Hq]%not_elem_of_cons. rewrite (proj2 (H2 q)), lookup_delete_ne by done.
    apply Hl. set_solver.
Qed.

(** Freeing a list, doubly or simply linked, terminates, frees its blocks
    from the head to the tail and nothing else, and leaves an empty list. *)
Theorem lists_free_all h l ps fuel :
  (length ps < fuel)%nat ->
  (list2_rep h l ps -> exists h' l', list2_free fuel h l = Ok (ps, h', l') /\ list2_rep h' l' [] /\
     forall q, (q ∈ ps -> h' !! q = None) /\ (q ∉ ps -> h' !! q = h !! q)) /\
  (list_rep h l ps -> exists h' l', list_free fuel h l = Ok (ps, h', l') /\ list_rep h' l' [] /\
     forall q, (q ∈ ps -> h' !! q = None) /\ (q ∉ ps -> h' !! q = h !! q)).
Proof. auto using list2_free_all, list_free_all. Qed.

End Correctness.

(** ** A heap of three blocks, two of them in a list *)
Definition sample_heap : gmap positive (@mem_block_t Z) :=
  {[ 1%positive := Mk_mem_block None None 10; 2%positive := Mk_mem_block (Some 3%positive) None 20;
     3%positive := Mk_mem_block None (Some 2%positive) 30 ]}.
Definition sample_list : list_t := Mk_list (Some 2%positive) (Some 3%positive) 2.

Lemma sample_list_rep :
  list2_rep sample_heap sample_list [2; 3]%positive /\ list_rep sample_heap sample_list [2; 3]%positive.
Proof.
  assert (Hnd : NoDup [2; 3]%positive) by (apply (bool_decide_unpack _); vm_compute; exact I).
  split; (split; [|split; [exact Hnd|by split_and!]]); cbn [dlseg slseg]; split_and!; try done;
    eexists; split_and!; vm_compute; reflexivity.
Qed.

Lemma list2_ops_refine_witness :
  exists h' l', run_ops [AddTail 1; RemoveHead; RemoveElement 1; InsertAfter 2 3] sample_heap sample_list = Ok (h', l') /\
    list2_rep h' l' [3; 2]%positive.
Proof.
  destruct (list2_ops_refine [AddTail 1; RemoveHead; RemoveElement 1; InsertAfter 2 3] sample_heap sample_list
    [2; 3]%positive [3; 2]%positive) as (h' & l' & E & Hrep & _).
  - apply sample_list_rep.
  - repeat constructor; eexists; reflexivity.
  - vm_compute. reflexivity.
  - exists h', l'. split; [exact E|exact Hrep].
Defined.

Lemma lists_free_all_witness :
  exists h' l', list2_free 3 sample_heap sample_list = Ok ([2; 3]%positive, h', l') /\
    h' !! 2%positive = None /\ h' !! 1%positive = Some (Mk_mem_block None None 10).
Proof.
  destruct (lists_free_all sample_heap sample_list [2; 3]%positive 3) as [H _]; [cbn; lia|].
  destruct (H (proj1 sample_list_rep)) as (h' & l' & E & _ & Hq).
  exists h', l'. split; [exact E|]. split.
  - apply Hq. set_solver.
  - destruct (Hq 1%positive) as [_ H1]. rewrite H1; [reflexivity|set_solver].
Defined.
