(* ===== verification/HashTable.v ===== *)
(** * The hash table of common/utils/hashtable/hashtable.c

    Buckets with linked lists of nodes, newest first; the RLC sublayer keeps its entities in
    one.  A data pointer is a number, 0 for NULL.  [hashfunc] is the function given to
    [hashtable_create]; the calls of [freefunc] are returned as the list of the pointers
    they are made on.  The table refines a finite map. *)

From stdpp Require Import gmap.
From S2P Require Import Prelude.

(** ** Data *)
Definition HASH_TABLE_OK : Z := 0.
Definition HASH_TABLE_INSERT_OVERWRITTEN_DATA : Z := 1.
Definition HASH_TABLE_KEY_NOT_EXISTS : Z := 2.

(** The nodes of a bucket: keys and data. *)
Definition hash_node_t : Type := Z * Z.
Record hash_table_t := Mk_hash_table {
  ht_size : Z;
  ht_num_elements : Z;
  ht_nodes : list (list hash_node_t)
}.
#[export] Instance eta_hash_table : Eta hash_table_t :=
  fun t => Mk_hash_table (ht_size t) (ht_num_elements t) (ht_nodes t).

(** [malloc] leaves in [num_elements], which is not initialised, whatever was there. *)
Definition hashtable_create (garbage sizeP : Z) : hash_table_t :=
  Mk_hash_table sizeP garbage (replicate (Z.to_nat sizeP) []).

(** ** The nodes of a bucket *)
Fixpoint node_find (keyP : Z) (b : list hash_node_t) : option Z :=
  match b with
  | [] => None
  | (k, d) :: b => if k =? keyP then Some d else node_find keyP b
  end.
(** The data before, and the bucket with the new one. *)
Fixpoint node_overwrite (keyP dataP : Z) (b : list hash_node_t) : option (Z * list hash_node_t) :=
  match b with
  | [] => None
  | (k, d) :: b =>
      if k =? keyP then Some (d, (k, dataP) :: b)
      else match node_overwrite keyP dataP b with
           | Some (old, b') => Some (old, (k, d) :: b')
           | None => None
           end
  end.
Fixpoint node_unlink (keyP : Z) (b : list hash_node_t) : option (Z * list hash_node_t) :=
  match b with
  | [] => None
  | (k, d) :: b =>
      if k =? keyP then Some (d, b)
      else match node_unlink keyP b with
           | Some (old, b') => Some (old, (k, d) :: b')
           | None => None
           end
  end.

(** [if (node->data) freefunc(node->data)]. *)
Definition free_data (d : Z) : list Z := if d =? 0 then [] else [d].

(** ** Operations *)
Section table.
Context (hashfunc : Z -> Z).

Definition ht_hash (t : hash_table_t) (keyP : Z) : res Z :=
  if ht_size t =? 0 then Err UndefinedBehaviour else Ok (hashfunc keyP mod ht_size t).
Definition ht_bucket (t : hash_table_t) (keyP : Z) : res (Z * list hash_node_t) :=
  hash ← ht_hash t keyP;
  b ← array_get (ht_nodes t) hash;
  Ok (hash, b).

Definition hashtable_is_key_exists (t : hash_table_t) (keyP : Z) : res Z :=
  '(_, b) ← ht_bucket t keyP;
  Ok (match node_find keyP b with Some _ => HASH_TABLE_OK | None => HASH_TABLE_KEY_NOT_EXISTS end).

Definition hashtable_get (t : hash_table_t) (keyP : Z) : res (Z * Z) :=
  '(_, b) ← ht_bucket t keyP;
  Ok (match node_find keyP b with Some d => (HASH_TABLE_OK, d) | None => (HASH_TABLE_KEY_NOT_EXISTS, 0) end).

(** [node_ok]: the node of a new key could be allocated. *)
Definition hashtable_insert (node_ok : bool) (t : hash_table_t) (keyP dataP : Z)
  : res (Z * hash_table_t * list Z) :=
  '(hash, b) ← ht_bucket t keyP;
  match node_overwrite keyP dataP b with
  | Some (old, b') =>
      Ok (HASH_TABLE_INSERT_OVERWRITTEN_DATA, t <| ht_nodes := <[Z.to_nat hash := b']> (ht_nodes t) |>, free_data old)
  | None =>
      if node_ok then
        Ok (HASH_TABLE_OK,
            t <| ht_nodes := <[Z.to_nat hash := (keyP, dataP) :: b]> (ht_nodes t) |>
              <| ht_num_elements := wrapu 64 (ht_num_elements t + 1) |>, [])
      else Ok (-1, t, [])
  end.

Definition hashtable_remove (t : hash_table_t) (keyP : Z) : res (Z * hash_table_t * list Z) :=
  '(hash, b) ← ht_bucket t keyP;
  Ok (match node_unlink keyP b with
      | Some (old, b') =>
          (HASH_TABLE_OK,
           t <| ht_nodes := <[Z.to_nat hash := b']> (ht_nodes t) |>
             <| ht_num_elements := wrapu 64 (ht_num_elements t - 1) |>, free_data old)
      | None => (HASH_TABLE_KEY_NOT_EXISTS, t, [])
      end).

(** The pointers that are freed, in order. *)
Definition hashtable_destroy (t : hash_table_t) : list Z :=
  concat (map (fun nd : hash_node_t => free_data nd.2) (concat (ht_nodes t))).

(** The nodes on which [functP] is called, in order; buckets are visited while fewer
    than [num_elements] nodes were, counted in an [unsigned int]. *)
Fixpoint apply_funct_loop (num : Z) (nodes : list (list hash_node_t)) (num_elements : Z) : list hash_node_t :=
  match nodes with
  | [] => []
  | b :: nodes =>
      if num <? num_elements
      then b ++ apply_funct_loop (wrapu 32 (num + Z.of_nat (length b))) nodes num_elements
      else []
  end.
Definition hashtable_apply_funct_on_elements (t : hash_table_t) : list hash_node_t :=
  apply_funct_loop 0 (ht_nodes t) (ht_num_elements t).

(** Each node is inserted in the new table, whatever the insertion returns, then removed from
    the old one.  [freefunc] of the new table is not initialised: overwriting would call it. *)
Fixpoint resize_nodes (node_ok : Z -> bool) (b : list hash_node_t) (newtbl t : hash_table_t)
  : res (hash_table_t * hash_table_t * list Z) :=
  match b with
  | [] => Ok (newtbl, t, [])
  | (k, d) :: b =>
      '(rc, newtbl, _) ← hashtable_insert (node_ok k) newtbl k d;
      if rc =? HASH_TABLE_INSERT_OVERWRITTEN_DATA then Err UndefinedBehaviour
      else
        '(_, t, freed) ← hashtable_remove t k;
        '(newtbl, t, freed') ← resize_nodes node_ok b newtbl t;
        Ok (newtbl, t, freed ++ freed')
  end.
(** The buckets of the old table from the [n]-th: [hashtblP->nodes[n]] is read when the loop
    comes to it. *)
Fixpoint resize_buckets (node_ok : Z -> bool) (fuel : nat) (n : Z) (newtbl t : hash_table_t)
  : res (hash_table_t * hash_table_t * list Z) :=
  match fuel with
  | O => Ok (newtbl, t, [])
  | S fuel =>
      b ← array_get (ht_nodes t) n;
      '(newtbl, t, freed) ← resize_nodes node_ok b newtbl t;
      '(newtbl, t, freed') ← resize_buckets node_ok fuel (n + 1) newtbl t;
      Ok (newtbl, t, freed ++ freed')
  end.
Definition hashtable_resize (garbage : Z) (node_ok : Z -> bool) (t : hash_table_t) (sizeP : Z)
  : res (Z * hash_table_t * list Z) :=
  '(newtbl, t, freed) ← resize_buckets node_ok (Z.to_nat (ht_size t)) 0 (hashtable_create garbage sizeP) t;
  Ok (HASH_TABLE_OK, t <| ht_size := ht_size newtbl |> <| ht_nodes := ht_nodes newtbl |>, freed).

(** ** Refinement of a finite map *)
Record ht_refines (t : hash_table_t) (m : gmap Z Z) : Prop := Mk_ht_refines {
  hr_size : 0 < ht_size t;
  hr_length : Z.of_nat (length (ht_nodes t)) = ht_size t;
  hr_bucket : forall i b k d, ht_nodes t !! i = Some b -> (k, d) ∈ b -> hashfunc k mod ht_size t = Z.of_nat i;
  hr_perm : concat (ht_nodes t) ≡ₚ map_to_list m
}.
End table.

(** ** Operations in a row *)
Inductive ht_op : Type :=
| Ht_insert (node_ok : bool) (keyP dataP : Z)
| Ht_remove (keyP : Z)
| Ht_get (keyP : Z)
| Ht_exists (keyP : Z).
(** The return code, the data found and the data freed. *)
Definition ht_ret : Type := Z * Z * list Z.

Definition ht_step (hashfunc : Z -> Z) (t : hash_table_t) (op : ht_op) : res (ht_ret * hash_table_t) :=
  match op with
  | Ht_insert ok k d => '(rc, t, freed) ← hashtable_insert hashfunc ok t k d; Ok ((rc, 0, freed), t)
  | Ht_remove k => '(rc, t, freed) ← hashtable_remove hashfunc t k; Ok ((rc, 0, freed), t)
  | Ht_get k => '(rc, d) ← hashtable_get hashfunc t k; Ok ((rc, d, []), t)
  | Ht_exists k => rc ← hashtable_is_key_exists hashfunc t k; Ok ((rc, 0, []), t)
  end.
Fixpoint ht_run (hashfunc : Z -> Z) (t : hash_table_t) (ops : list ht_op) : res (list ht_ret * hash_table_t) :=
  match ops with
  | [] => Ok ([], t)
  | op :: ops =>
      '(r, t) ← ht_step hashfunc t op;
      '(rs, t) ← ht_run hashfunc t ops;
      Ok (r :: rs, t)
  end.

(** What the table promises, on a finite map. *)
Definition map_step (m : gmap Z Z) (op : ht_op) : ht_ret * gmap Z Z :=
  match op with
  | Ht_insert ok k d =>
      match m !! k with
      | Some old => ((HASH_TABLE_INSERT_OVERWRITTEN_DATA, 0, free_data old), <[k := d]> m)
      | None => if ok then ((HASH_TABLE_OK, 0, []), <[k := d]> m) else ((-1, 0, []), m)
      end
  | Ht_remove k =>
      match m !! k with
      | Some old => ((HASH_TABLE_OK, 0, free_data old), delete k m)
      | None => ((HASH_TABLE_KEY_NOT_EXISTS, 0, []), m)
      end
  | Ht_get k =>
      (match m !! k with Some d => (HASH_TABLE_OK, d, []) | None => (HASH_TABLE_KEY_NOT_EXISTS, 0, []) end, m)
  | Ht_exists k =>
      (match m !! k with Some _ => (HASH_TABLE_OK, 0, []) | None => (HASH_TABLE_KEY_NOT_EXISTS, 0, []) end, m)
  end.
Fixpoint map_run (m : gmap Z Z) (ops : list ht_op) : list ht_ret * gmap Z Z :=
  match ops with
  | [] => ([], m)
  | op :: ops => let '(r, m) := map_step m op in let '(rs, m) := map_run m ops in (r :: rs, m)
  end.

(** ** Buckets *)
Lemma node_find_some (k d : Z) (b : list hash_node_t) : node_find k b = Some d -> (k, d) ∈ b.
Proof.
  induction b as [|[k' d'] b IH]; simpl; [done|].
  destruct (Z.eqb_spec k' k); intros H; [simplify_eq; left|right; auto].
Qed.

Lemma node_find_none (k d : Z) (b : list hash_node_t) : node_find k b = None -> (k, d) ∉ b.
Proof.
  induction b as [|[k' d'] b IH]; simpl; [set_solver|].
  destruct (Z.eqb_spec k' k); intros H; [done|].
  rewrite elem_of_cons. intros [[= ??]|Hin]; [done|by apply IH].
Qed.

Lemma node_overwrite_spec (k d : Z) (b : list hash_node_t) :
  match node_overwrite k d b with
  | Some (old, b') => node_find k b = Some old /\
      exists b1 b2, b = b1 ++ (k, old) :: b2 /\ b' = b1 ++ (k, d) :: b2
  | None => node_find k b = None
  end.
Proof.
  induction b as [|[k' d'] b IH]; simpl; [done|].
  destruct (Z.eqb_spec k' k) as [->|]; [split; [done|]; by exists [], b|].
  destruct (node_overwrite k d b) as [[old b']|]; [|done].
  destruct IH as (Hf & b1 & b2 & -> & ->). split; [done|]. by exists ((k', d') :: b1), b2.
Qed.

Lemma node_unlink_spec (k : Z) (b : list hash_node_t) :
  match node_unlink k b with
  | Some (old, b') => node_find k b = Some old /\
      exists b1 b2, b = b1 ++ (k, old) :: b2 /\ b' = b1 ++ b2
  | None => node_find k b = None
  end.
Proof.
  induction b as [|[k' d'] b IH]; simpl; [done|].
  destruct (Z.eqb_spec k' k) as [->|]; [split; [done|]; by exists [], b|].
  destruct (node_unlink k b) as [[old b']|]; [|done].
  destruct IH as (Hf & b1 & b2 & -> & ->). split; [done|]. by exists ((k', d') :: b1), b2.
Qed.

(** Replacing a bucket. *)
Lemma concat_bucket (nodes : list (list hash_node_t)) (i : nat) (b : list hash_node_t) :
  nodes !! i = Some b ->
  exists rest, concat nodes ≡ₚ b ++ rest /\ forall b', concat (<[i := b']> nodes) ≡ₚ b' ++ rest.
Proof.
  intros Hi. exists (concat (take i nodes) ++ concat (drop (S i) nodes)).
  assert (Hlt := lookup_lt_Some _ _ _ Hi).
  split.
  - rewrite <- (take_drop_middle _ _ _ Hi) at 1. rewrite concat_app. simpl. solve_Permutation.
  - intros b'. rewrite insert_take_drop by done. rewrite concat_app. simpl. solve_Permutation.
Qed.

Section refinement.
Context (hashfunc : Z -> Z).
Implicit Types (t : hash_table_t) (m : gmap Z Z).

Lemma ht_bucket_ok t m k :
  ht_refines hashfunc t m ->
  exists hash b, ht_bucket hashfunc t k = Ok (hash, b) /\ ht_nodes t !! Z.to_nat hash = Some b /\
    hash = hashfunc k mod ht_size t /\ node_find k b = m !! k.
Proof.
  intros [Hs Hl Hb Hp].
  set (hash := hashfunc k mod ht_size t).
  assert (Hr : 0 <= hash < ht_size t) by (apply Z.mod_pos_bound; lia).
  destruct (lookup_lt_is_Some_2 (ht_nodes t) (Z.to_nat hash)) as [b Hi]; [lia|].
  exists hash, b. repeat split; [|done|].
  - unfold ht_bucket, ht_hash. destruct (Z.eqb_spec (ht_size t) 0); [lia|]. simpl. fold hash.
    unfold array_get. destruct (Z.leb_spec 0 hash); [|lia]. simpl. by rewrite Hi.
  - destruct (node_find k b) as [d|] eqn:Hf; symmetry.
    + apply elem_of_map_to_list. rewrite <- Hp. apply list_elem_of_In, in_concat.
      exists b. split; apply list_elem_of_In; [by eapply list_elem_of_lookup_2|by apply node_find_some].
    + apply eq_None_not_Some. intros [d Hd]. apply elem_of_map_to_list in Hd.
      rewrite <- Hp in Hd. apply list_elem_of_In, in_concat in Hd as (b' & Hb' & Hd).
      apply list_elem_of_In in Hb', Hd. apply list_elem_of_lookup in Hb' as [j Hj].
      assert (Hh := Hb _ _ _ _ Hj Hd). fold hash in Hh.
      assert (j = Z.to_nat hash) as -> by lia. simplify_eq. by eapply node_find_none.
Qed.

(** A bucket whose keys are still in place, for a map that differs there. *)
Lemma ht_refines_bucket t m m' hash b b' num :
  ht_refines hashfunc t m ->
  ht_nodes t !! Z.to_nat hash = Some b -> 0 <= hash ->
  (forall k d, (k, d) ∈ b' -> hashfunc k mod ht_size t = hash) ->
  (forall rest, b ++ rest ≡ₚ map_to_list m -> b' ++ rest ≡ₚ map_to_list m') ->
  ht_refines hashfunc (t <| ht_nodes := <[Z.to_nat hash := b']> (ht_nodes t) |> <| ht_num_elements := num |>) m'.
Proof.
  intros [Hs Hl Hb Hp] Hi Hh Hk Hperm. constructor; simpl.
  - done.
  - by rewrite length_insert.
  - intros i c k d Hc Hin. apply list_lookup_insert_Some in Hc as [(<- & <- & _)|(_ & Hc)].
    + rewrite Z2Nat.id by done. by eapply Hk.
    + by eapply Hb.
  - destruct (concat_bucket _ _ _ Hi) as (rest & Hr & Hr').
    rewrite Hr'. apply Hperm. by rewrite <- Hr.
Qed.

Lemma ht_bucket_keys t m hash b :
  ht_refines hashfunc t m -> ht_nodes t !! Z.to_nat hash = Some b -> 0 <= hash ->
  forall k d, (k, d) ∈ b -> hashfunc k mod ht_size t = hash.
Proof. intros [? ? Hb ?] Hi Hh k d Hin. rewrite (Hb _ _ _ _ Hi Hin). lia. Qed.

(** The map of a bucket in which a key was found. *)
Lemma perm_found m k old (b1 b2 rest : list hash_node_t) :
  (b1 ++ (k, old) :: b2) ++ rest ≡ₚ map_to_list m ->
  m !! k = Some old /\ (b1 ++ b2) ++ rest ≡ₚ map_to_list (delete k m).
Proof.
  intros Hp.
  assert (Hm : m !! k = Some old) by (apply elem_of_map_to_list; rewrite <- Hp; set_solver).
  split; [done|]. apply (Permutation_cons_inv (a := (k, old))).
  rewrite map_to_list_delete by done. rewrite <- Hp. solve_Permutation.
Qed.

Lemma perm_overwritten m k old d (b1 b2 rest : list hash_node_t) :
  (b1 ++ (k, old) :: b2) ++ rest ≡ₚ map_to_list m ->
  (b1 ++ (k, d) :: b2) ++ rest ≡ₚ map_to_list (<[k := d]> m).
Proof.
  intros [Hm Hp]%perm_found.
  rewrite <- insert_delete_eq, map_to_list_insert by apply lookup_delete_eq.
  rewrite <- Hp. solve_Permutation.
Qed.

(** The number of elements follows the size of the map. *)
Definition ht_counts (g : Z) t m : Prop := ht_num_elements t = wrapu 64 (g + Z.of_nat (size m)).

Lemma ht_step_refines g t m op :
  ht_refines hashfunc t m -> ht_counts g t m ->
  exists t', ht_step hashfunc t op = Ok ((map_step m op).1, t') /\
    ht_refines hashfunc t' (map_step m op).2 /\ ht_counts g t' (map_step m op).2 /\ ht_size t' = ht_size t.
Proof.
  intros Hr Hc. unfold ht_counts in *.
  assert (Hbk : forall k, exists hash b, ht_bucket hashfunc t k = Ok (hash, b) /\
    ht_nodes t !! Z.to_nat hash = Some b /\ hash = hashfunc k mod ht_size t /\ 0 <= hash /\
    node_find k b = m !! k).
  { intros k. destruct (ht_bucket_ok t m k Hr) as (hash & b & H1 & H2 & H3 & H4).
    exists hash, b. repeat split; try done. destruct Hr. subst hash. apply Z.mod_pos_bound. lia. }
  destruct op as [ok k d|k|k|k]; destruct (Hbk k) as (hash & b & Hb & Hi & Hh & Hpos & Hf); simpl;
    unfold hashtable_insert, hashtable_remove, hashtable_get, hashtable_is_key_exists; rewrite Hb; simpl.
  - assert (Hk := ht_bucket_keys _ _ _ _ Hr Hi Hpos).
    assert (Ho := node_overwrite_spec k d b). destruct (node_overwrite k d b) as [[old b']|].
    + destruct Ho as (Ho & b1 & b2 & -> & ->). rewrite Ho in Hf. rewrite <- Hf. simpl.
      eexists. split; [done|]. split; [|split; [|done]].
      * apply (ht_refines_bucket _ m _ _ _ _ (ht_num_elements t) Hr Hi Hpos).
        -- intros k' d'. rewrite elem_of_app, elem_of_cons. intros [Hin|[[= -> ->]|Hin]];
             [by apply (Hk k' d'); set_solver|done|by apply (Hk k' d'); set_solver].
        -- intros rest. apply perm_overwritten.
      * simpl. by rewrite Hc, map_size_insert_Some by eauto.
    + rewrite Ho in Hf. rewrite <- Hf. destruct ok; simpl; [|by exists t].
      eexists. split; [done|]. split; [|split; [|done]].
      * apply (ht_refines_bucket _ m _ _ _ _ _ Hr Hi Hpos).
        -- intros k' d' [[= -> ->]|Hin]%elem_of_cons; [done|by eapply Hk].
        -- intros rest Hp. rewrite map_to_list_insert, <- Hp by done. done.
      * simpl. rewrite Hc, map_size_insert_None by done. unfold wrapu.
        rewrite Zplus_mod_idemp_l. f_equal. lia.
  - assert (Hk := ht_bucket_keys _ _ _ _ Hr Hi Hpos).
    assert (Ho := node_unlink_spec k b). destruct (node_unlink k b) as [[old b']|].
    + destruct Ho as (Ho & b1 & b2 & -> & ->). rewrite Ho in Hf. rewrite <- Hf. simpl.
      eexists. split; [done|]. split; [|split; [|done]].
      * apply (ht_refines_bucket _ m _ _ _ _ _ Hr Hi Hpos).
        -- intros k' d' Hin. apply (Hk k' d'). revert Hin. rewrite !elem_of_app, elem_of_cons. tauto.
        -- intros rest [_ Hp]%perm_found. done.
      * simpl. rewrite Hc, map_size_delete_Some by eauto. unfold wrapu.
        assert (0 < size m)%nat by (apply Nat.neq_0_lt_0; rewrite map_size_ne_0_lookup; eauto).
        rewrite Zminus_mod_idemp_l. f_equal. lia.
    + rewrite Ho in Hf. rewrite <- Hf. by exists t.
  - rewrite Hf. exists t. by destruct (m !! k).
  - rewrite Hf. exists t. by destruct (m !! k).
Qed.

Lemma hashtable_create_refines g sizeP :
  0 < sizeP -> 0 <= g < 2 ^ 64 ->
  ht_refines hashfunc (hashtable_create g sizeP) ∅ /\ ht_counts g (hashtable_create g sizeP) ∅.
Proof.
  intros Hs Hg. split; [constructor; simpl|].
  - done.
  - rewrite length_replicate. lia.
  - intros i b k d [-> _]%lookup_replicate_1. set_solver.
  - rewrite map_to_list_empty. generalize (Z.to_nat sizeP) as n. induction n; by simpl.
  - unfold ht_counts, wrapu. simpl. rewrite map_size_empty, Z.mod_small; lia.
Qed.

Lemma ht_run_refines g ops : forall t m,
  ht_refines hashfunc t m -> ht_counts g t m ->
  exists t', ht_run hashfunc t ops = Ok ((map_run m ops).1, t') /\
    ht_refines hashfunc t' (map_run m ops).2 /\ ht_counts g t' (map_run m ops).2.
Proof.
  induction ops as [|op ops IH]; intros t m Hr Hc; simpl; [by exists t|].
  destruct (ht_step_refines g t m op Hr Hc) as (t1 & -> & Hr1 & Hc1 & _).
  destruct (map_step m op) as [r m1]. simpl in *.
  destruct (IH t1 m1 Hr1 Hc1) as (t2 & -> & Hr2 & Hc2).
  destruct (map_run m1 ops) as [rs m2]. by exists t2.
Qed.

(** All elements are visited, in whatever order, once [num_elements] counts them. *)
Lemma apply_funct_loop_all (nodes : list (list hash_node_t)) : forall num total,
  0 <= num -> total = num + Z.of_nat (length (concat nodes)) -> total < 2 ^ 32 ->
  apply_funct_loop num nodes total = concat nodes.
Proof.
  induction nodes as [|b nodes IH]; intros num total Hn Ht Hb; simpl; [done|].
  simpl in Ht. rewrite length_app in Ht.
  destruct (Z.ltb_spec num total).
  - unfold wrapu. rewrite Z.mod_small by lia. rewrite (IH _ total); [done|lia|lia|done].
  - symmetry. apply nil_length_inv. rewrite length_app. lia.
Qed.

Lemma apply_funct_refines t m :
  ht_refines hashfunc t m -> ht_counts 0 t m -> Z.of_nat (size m) < 2 ^ 32 ->
  hashtable_apply_funct_on_elements t ≡ₚ map_to_list m.
Proof.
  intros [_ _ _ Hp] Hc Hb.
  assert (Hl : length (concat (ht_nodes t)) = size m)
    by (rewrite Hp; apply length_map_to_list).
  unfold hashtable_apply_funct_on_elements, ht_counts in *. rewrite Hc.
  unfold wrapu. rewrite Z.mod_small by lia. simpl.
  rewrite apply_funct_loop_all; [done|lia|lia|done].
Qed.

Lemma hashtable_destroy_refines t m :
  ht_refines hashfunc t m ->
  hashtable_destroy t ≡ₚ concat (map (fun nd : hash_node_t => free_data nd.2) (map_to_list m)).
Proof.
  intros [_ _ _ Hp]. unfold hashtable_destroy.
  induction Hp as [| |[] [] l|]; simpl; [done|by f_equiv|solve_Permutation|by etrans].
Qed.

(** ** Resizing *)
Lemma insert_fresh g t m k d :
  ht_refines hashfunc t m -> ht_counts g t m -> m !! k = None ->
  exists t', hashtable_insert hashfunc true t k d = Ok (HASH_TABLE_OK, t', []) /\
    ht_refines hashfunc t' (<[k := d]> m) /\ ht_counts g t' (<[k := d]> m) /\ ht_size t' = ht_size t.
Proof.
  intros Hr Hc Hk. destruct (ht_step_refines g t m (Ht_insert true k d) Hr Hc) as (t' & Hs & Ht).
  simpl in Hs, Ht. rewrite Hk in Hs, Ht. exists t'. split; [|done].
  destruct (hashtable_insert _ _ _ _ _) as [[[rc t1] fr]|]; simpl in Hs; by simplify_eq.
Qed.

(** Removing the head of a bucket. *)
Lemma remove_head t m n k d b :
  ht_refines hashfunc t m -> ht_counts 0 t m -> ht_nodes t !! n = Some ((k, d) :: b) ->
  exists t', hashtable_remove hashfunc t k = Ok (HASH_TABLE_OK, t', free_data d) /\
    ht_refines hashfunc t' (delete k m) /\ ht_counts 0 t' (delete k m) /\ m !! k = Some d /\
    ht_nodes t' = <[n := b]> (ht_nodes t) /\ ht_size t' = ht_size t.
Proof.
  intros Hr Hc Hn.
  destruct (ht_bucket_ok t m k Hr) as (hash & b' & Hb & Hi & Hh & Hf).
  assert (Z.of_nat n = hash) as Hnh
    by (rewrite Hh; symmetry; eapply (hr_bucket _ _ _ Hr); [done|by left]).
  assert (Z.to_nat hash = n) as Hzn by lia. rewrite Hzn in Hi.
  assert (Some b' = Some ((k, d) :: b)) as [= ->] by (etrans; [symmetry; exact Hi|exact Hn]).
  simpl in Hf. rewrite Z.eqb_refl in Hf.
  destruct (ht_step_refines 0 t m (Ht_remove k) Hr Hc) as (t' & Hs & Ht).
  simpl in Hs, Ht. rewrite <- Hf in Hs, Ht. simpl in Hs, Ht.
  assert (Hrm : hashtable_remove hashfunc t k =
    Ok (HASH_TABLE_OK, t <| ht_nodes := <[n := b]> (ht_nodes t) |>
                         <| ht_num_elements := wrapu 64 (ht_num_elements t - 1) |>, free_data d)).
  { unfold hashtable_remove. rewrite Hb. simpl. by rewrite Z.eqb_refl, Hzn. }
  rewrite Hrm in Hs. simpl in Hs. eexists. split; [exact Hrm|]. simplify_eq.
  destruct Ht as (H1 & H2 & H3). done.
Qed.

Lemma resize_nodes_ok g b : forall newtbl t m1 m2 n,
  ht_refines hashfunc newtbl m1 -> ht_counts g newtbl m1 ->
  ht_refines hashfunc t m2 -> ht_counts 0 t m2 ->
  m1 ##ₘ m2 -> ht_nodes t !! n = Some b ->
  exists newtbl' t' m1' m2',
    resize_nodes hashfunc (fun _ => true) b newtbl t =
      Ok (newtbl', t', concat (map (fun nd : hash_node_t => free_data nd.2) b)) /\
    ht_refines hashfunc newtbl' m1' /\ ht_counts g newtbl' m1' /\
    ht_refines hashfunc t' m2' /\ ht_counts 0 t' m2' /\
    m1' ##ₘ m2' /\ m1' ∪ m2' = m1 ∪ m2 /\ ht_nodes t' = <[n := []]> (ht_nodes t) /\
    ht_size newtbl' = ht_size newtbl /\ ht_size t' = ht_size t.
Proof.
  induction b as [|[k d] b IH]; intros newtbl t m1 m2 n H1 C1 H2 C2 Hd Hn; cbn [resize_nodes map concat].
  { exists newtbl, t, m1, m2. rewrite list_insert_id by done. repeat (split; [done|]). done. }
  destruct (remove_head t m2 n k d b H2 C2 Hn) as (t1 & Et & H2' & C2' & Hm2 & Hn' & Hs2).
  assert (Hm1 : m1 !! k = None) by by eapply map_disjoint_Some_r.
  destruct (insert_fresh g newtbl m1 k d H1 C1 Hm1) as (nt1 & En & H1' & C1' & Hs1).
  rewrite En. simpl. rewrite Et. simpl.
  assert (Hd' : <[k := d]> m1 ##ₘ delete k m2).
  { apply map_disjoint_insert_l. split; [apply lookup_delete_eq|]. by apply map_disjoint_delete_r. }
  assert (Hb : ht_nodes t1 !! n = Some b)
    by (rewrite Hn'; apply list_lookup_insert_eq; by eapply lookup_lt_Some).
  destruct (IH nt1 t1 _ _ n H1' C1' H2' C2' Hd' Hb)
    as (nt2 & t2 & m1'' & m2'' & -> & ? & ? & ? & ? & ? & Hu & Hnn & ? & ?).
  simpl. exists nt2, t2, m1'', m2''.
  rewrite Hnn, Hn', list_insert_insert_eq, Hu. repeat (split; [done|]).
  split; [|split; [done|split; congruence]].
  rewrite <- insert_union_l, insert_union_r by done. by rewrite insert_delete_id.
Qed.

Lemma resize_buckets_ok g fuel : forall n newtbl t m1 m2,
  ht_refines hashfunc newtbl m1 -> ht_counts g newtbl m1 ->
  ht_refines hashfunc t m2 -> ht_counts 0 t m2 -> m1 ##ₘ m2 ->
  (n + fuel = length (ht_nodes t))%nat ->
  (forall i, (i < n)%nat -> ht_nodes t !! i = Some []) ->
  exists newtbl' t' m1',
    resize_buckets hashfunc (fun _ => true) fuel (Z.of_nat n) newtbl t =
      Ok (newtbl', t', concat (map (fun nd : hash_node_t => free_data nd.2) (concat (drop n (ht_nodes t))))) /\
    ht_refines hashfunc newtbl' m1' /\ ht_counts g newtbl' m1' /\ m1' = m1 ∪ m2 /\
    ht_refines hashfunc t' ∅ /\ ht_counts 0 t' ∅ /\ ht_size newtbl' = ht_size newtbl.
Proof.
  induction fuel as [|fuel IH]; intros n newtbl t m1 m2 H1 C1 H2 C2 Hd Hl He; cbn [resize_buckets].
  - assert (Hnil : concat (ht_nodes t) = []).
    { apply concat_nil_Forall, Forall_lookup. intros i b Hb.
      assert (Hi := lookup_lt_Some _ _ _ Hb). rewrite He in Hb by lia. by simplify_eq. }
    assert (Hm2 : m2 = ∅).
    { apply map_to_list_empty_iff, Permutation_nil_r. rewrite <- (hr_perm _ _ _ H2). by rewrite Hnil. }
    subst m2. exists newtbl, t, m1. rewrite map_union_empty. rewrite drop_ge by lia.
    repeat (split; [done|]). done.
  - destruct (lookup_lt_is_Some_2 (ht_nodes t) n) as [b Hb]; [lia|].
    unfold array_get. destruct (Z.leb_spec 0 (Z.of_nat n)); [|lia].
    rewrite Nat2Z.id, Hb. simpl.
    destruct (resize_nodes_ok g b newtbl t m1 m2 n H1 C1 H2 C2 Hd Hb)
      as (nt1 & t1 & m1' & m2' & -> & H1' & C1' & H2' & C2' & Hd' & Hu & Hnn & Hs1 & Hs2).
    simpl. replace (Z.of_nat n + 1) with (Z.of_nat (S n)) by lia.
    destruct (IH (S n) nt1 t1 m1' m2' H1' C1' H2' C2' Hd')
      as (nt2 & t2 & m1'' & -> & ? & ? & -> & ? & ? & ?).
    + rewrite Hnn, length_insert. lia.
    + intros i Hi. rewrite Hnn. destruct (decide (i = n)) as [->|].
      * apply list_lookup_insert_eq. lia.
      * rewrite list_lookup_insert_ne by done. apply He. lia.
    + simpl. exists nt2, t2, (m1' ∪ m2'). rewrite <- Hu. split; [|repeat (split; [done|]); congruence].
      do 2 f_equal. rewrite (drop_S _ _ _ Hb). cbn [concat]. rewrite map_app, concat_app. f_equal.
      rewrite Hnn, drop_insert_lt by lia. done.
Qed.
End refinement.

(** C32: from creation on, any sequence of insertions, removals and lookups returns the codes, the
    data and the freed pointers that the same sequence returns on a finite map, whatever the
    hash function; the table then refines the map reached: destroying it frees the map's data,
    each once, and, when the count started from zero, applying a function visits each element
    of the map exactly once. *)
Theorem hashtable_refines (hashfunc : Z -> Z) (g sizeP : Z) (ops : list ht_op) :
  0 < sizeP -> 0 <= g < 2 ^ 64 ->
  exists t, ht_run hashfunc (hashtable_create g sizeP) ops = Ok ((map_run ∅ ops).1, t) /\
    ht_refines hashfunc t (map_run ∅ ops).2 /\
    hashtable_destroy t ≡ₚ concat (map (fun nd : hash_node_t => free_data nd.2) (map_to_list (map_run ∅ ops).2)) /\
    (g = 0 -> Z.of_nat (size (map_run ∅ ops).2) < 2 ^ 32 ->
     hashtable_apply_funct_on_elements t ≡ₚ map_to_list (map_run ∅ ops).2).
Proof.
  intros Hs Hg. destruct (hashtable_create_refines hashfunc g sizeP Hs Hg) as [Hr Hc].
  destruct (ht_run_refines hashfunc g ops _ _ Hr Hc) as (t & Ht & Hr' & Hc').
  exists t. split; [done|]. split; [done|]. split; [by eapply hashtable_destroy_refines|].
  intros -> Hsz. by eapply apply_funct_refines.
Qed.

(** When its allocations succeed, resizing keeps every key with its data pointer, in
    the right bucket of the new nodes, but it has called [freefunc] on the data of every
    element while moving it, and leaves [num_elements] at zero, so that applying a
    function on the elements visits none. *)
Theorem hashtable_resize_spec (hashfunc : Z -> Z) (g sizeP : Z) (t : hash_table_t) (m : gmap Z Z) :
  0 < sizeP -> 0 <= g < 2 ^ 64 -> ht_refines hashfunc t m -> ht_counts 0 t m ->
  exists t', hashtable_resize hashfunc g (fun _ => true) t sizeP = Ok (HASH_TABLE_OK, t', hashtable_destroy t) /\
    ht_size t' = sizeP /\ ht_refines hashfunc t' m /\ ht_num_elements t' = 0 /\
    hashtable_apply_funct_on_elements t' = [].
Proof.
  intros Hs Hg Hr Hc. destruct (hashtable_create_refines hashfunc g sizeP Hs Hg) as [Hr0 Hc0].
  assert (Hl := hr_length _ _ _ Hr).
  destruct (resize_buckets_ok hashfunc g (Z.to_nat (ht_size t)) 0 _ t ∅ m Hr0 Hc0 Hr Hc)
    as (nt & t1 & m1 & E & Hn & _ & -> & Ht & Hc1 & Hsz); [apply map_disjoint_empty_l|lia|lia|].
  rewrite map_empty_union in Hn. unfold ht_counts in Hc1. rewrite map_size_empty in Hc1.
  change (wrapu 64 (0 + Z.of_nat 0)) with 0 in Hc1.
  unfold hashtable_resize. change (Z.of_nat 0) with 0 in E. rewrite E. simpl.
  eexists. split; [reflexivity|]. simpl. split; [done|]. split; [|split; [done|]].
  - destruct Hn. by constructor.
  - unfold hashtable_apply_funct_on_elements. simpl. rewrite Hc1. by destruct (ht_nodes nt).
Qed.

Definition ht_demo : list ht_op :=
  [Ht_insert true 5 50; Ht_insert true 9 90; Ht_insert true 5 51; Ht_get 5; Ht_remove 9; Ht_get 9].
Lemma hashtable_refines_witness :
  (0 < 4) /\ exists t, ht_run (fun k => k) (hashtable_create 0 4) ht_demo =
    Ok ([(0, 0, []); (0, 0, []); (1, 0, [50]); (0, 51, []); (0, 0, [90]); (2, 0, [])], t).
Proof.
  split; [lia|].
  destruct (hashtable_refines (fun k => k) 0 4 ht_demo ltac:(lia) ltac:(lia)) as (t & Ht & _).
  exists t. rewrite Ht. vm_compute. reflexivity.
Defined.

Lemma hashtable_resize_spec_witness :
  exists t', hashtable_resize (fun k => k) 0 (fun _ => true)
      (Mk_hash_table 2 2 [[(4, 40)]; [(3, 30)]]) 8 = Ok (HASH_TABLE_OK, t', [40; 30]) /\
    ht_num_elements t' = 0.
Proof.
  destruct (hashtable_resize_spec (fun k => k) 0 8 (Mk_hash_table 2 2 [[(4, 40)]; [(3, 30)]])
    {[4 := 40; 3 := 30]}) as (t' & Ht & _ & _ & Hn & _); [lia|lia| |reflexivity|].
  - constructor; simpl; [lia|lia| |vm_compute; solve_Permutation].
    intros [|[|i]] b k d Hb Hin; simplify_eq/=;
      apply list_elem_of_singleton in Hin as [= -> ->]; reflexivity.
  - exists t'. split; [|exact Hn]. exact Ht.
Defined.

(** ** What the RLC sublayer asks of a table

    A get, an insertion and a removal that act on a finite map.  [tab_get] returns the code and the
    data; the other two the code, the table and the data freed. *)
Class Table (T : Type) := {
  tab_new : T;
  tab_get : T -> Z -> res (Z * Z);
  tab_insert : bool -> T -> Z -> Z -> res (Z * T * list Z);
  tab_remove : T -> Z -> res (Z * T * list Z);
  tab_data : T -> list Z;
  tab_refines : T -> gmap Z Z -> Prop;
  tab_new_refines : tab_refines tab_new ∅;
  tab_get_spec t m k :
    tab_refines t m ->
    tab_get t k = Ok (match m !! k with Some d => (HASH_TABLE_OK, d) | None => (HASH_TABLE_KEY_NOT_EXISTS, 0) end);
  tab_insert_spec ok t m k d :
    tab_refines t m -> m !! k <> None \/ ok = true ->
    exists t', tab_insert ok t k d =
      Ok (match m !! k with
          | Some old => (HASH_TABLE_INSERT_OVERWRITTEN_DATA, t', free_data old)
          | None => (HASH_TABLE_OK, t', [])
          end) /\ tab_refines t' (<[k := d]> m);
  tab_remove_spec t m k :
    tab_refines t m ->
    exists t', tab_remove t k =
      Ok (match m !! k with
          | Some old => (HASH_TABLE_OK, t', free_data old)
          | None => (HASH_TABLE_KEY_NOT_EXISTS, t', [])
          end) /\ tab_refines t' (delete k m);
  tab_data_spec t m :
    tab_refines t m -> tab_data t ≡ₚ concat (map (fun nd : hash_node_t => free_data nd.2) (map_to_list m))
}.

(** [def_hashfunc]. *)
Definition def_hashfunc (keyP : Z) : Z := keyP.

(** [rlc_module_init]: [(maxDRB + 2) * 16] buckets and [def_hashfunc]. *)
#[export] Program Instance hash_table_table : Table hash_table_t := {|
  tab_new := hashtable_create 0 208;
  tab_get := hashtable_get def_hashfunc;
  tab_insert := hashtable_insert def_hashfunc;
  tab_remove := hashtable_remove def_hashfunc;
  tab_data := hashtable_destroy;
  tab_refines t m := ht_refines def_hashfunc t m /\ ht_counts 0 t m
|}.
Next Obligation. apply hashtable_create_refines; lia. Qed.
Next Obligation.
  intros t m k [H _]. destruct (ht_bucket_ok _ _ _ k H) as (h & b & E & _ & _ & Hf).
  unfold hashtable_get. rewrite E. simpl. by rewrite Hf.
Qed.
Next Obligation.
  intros ok t m k d [H Hc] Hok.
  destruct (ht_step_refines def_hashfunc 0 t m (Ht_insert ok k d) H Hc) as (t' & E & H' & Hc' & _).
  simpl in E, H', Hc'. exists t'.
  destruct (hashtable_insert def_hashfunc ok t k d) as [[[rc t1] fr]|]; simpl in E; [|done].
  destruct (m !! k) as [old|]; simpl in *; [by simplify_eq|].
  destruct Hok as [Hok| ->]; [done|]. simpl in *. by simplify_eq.
Qed.
Next Obligation.
  intros t m k [H Hc].
  destruct (ht_step_refines def_hashfunc 0 t m (Ht_remove k) H Hc) as (t' & E & H' & Hc' & _).
  simpl in E, H', Hc'. exists t'.
  destruct (hashtable_remove def_hashfunc t k) as [[[rc t1] fr]|]; simpl in E; [|done].
  destruct (m !! k) as [old|] eqn:Hk; simpl in *; [by simplify_eq|].
  rewrite delete_id by done. by simplify_eq.
Qed.
Next Obligation. intros t m [H _]. by eapply hashtable_destroy_refines. Qed.
