(* ===== verification/RlcAmTypes.v ===== *)
(** * Data of the AM RLC entity (rlc_am_constants.h, rlc_am_structs.h, rlc_am_entity.h)

    One record per structure, one constant per macro.  A bit-field of one bit
    is a [bool]; every other integer is the [Z] it denotes, kept in the range
    of its C type by the wraps written at the assignments.  Fields whose C name
    is used by several structures carry the prefix of their structure: [sdu_]
    (input SDUs), [pdu_] (transmitted PDUs), [pi_] (decoded headers), [st_]
    (decoded STATUS PDUs).  A pointer into a memory block is the offset in it;
    the block is the list of its bytes, [None] when the pointer is NULL. *)

From S2P Require Import Prelude.

(** ** Constants *)
Definition RLC_AM_SN_MODULO : Z := 1024.
Definition RLC_AM_SN_MASK : Z := 1023.
Definition RLC_AM_WINDOW_SIZE : Z := 512.
Definition RLC_AM_SDU_CONTROL_BUFFER_SIZE : Z := 1024.
Definition RLC_AM_PDU_RETRANSMISSION_BUFFER_SIZE : Z := RLC_AM_WINDOW_SIZE.
Definition RLC_AM_HEADER_MIN_SIZE : Z := 2.
Definition RLC_AM_PDU_SEGMENT_HEADER_MIN_SIZE : Z := 4.
Definition RLC_AM_MIN_SEGMENT_SIZE_REQUEST : Z := 8.
Definition RLC_AM_MAX_SDU_IN_PDU : Z := 128.
Definition RLC_AM_MAX_SDU_FRAGMENTS : Z := 32.
Definition RLC_AM_MAX_NACK_IN_STATUS_PDU : Z := 1023.
Definition RLC_AM_MAX_HOLES_REPORT_PER_PDU : Z := 16.
Definition RLC_AM_POLL_PDU_INFINITE : Z := 65535.
Definition RLC_AM_POLL_BYTE_INFINITE : Z := 4294967295.
Definition RLC_SN_UNDEFINED : Z := 65535.
Definition RLC_SDU_MAX_SIZE : Z := 9000.

Definition RLC_AM_NEXT_SN (sn : Z) : Z := Z.land (sn + 1) RLC_AM_SN_MASK.
Definition RLC_AM_PREV_SN (sn : Z) : Z := Z.land (sn + RLC_AM_SN_MODULO - 1) RLC_AM_SN_MASK.
Definition RLC_DIFF_SN (sn snref modulus : Z) : Z := Z.land (sn + modulus - snref) (modulus - 1).
Definition RLC_SN_IN_WINDOW (sn snref modulus : Z) : bool :=
  RLC_DIFF_SN sn snref modulus <? Z.shiftr modulus 1.
Definition RLC_AM_DIFF_SN (sn snref : Z) : Z := RLC_DIFF_SN sn snref RLC_AM_SN_MODULO.
Definition RLC_AM_SN_IN_WINDOW (sn snref : Z) : bool :=
  RLC_SN_IN_WINDOW sn snref RLC_AM_SN_MODULO.

Definition RLC_SET_BIT (x offset : Z) : Z := Z.lor x (Z.shiftl 1 offset).
Definition RLC_GET_BIT (x offset : Z) : Z := Z.shiftr (Z.land x (Z.shiftl 1 offset)) offset.
Definition RLC_CLEAR_BIT (x offset : Z) : Z := Z.land x (Z.lnot (Z.shiftl 1 offset)).
Definition RLC_SET_EVENT (x event : Z) : Z := Z.lor x event.
Definition RLC_GET_EVENT (x event : Z) : Z := Z.land x event.
Definition RLC_CLEAR_EVENT (x event : Z) : Z := Z.land x (Z.lnot event).

Definition RLC_AM_SN_BITS : Z := 10.
Definition RLC_AM_PDU_D_C_BITS : Z := 1.
Definition RLC_AM_PDU_E_BITS : Z := 1.
Definition RLC_AM_PDU_FI_BITS : Z := 2.
Definition RLC_AM_PDU_POLL_BITS : Z := 1.
Definition RLC_AM_PDU_RF_BITS : Z := 1.
Definition RLC_AM_LI_BITS : Z := 11.
Definition RLC_AM_LI_MASK : Z := 2047.
Definition RLC_AM_PDU_E_OFFSET : Z := 2.
Definition RLC_AM_PDU_FI_OFFSET : Z := RLC_AM_PDU_E_OFFSET + RLC_AM_PDU_E_BITS.
Definition RLC_AM_PDU_POLL_OFFSET : Z := RLC_AM_PDU_FI_OFFSET + RLC_AM_PDU_FI_BITS.
Definition RLC_AM_PDU_RF_OFFSET : Z := RLC_AM_PDU_POLL_OFFSET + RLC_AM_PDU_POLL_BITS.
Definition RLC_AM_PDU_D_C_OFFSET : Z := RLC_AM_PDU_RF_OFFSET + RLC_AM_PDU_RF_BITS.
Definition RLC_AM_PDU_GET_FI_START (px : Z) : Z := RLC_GET_BIT px (RLC_AM_PDU_FI_OFFSET + 1).
Definition RLC_AM_PDU_GET_FI_END (px : Z) : Z := RLC_GET_BIT px RLC_AM_PDU_FI_OFFSET.
Definition RLC_AM_PDU_GET_LI (x offset : Z) : Z := Z.land (Z.shiftr x offset) RLC_AM_LI_MASK.
Definition RLC_AM_PDU_SET_LI (x li offset : Z) : Z :=
  Z.lor x (Z.shiftl (Z.land li RLC_AM_LI_MASK) offset).
Definition RLC_AM_PDU_SET_E (px : Z) : Z := RLC_SET_BIT px RLC_AM_PDU_E_OFFSET.
Definition RLC_AM_PDU_SET_D_C (px : Z) : Z := RLC_SET_BIT px RLC_AM_PDU_D_C_OFFSET.
Definition RLC_AM_PDU_SET_RF (px : Z) : Z := RLC_SET_BIT px RLC_AM_PDU_RF_OFFSET.
Definition RLC_AM_PDU_SET_POLL (px : Z) : Z := RLC_SET_BIT px RLC_AM_PDU_POLL_OFFSET.
Definition RLC_AM_PDU_CLEAR_POLL (px : Z) : Z := RLC_CLEAR_BIT px RLC_AM_PDU_POLL_OFFSET.
Definition RLC_AM_PDU_SEGMENT_SO_LENGTH : Z := 15.
Definition RLC_AM_PDU_SEGMENT_SO_BYTES : Z := 2.
Definition RLC_AM_PDU_LSF_OFFSET : Z := 0 + RLC_AM_PDU_SEGMENT_SO_LENGTH.
Definition RLC_AM_PDU_SET_LSF (px : Z) : Z := RLC_SET_BIT px RLC_AM_PDU_LSF_OFFSET.
Definition RLC_AM_HEADER_LI_LENGTH (li : Z) : Z := li + Z.shiftr li 1 + Z.land li 1.
Definition RLC_AM_PDU_SEGMENT_HEADER_SIZE (numLis : Z) : Z :=
  RLC_AM_PDU_SEGMENT_HEADER_MIN_SIZE + RLC_AM_HEADER_LI_LENGTH numLis.

Definition RLC_AM_STATUS_PDU_CPT_STATUS : Z := 0.
Definition RLC_AM_STATUS_PDU_CPT_OFFSET : Z := 4.
Definition RLC_AM_STATUS_PDU_CPT_LENGTH : Z := 3.
Definition RLC_AM_STATUS_PDU_ACK_SN_OFFSET : Z := 2.
Definition RLC_AM_STATUS_PDU_SO_LENGTH : Z := 15.
Definition RLC_AM_STATUS_PDU_SO_END_ALL_BYTES : Z := 32767.
Definition RLC_AM_STATUS_NOT_TRIGGERED : Z := 0.
Definition RLC_AM_STATUS_TRIGGERED_POLL : Z := 1.
Definition RLC_AM_STATUS_TRIGGERED_T_REORDERING : Z := 2.
Definition RLC_AM_STATUS_TRIGGERED_DELAYED : Z := 16.
Definition RLC_AM_STATUS_PROHIBIT : Z := 32.
Definition RLC_AM_STATUS_NO_TX_MASK : Z :=
  Z.lor RLC_AM_STATUS_PROHIBIT RLC_AM_STATUS_TRIGGERED_DELAYED.

(** [protocol_state_e] (rlc_def.h). *)
Inductive rlc_protocol_state_t :=
| RLC_NULL_STATE
| RLC_DATA_TRANSFER_READY_STATE
| RLC_RESET_PENDING_STATE
| RLC_RESET_AND_SUSPEND_STATE
| RLC_LOCAL_SUSPEND_STATE.

Definition RLC_DC_CONTROL_PDU : Z := 0.
Definition RLC_DC_DATA_PDU : Z := 128.
Definition RLC_DC_MASK : Z := 128.

(** ** Call context ([protocol_ctxt_t]): frame and subframe of the call. *)
Record protocol_ctxt_t := Mk_ctxt { frame : Z; subframe : Z; enb_flag : bool }.
(** [PROTOCOL_CTXT_TIME_MILLI_SECONDS], in 32-bit unsigned arithmetic. *)
Definition time_ms (c : protocol_ctxt_t) : Z := u32 (frame c * 10 + subframe c).

(** ** Input SDUs *)
Record sdu_management_flags_t := Mk_sdu_flags {
  discarded : bool;
  segmented : bool;
  segmentation_in_progress : bool;
  no_new_sdu_segmented_in_last_pdu : bool;
  transmitted_successfully : bool
}.
#[export] Instance eta_sdu_flags : Eta sdu_management_flags_t :=
  fun r => Mk_sdu_flags (discarded r) (segmented r) (segmentation_in_progress r)
    (no_new_sdu_segmented_in_last_pdu r) (transmitted_successfully r).

(** [sdu_mem_block] holds the SDU's bytes from [first_byte] on. *)
Record rlc_am_tx_sdu_management_t := Mk_tx_sdu {
  sdu_mem_block : option (list Z);
  sdu_creation_time : Z;
  mui : Z;
  sdu_remaining_size : Z;
  sdu_segmented_size : Z;
  sdu_size : Z;
  pdus_index : list Z;
  nb_pdus : Z;
  nb_pdus_ack : Z;
  sdu_flags : sdu_management_flags_t
}.
#[export] Instance eta_tx_sdu : Eta rlc_am_tx_sdu_management_t :=
  fun r => Mk_tx_sdu (sdu_mem_block r) (sdu_creation_time r) (mui r)
    (sdu_remaining_size r) (sdu_segmented_size r) (sdu_size r) (pdus_index r)
    (nb_pdus r) (nb_pdus_ack r) (sdu_flags r).

(** The structure after [calloc] or [memset 0]. *)
Definition tx_sdu_zero : rlc_am_tx_sdu_management_t :=
  Mk_tx_sdu None 0 0 0 0 0 (replicate 32 0) 0 0 (Mk_sdu_flags false false false false false).

(** ** Transmitted PDUs *)
Record pdu_management_flags_t := Mk_pdu_flags {
  transmitted : bool;
  ack : bool;
  nack : bool;
  retransmit : bool;
  max_retransmit : bool
}.
#[export] Instance eta_pdu_flags : Eta pdu_management_flags_t :=
  fun r => Mk_pdu_flags (transmitted r) (ack r) (nack r) (retransmit r) (max_retransmit r).

(** [pdu_mem_block] holds the bytes from [first_byte] on, [pdu_payload] is the
    offset of [payload] in it. *)
Record rlc_am_tx_data_pdu_management_t := Mk_tx_pdu {
  pdu_mem_block : option (list Z);
  pdu_payload : Z;
  sdus_index : list Z;
  last_nack_time : Z;
  hole_so_start : list Z;
  hole_so_stop : list Z;
  num_holes : Z;
  retx_hole_index : Z;
  header_and_payload_size : Z;
  pdu_payload_size : Z;
  retx_payload_size : Z;
  pdu_sn : Z;
  nack_so_start : Z;
  nack_so_stop : Z;
  nb_sdus : Z;
  retx_count : Z;
  retx_count_next : Z;
  pdu_flags : pdu_management_flags_t
}.
#[export] Instance eta_tx_pdu : Eta rlc_am_tx_data_pdu_management_t :=
  fun r => Mk_tx_pdu (pdu_mem_block r) (pdu_payload r) (sdus_index r) (last_nack_time r)
    (hole_so_start r) (hole_so_stop r) (num_holes r) (retx_hole_index r)
    (header_and_payload_size r) (pdu_payload_size r) (retx_payload_size r) (pdu_sn r)
    (nack_so_start r) (nack_so_stop r) (nb_sdus r) (retx_count r) (retx_count_next r)
    (pdu_flags r).
Definition tx_pdu_zero : rlc_am_tx_data_pdu_management_t :=
  Mk_tx_pdu None 0 (replicate 128 0) 0 (replicate 16 0) (replicate 16 0) 0 0 0 0 0 0 0 0 0 0 0
    (Mk_pdu_flags false false false false false).

(** ** Decoded STATUS PDUs *)
Record nack_sn_t := Mk_nack {
  nack_sn : Z;
  nack_e1 : Z;
  nack_e2 : Z;
  so_start : Z;
  so_end : Z
}.
#[export] Instance eta_nack : Eta nack_sn_t :=
  fun r => Mk_nack (nack_sn r) (nack_e1 r) (nack_e2 r) (so_start r) (so_end r).
Definition nack_zero : nack_sn_t := Mk_nack 0 0 0 0 0.

Record rlc_am_control_pdu_info_t := Mk_control_pdu_info {
  st_d_c : Z;
  st_cpt : Z;
  ack_sn : Z;
  st_e1 : Z;
  num_nack : Z;
  nack_list : list nack_sn_t
}.
#[export] Instance eta_control_pdu_info : Eta rlc_am_control_pdu_info_t :=
  fun r => Mk_control_pdu_info (st_d_c r) (st_cpt r) (ack_sn r) (st_e1 r) (num_nack r)
    (nack_list r).
Definition control_pdu_info_zero : rlc_am_control_pdu_info_t :=
  Mk_control_pdu_info 0 0 0 0 0 (replicate 1023 nack_zero).

(** ** Decoded data PDU headers; [pi_payload] is the bytes at [payload]. *)
Record rlc_am_pdu_info_t := Mk_pdu_info {
  pi_d_c : Z;
  pi_rf : Z;
  pi_p : Z;
  pi_fi : Z;
  pi_e : Z;
  pi_sn : Z;
  pi_lsf : Z;
  pi_so : Z;
  pi_num_li : Z;
  pi_li_list : list Z;
  pi_hidden_size : Z;
  pi_payload : list Z;
  pi_payload_size : Z;
  pi_header_size : Z
}.
#[export] Instance eta_pdu_info : Eta rlc_am_pdu_info_t :=
  fun r => Mk_pdu_info (pi_d_c r) (pi_rf r) (pi_p r) (pi_fi r) (pi_e r) (pi_sn r) (pi_lsf r)
    (pi_so r) (pi_num_li r) (pi_li_list r) (pi_hidden_size r) (pi_payload r)
    (pi_payload_size r) (pi_header_size r).
Definition pdu_info_zero : rlc_am_pdu_info_t :=
  Mk_pdu_info 0 0 0 0 0 0 0 0 0 (replicate 128 0) 0 [] 0 0.

(** ** Timers *)
Record rlc_am_timer_t := Mk_timer {
  ms_time_out : Z;
  ms_start : Z;
  ms_duration : Z;
  running : bool;
  timed_out : bool
}.
#[export] Instance eta_timer : Eta rlc_am_timer_t :=
  fun r => Mk_timer (ms_time_out r) (ms_start r) (ms_duration r) (running r) (timed_out r).
Definition timer_zero : rlc_am_timer_t := Mk_timer 0 0 0 false false.

(** ** Received PDUs *)
Inductive rlc_am_rx_segment_reassemble_info_t :=
| RLC_AM_RX_PDU_SEGMENT_REASSEMBLE_NO
| RLC_AM_RX_PDU_SEGMENT_REASSEMBLE_PENDING
| RLC_AM_RX_PDU_SEGMENT_REASSEMBLED.

Record rlc_am_rx_pdu_management_t := Mk_rx_pdu {
  pdu_info : rlc_am_pdu_info_t;
  all_segments_received : Z;
  segment_reassembled : rlc_am_rx_segment_reassemble_info_t
}.
#[export] Instance eta_rx_pdu : Eta rlc_am_rx_pdu_management_t :=
  fun r => Mk_rx_pdu (pdu_info r) (all_segments_received r) (segment_reassembled r).

Inductive rlc_am_rx_pdu_status_t :=
| RLC_AM_DATA_PDU_STATUS_OK
| RLC_AM_DATA_PDU_STATUS_SN_OUTSIDE_WINDOW
| RLC_AM_DATA_PDU_STATUS_SN_DUPLICATE
| RLC_AM_DATA_PDU_STATUS_AM_SEGMENT_DUPLICATE
| RLC_AM_DATA_PDU_STATUS_BUFFER_FULL
| RLC_AM_DATA_PDU_STATUS_HEADER_ERROR
| RLC_AM_DATA_PDU_STATUS_INVALID_BEARER
| RLC_AM_DATA_PDU_STATUS_WRONG_STATE.

(** Transport blocks: bytes and announced size. *)
Record mac_tb := Mk_mac_tb { data_ptr : list Z; tb_size : Z }.

(** ** Answers to MAC (mac_rlc_primitives.h) *)

(** [struct mac_data_req]; [buffer_occupancy_in_bytes] is only set for an eNB. *)
Record mac_data_req := Mk_mac_data_req {
  mdr_data : list mac_tb;
  mdr_buffer_occupancy : option Z;
  mdr_protocol_state : rlc_protocol_state_t
}.

Record mac_status_resp := Mk_status_resp {
  buffer_occupancy_in_bytes : Z;
  buffer_occupancy_in_pdus : Z;
  head_sdu_creation_time : Z;
  head_sdu_remaining_size_to_send : Z;
  head_sdu_is_segmented : bool;
  resp_protocol_state : rlc_protocol_state_t
}.
#[export] Instance eta_status_resp : Eta mac_status_resp :=
  fun x => Mk_status_resp (buffer_occupancy_in_bytes x) (buffer_occupancy_in_pdus x)
    (head_sdu_creation_time x) (head_sdu_remaining_size_to_send x) (head_sdu_is_segmented x)
    (resp_protocol_state x).

#[export] Instance rlc_protocol_state_eq_dec : EqDecision rlc_protocol_state_t.
Proof. solve_decision. Defined.
#[export] Instance reassemble_info_eq_dec : EqDecision rlc_am_rx_segment_reassemble_info_t.
Proof. solve_decision. Defined.
#[export] Instance rx_pdu_status_eq_dec : EqDecision rlc_am_rx_pdu_status_t.
Proof. solve_decision. Defined.
#[export] Instance nack_eq_dec : EqDecision nack_sn_t.
Proof. solve_decision. Defined.
