(* ===== verification/RlcAmEntity.v ===== *)
(** * The AM RLC entity ([rlc_am_entity_t], rlc_am_entity.h)

    The entity's record, without the mutex and with the statistics grouped.
    [input_sdus] is [None] before the first [rlc_am_init] and after
    [rlc_am_cleanup] (a NULL pointer), otherwise it is the array of 1024 SDUs;
    [tx_data_pdu_buffer] is the array of 512 transmitted PDUs.  The three
    [list_t] of transport blocks and the [list2_t] of received PDUs are Rocq
    lists: MemList shows that the C lists do on their elements what these do.
    [upper_layer] records, oldest first, the calls of the entity to the layer
    above: the SDUs delivered ([rlc_data_ind]) and the confirmations that
    [rlc_data_conf] forwards to RRC ([rlc_rrc_data_conf]). *)

From S2P Require Import Prelude RlcAmTypes.

(** Calls to the layer above. *)
Inductive rlc_event :=
| Rlc_data_ind (sdu : list Z)
| Rlc_rrc_data_conf (rb_idP muiP statusP : Z).

(** The counters; [unsigned int]. *)
Record rlc_am_stats := Mk_stats {
  stat_tx_pdcp_sdu : Z;
  stat_tx_pdcp_bytes : Z;
  stat_tx_pdcp_sdu_discarded : Z;
  stat_tx_pdcp_bytes_discarded : Z;
  stat_tx_data_pdu : Z;
  stat_tx_data_bytes : Z;
  stat_tx_retransmit_pdu_by_status : Z;
  stat_tx_retransmit_bytes_by_status : Z;
  stat_tx_retransmit_pdu : Z;
  stat_tx_retransmit_bytes : Z;
  stat_tx_control_pdu : Z;
  stat_tx_control_bytes : Z;
  stat_rx_pdcp_sdu : Z;
  stat_rx_pdcp_bytes : Z;
  stat_rx_data_pdus_duplicate : Z;
  stat_rx_data_bytes_duplicate : Z;
  stat_rx_data_pdu : Z;
  stat_rx_data_bytes : Z;
  stat_rx_data_pdu_dropped : Z;
  stat_rx_data_bytes_dropped : Z;
  stat_rx_data_pdu_out_of_window : Z;
  stat_rx_data_bytes_out_of_window : Z;
  stat_rx_control_pdu : Z;
  stat_rx_control_bytes : Z;
  stat_timer_reordering_timed_out : Z;
  stat_timer_poll_retransmit_timed_out : Z;
  stat_timer_status_prohibit_timed_out : Z
}.
#[export] Instance eta_stats : Eta rlc_am_stats :=
  fun r => Mk_stats
    (stat_tx_pdcp_sdu r) (stat_tx_pdcp_bytes r) (stat_tx_pdcp_sdu_discarded r) 
    (stat_tx_pdcp_bytes_discarded r) (stat_tx_data_pdu r) (stat_tx_data_bytes r) 
    (stat_tx_retransmit_pdu_by_status r) (stat_tx_retransmit_bytes_by_status r) 
    (stat_tx_retransmit_pdu r) (stat_tx_retransmit_bytes r) (stat_tx_control_pdu r) 
    (stat_tx_control_bytes r) (stat_rx_pdcp_sdu r) (stat_rx_pdcp_bytes r) 
    (stat_rx_data_pdus_duplicate r) (stat_rx_data_bytes_duplicate r) 
    (stat_rx_data_pdu r) (stat_rx_data_bytes r) (stat_rx_data_pdu_dropped r) 
    (stat_rx_data_bytes_dropped r) (stat_rx_data_pdu_out_of_window r) 
    (stat_rx_data_bytes_out_of_window r) (stat_rx_control_pdu r) 
    (stat_rx_control_bytes r) (stat_timer_reordering_timed_out r) 
    (stat_timer_poll_retransmit_timed_out r) (stat_timer_status_prohibit_timed_out r).

Record rlc_am_entity_t := Mk_entity {
  rb_id : Z;
  channel_id : Z;
  is_data_plane : bool;
  sdu_buffer_occupancy : Z;
  status_buffer_occupancy : Z;
  control_pdu_info : rlc_am_control_pdu_info_t;
  input_sdus : option (list rlc_am_tx_sdu_management_t);
  nb_sdu : Z;
  nb_sdu_no_segmented : Z;
  next_sdu_index : Z;
  current_sdu_index : Z;
  tx_data_pdu_buffer : list rlc_am_tx_data_pdu_management_t;
  retrans_num_pdus : Z;
  retrans_num_bytes_to_retransmit : Z;
  force_poll : bool;
  receiver_buffer : list rlc_am_rx_pdu_management_t;
  output_sdu_in_construction : option (list Z);
  output_sdu_size_to_write : Z;
  protocol_state : rlc_protocol_state_t;
  vt_a : Z;
  vt_ms : Z;
  vt_s : Z;
  poll_sn : Z;
  vr_r : Z;
  vr_mr : Z;
  vr_x : Z;
  vr_ms : Z;
  vr_h : Z;
  t_poll_retransmit : rlc_am_timer_t;
  t_reordering : rlc_am_timer_t;
  t_status_prohibit : rlc_am_timer_t;
  c_pdu_without_poll : Z;
  c_byte_without_poll : Z;
  max_retx_threshold : Z;
  poll_pdu : Z;
  poll_byte : Z;
  stats : rlc_am_stats;
  nb_bytes_requested_by_mac : Z;
  pdus_to_mac_layer : list mac_tb;
  control_pdu_list : list mac_tb;
  segmentation_pdu_list : list mac_tb;
  status_requested : Z;
  sn_status_triggered_delayed : Z;
  last_absolute_subframe_status_indication : Z;
  initialized : bool;
  configured : bool;
  upper_layer : list rlc_event
}.
#[export] Instance eta_entity : Eta rlc_am_entity_t :=
  fun r => Mk_entity
    (rb_id r) (channel_id r) (is_data_plane r) (sdu_buffer_occupancy r) 
    (status_buffer_occupancy r) (control_pdu_info r) (input_sdus r) (nb_sdu r) 
    (nb_sdu_no_segmented r) (next_sdu_index r) (current_sdu_index r) 
    (tx_data_pdu_buffer r) (retrans_num_pdus r) (retrans_num_bytes_to_retransmit r) 
    (force_poll r) (receiver_buffer r) (output_sdu_in_construction r) 
    (output_sdu_size_to_write r) (protocol_state r) (vt_a r) (vt_ms r) (vt_s r) 
    (poll_sn r) (vr_r r) (vr_mr r) (vr_x r) (vr_ms r) (vr_h r) (t_poll_retransmit r) 
    (t_reordering r) (t_status_prohibit r) (c_pdu_without_poll r) 
    (c_byte_without_poll r) (max_retx_threshold r) (poll_pdu r) (poll_byte r) (stats r) 
    (nb_bytes_requested_by_mac r) (pdus_to_mac_layer r) (control_pdu_list r) 
    (segmentation_pdu_list r) (status_requested r) (sn_status_triggered_delayed r) 
    (last_absolute_subframe_status_indication r) (initialized r) (configured r) 
    (upper_layer r).

(** Counters are incremented modulo 2^32. *)
Definition stat_add (proj : rlc_am_stats -> Z) `{!Setter proj} (n : Z)
    (r : rlc_am_entity_t) : rlc_am_entity_t :=
  r <| stats := update_field (proj := proj) (fun x => u32 (x + n)) (stats r) |>.

(** All bytes zero: [memset(rlc_pP, 0, sizeof(rlc_am_entity_t))]. *)
Definition stats_zero : rlc_am_stats :=
  Mk_stats 0 0 0 0 0 0 0 0 0 0 0 0 0 0 0 0 0 0 0 0 0 0 0 0 0 0 0.
Definition entity_zero : rlc_am_entity_t :=
  Mk_entity 0 0 false 0 0 control_pdu_info_zero
    None 0 0 0 0 [] 0 0 false [] None 0
    RLC_NULL_STATE 0 0 0 0 0 0 0 0 0 timer_zero timer_zero timer_zero 0 0 0 0 0
    stats_zero 0 [] [] [] 0 0 0 false false [].
