(* ===== verification/RlcAmWindows.v ===== *)
(** * Sequence number windows (rlc_am_windows.c)

    The seven comparisons of 10-bit sequence numbers relative to the edge of
    the transmitting ([vt_a]) or receiving ([vr_r]) window, with the 16-bit
    unsigned subtraction of the source, and their meaning as circular
    intervals and orders. *)

From S2P Require Import Prelude RlcAmTypes RlcAmEntity.

(** [((rlc_usn_t)(a - b)) % RLC_AM_SN_MODULO] *)
Definition shifted (a b : Z) : Z := u16 (a - b) mod RLC_AM_SN_MODULO.

Definition rlc_am_in_tx_window (rlc_pP : rlc_am_entity_t) (snP : Z) : bool :=
  if snP >=? RLC_AM_SN_MODULO then false
  else
    let shifted_sn := shifted snP (vt_a rlc_pP) in
    let upper_bound := shifted (vt_ms rlc_pP) (vt_a rlc_pP) in
    if (shifted_sn >=? 0) && (shifted_sn <? upper_bound) then true else false.

Definition rlc_am_in_rx_window (rlc_pP : rlc_am_entity_t) (snP : Z) : bool :=
  if snP >=? RLC_AM_SN_MODULO then false
  else
    let shifted_sn := shifted snP (vr_r rlc_pP) in
    let upper_bound := shifted (vr_mr rlc_pP) (vr_r rlc_pP) in
    if (shifted_sn >=? 0) && (shifted_sn <? upper_bound) then true else false.

Definition rlc_am_sn_gte_vr_h (rlc_pP : rlc_am_entity_t) (snP : Z) : bool :=
  if snP >=? RLC_AM_SN_MODULO then false
  else
    let shifted_sn := shifted snP (vr_r rlc_pP) in
    let upper_bound := shifted (vr_h rlc_pP) (vr_r rlc_pP) in
    if shifted_sn >=? upper_bound then true else false.

Definition rlc_am_sn_gte_vr_x (rlc_pP : rlc_am_entity_t) (snP : Z) : bool :=
  if snP >=? RLC_AM_SN_MODULO then false
  else
    let shifted_sn := shifted snP (vr_r rlc_pP) in
    let upper_bound := shifted (vr_x rlc_pP) (vr_r rlc_pP) in
    if shifted_sn >=? upper_bound then true else false.

Definition rlc_am_sn_gt_vr_ms (rlc_pP : rlc_am_entity_t) (snP : Z) : bool :=
  if snP >=? RLC_AM_SN_MODULO then false
  else
    let shifted_sn := shifted snP (vr_r rlc_pP) in
    let upper_bound := shifted (vr_ms rlc_pP) (vr_r rlc_pP) in
    if shifted_sn >? upper_bound then true else false.

Definition rlc_am_tx_sn1_gt_sn2 (rlc_pP : rlc_am_entity_t) (sn1P sn2P : Z) : bool :=
  if (sn1P >=? RLC_AM_SN_MODULO) || (sn2P >=? RLC_AM_SN_MODULO) then false
  else
    let shifted_sn := shifted sn1P (vt_a rlc_pP) in
    let upper_bound := shifted sn2P (vt_a rlc_pP) in
    if shifted_sn >? upper_bound then true else false.

Definition rlc_am_rx_sn1_gt_sn2 (rlc_pP : rlc_am_entity_t) (sn1P sn2P : Z) : bool :=
  if (sn1P >=? RLC_AM_SN_MODULO) || (sn2P >=? RLC_AM_SN_MODULO) then false
  else
    let shifted_sn := shifted sn1P (vr_r rlc_pP) in
    let upper_bound := shifted sn2P (vr_r rlc_pP) in
    if shifted_sn >? upper_bound then true else false.

(** ** Sequence numbers modulo 1024 *)
Definition is_sn (sn : Z) : Prop := 0 <= sn < RLC_AM_SN_MODULO.

Lemma shifted_mod a b : shifted a b = (a - b) mod 1024.
Proof. apply u16_mod_1024. Qed.

(** The macros of rlc_am_constants.h compute the same distance and successor. *)
Lemma RLC_AM_DIFF_SN_mod a b : RLC_AM_DIFF_SN a b = (a - b) mod 1024.
Proof.
  unfold RLC_AM_DIFF_SN, RLC_DIFF_SN, RLC_AM_SN_MODULO. change (1024 - 1) with 1023.
  rewrite land_1023. rewrite <- (Z_mod_plus_full (a - b) 1 1024). f_equal. lia.
Qed.
Lemma shifted_diff a b : shifted a b = RLC_AM_DIFF_SN a b.
Proof. by rewrite shifted_mod, RLC_AM_DIFF_SN_mod. Qed.
Lemma RLC_AM_NEXT_SN_mod sn : RLC_AM_NEXT_SN sn = (sn + 1) mod 1024.
Proof. apply land_1023. Qed.
Lemma RLC_AM_PREV_SN_mod sn : RLC_AM_PREV_SN sn = (sn - 1) mod 1024.
Proof.
  unfold RLC_AM_PREV_SN, RLC_AM_SN_MASK, RLC_AM_SN_MODULO. rewrite land_1023.
  rewrite <- (Z_mod_plus_full (sn - 1) 1 1024). f_equal. lia.
Qed.
Create Rewrite HintDb rlc_sn.
#[export] Hint Rewrite shifted_mod RLC_AM_DIFF_SN_mod RLC_AM_NEXT_SN_mod RLC_AM_PREV_SN_mod : rlc_sn.

Lemma RLC_AM_NEXT_SN_is_sn sn : is_sn (RLC_AM_NEXT_SN sn).
Proof. rewrite RLC_AM_NEXT_SN_mod. by apply (Z.mod_pos_bound _ 1024). Qed.
Lemma RLC_AM_PREV_SN_is_sn sn : is_sn (RLC_AM_PREV_SN sn).
Proof. rewrite RLC_AM_PREV_SN_mod. by apply (Z.mod_pos_bound _ 1024). Qed.
Lemma RLC_AM_DIFF_SN_range a b : 0 <= RLC_AM_DIFF_SN a b < 1024.
Proof. rewrite RLC_AM_DIFF_SN_mod. apply Z.mod_pos_bound. lia. Qed.

(** [sn_lia] decides goals about sequence numbers: it opens the modular
    distance and calls [lia] on the quotients and remainders. *)
Ltac sn_unfold :=
  autorewrite with rlc_sn in *;
  unfold is_sn, RLC_AM_SN_MODULO, RLC_AM_SN_MASK, RLC_AM_WINDOW_SIZE in *.
Ltac sn_lia := sn_unfold; mod_lia.

Lemma RLC_AM_PREV_NEXT sn : is_sn sn -> RLC_AM_PREV_SN (RLC_AM_NEXT_SN sn) = sn.
Proof. intros H. sn_lia. Qed.
Lemma RLC_AM_NEXT_PREV sn : is_sn sn -> RLC_AM_NEXT_SN (RLC_AM_PREV_SN sn) = sn.
Proof. intros H. sn_lia. Qed.
Lemma RLC_AM_DIFF_SN_inj a b base :
  is_sn a -> is_sn b -> RLC_AM_DIFF_SN a base = RLC_AM_DIFF_SN b base -> a = b.
Proof. intros Ha Hb H. sn_lia. Qed.
Lemma RLC_AM_DIFF_SN_next sn base :
  RLC_AM_DIFF_SN sn base < 1023 ->
  RLC_AM_DIFF_SN (RLC_AM_NEXT_SN sn) base = RLC_AM_DIFF_SN sn base + 1.
Proof. intros H. sn_lia. Qed.
Lemma RLC_AM_DIFF_SN_self sn : RLC_AM_DIFF_SN sn sn = 0.
Proof. sn_lia. Qed.

(** ** The windows *)

(** [sn] lies [k] after the edge [base], [k < len], on the circle of 1024. *)
Definition in_circle (base len sn : Z) : Prop :=
  exists k, 0 <= k < len /\ sn = (base + k) mod 1024.

Lemma in_circle_dist base len sn :
  is_sn sn -> 0 <= len <= 1024 -> in_circle base len sn <-> (sn - base) mod 1024 < len.
Proof.
  intros Hsn Hlen. split.
  - intros (k & Hk & ->). rewrite Zminus_mod_idemp_l.
    replace (base + k - base) with k by lia. rewrite Z.mod_small by lia. lia.
  - intros H. exists ((sn - base) mod 1024).
    pose proof (Z.mod_pos_bound (sn - base) 1024). split; [lia|].
    rewrite Zplus_mod_idemp_r. replace (base + (sn - base)) with sn by lia.
    unfold is_sn, RLC_AM_SN_MODULO in *. by rewrite Z.mod_small by lia.
Qed.

(** The upper edges are 512 after the lower ones. *)
Definition tx_window_wf (r : rlc_am_entity_t) : Prop :=
  vt_ms r mod 1024 = (vt_a r + RLC_AM_WINDOW_SIZE) mod 1024.
Definition rx_window_wf (r : rlc_am_entity_t) : Prop :=
  vr_mr r mod 1024 = (vr_r r + RLC_AM_WINDOW_SIZE) mod 1024.

Lemma window_len a b : b mod 1024 = (a + 512) mod 1024 -> (b - a) mod 1024 = 512.
Proof. intros H. mod_lia. Qed.

Lemma rlc_am_in_rx_window_iff r sn :
  rx_window_wf r -> 0 <= sn ->
  rlc_am_in_rx_window r sn = true <-> sn < 1024 /\ in_circle (vr_r r) 512 sn.
Proof.
  intros Hwf Hsn. unfold rlc_am_in_rx_window, RLC_AM_SN_MODULO. rewrite !shifted_mod.
  rewrite (window_len _ _ Hwf). pose proof (Z.mod_pos_bound (sn - vr_r r) 1024).
  destruct (sn >=? 1024) eqn:E; bool_prop; [split; [done|lia]|].
  rewrite in_circle_dist by (unfold is_sn, RLC_AM_SN_MODULO; lia).
  case_match; bool_prop; split; try done; lia.
Qed.

Lemma rlc_am_in_tx_window_iff r sn :
  tx_window_wf r -> 0 <= sn ->
  rlc_am_in_tx_window r sn = true <-> sn < 1024 /\ in_circle (vt_a r) 512 sn.
Proof.
  intros Hwf Hsn. unfold rlc_am_in_tx_window, RLC_AM_SN_MODULO. rewrite !shifted_mod.
  rewrite (window_len _ _ Hwf). pose proof (Z.mod_pos_bound (sn - vt_a r) 1024).
  destruct (sn >=? 1024) eqn:E; bool_prop; [split; [done|lia]|].
  rewrite in_circle_dist by (unfold is_sn, RLC_AM_SN_MODULO; lia).
  case_match; bool_prop; split; try done; lia.
Qed.

(** A sequence number is accepted by a window exactly when it is one of the
    AM_Window_Size = 512 numbers from the lower edge on (VR(R) on the receiving
    side, VT(A) on the transmitting side), modulo 1024; numbers of more than 10
    bits are refused. *)
Theorem rlc_am_windows_iff r sn :
  rx_window_wf r -> tx_window_wf r -> 0 <= sn ->
  (rlc_am_in_rx_window r sn = true <-> sn < 1024 /\ in_circle (vr_r r) 512 sn) /\
  (rlc_am_in_tx_window r sn = true <-> sn < 1024 /\ in_circle (vt_a r) 512 sn).
Proof. auto using rlc_am_in_rx_window_iff, rlc_am_in_tx_window_iff. Qed.

Lemma rlc_am_windows_iff_witness :
  let r := entity_zero <| vr_r := 1000 |> <| vr_mr := 488 |> <| vt_ms := 512 |> in
  rlc_am_in_rx_window r 3 = true /\ in_circle 1000 512 3 /\ ~ in_circle 0 512 512.
Proof.
  cbv zeta. set (r := entity_zero <| vr_r := 1000 |> <| vr_mr := 488 |> <| vt_ms := 512 |>).
  assert (H3 : rlc_am_in_rx_window r 3 = true) by (vm_compute; reflexivity).
  assert (H512 : rlc_am_in_tx_window r 512 = false) by (vm_compute; reflexivity).
  destruct (rlc_am_windows_iff r 3) as [Hrx _]; [reflexivity|reflexivity|lia|].
  destruct (rlc_am_windows_iff r 512) as [_ Htx]; [reflexivity|reflexivity|lia|].
  split; [exact H3|]. split; [apply Hrx; exact H3|]. intros Hc.
  rewrite (proj2 Htx (conj eq_refl Hc)) in H512. discriminate H512.
Defined.

Lemma rlc_am_rx_sn1_gt_sn2_diff r a b :
  is_sn a -> is_sn b ->
  rlc_am_rx_sn1_gt_sn2 r a b = (RLC_AM_DIFF_SN a (vr_r r) >? RLC_AM_DIFF_SN b (vr_r r)).
Proof.
  unfold is_sn. intros Ha Hb. unfold rlc_am_rx_sn1_gt_sn2. rewrite !shifted_diff.
  destruct (a >=? _) eqn:E1; [bool_lia|]. destruct (b >=? _) eqn:E2; [bool_lia|].
  simpl. by destruct (_ >? _).
Qed.
Lemma rlc_am_tx_sn1_gt_sn2_diff r a b :
  is_sn a -> is_sn b ->
  rlc_am_tx_sn1_gt_sn2 r a b = (RLC_AM_DIFF_SN a (vt_a r) >? RLC_AM_DIFF_SN b (vt_a r)).
Proof.
  unfold is_sn. intros Ha Hb. unfold rlc_am_tx_sn1_gt_sn2. rewrite !shifted_diff.
  destruct (a >=? _) eqn:E1; [bool_lia|]. destruct (b >=? _) eqn:E2; [bool_lia|].
  simpl. by destruct (_ >? _).
Qed.

(** Relative to a window edge, "sn1 > sn2" is a strict total order on the
    sequence numbers, on the receiving and on the transmitting side. *)
Theorem rlc_am_sn_gt_strict_order r :
  let gt_rx a b := rlc_am_rx_sn1_gt_sn2 r a b = true in
  let gt_tx a b := rlc_am_tx_sn1_gt_sn2 r a b = true in
  (forall a, is_sn a -> ~ gt_rx a a /\ ~ gt_tx a a) /\
  (forall a b c, is_sn a -> is_sn b -> is_sn c ->
     (gt_rx a b -> gt_rx b c -> gt_rx a c) /\ (gt_tx a b -> gt_tx b c -> gt_tx a c)) /\
  (forall a b, is_sn a -> is_sn b -> a <> b ->
     (gt_rx a b \/ gt_rx b a) /\ (gt_tx a b \/ gt_tx b a)).
Proof.
  simpl. split; [|split].
  - intros a Ha. rewrite rlc_am_rx_sn1_gt_sn2_diff, rlc_am_tx_sn1_gt_sn2_diff by done.
    bool_prop. lia.
  - intros a b c Ha Hb Hc.
    rewrite !rlc_am_rx_sn1_gt_sn2_diff, !rlc_am_tx_sn1_gt_sn2_diff by done. bool_prop. lia.
  - intros a b Ha Hb Hab.
    rewrite !rlc_am_rx_sn1_gt_sn2_diff, !rlc_am_tx_sn1_gt_sn2_diff by done. bool_prop.
    pose proof (RLC_AM_DIFF_SN_inj a b (vr_r r) Ha Hb).
    pose proof (RLC_AM_DIFF_SN_inj a b (vt_a r) Ha Hb). lia.
Qed.
