(* ===== verification/RlcAmTxBuffer.v ===== *)
(** * The transmission buffer ([rlc_pP->tx_data_pdu_buffer])

    Access to the 512 cells at [sn % RLC_AM_WINDOW_SIZE], the accounting of the
    data pending for retransmission kept in [retrans_num_pdus] and
    [retrans_num_bytes_to_retransmit], and the invariant of the transmitting
    side. *)

From S2P Require Import Prelude RlcAmTypes RlcAmEntity RlcAmWindows.

(** [snP % RLC_AM_WINDOW_SIZE], on a signed operand. *)
Definition tx_index (sn : Z) : Z := Z.rem sn RLC_AM_WINDOW_SIZE.

Definition get_tx_pdu (r : rlc_am_entity_t) (sn : Z) : res rlc_am_tx_data_pdu_management_t :=
  array_get (tx_data_pdu_buffer r) (tx_index sn).
Definition set_tx_pdu (r : rlc_am_entity_t) (sn : Z) (p : rlc_am_tx_data_pdu_management_t)
  : res rlc_am_entity_t :=
  b ← array_set (tx_data_pdu_buffer r) (tx_index sn) p;
  Ok (r <| tx_data_pdu_buffer := b |>).

Definition is_null {A} (p : option A) : bool :=
  match p with None => true | Some _ => false end.

(** ** Accounting *)
Definition pending (p : rlc_am_tx_data_pdu_management_t) : Z := b2z (retransmit (pdu_flags p)).

(** What the accounting knows of one cell: data pending exactly when the
    retransmission flag is up, and then the PDU is still there. *)
Definition tx_pdu_wf (p : rlc_am_tx_data_pdu_management_t) : Prop :=
  (if retransmit (pdu_flags p)
   then 0 < retx_payload_size p /\ is_null (pdu_mem_block p) = false
   else retx_payload_size p = 0) /\
  0 <= pdu_payload_size p /\ 0 <= num_holes p /\
  length (hole_so_start p) = 16%nat /\ length (hole_so_stop p) = 16%nat.

Definition tx_accounting (r : rlc_am_entity_t) : Prop :=
  length (tx_data_pdu_buffer r) = 512%nat /\
  Forall tx_pdu_wf (tx_data_pdu_buffer r) /\
  retrans_num_bytes_to_retransmit r = sumZ retx_payload_size (tx_data_pdu_buffer r) /\
  retrans_num_pdus r = sumZ pending (tx_data_pdu_buffer r).

Lemma tx_index_range sn : 0 <= sn -> 0 <= tx_index sn < 512.
Proof. intros H. unfold tx_index. apply Z.rem_bound_pos; unfold RLC_AM_WINDOW_SIZE; lia. Qed.
Lemma tx_index_mod sn : 0 <= sn -> tx_index sn = sn mod 512.
Proof. intros H. apply Z.rem_mod_nonneg; unfold RLC_AM_WINDOW_SIZE; lia. Qed.

Lemma get_tx_pdu_ok r sn :
  length (tx_data_pdu_buffer r) = 512%nat -> 0 <= sn ->
  exists p, get_tx_pdu r sn = Ok p /\ tx_data_pdu_buffer r !! Z.to_nat (tx_index sn) = Some p.
Proof.
  intros Hl Hsn. apply array_get_ok. rewrite Hl. by apply tx_index_range.
Qed.

Lemma set_tx_pdu_ok r sn p :
  length (tx_data_pdu_buffer r) = 512%nat -> 0 <= sn ->
  set_tx_pdu r sn p =
    Ok (r <| tx_data_pdu_buffer := <[Z.to_nat (tx_index sn) := p]> (tx_data_pdu_buffer r) |>).
Proof.
  intros Hl Hsn. unfold set_tx_pdu. rewrite array_set_ok; [done|].
  rewrite Hl. by apply tx_index_range.
Qed.

Lemma get_tx_pdu_inv r sn p :
  get_tx_pdu r sn = Ok p -> tx_data_pdu_buffer r !! Z.to_nat (tx_index sn) = Some p.
Proof. intros H. by apply array_get_inv in H as [_ H]. Qed.

Lemma set_tx_pdu_inv r r' sn p :
  set_tx_pdu r sn p = Ok r' ->
  r' = r <| tx_data_pdu_buffer := <[Z.to_nat (tx_index sn) := p]> (tx_data_pdu_buffer r) |>.
Proof. unfold set_tx_pdu. intros H. res_inv. apply array_set_inv in Hstep as [_ ->]. done. Qed.

Lemma tx_accounting_wf r i p :
  tx_accounting r -> tx_data_pdu_buffer r !! i = Some p -> tx_pdu_wf p.
Proof. intros (_ & Hwf & _) H. by eapply Forall_lookup_1. Qed.

(** Changing one cell and the two counters by the same amounts. *)
Lemma tx_accounting_update r r' i p q :
  tx_accounting r -> tx_data_pdu_buffer r !! i = Some p -> tx_pdu_wf q ->
  tx_data_pdu_buffer r' = <[i := q]> (tx_data_pdu_buffer r) ->
  retrans_num_bytes_to_retransmit r' =
    retrans_num_bytes_to_retransmit r - retx_payload_size p + retx_payload_size q ->
  retrans_num_pdus r' = retrans_num_pdus r - pending p + pending q ->
  tx_accounting r'.
Proof.
  intros (Hl & Hwf & Hb & Hn) Hp Hq Hbuf Hb' Hn'. unfold tx_accounting.
  rewrite Hbuf, length_insert, Hb', Hn', Hb, Hn.
  rewrite !(sumZ_insert _ _ _ _ _ Hp). split; [done|]. split; [by apply Forall_insert|]. lia.
Qed.

(** ** Window invariant of the transmitting side

    The transmitted and not fully acknowledged PDUs are those of
    VT(A) <= SN < VT(S), at most 512 of them; each is in its cell with its
    block, and every other cell is free.  The lower edge is a parameter: while
    a STATUS PDU is processed the cells below the new VT(A) are freed one by
    one before VT(A) itself moves. *)
Definition outstanding_from (a : Z) (r : rlc_am_entity_t) (sn : Z) : Prop :=
  is_sn sn /\ RLC_AM_DIFF_SN sn a < RLC_AM_DIFF_SN (vt_s r) a.

(** The state of the cell of an outstanding PDU. *)
Definition cell_wf (sn : Z) (p : rlc_am_tx_data_pdu_management_t) : Prop :=
  is_null (pdu_mem_block p) = false /\ pdu_sn p = sn /\ 0 < pdu_payload_size p /\
  transmitted (pdu_flags p) = negb (ack (pdu_flags p)).

Definition tx_inv_from (a : Z) (r : rlc_am_entity_t) : Prop :=
  (is_sn a /\ is_sn (vt_s r) /\ RLC_AM_DIFF_SN (vt_s r) a <= RLC_AM_WINDOW_SIZE) /\
  tx_accounting r /\
  (forall sn, outstanding_from a r sn -> exists p,
     tx_data_pdu_buffer r !! Z.to_nat (tx_index sn) = Some p /\ cell_wf sn p) /\
  (forall i p, tx_data_pdu_buffer r !! i = Some p -> is_null (pdu_mem_block p) = false ->
     outstanding_from a r (pdu_sn p) /\ Z.to_nat (tx_index (pdu_sn p)) = i).

Definition tx_outstanding (r : rlc_am_entity_t) : Z -> Prop := outstanding_from (vt_a r) r.
Definition tx_inv (r : rlc_am_entity_t) : Prop :=
  tx_inv_from (vt_a r) r /\ vt_ms r = (vt_a r + RLC_AM_WINDOW_SIZE) mod 1024.

(** The edges of the window are the same. *)
Definition same_tx_vars (r r' : rlc_am_entity_t) : Prop :=
  vt_a r' = vt_a r /\ vt_s r' = vt_s r /\ vt_ms r' = vt_ms r.

(** Only the buffer and its accounting changed. *)
Definition tx_changed (r r' : rlc_am_entity_t) : Prop :=
  r' = r <| tx_data_pdu_buffer := tx_data_pdu_buffer r' |>
         <| retrans_num_pdus := retrans_num_pdus r' |>
         <| retrans_num_bytes_to_retransmit := retrans_num_bytes_to_retransmit r' |>.
#[export] Instance tx_changed_preorder : PreOrder tx_changed.
Proof.
  split; [by intros []|]. unfold tx_changed. intros r1 r2 r3 H1 H2.
  rewrite H2 at 1. rewrite H1 at 1. done.
Qed.
Lemma tx_changed_vars r r' : tx_changed r r' -> same_tx_vars r r'.
Proof. unfold tx_changed. by intros ->. Qed.

(** Changing an accounted cell in place: same block, same number. *)
Lemma tx_inv_from_update a r r' i p q :
  tx_inv_from a r -> tx_data_pdu_buffer r !! i = Some p ->
  is_null (pdu_mem_block q) = is_null (pdu_mem_block p) -> pdu_sn q = pdu_sn p ->
  pdu_payload_size q = pdu_payload_size p ->
  (transmitted (pdu_flags p) = negb (ack (pdu_flags p)) ->
   transmitted (pdu_flags q) = negb (ack (pdu_flags q))) ->
  vt_s r' = vt_s r -> tx_data_pdu_buffer r' = <[i := q]> (tx_data_pdu_buffer r) ->
  tx_accounting r' -> tx_inv_from a r'.
Proof.
  intros (Hw & Hacc & Hout & Hin) Hp Hm Hsn Hpl Hf Es Hb Hacc'.
  unfold tx_inv_from, outstanding_from in *. rewrite Es, Hb.
  do 2 (split; [done|]). split.
  - intros sn Hsn'. destruct (Hout sn Hsn') as (p0 & Hp0 & H1 & H2 & H3 & H4).
    destruct (decide (i = Z.to_nat (tx_index sn))) as [-> | Hne].
    + rewrite Hp in Hp0. injection Hp0 as <-. exists q.
      rewrite list_lookup_insert_eq by (by eapply lookup_lt_Some).
      split; [done|]. split; [congruence|]. split; [congruence|]. split; [congruence|auto].
    + exists p0. by rewrite list_lookup_insert_ne.
  - intros j p0 Hp0 H1. destruct (decide (i = j)) as [<- | Hne].
    + rewrite list_lookup_insert_eq in Hp0 by (by eapply lookup_lt_Some).
      injection Hp0 as <-. rewrite Hsn. apply (Hin i p Hp). congruence.
    + rewrite list_lookup_insert_ne in Hp0 by done. by apply (Hin j p0).
Qed.

Lemma tx_inv_update r r' i p q :
  tx_inv r -> tx_data_pdu_buffer r !! i = Some p ->
  is_null (pdu_mem_block q) = is_null (pdu_mem_block p) -> pdu_sn q = pdu_sn p ->
  pdu_payload_size q = pdu_payload_size p ->
  (transmitted (pdu_flags p) = negb (ack (pdu_flags p)) ->
   transmitted (pdu_flags q) = negb (ack (pdu_flags q))) ->
  same_tx_vars r r' -> tx_data_pdu_buffer r' = <[i := q]> (tx_data_pdu_buffer r) ->
  tx_accounting r' -> tx_inv r'.
Proof.
  intros [H Hms] Hp H1 H2 H3 H4 (Ea & Es & Ems) Hb Hacc. split; [|congruence].
  rewrite Ea. by eapply (tx_inv_from_update _ r _ i p q).
Qed.

(** Freeing the lowest cell moves the edge up. *)
Lemma tx_inv_from_free a r r' p q :
  tx_inv_from a r -> a <> vt_s r ->
  tx_data_pdu_buffer r !! Z.to_nat (tx_index a) = Some p -> pdu_mem_block q = None ->
  vt_s r' = vt_s r -> tx_data_pdu_buffer r' = <[Z.to_nat (tx_index a) := q]> (tx_data_pdu_buffer r) ->
  tx_accounting r' -> tx_inv_from (RLC_AM_NEXT_SN a) r'.
Proof.
  intros ((Ha & Hs & Hd) & Hacc & Hout & Hin) Hne Hp Hq Es Hb Hacc'.
  assert (Hnext : forall sn, outstanding_from (RLC_AM_NEXT_SN a) r sn <->
                             outstanding_from a r sn /\ sn <> a).
  { intros sn. unfold outstanding_from. clear -Ha Hs Hne Hd. sn_lia. }
  unfold tx_inv_from, outstanding_from in *. rewrite Es, Hb. split.
  { split; [apply RLC_AM_NEXT_SN_is_sn|]. split; [done|]. clear -Ha Hs Hd Hne. sn_lia. }
  split; [done|]. split.
  - intros sn Hsn'. apply Hnext in Hsn' as [Hsn' Hsna].
    destruct (Hout sn Hsn') as (p0 & Hp0 & H1). exists p0.
    rewrite list_lookup_insert_ne; [done|]. intros E.
    destruct Hsn' as [Hsn1 Hsn2]. apply Hsna.
    rewrite !tx_index_mod in E by (destruct Ha, Hsn1; lia).
    clear -E Hsn1 Ha Hs Hsn2 Hd. sn_lia.
  - intros j p0 Hp0 H1. destruct (decide (Z.to_nat (tx_index a) = j)) as [<- | Hj].
    + rewrite list_lookup_insert_eq in Hp0 by (by eapply lookup_lt_Some).
      injection Hp0 as <-. by rewrite Hq in H1.
    + rewrite list_lookup_insert_ne in Hp0 by done. destruct (Hin j p0 Hp0 H1) as [Ho Hi].
      split; [|done]. apply Hnext. split; [done|]. intros E. rewrite E in Hi. done.
Qed.

Lemma get_outstanding a r sn :
  tx_inv_from a r -> outstanding_from a r sn -> exists p,
    get_tx_pdu r sn = Ok p /\ tx_data_pdu_buffer r !! Z.to_nat (tx_index sn) = Some p /\ cell_wf sn p.
Proof.
  intros (_ & (Hl & _) & Hout & _) Hsn.
  destruct (Hout sn Hsn) as (p & Hp & H). exists p. split; [|done].
  destruct (get_tx_pdu_ok r sn Hl) as (q & Hq & Hq'); [destruct Hsn as [[? ?] _]; lia|].
  congruence.
Qed.

Lemma tx_inv_outstanding r sn :
  tx_inv r -> tx_outstanding r sn -> exists p,
    get_tx_pdu r sn = Ok p /\ tx_data_pdu_buffer r !! Z.to_nat (tx_index sn) = Some p /\ cell_wf sn p.
Proof. intros [H _]. by apply get_outstanding. Qed.

Lemma tx_inv_from_length a r : tx_inv_from a r -> length (tx_data_pdu_buffer r) = 512%nat.
Proof. by intros (_ & (? & _) & _). Qed.
Lemma tx_inv_length r : tx_inv r -> length (tx_data_pdu_buffer r) = 512%nat.
Proof. intros [H _]. by eapply tx_inv_from_length. Qed.
Lemma tx_inv_accounting r : tx_inv r -> tx_accounting r.
Proof. by intros [(_ & ? & _) _]. Qed.
Lemma tx_inv_vars r : tx_inv r -> is_sn (vt_a r) /\ is_sn (vt_s r).
Proof. by intros [((? & ? & _) & _) _]. Qed.

(** The invariant only reads the transmitting side. *)
Lemma tx_inv_from_frame a r r' :
  tx_inv_from a r -> vt_s r' = vt_s r -> tx_data_pdu_buffer r' = tx_data_pdu_buffer r ->
  retrans_num_pdus r' = retrans_num_pdus r ->
  retrans_num_bytes_to_retransmit r' = retrans_num_bytes_to_retransmit r -> tx_inv_from a r'.
Proof.
  unfold tx_inv_from, outstanding_from, tx_accounting. intros H -> -> -> ->. exact H.
Qed.
Lemma tx_inv_frame r r' :
  tx_inv r -> same_tx_vars r r' -> tx_data_pdu_buffer r' = tx_data_pdu_buffer r ->
  retrans_num_pdus r' = retrans_num_pdus r ->
  retrans_num_bytes_to_retransmit r' = retrans_num_bytes_to_retransmit r -> tx_inv r'.
Proof.
  intros [H Hms] (Ea & Es & Ems) Hb Hp Hn. split; [|congruence].
  rewrite Ea. by apply (tx_inv_from_frame _ r).
Qed.

(** No byte pending: no cell pending. *)
Lemma nothing_pending r i p :
  tx_accounting r -> retrans_num_bytes_to_retransmit r = 0 ->
  tx_data_pdu_buffer r !! i = Some p -> retx_payload_size p = 0 /\ retransmit (pdu_flags p) = false.
Proof.
  intros Hacc Hz Hp. pose proof (tx_accounting_wf _ _ _ Hacc Hp) as [Hr _].
  destruct Hacc as (_ & Hwf & Hb & _). rewrite Hz in Hb.
  assert (H0 : forall q, q ∈ tx_data_pdu_buffer r -> 0 <= retx_payload_size q).
  { intros q Hq. rewrite Forall_forall in Hwf. destruct (Hwf q Hq) as [H _].
    destruct (retransmit (pdu_flags q)); [destruct H|]; lia. }
  pose proof (sumZ_pos_elem retx_payload_size _ p H0 (list_elem_of_lookup_2 _ _ _ Hp)).
  destruct (retransmit (pdu_flags p)); [destruct Hr; lia|done].
Qed.

(** The cell of VT(S) is free while the window is open, and a new PDU in it
    extends the window. *)
Lemma tx_inv_room r p :
  tx_inv r -> vt_s r <> vt_ms r ->
  tx_data_pdu_buffer r !! Z.to_nat (tx_index (vt_s r)) = Some p -> pdu_mem_block p = None.
Proof.
  intros [((Ha & Hs & Hd) & _ & _ & Hin) Hms] Hne Hp.
  destruct (pdu_mem_block p) as [b|] eqn:E; [|done].
  destruct (Hin _ p Hp) as [[Hsn Ho] Hi]; [by rewrite E|]. exfalso.
  rewrite !tx_index_mod in Hi by (destruct Hsn, Hs; lia).
  rewrite Hms in Hne. clear -Ha Hs Hd Hsn Ho Hi Hne. sn_lia.
Qed.

Lemma tx_inv_push r r' p :
  tx_inv r -> vt_s r <> vt_ms r -> cell_wf (vt_s r) p -> tx_pdu_wf p -> retransmit (pdu_flags p) = false ->
  vt_s r' = RLC_AM_NEXT_SN (vt_s r) -> vt_a r' = vt_a r -> vt_ms r' = vt_ms r ->
  tx_data_pdu_buffer r' = <[Z.to_nat (tx_index (vt_s r)) := p]> (tx_data_pdu_buffer r) ->
  retrans_num_pdus r' = retrans_num_pdus r ->
  retrans_num_bytes_to_retransmit r' = retrans_num_bytes_to_retransmit r -> tx_inv r'.
Proof.
  intros Hinv Hne Hcell Hwf Hrt Es Ea Ems Hb Hn Hby.
  destruct (lookup_lt_is_Some_2 (tx_data_pdu_buffer r) (Z.to_nat (tx_index (vt_s r)))) as [q Hq].
  { rewrite (tx_inv_length r Hinv). destruct (tx_inv_vars r Hinv) as [_ [Hs _]].
    pose proof (tx_index_range _ Hs). lia. }
  pose proof (tx_inv_room r q Hinv Hne Hq) as Hnull. destruct Hinv as [((Ha & Hs & Hd) & Hacc & Hout & Hin) Hms].
  assert (Hq0 : retx_payload_size q = 0 /\ pending q = 0).
  { pose proof (tx_accounting_wf _ _ _ Hacc Hq) as [Hw _]. unfold pending.
    destruct (retransmit (pdu_flags q)); [|done]. destruct Hw as [_ Hw]. by rewrite Hnull in Hw. }
  assert (Hp0 : retx_payload_size p = 0 /\ pending p = 0).
  { destruct Hwf as [Hw _]. unfold pending. by rewrite Hrt in *. }
  assert (Hd' : RLC_AM_DIFF_SN (vt_s r) (vt_a r) < 512).
  { rewrite Hms in Hne. clear -Ha Hs Hd Hne. sn_lia. }
  assert (Hnext : forall sn, is_sn sn -> (RLC_AM_DIFF_SN sn (vt_a r) < RLC_AM_DIFF_SN (RLC_AM_NEXT_SN (vt_s r)) (vt_a r) <->
                    RLC_AM_DIFF_SN sn (vt_a r) < RLC_AM_DIFF_SN (vt_s r) (vt_a r) \/ sn = vt_s r)).
  { intros sn Hsn. clear -Ha Hs Hd' Hsn. sn_lia. }
  split; [|congruence]. rewrite Ea. unfold tx_inv_from, outstanding_from in *. rewrite Es, Hb. split.
  { split; [done|]. split; [apply RLC_AM_NEXT_SN_is_sn|]. clear -Ha Hs Hd'. sn_lia. }
  split; [eapply (tx_accounting_update r r' _ q p); (done || lia)|]. split.
  - intros sn [Hsn Ho]. apply Hnext in Ho as [Ho | ->]; [|exists p; rewrite list_lookup_insert_eq|done];
      [|done|by eapply lookup_lt_Some].
    destruct (Hout sn (conj Hsn Ho)) as (p0 & Hp1 & H1). exists p0.
    rewrite list_lookup_insert_ne; [done|]. intros E. rewrite !tx_index_mod in E by (destruct Hsn, Hs; lia).
    clear -E Hsn Ho Ha Hs Hd'. sn_lia.
  - intros i p0 Hi Hnn. destruct (decide (Z.to_nat (tx_index (vt_s r)) = i)) as [<- | Hne'].
    + rewrite list_lookup_insert_eq in Hi by (by eapply lookup_lt_Some). injection Hi as <-.
      destruct Hcell as (_ & -> & _). split; [|done]. split; [done|]. apply Hnext; auto.
    + rewrite list_lookup_insert_ne in Hi by done. destruct (Hin i p0 Hi Hnn) as [[Hsn Ho] Hx].
      split; [|done]. split; [done|]. apply Hnext; auto.
Qed.

(** ** An open window *)

Lemma sumZ_replicate {A} (f : A -> Z) n x : f x = 0 -> sumZ f (replicate n x) = 0.
Proof. intros H. induction n as [|n IH]; [done|]. cbn [replicate]. change (f x + sumZ f (replicate n x) = 0). lia. Qed.

Lemma tx_pdu_zero_wf : tx_pdu_wf tx_pdu_zero.
Proof. by split_and!. Qed.

Lemma empty_window_inv r :
  tx_data_pdu_buffer r = replicate 512 tx_pdu_zero -> retrans_num_pdus r = 0 ->
  retrans_num_bytes_to_retransmit r = 0 -> vt_a r = 0 -> vt_s r = 0 -> vt_ms r = 512 -> tx_inv r.
Proof.
  intros Hb Hn Hby Ha Hs Hms. split; [|by rewrite Hms, Ha]. unfold tx_inv_from, tx_accounting, outstanding_from.
  rewrite Hb, Hn, Hby, Ha, Hs. split; [by split_and!|]. split; [|split].
  - rewrite length_replicate. split; [done|]. split; [apply Forall_replicate, tx_pdu_zero_wf|].
    by rewrite !sumZ_replicate.
  - intros sn [Hsn Ho]. exfalso. clear -Hsn Ho. sn_lia.
  - intros i p Hp Hnn. apply lookup_replicate in Hp as [-> _]. done.
Qed.

(** An entity that has sent the PDU 0 only. *)
Definition sample_tx_pdu : rlc_am_tx_data_pdu_management_t :=
  tx_pdu_zero <| pdu_mem_block := Some [128; 0; 1; 2; 3] |> <| pdu_payload := 2 |> <| pdu_payload_size := 3 |>
    <| header_and_payload_size := 5 |> <| nb_sdus := 1 |>
    <| pdu_flags := Mk_pdu_flags true false false false false |>.
Definition sample_window : rlc_am_entity_t :=
  entity_zero <| tx_data_pdu_buffer := sample_tx_pdu :: replicate 511 tx_pdu_zero |> <| vt_ms := 512 |> <| vt_s := 1 |>.
Lemma sample_window_inv : tx_inv sample_window.
Proof.
  set (r := entity_zero <| tx_data_pdu_buffer := replicate 512 tx_pdu_zero |> <| vt_ms := 512 |>).
  apply (tx_inv_push r _ sample_tx_pdu); first [by apply empty_window_inv | done | by split_and!].
Qed.
