(* ===== verification/RlcTimers.v ===== *)
(** * Timers of the RLC entities

    The AM and UM entities keep their timers in the same structure and test
    them in the same way: the 32-bit time of the call is compared with the
    start and time-out stamped when the timer was started. *)

From S2P Require Import Prelude RlcAmTypes.

(** The condition the check functions test on a running timer, with its
    two cases (time-out after or before the wrap of the clock). *)
Definition timer_expired (t : rlc_am_timer_t) (now : Z) : bool :=
  ((ms_start t <? ms_time_out t) && ((now >=? ms_time_out t) || (now <? ms_start t)))
  || ((ms_start t >? ms_time_out t) && (now <? ms_start t) && (now >=? ms_time_out t)).

Definition timer_stopped (t : rlc_am_timer_t) : rlc_am_timer_t :=
  t <| running := false |> <| ms_time_out := 0 |> <| ms_start := 0 |> <| timed_out := false |>.
Definition timer_started (now : Z) (t : rlc_am_timer_t) : rlc_am_timer_t :=
  t <| running := true |> <| ms_time_out := u32 (now + ms_duration t) |> <| ms_start := now |>.

(** A timer of [d] ms started at [s] is seen expired [e] ms later exactly when
    [d <= e], wherever the 32-bit clock wraps. *)
Lemma timer_expired_exact t s e :
  0 <= s < 2 ^ 32 -> 0 < ms_duration t < 2 ^ 32 -> 0 <= e < 2 ^ 32 ->
  timer_expired (timer_started s t) (u32 (s + e)) = (ms_duration t <=? e).
Proof.
  intros Hs Hd He. unfold timer_expired. cbn.
  set (d := ms_duration t) in *. clearbody d. unfold u32, wrapu.
  change (2 ^ 32) with 4294967296 in *.
  assert (Hsum : forall x, 0 <= x < 4294967296 ->
    (s + x) mod 4294967296 = if s + x <? 4294967296 then s + x else s + x - 4294967296).
  { intros x Hx. destruct (Z.ltb_spec (s + x) 4294967296).
    - rewrite Z.mod_small; lia.
    - rewrite <- (Z_mod_plus_full _ (-1)), Z.mod_small; lia. }
  rewrite !Hsum by lia. apply eq_iff_eq_true. bool_prop.
  destruct (Z.ltb_spec (s + d) 4294967296), (Z.ltb_spec (s + e) 4294967296); bool_lia.
Qed.

(** The frame counter of the PHY has 10 bits, and the time is then taken modulo 10240 ms: a timer
    that runs when the counter wraps is seen expired at once. *)
Definition frame_clock : Z := 1024 * 10.

Lemma timer_expired_frames t s e :
  0 <= s < frame_clock -> 0 < ms_duration t < 2 ^ 31 -> 0 <= e < frame_clock ->
  timer_expired (timer_started s t) ((s + e) mod frame_clock) = (ms_duration t <=? e) || (frame_clock <=? s + e).
Proof.
  intros Hs Hd He. unfold timer_expired. cbn. set (d := ms_duration t) in *. clearbody d.
  unfold frame_clock in *. change (1024 * 10) with 10240 in *.
  assert (Ht : u32 (s + d) = s + d) by (unfold u32; apply wrapu_small; lia). rewrite Ht.
  assert (Hn : (s + e) mod 10240 = if s + e <? 10240 then s + e else s + e - 10240).
  { destruct (Z.ltb_spec (s + e) 10240); [by apply Z.mod_small; lia|].
    rewrite <- (Z_mod_plus_full _ (-1)), Z.mod_small; lia. }
  rewrite Hn. apply eq_iff_eq_true. bool_prop. destruct (Z.ltb_spec (s + e) 10240); bool_lia.
Qed.
