(* ===== verification/RlcAmTimers.v ===== *)
(** * The three timers (rlc_am_timer_poll_retransmit.c, rlc_am_timer_reordering.c,
    rlc_am_timer_status_prohibit.c)

    Timers compare the 32-bit time of the call with the start and time-out
    stamped when they were started. *)

From S2P Require Import Prelude RlcAmTypes RlcTimers RlcAmEntity RlcAmWindows RlcAmTxBuffer.

(** ** t-PollRetransmit *)
Definition rlc_am_is_timer_poll_retransmit_timed_out (r : rlc_am_entity_t) : bool :=
  timed_out (t_poll_retransmit r).

Definition rlc_am_stop_and_reset_timer_poll_retransmit (r : rlc_am_entity_t) : rlc_am_entity_t :=
  r <| t_poll_retransmit := timer_stopped (t_poll_retransmit r) |>.

Definition rlc_am_start_timer_poll_retransmit (c : protocol_ctxt_t) (r : rlc_am_entity_t)
  : rlc_am_entity_t :=
  let r := rlc_am_stop_and_reset_timer_poll_retransmit r in
  if ms_duration (t_poll_retransmit r) >? 0
  then r <| t_poll_retransmit := timer_started (time_ms c) (t_poll_retransmit r) |>
  else r.

Definition rlc_am_init_timer_poll_retransmit (ms_durationP : Z) (r : rlc_am_entity_t)
  : rlc_am_entity_t :=
  r <| t_poll_retransmit := (timer_stopped (t_poll_retransmit r)) <| ms_duration := ms_durationP |> |>.

(** The body of the search loop on the PDU found: it is put in the
    retransmission buffer. *)
Definition poll_retransmit_pdu (p : rlc_am_tx_data_pdu_management_t)
  : rlc_am_tx_data_pdu_management_t :=
  let p := p <| pdu_flags := (pdu_flags p) <| retransmit := true |> |> in
  let p := p <| retx_payload_size := pdu_payload_size p |> in
  if retx_count p =? retx_count_next p
  then p <| retx_count_next := i8 (retx_count_next p + 1) |> else p.

Fixpoint poll_retransmit_search (fuel : nat) (sn sn_end : Z) (r : rlc_am_entity_t)
  : res rlc_am_entity_t :=
  match fuel with
  | O => Err OutOfFuel
  | S fuel' =>
      if negb (sn =? sn_end) then
        p ← get_tx_pdu r sn;
        _ ← assert_that (negb (is_null (pdu_mem_block p)));
        if negb (ack (pdu_flags p)) && negb (max_retransmit (pdu_flags p)) then
          r1 ← set_tx_pdu r sn (poll_retransmit_pdu p);
          Ok (r1 <| retrans_num_pdus := retrans_num_pdus r1 + 1 |>
                 <| retrans_num_bytes_to_retransmit :=
                      retrans_num_bytes_to_retransmit r1 + pdu_payload_size p |>)
        else poll_retransmit_search fuel' (RLC_AM_PREV_SN sn) sn_end r
      else Ok r
  end.

Definition rlc_am_check_timer_poll_retransmit (c : protocol_ctxt_t) (r : rlc_am_entity_t)
  : res rlc_am_entity_t :=
  if running (t_poll_retransmit r) && timer_expired (t_poll_retransmit r) (time_ms c) then
    let r := r <| t_poll_retransmit :=
                    (t_poll_retransmit r) <| running := false |> <| timed_out := true |> |> in
    let r := stat_add stat_timer_poll_retransmit_timed_out 1 r in
    r ← (if ((sdu_buffer_occupancy r =? 0) && (retrans_num_bytes_to_retransmit r =? 0))
             || (vt_s r =? vt_ms r) then
           let sn := RLC_AM_PREV_SN (vt_s r) in
           let sn_end := RLC_AM_PREV_SN (vt_a r) in
           poll_retransmit_search 1024 sn sn_end r
         else Ok r);
    Ok (r <| force_poll := true |>)
  else Ok r.

(** ** t-Reordering *)
Definition rlc_am_stop_and_reset_timer_reordering (r : rlc_am_entity_t) : rlc_am_entity_t :=
  r <| t_reordering := timer_stopped (t_reordering r) |>.

Definition rlc_am_start_timer_reordering (c : protocol_ctxt_t) (r : rlc_am_entity_t)
  : rlc_am_entity_t :=
  let r := r <| t_reordering := (t_reordering r) <| timed_out := false |> |> in
  if negb (running (t_reordering r)) then
    if ms_duration (t_reordering r) >? 0
    then r <| t_reordering := timer_started (time_ms c) (t_reordering r) |>
    else r
  else r.

Definition rlc_am_init_timer_reordering (ms_durationP : Z) (r : rlc_am_entity_t)
  : rlc_am_entity_t :=
  r <| t_reordering := (timer_stopped (t_reordering r)) <| ms_duration := ms_durationP |> |>.

(** The two walks of the expiry over the receiver buffer. *)
Fixpoint skip_below (buf : list rlc_am_rx_pdu_management_t) (sn base : Z)
  : list rlc_am_rx_pdu_management_t :=
  match buf with
  | [] => []
  | p :: buf' =>
      if RLC_AM_DIFF_SN (pi_sn (pdu_info p)) base <? RLC_AM_DIFF_SN sn base
      then skip_below buf' sn base else buf
  end.

Fixpoint advance_received (buf : list rlc_am_rx_pdu_management_t) (vr_h_ vr_ms_new : Z) : Z :=
  match buf with
  | [] => vr_ms_new
  | p :: buf' =>
      if negb (vr_ms_new =? vr_h_) && (pi_sn (pdu_info p) =? vr_ms_new)
         && (all_segments_received p >? 0)
      then advance_received buf' vr_h_
             (if (pi_rf (pdu_info p) =? 0) || (pi_lsf (pdu_info p) =? 1)
              then RLC_AM_NEXT_SN vr_ms_new else vr_ms_new)
      else vr_ms_new
  end.

(** [RLC_SN_UNDEFINED] assigned to the signed [sn_status_triggered_delayed]. *)
Definition sn_undefined_signed : Z := i16 RLC_SN_UNDEFINED.

Definition rlc_am_check_timer_reordering (c : protocol_ctxt_t) (r : rlc_am_entity_t)
  : res rlc_am_entity_t :=
  if running (t_reordering r) && timer_expired (t_reordering r) (time_ms c) then
    _ ← assert_that (negb (vr_x r =? RLC_SN_UNDEFINED));
    let r := r <| t_reordering := (t_reordering r) <| running := false |> <| timed_out := true |> |> in
    let r := stat_add stat_timer_reordering_timed_out 1 r in
    let vr_ms_new := vr_x r in
    _ ← assert_that (match receiver_buffer r with [] => false | _ :: _ => true end);
    let cursor := skip_below (receiver_buffer r) vr_ms_new (vr_r r) in
    let r := r <| vr_ms := advance_received cursor (vr_h r) vr_ms_new |> in
    let r := (if negb (vr_ms r =? vr_h r) then
                r <| vr_x := vr_h r |>
                  <| t_reordering := (t_reordering r)
                       <| ms_time_out := u32 (time_ms c + ms_duration (t_reordering r)) |> |>
              else r) in
    let r := r <| status_requested :=
                    u8 (RLC_SET_EVENT (status_requested r) RLC_AM_STATUS_TRIGGERED_T_REORDERING) |> in
    let r := r <| status_requested :=
                    u8 (RLC_CLEAR_EVENT (status_requested r) RLC_AM_STATUS_TRIGGERED_DELAYED) |> in
    Ok (r <| sn_status_triggered_delayed := sn_undefined_signed |>)
  else Ok r.

(** ** t-StatusProhibit *)
Definition rlc_am_stop_and_reset_timer_status_prohibit (r : rlc_am_entity_t) : rlc_am_entity_t :=
  if ms_duration (t_status_prohibit r) >? 0
  then r <| t_status_prohibit := timer_stopped (t_status_prohibit r) |> else r.

Definition rlc_am_start_timer_status_prohibit (c : protocol_ctxt_t) (r : rlc_am_entity_t)
  : rlc_am_entity_t :=
  let r := r <| t_status_prohibit := (t_status_prohibit r) <| timed_out := false |> |> in
  if negb (running (t_status_prohibit r)) then
    if ms_duration (t_status_prohibit r) >? 0 then
      let r := r <| t_status_prohibit := timer_started (time_ms c) (t_status_prohibit r) |> in
      r <| status_requested := u8 (RLC_SET_EVENT (status_requested r) RLC_AM_STATUS_PROHIBIT) |>
    else r
  else r.

Definition rlc_am_init_timer_status_prohibit (ms_durationP : Z) (r : rlc_am_entity_t)
  : rlc_am_entity_t :=
  r <| t_status_prohibit := (timer_stopped (t_status_prohibit r)) <| ms_duration := ms_durationP |> |>.

Definition rlc_am_check_timer_status_prohibit (c : protocol_ctxt_t) (r : rlc_am_entity_t)
  : rlc_am_entity_t :=
  if ms_duration (t_status_prohibit r) >? 0 then
    if running (t_status_prohibit r) && timer_expired (t_status_prohibit r) (time_ms c) then
      let r := r <| t_status_prohibit :=
                      (t_status_prohibit r) <| running := false |> <| timed_out := true |> |> in
      let r := stat_add stat_timer_status_prohibit_timed_out 1 r in
      let r := rlc_am_stop_and_reset_timer_status_prohibit r in
      r <| status_requested := u8 (RLC_CLEAR_EVENT (status_requested r) RLC_AM_STATUS_PROHIBIT) |>
    else r
  else r.

(** ** Expiry *)

(** C40: Each of the three timers with a positive duration [d], started while it is
    not running, runs.  When the frame number is a counter of 32 bits, [e]
    milliseconds later the expiry test answers [d <= e], wherever the 32-bit
    time wraps.  When it is the 10-bit number of the PHY, as it is in the
    softmodem and in the simulator, the test answers true from [d] ms on, but
    also from the moment the frame number wraps, before the [d] milliseconds
    are over: the clock of 10240 ms makes running timers expire early.  ([e] is
    less than one period of the clock.) *)
Theorem timers_expire_exactly c r :
  0 < ms_duration (t_poll_retransmit r) < 2 ^ 31 ->
  0 < ms_duration (t_reordering r) < 2 ^ 31 -> running (t_reordering r) = false ->
  0 < ms_duration (t_status_prohibit r) < 2 ^ 31 -> running (t_status_prohibit r) = false ->
  Forall (fun '(d, t) =>
      running t = true /\
      (forall e, 0 <= e < 2 ^ 32 -> timer_expired t (u32 (time_ms c + e)) = (d <=? e)) /\
      (time_ms c < frame_clock -> forall e, 0 <= e < frame_clock ->
       timer_expired t ((time_ms c + e) mod frame_clock) = (d <=? e) || (frame_clock <=? time_ms c + e)))
    [(ms_duration (t_poll_retransmit r), t_poll_retransmit (rlc_am_start_timer_poll_retransmit c r));
     (ms_duration (t_reordering r), t_reordering (rlc_am_start_timer_reordering c r));
     (ms_duration (t_status_prohibit r), t_status_prohibit (rlc_am_start_timer_status_prohibit c r))].
Proof.
  intros Hp Hr Hr0 Hs Hs0.
  assert (Ht : 0 <= time_ms c < 2 ^ 32) by (apply wrapu_range; lia).
  unfold rlc_am_start_timer_poll_retransmit, rlc_am_start_timer_reordering,
    rlc_am_start_timer_status_prohibit. cbn -[time_ms Z.pow timer_started timer_expired u32 frame_clock Z.modulo].
  rewrite Hr0, Hs0. cbn -[time_ms Z.pow timer_started timer_expired u32 frame_clock Z.modulo].
  rewrite !(proj2 (Z.gtb_lt _ 0)) by lia. cbn -[time_ms Z.pow timer_started timer_expired u32 frame_clock Z.modulo].
  repeat (apply Forall_cons; split); [..|done];
    (split; [done|]; split;
      [intros e He; rewrite timer_expired_exact by (cbn -[Z.pow]; lia)
      |intros Hc e He; rewrite timer_expired_frames by (cbn -[Z.pow]; lia)]; done).
Qed.

(** ** Expiry of t-PollRetransmit *)

(** The search visits at most the 512 outstanding PDUs: the fuel is enough. *)
Lemma poll_retransmit_search_fuel fuel sn sn_end r :
  is_sn sn -> is_sn sn_end -> RLC_AM_DIFF_SN sn sn_end < Z.of_nat fuel ->
  poll_retransmit_search fuel sn sn_end r <> Err OutOfFuel.
Proof.
  revert sn. induction fuel as [|fuel IH]; intros sn Hsn Hend Hf.
  { pose proof (RLC_AM_DIFF_SN_range sn sn_end). lia. }
  simpl. destruct (Z.eqb_spec sn sn_end) as [-> | Hne]; simpl; [done|].
  unfold get_tx_pdu, array_get. destruct (0 <=? _); [|done].
  destruct (_ !! _) as [p|]; simpl; [|done].
  destruct (is_null _); simpl; [done|].
  destruct (ack _), (max_retransmit _); simpl.
  all: try (apply IH; [apply RLC_AM_PREV_SN_is_sn | done |];
            rewrite RLC_AM_DIFF_SN_mod, RLC_AM_PREV_SN_mod in *; sn_lia).
  unfold set_tx_pdu, array_set. by destruct ((_ <=? _) && _).
Qed.

Lemma poll_retransmit_pdu_facts p :
  let q := poll_retransmit_pdu p in
  pdu_mem_block q = pdu_mem_block p /\ pdu_sn q = pdu_sn p /\
  transmitted (pdu_flags q) = transmitted (pdu_flags p) /\
  ack (pdu_flags q) = ack (pdu_flags p) /\ retransmit (pdu_flags q) = true /\
  retx_payload_size q = pdu_payload_size p /\ pdu_payload_size q = pdu_payload_size p.
Proof. unfold poll_retransmit_pdu. simpl. by destruct (_ =? _). Qed.

Lemma poll_retransmit_pdu_holes p :
  hole_so_start (poll_retransmit_pdu p) = hole_so_start p /\
  hole_so_stop (poll_retransmit_pdu p) = hole_so_stop p /\
  num_holes (poll_retransmit_pdu p) = num_holes p.
Proof. unfold poll_retransmit_pdu. simpl. by destruct (_ =? _). Qed.

Lemma poll_retransmit_search_ok fuel sn r :
  tx_inv r -> retrans_num_bytes_to_retransmit r = 0 ->
  let sn_end := RLC_AM_PREV_SN (vt_a r) in
  is_sn sn -> RLC_AM_DIFF_SN sn sn_end <= RLC_AM_DIFF_SN (vt_s r) (vt_a r) ->
  RLC_AM_DIFF_SN sn sn_end < Z.of_nat fuel ->
  exists r', poll_retransmit_search fuel sn sn_end r = Ok r' /\ tx_inv r' /\
    t_poll_retransmit r' = t_poll_retransmit r.
Proof.
  intros Hinv Hz sn_end. revert sn. induction fuel as [|fuel IH]; intros sn Hsn Hd Hf.
  { pose proof (RLC_AM_DIFF_SN_range sn sn_end). lia. }
  simpl. destruct (Z.eqb_spec sn sn_end) as [-> | Hne]; simpl; [by exists r|].
  assert (Hout : tx_outstanding r sn).
  { split; [done|]. destruct (tx_inv_vars r Hinv) as [Ha Hs]. subst sn_end.
    clear -Ha Hs Hsn Hd Hne. sn_lia. }
  destruct (tx_inv_outstanding r sn Hinv Hout) as (p & -> & Hp & (Hm & Hpsn & Hpos & Hfl)).
  simpl. rewrite Hm. simpl. destruct (negb _ && negb _) eqn:E.
  2:{ apply IH; [apply RLC_AM_PREV_SN_is_sn| |]; clear -Hsn Hd Hf Hne; subst sn_end; sn_lia. }
  rewrite set_tx_pdu_ok by (first [by apply tx_inv_length | apply Hsn]). simpl.
  eexists. split; [reflexivity|]. split; [|done].
  destruct (poll_retransmit_pdu_facts p) as (F1 & F2 & F3 & F4 & F5 & F6 & F7).
  pose proof (tx_inv_accounting r Hinv) as Hacc.
  destruct (nothing_pending _ _ _ Hacc Hz Hp) as [Hr0 Hr1].
  eapply (tx_inv_update r _ _ p (poll_retransmit_pdu p) Hinv Hp); try done.
  - congruence.
  - congruence.
  - eapply (tx_accounting_update r _ _ p (poll_retransmit_pdu p) Hacc Hp); try done.
    + pose proof (tx_accounting_wf _ _ _ Hacc Hp) as (_ & Hpp & Hnh & Hh1 & Hh2).
      destruct (poll_retransmit_pdu_holes p) as (E1 & E2 & E3).
      split; [rewrite F5, F1; split; [lia|done] | rewrite F7, E1, E2, E3; done].
    + cbn. lia.
    + cbn. unfold pending. rewrite F5, Hr1. simpl. lia.
Qed.

(** On the expiry of t-PollRetransmit the function does not fail, the timer
    stops, the next PDU is made to poll, and the accounting and window
    invariant of the transmitting side is kept, unless the window is stalled
    with data already pending; before the expiry it changes nothing. *)
Theorem poll_retransmit_expiry c r :
  tx_inv r -> (retrans_num_bytes_to_retransmit r = 0 \/ vt_s r <> vt_ms r) ->
  exists r', rlc_am_check_timer_poll_retransmit c r = Ok r' /\ tx_inv r' /\
    if running (t_poll_retransmit r) && timer_expired (t_poll_retransmit r) (time_ms c)
    then force_poll r' = true /\ running (t_poll_retransmit r') = false
    else r' = r.
Proof.
  intros Hinv Hcase. unfold rlc_am_check_timer_poll_retransmit.
  destruct (running _ && _); [|by exists r].
  cbn -[poll_retransmit_search RLC_AM_PREV_SN]. set (r1 := stat_add _ _ _).
  assert (Hinv1 : tx_inv r1) by (by apply (tx_inv_frame r)).
  assert (exists r', (if (sdu_buffer_occupancy r =? 0) && (retrans_num_bytes_to_retransmit r =? 0)
                         || (vt_s r =? vt_ms r)
                      then poll_retransmit_search 1024 (RLC_AM_PREV_SN (vt_s r))
                             (RLC_AM_PREV_SN (vt_a r)) r1 else Ok r1) = Ok r' /\
            tx_inv r' /\ t_poll_retransmit r' = t_poll_retransmit r1) as (r' & -> & Hr' & Ht).
  2:{ eexists. split; [reflexivity|]. split; [by apply (tx_inv_frame r')|].
      split; [done|]. cbn. by rewrite Ht. }
  destruct (_ || _) eqn:E; [|by exists r1].
  apply (poll_retransmit_search_ok 1024 _ r1 Hinv1).
  - change (retrans_num_bytes_to_retransmit r = 0). bool_prop. lia.
  - apply RLC_AM_PREV_SN_is_sn.
  - destruct (tx_inv_vars r Hinv) as [Ha Hs]. cbn -[RLC_AM_PREV_SN RLC_AM_DIFF_SN]. clear -Ha Hs. sn_lia.
  - pose proof (RLC_AM_DIFF_SN_range (RLC_AM_PREV_SN (vt_s r)) (RLC_AM_PREV_SN (vt_a r1))). lia.
Qed.

(** Life cycle of t-StatusProhibit: while it runs the PROHIBIT flag keeps the
    STATUS PDU back; at the expiry the flag is cleared and the timer reset. *)
Lemma prohibit_bit x : Z.testbit (RLC_SET_EVENT x RLC_AM_STATUS_PROHIBIT) 5 = true.
Proof. unfold RLC_SET_EVENT. rewrite Z.lor_spec. by rewrite orb_true_r. Qed.
Lemma prohibit_cleared x : Z.testbit (RLC_CLEAR_EVENT x RLC_AM_STATUS_PROHIBIT) 5 = false.
Proof. unfold RLC_CLEAR_EVENT. rewrite Z.land_spec, Z.lnot_spec by lia. by rewrite andb_false_r. Qed.
Lemma testbit_u8 x i : 0 <= i < 8 -> Z.testbit (u8 x) i = Z.testbit x i.
Proof. intros H. unfold u8, wrapu. by rewrite Z.mod_pow2_bits_low by lia. Qed.

(** T-StatusProhibit, started at [c] and checked [e] ms later: until its
    duration has elapsed the check changes nothing and the PROHIBIT flag is up;
    afterwards the check takes the flag down and resets the timer. *)
Theorem status_prohibit_cycle c c' r e :
  0 <= e < 2 ^ 32 -> time_ms c' = u32 (time_ms c + e) ->
  0 < ms_duration (t_status_prohibit r) < 2 ^ 32 -> running (t_status_prohibit r) = false ->
  let r1 := rlc_am_start_timer_status_prohibit c r in
  let r2 := rlc_am_check_timer_status_prohibit c' r1 in
  Z.testbit (status_requested r1) 5 = true /\
  if ms_duration (t_status_prohibit r) <=? e
  then Z.testbit (status_requested r2) 5 = false /\
       t_status_prohibit r2 = timer_stopped (t_status_prohibit r)
  else r2 = r1.
Proof.
  intros He Hc Hd Hrun. cbv zeta.
  set (r1 := rlc_am_start_timer_status_prohibit c r).
  assert (Hr1 : t_status_prohibit r1 =
    timer_started (time_ms c) ((t_status_prohibit r) <| timed_out := false |>) /\
    status_requested r1 = u8 (RLC_SET_EVENT (status_requested r) RLC_AM_STATUS_PROHIBIT)).
  { unfold r1, rlc_am_start_timer_status_prohibit.
    cbn -[time_ms timer_started u8]. rewrite Hrun. cbn -[time_ms timer_started u8].
    by rewrite (proj2 (Z.gtb_lt _ 0)) by lia. }
  destruct Hr1 as [Ht Hst]. clearbody r1. split.
  { rewrite Hst, testbit_u8 by lia. apply prohibit_bit. }
  unfold rlc_am_check_timer_status_prohibit. rewrite Ht, Hc.
  cbn [ms_duration running timer_started update_field].
  rewrite timer_expired_exact by (cbn; first [lia | apply wrapu_range; lia]).
  cbn -[timer_stopped u8 Z.testbit]. rewrite (proj2 (Z.gtb_lt _ 0)) by lia.
  destruct (_ <=? e) eqn:E; [|done].
  unfold rlc_am_stop_and_reset_timer_status_prohibit. cbn -[timer_stopped u8 Z.testbit].
  rewrite (proj2 (Z.gtb_lt _ 0)) by lia. rewrite testbit_u8 by lia.
  split; [apply prohibit_cleared | done].
Qed.

(** ** Timers of 10 ms started 4 ms before the clock wraps *)
Definition sample_timer : rlc_am_timer_t := Mk_timer 0 0 10 false false.
Definition sample_timers : rlc_am_entity_t :=
  sample_window <| t_poll_retransmit := sample_timer |> <| t_reordering := sample_timer |>
    <| t_status_prohibit := sample_timer |>.
(** The last subframes before the wrap, and the sixth subframe after it. *)
Definition before_wrap : protocol_ctxt_t := Mk_ctxt 429496729 2 false.
Definition after_wrap : protocol_ctxt_t := Mk_ctxt 0 6 false.

(** The frame number 1023 is followed by 0: 6 ms later the timer is expired. *)
Definition last_frame : protocol_ctxt_t := Mk_ctxt 1023 8 false.
Lemma timers_expire_exactly_witness :
  time_ms before_wrap = 2 ^ 32 - 4 /\
  timer_expired (t_poll_retransmit (rlc_am_start_timer_poll_retransmit before_wrap sample_timers)) 5 = false /\
  timer_expired (t_reordering (rlc_am_start_timer_reordering before_wrap sample_timers)) 6 = true /\
  timer_expired (t_poll_retransmit (rlc_am_start_timer_poll_retransmit last_frame sample_timers)) 4 = true.
Proof.
  assert (H : forall c, Forall _ _) by
    (intros c; apply (timers_expire_exactly c sample_timers); first [reflexivity | split; reflexivity]).
  split; [reflexivity|].
  pose proof (H before_wrap) as [(_ & H1 & _) [(_ & H2 & _) _]%Forall_cons]%Forall_cons.
  split; [exact (H1 9 ltac:(lia))|]. split; [exact (H2 10 ltac:(lia))|].
  pose proof (H last_frame) as [(_ & _ & H3) _]%Forall_cons.
  exact (H3 ltac:(vm_compute; reflexivity) 6 ltac:(unfold frame_clock; lia)).
Defined.

Lemma poll_retransmit_expiry_witness :
  let r := rlc_am_start_timer_poll_retransmit before_wrap sample_timers in
  exists r', rlc_am_check_timer_poll_retransmit after_wrap r = Ok r' /\ tx_inv r' /\
    force_poll r' = true /\ running (t_poll_retransmit r') = false.
Proof.
  cbv zeta. destruct (poll_retransmit_expiry after_wrap (rlc_am_start_timer_poll_retransmit before_wrap sample_timers))
    as (r' & E & Hinv & H).
  - by apply (tx_inv_frame sample_window); [apply sample_window_inv|..].
  - left. reflexivity.
  - exists r'. split; [exact E|]. split; [exact Hinv|exact H].
Defined.

Lemma status_prohibit_cycle_witness :
  let r := rlc_am_start_timer_status_prohibit before_wrap sample_timers in
  Z.testbit (status_requested r) 5 = true /\
  Z.testbit (status_requested (rlc_am_check_timer_status_prohibit after_wrap r)) 5 = false.
Proof.
  destruct (status_prohibit_cycle before_wrap after_wrap sample_timers 10) as [H1 H2].
  - lia.
  - reflexivity.
  - split; reflexivity.
  - reflexivity.
  - split; [exact H1|exact (proj1 H2)].
Defined.
