(* ===== verification/RlcAmStatusCodec.v ===== *)
(** * STATUS PDUs on the wire (rlc_am_status_report.c)

    The bit-field reader and writers, the encoder [rlc_am_write_status_pdu] and
    the decoder [rlc_am_get_control_pdu_infos].  A pointer into the PDU is the
    index of the byte; reading or writing past the end of the memory block is
    undefined behaviour. *)

From S2P Require Import Prelude Bits RlcAmTypes.

(** ** Bit fields *)

(** The loop of [rlc_am_read_bit_field]: each round reads what is left of the
    current byte; the result is the value, the byte and the bit reached. *)
Fixpoint read_bit_loop (fuel : nat) (data : list Z) (byte_pos bit_pos bits_to_read value : Z)
  : res (Z * Z * Z) :=
  match fuel with
  | O => Err OutOfFuel
  | S fuel' =>
      byte ← array_get data byte_pos;
      if 8 - bit_pos >? bits_to_read then
        let bits_read := 8 - bit_pos in
        let value := u16 (Z.lor (Z.shiftl value bits_to_read)
                           (Z.shiftr (Z.land byte (Z.shiftr 255 bit_pos))
                              (bits_read - bits_to_read))) in
        Ok (value, byte_pos, bit_pos + bits_to_read)
      else if 8 - bit_pos =? bits_to_read then
        let value := u16 (Z.lor (Z.shiftl value bits_to_read)
                           (Z.land byte (Z.shiftr 255 bit_pos))) in
        Ok (value, byte_pos + 1, 0)
      else
        let bits_read := 8 - bit_pos in
        let value := u16 (Z.lor (Z.shiftl value bits_read)
                           (Z.land byte (Z.shiftr 255 bit_pos))) in
        let bits_to_read := bits_to_read - bits_read in
        if bits_to_read >? 0
        then read_bit_loop fuel' data (byte_pos + 1) 0 bits_to_read value
        else Ok (value, byte_pos + 1, 0)
  end.

(** At most 16 bits are read: three bytes. *)
Definition rlc_am_read_bit_field (data : list Z) (byte_pos bit_pos bits_to_readP : Z)
  : res (Z * Z * Z) :=
  read_bit_loop 3 data byte_pos bit_pos bits_to_readP 0.

Fixpoint write8_loop (fuel : nat) (data : list Z) (byte_pos bit_pos bits_to_write valueP : Z)
  : res (list Z * Z * Z) :=
  match fuel with
  | O => Err OutOfFuel
  | S fuel' =>
      let available_bits := 8 - bit_pos in
      byte ← array_get data byte_pos;
      if available_bits >? bits_to_write then
        let byte := u8 (Z.lor byte
                          (Z.shiftl (Z.land valueP (Z.shiftr 255 (available_bits - bits_to_write)))
                             (available_bits - bits_to_write))) in
        data ← array_set data byte_pos byte;
        Ok (data, byte_pos, bit_pos + bits_to_write)
      else if available_bits =? bits_to_write then
        let byte := u8 (Z.lor byte (Z.land valueP (Z.shiftr 255 (8 - bits_to_write)))) in
        data ← array_set data byte_pos byte;
        Ok (data, byte_pos + 1, 0)
      else
        let byte := u8 (Z.lor byte (Z.shiftr valueP (bits_to_write - available_bits))) in
        data ← array_set data byte_pos byte;
        let bits_to_write := bits_to_write - available_bits in
        if bits_to_write >? 0
        then write8_loop fuel' data (byte_pos + 1) 0 bits_to_write valueP
        else Ok (data, byte_pos + 1, 0)
  end.

Definition rlc_am_write8_bit_field (data : list Z) (byte_pos bit_pos bits_to_writeP valueP : Z)
  : res (list Z * Z * Z) :=
  write8_loop 2 data byte_pos bit_pos bits_to_writeP valueP.

Definition rlc_am_write16_bit_field (data : list Z) (byte_pos bit_pos bits_to_writeP valueP : Z)
  : res (list Z * Z * Z) :=
  _ ← assert_that (bits_to_writeP <=? 16);
  if bits_to_writeP >? 8 then
    '(data, byte_pos, bit_pos) ←
      rlc_am_write8_bit_field data byte_pos bit_pos (bits_to_writeP - 8) (u8 (Z.shiftr valueP 8));
    rlc_am_write8_bit_field data byte_pos bit_pos 8 (u8 (Z.land valueP 255))
  else
    rlc_am_write8_bit_field data byte_pos bit_pos bits_to_writeP (u8 (Z.land valueP 255)).

(** ** Decoder *)

(** One round of the loop: the three or five fields of a NACK_SN. *)
Definition read_nack (data : list Z) (byte_pos bit_pos : Z) : res (nack_sn_t * Z * Z) :=
  '(sn_, byte_pos, bit_pos) ← rlc_am_read_bit_field data byte_pos bit_pos 10;
  '(e1_, byte_pos, bit_pos) ← rlc_am_read_bit_field data byte_pos bit_pos 1;
  '(e2_, byte_pos, bit_pos) ← rlc_am_read_bit_field data byte_pos bit_pos 1;
  if negb (e2_ =? 0) then
    '(start, byte_pos, bit_pos) ← rlc_am_read_bit_field data byte_pos bit_pos 15;
    '(stop, byte_pos, bit_pos) ← rlc_am_read_bit_field data byte_pos bit_pos 15;
    Ok (Mk_nack sn_ e1_ e2_ start stop, byte_pos, bit_pos)
  else
    Ok (Mk_nack sn_ e1_ e2_ 0 32767, byte_pos, bit_pos).

(** [total - (byte_pos_p + (bit_pos + 7) / 8 - header_pP)] *)
Definition remaining_size (total byte_pos bit_pos : Z) : Z :=
  total - (byte_pos + (bit_pos + 7) / 8).

(** The loop of the decoder; the fuel is the room left in [nack_list]. *)
Fixpoint read_nacks (fuel : nat) (data : list Z) (byte_pos bit_pos : Z) (total : Z)
    (info : rlc_am_control_pdu_info_t) : res (Z * Z * rlc_am_control_pdu_info_t) :=
  match fuel with
  | O => Err OutOfFuel
  | S fuel' =>
      '(n, byte_pos, bit_pos) ← read_nack data byte_pos bit_pos;
      l ← array_set (nack_list info) (num_nack info) n;
      let info := info <| nack_list := l |> <| num_nack := num_nack info + 1 |> in
      if nack_e1 n =? 0 then Ok (0, remaining_size total byte_pos bit_pos, info)
      else if num_nack info =? RLC_AM_MAX_NACK_IN_STATUS_PDU
      then Ok (-2, remaining_size total byte_pos bit_pos, info)
      else read_nacks fuel' data byte_pos bit_pos total info
  end.

(** The result is the return code, the new [*total_size_pP] and [*pdu_info_pP]. *)
Definition rlc_am_get_control_pdu_infos (data : list Z) (total : Z)
  : res (Z * Z * rlc_am_control_pdu_info_t) :=
  b1 ← array_get data 0;
  let info := control_pdu_info_zero <| st_d_c := Z.shiftr b1 7 |> in
  if st_d_c info =? 0 then
    let info := info <| st_cpt := Z.land (Z.shiftr b1 4) 7 |> in
    if negb (st_cpt info =? 0) then Ok (-3, total, info)
    else
      b2 ← array_get data 1;
      let info := info <| ack_sn := Z.lor (Z.land (Z.shiftr b2 2) 63)
                                       (Z.shiftl (Z.land b1 15) 6) |> in
      let info := info <| st_e1 := Z.land (Z.shiftr b2 1) 1 |> in
      if negb (st_e1 info =? 0) then read_nacks 1023 data 1 7 total info
      else Ok (0, total - 2, info)
  else Ok (-1, total, info).

(** ** Encoder *)
Definition write_nack (data : list Z) (byte_pos bit_pos : Z) (n : nack_sn_t)
  : res (list Z * Z * Z) :=
  '(data, byte_pos, bit_pos) ← rlc_am_write16_bit_field data byte_pos bit_pos 10 (nack_sn n);
  '(data, byte_pos, bit_pos) ← rlc_am_write8_bit_field data byte_pos bit_pos 1 (nack_e1 n);
  '(data, byte_pos, bit_pos) ← rlc_am_write8_bit_field data byte_pos bit_pos 1 (nack_e2 n);
  if nack_e2 n >? 0 then
    '(data, byte_pos, bit_pos) ← rlc_am_write16_bit_field data byte_pos bit_pos 15 (so_start n);
    rlc_am_write16_bit_field data byte_pos bit_pos 15 (so_end n)
  else Ok (data, byte_pos, bit_pos).

Fixpoint write_nacks (ns : list nack_sn_t) (data : list Z) (byte_pos bit_pos : Z)
  : res (list Z * Z * Z) :=
  match ns with
  | [] => Ok (data, byte_pos, bit_pos)
  | n :: ns' =>
      '(data, byte_pos, bit_pos) ← write_nack data byte_pos bit_pos n;
      write_nacks ns' data byte_pos bit_pos
  end.

(** The result is the written block and the number of bytes. *)
Definition rlc_am_write_status_pdu (data : list Z) (info : rlc_am_control_pdu_info_t)
  : res (list Z * Z) :=
  '(data, byte_pos, bit_pos) ← rlc_am_write16_bit_field data 0 4 10 (ack_sn info);
  '(data, byte_pos, bit_pos) ←
    rlc_am_write8_bit_field data byte_pos bit_pos 1 (if num_nack info >? 0 then 1 else 0);
  '(data, byte_pos, bit_pos) ←
    write_nacks (take (Z.to_nat (num_nack info)) (nack_list info)) data byte_pos bit_pos;
  let num_bytes := byte_pos in
  Ok (data, if bit_pos >? 0 then num_bytes + 1 else num_bytes).

(** ** Reading a field *)

(** The bit string of the PDU from the cursor on starts with [bs]. *)
Definition at_bits (data : list Z) (byte_pos bit_pos : Z) (bs : list bool) : Prop :=
  0 <= byte_pos /\ 0 <= bit_pos < 8 /\
  8 * byte_pos + bit_pos + Z.of_nat (length bs) = Z.of_nat (length (bits data)) /\
  bs = drop (Z.to_nat (8 * byte_pos + bit_pos)) (bits data).

Lemma land_shiftr_255 b k :
  0 <= k <= 8 -> Z.land b (Z.shiftr 255 k) = b mod 2 ^ (8 - k).
Proof.
  intros H. change 255 with (Z.ones 8).
  rewrite Z.shiftr_div_pow2, Z.ones_div_pow2, Z.land_ones by lia. done.
Qed.

(** What is read of one byte from bit [k] on, [n] bits. *)
Lemma byte_field b k n :
  0 <= k -> 0 <= n -> k + n <= 8 ->
  (b mod 2 ^ (8 - k)) / 2 ^ (8 - k - n) = val_of (take (Z.to_nat n) (drop (Z.to_nat k) (bits_of 8 b))).
Proof.
  intros Hk Hn H.
  replace 8%nat with (Z.to_nat k + (Z.to_nat n + Z.to_nat (8 - k - n)))%nat by lia.
  rewrite drop_bits_of, take_bits_of, val_of_bits_of, Z.shiftr_div_pow2 by lia.
  rewrite !Z2Nat.id by lia.
  replace (8 - k) with (n + (8 - k - n)) at 1 by lia.
  rewrite Z.pow_add_r by lia. rewrite (Z.mul_comm (2 ^ n)), Z.rem_mul_r by lia.
  rewrite Z.mul_comm, Z.div_add by lia.
  rewrite (Z.div_small (b mod _)) by (apply Z.mod_pos_bound; lia). lia.
Qed.

Lemma u16_append value bs n acc :
  Z.of_nat (length bs) = n -> 0 <= value -> value = val_of acc -> n + Z.of_nat (length acc) <= 16 ->
  u16 (Z.lor (Z.shiftl value n) (val_of bs)) = val_of (acc ++ bs).
Proof.
  intros <- Hv -> Hl. rewrite lor_shiftl_add by (first [lia | apply val_of_bound]).
  rewrite val_of_app. apply wrapu_small.
  pose proof (val_of_bound (acc ++ bs)) as Hb. rewrite val_of_app, length_app in Hb.
  assert (2 ^ Z.of_nat (length acc + length bs) <= 2 ^ 16) by (apply Z.pow_le_mono_r; lia).
  lia.
Qed.

Lemma at_bits_byte data pos bit bs :
  at_bits data pos bit bs -> (0 < length bs)%nat ->
  exists b, array_get data pos = Ok b /\
    bs = drop (Z.to_nat bit) (bits_of 8 b) ++ bits (drop (S (Z.to_nat pos)) data).
Proof.
  intros (Hp & Hb & _ & ->) Hl. rewrite length_drop, length_bits in Hl.
  destruct (array_get_ok data pos) as (b & -> & Hlk); [lia|]. exists b. split; [done|].
  rewrite <- (drop_bits data (Z.to_nat pos) b (Z.to_nat bit) Hlk) by lia. f_equal. lia.
Qed.

Lemma at_bits_drop data pos bit bs pos' bit' n :
  at_bits data pos bit bs -> 0 <= pos' -> 0 <= bit' < 8 ->
  8 * pos' + bit' = 8 * pos + bit + Z.of_nat n -> (n <= length bs)%nat ->
  at_bits data pos' bit' (drop n bs).
Proof.
  intros (Hp & Hb & Hl & ->) Hp' Hb' H Hn. split; [done|]. split; [done|]. split.
  - rewrite !length_drop in *. lia.
  - rewrite drop_drop. f_equal. lia.
Qed.

Lemma read_bit_loop_ok fuel data pos bit n acc bs :
  at_bits data pos bit bs -> 0 < n <= Z.of_nat (length bs) ->
  n + Z.of_nat (length acc) <= 16 -> bit + n <= 8 * Z.of_nat fuel ->
  exists pos' bit',
    read_bit_loop fuel data pos bit n (val_of acc) =
      Ok (val_of (acc ++ take (Z.to_nat n) bs), pos', bit') /\
    at_bits data pos' bit' (drop (Z.to_nat n) bs).
Proof.
  revert pos bit n acc bs. induction fuel as [|fuel IH]; intros pos bit n acc bs Hat Hn Hacc Hf.
  { destruct Hat as (? & ? & _). lia. }
  pose proof Hat as (Hp & Hb & _).
  destruct (at_bits_byte _ _ _ _ Hat) as (b & Hget & Hbs); [lia|].
  cbn [read_bit_loop]. rewrite Hget. cbn [mbind res_bind].
  rewrite land_shiftr_255 by lia.
  assert (Hhd : length (drop (Z.to_nat bit) (bits_of 8 b)) = Z.to_nat (8 - bit))
    by (rewrite length_drop, length_bits_of; lia).
  assert (Hfull : b mod 2 ^ (8 - bit) = val_of (drop (Z.to_nat bit) (bits_of 8 b))).
  { rewrite <- (take_ge (drop (Z.to_nat bit) (bits_of 8 b)) (Z.to_nat (8 - bit))) by lia.
    rewrite <- byte_field by lia. by rewrite Z.sub_diag, Z.div_1_r. }
  pose proof (val_of_bound acc).
  destruct (Z.gtb_spec (8 - bit) n) as [Hn0|Hn0]; [|destruct (Z.eqb_spec (8 - bit) n) as [He|Hne]].
  - rewrite Z.shiftr_div_pow2, byte_field by lia.
    rewrite (u16_append _ _ _ acc); [|rewrite length_take; lia|lia|done|lia].
    do 2 eexists. split.
    + rewrite Hbs at 1. rewrite take_app_le by lia. reflexivity.
    + eapply at_bits_drop; [exact Hat|lia..].
  - rewrite Hfull. rewrite (u16_append _ _ _ acc); [|lia|lia|done|lia].
    do 2 eexists. split.
    + rewrite Hbs at 1. rewrite take_app_length' by lia. reflexivity.
    + eapply at_bits_drop; [exact Hat|lia..].
  - rewrite Hfull. rewrite (u16_append _ _ _ acc); [|lia|lia|done|lia].
    destruct (Z.gtb_spec (n - (8 - bit)) 0); [|lia].
    assert (Hat' : at_bits data (pos + 1) 0 (drop (Z.to_nat (8 - bit)) bs))
      by (eapply at_bits_drop; [exact Hat|lia..]).
    destruct (IH (pos + 1) 0 (n - (8 - bit)) (acc ++ drop (Z.to_nat bit) (bits_of 8 b)) _ Hat')
      as (pos' & bit' & -> & Hat''); [rewrite length_drop; lia|rewrite length_app; lia|lia|].
    exists pos', bit'. rewrite drop_drop in Hat''. split.
    + rewrite <- app_assoc. do 5 f_equal. clear -Hbs Hhd Hb Hn0 Hne.
      set (hd := drop (Z.to_nat bit) (bits_of 8 b)) in *. clearbody hd. subst bs.
      rewrite drop_app_length' by lia. rewrite take_app_ge by lia. do 2 f_equal. lia.
    + replace (Z.to_nat n) with (Z.to_nat (8 - bit) + Z.to_nat (n - (8 - bit)))%nat by lia. done.
Qed.

(** Reading a field of at most 16 bits is taking it off the bit string. *)
Lemma read_bit_field_ok data pos bit n bs :
  at_bits data pos bit bs -> 0 < n <= 16 -> n <= Z.of_nat (length bs) ->
  exists pos' bit',
    rlc_am_read_bit_field data pos bit n = Ok (val_of (take (Z.to_nat n) bs), pos', bit') /\
    at_bits data pos' bit' (drop (Z.to_nat n) bs).
Proof.
  intros Hat Hn Hl. pose proof Hat as (_ & ? & _).
  apply (read_bit_loop_ok 3 data pos bit n [] bs Hat); simpl; lia.
Qed.

(** ... in particular a field that was put there. *)
Lemma read_field data pos bit n v bs :
  at_bits data pos bit (bits_of (Z.to_nat n) v ++ bs) -> 0 < n <= 16 -> 0 <= v < 2 ^ n ->
  exists pos' bit', rlc_am_read_bit_field data pos bit n = Ok (v, pos', bit') /\
    at_bits data pos' bit' bs.
Proof.
  intros Hat Hn Hv.
  destruct (read_bit_field_ok _ _ _ n _ Hat Hn) as (pos' & bit' & -> & Hat').
  { rewrite length_app, length_bits_of. lia. }
  exists pos', bit'. rewrite take_app_length', drop_app_length' in * by (by rewrite length_bits_of).
  split; [|done]. rewrite val_of_bits_of, Z2Nat.id, Z.mod_small by lia. done.
Qed.

(** ** Writing a field

    The block holds the bits written so far, followed by zeros. *)
Definition written (data : list Z) (byte_pos bit_pos : Z) (bs : list bool) : Prop :=
  0 <= byte_pos /\ 0 <= bit_pos < 8 /\ Forall is_byte data /\
  8 * byte_pos + bit_pos = Z.of_nat (length bs) /\
  exists k, bits data = bs ++ replicate k false.

Lemma byte_or b v s :
  0 <= s <= 8 -> is_byte b -> b mod 2 ^ s = 0 -> 0 <= v < 2 ^ s ->
  u8 (Z.lor b v) = b + v /\ is_byte (b + v).
Proof.
  intros Hs Hb Hz Hv.
  assert (E : Z.lor b v = b + v).
  { pose proof (Z.div_mod b (2 ^ s)) as Hdm. rewrite Hz, Z.add_0_r in Hdm.
    rewrite Hdm by lia. rewrite (Z.mul_comm (2 ^ s)), <- Z.shiftl_mul_pow2 at 1 by lia.
    rewrite lor_shiftl_add by lia. rewrite Z.mul_comm. lia. }
  assert (b + v < 256).
  { pose proof (Z.div_mod b (2 ^ s)) as Hdm. rewrite Hz, Z.add_0_r in Hdm.
    assert (Hq : b / 2 ^ s < 2 ^ (8 - s)).
    { apply Z.div_lt_upper_bound; [lia|]. rewrite <- Z.pow_add_r by lia.
      replace (s + (8 - s)) with 8 by lia. apply Hb. }
    assert (H256 : 2 ^ s * 2 ^ (8 - s) = 256)
      by (rewrite <- Z.pow_add_r by lia; by replace (s + (8 - s)) with 8 by lia).
    nia. }
  unfold is_byte in *. split; [|lia]. rewrite E. apply wrapu_small. lia.
Qed.

Lemma byte_write b v k n :
  0 <= k -> 0 <= n -> k + n <= 8 -> is_byte b -> b mod 2 ^ (8 - k) = 0 -> 0 <= v < 2 ^ n ->
  u8 (Z.lor b (Z.shiftl v (8 - k - n))) = b + v * 2 ^ (8 - k - n) /\
  is_byte (b + v * 2 ^ (8 - k - n)) /\
  bits_of 8 (b + v * 2 ^ (8 - k - n)) =
    take (Z.to_nat k) (bits_of 8 b) ++ bits_of (Z.to_nat n) v
    ++ replicate (Z.to_nat (8 - k - n)) false.
Proof.
  intros Hk Hn H Hb Hz Hv. set (s := 8 - k - n).
  assert (Hvs : 0 <= v * 2 ^ s < 2 ^ (8 - k)).
  { replace (8 - k) with (n + s) by lia. rewrite Z.pow_add_r by lia. nia. }
  rewrite Z.shiftl_mul_pow2 by lia.
  destruct (byte_or b (v * 2 ^ s) (8 - k)) as [E1 E2]; [lia|done..|].
  split; [done|]. split; [done|].
  replace 8%nat with (Z.to_nat k + (Z.to_nat n + Z.to_nat s))%nat by lia.
  rewrite take_bits_of, !bits_of_app. f_equal; [|f_equal].
  - f_equal. rewrite !Z.shiftr_div_pow2 by lia.
    replace (Z.of_nat (Z.to_nat n + Z.to_nat s)) with (8 - k) by lia.
    rewrite <- (Z.add_0_r (b / 2 ^ (8 - k))), (Z.div_mod b (2 ^ (8 - k))) at 1 by lia.
    rewrite Hz, Z.add_0_r, Z.mul_comm, Z.div_add_l by lia.
    by rewrite (Z.div_small (v * 2 ^ s)) by lia.
  - apply bits_of_mod. rewrite Z.shiftr_div_pow2, !Z2Nat.id, Z.div_add by lia.
    assert (Hbs : b / 2 ^ s = b / 2 ^ (8 - k) * 2 ^ n).
    { rewrite (Z.div_mod b (2 ^ (8 - k))) at 1 by lia. rewrite Hz, Z.add_0_r.
      replace (8 - k) with (n + s) by lia. rewrite !Z.pow_add_r by lia.
      rewrite (Z.mul_comm (2 ^ n) (2 ^ s)), <- Z.mul_assoc, Z.mul_comm, Z.div_mul by lia. lia. }
    rewrite Hbs, Z.add_comm. apply Z_mod_plus_full.
  - apply bits_of_zero. rewrite Z2Nat.id by lia. rewrite Z_mod_plus_full.
    rewrite (Z.div_mod b (2 ^ (8 - k))) by lia. rewrite Hz, Z.add_0_r.
    replace (8 - k) with (n + s) by lia. rewrite Z.pow_add_r by lia.
    rewrite Z.mul_comm, Z.mul_assoc. apply Z_mod_mult.
Qed.

Lemma written_byte data pos bit bs :
  written data pos bit bs -> pos < Z.of_nat (length data) ->
  exists b, array_get data pos = Ok b /\ data !! Z.to_nat pos = Some b /\ is_byte b /\
    b mod 2 ^ (8 - bit) = 0 /\
    bs = bits (take (Z.to_nat pos) data) ++ take (Z.to_nat bit) (bits_of 8 b) /\
    exists k, bits (drop (S (Z.to_nat pos)) data) = replicate k false.
Proof.
  intros (Hp & Hb & Hbytes & Hlen & k & Hk) Hpos.
  destruct (array_get_ok data pos) as (b & Hget & Hlk); [lia|].
  exists b. do 2 (split; [done|]). split; [by eapply Forall_lookup_1|].
  pose proof (drop_bits data (Z.to_nat pos) b (Z.to_nat bit) Hlk) as Hd.
  rewrite Hk, drop_app_length' in Hd by lia. specialize (Hd ltac:(lia)).
  assert (Hk' : replicate k false = replicate (Z.to_nat (8 - bit)) false
                  ++ replicate (k - Z.to_nat (8 - bit)) false).
  { rewrite <- replicate_add. f_equal. apply (f_equal length) in Hd.
    rewrite length_app, length_replicate, length_drop, length_bits_of in Hd. lia. }
  rewrite Hk' in Hd.
  apply app_inj_1 in Hd as [Hd1 Hd2]; cycle 1.
  { rewrite length_replicate, length_drop, length_bits_of. lia. }
  split; [|split; [|eauto]].
  - assert (E : 8%nat = (Z.to_nat bit + Z.to_nat (8 - bit))%nat) by lia.
    rewrite E, drop_bits_of in Hd1. apply (f_equal val_of) in Hd1.
    rewrite val_of_zeros, val_of_bits_of, Z2Nat.id in Hd1 by lia. done.
  - pose proof (f_equal (take (length bs)) Hk) as Ht. rewrite take_app_length in Ht.
    rewrite <- Ht, (bits_lookup _ _ _ Hlk).
    assert (Hl : length (bits (take (Z.to_nat pos) data)) = (8 * Z.to_nat pos)%nat)
      by (rewrite length_bits, length_take; apply lookup_lt_Some in Hlk; lia).
    rewrite take_app_ge by lia. f_equal. rewrite take_app_le by (rewrite length_bits_of; lia).
    f_equal. lia.
Qed.

Lemma write_byte_step data pos bit n v bs :
  written data pos bit bs -> 0 <= n <= 8 - bit -> 0 <= v < 2 ^ n ->
  pos < Z.of_nat (length data) ->
  exists b, array_get data pos = Ok b /\
    let b' := u8 (Z.lor b (Z.shiftl v (8 - bit - n))) in
    array_set data pos b' = Ok (<[Z.to_nat pos := b']> data) /\
    forall pos' bit', 8 * pos' + bit' = 8 * pos + bit + n -> 0 <= pos' -> 0 <= bit' < 8 ->
      written (<[Z.to_nat pos := b']> data) pos' bit' (bs ++ bits_of (Z.to_nat n) v).
Proof.
  intros Hw Hn Hv Hpos. pose proof Hw as (Hp & Hb & Hbytes & Hlen & _).
  destruct (written_byte _ _ _ _ Hw Hpos) as (b & Hget & Hlk & Hby & Hz & Hbs & k & Hk).
  exists b. split; [done|]. cbv zeta.
  destruct (byte_write b v bit n) as (E1 & E2 & E3); [lia..|done|done|done|].
  rewrite E1. split; [apply array_set_ok; lia|]. intros pos' bit' He Hp' Hb'.
  split; [done|]. split; [done|]. split; [by apply Forall_insert|]. split.
  { rewrite length_app, length_bits_of. lia. }
  exists (Z.to_nat (8 - bit - n) + k)%nat.
  rewrite bits_insert by lia. rewrite E3, Hk, Hbs, replicate_add.
  by rewrite <- !app_assoc.
Qed.

(** Writing a field of at most 8 bits appends it to the bit string. *)
Lemma write8_ok data pos bit n v bs :
  written data pos bit bs -> 0 < n <= 8 -> 0 <= v < 2 ^ n ->
  8 * pos + bit + n <= 8 * Z.of_nat (length data) ->
  exists data' pos' bit',
    rlc_am_write8_bit_field data pos bit n v = Ok (data', pos', bit') /\
    written data' pos' bit' (bs ++ bits_of (Z.to_nat n) v) /\ length data' = length data.
Proof.
  intros Hw Hn Hv Hl. pose proof Hw as (Hp & Hb & _).
  unfold rlc_am_write8_bit_field. cbn [write8_loop].
  assert (Hle : forall m, n <= m -> v mod 2 ^ m = v).
  { intros m Hm. apply Z.mod_small. assert (2 ^ n <= 2 ^ m) by (apply Z.pow_le_mono_r; lia). lia. }
  destruct (Z.gtb_spec (8 - bit) n) as [Hgt|Hgt]; [|destruct (Z.eqb_spec (8 - bit) n) as [Heq|Hne]].
  - destruct (write_byte_step data pos bit n v bs Hw) as (b & -> & Hs & Hw'); [lia..|].
    cbn [mbind res_bind]. rewrite land_shiftr_255, Hle by lia.
    rewrite Hs. cbn [mbind res_bind]. do 3 eexists. split; [reflexivity|].
    split; [apply Hw'; lia | by rewrite length_insert].
  - destruct (write_byte_step data pos bit n v bs Hw) as (b & -> & Hs & Hw'); [lia..|].
    cbn [mbind res_bind]. rewrite land_shiftr_255, Hle by lia.
    replace (8 - bit - n) with 0 in * by lia. rewrite Z.shiftl_0_r in *.
    rewrite Hs. cbn [mbind res_bind]. do 3 eexists. split; [reflexivity|].
    split; [apply Hw'; lia | by rewrite length_insert].
  - set (n' := n - (8 - bit)).
    assert (Hv1 : 0 <= Z.shiftr v n' < 2 ^ (8 - bit)).
    { rewrite Z.shiftr_div_pow2 by lia. split; [apply Z.div_pos; lia|].
      apply Z.div_lt_upper_bound; [lia|]. rewrite <- Z.pow_add_r by lia.
      replace (n' + (8 - bit)) with n by lia. lia. }
    destruct (write_byte_step data pos bit (8 - bit) (Z.shiftr v n') bs Hw)
      as (b & -> & Hs & Hw'); [lia..|].
    rewrite Z.sub_diag, Z.shiftl_0_r in *. cbn [mbind res_bind]. rewrite Hs. cbn [mbind res_bind].
    destruct (Z.gtb_spec n' 0); [|lia].
    set (data1 := <[_ := _]> data) in *.
    assert (Hl1 : length data1 = length data) by apply length_insert.
    specialize (Hw' (pos + 1) 0 ltac:(lia) ltac:(lia) ltac:(lia)).
    assert (Hvm : 0 <= v mod 2 ^ n' < 2 ^ n') by (apply Z.mod_pos_bound; lia).
    destruct (write_byte_step data1 (pos + 1) 0 n' (v mod 2 ^ n') _ Hw')
      as (b1 & -> & Hs1 & Hw1); [lia..|].
    cbn [mbind res_bind]. destruct (Z.gtb_spec (8 - 0) n'); [|lia].
    rewrite land_shiftr_255 by lia. replace (8 - (8 - 0 - n')) with n' by lia.
    rewrite Hs1. cbn [mbind res_bind]. do 3 eexists. split; [reflexivity|]. split.
    + specialize (Hw1 (pos + 1) (0 + n') ltac:(lia) ltac:(lia) ltac:(lia)).
      rewrite <- app_assoc in Hw1.
      replace (bits_of (Z.to_nat n) v) with
        (bits_of (Z.to_nat (8 - bit)) (Z.shiftr v n') ++ bits_of (Z.to_nat n') (v mod 2 ^ n')); [done|].
      replace (Z.to_nat n) with (Z.to_nat (8 - bit) + Z.to_nat n')%nat by lia.
      rewrite bits_of_app, Z2Nat.id by lia. f_equal. apply bits_of_mod.
      rewrite Z2Nat.id by lia. apply Z.mod_mod. lia.
    + rewrite length_insert. done.
Qed.

Lemma write16_ok data pos bit n v bs :
  written data pos bit bs -> 0 < n <= 16 -> 0 <= v < 2 ^ n ->
  8 * pos + bit + n <= 8 * Z.of_nat (length data) ->
  exists data' pos' bit',
    rlc_am_write16_bit_field data pos bit n v = Ok (data', pos', bit') /\
    written data' pos' bit' (bs ++ bits_of (Z.to_nat n) v) /\ length data' = length data.
Proof.
  intros Hw Hn Hv Hl. unfold rlc_am_write16_bit_field.
  rewrite (proj2 (Z.leb_le n 16)) by lia. cbn [assert_that mbind res_bind].
  assert (E255 : Z.land v 255 = v mod 2 ^ 8) by (change 255 with (2 ^ 8 - 1); by apply land_ones_mod).
  rewrite E255. assert (H8 : u8 (v mod 2 ^ 8) = v mod 2 ^ 8) by (by apply Z.mod_mod).
  rewrite H8. destruct (Z.gtb_spec n 8) as [Hgt|Hle].
  - assert (Hv1 : 0 <= Z.shiftr v 8 < 2 ^ (n - 8)).
    { rewrite Z.shiftr_div_pow2 by lia. split; [apply Z.div_pos; lia|].
      apply Z.div_lt_upper_bound; [lia|]. rewrite <- Z.pow_add_r by lia.
      replace (8 + (n - 8)) with n by lia. lia. }
    assert (Hu : u8 (Z.shiftr v 8) = Z.shiftr v 8).
    { apply wrapu_small. assert (2 ^ (n - 8) <= 2 ^ 8) by (apply Z.pow_le_mono_r; lia). lia. }
    rewrite Hu.
    destruct (write8_ok data pos bit (n - 8) (Z.shiftr v 8) bs Hw)
      as (d1 & p1 & b1 & -> & Hw1 & Hl1); [lia..|].
    cbn [mbind res_bind].
    pose proof Hw1 as (_ & _ & _ & Hc & _). pose proof Hw as (_ & _ & _ & Hc0 & _).
    rewrite length_app, length_bits_of in Hc.
    destruct (write8_ok d1 p1 b1 8 (v mod 2 ^ 8) _ Hw1) as (d2 & p2 & b2 & -> & Hw2 & Hl2);
      [lia|apply Z.mod_pos_bound; lia|lia|].
    exists d2, p2, b2. split; [done|]. split; [|congruence].
    rewrite <- app_assoc in Hw2.
    replace (bits_of (Z.to_nat n) v) with
      (bits_of (Z.to_nat (n - 8)) (Z.shiftr v 8) ++ bits_of (Z.to_nat 8) (v mod 2 ^ 8)); [done|].
    replace (Z.to_nat n) with (Z.to_nat (n - 8) + 8)%nat by lia.
    rewrite bits_of_app. f_equal. apply bits_of_mod. by apply Z.mod_mod.
  - assert (Hv2 : v mod 2 ^ 8 = v).
    { apply Z.mod_small. assert (2 ^ n <= 2 ^ 8) by (apply Z.pow_le_mono_r; lia). lia. }
    rewrite Hv2. apply write8_ok; done || lia.
Qed.

(** ** The format of a STATUS PDU *)
Definition nack_bits (n : nack_sn_t) : list bool :=
  bits_of 10 (nack_sn n) ++ bits_of 1 (nack_e1 n) ++ bits_of 1 (nack_e2 n) ++
  (if nack_e2 n >? 0 then bits_of 15 (so_start n) ++ bits_of 15 (so_end n) else []).

(** D/C = 0, CPT = 000, ACK_SN, E1, then the NACK_SNs. *)
Definition status_bits (ack : Z) (ns : list nack_sn_t) : list bool :=
  bits_of 4 0 ++ bits_of 10 ack ++ bits_of 1 (b2z (negb (bool_decide (ns = [])))) ++
  concat (map nack_bits ns).

(** A NACK_SN with its fields in range; without SO fields it stands for the
    whole PDU. *)
Definition nack_wf (n : nack_sn_t) : Prop :=
  0 <= nack_sn n < 1024 /\ 0 <= nack_e1 n < 2 /\
  0 <= so_start n < 32768 /\ 0 <= so_end n < 32768 /\
  (nack_e2 n = 1 \/ (nack_e2 n = 0 /\ so_start n = 0 /\ so_end n = 32767)).

(** E1 is set on every NACK_SN but the last. *)
Fixpoint e1_chain (ns : list nack_sn_t) : Prop :=
  match ns with
  | [] => True
  | n :: ns' => nack_e1 n = b2z (negb (bool_decide (ns' = []))) /\ e1_chain ns'
  end.

(** The decoded form of a STATUS PDU. *)
Definition status_info (ack : Z) (ns : list nack_sn_t) : rlc_am_control_pdu_info_t :=
  Mk_control_pdu_info 0 0 ack (b2z (negb (bool_decide (ns = [])))) (Z.of_nat (length ns))
    (ns ++ replicate (1023 - length ns) nack_zero).

Definition status_wf (ack : Z) (ns : list nack_sn_t) : Prop :=
  0 <= ack < 1024 /\ Forall nack_wf ns /\ e1_chain ns /\ (length ns <= 1023)%nat.

Lemma write_nack_ok data pos bit n bs :
  written data pos bit bs -> nack_wf n ->
  8 * pos + bit + Z.of_nat (length (nack_bits n)) <= 8 * Z.of_nat (length data) ->
  exists data' pos' bit', write_nack data pos bit n = Ok (data', pos', bit') /\
    written data' pos' bit' (bs ++ nack_bits n) /\ length data' = length data.
Proof.
  intros Hw (Hsn & He1 & Hs & He & He2) Hl. unfold write_nack, nack_bits in *.
  rewrite !length_app, !length_bits_of in Hl.
  assert (Hcur : forall d p b l, written d p b l -> 8 * p + b = Z.of_nat (length l))
    by (by intros ? ? ? ? (_ & _ & _ & ? & _)).
  destruct (write16_ok _ _ _ 10 (nack_sn n) _ Hw) as (d1 & p1 & b1 & -> & Hw1 & Hl1); [lia..|].
  pose proof (Hcur _ _ _ _ Hw) as C0. pose proof (Hcur _ _ _ _ Hw1) as C1.
  rewrite length_app, length_bits_of in C1. cbn [mbind res_bind].
  destruct (write8_ok _ _ _ 1 (nack_e1 n) _ Hw1) as (d2 & p2 & b2 & -> & Hw2 & Hl2); [lia..|].
  pose proof (Hcur _ _ _ _ Hw2) as C2. rewrite !length_app, !length_bits_of in C2.
  cbn [mbind res_bind].
  destruct (write8_ok _ _ _ 1 (nack_e2 n) _ Hw2) as (d3 & p3 & b3 & -> & Hw3 & Hl3); [lia..|].
  pose proof (Hcur _ _ _ _ Hw3) as C3. rewrite !length_app, !length_bits_of in C3.
  cbn [mbind res_bind].
  destruct He2 as [E | (E & _ & _)]; rewrite E in *; cbn [Z.gtb Z.compare] in *.
  - rewrite length_app, !length_bits_of in Hl.
    destruct (write16_ok _ _ _ 15 (so_start n) _ Hw3) as (d4 & p4 & b4 & -> & Hw4 & Hl4); [lia..|].
    pose proof (Hcur _ _ _ _ Hw4) as C4. rewrite !length_app, !length_bits_of in C4.
    cbn [mbind res_bind].
    destruct (write16_ok _ _ _ 15 (so_end n) _ Hw4) as (d5 & p5 & b5 & -> & Hw5 & Hl5); [lia..|].
    exists d5, p5, b5. split; [done|]. split; [|congruence]. by rewrite <- !app_assoc in Hw5.
  - exists d3, p3, b3. split; [done|]. split; [|congruence].
    rewrite app_nil_r. by rewrite <- !app_assoc in Hw3.
Qed.

Lemma write_nacks_ok ns data pos bit bs :
  written data pos bit bs -> Forall nack_wf ns ->
  8 * pos + bit + Z.of_nat (length (concat (map nack_bits ns))) <= 8 * Z.of_nat (length data) ->
  exists data' pos' bit', write_nacks ns data pos bit = Ok (data', pos', bit') /\
    written data' pos' bit' (bs ++ concat (map nack_bits ns)) /\ length data' = length data.
Proof.
  revert data pos bit bs. induction ns as [|n ns IH]; intros data pos bit bs Hw Hwf Hl;
    cbn [write_nacks map concat] in *.
  { exists data, pos, bit. by rewrite app_nil_r. }
  apply Forall_cons in Hwf as [Hn Hwf]. rewrite length_app in Hl.
  destruct (write_nack_ok _ _ _ _ _ Hw Hn) as (d1 & p1 & b1 & -> & Hw1 & Hl1); [lia|].
  cbn [mbind res_bind].
  pose proof Hw1 as (_ & _ & _ & C1 & _). pose proof Hw as (_ & _ & _ & C0 & _).
  rewrite length_app in C1.
  destruct (IH _ _ _ _ Hw1 Hwf) as (d2 & p2 & b2 & -> & Hw2 & Hl2); [lia|].
  exists d2, p2, b2. split; [done|]. split; [|congruence]. by rewrite <- app_assoc in Hw2.
Qed.

Lemma bits_zeros m : bits (replicate m 0) = replicate (8 * m) false.
Proof.
  induction m as [|m IH]; [done|]. cbn [replicate]. rewrite bits_cons, IH.
  change (bits_of 8 0) with (replicate 8 false). rewrite <- replicate_add. f_equal. lia.
Qed.

(** The encoder writes the format in a zeroed block that is large enough. *)
Lemma write_status_pdu_ok m ack ns :
  status_wf ack ns -> (length (status_bits ack ns) <= 8 * m)%nat ->
  exists data, rlc_am_write_status_pdu (replicate m 0) (status_info ack ns) =
      Ok (data, (Z.of_nat (length (status_bits ack ns)) + 7) / 8) /\
    length data = m /\ Forall is_byte data /\
    exists k, bits data = status_bits ack ns ++ replicate k false.
Proof.
  intros (Hack & Hwf & Hch & Hlen) Hm. unfold rlc_am_write_status_pdu, status_info.
  cbn [ack_sn num_nack nack_list]. rewrite Nat2Z.id, take_app_length.
  assert (Hw : written (replicate m 0) 0 4 (bits_of 4 0)).
  { split; [lia|]. split; [lia|]. split; [by apply Forall_replicate|]. split; [done|].
    exists (8 * m - 4)%nat. rewrite bits_zeros. change (bits_of 4 0) with (replicate 4 false).
    rewrite <- replicate_add. f_equal. unfold status_bits in Hm.
    rewrite length_app, length_bits_of in Hm. lia. }
  unfold status_bits in Hm. rewrite !length_app, !length_bits_of in Hm.
  destruct (write16_ok _ _ _ 10 ack _ Hw) as (d1 & p1 & b1 & -> & Hw1 & Hl1);
    [lia|lia|rewrite length_replicate; lia|].
  rewrite length_replicate in Hl1. cbn [mbind res_bind].
  pose proof Hw1 as (_ & _ & _ & C1 & _). rewrite length_app, !length_bits_of in C1.
  assert (Ee : (if Z.of_nat (length ns) >? 0 then 1 else 0) = b2z (negb (bool_decide (ns = []))))
    by (by destruct ns).
  rewrite Ee.
  destruct (write8_ok _ _ _ 1 (b2z (negb (bool_decide (ns = [])))) _ Hw1)
    as (d2 & p2 & b2 & -> & Hw2 & Hl2); [lia|case_bool_decide; simpl; lia|lia|].
  cbn [mbind res_bind].
  pose proof Hw2 as (_ & _ & _ & C2 & _). rewrite !length_app, !length_bits_of in C2.
  destruct (write_nacks_ok ns _ _ _ _ Hw2 Hwf) as (d3 & p3 & b3 & -> & Hw3 & Hl3); [lia|].
  cbn [mbind res_bind]. exists d3.
  assert (E : status_bits ack ns = (((bits_of 4 0 ++ bits_of (Z.to_nat 10) ack) ++
    bits_of (Z.to_nat 1) (b2z (negb (bool_decide (ns = []))))) ++ concat (map nack_bits ns)))
    by (unfold status_bits; by rewrite <- !app_assoc).
  rewrite E. destruct Hw3 as (Hp & Hb & Hby & C3 & k & Hk). split; [|split; [congruence|eauto]].
  rewrite <- C3. do 2 f_equal. destruct (Z.gtb_spec b3 0); mod_lia.
Qed.

(** ** Decoding *)
Lemma read_nack_ok data pos bit n bs :
  at_bits data pos bit (nack_bits n ++ bs) -> nack_wf n ->
  exists pos' bit', read_nack data pos bit = Ok (n, pos', bit') /\ at_bits data pos' bit' bs.
Proof.
  intros Hat (Hsn & He1 & Hs & He & He2). unfold read_nack, nack_bits in *.
  rewrite <- !app_assoc in Hat.
  destruct (read_field _ _ _ 10 _ _ Hat) as (p1 & b1 & -> & Hat1); [lia..|]. cbn [mbind res_bind].
  destruct (read_field _ _ _ 1 _ _ Hat1) as (p2 & b2 & -> & Hat2); [lia..|]. cbn [mbind res_bind].
  destruct (read_field _ _ _ 1 _ _ Hat2) as (p3 & b3 & -> & Hat3); [lia..|]. cbn [mbind res_bind].
  destruct n as [sn_ e1_ e2_ s_ e_].
  cbn [nack_sn nack_e1 nack_e2 so_start so_end] in *.
  destruct He2 as [-> | (-> & -> & ->)];
    cbn [Z.gtb Z.compare Z.eqb negb Z.to_nat Pos.to_nat Pos.iter_op Nat.add] in *.
  - rewrite <- app_assoc in Hat3.
    destruct (read_field _ _ _ 15 _ _ Hat3) as (p4 & b4 & -> & Hat4); [lia..|]. cbn [mbind res_bind].
    destruct (read_field _ _ _ 15 _ _ Hat4) as (p5 & b5 & -> & Hat5); [lia..|]. cbn [mbind res_bind].
    eauto.
  - eauto.
Qed.

Lemma read_nacks_ok ns fuel data pos bit total ack done_ zs :
  at_bits data pos bit (concat (map nack_bits ns) ++ zs) ->
  Forall nack_wf ns -> e1_chain ns -> ns <> [] ->
  (length ns <= fuel)%nat -> (length done_ + length ns <= 1023)%nat ->
  exists pos' bit', at_bits data pos' bit' zs /\
    read_nacks fuel data pos bit total
      (Mk_control_pdu_info 0 0 ack 1 (Z.of_nat (length done_))
         (done_ ++ replicate (1023 - length done_) nack_zero)) =
    Ok (0, remaining_size total pos' bit',
        Mk_control_pdu_info 0 0 ack 1 (Z.of_nat (length (done_ ++ ns)))
         ((done_ ++ ns) ++ replicate (1023 - length (done_ ++ ns)) nack_zero)).
Proof.
  revert fuel pos bit done_.
  induction ns as [|n ns IH]; intros fuel pos bit done_ Hat Hwf Hch Hne Hf Hl; [done|].
  destruct fuel as [|fuel]; [cbn [length] in Hf; lia|]. cbn [length concat map] in Hat, Hf, Hl.
  rewrite <- app_assoc in Hat. apply Forall_cons in Hwf as [Hn Hwf]. destruct Hch as [He1 Hch].
  destruct (read_nack_ok _ _ _ _ _ Hat Hn) as (p1 & b1 & Hr & Hat1).
  cbn [read_nacks]. rewrite Hr. cbn [mbind res_bind nack_list num_nack].
  assert (Hset : array_set (done_ ++ replicate (1023 - length done_) nack_zero)
                   (Z.of_nat (length done_)) n =
                 Ok ((done_ ++ [n]) ++ replicate (1023 - length (done_ ++ [n])) nack_zero)).
  { rewrite array_set_ok by (rewrite length_app, length_replicate; lia).
    rewrite Nat2Z.id, insert_app_r_alt, Nat.sub_diag by lia.
    replace (1023 - length done_)%nat with (S (1023 - length (done_ ++ [n])))
      by (rewrite length_app; simpl; lia).
    simpl. by rewrite <- app_assoc. }
  rewrite Hset. cbn -[replicate Z.of_nat]. rewrite He1.
  destruct ns as [|n' ns]; cbn [bool_decide negb b2z].
  - exists p1, b1. split; [exact Hat1|].
    replace (Z.of_nat (length (done_ ++ [n]))) with (Z.of_nat (length done_) + 1)
      by (rewrite length_app; cbn [length]; lia).
    reflexivity.
  - destruct (IH fuel p1 b1 (done_ ++ [n])) as (p2 & b2 & Hat2 & Hr2);
      [done|done|done|done|cbn [length] in *; lia|rewrite length_app; cbn [length] in *; lia|].
    exists p2, b2. split; [exact Hat2|].
    rewrite (bool_decide_eq_false_2 (n' :: ns = [])) by done. cbn [negb b2z Z.eqb].
    replace (Z.of_nat (length done_) + 1) with (Z.of_nat (length (done_ ++ [n])))
      by (rewrite length_app; cbn [length]; lia).
    rewrite (proj2 (Z.eqb_neq _ _)); cycle 1.
    { rewrite length_app. unfold RLC_AM_MAX_NACK_IN_STATUS_PDU. cbn [length] in *. lia. }
    replace ((done_ ++ [n]) ++ n' :: ns) with (done_ ++ n :: n' :: ns) in Hr2
      by (by rewrite <- app_assoc).
    exact Hr2.
Qed.

(** The two first bytes. *)
Lemma status_header data ack e bs :
  Forall is_byte data -> 0 <= ack < 1024 -> 0 <= e < 2 ->
  bits data = bits_of 4 0 ++ bits_of 10 ack ++ bits_of 1 e ++ bs ->
  exists b1 b2, array_get data 0 = Ok b1 /\ array_get data 1 = Ok b2 /\
    b1 = ack / 64 /\ b2 / 2 = (ack mod 64) * 2 + e.
Proof.
  intros Hby Hack He Hbits.
  assert (Hl : (15 <= length (bits data))%nat)
    by (rewrite Hbits, !length_app, !length_bits_of; lia).
  rewrite length_bits in Hl.
  destruct data as [|b1 [|b2 data]]; cbn [length] in Hl; [lia|lia|].
  exists b1, b2. split; [done|]. split; [done|].
  apply Forall_cons in Hby as [Hb1 Hby]. apply Forall_cons in Hby as [Hb2 _].
  rewrite !bits_cons in Hbits.
  change 10%nat with (4 + 6)%nat in Hbits. rewrite bits_of_app in Hbits.
  change (Z.of_nat 6) with 6 in Hbits.
  assert (E1 : bits_of 8 b1 = bits_of 4 0 ++ bits_of 4 (Z.shiftr ack 6) /\
               bits_of 8 b2 ++ bits data = bits_of 6 ack ++ bits_of 1 e ++ bs).
  { rewrite <- !app_assoc, (app_assoc (bits_of 4 0)) in Hbits. by apply app_inj_1 in Hbits. }
  destruct E1 as [E1 E2].
  assert (E3 : bits_of 7 (Z.shiftr b2 1) = bits_of 6 ack ++ bits_of 1 e).
  { change 8%nat with (7 + 1)%nat in E2. rewrite bits_of_app in E2.
    rewrite <- !app_assoc, (app_assoc (bits_of 6 ack)) in E2. by apply app_inj_1 in E2 as [? _]. }
  apply (f_equal val_of) in E1, E3. rewrite !val_of_app, !val_of_bits_of, !length_bits_of in *.
  rewrite !Z.shiftr_div_pow2 in * by lia. unfold is_byte in *.
  change (2 ^ Z.of_nat 8) with 256 in *. change (2 ^ Z.of_nat 7) with 128 in *.
  change (2 ^ Z.of_nat 4) with 16 in *. change (2 ^ Z.of_nat 6) with 64 in *.
  change (2 ^ Z.of_nat 1) with 2 in *. change (2 ^ 6) with 64 in *. change (2 ^ 1) with 2 in *.
  clear -E1 E3 Hb1 Hb2 Hack He. split; mod_lia.
Qed.

Lemma get_control_pdu_infos_ok data total ack ns zs :
  Forall is_byte data -> status_wf ack ns -> bits data = status_bits ack ns ++ zs ->
  rlc_am_get_control_pdu_infos data total =
    Ok (0, total - (Z.of_nat (length (status_bits ack ns)) + 7) / 8, status_info ack ns).
Proof.
  intros Hby (Hack & Hwf & Hch & Hlen) Hbits.
  set (e := b2z (negb (bool_decide (ns = [])))).
  assert (He : 0 <= e < 2) by (unfold e; case_bool_decide; simpl; lia).
  unfold status_bits in Hbits. rewrite <- !app_assoc in Hbits. fold e in Hbits.
  destruct (status_header data ack e _ Hby Hack He Hbits) as (b1 & b2 & H1 & H2 & Hb1 & Hb2).
  unfold rlc_am_get_control_pdu_infos. rewrite H1. cbn [mbind res_bind].
  rewrite !Z.shiftr_div_pow2 by lia.
  assert (E7 : b1 / 2 ^ 7 = 0) by (clear -Hb1 Hack; subst b1; mod_lia).
  assert (E4 : b1 / 2 ^ 4 = 0) by (clear -Hb1 Hack; subst b1; mod_lia).
  rewrite E7, E4. change (Z.land 0 7) with 0. cbn [st_d_c update_field Z.eqb st_cpt negb].
  rewrite H2. cbn [mbind res_bind]. rewrite !Z.shiftr_div_pow2 by lia.
  change 63 with (2 ^ 6 - 1). change 15 with (2 ^ 4 - 1).
  assert (Ee : Z.land (b2 / 2 ^ 1) 1 = e).
  { change 1 with (2 ^ 1 - 1) at 2. rewrite land_ones_mod by lia. clear -Hb2 He. mod_lia. }
  assert (Ea : Z.lor (Z.land (b2 / 2 ^ 2) (2 ^ 6 - 1)) (Z.shiftl (Z.land b1 (2 ^ 4 - 1)) 6) = ack).
  { rewrite !land_ones_mod, Z.lor_comm by lia.
    rewrite lor_shiftl_add by (first [lia | apply Z.mod_pos_bound; lia]).
    clear -Hb1 Hb2 He Hack. subst b1. mod_lia. }
  rewrite Ee, Ea. cbn [st_e1 update_field].
  destruct ns as [|n ns].
  - subst e. cbn -[replicate Z.div]. unfold status_info. done.
  - assert (e = 1) as -> by done. cbn [Z.eqb negb].
    assert (Hat : at_bits data 1 7 (concat (map nack_bits (n :: ns)) ++ zs)).
    { split; [lia|]. split; [lia|]. split.
      { rewrite Hbits, !length_app, !length_bits_of. lia. }
      change (Z.to_nat (8 * 1 + 7)) with 15%nat.
      rewrite Hbits, !app_assoc, <- (app_assoc _ (concat _)). rewrite drop_app_length'; [done|].
      by rewrite !length_app, !length_bits_of. }
    destruct (read_nacks_ok (n :: ns) 1023 data 1 7 total ack [] zs)
      as (p & b & Hat' & Hr); [exact Hat|done|exact Hch|done|exact Hlen|exact Hlen|].
    match goal with |- read_nacks _ _ _ _ _ ?i = _ =>
      change i with (Mk_control_pdu_info 0 0 ack 1 (Z.of_nat (length (@nil nack_sn_t)))
        ([] ++ replicate (1023 - length (@nil nack_sn_t)) nack_zero)) end.
    rewrite Hr. unfold status_info. cbn [bool_decide negb b2z].
    do 3 f_equal. unfold remaining_size.
    assert (Hcur : Z.of_nat (length (status_bits ack (n :: ns))) = 8 * p + b).
    { destruct Hat' as (Hp & Hb & Hzs & _). rewrite Hbits in Hzs. unfold status_bits.
      rewrite !length_app, !length_bits_of in *. lia. }
    rewrite Hcur. clear -Hat'. destruct Hat' as (? & ? & _). mod_lia.
Qed.

(** C30: a STATUS PDU survives the wire.  For every ACK_SN and every list of at
    most 1023 NACK_SNs with their E1 chain, written in a zeroed block of at
    least the needed size: the encoder announces the number of bytes of the
    format rounded up, and the decoder run on the block gives the same
    structure back, return code 0, and takes that number of bytes off the size. *)
Theorem status_pdu_roundtrip m ack ns :
  status_wf ack ns -> (length (status_bits ack ns) <= 8 * m)%nat ->
  exists data, rlc_am_write_status_pdu (replicate m 0) (status_info ack ns) =
      Ok (data, (Z.of_nat (length (status_bits ack ns)) + 7) / 8) /\
    forall total, rlc_am_get_control_pdu_infos data total =
      Ok (0, total - (Z.of_nat (length (status_bits ack ns)) + 7) / 8, status_info ack ns).
Proof.
  intros Hwf Hm. destruct (write_status_pdu_ok m ack ns Hwf Hm) as (data & Hw & _ & Hby & k & Hb).
  exists data. split; [exact Hw|]. intros total. by eapply get_control_pdu_infos_ok.
Qed.

(** ** What the decoder accepts *)

(** The structure as the decoder's loop finds it. *)
Lemma read_nacks_start ack e :
  control_pdu_info_zero <| st_d_c := 0 |> <| st_cpt := 0 |> <| ack_sn := ack |> <| st_e1 := e |> =
  Mk_control_pdu_info 0 0 ack e (Z.of_nat (length (@nil nack_sn_t)))
    ([] ++ replicate (1023 - length (@nil nack_sn_t)) nack_zero).
Proof. reflexivity. Qed.
Lemma at_bits_get data pos bit bs b :
  at_bits data pos bit bs -> array_get data pos = Ok b -> 8 - bit <= Z.of_nat (length bs).
Proof.
  intros (Hp & Hb & Hl & _) [Hr _]%array_get_inv. rewrite length_bits in Hl. lia.
Qed.

Lemma read_bit_loop_inv fuel data pos bit n value bs x :
  at_bits data pos bit bs -> 0 < n ->
  read_bit_loop fuel data pos bit n value = Ok x -> n <= Z.of_nat (length bs).
Proof.
  revert pos bit n value bs. induction fuel as [|fuel IH]; intros pos bit n value bs Hat Hn H.
  { discriminate H. }
  cbn [read_bit_loop] in H. apply bind_ok_inv in H as (b & Hget & H).
  pose proof (at_bits_get _ _ _ _ _ Hat Hget) as Hlb.
  destruct (Z.gtb_spec (8 - bit) n); [lia|]. destruct (Z.eqb_spec (8 - bit) n); [lia|].
  destruct (Z.gtb_spec (n - (8 - bit)) 0); [|lia].
  pose proof Hat as (? & ? & _).
  assert (Hat' : at_bits data (pos + 1) 0 (drop (Z.to_nat (8 - bit)) bs))
    by (eapply at_bits_drop; [exact Hat|lia..]).
  pose proof (IH (pos + 1) 0 (n - (8 - bit)) _ _ Hat' ltac:(lia) H) as Hl'. rewrite length_drop in Hl'. lia.
Qed.

Lemma read_field_inv data pos bit n bs v p b :
  at_bits data pos bit bs -> 0 < n <= 16 -> rlc_am_read_bit_field data pos bit n = Ok (v, p, b) ->
  0 <= v < 2 ^ n /\ exists bs', bs = bits_of (Z.to_nat n) v ++ bs' /\ at_bits data p b bs'.
Proof.
  intros Hat Hn H. pose proof (read_bit_loop_inv 3 data pos bit n 0 bs _ Hat ltac:(lia) H) as Hl.
  destruct (read_bit_field_ok _ _ _ n _ Hat Hn Hl) as (p' & b' & H' & Hat').
  rewrite H' in H. injection H as <- <- <-.
  pose proof (val_of_bound (take (Z.to_nat n) bs)) as Hv.
  rewrite length_take in Hv. replace (Z.of_nat _) with n in Hv by lia. split; [done|].
  exists (drop (Z.to_nat n) bs). split; [|done].
  rewrite <- (take_drop (Z.to_nat n) bs) at 1. f_equal.
  rewrite <- (bits_of_val_of (take _ _)) at 1. f_equal. rewrite length_take. lia.
Qed.

Lemma read_nack_inv data pos bit bs n p b :
  at_bits data pos bit bs -> read_nack data pos bit = Ok (n, p, b) ->
  nack_wf n /\ exists bs', bs = nack_bits n ++ bs' /\ at_bits data p b bs'.
Proof.
  intros Hat H. unfold read_nack in H.
  apply bind_ok_inv in H as ([[v1 p1] b1] & H1 & H).
  destruct (read_field_inv _ _ _ 10 _ _ _ _ Hat ltac:(lia) H1) as (Hv1 & bs1 & -> & Hat1).
  apply bind_ok_inv in H as ([[v2 p2] b2] & H2 & H).
  destruct (read_field_inv _ _ _ 1 _ _ _ _ Hat1 ltac:(lia) H2) as (Hv2 & bs2 & -> & Hat2).
  apply bind_ok_inv in H as ([[v3 p3] b3] & H3 & H).
  destruct (read_field_inv _ _ _ 1 _ _ _ _ Hat2 ltac:(lia) H3) as (Hv3 & bs3 & -> & Hat3).
  destruct (Z.eqb_spec v3 0) as [-> | Hne]; cbn [negb] in H.
  - injection H as <- <- <-. split; [unfold nack_wf; simpl; lia|].
    exists bs3. split; [done|exact Hat3].
  - assert (v3 = 1) as -> by lia.
    apply bind_ok_inv in H as ([[v4 p4] b4] & H4 & H).
    destruct (read_field_inv _ _ _ 15 _ _ _ _ Hat3 ltac:(lia) H4) as (Hv4 & bs4 & -> & Hat4).
    apply bind_ok_inv in H as ([[v5 p5] b5] & H5 & H).
    destruct (read_field_inv _ _ _ 15 _ _ _ _ Hat4 ltac:(lia) H5) as (Hv5 & bs5 & -> & Hat5).
    injection H as <- <- <-. split; [unfold nack_wf; simpl; lia|].
    exists bs5. split; [|exact Hat5]. unfold nack_bits.
    cbn [nack_sn nack_e1 nack_e2 so_start so_end Z.gtb Z.compare]. by rewrite <- !app_assoc.
Qed.

Lemma read_nacks_inv fuel data pos bit total ack done_ bs t info :
  at_bits data pos bit bs -> (length done_ + fuel = 1023)%nat ->
  read_nacks fuel data pos bit total
    (Mk_control_pdu_info 0 0 ack 1 (Z.of_nat (length done_))
       (done_ ++ replicate (1023 - length done_) nack_zero)) = Ok (0, t, info) ->
  exists ns zs p b, ns <> [] /\ Forall nack_wf ns /\ e1_chain ns /\ (length ns <= fuel)%nat /\
    bs = concat (map nack_bits ns) ++ zs /\ at_bits data p b zs /\
    t = remaining_size total p b /\
    info = Mk_control_pdu_info 0 0 ack 1 (Z.of_nat (length (done_ ++ ns)))
             ((done_ ++ ns) ++ replicate (1023 - length (done_ ++ ns)) nack_zero).
Proof.
  revert pos bit done_ bs. induction fuel as [|fuel IH]; intros pos bit done_ bs Hat Hl H.
  { discriminate H. }
  cbn [read_nacks nack_list num_nack] in H.
  apply bind_ok_inv in H as ([[n p] b] & Hr & H).
  destruct (read_nack_inv _ _ _ _ _ _ _ Hat Hr) as (Hn & bs' & -> & Hat').
  apply bind_ok_inv in H as (l & Hset & H). apply array_set_inv in Hset as [_ ->].
  assert (Hins : <[Z.to_nat (Z.of_nat (length done_)) := n]>
                   (done_ ++ replicate (1023 - length done_) nack_zero) =
                 (done_ ++ [n]) ++ replicate (1023 - length (done_ ++ [n])) nack_zero).
  { rewrite Nat2Z.id, insert_app_r_alt, Nat.sub_diag by lia.
    replace (1023 - length done_)%nat with (S (1023 - length (done_ ++ [n])))
      by (rewrite length_app; simpl; lia).
    simpl. by rewrite <- app_assoc. }
  rewrite Hins in H.
  assert (Hlen1 : Z.of_nat (length done_) + 1 = Z.of_nat (length (done_ ++ [n])))
    by (rewrite length_app; cbn [length]; lia).
  rewrite Hlen1 in H. cbn [update_field num_nack] in H.
  destruct (Z.eqb_spec (nack_e1 n) 0) as [He|He].
  - injection H as <- <-. exists [n], bs', p, b. split; [done|]. split; [by constructor|].
    split; [by simpl|]. split; [simpl; lia|]. split; [simpl; by rewrite app_nil_r|]. done.
  - destruct (Z.eqb_spec (Z.of_nat (length (done_ ++ [n]))) RLC_AM_MAX_NACK_IN_STATUS_PDU) as [|Hmax];
      [discriminate H|].
    destruct (IH p b (done_ ++ [n]) bs' Hat') as (ns & zs & p' & b' & Hne & Hwf & Hch & Hl' & -> & Hat'' & -> & ->);
      [rewrite length_app; cbn [length]; lia | exact H |].
    exists (n :: ns), zs, p', b'. split; [done|]. split; [by constructor|]. split.
    { split; [|done]. rewrite bool_decide_eq_false_2 by done.
      destruct Hn as (_ & ? & _). simpl. lia. }
    split; [cbn [length]; lia|]. split; [cbn [map concat]; by rewrite <- app_assoc|].
    split; [done|]. split; [done|].
    replace ((done_ ++ [n]) ++ ns) with (done_ ++ n :: ns) by (by rewrite <- app_assoc). done.
Qed.

#[local] Opaque read_nacks replicate.

(** What return code 0 says of the two first bytes. *)
Lemma get_control_pdu_infos_header data total t info :
  Forall is_byte data -> rlc_am_get_control_pdu_infos data total = Ok (0, t, info) ->
  exists b1 b2 rest, data = b1 :: b2 :: rest /\ 0 <= b1 < 16 /\ 0 <= b2 < 256 /\
    let i := control_pdu_info_zero <| st_d_c := 0 |> <| st_cpt := 0 |>
               <| ack_sn := b1 * 64 + b2 / 4 |> <| st_e1 := b2 / 2 mod 2 |> in
    (if b2 / 2 mod 2 =? 0 then Ok (0, total - 2, i) else read_nacks 1023 data 1 7 total i)
      = Ok (0, t, info).
Proof.
  intros Hby. unfold rlc_am_get_control_pdu_infos. intros H.
  destruct data as [|b1 data]; [discriminate H|].
  pose proof (proj1 (Forall_cons _ _ _) Hby) as [Hc1 Hby']. unfold is_byte in Hc1.
  change (array_get (b1 :: data) 0) with (Ok b1) in H. cbn [mbind res_bind st_d_c update_field] in H.
  destruct (Z.eqb_spec (Z.shiftr b1 7) 0) as [E7|]; [|discriminate H].
  cbn [st_cpt update_field] in H.
  destruct (Z.eqb_spec (Z.land (Z.shiftr b1 4) 7) 0) as [E4|]; cbn [negb] in H; [|discriminate H].
  destruct data as [|b2 data]; [discriminate H|].
  pose proof (proj1 (Forall_cons _ _ _) Hby') as [Hc2 _]. unfold is_byte in Hc2.
  change (array_get (b1 :: b2 :: data) 1) with (Ok b2) in H.
  cbn [mbind res_bind st_e1 update_field] in H.
  rewrite !Z.shiftr_div_pow2 in * by lia. rewrite E7, E4 in H. change 7 with (2 ^ 3 - 1) in E4.
  rewrite land_ones_mod in E4 by lia.
  assert (Hb1 : b1 < 16) by (clear -E7 E4 Hc1; mod_lia).
  exists b1, b2, data. split; [done|]. split; [lia|]. split; [lia|]. cbv zeta.
  assert (Ea : Z.lor (Z.land (b2 / 2 ^ 2) 63) (Z.shiftl (Z.land b1 15) 6) = b1 * 64 + b2 / 4).
  { change 63 with (2 ^ 6 - 1). change 15 with (2 ^ 4 - 1).
    rewrite !land_ones_mod, Z.lor_comm by lia.
    rewrite lor_shiftl_add by (first [lia | apply Z.mod_pos_bound; lia]).
    clear -Hb1 Hc1 Hc2. mod_lia. }
  assert (Ee : Z.land (b2 / 2 ^ 1) 1 = b2 / 2 mod 2) by (by apply (land_ones_mod _ 1)).
  rewrite Ea, Ee in H. destruct (Z.eqb_spec (b2 / 2 mod 2) 0); cbn [negb] in H; exact H.
Qed.

(** The two first bytes as bits. *)
Lemma header_bits b1 b2 rest :
  0 <= b1 < 16 -> 0 <= b2 < 256 ->
  bits (b1 :: b2 :: rest) =
    bits_of 4 0 ++ bits_of 10 (b1 * 64 + b2 / 4) ++ bits_of 1 (b2 / 2 mod 2) ++ bits_of 1 b2 ++ bits rest.
Proof.
  intros Hb1 Hc2.
  assert (P1 : bits_of 8 b1 = bits_of 4 0 ++ bits_of 4 (Z.shiftr (b1 * 64 + b2 / 4) 6)).
  { change 8%nat with (4 + 4)%nat. rewrite bits_of_app, !Z.shiftr_div_pow2 by lia.
    f_equal; apply bits_of_mod; change (2 ^ Z.of_nat 4) with 16; change (2 ^ 6) with 64; mod_lia. }
  assert (P2 : bits_of 8 b2 =
    bits_of 6 (b1 * 64 + b2 / 4) ++ bits_of 1 (b2 / 2 mod 2) ++ bits_of 1 b2).
  { change 8%nat with (6 + (1 + 1))%nat. rewrite !bits_of_app, !Z.shiftr_div_pow2 by lia.
    change (2 ^ Z.of_nat (1 + 1)) with 4. change (2 ^ Z.of_nat 1) with 2.
    f_equal; [|f_equal]; apply bits_of_mod.
    - change (2 ^ Z.of_nat 6) with 64. mod_lia.
    - change (2 ^ Z.of_nat 1) with 2. by rewrite Z.mod_mod. }
  rewrite !bits_cons, P1, P2. change 10%nat with (4 + 6)%nat. rewrite bits_of_app.
  by rewrite <- !app_assoc.
Qed.

(** C29: the decoder accepts (return code 0) exactly the blocks that start with
    the format of a STATUS PDU, and the structure it fills is the one they
    encode; what the peer sends is never decoded into anything else. *)
Theorem get_control_pdu_infos_iff data total t info :
  Forall is_byte data ->
  rlc_am_get_control_pdu_infos data total = Ok (0, t, info) <->
  exists ack ns zs, status_wf ack ns /\ bits data = status_bits ack ns ++ zs /\
    info = status_info ack ns /\
    t = total - (Z.of_nat (length (status_bits ack ns)) + 7) / 8.
Proof.
  intros Hby. split.
  2:{ intros (ack & ns & zs & Hwf & Hb & -> & ->). by eapply get_control_pdu_infos_ok. }
  intros H. destruct (get_control_pdu_infos_header _ _ _ _ Hby H)
    as (b1 & b2 & rest & -> & Hb1 & Hc2 & H'). clear H. cbv zeta in H'.
  pose proof (header_bits b1 b2 rest Hb1 Hc2) as Hbits.
  assert (Hack : 0 <= b1 * 64 + b2 / 4 < 1024) by (clear -Hb1 Hc2; mod_lia).
  assert (He : 0 <= b2 / 2 mod 2 < 2) by (apply Z.mod_pos_bound; lia).
  revert Hack He Hbits H'. generalize (b1 * 64 + b2 / 4) as ack, (b2 / 2 mod 2) as e.
  intros ack e Hack He Hbits H. rewrite read_nacks_start in H.
  destruct (Z.eqb_spec e 0) as [-> | E0].
  - injection H as <- <-. exists ack, [], (bits_of 1 b2 ++ bits rest).
    split; [split; [done|split; [by constructor|split; [done|cbn [length]; lia]]]|].
    split; [exact Hbits|]. done.
  - assert (e = 1) as -> by lia.
    assert (Hat : at_bits (b1 :: b2 :: rest) 1 7 (bits_of 1 b2 ++ bits rest)).
    { split; [lia|]. split; [lia|]. split.
      - rewrite Hbits, !length_app, !length_bits_of. lia.
      - change (Z.to_nat (8 * 1 + 7)) with 15%nat.
        rewrite Hbits, !app_assoc, <- (app_assoc _ _ (bits rest)).
        rewrite drop_app_length'; [done|]. by rewrite !length_app, !length_bits_of. }
    destruct (read_nacks_inv 1023 _ 1 7 total ack [] _ _ _ Hat eq_refl H)
      as (ns & zs & p & b & Hne & Hwf & Hch & Hl & Hbs & Hat' & -> & ->).
    assert (Hb01 : b2z (negb (bool_decide (ns = []))) = 1) by (by rewrite bool_decide_eq_false_2).
    assert (Hall : bits (b1 :: b2 :: rest) = status_bits ack ns ++ zs).
    { unfold status_bits. rewrite Hb01, Hbits, Hbs, <- !app_assoc. reflexivity. }
    exists ack, ns, zs. split; [done|].
    split; [exact Hall|]. split; [unfold status_info; by rewrite Hb01|].
    unfold remaining_size. f_equal.
    assert (Hcur : Z.of_nat (length (status_bits ack ns)) = 8 * p + b).
    { destruct Hat' as (_ & _ & Hzs & _). rewrite Hall, length_app in Hzs. lia. }
    rewrite Hcur. clear -Hat'. destruct Hat' as (? & ? & _). mod_lia.
Qed.

(** ** A report: 7 acknowledged, 3 missing, bytes 10 to 19 of 5 missing *)
Definition sample_nacks : list nack_sn_t := [Mk_nack 3 1 0 0 32767; Mk_nack 5 0 1 10 19].

Lemma sample_status_wf : status_wf 7 sample_nacks.
Proof.
  split; [lia|]. split; [|split; [by split_and!|cbn; lia]].
  repeat constructor; vm_compute; congruence.
Qed.

Lemma status_pdu_roundtrip_witness :
  exists data, rlc_am_write_status_pdu (replicate 10 0) (status_info 7 sample_nacks) = Ok (data, 9) /\
    rlc_am_get_control_pdu_infos data 9 = Ok (0, 0, status_info 7 sample_nacks).
Proof.
  destruct (status_pdu_roundtrip 10 7 sample_nacks) as (data & Hw & Hr).
  - apply sample_status_wf.
  - vm_compute. lia.
  - exists data. split; [exact Hw|exact (Hr 9)].
Defined.

Lemma get_control_pdu_infos_iff_witness :
  exists ack ns zs, status_wf ack ns /\ bits [0; 30; 3; 0] = status_bits ack ns ++ zs /\ ack = 7.
Proof.
  destruct (rlc_am_get_control_pdu_infos [0; 30; 3; 0] 4) as [[[code t] info]|] eqn:E.
  2: { vm_compute in E. discriminate E. }
  assert (code = 0) as -> by (vm_compute in E; congruence).
  assert (Hby : Forall is_byte [0; 30; 3; 0]) by (repeat constructor; discriminate).
  destruct (proj1 (get_control_pdu_infos_iff [0; 30; 3; 0] 4 t info Hby) E) as (ack & ns & zs & Hwf & Hb & Hi & _).
  exists ack, ns, zs. split; [exact Hwf|]. split; [exact Hb|].
  assert (Ha : ack_sn info = 7) by (vm_compute in E; injection E as _ <-; reflexivity).
  rewrite Hi in Ha. exact Ha.
Defined.
