(* ===== verification/RlcAmInSdu.v ===== *)
(** * Input SDUs (rlc_am_in_sdu.c)

    The ring of 1024 SDUs waiting for segmentation or for the acknowledgement
    of their PDUs: release of an SDU, of its data once segmented, and the
    confirmation to the upper layer when the last PDU that carries a piece of
    the SDU is acknowledged.  [queue_at] reads the SDUs that are
    not completely segmented, those between [current_sdu_index] and
    [next_sdu_index], as a list, so that segmentation is specified on lists. *)

From S2P Require Import Prelude RlcAmTypes RlcAmEntity RlcAmWindows RlcAmTxBuffer.

Definition get_sdu (r : rlc_am_entity_t) (i : Z) : res rlc_am_tx_sdu_management_t :=
  l ← deref (input_sdus r); array_get l i.
Definition set_sdu (r : rlc_am_entity_t) (i : Z) (s : rlc_am_tx_sdu_management_t)
  : res rlc_am_entity_t :=
  l ← deref (input_sdus r);
  l' ← array_set l i s;
  Ok (r <| input_sdus := Some l' |>).

(** The wrapping loop of [rlc_am_free_in_sdu]. *)
Fixpoint skip_transmitted (fuel : nat) (r : rlc_am_entity_t) : res rlc_am_entity_t :=
  match fuel with
  | O => Err OutOfFuel
  | S fuel' =>
      if negb (current_sdu_index r =? next_sdu_index r) then
        s ← get_sdu r (current_sdu_index r);
        if transmitted_successfully (sdu_flags s)
        then skip_transmitted fuel' (r <| current_sdu_index :=
               Z.rem (current_sdu_index r + 1) RLC_AM_SDU_CONTROL_BUFFER_SIZE |>)
        else Ok r
      else Ok r
  end.

Definition rlc_am_free_in_sdu (index_in_bufferP : Z) (r : rlc_am_entity_t) : res rlc_am_entity_t :=
  if index_in_bufferP <=? RLC_AM_SDU_CONTROL_BUFFER_SIZE then
    s ← get_sdu r index_in_bufferP;
    _ ← assert_that (is_null (sdu_mem_block s));
    let r := r <| nb_sdu := nb_sdu r - 1 |> in
    r ← set_sdu r index_in_bufferP
          (tx_sdu_zero <| sdu_flags := (sdu_flags tx_sdu_zero) <| transmitted_successfully := true |> |>);
    let r := (if current_sdu_index r =? index_in_bufferP
              then r <| current_sdu_index :=
                     Z.rem (current_sdu_index r + 1) RLC_AM_SDU_CONTROL_BUFFER_SIZE |>
              else r) in
    skip_transmitted 1024 r
  else Ok r.

Definition rlc_am_free_in_sdu_data (index_in_bufferP : Z) (r : rlc_am_entity_t)
  : res rlc_am_entity_t :=
  if index_in_bufferP <=? RLC_AM_SDU_CONTROL_BUFFER_SIZE then
    s ← get_sdu r index_in_bufferP;
    if negb (is_null (sdu_mem_block s)) then
      r ← set_sdu r index_in_bufferP (s <| sdu_mem_block := None |> <| sdu_remaining_size := 0 |>);
      Ok (r <| nb_sdu_no_segmented := nb_sdu_no_segmented r - 1 |>)
    else Ok r
  else Ok r.

Definition rlc_am_in_sdu_is_empty (r : rlc_am_entity_t) : bool := nb_sdu r =? 0.

(** [rlc_data_conf] (rlc.c) forwards the confirmation of an SRB to RRC, whose
    callback is registered.  The parameters have the types of the C function:
    a signed char, a 16-bit integer and two 32-bit integers. *)
Definition rlc_data_conf (srb_flagP rb_idP muiP statusP : Z) (r : rlc_am_entity_t)
  : rlc_am_entity_t :=
  if negb (i8 srb_flagP =? 0)
  then r <| upper_layer := upper_layer r ++ [Rlc_rrc_data_conf (u16 rb_idP) (u32 muiP) (u32 statusP)] |>
  else r.
Definition RLC_SDU_CONFIRM_YES : Z := 1.

(** One round of the loop over the SDUs of a PDU. *)
Definition sdu_data_cnf (sdu_index : Z) (r : rlc_am_entity_t) : res rlc_am_entity_t :=
  _ ← assert_that (sdu_index >=? 0);
  _ ← assert_that (sdu_index <? RLC_AM_SDU_CONTROL_BUFFER_SIZE);
  s ← get_sdu r sdu_index;
  let s := s <| nb_pdus_ack := u8 (nb_pdus_ack s + 1) |> in
  r ← set_sdu r sdu_index s;
  if (nb_pdus_ack s =? nb_pdus s) && (sdu_remaining_size s =? 0)
  then rlc_am_free_in_sdu sdu_index
         (rlc_data_conf (rb_id r) (mui s) RLC_SDU_CONFIRM_YES (b2z (is_data_plane r)) r)
  else Ok r.

(** The loop: [n] SDUs left, the next one at [pdu_sdu_index]. *)
Fixpoint pdu_sdu_loop (n : nat) (snP pdu_sdu_index : Z) (r : rlc_am_entity_t)
  : res rlc_am_entity_t :=
  match n with
  | O => Ok r
  | S n' =>
      p ← get_tx_pdu r snP;
      sdu_index ← array_get (sdus_index p) pdu_sdu_index;
      r ← sdu_data_cnf sdu_index r;
      pdu_sdu_loop n' snP (pdu_sdu_index + 1) r
  end.

Definition rlc_am_pdu_sdu_data_cnf (snP : Z) (r : rlc_am_entity_t) : res rlc_am_entity_t :=
  p ← get_tx_pdu r snP;
  pdu_sdu_loop (Z.to_nat (nb_sdus p)) snP 0 r.

(** ** The ring *)
Definition ring_wf (r : rlc_am_entity_t) : Prop :=
  (exists l, input_sdus r = Some l /\ length l = 1024%nat) /\
  0 <= current_sdu_index r < 1024 /\ 0 <= next_sdu_index r < 1024.

Definition ring_next (i : Z) : Z := Z.rem (i + 1) RLC_AM_SDU_CONTROL_BUFFER_SIZE.
Definition ring_dist (i j : Z) : Z := (j - i) mod 1024.

Lemma ring_next_mod i : 0 <= i < 1024 -> ring_next i = (i + 1) mod 1024.
Proof. intros H. apply Z.rem_mod_nonneg; unfold RLC_AM_SDU_CONTROL_BUFFER_SIZE; lia. Qed.

Lemma get_sdu_ok r i :
  ring_wf r -> 0 <= i < 1024 -> exists s, get_sdu r i = Ok s.
Proof.
  intros ((l & Hl & Hlen) & _) Hi. unfold get_sdu. rewrite Hl. simpl.
  destruct (array_get_ok l i) as (s & -> & _); [lia|]. by exists s.
Qed.

(** The loop stops after at most a turn of the ring, on the first SDU not yet
    confirmed or at [next_sdu_index]. *)
Lemma skip_transmitted_ok fuel r :
  ring_wf r -> ring_dist (current_sdu_index r) (next_sdu_index r) < Z.of_nat fuel ->
  exists i, skip_transmitted fuel r = Ok (r <| current_sdu_index := i |>) /\
    0 <= i < 1024 /\
    (i = next_sdu_index r \/
     exists s, get_sdu r i = Ok s /\ transmitted_successfully (sdu_flags s) = false) /\
    ring_dist i (next_sdu_index r) <= ring_dist (current_sdu_index r) (next_sdu_index r).
Proof.
  revert r. induction fuel as [|fuel IH]; intros r Hwf Hd.
  { unfold ring_dist in Hd. pose proof (Z.mod_pos_bound (next_sdu_index r - current_sdu_index r) 1024).
    lia. }
  pose proof Hwf as (_ & Hc & Hn). simpl.
  assert (Hid : r <| current_sdu_index := current_sdu_index r |> = r) by (by destruct r).
  destruct (Z.eqb_spec (current_sdu_index r) (next_sdu_index r)) as [E|Hne]; simpl.
  { exists (current_sdu_index r). rewrite Hid. auto with lia. }
  destruct (get_sdu_ok r (current_sdu_index r) Hwf Hc) as (s & Hs). rewrite Hs. simpl.
  destruct (transmitted_successfully (sdu_flags s)) eqn:Ht.
  2:{ exists (current_sdu_index r). rewrite Hid. split; [done|]. split; [done|].
      split; [right; eauto|lia]. }
  set (r1 := r <| current_sdu_index := _ |>).
  assert (Hnx : Z.rem (current_sdu_index r + 1) RLC_AM_SDU_CONTROL_BUFFER_SIZE =
                (current_sdu_index r + 1) mod 1024) by (by apply ring_next_mod).
  assert (Hd1 : ring_dist (current_sdu_index r1) (next_sdu_index r1) =
                ring_dist (current_sdu_index r) (next_sdu_index r) - 1).
  { unfold ring_dist, r1. cbn [current_sdu_index next_sdu_index update_field]. rewrite Hnx.
    clear -Hne Hc Hn. mod_lia. }
  destruct (IH r1) as (i & Hr & Hi & Hend & Hle).
  - destruct Hwf as (Hl & _). split; [exact Hl|]. cbn [current_sdu_index next_sdu_index update_field r1].
    split; [|done]. unfold r1. cbn [current_sdu_index update_field]. rewrite Hnx.
    apply Z.mod_pos_bound. lia.
  - lia.
  - exists i. rewrite Hr. split; [done|]. split; [done|]. split; [exact Hend|].
    change (next_sdu_index r1) with (next_sdu_index r) in *. lia.
Qed.

(** The cell of an SDU that was released. *)
Definition released_sdu : rlc_am_tx_sdu_management_t :=
  tx_sdu_zero <| sdu_flags := (sdu_flags tx_sdu_zero) <| transmitted_successfully := true |> |>.

Lemma free_in_sdu_run i r s l :
  ring_wf r -> 0 <= i < 1024 -> get_sdu r i = Ok s -> sdu_mem_block s = None -> input_sdus r = Some l ->
  exists j, rlc_am_free_in_sdu i r =
      Ok (r <| nb_sdu := nb_sdu r - 1 |> <| input_sdus := Some (<[Z.to_nat i := released_sdu]> l) |>
            <| current_sdu_index := j |>) /\ 0 <= j < 1024 /\
    (j = next_sdu_index r \/
     exists s', array_get (<[Z.to_nat i := released_sdu]> l) j = Ok s' /\
       transmitted_successfully (sdu_flags s') = false).
Proof.
  intros Hwf Hi Hs Hm Hl. pose proof Hwf as ((l' & Hl' & Hlen) & Hc & Hn). rewrite Hl in Hl'. injection Hl' as <-.
  unfold rlc_am_free_in_sdu.
  rewrite (proj2 (Z.leb_le _ _)) by (unfold RLC_AM_SDU_CONTROL_BUFFER_SIZE; lia).
  rewrite Hs. cbn [mbind res_bind]. rewrite Hm. cbn [is_null assert_that].
  unfold set_sdu. cbn [input_sdus update_field]. rewrite Hl. cbn [deref mbind res_bind].
  rewrite array_set_ok by lia. cbn [mbind res_bind]. fold released_sdu.
  set (r1 := r <| nb_sdu := _ |> <| input_sdus := _ |>).
  change (current_sdu_index r1) with (current_sdu_index r).
  set (r2 := if current_sdu_index r =? i then _ else _).
  assert (Hr2 : ring_wf r2 /\ r2 = r1 <| current_sdu_index := current_sdu_index r2 |>).
  { assert (H1 : ring_wf r1).
    { split; [|done]. exists (<[Z.to_nat i := released_sdu]> l). by rewrite length_insert. }
    unfold r2. destruct (_ =? i); [|done]. split; [|done]. destruct H1 as (H1 & _).
    split; [exact H1|]. split; [|done]. cbn [current_sdu_index update_field].
    fold (ring_next (current_sdu_index r)). rewrite ring_next_mod by done.
    apply Z.mod_pos_bound. lia. }
  destruct Hr2 as (Hwf2 & E2). clearbody r2.
  destruct (skip_transmitted_ok 1024 r2 Hwf2) as (j & -> & Hj & Hend & _).
  { unfold ring_dist. pose proof (Z.mod_pos_bound (next_sdu_index r2 - current_sdu_index r2) 1024). lia. }
  exists j. split; [rewrite E2; done|]. split; [done|].
  assert (En : next_sdu_index r2 = next_sdu_index r) by (by rewrite E2).
  assert (Ei : input_sdus r2 = Some (<[Z.to_nat i := released_sdu]> l)) by (by rewrite E2).
  rewrite En in Hend. destruct Hend as [-> | (s' & Hs' & Ht)]; [by left|right]. exists s'. split; [|done].
  unfold get_sdu in Hs'. by rewrite Ei in Hs'.
Qed.

(** Releasing an SDU whose data is gone never fails nor loops for ever: the
    SDU count drops by one, its cell is cleared and marked as confirmed, and
    the segmentation index stops on an SDU that is not confirmed or at the
    insertion index. *)
Theorem free_in_sdu_ok i r s :
  ring_wf r -> 0 <= i < 1024 -> get_sdu r i = Ok s -> sdu_mem_block s = None ->
  exists r', rlc_am_free_in_sdu i r = Ok r' /\ ring_wf r' /\
    nb_sdu r' = nb_sdu r - 1 /\ upper_layer r' = upper_layer r /\
    (exists l, input_sdus r = Some l /\ input_sdus r' = Some (<[Z.to_nat i := released_sdu]> l)) /\
    (current_sdu_index r' = next_sdu_index r' \/
     exists s', get_sdu r' (current_sdu_index r') = Ok s' /\
       transmitted_successfully (sdu_flags s') = false).
Proof.
  intros Hwf Hi Hs Hm. pose proof Hwf as ((l & Hl & Hlen) & _ & Hn).
  destruct (free_in_sdu_run i r s l Hwf Hi Hs Hm Hl) as (j & E & Hj & Hend).
  eexists. split; [exact E|]. split; [|split; [done|split; [done|split; [by exists l|exact Hend]]]].
  split; [|done]. eexists. split; [reflexivity|]. by rewrite length_insert.
Qed.

Lemma free_in_sdu_ok_witness :
  exists r', rlc_am_free_in_sdu 0 (entity_zero <| input_sdus := Some (replicate 1024 tx_sdu_zero) |>) = Ok r' /\
    nb_sdu r' = -1.
Proof.
  destruct (free_in_sdu_ok 0 (entity_zero <| input_sdus := Some (replicate 1024 tx_sdu_zero) |>) tx_sdu_zero)
    as (r' & E & _ & H & _).
  - split; [|split; split; (reflexivity || discriminate)]. eexists. split; [reflexivity|]. reflexivity.
  - lia.
  - reflexivity.
  - reflexivity.
  - exists r'. split; [exact E|exact H].
Defined.

(** *** Confirmation of the SDUs of a PDU *)

(** What the confirmation relies on: the references of a PDU are cells of the
    ring, and an SDU with nothing left to segment has no data. *)
Definition refs_wf (p : rlc_am_tx_data_pdu_management_t) : Prop :=
  0 <= nb_sdus p <= Z.of_nat (length (sdus_index p)) /\ Forall (fun i => 0 <= i < 1024) (sdus_index p).
Definition sdus_wf (r : rlc_am_entity_t) : Prop :=
  ring_wf r /\ Forall refs_wf (tx_data_pdu_buffer r) /\
  forall l, input_sdus r = Some l -> Forall (fun s => sdu_remaining_size s = 0 -> sdu_mem_block s = None) l.

(** Only the SDUs and the calls to the upper layer changed. *)
Definition sdus_changed (r r' : rlc_am_entity_t) : Prop :=
  r' = r <| input_sdus := input_sdus r' |> <| nb_sdu := nb_sdu r' |>
         <| current_sdu_index := current_sdu_index r' |> <| upper_layer := upper_layer r' |>.
#[export] Instance sdus_changed_preorder : PreOrder sdus_changed.
Proof.
  split; [by intros []|]. unfold sdus_changed. intros r1 r2 r3 H1 H2.
  rewrite H2 at 1. rewrite H1 at 1. done.
Qed.

Lemma sdus_wf_set r l i s :
  sdus_wf r -> input_sdus r = Some l -> (sdu_remaining_size s = 0 -> sdu_mem_block s = None) ->
  sdus_wf (r <| input_sdus := Some (<[i := s]> l) |>).
Proof.
  intros (((l' & Hl' & Hlen) & Hc) & Hp & Hs) Hl Hn. rewrite Hl in Hl'. injection Hl' as <-. split; [|split; [done|]].
  - split; [|done]. eexists. split; [reflexivity|]. by rewrite length_insert.
  - intros l0 E. cbn [input_sdus update_field] in E. apply (inj Some) in E as <-. apply Forall_insert; [by apply Hs|done].
Qed.

Lemma sdu_data_cnf_ok i r :
  sdus_wf r -> 0 <= i < 1024 ->
  exists r', sdu_data_cnf i r = Ok r' /\ sdus_wf r' /\ sdus_changed r r'.
Proof.
  intros Hwf Hi. pose proof Hwf as (Hring & Hp & Hs). pose proof Hring as ((l & Hl & Hlen) & _).
  destruct (get_sdu_ok r i Hring Hi) as (s & E). unfold sdu_data_cnf, RLC_AM_SDU_CONTROL_BUFFER_SIZE.
  rewrite Z.geb_leb, (proj2 (Z.leb_le _ _)), (proj2 (Z.ltb_lt _ _)) by lia. cbn [assert_that mbind res_bind].
  rewrite E. cbn [mbind res_bind]. set (s1 := s <| nb_pdus_ack := _ |>).
  assert (Hin : sdu_remaining_size s = 0 -> sdu_mem_block s = None).
  { unfold get_sdu in E. rewrite Hl in E. cbn [deref mbind res_bind] in E. apply array_get_inv in E as [_ E].
    exact (proj1 (Forall_lookup _ _) (Hs l Hl) _ _ E). }
  unfold set_sdu. rewrite Hl. cbn [deref mbind res_bind]. rewrite array_set_ok by lia. cbn [mbind res_bind].
  set (l1 := <[Z.to_nat i := s1]> l). set (r1 := r <| input_sdus := Some l1 |>).
  assert (Hwf1 : sdus_wf r1) by (by apply sdus_wf_set).
  destruct ((nb_pdus_ack s1 =? nb_pdus s1) && (sdu_remaining_size s1 =? 0)) eqn:Eb.
  2:{ exists r1. split; [done|]. split; [done|]. by destruct r. }
  apply andb_true_iff in Eb as [_ Er%Z.eqb_eq].
  set (r2 := rlc_data_conf _ _ _ _ r1).
  assert (H2 : sdus_wf r2 /\ input_sdus r2 = Some l1 /\ sdus_changed r r2).
  { unfold r2, rlc_data_conf. case_match; (split; [exact Hwf1|split; [done|by destruct r]]). }
  destruct H2 as (Hwf2 & Hl2 & Hch2). clearbody r2. pose proof Hwf2 as (Hring2 & _).
  assert (Hg : get_sdu r2 i = Ok s1).
  { unfold get_sdu. rewrite Hl2. cbn [deref mbind res_bind]. unfold array_get.
    rewrite (proj2 (Z.leb_le _ _)) by lia. unfold l1. by rewrite list_lookup_insert_eq by lia. }
  destruct (free_in_sdu_run i r2 s1 l1 Hring2 Hi Hg (Hin Er) Hl2) as (j & E' & Hj & _).
  eexists. split; [exact E'|]. split.
  - pose proof (sdus_wf_set r2 l1 (Z.to_nat i) released_sdu Hwf2 Hl2 (fun _ => eq_refl)) as (W1 & W2 & W3).
    destruct W1 as (W1 & _ & W4). by split_and!.
  - etransitivity; [exact Hch2|]. by destruct r2.
Qed.

Lemma pdu_sdu_loop_ok n : forall sn k r p,
  sdus_wf r -> get_tx_pdu r sn = Ok p -> 0 <= k -> k + Z.of_nat n <= nb_sdus p ->
  exists r', pdu_sdu_loop n sn k r = Ok r' /\ sdus_wf r' /\ sdus_changed r r'.
Proof.
  induction n as [|n IH]; intros sn k r p Hwf Hp Hk Hn; [by exists r|].
  cbn [pdu_sdu_loop]. rewrite Hp. cbn [mbind res_bind]. pose proof Hwf as (_ & Hr & _).
  pose proof (get_tx_pdu_inv r sn p Hp) as Hlk. destruct (proj1 (Forall_lookup _ _) Hr _ _ Hlk) as [Hnb Hidx].
  destruct (array_get_ok (sdus_index p) k) as (i & -> & Hi); [lia|]. cbn [mbind res_bind].
  pose proof (proj1 (Forall_lookup _ _) Hidx _ _ Hi) as Hi'.
  destruct (sdu_data_cnf_ok i r Hwf Hi') as (r1 & -> & Hwf1 & Hch). cbn [mbind res_bind].
  destruct (IH sn (k + 1) r1 p) as (r' & E & Hwf' & Hch'); [done| |lia|lia|].
  - unfold get_tx_pdu in *. rewrite Hch. exact Hp.
  - exists r'. split; [done|]. split; [done|]. by etransitivity.
Qed.

Lemma pdu_sdu_data_cnf_ok sn r :
  sdus_wf r -> length (tx_data_pdu_buffer r) = 512%nat -> 0 <= sn ->
  exists r', rlc_am_pdu_sdu_data_cnf sn r = Ok r' /\ sdus_wf r' /\ sdus_changed r r'.
Proof.
  intros Hwf Hlen Hsn. destruct (get_tx_pdu_ok r sn Hlen Hsn) as (p & Hp & Hlk).
  unfold rlc_am_pdu_sdu_data_cnf. rewrite Hp. cbn [mbind res_bind].
  pose proof Hwf as (_ & Hr & _). destruct (proj1 (Forall_lookup _ _) Hr _ _ Hlk) as [Hnb _].
  apply (pdu_sdu_loop_ok _ sn 0 r p); [done|done|lia|lia].
Qed.

(** ** The queue of SDUs to segment *)

Abbreviation tx_sdu := rlc_am_tx_sdu_management_t.

Definition next_cell (i : Z) : Z := (i + 1) mod 1024.

(** The SDUs [q] are in the cells from [i] on, and the cell after them is free. *)
Fixpoint queue_at (l : list tx_sdu) (i : Z) (q : list tx_sdu) : Prop :=
  match q with
  | [] => exists e, l !! Z.to_nat i = Some e /\ sdu_mem_block e = None
  | s :: q' => l !! Z.to_nat i = Some s /\ queue_at l (next_cell i) q'
  end.

(** [f] applied to [n] cells from [i] on. *)
Fixpoint alter_run (f : tx_sdu -> tx_sdu) (n : nat) (i : Z) (l : list tx_sdu) : list tx_sdu :=
  match n with
  | O => l
  | S n' => alter_run f n' (next_cell i) (alter f (Z.to_nat i) l)
  end.

Definition is_cell (i : Z) : Prop := 0 <= i < 1024.

Lemma next_cell_range i : is_cell (next_cell i).
Proof. apply Z.mod_pos_bound. lia. Qed.
Lemma next_cell_rem i : is_cell i -> Z.rem (i + 1) RLC_AM_SDU_CONTROL_BUFFER_SIZE = next_cell i.
Proof. intros H. by apply ring_next_mod. Qed.
Lemma next_cell_dist i j : is_cell i -> is_cell j -> i <> j ->
  (j - next_cell i) mod 1024 = (j - i) mod 1024 - 1.
Proof. unfold is_cell, next_cell. intros Hi Hj Hne. mod_lia. Qed.
Lemma next_cell_back i : is_cell i -> (i - next_cell i) mod 1024 = 1023.
Proof. unfold is_cell, next_cell. intros Hi. mod_lia. Qed.
Lemma next_cell_add i n : (next_cell i + Z.of_nat n) mod 1024 = (i + Z.of_nat (S n)) mod 1024.
Proof. unfold next_cell. rewrite Zplus_mod_idemp_l. f_equal. lia. Qed.
Lemma cell_ne i j : is_cell i -> is_cell j -> (j - i) mod 1024 <> 0 -> Z.to_nat i <> Z.to_nat j.
Proof. unfold is_cell. intros Hi Hj H E. assert (i = j) as -> by lia. by rewrite Z.sub_diag in H. Qed.

Lemma length_alter_run f n i l : length (alter_run f n i l) = length l.
Proof. revert i l. induction n as [|n IH]; intros i l; [done|]. cbn [alter_run]. by rewrite IH, length_alter. Qed.

Lemma alter_run_other f n i l j :
  is_cell i -> is_cell j -> Z.of_nat n <= (j - i) mod 1024 ->
  alter_run f n i l !! Z.to_nat j = l !! Z.to_nat j.
Proof.
  revert i l. induction n as [|n IH]; intros i l Hi Hj Hd; [done|].
  assert (Hne : (j - i) mod 1024 <> 0) by lia. cbn [alter_run]. rewrite IH.
  - apply list_lookup_alter_ne. by apply cell_ne.
  - apply next_cell_range.
  - done.
  - rewrite next_cell_dist; try done; [lia|]. intros ->. by rewrite Z.sub_diag in Hne.
Qed.

Lemma queue_at_alter f l i q j :
  is_cell i -> is_cell j -> Z.of_nat (length q) < (j - i) mod 1024 ->
  queue_at l i q -> queue_at (alter f (Z.to_nat j) l) i q.
Proof.
  revert i. induction q as [|s q IH]; intros i Hi Hj Hd; cbn [queue_at length] in *.
  - intros (e & He & Hm). exists e. split; [|done].
    rewrite list_lookup_alter_ne; [done|]. apply not_eq_sym, cell_ne; [done|done|]. lia.
  - intros [Hs Hq]. assert (Hne : (j - i) mod 1024 <> 0) by lia. split.
    + rewrite list_lookup_alter_ne; [done|]. by apply not_eq_sym, cell_ne.
    + apply IH; [apply next_cell_range|done| |done]. rewrite next_cell_dist; try done; [lia|].
      intros ->. by rewrite Z.sub_diag in Hne.
Qed.

(** The first [n] SDUs of the queue are changed in place. *)
Lemma queue_at_run f n l i q :
  is_cell i -> (n <= length q < 1024)%nat -> queue_at l i q ->
  queue_at (alter_run f n i l) i (map f (take n q) ++ drop n q).
Proof.
  revert i l q. induction n as [|n IH]; intros i l q Hi Hn Hq; [done|].
  destruct q as [|s q]; [cbn [length] in Hn; lia|]. cbn [length] in Hn. destruct Hq as [Hs Hq].
  cbn [alter_run take drop map app queue_at]. split.
  - rewrite alter_run_other; [|apply next_cell_range|done|].
    + rewrite list_lookup_alter, decide_True, Hs by done. done.
    + rewrite next_cell_back by done. lia.
  - apply IH; [apply next_cell_range|lia|].
    apply queue_at_alter; [apply next_cell_range|done| |done]. rewrite next_cell_back by done. lia.
Qed.

(** Past the first [n] cells, the rest of the queue is as before. *)
Lemma queue_at_rest f n l i q :
  is_cell i -> (n <= length q < 1024)%nat -> queue_at l i q ->
  queue_at (alter_run f n i l) ((i + Z.of_nat n) mod 1024) (drop n q).
Proof.
  revert i l q. induction n as [|n IH]; intros i l q Hi Hn Hq.
  - cbn [alter_run drop]. rewrite Z.add_0_r, Z.mod_small by (unfold is_cell in Hi; lia). done.
  - destruct q as [|s q]; [cbn [length] in Hn; lia|]. cbn [length] in Hn. destruct Hq as [Hs Hq].
    cbn [alter_run drop]. rewrite <- next_cell_add. apply IH; [apply next_cell_range|lia|].
    apply queue_at_alter; [apply next_cell_range|done| |done]. rewrite next_cell_back by done. lia.
Qed.

Lemma alter_as_insert (f : tx_sdu -> tx_sdu) (l : list tx_sdu) (i : nat) s :
  l !! i = Some s -> alter f i l = <[i := f s]> l.
Proof.
  revert i. induction l as [|x l IH]; intros [|i] H; try discriminate H.
  - cbn in H. by injection H as ->.
  - cbn. f_equal. by apply IH.
Qed.

Lemma get_sdu_queue r l i s :
  input_sdus r = Some l -> is_cell i -> l !! Z.to_nat i = Some s -> get_sdu r i = Ok s.
Proof.
  intros Hl [Hi _] Hs. unfold get_sdu. rewrite Hl. cbn [deref mbind res_bind]. unfold array_get.
  by rewrite (proj2 (Z.leb_le _ _) Hi), Hs.
Qed.

Lemma set_sdu_queue r l i s f :
  input_sdus r = Some l -> is_cell i -> l !! Z.to_nat i = Some s ->
  set_sdu r i (f s) = Ok (r <| input_sdus := Some (alter f (Z.to_nat i) l) |>).
Proof.
  intros Hl [Hi _] Hs. unfold set_sdu. rewrite Hl. cbn [deref mbind res_bind].
  pose proof (lookup_lt_Some _ _ _ Hs). rewrite array_set_ok by lia. cbn [mbind res_bind].
  by rewrite (alter_as_insert f l _ s Hs).
Qed.

Lemma cell_lookup (l : list tx_sdu) i : length l = 1024%nat -> is_cell i -> exists s, l !! Z.to_nat i = Some s.
Proof. intros Hl Hi. apply lookup_lt_is_Some_2. unfold is_cell in Hi. lia. Qed.
