(* ===== verification/RlcAmLi.v ===== *)
(** * Length indicators of AMD PDUs and PDU segments

    A length indicator and its extension bit take 12 bits, so two of them take
    three bytes.  The code reads and writes them with a cursor that toggles
    between a 4-bit and a 0-bit shift and between jumps of one and two bytes
    (rlc_am_retransmit.c, rlc_am_rx_list.c), with the three bytes of
    [rlc_am_e_li_t] (rlc_am_segment.c, rlc_am_receiver.c).  [li_bytes] is what
    both must produce.  It also holds the plan of a PDU: AM and UM segmentation
    decide in the same way how the SDUs of the queue fill a PDU.  [pdu_plan] computes, from the sizes of
    the SDUs and the room in the PDU, how many SDUs get an LI, how many bytes of
    the next one follow and how many bytes are left over at the end.  The loops
    of [rlc_am_segment_10], [rlc_um_segment_10] and [rlc_um_segment_5] follow it. *)

From S2P Require Import Prelude Bits RlcAmTypes.

(** ** The toggling cursor *)
Record li_cursor := Mk_li_cursor {
  li_ptr : Z;
  li_bit_offset : Z;
  li_jump_offset : Z
}.

Definition li_start (p : Z) : li_cursor := Mk_li_cursor p 4 1.
Definition li_advance (c : li_cursor) : li_cursor :=
  Mk_li_cursor (li_ptr c + li_jump_offset c) (u8 (Z.lxor (li_bit_offset c) 4))
    (u8 (Z.lxor (li_jump_offset c) 3)).

(** The big-endian [uint16_t] at [p]. *)
Definition read_be16 (b : list Z) (p : Z) : res Z :=
  h ← array_get b p;
  l ← array_get b (p + 1);
  Ok (u16 (Z.lor (Z.shiftl h 8) l)).

(** Read an LI and advance. *)
Definition read_li (b : list Z) (c : li_cursor) : res (Z * li_cursor) :=
  temp_read ← read_be16 b (li_ptr c);
  Ok (RLC_AM_PDU_GET_LI temp_read (li_bit_offset c), li_advance c).

(** Write the LIs of the header of a PDU segment. *)
Fixpoint fill_lis (b : list Z) (c : li_cursor) (temp : Z) (sizes : list Z) : res (list Z) :=
  match sizes with
  | [] => Ok b
  | size :: rest =>
      let temp := (match rest with
                   | [] => temp
                   | _ => u16 (RLC_SET_BIT temp (li_bit_offset c + RLC_AM_LI_BITS))
                   end) in
      let temp := u16 (RLC_AM_PDU_SET_LI temp size (li_bit_offset c)) in
      b ← array_set b (li_ptr c) (Z.shiftr temp 8);
      b ← array_set b (li_ptr c + 1) (Z.land temp 255);
      let c := li_advance c in
      temp ← read_be16 b (li_ptr c);
      fill_lis b c temp rest
  end.

(** ** The three bytes *)

(** [fill_e_li] of rlc_am_segment.c: one LI written at [e_li_p], with the
    parity [li_length_in_bytes] already toggled; [last] when it is the last
    one announced. *)
Definition fill_e_li (b : list Z) (e_li_p li_length_in_bytes size : Z) (last : bool)
  : res (list Z * Z) :=
  if li_length_in_bytes =? 2 then
    b ← array_set b e_li_p (u8 (Z.lor (if last then 0 else 128) (Z.shiftr size 4)));
    b ← array_set b (e_li_p + 1) (u8 (Z.shiftl size 4));
    Ok (b, e_li_p)
  else
    b2 ← array_get b (e_li_p + 1);
    let b2 := (if last then b2 else Z.lor b2 8) in
    b ← array_set b (e_li_p + 1) (u8 (Z.lor b2 (Z.shiftr size 8)));
    b ← array_set b (e_li_p + 2) (Z.land size 255);
    Ok (b, e_li_p + 3).

(** ** The format *)

(** LIs in order, three bytes for two of them; the E bit of the last one is
    [e], the others are set. *)
Fixpoint li_enc (e : bool) (lis : list Z) : list Z :=
  match lis with
  | [] => []
  | [a] => [128 * b2z e + a / 16; a mod 16 * 16]
  | [a; b] => [128 + a / 16; a mod 16 * 16 + 8 * b2z e + b / 256; b mod 256]
  | a :: b :: rest =>
      [128 + a / 16; a mod 16 * 16 + 8 + b / 256; b mod 256] ++ li_enc e rest
  end.
(** A field that ends there: the E bit of the last LI is clear. *)
Definition li_bytes (lis : list Z) : list Z := li_enc false lis.

Definition is_li (a : Z) : Prop := 0 <= a < 2048.

(** Bytes taken by [n] LIs. *)
Definition li_length (n : nat) : nat := (n + n / 2 + n mod 2)%nat.

Lemma li_length_SS n : li_length (S (S n)) = (3 + li_length n)%nat.
Proof. unfold li_length. replace (S (S n)) with (n + 1 * 2)%nat by lia.
  rewrite Nat.div_add, Nat.Div0.mod_add by lia. lia. Qed.
Lemma li_length_mono n m : (n <= m)%nat -> (li_length n <= li_length m)%nat.
Proof.
  intros H. unfold li_length. pose proof (Nat.div_mod_eq n 2). pose proof (Nat.div_mod_eq m 2).
  pose proof (Nat.mod_upper_bound n 2). pose proof (Nat.mod_upper_bound m 2). lia.
Qed.
Lemma li_length_macro n : RLC_AM_HEADER_LI_LENGTH (Z.of_nat n) = Z.of_nat (li_length n).
Proof.
  unfold RLC_AM_HEADER_LI_LENGTH, li_length. rewrite Z.shiftr_div_pow2 by lia.
  change 1 with (2 ^ 1 - 1) at 2. rewrite land_ones_mod by lia. change (2 ^ 1) with 2.
  rewrite !Nat2Z.inj_add, Nat2Z.inj_div, Nat2Z.inj_mod. lia.
Qed.
Lemma li_length_offset n : Z.shiftr (Z.of_nat n * 3 + 1) 1 = Z.of_nat (li_length n).
Proof.
  unfold li_length. rewrite Z.shiftr_div_pow2 by lia. change (2 ^ 1) with 2.
  rewrite !Nat2Z.inj_add, Nat2Z.inj_div, Nat2Z.inj_mod. change (Z.of_nat 2) with 2. mod_lia.
Qed.

Lemma length_li_enc e lis : length (li_enc e lis) = li_length (length lis).
Proof.
  induction lis as [|a|a b [|c l] IH] using pair_ind; try done.
  change (li_enc e (a :: b :: c :: l)) with
    ([128 + a / 16; a mod 16 * 16 + 8 + b / 256; b mod 256] ++ li_enc e (c :: l)).
  rewrite length_app, IH. cbn [length]. by rewrite li_length_SS.
Qed.

Lemma length_li_bytes lis : length (li_bytes lis) = li_length (length lis).
Proof. apply length_li_enc. Qed.

Lemma li_enc_cons2 e a b l :
  l <> [] -> li_enc e (a :: b :: l) =
    [128 + a / 16; a mod 16 * 16 + 8 + b / 256; b mod 256] ++ li_enc e l.
Proof. by destruct l. Qed.

(** One more LI after an even number of them. *)
Lemma li_enc_snoc_even e lis a :
  (length lis mod 2 = 0)%nat ->
  li_enc e (lis ++ [a]) = li_enc true lis ++ [128 * b2z e + a / 16; a mod 16 * 16].
Proof.
  induction lis as [|x|x y l IH] using pair_ind; intros H; [done|discriminate H|].
  assert (H' : (length l mod 2 = 0)%nat).
  { cbn [length] in H. replace (S (S (length l))) with (length l + 1 * 2)%nat in H by lia.
    by rewrite Nat.Div0.mod_add in H. }
  rewrite <- !app_comm_cons, li_enc_cons2 by (by destruct l). rewrite IH by done.
  destruct l as [|z l]; [|by rewrite li_enc_cons2 by done].
  cbn. replace (x mod 16 * 16 + 8) with (x mod 16 * 16 + 8 * 1) by lia. done.
Qed.

(** ... and after an odd number: the second byte of the last three is shared. *)
Lemma li_enc_snoc_odd lis :
  (length lis mod 2 = 1)%nat ->
  exists l b1 b2, length l = (3 * (length lis / 2))%nat /\
    li_enc true lis = l ++ [b1; b2] /\ (exists k, b2 = k * 16 /\ 0 <= k < 16) /\
    forall e a, li_enc e (lis ++ [a]) = l ++ [b1; b2 + 8 * b2z e + a / 256; a mod 256].
Proof.
  induction lis as [|x|x y l IH] using pair_ind; intros H; [discriminate H| |].
  - exists [], (128 + x / 16), (x mod 16 * 16). split; [done|]. split; [done|].
    split; [exists (x mod 16); pose proof (Z.mod_pos_bound x 16); lia|done].
  - assert (H' : (length l mod 2 = 1)%nat).
    { cbn [length] in H. replace (S (S (length l))) with (length l + 1 * 2)%nat in H by lia.
      by rewrite Nat.Div0.mod_add in H. }
    destruct (IH H') as (l' & b1 & b2 & Hl & He & Hk & Hs).
    exists ([128 + x / 16; x mod 16 * 16 + 8 + y / 256; y mod 256] ++ l'), b1, b2.
    split.
    { rewrite length_app, Hl. cbn [length]. replace (S (S (length l))) with (length l + 1 * 2)%nat by lia.
      rewrite Nat.div_add by lia. lia. }
    assert (l <> []) by (by destruct l).
    rewrite li_enc_cons2, He by done. split; [done|]. split; [done|]. intros e a.
    rewrite <- !app_comm_cons, li_enc_cons2 by (by destruct l). by rewrite Hs.
Qed.

(** ** Writing LIs one by one *)

Lemma lor_low n x y : 0 <= n -> 0 <= y < 2 ^ n -> Z.lor (x * 2 ^ n) y = x * 2 ^ n + y.
Proof. intros Hn Hy. rewrite <- Z.shiftl_mul_pow2 at 1 by lia. by rewrite lor_shiftl_add. Qed.

Lemma li_length_odd n : (n mod 2 = 1)%nat -> li_length n = (3 * (n / 2) + 2)%nat.
Proof. intros H. unfold li_length. pose proof (Nat.div_mod_eq n 2). lia. Qed.
Lemma li_length_even n : (n mod 2 = 0)%nat -> li_length n = (3 * (n / 2))%nat.
Proof. intros H. unfold li_length. pose proof (Nat.div_mod_eq n 2). lia. Qed.

(** The parity after [n] LIs, before and after the toggle. *)
Definition li_parity (n : nat) : Z := if (n mod 2 =? 0)%nat then 1 else 2.
Lemma li_parity_toggle n : Z.lxor (li_parity n) 3 = if (n mod 2 =? 0)%nat then 2 else 1.
Proof. unfold li_parity. by destruct (n mod 2 =? 0)%nat. Qed.
Lemma succ_mod2 n : (S n mod 2 = 1 - n mod 2)%nat.
Proof.
  rewrite <- Nat.add_1_r, Nat.Div0.add_mod. pose proof (Nat.mod_upper_bound n 2).
  destruct (n mod 2)%nat as [|[|k]]; [done|done|lia].
Qed.
Lemma li_parity_S n : li_parity (S n) = Z.lxor (li_parity n) 3.
Proof.
  rewrite li_parity_toggle. unfold li_parity. rewrite succ_mod2.
  pose proof (Nat.mod_upper_bound n 2). destruct (n mod 2)%nat as [|[|k]]; [done|done|lia].
Qed.
Lemma li_length_S n : Z.of_nat (li_length (S n)) = Z.of_nat (li_length n) + Z.lxor (li_parity n) 3.
Proof.
  rewrite li_parity_toggle. pose proof (Nat.mod_upper_bound n 2).
  pose proof (Nat.div_mod_eq n 2). pose proof (Nat.div_mod_eq (S n) 2).
  unfold li_length. rewrite succ_mod2 in *. destruct (Nat.eqb_spec (n mod 2) 0); lia.
Qed.

(** The bytes that the LI takes are overwritten, whatever they were. *)
Lemma fill_e_li_enc pre lis a junk rest last :
  is_li a -> length junk = (li_length (S (length lis)) - li_length (length lis))%nat ->
  fill_e_li (pre ++ li_enc true lis ++ junk ++ rest)
    (Z.of_nat (length pre) + 3 * Z.of_nat (length lis / 2)) (Z.lxor (li_parity (length lis)) 3) a last =
  Ok (pre ++ li_enc (negb last) (lis ++ [a]) ++ rest,
      Z.of_nat (length pre) + 3 * Z.of_nat (S (length lis) / 2)).
Proof.
  intros Ha Hj. rewrite li_parity_toggle.
  set (n := length lis) in *. unfold fill_e_li.
  pose proof (Nat.mod_upper_bound n 2 ltac:(done)) as Hub. pose proof (Nat.div_mod_eq n 2) as Hdm.
  pose proof (Nat.div_mod_eq (S n) 2) as HdS. rewrite (succ_mod2 n) in HdS.
  unfold is_li in Ha. pose proof (Z.mod_pos_bound a 16 ltac:(lia)) as Ha16.
  destruct (Nat.eqb_spec (n mod 2) 0) as [Hev | Hodd]; cbn [Z.eqb Pos.eqb].
  - pose proof (li_length_even n Hev) as Hl.
    pose proof (li_length_odd (S n) ltac:(rewrite succ_mod2; lia)) as HlS.
    rewrite li_enc_snoc_even by done.
    destruct junk as [|j1 [|j2 [|]]]; cbn [length] in Hj; try lia.
    rewrite <- !app_assoc, !(app_assoc pre). cbn [app].
    rewrite array_set_app by (rewrite length_app, length_li_enc; fold n; lia).
    cbn [mbind res_bind].
    rewrite cons_middle, app_assoc.
    rewrite array_set_app by (rewrite !length_app, length_li_enc; cbn [length]; fold n; lia).
    cbn [mbind res_bind]. rewrite <- !app_assoc. cbn [app].
    assert (E1 : u8 (Z.lor (if last then 0 else 128) (Z.shiftr a 4)) = 128 * b2z (negb last) + a / 16).
    { rewrite Z.shiftr_div_pow2 by lia. change (2 ^ 4) with 16.
      replace (if last then 0 else 128) with (b2z (negb last) * 2 ^ 7) by (by destruct last).
      rewrite lor_low by (change (2 ^ 7) with 128; mod_lia).
      unfold u8. rewrite wrapu_small; change (2 ^ 8) with 256; change (2 ^ 7) with 128;
        destruct last; cbn [negb b2z]; mod_lia. }
    assert (E2 : u8 (Z.shiftl a 4) = a mod 16 * 16).
    { rewrite Z.shiftl_mul_pow2 by lia. unfold u8, wrapu. change (2 ^ 8) with (16 * 16).
      change (2 ^ 4) with 16. rewrite Z.mul_mod_distr_r by lia. done. }
    rewrite E1, E2. do 2 f_equal. lia.
  - pose proof (li_length_odd n ltac:(lia)) as Hl.
    pose proof (li_length_even (S n) ltac:(rewrite succ_mod2; lia)) as HlS.
    destruct (li_enc_snoc_odd lis) as (l & b1 & b2 & Hll & He & (k & -> & Hk) & Hs); [fold n; lia|].
    rewrite Hs, He. fold n in Hll.
    destruct junk as [|j1 [|]]; cbn [length] in Hj; try lia.
    rewrite <- !app_assoc. cbn [app]. rewrite !(app_assoc pre l), (cons_middle b1).
    rewrite (app_assoc _ [b1]).
    rewrite array_get_app by (rewrite !length_app; cbn [length]; lia).
    cbn [mbind res_bind].
    rewrite array_set_app by (rewrite !length_app; cbn [length]; lia).
    cbn [mbind res_bind]. rewrite (cons_middle (u8 _)), (app_assoc _ [u8 _]).
    rewrite array_set_app by (rewrite !length_app; cbn [length]; lia).
    cbn [mbind res_bind]. rewrite <- !app_assoc. cbn [app].
    assert (E1 : (if last then k * 16 else Z.lor (k * 16) 8) = (k * 2 + b2z (negb last)) * 2 ^ 3).
    { destruct last; cbn [negb b2z]; [change (2 ^ 3) with 8; lia|].
      change (k * 16) with (k * 2 ^ 4). rewrite lor_low by (change (2 ^ 4) with 16; lia).
      change (2 ^ 4) with 16. change (2 ^ 3) with 8. lia. }
    rewrite E1.
    assert (E2 : u8 (Z.lor ((k * 2 + b2z (negb last)) * 2 ^ 3) (Z.shiftr a 8)) =
                 k * 16 + 8 * b2z (negb last) + a / 256).
    { rewrite Z.shiftr_div_pow2 by lia. change (2 ^ 8) with 256.
      rewrite lor_low by (change (2 ^ 3) with 8; mod_lia).
      unfold u8. rewrite wrapu_small; change (2 ^ 8) with 256; change (2 ^ 3) with 8;
        destruct last; cbn [negb b2z]; mod_lia. }
    rewrite E2. change 255 with (2 ^ 8 - 1). rewrite land_ones_mod by lia. change (2 ^ 8) with 256.
    do 2 f_equal. lia.
Qed.

(** The room for [M] LIs, the first ones written. *)
Definition li_area (M : nat) (lis area : list Z) : Prop :=
  length area = li_length M /\ exists ja, area = li_enc (negb (length lis =? M)%nat) lis ++ ja.

Lemma li_area_start M area : length area = li_length M -> li_area M [] area.
Proof. intros H. split; [done|]. by exists area. Qed.
Lemma li_area_end M lis area : li_area M lis area -> length lis = M -> area = li_bytes lis.
Proof.
  intros [Hl (ja & ->)] <-. rewrite length_app, length_li_enc in Hl. destruct ja; cbn [length] in Hl; [|lia].
  by rewrite app_nil_r, Nat.eqb_refl.
Qed.
Lemma li_area_next pre M lis area a rest :
  li_area M lis area -> (length lis < M)%nat -> is_li a ->
  exists area', fill_e_li (pre ++ area ++ rest) (Z.of_nat (length pre) + 3 * Z.of_nat (length lis / 2))
      (Z.lxor (li_parity (length lis)) 3) a (S (length lis) =? M)%nat =
    Ok (pre ++ area' ++ rest, Z.of_nat (length pre) + 3 * Z.of_nat (S (length lis) / 2)) /\
    li_area M (lis ++ [a]) area'.
Proof.
  intros [Hl (ja & ->)] HM Ha. rewrite length_app, length_li_enc in Hl.
  rewrite (proj2 (Nat.eqb_neq _ _)) by lia. cbn [negb].
  pose proof (li_length_mono (S (length lis)) M ltac:(lia)) as H1.
  pose proof (li_length_mono (length lis) (S (length lis)) ltac:(lia)) as H2.
  set (k := (li_length (S (length lis)) - li_length (length lis))%nat).
  rewrite <- (take_drop k ja), <- !app_assoc.
  rewrite fill_e_li_enc by (rewrite ?length_take; done || lia).
  exists (li_enc (negb (S (length lis) =? M)%nat) (lis ++ [a]) ++ drop k ja).
  split; [by rewrite <- app_assoc|]. split.
  - rewrite length_app, length_li_enc, length_app, length_drop. cbn [length].
    rewrite Nat.add_1_r. lia.
  - exists (drop k ja). rewrite length_app. cbn [length]. by rewrite Nat.add_1_r.
Qed.

(** A write behind the LIs. *)
Lemma li_area_write pre area pay tail off src :
  off = Z.of_nat (length pre + length area + length pay) -> Z.of_nat (length src) <= Z.of_nat (length tail) ->
  mem_write (pre ++ area ++ pay ++ tail) off src = Ok (pre ++ area ++ (pay ++ src) ++ drop (length src) tail).
Proof.
  intros -> Hs. rewrite !(app_assoc pre), !(app_assoc _ pay).
  rewrite mem_write_mid by (rewrite ?length_app; lia). by rewrite <- !app_assoc.
Qed.

(** ** The toggling cursor writes the format *)
Lemma read_be16_app pre h l rest :
  0 <= h < 256 -> 0 <= l < 256 ->
  read_be16 (pre ++ h :: l :: rest) (Z.of_nat (length pre)) = Ok (h * 256 + l).
Proof.
  intros Hh Hl. unfold read_be16. rewrite (array_get_app _ _ _ (Z.of_nat (length pre))) by done.
  cbn [mbind res_bind].
  rewrite (cons_middle h), app_assoc.
  rewrite array_get_app by (rewrite length_app; cbn [length]; lia). cbn [mbind res_bind].
  rewrite lor_shiftl_add by (change (2 ^ 8) with 256; lia). change (2 ^ 8) with 256.
  unfold u16. rewrite wrapu_small by (change (2 ^ 16) with 65536; lia). done.
Qed.

(** [temp] after the E bit and an LI are put in it. *)
Lemma li_temp t e a off :
  is_li a -> off = 0 \/ off = 4 -> 0 <= t -> t mod 2 ^ (off + 12) = 0 -> t < 2 ^ 16 ->
  u16 (RLC_AM_PDU_SET_LI (if (e : bool) then u16 (RLC_SET_BIT t (off + RLC_AM_LI_BITS)) else t)
         a off) = t + b2z e * 2 ^ (off + 11) + a * 2 ^ off.
Proof.
  intros Ha Hoff Ht Hmod Hlt. unfold is_li in Ha. unfold RLC_AM_PDU_SET_LI, RLC_SET_BIT, RLC_AM_LI_BITS.
  change RLC_AM_LI_MASK with (2 ^ 11 - 1). rewrite land_ones_mod by lia.
  rewrite (Z.mod_small a) by (change (2 ^ 11) with 2048; lia).
  rewrite !Z.shiftl_mul_pow2 by lia. rewrite Z.mul_1_l.
  assert (Hd : t = t / 2 ^ (off + 12) * 2 ^ (off + 12)).
  { pose proof (Z.div_mod t (2 ^ (off + 12)) ltac:(apply Z.pow_nonzero; lia)). lia. }
  set (q := t / 2 ^ (off + 12)) in *. clearbody q.
  assert (Hp : exists P, 2 ^ off = P /\ 2 ^ (off + 11) = 2048 * P /\ 2 ^ (off + 12) = 4096 * P /\
               (P = 1 \/ P = 16)).
  { destruct Hoff as [-> | ->]; [exists 1 | exists 16]; auto. }
  destruct Hp as (P & P1 & P2 & P3 & P4). rewrite P3 in Hd. change (2 ^ 16) with 65536 in Hlt.
  assert (E1 : (if e then u16 (Z.lor t (2 ^ (off + 11))) else t) = (2 * q + b2z e) * 2 ^ (off + 11)).
  { destruct e; cbn [b2z]; [|rewrite Hd, P2; lia].
    replace t with (q * 2 ^ (off + 12)) by (rewrite P3; lia).
    rewrite lor_low by (rewrite ?P2, ?P3; lia).
    unfold u16. rewrite wrapu_small; rewrite ?P2, ?P3; change (2 ^ 16) with 65536;
      destruct P4 as [-> | ->]; lia. }
  rewrite E1. replace ((2 * q + b2z e) * 2 ^ (off + 11)) with (((2 * q + b2z e) * 2048) * 2 ^ off)
    by (rewrite P1, P2; ring).
  replace (Z.lor ((2 * q + b2z e) * 2048 * 2 ^ off) (a * 2 ^ off))
    with (((2 * q + b2z e) * 2048 + a) * 2 ^ off).
  2:{ rewrite <- !Z.shiftl_mul_pow2, <- Z.shiftl_lor by lia. f_equal.
      change 2048 with (2 ^ 11). rewrite lor_low; change (2 ^ 11) with 2048; lia. }
  unfold u16. rewrite wrapu_small; rewrite ?P1, ?P2; change (2 ^ 16) with 65536;
    destruct P4 as [-> | ->], e; cbn [b2z]; lia.
Qed.

Lemma shiftr8 x : Z.shiftr x 8 = x / 256.
Proof. by rewrite Z.shiftr_div_pow2. Qed.
Lemma land255 x : Z.land x 255 = x mod 256.
Proof. change 255 with (2 ^ 8 - 1). by rewrite land_ones_mod. Qed.

Lemma li_temp_even e a : is_li a ->
  u16 (RLC_AM_PDU_SET_LI (if (e : bool) then u16 (RLC_SET_BIT 0 (4 + RLC_AM_LI_BITS)) else 0) a 4) =
  (128 * b2z e + a / 16) * 256 + a mod 16 * 16.
Proof.
  intros Ha. rewrite (li_temp 0 e a 4) by (done || auto || lia).
  change (2 ^ (4 + 11)) with 32768. change (2 ^ 4) with 16. destruct e; cbn [b2z]; mod_lia.
Qed.
Lemma li_temp_odd e a b : is_li a -> is_li b ->
  u16 (RLC_AM_PDU_SET_LI (if (e : bool) then u16 (RLC_SET_BIT (a mod 16 * 16 * 256 + 0) (0 + RLC_AM_LI_BITS))
                          else a mod 16 * 16 * 256 + 0) b 0) =
  (a mod 16 * 16 + 8 * b2z e + b / 256) * 256 + b mod 256.
Proof.
  intros Ha Hb. pose proof (Z.mod_pos_bound a 16). rewrite li_temp; try done; try lia.
  - change (2 ^ (0 + 11)) with 2048. change (2 ^ 0) with 1. destruct e; cbn [b2z]; mod_lia.
  - change (2 ^ (0 + 12)) with 4096. replace (_ + 0) with (a mod 16 * 4096) by lia. apply Z.mod_mul. lia.
Qed.

(** Storing a 16-bit value and reading the next one at the new cursor. *)
Lemma split256 h l : 0 <= h -> 0 <= l < 256 -> (h * 256 + l) / 256 = h /\ (h * 256 + l) mod 256 = l.
Proof. intros Hh Hl. split; mod_lia. Qed.

Lemma fill_lis_ok lis pre rest :
  Forall is_li lis -> (2 <= length rest + length lis mod 2)%nat -> Forall is_byte rest ->
  fill_lis (pre ++ replicate (li_length (length lis)) 0 ++ rest) (li_start (Z.of_nat (length pre))) 0 lis =
  Ok (pre ++ li_bytes lis ++ rest).
Proof.
  revert pre. induction lis as [|a|a b l IH] using pair_ind; intros pre Hli Hr Hby.
  - done.
  - apply Forall_cons in Hli as [Ha _]. destruct rest as [|x rest]; [cbn in Hr; lia|].
    apply Forall_cons in Hby as [Hx _]. unfold is_byte in Hx.
    cbn [fill_lis li_start li_bit_offset li_ptr]. pose proof (li_temp_even false a Ha) as E.
    cbn iota in E. rewrite E. clear E. rewrite shiftr8, land255.
    unfold is_li in Ha. cbn [b2z]. rewrite Z.mul_0_r, Z.add_0_l.
    destruct (split256 (a / 16) (a mod 16 * 16)) as [-> ->]; [mod_lia|mod_lia|].
    change (replicate (li_length (length [a])) 0) with [0; 0]. cbn [app].
    rewrite array_set_app by done. cbn [mbind res_bind]. rewrite (cons_middle (a / 16)), app_assoc.
    rewrite array_set_app by (rewrite length_app; cbn [length]; lia). cbn [mbind res_bind].
    change (li_advance (li_start (Z.of_nat (length pre))))
      with (Mk_li_cursor (Z.of_nat (length pre) + 1) 0 2). cbn [li_ptr].
    replace (Z.of_nat (length pre) + 1) with (Z.of_nat (length (pre ++ [a / 16])))
      by (rewrite length_app; cbn [length]; lia).
    rewrite read_be16_app by (mod_lia || lia). cbn [mbind res_bind].
    rewrite <- app_assoc. cbn. done.
  - apply Forall_cons in Hli as [Ha [Hb Hli]%Forall_cons].
    cbn [length] in *. replace (S (S (length l))) with (length l + 1 * 2)%nat in Hr by lia.
    rewrite Nat.Div0.mod_add in Hr. rewrite li_length_SS.
    change (replicate (3 + li_length (length l)) 0) with ([0; 0; 0] ++ replicate (li_length (length l)) 0).
    set (zs := replicate (li_length (length l)) 0) in *.
    assert (Hz : exists z1 z2 zr, zs ++ rest = z1 :: z2 :: zr /\ 0 <= z1 < 256 /\ 0 <= z2 < 256 /\
                 (l <> [] -> z1 * 256 + z2 = 0)).
    { unfold zs. destruct l as [|c [|d l]].
      - destruct rest as [|x [|y rest]]; cbn in Hr; [lia|lia|].
        apply Forall_cons in Hby as [Hx [Hy _]%Forall_cons]. exists x, y, rest. done.
      - exists 0, 0, rest. done.
      - cbn [length]. rewrite li_length_SS. cbn [Nat.add replicate app]. eexists 0, 0, _.
        split; [reflexivity|]. done. }
    destruct Hz as (z1 & z2 & zr & Hz & Hz1 & Hz2 & Hz0).
    cbn [fill_lis li_start li_bit_offset li_ptr]. pose proof (li_temp_even true a Ha) as E.
    cbn iota in E. rewrite E. clear E. rewrite shiftr8, land255.
    pose proof Ha as Ha'. pose proof Hb as Hb'. unfold is_li in Ha', Hb'. cbn [b2z].
    destruct (split256 (128 * 1 + a / 16) (a mod 16 * 16)) as [-> ->]; [mod_lia|mod_lia|].
    rewrite <- !app_assoc. cbn [app].
    rewrite array_set_app by done. cbn [mbind res_bind]. rewrite (cons_middle (_ + a / 16)), app_assoc.
    rewrite array_set_app by (rewrite length_app; cbn [length]; lia). cbn [mbind res_bind].
    change (li_advance (li_start (Z.of_nat (length pre))))
      with (Mk_li_cursor (Z.of_nat (length pre) + 1) 0 2). cbn [li_ptr li_bit_offset].
    set (h := 128 * 1 + a / 16) in *.
    replace (Z.of_nat (length pre) + 1) with (Z.of_nat (length (pre ++ [h])))
      by (rewrite length_app; cbn [length]; lia).
    rewrite read_be16_app by (mod_lia || lia). cbn [mbind res_bind].
    set (e := match l with [] => false | _ => true end).
    pose proof (li_temp_odd e a b Ha Hb) as E.
    replace (match l with [] => a mod 16 * 16 * 256 + 0 | _ :: _ => _ end)
      with (if e then u16 (RLC_SET_BIT (a mod 16 * 16 * 256 + 0) (0 + RLC_AM_LI_BITS))
            else a mod 16 * 16 * 256 + 0) by (unfold e; by destruct l).
    rewrite E, shiftr8, land255. clear E.
    set (m := a mod 16 * 16 + 8 * b2z e + b / 256).
    assert (Hm : 0 <= m < 256) by (unfold m; destruct e; cbn [b2z]; mod_lia).
    destruct (split256 m (b mod 256)) as [-> ->]; [lia|mod_lia|].
    rewrite array_set_app by done. cbn [mbind res_bind]. rewrite (cons_middle m), app_assoc.
    rewrite array_set_app by (rewrite !length_app; cbn [length]; lia). cbn [mbind res_bind].
    set (pre2 := (pre ++ [h]) ++ [m]).
    change (li_advance (Mk_li_cursor (Z.of_nat (length (pre ++ [h]))) 0 2))
      with (Mk_li_cursor (Z.of_nat (length (pre ++ [h])) + 2) 4 1).
    replace (Z.of_nat (length (pre ++ [h])) + 2) with (Z.of_nat (length (pre2 ++ [b mod 256])))
      by (unfold pre2; rewrite !length_app; cbn [length]; lia).
    cbn [li_ptr]. rewrite (cons_middle (b mod 256)), app_assoc. rewrite Hz.
    rewrite read_be16_app by done. cbn [mbind res_bind]. rewrite <- Hz.
    assert (Hmb : li_bytes (a :: b :: l) = [h; m; b mod 256] ++ li_bytes l).
    { unfold li_bytes, m, h, e. destruct l; cbn [li_enc b2z app]; [done|].
      by rewrite Z.mul_1_r. }
    rewrite Hmb. destruct l as [|c l'].
    + cbn. unfold pre2. by rewrite <- !app_assoc.
    + rewrite Hz0 by done. fold zs.
      change (Mk_li_cursor (Z.of_nat (length (pre2 ++ [b mod 256]))) 4 1)
        with (li_start (Z.of_nat (length (pre2 ++ [b mod 256])))).
      rewrite IH by done. unfold pre2. by rewrite <- !app_assoc.
Qed.

(** ** The plan *)

(** [T] bytes for LIs and data, [j] LIs before: the number of LIs, the bytes of
    the last SDU, and the bytes that stay unused. *)
Fixpoint pdu_plan (T : Z) (j : nat) (ns : list Z) : option (nat * Z * Z) :=
  match ns with
  | [] => None
  | n :: ns' =>
      let li := Z.lxor (li_parity j) 3 in
      if T <=? n then Some (O, T, 0)
      else if n + li <? T then
        match pdu_plan (T - (n + li)) (S j) ns' with
        | Some (m, x, d) => Some (S m, x, d)
        | None => None
        end
      else Some (O, n, T - n)
  end.

Lemma li_width j : Z.lxor (li_parity j) 3 = 1 \/ Z.lxor (li_parity j) 3 = 2.
Proof. rewrite li_parity_toggle. destruct (_ =? _)%nat; auto. Qed.
Lemma li_parity_range j : li_parity j = 1 \/ li_parity j = 2.
Proof. unfold li_parity. destruct (_ =? _)%nat; auto. Qed.

(** With at most the bytes of the whole queue, the plan stops inside it. *)
Lemma pdu_plan_total T j ns :
  ns <> [] ->
  T + Z.of_nat (li_length j) <= sumZ (fun n => n) ns + Z.of_nat (li_length (j + length ns - 1)) ->
  is_Some (pdu_plan T j ns).
Proof.
  revert T j. induction ns as [|n ns IH]; intros T j Hne H; [done|]. cbn [pdu_plan].
  destruct (Z.leb_spec T n); [by eexists|]. destruct (Z.ltb_spec (n + Z.lxor (li_parity j) 3) T); [|by eexists].
  destruct ns as [|n' ns].
  - cbn [sumZ foldr length] in H. replace (j + 1 - 1)%nat with j in H by lia. lia.
  - destruct (IH (T - (n + Z.lxor (li_parity j) 3)) (S j)) as [[[m x] d] ->]; [done| |by eexists].
    rewrite li_length_S. cbn [sumZ foldr length] in *.
    replace (S j + S (length ns) - 1)%nat with (j + S (S (length ns)) - 1)%nat by lia. lia.
Qed.

(** What the plan guarantees. *)
Lemma pdu_plan_spec T j ns m x d :
  pdu_plan T j ns = Some (m, x, d) -> 0 < T -> Forall (fun n => 0 < n) ns ->
  exists n, ns !! m = Some n /\ 0 < x <= n /\ 0 <= d <= 2 /\ (d <> 0 -> x = n) /\
    T = sumZ (fun n => n) (take m ns) + x + d + Z.of_nat (li_length (j + m)) - Z.of_nat (li_length j).
Proof.
  revert T j m. induction ns as [|n ns IH]; intros T j m H HT Hns; [done|]. cbn [pdu_plan] in H.
  apply Forall_cons in Hns as [Hn Hns]. pose proof (li_width j) as Hli.
  destruct (Z.leb_spec T n).
  { injection H as <- <- <-. exists n. rewrite Nat.add_0_r. cbn [take sumZ foldr].
    repeat split; (done || lia). }
  destruct (Z.ltb_spec (n + Z.lxor (li_parity j) 3) T).
  - destruct (pdu_plan _ _ ns) as [[[m' x'] d']|] eqn:E; [|done]. injection H as <- <- <-.
    destruct (IH _ _ _ E) as (n0 & G1 & G2 & G3 & G4 & G5); [lia|done|].
    exists n0. split; [done|]. split; [done|]. split; [done|]. split; [done|].
    rewrite li_length_S in G5. cbn [take sumZ foldr].
    fold (sumZ (fun n => n) (take m' ns)). replace (j + S m')%nat with (S j + m')%nat by lia. lia.
  - injection H as <- <- <-. exists n. rewrite Nat.add_0_r. cbn [take sumZ foldr].
    repeat split; (done || lia).
Qed.

(** Without the bytes left over, the plan is the same and leaves none. *)
Lemma pdu_plan_trim T j ns m x d :
  pdu_plan T j ns = Some (m, x, d) -> 0 < T -> Forall (fun n => 0 < n) ns ->
  pdu_plan (T - d) j ns = Some (m, x, 0).
Proof.
  revert T j m. induction ns as [|n ns IH]; intros T j m H HT Hns; [done|].
  cbn [pdu_plan] in H |- *. apply Forall_cons in Hns as [Hn Hns]. pose proof (li_width j) as Hli.
  destruct (Z.leb_spec T n).
  { injection H as <- <- <-. rewrite Z.sub_0_r. by rewrite (proj2 (Z.leb_le _ _)) by lia. }
  destruct (Z.ltb_spec (n + Z.lxor (li_parity j) 3) T).
  - destruct (pdu_plan _ _ ns) as [[[m' x'] d']|] eqn:E; [|done]. injection H as <- <- <-.
    destruct (pdu_plan_spec _ _ _ _ _ _ E) as (n0 & G1 & G2 & G3 & _ & G5); [lia|done|].
    pose proof (IH _ _ _ E ltac:(lia) Hns) as E'.
    assert (0 <= sumZ (fun n => n) (take m' ns)).
    { clear -Hns. revert m'. induction Hns as [|n ns Hn _ IH]; intros [|m']; cbn; try lia.
      specialize (IH m'). unfold sumZ in IH. lia. }
    pose proof (li_length_mono (S j) (S j + m') ltac:(lia)).
    rewrite (proj2 (Z.leb_gt _ _)), (proj2 (Z.ltb_lt _ _)) by lia.
    replace (T - d' - (n + Z.lxor (li_parity j) 3)) with (T - (n + Z.lxor (li_parity j) 3) - d') by lia.
    by rewrite E'.
  - injection H as <- <- <-. rewrite (proj2 (Z.leb_le _ _)) by lia. do 3 f_equal. lia.
Qed.
