(* ===== verification/RlcAmPolling.v ===== *)
(** * Polling (rlc_am_pdu_polling, rlc_am_segment.c) *)

From S2P Require Import Prelude RlcAmTypes RlcAmEntity RlcAmWindows RlcAmTxBuffer RlcTimers RlcAmTimers.

(** [b1] is the first byte of the PDU, where the P bit is; the result is the
    entity and the new byte. *)
Definition rlc_am_pdu_polling (c : protocol_ctxt_t) (r : rlc_am_entity_t) (b1 : Z)
    (payload_sizeP : Z) (is_new_pdu : bool) : rlc_am_entity_t * Z :=
  let r := (if is_new_pdu then
              let r := (if negb (poll_pdu r =? RLC_AM_POLL_PDU_INFINITE)
                        then r <| c_pdu_without_poll := u32 (c_pdu_without_poll r + 1) |> else r) in
              if negb (poll_byte r =? RLC_AM_POLL_BYTE_INFINITE)
              then r <| c_byte_without_poll := u32 (c_byte_without_poll r + payload_sizeP) |> else r
            else r) in
  if (is_new_pdu && ((c_pdu_without_poll r >=? poll_pdu r) || (c_byte_without_poll r >=? poll_byte r)))
     || ((sdu_buffer_occupancy r =? 0) && (retrans_num_bytes_to_retransmit r =? 0))
     || (vt_s r =? vt_ms r)
     || Bool.eqb (force_poll r) true
  then
    let r := r <| force_poll := false |> in
    let b1 := u8 (RLC_AM_PDU_SET_POLL b1) in
    let r := r <| c_pdu_without_poll := 0 |> <| c_byte_without_poll := 0 |> in
    let r := r <| poll_sn := RLC_AM_PREV_SN (vt_s r) |> in
    (rlc_am_start_timer_poll_retransmit c r, b1)
  else (r, u8 (RLC_AM_PDU_CLEAR_POLL b1)).

(** ** Specification (36.322, 5.2.2.1) *)

(** The counters after the PDU is counted. *)
Definition counted_pdus (r : rlc_am_entity_t) (is_new : bool) : Z :=
  if is_new && negb (poll_pdu r =? RLC_AM_POLL_PDU_INFINITE)
  then u32 (c_pdu_without_poll r + 1) else c_pdu_without_poll r.
Definition counted_bytes (r : rlc_am_entity_t) (size : Z) (is_new : bool) : Z :=
  if is_new && negb (poll_byte r =? RLC_AM_POLL_BYTE_INFINITE)
  then u32 (c_byte_without_poll r + size) else c_byte_without_poll r.

(** A poll is due. *)
Definition poll_due (r : rlc_am_entity_t) (size : Z) (is_new : bool) : Prop :=
  (is_new = true /\
    (poll_pdu r <= counted_pdus r is_new \/ poll_byte r <= counted_bytes r size is_new)) \/
  (sdu_buffer_occupancy r = 0 /\ retrans_num_bytes_to_retransmit r = 0) \/
  vt_s r = vt_ms r \/ force_poll r = true.

Lemma set_poll_bits b i :
  0 <= b < 256 -> 0 <= i < 8 ->
  Z.testbit (u8 (RLC_AM_PDU_SET_POLL b)) i = (i =? 5) || Z.testbit b i.
Proof.
  intros Hb Hi. rewrite testbit_u8 by done. unfold RLC_AM_PDU_SET_POLL, RLC_SET_BIT.
  rewrite Z.lor_spec, Z.shiftl_1_l, Z.pow2_bits_eqb by done. rewrite orb_comm. f_equal. apply Z.eqb_sym.
Qed.
Lemma clear_poll_bits b i :
  0 <= b < 256 -> 0 <= i < 8 ->
  Z.testbit (u8 (RLC_AM_PDU_CLEAR_POLL b)) i = negb (i =? 5) && Z.testbit b i.
Proof.
  intros Hb Hi. rewrite testbit_u8 by done. unfold RLC_AM_PDU_CLEAR_POLL, RLC_CLEAR_BIT.
  rewrite Z.land_spec, Z.lnot_spec, Z.shiftl_1_l, Z.pow2_bits_eqb by (done || lia).
  rewrite andb_comm. do 2 f_equal. apply Z.eqb_sym.
Qed.

(** The P bit of a PDU is set exactly when a poll is due (a threshold is
    reached by a new PDU, both buffers are empty, the window is stalled, or
    t-PollRetransmit expired), and no other bit of the header byte moves.  With
    a poll the counters restart, POLL_SN is VT(S) - 1 and t-PollRetransmit runs
    from now when it is configured; without it only the counters moved. *)
Theorem pdu_polling_spec c r b1 size is_new :
  0 <= b1 < 256 ->
  let '(r', b1') := rlc_am_pdu_polling c r b1 size is_new in
  (Z.testbit b1' 5 = true <-> poll_due r size is_new) /\
  (forall i, 0 <= i < 8 -> i <> 5 -> Z.testbit b1' i = Z.testbit b1 i) /\
  (poll_due r size is_new ->
     c_pdu_without_poll r' = 0 /\ c_byte_without_poll r' = 0 /\ force_poll r' = false /\
     poll_sn r' = RLC_AM_PREV_SN (vt_s r) /\
     (0 < ms_duration (t_poll_retransmit r) ->
        t_poll_retransmit r' =
          timer_started (time_ms c) (timer_stopped (t_poll_retransmit r)))) /\
  (~ poll_due r size is_new ->
     r' = r <| c_pdu_without_poll := counted_pdus r is_new |>
            <| c_byte_without_poll := counted_bytes r size is_new |>).
Proof.
  intros Hb. unfold rlc_am_pdu_polling.
  set (r1 := if is_new then _ else r).
  assert (E : r1 = r <| c_pdu_without_poll := counted_pdus r is_new |>
                     <| c_byte_without_poll := counted_bytes r size is_new |>).
  { unfold r1, counted_pdus, counted_bytes. destruct is_new; cbn [andb]; [|by destruct r].
    destruct (negb (poll_pdu r =? _)); cbn [poll_byte update_field];
      destruct (negb (poll_byte r =? _)); by destruct r. }
  clearbody r1. subst r1.
  cbn [c_pdu_without_poll c_byte_without_poll poll_pdu poll_byte sdu_buffer_occupancy
       retrans_num_bytes_to_retransmit vt_s vt_ms force_poll update_field].
  match goal with |- context [if ?b then _ else _] => set (cond := b) end.
  assert (Hc : cond = true <-> poll_due r size is_new).
  { unfold cond, poll_due. bool_prop. rewrite Bool.eqb_true_iff. by rewrite <- !Logic.or_assoc. }
  clearbody cond. destruct cond.
  - assert (Hd : poll_due r size is_new) by tauto. split; [|split; [|split; [|done]]].
    + rewrite set_poll_bits by done. done.
    + intros i Hi Hne. rewrite set_poll_bits by done. by rewrite (proj2 (Z.eqb_neq i 5)).
    + intros _. unfold rlc_am_start_timer_poll_retransmit.
      cbn -[RLC_AM_PREV_SN timer_started timer_stopped time_ms].
      change (ms_duration (timer_stopped (t_poll_retransmit r))) with (ms_duration (t_poll_retransmit r)).
      destruct (Z.gtb_spec (ms_duration (t_poll_retransmit r)) 0);
        (do 4 (split; [done|])); [done|lia].
  - assert (Hd : ~ poll_due r size is_new) by (intros H; apply Hc in H; done).
    split; [|split; [|split; [done|done]]].
    + rewrite clear_poll_bits by done. split; [done|tauto].
    + intros i Hi Hne. rewrite clear_poll_bits by done. by rewrite (proj2 (Z.eqb_neq i 5)).
Qed.

(** Polling leaves the buffers and the window alone. *)
Lemma pdu_polling_frame c r b1 size is_new :
  let r' := fst (rlc_am_pdu_polling c r b1 size is_new) in
  tx_data_pdu_buffer r' = tx_data_pdu_buffer r /\ same_tx_vars r r' /\
  retrans_num_pdus r' = retrans_num_pdus r /\
  retrans_num_bytes_to_retransmit r' = retrans_num_bytes_to_retransmit r /\
  input_sdus r' = input_sdus r /\ max_retx_threshold r' = max_retx_threshold r.
Proof.
  unfold rlc_am_pdu_polling, rlc_am_start_timer_poll_retransmit, same_tx_vars.
  destruct is_new; [destruct (negb (poll_pdu r =? _))|]; cbn [poll_byte update_field];
    try destruct (negb (poll_byte r =? _));
    match goal with |- context [if ?b then _ else _] => destruct b end;
    cbn [fst]; try match goal with |- context [if ?b then _ else _] => destruct b end; done.
Qed.

Lemma pdu_polling_spec_witness :
  exists r' b, rlc_am_pdu_polling (Mk_ctxt 0 0 false) sample_window 128 3 true = (r', b) /\
    Z.testbit b 5 = true /\ Z.testbit b 7 = true /\ poll_sn r' = 0.
Proof.
  assert (Hb : 0 <= 128 < 256) by lia.
  pose proof (pdu_polling_spec (Mk_ctxt 0 0 false) sample_window 128 3 true Hb) as H.
  destruct (rlc_am_pdu_polling (Mk_ctxt 0 0 false) sample_window 128 3 true) as [r' b].
  destruct H as (H1 & H2 & H3 & _).
  assert (Hd : poll_due sample_window 3 true) by (right; left; split; reflexivity).
  exists r', b. split; [reflexivity|]. split; [apply H1; exact Hd|]. split.
  - rewrite H2; [reflexivity|lia|discriminate].
  - destruct (H3 Hd) as (_ & _ & _ & H4 & _). rewrite H4. reflexivity.
Defined.
