(* ===== verification/RlcAmRetransmit.v ===== *)
(** * Acknowledgement and retransmission of PDUs (rlc_am_retransmit.c) *)

From S2P Require Import Prelude Bits RlcAmTypes RlcAmEntity RlcAmWindows RlcAmTxBuffer RlcTimers RlcAmTimers.
From S2P Require Import RlcAmPolling.

(** ** Negative acknowledgement *)

(** The first half of [rlc_am_nack_pdu], on the cell of the PDU: the status, the
    flag [retx_count_increment], [pdu_data_to_retx] and the cell. *)
Definition nack_mark (p : rlc_am_tx_data_pdu_management_t) (snP prev_nack_snP so_startP so_endP : Z)
  : res (bool * bool * Z * rlc_am_tx_data_pdu_management_t) :=
  if (so_startP =? 0) && (so_endP =? 32767) then
    if negb (prev_nack_snP =? snP) && negb (ack (pdu_flags p)) && negb (max_retransmit (pdu_flags p))
    then
      let pdu_data_to_retx := pdu_payload_size p in
      let retx_count_increment :=
        negb (retransmit (pdu_flags p)) || negb (nack_so_start p =? 0) in
      let p := p <| nack_so_start := 0 |> <| num_holes := 0 |> <| retx_hole_index := 0 |>
                 <| nack_so_stop := pdu_payload_size p - 1 |> in
      _ ← assert_that (nack_so_start p <? pdu_payload_size p);
      Ok (true, retx_count_increment, pdu_data_to_retx, p)
    else Ok (false, false, 0, p)
  else if negb (max_retransmit (pdu_flags p)) then
    let so_endP := if so_endP =? 32767 then pdu_payload_size p - 1 else so_endP in
    if (so_startP <=? so_endP) && (so_endP <? pdu_payload_size p) then
      if negb (prev_nack_snP =? snP) then
        let retx_count_increment :=
          negb (retransmit (pdu_flags p)) || (so_startP <? nack_so_start p) in
        starts ← array_set (hole_so_start p) 0 so_startP;
        stops ← array_set (hole_so_stop p) 0 so_endP;
        Ok (true, retx_count_increment, so_endP - so_startP + 1,
            p <| num_holes := 1 |> <| retx_hole_index := 0 |>
              <| hole_so_start := starts |> <| hole_so_stop := stops |>
              <| nack_so_start := so_startP |> <| nack_so_stop := so_endP |>)
      else if negb (num_holes p =? 0) && (num_holes p <? RLC_AM_MAX_HOLES_REPORT_PER_PDU) then
        last_stop ← array_get (hole_so_stop p) (num_holes p - 1);
        if so_startP >? last_stop then
          starts ← array_set (hole_so_start p) (num_holes p) so_startP;
          stops ← array_set (hole_so_stop p) (num_holes p) so_endP;
          Ok (true, false, so_endP - so_startP + 1,
              p <| hole_so_start := starts |> <| hole_so_stop := stops |>
                <| nack_so_stop := so_endP |> <| num_holes := u8 (num_holes p + 1) |>)
        else Ok (false, false, 0, p)
      else Ok (false, false, 0, p)
    else Ok (false, false, 0, p)
  else Ok (false, false, 0, p).

Definition rlc_am_nack_pdu (r : rlc_am_entity_t) (snP prev_nack_snP so_startP so_endP : Z)
  : res (bool * rlc_am_entity_t) :=
  p ← get_tx_pdu r snP;
  if negb (is_null (pdu_mem_block p)) then
    _ ← assert_that (so_startP <=? so_endP);
    '(status, retx_count_increment, pdu_data_to_retx, p) ←
      nack_mark p snP prev_nack_snP so_startP so_endP;
    if (status : bool) then
      let p := p <| pdu_flags := (pdu_flags p) <| nack := true |> |> in
      let p := (if retx_count_increment && (retx_count p =? retx_count_next p)
                then p <| retx_count_next := i8 (retx_count_next p + 1) |> else p) in
      if retransmit (pdu_flags p) then
        if negb (prev_nack_snP =? snP) then
          let r := r <| retrans_num_bytes_to_retransmit :=
                          retrans_num_bytes_to_retransmit r + (pdu_data_to_retx - retx_payload_size p) |> in
          r ← set_tx_pdu r snP (p <| retx_payload_size := pdu_data_to_retx |>);
          Ok (true, r)
        else if num_holes p >? 1 then
          let r := r <| retrans_num_bytes_to_retransmit :=
                          retrans_num_bytes_to_retransmit r + pdu_data_to_retx |> in
          r ← set_tx_pdu r snP (p <| retx_payload_size := retx_payload_size p + pdu_data_to_retx |>);
          Ok (true, r)
        else
          r ← set_tx_pdu r snP p;
          Ok (true, r)
      else
        let p := p <| pdu_flags := (pdu_flags p) <| retransmit := true |> |> in
        let r := r <| retrans_num_bytes_to_retransmit :=
                        retrans_num_bytes_to_retransmit r + pdu_data_to_retx |> in
        r ← set_tx_pdu r snP (p <| retx_payload_size := pdu_data_to_retx |>);
        Ok (true, r <| retrans_num_pdus := retrans_num_pdus r + 1 |>)
    else
      r ← set_tx_pdu r snP p;
      Ok (false, r)
  else Ok (false, r).

(** ** Positive acknowledgement *)
Definition rlc_am_ack_pdu (r : rlc_am_entity_t) (snP : Z) (free_pdu : bool) : res rlc_am_entity_t :=
  p ← get_tx_pdu r snP;
  let mb_p := pdu_mem_block p in
  let p := p <| pdu_flags := (pdu_flags p) <| retransmit := false |> |> in
  '(p, r) ←
    (if negb (is_null mb_p) then
       let p := if (free_pdu : bool) then p <| pdu_mem_block := None |> else p in
       if negb (retx_payload_size p =? 0) then
         _ ← assert_that (negb (ack (pdu_flags p)));
         let r := r <| retrans_num_bytes_to_retransmit :=
                         retrans_num_bytes_to_retransmit r - retx_payload_size p |> in
         let p := p <| retx_payload_size := 0 |> <| num_holes := 0 |> in
         Ok (p, r <| retrans_num_pdus := retrans_num_pdus r - 1 |>)
       else Ok (p, r)
     else Ok (p, r));
  set_tx_pdu r snP (p <| pdu_flags := (pdu_flags p) <| ack := true |> <| transmitted := false |>
                                        <| retransmit := false |> |>).

(** ** Accounting *)

(** The bytes a NACK asks for: 32767 stands for the end of the PDU. *)
Definition nack_bytes (p : rlc_am_tx_data_pdu_management_t) (s e : Z) : Z :=
  (if e =? 32767 then pdu_payload_size p - 1 else e) - s + 1.
(** When the first NACK of a PDU in a report is accepted. *)
Definition nack_accepted (p : rlc_am_tx_data_pdu_management_t) (s e : Z) : Prop :=
  max_retransmit (pdu_flags p) = false /\
  if (s =? 0) && (e =? 32767) then ack (pdu_flags p) = false
  else 0 < nack_bytes p s e /\ s + nack_bytes p s e <= pdu_payload_size p.

Lemma nack_mark_facts p sn prev s e status inc d q :
  0 <= s -> nack_mark p sn prev s e = Ok (status, inc, d, q) ->
  pdu_mem_block q = pdu_mem_block p /\ pdu_sn q = pdu_sn p /\
  pdu_payload_size q = pdu_payload_size p /\ pdu_flags q = pdu_flags p /\
  length (hole_so_start q) = length (hole_so_start p) /\
  length (hole_so_stop q) = length (hole_so_stop p) /\
  (0 <= num_holes p -> 0 <= num_holes q) /\
  retx_payload_size q = retx_payload_size p /\ retx_count q = retx_count p /\
  (status = false -> q = p) /\
  (status = true -> 0 < d <= pdu_payload_size p /\ d = nack_bytes p s e).
Proof.
  intros Hs0. unfold nack_mark, nack_bytes.
  destruct ((s =? 0) && (e =? 32767)) eqn:Ese.
  - destruct (negb _ && negb _ && negb _) eqn:E; intros H.
    + apply bind_ok_inv in H as (u & Ha & H). injection H as <- <- <- <-.
      apply assert_ok_inv in Ha. cbn [nack_so_start pdu_payload_size update_field] in Ha.
      cbn. do 10 (split; [first [done|lia]|]). apply andb_true_iff in Ese as [Es Ee]. rewrite Ee. bool_prop. lia.
    + injection H as <- <- <- <-. by repeat split.
  - destruct (negb (max_retransmit _)); [|intros H; injection H as <- <- <- <-; by repeat split].
    set (e' := if e =? 32767 then _ else e).
    destruct ((s <=? e') && (e' <? _)) eqn:E;
      [|intros H; injection H as <- <- <- <-; by repeat split].
    clearbody e'.
    bool_prop. destruct (Z.eqb_spec prev sn) as [-> | Hne]; cbn [negb].
    + destruct (negb (num_holes p =? 0) && _) eqn:En;
        [|intros H; injection H as <- <- <- <-; by repeat split].
      intros H. apply bind_ok_inv in H as (ls & Hls & H).
      destruct (s >? ls); [|injection H as <- <- <- <-; by repeat split].
      apply bind_ok_inv in H as (st & [_ ->]%array_set_inv & H).
      apply bind_ok_inv in H as (sp & [_ ->]%array_set_inv & H).
      injection H as <- <- <- <-. cbn -[u8]. rewrite !length_insert.
      do 6 (split; [done|]). split; [intros _; apply (wrapu_range 8); lia|].
      do 3 (split; [done|]). lia.
    + intros H. apply bind_ok_inv in H as (st & [_ ->]%array_set_inv & H).
      apply bind_ok_inv in H as (sp & [_ ->]%array_set_inv & H).
      injection H as <- <- <- <-. cbn. rewrite !length_insert. do 10 (split; [first [done|lia]|]). lia.
Qed.

Lemma nack_mark_ok p sn prev s e :
  tx_pdu_wf p -> 0 < pdu_payload_size p -> exists x, nack_mark p sn prev s e = Ok x.
Proof.
  intros (_ & _ & Hnh & Hh1 & Hh2) Hpos. unfold nack_mark.
  destruct ((s =? 0) && (e =? 32767)).
  - destruct (negb _ && negb _ && negb _); [|by eexists].
    cbn [nack_so_start pdu_payload_size update_field].
    rewrite (proj2 (Z.ltb_lt _ _)) by lia. by eexists.
  - destruct (negb (max_retransmit _)); [|by eexists].
    set (e' := if e =? 32767 then _ else e). destruct ((s <=? e') && (e' <? _)); [|by eexists].
    destruct (negb (prev =? sn)).
    + rewrite !array_set_ok by lia. by eexists.
    + destruct (negb (num_holes p =? 0) && _) eqn:En; [|by eexists].
      unfold RLC_AM_MAX_HOLES_REPORT_PER_PDU in En. bool_prop.
      destruct (array_get_ok (hole_so_stop p) (num_holes p - 1)) as (ls & -> & _); [lia|].
      cbn [mbind res_bind]. destruct (s >? ls); [|by eexists].
      rewrite !array_set_ok by lia. by eexists.
Qed.

Lemma nack_mark_accepted p sn prev s e status inc d q :
  prev <> sn -> 0 < pdu_payload_size p -> nack_mark p sn prev s e = Ok (status, inc, d, q) ->
  status = true <-> nack_accepted p s e.
Proof.
  intros Hne Hpos. unfold nack_mark, nack_accepted, nack_bytes. rewrite (proj2 (Z.eqb_neq _ _) Hne). cbn [negb andb].
  destruct ((s =? 0) && (e =? 32767)) eqn:E.
  - cbn [nack_so_start pdu_payload_size update_field]. rewrite (proj2 (Z.ltb_lt _ _)) by lia. cbn [assert_that mbind res_bind].
    destruct (ack _), (max_retransmit _); cbn [negb andb]; intros H; injection H as <- <- <- <-;
      (split; [by intros ?; split_and!|by intros []]).
  - destruct (max_retransmit _); cbn [negb]; [intros H; injection H as <- <- <- <-; by split; [|intros []]|].
    set (e' := if e =? 32767 then _ else e).
    destruct ((s <=? e') && (e' <? _)) eqn:E2; intros H; [|injection H as <- <- <- <-].
    + apply bind_ok_inv in H as (st & _ & H). apply bind_ok_inv in H as (sp & _ & H). injection H as <- <- <- <-.
      bool_prop. split; [intros _|]; [split; [done|]|done]; lia.
    + split; [done|]. intros (_ & H1 & H2). apply not_true_iff_false in E2. exfalso. apply E2. bool_prop. lia.
Qed.

(** Storing a changed cell with the counters moved by the same amounts. *)
Lemma store_cell a r sn p q db dn :
  tx_inv_from a r -> 0 <= sn -> tx_data_pdu_buffer r !! Z.to_nat (tx_index sn) = Some p ->
  is_null (pdu_mem_block q) = is_null (pdu_mem_block p) -> pdu_sn q = pdu_sn p ->
  pdu_payload_size q = pdu_payload_size p ->
  (transmitted (pdu_flags p) = negb (ack (pdu_flags p)) ->
   transmitted (pdu_flags q) = negb (ack (pdu_flags q))) ->
  tx_pdu_wf q -> db = retx_payload_size q - retx_payload_size p -> dn = pending q - pending p ->
  let r' := r <| tx_data_pdu_buffer := <[Z.to_nat (tx_index sn) := q]> (tx_data_pdu_buffer r) |>
              <| retrans_num_bytes_to_retransmit := retrans_num_bytes_to_retransmit r + db |>
              <| retrans_num_pdus := retrans_num_pdus r + dn |> in
  tx_inv_from a r' /\ tx_changed r r'.
Proof.
  intros Hinv Hsn Hp Hm Hs Hpl Hf Hwf -> -> r'. split; [|done].
  pose proof Hinv as (_ & Hacc & _).
  eapply (tx_inv_from_update a r r' _ p q Hinv Hp); try done.
  eapply (tx_accounting_update r r' _ p q Hacc Hp); try done; unfold r';
    cbn [retrans_num_pdus retrans_num_bytes_to_retransmit update_field]; ring.
Qed.

Lemma entity_eq_tx r r1 r2 :
  tx_changed r r1 -> tx_changed r r2 -> tx_data_pdu_buffer r1 = tx_data_pdu_buffer r2 ->
  retrans_num_pdus r1 = retrans_num_pdus r2 ->
  retrans_num_bytes_to_retransmit r1 = retrans_num_bytes_to_retransmit r2 -> r1 = r2.
Proof. unfold tx_changed. intros H1 H2 E1 E2 E3. rewrite H1, H2, E1, E2, E3. done. Qed.

(** The cell after an accepted NACK. *)
Definition nacked (p : rlc_am_tx_data_pdu_management_t) : Prop :=
  retransmit (pdu_flags p) = true /\ nack (pdu_flags p) = true /\
  0 < retx_payload_size p.

Lemma nack_pdu_ok a r sn prev s e :
  tx_inv_from a r -> outstanding_from a r sn -> 0 <= s <= e ->
  exists st r', rlc_am_nack_pdu r sn prev s e = Ok (st, r') /\
    tx_inv_from a r' /\ tx_changed r r' /\
    (st = false -> r' = r) /\
    (st = true -> exists p q, tx_data_pdu_buffer r !! Z.to_nat (tx_index sn) = Some p /\
       tx_data_pdu_buffer r' = <[Z.to_nat (tx_index sn) := q]> (tx_data_pdu_buffer r) /\
       nacked q /\ ack (pdu_flags q) = ack (pdu_flags p) /\
       (prev <> sn -> retx_payload_size q = nack_bytes p s e)) /\
    (prev <> sn -> st = true <-> exists p, tx_data_pdu_buffer r !! Z.to_nat (tx_index sn) = Some p /\ nack_accepted p s e).
Proof.
  intros Hinv Hout Hse.
  destruct (get_outstanding a r sn Hinv Hout) as (p & Hget & Hp & (Hm & Hpsn & Hpos & Hfl)).
  pose proof Hinv as (_ & Hacc & _). pose proof (tx_accounting_wf _ _ _ Hacc Hp) as Hwf.
  assert (Hsn : 0 <= sn) by (destruct Hout as [[? ?] _]; lia).
  pose proof (tx_inv_from_length _ _ Hinv) as Hlen.
  unfold rlc_am_nack_pdu. rewrite Hget. cbn [mbind res_bind]. rewrite Hm. cbn [negb].
  rewrite (proj2 (Z.leb_le s e)) by lia. cbn [assert_that mbind res_bind].
  destruct (nack_mark_ok p sn prev s e Hwf Hpos) as ([[[st inc] d] q] & Hq). rewrite Hq.
  destruct (nack_mark_facts p sn prev s e _ _ _ _ ltac:(lia) Hq)
    as (F1 & F2 & F3 & F4 & F5 & F6 & F7 & F8 & F9 & F10 & F11).
  assert (Hst : prev <> sn -> st = true <->
    exists p, tx_data_pdu_buffer r !! Z.to_nat (tx_index sn) = Some p /\ nack_accepted p s e).
  { intros Hne. rewrite (nack_mark_accepted _ _ _ _ _ _ _ _ _ Hne Hpos Hq). split; [by exists p|].
    intros (p' & Hp' & Ha). rewrite Hp in Hp'. by injection Hp' as <-. }
  cbn [mbind res_bind]. destruct st.
  2:{ rewrite set_tx_pdu_ok by done. cbn [mbind res_bind]. rewrite F10 by done.
      exists false, r. rewrite list_insert_id by done.
      split; [do 2 f_equal; by destruct r|]. done. }
  set (q1 := q <| pdu_flags := _ |>).
  set (q2 := if inc && _ then _ else q1).
  assert (G : pdu_mem_block q2 = pdu_mem_block p /\ pdu_sn q2 = pdu_sn p /\
    pdu_payload_size q2 = pdu_payload_size p /\ retx_payload_size q2 = retx_payload_size p /\
    length (hole_so_start q2) = 16%nat /\ length (hole_so_stop q2) = 16%nat /\ 0 <= num_holes q2 /\
    pdu_flags q2 = (pdu_flags p) <| nack := true |>).
  { destruct Hwf as (_ & _ & W1 & W2 & W3).
    unfold q2, q1. destruct (inc && _); cbn; rewrite ?F4, ?F5, ?F6; auto 10 with lia. }
  clearbody q2. clear q1. destruct G as (G1 & G2 & G3 & G4 & G5 & G6 & G7 & G8).
  destruct (F11 eq_refl) as [F12 F13]. clear F11. destruct Hwf as (W0 & W1 & _).
  assert (Hstore : forall (q' : rlc_am_tx_data_pdu_management_t) db dn,
    pdu_mem_block q' = pdu_mem_block q2 -> pdu_sn q' = pdu_sn q2 ->
    pdu_payload_size q' = pdu_payload_size q2 -> hole_so_start q' = hole_so_start q2 ->
    hole_so_stop q' = hole_so_stop q2 -> num_holes q' = num_holes q2 ->
    pdu_flags q' = (pdu_flags q2) <| retransmit := true |> -> 0 < retx_payload_size q' ->
    db = retx_payload_size q' - retx_payload_size p -> dn = 1 - pending p ->
    (prev <> sn -> retx_payload_size q' = d) ->
    let r' := r <| tx_data_pdu_buffer := <[Z.to_nat (tx_index sn) := q']> (tx_data_pdu_buffer r) |>
              <| retrans_num_bytes_to_retransmit := retrans_num_bytes_to_retransmit r + db |>
              <| retrans_num_pdus := retrans_num_pdus r + dn |> in
    tx_inv_from a r' /\ tx_changed r r' /\ exists p0 q0,
       tx_data_pdu_buffer r !! Z.to_nat (tx_index sn) = Some p0 /\
       tx_data_pdu_buffer r' = <[Z.to_nat (tx_index sn) := q0]> (tx_data_pdu_buffer r) /\
       nacked q0 /\ ack (pdu_flags q0) = ack (pdu_flags p0) /\ (prev <> sn -> retx_payload_size q0 = nack_bytes p0 s e)).
  { intros q' db dn Q1 Q2 Q3 Q4 Q5 Q6 Q7 Q8 Q9 Q10 Q11 r'.
    destruct (store_cell a r sn p q' db dn Hinv Hsn Hp) as [S1 S2]; try congruence.
    - rewrite Q7, G8. done.
    - split; [rewrite Q7; cbn; split; [done|congruence]|]. rewrite Q3, G3, Q4, Q5, Q6. auto.
    - unfold pending at 1. rewrite Q7. exact Q10.
    - split; [exact S1|]. split; [exact S2|]. exists p, q'. split; [done|]. split; [done|].
      split; [|split; [rewrite Q7, G8; done|intros Hne; rewrite Q11 by done; exact F13]].
      split; [by rewrite Q7|]. split; [rewrite Q7, G8; done|done]. }
  unfold pending in Hstore. rewrite G8 in *. cbn [retransmit update_field] in *.
  destruct (retransmit (pdu_flags p)) eqn:Hrt.
  - assert (Hfl2 : pdu_flags q2 = (pdu_flags p) <| nack := true |> <| retransmit := true |>).
    { rewrite G8. destruct (pdu_flags p); cbn in *. by rewrite Hrt. }
    cbn [b2z] in Hstore. destruct W0 as [W0 _].
    destruct (Z.eqb_spec prev sn) as [Eps | Eps]; cbn [negb]; [destruct (num_holes q2 >? 1)|];
      rewrite set_tx_pdu_ok by done; cbn [mbind res_bind]; exists true.
    + destruct (Hstore (q2 <| retx_payload_size := retx_payload_size q2 + d |>) d 0)
        as (S1 & S2 & S3); try (done || exact Hfl2); [cbn; lia|cbn; lia|].
      eexists. split; [|split; [exact S1|split; [exact S2|split; [done|split; [intros _; exact S3|exact Hst]]]]].
      do 2 f_equal. eapply entity_eq_tx; [|exact S2|..]; try done. cbn. lia.
    + destruct (Hstore q2 0 0) as (S1 & S2 & S3); try (done || exact Hfl2); [congruence|lia|].
      eexists. split; [|split; [exact S1|split; [exact S2|split; [done|split; [intros _; exact S3|exact Hst]]]]].
      do 2 f_equal. eapply entity_eq_tx; [|exact S2|..]; try done; cbn; lia.
    + destruct (Hstore (q2 <| retx_payload_size := d |>) (d - retx_payload_size q2) 0)
        as (S1 & S2 & S3); try (done || exact Hfl2); [cbn; lia|cbn; lia|].
      eexists. split; [|split; [exact S1|split; [exact S2|split; [done|split; [intros _; exact S3|exact Hst]]]]].
      do 2 f_equal. eapply entity_eq_tx; [|exact S2|..]; try done. cbn. lia.
  - rewrite set_tx_pdu_ok by done. cbn [mbind res_bind]. exists true.
    destruct (Hstore (q2 <| pdu_flags := (pdu_flags q2) <| retransmit := true |> |>
                        <| retx_payload_size := d |>) d 1)
      as (S1 & S2 & S3); try done;
      [cbn [pdu_flags update_field]; by rewrite G8 | cbn; lia | cbn; lia |].
    eexists. split; [|split; [exact S1|split; [exact S2|split; [done|split; [intros _; exact S3|exact Hst]]]]].
    do 2 f_equal. eapply entity_eq_tx; [|exact S2|..]; try done. cbn [tx_data_pdu_buffer update_field].
    do 2 f_equal. destruct q2; cbn in *; by rewrite G8.
Qed.

(** The cell after an ACK. *)
Definition acked (p : rlc_am_tx_data_pdu_management_t) : Prop :=
  ack (pdu_flags p) = true /\ retransmit (pdu_flags p) = false /\ retx_payload_size p = 0.

(** An acknowledged PDU has nothing pending; a peer that NACKs a segment of a
    PDU it has acknowledged breaks it. *)
Definition ack_not_pending (p : rlc_am_tx_data_pdu_management_t) : Prop :=
  ack (pdu_flags p) = true -> retransmit (pdu_flags p) = false.

Lemma ack_pdu_ok a r sn free_pdu p :
  tx_inv_from a r -> outstanding_from a r sn -> (free_pdu = true -> sn = a) ->
  tx_data_pdu_buffer r !! Z.to_nat (tx_index sn) = Some p -> ack_not_pending p ->
  exists r' q, rlc_am_ack_pdu r sn free_pdu = Ok r' /\ tx_changed r r' /\
    tx_inv_from (if free_pdu then RLC_AM_NEXT_SN a else a) r' /\
    tx_data_pdu_buffer r' = <[Z.to_nat (tx_index sn) := q]> (tx_data_pdu_buffer r) /\
    acked q /\ nb_sdus q = nb_sdus p /\ sdus_index q = sdus_index p /\ transmitted (pdu_flags q) = false /\
    retrans_num_bytes_to_retransmit r' = retrans_num_bytes_to_retransmit r - retx_payload_size p.
Proof.
  intros Hinv Hout Hfree Hp Hanp.
  destruct (get_outstanding a r sn Hinv Hout) as (p0 & Hget & Hp0 & (Hm & Hpsn & Hpos & Hfl)).
  rewrite Hp in Hp0. injection Hp0 as <-.
  pose proof Hinv as (_ & Hacc & _). pose proof (tx_accounting_wf _ _ _ Hacc Hp) as Hwf.
  assert (Hsn : 0 <= sn) by (destruct Hout as [[? ?] _]; lia).
  pose proof (tx_inv_from_length _ _ Hinv) as Hlen.
  set (r2 := r <| retrans_num_bytes_to_retransmit := retrans_num_bytes_to_retransmit r - retx_payload_size p |>
               <| retrans_num_pdus := retrans_num_pdus r - pending p |>).
  set (f := (pdu_flags p) <| retransmit := false |> <| ack := true |> <| transmitted := false |>
                <| retransmit := false |>).
  set (m := if free_pdu then None else pdu_mem_block p).
  assert (Hrun : exists q, rlc_am_ack_pdu r sn free_pdu = set_tx_pdu r2 sn q /\
     pdu_mem_block q = m /\ pdu_flags q = f /\ retx_payload_size q = 0 /\ pdu_sn q = pdu_sn p /\
     pdu_payload_size q = pdu_payload_size p /\ nb_sdus q = nb_sdus p /\ sdus_index q = sdus_index p /\
     hole_so_start q = hole_so_start p /\ hole_so_stop q = hole_so_stop p /\ 0 <= num_holes q).
  { destruct Hwf as (W0 & _ & W1 & _).
    unfold rlc_am_ack_pdu. rewrite Hget. cbn [mbind res_bind pdu_mem_block update_field]. rewrite Hm.
    cbn [negb]. set (p1 := p <| pdu_flags := _ |>).
    replace (retx_payload_size (if free_pdu then p1 <| pdu_mem_block := None |> else p1))
      with (retx_payload_size p) by (by destruct free_pdu).
    replace (ack (pdu_flags (if free_pdu then p1 <| pdu_mem_block := None |> else p1)))
      with (ack (pdu_flags p)) by (by destruct free_pdu).
    destruct (Z.eqb_spec (retx_payload_size p) 0) as [E0 | E0]; cbn [negb].
    - assert (Hpd : pending p = 0).
      { unfold pending. destruct (retransmit (pdu_flags p)); [destruct W0; lia|done]. }
      cbn [mbind res_bind]. eexists. split; [f_equal|].
      { unfold r2. rewrite E0, Hpd, !Z.sub_0_r. by destruct r. }
      unfold m. destruct free_pdu; cbn; auto 15.
    - assert (Hpd : pending p = 1 /\ ack (pdu_flags p) = false).
      { unfold pending, ack_not_pending in *.
        destruct (retransmit (pdu_flags p)); [|lia]. split; [done|].
        destruct (ack (pdu_flags p)); [|done]. by specialize (Hanp eq_refl). }
      destruct Hpd as [Hpd ->]. cbn [negb assert_that mbind res_bind].
      eexists. split; [f_equal; unfold r2; by rewrite Hpd|].
      unfold m. destruct free_pdu; cbn; auto 15 with lia. }
  destruct Hrun as (q & Hrun & Q1 & Q2 & Q3 & Q4 & Q5 & Q6 & Q7 & Q8 & Q9 & Q10).
  rewrite Hrun, set_tx_pdu_ok by done.
  eexists _, q. split; [reflexivity|]. split; [done|].
  assert (Hpq : pending q = 0) by (unfold pending; by rewrite Q2).
  assert (Hwfq : tx_pdu_wf q).
  { destruct Hwf as (_ & W & _ & W1 & W2). split; [rewrite Q2; exact Q3|].
    rewrite Q5, Q8, Q9. auto. }
  match goal with |- tx_inv_from _ ?x /\ _ => set (r' := x) end.
  assert (Hacc' : tx_accounting r').
  { eapply (tx_accounting_update r r' _ p q Hacc Hp Hwfq); [done|..];
      unfold r', r2; cbn [retrans_num_pdus retrans_num_bytes_to_retransmit update_field]; lia. }
  split; [|by repeat split; try done; rewrite Q2].
  unfold m in Q1. destruct free_pdu.
  - specialize (Hfree eq_refl). subst a. eapply (tx_inv_from_free _ r r' p q Hinv); try done.
    intros Ev. destruct Hout as [_ Hout]. rewrite <- Ev in Hout. lia.
  - eapply (tx_inv_from_update a r r' _ p q Hinv Hp); try done; [congruence|]. by rewrite Q2.
Qed.

(** A NACK of an outstanding PDU with 0 <= SOstart <= SOend (the code asserts the
    order, rlc_am_retransmit.c:63, of values that come from the peer) does not fail and
    keeps the window and the accounting of the bytes to retransmit. The first NACK of a
    PDU in a report is refused, and then changes nothing, exactly when the PDU reached its
    last retransmission, was acknowledged (NACK of the whole PDU) or the bytes are not in
    it; an accepted one marks this PDU alone, for the bytes asked. *)
Theorem nack_pdu_spec r sn prev s e :
  tx_inv r -> tx_outstanding r sn -> 0 <= s <= e ->
  exists st r', rlc_am_nack_pdu r sn prev s e = Ok (st, r') /\ tx_inv r' /\ tx_changed r r' /\
    (st = false -> r' = r) /\
    (st = true -> exists p q, tx_data_pdu_buffer r !! Z.to_nat (tx_index sn) = Some p /\
       tx_data_pdu_buffer r' = <[Z.to_nat (tx_index sn) := q]> (tx_data_pdu_buffer r) /\
       nacked q /\ ack (pdu_flags q) = ack (pdu_flags p) /\
       (prev <> sn -> retx_payload_size q = nack_bytes p s e)) /\
    (prev <> sn -> st = true <->
       exists p, tx_data_pdu_buffer r !! Z.to_nat (tx_index sn) = Some p /\ nack_accepted p s e).
Proof.
  intros [Hinv Hms] Hout Hse.
  destruct (nack_pdu_ok (vt_a r) r sn prev s e Hinv Hout Hse) as (st & r' & E & Hinv' & Hch & H).
  exists st, r'. destruct (tx_changed_vars _ _ Hch) as (Ea & _ & Ems).
  split; [done|]. split; [split; [by rewrite Ea|congruence]|]. by split.
Qed.

(** An ACK of an outstanding PDU that is not both acknowledged and waiting for
    retransmission (a segment NACK of an acknowledged PDU makes it so, and the ACK then
    fails: AssertFatal near rlc_am_retransmit.c:229) does not fail, whether the PDU is
    kept (above the first NACK) or is the lowest one and freed: its pending bytes leave
    the accounting, its cell is marked acknowledged and no longer transmitted, no other
    cell changes, and the lower edge moves by one exactly when the block is freed. *)
Theorem ack_pdu_spec r sn free_pdu p :
  tx_inv r -> tx_outstanding r sn -> (free_pdu = true -> sn = vt_a r) ->
  tx_data_pdu_buffer r !! Z.to_nat (tx_index sn) = Some p -> ack_not_pending p ->
  exists r' q, rlc_am_ack_pdu r sn free_pdu = Ok r' /\ tx_changed r r' /\
    tx_inv_from (if free_pdu then RLC_AM_NEXT_SN (vt_a r) else vt_a r) r' /\
    tx_data_pdu_buffer r' = <[Z.to_nat (tx_index sn) := q]> (tx_data_pdu_buffer r) /\
    acked q /\ transmitted (pdu_flags q) = false /\
    retrans_num_bytes_to_retransmit r' = retrans_num_bytes_to_retransmit r - retx_payload_size p.
Proof.
  intros [Hinv _] Hout Hf Hp Hn.
  destruct (ack_pdu_ok (vt_a r) r sn free_pdu p Hinv Hout Hf Hp Hn)
    as (r' & q & E & H1 & H2 & H3 & H4 & _ & _ & H5 & H6).
  by exists r', q.
Qed.

Lemma sample_outstanding : tx_outstanding sample_window 0.
Proof. split; [split; [discriminate|reflexivity]|vm_compute; reflexivity]. Qed.

Lemma nack_pdu_spec_witness :
  exists r', rlc_am_nack_pdu sample_window 0 16383 1 32767 = Ok (true, r') /\ tx_inv r' /\
    exists q, get_tx_pdu r' 0 = Ok q /\ retx_payload_size q = 2.
Proof.
  destruct (nack_pdu_spec sample_window 0 16383 1 32767 sample_window_inv sample_outstanding ltac:(lia))
    as (st & r' & E & Hinv & _ & _ & Ht & Hiff).
  assert (st = true) as ->.
  { apply Hiff; [discriminate|]. exists sample_tx_pdu. split; [reflexivity|]. repeat split; vm_compute; congruence. }
  exists r'. split; [exact E|]. split; [exact Hinv|].
  destruct (Ht eq_refl) as (p & q & Hp & Hb & _ & _ & Hq). exists q. split.
  - unfold get_tx_pdu. rewrite Hb. reflexivity.
  - change (Some sample_tx_pdu = Some p) in Hp. injection Hp as <-. rewrite Hq; [reflexivity|discriminate].
Defined.

Lemma ack_pdu_spec_witness :
  exists r', rlc_am_ack_pdu sample_window 0 true = Ok r' /\ tx_inv_from 1 r'.
Proof.
  destruct (ack_pdu_spec sample_window 0 true sample_tx_pdu sample_window_inv sample_outstanding)
    as (r' & q & E & _ & Hinv & _); [reflexivity|reflexivity|discriminate|].
  exists r'. split; [exact E|exact Hinv].
Defined.
