(* ===== verification/RlcAmResegment.v ===== *)
(** * Retransmission (rlc_am_get_pdu_to_retransmit, rlc_am_retransmit.c)

    A PDU pending for retransmission is sent again whole when it fits in the
    transport block, or as an AMD PDU segment cut out of it.  The C function
    [rlc_am_retransmit_get_am_segment] is split here into its phases: the holes
    to retransmit, the layout of the segment (which pieces of which SDUs), the
    bookkeeping of the holes and the bytes of the segment.  The memory for the
    copy or the segment is taken to be there: the code does not test for NULL. *)

From S2P Require Import Prelude Bits RlcAmTypes RlcAmEntity RlcAmWindows RlcAmTxBuffer RlcAmLi.
From S2P Require Import RlcAmPolling.

(** The copy of a PDU: its header may change for the polling bit.  The
    [mac_tb_req] in front of the PDU is copied with it; its [tb_size] is the
    [header_and_payload_size] stored at the first transmission. *)
Definition rlc_am_retransmit_get_copy (r : rlc_am_entity_t) (snP : Z) : res mac_tb :=
  p ← get_tx_pdu r snP;
  _ ← assert_that (negb (is_null (pdu_mem_block p)));
  mb_original ← deref (pdu_mem_block p);
  copy ← mem_read mb_original 0 (header_and_payload_size p);
  Ok (Mk_mac_tb copy (header_and_payload_size p)).

(** ** Layout of a PDU segment *)

(** When no hole is recorded the whole PDU is one. *)
Definition init_holes (p : rlc_am_tx_data_pdu_management_t) : res rlc_am_tx_data_pdu_management_t :=
  if num_holes p =? 0 then
    _ ← assert_that (retx_payload_size p =? pdu_payload_size p);
    starts ← array_set (hole_so_start p) 0 0;
    stops ← array_set (hole_so_stop p) 0 (pdu_payload_size p - 1);
    Ok (p <| retx_hole_index := 0 |> <| hole_so_start := starts |> <| hole_so_stop := stops |>
          <| num_holes := 1 |>)
  else Ok p.

Record segment_layout := Mk_layout {
  lay_sizes : list Z;          (* sdus_segment_size *)
  lay_num_li : Z;              (* num_LIs_pdu_segment *)
  lay_payload : Z;             (* *payload_sizeP *)
  lay_header : Z;              (* header_segment_length *)
  lay_so_stop : Z;             (* retx_so_stop *)
  lay_fi_start : bool;
  lay_fi_end : bool
}.

Definition sizes_array : list Z := replicate 128 0.

Definition layout_no_li (nb : Z) (p : rlc_am_tx_data_pdu_management_t)
    (retx_so_start retx_so_stop : Z) (fi_start fi_end : bool) : segment_layout :=
  let retx_so_stop :=
    (if retx_so_stop - retx_so_start + 1 + RLC_AM_PDU_SEGMENT_HEADER_MIN_SIZE >? nb
     then retx_so_start + nb - RLC_AM_PDU_SEGMENT_HEADER_MIN_SIZE - 1 else retx_so_stop) in
  Mk_layout sizes_array 0 (retx_so_stop - retx_so_start + 1) RLC_AM_PDU_SEGMENT_HEADER_MIN_SIZE
    retx_so_stop
    (if negb (retx_so_start =? 0) then false else fi_start)
    (if retx_so_stop <? pdu_payload_size p - 1 then false else fi_end).

(** The SDU of the original PDU that holds [retx_so_start]: the loop on the
    LIs, with [data_size] the end of the SDU [sdu_index]. *)
Fixpoint find_so_start (fuel : nat) (b : list Z) (p : rlc_am_tx_data_pdu_management_t)
    (retx_so_start sdu_size data_size sdu_index : Z) (c : li_cursor)
  : res (Z * Z * Z * li_cursor) :=
  match fuel with
  | O => Err OutOfFuel
  | S fuel' =>
      if (data_size <? retx_so_start + 1) && (sdu_index <? nb_sdus p) then
        if sdu_index <? nb_sdus p - 1 then
          '(sdu_size, c) ← read_li b c;
          find_so_start fuel' b p retx_so_start sdu_size (data_size + sdu_size) (u8 (sdu_index + 1)) c
        else
          find_so_start fuel' b p retx_so_start sdu_size (pdu_payload_size p) (u8 (sdu_index + 1)) c
      else Ok (sdu_size, data_size, sdu_index, c)
  end.

(** The SDU that holds [retx_so_stop]; the size of every SDU passed is stored. *)
Fixpoint find_so_stop (fuel : nat) (b : list Z) (p : rlc_am_tx_data_pdu_management_t)
    (retx_so_stop sdu_size data_size sdu_index sdu_segment_index : Z) (sizes : list Z) (c : li_cursor)
  : res (Z * Z * Z * list Z) :=
  match fuel with
  | O => Err OutOfFuel
  | S fuel' =>
      if (sdu_index <? nb_sdus p) && (data_size <? retx_so_stop + 1) then
        '(sdu_size, data_size, c) ←
          (if sdu_index <? nb_sdus p - 1 then
             '(sz, c) ← read_li b c; Ok (sz, data_size + sz, c)
           else Ok (pdu_payload_size p - data_size, pdu_payload_size p, c));
        sizes ← array_set sizes sdu_segment_index (i16 sdu_size);
        find_so_stop fuel' b p retx_so_stop sdu_size data_size (u8 (sdu_index + 1))
          (u8 (sdu_segment_index + 1)) sizes c
      else Ok (sdu_size, data_size, sdu_segment_index, sizes)
  end.

(** Bounding to the size of the transport block. *)
Fixpoint bound_to_tbs (fuel : nat) (nb num_LIs : Z) (sizes : list Z)
    (payload_size header_segment_length sdu_segment_index : Z) : res (list Z * Z * Z * Z) :=
  match fuel with
  | O => Err OutOfFuel
  | S fuel' =>
      if (sdu_segment_index <? num_LIs + 1) &&
         (nb >? payload_size + RLC_AM_PDU_SEGMENT_HEADER_SIZE sdu_segment_index)
      then
        size ← array_get sizes sdu_segment_index;
        _ ← assert_that (size >? 0);
        let header := RLC_AM_PDU_SEGMENT_HEADER_SIZE sdu_segment_index in
        '(sizes, size) ←
          (if header + payload_size + size <=? nb then Ok (sizes, size)
           else
             let size := i16 (nb - header - payload_size) in
             sizes ← array_set sizes sdu_segment_index size;
             Ok (sizes, size));
        bound_to_tbs fuel' nb num_LIs sizes (payload_size + size) header (u8 (sdu_segment_index + 1))
      else Ok (sizes, payload_size, header_segment_length, sdu_segment_index)
  end.

(** The sum of the sizes, and FI End set when the segment ends with an SDU
    that is not the last one announced. *)
Fixpoint sum_sizes (sizes : list Z) (retx_so_stop data_size : Z) (fi_end : bool) : Z * bool :=
  match sizes with
  | [] => (data_size, fi_end)
  | size :: rest =>
      let data_size := data_size + size in
      sum_sizes rest retx_so_stop data_size
        (if (retx_so_stop =? data_size - 1) && (match rest with [] => false | _ => true end)
         then true else fi_end)
  end.

(** Step 1 of the LI case: the SDU of the start and FI Start. *)
Definition layout_start (b : list Z) (p : rlc_am_tx_data_pdu_management_t)
    (retx_so_start : Z) (fi_start : bool) : res (Z * Z * Z * li_cursor * bool) :=
  '(sdu_size, c) ← read_li b (li_start 2);
  '(sdu_size, data_size, sdu_index, c) ← find_so_start 128 b p retx_so_start sdu_size sdu_size 1 c;
  if retx_so_start =? data_size then
    _ ← assert_that (sdu_index <? nb_sdus p);
    '(sdu_size, data_size, c) ←
      (if sdu_index <? nb_sdus p - 1 then
         '(sz, c) ← read_li b c; Ok (sz, data_size + sz, c)
       else Ok (sdu_size, pdu_payload_size p, c));
    Ok (sdu_size, data_size, u8 (sdu_index + 1), c, true)
  else Ok (sdu_size, data_size, sdu_index, c,
           if negb (retx_so_start =? 0) then false else fi_start).

Definition layout_li (nb : Z) (b : list Z) (p : rlc_am_tx_data_pdu_management_t)
    (retx_so_start retx_so_stop : Z) (fi_start fi_end : bool) : res segment_layout :=
  '(sdu_size, data_size, sdu_index, c, fi_start) ← layout_start b p retx_so_start fi_start;
  let size0 := i16 (data_size - retx_so_start) in
  let '(size0, payload_size) :=
    (if size0 >=? retx_so_stop - retx_so_start + 1
     then let s := i16 (retx_so_stop - retx_so_start + 1) in (s, s) else (size0, 0)) in
  let '(size0, payload_size) :=
    (if size0 + RLC_AM_PDU_SEGMENT_HEADER_MIN_SIZE >=? nb
     then let s := i16 (nb - RLC_AM_PDU_SEGMENT_HEADER_MIN_SIZE) in (s, s)
     else (size0, payload_size)) in
  sizes ← array_set sizes_array 0 size0;
  '(sizes, payload_size, header, num_LIs) ←
    (if payload_size =? 0 then
       '(sdu_size, data_size, sdu_segment_index, sizes) ←
         find_so_stop 128 b p retx_so_stop sdu_size data_size sdu_index 1 sizes c;
       sizes ← (if data_size >? retx_so_stop + 1
                then array_set sizes (sdu_segment_index - 1)
                       (i16 (retx_so_stop - (data_size - sdu_size) + 1))
                else Ok sizes);
       let num_LIs := u8 (sdu_segment_index - 1) in
       _ ← assert_that (num_LIs <=? nb_sdus p - 1);
       '(sizes, payload_size, header, sdu_segment_index) ←
         bound_to_tbs 257 nb num_LIs sizes payload_size RLC_AM_PDU_SEGMENT_HEADER_MIN_SIZE 0;
       Ok (sizes, payload_size, header, u8 (sdu_segment_index - 1))
     else Ok (sizes, payload_size, RLC_AM_PDU_SEGMENT_HEADER_MIN_SIZE, 0));
  let retx_so_stop := retx_so_start + payload_size - 1 in
  _ ← assert_that ((retx_so_stop <=? pdu_payload_size p - 1) &&
                   (retx_so_stop - retx_so_start + 1 <? pdu_payload_size p));
  let fi_end := (if negb (retx_so_stop =? pdu_payload_size p - 1) then false else fi_end) in
  let '(data_size, fi_end) :=
    sum_sizes (take (Z.to_nat (num_LIs + 1)) sizes) retx_so_stop 0 fi_end in
  _ ← assert_that (data_size =? payload_size);
  _ ← assert_that (header + payload_size <=? header_and_payload_size p + 2);
  Ok (Mk_layout sizes num_LIs payload_size header retx_so_stop fi_start fi_end).

(** ** Bookkeeping and bytes *)

(** What is left of the holes once [payload_size] bytes of the current one are
    sent. *)
Definition update_holes (p : rlc_am_tx_data_pdu_management_t) (payload_size : Z)
  : res rlc_am_tx_data_pdu_management_t :=
  so_stop ← array_get (hole_so_stop p) (retx_hole_index p);
  so_start ← array_get (hole_so_start p) (retx_hole_index p);
  if payload_size =? so_stop - so_start + 1 then
    let p := p <| retx_hole_index := u8 (retx_hole_index p + 1) |> in
    if retx_hole_index p <? num_holes p then
      so_start ← array_get (hole_so_start p) (retx_hole_index p);
      Ok (p <| nack_so_start := so_start |>)
    else Ok (p <| num_holes := 0 |> <| retx_hole_index := 0 |> <| nack_so_start := 0 |>)
  else
    starts ← array_set (hole_so_start p) (retx_hole_index p) (so_start + payload_size);
    Ok (p <| hole_so_start := starts |> <| nack_so_start := so_start + payload_size |>).

(** The first byte of the header. *)
Definition segment_byte1 (sn : Z) (fi_start fi_end : bool) : Z :=
  let h := u8 (RLC_AM_PDU_SET_D_C 0) in
  let h := u8 (RLC_AM_PDU_SET_RF h) in
  let h := (if negb fi_start then u8 (Z.lor h (Z.shiftl 1 (RLC_AM_PDU_FI_OFFSET + 1))) else h) in
  let h := (if negb fi_end then u8 (Z.lor h (Z.shiftl 1 RLC_AM_PDU_FI_OFFSET)) else h) in
  u8 (Z.lor h (Z.land (Z.shiftr sn 8) 3)).

Definition segment_bytes (p : rlc_am_tx_data_pdu_management_t) (mb_original : list Z)
    (retx_so_start : Z) (lay : segment_layout) : res (list Z) :=
  data ← mem_read mb_original (pdu_payload p + retx_so_start) (lay_payload lay);
  seg ← mem_write (replicate (Z.to_nat (lay_header lay + lay_payload lay)) 0) (lay_header lay) data;
  let byte1 := segment_byte1 (pdu_sn p) (lay_fi_start lay) (lay_fi_end lay) in
  let header_so_part := u16 retx_so_start in
  let header_so_part := (if lay_so_stop lay =? pdu_payload_size p - 1
                         then u16 (RLC_AM_PDU_SET_LSF header_so_part) else header_so_part) in
  seg ← array_set seg 0 byte1;
  seg ← array_set seg 1 (Z.land (pdu_sn p) 255);
  seg ← array_set seg 2 (Z.land (Z.shiftr header_so_part 8) 255);
  seg ← array_set seg 3 (Z.land header_so_part 255);
  if negb (lay_num_li lay =? 0) then
    seg ← array_set seg 0 (u8 (RLC_AM_PDU_SET_E byte1));
    fill_lis seg (li_start RLC_AM_PDU_SEGMENT_HEADER_MIN_SIZE) 0
      (take (Z.to_nat (lay_num_li lay)) (lay_sizes lay))
  else Ok seg.

(** The segment, its payload size and the updated cell of the PDU. *)
Definition rlc_am_retransmit_get_am_segment (r : rlc_am_entity_t)
    (p : rlc_am_tx_data_pdu_management_t)
  : res (mac_tb * Z * rlc_am_tx_data_pdu_management_t) :=
  let num_LIs_pdu_segment := u8 (nb_sdus p - 1) in
  _ ← assert_that (negb (is_null (pdu_mem_block p)));
  mb_original ← deref (pdu_mem_block p);
  _ ← assert_that (pdu_payload p =? header_and_payload_size p - pdu_payload_size p);
  p ← init_holes p;
  retx_so_start ← array_get (hole_so_start p) (retx_hole_index p);
  retx_so_stop ← array_get (hole_so_stop p) (retx_hole_index p);
  _ ← assert_that ((retx_so_start <=? retx_so_stop) &&
                   (retx_so_stop - retx_so_start + 1 <=? pdu_payload_size p));
  b1 ← array_get mb_original 0;
  let fi_start := RLC_AM_PDU_GET_FI_START b1 =? 0 in
  let fi_end := RLC_AM_PDU_GET_FI_END b1 =? 0 in
  lay ← (if num_LIs_pdu_segment =? 0
         then Ok (layout_no_li (nb_bytes_requested_by_mac r) p retx_so_start retx_so_stop
                    fi_start fi_end)
         else layout_li (nb_bytes_requested_by_mac r) mb_original p retx_so_start retx_so_stop
                fi_start fi_end);
  p' ← update_holes p (lay_payload lay);
  seg ← segment_bytes p mb_original retx_so_start lay;
  Ok (Mk_mac_tb seg (lay_header lay + lay_payload lay), lay_payload lay, p').

(** ** The search *)
Definition count_retransmission (bytes : Z) (r : rlc_am_entity_t) : rlc_am_entity_t :=
  let r := stat_add stat_tx_data_pdu 1 r in
  let r := stat_add stat_tx_retransmit_pdu 1 r in
  let r := stat_add stat_tx_retransmit_pdu_by_status 1 r in
  let r := stat_add stat_tx_data_bytes bytes r in
  let r := stat_add stat_tx_retransmit_bytes bytes r in
  stat_add stat_tx_retransmit_bytes_by_status bytes r.

Definition mark_max_retransmit (r : rlc_am_entity_t) (sn : Z)
    (p : rlc_am_tx_data_pdu_management_t) : res rlc_am_entity_t :=
  set_tx_pdu r sn (p <| pdu_flags := (pdu_flags p) <| max_retransmit := true |> |>).

(** The PDU of the cell [sn], whole. *)
Definition retransmit_whole (r : rlc_am_entity_t) (sn : Z) (p : rlc_am_tx_data_pdu_management_t)
  : res (option mac_tb * rlc_am_entity_t) :=
  if retx_count_next p <=? max_retx_threshold r then
    pdu ← rlc_am_retransmit_get_copy r sn;
    let r := r <| retrans_num_bytes_to_retransmit :=
                    retrans_num_bytes_to_retransmit r - retx_payload_size p |>
               <| retrans_num_pdus := retrans_num_pdus r - 1 |> in
    r ← set_tx_pdu r sn (p <| retx_payload_size := 0 |>
                           <| pdu_flags := (pdu_flags p) <| retransmit := false |> |>);
    Ok (Some pdu, count_retransmission (pdu_payload_size p) r)
  else
    r ← mark_max_retransmit r sn p;
    Ok (None, r).

(** A segment of it. *)
Definition retransmit_segment (r : rlc_am_entity_t) (sn : Z) (p : rlc_am_tx_data_pdu_management_t)
  : res (option mac_tb * rlc_am_entity_t) :=
  if retx_count_next p <=? max_retx_threshold r then
    '(pdu, pdu_data_size, p) ← rlc_am_retransmit_get_am_segment r p;
    _ ← assert_that ((retx_payload_size p >=? pdu_data_size) &&
                     (retrans_num_bytes_to_retransmit r >=? pdu_data_size));
    let p := p <| retx_payload_size := retx_payload_size p - pdu_data_size |> in
    let r := r <| retrans_num_bytes_to_retransmit :=
                    retrans_num_bytes_to_retransmit r - pdu_data_size |> in
    let '(p, r) :=
      (if retx_payload_size p =? 0
       then (p <| pdu_flags := (pdu_flags p) <| retransmit := false |> |>,
             r <| retrans_num_pdus := retrans_num_pdus r - 1 |>)
       else (p, r)) in
    r ← set_tx_pdu r sn p;
    Ok (Some pdu, count_retransmission pdu_data_size r)
  else
    r ← mark_max_retransmit r sn p;
    Ok (None, r).

(** One cell: the PDU or segment to send, if it has one. *)
Definition retransmit_cell (c : protocol_ctxt_t) (r : rlc_am_entity_t) (sn : Z)
  : res (option mac_tb * rlc_am_entity_t) :=
  p ← get_tx_pdu r sn;
  if retransmit (pdu_flags p) && negb (max_retransmit (pdu_flags p)) then
    _ ← assert_that (pdu_sn p =? sn);
    _ ← assert_that (transmitted (pdu_flags p));
    _ ← assert_that (retx_payload_size p >? 0);
    '(pdu, r) ←
      (if (retx_payload_size p =? pdu_payload_size p) &&
          (nb_bytes_requested_by_mac r >=? header_and_payload_size p)
       then retransmit_whole r sn p
       else if nb_bytes_requested_by_mac r >=? 5 then retransmit_segment r sn p
       else Ok (None, r));
    match pdu with
    | None => Ok (None, r)
    | Some tb =>
        b1 ← array_get (data_ptr tb) 0;
        p ← get_tx_pdu r sn;
        let '(r, b1) := rlc_am_pdu_polling c r b1 (pdu_payload_size p) false in
        bytes ← array_set (data_ptr tb) 0 b1;
        r ← set_tx_pdu r sn (p <| retx_count := retx_count_next p |>);
        Ok (Some (Mk_mac_tb bytes (tb_size tb)), r)
    end
  else Ok (None, r).

Fixpoint retransmit_loop (fuel : nat) (c : protocol_ctxt_t) (sn sn_end : Z) (r : rlc_am_entity_t)
  : res (option mac_tb * rlc_am_entity_t) :=
  match fuel with
  | O => Err OutOfFuel
  | S fuel' =>
      '(pdu, r) ← retransmit_cell c r sn;
      match pdu with
      | Some _ => Ok (pdu, r)
      | None =>
          let sn := RLC_AM_NEXT_SN sn in
          if negb (sn =? sn_end) && (retrans_num_pdus r >? 0)
          then retransmit_loop fuel' c sn sn_end r else Ok (None, r)
      end
  end.

Definition rlc_am_get_pdu_to_retransmit (c : protocol_ctxt_t) (r : rlc_am_entity_t)
  : res (option mac_tb * rlc_am_entity_t) :=
  _ ← assert_that ((retrans_num_pdus r >? 0) && negb (vt_a r =? vt_s r));
  retransmit_loop 1024 c (vt_a r) (vt_s r) r.
