(* ===== verification/RlcAmSegment.v ===== *)
(** * Segmentation of SDUs into an AMD PDU (rlc_am_segment_10, rlc_am_segment.c)

    [rlc_am_segment_10] builds one PDU from the SDUs of the ring: a first loop
    computes how many SDUs the PDU takes and the LIs it needs, a second one
    copies the data and writes the LIs, then the fixed header is written, the
    PDU is stored in the transmission buffer and a copy is queued for MAC.
    The memory block of the PDU is what [get_free_mem_block] returned: nothing,
    or a block whose bytes are those of its last use.  Its first four bytes (the
    size of [rlc_am_pdu_sn_10_t]) are cleared. *)

From S2P Require Import Prelude Bits RlcAmTypes RlcAmEntity RlcAmWindows RlcAmTxBuffer RlcAmInSdu.
From S2P Require Import RlcAmLi RlcAmPolling RlcAmResegment.

(** ** How many SDUs fill the PDU *)
Record size_state := Mk_size_state {
  sz_entity : rlc_am_entity_t;
  sz_pdu : rlc_am_tx_data_pdu_management_t;    (* *pdu_mngt_p *)
  sz_pdu_remaining_size : Z;
  sz_test_remaining_size : Z;
  sz_test_li_length : Z;
  sz_size_to_substract : Z;
  sz_num_li_to_substract : Z;
  sz_test_num_li : Z;
  sz_sdu_buffer_index : Z;
  sz_continue : bool
}.
#[export] Instance eta_size_state : Eta size_state :=
  fun s => Mk_size_state (sz_entity s) (sz_pdu s) (sz_pdu_remaining_size s)
    (sz_test_remaining_size s) (sz_test_li_length s) (sz_size_to_substract s)
    (sz_num_li_to_substract s) (sz_test_num_li s) (sz_sdu_buffer_index s) (sz_continue s).

(** Every branch that ends the PDU. *)
Definition size_stop (s : size_state) (reduction : Z) : size_state :=
  s <| sz_continue := false |> <| sz_test_remaining_size := 0 |> <| sz_size_to_substract := 0 |>
    <| sz_num_li_to_substract := 0 |>
    <| sz_pdu_remaining_size := sz_pdu_remaining_size s - reduction |>.

(** The cascade of conditions for the SDU of remaining size [remaining]. *)
Definition size_decide (remaining : Z) (s : size_state) : size_state :=
  let li := Z.lxor (sz_test_li_length s) 3 in
  if remaining >? sz_test_remaining_size s then size_stop s 0
  else if remaining =? sz_test_remaining_size s then size_stop s 0
  else if remaining + li =? sz_test_remaining_size s then size_stop s li
  else if remaining + li <? sz_test_remaining_size s then
    if nb_sdus (sz_pdu s) >=? RLC_AM_MAX_SDU_IN_PDU - 1 then size_stop s 1
    else
      s <| sz_test_num_li := u32 (sz_test_num_li s + 1) |>
        <| sz_test_remaining_size := sz_test_remaining_size s - (remaining + li) |>
        <| sz_size_to_substract := li |> <| sz_num_li_to_substract := 1 |>
        <| sz_test_li_length := li |>
  else size_stop s 1.

(** The SDU and the PDU refer to each other. *)
Definition size_link (s : size_state) (sdu : rlc_am_tx_sdu_management_t) : res size_state :=
  idx ← array_set (sdus_index (sz_pdu s)) (nb_sdus (sz_pdu s)) (i16 (sz_sdu_buffer_index s));
  let pdu := (sz_pdu s) <| sdus_index := idx |> <| nb_sdus := i8 (nb_sdus (sz_pdu s) + 1) |> in
  pdus ← array_set (pdus_index sdu) (nb_pdus sdu) (tx_index (vt_s (sz_entity s)));
  let sdu := sdu <| pdus_index := pdus |> <| nb_pdus := u8 (nb_pdus sdu + 1) |> in
  r ← set_sdu (sz_entity s) (sz_sdu_buffer_index s) sdu;
  _ ← assert_that (nb_pdus sdu <? RLC_AM_MAX_SDU_FRAGMENTS);
  Ok (s <| sz_pdu := pdu |> <| sz_entity := r |>
        <| sz_sdu_buffer_index :=
             (sz_sdu_buffer_index s + 1) mod RLC_AM_SDU_CONTROL_BUFFER_SIZE |>).

Fixpoint size_loop (fuel : nat) (s : size_state) : res size_state :=
  match fuel with
  | O => Err OutOfFuel
  | S fuel' =>
      sdu ← get_sdu (sz_entity s) (sz_sdu_buffer_index s);
      if negb (is_null (sdu_mem_block sdu)) && sz_continue s then
        s ← size_link (size_decide (sdu_remaining_size sdu) s) sdu;
        size_loop fuel' s
      else Ok s
  end.

(** ** Filling the PDU *)
Record fill_state := Mk_fill_state {
  fl_entity : rlc_am_entity_t;
  fl_bytes : list Z;            (* the memory block of the PDU, from pdu_p on *)
  fl_data : Z;                  (* data *)
  fl_e_li : Z;                  (* e_li_p *)
  fl_li_length : Z;
  fl_num_li : Z;                (* fill_num_li *)
  fl_pdu_remaining_size : Z;
  fl_payload_size : Z;          (* pdu_mngt_p->payload_size *)
  fl_last : bool;               (* fi_last_byte_pdu_is_last_byte_sdu *)
  fl_continue : bool
}.
#[export] Instance eta_fill_state : Eta fill_state :=
  fun s => Mk_fill_state (fl_entity s) (fl_bytes s) (fl_data s) (fl_e_li s) (fl_li_length s)
    (fl_num_li s) (fl_pdu_remaining_size s) (fl_payload_size s) (fl_last s) (fl_continue s).

(** The SDU at [current_sdu_index] is completely segmented: its data is
    released and the next SDU becomes current. *)
Definition fill_free_sdu (r : rlc_am_entity_t) (remaining : Z) : res rlc_am_entity_t :=
  let r := r <| sdu_buffer_occupancy := sdu_buffer_occupancy r - remaining |> in
  r ← rlc_am_free_in_sdu_data (current_sdu_index r) r;
  Ok (r <| current_sdu_index :=
             Z.rem (current_sdu_index r + 1) RLC_AM_SDU_CONTROL_BUFFER_SIZE |>).

Definition fill_step (test_num_li : Z) (s : fill_state) (sdu : rlc_am_tx_sdu_management_t)
  : res fill_state :=
  let r := fl_entity s in
  let remaining := sdu_remaining_size sdu in
  let li := Z.lxor (fl_li_length s) 3 in
  mem ← deref (sdu_mem_block sdu);
  if remaining >? fl_pdu_remaining_size s then
    let n := fl_pdu_remaining_size s in
    src ← mem_read mem (sdu_segmented_size sdu) n;
    b ← mem_write (fl_bytes s) (fl_data s) src;
    r ← set_sdu r (current_sdu_index r)
          (sdu <| sdu_remaining_size := remaining - n |>
               <| sdu_segmented_size := sdu_segmented_size sdu + n |>);
    Ok (s <| fl_entity := r <| sdu_buffer_occupancy := sdu_buffer_occupancy r - n |> |>
          <| fl_bytes := b |> <| fl_payload_size := fl_payload_size s + n |>
          <| fl_last := false |> <| fl_continue := false |> <| fl_pdu_remaining_size := 0 |>)
  else if remaining =? fl_pdu_remaining_size s then
    src ← mem_read mem (sdu_segmented_size sdu) (fl_pdu_remaining_size s);
    b ← mem_write (fl_bytes s) (fl_data s) src;
    r ← fill_free_sdu r remaining;
    Ok (s <| fl_entity := r |> <| fl_bytes := b |>
          <| fl_payload_size := fl_payload_size s + fl_pdu_remaining_size s |>
          <| fl_last := true |> <| fl_continue := false |> <| fl_pdu_remaining_size := 0 |>)
  else if remaining + li <? fl_pdu_remaining_size s then
    src ← mem_read mem (sdu_segmented_size sdu) remaining;
    b ← mem_write (fl_bytes s) (fl_data s) src;
    if fl_num_li s =? RLC_AM_MAX_SDU_IN_PDU - 1 then
      r ← fill_free_sdu r remaining;
      Ok (s <| fl_entity := r |> <| fl_bytes := b |>
            <| fl_payload_size := fl_payload_size s + remaining |>
            <| fl_pdu_remaining_size := 0 |> <| fl_continue := false |> <| fl_last := true |>)
    else
      let fill_num_li := u32 (fl_num_li s + 1) in
      '(b, e_li_p) ← fill_e_li b (fl_e_li s) li remaining (fill_num_li =? test_num_li);
      let r := r <| sdu_buffer_occupancy := sdu_buffer_occupancy r - remaining |> in
      r ← set_sdu r (current_sdu_index r) (sdu <| sdu_remaining_size := 0 |>);
      r ← rlc_am_free_in_sdu_data (current_sdu_index r) r;
      let r := r <| current_sdu_index :=
                      Z.rem (current_sdu_index r + 1) RLC_AM_SDU_CONTROL_BUFFER_SIZE |> in
      Ok (s <| fl_entity := r |> <| fl_bytes := b |> <| fl_data := fl_data s + remaining |>
            <| fl_e_li := e_li_p |> <| fl_li_length := li |> <| fl_num_li := fill_num_li |>
            <| fl_payload_size := fl_payload_size s + remaining |>
            <| fl_pdu_remaining_size := fl_pdu_remaining_size s - (remaining + li) |>)
  else Err FatalAssert.          (* assert(1 != 1), USER_MODE is defined by the build *)

Fixpoint fill_loop (fuel : nat) (test_num_li : Z) (s : fill_state) : res fill_state :=
  match fuel with
  | O => Err OutOfFuel
  | S fuel' =>
      sdu ← get_sdu (fl_entity s) (current_sdu_index (fl_entity s));
      if negb (is_null (sdu_mem_block sdu)) && fl_continue s then
        s ← fill_step test_num_li s sdu;
        fill_loop fuel' test_num_li s
      else Ok s
  end.

(** ** The PDU *)

(** The size to allocate for a transport block of [nb] bytes. *)
Definition segment_data_pdu_size (r : rlc_am_entity_t) (nb : Z) : Z :=
  let max_li_overhead :=
    (if nb_sdu_no_segmented r <=? 1 then 0
     else RLC_AM_HEADER_LI_LENGTH (nb_sdu_no_segmented r - 1)) in
  if nb >=? sdu_buffer_occupancy r + RLC_AM_HEADER_MIN_SIZE + max_li_overhead
  then sdu_buffer_occupancy r + RLC_AM_HEADER_MIN_SIZE + max_li_overhead else nb.

Definition size_start (r : rlc_am_entity_t) (data_pdu_size : Z) : size_state :=
  Mk_size_state r tx_pdu_zero (data_pdu_size - RLC_AM_HEADER_MIN_SIZE)
    (data_pdu_size - RLC_AM_HEADER_MIN_SIZE) 1 0 0 0 (current_sdu_index r) true.

(** The LI counted for an SDU that turns out to be the last one is not
    necessary. *)
Definition size_result (s : size_state) : Z * Z :=
  if sz_num_li_to_substract s >? 0
  then (u32 (sz_test_num_li s - 1), sz_pdu_remaining_size s - sz_size_to_substract s)
  else (sz_test_num_li s, sz_pdu_remaining_size s).

(** The first byte without the polling bit. *)
Definition segment_b1 (fi : Z) (fill_num_li vt_s_ : Z) : Z :=
  let b1 := u8 (Z.lor 0 (Z.shiftl fi RLC_AM_PDU_FI_OFFSET)) in
  let b1 := (if fill_num_li >? 0 then u8 (RLC_AM_PDU_SET_E b1) else b1) in
  let b1 := u8 (RLC_AM_PDU_SET_D_C b1) in
  u8 (Z.lor b1 (Z.shiftr vt_s_ 8)).

(** Header, polling, transmission buffer and copy for MAC. *)
Definition segment_finish (c : protocol_ctxt_t) (data_pdu_size fi payload_offset : Z)
    (pdu : rlc_am_tx_data_pdu_management_t) (s : fill_state) : res rlc_am_entity_t :=
  let r := fl_entity s in
  let sn := vt_s r in
  let size := data_pdu_size - fl_pdu_remaining_size s in
  let b1 := segment_b1 fi (fl_num_li s) sn in
  let r := stat_add stat_tx_data_pdu 1 r in
  let r := stat_add stat_tx_data_bytes size r in
  let r := r <| vt_s := Z.land (vt_s r + 1) RLC_AM_SN_MASK |> in
  _ ← assert_that (size <? RLC_SDU_MAX_SIZE);
  let '(r, b1) := rlc_am_pdu_polling c r b1 (fl_payload_size s) true in
  bytes ← array_set (fl_bytes s) 0 b1;
  bytes ← array_set bytes 1 (Z.land sn 255);
  let pdu := pdu <| pdu_payload := payload_offset |> <| pdu_payload_size := fl_payload_size s |>
                 <| pdu_mem_block := Some bytes |> <| header_and_payload_size := size |>
                 <| retx_count := 0 |> <| retx_count_next := 0 |>
                 <| pdu_flags := (pdu_flags pdu) <| retransmit := false |> <| transmitted := true |> |>
                 <| pdu_sn := RLC_AM_PREV_SN (vt_s r) |> in
  r ← set_tx_pdu r sn pdu;
  copy ← rlc_am_retransmit_get_copy r (RLC_AM_PREV_SN (vt_s r));
  Ok (r <| segmentation_pdu_list := segmentation_pdu_list r ++ [copy] |>).

(** [block] is the memory from [pdu_p] on. *)
Definition rlc_am_segment_10 (c : protocol_ctxt_t) (block : option (list Z)) (r : rlc_am_entity_t)
  : res rlc_am_entity_t :=
  let nb_bytes_to_transmit := nb_bytes_requested_by_mac r in
  if sdu_buffer_occupancy r <=? 0 then Ok r
  else
    first ← get_sdu r (current_sdu_index r);
    if negb (is_null (sdu_mem_block first)) && (nb_bytes_to_transmit >? 0) then
      let data_pdu_size := segment_data_pdu_size r nb_bytes_to_transmit in
      match block with
      | None => Ok r
      | Some mem =>
          mem ← mem_write mem 0 (replicate 4 0);
          sz ← size_loop 129 (size_start r data_pdu_size);
          let '(test_num_li, pdu_remaining_size) := size_result sz in
          let payload_offset := 2 + Z.shiftr (test_num_li * 3 + 1) 1 in
          first ← get_sdu (sz_entity sz) (current_sdu_index (sz_entity sz));
          let fi_first := sdu_remaining_size first =? sdu_size first in
          fl ← fill_loop 129 test_num_li
                 (Mk_fill_state (sz_entity sz) mem payload_offset 2 1 0 pdu_remaining_size 0 false true);
          let fi := (if fi_first then 0 else 2) + (if fl_last fl then 0 else 1) in
          segment_finish c data_pdu_size fi payload_offset (sz_pdu sz) fl
      end
    else Ok r.
