(* ===== verification/RlcAmSegmentSpec.v ===== *)
(** * Correctness of segmentation

    [pdu_plan] computes, from the sizes of the SDUs in the queue and the size
    of the PDU, how many SDUs get an LI, how many bytes of the next one follow
    and how many bytes are left over at the end.  The two loops of
    [rlc_am_segment_10] follow it. *)

From S2P Require Import Prelude Bits RlcAmTypes RlcAmEntity RlcAmWindows RlcAmTxBuffer RlcAmInSdu.
From S2P Require Import RlcAmLi RlcAmPolling RlcAmResegment RlcAmSegment.

(** ** The SDUs *)

(** An SDU not completely segmented: [sdu_segmented_size] bytes are gone. *)
Definition sdu_wf (s : tx_sdu) : Prop :=
  exists mem, sdu_mem_block s = Some mem /\ 0 <= sdu_segmented_size s /\ 0 < sdu_remaining_size s /\
    sdu_segmented_size s + sdu_remaining_size s = Z.of_nat (length mem) /\
    sdu_size s = Z.of_nat (length mem).
(** One more PDU can refer to it. *)
Definition sdu_linkable (s : tx_sdu) : Prop := 0 <= nb_pdus s < 31 /\ length (pdus_index s) = 32%nat.

(** The bytes still to send. *)
Definition sdu_bytes (s : tx_sdu) : list Z := default [] (sdu_mem_block s).
Definition bytes_left (s : tx_sdu) : list Z := drop (Z.to_nat (sdu_segmented_size s)) (sdu_bytes s).

(** The SDU is referred to by the PDU of cell [sn mod 512]. *)
Definition link_sdu (sn : Z) (s : tx_sdu) : tx_sdu :=
  s <| pdus_index := <[Z.to_nat (nb_pdus s) := tx_index sn]> (pdus_index s) |>
    <| nb_pdus := u8 (nb_pdus s + 1) |>.
(** It is completely segmented, or [x] bytes more of it are. *)
Definition seg_done (s : tx_sdu) : tx_sdu := s <| sdu_mem_block := None |> <| sdu_remaining_size := 0 |>.
Definition seg_part (x : Z) (s : tx_sdu) : tx_sdu :=
  s <| sdu_remaining_size := sdu_remaining_size s - x |>
    <| sdu_segmented_size := sdu_segmented_size s + x |>.

Lemma length_bytes_left s : sdu_wf s -> Z.of_nat (length (bytes_left s)) = sdu_remaining_size s.
Proof.
  intros (mem & Hm & H1 & H2 & H3 & _). unfold bytes_left, sdu_bytes. rewrite Hm. cbn.
  rewrite length_drop. lia.
Qed.
Lemma sdu_wf_remaining s : sdu_wf s -> 0 < sdu_remaining_size s.
Proof. by intros (mem & _ & _ & H & _). Qed.
Lemma remaining_pos q : Forall sdu_wf q -> Forall (fun n => 0 < n) (map sdu_remaining_size q).
Proof. intros H. apply Forall_map. eapply Forall_impl; [exact H|]. apply sdu_wf_remaining. Qed.

(** ** The first loop *)
Lemma size_link_ok s i l sdu :
  input_sdus (sz_entity s) = Some l -> sz_sdu_buffer_index s = i -> is_cell i ->
  l !! Z.to_nat i = Some sdu -> sdu_linkable sdu -> 0 <= nb_sdus (sz_pdu s) < 127 ->
  length (sdus_index (sz_pdu s)) = 128%nat ->
  size_link s sdu =
    Ok (s <| sz_pdu := (sz_pdu s)
               <| sdus_index := <[Z.to_nat (nb_sdus (sz_pdu s)) := i]> (sdus_index (sz_pdu s)) |>
               <| nb_sdus := nb_sdus (sz_pdu s) + 1 |> |>
          <| sz_entity := (sz_entity s) <| input_sdus :=
               Some (alter (link_sdu (vt_s (sz_entity s))) (Z.to_nat i) l) |> |>
          <| sz_sdu_buffer_index := next_cell i |>).
Proof.
  intros Hl Hi Hc Hs [Hn Hp] Hnb Hidx. unfold size_link. rewrite Hi.
  assert (Hi16 : i16 i = i).
  { unfold i16, is_cell in *. rewrite wraps_small; change (2 ^ (16 - 1)) with 32768; lia. }
  rewrite Hi16, array_set_ok by lia. cbn [mbind res_bind].
  rewrite array_set_ok by lia. cbn [mbind res_bind].
  fold (link_sdu (vt_s (sz_entity s)) sdu).
  rewrite (set_sdu_queue _ l i sdu (link_sdu (vt_s (sz_entity s)))) by done. cbn [mbind res_bind].
  cbn [nb_pdus link_sdu update_field].
  assert (E : u8 (nb_pdus sdu + 1) = nb_pdus sdu + 1).
  { unfold u8. rewrite wrapu_small; change (2 ^ 8) with 256; lia. }
  unfold link_sdu. cbn [nb_pdus update_field]. rewrite E.
  rewrite (proj2 (Z.ltb_lt _ _)) by (unfold RLC_AM_MAX_SDU_FRAGMENTS; lia).
  cbn [assert_that mbind res_bind].
  assert (E8 : i8 (nb_sdus (sz_pdu s) + 1) = nb_sdus (sz_pdu s) + 1).
  { unfold i8. rewrite wraps_small; change (2 ^ (8 - 1)) with 128; lia. }
  rewrite E8. unfold next_cell, RLC_AM_SDU_CONTROL_BUFFER_SIZE. by subst i.
Qed.

(** One round of the decision, along the plan. *)
Lemma size_decide_last s j n ns x d :
  pdu_plan (sz_test_remaining_size s) j (n :: ns) = Some (O, x, d) ->
  sz_test_li_length s = li_parity j -> size_decide n s = size_stop s d.
Proof.
  intros H Hj. cbn [pdu_plan] in H. unfold size_decide. rewrite Hj. pose proof (li_width j) as Hw.
  set (li := Z.lxor (li_parity j) 3) in *. set (T := sz_test_remaining_size s) in *.
  destruct (Z.leb_spec T n).
  - injection H as <- <-. rewrite Z.gtb_ltb. destruct (Z.ltb_spec T n); [done|].
    by rewrite (proj2 (Z.eqb_eq n T)) by lia.
  - destruct (Z.ltb_spec (n + li) T).
    { destruct (pdu_plan _ _ ns) as [[[? ?] ?]|]; discriminate H. }
    injection H as <- <-. rewrite Z.gtb_ltb, (proj2 (Z.ltb_ge _ _)) by lia.
    rewrite (proj2 (Z.eqb_neq n T)) by lia.
    destruct (Z.eqb_spec (n + li) T); [f_equal; lia|].
    destruct (Z.ltb_spec (n + li) T); [lia|]. f_equal. lia.
Qed.

Lemma size_decide_li s j n ns m x d :
  pdu_plan (sz_test_remaining_size s) j (n :: ns) = Some (S m, x, d) ->
  sz_test_li_length s = li_parity j -> nb_sdus (sz_pdu s) < 127 ->
  let li := Z.lxor (li_parity j) 3 in
  pdu_plan (sz_test_remaining_size s - (n + li)) (S j) ns = Some (m, x, d) /\
  n + li < sz_test_remaining_size s /\
  size_decide n s =
    s <| sz_test_num_li := u32 (sz_test_num_li s + 1) |>
      <| sz_test_remaining_size := sz_test_remaining_size s - (n + li) |>
      <| sz_size_to_substract := li |> <| sz_num_li_to_substract := 1 |>
      <| sz_test_li_length := li_parity (S j) |>.
Proof.
  intros H Hj Hnb li. cbn [pdu_plan] in H. unfold size_decide. rewrite Hj, li_parity_S.
  pose proof (li_width j) as Hw. fold li in Hw, H |- *. set (T := sz_test_remaining_size s) in *.
  destruct (Z.leb_spec T n); [discriminate H|]. destruct (Z.ltb_spec (n + li) T); [|discriminate H].
  destruct (pdu_plan _ _ ns) as [[[m' x'] d']|]; [|discriminate H]. injection H as <- <- <-.
  split; [done|]. split; [done|]. rewrite Z.gtb_ltb, (proj2 (Z.ltb_ge _ _)) by lia.
  rewrite (proj2 (Z.eqb_neq n T)), (proj2 (Z.eqb_neq (n + li) T)) by lia.
  rewrite Z.geb_leb, (proj2 (Z.leb_gt _ _)) by (unfold RLC_AM_MAX_SDU_IN_PDU; lia). done.
Qed.

(** The references of a PDU to its SDUs: [k] old ones, then the cells from [i]. *)
Definition refers (idx old : list Z) (k : nat) (i : Z) (n : nat) : Prop :=
  length idx = length old /\ take k idx = take k old /\
  forall p, (p < n)%nat -> idx !! (k + p)%nat = Some ((i + Z.of_nat p) mod 1024).

Lemma refers_step idx old k i n :
  is_cell i -> (k < length old)%nat ->
  refers idx (<[k := i]> old) (S k) (next_cell i) n -> refers idx old k i (S n).
Proof.
  intros Hi Hk (Hl & Ht & Hp). rewrite length_insert in Hl. split; [done|]. split.
  - replace (take k idx) with (take k (take (S k) idx)) by (rewrite take_take; f_equal; lia).
    rewrite Ht, take_take, Nat.min_l by lia. by rewrite take_insert_ge by lia.
  - intros [|p] Hlt.
    + rewrite Nat.add_0_r, Z.add_0_r. rewrite Z.mod_small by (unfold is_cell in Hi; lia).
      assert (E : take (S k) idx !! k = idx !! k) by (apply lookup_take_lt; lia).
      rewrite <- E, Ht, lookup_take_lt by lia. by rewrite list_lookup_insert_eq.
    + rewrite <- Nat.add_succ_comm, Hp by lia. by rewrite next_cell_add.
Qed.

Lemma size_loop_ok fuel s l i q j m x d :
  input_sdus (sz_entity s) = Some l -> length l = 1024%nat -> is_cell i ->
  sz_sdu_buffer_index s = i -> sz_continue s = true -> queue_at l i q -> (length q < 1024)%nat ->
  Forall sdu_wf q -> Forall sdu_linkable (take (S m) q) ->
  sz_test_li_length s = li_parity j ->
  pdu_plan (sz_test_remaining_size s) j (map sdu_remaining_size q) = Some (m, x, d) ->
  0 <= nb_sdus (sz_pdu s) -> nb_sdus (sz_pdu s) + Z.of_nat m < 127 ->
  length (sdus_index (sz_pdu s)) = 128%nat ->
  0 <= sz_test_num_li s -> sz_test_num_li s + Z.of_nat m < 2 ^ 32 -> (m + 2 <= fuel)%nat ->
  exists s' idx, size_loop fuel s = Ok s' /\
    sz_entity s' = (sz_entity s) <| input_sdus :=
      Some (alter_run (link_sdu (vt_s (sz_entity s))) (S m) i l) |> /\
    sz_pdu s' = (sz_pdu s) <| sdus_index := idx |>
                  <| nb_sdus := nb_sdus (sz_pdu s) + Z.of_nat (S m) |> /\
    refers idx (sdus_index (sz_pdu s)) (Z.to_nat (nb_sdus (sz_pdu s))) i (S m) /\
    sz_pdu_remaining_size s' = sz_pdu_remaining_size s - d /\
    sz_test_num_li s' = sz_test_num_li s + Z.of_nat m /\ sz_num_li_to_substract s' = 0.
Proof.
  revert fuel s l i q j. induction m as [|m IH]; intros fuel s l i q j Hl Hlen Hi Hidx Hcont Hq Hlq
    Hwf Hlk Hj Hplan Hnb Hnbm Hlidx Htl Htlm Hfuel;
    (destruct q as [|sdu q]; [discriminate Hplan|]); destruct Hq as [Hs Hq];
    apply Forall_cons in Hwf as [Hwf1 Hwf]; apply Forall_cons in Hlk as [Hlk1 Hlk];
    destruct fuel as [|fuel]; try lia; cbn [map] in Hplan; cbn [size_loop]; rewrite Hidx, Hcont;
    rewrite (get_sdu_queue _ l i sdu) by done; cbn [mbind res_bind];
    destruct Hwf1 as (mem & Hmem & _); rewrite Hmem; cbn [is_null negb andb].
  - rewrite (size_decide_last _ _ _ _ _ _ Hplan Hj).
    rewrite (size_link_ok (size_stop s d) i l sdu)
      by first [assumption | cbn [size_stop sz_pdu update_field]; lia].
    cbn [mbind res_bind].
    destruct fuel as [|fuel]; [lia|]. cbn [size_loop].
    cbn [sz_entity sz_sdu_buffer_index sz_continue size_stop update_field].
    set (l' := alter _ _ l).
    destruct (cell_lookup l' (next_cell i)) as (e & He); [unfold l'; by rewrite length_alter|apply next_cell_range|].
    rewrite (get_sdu_queue _ l' _ e) by (done || apply next_cell_range). cbn [mbind res_bind].
    rewrite andb_false_r. eexists _, _. split; [reflexivity|].
    cbn [sz_entity sz_pdu sz_pdu_remaining_size sz_test_num_li sz_num_li_to_substract
      size_stop update_field].
    split; [done|]. split; [done|]. split; [|split; [done|split; [lia|done]]].
    apply refers_step; [done|lia|]. split; [done|]. split; [done|lia].
  - apply size_decide_li in Hplan as (Hplan & Hlt & E); [|done|lia].
    rewrite E. clear E. set (s1 := s <| sz_test_num_li := _ |> <| sz_test_remaining_size := _ |>
      <| sz_size_to_substract := _ |> <| sz_num_li_to_substract := _ |> <| sz_test_li_length := _ |>).
    rewrite (size_link_ok s1 i l sdu)
      by first [assumption | unfold s1; cbn [sz_pdu update_field]; lia].
    cbn [mbind res_bind].
    set (l' := alter _ _ l). set (s2 := s1 <| sz_pdu := _ |> <| sz_entity := _ |> <| sz_sdu_buffer_index := _ |>).
    cbn [length] in Hlq.
    assert (Htl1 : u32 (sz_test_num_li s + 1) = sz_test_num_li s + 1) by (unfold u32; apply wrapu_small; lia).
    destruct (IH fuel s2 l' (next_cell i) q (S j)) as (s' & idx & H1 & H2 & H3 & H4 & H5 & H6 & H7);
      lazymatch goal with
      | |- exists _, _ => idtac
      | |- _ => try done; unfold s2, s1; cbn [sz_entity sz_pdu sz_continue sz_test_num_li
          sz_test_remaining_size sz_test_li_length sz_sdu_buffer_index nb_sdus sdus_index update_field];
          rewrite ?length_insert, ?Htl1; try (done || lia || apply next_cell_range)
      end.
    { unfold l'. by rewrite length_alter. }
    { apply queue_at_alter; [apply next_cell_range|done| |done]. rewrite next_cell_back by done. lia. }
    exists s', idx. rewrite H1. split; [done|].
    rewrite H2, H3, H5, H6. unfold s2, s1.
    cbn [sz_entity sz_pdu sz_pdu_remaining_size sz_test_num_li nb_sdus sdus_index vt_s update_field].
    split; [done|]. split; [|split; [|split; [done|split; [lia|done]]]].
    + replace (nb_sdus (sz_pdu s) + 1 + Z.of_nat (S m)) with (nb_sdus (sz_pdu s) + Z.of_nat (S (S m))) by lia.
      done.
    + unfold s2, s1 in H4. cbn [sz_pdu nb_sdus sdus_index update_field] in H4.
      replace (Z.to_nat (nb_sdus (sz_pdu s) + 1)) with (S (Z.to_nat (nb_sdus (sz_pdu s)))) in H4 by lia.
      apply refers_step; [done|lia|done].
Qed.

(** ** The second loop *)

(** The data of the PDU. *)
Fixpoint pdu_data (m : nat) (x : Z) (q : list tx_sdu) : list Z :=
  match q with
  | [] => []
  | s :: q' =>
      match m with
      | O => take (Z.to_nat x) (bytes_left s)
      | S m' => bytes_left s ++ pdu_data m' x q'
      end
  end.

(** The ring after it: [m] SDUs are done, [g] is applied to the next one. *)
Fixpoint alter_end (g : tx_sdu -> tx_sdu) (m : nat) (i : Z) (l : list tx_sdu) : list tx_sdu :=
  match m with
  | O => alter g (Z.to_nat i) l
  | S m' => alter_end g m' (next_cell i) (alter seg_done (Z.to_nat i) l)
  end.
(** Whether the last SDU of the PDU ends with it. *)
Definition pdu_full (m : nat) (x : Z) (q : list tx_sdu) : bool :=
  match q !! m with Some s => x =? sdu_remaining_size s | None => false end.

Definition last_update (full : bool) (x : Z) : tx_sdu -> tx_sdu := if full then seg_done else seg_part x.
Definition done_count (full : bool) (m : nat) : nat := if full then S m else m.

(** The entity after [n] more bytes of the queue were put in a PDU. *)
Definition consume (full : bool) (m : nat) (x n : Z) (l : list tx_sdu) (r : rlc_am_entity_t)
  : rlc_am_entity_t :=
  r <| input_sdus := Some (alter_end (last_update full x) m (current_sdu_index r) l) |>
    <| sdu_buffer_occupancy := sdu_buffer_occupancy r - n |>
    <| nb_sdu_no_segmented := nb_sdu_no_segmented r - Z.of_nat (done_count full m) |>
    <| current_sdu_index := (current_sdu_index r + Z.of_nat (done_count full m)) mod 1024 |>.

Lemma read_bytes_left s mem n :
  sdu_wf s -> sdu_mem_block s = Some mem -> 0 <= n <= sdu_remaining_size s ->
  mem_read mem (sdu_segmented_size s) n = Ok (take (Z.to_nat n) (bytes_left s)).
Proof.
  intros (mem' & Hm & H1 & H2 & H3 & _) Hm' Hn. rewrite Hm in Hm'. injection Hm' as ->.
  rewrite mem_read_ok by lia. unfold bytes_left, sdu_bytes. by rewrite Hm.
Qed.
Lemma take_bytes_left s : sdu_wf s ->
  take (Z.to_nat (sdu_remaining_size s)) (bytes_left s) = bytes_left s.
Proof. intros H. pose proof (length_bytes_left s H). apply take_ge. lia. Qed.
Lemma length_take_left s x : sdu_wf s -> 0 <= x <= sdu_remaining_size s ->
  length (take (Z.to_nat x) (bytes_left s)) = Z.to_nat x.
Proof. intros H Hx. pose proof (length_bytes_left s H). rewrite length_take. lia. Qed.

Lemma alter_twice (f g h : tx_sdu -> tx_sdu) (l : list tx_sdu) (i : nat) :
  (forall s, f (g s) = h s) -> alter f i (alter g i l) = alter h i l.
Proof.
  intros H. revert i. induction l as [|s l IH]; intros [|i]; cbn; try done.
  - by rewrite H.
  - f_equal. apply IH.
Qed.

Lemma free_in_sdu_data_ok r l i s :
  input_sdus r = Some l -> is_cell i -> l !! Z.to_nat i = Some s -> is_null (sdu_mem_block s) = false ->
  rlc_am_free_in_sdu_data i r =
    Ok (r <| input_sdus := Some (alter seg_done (Z.to_nat i) l) |>
          <| nb_sdu_no_segmented := nb_sdu_no_segmented r - 1 |>).
Proof.
  intros Hl Hi Hs Hm. unfold rlc_am_free_in_sdu_data.
  rewrite (proj2 (Z.leb_le _ _)) by (unfold is_cell in Hi; unfold RLC_AM_SDU_CONTROL_BUFFER_SIZE; lia).
  rewrite (get_sdu_queue _ l i s) by done. cbn [mbind res_bind]. rewrite Hm. cbn [negb].
  change (s <| sdu_mem_block := None |> <| sdu_remaining_size := 0 |>) with (seg_done s).
  rewrite (set_sdu_queue _ l i s) by done. done.
Qed.

(** One round of the loop, for an SDU followed by an LI. *)
Lemma fill_step_li s l sdu M pre lis area pay tail mem :
  let r := fl_entity s in
  let j := length lis in
  let li := Z.lxor (li_parity j) 3 in
  let n := sdu_remaining_size sdu in
  input_sdus r = Some l -> is_cell (current_sdu_index r) ->
  l !! Z.to_nat (current_sdu_index r) = Some sdu -> sdu_wf sdu -> n < 2048 ->
  sdu_mem_block sdu = Some mem ->
  fl_bytes s = pre ++ area ++ pay ++ tail -> li_area M lis area -> n <= Z.of_nat (length tail) ->
  (j < M)%nat -> (j < 127)%nat ->
  fl_data s = Z.of_nat (length pre + li_length M + length pay) ->
  fl_e_li s = Z.of_nat (length pre) + 3 * Z.of_nat (j / 2) -> fl_li_length s = li_parity j ->
  fl_num_li s = Z.of_nat j -> n + li < fl_pdu_remaining_size s ->
  exists area', li_area M (lis ++ [n]) area' /\ fill_step (Z.of_nat M) s sdu =
    Ok (s <| fl_entity := consume true O n n l r |>
          <| fl_bytes := pre ++ area' ++ (pay ++ bytes_left sdu) ++ drop (length (bytes_left sdu)) tail |>
          <| fl_data := fl_data s + n |>
          <| fl_e_li := Z.of_nat (length pre) + 3 * Z.of_nat (S j / 2) |>
          <| fl_li_length := li_parity (S j) |> <| fl_num_li := Z.of_nat (S j) |>
          <| fl_payload_size := fl_payload_size s + n |>
          <| fl_pdu_remaining_size := fl_pdu_remaining_size s - (n + li) |>).
Proof.
  intros r j li n Hl Hc Hs Hwf Hn Hmem Hb Ha Hk Hj Hj127 Hdata He Hpar Hnum Hlt.
  pose proof (sdu_wf_remaining _ Hwf) as Hn0. pose proof (li_width j) as Hw.
  unfold fill_step. fold r. rewrite Hmem. cbn [deref mbind res_bind]. rewrite Hpar. fold n li.
  rewrite Z.gtb_ltb, (proj2 (Z.ltb_ge _ _)) by lia. rewrite (proj2 (Z.eqb_neq _ _)) by lia.
  rewrite (proj2 (Z.ltb_lt _ _)) by lia.
  rewrite (read_bytes_left sdu mem) by (done || unfold n; lia). cbn [mbind res_bind].
  replace (take (Z.to_nat n) (bytes_left sdu)) with (bytes_left sdu)
    by (symmetry; by apply take_bytes_left).
  pose proof (length_bytes_left sdu Hwf) as Hlen. fold n in Hlen.
  pose proof (proj1 Ha) as Hla. rewrite Hb, li_area_write by lia. cbn [mbind res_bind]. rewrite Hnum.
  rewrite (proj2 (Z.eqb_neq _ _)) by (unfold RLC_AM_MAX_SDU_IN_PDU; lia).
  assert (Hu : u32 (Z.of_nat j + 1) = Z.of_nat (S j)).
  { unfold u32. rewrite wrapu_small; change (2 ^ 32) with 4294967296; lia. }
  rewrite Hu, He.
  replace (Z.of_nat (S j) =? Z.of_nat M) with (S j =? M)%nat
    by (destruct (Nat.eqb_spec (S j) M); symmetry; [apply Z.eqb_eq|apply Z.eqb_neq]; lia).
  destruct (li_area_next pre M lis area n ((pay ++ bytes_left sdu) ++ drop (length (bytes_left sdu)) tail) Ha Hj
    ltac:(unfold is_li; lia)) as (area' & Ew & Ha2).
  fold j in Ew. fold li in Ew. exists area'. split; [exact Ha2|]. rewrite Ew. cbn [mbind res_bind].
  cbn [current_sdu_index update_field].
  rewrite (set_sdu_queue _ l _ sdu (fun s => s <| sdu_remaining_size := 0 |>)) by done. cbn [mbind res_bind].
  set (l1 := alter _ _ l). cbn [current_sdu_index update_field].
  assert (Hs1 : l1 !! Z.to_nat (current_sdu_index r) = Some (sdu <| sdu_remaining_size := 0 |>)).
  { unfold l1. rewrite list_lookup_alter, decide_True, Hs by done. done. }
  rewrite (free_in_sdu_data_ok _ l1 _ _) by (try done; cbn [sdu_mem_block update_field]; by rewrite Hmem).
  cbn [mbind res_bind current_sdu_index update_field]. rewrite next_cell_rem by done.
  unfold l1. rewrite (alter_twice _ _ seg_done) by done. rewrite li_parity_S. fold li.
  done.
Qed.

(** The round that ends the PDU. *)
Lemma fill_step_last s l sdu M pre tail mem :
  let r := fl_entity s in
  let x := fl_pdu_remaining_size s in
  let n := sdu_remaining_size sdu in
  input_sdus r = Some l -> is_cell (current_sdu_index r) ->
  l !! Z.to_nat (current_sdu_index r) = Some sdu -> sdu_wf sdu -> sdu_mem_block sdu = Some mem ->
  fl_bytes s = pre ++ tail -> fl_data s = Z.of_nat (length pre) ->
  0 < x <= n -> x <= Z.of_nat (length tail) ->
  fill_step M s sdu =
    Ok (s <| fl_entity := consume (x =? n) O x x l r |>
          <| fl_bytes := pre ++ take (Z.to_nat x) (bytes_left sdu) ++ drop (Z.to_nat x) tail |>
          <| fl_payload_size := fl_payload_size s + x |>
          <| fl_last := (x =? n) |> <| fl_continue := false |> <| fl_pdu_remaining_size := 0 |>).
Proof.
  intros r x n Hl Hc Hs Hwf Hmem Hb Hdata Hx Hk. unfold fill_step. fold r. rewrite Hmem.
  cbn [deref mbind res_bind]. fold x n.
  assert (Hw : mem_write (fl_bytes s) (fl_data s) (take (Z.to_nat x) (bytes_left sdu)) =
               Ok (pre ++ take (Z.to_nat x) (bytes_left sdu) ++ drop (Z.to_nat x) tail)).
  { pose proof (length_take_left sdu x Hwf ltac:(unfold x, n in *; lia)) as Hlt.
    rewrite Hb, mem_write_mid by (done || lia). by rewrite Hlt. }
  rewrite Z.gtb_ltb. destruct (Z.ltb_spec x n).
  - rewrite (read_bytes_left sdu mem) by (done || unfold n in *; lia). cbn [mbind res_bind].
    rewrite Hw. cbn [mbind res_bind].
    change (sdu <| sdu_remaining_size := n - x |> <| sdu_segmented_size := sdu_segmented_size sdu + x |>)
      with (seg_part x sdu).
    rewrite (set_sdu_queue _ l _ sdu (seg_part x)) by done. cbn [mbind res_bind].
    rewrite (proj2 (Z.eqb_neq x n)) by lia. unfold consume, last_update, done_count. cbn [alter_end].
    rewrite Z.add_0_r, Z.sub_0_r, Z.mod_small by (unfold is_cell in Hc; lia).
    destruct s, fl_entity. done.
  - replace x with n by lia. rewrite Z.eqb_refl.
    rewrite (read_bytes_left sdu mem) by (done || unfold n in *; lia). cbn [mbind res_bind].
    replace x with n in Hw by lia. rewrite Hw. cbn [mbind res_bind]. unfold fill_free_sdu.
    cbn [current_sdu_index update_field].
    rewrite (free_in_sdu_data_ok _ l _ sdu) by (try done; by rewrite Hmem). cbn [mbind res_bind].
    cbn [current_sdu_index update_field]. rewrite next_cell_rem by done. done.
Qed.

Lemma consume_step (full : bool) m x n k l r :
  consume full m x k (alter seg_done (Z.to_nat (current_sdu_index r)) l) (consume true O n n l r) =
  consume full (S m) x (n + k) l r.
Proof.
  unfold consume. cbn [input_sdus sdu_buffer_occupancy nb_sdu_no_segmented current_sdu_index update_field].
  fold (next_cell (current_sdu_index r)).
  change (current_sdu_index r + Z.of_nat (done_count true 0)) with (current_sdu_index r + 1).
  fold (next_cell (current_sdu_index r)). rewrite next_cell_add.
  replace (S (done_count full m)) with (done_count full (S m)) by (by destruct full).
  replace (nb_sdu_no_segmented r - Z.of_nat (done_count true 0) - Z.of_nat (done_count full m))
    with (nb_sdu_no_segmented r - Z.of_nat (done_count full (S m)))
    by (unfold done_count; destruct full; lia).
  replace (sdu_buffer_occupancy r - n - k) with (sdu_buffer_occupancy r - (n + k)) by lia.
  done.
Qed.

Lemma length_alter_end g m i l : length (alter_end g m i l) = length l.
Proof. revert i l. induction m as [|m IH]; intros i l; cbn [alter_end]; by rewrite ?IH, length_alter. Qed.

Lemma consume_cell full m x n l r :
  length l = 1024%nat -> exists e, get_sdu (consume full m x n l r) (current_sdu_index (consume full m x n l r)) = Ok e.
Proof.
  intros Hl. set (i := (current_sdu_index r + Z.of_nat (done_count full m)) mod 1024).
  assert (Hi : is_cell i) by (apply Z.mod_pos_bound; lia).
  set (l' := alter_end (last_update full x) m (current_sdu_index r) l).
  destruct (cell_lookup l' i) as (e & He); [unfold l'; by rewrite length_alter_end|done|].
  exists e. by apply (get_sdu_queue _ l').
Qed.

Lemma fill_loop_ok fuel s l q M pre lis area pay tail m x d :
  let r := fl_entity s in
  let j := length lis in
  input_sdus r = Some l -> length l = 1024%nat -> is_cell (current_sdu_index r) ->
  queue_at l (current_sdu_index r) q -> (length q < 1024)%nat -> Forall sdu_wf q ->
  0 < fl_pdu_remaining_size s + d -> fl_continue s = true ->
  pdu_plan (fl_pdu_remaining_size s + d) j (map sdu_remaining_size q) = Some (m, x, d) ->
  Forall (fun s => sdu_remaining_size s < 2048) (take m q) -> M = (j + m)%nat -> (M <= 127)%nat ->
  fl_bytes s = pre ++ area ++ pay ++ tail -> li_area M lis area ->
  fl_data s = Z.of_nat (length pre + li_length M + length pay) ->
  fl_e_li s = Z.of_nat (length pre) + 3 * Z.of_nat (j / 2) -> fl_li_length s = li_parity j ->
  fl_num_li s = Z.of_nat j -> (m + 2 <= fuel)%nat ->
  fl_pdu_remaining_size s - Z.of_nat (li_length M) + Z.of_nat (li_length j) <= Z.of_nat (length tail) ->
  let n := length (pdu_data m x q) in
  exists s', fill_loop fuel (Z.of_nat M) s = Ok s' /\
    fl_entity s' = consume (pdu_full m x q) m x (Z.of_nat n) l r /\
    fl_bytes s' = pre ++ li_bytes (lis ++ map sdu_remaining_size (take m q)) ++ pay ++ pdu_data m x q ++
                  drop n tail /\
    fl_payload_size s' = fl_payload_size s + Z.of_nat n /\ fl_num_li s' = Z.of_nat M /\
    fl_pdu_remaining_size s' = 0 /\ fl_last s' = pdu_full m x q.
Proof.
  revert fuel s l q lis area pay tail. induction m as [|m IH]; intros fuel s l q lis area pay tail r j Hl Hlen Hc Hq
    Hlq Hwf HP Hcont Hplan Hli HM HM127 Hb Ha Hdata He Hpar Hnum Hfuel Hk n;
    pose proof (remaining_pos _ Hwf) as Hpos;
    destruct (pdu_plan_spec _ _ _ _ _ _ Hplan HP Hpos) as (n0 & Hn0 & Hx & Hd & Hdx & Hsum);
    (destruct q as [|sdu q]; [discriminate Hplan|]); destruct Hq as [Hs Hq];
    apply Forall_cons in Hwf as [Hwf1 Hwf]; destruct fuel as [|fuel]; try lia;
    cbn [fill_loop]; fold r; rewrite (get_sdu_queue _ l _ sdu) by done; cbn [mbind res_bind];
    rewrite Hcont; pose proof Hwf1 as (mem & Hmem & _); rewrite Hmem; cbn [is_null negb andb].
  - cbn in Hn0. injection Hn0 as <-.
    change (sumZ _ (take 0 _)) with 0 in Hsum. rewrite Nat.add_0_r in Hsum.
    assert (Ex : fl_pdu_remaining_size s = x) by lia. subst M. rewrite Nat.add_0_r in *.
    rewrite (fill_step_last s l sdu _ (pre ++ li_bytes lis ++ pay) tail mem); fold r; rewrite ?Ex;
      try done; try lia.
    2:{ by rewrite Hb, (li_area_end _ _ _ Ha), <- !app_assoc. }
    2:{ rewrite Hdata, !length_app, length_li_bytes. unfold j. lia. }
    cbn [mbind res_bind]. destruct fuel as [|fuel]; [lia|]. cbn [fill_loop].
    assert (En : n = Z.to_nat x) by (unfold n; cbn [pdu_data]; apply length_take_left; [done|lia]).
    set (s1 := s <| fl_entity := _ |> <| fl_bytes := _ |> <| fl_payload_size := _ |> <| fl_last := _ |>
      <| fl_continue := _ |> <| fl_pdu_remaining_size := _ |>).
    assert (E1 : fl_entity s1 = consume (x =? sdu_remaining_size sdu) 0 x x l r) by done.
    assert (E2 : fl_continue s1 = false) by done.
    destruct (consume_cell (x =? sdu_remaining_size sdu) 0 x x l r Hlen) as (e & He').
    rewrite E1, He', E2. cbn [mbind res_bind]. rewrite andb_false_r. exists s1. split; [done|].
    rewrite E1, En, Z2Nat.id by lia. cbn [take map pdu_data]. rewrite app_nil_r.
    split_and!; try done. unfold s1. cbn [fl_bytes update_field]. by rewrite <- !app_assoc.
  - cbn [map pdu_plan] in Hplan. fold j in Hplan.
    apply Forall_cons in Hli as [Hli1 Hli]. set (li := Z.lxor (li_parity j) 3) in *.
    destruct (Z.leb_spec (fl_pdu_remaining_size s + d) (sdu_remaining_size sdu)); [discriminate Hplan|].
    destruct (Z.ltb_spec (sdu_remaining_size sdu + li) (fl_pdu_remaining_size s + d)); [|discriminate Hplan].
    destruct (pdu_plan _ (S j) _) as [[[m' x'] d']|] eqn:Hplan'; [|discriminate Hplan].
    injection Hplan as -> -> ->.
    pose proof (remaining_pos _ Hwf) as Hpos'.
    destruct (pdu_plan_spec _ _ _ _ _ _ Hplan' ltac:(lia) Hpos') as (n1 & Hn1 & Hx1 & Hd1 & Hdx1 & Hsum1).
    assert (Hsum0 : 0 <= sumZ (fun n => n) (take m (map sdu_remaining_size q))).
    { apply sumZ_nonneg. pose proof (Forall_take _ m _ Hpos') as Ht. rewrite Forall_forall in Ht.
      intros y Hy. pose proof (Ht y Hy). lia. }
    assert (HliM : (li_length (S j) <= li_length (S j + m))%nat) by (apply li_length_mono; lia).
    pose proof (sdu_wf_remaining _ Hwf1) as Hr0. pose proof (li_width j) as Hw. fold li in Hw.
    pose proof (li_length_S j) as HlS. fold li in HlS.
    destruct (fill_step_li s l sdu M pre lis area pay tail mem) as (area' & Ha2 & Est); fold r j; try done;
      try (fold li; lia).
    { rewrite HM in Hk. replace (j + S m)%nat with (S j + m)%nat in Hk by lia. lia. }
    rewrite Est. cbn [mbind res_bind]. fold r j li.
    set (n2 := sdu_remaining_size sdu) in *. set (tail2 := drop (length (bytes_left sdu)) tail).
    set (s2 := s <| fl_entity := _ |> <| fl_bytes := _ |> <| fl_data := _ |> <| fl_e_li := _ |>
      <| fl_li_length := _ |> <| fl_num_li := _ |> <| fl_payload_size := _ |> <| fl_pdu_remaining_size := _ |>).
    set (l2 := alter seg_done (Z.to_nat (current_sdu_index r)) l).
    pose proof (length_bytes_left sdu Hwf1) as Hlb. fold n2 in Hlb.
    assert (Hc2 : current_sdu_index (fl_entity s2) = next_cell (current_sdu_index r)) by done.
    assert (Hj2 : length (lis ++ [n2]) = S j) by (rewrite length_app; cbn [length]; unfold j; lia).
    cbn [length] in Hlq.
    destruct (IH fuel s2 l2 q (lis ++ [n2]) area' (pay ++ bytes_left sdu) tail2) as (s' & G1 & G2 & G3 & G4 & G5 & G6 & G7);
      rewrite ?Hj2, ?Hc2.
    { done. }
    { unfold l2. by rewrite length_alter. }
    { apply next_cell_range. }
    { apply queue_at_alter; [apply next_cell_range|done| |done]. rewrite next_cell_back by done. lia. }
    { lia. } { done. }
    { unfold s2. cbn [fl_pdu_remaining_size update_field]. lia. }
    { done. }
    { unfold s2. cbn [fl_pdu_remaining_size update_field]. rewrite <- Hplan'. f_equal. lia. }
    { done. } { lia. } { done. }
    { done. } { done. }
    { unfold s2. cbn [fl_data update_field]. rewrite Hdata, length_app. lia. }
    { done. } { done. } { done. } { lia. }
    { unfold s2. cbn [fl_pdu_remaining_size update_field]. unfold tail2. rewrite length_drop. lia. }
    exists s'. rewrite G1. split; [done|]. rewrite G2, G3, G4, G5, G6, G7.
    unfold n. cbn [pdu_data]. rewrite length_app. fold n2.
    unfold s2. cbn [fl_entity fl_payload_size update_field].
    unfold l2. rewrite consume_step, Nat2Z.inj_add, Hlb. cbn [take map]. rewrite <- !app_assoc. cbn [app].
    unfold tail2. rewrite drop_drop.
    split_and!; try done. lia.
Qed.
