(* ===== verification/RlcAmRxPdu.v ===== *)
(** * Received AMD PDUs: header decoding and truncation

    [rlc_am_get_data_pdu_infos] (rlc_am_receiver.c) decodes the header of an
    AMD PDU or PDU segment; [create_new_segment_from_pdu] (rlc_am_rx_list.c)
    builds the segment that holds a part of a received PDU. *)

From S2P Require Import Prelude Bits RlcAmTypes RlcAmLi.

(** ** Header decoding *)

(** The loop on the LIs: [e_li] is the offset of the current three bytes. *)
Fixpoint read_e_lis (fuel : nat) (data : list Z) (e_li li_length_in_bytes sum_li : Z)
    (info : rlc_am_pdu_info_t) : res (Z * Z * Z * Z * rlc_am_pdu_info_t) :=
  match fuel with
  | O => Err OutOfFuel
  | S fuel' =>
      let li_length_in_bytes := Z.lxor li_length_in_bytes 3 in
      '(li, li_to_read, e_li, header_size) ←
        (if li_length_in_bytes =? 2 then
           b1 ← array_get data e_li;
           b2 ← array_get data (e_li + 1);
           Ok (Z.lor (Z.land (u16 (Z.shiftl b1 4)) 2032) (Z.land (Z.shiftr b2 4) 15),
               Z.land b1 128, e_li, pi_header_size info + 2)
         else
           b2 ← array_get data (e_li + 1);
           b3 ← array_get data (e_li + 2);
           Ok (Z.lor (Z.land (u16 (Z.shiftl b2 8)) 1792) b3,
               Z.land b2 8, e_li + 3, pi_header_size info + 1));
      li_list ← array_set (pi_li_list info) (pi_num_li info) li;
      let info := info <| pi_li_list := li_list |> <| pi_header_size := header_size |>
                       <| pi_num_li := u16 (pi_num_li info + 1) |> in
      let sum_li := i16 (sum_li + li) in
      if pi_num_li info >? RLC_AM_MAX_SDU_IN_PDU then
        Ok (-2, e_li, li_length_in_bytes, sum_li, info)
      else if negb (li_to_read =? 0) then
        read_e_lis fuel' data e_li li_length_in_bytes sum_li info
      else Ok (0, e_li, li_length_in_bytes, sum_li, info)
  end.

Definition rlc_am_get_data_pdu_infos (data : list Z) (total_sizeP : Z)
  : res (Z * rlc_am_pdu_info_t) :=
  b1 ← array_get data 0;
  let info := pdu_info_zero <| pi_d_c := Z.shiftr b1 7 |> in
  _ ← assert_that (negb (pi_d_c info =? 0));
  b2 ← array_get data 1;
  let info := info <| pi_rf := Z.land (Z.shiftr b1 6) 1 |>
                   <| pi_p := Z.land (Z.shiftr b1 5) 1 |>
                   <| pi_fi := Z.land (Z.shiftr b1 3) 3 |>
                   <| pi_e := Z.land (Z.shiftr b1 2) 1 |>
                   <| pi_sn := b2 + Z.shiftl (Z.land b1 3) 8 |>
                   <| pi_header_size := 2 |> in
  '(info, payload) ←
    (if negb (pi_rf info =? 0) then
       d0 ← array_get data 2;
       d1 ← array_get data 3;
       Ok (info <| pi_lsf := Z.land (Z.shiftr d0 7) 1 |>
                <| pi_so := d1 + Z.shiftl (Z.land d0 127) 8 |>
                <| pi_header_size := 4 |>, 4)
     else Ok (info, 2));
  '(code, payload, sum_li, info) ←
    (if negb (pi_e info =? 0) then
       '(code, e_li, li_length_in_bytes, sum_li, info) ← read_e_lis 130 data payload 1 0 info;
       Ok (code, e_li + (if li_length_in_bytes =? 2 then 2 else 0), sum_li, info)
     else Ok (0, payload, 0, info));
  if code <? 0 then Ok (code, info)
  else
    let info := info <| pi_payload := drop (Z.to_nat payload) data |>
                     <| pi_payload_size := i16 (total_sizeP - pi_header_size info) |> in
    Ok (0, if pi_payload_size info >? sum_li
           then info <| pi_hidden_size := i16 (pi_payload_size info - sum_li) |> else info).

(** ** Truncation *)

(** What [get_free_mem_block] returns: the address of the transport block in
    the new block, and the previous contents of the block, of which
    [create_new_segment_from_pdu] does not write every field. *)
Record fresh_block := Mk_fresh_block {
  fb_address : Z;
  fb_stale : rlc_am_rx_pdu_management_t
}.

(** The LIs that lie before [so_offset]. *)
Fixpoint skip_lis (lis : list Z) (so_offset li_sum : Z) (li_index num_li : Z)
  : list Z * Z * Z * Z :=
  match lis with
  | li :: rest =>
      if li_sum + li <=? so_offset
      then skip_lis rest so_offset (u16 (li_sum + li)) (u8 (li_index + 1)) (u8 (num_li - 1))
      else (lis, li_sum, li_index, num_li)
  | [] => (lis, li_sum, li_index, num_li)
  end.

(** The LIs that fit in [remaining_size]. *)
Fixpoint take_lis (lis : list Z) (remaining_size : Z) (acc : list Z) : list Z * Z :=
  match lis with
  | li :: rest =>
      if remaining_size >=? li then take_lis rest (remaining_size - li) (acc ++ [li])
      else (acc, remaining_size)
  | [] => (acc, remaining_size)
  end.

(** The header of the new segment: LIs, FI Start, FI End and LSF. *)
Definition new_segment_header (info : rlc_am_pdu_info_t) (so_offset data_length_to_copy : Z)
  : res (list Z * bool * bool * bool) :=
  let fi_start := Z.shiftr (Z.land (pi_fi info) 2) 1 =? 0 in
  let fi_end := Z.land (pi_fi info) 1 =? 0 in
  let lsf := (pi_lsf info =? 1) || (pi_rf info =? 0) in
  let whole := so_offset + data_length_to_copy =? pi_payload_size info in
  if pi_num_li info =? 0 then
    Ok ([], if negb (so_offset =? 0) then false else fi_start,
        if whole then fi_end else false, if whole then lsf else false)
  else
    let lsf := (if whole then lsf else false) in
    lis ← (if pi_num_li info <=? Z.of_nat (length (pi_li_list info))
           then Ok (take (Z.to_nat (pi_num_li info)) (pi_li_list info))
           else Err UndefinedBehaviour);
    let '(lis, li_sum, li_index, num_li) := skip_lis lis so_offset 0 0 (u8 (pi_num_li info)) in
    let fi_start := (if negb (li_index =? 0) && (so_offset =? li_sum) then true else fi_start) in
    match lis with
    | li :: rest =>
        if negb (num_li =? 0) then
          let first := i16 (li_sum + li - so_offset) in
          if data_length_to_copy <=? first then Ok ([], fi_start, fi_end, lsf)
          else
            let '(new_li_list, remaining_size) := take_lis rest (data_length_to_copy - first) [first] in
            Ok (new_li_list, fi_start, if remaining_size =? 0 then true else fi_end, lsf)
        else Ok ([], fi_start, fi_end, lsf)
    | [] => Ok ([], fi_start, fi_end, lsf)
    end.

(** The bytes of the header, as they are stored in front of the payload. *)
Definition new_segment_bytes (info : rlc_am_pdu_info_t) (lis : list Z) (fi_start fi_end lsf : bool)
    (header_size so data_length : Z) : res (list Z) :=
  let h := u8 (RLC_AM_PDU_SET_D_C 0) in
  let h := u8 (RLC_AM_PDU_SET_RF h) in
  let h := (if negb (pi_p info =? 0) then u8 (RLC_AM_PDU_SET_POLL h) else h) in
  let h := (if negb fi_start then u8 (Z.lor h (Z.shiftl 1 (RLC_AM_PDU_FI_OFFSET + 1))) else h) in
  let h := (if negb fi_end then u8 (Z.lor h (Z.shiftl 1 RLC_AM_PDU_FI_OFFSET)) else h) in
  let h := (match lis with [] => h | _ => u8 (RLC_AM_PDU_SET_E h) end) in
  let h := u8 (Z.lor h (Z.land (Z.shiftr (pi_sn info) 8) 3)) in
  (* RLC_AM_PDU_SET_LSF on the byte: bit 15 of a uint8_t *)
  let so1 := (if lsf then u8 (RLC_AM_PDU_SET_LSF 0) else 0) in
  let so1 := u8 (Z.lor so1 (Z.land (Z.shiftr so 8) 127)) in
  b ← mem_write (replicate (Z.to_nat (header_size + data_length)) 0) 0
        [h; Z.land (pi_sn info) 255; so1; Z.land so 255];
  fill_lis b (li_start 4) 0 lis.

(** The decoded header before the [mac_tb_ind] is written. *)
Definition new_segment_info (info : rlc_am_pdu_info_t) (stale_li_list : list Z) (lis : list Z)
    (fi_start fi_end lsf : bool) (so_offset data_length_to_copy : Z) (payload : list Z)
  : rlc_am_pdu_info_t :=
  Mk_pdu_info (pi_d_c info) 1 (pi_p info)
    (Z.lor (Z.shiftl (b2z (negb fi_start)) 1) (b2z (negb fi_end)))
    (match lis with [] => 0 | _ => 1 end) (pi_sn info) (b2z lsf)
    ((pi_so info + so_offset) mod 2 ^ 15)
    (Z.of_nat (length lis)) (lis ++ drop (length lis) stale_li_list)
    (i16 (data_length_to_copy - sumZ (fun x => x) lis)) payload
    (i16 data_length_to_copy)
    (i16 (RLC_AM_PDU_SEGMENT_HEADER_SIZE (Z.of_nat (length lis)))).

(** Writing [data_ptr], [size] and [first_bit] of the [mac_tb_ind] at the start
    of the block, where the decoded header is: on x86-64 the pointer covers the
    bit-fields, [num_li] and [li_list[0]], the size [li_list[1]], and
    [first_bit] the high byte of [li_list[2]]. *)
Definition write_tb_ind (address size : Z) (info : rlc_am_pdu_info_t) : rlc_am_pdu_info_t :=
  let field pos width := Z.land (Z.shiftr address pos) (2 ^ width - 1) in
  info <| pi_d_c := field 0 1 |> <| pi_rf := field 1 1 |> <| pi_p := field 2 1 |>
       <| pi_fi := field 3 2 |> <| pi_e := field 5 1 |> <| pi_sn := field 6 10 |>
       <| pi_lsf := field 16 1 |> <| pi_so := field 17 15 |> <| pi_num_li := field 32 16 |>
       <| pi_li_list :=
            match pi_li_list info with
            | _ :: _ :: l2 :: rest => i16 (field 48 16) :: i16 size :: Z.land l2 255 :: rest
            | l => l
            end |>.

(** The new segment, and the bytes of its header and payload. *)
Definition create_new_segment_from_pdu (fb : fresh_block) (tb_pP : rlc_am_rx_pdu_management_t)
    (so_offset data_length_to_copy : Z) : res (rlc_am_rx_pdu_management_t * list Z) :=
  let info := pdu_info tb_pP in
  let so_offset := u16 so_offset in
  '(lis, fi_start, fi_end, lsf) ← new_segment_header info so_offset data_length_to_copy;
  let header_size := RLC_AM_PDU_SEGMENT_HEADER_SIZE (Z.of_nat (length lis)) in
  payload ← mem_read (pi_payload info) so_offset data_length_to_copy;
  let info' := new_segment_info info (pi_li_list (pdu_info (fb_stale fb))) lis fi_start fi_end lsf
                 so_offset data_length_to_copy payload in
  header ← new_segment_bytes info lis fi_start fi_end lsf header_size (pi_so info') data_length_to_copy;
  bytes ← mem_write header header_size payload;
  Ok ((fb_stale fb)
        <| pdu_info := write_tb_ind (fb_address fb) (u16 (data_length_to_copy + header_size)) info' |>
        <| segment_reassembled := RLC_AM_RX_PDU_SEGMENT_REASSEMBLE_NO |>, bytes).

(** ** The format of AMD PDUs *)
Definition amd_b1 (rf p fi e sn : Z) : Z := 128 + 64 * rf + 32 * p + 8 * fi + 4 * e + sn / 256.

(** A PDU, or a segment when [seg] gives its LSF and SO. *)
Definition amd_bytes (p fi sn : Z) (seg : option (Z * Z)) (lis payload : list Z) : list Z :=
  amd_b1 (b2z (bool_decide (is_Some seg))) p fi (b2z (bool_decide (lis <> []))) sn :: sn mod 256 ::
  (match seg with Some (lsf, so) => [128 * lsf + so / 256; so mod 256] | None => [] end) ++
  li_bytes lis ++ payload.

Definition amd_header_size (seg : option (Z * Z)) (lis : list Z) : Z :=
  2 + (match seg with Some _ => 2 | None => 0 end) + Z.of_nat (li_length (length lis)).

(** Its decoded form. *)
Definition amd_info (p fi sn : Z) (seg : option (Z * Z)) (lis payload : list Z) : rlc_am_pdu_info_t :=
  let size := Z.of_nat (length payload) in
  let sum := sumZ (fun x => x) lis in
  Mk_pdu_info 1 (b2z (bool_decide (is_Some seg))) p fi (b2z (bool_decide (lis <> []))) sn
    (match seg with Some (lsf, _) => lsf | None => 0 end)
    (match seg with Some (_, so) => so | None => 0 end)
    (Z.of_nat (length lis)) (lis ++ replicate (128 - length lis) 0)
    (if size >? sum then size - sum else 0) payload size (amd_header_size seg lis).

Definition amd_wf (p fi sn : Z) (seg : option (Z * Z)) (lis payload : list Z) : Prop :=
  0 <= p < 2 /\ 0 <= fi < 4 /\ 0 <= sn < 1024 /\
  (match seg with Some (lsf, so) => 0 <= lsf < 2 /\ 0 <= so < 32768 | None => True end) /\
  Forall is_li lis /\ (length lis <= 128)%nat /\ sumZ (fun x => x) lis < 32768 /\
  Z.of_nat (length payload) < 32768.

(** *** Reading the LIs *)
Lemma li_first a m : is_li a -> m / 16 = a mod 16 -> forall e,
  Z.lor (Z.land (u16 (Z.shiftl (128 * b2z e + a / 16) 4)) 2032) (Z.land (Z.shiftr m 4) 15) = a /\
  Z.land (128 * b2z e + a / 16) 128 = 128 * b2z e.
Proof.
  unfold is_li. intros Ha Hm e. split.
  - rewrite Z.shiftl_mul_pow2, Z.shiftr_div_pow2 by lia. change (2 ^ 4) with 16.
    unfold u16. rewrite wrapu_small by (change (2 ^ 16) with 65536; destruct e; cbn [b2z]; mod_lia).
    rewrite Hm. change 15 with (2 ^ 4 - 1). rewrite land_ones_mod by lia.
    change (2 ^ 4) with 16. rewrite Z.mod_mod by lia.
    assert (E : Z.land ((128 * b2z e + a / 16) * 16) 2032 = a / 16 * 2 ^ 4).
    { change 2032 with ((2 ^ 7 - 1) * 2 ^ 4). change 16 with (2 ^ 4) at 2.
      rewrite <- !Z.shiftl_mul_pow2, <- Z.shiftl_land by lia. f_equal.
      rewrite land_ones_mod by lia. change (2 ^ 7) with 128. destruct e; cbn [b2z]; mod_lia. }
    rewrite E, lor_low by (change (2 ^ 4) with 16; mod_lia). change (2 ^ 4) with 16. mod_lia.
  - change 128 with (2 ^ 7) at 2. rewrite land_bit by lia. change (2 ^ 7) with 128.
    destruct e; cbn [b2z]; mod_lia.
Qed.

Lemma li_second a b : is_li a -> is_li b -> forall e,
  Z.lor (Z.land (u16 (Z.shiftl (a mod 16 * 16 + 8 * b2z e + b / 256) 8)) 1792) (b mod 256) = b /\
  Z.land (a mod 16 * 16 + 8 * b2z e + b / 256) 8 = 8 * b2z e.
Proof.
  unfold is_li. intros Ha Hb e. split.
  - rewrite Z.shiftl_mul_pow2 by lia. change (2 ^ 8) with 256.
    unfold u16. rewrite wrapu_small by (change (2 ^ 16) with 65536; destruct e; cbn [b2z]; mod_lia).
    assert (E : Z.land ((a mod 16 * 16 + 8 * b2z e + b / 256) * 256) 1792 = b / 256 * 2 ^ 8).
    { change 1792 with ((2 ^ 3 - 1) * 2 ^ 8). change 256 with (2 ^ 8) at 2.
      rewrite <- !Z.shiftl_mul_pow2, <- Z.shiftl_land by lia. f_equal.
      rewrite land_ones_mod by lia. change (2 ^ 3) with 8. destruct e; cbn [b2z]; mod_lia. }
    rewrite E, lor_low by (change (2 ^ 8) with 256; mod_lia). change (2 ^ 8) with 256. mod_lia.
  - change 8 with (2 ^ 3) at 2. rewrite land_bit by lia. change (2 ^ 3) with 8.
    destruct e; cbn [b2z]; mod_lia.
Qed.

Lemma lookup_offset {A} (l k : list A) (i : nat) : (l ++ k) !! (length l + i)%nat = k !! i.
Proof. rewrite lookup_app_r by lia. f_equal. lia. Qed.
Lemma array_get_offset {A} (l k : list A) i : 0 <= i -> array_get (l ++ k) (Z.of_nat (length l) + i) = array_get k i.
Proof.
  intros H. unfold array_get. rewrite (proj2 (Z.leb_le 0 i)), (proj2 (Z.leb_le _ _)) by lia.
  rewrite <- (lookup_offset l k). do 2 f_equal. lia.
Qed.

Definition infos_add (info : rlc_am_pdu_info_t) (lis done_ zs : list Z) : rlc_am_pdu_info_t :=
  info <| pi_li_list := done_ ++ lis ++ zs |>
       <| pi_header_size := pi_header_size info + Z.of_nat (li_length (length lis)) |>
       <| pi_num_li := Z.of_nat (length done_ + length lis) |>.

Lemma read_e_lis_ok lis fuel pre rest sum info done_ zs :
  lis <> [] -> Forall is_li lis -> (length lis <= fuel)%nat ->
  pi_num_li info = Z.of_nat (length done_) ->
  pi_li_list info = done_ ++ replicate (length lis) 0 ++ zs -> (length done_ + length lis <= 128)%nat ->
  0 <= sum -> sum + sumZ (fun x => x) lis < 32768 ->
  exists e_li len, read_e_lis fuel (pre ++ li_bytes lis ++ rest) (Z.of_nat (length pre)) 1 sum info =
      Ok (0, e_li, len, sum + sumZ (fun x => x) lis, infos_add info lis done_ zs) /\
    e_li + (if len =? 2 then 2 else 0) = Z.of_nat (length pre + li_length (length lis)).
Proof.
  revert fuel pre sum info done_.
  induction lis as [|a|a b l IH] using pair_ind; intros fuel pre sum info done_ Hne Hli Hf Hn Hl H128 Hs Hsum;
    [done| |].
  - apply Forall_cons in Hli as [Ha _]. destruct fuel as [|fuel]; [cbn in Hf; lia|].
    cbn [read_e_lis]. change (Z.lxor 1 3) with 2. cbn [Z.eqb Pos.eqb].
    change (li_bytes [a]) with [128 * b2z false + a / 16; a mod 16 * 16]. cbn [app].
    rewrite (array_get_app pre _ _ (Z.of_nat (length pre))) by done. cbn [mbind res_bind].
    rewrite array_get_offset by lia. cbn [mbind res_bind].
    change (array_get _ 1) with (Ok (a mod 16 * 16)). cbn [mbind res_bind].
    destruct (li_first a (a mod 16 * 16) Ha (Z.div_mul _ 16 ltac:(done)) false) as [-> ->]. rewrite Hn, Hl.
    cbn [length replicate app]. rewrite array_set_app by done. cbn [mbind res_bind].
    cbn [pi_num_li update_field]. cbn [sumZ foldr] in Hsum. pose proof Ha as Ha'. unfold is_li in Ha'.
    replace (u16 (Z.of_nat (length done_) + 1)) with (Z.of_nat (length done_ + 1))
      by (unfold u16; rewrite wrapu_small; change (2 ^ 16) with 65536; cbn [length] in *; lia).
    unfold RLC_AM_MAX_SDU_IN_PDU. rewrite Z.gtb_ltb, (proj2 (Z.ltb_ge _ _)) by (cbn [length] in *; lia).
    cbn [b2z Z.mul Z.eqb negb].
    replace (i16 (sum + a)) with (sum + sumZ (fun x => x) [a])
      by (unfold i16; rewrite wraps_small; cbn [sumZ foldr]; change (2 ^ (16 - 1)) with 32768; lia).
    eexists _, _. split; [reflexivity|]. cbn. lia.
  - apply Forall_cons in Hli as [Ha [Hb Hli]%Forall_cons].
    pose proof Ha as Ha'. pose proof Hb as Hb'. unfold is_li in Ha', Hb'.
    cbn [length] in Hf, H128, Hl. destruct fuel as [|[|fuel]]; [lia|lia|].
    cbn [sumZ foldr] in Hsum. fold (sumZ (fun x => x) l) in Hsum.
    assert (Hsl : 0 <= sumZ (fun x => x) l).
    { apply sumZ_nonneg. intros x Hx. rewrite Forall_forall in Hli. destruct (Hli x Hx). lia. }
    set (e := match l with [] => false | _ => true end).
    set (m := a mod 16 * 16 + 8 * b2z e + b / 256).
    assert (Hmb : li_bytes (a :: b :: l) = [128 * b2z true + a / 16; m; b mod 256] ++ li_bytes l).
    { unfold li_bytes, m, e. destruct l; cbn [li_enc b2z app]; [done|].
      by rewrite !Z.mul_1_r. }
    rewrite Hmb. set (h := 128 * b2z true + a / 16).
    set (data := pre ++ _ ++ rest).
    assert (D0 : array_get data (Z.of_nat (length pre)) = Ok h) by (by apply array_get_app).
    assert (D1 : array_get data (Z.of_nat (length pre) + 1) = Ok m) by (unfold data; by rewrite array_get_offset by lia).
    assert (D2 : array_get data (Z.of_nat (length pre) + 2) = Ok (b mod 256)) by (unfold data; by rewrite array_get_offset by lia).
    cbn [read_e_lis]. change (Z.lxor 1 3) with 2. change (Z.lxor 2 3) with 1. cbn [Z.eqb Pos.eqb].
    rewrite D0, D1. cbn [mbind res_bind].
    assert (Hm : m / 16 = a mod 16) by (unfold m; destruct e; cbn [b2z]; mod_lia).
    destruct (li_first a m Ha Hm true) as [Ea Et]. fold h in Ea, Et.
    rewrite Ea, Et. destruct (li_second a b Ha Hb e) as [Eb Ee]. fold m in Eb, Ee.
    rewrite Hn, Hl. cbn [replicate app]. rewrite array_set_app by done. cbn [mbind res_bind].
    cbn [pi_num_li pi_li_list pi_header_size update_field].
    unfold RLC_AM_MAX_SDU_IN_PDU, i16, u16.
    rewrite !(wrapu_small 16) by (change (2 ^ 16) with 65536; lia).
    rewrite !(wraps_small 16) by (change (2 ^ (16 - 1)) with 32768; lia).
    rewrite Z.gtb_ltb, (proj2 (Z.ltb_ge _ _)) by lia. cbn [b2z Z.mul Z.eqb Pos.mul Pos.eqb negb].
    rewrite ?D1. cbn [mbind res_bind]. rewrite ?D2. cbn [mbind res_bind]. unfold u16 in Eb.
    rewrite Eb, Ee. change (negb (128 * 1 =? 0)) with true. cbv iota.
    rewrite (cons_middle a), app_assoc.
    rewrite array_set_app by (rewrite length_app; cbn [length]; lia). cbn [mbind res_bind].
    cbn [pi_num_li pi_li_list pi_header_size update_field].
    rewrite !(wraps_small 16) by (change (2 ^ (16 - 1)) with 32768; lia).
    rewrite Z.gtb_ltb, (proj2 (Z.ltb_ge _ _)) by lia.
    destruct (decide (l = [])) as [-> | Hl0].
    + change (b2z e) with 0. change (negb (8 * 0 =? 0)) with false. cbv iota.
      exists (Z.of_nat (length pre) + 3), 1. split; [|cbn; lia].
      replace (sum + sumZ (fun x => x) [a; b]) with (sum + a + b) by (cbn [sumZ foldr]; lia).
      unfold infos_add. cbn [length]. change (li_length 2) with 3%nat.
      replace (pi_header_size info + 2 + 1) with (pi_header_size info + Z.of_nat 3) by lia.
      replace (Z.of_nat (length done_) + 1 + 1) with (Z.of_nat (length done_ + 2)) by lia.
      rewrite <- app_assoc. by destruct info.
    + assert (b2z e = 1) as -> by (unfold e; by destruct l). change (negb (8 * 1 =? 0)) with true. cbv iota.
      set (info2 := info <| pi_li_list := _ |> <| pi_header_size := _ |> <| pi_num_li := _ |>
                         <| pi_li_list := _ |> <| pi_header_size := _ |> <| pi_num_li := _ |>).
      replace (Z.of_nat (length pre) + 3) with (Z.of_nat (length (pre ++ [h; m; b mod 256])))
        by (rewrite length_app; cbn [length]; lia).
      replace data with ((pre ++ [h; m; b mod 256]) ++ li_bytes l ++ rest)
        by (unfold data; by rewrite <- !app_assoc).
      destruct (IH fuel (pre ++ [h; m; b mod 256]) (sum + a + b) info2 (done_ ++ [a; b]) Hl0 Hli)
        as (e_li & len & Hrun & Hend); try (rewrite ?length_app; cbn [length]; lia).
      * cbn [info2 pi_num_li update_field]. rewrite length_app. cbn [length]. lia.
      * cbn [info2 pi_li_list update_field]. by rewrite <- !app_assoc.
      * exists e_li, len. rewrite Hrun. split.
        2:{ rewrite Hend, length_app. cbn [length]. rewrite li_length_SS. lia. }
        do 2 f_equal; [f_equal; cbn [sumZ foldr]; fold (sumZ (fun x => x) l); lia|].
        unfold infos_add, info2. cbn [pi_num_li pi_li_list pi_header_size update_field length].
        rewrite li_length_SS, length_app. cbn [length].
        replace (Z.of_nat (length done_ + S (S (length l)))) with (Z.of_nat (length done_ + 2 + length l)) by lia.
        replace (pi_header_size info + Z.of_nat (3 + li_length (length l)))
          with (pi_header_size info + 2 + 1 + Z.of_nat (li_length (length l))) by lia.
        rewrite <- !app_assoc. by destruct info.
Qed.

(** *** The fixed part of the header *)
Lemma b2z_range b : 0 <= b2z b < 2.
Proof. destruct b; cbn; lia. Qed.

Lemma amd_b1_fields rf p fi e sn :
  0 <= rf < 2 -> 0 <= p < 2 -> 0 <= fi < 4 -> 0 <= e < 2 -> 0 <= sn < 1024 ->
  let b := amd_b1 rf p fi e sn in
  Z.shiftr b 7 = 1 /\ Z.land (Z.shiftr b 6) 1 = rf /\ Z.land (Z.shiftr b 5) 1 = p /\
  Z.land (Z.shiftr b 3) 3 = fi /\ Z.land (Z.shiftr b 2) 1 = e /\
  sn mod 256 + Z.shiftl (Z.land b 3) 8 = sn.
Proof.
  intros Hrf Hp Hfi He Hsn b. rewrite !Z.shiftr_div_pow2, Z.shiftl_mul_pow2 by lia.
  pose proof (fun x => land_ones_mod x 1 ltac:(lia)) as L1.
  pose proof (fun x => land_ones_mod x 2 ltac:(lia)) as L2.
  change (2 ^ 1 - 1) with 1 in L1. change (2 ^ 2 - 1) with 3 in L2. rewrite !L1, !L2.
  change (2 ^ 7) with 128. change (2 ^ 6) with 64. change (2 ^ 5) with 32. change (2 ^ 3) with 8.
  change (2 ^ 2) with 4. change (2 ^ 1) with 2. change (2 ^ 8) with 256.
  unfold b, amd_b1. repeat split; mod_lia.
Qed.

Lemma seg_fields lsf so : 0 <= lsf < 2 -> 0 <= so < 32768 ->
  Z.land (Z.shiftr (128 * lsf + so / 256) 7) 1 = lsf /\
  so mod 256 + Z.shiftl (Z.land (128 * lsf + so / 256) 127) 8 = so.
Proof.
  intros Hl Hso. rewrite Z.shiftr_div_pow2, Z.shiftl_mul_pow2 by lia.
  pose proof (fun x => land_ones_mod x 1 ltac:(lia)) as L1.
  pose proof (fun x => land_ones_mod x 7 ltac:(lia)) as L7.
  change (2 ^ 1 - 1) with 1 in L1. change (2 ^ 7 - 1) with 127 in L7. rewrite L1, L7.
  change (2 ^ 7) with 128. change (2 ^ 1) with 2. change (2 ^ 8) with 256. split; mod_lia.
Qed.

(** The LI part: from [payload] on, the LIs and the data follow. *)
Lemma amd_lis_ok hd lis payload info :
  Forall is_li lis -> (length lis <= 128)%nat -> sumZ (fun x => x) lis < 32768 ->
  Z.of_nat (length payload) < 32768 -> pi_num_li info = 0 -> pi_li_list info = replicate 128 0 ->
  pi_header_size info = Z.of_nat (length hd) -> pi_e info = b2z (bool_decide (lis <> [])) ->
  pi_hidden_size info = 0 ->
  let data := hd ++ li_bytes lis ++ payload in
  let size := Z.of_nat (length payload) in
  let sum := sumZ (fun x => x) lis in
  ('(code, payload, sum_li, info) ←
    (if negb (pi_e info =? 0) then
       '(code, e_li, li_length_in_bytes, sum_li, info) ← read_e_lis 130 data (Z.of_nat (length hd)) 1 0 info;
       Ok (code, e_li + (if li_length_in_bytes =? 2 then 2 else 0), sum_li, info)
     else Ok (0, Z.of_nat (length hd), 0, info));
  if code <? 0 then Ok (code, info)
  else
    let info := info <| pi_payload := drop (Z.to_nat payload) data |>
                     <| pi_payload_size := i16 (Z.of_nat (length data) - pi_header_size info) |> in
    Ok (0, if pi_payload_size info >? sum_li
           then info <| pi_hidden_size := i16 (pi_payload_size info - sum_li) |> else info)) =
  Ok (0, info <| pi_num_li := Z.of_nat (length lis) |>
              <| pi_li_list := lis ++ replicate (128 - length lis) 0 |>
              <| pi_hidden_size := if size >? sum then size - sum else 0 |>
              <| pi_payload := payload |> <| pi_payload_size := size |>
              <| pi_header_size := Z.of_nat (length hd + li_length (length lis)) |>).
Proof.
  intros Hli H128 Hsum Hpay Hn Hl Hh He Hhid data size sum.
  assert (Hdrop : drop (length hd + li_length (length lis)) data = payload).
  { unfold data. rewrite <- (length_li_bytes lis), <- length_app, app_assoc. by rewrite drop_app_length. }
  assert (Hsz : Z.of_nat (length data) - Z.of_nat (length hd + li_length (length lis)) = size).
  { unfold data, size. rewrite !length_app, length_li_bytes. lia. }
  assert (Hsum0 : 0 <= sum).
  { apply sumZ_nonneg. intros x Hx. rewrite Forall_forall in Hli. destruct (Hli x Hx). lia. }
  destruct (decide (lis = [])) as [E | Hne].
  - rewrite He, bool_decide_eq_false_2 by tauto. cbn [b2z Z.eqb negb mbind res_bind].
    rewrite (proj2 (Z.ltb_ge 0 0)) by lia. subst lis. cbn [length] in Hdrop, Hsz. change (li_length 0) with 0%nat in *.
    rewrite Nat.add_0_r in *. rewrite Nat2Z.id, Hdrop, Hh, Hsz.
    cbn [pi_payload_size update_field]. change (sum) with 0. unfold i16.
    rewrite wraps_small by (change (2 ^ (16 - 1)) with 32768; lia). rewrite Z.sub_0_r.
    rewrite wraps_small by (change (2 ^ (16 - 1)) with 32768; lia).
    clear Hdrop Hsz; clearbody data size; destruct info; cbn in *; subst. by destruct (size >? 0).
  - rewrite He, bool_decide_eq_true_2 by done. cbn [b2z Z.eqb negb].
    destruct (read_e_lis_ok lis 130 hd payload 0 info [] (replicate (128 - length lis) 0) Hne Hli)
      as (e_li & len & Hrun & Hend); try (cbn [length]; lia).
    { rewrite Hl. cbn [app]. rewrite <- replicate_add. f_equal. lia. }
    fold data in Hrun. rewrite Hrun. cbn [mbind res_bind]. rewrite Hend.
    rewrite (proj2 (Z.ltb_ge 0 0)) by lia.
    rewrite Nat2Z.id, Hdrop. unfold infos_add. cbn [pi_header_size pi_payload_size update_field app length Nat.add].
    replace (pi_header_size info + Z.of_nat (li_length (length lis)))
      with (Z.of_nat (length hd + li_length (length lis))) by lia.
    rewrite Hsz, Z.add_0_l. fold sum. unfold i16.
    rewrite !(wraps_small 16) by (change (2 ^ (16 - 1)) with 32768; lia).
    clear Hdrop Hsz Hrun; clearbody data size sum; destruct info; cbn in *; subst. by destruct (size >? sum).
Qed.

(** Decoding the header of a well-formed AMD PDU gives its fields. *)
Lemma amd_header_ok p fi sn seg lis payload :
  amd_wf p fi sn seg lis payload ->
  rlc_am_get_data_pdu_infos (amd_bytes p fi sn seg lis payload)
    (Z.of_nat (length (amd_bytes p fi sn seg lis payload))) = Ok (0, amd_info p fi sn seg lis payload).
Proof.
  intros (Hp & Hfi & Hsn & Hseg & Hli & H128 & Hsum & Hpay).
  set (rf := b2z (bool_decide (is_Some seg))). set (e := b2z (bool_decide (lis <> []))).
  assert (Hrf : 0 <= rf < 2) by (apply b2z_range).
  assert (He : 0 <= e < 2) by (apply b2z_range).
  destruct (amd_b1_fields rf p fi e sn Hrf Hp Hfi He Hsn) as (B1 & B2 & B3 & B4 & B5 & B6).
  unfold rlc_am_get_data_pdu_infos.
  set (data := amd_bytes _ _ _ _ _ _).
  change (array_get data 0) with (Ok (amd_b1 rf p fi e sn)). cbn [mbind res_bind].
  rewrite B1. cbn [pi_d_c update_field Z.eqb negb assert_that mbind res_bind].
  change (array_get data 1) with (Ok (sn mod 256)). cbn [mbind res_bind].
  rewrite B2, B3, B4, B5, B6. cbn [pi_rf update_field].
  destruct seg as [[lsf so]|].
  - destruct Hseg as [Hlsf Hso]. destruct (seg_fields lsf so Hlsf Hso) as [S1 S2].
    change (negb (rf =? 0)) with true. cbv iota.
    change (array_get data 2) with (Ok (128 * lsf + so / 256)). cbn [mbind res_bind].
    change (array_get data 3) with (Ok (so mod 256)). cbn [mbind res_bind].
    rewrite S1, S2.
    change data with ([amd_b1 rf p fi e sn; sn mod 256; 128 * lsf + so / 256; so mod 256] ++ li_bytes lis ++ payload).
    rewrite (amd_lis_ok [_; _; _; _] lis payload) by done. do 2 f_equal.
    unfold amd_info, amd_header_size. cbn [length].
    replace (2 + 2 + Z.of_nat (li_length (length lis))) with (Z.of_nat (4 + li_length (length lis))) by lia.
    by destruct (bool_decide_reflect (lis <> [])).
  - change (negb (rf =? 0)) with false. cbv iota. cbn [mbind res_bind].
    change data with ([amd_b1 rf p fi e sn; sn mod 256] ++ li_bytes lis ++ payload).
    rewrite (amd_lis_ok [_; _] lis payload) by done. do 2 f_equal.
    unfold amd_info, amd_header_size. cbn [length].
    replace (2 + 0 + Z.of_nat (li_length (length lis))) with (Z.of_nat (2 + li_length (length lis))) by lia.
    by destruct (bool_decide_reflect (lis <> [])).
Qed.

(** C38: the header of a data PDU survives the wire.  For every AMD PDU or PDU
    segment (with its LSF and SO) of at most 128 LIs, laid out as 36.322 says,
    the parser of the receiver accepts the block and recovers the polling bit,
    FI, the sequence number, LSF, SO, the LIs in order and the payload. *)
Theorem amd_header_roundtrip p fi sn seg lis payload :
  amd_wf p fi sn seg lis payload ->
  rlc_am_get_data_pdu_infos (amd_bytes p fi sn seg lis payload)
    (Z.of_nat (length (amd_bytes p fi sn seg lis payload))) = Ok (0, amd_info p fi sn seg lis payload).
Proof. apply amd_header_ok. Qed.

Lemma amd_header_roundtrip_witness :
  amd_wf 1 2 700 (Some (1, 300)) [5; 6; 2047] [1; 2; 3] /\
  rlc_am_get_data_pdu_infos (amd_bytes 1 2 700 (Some (1, 300)) [5; 6; 2047] [1; 2; 3])
    (Z.of_nat (length (amd_bytes 1 2 700 (Some (1, 300)) [5; 6; 2047] [1; 2; 3]))) =
  Ok (0, amd_info 1 2 700 (Some (1, 300)) [5; 6; 2047] [1; 2; 3]).
Proof.
  assert (H : amd_wf 1 2 700 (Some (1, 300)) [5; 6; 2047] [1; 2; 3]).
  { unfold amd_wf, is_li. repeat split; try (repeat constructor); cbn; lia. }
  split; [exact H|]. exact (amd_header_roundtrip 1 2 700 (Some (1, 300)) [5; 6; 2047] [1; 2; 3] H).
Defined.
