(* ===== verification/RlcAmTransfer.v ===== *)
(** * One PDU, from the queue of SDUs to the transport block

    What [rlc_am_segment_10] puts in the transport block and what it leaves in
    the entity, in terms of the queue of SDUs and of the PDU format of
    RlcAmRxPdu. *)

From S2P Require Import Prelude Bits RlcAmTypes RlcAmEntity RlcAmWindows RlcAmTxBuffer RlcTimers RlcAmTimers.
From S2P Require Import RlcAmInSdu RlcAmLi RlcAmPolling RlcAmResegment RlcAmSegment.
From S2P Require Import RlcAmSegmentSpec RlcAmRxPdu.

(** ** Header byte and polling *)
Lemma segment_b1_ok fi n sn :
  0 <= fi < 4 -> is_sn sn -> 0 <= n ->
  segment_b1 fi n sn = amd_b1 0 0 fi (b2z (n >? 0)) sn.
Proof.
  intros Hfi Hsn Hn. unfold segment_b1, amd_b1, RLC_AM_PDU_SET_D_C, RLC_AM_PDU_SET_E, RLC_SET_BIT.
  unfold is_sn, RLC_AM_SN_MODULO in Hsn. rewrite Z.lor_0_l, Z.shiftr_div_pow2, !Z.shiftl_mul_pow2 by (done || lia).
  change (2 ^ RLC_AM_PDU_FI_OFFSET) with 8. change (1 * 2 ^ RLC_AM_PDU_E_OFFSET) with 4.
  change (1 * 2 ^ RLC_AM_PDU_D_C_OFFSET) with 128. change (2 ^ 8) with 256.
  assert (H4 : exists e, (if n >? 0 then u8 (Z.lor (u8 (fi * 8)) 4) else u8 (fi * 8)) = (fi * 2 + e) * 2 ^ 2 /\
                         e = b2z (n >? 0) /\ 0 <= e < 2).
  { unfold u8. rewrite (wrapu_small 8 (fi * 8)) by (change (2 ^ 8) with 256; lia).
    destruct (n >? 0); [exists 1 | exists 0]; cbn [b2z]; (split; [|lia]).
    - replace (fi * 8) with (fi * 2 ^ 3) by (change (2 ^ 3) with 8; lia).
      rewrite lor_low by (change (2 ^ 3) with 8; lia). change (2 ^ 3) with 8. change (2 ^ 2) with 4.
      rewrite wrapu_small; change (2 ^ 8) with 256; lia.
    - change (2 ^ 2) with 4. lia. }
  destruct H4 as (e & -> & <- & He). change (2 ^ 2) with 4.
  rewrite (Z.lor_comm _ 128). change 128 with (1 * 2 ^ 7).
  rewrite lor_low by (change (2 ^ 7) with 128; lia). change (2 ^ 7) with 128.
  unfold u8. rewrite (wrapu_small 8 (1 * 128 + (fi * 2 + e) * 4)) by (change (2 ^ 8) with 256; lia).
  replace (1 * 128 + (fi * 2 + e) * 4) with ((32 + fi * 2 + e) * 2 ^ 2) by (change (2 ^ 2) with 4; lia).
  rewrite lor_low by (change (2 ^ 2) with 4; mod_lia). change (2 ^ 2) with 4.
  rewrite wrapu_small; change (2 ^ 8) with 256; mod_lia.
Qed.

Lemma amd_b1_range rf p fi e sn :
  0 <= rf < 2 -> 0 <= p < 2 -> 0 <= fi < 4 -> 0 <= e < 2 -> is_sn sn -> 0 <= amd_b1 rf p fi e sn < 256.
Proof. unfold amd_b1, is_sn, RLC_AM_SN_MODULO. intros. mod_lia. Qed.

Lemma set_poll_b1 rf fi e sn :
  0 <= rf < 2 -> 0 <= fi < 4 -> 0 <= e < 2 -> is_sn sn ->
  u8 (RLC_AM_PDU_SET_POLL (amd_b1 rf 0 fi e sn)) = amd_b1 rf 1 fi e sn /\
  u8 (RLC_AM_PDU_CLEAR_POLL (amd_b1 rf 0 fi e sn)) = amd_b1 rf 0 fi e sn.
Proof.
  intros Hrf Hfi He Hsn. pose proof (amd_b1_range rf 0 fi e sn Hrf ltac:(lia) Hfi He Hsn) as Hr.
  pose proof (amd_b1_range rf 1 fi e sn Hrf ltac:(lia) Hfi He Hsn) as Hr1.
  assert (H5 : Z.land (amd_b1 rf 0 fi e sn) 32 = 0).
  { change 32 with (2 ^ 5) at 1. rewrite land_bit by lia.
    assert (E : (amd_b1 rf 0 fi e sn / 2 ^ 5) mod 2 = 0); [|by rewrite E].
    unfold amd_b1, is_sn, RLC_AM_SN_MODULO in *. change (2 ^ 5) with 32. mod_lia. }
  unfold RLC_AM_PDU_SET_POLL, RLC_AM_PDU_CLEAR_POLL, RLC_SET_BIT, RLC_CLEAR_BIT.
  change (Z.shiftl 1 RLC_AM_PDU_POLL_OFFSET) with 32. split.
  - rewrite <- Z.add_nocarry_lor by done.
    replace (amd_b1 rf 0 fi e sn + 32) with (amd_b1 rf 1 fi e sn) by (unfold amd_b1; lia).
    by apply wrapu_small.
  - assert (E : Z.land (amd_b1 rf 0 fi e sn) (Z.lnot 32) = amd_b1 rf 0 fi e sn).
    { rewrite <- Z.ldiff_land. rewrite <- (Z.lor_ldiff_and (amd_b1 rf 0 fi e sn) 32) at 2.
      by rewrite H5, Z.lor_0_r. }
    rewrite E. by apply wrapu_small.
Qed.

(** Polling only changes these fields of the entity, and the P bit. *)
Definition poll_changed (r r' : rlc_am_entity_t) : Prop :=
  r' = r <| c_pdu_without_poll := c_pdu_without_poll r' |>
         <| c_byte_without_poll := c_byte_without_poll r' |> <| poll_sn := poll_sn r' |>
         <| force_poll := force_poll r' |> <| t_poll_retransmit := t_poll_retransmit r' |>.

Lemma polling_amd c r fi e sn n new :
  0 <= fi < 4 -> 0 <= e < 2 -> is_sn sn ->
  exists r' p, 0 <= p < 2 /\ poll_changed r r' /\
    rlc_am_pdu_polling c r (amd_b1 0 0 fi e sn) n new = (r', amd_b1 0 p fi e sn).
Proof.
  intros Hfi He Hsn. destruct (set_poll_b1 0 fi e sn ltac:(lia) Hfi He Hsn) as [E1 E2].
  unfold rlc_am_pdu_polling, rlc_am_start_timer_poll_retransmit. rewrite E1, E2.
  set (r1 := if new then _ else r).
  assert (H1 : r1 = r <| c_pdu_without_poll := c_pdu_without_poll r1 |>
                      <| c_byte_without_poll := c_byte_without_poll r1 |>).
  { unfold r1. destruct new; [|by destruct r]. destruct (negb (poll_pdu r =? _));
      cbn [poll_byte update_field]; destruct (negb (poll_byte r =? _)); by destruct r. }
  match goal with |- context [if ?b then (_, amd_b1 0 1 _ _ _) else _] => destruct b end.
  - match goal with |- context [if ?b then _ else _] => destruct b end;
      eexists _, 1; (split; [lia|]); (split; [|reflexivity]); unfold poll_changed;
      rewrite H1; by destruct r.
  - exists r1, 0. split; [lia|]. split; [|done]. unfold poll_changed. rewrite H1. by destruct r.
Qed.

(** ** The PDU *)

Lemma remaining_link sn n q :
  map sdu_remaining_size (map (link_sdu sn) (take n q) ++ drop n q) = map sdu_remaining_size q.
Proof.
  revert n. induction q as [|s q IH]; intros [|n]; try done. cbn [take drop map app]. f_equal. apply IH.
Qed.
Lemma pdu_data_link sn m x n q : pdu_data m x (map (link_sdu sn) (take n q) ++ drop n q) = pdu_data m x q.
Proof.
  revert m n. induction q as [|s q IH]; intros m [|n]; try done. cbn [take drop map app].
  destruct m as [|m]; [done|]. cbn [pdu_data]. by rewrite IH.
Qed.
Lemma pdu_full_link sn m x n q : pdu_full m x (map (link_sdu sn) (take n q) ++ drop n q) = pdu_full m x q.
Proof.
  revert m n. induction q as [|s q IH]; intros m [|n]; try done. cbn [take drop map app].
  destruct m as [|m]; [done|]. apply (IH m n).
Qed.
Lemma sdu_wf_link sn n q : Forall sdu_wf q -> Forall sdu_wf (map (link_sdu sn) (take n q) ++ drop n q).
Proof.
  intros H. revert n. induction H as [|s q Hs Hq IH]; intros [|n]; try done.
  - by constructor.
  - cbn [take drop map app]. constructor; [exact Hs|apply IH].
Qed.
Lemma take_link sn (P : tx_sdu -> Prop) m n q : (forall s, P s -> P (link_sdu sn s)) ->
  Forall P (take m q) -> Forall P (take m (map (link_sdu sn) (take n q) ++ drop n q)).
Proof.
  intros HP. revert m n. induction q as [|s q IH]; intros [|m] [|n] H; try done.
  cbn [take drop map app] in *. apply Forall_cons in H as [Hs H]. constructor; [by apply HP|by apply IH].
Qed.

Lemma length_pdu_data m x q s :
  Forall sdu_wf q -> q !! m = Some s -> 0 <= x <= sdu_remaining_size s ->
  Z.of_nat (length (pdu_data m x q)) = sumZ (fun n => n) (take m (map sdu_remaining_size q)) + x.
Proof.
  revert m. induction q as [|s' q IH]; intros [|m] Hwf Hs Hx; try discriminate Hs;
    apply Forall_cons in Hwf as [Hwf1 Hwf].
  - injection Hs as ->. cbn [pdu_data map take sumZ foldr]. rewrite length_take_left by done. lia.
  - cbn [pdu_data map take]. rewrite length_app, Nat2Z.inj_add, length_bytes_left by done.
    rewrite (IH m Hwf Hs Hx). change (sumZ _ (?a :: ?l)) with (a + sumZ (fun n => n) l). lia.
Qed.

(** The queue of the entity, with its accounting. *)
Definition seg_queue (r : rlc_am_entity_t) (q : list tx_sdu) : Prop :=
  (exists l, input_sdus r = Some l /\ length l = 1024%nat /\ queue_at l (current_sdu_index r) q) /\
  is_cell (current_sdu_index r) /\ (length q < 1024)%nat /\ Forall sdu_wf q /\
  sdu_buffer_occupancy r = sumZ sdu_remaining_size q /\ nb_sdu_no_segmented r = Z.of_nat (length q).

(** The plan of the PDU that [rlc_am_segment_10] builds. *)
Definition segment_plan (r : rlc_am_entity_t) (q : list tx_sdu) : option (nat * Z * Z) :=
  pdu_plan (segment_data_pdu_size r (nb_bytes_requested_by_mac r) - 2) 0 (map sdu_remaining_size q).

Lemma sumZ_map {A B} (f : B -> Z) (g : A -> B) l : sumZ f (map g l) = sumZ (fun x => f (g x)) l.
Proof. induction l as [|x l IH]; [done|]. cbn [map]. change (f (g x) + sumZ f (map g l) = f (g x) + sumZ (fun x => f (g x)) l). by rewrite IH. Qed.

Lemma occupancy_pos r q : seg_queue r q -> q <> [] -> 0 < sdu_buffer_occupancy r.
Proof.
  intros (_ & _ & _ & Hwf & Ho & _) Hne. rewrite Ho. destruct q as [|s q]; [done|].
  apply Forall_cons in Hwf as [Hs Hq]. pose proof (sdu_wf_remaining _ Hs).
  change (sumZ _ (s :: q)) with (sdu_remaining_size s + sumZ sdu_remaining_size q).
  assert (0 <= sumZ sdu_remaining_size q); [|lia]. apply sumZ_nonneg. intros y Hy.
  rewrite Forall_forall in Hq. pose proof (sdu_wf_remaining _ (Hq y Hy)). lia.
Qed.

Lemma segment_size_bounds r q :
  seg_queue r q -> q <> [] -> 2 < nb_bytes_requested_by_mac r ->
  let size := segment_data_pdu_size r (nb_bytes_requested_by_mac r) in
  2 < size <= nb_bytes_requested_by_mac r /\
  size - 2 <= sumZ (fun n => n) (map sdu_remaining_size q) + Z.of_nat (li_length (length q - 1)).
Proof.
  intros Hsq Hne Hnb size. pose proof (occupancy_pos r q Hsq Hne) as Ho0. destruct Hsq as (_ & _ & _ & Hwf & Ho & Hn).
  assert (Hsz : sumZ (fun n => n) (map sdu_remaining_size q) = sdu_buffer_occupancy r)
    by (rewrite sumZ_map; by rewrite Ho).
  assert (Hov : (if nb_sdu_no_segmented r <=? 1 then 0
                 else RLC_AM_HEADER_LI_LENGTH (nb_sdu_no_segmented r - 1)) = Z.of_nat (li_length (length q - 1))).
  { rewrite Hn. destruct q as [|s q]; [done|]. cbn [length]. rewrite Nat.sub_succ, Nat.sub_0_r.
    destruct (Z.leb_spec (Z.of_nat (S (length q))) 1).
    - assert (length q = 0%nat) as -> by lia. done.
    - replace (Z.of_nat (S (length q)) - 1) with (Z.of_nat (length q)) by lia. apply li_length_macro. }
  unfold size, segment_data_pdu_size. rewrite Hov, Hsz. unfold RLC_AM_HEADER_MIN_SIZE.
  rewrite Z.geb_leb. destruct (Z.leb_spec (sdu_buffer_occupancy r + 2 + Z.of_nat (li_length (length q - 1)))
    (nb_bytes_requested_by_mac r)); lia.
Qed.

(** The plan exists: the condition that ends in [assert(1 != 1)] is never met. *)
Lemma segment_plan_some r q :
  seg_queue r q -> q <> [] -> 2 < nb_bytes_requested_by_mac r -> is_Some (segment_plan r q).
Proof.
  intros Hq Hne Hnb. destruct (segment_size_bounds r q Hq Hne Hnb) as [H1 H2].
  apply pdu_plan_total; [by destruct q|]. rewrite length_map. change (li_length 0) with 0%nat.
  rewrite Nat.add_0_l. lia.
Qed.

(** ** The header, the transmission buffer and the copy for MAC *)

Lemma next_sn_mask sn : Z.land (sn + 1) RLC_AM_SN_MASK = RLC_AM_NEXT_SN sn.
Proof. done. Qed.

(** [body] is what follows the two bytes of the fixed header, [rest] the end of
    the memory block behind the PDU. *)
Lemma segment_finish_ok c size fi off pdu s b0 b1 body rest :
  let r := fl_entity s in
  let sn := vt_s r in
  0 <= fi < 4 -> is_sn sn -> 0 <= fl_num_li s -> length (tx_data_pdu_buffer r) = 512%nat ->
  fl_pdu_remaining_size s = 0 -> fl_bytes s = b0 :: b1 :: body ++ rest -> size = 2 + Z.of_nat (length body) ->
  size < RLC_SDU_MAX_SIZE ->
  let r1 := (stat_add stat_tx_data_bytes size (stat_add stat_tx_data_pdu 1 r))
              <| vt_s := RLC_AM_NEXT_SN sn |> in
  exists r2 p, 0 <= p < 2 /\ poll_changed r1 r2 /\
    let bytes := amd_b1 0 p fi (b2z (fl_num_li s >? 0)) sn :: sn mod 256 :: body in
    segment_finish c size fi off pdu s =
      Ok (r2 <| tx_data_pdu_buffer := <[Z.to_nat (tx_index sn) :=
                  pdu <| pdu_payload := off |> <| pdu_payload_size := fl_payload_size s |>
                    <| pdu_mem_block := Some (bytes ++ rest) |> <| header_and_payload_size := size |>
                    <| retx_count := 0 |> <| retx_count_next := 0 |>
                    <| pdu_flags := (pdu_flags pdu) <| retransmit := false |> <| transmitted := true |> |>
                    <| pdu_sn := sn |>]> (tx_data_pdu_buffer r) |>
             <| segmentation_pdu_list := segmentation_pdu_list r ++ [Mk_mac_tb bytes size] |>).
Proof.
  intros r sn Hfi Hsn Hnum Hbuf Hrem Hb Hsize Hmax r1.
  destruct (polling_amd c r1 fi (b2z (fl_num_li s >? 0)) sn (fl_payload_size s) true Hfi ltac:(apply b2z_range) Hsn)
    as (r2 & p & Hp & Hch & E).
  exists r2, p. split; [done|]. split; [done|]. intros bytes. unfold segment_finish. fold r. fold sn.
  rewrite Hrem, Z.sub_0_r, (proj2 (Z.ltb_lt _ _) Hmax), segment_b1_ok by done.
  cbn [assert_that mbind res_bind]. cbn [vt_s update_field stat_add]. fold sn. rewrite next_sn_mask.
  fold (stat_add stat_tx_data_pdu 1 r). fold r1.
  match goal with |- context [rlc_am_pdu_polling c ?x] => replace x with r1 by done end.
  rewrite E, Hb. rewrite array_set_ok by (cbn [length]; lia). cbn [mbind res_bind].
  rewrite array_set_ok by (rewrite length_insert; cbn [length]; lia). cbn [mbind res_bind].
  change (<[Z.to_nat 1 := Z.land sn 255]> (<[Z.to_nat 0 := ?b]> (b0 :: b1 :: body ++ rest)))
    with ((b :: Z.land sn 255 :: body) ++ rest).
  rewrite land255. fold bytes.
  assert (Evt : vt_s r2 = RLC_AM_NEXT_SN sn) by (unfold poll_changed in Hch; by rewrite Hch).
  assert (Ebuf : tx_data_pdu_buffer r2 = tx_data_pdu_buffer r) by (unfold poll_changed in Hch; by rewrite Hch).
  assert (Eseg : segmentation_pdu_list r2 = segmentation_pdu_list r) by (unfold poll_changed in Hch; by rewrite Hch).
  rewrite Evt, RLC_AM_PREV_NEXT by done.
  assert (Hidx : 0 <= tx_index sn < 512) by (apply tx_index_range; unfold is_sn in Hsn; lia).
  rewrite set_tx_pdu_ok by (try (by rewrite Ebuf); unfold is_sn in Hsn; lia). cbn [mbind res_bind].
  cbn [vt_s update_field]. rewrite Evt, RLC_AM_PREV_NEXT by done.
  unfold rlc_am_retransmit_get_copy, get_tx_pdu. cbn [tx_data_pdu_buffer update_field]. rewrite Ebuf.
  unfold array_get. rewrite (proj2 (Z.leb_le _ _)) by lia.
  rewrite list_lookup_insert_eq by lia. cbn [mbind res_bind pdu_mem_block update_field is_null negb assert_that deref
    header_and_payload_size].
  rewrite mem_read_ok by (rewrite ?length_app; unfold bytes; cbn [length]; lia). cbn [mbind res_bind].
  rewrite Z2Nat.inj_0, drop_0, take_app_length' by (unfold bytes; cbn [length]; lia).
  cbn [segmentation_pdu_list update_field]. by rewrite Eseg.
Qed.

(** ** The whole function *)

(** The parts of the PDU that the plan [(m, x, d)] gives for the queue [q]. *)
Definition seg_lis (m : nat) (q : list tx_sdu) : list Z := map sdu_remaining_size (take m q).
Definition first_fresh (q : list tx_sdu) : bool :=
  match q with s :: _ => sdu_remaining_size s =? sdu_size s | [] => true end.
Definition seg_fi (m : nat) (x : Z) (q : list tx_sdu) : Z :=
  (if first_fresh q then 0 else 2) + (if pdu_full m x q then 0 else 1).
(** [pad] is what the memory block held in the bytes that are left over. *)
Definition seg_payload (m : nat) (x : Z) (pad : list Z) (q : list tx_sdu) : list Z :=
  pdu_data m x q ++ pad.

(** The memory block, its first four bytes cleared: the [d] bytes left over at
    the end of a PDU of [size] bytes, and what follows it. *)
Definition pdu_memory (mem : list Z) : list Z := replicate 4 0 ++ drop 4 mem.
Definition pdu_padding (size d : Z) (mem : list Z) : list Z :=
  drop (Z.to_nat (size - d)) (take (Z.to_nat size) (pdu_memory mem)).
Definition pdu_slack (size : Z) (mem : list Z) : list Z := drop (Z.to_nat size) (pdu_memory mem).

(** The entity with the ring [l], after [rlc_am_segment_10] took the data of a
    PDU and before it made the PDU. *)
Definition seg_consumed (m : nat) (x : Z) (q l : list tx_sdu) (r : rlc_am_entity_t) : rlc_am_entity_t :=
  consume (pdu_full m x q) m x (Z.of_nat (length (pdu_data m x q)))
    (alter_run (link_sdu (vt_s r)) (S m) (current_sdu_index r) l) r.

(** The entry of the transmission buffer. *)
Definition seg_tx_pdu (p : Z) (m : nat) (x : Z) (pad rest : list Z) (q : list tx_sdu) (idx : list Z) (sn : Z)
  : rlc_am_tx_data_pdu_management_t :=
  let bytes := amd_bytes p (seg_fi m x q) sn None (seg_lis m q) (seg_payload m x pad q) in
  tx_pdu_zero <| sdus_index := idx |> <| nb_sdus := Z.of_nat (S m) |>
    <| pdu_payload := 2 + Z.of_nat (li_length m) |>
    <| pdu_payload_size := Z.of_nat (length (pdu_data m x q)) |>
    <| pdu_mem_block := Some (bytes ++ rest) |> <| header_and_payload_size := Z.of_nat (length bytes) |>
    <| pdu_flags := Mk_pdu_flags true false false false false |> <| pdu_sn := sn |>.

(** What segmentation needs, beyond a queue: the LI field has 11 bits, 32
    references to the PDUs of an SDU and 127 LIs at most. *)
Definition seg_limits (m : nat) (q : list tx_sdu) : Prop :=
  (m <= 126)%nat /\ Forall (fun s => sdu_remaining_size s < 2048) (take m q) /\
  Forall sdu_linkable (take (S m) q).

Lemma seg_fi_range m x q : 0 <= seg_fi m x q < 4.
Proof. unfold seg_fi. destruct (first_fresh q), (pdu_full m x q); lia. Qed.
Lemma length_seg_lis m q : (m <= length q)%nat -> length (seg_lis m q) = m.
Proof. intros H. unfold seg_lis. rewrite length_map, length_take. lia. Qed.

Lemma plan_size T q m x d :
  Forall sdu_wf q -> 0 < T -> pdu_plan T 0 (map sdu_remaining_size q) = Some (m, x, d) ->
  (m < length q)%nat /\ 0 < x /\ 0 <= d <= 2 /\
  T = Z.of_nat (length (pdu_data m x q)) + Z.of_nat (li_length m) + d.
Proof.
  intros Hwf HT Hplan. destruct (pdu_plan_spec _ _ _ _ _ _ Hplan HT (remaining_pos _ Hwf))
    as (n & Hn & Hx & Hd & _ & Hsum).
  rewrite list_lookup_fmap in Hn. destruct (q !! m) as [s|] eqn:Hs; [|discriminate Hn].
  injection Hn as <-. rewrite (length_pdu_data m x q s) by (done || lia).
  split; [by eapply lookup_lt_Some|]. split; [lia|]. split; [lia|].
  change (li_length 0) with 0%nat in Hsum. rewrite Nat.add_0_l in Hsum. lia.
Qed.

Lemma length_amd_bytes p fi sn lis payload :
  length (amd_bytes p fi sn None lis payload) = (2 + li_length (length lis) + length payload)%nat.
Proof. unfold amd_bytes. cbn [length app]. rewrite length_app, length_li_bytes. lia. Qed.

Lemma length_pdu_memory mem : (4 <= length mem)%nat -> length (pdu_memory mem) = length mem.
Proof. intros H. unfold pdu_memory. rewrite length_app, length_replicate, length_drop. lia. Qed.
Lemma length_pdu_padding size d mem :
  0 <= d <= size -> 4 <= Z.of_nat (length mem) -> size <= Z.of_nat (length mem) ->
  Z.of_nat (length (pdu_padding size d mem)) = d.
Proof.
  intros Hd H4 Hs. unfold pdu_padding. rewrite length_drop, length_take, length_pdu_memory by lia. lia.
Qed.
Lemma pdu_memory_end size d mem :
  0 <= d <= size -> drop (Z.to_nat (size - d)) (pdu_memory mem) = pdu_padding size d mem ++ pdu_slack size mem.
Proof.
  intros Hd. unfold pdu_padding, pdu_slack. rewrite <- (take_drop (Z.to_nat size) (pdu_memory mem)) at 1.
  destruct (Nat.le_gt_cases (Z.to_nat size) (length (pdu_memory mem))).
  - rewrite drop_app_le by (rewrite length_take; lia). done.
  - rewrite (drop_ge (pdu_memory mem) (Z.to_nat size)) by lia. by rewrite !app_nil_r.
Qed.
Lemma clear_memory mem : (4 <= length mem)%nat -> mem_write mem 0 (replicate 4 0) = Ok (pdu_memory mem).
Proof. intros H. rewrite mem_write_ok by (rewrite ?length_replicate; lia). done. Qed.
(** The block at the start of the second loop. *)
Lemma pdu_memory_parts mem n : (n + 2 <= length (pdu_memory mem))%nat ->
  pdu_memory mem = [0; 0] ++ take n (drop 2 (pdu_memory mem)) ++ [] ++ drop (2 + n) (pdu_memory mem).
Proof.
  intros H. rewrite <- drop_drop, app_nil_l, take_drop. done.
Qed.

Lemma segment_10_ok c mem r q m x d :
  seg_queue r q -> q <> [] -> 2 < nb_bytes_requested_by_mac r ->
  segment_plan r q = Some (m, x, d) -> seg_limits m q -> is_sn (vt_s r) ->
  length (tx_data_pdu_buffer r) = 512%nat ->
  let size := segment_data_pdu_size r (nb_bytes_requested_by_mac r) in
  size < RLC_SDU_MAX_SIZE -> 4 <= Z.of_nat (length mem) -> size <= Z.of_nat (length mem) ->
  exists l idx r2 p,
    let sn := vt_s r in
    let pad := pdu_padding size d mem in
    let tb := amd_bytes p (seg_fi m x q) sn None (seg_lis m q) (seg_payload m x pad q) in
    let pdu := seg_tx_pdu p m x pad (pdu_slack size mem) q idx sn in
    let r1 := seg_consumed m x q l r in
    input_sdus r = Some l /\ 0 <= p < 2 /\ refers idx (replicate 128 0) 0 (current_sdu_index r) (S m) /\
    poll_changed ((stat_add stat_tx_data_bytes (header_and_payload_size pdu)
                     (stat_add stat_tx_data_pdu 1 r1)) <| vt_s := RLC_AM_NEXT_SN sn |>) r2 /\
    rlc_am_segment_10 c (Some mem) r =
      Ok (r2 <| tx_data_pdu_buffer := <[Z.to_nat (tx_index sn) := pdu]> (tx_data_pdu_buffer r) |>
             <| segmentation_pdu_list := segmentation_pdu_list r ++
                  [Mk_mac_tb tb (header_and_payload_size pdu)] |>).
Proof.
  intros Hsq Hne Hnb Hplan (Hm & Hli & Hlk) Hsn Hbuf size Hmax Hmem4 Hmems.
  destruct (segment_size_bounds r q Hsq Hne Hnb) as [Hsz Hsz2]. fold size in Hsz, Hsz2.
  pose proof Hsq as ((l & Hl & Hlen & Hq) & Hc & Hlq & Hwf & Hocc & Hcount).
  destruct (plan_size (size - 2) _ _ _ _ Hwf ltac:(lia) Hplan) as (Hmq & Hx & Hd & HT).
  set (n := length (pdu_data m x q)) in *. set (sn := vt_s r) in *.
  assert (Eq : exists s0 q0, q = s0 :: q0) by (destruct q; [done|by eexists _, _]).
  destruct Eq as (s0 & q0 & Eq).
  pose proof Hq as Hq'. rewrite Eq in Hq'. destruct Hq' as [Hs0 _].
  assert (Hwf0 : sdu_wf s0) by (rewrite Eq in Hwf; by apply Forall_cons in Hwf as [? _]).
  pose proof Hwf0 as (mem0 & Hmem0 & _). pose proof (sdu_wf_remaining _ Hwf0).
  pose proof (occupancy_pos r q Hsq Hne) as Hoc.
  (* the first loop *)
  destruct (size_loop_ok 129 (size_start r size) l (current_sdu_index r) q 0 m x d)
    as (sz & idx & Z1 & Z2 & Z3 & Z4 & Z5 & Z6 & Z7);
    try first [assumption | reflexivity | exact Hplan | cbn; lia].
  cbn [size_start sz_entity sz_pdu sz_pdu_remaining_size sz_test_num_li nb_sdus sdus_index tx_pdu_zero
    update_field] in Z2, Z3, Z4, Z5, Z6.
  change (Z.to_nat 0) with 0%nat in Z4. rewrite Z.add_0_l in Z3, Z6. fold sn in Z2.
  set (l1 := alter_run (link_sdu sn) (S m) (current_sdu_index r) l) in *.
  set (q1 := map (link_sdu sn) (take (S m) q) ++ drop (S m) q).
  assert (Hq1 : queue_at l1 (current_sdu_index r) q1) by (apply queue_at_run; [done|lia|done]).
  assert (Hlen1 : length l1 = 1024%nat) by (unfold l1; by rewrite length_alter_run).
  assert (Hwf1 : Forall sdu_wf q1) by (by apply sdu_wf_link).
  assert (Hrem1 : map sdu_remaining_size q1 = map sdu_remaining_size q) by apply remaining_link.
  assert (Hd1 : pdu_data m x q1 = pdu_data m x q) by apply pdu_data_link.
  assert (Hf1 : pdu_full m x q1 = pdu_full m x q) by apply pdu_full_link.
  assert (Hlq1 : length q1 = length q)
    by (rewrite <- (length_map sdu_remaining_size), Hrem1; apply length_map).
  set (r0 := r <| input_sdus := Some l1 |>) in *.
  (* the second loop *)
  pose proof (length_pdu_memory mem ltac:(lia)) as Hlm.
  set (fl0 := Mk_fill_state r0 (pdu_memory mem) (2 + Z.of_nat (li_length m)) 2 1 0
                (size - 2 - d) 0 false true).
  set (area := take (li_length m) (drop 2 (pdu_memory mem))).
  set (tail := drop (2 + li_length m) (pdu_memory mem)).
  assert (Hlarea : length area = li_length m) by (unfold area; rewrite length_take, length_drop; lia).
  destruct (fill_loop_ok 129 fl0 l1 q1 m [0; 0] [] area [] tail m x d)
    as (fl & F1 & F2 & F3 & F4 & F5 & F6 & F7);
    lazymatch goal with |- exists _, _ => idtac | _ => rewrite ?Hrem1, ?Hlq1; try done; try (cbn; lia) end.
  { unfold fl0. cbn [fl_pdu_remaining_size]. rewrite <- Hplan. unfold segment_plan. fold size. f_equal. lia. }
  { apply take_link; [done|done]. }
  { apply pdu_memory_parts. lia. }
  { by apply li_area_start. }
  { unfold tail. rewrite length_drop. cbn [length fl0 fl_pdu_remaining_size]. change (li_length 0) with 0%nat. lia. }
  cbn zeta in F2, F3, F4. rewrite Hd1, ?Hf1 in *. fold n in F2, F3, F4. cbn [app] in F3. 
  change (fl_payload_size fl0) with 0 in F4. rewrite Z.add_0_l in F4. change (fl_entity fl0) with r0 in F2.
  assert (Htail : drop n tail = pdu_padding size d mem ++ pdu_slack size mem).
  { rewrite <- pdu_memory_end by lia. unfold tail. rewrite drop_drop. f_equal. lia. }
  rewrite Htail in F3. set (pad := pdu_padding size d mem) in *. set (slack := pdu_slack size mem) in *.
  assert (Hlpad : Z.of_nat (length pad) = d) by (apply length_pdu_padding; lia).
  assert (El : map sdu_remaining_size (take m q1) = seg_lis m q).
  { unfold seg_lis. rewrite <- !firstn_map, Hrem1. done. }
  rewrite El in F3.
  assert (Hllis : length (seg_lis m q) = m) by (apply length_seg_lis; lia).
  set (body := li_bytes (seg_lis m q) ++ seg_payload m x pad q).
  assert (Hbody : fl_bytes fl = 0 :: 0 :: body ++ slack).
  { rewrite F3. unfold body, seg_payload. cbn [app]. by rewrite <- !app_assoc. }
  assert (Hlbody : size = 2 + Z.of_nat (length body)).
  { unfold body, seg_payload. rewrite !length_app, length_li_bytes, Hllis. fold n. lia. }
  assert (E0 : fl_entity fl = seg_consumed m x q l r).
  { rewrite F2. unfold seg_consumed. fold n. fold sn l1. unfold r0, consume. done. }
  assert (Evt : vt_s (fl_entity fl) = sn) by (by rewrite E0).
  assert (Ebuf : tx_data_pdu_buffer (fl_entity fl) = tx_data_pdu_buffer r) by (by rewrite E0).
  assert (Eseg : segmentation_pdu_list (fl_entity fl) = segmentation_pdu_list r) by (by rewrite E0).
  set (off := 2 + Z.of_nat (li_length m)).
  destruct (segment_finish_ok c size (seg_fi m x q) off (sz_pdu sz) fl 0 0 body slack) as (r2 & p & P1 & P2 & P3);
    rewrite ?Evt, ?Ebuf; try done; try apply seg_fi_range; [lia|].
  rewrite Evt, Ebuf, Eseg, F4, F5 in P3. rewrite Evt, E0 in P2.
  assert (Ebytes : amd_b1 0 p (seg_fi m x q) (b2z (Z.of_nat m >? 0)) sn :: sn mod 256 :: body =
    amd_bytes p (seg_fi m x q) sn None (seg_lis m q) (seg_payload m x pad q)).
  { unfold amd_bytes, body. rewrite bool_decide_false by (by intros [? ?]). do 2 f_equal.
    f_equal. rewrite Z.gtb_ltb. destruct (Z.ltb_spec 0 (Z.of_nat m)) as [Hlt | Hge].
    - rewrite bool_decide_true; [done|]. intros E. rewrite E in Hllis. cbn in Hllis. lia.
    - rewrite bool_decide_false; [done|]. intros E. apply E. destruct (seg_lis m q); [done|].
      cbn in Hllis. lia. }
  exists l, idx, r2, p. split; [done|]. split; [done|]. split; [done|].
  assert (Esize : header_and_payload_size (seg_tx_pdu p m x pad slack q idx sn) = size).
  { unfold seg_tx_pdu. cbn [header_and_payload_size update_field].
    rewrite <- Ebytes. cbn [length]. lia. }
  rewrite Esize. split; [done|].
  unfold rlc_am_segment_10. rewrite (proj2 (Z.leb_gt _ _)) by lia.
  rewrite (get_sdu_queue _ l _ s0) by done. cbn [mbind res_bind]. rewrite Hmem0. cbn [is_null negb andb].
  rewrite Z.gtb_ltb, (proj2 (Z.ltb_lt _ _)) by lia. fold size.
  rewrite clear_memory by lia. cbn [mbind res_bind]. rewrite Z1. cbn [mbind res_bind].
  unfold size_result. rewrite Z7. cbn [Z.gtb Z.compare]. rewrite Z6, Z5, Z2.
  change (Z.of_nat m * 3 + 1) with (Z.of_nat m * 3 + 1). rewrite li_length_offset.
  change (current_sdu_index r0) with (current_sdu_index r).
  assert (Hfirst : exists s1, get_sdu r0 (current_sdu_index r) = Ok s1 /\
    (sdu_remaining_size s1 =? sdu_size s1) = first_fresh q).
  { destruct q1 as [|s1 q1'] eqn:Eq1; [rewrite Eq in Hlq1; discriminate Hlq1|]. destruct Hq1 as [Hs1 _].
    exists s1. split; [by apply (get_sdu_queue _ l1)|].
    unfold q1 in Eq1. rewrite Eq in Eq1. cbn [take map app] in Eq1. injection Eq1 as <- _. by rewrite Eq. }
  destruct Hfirst as (s1 & G1 & G2). rewrite G1. cbn [mbind res_bind].
  fold r0. unfold RLC_AM_HEADER_MIN_SIZE. fold fl0. rewrite F1. cbn [mbind res_bind].
  rewrite G2, F7. fold (seg_fi m x q). fold off. rewrite P3, Ebytes, Z3.
  unfold seg_tx_pdu. fold n.
  change (Z.of_nat (length (amd_bytes p (seg_fi m x q) sn None (seg_lis m q) (seg_payload m x pad q))) = size)
    in Esize. rewrite Esize. done.
Qed.

(** ** The queue that is left *)

Definition seg_rest (sn : Z) (m : nat) (x : Z) (q : list tx_sdu) : list tx_sdu :=
  if pdu_full m x q then drop (S m) q
  else match drop m q with s :: q' => seg_part x (link_sdu sn s) :: q' | [] => [] end.

Lemma alter_end_run g m i l :
  is_cell i -> alter_end g m i l = alter g (Z.to_nat ((i + Z.of_nat m) mod 1024)) (alter_run seg_done m i l).
Proof.
  revert i l. induction m as [|m IH]; intros i l Hi; cbn [alter_end alter_run].
  - by rewrite Z.add_0_r, Z.mod_small by (unfold is_cell in Hi; lia).
  - rewrite IH by apply next_cell_range. by rewrite next_cell_add.
Qed.
Lemma alter_run_snoc g m i l :
  is_cell i -> alter_run g (S m) i l = alter g (Z.to_nat ((i + Z.of_nat m) mod 1024)) (alter_run g m i l).
Proof.
  revert i l. induction m as [|m IH]; intros i l Hi.
  - cbn [alter_run]. by rewrite Z.add_0_r, Z.mod_small by (unfold is_cell in Hi; lia).
  - change (alter_run g (S (S m)) i l) with (alter_run g (S m) (next_cell i) (alter g (Z.to_nat i) l)).
    rewrite IH by apply next_cell_range. cbn [alter_run]. by rewrite next_cell_add.
Qed.
Lemma drop_S_lookup {A} (l : list A) n x : l !! n = Some x -> drop n l = x :: drop (S n) l.
Proof. apply drop_S. Qed.

Lemma lookup_link sn n q i s :
  q !! i = Some s -> (i < n)%nat -> (map (link_sdu sn) (take n q) ++ drop n q) !! i = Some (link_sdu sn s).
Proof.
  intros Hs Hi. rewrite lookup_app_l.
  - rewrite list_lookup_fmap, lookup_take_lt, Hs by done. done.
  - apply lookup_lt_Some in Hs. rewrite length_map, length_take. lia.
Qed.
Lemma drop_link sn n q : (n <= length q)%nat -> drop n (map (link_sdu sn) (take n q) ++ drop n q) = drop n q.
Proof. intros H. apply drop_app_length'. rewrite length_map, length_take. lia. Qed.

(** The ring after the PDU holds that queue. *)
Lemma seg_rest_queue sn m x l i q :
  is_cell i -> (m < length q < 1024)%nat -> queue_at l i q ->
  let full := pdu_full m x q in
  queue_at (alter_end (last_update full x) m i (alter_run (link_sdu sn) (S m) i l))
    ((i + Z.of_nat (done_count full m)) mod 1024) (seg_rest sn m x q).
Proof.
  intros Hi Hm Hq full. set (l1 := alter_run (link_sdu sn) (S m) i l).
  set (q1 := map (link_sdu sn) (take (S m) q) ++ drop (S m) q).
  assert (Hq1 : queue_at l1 i q1) by (apply queue_at_run; [done|lia|done]).
  assert (Hl1 : length q1 = length q)
    by (unfold q1; rewrite <- (length_map sdu_remaining_size), remaining_link; apply length_map).
  rewrite alter_end_run by done. unfold seg_rest. fold full. unfold last_update, done_count.
  destruct full.
  - rewrite <- alter_run_snoc, <- (drop_link sn (S m) q) by (done || lia).
    fold q1. apply queue_at_rest; [done|lia|done].
  - pose proof (queue_at_rest seg_done m l1 i q1 Hi ltac:(lia) Hq1) as Hr.
    destruct (lookup_lt_is_Some_2 q m) as [s Hs]; [lia|].
    rewrite (drop_S_lookup q m s Hs).
    pose proof (lookup_link sn (S m) q m s Hs ltac:(lia)) as Hs1. fold q1 in Hs1.
    rewrite (drop_S_lookup q1 m _ Hs1) in Hr. unfold q1 in Hr. rewrite drop_link in Hr by lia.
    apply (queue_at_run (seg_part x) 1) in Hr; [exact Hr|apply Z.mod_pos_bound; lia|].
    cbn [length]. rewrite length_drop. lia.
Qed.

Lemma seg_part_wf x s : sdu_wf s -> 0 <= x < sdu_remaining_size s -> sdu_wf (seg_part x s).
Proof.
  intros (mem & Hm & H1 & H2 & H3 & H4) Hx. exists mem. unfold seg_part.
  cbn [sdu_mem_block sdu_segmented_size sdu_remaining_size sdu_size update_field].
  repeat split; (done || lia).
Qed.
Lemma link_sdu_wf sn s : sdu_wf s -> sdu_wf (link_sdu sn s).
Proof. intros (mem & H). by exists mem. Qed.

(** Nothing is lost: the data of the PDU, then what the queue has left. *)
Lemma bytes_left_part x s :
  0 <= sdu_segmented_size s -> 0 <= x ->
  bytes_left s = take (Z.to_nat x) (bytes_left s) ++ bytes_left (seg_part x s).
Proof.
  intros H1 H2. unfold bytes_left. cbn [seg_part sdu_segmented_size sdu_mem_block update_field sdu_bytes].
  unfold sdu_bytes. cbn [seg_part sdu_mem_block update_field].
  rewrite Z2Nat.inj_add, <- drop_drop by done. symmetry. apply take_drop.
Qed.

Lemma pdu_full_true m x q s : q !! m = Some s -> pdu_full m x q = (x =? sdu_remaining_size s).
Proof. intros H. unfold pdu_full. by rewrite H. Qed.

Lemma stream_rest sn m x q s :
  Forall sdu_wf q -> q !! m = Some s -> 0 < x <= sdu_remaining_size s ->
  concat (map bytes_left q) = pdu_data m x q ++ concat (map bytes_left (seg_rest sn m x q)).
Proof.
  revert m. induction q as [|s' q IH]; intros [|m] Hwf Hs Hx; try discriminate Hs;
    apply Forall_cons in Hwf as [Hwf1 Hwf].
  - injection Hs as ->. unfold seg_rest, pdu_full. cbn [lookup list_lookup drop pdu_data map concat].
    destruct (Z.eqb_spec x (sdu_remaining_size s)) as [-> | Hne].
    + by rewrite take_bytes_left.
    + cbn [map concat]. rewrite app_assoc. f_equal. apply (bytes_left_part x s); [|lia].
      by destruct Hwf1 as (? & _ & ? & _).
  - cbn [map concat pdu_data]. rewrite (IH m Hwf Hs Hx), app_assoc. done.
Qed.

Lemma sumZ_drop {A} (f : A -> Z) n l : sumZ f (drop n l) = sumZ f l - sumZ f (take n l).
Proof. rewrite <- (take_drop n l) at 2. rewrite sumZ_app. lia. Qed.

Lemma sum_rest sn m x q s :
  Forall sdu_wf q -> q !! m = Some s -> 0 < x <= sdu_remaining_size s ->
  sumZ sdu_remaining_size (seg_rest sn m x q) =
    sumZ sdu_remaining_size q - Z.of_nat (length (pdu_data m x q)).
Proof.
  intros Hwf Hs Hx. rewrite (length_pdu_data m x q s) by (done || lia).
  rewrite firstn_map, sumZ_map. change (sumZ _ (take m q)) with (sumZ sdu_remaining_size (take m q)).
  unfold seg_rest. rewrite (pdu_full_true m x q s Hs).
  assert (E : sumZ sdu_remaining_size (take (S m) q) =
              sumZ sdu_remaining_size (take m q) + sdu_remaining_size s).
  { rewrite (take_S_r _ _ _ Hs), sumZ_app. cbn [sumZ foldr]. lia. }
  destruct (Z.eqb_spec x (sdu_remaining_size s)) as [-> | Hne].
  - rewrite sumZ_drop, E. lia.
  - pose proof (sumZ_drop sdu_remaining_size m q) as Hd. rewrite (drop_S_lookup q m s Hs) in Hd |- *.
    change (sumZ sdu_remaining_size (?a :: ?t)) with (sdu_remaining_size a + sumZ sdu_remaining_size t) in *.
    cbn [seg_part link_sdu sdu_remaining_size update_field]. lia.
Qed.

Lemma rest_wf sn m x q s :
  Forall sdu_wf q -> q !! m = Some s -> 0 < x <= sdu_remaining_size s -> Forall sdu_wf (seg_rest sn m x q).
Proof.
  intros Hwf Hs Hx. unfold seg_rest. rewrite (pdu_full_true m x q s Hs).
  pose proof (Forall_drop _ m _ Hwf) as Hd. rewrite (drop_S_lookup q m s Hs) in *.
  apply Forall_cons in Hd as [H1 H2].
  destruct (Z.eqb_spec x (sdu_remaining_size s)); [done|]. constructor; [|done].
  apply seg_part_wf; [by apply link_sdu_wf|]. cbn [link_sdu sdu_remaining_size update_field]. lia.
Qed.
Lemma length_rest sn m x q s :
  q !! m = Some s -> length (seg_rest sn m x q) = (length q - done_count (pdu_full m x q) m)%nat.
Proof.
  intros Hs. unfold seg_rest, done_count. destruct (pdu_full m x q); rewrite ?length_drop; [lia|].
  rewrite (drop_S_lookup q m s Hs). cbn [length]. rewrite length_drop.
  apply lookup_lt_Some in Hs. lia.
Qed.

Lemma seg_consumed_queue r q m x l s :
  seg_queue r q -> input_sdus r = Some l -> q !! m = Some s -> 0 < x <= sdu_remaining_size s ->
  seg_queue (seg_consumed m x q l r) (seg_rest (vt_s r) m x q).
Proof.
  intros ((l' & Hl' & Hlen & Hq) & Hc & Hlq & Hwf & Hocc & Hcount) Hl Hs Hx.
  rewrite Hl in Hl'. injection Hl' as <-. pose proof (lookup_lt_Some _ _ _ Hs) as Hm.
  pose proof (length_rest (vt_s r) m x q s Hs) as Hlr.
  assert (Hdc : (done_count (pdu_full m x q) m <= length q)%nat) by (unfold done_count; destruct (pdu_full _ _ _); lia).
  unfold seg_consumed, consume. split; [|split; [|split; [|split; [|split]]]];
    cbn [current_sdu_index sdu_buffer_occupancy nb_sdu_no_segmented input_sdus update_field].
  - eexists. split; [done|]. split.
    + by rewrite length_alter_end, length_alter_run.
    + apply seg_rest_queue; [done|lia|done].
  - apply Z.mod_pos_bound. lia.
  - lia.
  - by apply (rest_wf _ _ _ _ s).
  - by rewrite (sum_rest _ m x q s), Hocc.
  - lia.
Qed.

(** The queue only depends on these fields. *)
Lemma seg_queue_frame r r' q :
  seg_queue r q -> input_sdus r' = input_sdus r -> current_sdu_index r' = current_sdu_index r ->
  sdu_buffer_occupancy r' = sdu_buffer_occupancy r -> nb_sdu_no_segmented r' = nb_sdu_no_segmented r ->
  seg_queue r' q.
Proof. unfold seg_queue. intros H -> -> -> ->. exact H. Qed.

(** ** The step, for its users *)

(** [rlc_am_segment_10] has a PDU to make, of plan [(m, x, d)], and the limits
    of its tables are not reached. *)
Record segmentable (r : rlc_am_entity_t) (q : list tx_sdu) (m : nat) (x d : Z) : Prop := Mk_segmentable {
  sg_queue : seg_queue r q;
  sg_some : q <> [];
  sg_grant : 2 < nb_bytes_requested_by_mac r;
  sg_plan : segment_plan r q = Some (m, x, d);
  sg_limits : seg_limits m q;
  sg_size : segment_data_pdu_size r (nb_bytes_requested_by_mac r) < RLC_SDU_MAX_SIZE
}.

Lemma plan_last r q m x d :
  segmentable r q m x d -> exists s, q !! m = Some s /\ 0 < x <= sdu_remaining_size s /\ 0 <= d <= 2 /\
    (d <> 0 -> x = sdu_remaining_size s).
Proof.
  intros [Hq Hne Hnb Hplan _ _]. destruct (segment_size_bounds r q Hq Hne Hnb) as [Hsz _].
  destruct Hq as (_ & _ & _ & Hwf & _).
  destruct (pdu_plan_spec _ _ _ _ _ _ Hplan ltac:(lia) (remaining_pos _ Hwf)) as (n & Hn & Hx & Hd & Hdx & _).
  rewrite list_lookup_fmap in Hn. destruct (q !! m) as [s|] eqn:Hs; [|discriminate Hn].
  injection Hn as <-. by exists s.
Qed.

(** The transport block, and the entity after it. *)
Definition seg_tb (p : Z) (m : nat) (x : Z) (pad : list Z) (q : list tx_sdu) (sn : Z) : list Z :=
  amd_bytes p (seg_fi m x q) sn None (seg_lis m q) (seg_payload m x pad q).
(** The block is large enough. *)
Definition pdu_memory_ok (size : Z) (mem : list Z) : Prop :=
  4 <= Z.of_nat (length mem) /\ size <= Z.of_nat (length mem).

Lemma poll_changed_fields r1 r2 :
  poll_changed r1 r2 ->
  input_sdus r2 = input_sdus r1 /\ current_sdu_index r2 = current_sdu_index r1 /\
  sdu_buffer_occupancy r2 = sdu_buffer_occupancy r1 /\ nb_sdu_no_segmented r2 = nb_sdu_no_segmented r1 /\
  vt_s r2 = vt_s r1 /\ vt_a r2 = vt_a r1 /\ vt_ms r2 = vt_ms r1 /\ retrans_num_pdus r2 = retrans_num_pdus r1 /\
  retrans_num_bytes_to_retransmit r2 = retrans_num_bytes_to_retransmit r1 /\
  nb_bytes_requested_by_mac r2 = nb_bytes_requested_by_mac r1 /\
  protocol_state r2 = protocol_state r1 /\ status_requested r2 = status_requested r1 /\
  pdus_to_mac_layer r2 = pdus_to_mac_layer r1.
Proof. unfold poll_changed. intros H. rewrite H. by split_and!. Qed.

Lemma segment_10_step c mem r q m x d :
  segmentable r q m x d -> tx_inv r -> vt_s r <> vt_ms r ->
  let size := segment_data_pdu_size r (nb_bytes_requested_by_mac r) in
  pdu_memory_ok size mem ->
  exists r' p, 0 <= p < 2 /\ rlc_am_segment_10 c (Some mem) r = Ok r' /\
    let tb := seg_tb p m x (pdu_padding size d mem) q (vt_s r) in
    segmentation_pdu_list r' = segmentation_pdu_list r ++ [Mk_mac_tb tb (Z.of_nat (length tb))] /\
    seg_queue r' (seg_rest (vt_s r) m x q) /\ vt_s r' = RLC_AM_NEXT_SN (vt_s r) /\ tx_inv r' /\
    vt_a r' = vt_a r /\ vt_ms r' = vt_ms r /\
    retrans_num_bytes_to_retransmit r' = retrans_num_bytes_to_retransmit r /\
    protocol_state r' = protocol_state r /\ status_requested r' = status_requested r /\
    pdus_to_mac_layer r' = pdus_to_mac_layer r.
Proof.
  intros Hg Hinv Hne size [Hmem4 Hmems]. destruct (plan_last _ _ _ _ _ Hg) as (s & Hs & Hx & _).
  destruct Hg as [Hq Hqn Hnb Hplan Hlim Hsize]. destruct (tx_inv_vars r Hinv) as [_ Hsn].
  destruct (segment_10_ok c mem r q m x d) as (l & idx & r2 & p & Hl & Hp & Hidx & Hch & E);
    try done; [by apply tx_inv_length|].
  eexists _, p. split; [exact Hp|]. split; [exact E|]. intros tb.
  pose proof (seg_consumed_queue r q m x l s Hq Hl Hs Hx) as Hq'.
  pose proof (poll_changed_fields _ _ Hch) as Hf.
  clear Hch. destruct Hf as (F1 & F2 & F3 & F4 & F5 & F6 & F7 & F8 & F9 & F10 & F11 & F12 & F13).
  pose proof Hq as (_ & _ & _ & Hwf & _).
  destruct (segment_size_bounds r q Hq Hqn Hnb) as [Hsz _].
  destruct (plan_size (segment_data_pdu_size r (nb_bytes_requested_by_mac r) - 2) _ _ _ _ Hwf ltac:(lia) Hplan) as (_ & _ & _ & HT).
  split; [done|]. split; [by eapply seg_queue_frame|]. split; [done|].
  split; [|by split_and!].
  apply (tx_inv_push r _ (seg_tx_pdu p m x (pdu_padding size d mem) (pdu_slack size mem) q idx (vt_s r))); try done.
  - split; [done|]. split; [done|]. split; [|done].
    change (0 < Z.of_nat (length (pdu_data m x q))). rewrite (length_pdu_data m x q s) by (done || lia).
    assert (0 <= sumZ (fun n => n) (take m (map sdu_remaining_size q))); [|lia].
    apply sumZ_nonneg. intros y Hy. pose proof (Forall_take _ m _ (remaining_pos _ Hwf)) as Ht.
    rewrite Forall_forall in Ht. pose proof (Ht y Hy). lia.
  - split; [done|]. split; [|done]. change (0 <= Z.of_nat (length (pdu_data m x q))). lia.
Qed.

(** The block decodes to the parts of the plan. *)
Lemma seg_tb_decodes p m x d pad q sn r :
  0 <= p < 2 -> is_sn sn -> segmentable r q m x d -> Z.of_nat (length pad) = d ->
  rlc_am_get_data_pdu_infos (seg_tb p m x pad q sn) (Z.of_nat (length (seg_tb p m x pad q sn))) =
    Ok (0, amd_info p (seg_fi m x q) sn None (seg_lis m q) (seg_payload m x pad q)).
Proof.
  intros Hp Hsn Hg Hpad. destruct (plan_last _ _ _ _ _ Hg) as (s & Hs & Hx & Hd & _).
  destruct Hg as [Hq Hqn Hnb Hplan (Hm & Hli & _) Hsize].
  destruct (segment_size_bounds r q Hq Hqn Hnb) as [Hsz _].
  pose proof Hq as (_ & _ & _ & Hwf & _).
  destruct (plan_size (segment_data_pdu_size r (nb_bytes_requested_by_mac r) - 2) _ _ _ _ Hwf ltac:(lia) Hplan) as (Hmq & _ & _ & HT).
  pose proof (length_pdu_data m x q s Hwf Hs ltac:(lia)) as Hlen.
  rewrite firstn_map in Hlen. fold (seg_lis m q) in Hlen. unfold RLC_SDU_MAX_SIZE in Hsize.
  apply amd_header_ok. split; [done|]. split; [apply seg_fi_range|]. split; [exact Hsn|]. split; [done|].
  split; [|split; [|split]].
  - unfold seg_lis. apply Forall_map. rewrite Forall_forall in Hli |- *. intros y Hy.
    pose proof (Hli y Hy). pose proof (Forall_take _ m _ Hwf) as Ht. rewrite Forall_forall in Ht.
    pose proof (sdu_wf_remaining _ (Ht y Hy)). unfold is_li. cbn. lia.
  - rewrite length_seg_lis; lia.
  - lia.
  - unfold seg_payload. rewrite length_app. lia.
Qed.

(** The block has the announced size, within the grant and a MAC block. *)
Lemma seg_tb_length p m x d pad q sn r :
  segmentable r q m x d -> Z.of_nat (length pad) = d ->
  Z.of_nat (length (seg_tb p m x pad q sn)) = segment_data_pdu_size r (nb_bytes_requested_by_mac r) /\
  2 < Z.of_nat (length (seg_tb p m x pad q sn)) <= nb_bytes_requested_by_mac r.
Proof.
  intros Hg Hpad. destruct Hg as [Hq Hqn Hnb Hplan _ _].
  destruct (segment_size_bounds r q Hq Hqn Hnb) as [Hsz _]. pose proof Hq as (_ & _ & _ & Hwf & _).
  destruct (plan_size (segment_data_pdu_size r (nb_bytes_requested_by_mac r) - 2) _ _ _ _ Hwf ltac:(lia) Hplan)
    as (Hmq & _ & Hd & HT).
  unfold seg_tb. rewrite length_amd_bytes, length_seg_lis by lia. unfold seg_payload.
  rewrite length_app. lia.
Qed.

(** Its first byte says that it is a data PDU. *)
Lemma amd_b1_data p fi e sn :
  0 <= p < 2 -> 0 <= fi < 4 -> 0 <= e < 2 -> is_sn sn -> Z.land (amd_b1 0 p fi e sn) 128 = 128.
Proof.
  intros Hp Hfi He Hsn. change 128 with (2 ^ 7) at 1. rewrite land_bit by lia.
  assert (E : (amd_b1 0 p fi e sn / 2 ^ 7) mod 2 = 1); [|by rewrite E].
  unfold amd_b1, is_sn, RLC_AM_SN_MODULO in *. change (2 ^ 7) with 128. mod_lia.
Qed.

(** C26: Segmentation never loses a byte. For a non-empty queue of SDUs, a grant of more
    than two bytes, room in the window, a PDU smaller than RLC_SDU_MAX_SIZE and a memory
    block, whatever its bytes, of at least that size and 4 bytes, within the limits of the
    LI field (SDUs that get an LI below 2048 bytes) and of the tables (at most 126 LIs,
    fewer than 31 PDUs referring to each SDU), [rlc_am_segment_10] does not fail: it
    appends one transport block, not larger than the grant, that the receiver's parser
    decodes to a data PDU of sequence number VT(S) whose payload is the first bytes of the
    queue and at most two padding bytes (the code sends what the memory block holds
    there); the queue keeps the other bytes, VT(S) advances by one and the invariant of
    the transmission window is kept. *)
Theorem segmentation_spec c mem r q :
  seg_queue r q -> q <> [] -> 2 < nb_bytes_requested_by_mac r -> tx_inv r -> vt_s r <> vt_ms r ->
  segment_data_pdu_size r (nb_bytes_requested_by_mac r) < RLC_SDU_MAX_SIZE ->
  pdu_memory_ok (segment_data_pdu_size r (nb_bytes_requested_by_mac r)) mem ->
  exists m x d, segment_plan r q = Some (m, x, d) /\
    (seg_limits m q -> exists r' tb info q' data pad, rlc_am_segment_10 c (Some mem) r = Ok r' /\
       segmentation_pdu_list r' = segmentation_pdu_list r ++ [Mk_mac_tb tb (Z.of_nat (length tb))] /\
       Z.of_nat (length tb) <= nb_bytes_requested_by_mac r /\
       rlc_am_get_data_pdu_infos tb (Z.of_nat (length tb)) = Ok (0, info) /\ pi_sn info = vt_s r /\
       pi_payload info = data ++ pad /\ (length pad <= 2)%nat /\
       concat (map bytes_left q) = data ++ concat (map bytes_left q') /\
       seg_queue r' q' /\ vt_s r' = RLC_AM_NEXT_SN (vt_s r) /\ tx_inv r').
Proof.
  intros Hq Hne Hnb Hinv Hw Hsz Hmem. destruct (segment_plan_some r q Hq Hne Hnb) as [[[m x] d] Hplan].
  exists m, x, d. split; [done|]. intros Hlim.
  assert (Hg : segmentable r q m x d) by done.
  destruct (plan_last _ _ _ _ _ Hg) as (s & Hs & Hx & Hd & _).
  destruct (segment_10_step c mem r q m x d Hg Hinv Hw Hmem) as (r' & p & Hp & E & G1 & G2 & G3 & G4 & _).
  pose proof Hq as (_ & _ & _ & Hwf & _). destruct (tx_inv_vars r Hinv) as [_ Hsn].
  destruct (segment_size_bounds r q Hq Hne Hnb) as [Hs2 _].
  set (size := segment_data_pdu_size r (nb_bytes_requested_by_mac r)) in *.
  set (pad := pdu_padding size d mem) in *.
  assert (Hpad : Z.of_nat (length pad) = d) by (destruct Hmem; apply length_pdu_padding; lia).
  exists r', (seg_tb p m x pad q (vt_s r)), (amd_info p (seg_fi m x q) (vt_s r) None (seg_lis m q) (seg_payload m x pad q)),
    (seg_rest (vt_s r) m x q), (pdu_data m x q), pad.
  split; [done|]. split; [done|]. split; [apply (seg_tb_length p m x d pad q (vt_s r) r Hg Hpad)|].
  split; [by apply (seg_tb_decodes p m x d pad q (vt_s r) r)|]. split; [done|].
  split; [done|]. split; [lia|]. split; [by apply (stream_rest _ m x q s)|].
  by split_and!.
Qed.
