(* ===== verification/RlcAmRxList.v ===== *)
(** * The reception buffer (rlc_am_rx_list.c)

    The PDUs and PDU segments received and not yet delivered, sorted by
    sequence number and segment offset.  The buffer is a Rocq list and a cursor
    its index, [length] standing for NULL.

    [rlc_am_receive_process_data_pdu] keeps a pointer to the block it was
    called with after the block was inserted, refused, or freed because a
    truncated copy was inserted in its place.  An [rx_ref] tells which: a
    detached block keeps its contents (the pool only links it to its free
    list, as the last element and without a previous one) until it is
    allocated again. *)

From S2P Require Import Prelude RlcAmTypes RlcAmEntity RlcAmWindows RlcAmRxPdu.

Abbreviation rx_pdu := rlc_am_rx_pdu_management_t.
Definition rx_sn (p : rx_pdu) : Z := pi_sn (pdu_info p).
Definition rx_so (p : rx_pdu) : Z := pi_so (pdu_info p).
Definition rx_size (p : rx_pdu) : Z := pi_payload_size (pdu_info p).
Definition rx_rf (p : rx_pdu) : Z := pi_rf (pdu_info p).
(** The SO of the byte after the segment. *)
Definition rx_next_so (p : rx_pdu) : Z := rx_so p + rx_size p.

Inductive rx_ref :=
| InBuffer (i : nat)
| Detached (p : rx_pdu).

Definition deref_rx (buf : list rx_pdu) (t : rx_ref) : res rx_pdu :=
  match t with InBuffer i => deref (buf !! i) | Detached p => Ok p end.
(** The block and the ones that follow it. *)
Definition rx_from (buf : list rx_pdu) (t : rx_ref) : list rx_pdu :=
  match t with InBuffer i => drop i buf | Detached p => [p] end.

(** [list2_insert_after_element], [list2_insert_before_element]. *)
Definition insert_after (i : nat) (x : rx_pdu) (buf : list rx_pdu) : list rx_pdu :=
  take (S i) buf ++ x :: drop (S i) buf.
Definition insert_before (i : nat) (x : rx_pdu) (buf : list rx_pdu) : res (list rx_pdu) :=
  if (i <? length buf)%nat then Ok (take i buf ++ x :: drop i buf)
  else Err FatalAssert.      (* assert(2==1): the element is NULL *)
(** [list2_remove_element] of the [n] elements from [i] on. *)
Definition remove_run (i n : nat) (buf : list rx_pdu) : list rx_pdu :=
  take i buf ++ drop (i + n) buf.

(** ** Scans *)

(** The first element whose SN is not below [sn]. *)
Fixpoint find_sn (vr_r_ sn : Z) (l : list rx_pdu) : nat :=
  match l with
  | [] => O
  | p :: l' =>
      if RLC_AM_DIFF_SN (rx_sn p) vr_r_ >=? RLC_AM_DIFF_SN sn vr_r_ then O
      else S (find_sn vr_r_ sn l')
  end.

(** A stored segment of [sn] holds all the bytes from [so_start] to [so_end]. *)
Fixpoint holds_segment (sn so_start so_end : Z) (l : list rx_pdu) : bool :=
  match l with
  | [] => false
  | p :: l' =>
      if rx_sn p =? sn then
        if (so_start >=? rx_so p) && (so_end <=? rx_next_so p - 1) then true
        else holds_segment sn so_start so_end l'
      else false
  end.

(** Number of segments of [sn] that end before [so_start]. *)
Fixpoint segments_before (sn so_start : Z) (l : list rx_pdu) : nat :=
  match l with
  | [] => O
  | p :: l' =>
      if (rx_sn p =? sn) && (rx_next_so p <=? so_start) then S (segments_before sn so_start l') else O
  end.

(** Number of segments that continue [so_end], and the end they reach. *)
Fixpoint contiguous (sn so_end : Z) (l : list rx_pdu) : nat * Z :=
  match l with
  | [] => (O, so_end)
  | p :: l' =>
      if (rx_sn p =? sn) && (rx_so p =? so_end)
      then let '(n, e) := contiguous sn (u16 (so_end + rx_size p)) l' in (S n, e)
      else (O, so_end)
  end.

(** The same with the 32-bit [sdu_size_t next_waited_so]. *)
Fixpoint contiguous_so (sn next_waited_so : Z) (l : list rx_pdu) : nat * Z :=
  match l with
  | [] => (O, next_waited_so)
  | p :: l' =>
      if (rx_sn p =? sn) && (rx_so p =? next_waited_so)
      then let '(n, e) := contiguous_so sn (next_waited_so + rx_size p) l' in (S n, e)
      else (O, next_waited_so)
  end.

(** Number of segments that end at or before [so_end]. *)
Fixpoint embedded (sn so_end : Z) (l : list rx_pdu) : nat :=
  match l with
  | [] => O
  | p :: l' =>
      if (rx_sn p =? sn) && (so_end >=? rx_next_so p - 1) then S (embedded sn so_end l') else O
  end.

(** Number of elements of [sn] at the head. *)
Fixpoint run_of (sn : Z) (l : list rx_pdu) : nat :=
  match l with
  | [] => O
  | p :: l' => if rx_sn p =? sn then S (run_of sn l') else O
  end.

(** The duplicate at the end of the received segment: the next stored segment
    begins in it. *)
Definition cut_end (sn so_end : Z) (next : option rx_pdu) : Z :=
  match next with
  | Some p => if (rx_sn p =? sn) && (so_end >=? rx_so p) then u16 (rx_so p - 1) else so_end
  | None => so_end
  end.

(** The duplicate at its beginning. *)
Definition cut_start (so_start : Z) (prev : rx_pdu) : Z :=
  if so_start <? rx_so prev then u16 (rx_next_so prev)
  else if so_start <? rx_next_so prev then u16 (so_start + (rx_next_so prev - so_start))
  else so_start.

(** ** Insertion of a PDU segment *)
Definition rx_result : Type := rlc_am_rx_pdu_status_t * list rx_pdu * rx_ref.

Definition insert_segment_after (i : nat) (tb : rx_pdu) (buf : list rx_pdu) : rx_result :=
  (RLC_AM_DATA_PDU_STATUS_OK, insert_after i tb buf, InBuffer (S i)).

(** Last step: the segment without its duplicates takes the place of [tb]. *)
Definition insert_truncated (fb : fresh_block) (tb : rx_pdu) (prev : option nat)
    (so_start so_end : Z) (buf : list rx_pdu) : res rx_result :=
  _ ← assert_that (negb (rx_so tb =? so_start) || negb (so_end =? rx_next_so tb - 1));
  '(trunc, _) ← create_new_segment_from_pdu fb tb (so_start - rx_so tb) (so_end - so_start + 1);
  buf ← (match prev with
         | Some i => Ok (insert_after i trunc buf)
         | None => insert_before 0 trunc buf
         end);
  Ok (RLC_AM_DATA_PDU_STATUS_OK, buf, Detached tb).

(** The segments from [c0] on have the SN of [tb]; its first bytes may be in
    one of them. *)
Definition insert_among (fb : fresh_block) (tb : rx_pdu) (c0 : nat) (buf : list rx_pdu)
  : res rx_result :=
  let sn := rx_sn tb in
  let so_start := rx_so tb in
  let so_end := u16 (rx_next_so tb - 1) in
  let n := segments_before sn so_start (drop c0 buf) in
  let c := (c0 + n)%nat in
  let prev := (if (n =? 0)%nat then c0 else c - 1)%nat in
  let no_duplicate := match buf !! c with
                      | None => true
                      | Some p => negb (rx_sn p =? sn) || (rx_so p >? so_end)
                      end in
  if no_duplicate then Ok (insert_segment_after prev tb buf)
  else
    p ← deref (buf !! prev);
    let so_start_min := rx_so p in
    let '(k, end_) := contiguous sn (u16 (so_start_min + rx_size p)) (drop (S prev) buf) in
    let prev := (prev + k)%nat in
    let c := S prev in
    if (so_start_min <=? so_start) && (so_end <=? end_ - 1)
    then Ok (RLC_AM_DATA_PDU_STATUS_AM_SEGMENT_DUPLICATE, buf, Detached tb)
    else
      p ← deref (buf !! prev);
      let buf := remove_run c (embedded sn so_end (drop c buf)) buf in
      let start := cut_start so_start p in
      let end_ := cut_end sn so_end (buf !! c) in
      _ ← assert_that ((start <=? end_) && (rx_so tb <=? start) && (end_ <=? rx_next_so tb - 1));
      insert_truncated fb tb (Some prev) start end_ buf.

Definition rlc_am_rx_list_handle_pdu_segment (fb : fresh_block) (r : rlc_am_entity_t) (tb : rx_pdu)
  : res rx_result :=
  let buf := receiver_buffer r in
  let sn := rx_sn tb in
  let so_start := rx_so tb in
  let so_end := u16 (rx_next_so tb - 1) in
  _ ← assert_that (negb (length buf =? 0)%nat);
  let c := find_sn (vr_r r) sn buf in
  let prev := (if (c =? 0)%nat then None else Some (c - 1)%nat) in
  match buf !! c, prev with
  | Some p, _ =>
      if negb (rx_sn p =? sn) then
        match prev with
        | Some i => Ok (insert_segment_after i tb buf)
        | None =>
            buf ← insert_before c tb buf;
            Ok (RLC_AM_DATA_PDU_STATUS_OK, buf, InBuffer c)
        end
      else if negb (all_segments_received p =? 0) then
        Ok (RLC_AM_DATA_PDU_STATUS_AM_SEGMENT_DUPLICATE, buf, Detached tb)
      else if holds_segment sn so_start so_end (drop c buf) then
        Ok (RLC_AM_DATA_PDU_STATUS_AM_SEGMENT_DUPLICATE, buf, Detached tb)
      else if rx_so p =? 0 then insert_among fb tb c buf
      else if so_end <? rx_so p then
        buf ← insert_before c tb buf;
        Ok (RLC_AM_DATA_PDU_STATUS_OK, buf, InBuffer c)
      else if so_start <? rx_so p then
        let buf := remove_run c (embedded sn so_end (drop c buf)) buf in
        let end_ := cut_end sn so_end (buf !! c) in
        _ ← assert_that ((so_start <=? end_) && (end_ <=? rx_next_so tb - 1));
        insert_truncated fb tb prev so_start end_ buf
      else insert_among fb tb c buf
  | None, Some i => Ok (insert_segment_after i tb buf)
  | None, None => Err UndefinedBehaviour
  end.

(** ** Insertion of a complete PDU *)
Definition rlc_am_rx_list_handle_pdu (fb : fresh_block) (r : rlc_am_entity_t) (tb : rx_pdu)
  : res rx_result :=
  let buf := receiver_buffer r in
  let sn := rx_sn tb in
  _ ← assert_that (negb (length buf =? 0)%nat);
  let c := find_sn (vr_r r) sn buf in
  let prev := (if (c =? 0)%nat then None else Some (c - 1)%nat) in
  match buf !! c, prev with
  | Some p, _ =>
      if negb (rx_sn p =? sn) then
        match prev with
        | Some i => Ok (insert_segment_after i tb buf)
        | None =>
            buf ← insert_before c tb buf;
            Ok (RLC_AM_DATA_PDU_STATUS_OK, buf, InBuffer c)
        end
      else if negb (all_segments_received p =? 0) then
        Ok (RLC_AM_DATA_PDU_STATUS_SN_DUPLICATE, buf, Detached tb)
      else if negb (sn =? vr_r r) || negb (rx_so p =? 0) then
        (* the PDU replaces its stored segments *)
        let buf := remove_run c (S (run_of sn (drop (S c) buf))) buf in
        match prev with
        | Some i => Ok (insert_segment_after i tb buf)
        | None =>
            buf ← insert_before c tb buf;
            Ok (RLC_AM_DATA_PDU_STATUS_OK, buf, InBuffer c)
        end
      else
        _ ← assert_that (negb (rx_rf p =? 0));
        _ ← assert_that (all_segments_received p =? 0);
        let '(k, next_waited_so) := contiguous_so sn 0 (drop c buf) in
        let prev := (c + k - 1)%nat in
        '(trunc, _) ← create_new_segment_from_pdu fb tb next_waited_so (rx_size tb - next_waited_so);
        let buf := insert_after prev trunc buf in
        let n := S (S prev) in
        Ok (RLC_AM_DATA_PDU_STATUS_OK, remove_run n (run_of sn (drop n buf)) buf, Detached tb)
  | None, Some i => Ok (insert_segment_after i tb buf)
  | None, None => Err UndefinedBehaviour
  end.

Definition rlc_am_rx_list_check_duplicate_insert_pdu (fb : fresh_block) (r : rlc_am_entity_t)
    (tb : rx_pdu) : res (rlc_am_rx_pdu_status_t * rlc_am_entity_t * rx_ref) :=
  let tb := tb <| segment_reassembled := RLC_AM_RX_PDU_SEGMENT_REASSEMBLE_NO |> in
  match receiver_buffer r with
  | [] => Ok (RLC_AM_DATA_PDU_STATUS_OK, r <| receiver_buffer := [tb] |>, InBuffer 0)
  | _ =>
      '(status, buf, t) ←
        (if rx_rf tb =? 0 then rlc_am_rx_list_handle_pdu fb r tb
         else rlc_am_rx_list_handle_pdu_segment fb r tb);
      Ok (status, r <| receiver_buffer := buf |>, t)
  end.

(** ** Completion of a PDU *)

(** From the first segment: the following ones continue it up to the LSF. *)
Fixpoint segments_complete (sn next_waited_so last_end_so : Z) (l : list rx_pdu) : bool :=
  match l with
  | [] => false
  | p :: l' =>
      if rx_sn p =? sn then
        if negb (rx_rf p =? 1) || negb (rx_so p <=? last_end_so) then false
        else if rx_so p =? next_waited_so then
          if pi_lsf (pdu_info p) >? 0 then true
          else segments_complete sn (next_waited_so + rx_size p) (rx_next_so p) l'
        else false
      else false
  end.

(** [rlc_am_rx_mark_all_segments_received] from the first segment on. *)
Fixpoint rlc_am_rx_mark_all_segments_received (sn : Z) (l : list rx_pdu) : list rx_pdu :=
  match l with
  | [] => []
  | p :: l' =>
      if rx_sn p =? sn
      then p <| all_segments_received := 1 |> :: rlc_am_rx_mark_all_segments_received sn l'
      else l
  end.

(** The first stored segment of the SN, from the one at [i] backwards. *)
Fixpoint first_segment (sn : Z) (buf : list rx_pdu) (i : nat) : nat :=
  match i with
  | O => O
  | S j =>
      match buf !! j with
      | Some p => if rx_sn p =? sn then first_segment sn buf j else i
      | None => i
      end
  end.

Definition rlc_am_rx_check_all_byte_segments (r : rlc_am_entity_t) (t : rx_ref)
  : res (rlc_am_entity_t * rx_ref) :=
  let buf := receiver_buffer r in
  tb ← deref_rx buf t;
  let sn := rx_sn tb in
  if rx_rf tb =? 0 then
    let tb := tb <| all_segments_received := 1 |> in
    match t with
    | InBuffer i => Ok (r <| receiver_buffer := <[i := tb]> buf |>, t)
    | Detached _ => Ok (r, Detached tb)
    end
  else
    match t with
    | Detached _ => Ok (r, t)          (* no previous, no next *)
    | InBuffer i =>
        let k := first_segment sn buf i in
        first ← deref (buf !! k);
        if negb (rx_so first =? 0) then Ok (r, t)
        else if segments_complete sn (rx_size first) (rx_size first) (drop (S k) buf) then
          Ok (r <| receiver_buffer :=
                take k buf ++ rlc_am_rx_mark_all_segments_received sn (drop k buf) |>, t)
        else Ok (r, t)
    end.

(** ** Choice of the segments to reassemble *)

(** The contiguous segments of [sn] that were not reassembled are marked;
    result: the list, the number of segments passed, whether one changed. *)
Fixpoint mark_pending (sn next_waited_so : Z) (l : list rx_pdu) : list rx_pdu * nat * bool :=
  match l with
  | [] => ([], O, false)
  | p :: l' =>
      if (rx_sn p =? sn) && (rx_so p =? next_waited_so) then
        let change := bool_decide (segment_reassembled p = RLC_AM_RX_PDU_SEGMENT_REASSEMBLE_NO) in
        let '(l', n, change') := mark_pending sn (next_waited_so + rx_size p) l' in
        ((if change then p <| segment_reassembled := RLC_AM_RX_PDU_SEGMENT_REASSEMBLE_PENDING |>
          else p) :: l', S n, change || change')
      else (l, O, false)
  end.

(** Number of PDUs below VR(R). *)
Fixpoint below_vr_r (sn_ref vr_r_ : Z) (l : list rx_pdu) : nat :=
  match l with
  | [] => O
  | p :: l' =>
      if RLC_AM_DIFF_SN (rx_sn p) sn_ref <? RLC_AM_DIFF_SN vr_r_ sn_ref
      then S (below_vr_r sn_ref vr_r_ l') else O
  end.

Definition rlc_am_rx_check_vr_reassemble (r : rlc_am_entity_t) : res (bool * rlc_am_entity_t) :=
  let buf := receiver_buffer r in
  match buf with
  | [] => Ok (false, r)
  | head :: _ =>
      let sn_ref := rx_sn head in
      if negb (sn_ref =? vr_r r) then
        '(buf, k) ←
          (if negb (rx_rf head =? 0) then
             _ ← assert_that (all_segments_received head >? 0);
             let '(buf, n, _) := mark_pending sn_ref 0 buf in Ok (buf, n)
           else Ok (buf, O));
        let k := (k + below_vr_r sn_ref (vr_r r) (drop k buf))%nat in
        buf ← (match buf !! k with
               | Some p =>
                   if rx_sn p =? vr_r r then
                     _ ← assert_that (all_segments_received p =? 0);
                     let '(l, _, _) := mark_pending (vr_r r) 0 (drop k buf) in Ok (take k buf ++ l)
                   else Ok buf
               | None => Ok buf
               end);
        Ok (true, r <| receiver_buffer := buf |>)
      else
        _ ← assert_that (all_segments_received head =? 0);
        let '(buf, _, change) := mark_pending (vr_r r) 0 buf in
        Ok (change, r <| receiver_buffer := buf |>)
  end.
