(* ===== verification/RlcAmReassembly.v ===== *)
(** * Reassembly of SDUs (rlc_am_reassembly.c, rlc_am_rx_list_reassemble_rlc_sdus)

    The payload of the PDUs in sequence is appended to the SDU in construction,
    a block of [RLC_SDU_MAX_SIZE] bytes, delivered to the upper layer at the
    end of each SDU.  [output_sdu_in_construction] is the bytes written so far;
    only the first [output_sdu_size_to_write] count. *)

From S2P Require Import Prelude Bits RlcAmTypes RlcAmEntity RlcAmWindows RlcAmRxPdu RlcAmRxList.

Definition rlc_am_clear_rx_sdu (r : rlc_am_entity_t) : rlc_am_entity_t :=
  r <| output_sdu_size_to_write := 0 |>.

(** [src] is the memory at [src_pP], [lengthP] the number of bytes to copy. *)
Definition rlc_am_reassembly (src : list Z) (lengthP : Z) (r : rlc_am_entity_t)
  : res rlc_am_entity_t :=
  let r := (match output_sdu_in_construction r with
            | None => r <| output_sdu_in_construction := Some [] |> <| output_sdu_size_to_write := 0 |>
            | Some _ => r
            end) in
  sdu ← deref (output_sdu_in_construction r);
  if output_sdu_size_to_write r + lengthP <=? RLC_SDU_MAX_SIZE then
    data ← mem_read src 0 lengthP;
    Ok (r <| output_sdu_in_construction :=
               Some (take (Z.to_nat (output_sdu_size_to_write r)) sdu ++ data) |>
          <| output_sdu_size_to_write := output_sdu_size_to_write r + lengthP |>)
  else Ok (r <| output_sdu_size_to_write := 0 |>).

Definition rlc_am_send_sdu (r : rlc_am_entity_t) : res rlc_am_entity_t :=
  match output_sdu_in_construction r with
  | None => Ok r
  | Some sdu =>
      if output_sdu_size_to_write r >? 0 then
        let r := stat_add stat_rx_pdcp_sdu 1 r in
        let r := stat_add stat_rx_pdcp_bytes (output_sdu_size_to_write r) r in
        Ok (r <| upper_layer := upper_layer r ++
                   [Rlc_data_ind (take (Z.to_nat (output_sdu_size_to_write r)) sdu)] |>
              <| output_sdu_in_construction := None |>
              <| output_sdu_size_to_write := 0 |>)
      else Err FatalAssert
  end.

(** The SDUs announced by the LIs; [j] is the offset of the next one. *)
Fixpoint reassemble_lis (payload : list Z) (j : Z) (lis : list Z) (r : rlc_am_entity_t)
  : res (Z * rlc_am_entity_t) :=
  match lis with
  | [] => Ok (j, r)
  | li :: rest =>
      r ← rlc_am_reassembly (drop (Z.to_nat j) payload) li r;
      r ← rlc_am_send_sdu r;
      reassemble_lis payload (j + li) rest r
  end.

(** [num_li] elements of [li_list]. *)
Definition announced_lis (info : rlc_am_pdu_info_t) : res (list Z) :=
  if pi_num_li info <=? Z.of_nat (length (pi_li_list info))
  then Ok (take (Z.to_nat (pi_num_li info)) (pi_li_list info)) else Err UndefinedBehaviour.

(** The four values of FI only differ in whether the SDU in construction is
    delivered first (the first byte of the PDU begins an SDU) and whether the
    last one is delivered (the last byte ends an SDU). *)
Definition rlc_am_reassemble_pdu (info : rlc_am_pdu_info_t) (r : rlc_am_entity_t)
  : res rlc_am_entity_t :=
  let fi := pi_fi info in
  let first_byte_is_first := (fi =? 0) || (fi =? 1) in
  let last_byte_is_last := (fi =? 0) || (fi =? 2) in
  if pi_e info =? 0 then
    r ← (if first_byte_is_first then rlc_am_send_sdu r else Ok r);
    r ← rlc_am_reassembly (pi_payload info) (pi_payload_size info) r;
    (if last_byte_is_last then rlc_am_send_sdu r else Ok r)
  else
    r ← (if first_byte_is_first then rlc_am_send_sdu r else Ok r);
    lis ← announced_lis info;
    '(j, r) ← reassemble_lis (pi_payload info) 0 lis r;
    if pi_hidden_size info >? 0 then
      r ← rlc_am_reassembly (drop (Z.to_nat j) (pi_payload info)) (pi_hidden_size info) r;
      (if last_byte_is_last then rlc_am_send_sdu r else Ok r)
    else Ok r.

(** ** The loop on the reception buffer *)

(** The segments of the first SN that were all reassembled. *)
Fixpoint drop_reassembled (sn : Z) (l : list rx_pdu) : list rx_pdu :=
  match l with
  | [] => []
  | p :: l' =>
      if bool_decide (segment_reassembled p = RLC_AM_RX_PDU_SEGMENT_REASSEMBLED) && (rx_sn p =? sn)
      then drop_reassembled sn l' else l
  end.

(** The loop condition, from the PDU just handled to the next one. *)
Definition reassemble_next (old next : rx_pdu) : bool :=
  ((RLC_AM_DIFF_SN (rx_sn next) (rx_sn old) <? 2) && (all_segments_received old >? 0)) ||
  ((rx_sn next =? rx_sn old) &&
   negb (bool_decide (segment_reassembled next = RLC_AM_RX_PDU_SEGMENT_REASSEMBLE_NO))).

(** [cursor] is the index of [rlc_am_rx_pdu_management_p]. *)
Fixpoint reassemble_loop (fuel : nat) (cursor : nat) (r : rlc_am_entity_t) : res rlc_am_entity_t :=
  match fuel with
  | O => Err OutOfFuel
  | S fuel' =>
      let continue (old : rx_pdu) (cursor : nat) (r : rlc_am_entity_t) :=
        match receiver_buffer r !! cursor with
        | None => Ok r
        | Some next => if reassemble_next old next then reassemble_loop fuel' cursor r else Ok r
        end in
      p ← deref (receiver_buffer r !! cursor);
      if all_segments_received p >? 0 then
        (* list2_remove_head *)
        head ← deref (receiver_buffer r !! 0%nat);
        let r := r <| receiver_buffer := drop 1 (receiver_buffer r) |> in
        r ← rlc_am_reassemble_pdu (pdu_info head) r;
        continue p O r
      else
        match segment_reassembled p with
        | RLC_AM_RX_PDU_SEGMENT_REASSEMBLE_PENDING =>
            let p := p <| segment_reassembled := RLC_AM_RX_PDU_SEGMENT_REASSEMBLED |> in
            let r := r <| receiver_buffer := <[cursor := p]> (receiver_buffer r) |> in
            r ← rlc_am_reassemble_pdu (pdu_info p) r;
            continue p (S cursor) r
        | RLC_AM_RX_PDU_SEGMENT_REASSEMBLED => continue p (S cursor) r
        | RLC_AM_RX_PDU_SEGMENT_REASSEMBLE_NO => Ok r
        end
  end.

Definition reassemble_fuel (r : rlc_am_entity_t) : nat :=
  let n := length (receiver_buffer r) in S (n * S n).

Definition rlc_am_rx_list_reassemble_rlc_sdus (r : rlc_am_entity_t) : res rlc_am_entity_t :=
  match receiver_buffer r with
  | [] => Ok r
  | head :: _ =>
      if (all_segments_received head >? 0) && negb (rx_rf head =? 0) then
        let sn := rx_sn head in
        let r := r <| receiver_buffer := drop_reassembled sn (receiver_buffer r) |> in
        match receiver_buffer r with
        | [] => Ok r
        | p :: _ =>
            if RLC_AM_DIFF_SN (rx_sn p) sn >? 1 then Ok r
            else reassemble_loop (reassemble_fuel r) O r
        end
      else reassemble_loop (reassemble_fuel r) O r
  end.

(** ** What reassembling a PDU does

    The payload of a PDU is split at its LIs.  The first piece continues the
    SDU in construction, or starts a new one; every piece but the last ends an
    SDU; the last one stays in construction unless FI says that it ends one. *)

(** The entity with the SDU [pre] in construction, none when [pre] is empty. *)
Definition constructing (pre : list Z) (r : rlc_am_entity_t) : rlc_am_entity_t :=
  r <| output_sdu_in_construction := match pre with [] => None | _ => Some pre end |>
    <| output_sdu_size_to_write := Z.of_nat (length pre) |>.

Definition deliver (sdu : list Z) (r : rlc_am_entity_t) : rlc_am_entity_t :=
  let r := stat_add stat_rx_pdcp_sdu 1 r in
  let r := stat_add stat_rx_pdcp_bytes (Z.of_nat (length sdu)) r in
  r <| upper_layer := upper_layer r ++ [Rlc_data_ind sdu] |>.
Fixpoint deliver_all (sdus : list (list Z)) (r : rlc_am_entity_t) : rlc_am_entity_t :=
  match sdus with [] => r | sdu :: rest => deliver_all rest (deliver sdu r) end.

(** SDUs completed by a PDU, and the SDU left in construction. *)
Definition split_sdus (first last : bool) (pre : list Z) (pieces : list (list Z)) (tail : list Z)
  : list (list Z) * list Z :=
  let flushed := if first then match pre with [] => [] | _ => [pre] end else [] in
  let base := if first then [] else pre in
  let done_ := match pieces with [] => [] | p :: ps => (base ++ p) :: ps end in
  let open_ := match pieces with [] => base ++ tail | _ => tail end in
  if last then (flushed ++ done_ ++ [open_], []) else (flushed ++ done_, open_).

Definition fits_sdu (sdu : list Z) : Prop := Z.of_nat (length sdu) <= RLC_SDU_MAX_SIZE.

Lemma deliver_all_app a b r : deliver_all (a ++ b) r = deliver_all b (deliver_all a r).
Proof. revert r. induction a as [|x a IH]; intros r; [done|]. apply IH. Qed.
Lemma upper_layer_all sdus r :
  upper_layer (deliver_all sdus r) = upper_layer r ++ map Rlc_data_ind sdus.
Proof.
  revert r. induction sdus as [|x sdus IH]; intros r; cbn [deliver_all map]; [by rewrite app_nil_r|].
  rewrite IH. cbn [deliver upper_layer update_field]. by rewrite <- app_assoc.
Qed.

Lemma constructing_some pre r :
  pre <> [] -> output_sdu_in_construction (constructing pre r) = Some pre.
Proof. by destruct pre. Qed.

Lemma reassembly_ok pre src n r :
  0 < n <= Z.of_nat (length src) -> Z.of_nat (length pre) + n <= RLC_SDU_MAX_SIZE ->
  rlc_am_reassembly src n (constructing pre r) = Ok (constructing (pre ++ take (Z.to_nat n) src) r).
Proof.
  intros Hn Hmax. unfold rlc_am_reassembly.
  assert (Hlen : length (take (Z.to_nat n) src) = Z.to_nat n) by (rewrite length_take; lia).
  set (r1 := match output_sdu_in_construction (constructing pre r) with None => _ | Some _ => _ end).
  assert (E : r1 = (constructing pre r) <| output_sdu_in_construction := Some pre |>) by (unfold r1; by destruct pre).
  rewrite E. cbn [output_sdu_in_construction update_field deref mbind res_bind].
  change (output_sdu_size_to_write (_ <| output_sdu_in_construction := _ |>)) with (Z.of_nat (length pre)).
  rewrite (proj2 (Z.leb_le _ _) Hmax), mem_read_ok by lia. cbn [mbind res_bind].
  rewrite Z2Nat.inj_0, drop_0, Nat2Z.id, firstn_all. f_equal. unfold constructing.
  rewrite length_app, Hlen, Nat2Z.inj_add, Z2Nat.id by lia.
  destruct (pre ++ take (Z.to_nat n) src) eqn:E1; [|done].
  apply app_eq_nil in E1 as [_ E1]. rewrite E1 in Hlen. cbn in Hlen. lia.
Qed.

Lemma send_sdu_ok sdu r :
  sdu <> [] -> rlc_am_send_sdu (constructing sdu r) = Ok (constructing [] (deliver sdu r)).
Proof.
  intros Hne. unfold rlc_am_send_sdu. rewrite constructing_some by done.
  change (output_sdu_size_to_write (constructing sdu r)) with (Z.of_nat (length sdu)).
  rewrite Z.gtb_ltb, (proj2 (Z.ltb_lt _ _)) by (destruct sdu; [done|cbn [length]; lia]).
  match goal with |- context [take (Z.to_nat ?n) sdu] => change n with (Z.of_nat (length sdu)) end.
  rewrite Nat2Z.id, firstn_all. done.
Qed.
Lemma send_none r : rlc_am_send_sdu (constructing [] r) = Ok (constructing [] r).
Proof. done. Qed.

(** The pieces ended by an LI. *)
Lemma reassemble_lis_ok pieces : forall payload j base r,
  Forall (fun p => p <> []) pieces ->
  drop (Z.to_nat j) payload = concat pieces ++ drop (Z.to_nat (j + sumZ (fun n => n) (map (fun p => Z.of_nat (length p)) pieces))) payload ->
  0 <= j ->
  Forall fits_sdu (match pieces with [] => [] | p :: ps => (base ++ p) :: ps end) ->
  reassemble_lis payload j (map (fun p => Z.of_nat (length p)) pieces) (constructing base r) =
    Ok (j + sumZ (fun n => n) (map (fun p => Z.of_nat (length p)) pieces),
        match pieces with
        | [] => constructing base r
        | p :: ps => constructing [] (deliver_all ((base ++ p) :: ps) r)
        end).
Proof.
  induction pieces as [|p ps IH]; intros payload j base r Hne Hpay Hj Hfit.
  - cbn [map reassemble_lis]. change (sumZ _ []) with 0. by rewrite Z.add_0_r.
  - apply Forall_cons in Hne as [Hp Hne]. apply Forall_cons in Hfit as [Hf Hfit].
    cbn [map reassemble_lis].
    change (sumZ (fun n => n) (?a :: ?l)) with (a + sumZ (fun n => n) l) in *. cbn [concat map] in Hpay.
    rewrite <- app_assoc in Hpay.
    unfold fits_sdu in Hf. rewrite length_app in Hf.
    change (sumZ (fun n => n) (?a :: ?l)) with (a + sumZ (fun n => n) l) in *.
    assert (Hp0 : (0 < length p)%nat) by (destruct p; [done|cbn; lia]).
    rewrite reassembly_ok by (rewrite ?Hpay, ?length_app; lia). cbn [mbind res_bind].
    rewrite Hpay, Nat2Z.id, take_app_length.
    rewrite send_sdu_ok by (intros E; apply app_eq_nil in E as [_ ->]; done). cbn [mbind res_bind].
    assert (Hd : drop (Z.to_nat (j + Z.of_nat (length p))) payload =
      concat ps ++ drop (Z.to_nat (j + (Z.of_nat (length p) + sumZ (fun n => n) (map (fun p => Z.of_nat (length p)) ps)))) payload).
    { rewrite Z2Nat.inj_add, <- drop_drop, Nat2Z.id by lia. rewrite Hpay at 1. by rewrite drop_app_length. }
    rewrite Z.add_assoc in Hd |- *. rewrite IH; try done; [|lia|].
    + f_equal. f_equal. destruct ps; done.
    + destruct ps; done.
Qed.

Definition piece_sizes (pieces : list (list Z)) : list Z := map (fun p => Z.of_nat (length p)) pieces.

Lemma length_concat_sum (pieces : list (list Z)) :
  Z.of_nat (length (concat pieces)) = sumZ (fun n => n) (piece_sizes pieces).
Proof.
  induction pieces as [|p ps IH]; [done|]. cbn [concat piece_sizes map]. rewrite length_app, Nat2Z.inj_add, IH.
  done.
Qed.

(** Delivering what was in construction when the PDU begins an SDU. *)
Lemma flush_ok (first : bool) pre r :
  (if first then rlc_am_send_sdu (constructing pre r) else Ok (constructing pre r)) =
    Ok (constructing (if first then [] else pre)
          (deliver_all (if first then match pre with [] => [] | _ => [pre] end else []) r)).
Proof. destruct first; [|done]. destruct pre; [done|]. by rewrite send_sdu_ok. Qed.

(** The last piece. *)
Lemma last_piece_ok (last : bool) base tail src r :
  tail <> [] -> src = tail -> fits_sdu (base ++ tail) ->
  mbind (fun r => if last then rlc_am_send_sdu r else Ok r)
    (rlc_am_reassembly src (Z.of_nat (length tail)) (constructing base r)) =
    Ok (if last then constructing [] (deliver (base ++ tail) r) else constructing (base ++ tail) r).
Proof.
  intros Hne -> Hfit. unfold fits_sdu in Hfit. rewrite length_app in Hfit.
  rewrite reassembly_ok by (destruct tail; [done|]; cbn [length] in *; lia). cbn [mbind res_bind].
  rewrite Nat2Z.id, firstn_all. destruct last; [|done]. apply send_sdu_ok.
  intros E. by apply app_eq_nil in E as [_ ->].
Qed.

Lemma fits_parts (first last : bool) pre pieces tail :
  let '(sdus, rest) := split_sdus first last pre pieces tail in
  Forall fits_sdu (rest :: sdus) ->
  let base := if first then [] else pre in
  Forall fits_sdu (match pieces with [] => [] | p :: ps => (base ++ p) :: ps end) /\
  fits_sdu (match pieces with [] => base ++ tail | _ => tail end).
Proof.
  unfold split_sdus. cbn zeta.
  destruct last; intros H; apply Forall_cons in H as [H1 H]; apply Forall_app in H as [_ H]; [|done].
  by apply Forall_app in H as [H [H2 _]%Forall_cons].
Qed.

(** [rlc_am_reassemble_pdu] implements [split_sdus]. *)
Lemma reassemble_pdu_ok p fi sn seg pieces tail pre r (first := (fi =? 0) || (fi =? 1))
    (last := (fi =? 0) || (fi =? 2)) :
  Forall (fun p => p <> []) pieces -> tail <> [] -> (length pieces <= 128)%nat ->
  let '(sdus, rest) := split_sdus first last pre pieces tail in
  Forall fits_sdu (rest :: sdus) ->
  rlc_am_reassemble_pdu (amd_info p fi sn seg (piece_sizes pieces) (concat pieces ++ tail)) (constructing pre r) =
    Ok (constructing rest (deliver_all sdus r)).
Proof.
  intros Hne Htail H128. pose proof (fits_parts first last pre pieces tail) as Hfits.
  destruct (split_sdus first last pre pieces tail) as [sdus rest] eqn:Es. intros Hfit.
  destruct (Hfits Hfit) as [Hf1 Hf2]. clear Hfits Hfit.
  unfold rlc_am_reassemble_pdu. cbn [pi_fi pi_e amd_info]. fold first last.
  rewrite flush_ok. cbn [mbind res_bind].
  set (base := if first then [] else pre) in *. set (flushed := if first then _ else _).
  set (r1 := deliver_all flushed r).
  destruct pieces as [|p1 ps] eqn:Ep.
  - cbn [piece_sizes map amd_info pi_payload pi_payload_size concat app].
    rewrite bool_decide_false by auto. cbn [b2z Z.eqb].
    rewrite (last_piece_ok last base tail) by done.
    unfold split_sdus in Es. fold base flushed in Es. cbn [app] in Es.
    destruct last; injection Es as <- <-; rewrite ?deliver_all_app; cbn [deliver_all]; rewrite ?app_nil_r; done.
  - rewrite <- Ep in *. cbn [amd_info pi_payload pi_hidden_size].
    rewrite bool_decide_true by (by rewrite Ep). cbn [b2z Z.eqb].
    assert (Hl : announced_lis (amd_info p fi sn seg (piece_sizes pieces) (concat pieces ++ tail)) = Ok (piece_sizes pieces)).
    { unfold announced_lis. cbn [amd_info pi_num_li pi_li_list].
      rewrite length_app, length_replicate. rewrite (proj2 (Z.leb_le _ _)) by lia.
      by rewrite Nat2Z.id, take_app_length. }
    rewrite Hl. cbn [mbind res_bind].
    assert (Hd : drop (Z.to_nat (sumZ (fun n => n) (piece_sizes pieces))) (concat pieces ++ tail) = tail).
    { rewrite <- length_concat_sum, Nat2Z.id. apply drop_app_length. }
    unfold piece_sizes at 1. rewrite reassemble_lis_ok; try done; fold (piece_sizes pieces);
      [|by rewrite Z2Nat.inj_0, drop_0, Z.add_0_l, Hd|by rewrite Ep].
    cbn [mbind res_bind]. rewrite Z.add_0_l, Hd.
    rewrite length_app, Nat2Z.inj_add, length_concat_sum.
    assert (Ht : 0 < Z.of_nat (length tail)) by (destruct tail; [done|cbn; lia]).
    rewrite !Z.gtb_ltb. rewrite (proj2 (Z.ltb_lt (sumZ _ _) _)) by lia.
    replace (sumZ (fun n => n) (piece_sizes pieces) + Z.of_nat (length tail) - sumZ (fun n => n) (piece_sizes pieces))
      with (Z.of_nat (length tail)) by lia.
    replace (sumZ (fun x => x) (piece_sizes pieces) + Z.of_nat (length tail) - sumZ (fun x => x) (piece_sizes pieces))
      with (Z.of_nat (length tail)) by lia.
    rewrite (proj2 (Z.ltb_lt _ _)) by lia. rewrite Ep at 1.
    rewrite (last_piece_ok last [] tail) by done.
    unfold split_sdus in Es. rewrite Ep in Es. fold base flushed in Es.
    unfold r1. destruct last; injection Es as <- <-.
    + change (deliver ([] ++ tail) ?x) with (deliver_all [tail] x).
      by rewrite <- !deliver_all_app.
    + by rewrite <- deliver_all_app.
Qed.

(** C31: Reassembly cuts a PDU at its LIs. For a decoded data PDU of at most 128 LIs none
    of whose fragments is empty, and an SDU in construction such that no SDU that ends in
    the PDU, nor the one left in construction, is larger than RLC_SDU_MAX_SIZE, the pieces
    of the PDU complete the SDUs that FI and the LIs say, which are delivered in order,
    and the last piece is left in construction unless FI ends it. Beyond these conditions
    the code does not hold this: a larger SDU is dropped and the next end of an SDU stops
    the process, as does an LI of 0 (both from the peer, see the findings). *)
Theorem reassemble_pdu_spec p fi sn seg pieces tail pre r sdus rest :
  Forall (fun x => x <> []) pieces -> tail <> [] -> (length pieces <= 128)%nat ->
  split_sdus ((fi =? 0) || (fi =? 1)) ((fi =? 0) || (fi =? 2)) pre pieces tail = (sdus, rest) ->
  Forall fits_sdu (rest :: sdus) ->
  rlc_am_reassemble_pdu (amd_info p fi sn seg (piece_sizes pieces) (concat pieces ++ tail)) (constructing pre r) =
    Ok (constructing rest (deliver_all sdus r)).
Proof.
  intros H1 H2 H3 E. pose proof (reassemble_pdu_ok p fi sn seg pieces tail pre r H1 H2 H3) as H.
  cbn zeta in H. by rewrite E in H.
Qed.

Lemma reassemble_pdu_spec_witness :
  rlc_am_reassemble_pdu (amd_info 0 3 9 None (piece_sizes [[1]; [2; 3]]) (concat [[1]; [2; 3]] ++ [4]))
    (constructing [0] entity_zero) =
    Ok (constructing [4] (deliver_all [[0; 1]; [2; 3]] entity_zero)).
Proof.
  apply (reassemble_pdu_spec 0 3 9 None [[1]; [2; 3]] [4] [0] entity_zero [[0; 1]; [2; 3]] [4]);
    try reflexivity; try done; repeat constructor; try done; cbn; lia.
Defined.
