(* ===== verification/RlcAmCarry.v ===== *)
(** * What a PDU carries

    Segmentation (RlcAmTransfer) and reassembly (RlcAmReassembly) put together:
    the PDU made from the queue of SDUs, decoded and reassembled by a receiver
    that followed the sender up to there, delivers the SDUs that the PDU
    completes and leaves the receiver with the segmented part of the first SDU
    of the queue that is left. *)

From S2P Require Import Prelude Bits RlcAmTypes RlcAmEntity RlcAmWindows RlcAmTxBuffer RlcAmInSdu.
From S2P Require Import RlcAmLi RlcAmPolling RlcAmSegment RlcAmSegmentSpec RlcAmRxPdu.
From S2P Require Import RlcAmTransfer RlcAmRxList RlcAmReassembly.

(** The part of the first SDU of the queue that is already in PDUs. *)
Definition head_prefix (q : list tx_sdu) : list Z :=
  match q with s :: _ => take (Z.to_nat (sdu_segmented_size s)) (sdu_bytes s) | [] => [] end.

(** The pieces of the PDU. *)
Definition seg_pieces (m : nat) (q : list tx_sdu) : list (list Z) := map bytes_left (take m q).
Definition seg_tail (m : nat) (x : Z) (pad : list Z) (q : list tx_sdu) : list Z :=
  match q !! m with
  | Some s => take (Z.to_nat x) (bytes_left s) ++ pad
  | None => []
  end.

(** The SDUs that end in the PDU. *)
Definition seg_sdus (m : nat) (x : Z) (pad : list Z) (q : list tx_sdu) : list (list Z) :=
  map sdu_bytes (take m q) ++
  (if pdu_full m x q
   then match q !! m with Some s => [sdu_bytes s ++ pad] | None => [] end else []).

Lemma seg_pieces_sizes m q : Forall sdu_wf q -> seg_lis m q = piece_sizes (seg_pieces m q).
Proof.
  intros Hwf. unfold seg_lis, piece_sizes, seg_pieces. rewrite map_map. apply map_ext_in.
  intros s Hs. symmetry. apply length_bytes_left. rewrite Forall_forall in Hwf. apply Hwf.
  apply list_elem_of_In in Hs. by eapply elem_of_take in Hs as (i & Hs & _); apply list_elem_of_lookup_2 in Hs.
Qed.

Lemma seg_payload_pieces m x pad q s :
  q !! m = Some s -> seg_payload m x pad q = concat (seg_pieces m q) ++ seg_tail m x pad q.
Proof.
  intros Hs. unfold seg_payload, seg_tail. rewrite Hs, app_assoc. f_equal.
  revert m Hs. induction q as [|s' q IH]; intros [|m] Hs; try discriminate Hs.
  - injection Hs as ->. done.
  - cbn [pdu_data seg_pieces take map concat]. rewrite (IH m Hs), app_assoc. done.
Qed.

Lemma sdu_bytes_split s : sdu_bytes s = take (Z.to_nat (sdu_segmented_size s)) (sdu_bytes s) ++ bytes_left s.
Proof. symmetry. apply take_drop. Qed.

(** Only the first SDU of the queue is partly segmented. *)
Definition tail_fresh (q : list tx_sdu) : Prop := Forall (fun s => sdu_segmented_size s = 0) (drop 1 q).

Lemma fresh_bytes s : sdu_segmented_size s = 0 -> bytes_left s = sdu_bytes s.
Proof. intros H. unfold bytes_left. by rewrite H. Qed.
Lemma fresh_first q : Forall sdu_wf q ->
  first_fresh q = true -> head_prefix q = [].
Proof.
  destruct q as [|s q]; [done|]. intros [Hs _]%Forall_cons H. cbn [first_fresh head_prefix] in *.
  destruct Hs as (mem & _ & H1 & H2 & H3 & H4). apply Z.eqb_eq in H.
  by replace (sdu_segmented_size s) with 0 by lia.
Qed.

Lemma tail_fresh_lookup q i s : tail_fresh q -> q !! S i = Some s -> sdu_segmented_size s = 0.
Proof.
  unfold tail_fresh. intros Hf Hs. rewrite Forall_forall in Hf. apply Hf.
  apply (list_elem_of_lookup_2 _ i). rewrite lookup_drop. exact Hs.
Qed.

(** The prefix of an SDU segmented before the PDU, if there is one. *)
Lemma head_prefix_rest sn m x q s :
  tail_fresh q -> sdu_wf s -> q !! m = Some s -> 0 < x <= sdu_remaining_size s ->
  head_prefix (seg_rest sn m x q) =
    if pdu_full m x q then [] else
    (match m with O => head_prefix q | _ => [] end) ++ take (Z.to_nat x) (bytes_left s).
Proof.
  intros Hf Hwf Hs Hx. unfold seg_rest. destruct (pdu_full m x q) eqn:E.
  - destruct (drop (S m) q) as [|s' q'] eqn:Ed; [done|]. cbn [head_prefix].
    assert (Hs' : q !! S m = Some s').
    { rewrite <- (Nat.add_0_r (S m)), <- lookup_drop. by rewrite Ed. }
    by rewrite (tail_fresh_lookup _ _ _ Hf Hs').
  - rewrite (drop_S_lookup q m s Hs). cbn [head_prefix seg_part link_sdu sdu_segmented_size update_field].
    change (sdu_bytes (seg_part x (link_sdu sn s))) with (sdu_bytes s).
    destruct Hwf as (mem & _ & H1 & _). rewrite Z2Nat.inj_add by lia.
    rewrite <- take_take_drop. fold (bytes_left s). f_equal.
    destruct m as [|m]; [destruct q; [done|]; by injection Hs as ->|].
    by rewrite (tail_fresh_lookup _ _ _ Hf Hs).
Qed.

Lemma rest_tail_fresh sn m x q : tail_fresh q -> (m < length q)%nat -> tail_fresh (seg_rest sn m x q).
Proof.
  unfold tail_fresh. intros Hf Hm. unfold seg_rest. destruct (pdu_full m x q).
  - rewrite drop_drop. replace (S m + 1)%nat with (1 + S m)%nat by lia. rewrite <- drop_drop. by apply Forall_drop.
  - destruct (drop m q) as [|s q'] eqn:Ed; [done|]. cbn [drop].
    assert (E : q' = drop m (drop 1 q)).
    { rewrite drop_drop, (Nat.add_comm 1 m), <- drop_drop, Ed. done. }
    change (Forall (fun s => sdu_segmented_size s = 0) q'). rewrite E. by apply Forall_drop.
Qed.

(** [split_sdus] on the PDU. *)
Lemma seg_split sn m x pad q s :
  Forall sdu_wf q -> tail_fresh q -> q !! m = Some s -> 0 < x <= sdu_remaining_size s ->
  (pdu_full m x q = false -> pad = []) ->
  split_sdus (first_fresh q) (pdu_full m x q) (head_prefix q) (seg_pieces m q) (seg_tail m x pad q) =
    (seg_sdus m x pad q, head_prefix (seg_rest sn m x q)).
Proof.
  intros Hwf Hf Hs Hx Hd.
  assert (Hwfs : sdu_wf s) by (rewrite Forall_forall in Hwf; by apply Hwf, (list_elem_of_lookup_2 _ m)).
  rewrite (head_prefix_rest sn m x q s) by done. unfold split_sdus, seg_sdus, seg_tail. rewrite Hs.
  assert (Hbase : (if first_fresh q then [] else head_prefix q) = head_prefix q).
  { destruct (first_fresh q) eqn:E; [|done]. by rewrite fresh_first. }
  assert (Hflush : (if first_fresh q then match head_prefix q with [] => [] | _ => [head_prefix q] end else []) = []).
  { destruct (first_fresh q) eqn:E; [|done]. by rewrite fresh_first. }
  rewrite Hflush, Hbase. cbn [app].
  assert (Hdone : match seg_pieces m q with [] => [] | p :: ps => (head_prefix q ++ p) :: ps end =
                  map sdu_bytes (take m q)).
  { destruct q as [|s0 q]; [done|]. destruct m as [|m]; [done|]. unfold seg_pieces.
    cbn [take map head_prefix]. rewrite <- sdu_bytes_split. f_equal. apply map_ext_in. intros y Hy.
    apply fresh_bytes. unfold tail_fresh in Hf. cbn [drop] in Hf. rewrite Forall_forall in Hf. apply Hf.
    apply list_elem_of_In, subseteq_take in Hy. done. }
  assert (Hopen : forall t, match seg_pieces m q with [] => head_prefix q ++ t | _ => t end =
                  match m with O => head_prefix q | _ => [] end ++ t).
  { intros t. destruct q as [|s0 q]; [by destruct m|]. by destruct m. }
  rewrite Hdone, Hopen. destruct (pdu_full m x q) eqn:E.
  - f_equal. do 2 f_equal. rewrite (pdu_full_true m x q s Hs) in E. apply Z.eqb_eq in E as ->.
    rewrite take_bytes_left, app_assoc by done. f_equal. destruct m as [|m].
    + destruct q as [|s0 q]; [done|]. injection Hs as ->. symmetry. apply sdu_bytes_split.
    + cbn [app]. apply fresh_bytes. by apply (tail_fresh_lookup _ _ _ Hf Hs).
  - rewrite Hd by done. by rewrite !app_nil_r.
Qed.

(** The receiver can hold the SDUs. *)
Definition sdus_fit (d : Z) (q : list tx_sdu) : Prop := Forall (fun s => sdu_size s + d <= RLC_SDU_MAX_SIZE) q.

Lemma length_sdu_bytes s : sdu_wf s -> Z.of_nat (length (sdu_bytes s)) = sdu_size s.
Proof. intros (mem & Hm & _ & _ & _ & ->). unfold sdu_bytes. by rewrite Hm. Qed.

Lemma seg_fits sn m x d pad q s :
  Forall sdu_wf q -> tail_fresh q -> q !! m = Some s -> 0 < x <= sdu_remaining_size s -> 0 <= d ->
  Z.of_nat (length pad) = d -> sdus_fit d q ->
  Forall fits_sdu (head_prefix (seg_rest sn m x q) :: seg_sdus m x pad q).
Proof.
  intros Hwf Hf Hs Hx Hd Hpad Hfit. unfold sdus_fit in Hfit. rewrite Forall_forall in Hwf, Hfit.
  pose proof (list_elem_of_lookup_2 _ _ _ Hs) as Hin. pose proof (length_sdu_bytes s (Hwf s Hin)) as Hlen.
  assert (Hall : forall y, y ∈ q -> fits_sdu (sdu_bytes y)).
  { intros y Hy. unfold fits_sdu. rewrite length_sdu_bytes by auto. pose proof (Hfit y Hy). cbn in *. lia. }
  constructor.
  - pose proof (rest_wf sn m x q s ltac:(by apply Forall_forall) Hs Hx) as Hr.
    assert (Hrq : forall y, y ∈ seg_rest sn m x q -> exists z, z ∈ q /\ sdu_bytes y = sdu_bytes z).
    { unfold seg_rest. destruct (pdu_full m x q).
      - intros y Hy%subseteq_drop. by exists y.
      - rewrite (drop_S_lookup q m s Hs). intros y [-> | Hy%subseteq_drop]%elem_of_cons; [by exists s|by exists y]. }
    destruct (seg_rest sn m x q) as [|y r]; [done|]. cbn [head_prefix].
    destruct (Hrq y) as (z & Hz & E); [by left|]. rewrite E.
    pose proof (Hall z Hz) as Hz'. unfold fits_sdu in *. rewrite length_take. lia.
  - unfold seg_sdus. apply Forall_app. split.
    + apply Forall_map, Forall_forall. intros y Hy%subseteq_take. by apply Hall.
    + destruct (pdu_full m x q); [|done]. rewrite Hs. constructor; [|done]. unfold fits_sdu.
      rewrite length_app, Nat2Z.inj_add, Hlen. pose proof (Hfit s Hin). cbn in *. lia.
Qed.

Lemma seg_pieces_nonempty m q : Forall sdu_wf q -> Forall (fun p => p <> []) (seg_pieces m q).
Proof.
  intros Hwf. unfold seg_pieces. apply Forall_map, Forall_forall. intros y Hy%subseteq_take E.
  rewrite Forall_forall in Hwf. pose proof (length_bytes_left y (Hwf y Hy)) as Hl.
  pose proof (sdu_wf_remaining y (Hwf y Hy)). rewrite E in Hl. cbn in Hl. lia.
Qed.

Lemma seg_fi_flags m x q :
  ((seg_fi m x q =? 0) || (seg_fi m x q =? 1)) = first_fresh q /\
  ((seg_fi m x q =? 0) || (seg_fi m x q =? 2)) = pdu_full m x q.
Proof. unfold seg_fi. by destruct (first_fresh q), (pdu_full m x q). Qed.

(** Reassembling the decoded PDU. *)
Lemma carry_ok p m x d pad q sn r rx :
  segmentable r q m x d -> Z.of_nat (length pad) = d -> tail_fresh q -> sdus_fit d q ->
  rlc_am_reassemble_pdu (amd_info p (seg_fi m x q) sn None (seg_lis m q) (seg_payload m x pad q))
    (constructing (head_prefix q) rx) =
  Ok (constructing (head_prefix (seg_rest sn m x q)) (deliver_all (seg_sdus m x pad q) rx)).
Proof.
  intros Hg Hpad Hf Hfit. destruct (plan_last _ _ _ _ _ Hg) as (s & Hs & Hx & Hd & Hdx).
  destruct Hg as [Hq _ _ _ (Hm & _) _]. destruct Hq as (_ & _ & _ & Hwf & _).
  assert (Hd0 : pdu_full m x q = false -> pad = []).
  { rewrite (pdu_full_true m x q s Hs). intros E%Z.eqb_neq. destruct (Z.eq_dec d 0); [|by apply Hdx in n].
    apply length_zero_iff_nil. lia. }
  rewrite seg_pieces_sizes, (seg_payload_pieces m x pad q s) by done.
  destruct (seg_fi_flags m x q) as [E1 E2].
  pose proof (reassemble_pdu_ok p (seg_fi m x q) sn None (seg_pieces m q) (seg_tail m x pad q)
    (head_prefix q) rx (seg_pieces_nonempty m q Hwf)) as H. cbn zeta in H. rewrite E1, E2 in H.
  rewrite (seg_split sn m x pad q s) in H by done. apply H.
  - unfold seg_tail. rewrite Hs. intros [E _]%app_eq_nil.
    assert (Hwfs : sdu_wf s) by (rewrite Forall_forall in Hwf; by apply Hwf, (list_elem_of_lookup_2 _ m)).
    pose proof (length_take_left s x Hwfs ltac:(lia)) as Hl. rewrite E in Hl. cbn in Hl. lia.
  - unfold seg_pieces. rewrite length_map, length_take. lia.
  - apply (seg_fits sn m x d pad q s); try done. lia.
Qed.
