(* ===== verification/RlcAmStatusRx.v ===== *)
(** * Reception of a STATUS PDU (rlc_am_receive_process_control_pdu, rlc_am_status_report.c) *)

From S2P Require Import Prelude Bits RlcAmTypes RlcAmEntity RlcAmWindows RlcAmTxBuffer RlcTimers RlcAmTimers.
From S2P Require Import RlcAmStatusCodec RlcAmInSdu RlcAmPolling RlcAmRetransmit.

(** [while (sn_cursor != sn_end) rlc_am_ack_pdu(.., sn_cursor, TRUE)] *)
Fixpoint ack_below (fuel : nat) (sn_cursor sn_end : Z) (r : rlc_am_entity_t) : res rlc_am_entity_t :=
  match fuel with
  | O => Err OutOfFuel
  | S fuel' =>
      if negb (sn_cursor =? sn_end) then
        r ← rlc_am_ack_pdu r sn_cursor true;
        ack_below fuel' (RLC_AM_NEXT_SN sn_cursor) sn_end r
      else Ok r
  end.

(** The SN up to which SDUs are confirmed when the report has NACKs, and the
    last byte confirmed in it. *)
Definition data_cnf_limit (nack_sn_ : Z) (r : rlc_am_entity_t) : res (Z * Z) :=
  p ← get_tx_pdu r nack_sn_;
  Ok (if retx_payload_size p =? pdu_payload_size p then (RLC_AM_PREV_SN nack_sn_, 32767)
      else if negb (nack_so_start p =? 0) then (nack_sn_, nack_so_start p - 1)
      else (RLC_AM_PREV_SN nack_sn_, 32767)).

(** From the first NACK_SN to ACK_SN: PDUs are acknowledged in place, kept in
    the buffer, or marked for retransmission. *)
Fixpoint nack_loop (fuel : nat) (nacks : list nack_sn_t) (num ack_sn_ sn_cursor nack_index nack_sn_
    prev_nack_sn : Z) (status : bool) (r : rlc_am_entity_t) : res (bool * rlc_am_entity_t) :=
  match fuel with
  | O => Err OutOfFuel
  | S fuel' =>
      if negb (sn_cursor =? ack_sn_) && status then
        if negb (sn_cursor =? nack_sn_) then
          r ← rlc_am_ack_pdu r sn_cursor false;
          nack_loop fuel' nacks num ack_sn_
            (if negb (prev_nack_sn =? nack_sn_) then Z.land (sn_cursor + 1) RLC_AM_SN_MASK
             else sn_cursor)
            nack_index nack_sn_ prev_nack_sn status r
        else
          n ← array_get nacks nack_index;
          '(status, r) ← rlc_am_nack_pdu r nack_sn_ prev_nack_sn (so_start n) (so_end n);
          let nack_index := nack_index + 1 in
          let prev_nack_sn := nack_sn_ in
          if nack_index <? num then
            n ← array_get nacks nack_index;
            let nack_sn_ := nack_sn n in
            nack_loop fuel' nacks num ack_sn_
              (if negb (prev_nack_sn =? nack_sn_) then Z.land (sn_cursor + 1) RLC_AM_SN_MASK
               else sn_cursor)
              nack_index nack_sn_ prev_nack_sn status r
          else if negb (nack_sn_ =? ack_sn_) then
            nack_loop fuel' nacks num ack_sn_ (Z.land (sn_cursor + 1) RLC_AM_SN_MASK)
              nack_index ack_sn_ prev_nack_sn status r
          else Ok (status, r)
      else Ok (status, r)
  end.

(** The effect of a decoded report on the buffer: status, new VT(A), the SN up
    to which SDUs are confirmed and the last byte confirmed there. *)
Definition apply_status (info : rlc_am_control_pdu_info_t) (r : rlc_am_entity_t)
  : res (bool * Z * Z * Z * rlc_am_entity_t) :=
  if num_nack info =? 0 then
    r ← ack_below 1024 (vt_a r) (ack_sn info) r;
    Ok (true, ack_sn info, RLC_AM_PREV_SN (ack_sn info), 32767, r)
  else
    n ← array_get (nack_list info) 0;
    r ← ack_below 1024 (vt_a r) (nack_sn n) r;
    '(sn_data_cnf, data_cnf_so_stop) ← data_cnf_limit (nack_sn n) r;
    '(status, r) ← nack_loop 2048 (nack_list info) (num_nack info) (ack_sn info)
                     (nack_sn n) 0 (nack_sn n) 16383 true r;
    Ok (status, nack_sn n, sn_data_cnf, data_cnf_so_stop, r).

(** Confirmation of the SDUs of every PDU from VT(A) up to [sn_data_cnf]. *)
Fixpoint data_cnf_loop (fuel : nat) (sn_cursor sn_data_cnf : Z) (r : rlc_am_entity_t)
  : res rlc_am_entity_t :=
  match fuel with
  | O => Err OutOfFuel
  | S fuel' =>
      if negb (sn_cursor =? sn_data_cnf) then
        r ← rlc_am_pdu_sdu_data_cnf sn_cursor r;
        data_cnf_loop fuel' (RLC_AM_NEXT_SN sn_cursor) sn_data_cnf r
      else Ok r
  end.

(** The end of the processing of an accepted report. *)
Definition finish_status (ack_sn_ vt_a_new sn_data_cnf data_cnf_so_stop : Z) (r : rlc_am_entity_t)
  : res rlc_am_entity_t :=
  let r := (if negb (poll_sn r =? RLC_SN_UNDEFINED) &&
               (RLC_AM_DIFF_SN ack_sn_ (vt_a r) >? RLC_AM_DIFF_SN (poll_sn r) (vt_a r))
            then rlc_am_stop_and_reset_timer_poll_retransmit r <| poll_sn := RLC_SN_UNDEFINED |>
            else r) in
  p ← get_tx_pdu r sn_data_cnf;
  r ← (if transmitted (pdu_flags p) && (pdu_sn p =? sn_data_cnf) then
         r ← data_cnf_loop 1024 (vt_a r) sn_data_cnf r;
         (if data_cnf_so_stop =? 32767 then rlc_am_pdu_sdu_data_cnf sn_data_cnf r else Ok r)
       else Ok r);
  let r := r <| vt_a := vt_a_new |> in
  Ok (r <| vt_ms := Z.land (vt_a r + RLC_AM_WINDOW_SIZE) RLC_AM_SN_MASK |>).

(** The result is the number of bytes left after the PDU and the entity. *)
Definition rlc_am_receive_process_control_pdu (first_byte_p : list Z) (tb_size_in_bytes : Z)
    (r : rlc_am_entity_t) : res (Z * rlc_am_entity_t) :=
  '(code, left_, info) ← rlc_am_get_control_pdu_infos first_byte_p tb_size_in_bytes;
  let r := r <| control_pdu_info := info |> in
  if code >=? 0 then
    _ ← assert_that (ack_sn info <? RLC_AM_SN_MODULO);
    _ ← assert_that (num_nack info <? RLC_AM_MAX_NACK_IN_STATUS_PDU);
    if RLC_AM_DIFF_SN (vt_s r) (vt_a r) >=? RLC_AM_DIFF_SN (ack_sn info) (vt_a r) then
      '(status, vt_a_new, sn_data_cnf, data_cnf_so_stop, r) ← apply_status info r;
      if (status : bool) then
        r ← finish_status (ack_sn info) vt_a_new sn_data_cnf data_cnf_so_stop r;
        Ok (left_, r)
      else Ok (left_, r)
    else Ok (left_, r)
  else Ok (left_, r).
