(* ===== verification/RlcAmArq.v ===== *)
(** * The transmitting side under STATUS reports

    [arq_state a r]: the PDUs between VT(A) and VT(S) are outstanding from [a]
    on, those below [a] have been freed.  [a] is VT(A) except after a report
    whose NACK was refused: the PDUs below its first NACK are freed then and
    VT(A) stays behind.  Every report of a consistent peer keeps this state. *)

From S2P Require Import Prelude Bits RlcAmTypes RlcAmEntity RlcAmWindows RlcAmTxBuffer RlcTimers RlcAmTimers.
From S2P Require Import RlcAmStatusCodec RlcAmInSdu RlcAmPolling RlcAmRetransmit RlcAmStatusRx.

(** ** State *)

(** An acknowledged PDU has nothing pending, a free cell nothing transmitted. *)
Definition cell_fine (p : rlc_am_tx_data_pdu_management_t) : Prop :=
  ack_not_pending p /\ (pdu_mem_block p = None -> transmitted (pdu_flags p) = false).

Definition cell (r : rlc_am_entity_t) (sn : Z) : option rlc_am_tx_data_pdu_management_t :=
  tx_data_pdu_buffer r !! Z.to_nat (tx_index sn).

(** [a] lies between the edges of the window. *)
Definition edges (a : Z) (r : rlc_am_entity_t) : Prop :=
  is_sn (vt_a r) /\ is_sn (vt_s r) /\ is_sn a /\
  RLC_AM_DIFF_SN a (vt_a r) + RLC_AM_DIFF_SN (vt_s r) a = RLC_AM_DIFF_SN (vt_s r) (vt_a r) /\
  RLC_AM_DIFF_SN (vt_s r) (vt_a r) <= RLC_AM_WINDOW_SIZE.

Definition arq_core (a : Z) (r : rlc_am_entity_t) : Prop :=
  edges a r /\ tx_inv_from a r /\ Forall cell_fine (tx_data_pdu_buffer r) /\ sdus_wf r.
Definition arq_state (a : Z) (r : rlc_am_entity_t) : Prop :=
  arq_core a r /\ vt_ms r = (vt_a r + RLC_AM_WINDOW_SIZE) mod 1024.

Lemma arq_state_inv r :
  tx_inv r -> Forall cell_fine (tx_data_pdu_buffer r) -> sdus_wf r -> arq_state (vt_a r) r.
Proof.
  intros [H Hms] Hf Hs. split; [|done]. split; [|done]. destruct H as ((Ha & Hv & Hd) & _).
  unfold edges. rewrite RLC_AM_DIFF_SN_self. by split_and!.
Qed.

(** A position of the window. *)
Definition tx_span (r : rlc_am_entity_t) (sn : Z) : Prop :=
  is_sn sn /\ RLC_AM_DIFF_SN sn (vt_a r) < RLC_AM_DIFF_SN (vt_s r) (vt_a r).

Lemma tx_span_split a r sn :
  edges a r -> tx_span r sn ->
  outstanding_from a r sn \/ RLC_AM_DIFF_SN sn (vt_a r) < RLC_AM_DIFF_SN a (vt_a r).
Proof.
  intros (H1 & H2 & H3 & H4 & H5) [Hs Hd]. unfold outstanding_from.
  destruct (Z.lt_ge_cases (RLC_AM_DIFF_SN sn (vt_a r)) (RLC_AM_DIFF_SN a (vt_a r))); [by right|left].
  split; [done|]. revert H H1 H2 H3 H4 H5 Hs Hd. generalize (vt_a r) (vt_s r). intros. sn_lia.
Qed.

(** The cell of a number below [a] does not hold the PDU of that number. *)
Lemma below_edge a r sn p :
  edges a r -> tx_inv_from a r -> is_sn sn -> RLC_AM_DIFF_SN (vt_s r) a <= RLC_AM_DIFF_SN sn a ->
  cell r sn = Some p -> pdu_mem_block p = None \/ pdu_sn p <> sn.
Proof.
  intros He (_ & _ & _ & Hin) Hsn Hd Hp. destruct (pdu_mem_block p) as [b|] eqn:E; [right|by left].
  destruct (Hin _ _ Hp) as [[_ Ho] _]; [by rewrite E|]. intros <-. lia.
Qed.
Lemma freed_cell a r sn p :
  edges a r -> tx_inv_from a r -> is_sn sn -> RLC_AM_DIFF_SN sn (vt_a r) < RLC_AM_DIFF_SN a (vt_a r) ->
  cell r sn = Some p -> pdu_mem_block p = None.
Proof.
  intros (H1 & H2 & H3 & H4 & H5) (_ & _ & _ & Hin) Hsn Hd Hp.
  destruct (pdu_mem_block p) as [b|] eqn:E; [|done]. exfalso.
  destruct (Hin _ _ Hp) as [[Hs Ho] Hi]; [by rewrite E|].
  rewrite !tx_index_mod in Hi by (destruct Hs, Hsn; lia).
  revert H1 H2 H3 H4 H5 Hsn Hd Hs Ho Hi. generalize (vt_a r) (vt_s r) (pdu_sn p). intros. sn_lia.
Qed.

Lemma arq_cell a r sn : arq_core a r -> is_sn sn -> exists p, get_tx_pdu r sn = Ok p /\ cell r sn = Some p /\ cell_fine p.
Proof.
  intros (_ & Hinv & Hf & _) [Hs _]. destruct (get_tx_pdu_ok r sn (tx_inv_from_length _ _ Hinv) Hs) as (p & Hg & Hp).
  exists p. split; [done|]. split; [done|]. exact (proj1 (Forall_lookup _ _) Hf _ _ Hp).
Qed.

(** ** One acknowledgement *)

(** Acknowledging a free cell. *)
Lemma ack_freed_ok a r sn free_pdu p :
  tx_inv_from a r -> 0 <= sn -> cell r sn = Some p -> pdu_mem_block p = None ->
  exists q, rlc_am_ack_pdu r sn free_pdu = set_tx_pdu r sn q /\ pdu_mem_block q = None /\ pdu_sn q = pdu_sn p /\
    pdu_payload_size q = pdu_payload_size p /\ acked q /\ nb_sdus q = nb_sdus p /\ sdus_index q = sdus_index p /\
    transmitted (pdu_flags q) = false /\ tx_pdu_wf q /\ retx_payload_size p = 0 /\ pending p = 0.
Proof.
  intros Hinv Hsn Hp Hm. pose proof Hinv as (_ & Hacc & _).
  destruct (tx_accounting_wf _ _ _ Hacc Hp) as (W0 & W1 & W2 & W3 & W4).
  assert (Hr : retransmit (pdu_flags p) = false).
  { destruct (retransmit _); [|done]. destruct W0 as [_ W0]. by rewrite Hm in W0. }
  rewrite Hr in W0. unfold rlc_am_ack_pdu.
  destruct (get_tx_pdu_ok r sn (tx_inv_from_length _ _ Hinv) Hsn) as (p' & -> & Hp').
  unfold cell in Hp. rewrite Hp in Hp'. injection Hp' as <-. cbn [mbind res_bind]. rewrite Hm. cbn [is_null negb mbind res_bind].
  eexists. split; [reflexivity|]. unfold acked, pending, tx_pdu_wf. rewrite Hr. cbn. by split_and!.
Qed.

Lemma ack_step a r sn (free_pdu : bool) :
  arq_core a r -> tx_span r sn ->
  (free_pdu = true -> RLC_AM_DIFF_SN sn (vt_a r) <= RLC_AM_DIFF_SN a (vt_a r)) ->
  exists r' q, rlc_am_ack_pdu r sn free_pdu = Ok r' /\ tx_changed r r' /\
    arq_core (if free_pdu && (sn =? a) then RLC_AM_NEXT_SN a else a) r' /\
    tx_data_pdu_buffer r' = <[Z.to_nat (tx_index sn) := q]> (tx_data_pdu_buffer r) /\ acked q.
Proof.
  intros (He & Hinv & Hf & Hs) Hw Hfree. pose proof Hw as [Hsn _].
  destruct (arq_cell a r sn) as (p & Hg & Hp & [Hfp1 Hfp2]); [by split_and!|done|].
  assert (Hfin : forall r' q a', rlc_am_ack_pdu r sn free_pdu = Ok r' -> tx_changed r r' -> tx_inv_from a' r' ->
    tx_data_pdu_buffer r' = <[Z.to_nat (tx_index sn) := q]> (tx_data_pdu_buffer r) -> acked q ->
    transmitted (pdu_flags q) = false -> nb_sdus q = nb_sdus p -> sdus_index q = sdus_index p ->
    edges a' r' -> arq_core a' r').
  { intros r' q a' _ Hch Hinv' Hb (Ha & Hr & _) Ht Hn Hx He'. split; [done|]. split; [done|]. split.
    - rewrite Hb. apply Forall_insert; [done|]. split; [intros _; exact Hr|done].
    - destruct Hs as (S1 & S2 & S3). rewrite Hch. split; [exact S1|]. split; [|exact S3].
      change (Forall refs_wf (tx_data_pdu_buffer r')). rewrite Hb. apply Forall_insert; [done|].
      unfold refs_wf. rewrite Hn, Hx. exact (proj1 (Forall_lookup _ _) S2 _ _ Hp). }
  assert (Hedge : forall r' a', tx_changed r r' -> edges a' r -> edges a' r').
  { intros r' a' Hch. unfold edges. by destruct (tx_changed_vars _ _ Hch) as (-> & -> & _). }
  assert (Hout : outstanding_from a r sn -> free_pdu = true -> sn = a).
  { intros [_ Ho] Ef. specialize (Hfree Ef). destruct He as (H1 & H2 & H3 & H4 & H5). revert Ho Hfree H1 H2 H3 H4 H5 Hw.
    unfold tx_span. generalize (vt_a r) (vt_s r). intros. sn_lia. }
  destruct (tx_span_split a r sn He Hw) as [Ho | Hlow].
  - destruct (ack_pdu_ok a r sn free_pdu p Hinv Ho (Hout Ho) Hp Hfp1) as (r' & q & E & Hch & Hinv' & Hb & Hq & Hn & Hx & Ht & _).
    assert (Ea : (if free_pdu && (sn =? a) then RLC_AM_NEXT_SN a else a) = if free_pdu then RLC_AM_NEXT_SN a else a).
    { destruct free_pdu; [|done]. by rewrite (Hout Ho eq_refl), Z.eqb_refl. }
    rewrite Ea. exists r', q. split; [done|]. split; [done|]. split; [|done].
    apply (Hfin r' q); try done. apply (Hedge r'); [done|]. destruct free_pdu; [|done].
    specialize (Hout Ho eq_refl). subst sn. destruct He as (H1 & H2 & H3 & H4 & H5). destruct Ho as [_ Ho].
    unfold edges. split; [done|]. split; [done|]. split; [apply RLC_AM_NEXT_SN_is_sn|].
    revert Ho H1 H2 H3 H4 H5 Hw. unfold tx_span. generalize (vt_a r) (vt_s r). intros. sn_lia.
  - pose proof (freed_cell a r sn p He Hinv Hsn Hlow Hp) as Hm.
    destruct (ack_freed_ok a r sn free_pdu p Hinv) as (q & E & Q1 & Q2 & Q3 & Q4 & Q5 & Q6 & Q7 & Q8 & Q9 & Q10); try done;
      [destruct Hsn; lia|].
    assert (Hne : sn <> a) by (intros ->; lia).
    rewrite (proj2 (Z.eqb_neq _ _) Hne), andb_false_r.
    rewrite set_tx_pdu_ok in E by (first [by eapply tx_inv_from_length|destruct Hsn; lia]).
    eexists _, q. split; [exact E|]. split; [done|]. split; [|done].
    match goal with |- arq_core _ ?x => set (r' := x) in * end.
    assert (Hpq : pending q = 0) by (unfold pending; by destruct Q4 as (_ & -> & _)).
    apply (Hfin r' q); try done. eapply (tx_inv_from_update a r r' _ p q Hinv Hp); try done.
    + by rewrite Q1, Hm.
    + intros _. destruct Q4 as (-> & _). by rewrite Q7.
    + destruct Hinv as (_ & Hacc & _). destruct Q4 as (_ & _ & Q4).
      eapply (tx_accounting_update r r' _ p q Hacc Hp Q8); [done|..]; unfold r';
        cbn [retrans_num_pdus retrans_num_bytes_to_retransmit update_field]; lia.
Qed.

(** ** Acknowledging and freeing up to an edge *)
Lemma same_cell a r sn sn' :
  edges a r -> tx_span r sn -> tx_span r sn' -> Z.to_nat (tx_index sn) = Z.to_nat (tx_index sn') -> sn = sn'.
Proof.
  intros (H1 & H2 & H3 & H4 & H5) [Hs Hd] [Hs' Hd'] E.
  rewrite !tx_index_mod in E by (destruct Hs, Hs'; lia).
  revert E H1 H2 H3 H4 H5 Hs Hd Hs' Hd'. generalize (vt_a r) (vt_s r). intros. sn_lia.
Qed.
Lemma other_cell a r r' sn sn' q :
  edges a r -> tx_span r sn -> tx_span r sn' -> sn <> sn' ->
  tx_data_pdu_buffer r' = <[Z.to_nat (tx_index sn) := q]> (tx_data_pdu_buffer r) -> cell r' sn' = cell r sn'.
Proof.
  intros He H1 H2 Hne Hb. unfold cell. rewrite Hb, list_lookup_insert_ne; [done|].
  intros E. apply Hne. by apply (same_cell a r).
Qed.
Lemma tx_changed_span r r' sn : tx_changed r r' -> tx_span r' sn <-> tx_span r sn.
Proof. intros Hch. unfold tx_span. by destruct (tx_changed_vars _ _ Hch) as (-> & -> & _). Qed.

(** Distances from VT(A). *)
Abbreviation off r sn := (RLC_AM_DIFF_SN sn (vt_a r)).

Lemma ack_below_ok fuel : forall c t a r,
  arq_core a r -> is_sn c -> is_sn t -> off r c <= off r a -> off r c <= off r t <= off r (vt_s r) ->
  off r t - off r c < Z.of_nat fuel ->
  exists r' a', ack_below fuel c t r = Ok r' /\ tx_changed r r' /\ arq_core a' r' /\
    off r a' = Z.max (off r a) (off r t) /\
    (forall sn, tx_span r sn -> off r t <= off r sn -> cell r' sn = cell r sn).
Proof.
  induction fuel as [|fuel IH]; intros c t a r Hc Hsc Hst Hca Hct Hf; [lia|]. cbn [ack_below].
  destruct (Z.eqb_spec c t) as [-> | Hne]; cbn [negb].
  { exists r, a. split; [done|]. split; [reflexivity|]. split; [done|]. split; [lia|done]. }
  pose proof Hc as ((H1 & H2 & H3 & H4 & H5) & _).
  assert (Hlt : off r c < off r t).
  { destruct (Z.eq_dec (off r c) (off r t)) as [E|]; [|lia]. by apply RLC_AM_DIFF_SN_inj in E. }
  assert (Hspan : tx_span r c) by (split; [done|lia]).
  assert (Hnext : off r (RLC_AM_NEXT_SN c) = off r c + 1).
  { apply RLC_AM_DIFF_SN_next. pose proof (RLC_AM_DIFF_SN_range (vt_s r) (vt_a r)). lia. }
  destruct (ack_step a r c true Hc Hspan ltac:(intros; lia)) as (r1 & q & -> & Hch & Hc1 & Hb & _).
  cbn [mbind res_bind andb] in *. set (a1 := if c =? a then RLC_AM_NEXT_SN a else a) in *.
  assert (Ha1 : off r a1 = if c =? a then off r a + 1 else off r a).
  { unfold a1. destruct (Z.eqb_spec c a) as [<- |]; [exact Hnext|done]. }
  destruct (tx_changed_vars _ _ Hch) as (Ea & Es & _).
  destruct (IH (RLC_AM_NEXT_SN c) t a1 r1 Hc1) as (r' & a' & E & Hch' & Hc' & Hmax & Hcells);
    rewrite ?Ea, ?Es, ?Hnext in *; try (done || lia).
  - apply RLC_AM_NEXT_SN_is_sn.
  - rewrite Ha1. destruct (Z.eqb_spec c a) as [<- | Hca']; [lia|].
    destruct (Z.eq_dec (off r c) (off r a)) as [E|]; [|lia]. by apply RLC_AM_DIFF_SN_inj in E.
  - exists r', a'. split; [done|]. split; [by etransitivity|]. split; [done|]. split.
    + rewrite Hmax, Ha1. destruct (Z.eqb_spec c a) as [<- |]; lia.
    + intros sn Hsn Hle. etransitivity; [apply Hcells; [by apply (tx_changed_span r)|done]|].
      apply (other_cell a r r1 c sn q); try done. intros ->. lia.
Qed.

(** ** The NACKs of a report *)

(** In increasing order from the offset [lo], below the offset [lim]. *)
Fixpoint nacks_ok (base lim lo : Z) (ns : list nack_sn_t) : Prop :=
  match ns with
  | [] => True
  | n :: ns' =>
      is_sn (nack_sn n) /\ lo <= RLC_AM_DIFF_SN (nack_sn n) base < lim /\ 0 <= so_start n <= so_end n /\
      nacks_ok base lim (RLC_AM_DIFF_SN (nack_sn n) base) ns'
  end.
(** The peer does not ask for a PDU it has acknowledged. *)
Definition not_acked (r : rlc_am_entity_t) (n : nack_sn_t) : Prop :=
  forall p, cell r (nack_sn n) = Some p -> ack (pdu_flags p) = false.

(** A NACK of a whole PDU that can still be retransmitted. *)
Definition whole_nack (r : rlc_am_entity_t) (n : nack_sn_t) : Prop :=
  so_start n = 0 /\ so_end n = 32767 /\
  forall p, cell r (nack_sn n) = Some p -> max_retransmit (pdu_flags p) = false.

Lemma nacks_ok_le base lim lo lo' ns : lo' <= lo -> nacks_ok base lim lo ns -> nacks_ok base lim lo' ns.
Proof. destruct ns as [|n ns]; [done|]. cbn [nacks_ok]. intros H (H1 & H2 & H3). split; [done|]. split; [lia|done]. Qed.
Lemma nacks_ok_off base lim lo ns n : nacks_ok base lim lo ns -> n ∈ ns ->
  is_sn (nack_sn n) /\ lo <= RLC_AM_DIFF_SN (nack_sn n) base < lim.
Proof.
  revert lo. induction ns as [|m ns IH]; intros lo H Hn; [by apply not_elem_of_nil in Hn|].
  destruct H as (H1 & H2 & H3 & H4). apply elem_of_cons in Hn as [-> | Hn]; [done|].
  destruct (IH _ H4 Hn) as [H5 H6]. split; [done|lia].
Qed.

Lemma elem_of_sns sn ns : sn ∈ map nack_sn ns <-> exists n, sn = nack_sn n /\ n ∈ ns.
Proof. exact (list_elem_of_fmap nack_sn ns sn). Qed.

(** The cells of the numbers from [c] to the ACK_SN after the report. *)
Definition reported (r r' : rlc_am_entity_t) (c ack : Z) (ns : list nack_sn_t) : Prop :=
  forall sn p, is_sn sn -> off r c <= off r sn < off r ack -> cell r' sn = Some p ->
    if bool_decide (sn ∈ map nack_sn ns) then nacked p else acked p.

(** A NACK leaves the SDUs a PDU refers to. *)
Definition same_sdus (p q : rlc_am_tx_data_pdu_management_t) : Prop :=
  nb_sdus q = nb_sdus p /\ sdus_index q = sdus_index p.

Lemma nack_mark_sdus p sn prev s e status inc d q :
  nack_mark p sn prev s e = Ok (status, inc, d, q) -> same_sdus p q.
Proof.
  unfold nack_mark, same_sdus. intros H.
  repeat (case_match; try (injection H as <- <- <- <-; done));
    repeat (apply bind_ok_inv in H as (? & _ & H)); repeat (case_match; try (injection H as <- <- <- <-; done));
    repeat (apply bind_ok_inv in H as (? & _ & H)); by injection H as <- <- <- <-.
Qed.

Lemma set_tx_refs r r0 r' sn p q :
  Forall refs_wf (tx_data_pdu_buffer r) -> get_tx_pdu r sn = Ok p -> same_sdus p q ->
  tx_data_pdu_buffer r0 = tx_data_pdu_buffer r -> set_tx_pdu r0 sn q = Ok r' -> Forall refs_wf (tx_data_pdu_buffer r').
Proof.
  intros Hr Hp [E1 E2] Hb Hs. apply set_tx_pdu_inv in Hs as ->. cbn [tx_data_pdu_buffer update_field].
  rewrite Hb. apply Forall_insert; [done|]. apply get_tx_pdu_inv in Hp.
  pose proof (proj1 (Forall_lookup _ _) Hr _ _ Hp) as H. unfold refs_wf in *. by rewrite E1, E2.
Qed.

Lemma nack_pdu_refs r sn prev s e st r' :
  Forall refs_wf (tx_data_pdu_buffer r) -> rlc_am_nack_pdu r sn prev s e = Ok (st, r') ->
  Forall refs_wf (tx_data_pdu_buffer r').
Proof.
  unfold rlc_am_nack_pdu. intros Hr H. apply bind_ok_inv in H as (p & Hp & H).
  destruct (negb (is_null _)); [|by injection H as <- <-].
  apply bind_ok_inv in H as (u & _ & H). apply bind_ok_inv in H as ([[[st1 inc] d] q] & Hq & H).
  pose proof (nack_mark_sdus _ _ _ _ _ _ _ _ _ Hq) as Hsame.
  assert (Hset : forall r0 q' r1, tx_data_pdu_buffer r0 = tx_data_pdu_buffer r -> same_sdus q q' ->
    set_tx_pdu r0 sn q' = Ok r1 -> Forall refs_wf (tx_data_pdu_buffer r1)).
  { intros r0 q' r1 Hb [E1 E2] Hs. apply (set_tx_refs r r0 r1 sn p q'); try done. destruct Hsame as [E3 E4].
    split; congruence. }
  destruct st1; [|apply bind_ok_inv in H as (r1 & Hs & H); injection H as <- <-;
    by apply (Hset _ _ _ eq_refl (conj eq_refl eq_refl) Hs)].
  set (q2 := if inc && _ then _ else _) in H.
  assert (Hq2 : same_sdus q q2) by (unfold q2; by destruct (inc && _)). clearbody q2.
  repeat case_match; apply bind_ok_inv in H as (r1 & Hs & H); injection H as <- <-; cbn [tx_data_pdu_buffer update_field];
    (eapply Hset; [|destruct Hq2 as [E1 E2]|exact Hs]; [done|split; [exact E1|exact E2]]).
Qed.

(** One NACK of the report. *)
Lemma nack_step a r n prev :
  arq_core a r -> outstanding_from a r (nack_sn n) -> 0 <= so_start n <= so_end n -> not_acked r n ->
  exists st r', rlc_am_nack_pdu r (nack_sn n) prev (so_start n) (so_end n) = Ok (st, r') /\ tx_changed r r' /\
    arq_core a r' /\ (forall m, not_acked r m -> not_acked r' m) /\
    (forall sn, tx_span r sn -> sn <> nack_sn n -> cell r' sn = cell r sn) /\
    (st = true -> forall p, cell r' (nack_sn n) = Some p -> nacked p) /\
    (prev <> nack_sn n -> whole_nack r n -> st = true).
Proof.
  intros (He & Hinv & Hf & Hs) Ho Hso Hna.
  destruct (nack_pdu_ok a r _ prev _ _ Hinv Ho Hso) as (st & r' & E & Hinv' & Hch & Hfalse & Htrue & Hacc).
  exists st, r'. split; [done|]. split; [done|].
  assert (Hwhole : prev <> nack_sn n -> whole_nack r n -> st = true).
  { intros Hne (W1 & W2 & W3). apply Hacc; [done|]. destruct (get_outstanding a r _ Hinv Ho) as (p & _ & Hp & _).
    exists p. split; [done|]. split; [by apply W3|]. rewrite W1, W2. by apply Hna. }
  clear Hacc.
  destruct st; [clear Hfalse; specialize (Htrue eq_refl)|rewrite (Hfalse eq_refl); by split].
  destruct Htrue as (p & q & Hp & Hb & Hq & Hack & _). pose proof (Hna p Hp) as Hap.
  assert (Hspan : tx_span r (nack_sn n)).
  { destruct Ho as [Ho1 Ho2]. split; [done|]. destruct He as (H1 & H2 & H3 & H4 & H5).
    revert H1 H2 H3 H4 H5 Ho1 Ho2. generalize (vt_a r) (vt_s r) (nack_sn n). intros. sn_lia. }
  split; [split; [|split; [done|split]]|split; [|split; [|split; [|exact Hwhole]]]].
  - unfold edges. by destruct (tx_changed_vars _ _ Hch) as (-> & -> & _).
  - rewrite Hb. apply Forall_insert; [done|].
    destruct (get_outstanding a r' (nack_sn n) Hinv') as (q' & _ & Hq' & (Hm & _)).
    { unfold outstanding_from. destruct (tx_changed_vars _ _ Hch) as (_ & -> & _). exact Ho. }
    rewrite Hb, list_lookup_insert_eq in Hq' by (by eapply lookup_lt_Some). injection Hq' as <-.
    split; [intros Hc; congruence|intros Hc; by rewrite Hc in Hm].
  - destruct Hs as (S1 & S2 & S3). rewrite Hch. split; [exact S1|]. split; [|exact S3].
    exact (nack_pdu_refs _ _ _ _ _ _ _ S2 E).
  - intros m Hm x Hx. unfold cell in Hx. rewrite Hb in Hx.
    destruct (decide (Z.to_nat (tx_index (nack_sn n)) = Z.to_nat (tx_index (nack_sn m)))) as [Ei | Ei].
    + rewrite Ei, list_lookup_insert_eq in Hx by (rewrite <- Ei; by eapply lookup_lt_Some). injection Hx as <-. congruence.
    + rewrite list_lookup_insert_ne in Hx by done. by apply Hm.
  - intros sn Hsn Hne. by apply (other_cell a r r' (nack_sn n) sn q).
  - intros _ x Hx. unfold cell in Hx. rewrite Hb, list_lookup_insert_eq in Hx by (by eapply lookup_lt_Some).
    by injection Hx as <-.
Qed.

Lemma array_get_length {A} (l1 l2 : list A) x : array_get (l1 ++ x :: l2) (Z.of_nat (length l1)) = Ok x.
Proof.
  destruct (array_get_ok (l1 ++ x :: l2) (Z.of_nat (length l1))) as (y & E & Hy).
  { rewrite length_app. cbn [length]. lia. }
  rewrite Nat2Z.id, list_lookup_middle in Hy by done. by injection Hy as <-.
Qed.

(** The number the loop waits for: the next NACK_SN, or the ACK_SN. *)
Definition awaited (ack : Z) (rem : list nack_sn_t) : Z :=
  match rem with [] => ack | n :: _ => nack_sn n end.

Lemma awaited_le r ack lo rem : nacks_ok (vt_a r) (off r ack) lo rem -> off r (awaited ack rem) <= off r ack.
Proof. destruct rem as [|n rem]; [reflexivity|]. intros (_ & H & _). cbn [awaited]. lia. Qed.

Lemma nack_loop_stop fuel nacks num ack c k nsn prev r :
  (0 < fuel)%nat -> nack_loop fuel nacks num ack c k nsn prev false r = Ok (false, r).
Proof. destruct fuel; [lia|]. intros _. cbn [nack_loop]. by rewrite andb_false_r. Qed.

Lemma nack_loop_ok pad ack ns fuel : forall a r c done_ rem prev,
  ns = done_ ++ rem -> arq_core a r -> is_sn c -> is_sn ack -> off r ack <= off r (vt_s r) ->
  off r a <= off r c -> off r c <= off r (awaited ack rem) -> nacks_ok (vt_a r) (off r ack) (off r c) rem ->
  Forall (not_acked r) rem -> (prev = awaited ack rem -> c = awaited ack rem /\ rem <> []) ->
  (off r ack - off r c) + Z.of_nat (length rem) < Z.of_nat fuel ->
  exists st r', nack_loop fuel (ns ++ pad) (Z.of_nat (length ns)) ack c (Z.of_nat (length done_)) (awaited ack rem) prev true r =
      Ok (st, r') /\ tx_changed r r' /\ arq_core a r' /\
    (forall sn, tx_span r sn -> off r sn < off r c -> cell r' sn = cell r sn) /\
    (st = true -> reported r r' c ack rem) /\
    (rem = [] \/ prev <> awaited ack rem -> Forall (whole_nack r) rem -> NoDup (map nack_sn rem) -> st = true).
Proof.
  induction fuel as [|fuel IH]; intros a r c done_ rem prev Hns Hcore Hc Hack Hackl Hac Hcw Hok Hna Hprev Hf;
    pose proof (awaited_le r ack _ rem Hok) as Haw; [lia|].
  cbn [nack_loop]. rewrite andb_true_r. destruct (Z.eqb_spec c ack) as [-> | Hne]; cbn [negb].
  { exists true, r. split; [done|]. split; [reflexivity|]. split; [done|]. split; [done|].
    split; [|done]. intros _ sn p _ Hoff. lia. }
  pose proof Hcore as (Hedges & _). pose proof Hedges as (H1 & H2 & H3 & H4 & H5).
  assert (Hlt : off r c < off r ack).
  { destruct (Z.eq_dec (off r c) (off r ack)) as [E|]; [|lia]. by apply RLC_AM_DIFF_SN_inj in E. }
  assert (Hspan : tx_span r c) by (split; [done|lia]).
  assert (Hnext : off r (RLC_AM_NEXT_SN c) = off r c + 1).
  { apply RLC_AM_DIFF_SN_next. pose proof (RLC_AM_DIFF_SN_range (vt_s r) (vt_a r)). lia. }
  assert (Hnsn : is_sn (RLC_AM_NEXT_SN c)) by apply RLC_AM_NEXT_SN_is_sn.
  change (Z.land (c + 1) RLC_AM_SN_MASK) with (RLC_AM_NEXT_SN c).
  destruct (Z.eqb_spec c (awaited ack rem)) as [Ec | Ec]; cbn [negb].
  - (* a NACK *)
    destruct rem as [|n rem]; [by subst|]. cbn [awaited] in *.
    assert (Hget : array_get (ns ++ pad) (Z.of_nat (length done_)) = Ok n)
      by (rewrite Hns, <- app_assoc; apply array_get_length).
    rewrite Hget. cbn [mbind res_bind].
    destruct Hok as (Hn & Hno & Hso & Hok). apply Forall_cons in Hna as [Hna1 Hna].
    assert (Hout : outstanding_from a r (nack_sn n)).
    { rewrite <- Ec. destruct (tx_span_split a r c Hedges Hspan) as [|]; [done|lia]. }
    destruct (nack_step a r n prev Hcore Hout Hso Hna1) as (st & r1 & -> & Hch & Hcore1 & Hna' & Hcell & Hst & Hwhole).
    cbn [mbind res_bind].
    set (c' := match rem with m :: _ => if nack_sn n =? nack_sn m then c else RLC_AM_NEXT_SN c | [] => RLC_AM_NEXT_SN c end).
    match goal with |- exists st' r', ?X = _ /\ _ => assert (Hloop : X = nack_loop fuel (ns ++ pad) (Z.of_nat (length ns)) ack c'
      (Z.of_nat (length (done_ ++ [n]))) (awaited ack rem) (nack_sn n) st r1) end.
    { rewrite Hns at 1. rewrite !length_app. cbn [length]. unfold c'. destruct rem as [|m rem].
      - rewrite (proj2 (Z.ltb_ge _ _)) by (cbn [length]; lia). rewrite (proj2 (Z.eqb_neq (nack_sn n) ack)) by congruence.
        cbn [negb]. do 2 f_equal; cbn [awaited]; lia.
      - rewrite (proj2 (Z.ltb_lt _ _)) by (cbn [length]; lia).
        assert (Hget' : array_get (ns ++ pad) (Z.of_nat (length done_) + 1) = Ok m).
        { replace (Z.of_nat (length done_) + 1) with (Z.of_nat (length (done_ ++ [n]))) by (rewrite length_app; cbn [length]; lia).
          rewrite Hns, (cons_middle n done_), app_assoc, <- app_assoc. apply array_get_length. }
        rewrite Hget'. cbn [mbind res_bind awaited].
        replace (Z.of_nat (length done_ + 1)) with (Z.of_nat (length done_) + 1) by lia. by destruct (nack_sn n =? nack_sn m). }
    rewrite Hloop. clear Hloop. destruct (tx_changed_vars _ _ Hch) as (Ea & Es & _).
    destruct st; [specialize (Hst eq_refl)|].
    2:{ exists false, r1. split; [by apply nack_loop_stop; lia|]. split; [done|]. split; [done|]. split; [|split; [done|]].
        - intros sn Hsn Hlo. apply Hcell; [done|]. intros ->. rewrite Ec in Hlo. lia.
        - intros [?|Hp] Hw _; [done|]. apply Forall_cons in Hw as [Hw _]. by specialize (Hwhole Hp Hw). }
    assert (Hc' : is_sn c' /\ (rem = [] \/ c' <> c -> c' = RLC_AM_NEXT_SN c) /\ (c' = c -> c ∈ map nack_sn rem)).
    { unfold c'. destruct rem as [|m rem]; [split; [done|]; split; [done|]; intros E; rewrite E in Hnext; lia|].
      destruct (Z.eqb_spec (nack_sn n) (nack_sn m)) as [Em | Em]; cbn [map].
      - split; [done|]. split; [by intros [?|?]|]. intros _. rewrite Ec, Em. left.
      - split; [done|]. split; [done|]. intros E. rewrite E in Hnext. lia. }
    assert (Hoff' : off r c' = if bool_decide (c' = c) then off r c else off r c + 1).
    { destruct (bool_decide_reflect (c' = c)) as [-> | E]; [done|]. destruct Hc' as (_ & Hc' & _). by rewrite Hc' by auto. }
    assert (Hnext' : off r c' <= off r (awaited ack rem) /\ nacks_ok (vt_a r) (off r ack) (off r c') rem /\
      (nack_sn n = awaited ack rem -> c' = awaited ack rem /\ rem <> [])).
    { unfold c' in *. destruct rem as [|m rem]; cbn [awaited] in *.
      - split; [lia|]. split; [done|]. congruence.
      - destruct Hok as (G1 & G2 & G3 & G4). destruct (Z.eqb_spec (nack_sn n) (nack_sn m)) as [Em | Em].
        + rewrite <- Em, <- Ec. split; [lia|]. split; [|done]. split; [done|]. split; [rewrite <- Em, <- Ec; lia|]. done.
        + assert (off r (nack_sn n) <> off r (nack_sn m)) by (intros E; by apply RLC_AM_DIFF_SN_inj in E).
          rewrite Hnext, Ec. split; [lia|]. split; [|done]. split; [done|]. split; [lia|done]. }
    destruct Hnext' as (N1 & N2 & N3). destruct Hc' as (C1 & C2 & C3).
    destruct (IH a r1 c' (done_ ++ [n]) rem (nack_sn n)) as (st & r' & E & Hch' & Hcore' & Hbelow & Hrep & Hfull);
      rewrite ?Ea, ?Es in *; try (done || case_bool_decide; lia).
    + by rewrite <- app_assoc.
    + by eapply Forall_impl.
    + cbn [length] in Hf. case_bool_decide; lia.
    + exists st, r'. split; [done|]. split; [by etransitivity|]. split; [done|]. split; [|split].
      * intros sn Hsn Hlo. etransitivity; [apply Hbelow; [by apply (tx_changed_span r)|case_bool_decide; lia]|].
        apply Hcell; [done|]. intros ->. rewrite Ec in Hlo. lia.
      * intros Ht sn p Hsn Hoff Hp. cbn [map]. destruct (Z.lt_ge_cases (off r sn) (off r c')) as [Hlo | Hhi].
        -- assert (sn = c) as -> by (apply (RLC_AM_DIFF_SN_inj _ _ (vt_a r)); [done|done|case_bool_decide; lia]).
           rewrite bool_decide_true by (rewrite Ec; left).
           rewrite Hbelow in Hp; [|by apply (tx_changed_span r)|lia]. apply Hst. by rewrite <- Ec.
        -- specialize (Hrep Ht sn p Hsn). rewrite Ea in Hrep.
           rewrite (bool_decide_ext _ (sn ∈ map nack_sn rem)); [apply Hrep; [lia|done]|].
           rewrite elem_of_cons. split; [|by right]. intros [E' | ?]; [|done]. rewrite E', <- Ec. apply C3.
           apply (bool_decide_eq_true_1 (c' = c)). destruct (bool_decide_reflect (c' = c)); [done|].
           rewrite E', <- Ec in Hhi. lia.
      * intros _ Hw Hnd. apply Forall_cons in Hw as [_ Hw]. apply NoDup_cons in Hnd as [Hnew Hnd]. apply Hfull; [| |done].
        -- destruct rem as [|m rem]; [by left|right]. intros E'. apply Hnew. cbn [awaited map] in *. rewrite E'. left.
        -- apply Forall_forall. intros m Hm. rewrite Forall_forall in Hw. destruct (Hw m Hm) as (W1 & W2 & W3).
           split; [done|]. split; [done|]. intros p Hp. apply W3.
           destruct (nacks_ok_off _ _ _ _ m Hok Hm) as [M1 M2]. rewrite Hcell in Hp; [done|by split; [|lia]|].
           intros E'. apply Hnew. rewrite <- E'. apply elem_of_sns. by exists m.
  - (* an ACK in place *)
    destruct (ack_step a r c false Hcore Hspan) as (r1 & q & -> & Hch & Hcore1 & Hb & Hq); [done|].
    cbn [mbind res_bind andb] in *. destruct (tx_changed_vars _ _ Hch) as (Ea & Es & _).
    assert (Hpw : prev <> awaited ack rem) by (intros E; by destruct (Hprev E)).
    rewrite (proj2 (Z.eqb_neq _ _) Hpw). cbn [negb].
    assert (Hlw : off r c < off r (awaited ack rem)).
    { destruct (Z.eq_dec (off r c) (off r (awaited ack rem))) as [E|]; [|lia]. apply RLC_AM_DIFF_SN_inj in E; [done|done|].
      destruct rem; [done|]. by destruct Hok. }
    assert (Hok' : nacks_ok (vt_a r) (off r ack) (off r c + 1) rem).
    { destruct rem as [|n rem]; [done|]. destruct Hok as (G1 & G2 & G3). cbn [awaited] in Hlw. split; [done|]. split; [lia|done]. }
    assert (Hcells : forall sn, tx_span r sn -> sn <> c -> cell r1 sn = cell r sn).
    { intros sn Hsn Hne'. by apply (other_cell a r r1 c sn q). }
    destruct (IH a r1 (RLC_AM_NEXT_SN c) done_ rem prev) as (st & r' & E & Hch' & Hcore' & Hbelow & Hrep & Hfull);
      rewrite ?Ea, ?Es, ?Hnext in *; try (done || lia).
    + apply Forall_forall. intros m Hm. rewrite Forall_forall in Hna. destruct (nacks_ok_off _ _ _ _ m Hok' Hm) as [Hm1 Hm2].
      intros p Hp. apply (Hna m Hm). rewrite <- Hcells; [done|by split; [|lia]|]. intros E. rewrite E in Hm2. lia.
    + exists st, r'. split; [done|]. split; [by etransitivity|]. split; [done|]. split; [|split].
      * intros sn Hsn Hlo. etransitivity; [apply Hbelow; [by apply (tx_changed_span r)|lia]|]. apply Hcells; [done|]. intros ->. lia.
      * intros Ht sn p Hsn Hoff Hp. destruct (Z.eq_dec (off r sn) (off r c)) as [Eo | Eo].
        -- apply RLC_AM_DIFF_SN_inj in Eo as ->; [|done|done]. rewrite bool_decide_false.
           2:{ intros (m & Em & Hm)%elem_of_sns. destruct (nacks_ok_off _ _ _ _ m Hok' Hm) as [_ Hm']. rewrite <- Em in Hm'. lia. }
           rewrite Hbelow in Hp; [|by apply (tx_changed_span r)|lia].
           unfold cell in Hp. rewrite Hb in Hp. apply list_lookup_insert_Some in Hp as [(_ & <- & _) | [[] _]]; done.
        -- specialize (Hrep Ht sn p Hsn). rewrite Ea, Hnext in Hrep. apply Hrep; [lia|done].
      * intros _ Hw Hnd. apply Hfull; [by right| |done]. apply Forall_forall. intros m Hm. rewrite Forall_forall in Hw.
        destruct (Hw m Hm) as (W1 & W2 & W3). split; [done|]. split; [done|]. intros p Hp. apply W3.
        destruct (nacks_ok_off _ _ _ _ m Hok' Hm) as [M1 M2]. rewrite Hcells in Hp; [done|by split; [|lia]|].
        intros E'. rewrite E' in M2. lia.
Qed.

(** ** The end of the processing *)
Lemma sdus_changed_tx r r' :
  sdus_changed r r' -> vt_a r' = vt_a r /\ vt_s r' = vt_s r /\ vt_ms r' = vt_ms r /\
  tx_data_pdu_buffer r' = tx_data_pdu_buffer r /\ retrans_num_pdus r' = retrans_num_pdus r /\
  retrans_num_bytes_to_retransmit r' = retrans_num_bytes_to_retransmit r.
Proof. unfold sdus_changed. by intros ->. Qed.

Lemma data_cnf_loop_ok fuel : forall c t r,
  sdus_wf r -> length (tx_data_pdu_buffer r) = 512%nat -> is_sn c -> is_sn t ->
  RLC_AM_DIFF_SN t c < Z.of_nat fuel ->
  exists r', data_cnf_loop fuel c t r = Ok r' /\ sdus_wf r' /\ sdus_changed r r'.
Proof.
  induction fuel as [|fuel IH]; intros c t r Hs Hlen Hc Ht Hf.
  { pose proof (RLC_AM_DIFF_SN_range t c). lia. }
  cbn [data_cnf_loop]. destruct (Z.eqb_spec c t) as [-> | Hne]; cbn [negb]; [by exists r|].
  destruct (pdu_sdu_data_cnf_ok c r Hs Hlen) as (r1 & -> & Hs1 & Hch); [apply Hc|]. cbn [mbind res_bind].
  destruct (sdus_changed_tx _ _ Hch) as (_ & _ & _ & Eb & _).
  destruct (IH (RLC_AM_NEXT_SN c) t r1) as (r' & E & Hs' & Hch'); try done.
  - by rewrite Eb.
  - apply RLC_AM_NEXT_SN_is_sn.
  - clear -Hf Hne Hc Ht. sn_lia.
  - exists r'. split; [done|]. split; [done|]. by etransitivity.
Qed.

(** The state with the lower edge moved to [t]. *)
Lemma arq_moved a r r' t :
  arq_core a r -> is_sn t -> off r t <= off r a -> vt_a r' = t -> vt_s r' = vt_s r ->
  vt_ms r' = (t + RLC_AM_WINDOW_SIZE) mod 1024 -> tx_data_pdu_buffer r' = tx_data_pdu_buffer r ->
  retrans_num_pdus r' = retrans_num_pdus r ->
  retrans_num_bytes_to_retransmit r' = retrans_num_bytes_to_retransmit r -> sdus_wf r' -> arq_state a r'.
Proof.
  intros ((H1 & H2 & H3 & H4 & H5) & Hinv & Hf & _) Ht Hle Ea Es Ems Eb En Eby Hs. split; [|by rewrite Ems, Ea].
  split; [|split; [by apply (tx_inv_from_frame a r)|split; [by rewrite Eb|done]]].
  unfold edges. rewrite Ea, Es. split; [done|]. split; [done|]. split; [done|].
  revert H1 H2 H3 H4 H5 Ht Hle. generalize (vt_a r) (vt_s r). intros. sn_lia.
Qed.

Lemma finish_status_ok a r t ack sc so :
  arq_core a r -> is_sn t -> off r t <= off r a -> sc = RLC_AM_PREV_SN t \/ sc = t ->
  exists r', finish_status ack t sc so r = Ok r' /\ arq_state a r' /\ vt_a r' = t /\ vt_s r' = vt_s r /\
    tx_data_pdu_buffer r' = tx_data_pdu_buffer r /\ (sc = RLC_AM_PREV_SN t -> upper_layer r' = upper_layer r).
Proof.
  intros Hcore Ht Hle Hsc. assert (Hscn : is_sn sc) by (destruct Hsc as [-> | ->]; [apply RLC_AM_PREV_SN_is_sn|done]).
  pose proof Hcore as (He & Hinv & Hf & Hs). unfold finish_status. set (r1 := if _ && _ then _ else r).
  assert (H1 : arq_core a r1 /\ vt_a r1 = vt_a r /\ vt_s r1 = vt_s r /\ tx_data_pdu_buffer r1 = tx_data_pdu_buffer r /\
     upper_layer r1 = upper_layer r /\ retrans_num_pdus r1 = retrans_num_pdus r /\
     retrans_num_bytes_to_retransmit r1 = retrans_num_bytes_to_retransmit r).
  { unfold r1. by destruct (_ && _). }
  clearbody r1. destruct H1 as (Hcore1 & Ea & Es & Eb & Eu & En & Eby).
  destruct (arq_cell a r1 sc Hcore1 Hscn) as (p & -> & Hp & _ & Hfree). cbn [mbind res_bind].
  pose proof (tx_inv_from_length _ _ Hinv) as Hlen. pose proof Hcore1 as (He1 & Hinv1 & _ & Hs1).
  assert (H2 : exists r2, (if transmitted (pdu_flags p) && (pdu_sn p =? sc) then
       r ← data_cnf_loop 1024 (vt_a r1) sc r1; (if so =? 32767 then rlc_am_pdu_sdu_data_cnf sc r else Ok r)
     else Ok r1) = Ok r2 /\ sdus_wf r2 /\ sdus_changed r1 r2 /\ (sc = RLC_AM_PREV_SN t -> r2 = r1)).
  { destruct (transmitted (pdu_flags p) && (pdu_sn p =? sc)) eqn:E; [|by exists r1].
    assert (Hnp : sc <> RLC_AM_PREV_SN t).
    { intros ->. apply andb_true_iff in E as [E1 E2]. apply Z.eqb_eq in E2.
      destruct (below_edge a r1 (RLC_AM_PREV_SN t) p He1 Hinv1 Hscn) as [Hm|Hm]; [|done| |done].
      - rewrite Es. destruct He as (G1 & G2 & G3 & G4 & G5). revert G1 G2 G3 G4 G5 Ht Hle. generalize (vt_a r) (vt_s r).
        intros. sn_lia.
      - by rewrite (Hfree Hm) in E1. }
    destruct (data_cnf_loop_ok 1024 (vt_a r1) sc r1 Hs1) as (r2 & -> & Hs2 & Hch2); [by rewrite Eb|apply He1|done| |].
    { pose proof (RLC_AM_DIFF_SN_range sc (vt_a r1)). lia. }
    cbn [mbind res_bind]. destruct (sdus_changed_tx _ _ Hch2) as (_ & _ & _ & Eb2 & _).
    destruct (so =? 32767); [|by exists r2].
    destruct (pdu_sdu_data_cnf_ok sc r2 Hs2) as (r3 & -> & Hs3 & Hch3); [by rewrite Eb2, Eb|apply Hscn|].
    exists r3. split; [done|]. split; [done|]. split; [by etransitivity|done]. }
  destruct H2 as (r2 & -> & Hs2 & Hch2 & Hsame). cbn [mbind res_bind].
  destruct (sdus_changed_tx _ _ Hch2) as (E1 & E2 & E3 & E4 & E5 & E6).
  eexists. split; [reflexivity|]. split; [|split; [done|split; [cbn; congruence|split; [cbn; congruence|]]]].
  - apply (arq_moved a r _ t); try done; cbn -[Z.land]; try congruence. apply land_1023.
  - intros Hsc'. rewrite (Hsame Hsc'). exact Eu.
Qed.

(** ** A report *)
Lemma data_cnf_limit_ok a r sn :
  arq_core a r -> is_sn sn -> exists sc so, data_cnf_limit sn r = Ok (sc, so) /\ (sc = RLC_AM_PREV_SN sn \/ sc = sn).
Proof.
  intros Hc Hsn. unfold data_cnf_limit. destruct (arq_cell a r sn Hc Hsn) as (p & -> & _). cbn [mbind res_bind].
  destruct (_ =? _); [by do 2 eexists; split; [|left]|].
  destruct (negb _); do 2 eexists; (split; [reflexivity|]); [by right|by left].
Qed.

Lemma apply_status_acks a r ack :
  arq_core a r -> is_sn ack -> off r ack <= off r (vt_s r) ->
  exists a' r', apply_status (status_info ack []) r = Ok (true, ack, RLC_AM_PREV_SN ack, 32767, r') /\
    tx_changed r r' /\ arq_core a' r' /\ off r ack <= off r a'.
Proof.
  intros Hc Hack Hle. unfold apply_status. cbn [num_nack status_info length Z.of_nat Z.eqb ack_sn].
  pose proof Hc as ((H1 & H2 & H3 & H4 & H5) & _). pose proof (RLC_AM_DIFF_SN_range a (vt_a r)).
  pose proof (RLC_AM_DIFF_SN_range ack (vt_a r)).
  destruct (ack_below_ok 1024 (vt_a r) ack a r Hc H1 Hack) as (r' & a' & -> & Hch & Hc' & Hmax & _);
    rewrite ?RLC_AM_DIFF_SN_self; try lia.
  cbn [mbind res_bind]. exists a', r'. split; [done|]. split; [done|]. split; [done|lia].
Qed.

Lemma apply_status_nacks a r ack n ns :
  arq_core a r -> is_sn ack -> off r ack <= off r (vt_s r) ->
  nacks_ok (vt_a r) (off r ack) (off r a) (n :: ns) -> Forall (not_acked r) (n :: ns) -> (length ns < 1023)%nat ->
  exists st sc so r', apply_status (status_info ack (n :: ns)) r = Ok (st, nack_sn n, sc, so, r') /\
    tx_changed r r' /\ arq_core (nack_sn n) r' /\ (sc = RLC_AM_PREV_SN (nack_sn n) \/ sc = nack_sn n) /\
    (st = true -> reported r r' (nack_sn n) ack (n :: ns)) /\
    (Forall (whole_nack r) (n :: ns) -> NoDup (map nack_sn (n :: ns)) -> st = true).
Proof.
  intros Hc Hack Hle Hok Hna Hlen. unfold apply_status.
  assert (HF : Z.of_nat 2048 = 2048) by reflexivity. revert HF. generalize 2048%nat as F. intros F HF.
  cbn [num_nack status_info nack_list ack_sn]. rewrite (proj2 (Z.eqb_neq _ 0)) by (cbn [length]; lia).
  rewrite (array_get_length [] _ n : array_get ((n :: ns) ++ _) 0 = Ok n). cbn [mbind res_bind].
  pose proof Hc as ((H1 & H2 & H3 & H4 & H5) & _). pose proof (RLC_AM_DIFF_SN_range a (vt_a r)).
  destruct Hok as (Hn & Hno & Hso & Hok).
  destruct (ack_below_ok 1024 (vt_a r) (nack_sn n) a r Hc H1 Hn) as (r1 & a1 & -> & Hch & Hc1 & Hmax & Hcells);
    rewrite ?RLC_AM_DIFF_SN_self; try lia; [pose proof (RLC_AM_DIFF_SN_range (nack_sn n) (vt_a r)); lia|].
  assert (a1 = nack_sn n) as ->.
  { apply (RLC_AM_DIFF_SN_inj _ _ (vt_a r)); [|done|lia]. destruct Hc1 as ((_ & _ & ? & _) & _). done. }
  cbn [mbind res_bind]. destruct (data_cnf_limit_ok _ r1 _ Hc1 Hn) as (sc & so & -> & Hsc). cbn [mbind res_bind].
  destruct (tx_changed_vars _ _ Hch) as (Ea & Es & _).
  assert (Hcell1 : forall m, m ∈ n :: ns -> cell r1 (nack_sn m) = cell r (nack_sn m)).
  { assert (Hok' : nacks_ok (vt_a r) (off r ack) (off r (nack_sn n)) (n :: ns)) by (split; [done|]; split; [lia|]; split; done).
    intros m Hm. destruct (nacks_ok_off _ _ _ _ m Hok' Hm) as [M1 M2].
    apply Hcells; [split; [done|lia]|lia]. }
  destruct (nack_loop_ok (replicate (1023 - length (n :: ns)) nack_zero) ack (n :: ns) F (nack_sn n) r1 (nack_sn n) [] (n :: ns) 16383)
    as (st & r' & E & Hch' & Hc' & _ & Hrep & Hfull); try (done || rewrite ?Ea, ?Es; done || lia).
  - rewrite Ea. split; [done|]. split; [lia|]. done.
  - apply Forall_forall. intros m Hm p Hp. rewrite Forall_forall in Hna. apply (Hna m Hm). by rewrite <- Hcell1.
  - rewrite Ea, HF. cbn [length]. pose proof (RLC_AM_DIFF_SN_range ack (vt_a r)). lia.
  - cbn [awaited] in E. change (Z.of_nat (@length nack_sn_t [])) with 0 in E. rewrite E. cbn [mbind res_bind]. exists st, sc, so, r'.
    split; [done|]. split; [by etransitivity|]. split; [done|]. split; [done|]. split.
    + intros Ht sn p Hsn Hoff Hp. specialize (Hrep Ht sn p Hsn). rewrite Ea in Hrep. by apply Hrep.
    + intros Hw Hnd. apply Hfull; [| |done].
      * right. cbn [awaited]. intros E'. rewrite <- E' in Hn. destruct Hn as [_ Hn]. revert Hn. vm_compute. congruence.
      * apply Forall_forall. intros m Hm. rewrite Forall_forall in Hw. destruct (Hw m Hm) as (W1 & W2 & W3).
        split; [done|]. split; [done|]. intros p Hp. apply W3. by rewrite <- Hcell1.
Qed.

(** C28: The whole processing of a STATUS PDU. The report decodes and agrees with what the
    peer reported before: ACK_SN inside the window, fewer than 1023 NACKs, NACK_SNs in
    order below ACK_SN, at or above what is freed and not acknowledged, every segment NACK
    with SOstart <= SOend (the peer controls them: the assert of rlc_am_retransmit.c:63
    stops the process otherwise, see the findings). Such a report does not fail and keeps
    the invariant of the transmitting side. Without NACK, VT(A) moves to ACK_SN, and no
    SDU is confirmed to the upper layer. With NACKs the PDUs below the first one are
    freed; if the NACKs are accepted, which is the case when they ask for distinct whole
    PDUs that can still be retransmitted, VT(A) moves there and, up to ACK_SN, exactly the
    NACKed PDUs are marked for retransmission, the others acknowledged in place; otherwise
    VT(A) stays where it was. *)
Theorem status_report_spec a r bytes size rest ack ns :
  arq_state a r -> rlc_am_get_control_pdu_infos bytes size = Ok (0, rest, status_info ack ns) ->
  is_sn ack -> off r ack <= off r (vt_s r) -> (length ns < 1023)%nat ->
  nacks_ok (vt_a r) (off r ack) (off r a) ns -> Forall (not_acked r) ns ->
  exists a' r', rlc_am_receive_process_control_pdu bytes size r = Ok (rest, r') /\
    arq_state a' r' /\ vt_s r' = vt_s r /\
    match ns with
    | [] => vt_a r' = ack /\ upper_layer r' = upper_layer r
    | n :: _ => a' = nack_sn n /\ exists accepted : bool,
        (Forall (whole_nack r) ns -> NoDup (map nack_sn ns) -> accepted = true) /\
        if accepted then vt_a r' = nack_sn n /\ reported r r' (nack_sn n) ack ns
        else vt_a r' = vt_a r
    end.
Proof.
  intros [Hc Hms] Hdec Hack Hle Hlen Hok Hna. unfold rlc_am_receive_process_control_pdu.
  rewrite Hdec. cbn [mbind res_bind Z.geb Z.compare ack_sn num_nack status_info].
  fold (status_info ack ns). set (r0 := r <| control_pdu_info := _ |>).
  rewrite (proj2 (Z.ltb_lt ack _)) by apply Hack.
  rewrite (proj2 (Z.ltb_lt _ RLC_AM_MAX_NACK_IN_STATUS_PDU)) by (unfold RLC_AM_MAX_NACK_IN_STATUS_PDU; lia).
  cbn [assert_that mbind res_bind]. change (vt_s r0) with (vt_s r). change (vt_a r0) with (vt_a r).
  rewrite Z.geb_leb, (proj2 (Z.leb_le _ _) Hle). assert (Hc0 : arq_core a r0) by exact Hc.
  destruct ns as [|n ns].
  - destruct (apply_status_acks a r0 ack Hc0 Hack Hle) as (a' & r1 & -> & Hch & Hc1 & Hle1). cbn [mbind res_bind].
    destruct (tx_changed_vars _ _ Hch) as (Ea & Es & _).
    destruct (finish_status_ok a' r1 ack ack (RLC_AM_PREV_SN ack) 32767 Hc1 Hack) as (r' & -> & Hst & Hva & Hvs & _ & Hup);
      [by rewrite Ea|by left|].
    cbn [mbind res_bind]. exists a', r'. split; [done|]. split; [done|]. split; [rewrite Hvs; exact Es|]. split; [done|].
    rewrite Hup by done. by rewrite Hch.
  - destruct (apply_status_nacks a r0 ack n ns Hc0 Hack Hle Hok Hna) as (st & sc & so & r1 & -> & Hch & Hc1 & Hsc & Hrep & Hfull);
      [cbn [length] in Hlen; lia|]. cbn [mbind res_bind].
    destruct (tx_changed_vars _ _ Hch) as (Ea & Es & Ems). pose proof Hok as (Hn & Hno & _).
    exists (nack_sn n). destruct st.
    + destruct (finish_status_ok (nack_sn n) r1 (nack_sn n) ack sc so Hc1 Hn) as (r' & -> & Hst & Hva & Hvs & Hb & _);
        [lia|done|].
      cbn [mbind res_bind]. exists r'. split; [done|]. split; [done|]. split; [rewrite Hvs; exact Es|]. split; [done|].
      exists true. split; [done|]. split; [done|]. intros sn p Hsn Hoff Hp. unfold cell in Hp. rewrite Hb in Hp.
      by apply (Hrep eq_refl sn p Hsn).
    + cbn [mbind res_bind]. exists r1. split; [done|]. split; [split; [done|rewrite Ems, Ea; exact Hms]|]. split; [done|]. split; [done|].
      exists false. split; [exact Hfull|exact Ea].
Qed.

(** PDU 0 NACKed: the STATUS PDU with ACK_SN 1 and NACK_SN 0. *)
Definition sample_report : list Z := [0; 6; 0; 0].
Definition sample_sender : rlc_am_entity_t :=
  sample_window <| input_sdus := Some (replicate 1024 tx_sdu_zero) |>.

Lemma sample_arq : arq_state 0 sample_sender.
Proof.
  apply (arq_state_inv sample_sender).
  - by apply (tx_inv_frame sample_window); [apply sample_window_inv|..].
  - apply Forall_cons. split; [by split|]. apply Forall_replicate. by split.
  - split; [split; [eexists; split; [reflexivity|apply length_replicate]|split; split; (discriminate || reflexivity)]|].
    split.
    + assert (Hrefs : forall nb, 0 <= nb <= 128 -> forall p, nb_sdus p = nb -> sdus_index p = replicate 128 0 -> refs_wf p).
      { intros nb Hnb p <- E. unfold refs_wf. rewrite E, length_replicate. split; [lia|]. by apply Forall_replicate. }
      apply Forall_cons. split; [by apply (Hrefs 1)|]. apply Forall_replicate. by apply (Hrefs 0).
    + intros l E. apply (inj Some) in E as <-. by apply Forall_replicate.
Qed.

Lemma status_report_spec_witness :
  exists r', rlc_am_receive_process_control_pdu sample_report 4 sample_sender = Ok (0, r') /\ vt_a r' = 0 /\
    forall p, cell r' 0 = Some p -> nacked p.
Proof.
  destruct (status_report_spec 0 sample_sender sample_report 4 0 1 [Mk_nack 0 0 0 0 32767]) as (a' & r' & E & _ & _ & _ & st & H1 & H2).
  - apply sample_arq.
  - vm_compute. reflexivity.
  - split; [discriminate|reflexivity].
  - vm_compute. discriminate.
  - cbn. lia.
  - vm_compute. repeat split; congruence.
  - constructor; [|constructor]. intros p Hp. change (Some sample_tx_pdu = Some p) in Hp. by injection Hp as <-.
  - exists r'. split; [exact E|]. rewrite H1 in H2.
    + destruct H2 as [Ha Hr]. split; [exact Ha|]. intros p. apply (Hr 0 p); [split; [discriminate|reflexivity]|].
      vm_compute. split; congruence.
    + constructor; [|constructor]. split; [done|]. split; [done|]. intros p Hp.
      change (Some sample_tx_pdu = Some p) in Hp. by injection Hp as <-.
    + apply NoDup_singleton.
Defined.
