(* ===== verification/RlcAmStatusTx.v ===== *)
(** * Construction of a STATUS PDU

    [rlc_am_send_status_pdu] (rlc_am_status_report.c) lists what is missing
    between VR(R) and VR(MS) as far as the transport block allows;
    [rlc_am_get_status_pdu_buffer_occupancy] (rlc_am.c) computes the size of
    the complete report.  The memory for the PDU is taken to be there: the code
    does not test for NULL. *)

From S2P Require Import Prelude Bits RlcAmTypes RlcAmEntity RlcAmWindows RlcAmStatusCodec RlcAmRxPdu.
From S2P Require Import RlcAmRxList.

(** Sizes in bits: header, NACK_SN with E1 and E2, and with SOstart and SOend. *)
Definition STATUS_HEADER_BITS : Z :=
  RLC_AM_PDU_D_C_BITS + RLC_AM_STATUS_PDU_CPT_LENGTH + RLC_AM_SN_BITS + RLC_AM_PDU_E_BITS.
Definition NACK_BITS : Z := RLC_AM_SN_BITS + Z.shiftl RLC_AM_PDU_E_BITS 1.
Definition NACK_SO_BITS : Z := NACK_BITS + Z.shiftl RLC_AM_STATUS_PDU_SO_LENGTH 1.

(** The report under construction. *)
Record status_build := Mk_build {
  bd_info : rlc_am_control_pdu_info_t;
  bd_bits : Z;                       (* nb_bits_transmitted *)
  bd_completed : bool                (* status_report_completed *)
}.
#[export] Instance eta_status_build : Eta status_build :=
  fun b => Mk_build (bd_info b) (bd_bits b) (bd_completed b).

(** [nack_list[num_nack++] = ...], in bit-fields. *)
Definition add_nack (sn start stop e2 : Z) (size : Z) (b : status_build) : res status_build :=
  let info := bd_info b in
  l ← array_set (nack_list info) (num_nack info)
        (Mk_nack (sn mod 1024) 1 e2 (start mod 32768) (stop mod 32768));
  Ok (b <| bd_info := info <| nack_list := l |> <| num_nack := u16 (num_nack info + 1) |> |>
        <| bd_bits := bd_bits b + size |>).
(** The report stops here, with this ACK_SN. *)
Definition stop_report (sn : Z) (b : status_build) : status_build :=
  b <| bd_info := (bd_info b) <| ack_sn := sn mod 1024 |> |> <| bd_completed := true |>.

(** The PDUs between [sn_nack] and [sn_cursor] are missing. *)
Fixpoint nack_missing (fuel : nat) (nb_bits : Z) (r : rlc_am_entity_t) (sn_cursor sn_nack : Z)
    (b : status_build) : res (Z * status_build) :=
  match fuel with
  | O => Err OutOfFuel
  | S fuel' =>
      if negb (sn_nack =? sn_cursor) &&
         (RLC_AM_DIFF_SN sn_nack (vr_r r) <? RLC_AM_DIFF_SN (vr_ms r) (vr_r r))
      then
        if bd_bits b + NACK_BITS <=? nb_bits then
          b ← add_nack sn_nack 0 RLC_AM_STATUS_PDU_SO_END_ALL_BYTES 0 NACK_BITS b;
          nack_missing fuel' nb_bits r sn_cursor (RLC_AM_NEXT_SN sn_nack) b
        else Ok (sn_nack, stop_report sn_nack b)
      else Ok (sn_nack, b)
  end.

(** The gaps between the segments of [sn_cursor] that follow the first one;
    the rest of the buffer is returned. *)
Fixpoint nack_gaps (nb_bits sn_cursor waited_so : Z) (l : list rx_pdu) (b : status_build)
  : res (list rx_pdu * status_build) :=
  let last_gap :=
    (if bd_bits b + NACK_SO_BITS <=? nb_bits then
       b ← add_nack sn_cursor waited_so RLC_AM_STATUS_PDU_SO_END_ALL_BYTES 1 NACK_SO_BITS b;
       Ok (l, b)
     else Ok (l, stop_report sn_cursor b)) in
  match l with
  | [] => last_gap
  | p :: l' =>
      if rx_sn p =? sn_cursor then
        let segment_loop_end := pi_lsf (pdu_info p) =? 1 in
        if waited_so <? rx_so p then
          if bd_bits b + NACK_SO_BITS <=? nb_bits then
            b ← add_nack sn_cursor waited_so (rx_so p - 1) 1 NACK_SO_BITS b;
            (if segment_loop_end then Ok (l', b) else nack_gaps nb_bits sn_cursor waited_so l' b)
          else Ok (l, stop_report sn_cursor b)
        else if segment_loop_end then Ok (l', b)
        else nack_gaps nb_bits sn_cursor (waited_so + rx_size p) l' b
      else last_gap
  end.

(** A PDU of which only segments are received; [l'] is what follows the first. *)
Definition nack_segments (nb_bits : Z) (p : rx_pdu) (l' : list rx_pdu) (b : status_build)
  : res (list rx_pdu * status_build) :=
  let sn_cursor := rx_sn p in
  '(waited_so, b) ←
    (if negb (rx_so p =? 0) then
       b ← add_nack sn_cursor 0 (rx_so p - 1) 1 NACK_SO_BITS b;
       Ok (rx_so p + rx_size p, b)
     else Ok (rx_size p, b));
  if pi_lsf (pdu_info p) =? 1 then Ok (l', b)
  else nack_gaps nb_bits sn_cursor waited_so l' b.

(** The main loop; [all_received] is the last value of [all_segments_received]. *)
Fixpoint status_loop (fuel : nat) (nb_bits : Z) (r : rlc_am_entity_t) (l : list rx_pdu)
    (sn_nack all_received : Z) (b : status_build) : res (Z * Z * status_build) :=
  match fuel with
  | O => Err OutOfFuel
  | S fuel' =>
      match l with
      | [] => Ok (sn_nack, all_received, b)
      | p :: l' =>
          if negb (bd_completed b) &&
             (RLC_AM_DIFF_SN sn_nack (vr_r r) <? RLC_AM_DIFF_SN (vr_ms r) (vr_r r)) &&
             (bd_bits b <=? nb_bits)
          then
            let sn_cursor := rx_sn p in
            let all_received := all_segments_received p in
            '(sn_nack, b) ← nack_missing 1024 nb_bits r sn_cursor sn_nack b;
            if sn_nack =? vr_ms r then Ok (sn_nack, all_received, b)
            else
              '(l, b) ←
                (if negb (bd_completed b) && (all_received =? 0) && negb (sn_cursor =? vr_ms r) then
                   _ ← assert_that (sn_nack =? sn_cursor);
                   if bd_bits b + NACK_SO_BITS <=? nb_bits then nack_segments nb_bits p l' b
                   else Ok (l, stop_report sn_nack b)
                 else Ok (drop (run_of sn_cursor l') l', b));
              status_loop fuel' nb_bits r l
                (if RLC_AM_DIFF_SN sn_cursor (vr_r r) <? RLC_AM_DIFF_SN (vr_ms r) (vr_r r)
                 then RLC_AM_NEXT_SN sn_cursor else vr_ms r)
                all_received b
          else Ok (sn_nack, all_received, b)
      end
  end.

(** The report for a transport block of [nb_bits] bits. *)
Definition build_status (nb_bits : Z) (r : rlc_am_entity_t) : res status_build :=
  let b := Mk_build control_pdu_info_zero STATUS_HEADER_BITS false in
  if vr_r r =? vr_ms r then Ok (stop_report (vr_ms r) b)
  else if negb (bool_decide (receiver_buffer r = [])) && (bd_bits b + NACK_BITS <=? nb_bits) then
    let b := b <| bd_info := (bd_info b) <| st_e1 := 1 |> |> in
    '(sn_nack, all_received, b) ←
      status_loop (S (length (receiver_buffer r))) nb_bits r (receiver_buffer r) (vr_r r) 0 b;
    let info := bd_info b in
    _ ← assert_that (negb (num_nack info =? 0) || (all_received =? 0));
    info ← (if negb (num_nack info =? 0) then
              n ← array_get (nack_list info) (num_nack info - 1);
              l ← array_set (nack_list info) (num_nack info - 1) (n <| nack_e1 := 0 |>);
              Ok (info <| nack_list := l |>)
            else Ok info);
    let b := b <| bd_info := info |> in
    Ok (if bd_completed b then b
        else b <| bd_info := (bd_info b) <| ack_sn := sn_nack mod 1024 |> |>)
  else Ok (b <| bd_info := (bd_info b) <| ack_sn := vr_r r mod 1024 |> |>).

Definition rlc_am_send_status_pdu (r : rlc_am_entity_t) : res rlc_am_entity_t :=
  b ← build_status (Z.shiftl (nb_bytes_requested_by_mac r) 3) r;
  let pdu_size := Z.shiftr (bd_bits b + 7) 3 in
  _ ← assert_that (pdu_size <=? nb_bytes_requested_by_mac r);
  '(data, size) ← rlc_am_write_status_pdu (replicate (Z.to_nat pdu_size) 0) (bd_info b);
  _ ← assert_that (size =? pdu_size);
  let r := r <| nb_bytes_requested_by_mac := nb_bytes_requested_by_mac r - size |> in
  let r := r <| control_pdu_list := Mk_mac_tb data size :: control_pdu_list r |> in
  Ok (stat_add stat_tx_control_bytes size (stat_add stat_tx_control_pdu 1 r)).

(** ** Size of the complete report *)

(** [while ((sn_prev != sn_cursor) && (sn_prev != sn_end))] *)
Fixpoint count_missing (fuel : nat) (sn_cursor sn_end sn_prev nb_bits : Z) : res (Z * Z) :=
  match fuel with
  | O => Err OutOfFuel
  | S fuel' =>
      if negb (sn_prev =? sn_cursor) && negb (sn_prev =? sn_end)
      then count_missing fuel' sn_cursor sn_end (RLC_AM_NEXT_SN sn_prev) (u32 (nb_bits + NACK_BITS))
      else Ok (sn_prev, nb_bits)
  end.

Fixpoint count_gaps (sn_cursor waited_so nb_bits : Z) (l : list rx_pdu) : list rx_pdu * Z :=
  match l with
  | p :: l' =>
      if rx_sn p =? sn_cursor then
        let segment_loop_end := pi_lsf (pdu_info p) =? 1 in
        let '(waited_so, nb_bits) :=
          (if waited_so <? rx_so p then (waited_so, u32 (nb_bits + NACK_SO_BITS))
           else (waited_so + rx_size p, nb_bits)) in
        if segment_loop_end then (l', nb_bits) else count_gaps sn_cursor waited_so nb_bits l'
      else (l, u32 (nb_bits + NACK_SO_BITS))
  | [] => (l, u32 (nb_bits + NACK_SO_BITS))
  end.

Fixpoint occupancy_loop (fuel : nat) (r : rlc_am_entity_t) (l : list rx_pdu) (sn_prev nb_bits : Z)
  : res Z :=
  match fuel with
  | O => Err OutOfFuel
  | S fuel' =>
      match l with
      | [] => Ok nb_bits
      | p :: l' =>
          if RLC_AM_DIFF_SN sn_prev (vr_r r) <? RLC_AM_DIFF_SN (vr_ms r) (vr_r r) then
            let sn_cursor := rx_sn p in
            '(sn_prev, nb_bits) ← count_missing 1024 sn_cursor (vr_ms r) sn_prev nb_bits;
            let '(l, nb_bits) :=
              (if (all_segments_received p =? 0) &&
                  (RLC_AM_DIFF_SN sn_cursor (vr_r r) <? RLC_AM_DIFF_SN (vr_ms r) (vr_r r))
               then
                 let nb_bits := (if negb (rx_so p =? 0) then u32 (nb_bits + NACK_SO_BITS)
                                 else nb_bits) in
                 let waited_so := (if negb (rx_so p =? 0) then rx_so p + rx_size p
                                   else rx_size p) in
                 if pi_lsf (pdu_info p) =? 1 then (l', nb_bits)
                 else count_gaps sn_cursor waited_so nb_bits l'
               else (drop (run_of sn_cursor l') l', nb_bits)) in
            occupancy_loop fuel' r l (RLC_AM_NEXT_SN sn_cursor) nb_bits
          else Ok nb_bits
      end
  end.

Definition rlc_am_get_status_pdu_buffer_occupancy (r : rlc_am_entity_t) : res Z :=
  nb_bits ← (if negb (vr_r r =? vr_ms r)
             then occupancy_loop (S (length (receiver_buffer r))) r (receiver_buffer r) (vr_r r)
                    STATUS_HEADER_BITS
             else Ok STATUS_HEADER_BITS);
  Ok (Z.shiftr (u32 (nb_bits + 7)) 3).

Definition rlc_am_get_buffer_occupancy_in_bytes (r : rlc_am_entity_t) : res (Z * rlc_am_entity_t) :=
  let r := r <| status_buffer_occupancy := 0 |> in
  r ← (if negb (status_requested r =? 0) &&
          (Z.land (status_requested r) RLC_AM_STATUS_NO_TX_MASK =? 0)
       then n ← rlc_am_get_status_pdu_buffer_occupancy r; Ok (r <| status_buffer_occupancy := n |>)
       else Ok r);
  Ok (u32 (status_buffer_occupancy r + retrans_num_bytes_to_retransmit r + sdu_buffer_occupancy r), r).
