(* ===== verification/RlcAmReceiver.v ===== *)
(** * Receiving side (rlc_am_receiver.c)

    Routing of the received PDUs, the update of VR(H), VR(MS), VR(R), VR(MR) and
    VR(X) when a data PDU is placed in the reception buffer, the reordering
    timer, the triggering of a STATUS report and the reassembly.  Control PDUs
    are processed by RlcAmStatusRx. *)

From S2P Require Import Prelude Bits RlcAmTypes RlcAmEntity RlcAmWindows RlcTimers RlcAmTimers RlcAmRxPdu.
From S2P Require Import RlcAmRxList RlcAmReassembly RlcAmStatusRx.

(** [l]: the block of SN = VR(MS) and the ones after it. *)
Fixpoint rlc_am_rx_update_vr_ms (l : list rx_pdu) (r : rlc_am_entity_t) : rlc_am_entity_t :=
  match l with
  | [] => r
  | p :: l' =>
      if (all_segments_received p =? 0) || negb (vr_ms r =? rx_sn p) then r
      else
        let r := r <| vr_ms := RLC_AM_NEXT_SN (rx_sn p) |> in
        if negb (vr_ms r =? vr_h r) then rlc_am_rx_update_vr_ms l' r else r
  end.

Fixpoint rlc_am_rx_update_vr_r (l : list rx_pdu) (r : rlc_am_entity_t) : rlc_am_entity_t :=
  match l with
  | [] => r
  | p :: l' =>
      if (all_segments_received p =? 0) || negb (vr_r r =? rx_sn p) then r
      else
        let next := Z.land (vr_r r + 1) RLC_AM_SN_MASK in
        let r := (if rx_rf p =? 1
                  then if pi_lsf (pdu_info p) =? 1 then r <| vr_r := next |> else r
                  else r <| vr_r := next |>) in
        rlc_am_rx_update_vr_r l' r
  end.

(** [status < RLC_AM_DATA_PDU_STATUS_BUFFER_FULL] *)
Definition status_below_buffer_full (s : rlc_am_rx_pdu_status_t) : bool :=
  match s with
  | RLC_AM_DATA_PDU_STATUS_OK
  | RLC_AM_DATA_PDU_STATUS_SN_OUTSIDE_WINDOW
  | RLC_AM_DATA_PDU_STATUS_SN_DUPLICATE
  | RLC_AM_DATA_PDU_STATUS_AM_SEGMENT_DUPLICATE => true
  | _ => false
  end.
Definition status_ok (s : rlc_am_rx_pdu_status_t) : bool :=
  bool_decide (s = RLC_AM_DATA_PDU_STATUS_OK).

(** 1) and 2): VR(H), completion of the PDU, VR(MS), VR(R) and VR(MR). *)
Definition rx_update_variables (sn : Z) (t : rx_ref) (r : rlc_am_entity_t)
  : res (bool * rlc_am_entity_t) :=
  let r := (if RLC_AM_DIFF_SN sn (vr_r r) >=? RLC_AM_DIFF_SN (vr_h r) (vr_r r)
            then r <| vr_h := RLC_AM_NEXT_SN sn |> else r) in
  '(r, t) ← rlc_am_rx_check_all_byte_segments r t;
  tb ← deref_rx (receiver_buffer r) t;
  let complete := negb (all_segments_received tb =? 0) in
  let r := (if (sn =? vr_ms r) && complete
            then rlc_am_rx_update_vr_ms (rx_from (receiver_buffer r) t) r else r) in
  if sn =? vr_r r then
    let r := (if complete then
                let r := rlc_am_rx_update_vr_r (rx_from (receiver_buffer r) t) r in
                r <| vr_mr := Z.land (vr_r r + RLC_AM_WINDOW_SIZE) RLC_AM_SN_MASK |>
              else r) in
    rlc_am_rx_check_vr_reassemble r
  else Ok (false, r).

(** t-Reordering and VR(X). *)
Definition rx_update_reordering (c : protocol_ctxt_t) (r : rlc_am_entity_t) : rlc_am_entity_t :=
  let r :=
    (if running (t_reordering r) ||
        ((ms_duration (t_reordering r) =? 0) && negb (vr_x r =? RLC_SN_UNDEFINED))
     then
       if (vr_x r =? vr_r r) ||
          (negb (RLC_AM_SN_IN_WINDOW (vr_x r) (vr_r r)) && negb (vr_x r =? vr_mr r))
       then rlc_am_stop_and_reset_timer_reordering r <| vr_x := RLC_SN_UNDEFINED |>
       else r
     else r) in
  if negb (running (t_reordering r)) then
    if negb (vr_h r =? vr_r r) then
      let r := r <| vr_x := vr_h r |> in
      if negb (ms_duration (t_reordering r) =? 0) then rlc_am_start_timer_reordering c r
      else
        r <| vr_ms := vr_h r |>
          <| status_requested :=
               u8 (RLC_CLEAR_EVENT
                     (u8 (RLC_SET_EVENT (status_requested r) RLC_AM_STATUS_TRIGGERED_T_REORDERING))
                     RLC_AM_STATUS_TRIGGERED_DELAYED) |>
          <| sn_status_triggered_delayed := i16 RLC_SN_UNDEFINED |>
    else r
  else r.

(** 3): triggering of a STATUS report by the poll bit. *)
Definition rx_trigger_status (info : rlc_am_pdu_info_t) (status : rlc_am_rx_pdu_status_t)
    (r : rlc_am_entity_t) : rlc_am_entity_t :=
  let sn := pi_sn info in
  let below_vr_ms (x : Z) (r : rlc_am_entity_t) :=
    negb (RLC_AM_SN_IN_WINDOW x (vr_r r)) ||
    (RLC_AM_DIFF_SN x (vr_r r) <? RLC_AM_DIFF_SN (vr_ms r) (vr_r r)) in
  let r :=
    (if negb (pi_p info =? 0) && status_below_buffer_full status then
       if negb (RLC_GET_EVENT (status_requested r) RLC_AM_STATUS_TRIGGERED_DELAYED =? 0) ||
          (RLC_GET_EVENT (status_requested r)
             (Z.lor RLC_AM_STATUS_TRIGGERED_POLL RLC_AM_STATUS_TRIGGERED_T_REORDERING) =? 0)
       then
         let r := r <| status_requested :=
                         u8 (RLC_SET_EVENT (status_requested r) RLC_AM_STATUS_TRIGGERED_POLL) |> in
         if negb (status_ok status) || (status_ok status && below_vr_ms sn r) then
           r <| status_requested :=
                  u8 (RLC_CLEAR_EVENT (status_requested r) RLC_AM_STATUS_TRIGGERED_DELAYED) |>
             <| sn_status_triggered_delayed := i16 RLC_SN_UNDEFINED |>
         else if sn_status_triggered_delayed r =? RLC_SN_UNDEFINED then
           r <| status_requested :=
                  u8 (RLC_SET_EVENT (status_requested r) RLC_AM_STATUS_TRIGGERED_DELAYED) |>
             <| sn_status_triggered_delayed := i16 sn |>
         else r
       else r
     else r) in
  if negb (RLC_GET_EVENT (status_requested r) RLC_AM_STATUS_TRIGGERED_DELAYED =? 0) &&
     status_ok status && below_vr_ms (sn_status_triggered_delayed r) r
  then
    r <| status_requested :=
           u8 (RLC_CLEAR_EVENT (status_requested r) RLC_AM_STATUS_TRIGGERED_DELAYED) |>
      <| sn_status_triggered_delayed := i16 RLC_SN_UNDEFINED |>
  else r.

(** [fb] is the block that [get_free_mem_block] would return while the PDU is
    processed.  The result is the status of the PDU too. *)
Definition rlc_am_receive_process_data_pdu (c : protocol_ctxt_t) (fb : fresh_block)
    (first_byte_p : list Z) (tb_size_in_bytesP : Z) (r : rlc_am_entity_t)
  : res (rlc_am_rx_pdu_status_t * rlc_am_entity_t) :=
  '(code, info) ← rlc_am_get_data_pdu_infos first_byte_p (i16 tb_size_in_bytesP);
  if code >=? 0 then
    let tb := Mk_rx_pdu info 0 RLC_AM_RX_PDU_SEGMENT_REASSEMBLE_NO in
    '(pdu_status, reassemble, r) ←
      (if RLC_AM_SN_IN_WINDOW (pi_sn info) (vr_r r) then
         '(pdu_status, r, t) ← rlc_am_rx_list_check_duplicate_insert_pdu fb r tb;
         if negb (status_ok pdu_status) then
           let r := stat_add stat_rx_data_pdu_dropped 1 r in
           Ok (pdu_status, false, stat_add stat_rx_data_bytes_dropped tb_size_in_bytesP r)
         else
           '(reassemble, r) ← rx_update_variables (pi_sn info) t r;
           Ok (pdu_status, reassemble, rx_update_reordering c r)
       else
         let r := stat_add stat_rx_data_pdu_out_of_window 1 r in
         Ok (RLC_AM_DATA_PDU_STATUS_SN_OUTSIDE_WINDOW, false,
             stat_add stat_rx_data_bytes_out_of_window tb_size_in_bytesP r));
    let r := rx_trigger_status info pdu_status r in
    r ← (if status_ok pdu_status && reassemble then rlc_am_rx_list_reassemble_rlc_sdus r else Ok r);
    Ok (pdu_status, r)
  else Ok (RLC_AM_DATA_PDU_STATUS_HEADER_ERROR, r).

(** ** Routing *)

(** One block handed by MAC: its bytes and size, and the block that
    [get_free_mem_block] would return while it is processed. *)
Record mac_tb_ind := Mk_tb_ind {
  ind_data : list Z;
  ind_size : Z;
  ind_fresh : fresh_block
}.

Definition route_tb (c : protocol_ctxt_t) (tb : mac_tb_ind) (r : rlc_am_entity_t)
  : res rlc_am_entity_t :=
  if ind_size tb >? 0 then
    b1 ← array_get (ind_data tb) 0;
    if Z.land b1 128 =? 128 then
      let r := stat_add stat_rx_data_bytes (ind_size tb) r in
      let r := stat_add stat_rx_data_pdu 1 r in
      '(_, r) ← rlc_am_receive_process_data_pdu c (ind_fresh tb) (ind_data tb) (u16 (ind_size tb)) r;
      Ok r
    else
      let r := stat_add stat_rx_control_bytes (ind_size tb) r in
      let r := stat_add stat_rx_control_pdu 1 r in
      '(left_, r) ← rlc_am_receive_process_control_pdu (ind_data tb) (ind_size tb) r;
      _ ← assert_that (left_ =? 0);
      Ok r
  else Ok r.

Fixpoint rlc_am_receive_routing (c : protocol_ctxt_t) (tbs : list mac_tb_ind) (r : rlc_am_entity_t)
  : res rlc_am_entity_t :=
  match tbs with
  | [] => Ok r
  | tb :: rest =>
      r ← route_tb c tb r;
      rlc_am_receive_routing c rest r
  end.
