(* ===== verification/RlcAmReorder.v ===== *)
(** * In-order delivery of PDUs received in any order

    A sender numbers its PDUs [0, 1, 2, ...]; PDU [i] has the sequence number
    [base + i] modulo 1024.  The receiver gets them in any order, some more
    than once, some not yet.  [rx_state n held] is what its variables and its
    buffer hold then: the PDUs below [n] were delivered, [n] is missing and the
    PDUs [held] wait for it. *)

From S2P Require Import Prelude Bits RlcAmTypes RlcAmEntity RlcAmWindows RlcTimers RlcAmTimers RlcAmRxPdu.
From S2P Require Import RlcAmRxList RlcAmReassembly RlcAmStatusRx RlcAmReceiver.

(** ** Lists of PDU numbers *)

(** Increasing, from [k] on. *)
Fixpoint increasing (k : nat) (l : list nat) : Prop :=
  match l with [] => True | i :: l' => (k <= i)%nat /\ increasing (S i) l' end.
(** The number of elements below [i], and [i] put there. *)
Fixpoint pos (i : nat) (l : list nat) : nat :=
  match l with [] => O | j :: l' => if (j <? i)%nat then S (pos i l') else O end.
Definition ins (i : nat) (l : list nat) : list nat := take (pos i l) l ++ i :: drop (pos i l) l.
(** The consecutive numbers from [n] on at the head. *)
Fixpoint run (n : nat) (l : list nat) : nat :=
  match l with [] => O | j :: l' => if (j =? n)%nat then S (run (S n) l') else O end.

Lemma increasing_le k k' l : (k' <= k)%nat -> increasing k l -> increasing k' l.
Proof. destruct l as [|i l]; [done|]. intros Hk [H1 H2]. split; [lia|done]. Qed.
Lemma increasing_elem k l i : increasing k l -> i ∈ l -> (k <= i)%nat.
Proof.
  revert k. induction l as [|j l IH]; intros k H Hi; [by apply not_elem_of_nil in Hi|].
  destruct H as [H1 H2]. apply elem_of_cons in Hi as [-> | Hi]; [done|]. pose proof (IH _ H2 Hi). lia.
Qed.
Lemma elem_of_ins i l j : j ∈ ins i l <-> j = i \/ j ∈ l.
Proof.
  assert (E : j ∈ l <-> j ∈ take (pos i l) l \/ j ∈ drop (pos i l) l) by (by rewrite <- elem_of_app, take_drop).
  rewrite E. unfold ins. rewrite elem_of_app, elem_of_cons. tauto.
Qed.
Lemma ins_cons i j l : ins i (j :: l) = if (j <? i)%nat then j :: ins i l else i :: j :: l.
Proof. unfold ins. cbn [pos]. by destruct (j <? i)%nat. Qed.
Lemma increasing_ins i k l : increasing k l -> (k <= i)%nat -> i ∉ l -> increasing k (ins i l).
Proof.
  revert k. induction l as [|j l IH]; intros k H Hk Hi; [by split|]. destruct H as [H1 H2].
  apply not_elem_of_cons in Hi as [Hij Hi]. rewrite ins_cons.
  destruct (Nat.ltb_spec j i).
  - split; [done|]. apply IH; (done || lia).
  - split; [done|]. split; [lia|done].
Qed.
Lemma pos_lookup i l k : increasing k l ->
  (i ∈ l <-> l !! pos i l = Some i) /\ (forall j, l !! pos i l = Some j -> (i <= j)%nat).
Proof.
  revert k. induction l as [|j l IH]; intros k H; cbn [pos].
  - split; [|done]. rewrite elem_of_nil. by split.
  - destruct H as [_ H]. destruct (Nat.ltb_spec j i).
    + destruct (IH _ H) as [H1 H2]. cbn [lookup list_lookup]. split; [|done]. rewrite <- H1, elem_of_cons.
      split; [intros [-> | ?]; [lia|done]|auto].
    + cbn [lookup list_lookup]. split; [|intros ? [= <-]; done]. rewrite elem_of_cons. split.
      * intros [-> | Hi]; [done|]. pose proof (increasing_elem _ _ _ H Hi). lia.
      * intros [= ->]. by left.
Qed.
Lemma pos_le i l : (pos i l <= length l)%nat.
Proof. induction l as [|j l IH]; cbn [pos length]; [done|]. destruct (j <? i)%nat; lia. Qed.

Lemma run_le n l : (run n l <= length l)%nat.
Proof. revert n. induction l as [|j l IH]; intros n; cbn [run length]; [done|]. pose proof (IH (S n)). destruct (j =? n)%nat; lia. Qed.
Lemma run_elem n l j : increasing n l -> (n <= j < n + run n l)%nat -> j ∈ l.
Proof.
  revert n. induction l as [|i l IH]; intros n H Hj; cbn [run] in Hj; [lia|]. destruct H as [H1 H2].
  destruct (Nat.eqb_spec i n) as [-> | Hne]; [|lia]. destruct (decide (j = n)) as [-> | Hn]; [left|right].
  apply (IH (S n)); [done|lia].
Qed.
(** After the run, the numbers are above its end. *)
Lemma run_rest n l : increasing n l -> increasing (S (n + run n l)) (drop (run n l) l).
Proof.
  revert n. induction l as [|i l IH]; intros n H; cbn [run]; [done|]. destruct H as [H1 H2].
  destruct (Nat.eqb_spec i n) as [-> | Hne]; cbn [drop].
  - rewrite Nat.add_succ_r. apply (IH (S n)). done.
  - split; [lia|done].
Qed.
Lemma elem_of_rest n l j : increasing n l -> j ∈ l -> (n + run n l <= j)%nat -> j ∈ drop (run n l) l.
Proof.
  revert n. induction l as [|i l IH]; intros n H Hj Hle; [by apply not_elem_of_nil in Hj|]. destruct H as [H1 H2].
  cbn [run] in *. destruct (Nat.eqb_spec i n) as [-> | Hne]; cbn [drop]; [|done].
  apply elem_of_cons in Hj as [-> | Hj]; [lia|]. apply IH; (done || lia).
Qed.

Section Reorder.
Context (base : Z) (finfo : nat -> rlc_am_pdu_info_t) (N : nat).
Context (pre : nat -> list Z) (out : nat -> list (list Z)).

Definition sn_of (i : nat) : Z := (base + Z.of_nat i) mod 1024.

Context (finfo_sn : forall i, pi_sn (finfo i) = sn_of i) (finfo_rf : forall i, pi_rf (finfo i) = 0).
(** Reassembling the PDUs in order. *)
Context (finfo_ok : forall i rx, (i < N)%nat ->
  rlc_am_reassemble_pdu (finfo i) (constructing (pre i) rx) =
    Ok (constructing (pre (S i)) (deliver_all (out i) rx))).

Definition held_pdu (i : nat) : rx_pdu :=
  Mk_rx_pdu (finfo i) 1 RLC_AM_RX_PDU_SEGMENT_REASSEMBLE_NO.
Definition new_pdu (i : nat) : rx_pdu :=
  Mk_rx_pdu (finfo i) 0 RLC_AM_RX_PDU_SEGMENT_REASSEMBLE_NO.

Definition buffers (n : nat) (held : list nat) : Prop :=
  increasing (S n) held /\ Forall (fun i => (i < n + 512 /\ i < N)%nat) held.

(** The SDU in construction and the SDUs delivered since [up]. *)
Definition rx_output (up : list rlc_event) (n : nat) (r : rlc_am_entity_t) : Prop :=
  r = constructing (pre n) r /\ upper_layer r = up ++ map Rlc_data_ind (concat (map out (seq 0 n))).

Lemma sn_dist n i : (n <= i < n + 1024)%nat ->
  RLC_AM_DIFF_SN (sn_of i) (sn_of n) = Z.of_nat i - Z.of_nat n.
Proof. intros H. unfold sn_of. rewrite RLC_AM_DIFF_SN_mod. mod_lia. Qed.
Lemma sn_inj n i j : (n <= i < n + 1024)%nat -> (n <= j < n + 1024)%nat -> sn_of i = sn_of j -> i = j.
Proof. intros Hi Hj E. unfold sn_of in E. mod_lia. Qed.
Lemma sn_of_next i : Z.land (sn_of i + 1) RLC_AM_SN_MASK = sn_of (S i).
Proof. change (Z.land (sn_of i + 1) RLC_AM_SN_MASK) with (RLC_AM_NEXT_SN (sn_of i)). rewrite RLC_AM_NEXT_SN_mod. unfold sn_of. mod_lia. Qed.
Lemma rx_sn_held i : rx_sn (held_pdu i) = sn_of i.
Proof. apply finfo_sn. Qed.

Lemma find_sn_pos n i l :
  buffers n l -> (n <= i < n + 512)%nat ->
  find_sn (sn_of n) (sn_of i) (map held_pdu l) = pos i l.
Proof.
  intros [Hinc Hw] Hi. assert (Hall : Forall (fun j => (n <= j < n + 512)%nat) l).
  { apply Forall_forall. intros j Hj. rewrite Forall_forall in Hw. pose proof (Hw j Hj).
    pose proof (increasing_elem _ _ _ Hinc Hj). lia. }
  clear Hinc Hw. induction Hall as [|j l Hj Hall IH]; [done|]. cbn [map find_sn pos].
  rewrite rx_sn_held, !sn_dist by lia. rewrite Z.geb_leb.
  destruct (Nat.ltb_spec j i), (Z.leb_spec (Z.of_nat i - Z.of_nat n) (Z.of_nat j - Z.of_nat n)); lia.
Qed.

(** *** Insertion *)
Lemma map_pdu_split (f : nat -> rx_pdu) i l :
  map f (ins i l) = take (pos i l) (map f l) ++ f i :: drop (pos i l) (map f l).
Proof. unfold ins. by rewrite map_app, firstn_map, skipn_map. Qed.

(** A PDU the buffer holds is a duplicate; another one goes to its place. *)
Lemma insert_pdu_ok fb n i held r :
  buffers n held -> (n <= i < n + 512)%nat -> vr_r r = sn_of n -> receiver_buffer r = map held_pdu held ->
  rlc_am_rx_list_check_duplicate_insert_pdu fb r (new_pdu i) =
    if bool_decide (i ∈ held)
    then Ok (RLC_AM_DATA_PDU_STATUS_SN_DUPLICATE, r <| receiver_buffer := map held_pdu held |>, Detached (new_pdu i))
    else Ok (RLC_AM_DATA_PDU_STATUS_OK,
             r <| receiver_buffer := take (pos i held) (map held_pdu held) ++ new_pdu i :: drop (pos i held) (map held_pdu held) |>,
             InBuffer (pos i held)).
Proof.
  intros Hb Hi Hv Hbuf. unfold rlc_am_rx_list_check_duplicate_insert_pdu.
  change ((new_pdu i) <| segment_reassembled := _ |>) with (new_pdu i). rewrite Hbuf.
  destruct held as [|h held'] eqn:Eh; [done|]. rewrite <- Eh in *.
  assert (Hne : exists a b, map held_pdu held = a :: b) by (rewrite Eh; by eexists _, _).
  destruct Hne as (a & b & Ene). rewrite Ene at 1.
  unfold rx_rf at 1. cbn [pdu_info new_pdu]. rewrite finfo_rf. cbn [Z.eqb].
  unfold rlc_am_rx_list_handle_pdu. rewrite Hbuf.
  replace (length (map held_pdu held) =? 0)%nat with false by (by rewrite Ene).
  cbn [negb assert_that mbind res_bind].
  replace (rx_sn (new_pdu i)) with (sn_of i) by (symmetry; apply finfo_sn).
  rewrite Hv, (find_sn_pos n i held) by done.
  destruct Hb as [Hinc Hw]. destruct (pos_lookup i held (S n) Hinc) as [Hmem Hge].
  set (c := pos i held) in *. assert (Hc : (c <= length held)%nat) by apply pos_le.
  unfold insert_segment_after, insert_after, insert_before. rewrite length_map.
  rewrite list_lookup_fmap. destruct (held !! c) as [j|] eqn:Ej; cbn [fmap option_fmap option_map].
  - assert (Hj : j ∈ held) by (by eapply list_elem_of_lookup_2). rewrite Forall_forall in Hw.
    pose proof (Hw j Hj) as Hjw. pose proof (increasing_elem _ _ _ Hinc Hj) as Hjn. pose proof (Hge j eq_refl) as Hij.
    rewrite rx_sn_held. destruct (Z.eqb_spec (sn_of j) (sn_of i)) as [E | E]; cbn [negb].
    + apply (sn_inj n) in E as ->; [|lia|lia]. cbn [all_segments_received held_pdu Z.eqb negb].
      rewrite bool_decide_true by (by apply Hmem). done.
    + rewrite bool_decide_false.
      2:{ intros H. apply Hmem in H. injection H as ->. done. }
      destruct (Nat.eqb_spec c 0) as [E0 | E0].
      * rewrite E0. cbn [take app drop]. rewrite (proj2 (Nat.ltb_lt _ _)) by (rewrite Eh; cbn; lia). done.
      * cbn [mbind res_bind]. by replace (S (c - 1)) with c by lia.
  - apply lookup_ge_None in Ej. rewrite bool_decide_false by (intros H; apply Hmem in H; done).
    assert (Hc0 : c <> 0%nat) by (rewrite Eh in Ej; cbn [length] in Ej; lia).
    rewrite (proj2 (Nat.eqb_neq _ _) Hc0). cbn [mbind res_bind]. by replace (S (c - 1)) with c by lia.
Qed.

(** *** The variables *)

(** What the other parts of the handler leave. *)
Definition same_rx (r r' : rlc_am_entity_t) : Prop :=
  receiver_buffer r' = receiver_buffer r /\ vr_r r' = vr_r r /\ vr_mr r' = vr_mr r /\
  output_sdu_in_construction r' = output_sdu_in_construction r /\
  output_sdu_size_to_write r' = output_sdu_size_to_write r /\ upper_layer r' = upper_layer r.
#[local] Instance same_rx_preorder : PreOrder same_rx.
Proof.
  split; [by intros r; split_and!|]. intros r1 r2 r3 (?&?&?&?&?&?) (?&?&?&?&?&?). split_and!; congruence.
Qed.

Lemma update_vr_ms_same l r : same_rx r (rlc_am_rx_update_vr_ms l r).
Proof.
  revert r. induction l as [|p l IH]; intros r; cbn [rlc_am_rx_update_vr_ms]; [reflexivity|].
  case_match; [reflexivity|]. case_match; [|by split_and!].
  etransitivity; [|apply IH]. by split_and!.
Qed.

Lemma update_vr_r_ok n l r :
  increasing n l -> Forall (fun i => (i < n + 1024)%nat) l -> vr_r r = sn_of n ->
  rlc_am_rx_update_vr_r (map held_pdu l) r = r <| vr_r := sn_of (n + run n l) |>.
Proof.
  revert n r. induction l as [|j l IH]; intros n r Hinc Hw Hv.
  - cbn [map rlc_am_rx_update_vr_r run]. rewrite Nat.add_0_r, <- Hv. by destruct r.
  - destruct Hinc as [Hj Hinc]. apply Forall_cons in Hw as [Hjw Hw].
    cbn [map rlc_am_rx_update_vr_r run]. cbn [all_segments_received held_pdu Z.eqb orb].
    fold (held_pdu j). rewrite rx_sn_held, Hv.
    destruct (Nat.eqb_spec j n) as [-> | Hne].
    + rewrite Z.eqb_refl. cbn [negb]. unfold rx_rf. cbn [pdu_info held_pdu]. rewrite finfo_rf. cbn [Z.eqb].
      rewrite sn_of_next. rewrite (IH (S n)); [|done|eapply Forall_impl; [exact Hw|cbn; lia]|done].
      by rewrite Nat.add_succ_r.
    + destruct (Z.eqb_spec (sn_of n) (sn_of j)) as [E | E]; cbn [negb].
      * apply (sn_inj n) in E; lia.
      * rewrite Nat.add_0_r, <- Hv. by destruct r.
Qed.

Lemma below_run n l :
  increasing n l -> Forall (fun i => (i < n + 1024)%nat) l -> (run n l < 1024)%nat ->
  below_vr_r (sn_of n) (sn_of (n + run n l)) (map held_pdu l) = run n l.
Proof.
  intros Hinc Hw Hr.
  assert (Hd : RLC_AM_DIFF_SN (sn_of (n + run n l)) (sn_of n) = Z.of_nat (run n l)) by (rewrite sn_dist; lia).
  assert (Hgen : forall l' m, increasing (n + m) l' -> Forall (fun i => (i < n + 1024)%nat) l' ->
    (m + run (n + m) l' = run n l)%nat ->
    below_vr_r (sn_of n) (sn_of (n + run n l)) (map held_pdu l') = run (n + m) l').
  { induction l' as [|j l' IH]; intros m Hi Hw' Hm; [done|]. destruct Hi as [Hj Hi].
    apply Forall_cons in Hw' as [Hjw Hw']. cbn [map below_vr_r run] in *.
    rewrite rx_sn_held, Hd, sn_dist by lia.
    destruct (Nat.eqb_spec j (n + m)) as [-> | Hne].
    - rewrite (proj2 (Z.ltb_lt _ _)) by lia. f_equal.
      replace (S (n + m)) with (n + S m)%nat in * by lia. apply IH; try done. lia.
    - rewrite (proj2 (Z.ltb_ge _ _)) by lia. done. }
  rewrite <- (Nat.add_0_r n) at 4. apply (Hgen l 0%nat); by rewrite ?Nat.add_0_r.
Qed.

Lemma run_bound n l : increasing n l -> Forall (fun i => (i < n + 512)%nat) l -> (run n l <= 512)%nat.
Proof.
  intros Hinc Hw. destruct (Nat.le_gt_cases (run n l) 512) as [|Hlt]; [done|].
  pose proof (run_elem n l (n + 512) Hinc ltac:(lia)) as Hin. rewrite Forall_forall in Hw.
  pose proof (Hw _ Hin). cbn in *. lia.
Qed.

Lemma run_end n l p :
  increasing n l -> Forall (fun i => (i < n + 512)%nat) l -> (run n l <= 512)%nat ->
  map held_pdu l !! run n l = Some p -> rx_sn p <> sn_of (n + run n l).
Proof.
  intros Hinc Hw Hr Hp E. rewrite list_lookup_fmap in Hp.
  destruct (l !! run n l) as [j|] eqn:Ej; [|discriminate Hp]. injection Hp as <-. rewrite rx_sn_held in E.
  pose proof (run_rest n l Hinc) as Hrest. rewrite (drop_S _ _ _ Ej) in Hrest. destruct Hrest as [Hj _].
  rewrite Forall_forall in Hw. pose proof (Hw j (list_elem_of_lookup_2 _ _ _ Ej)).
  apply (sn_inj n) in E; lia.
Qed.

Lemma check_vr_reassemble_ok n l r :
  increasing n l -> Forall (fun i => (i < n + 512)%nat) l -> (run n l <= 512)%nat -> n ∈ l ->
  vr_r r = sn_of (n + run n l) -> receiver_buffer r = map held_pdu l ->
  rlc_am_rx_check_vr_reassemble r = Ok (true, r).
Proof.
  intros Hinc Hw Hr Hn Hv Hbuf.
  assert (Hl : exists l', l = n :: l').
  { destruct l as [|j l']; [by apply not_elem_of_nil in Hn|]. destruct Hinc as [Hj Hinc].
    apply elem_of_cons in Hn as [<- | Hn]; [by eexists|]. pose proof (increasing_elem _ _ _ Hinc Hn). lia. }
  destruct Hl as (l' & El). assert (Hr1 : (1 <= run n l)%nat) by (rewrite El; cbn [run]; rewrite Nat.eqb_refl; lia).
  unfold rlc_am_rx_check_vr_reassemble. rewrite Hbuf.
  assert (Hmap : map held_pdu l = held_pdu n :: map held_pdu l') by (by rewrite El). rewrite Hmap at 1.
  rewrite rx_sn_held, Hv. destruct (Z.eqb_spec (sn_of n) (sn_of (n + run n l))) as [E | _].
  { apply (sn_inj n) in E; lia. }
  cbn [negb]. unfold rx_rf. cbn [pdu_info held_pdu]. rewrite finfo_rf. cbn [Z.eqb negb mbind res_bind].
  fold (held_pdu n). rewrite drop_0, Nat.add_0_l.
  rewrite below_run by first [done | lia | eapply Forall_impl; [exact Hw|cbn; lia]].
  destruct (map held_pdu l !! run n l) as [p|] eqn:Ep.
  - rewrite (proj2 (Z.eqb_neq _ _)) by (by apply (run_end n l)). cbn [mbind res_bind].
    rewrite <- Hbuf. by destruct r.
  - cbn [mbind res_bind]. rewrite <- Hbuf. by destruct r.
Qed.

(** The buffer and VR(R) after the PDU [i] took its place. *)
Lemma update_variables_ok n i held r :
  buffers n held -> (n <= i < n + 512)%nat -> (i < N)%nat -> i ∉ held -> vr_r r = sn_of n ->
  vr_mr r = (sn_of n + 512) mod 1024 ->
  receiver_buffer r = take (pos i held) (map held_pdu held) ++ new_pdu i :: drop (pos i held) (map held_pdu held) ->
  let k := run n (ins i held) in
  exists r', rx_update_variables (sn_of i) (InBuffer (pos i held)) r = Ok (bool_decide (i = n), r') /\
    same_rx (r <| receiver_buffer := map held_pdu (ins i held) |> <| vr_r := sn_of (n + k) |>
               <| vr_mr := (sn_of (n + k) + 512) mod 1024 |>) r'.
Proof.
  intros [Hinc Hw] Hi HiN Hnew Hv Hmr Hbuf k. unfold rx_update_variables.
  set (c := pos i held) in *. pose proof (pos_le i held) as Hc. fold c in Hc.
  set (b1 := map held_pdu (ins i held)).
  assert (Hlen : length (take c (map held_pdu held)) = c) by (rewrite length_take, length_map; lia).
  assert (Hb1 : <[c := held_pdu i]> (take c (map held_pdu held) ++ new_pdu i :: drop c (map held_pdu held)) = b1).
  { unfold b1. rewrite map_pdu_split. fold c. rewrite <- (Nat.add_0_r c) at 1. rewrite <- Hlen at 1.
    by rewrite insert_app_r. }
  set (r0 := if RLC_AM_DIFF_SN (sn_of i) (vr_r r) >=? _ then _ else r).
  assert (H0 : same_rx r r0) by (unfold r0; case_match; by split_and!).
  assert (Hcheck : rlc_am_rx_check_all_byte_segments r0 (InBuffer c) =
    Ok (r0 <| receiver_buffer := b1 |>, InBuffer c)).
  { unfold rlc_am_rx_check_all_byte_segments. destruct H0 as (-> & _). rewrite Hbuf. cbn [deref_rx].
    assert (E : (take c (map held_pdu held) ++ new_pdu i :: drop c (map held_pdu held)) !! c = Some (new_pdu i)).
    { rewrite lookup_app_r by lia. by rewrite Hlen, Nat.sub_diag. }
    rewrite E. cbn [deref mbind res_bind]. unfold rx_rf. cbn [pdu_info new_pdu]. rewrite finfo_rf. cbn [Z.eqb].
    change ((new_pdu i) <| all_segments_received := 1 |>) with (held_pdu i). by rewrite Hb1. }
  rewrite Hcheck. cbn [mbind res_bind deref_rx]. set (r1 := r0 <| receiver_buffer := b1 |>).
  assert (Eb1 : receiver_buffer r1 = b1) by done.
  assert (Hlk : b1 !! c = Some (held_pdu i)).
  { rewrite <- Hb1. rewrite list_lookup_insert_eq; [done|]. rewrite length_app. cbn [length]. lia. }
  rewrite Eb1, Hlk. cbn [deref mbind res_bind all_segments_received held_pdu Z.eqb negb]. fold (held_pdu i).
  rewrite andb_true_r. set (r2 := if sn_of i =? vr_ms r1 then _ else r1).
  assert (H2 : same_rx r1 r2) by (unfold r2; case_match; [apply update_vr_ms_same|reflexivity]).
  assert (Ev2 : vr_r r2 = sn_of n).
  { destruct H2 as (_ & -> & _). change (vr_r r1) with (vr_r r0). by destruct H0 as (_ & -> & _). }
  assert (H02 : same_rx (r <| receiver_buffer := b1 |>) r2).
  { etransitivity; [|exact H2]. destruct H0 as (G1&G2&G3&G4&G5&G6). by split_and!. }
  rewrite Ev2. destruct (Z.eqb_spec (sn_of i) (sn_of n)) as [E | E].
  - apply (sn_inj n) in E as ->; [|lia|lia]. rewrite bool_decide_true by done.
    assert (Hc0 : c = 0%nat).
    { unfold c. destruct held as [|j l]; [done|]. cbn [pos]. destruct Hinc as [Hj _].
      by rewrite (proj2 (Nat.ltb_ge _ _)) by lia. }
    assert (Hinc' : increasing n (ins n held)).
    { apply increasing_ins; [|lia|done]. by apply (increasing_le (S n)); [lia|]. }
    assert (Hw' : Forall (fun j => (j < n + 512)%nat) (ins n held)).
    { apply Forall_forall. intros j [-> | Hj]%elem_of_ins; [lia|]. rewrite Forall_forall in Hw.
      pose proof (Hw j Hj). lia. }
    pose proof (run_bound _ _ Hinc' Hw') as Hrun. fold k in Hrun.
    assert (Ebuf2 : receiver_buffer r2 = b1) by (by destruct H02 as (-> & _)).
    assert (Eup : rlc_am_rx_update_vr_r b1 r2 = r2 <| vr_r := sn_of (n + k) |>).
    { apply update_vr_r_ok; [done| |done]. eapply Forall_impl; [exact Hw'|]. cbn. lia. }
    cbn [rx_from]. rewrite Ebuf2, Hc0, drop_0, Eup.
    match goal with |- context [rlc_am_rx_check_vr_reassemble ?x] => set (r3 := x) end.
    rewrite (check_vr_reassemble_ok n (ins n held)); [|exact Hinc'|exact Hw'|exact Hrun|apply elem_of_ins; by left|reflexivity|exact Ebuf2].
    eexists. split; [reflexivity|]. destruct H02 as (G1&G2&G3&G4&G5&G6).
    assert (Emr : vr_mr r3 = (sn_of (n + k) + 512) mod 1024) by apply land_1023.
    split_and!; done.
  - rewrite bool_decide_false by (intros ->; done). eexists. split; [reflexivity|].
    assert (Hk : k = 0%nat).
    { unfold k. assert (Hne : i <> n) by (intros ->; done).
      assert (Hinc' : increasing (S n) (ins i held)) by (apply increasing_ins; (done || lia)).
      destruct (ins i held) as [|j l]; [done|]. destruct Hinc' as [Hj _]. cbn [run].
      by rewrite (proj2 (Nat.eqb_neq _ _)) by lia. }
    rewrite Hk, Nat.add_0_r, <- Hv. rewrite <- Hv in Hmr. destruct H02 as (G1&G2&G3&G4&G5&G6).
    split_and!; try done. rewrite G3. exact Hmr.
Qed.

(** *** Reassembly of the run *)
Lemma deliver_all_same sdus r :
  receiver_buffer (deliver_all sdus r) = receiver_buffer r /\ vr_r (deliver_all sdus r) = vr_r r /\
  vr_mr (deliver_all sdus r) = vr_mr r.
Proof. revert r. induction sdus as [|x sdus IH]; intros r; [done|]. cbn [deliver_all]. by destruct (IH (deliver x r)) as (-> & -> & ->). Qed.

Lemma rx_output_same up n r r' :
  output_sdu_in_construction r' = output_sdu_in_construction r ->
  output_sdu_size_to_write r' = output_sdu_size_to_write r -> upper_layer r' = upper_layer r ->
  rx_output up n r -> rx_output up n r'.
Proof.
  intros H1 H2 H3 [Hc Hu]. split; [|congruence].
  assert (E1 : output_sdu_in_construction r = match pre n with [] => None | _ => Some (pre n) end) by (by rewrite Hc).
  assert (E2 : output_sdu_size_to_write r = Z.of_nat (length (pre n))) by (by rewrite Hc).
  unfold constructing. rewrite <- E1, <- E2, <- H1, <- H2. by destruct r'.
Qed.

Lemma reassemble_one up n r :
  (n < N)%nat -> rx_output up n r -> exists r',
  rlc_am_reassemble_pdu (finfo n) r = Ok r' /\ rx_output up (S n) r' /\
  receiver_buffer r' = receiver_buffer r /\ vr_r r' = vr_r r /\ vr_mr r' = vr_mr r.
Proof.
  intros Hn [Hc Hu]. rewrite Hc, finfo_ok by done. eexists. split; [reflexivity|].
  destruct (deliver_all_same (out n) r) as (E1 & E2 & E3). split; [|by split_and!]. split; [done|].
  change (upper_layer (constructing ?a ?b)) with (upper_layer b).
  rewrite upper_layer_all, Hu, <- app_assoc. rewrite seq_S, (map_app out), concat_app, map_app. cbn [map concat].
  by rewrite app_nil_r, Nat.add_0_l.
Qed.

Lemma reassemble_run up fuel n l r :
  receiver_buffer r = map held_pdu (n :: l) -> increasing (S n) l ->
  Forall (fun i => (i < n + 1024 /\ i < N)%nat) (n :: l) -> rx_output up n r -> (length l < fuel)%nat ->
  exists r', reassemble_loop fuel 0 r = Ok r' /\ rx_output up (n + run n (n :: l)) r' /\
    receiver_buffer r' = map held_pdu (drop (run n (n :: l)) (n :: l)) /\ vr_r r' = vr_r r /\ vr_mr r' = vr_mr r.
Proof.
  revert n l r. induction fuel as [|fuel IH]; intros n l r Hbuf Hinc Hw Hout Hf; [lia|].
  apply Forall_cons in Hw as [[_ HnN] Hw]. cbn [reassemble_loop]. rewrite Hbuf. cbn [map lookup list_lookup deref mbind res_bind].
  cbn [all_segments_received held_pdu Z.gtb Z.compare receiver_buffer update_field drop]. fold (held_pdu n).
  set (r1 := r <| receiver_buffer := _ |>).
  destruct (reassemble_one up n r1) as (r2 & E2 & Ho2 & Hb2 & Hv2 & Hm2); [done| |].
  { destruct Hout as [Hc Hu]. split; [|done]. unfold r1. rewrite Hc at 1. done. }
  change (pdu_info (held_pdu n)) with (finfo n). rewrite E2. cbn [mbind res_bind].
  assert (Eb2 : receiver_buffer r2 = map held_pdu l) by (by rewrite Hb2). rewrite Eb2.
  cbn [run]. rewrite Nat.eqb_refl. cbn [drop]. rewrite Nat.add_succ_r.
  destruct l as [|j l].
  - cbn [map lookup list_lookup]. exists r2. cbn [run drop map]. rewrite Nat.add_0_r. by split_and!.
  - cbn [map lookup list_lookup]. destruct Hinc as [Hj Hinc].
    pose proof Hw as Hw'. apply Forall_cons in Hw' as [[Hjw HjN] Hw'].
    assert (Hnext : reassemble_next (held_pdu n) (held_pdu j) = (j =? S n)%nat).
    { unfold reassemble_next. rewrite !rx_sn_held, sn_dist by lia. cbn [all_segments_received held_pdu].
      cbn [Z.gtb Z.compare segment_reassembled]. rewrite bool_decide_true by done. cbn [negb].
      rewrite andb_false_r, orb_false_r, andb_true_r.
      destruct (Nat.eqb_spec j (S n)), (Z.ltb_spec (Z.of_nat j - Z.of_nat n) 2); (done || lia). }
    rewrite Hnext. destruct (Nat.eqb_spec j (S n)) as [-> | Hne].
    + destruct (IH (S n) l r2) as (r' & G1 & G2 & G3 & G4 & G5); try done.
      { eapply Forall_impl; [exact Hw|]. cbn. lia. }
      { cbn [length] in Hf. lia. }
      cbn [run] in G2, G3. rewrite Nat.eqb_refl in G2, G3. cbn [drop] in G3.
      exists r'. cbn [run]. rewrite Nat.eqb_refl. cbn [drop]. split; [done|].
      split_and!; [rewrite <- Nat.add_succ_l; exact G2|exact G3|rewrite G4; exact Hv2|rewrite G5; exact Hm2].
    + exists r2. cbn [run]. rewrite (proj2 (Nat.eqb_neq _ _) Hne). cbn [drop]. rewrite Nat.add_0_r. by split_and!.
Qed.

(** *** A data PDU *)

Lemma reordering_same c r : same_rx r (rx_update_reordering c r).
Proof.
  unfold rx_update_reordering, rlc_am_start_timer_reordering, rlc_am_stop_and_reset_timer_reordering.
  repeat case_match; by split_and!.
Qed.
Lemma trigger_same info st r : same_rx r (rx_trigger_status info st r).
Proof. unfold rx_trigger_status. repeat case_match; by split_and!. Qed.

(** The state of the receiver. *)
Definition rx_state (up : list rlc_event) (n : nat) (held : list nat) (r : rlc_am_entity_t) : Prop :=
  (n <= N)%nat /\ buffers n held /\ vr_r r = sn_of n /\ vr_mr r = (sn_of n + 512) mod 1024 /\
  receiver_buffer r = map held_pdu held /\ rx_output up n r.

Lemma rx_state_same up n held r r' : same_rx r r' -> rx_state up n held r -> rx_state up n held r'.
Proof.
  intros (E1&E2&E3&E4&E5&E6) (H1&H2&H3&H4&H5&H6). pose proof (rx_output_same up n r r' E4 E5 E6 H6).
  split_and!; congruence || done.
Qed.

Lemma rx_state_deliver up n held r :
  (n <= N)%nat -> increasing n held -> Forall (fun i => (i < n + 512 /\ i < N)%nat) held ->
  vr_r r = sn_of (n + run n held) -> vr_mr r = (sn_of (n + run n held) + 512) mod 1024 ->
  receiver_buffer r = map held_pdu held -> rx_output up n r -> n ∈ held ->
  exists r', rlc_am_rx_list_reassemble_rlc_sdus r = Ok r' /\
    rx_state up (n + run n held) (drop (run n held) held) r'.
Proof.
  intros Hn Hinc Hw Hv Hmr Hbuf Ho Hin.
  assert (Hl : exists l, held = n :: l).
  { destruct held as [|j l]; [by apply not_elem_of_nil in Hin|]. destruct Hinc as [Hj Hinc].
    apply elem_of_cons in Hin as [<- | Hin]; [by eexists|]. pose proof (increasing_elem _ _ _ Hinc Hin). lia. }
  destruct Hl as (l & El). pose proof Hinc as Hinc'. rewrite El in Hinc'. destruct Hinc' as [_ Hincl].
  destruct (reassemble_run up (reassemble_fuel r) n l r) as (r' & G1 & G2 & G3 & G4 & G5); try done.
  { by rewrite Hbuf, El. }
  { rewrite <- El. eapply Forall_impl; [exact Hw|]. cbn. lia. }
  { unfold reassemble_fuel. rewrite Hbuf, length_map, El. cbn [length]. lia. }
  rewrite <- El in G2, G3. exists r'. split.
  - unfold rlc_am_rx_list_reassemble_rlc_sdus. rewrite Hbuf.
    assert (Hmap : map held_pdu held = held_pdu n :: map held_pdu l) by (by rewrite El). rewrite Hmap.
    unfold rx_rf. cbn [pdu_info held_pdu all_segments_received Z.gtb Z.compare]. rewrite finfo_rf. exact G1.
  - split; [|split; [|split_and!; [congruence|congruence|exact G3|exact G2]]].
    + rewrite Forall_forall in Hw.
      destruct (Nat.eq_dec (run n held) 0) as [E | E]; [lia|].
      pose proof (run_elem n held (n + run n held - 1) Hinc ltac:(lia)) as Hlast.
      pose proof (Hw _ Hlast). lia.
    + split; [by apply run_rest|]. apply Forall_drop. eapply Forall_impl; [exact Hw|]. cbn. lia.
Qed.

Lemma in_window i n : (n <= i + 512)%nat -> (i < n + 512)%nat ->
  RLC_AM_SN_IN_WINDOW (sn_of i) (sn_of n) = (n <=? i)%nat.
Proof.
  intros H1 H2. unfold RLC_AM_SN_IN_WINDOW, RLC_SN_IN_WINDOW. fold (RLC_AM_DIFF_SN (sn_of i) (sn_of n)).
  change (Z.shiftr RLC_AM_SN_MODULO 1) with 512. destruct (Nat.leb_spec n i).
  - rewrite sn_dist by lia. apply Z.ltb_lt. lia.
  - rewrite RLC_AM_DIFF_SN_mod. unfold sn_of. apply Z.ltb_ge. mod_lia.
Qed.

(** The PDUs received are those delivered and those held. *)
Definition received (n : nat) (held : list nat) (j : nat) : Prop := (j < n)%nat \/ j ∈ held.

Lemma data_pdu_ok c fb up n held i r bytes size :
  rx_state up n held r -> (i < N)%nat -> (n <= i + 512)%nat -> (i < n + 512)%nat ->
  rlc_am_get_data_pdu_infos bytes (i16 size) = Ok (0, finfo i) ->
  exists st r' n' held', rlc_am_receive_process_data_pdu c fb bytes size r = Ok (st, r') /\
    rx_state up n' held' r' /\ (forall j, received n' held' j <-> received n held j \/ j = i) /\
    (st = RLC_AM_DATA_PDU_STATUS_OK <-> ~ received n held i).
Proof.
  intros Hst HiN Hlo Hhi Hdec. pose proof Hst as (Hn & Hb & Hv & Hmr & Hbuf & Ho).
  unfold rlc_am_receive_process_data_pdu. rewrite Hdec. cbn [mbind res_bind Z.geb Z.compare].
  rewrite finfo_sn, Hv, in_window by done. fold (new_pdu i). destruct (Nat.leb_spec n i) as [Hni | Hni].
  2:{ (* below the window *)
    cbn [mbind res_bind]. set (r1 := stat_add _ _ _).
    eexists _, _, n, held. split; [reflexivity|]. split; [|split; [|split; [done|]]].
    - apply (rx_state_same up n held r); [|done].
      etransitivity; [|apply trigger_same]. by split_and!.
    - intros j. unfold received. split; [tauto|]. intros [? | ->]; [done|by left].
    - intros Hr. by destruct Hr; left. }
  rewrite (insert_pdu_ok fb n i held) by done. destruct (bool_decide_reflect (i ∈ held)) as [Hin | Hnew].
  - cbn [mbind res_bind]. change (status_ok RLC_AM_DATA_PDU_STATUS_SN_DUPLICATE) with false.
    cbn [negb mbind res_bind andb].
    eexists _, _, n, held. split; [reflexivity|]. split; [|split; [|split; [done|]]].
    + apply (rx_state_same up n held r); [|done].
      etransitivity; [|apply trigger_same]. split_and!; try done.
    + intros j. unfold received. split; [tauto|]. intros [? | ->]; [done|by right].
    + intros Hr. by destruct Hr; right.
  - cbn [mbind res_bind]. change (status_ok RLC_AM_DATA_PDU_STATUS_OK) with true. cbn [negb].
    set (r1 := r <| receiver_buffer := _ |>).
    destruct (update_variables_ok n i held r1) as (r2 & E2 & Hs2); try done.
    cbn zeta in Hs2. rewrite E2. cbn [mbind res_bind andb].
    set (k := run n (ins i held)) in *.
    assert (Hs3 : same_rx (r1 <| receiver_buffer := map held_pdu (ins i held) |> <| vr_r := sn_of (n + k) |>
      <| vr_mr := (sn_of (n + k) + 512) mod 1024 |>)
      (rx_trigger_status (finfo i) RLC_AM_DATA_PDU_STATUS_OK (rx_update_reordering c r2))).
    { etransitivity; [exact Hs2|]. etransitivity; [apply reordering_same|apply trigger_same]. }
    set (r3 := rx_trigger_status _ _ _) in *. destruct Hs3 as (G1&G2&G3&G4&G5&G6).
    destruct Hb as [Hinc Hw].
    assert (Hw' : Forall (fun j => (j < n + 512 /\ j < N)%nat) (ins i held)).
    { apply Forall_forall. intros j [-> | Hj]%elem_of_ins; [done|]. rewrite Forall_forall in Hw. by apply Hw. }
    assert (Ho3 : rx_output up n r3) by (by apply (rx_output_same up n r)).
    assert (Hrec : forall j, received n (ins i held) j <-> received n held j \/ j = i).
    { intros j. unfold received. rewrite elem_of_ins. tauto. }
    assert (Hnr : ~ received n held i) by (unfold received; intros [? | ?]; [lia|done]).
    destruct (bool_decide_reflect (i = n)) as [-> | Hne].
    + destruct (rx_state_deliver up n (ins n held) r3) as (r4 & E4 & Hst4); try done.
      { apply increasing_ins; [|lia|done]. by apply (increasing_le (S n)); [lia|]. }
      { apply elem_of_ins. by left. }
      rewrite E4. cbn [mbind res_bind]. eexists _, r4, _, _. split; [reflexivity|]. split; [exact Hst4|].
      split; [|done]. intros j. rewrite <- Hrec. unfold received. fold k.
      assert (Hincn : increasing n (ins n held)).
      { apply increasing_ins; [|lia|done]. by apply (increasing_le (S n)); [lia|]. }
      split.
      * intros [Hj | Hj]; [|right; by apply subseteq_drop in Hj].
        destruct (Nat.lt_ge_cases j n); [by left|right]. apply (run_elem n); [done|]. fold k. lia.
      * intros [Hj | Hj]; [left; lia|]. destruct (Nat.lt_ge_cases j (n + k)); [by left|right].
        by apply elem_of_rest.
    + eexists _, r3, n, (ins i held). split; [reflexivity|]. split; [|by split].
      assert (Hinc' : increasing (S n) (ins i held)) by (apply increasing_ins; (done || lia)).
      assert (Hk : k = 0%nat).
      { unfold k. destruct (ins i held) as [|j l]; [done|]. destruct Hinc' as [Hj _]. cbn [run].
        by rewrite (proj2 (Nat.eqb_neq _ _)) by lia. }
      rewrite Hk, Nat.add_0_r in *. by split_and!.
Qed.

(** *** Transport blocks in any order *)
Context (bytes : nat -> list Z).
Context (bytes_ok : forall i, (i < N)%nat ->
  rlc_am_get_data_pdu_infos (bytes i) (Z.of_nat (length (bytes i))) = Ok (0, finfo i)).
Context (bytes_head : forall i, (i < N)%nat -> exists b, array_get (bytes i) 0 = Ok b /\ Z.land b 128 = 128).
Context (bytes_size : forall i, (i < N)%nat -> 0 < Z.of_nat (length (bytes i)) < 32768).

(** A block of the sender, and the context in which the receiver gets it. *)
Record arrival := Mk_arrival { ar_ctxt : protocol_ctxt_t; ar_fresh : fresh_block; ar_index : nat }.
Definition arrival_tb (a : arrival) : mac_tb_ind :=
  Mk_tb_ind (bytes (ar_index a)) (Z.of_nat (length (bytes (ar_index a)))) (ar_fresh a).
Fixpoint receive_all (l : list arrival) (r : rlc_am_entity_t) : res rlc_am_entity_t :=
  match l with
  | [] => Ok r
  | a :: l' => r ← rlc_am_receive_routing (ar_ctxt a) [arrival_tb a] r; receive_all l' r
  end.

(** The sender's window: [i] is sent when the PDUs 512 below were received,
    and a late copy of it comes before the receiver is 512 further. *)
Fixpoint arrivals_ok (seen : list nat) (l : list arrival) : Prop :=
  match l with
  | [] => True
  | a :: l' =>
      let i := ar_index a in
      (i < N)%nat /\ (forall j, (j + 512 <= i)%nat -> j ∈ seen) /\
      (exists j, (j <= i + 512)%nat /\ j ∉ seen) /\ arrivals_ok (i :: seen) l'
  end.

Fixpoint arrivals_okb (seen : list nat) (l : list arrival) : bool :=
  match l with
  | [] => true
  | a :: l' =>
      let i := ar_index a in
      (i <? N)%nat && forallb (fun j => bool_decide (j ∈ seen)) (seq 0 (i - 511)) &&
      existsb (fun j => negb (bool_decide (j ∈ seen))) (seq 0 (i + 513)) && arrivals_okb (i :: seen) l'
  end.
Lemma arrivals_okb_ok l : forall seen, arrivals_okb seen l = true -> arrivals_ok seen l.
Proof.
  induction l as [|a l IH]; intros seen H; [done|]. cbn [arrivals_okb] in H. rewrite !andb_true_iff in H.
  destruct H as [[[H1 H2] H3] H4]. rewrite forallb_forall in H2. apply existsb_exists in H3 as (j & Hj & H3).
  apply in_seq in Hj. split; [by apply Nat.ltb_lt|]. split; [|split].
  - intros k Hk. pose proof (H2 k) as Hk2. rewrite in_seq in Hk2. specialize (Hk2 ltac:(lia)).
    by apply bool_decide_eq_true in Hk2.
  - exists j. split; [lia|]. apply negb_true_iff, bool_decide_eq_false in H3. done.
  - by apply IH.
Qed.

Lemma route_one c fb up n held i r :
  rx_state up n held r -> (i < N)%nat -> (n <= i + 512)%nat -> (i < n + 512)%nat ->
  exists r' n' held', route_tb c (Mk_tb_ind (bytes i) (Z.of_nat (length (bytes i))) fb) r = Ok r' /\
    rx_state up n' held' r' /\ (forall j, received n' held' j <-> received n held j \/ j = i).
Proof.
  intros Hst Hi Hlo Hhi. destruct (bytes_head i Hi) as (b & Hb & Hb1). pose proof (bytes_size i Hi) as Hsz.
  unfold route_tb. cbn [ind_size ind_data ind_fresh].
  rewrite Z.gtb_ltb, (proj2 (Z.ltb_lt _ _)) by lia. rewrite Hb. cbn [mbind res_bind].
  rewrite Hb1. cbn [Z.eqb Pos.eqb]. set (r1 := stat_add stat_rx_data_pdu _ _).
  destruct (data_pdu_ok c fb up n held i r1 (bytes i) (u16 (Z.of_nat (length (bytes i)))))
    as (st & r' & n' & held' & E & H1 & H2 & _); try done.
  - apply (rx_state_same up n held r); [by split_and!|done].
  - unfold u16, i16. rewrite wrapu_small by (change (2 ^ 16) with 65536; lia).
    rewrite wraps_small by (change (2 ^ (16 - 1)) with 32768; lia). by apply bytes_ok.
  - rewrite E. cbn [mbind res_bind]. by exists r', n', held'.
Qed.

Lemma receive_all_ok l : forall up n held seen r,
  rx_state up n held r -> (forall j, received n held j <-> j ∈ seen) -> arrivals_ok seen l ->
  exists r' n' held', receive_all l r = Ok r' /\ rx_state up n' held' r' /\
    (forall j, received n' held' j <-> j ∈ seen \/ j ∈ map ar_index l).
Proof.
  induction l as [|a l IH]; intros up n held seen r Hst Hseen Hl.
  - exists r, n, held. split; [done|]. split; [done|]. intros j. rewrite Hseen. cbn [map].
    rewrite elem_of_nil. tauto.
  - destruct Hl as (HiN & Hlow & (j0 & Hj0 & Hj0n) & Hl). pose proof Hst as (_ & [Hinc _] & _).
    assert (Hn : n ∉ seen).
    { rewrite <- Hseen. intros [? | Hin]; [lia|]. pose proof (increasing_elem _ _ _ Hinc Hin). lia. }
    destruct (route_one (ar_ctxt a) (ar_fresh a) up n held (ar_index a) r) as (r1 & n1 & held1 & E & Hst1 & Hrec1);
      try done.
    { destruct (Nat.le_gt_cases n (ar_index a + 512)) as [|Hgt]; [done|]. exfalso. apply Hj0n. apply Hseen. left. lia. }
    { destruct (Nat.lt_ge_cases (ar_index a) (n + 512)) as [|Hge]; [done|]. exfalso. apply Hn, Hlow. lia. }
    destruct (IH up n1 held1 (ar_index a :: seen) r1) as (r' & n' & held' & E' & Hst' & Hrec'); try done.
    { intros j. rewrite Hrec1, Hseen, elem_of_cons. tauto. }
    exists r', n', held'. cbn [receive_all]. unfold arrival_tb at 1. cbn [rlc_am_receive_routing].
    rewrite E. cbn [mbind res_bind]. split; [done|]. split; [done|]. intros j. rewrite Hrec'. cbn [map].
    rewrite !elem_of_cons. tauto.
Qed.
End Reorder.
