(* ===== verification/RlcAm.v ===== *)
(** * The entity, its life cycle and its interfaces (rlc_am_init.c, rlc_am.c)

    Initialisation, re-establishment and configuration of an entity; requests
    of the upper layer, transmission opportunities and indications of MAC,
    configuration by RRC.  What the [calloc]s of the initialisation and
    [get_free_mem_block] give for a new PDU are arguments. *)

From S2P Require Import Prelude Bits RlcAmTypes RlcAmEntity RlcAmWindows RlcAmTxBuffer RlcTimers RlcAmTimers RlcAmInSdu.
From S2P Require Import RlcAmPolling RlcAmRetransmit RlcAmResegment RlcAmSegment RlcAmRxPdu RlcAmRxList RlcAmStatusRx RlcAmStatusTx RlcAmReceiver.

(** [upper_layer] is the history of the calls to the layer above: it is not a
    field of the C structure and survives the [memset]. *)
Definition memset_entity (r : rlc_am_entity_t) : rlc_am_entity_t :=
  entity_zero <| upper_layer := upper_layer r |>.

(** Whether the two [calloc]s succeed; their results are not tested. *)
Record am_init_mem := Mk_am_init_mem { calloc_input_sdus : bool; calloc_tx_data_pdu_buffer : bool }.
Definition am_init_ok : am_init_mem := Mk_am_init_mem true true.

Definition rlc_am_init (mem : am_init_mem) (r : rlc_am_entity_t) : rlc_am_entity_t :=
  if initialized r then r
  else
    let r := memset_entity r in
    let r := r <| input_sdus := if calloc_input_sdus mem then Some (replicate 1024 tx_sdu_zero) else None |>
               <| tx_data_pdu_buffer := if calloc_tx_data_pdu_buffer mem then replicate 512 tx_pdu_zero else [] |> in
    let r := r <| vt_ms := u16 (vt_a r + RLC_AM_WINDOW_SIZE) |>
               <| vr_mr := u16 (vr_r r + RLC_AM_WINDOW_SIZE) |>
               <| vr_x := RLC_SN_UNDEFINED |>
               <| sn_status_triggered_delayed := i16 RLC_SN_UNDEFINED |>
               <| last_absolute_subframe_status_indication := 4294967295 |> in
    r <| initialized := true |>.

Definition rlc_am_reestablish (r : rlc_am_entity_t) : rlc_am_entity_t :=
  let r := r <| receiver_buffer := [] |> <| pdus_to_mac_layer := [] |>
             <| control_pdu_list := [] |> <| segmentation_pdu_list := [] |> in
  let r := r <| vt_a := 0 |> <| vt_ms := 0 + RLC_AM_WINDOW_SIZE |> <| vt_s := 0 |>
             <| poll_sn := 0 |> in
  let r := r <| c_pdu_without_poll := 0 |> <| c_byte_without_poll := 0 |> in
  let r := r <| vr_r := 0 |> <| vr_mr := 0 + RLC_AM_WINDOW_SIZE |> <| vr_x := RLC_SN_UNDEFINED |>
             <| vr_ms := 0 |> <| vr_h := 0 |>
             <| sn_status_triggered_delayed := i16 RLC_SN_UNDEFINED |>
             <| status_requested := RLC_AM_STATUS_NOT_TRIGGERED |> in
  r <| last_absolute_subframe_status_indication := 4294967295 |> <| initialized := true |>.

(** Every list and block is freed before the [memset]. *)
Definition rlc_am_cleanup (r : rlc_am_entity_t) : rlc_am_entity_t :=
  let r := r <| receiver_buffer := [] |> <| pdus_to_mac_layer := [] |>
             <| control_pdu_list := [] |> <| segmentation_pdu_list := [] |>
             <| output_sdu_in_construction := None |>
             <| input_sdus := None |> <| tx_data_pdu_buffer := [] |> in
  memset_entity r.

(** The parameters [max_retx_thresholdP], [poll_pduP] and [poll_byteP] are
    [uint16_t]: the conversion of the arguments is part of the call. *)
Definition rlc_am_configure (max_retx_thresholdP poll_pduP poll_byteP t_poll_retransmitP
    t_reorderingP t_status_prohibitP : Z) (r : rlc_am_entity_t) : rlc_am_entity_t :=
  let set_parameters (r : rlc_am_entity_t) :=
    r <| max_retx_threshold := u16 max_retx_thresholdP |> <| poll_pdu := u16 poll_pduP |>
      <| poll_byte := u16 poll_byteP |> <| protocol_state := RLC_DATA_TRANSFER_READY_STATE |> in
  if configured r then
    let r := set_parameters r in
    r <| t_poll_retransmit := (t_poll_retransmit r) <| ms_duration := t_poll_retransmitP |> |>
      <| t_reordering := (t_reordering r) <| ms_duration := t_reorderingP |> |>
      <| t_status_prohibit := (t_status_prohibit r) <| ms_duration := t_status_prohibitP |> |>
  else
    let r := set_parameters r in
    let r := rlc_am_init_timer_poll_retransmit t_poll_retransmitP r in
    let r := rlc_am_init_timer_reordering t_reorderingP r in
    let r := rlc_am_init_timer_status_prohibit t_status_prohibitP r in
    r <| configured := true |>.

Definition rlc_am_set_debug_infos (srb_flagP : bool) (rb_idP chan_idP : Z) (r : rlc_am_entity_t)
  : rlc_am_entity_t :=
  r <| rb_id := rb_idP |> <| channel_id := chan_idP |> <| is_data_plane := negb srb_flagP |>.

(** ** Interfaces *)

(** ** Upper layer *)

(** [struct rlc_am_data_req] with the data of the SDU. *)
Record rlc_am_data_req_t := Mk_data_req {
  req_mui : Z;
  req_data_size : Z;
  req_data : list Z
}.

Definition rlc_am_data_req (c : protocol_ctxt_t) (sdu : rlc_am_data_req_t) (r : rlc_am_entity_t)
  : res rlc_am_entity_t :=
  cell ← get_sdu r (next_sdu_index r);
  if is_null (sdu_mem_block cell) && negb (segmented (sdu_flags cell)) &&
     negb (Z.rem (next_sdu_index r + 1) RLC_AM_SDU_CONTROL_BUFFER_SIZE =? current_sdu_index r)
  then
    let data_size := u16 (req_data_size sdu) in
    let new := tx_sdu_zero <| sdu_mem_block := Some (req_data sdu) |>
                           <| mui := req_mui sdu |> <| sdu_size := data_size |>
                           <| sdu_remaining_size := data_size |> <| sdu_segmented_size := 0 |>
                           <| sdu_creation_time := frame c |> in
    let r := stat_add stat_tx_pdcp_sdu 1 r in
    let r := stat_add stat_tx_pdcp_bytes data_size r in
    let r := r <| sdu_buffer_occupancy := sdu_buffer_occupancy r + data_size |>
               <| nb_sdu := nb_sdu r + 1 |>
               <| nb_sdu_no_segmented := nb_sdu_no_segmented r + 1 |> in
    r ← set_sdu r (next_sdu_index r) new;
    Ok (r <| next_sdu_index := Z.rem (next_sdu_index r + 1) RLC_AM_SDU_CONTROL_BUFFER_SIZE |>)
  else
    let r := stat_add stat_tx_pdcp_sdu_discarded 1 r in
    Ok (stat_add stat_tx_pdcp_bytes_discarded (u16 (req_data_size sdu)) r).

(** ** Transmission opportunity *)

Definition may_send_status (r : rlc_am_entity_t) : bool :=
  (nb_bytes_requested_by_mac r >=? 2) &&
  (negb (status_requested r =? 0) && (Z.land (status_requested r) RLC_AM_STATUS_NO_TX_MASK =? 0)).

(** New data: the last priority.  [block] is what [get_free_mem_block] returns
    for the PDU. *)
Definition get_new_pdu (c : protocol_ctxt_t) (block : option (list Z)) (r : rlc_am_entity_t) : res rlc_am_entity_t :=
  if (nb_bytes_requested_by_mac r >? 2) && negb (sdu_buffer_occupancy r =? 0) &&
     negb (vt_s r =? vt_ms r)
  then
    r ← rlc_am_segment_10 c block r;
    let r := r <| pdus_to_mac_layer := pdus_to_mac_layer r ++ segmentation_pdu_list r |>
               <| segmentation_pdu_list := [] |> in
    match pdus_to_mac_layer r with
    | [] => Ok r
    | head :: _ =>
        let r := stat_add stat_tx_data_pdu 1 r in
        Ok (stat_add stat_tx_data_bytes (tb_size head) r)
    end
  else Ok r.

(** Retransmissions, then new data. *)
Definition get_data_pdu (c : protocol_ctxt_t) (block : option (list Z)) (r : rlc_am_entity_t) : res rlc_am_entity_t :=
  if negb (retrans_num_bytes_to_retransmit r =? 0) && (nb_bytes_requested_by_mac r >? 2) then
    '(pdu, r) ← rlc_am_get_pdu_to_retransmit c r;
    match pdu with
    | Some tb => Ok (r <| pdus_to_mac_layer := pdus_to_mac_layer r ++ [tb] |>)
    | None => get_new_pdu c block r
    end
  else get_new_pdu c block r.

Definition rlc_am_get_pdus (c : protocol_ctxt_t) (block : option (list Z)) (r : rlc_am_entity_t)
  : res rlc_am_entity_t :=
  match protocol_state r with
  | RLC_DATA_TRANSFER_READY_STATE =>
      if may_send_status r then
        r ← rlc_am_send_status_pdu r;
        match control_pdu_list r with
        | pdu :: rest =>
            let r := r <| control_pdu_list := rest |>
                       <| pdus_to_mac_layer := pdus_to_mac_layer r ++ [pdu] |>
                       <| status_requested := RLC_AM_STATUS_NOT_TRIGGERED |>
                       <| status_buffer_occupancy := 0 |> in
            Ok (rlc_am_start_timer_status_prohibit c r)
        | [] => get_data_pdu c block r
        end
      else get_data_pdu c block r
  | _ => Ok r
  end.

Definition rlc_am_mac_data_request (c : protocol_ctxt_t) (enb_flagP : bool) (block : option (list Z))
    (r : rlc_am_entity_t) : res (mac_data_req * rlc_am_entity_t) :=
  r ← rlc_am_get_pdus c block r;
  let data := pdus_to_mac_layer r in
  let r := r <| pdus_to_mac_layer := [] |> in
  '(bo, r) ← (if enb_flagP then
                '(n, r) ← rlc_am_get_buffer_occupancy_in_bytes r; Ok (Some n, r)
              else Ok (None, r));
  Ok (Mk_mac_data_req data bo (protocol_state r), r).

(** ** Indications of MAC *)
Definition rlc_am_rx (c : protocol_ctxt_t) (data_indP : list mac_tb_ind) (r : rlc_am_entity_t)
  : res rlc_am_entity_t :=
  match protocol_state r with
  | RLC_DATA_TRANSFER_READY_STATE => rlc_am_receive_routing c data_indP r
  | _ => Ok r
  end.

Definition rlc_am_mac_data_indication (c : protocol_ctxt_t) (data_indP : list mac_tb_ind)
    (r : rlc_am_entity_t) : res rlc_am_entity_t :=
  rlc_am_rx c data_indP r.

Definition rlc_am_set_nb_bytes_requested_by_mac (tb_sizeP : Z) (r : rlc_am_entity_t)
  : rlc_am_entity_t :=
  r <| nb_bytes_requested_by_mac := tb_sizeP |>.

(** The head SDU's fields are read by casting [mem_block->data]: [cast] reads
    the bytes of the block as a [rlc_am_tx_sdu_management_t]. *)
Definition rlc_am_mac_status_indication (cast : list Z -> rlc_am_tx_sdu_management_t)
    (c : protocol_ctxt_t) (tb_sizeP : Z) (enb_flagP : bool) (r : rlc_am_entity_t)
  : res (mac_status_resp * rlc_am_entity_t) :=
  let resp := Mk_status_resp 0 0 0 0 false (protocol_state r) in
  match input_sdus r with
  | None => Ok (resp, r)
  | Some _ =>
      r ← (if negb (last_absolute_subframe_status_indication r =? time_ms c) then
             r ← rlc_am_check_timer_poll_retransmit c r;
             r ← rlc_am_check_timer_reordering c r;
             Ok (rlc_am_check_timer_status_prohibit c r)
           else Ok r);
      let r := r <| last_absolute_subframe_status_indication := time_ms c |>
                 <| nb_bytes_requested_by_mac := u16 tb_sizeP |> in
      '(bo, r) ← rlc_am_get_buffer_occupancy_in_bytes r;
      let bo :=
        (if enb_flagP then
           let max_li_overhead := (if nb_sdu_no_segmented r >? 1
                                   then RLC_AM_HEADER_LI_LENGTH (nb_sdu_no_segmented r - 1) else 0) in
           let header_overhead := (if sdu_buffer_occupancy r >? 0 then 2 else 0) in
           u32 (bo + (header_overhead + max_li_overhead))
         else bo) in
      let resp := resp <| buffer_occupancy_in_bytes := bo |> in
      head ← get_sdu r (current_sdu_index r);
      match sdu_mem_block head, bo with
      | Some block, Zpos _ =>
          let h := cast block in
          let diff_time := i32 (frame c - sdu_creation_time h) in
          Ok (resp <| buffer_occupancy_in_pdus := u16 (nb_sdu r) |>
                   <| head_sdu_creation_time :=
                        if diff_time >? 0 then u32 diff_time
                        else u32 (4294967295 - diff_time + frame c) |>
                   <| head_sdu_remaining_size_to_send := u16 (sdu_remaining_size h) |>
                   <| head_sdu_is_segmented :=
                        negb (u16 (sdu_size h) =? u16 (sdu_remaining_size h)) |>, r)
      | _, _ =>
          if negb (retrans_num_bytes_to_retransmit r =? 0) then
            Ok (resp <| buffer_occupancy_in_pdus := u16 (retrans_num_pdus r) |>
                     <| head_sdu_remaining_size_to_send := u32 (retrans_num_bytes_to_retransmit r) |>
                     <| head_sdu_is_segmented := true |>, r)
          else Ok (resp, r)
      end
  end.

(** ** Configuration *)

(** [RLC_COLL_KEY_VALUE]: the key of an entity in [rlc_coll_p]. *)
Definition RLC_COLL_KEY_VALUE (module_id rnti : Z) (is_enb : bool) (rb_id_ : Z) (is_srb : bool) : Z :=
  Z.lor (Z.lor (Z.lor (Z.lor (Z.lor module_id (Z.shiftl rnti 8)) (Z.shiftl (b2z is_enb) 24))
                      (Z.shiftl rb_id_ 25)) (Z.shiftl (b2z is_srb) 33)) (Z.shiftl 5 34).

(** The entities of the collection, by key. *)
Abbreviation rlc_collection := (gmap Z rlc_am_entity_t).

Record rlc_am_info_t := Mk_am_info {
  info_max_retx_threshold : Z;
  info_poll_pdu : Z;
  info_poll_byte : Z;
  info_t_poll_retransmit : Z;
  info_t_reordering : Z;
  info_t_status_prohibit : Z
}.

(** [rlc_am_init], [rlc_am_set_debug_infos] and [rlc_am_configure] in a row. *)
Definition configure_entity (mem : am_init_mem) (srb_flagP : bool) (rb_idP chan_idP : Z) (i : rlc_am_info_t)
    (r : rlc_am_entity_t) : rlc_am_entity_t :=
  rlc_am_configure (info_max_retx_threshold i) (info_poll_pdu i) (info_poll_byte i)
    (info_t_poll_retransmit i) (info_t_reordering i) (info_t_status_prohibit i)
    (rlc_am_set_debug_infos srb_flagP rb_idP chan_idP (rlc_am_init mem r)).

Definition config_req_rlc_am (mem : am_init_mem) (key : Z) (srb_flagP : bool) (config_am_pP : rlc_am_info_t)
    (rb_idP chan_idP : Z) (coll : rlc_collection) : rlc_collection :=
  match coll !! key with
  | Some r => <[key := configure_entity mem srb_flagP rb_idP chan_idP config_am_pP r]> coll
  | None => coll
  end.

Definition maxRetxThreshold_tab : list Z := [1; 2; 3; 4; 6; 8; 16; 32].
Definition pollPDU_tab : list Z := [4; 8; 16; 32; 64; 128; 256; RLC_AM_POLL_PDU_INFINITE].
Definition pollByte_tab : list Z :=
  [25000; 50000; 75000; 100000; 125000; 250000; 375000; 500000; 750000; 1000000; 1250000; 1500000;
   2000000; 3000000; RLC_AM_POLL_BYTE_INFINITE].
(** 5, 10, ... 250 and the longer values (release 14). *)
Definition steps_of_5 (first : Z) (n : nat) : list Z := map (fun i => first + 5 * Z.of_nat i) (seq 0 n).
Definition PollRetransmit_tab : list Z := steps_of_5 5 50 ++ [300; 350; 400; 450; 500; 800; 1000; 2000; 4000].
Definition am_t_Reordering_tab : list Z :=
  steps_of_5 0 21 ++ [110; 120; 130; 140; 150; 160; 170; 180; 190; 200; 1600].
Definition t_StatusProhibit_tab : list Z := steps_of_5 0 51 ++ [300; 350; 400; 450; 500; 800; 1000; 1200; 1600; 2000; 2400].

(** The enumerations of [RLC-Config] (ASN.1); the bounds checked are the
    lengths of the tables. *)
Record RLC_Config_am := Mk_config_am {
  asn_maxRetxThreshold : Z;
  asn_pollPDU : Z;
  asn_pollByte : Z;
  asn_t_PollRetransmit : Z;
  asn_t_Reordering : Z;
  asn_t_StatusProhibit : Z
}.

Definition asn1_legal (a : RLC_Config_am) : bool :=
  (asn_maxRetxThreshold a <=? 7) && (asn_pollPDU a <=? 7) && (asn_pollByte a <? 15) &&
  (asn_t_PollRetransmit a <? 59) && (asn_t_Reordering a <? 32) && (asn_t_StatusProhibit a <? 62).

Definition asn1_info (a : RLC_Config_am) : res rlc_am_info_t :=
  x1 ← array_get maxRetxThreshold_tab (asn_maxRetxThreshold a);
  x2 ← array_get pollPDU_tab (asn_pollPDU a);
  x3 ← array_get pollByte_tab (asn_pollByte a);
  x4 ← array_get PollRetransmit_tab (asn_t_PollRetransmit a);
  x5 ← array_get am_t_Reordering_tab (asn_t_Reordering a);
  x6 ← array_get t_StatusProhibit_tab (asn_t_StatusProhibit a);
  Ok (Mk_am_info x1 x2 x3 x4 x5 x6).

Definition config_req_rlc_am_asn1 (mem : am_init_mem) (key : Z) (srb_flagP : bool) (a : RLC_Config_am)
    (rb_idP chan_idP : Z) (coll : rlc_collection) : res rlc_collection :=
  match coll !! key with
  | Some r =>
      if asn1_legal a then
        i ← asn1_info a;
        Ok (<[key := configure_entity mem srb_flagP rb_idP chan_idP i r]> coll)
      else Ok coll
  | None => Ok coll
  end.

(** [rlc_am_stat_req] copies the counters out. *)
Definition rlc_am_stat_req (r : rlc_am_entity_t) : rlc_am_stats := stats r.
