(* ===== verification/RlcAmService.v ===== *)
(** * Entities in service

    What [rlc_am_init] and the configuration establish, and what a request of
    the upper layer does to the queue of SDUs. *)

From S2P Require Import Prelude Bits RlcAmTypes RlcAmEntity RlcAmWindows RlcAmTxBuffer RlcTimers RlcAmTimers.
From S2P Require Import RlcAmInSdu RlcAmLi RlcAmSegmentSpec RlcAmRxPdu RlcAmTransfer RlcAmRxList RlcAmReassembly.
From S2P Require Import RlcAmStatusTx RlcAmReceiver RlcAm.

(** ** After initialisation *)

(** The receiving side is empty and its variables in sync at [sn]. *)
Definition rx_ready (sn : Z) (r : rlc_am_entity_t) : Prop :=
  vr_r r = sn /\ vr_mr r = (sn + 512) mod 1024 /\ receiver_buffer r = [] /\ r = constructing [] r.

Lemma init_tx_inv r : initialized r = false -> tx_inv (rlc_am_init am_init_ok r).
Proof.
  intros Hi. apply empty_window_inv; unfold rlc_am_init; by rewrite Hi.
Qed.

Lemma init_queue r : initialized r = false -> seg_queue (rlc_am_init am_init_ok r) [].
Proof.
  intros Hi. unfold rlc_am_init. rewrite Hi. split; [|by split_and!; cbn; try (done || lia)].
  eexists. split; [reflexivity|]. split; [apply length_replicate|]. exists tx_sdu_zero.
  split; [|done]. apply lookup_replicate. split; [done|]. cbn. lia.
Qed.

Lemma init_rx r : initialized r = false -> rx_ready 0 (rlc_am_init am_init_ok r).
Proof. intros Hi. unfold rlc_am_init. rewrite Hi. by split_and!. Qed.

(** ** Requests of the upper layer *)

(** The ring holds the queue [q] and nothing else. *)
Definition sdu_ring (r : rlc_am_entity_t) (q : list tx_sdu) : Prop :=
  seg_queue r q /\ next_sdu_index r = (current_sdu_index r + Z.of_nat (length q)) mod 1024 /\
  forall l, input_sdus r = Some l -> forall j s, is_cell j -> l !! Z.to_nat j = Some s ->
    segmented (sdu_flags s) = false /\
    (Z.of_nat (length q) <= (j - current_sdu_index r) mod 1024 -> sdu_mem_block s = None).

Definition new_sdu (c : protocol_ctxt_t) (req : rlc_am_data_req_t) : tx_sdu :=
  tx_sdu_zero <| sdu_mem_block := Some (req_data req) |>
    <| mui := req_mui req |> <| sdu_size := req_data_size req |>
    <| sdu_remaining_size := req_data_size req |> <| sdu_segmented_size := 0 |>
    <| sdu_creation_time := frame c |>.

Lemma new_sdu_wf c req :
  req_data_size req = Z.of_nat (length (req_data req)) -> 0 < req_data_size req -> sdu_wf (new_sdu c req).
Proof.
  intros Hsz Hpos. exists (req_data req). unfold new_sdu.
  cbn [sdu_mem_block sdu_segmented_size sdu_remaining_size sdu_size update_field]. repeat split; (done || lia).
Qed.

(** Appending to the queue. *)
Lemma queue_at_snoc l : forall q i s e,
  is_cell i -> (length q < 1023)%nat -> queue_at l i q ->
  l !! Z.to_nat (next_cell ((i + Z.of_nat (length q)) mod 1024)) = Some e -> sdu_mem_block e = None ->
  (length l = 1024)%nat ->
  queue_at (<[Z.to_nat ((i + Z.of_nat (length q)) mod 1024) := s]> l) i (q ++ [s]).
Proof.
  induction q as [|s0 q IH]; intros i s e Hi Hl Hq He Hm Hlen; cbn [app queue_at length] in *.
  - rewrite Z.add_0_r, Z.mod_small in * by (unfold is_cell in Hi; lia). unfold is_cell in Hi. split.
    + apply list_lookup_insert_eq. lia.
    + exists e. split; [|done]. rewrite list_lookup_insert_ne; [done|].
      pose proof (next_cell_range i) as Hn. unfold is_cell in Hn. unfold next_cell in *. intros E.
      assert (i = (i + 1) mod 1024) as E' by lia. clear -E' Hi. mod_lia.
  - destruct Hq as [Hs Hq]. rewrite <- next_cell_add in *. split.
    + rewrite list_lookup_insert_ne; [done|]. unfold next_cell, is_cell in *. intros E.
      assert (E' : i = ((i + 1) mod 1024 + Z.of_nat (length q)) mod 1024).
      { pose proof (Z.mod_pos_bound ((i + 1) mod 1024 + Z.of_nat (length q)) 1024). lia. }
      clear -E' Hi Hl. mod_lia.
    + apply (IH _ s e); try done; [apply next_cell_range|lia].
Qed.

Lemma ring_full r q :
  sdu_ring r q ->
  (Z.rem (next_sdu_index r + 1) RLC_AM_SDU_CONTROL_BUFFER_SIZE =? current_sdu_index r) = (length q =? 1023)%nat.
Proof.
  intros ((_ & Hc & Hlq & _) & Hn & _). rewrite next_cell_rem by (rewrite Hn; apply Z.mod_pos_bound; lia).
  unfold next_cell. rewrite Hn. unfold is_cell in Hc.
  destruct (Nat.eqb_spec (length q) 1023), (Z.eqb_spec (((current_sdu_index r + Z.of_nat (length q)) mod 1024 + 1) mod 1024)
    (current_sdu_index r)); try done; exfalso; mod_lia.
Qed.

(** Only the queue and the counters changed. *)
Definition queue_changed (r r' : rlc_am_entity_t) : Prop :=
  r' = r <| input_sdus := input_sdus r' |> <| next_sdu_index := next_sdu_index r' |>
         <| sdu_buffer_occupancy := sdu_buffer_occupancy r' |> <| nb_sdu := nb_sdu r' |>
         <| nb_sdu_no_segmented := nb_sdu_no_segmented r' |> <| stats := stats r' |>.
Lemma queue_changed_fields r r' :
  queue_changed r r' ->
  same_tx_vars r r' /\ tx_data_pdu_buffer r' = tx_data_pdu_buffer r /\ retrans_num_pdus r' = retrans_num_pdus r /\
  retrans_num_bytes_to_retransmit r' = retrans_num_bytes_to_retransmit r /\
  protocol_state r' = protocol_state r /\ status_requested r' = status_requested r /\
  pdus_to_mac_layer r' = pdus_to_mac_layer r /\ segmentation_pdu_list r' = segmentation_pdu_list r.
Proof. unfold queue_changed. destruct r, r'. cbn. intros H. injection H. intros. subst. by split_and!. Qed.

Lemma data_req_ok c req r q :
  sdu_ring r q -> req_data_size req = Z.of_nat (length (req_data req)) -> 0 < req_data_size req < 65536 ->
  exists r', rlc_am_data_req c req r = Ok r' /\
    if (length q =? 1023)%nat
    then r' = stat_add stat_tx_pdcp_bytes_discarded (req_data_size req) (stat_add stat_tx_pdcp_sdu_discarded 1 r)
    else sdu_ring r' (q ++ [new_sdu c req]) /\ nb_sdu r' = nb_sdu r + 1 /\
         queue_changed r r'.
Proof.
  intros Hring Hsz Hpos. pose proof (ring_full r q Hring) as Hfull.
  pose proof Hring as (((l & Hl & Hlen & Hq) & Hc & Hlq & Hwf & Hocc & Hcount) & Hn & Hfree).
  set (i := current_sdu_index r) in *. set (j := next_sdu_index r) in *.
  assert (Hj : is_cell j) by (rewrite Hn; apply Z.mod_pos_bound; lia).
  assert (Hdist : (j - i) mod 1024 = Z.of_nat (length q)) by (rewrite Hn; unfold is_cell in Hc; mod_lia).
  destruct (cell_lookup l j Hlen Hj) as (e & He). destruct (Hfree l Hl j e Hj He) as [Hseg Hnone].
  unfold rlc_am_data_req. fold i j. rewrite (get_sdu_queue r l j e) by done. cbn [mbind res_bind].
  rewrite Hnone by lia. rewrite Hseg. cbn [is_null negb andb]. fold i j. fold i in Hfull. rewrite Hfull.
  assert (Hu : u16 (req_data_size req) = req_data_size req).
  { unfold u16. rewrite wrapu_small; [done|]. change (2 ^ 16) with 65536. lia. }
  rewrite Hu. destruct (Nat.eqb_spec (length q) 1023) as [E | E]; cbn [negb]; [by eexists|].
  fold (new_sdu c req).
  match goal with |- context [set_sdu ?x ?y (new_sdu c req)] => change y with j; set (r1 := x) end.
  assert (El : input_sdus r1 = Some l) by done.
  rewrite (set_sdu_queue r1 l j e (fun _ => new_sdu c req) El Hj He). cbn [mbind res_bind].
  eexists. split; [reflexivity|].
  set (l' := alter (fun _ => new_sdu c req) (Z.to_nat j) l).
  assert (El' : l' = <[Z.to_nat j := new_sdu c req]> l) by exact (alter_as_insert (fun _ => new_sdu c req) l _ e He).
  assert (Hn' : Z.rem (j + 1) RLC_AM_SDU_CONTROL_BUFFER_SIZE = next_cell j) by (by apply next_cell_rem).
  assert (Hnd : (next_cell j - i) mod 1024 = Z.of_nat (length q) + 1).
  { unfold next_cell, is_cell in *. clear -Hdist Hc Hj E Hlq. mod_lia. }
  destruct (cell_lookup l (next_cell j) Hlen (next_cell_range j)) as (e2 & He2).
  destruct (Hfree l Hl _ _ (next_cell_range j) He2) as [_ Hnone2]. rewrite Hnd in Hnone2.
  assert (Hqueue : queue_at l' i (q ++ [new_sdu c req])).
  { rewrite El', Hn. rewrite Hn in He2. apply (queue_at_snoc l q i _ e2); try done; [lia|]. apply Hnone2. lia. }
  split; [|split; [done|]].
  - split; [|split].
    + split; [exists l'; split; [done|]; split; [unfold l'; by rewrite length_alter|exact Hqueue]|].
      split; [exact Hc|]. rewrite length_app. cbn [length]. split; [lia|]. split; [|split].
      * apply Forall_app. split; [done|]. constructor; [|done]. apply new_sdu_wf; [done|lia].
      * rewrite sumZ_app. change (sumZ sdu_remaining_size [new_sdu c req]) with (req_data_size req + 0).
        rewrite <- Hocc. cbn [sdu_buffer_occupancy update_field]. change (sdu_buffer_occupancy r1) with (sdu_buffer_occupancy r + req_data_size req). lia.
      * change (nb_sdu_no_segmented r + 1 = Z.of_nat (length q + 1)). lia.
    + change (Z.rem (j + 1) RLC_AM_SDU_CONTROL_BUFFER_SIZE = (i + Z.of_nat (length (q ++ [new_sdu c req]))) mod 1024).
      rewrite Hn', Hn, length_app. unfold next_cell. rewrite Zplus_mod_idemp_l. f_equal. cbn [length]. lia.
    + intros l0 Hl0. change (Some l' = Some l0) in Hl0. injection Hl0 as <-. intros k s Hk Hs.
      change (current_sdu_index _) with i. rewrite length_app. cbn [length].
      rewrite El' in Hs. destruct (decide (k = j)) as [-> | Hkj].
      * rewrite list_lookup_insert_eq in Hs by (unfold is_cell in Hj; lia). injection Hs as <-.
        split; [done|]. intros H. lia.
      * rewrite list_lookup_insert_ne in Hs by (unfold is_cell in *; lia).
        destruct (Hfree l Hl k s Hk Hs) as [H1 H2]. split; [done|]. intros H. apply H2. lia.
  - unfold r1. destruct r. done.
Qed.

(** ** A configured entity *)

Lemma init_ring r : initialized r = false -> sdu_ring (rlc_am_init am_init_ok r) [].
Proof.
  intros Hi. split; [by apply init_queue|]. unfold rlc_am_init. rewrite Hi. split; [done|].
  intros l Hl j s Hj Hs. assert (E : Some (replicate 1024 tx_sdu_zero) = Some l) by exact Hl.
  apply (inj Some) in E as <-. apply lookup_replicate in Hs as [-> _]. done.
Qed.

(** The entity can be used: no SDU, no PDU, windows in sync at 0. *)
Record in_service (r : rlc_am_entity_t) : Prop := Mk_in_service {
  sv_ring : sdu_ring r [];
  sv_ring_wf : ring_wf r;
  sv_tx : tx_inv r;
  sv_vt : vt_a r = 0 /\ vt_s r = 0;
  sv_rx : rx_ready 0 r;
  sv_state : protocol_state r = RLC_DATA_TRANSFER_READY_STATE;
  sv_status : status_requested r = 0;
  sv_retrans : retrans_num_bytes_to_retransmit r = 0;
  sv_lists : pdus_to_mac_layer r = [] /\ segmentation_pdu_list r = [] /\ control_pdu_list r = []
}.

Lemma configure_fields srb rb ch i r :
  let r0 := rlc_am_init am_init_ok r in
  let r' := configure_entity am_init_ok srb rb ch i r in
  (input_sdus r' = input_sdus r0 /\ current_sdu_index r' = current_sdu_index r0 /\
   next_sdu_index r' = next_sdu_index r0 /\ sdu_buffer_occupancy r' = sdu_buffer_occupancy r0 /\
   nb_sdu_no_segmented r' = nb_sdu_no_segmented r0) /\
  (vt_a r' = vt_a r0 /\ vt_s r' = vt_s r0 /\ vt_ms r' = vt_ms r0 /\
   tx_data_pdu_buffer r' = tx_data_pdu_buffer r0 /\ retrans_num_pdus r' = retrans_num_pdus r0 /\
   retrans_num_bytes_to_retransmit r' = retrans_num_bytes_to_retransmit r0) /\
  (vr_r r' = vr_r r0 /\ vr_mr r' = vr_mr r0 /\ receiver_buffer r' = receiver_buffer r0 /\
   output_sdu_in_construction r' = output_sdu_in_construction r0 /\
   output_sdu_size_to_write r' = output_sdu_size_to_write r0) /\
  (protocol_state r' = RLC_DATA_TRANSFER_READY_STATE /\ status_requested r' = status_requested r0 /\
   pdus_to_mac_layer r' = pdus_to_mac_layer r0 /\ segmentation_pdu_list r' = segmentation_pdu_list r0 /\
   control_pdu_list r' = control_pdu_list r0).
Proof.
  intros r0 r'. unfold r', configure_entity, rlc_am_configure. fold r0. clearbody r0. clear r'.
  cbn [configured rlc_am_set_debug_infos update_field].
  destruct (configured _); split_and!; reflexivity.
Qed.

Lemma sdu_ring_frame r r' q :
  sdu_ring r q -> input_sdus r' = input_sdus r -> current_sdu_index r' = current_sdu_index r ->
  next_sdu_index r' = next_sdu_index r ->
  sdu_buffer_occupancy r' = sdu_buffer_occupancy r -> nb_sdu_no_segmented r' = nb_sdu_no_segmented r ->
  sdu_ring r' q.
Proof.
  intros (H1 & H2 & H3) E1 E2 E3 E4 E5. split; [by eapply seg_queue_frame|]. rewrite E1, E2, E3. by split.
Qed.

Lemma configure_entity_ok srb rb ch i r :
  initialized r = false -> in_service (configure_entity am_init_ok srb rb ch i r).
Proof.
  intros Hi. destruct (configure_fields srb rb ch i r) as
    ((A1&A2&A3&A4&A5) & (B1&B2&B3&B4&B5&B6) & (C1&C2&C3&C4&C5) & (D1&D2&D3&D4&D5)).
  set (r' := configure_entity am_init_ok srb rb ch i r) in *. clearbody r'.
  assert (E : vt_a (rlc_am_init am_init_ok r) = 0 /\ vt_s (rlc_am_init am_init_ok r) = 0 /\ status_requested (rlc_am_init am_init_ok r) = 0 /\
    retrans_num_bytes_to_retransmit (rlc_am_init am_init_ok r) = 0 /\ pdus_to_mac_layer (rlc_am_init am_init_ok r) = [] /\
    segmentation_pdu_list (rlc_am_init am_init_ok r) = [] /\ control_pdu_list (rlc_am_init am_init_ok r) = [])
    by (unfold rlc_am_init; by rewrite Hi).
  assert (H4 : ring_wf (rlc_am_init am_init_ok r)).
  { unfold rlc_am_init. rewrite Hi. split; [|by split_and!]. eexists. split; [reflexivity|]. apply length_replicate. }
  pose proof (init_ring r Hi) as H1. pose proof (init_tx_inv r Hi) as H2. pose proof (init_rx r Hi) as H3.
  destruct E as (E1&E2&E3&E4&E5&E6&E7).
  constructor; try congruence; try (split_and!; congruence).
  - by apply (sdu_ring_frame (rlc_am_init am_init_ok r)).
  - unfold ring_wf in *. by rewrite A1, A2, A3.
  - by apply (tx_inv_frame (rlc_am_init am_init_ok r)).
  - destruct H3 as (G1 & G2 & G3 & G4). split_and!; try congruence.
    assert (G5 : output_sdu_in_construction (rlc_am_init am_init_ok r) = None) by (by rewrite G4).
    assert (G6 : output_sdu_size_to_write (rlc_am_init am_init_ok r) = 0) by (by rewrite G4).
    rewrite G5 in C4. rewrite G6 in C5. clear -C4 C5. destruct r'; cbn in C4, C5; by subst.
Qed.

(** An entity just initialised and configured, whatever the parameters of
    the bearer, is in service: the ring of SDUs and the window of PDUs are
    empty and well formed, both sides start at sequence number 0 with windows
    of 512, nothing is in construction and no report is requested. *)
Theorem configure_in_service srb rb ch i r :
  initialized r = false -> in_service (configure_entity am_init_ok srb rb ch i r).
Proof. apply configure_entity_ok. Qed.

Lemma configure_in_service_witness :
  in_service (configure_entity am_init_ok true 1 3 (Mk_am_info 4 16 500 50 35 10) entity_zero).
Proof. exact (configure_in_service true 1 3 (Mk_am_info 4 16 500 50 35 10) entity_zero eq_refl). Defined.

(** A request of the upper layer never fails.  When the ring holds fewer
    than 1023 SDUs the SDU is queued last, its length added to the buffer
    occupancy, and nothing but the queue changes; with 1023 SDUs it is dropped
    and only counted as discarded. *)
Theorem data_req_spec c req r q :
  sdu_ring r q -> req_data_size req = Z.of_nat (length (req_data req)) -> 0 < req_data_size req < 65536 ->
  exists r', rlc_am_data_req c req r = Ok r' /\
    if (length q =? 1023)%nat
    then r' = stat_add stat_tx_pdcp_bytes_discarded (req_data_size req) (stat_add stat_tx_pdcp_sdu_discarded 1 r)
    else sdu_ring r' (q ++ [new_sdu c req]) /\ nb_sdu r' = nb_sdu r + 1 /\
         sdu_buffer_occupancy r' = sdu_buffer_occupancy r + req_data_size req /\ queue_changed r r'.
Proof.
  intros H1 H2 H3. destruct (data_req_ok c req r q H1 H2 H3) as (r' & E & H). exists r'. split; [done|].
  destruct (length q =? 1023)%nat; [done|]. destruct H as (Hr & Hn & Hch). split_and!; try done.
  destruct Hr as ((_ & _ & _ & _ & Ho' & _) & _). destruct H1 as ((_ & _ & _ & _ & Ho & _) & _).
  rewrite Ho, Ho', sumZ_app. change (sumZ sdu_remaining_size [new_sdu c req]) with (req_data_size req + 0). lia.
Qed.

Lemma data_req_spec_witness :
  exists r', rlc_am_data_req (Mk_ctxt 0 0 false) (Mk_data_req 7 3 [1; 2; 3])
      (configure_entity am_init_ok true 1 3 (Mk_am_info 4 16 500 50 35 10) entity_zero) = Ok r' /\
    exists s, sdu_ring r' [s] /\ mui s = 7.
Proof.
  destruct (data_req_spec (Mk_ctxt 0 0 false) (Mk_data_req 7 3 [1; 2; 3])
    (configure_entity am_init_ok true 1 3 (Mk_am_info 4 16 500 50 35 10) entity_zero) []) as (r' & E & H & _).
  - exact (sv_ring _ (configure_entity_ok true 1 3 (Mk_am_info 4 16 500 50 35 10) entity_zero eq_refl)).
  - reflexivity.
  - cbn. lia.
  - exists r'. split; [exact E|]. eexists. split; [exact H|reflexivity].
Defined.
