(* ===== verification/RlcAmLossless.v ===== *)
(** * From the queue of SDUs of one entity to the upper layer of the other

    The sender answers the transmission opportunities of MAC; its transport
    blocks reach the receiver in any order, repeated or late; the receiver
    delivers the SDUs in order.  The PDUs are those of new data: there is
    nothing to retransmit and no STATUS report is due. *)

From S2P Require Import Prelude Bits RlcAmTypes RlcAmEntity RlcAmWindows RlcAmTxBuffer RlcTimers RlcAmTimers.
From S2P Require Import RlcAmInSdu RlcAmLi RlcAmPolling RlcAmSegment RlcAmSegmentSpec.
From S2P Require Import RlcAmRxPdu RlcAmTransfer RlcAmRxList RlcAmReassembly RlcAmCarry.
From S2P Require Import RlcAmStatusTx RlcAmReceiver RlcAmReorder RlcAm RlcAmService.

(** ** The sender *)

Definition sender_ready (q : list tx_sdu) (r : rlc_am_entity_t) : Prop :=
  seg_queue r q /\ tx_inv r /\ protocol_state r = RLC_DATA_TRANSFER_READY_STATE /\
  status_requested r = 0 /\ retrans_num_bytes_to_retransmit r = 0 /\
  pdus_to_mac_layer r = [] /\ segmentation_pdu_list r = [].

Lemma sender_frame q r r' :
  sender_ready q r -> input_sdus r' = input_sdus r -> current_sdu_index r' = current_sdu_index r ->
  sdu_buffer_occupancy r' = sdu_buffer_occupancy r -> nb_sdu_no_segmented r' = nb_sdu_no_segmented r ->
  same_tx_vars r r' -> tx_data_pdu_buffer r' = tx_data_pdu_buffer r -> retrans_num_pdus r' = retrans_num_pdus r ->
  retrans_num_bytes_to_retransmit r' = retrans_num_bytes_to_retransmit r ->
  protocol_state r' = protocol_state r -> status_requested r' = status_requested r ->
  pdus_to_mac_layer r' = [] -> segmentation_pdu_list r' = [] -> sender_ready q r'.
Proof.
  intros (H1 & H2 & H3 & H4 & H5 & _ & _) E1 E2 E3 E4 E5 E6 E7 E8 E9 E10 E11 E12.
  split_and!; try congruence; [by eapply seg_queue_frame|by eapply tx_inv_frame].
Qed.

(** The transmission opportunity of [nb] bytes. *)
Definition grant (nb : Z) (c : protocol_ctxt_t) (enb_flagP : bool) (block : option (list Z)) (r : rlc_am_entity_t)
  : res (mac_data_req * rlc_am_entity_t) :=
  rlc_am_mac_data_request c enb_flagP block (rlc_am_set_nb_bytes_requested_by_mac nb r).

Lemma grant_ok nb c enb mem r q m x d :
  sender_ready q r -> segmentable (rlc_am_set_nb_bytes_requested_by_mac nb r) q m x d -> vt_s r <> vt_ms r ->
  pdu_memory_ok (segment_data_pdu_size r nb) mem ->
  exists r' p bo, 0 <= p < 2 /\
    let tb := seg_tb p m x (pdu_padding (segment_data_pdu_size r nb) d mem) q (vt_s r) in
    grant nb c enb (Some mem) r =
      Ok (Mk_mac_data_req [Mk_mac_tb tb (Z.of_nat (length tb))] bo RLC_DATA_TRANSFER_READY_STATE, r') /\
    sender_ready (seg_rest (vt_s r) m x q) r' /\ vt_s r' = RLC_AM_NEXT_SN (vt_s r) /\
    vt_a r' = vt_a r /\ vt_ms r' = vt_ms r.
Proof.
  intros Hr Hg Hne Hmem. set (r0 := rlc_am_set_nb_bytes_requested_by_mac nb r) in *.
  assert (Hr0 : sender_ready q r0).
  { pose proof Hr as (_ & _ & _ & _ & _ & Hm & Hl). by apply (sender_frame q r). }
  destruct Hr0 as (Hq & Hinv & Hst & Hsr & Hrt & Hmac & Hseg).
  destruct (segment_10_step c mem r0 q m x d Hg Hinv Hne Hmem) as (r1 & p & Hp & E & H).
  cbn zeta in H. destruct H as (G1 & G2 & G3 & G4 & G5 & G6 & G7 & G8 & G9 & G10).
  change (vt_s r0) with (vt_s r) in *.
  change (segment_data_pdu_size r0 (nb_bytes_requested_by_mac r0)) with (segment_data_pdu_size r nb) in *.
  set (tb := seg_tb p m x _ q (vt_s r)) in *.
  rewrite Hseg in G1. cbn [app] in G1. rewrite Hmac in G10.
  set (r2 := (stat_add stat_tx_data_bytes (Z.of_nat (length tb)) (stat_add stat_tx_data_pdu 1
    (r1 <| pdus_to_mac_layer := [Mk_mac_tb tb (Z.of_nat (length tb))] |> <| segmentation_pdu_list := [] |>)))).
  assert (Hget : rlc_am_get_pdus c (Some mem) r0 = Ok r2).
  { unfold rlc_am_get_pdus, may_send_status, get_data_pdu, get_new_pdu. rewrite Hst, Hsr, Hrt.
    cbn [Z.eqb negb andb]. rewrite andb_false_r. cbn [andb].
    assert (Hocc : (sdu_buffer_occupancy r0 =? 0) = false).
    { apply Z.eqb_neq. pose proof (occupancy_pos r0 q Hq (sg_some _ _ _ _ _ Hg)). lia. }
    rewrite Hocc, (proj2 (Z.eqb_neq (vt_s r0) (vt_ms r0))) by done.
    rewrite Z.gtb_ltb, (proj2 (Z.ltb_lt _ _) (sg_grant _ _ _ _ _ Hg)). cbn [negb andb].
    rewrite E. cbn [mbind res_bind]. rewrite G1, G10. done. }
  unfold grant. fold r0. unfold rlc_am_mac_data_request. rewrite Hget. cbn [mbind res_bind].
  set (r3 := r2 <| pdus_to_mac_layer := [] |>).
  assert (Hbo : exists bo r4, (if enb then '(n, r) ← rlc_am_get_buffer_occupancy_in_bytes r3; Ok (Some n, r)
                 else Ok (None, r3)) = Ok (bo, r4) /\ (r4 = r3 \/ r4 = r3 <| status_buffer_occupancy := 0 |>)).
  { destruct enb; [|by eexists _, _; split; [reflexivity|left]].
    unfold rlc_am_get_buffer_occupancy_in_bytes.
    change (status_requested (r3 <| status_buffer_occupancy := 0 |>)) with (status_requested r1).
    rewrite G9, Hsr. cbn [Z.eqb negb andb mbind res_bind]. eexists _, _. split; [reflexivity|by right]. }
  destruct Hbo as (bo & r4 & Ebo & Hr4). rewrite Ebo. cbn [mbind res_bind].
  exists r4, p, bo. split; [done|]. fold tb.
  assert (Hfin : forall r', r' = r3 \/ r' = r3 <| status_buffer_occupancy := 0 |> ->
    sender_ready (seg_rest (vt_s r) m x q) r' /\ vt_s r' = RLC_AM_NEXT_SN (vt_s r) /\
    vt_a r' = vt_a r /\ vt_ms r' = vt_ms r /\ protocol_state r' = RLC_DATA_TRANSFER_READY_STATE).
  { assert (G8' : protocol_state r1 = RLC_DATA_TRANSFER_READY_STATE) by congruence.
    assert (G9' : status_requested r1 = 0) by congruence.
    assert (G7' : retrans_num_bytes_to_retransmit r1 = 0) by congruence.
    intros r' [-> | ->]; (split; [|by split_and!; first [exact G3|exact G5|exact G6|exact G8']]);
      (split; [exact (seg_queue_frame r1 _ _ G2 eq_refl eq_refl eq_refl eq_refl)|]);
      (split; [exact (tx_inv_frame r1 _ G4 (conj eq_refl (conj eq_refl eq_refl)) eq_refl eq_refl eq_refl)|]);
      split_and!; first [exact G8'|exact G9'|exact G7'|reflexivity]. }
  destruct (Hfin r4 Hr4) as (K1 & K2 & K3 & K4 & K5). split_and!; try done. by rewrite K5.
Qed.

(** ** A sequence of transmission opportunities *)

(** The size of the PDU, from the queue. *)
Definition queue_pdu_size (nb : Z) (q : list tx_sdu) : Z :=
  let all := sumZ sdu_remaining_size q + 2 + Z.of_nat (li_length (length q - 1)) in
  if nb >=? all then all else nb.
Definition queue_plan (nb : Z) (q : list tx_sdu) : option (nat * Z * Z) :=
  pdu_plan (queue_pdu_size nb q - 2) 0 (map sdu_remaining_size q).

(** The padding that the memory block gives to the PDU. *)
Definition queue_pad (nb d : Z) (mem : list Z) (q : list tx_sdu) : list Z := pdu_padding (queue_pdu_size nb q) d mem.

Lemma queue_pdu_size_ok r nb q :
  seg_queue r q -> q <> [] -> segment_data_pdu_size r nb = queue_pdu_size nb q.
Proof.
  intros (_ & _ & _ & _ & Ho & Hn) Hne. unfold segment_data_pdu_size, queue_pdu_size. rewrite <- Ho.
  unfold RLC_AM_HEADER_MIN_SIZE.
  assert (Hov : (if nb_sdu_no_segmented r <=? 1 then 0
                 else RLC_AM_HEADER_LI_LENGTH (nb_sdu_no_segmented r - 1)) = Z.of_nat (li_length (length q - 1))).
  { rewrite Hn. destruct q as [|s q]; [done|]. cbn [length]. rewrite Nat.sub_succ, Nat.sub_0_r.
    destruct (Z.leb_spec (Z.of_nat (S (length q))) 1).
    - assert (length q = 0%nat) as -> by lia. done.
    - replace (Z.of_nat (S (length q)) - 1) with (Z.of_nat (length q)) by lia. apply li_length_macro. }
  by rewrite Hov.
Qed.

(** A transmission opportunity; [op_block] is the memory block that
    [get_free_mem_block] returns for the PDU. *)
Record opportunity := Mk_opportunity {
  op_size : Z; op_ctxt : protocol_ctxt_t; op_enb : bool; op_block : list Z
}.

(** One PDU: the opportunity, the queue and the plan. *)
Record tx_step := Mk_tx_step { ts_op : opportunity; ts_queue : list tx_sdu; ts_m : nat; ts_x : Z; ts_d : Z }.
Definition ts_nb (s : tx_step) : Z := op_size (ts_op s).
Definition ts_pad (s : tx_step) : list Z := queue_pad (ts_nb s) (ts_d s) (op_block (ts_op s)) (ts_queue s).

(** The PDUs for the grants, and the queue that is left. *)
Fixpoint plan_steps (grants : list opportunity) (sn : Z) (q : list tx_sdu) : option (list tx_step * list tx_sdu) :=
  match grants with
  | [] => Some ([], q)
  | o :: grants' =>
      match queue_plan (op_size o) q with
      | None => None
      | Some (m, x, d) =>
          match plan_steps grants' (RLC_AM_NEXT_SN sn) (seg_rest sn m x q) with
          | None => None
          | Some (steps, q') => Some (Mk_tx_step o q m x d :: steps, q')
          end
      end
  end.

(** The limits of the tables are not reached. *)
Definition step_fine (s : tx_step) : Prop :=
  2 < ts_nb s /\ queue_pdu_size (ts_nb s) (ts_queue s) < RLC_SDU_MAX_SIZE /\
  seg_limits (ts_m s) (ts_queue s) /\ sdus_fit (ts_d s) (ts_queue s) /\
  pdu_memory_ok (queue_pdu_size (ts_nb s) (ts_queue s)) (op_block (ts_op s)).

Definition step_fineb (s : tx_step) : bool :=
  (2 <? ts_nb s) && (queue_pdu_size (ts_nb s) (ts_queue s) <? RLC_SDU_MAX_SIZE) &&
  (ts_m s <=? 126)%nat && forallb (fun u => sdu_remaining_size u <? 2048) (take (ts_m s) (ts_queue s)) &&
  forallb (fun u => (0 <=? nb_pdus u) && (nb_pdus u <? 31) && (length (pdus_index u) =? 32)%nat)
    (take (S (ts_m s)) (ts_queue s)) &&
  forallb (fun u => sdu_size u + ts_d s <=? RLC_SDU_MAX_SIZE) (ts_queue s) &&
  (4 <=? Z.of_nat (length (op_block (ts_op s)))) &&
  (queue_pdu_size (ts_nb s) (ts_queue s) <=? Z.of_nat (length (op_block (ts_op s)))).
Lemma forallb_Forall {A} (f : A -> bool) (P : A -> Prop) l :
  (forall x, f x = true -> P x) -> forallb f l = true -> Forall P l.
Proof. intros H Hl. induction l as [|x l IH]; [done|]. apply andb_true_iff in Hl as [H1 H2]. constructor; auto. Qed.
Lemma step_fineb_ok s : step_fineb s = true -> step_fine s.
Proof.
  unfold step_fineb. rewrite !andb_true_iff. intros (((((((H1 & H2) & H3) & H4) & H5) & H6) & H7) & H8).
  split; [lia|]. split; [lia|]. split; [split; [by apply Nat.leb_le|]; split|split; [|split; lia]].
  - eapply forallb_Forall; [|exact H4]. cbn. lia.
  - eapply forallb_Forall; [|exact H5]. cbn. intros x Hx. rewrite !andb_true_iff in Hx. destruct Hx as [[? ?] ?%Nat.eqb_eq].
    split; [lia|done].
  - eapply forallb_Forall; [|exact H6]. cbn. lia.
Qed.

Definition step_tb (p sn : Z) (s : tx_step) : mac_tb :=
  let tb := seg_tb p (ts_m s) (ts_x s) (ts_pad s) (ts_queue s) sn in Mk_mac_tb tb (Z.of_nat (length tb)).

Fixpoint send_all (l : list opportunity) (r : rlc_am_entity_t) : res (list mac_tb * rlc_am_entity_t) :=
  match l with
  | [] => Ok ([], r)
  | o :: l' =>
      '(req, r) ← grant (op_size o) (op_ctxt o) (op_enb o) (Some (op_block o)) r;
      '(tbs, r) ← send_all l' r;
      Ok (mdr_data req ++ tbs, r)
  end.

Fixpoint step_tbs (sn : Z) (ps : list Z) (steps : list tx_step) : list mac_tb :=
  match ps, steps with
  | p :: ps', s :: steps' => step_tb p sn s :: step_tbs (RLC_AM_NEXT_SN sn) ps' steps'
  | _, _ => []
  end.

Definition step_ok (s : tx_step) : Prop :=
  exists r, segmentable r (ts_queue s) (ts_m s) (ts_x s) (ts_d s) /\
    tail_fresh (ts_queue s) /\ sdus_fit (ts_d s) (ts_queue s) /\ Z.of_nat (length (ts_pad s)) = ts_d s.

Lemma send_all_ok l : forall r q steps q',
  sender_ready q r -> tail_fresh q -> plan_steps l (vt_s r) q = Some (steps, q') ->
  Forall step_fine steps -> Z.of_nat (length l) <= RLC_AM_DIFF_SN (vt_ms r) (vt_s r) ->
  exists ps r', send_all l r = Ok (step_tbs (vt_s r) ps steps, r') /\ length ps = length steps /\
    Forall (fun p => 0 <= p < 2) ps /\ Forall step_ok steps /\ sender_ready q' r' /\ tail_fresh q'.
Proof.
  induction l as [|o l IH]; intros r q steps q' Hr Hf Hplan Hfine Hroom; cbn [plan_steps] in Hplan.
  - injection Hplan as <- <-. exists [], r. by split_and!.
  - destruct (queue_plan (op_size o) q) as [[[m x] d]|] eqn:Hqp; [|discriminate Hplan].
    destruct (plan_steps _ _ _) as [[steps1 q1]|] eqn:Hrest; [|discriminate Hplan].
    injection Hplan as <- <-. apply Forall_cons in Hfine as [(F1 & F2 & F3 & F4 & F5) Hfine].
    unfold ts_nb in *. cbn [ts_op ts_queue ts_m ts_d] in *.
    assert (Hqne : q <> []) by (intros ->; discriminate Hqp).
    set (r0 := rlc_am_set_nb_bytes_requested_by_mac (op_size o) r).
    assert (Hq0 : seg_queue r0 q) by (by destruct Hr as (? & _)).
    assert (Hg : segmentable r0 q m x d).
    { constructor; try done.
      - unfold segment_plan. by rewrite (queue_pdu_size_ok r0 _ q).
      - by rewrite (queue_pdu_size_ok r0 _ q). }
    assert (Hvars : is_sn (vt_s r)) by (destruct Hr as (_ & Hinv & _); apply (tx_inv_vars r Hinv)).
    assert (Hne : vt_s r <> vt_ms r).
    { intros E. rewrite E, RLC_AM_DIFF_SN_self in Hroom. cbn [length] in Hroom. lia. }
    assert (Hsize : segment_data_pdu_size r (op_size o) = queue_pdu_size (op_size o) q)
      by (apply queue_pdu_size_ok; [by destruct Hr as (? & _)|done]).
    destruct (grant_ok (op_size o) (op_ctxt o) (op_enb o) (op_block o) r q m x d Hr Hg Hne ltac:(by rewrite Hsize))
      as (r1 & p & bo & Hp & E & Hr1 & Hs1 & Ha1 & Hm1).
    rewrite Hsize in E. rewrite <- Hs1 in Hrest.
    destruct (segment_size_bounds r0 q Hq0 Hqne F1) as [Hs2 _]. rewrite (queue_pdu_size_ok r0 _ q) in Hs2 by done.
    change (nb_bytes_requested_by_mac r0) with (op_size o) in Hs2.
    destruct (plan_last _ _ _ _ _ Hg) as (s & Hs & _ & Hd & _). apply lookup_lt_Some in Hs.
    destruct (IH r1 (seg_rest (vt_s r) m x q) steps1 q1) as (ps & r' & E' & Hl & Hps & Hok & Hr' & Hf'); try done.
    { by apply rest_tail_fresh. }
    { rewrite Hs1, Hm1. cbn [length] in Hroom. clear -Hroom Hvars Hne. sn_lia. }
    exists (p :: ps), r'. cbn [send_all]. rewrite E. cbn [mbind res_bind]. rewrite E'. cbn [mbind res_bind mdr_data].
    rewrite Hs1. split; [done|]. split; [cbn [length]; lia|]. split; [by constructor|].
    split; [|done].
    constructor; [|done]. exists r0. split_and!; try done. unfold ts_pad, queue_pad, ts_nb. cbn [ts_op ts_queue ts_d].
    destruct F5. apply length_pdu_padding; [lia|done|done].
Qed.

(** ** The stream of PDUs *)

Definition queue_before (steps : list tx_step) (q' : list tx_sdu) (i : nat) : list tx_sdu :=
  match steps !! i with Some st => ts_queue st | None => q' end.
(** The SDUs that end in a PDU. *)
Definition step_sdus (st : tx_step) : list (list Z) := seg_sdus (ts_m st) (ts_x st) (ts_pad st) (ts_queue st).

Lemma plan_steps_first grants sn q steps q' :
  plan_steps grants sn q = Some (steps, q') -> queue_before steps q' 0 = q.
Proof.
  destruct grants as [|o grants]; cbn [plan_steps]; [by intros [= <- <-]|].
  destruct (queue_plan (op_size o) q) as [[[m x] d]|]; [|done]. destruct (plan_steps _ _ _) as [[steps1 q1]|]; [|done].
  by intros [= <- <-].
Qed.

Lemma plan_steps_next grants : forall sn q steps q' i st,
  is_sn sn -> plan_steps grants sn q = Some (steps, q') -> steps !! i = Some st ->
  queue_before steps q' (S i) = seg_rest (sn_of sn i) (ts_m st) (ts_x st) (ts_queue st).
Proof.
  induction grants as [|o grants IH]; intros sn q steps q' i st Hsn; cbn [plan_steps].
  - by intros [= <- <-].
  - destruct (queue_plan (op_size o) q) as [[[m x] d]|]; [|done].
    destruct (plan_steps _ _ _) as [[steps1 q1]|] eqn:Hp; [|done]. intros [= <- <-] Hst.
    destruct i as [|i].
    + cbn in Hst. injection Hst as <-. cbn [ts_m ts_x ts_queue].
      replace (sn_of sn 0) with sn; [|unfold sn_of; rewrite Z.add_0_r, Z.mod_small by apply Hsn; done].
      exact (plan_steps_first _ _ _ _ _ Hp).
    + cbn in Hst. change (queue_before steps1 q1 (S i) = seg_rest (sn_of sn (S i)) (ts_m st) (ts_x st) (ts_queue st)).
      rewrite (IH _ _ _ _ i st (RLC_AM_NEXT_SN_is_sn sn) Hp Hst). f_equal. unfold sn_of.
      rewrite RLC_AM_NEXT_SN_mod, Zplus_mod_idemp_l. f_equal. lia.
Qed.

Lemma step_tbs_lookup ps : forall sn steps i st p,
  is_sn sn -> steps !! i = Some st -> ps !! i = Some p ->
  step_tbs sn ps steps !! i = Some (step_tb p (sn_of sn i) st).
Proof.
  induction ps as [|p0 ps IH]; intros sn [|st0 steps] [|i] st p Hsn Hst Hp; try done.
  - cbn in Hst, Hp. injection Hst as ->. injection Hp as ->. cbn.
    replace (sn_of sn 0) with sn; [done|]. unfold sn_of. rewrite Z.add_0_r, Z.mod_small by apply Hsn. done.
  - change (step_tbs (RLC_AM_NEXT_SN sn) ps steps !! i = Some (step_tb p (sn_of sn (S i)) st)).
    rewrite (IH _ _ i st p (RLC_AM_NEXT_SN_is_sn sn) Hst Hp).
    do 2 f_equal. unfold sn_of. rewrite RLC_AM_NEXT_SN_mod, Zplus_mod_idemp_l. f_equal. lia.
Qed.
Lemma length_step_tbs ps : forall sn steps, length ps = length steps -> length (step_tbs sn ps steps) = length steps.
Proof. induction ps as [|p ps IH]; intros sn [|s steps] H; try done. cbn in *. f_equal. apply IH. lia. Qed.
Lemma length_plan_steps grants : forall sn q steps q',
  plan_steps grants sn q = Some (steps, q') -> length steps = length grants.
Proof.
  induction grants as [|o grants IH]; intros sn q steps q'; cbn [plan_steps]; [by intros [= <- <-]|].
  destruct (queue_plan (op_size o) q) as [[[m x] d]|]; [|done].
  destruct (plan_steps _ _ _) as [[steps1 q1]|] eqn:Hp; [|done]. intros [= <- <-].
  cbn [length]. f_equal. by eapply IH.
Qed.

(** The decoded PDU [i]. *)
Definition step_info (sn : Z) (ps : list Z) (steps : list tx_step) (i : nat) : rlc_am_pdu_info_t :=
  match ps !! i, steps !! i with
  | Some p, Some st =>
      amd_info p (seg_fi (ts_m st) (ts_x st) (ts_queue st)) (sn_of sn i) None
        (seg_lis (ts_m st) (ts_queue st)) (seg_payload (ts_m st) (ts_x st) (ts_pad st) (ts_queue st))
  | _, _ => pdu_info_zero <| pi_sn := sn_of sn i |>
  end.
Definition tb_bytes (tbs : list mac_tb) (i : nat) : list Z := default [] (data_ptr <$> tbs !! i).

Lemma concat_steps (f : tx_step -> list (list Z)) steps n :
  (n <= length steps)%nat ->
  concat (map (fun i => match steps !! i with Some st => f st | None => [] end) (seq 0 n)) =
  concat (map f (take n steps)).
Proof.
  induction n as [|n IH]; intros Hn; [done|]. destruct (lookup_lt_is_Some_2 steps n) as [st Hst]; [lia|].
  rewrite seq_S, map_app, concat_app, IH by lia. rewrite (take_S_r _ _ _ Hst), map_app, concat_app.
  cbn [map concat]. by rewrite Nat.add_0_l, Hst.
Qed.

(** ** Delivery *)
Lemma delivery_ok sn ps steps q q' grants rx arrivals :
  is_sn sn -> plan_steps grants sn q = Some (steps, q') -> length ps = length steps ->
  Forall (fun p => 0 <= p < 2) ps -> Forall step_ok steps ->
  vr_r rx = sn -> vr_mr rx = (sn + 512) mod 1024 -> receiver_buffer rx = [] ->
  rx = constructing (head_prefix q) rx -> arrivals_ok (length steps) [] arrivals ->
  exists rx' n, receive_all (tb_bytes (step_tbs sn ps steps)) arrivals rx = Ok rx' /\
    (forall j, (j < n)%nat -> j ∈ map ar_index arrivals) /\ (n ∉ map ar_index arrivals) /\
    upper_layer rx' = upper_layer rx ++ map Rlc_data_ind (concat (map step_sdus (take n steps))).
Proof.
  intros Hsn Hplan Hlp Hps Hok Hv Hmr Hbuf Hcon Harr.
  set (bytes := tb_bytes (step_tbs sn ps steps)). set (N := length steps).
  set (pre := fun i => head_prefix (queue_before steps q' i)).
  set (out := fun i => match steps !! i with Some st => step_sdus st | None => [] end).
  assert (Hget : forall i, (i < N)%nat -> exists st p r, steps !! i = Some st /\ ps !! i = Some p /\ 0 <= p < 2 /\
    segmentable r (ts_queue st) (ts_m st) (ts_x st) (ts_d st) /\ tail_fresh (ts_queue st) /\
    sdus_fit (ts_d st) (ts_queue st) /\ Z.of_nat (length (ts_pad st)) = ts_d st /\
    bytes i = seg_tb p (ts_m st) (ts_x st) (ts_pad st) (ts_queue st) (sn_of sn i)).
  { intros i Hi. destruct (lookup_lt_is_Some_2 steps i Hi) as [st Hst].
    destruct (lookup_lt_is_Some_2 ps i) as [p Hp]; [unfold N in Hi; lia|].
    pose proof (proj1 (Forall_lookup _ _) Hps i p Hp) as Hpr.
    destruct (proj1 (Forall_lookup _ _) Hok i st Hst) as (r & G1 & G2 & G3 & G4).
    exists st, p, r. split_and!; try (done || apply Hpr).
    unfold bytes, tb_bytes. by rewrite (step_tbs_lookup ps sn steps i st p). }
  destruct (receive_all_ok sn (step_info sn ps steps) N pre out) with (bytes := bytes) (l := arrivals)
    (up := upper_layer rx) (n := 0%nat) (held := @nil nat) (seen := @nil nat) (r := rx)
    as (rx' & n & held & E & Hst & Hrec).
  - intros i. unfold step_info. by destruct (ps !! i), (steps !! i).
  - intros i. unfold step_info. destruct (ps !! i), (steps !! i); try done.
  - intros i r Hi. destruct (Hget i Hi) as (st & p & r0 & Hst & Hp & _ & Hg & Hf & Hfit & Hpad & _).
    unfold step_info, out, pre. rewrite Hst, Hp. rewrite (plan_steps_next _ _ _ _ _ i st Hsn Hplan Hst).
    unfold queue_before at 1. rewrite Hst. by apply (carry_ok p _ _ (ts_d st) _ _ _ r0).
  - intros i Hi. destruct (Hget i Hi) as (st & p & r0 & Hst & Hp & Hpr & Hg & _ & _ & Hpad & ->).
    unfold step_info. rewrite Hst, Hp. apply (seg_tb_decodes p _ _ (ts_d st) _ _ _ r0); try done.
    apply (Z.mod_pos_bound _ 1024). lia.
  - intros i Hi. destruct (Hget i Hi) as (st & p & r0 & Hst & Hp & Hpr & _ & _ & _ & _ & ->).
    eexists. split; [reflexivity|]. apply amd_b1_data; [done|apply seg_fi_range|apply b2z_range|].
    apply (Z.mod_pos_bound _ 1024). lia.
  - intros i Hi. destruct (Hget i Hi) as (st & p & r0 & Hst & Hp & Hpr & Hg & _ & _ & Hpad & ->).
    destruct (seg_tb_length p _ _ _ _ _ (sn_of sn i) _ Hg Hpad) as [E1 E2]. pose proof (sg_size _ _ _ _ _ Hg) as E3.
    unfold RLC_SDU_MAX_SIZE in E3. lia.
  - assert (E0 : sn_of sn 0 = sn) by (unfold sn_of; rewrite Z.add_0_r, Z.mod_small by apply Hsn; done).
    unfold rx_state. rewrite E0. split; [lia|]. split; [by split|]. split; [exact Hv|]. split; [exact Hmr|]. split; [exact Hbuf|]. split.
    + unfold pre. rewrite (plan_steps_first _ _ _ _ _ Hplan). exact Hcon.
    + cbn [seq map concat]. by rewrite app_nil_r.
  - intros j. unfold received. rewrite elem_of_nil. split; [intros [?|?]; [lia|done]|done].
  - done.
  - exists rx', n. split; [done|]. destruct Hst as (HnN & [Hinc _] & _ & _ & _ & [_ Hup]).
    setoid_rewrite elem_of_nil in Hrec. split_and!.
    + intros j Hj. destruct (proj1 (Hrec j)) as [[]|?]; [by left|done].
    + intros Hn. destruct (proj2 (Hrec n) (or_intror Hn)) as [?|Hin]; [lia|].
      pose proof (increasing_elem _ _ _ Hinc Hin). lia.
    + rewrite Hup. unfold out. by rewrite concat_steps.
Qed.

(** ** The SDUs delivered are the SDUs sent

    With up to two bytes more at the end of an SDU: segmentation leaves one or
    two bytes of the PDU unused when the data, an LI and the size of the PDU
    fall so, what the memory block held is sent, and the receiver cannot tell it
    from data. *)
Definition padded (sent got : list Z) : Prop := exists pad, (length pad <= 2)%nat /\ got = sent ++ pad.

Lemma padded_refl l : padded l l.
Proof. exists []. split; [cbn; lia|]. by rewrite app_nil_r. Qed.
Lemma padded_all l : Forall2 padded l l.
Proof. induction l; constructor; [apply padded_refl|done]. Qed.

Lemma seg_sdus_padded sn m x pad q s :
  q !! m = Some s -> (length pad <= 2)%nat ->
  exists sent, Forall2 padded sent (seg_sdus m x pad q) /\
    map sdu_bytes q = sent ++ map sdu_bytes (seg_rest sn m x q).
Proof.
  intros Hs Hd. unfold seg_sdus, seg_rest. rewrite Hs. pose proof (take_drop m q) as Htd.
  rewrite (drop_S_lookup q m s Hs) in Htd |- *. destruct (pdu_full m x q).
  - exists (map sdu_bytes (take m q) ++ [sdu_bytes s]). split.
    + apply Forall2_app; [apply padded_all|]. constructor; [|done]. by exists pad.
    + rewrite <- Htd at 1. rewrite map_app. cbn [map]. by rewrite <- app_assoc.
  - exists (map sdu_bytes (take m q)). split; [rewrite app_nil_r; apply padded_all|].
    rewrite <- Htd at 1. rewrite map_app. done.
Qed.

Lemma steps_padded sn q grants steps q' :
  is_sn sn -> plan_steps grants sn q = Some (steps, q') -> Forall step_ok steps ->
  forall n, (n <= length steps)%nat ->
  exists sent, Forall2 padded sent (concat (map step_sdus (take n steps))) /\
    map sdu_bytes q = sent ++ map sdu_bytes (queue_before steps q' n).
Proof.
  intros Hsn Hplan Hok. induction n as [|n IH]; intros Hn.
  - exists []. split; [constructor|]. by rewrite (plan_steps_first _ _ _ _ _ Hplan).
  - destruct IH as (sent & H1 & H2); [lia|].
    destruct (lookup_lt_is_Some_2 steps n) as [st Hst]; [lia|].
    destruct (proj1 (Forall_lookup _ _) Hok n st Hst) as (r & Hg & _ & _ & Hpad).
    destruct (plan_last _ _ _ _ _ Hg) as (s & Hs & _ & Hd & _).
    destruct (seg_sdus_padded (sn_of sn n) _ (ts_x st) (ts_pad st) _ s Hs ltac:(lia)) as (sent2 & H3 & H4).
    exists (sent ++ sent2). rewrite (take_S_r _ _ _ Hst), map_app, concat_app. cbn [map concat].
    rewrite app_nil_r. split; [by apply Forall2_app|].
    rewrite (plan_steps_next _ _ _ _ _ n st Hsn Hplan Hst), <- app_assoc, <- H4, H2.
    unfold queue_before. by rewrite Hst.
Qed.

(** C2: SDUs cross the air in order, complete and once. A sender with the SDU queue [q],
    nothing to retransmit and no status to send answers a sequence of opportunities, no
    more than its window has room for; for each: data left in the queue, a grant over 2
    bytes, a PDU below RLC_SDU_MAX_SIZE, at most 126 LIs, SDUs that get an LI under 2048
    bytes, every SDU of the PDU referred to by fewer than 31 PDUs so far (the 32nd would
    make the assert of rlc_am_segment.c:304 fail), SDUs with padding within
    RLC_SDU_MAX_SIZE, an allocated block of the PDU's size. The receiver starts in step:
    VR(R) = VT(S), buffer empty, holding what was sent of the first SDU; the blocks reach
    it in any order, repeated, late or never, within its window; it has memory for the
    SDUs. Then neither side fails, and the receiver delivers, in order, the SDUs that end
    in the PDUs before the first missing one: the sender's SDUs, each followed by at most
    two stale bytes of the memory block, up to those not sent completely by then. *)
Theorem in_order_delivery l tx q steps q' rx :
  sender_ready q tx -> tail_fresh q -> plan_steps l (vt_s tx) q = Some (steps, q') ->
  Forall step_fine steps -> Z.of_nat (length l) <= RLC_AM_DIFF_SN (vt_ms tx) (vt_s tx) ->
  vr_r rx = vt_s tx -> vr_mr rx = (vr_r rx + 512) mod 1024 -> receiver_buffer rx = [] ->
  rx = constructing (head_prefix q) rx ->
  exists tbs tx', send_all l tx = Ok (tbs, tx') /\ length tbs = length l /\ sender_ready q' tx' /\
    forall arrivals, arrivals_ok (length tbs) [] arrivals ->
    exists rx' n sdus sent, receive_all (tb_bytes tbs) arrivals rx = Ok rx' /\
      (forall j, (j < n)%nat -> j ∈ map ar_index arrivals) /\ (n ∉ map ar_index arrivals) /\
      upper_layer rx' = upper_layer rx ++ map Rlc_data_ind sdus /\ Forall2 padded sent sdus /\
      map sdu_bytes q = sent ++ map sdu_bytes (queue_before steps q' n).
Proof.
  intros Hr Hf Hplan Hfine Hroom Hv Hmr Hbuf Hcon.
  assert (Hsn : is_sn (vt_s tx)) by (destruct Hr as (_ & Hinv & _); apply (tx_inv_vars tx Hinv)).
  destruct (send_all_ok l tx q steps q' Hr Hf Hplan Hfine Hroom) as (ps & tx' & E & Hlp & Hps & Hok & Hr' & Hf').
  pose proof (length_plan_steps _ _ _ _ _ Hplan) as Hls. 
  exists (step_tbs (vt_s tx) ps steps), tx'. split; [done|]. rewrite length_step_tbs by done.
  split; [done|]. split; [done|]. intros arrivals Harr. rewrite Hv in Hmr.
  destruct (delivery_ok (vt_s tx) ps steps q q' l rx arrivals) as (rx' & n & E' & H1 & H2 & H3); try done.
  assert (Hn : (n <= length steps)%nat).
  { destruct (Nat.le_gt_cases n (length steps)) as [|Hgt]; [done|]. exfalso.
    assert (Hin : length steps ∈ map ar_index arrivals) by (by apply H1).
    clear -Harr Hin. revert Harr Hin. generalize (@nil nat). induction arrivals as [|a arrivals IH]; intros seen Harr Hin.
    - by apply not_elem_of_nil in Hin.
    - destruct Harr as (Hi & _ & _ & Harr). cbn [map] in Hin. apply elem_of_cons in Hin as [E | Hin]; [lia|].
      by apply (IH _ Harr). }
  destruct (steps_padded (vt_s tx) q _ steps q' Hsn Hplan Hok n Hn) as (sent & P1 & P2).
  by exists rx', n, (concat (map step_sdus (take n steps))), sent.
Qed.

(** ** Two entities *)

Lemma in_service_sender r : in_service r -> sender_ready [] r.
Proof. intros [H1 _ H3 _ _ H6 H7 H8 (H9 & H10 & _)]. destruct H1 as (H1 & _). by split_and!. Qed.

Lemma data_req_sender c req r q :
  sender_ready q r -> sdu_ring r q -> (length q < 1023)%nat ->
  req_data_size req = Z.of_nat (length (req_data req)) -> 0 < req_data_size req < 65536 ->
  exists r', rlc_am_data_req c req r = Ok r' /\ sender_ready (q ++ [new_sdu c req]) r' /\
    sdu_ring r' (q ++ [new_sdu c req]) /\ vt_s r' = vt_s r /\ vt_ms r' = vt_ms r.
Proof.
  intros (_ & H2 & H3 & H4 & H5 & H6 & H7) Hring Hlq Hsz Hpos.
  destruct (data_req_ok c req r q Hring Hsz Hpos) as (r' & E & H).
  rewrite (proj2 (Nat.eqb_neq _ _)) in H by lia. destruct H as (Hr' & _ & Hfr).
  destruct (queue_changed_fields _ _ Hfr) as (F1 & F2 & F3 & F4 & F5 & F6 & F7 & F8). pose proof F1 as (_ & F9 & F10).
  exists r'. split; [done|]. split; [|by split_and!].
  split; [by destruct Hr'|]. split; [by apply (tx_inv_frame r)|]. split_and!; congruence.
Qed.

Definition sample_ctxt : protocol_ctxt_t := Mk_ctxt 0 0 false.
Definition sample_info : rlc_am_info_t := Mk_am_info 4 16 500 50 35 10.
Definition sample_entity : rlc_am_entity_t := configure_entity am_init_ok true 1 3 sample_info entity_zero.
Definition sample_req (d : Z) (n : nat) : rlc_am_data_req_t := Mk_data_req 7 (Z.of_nat n) (replicate n d).
Definition sample_queue : list tx_sdu :=
  [new_sdu sample_ctxt (sample_req 1 5); new_sdu sample_ctxt (sample_req 2 7)].
Definition sample_ops : list opportunity :=
  map (fun n => Mk_opportunity n sample_ctxt false (replicate 24 165)) [5; 7; 20].
Definition sample_fresh : fresh_block := Mk_fresh_block 0 (Mk_rx_pdu pdu_info_zero 0 RLC_AM_RX_PDU_SEGMENT_REASSEMBLE_NO).
Definition sample_arrivals : list arrival := map (Mk_arrival sample_ctxt sample_fresh) [2; 0; 0; 1; 2]%nat.

Lemma sample_in_service : in_service sample_entity.
Proof. exact (configure_entity_ok true 1 3 sample_info entity_zero eq_refl). Qed.

Lemma sample_sender :
  exists r, sender_ready sample_queue r /\ vt_s r = 0 /\ vt_ms r = 512.
Proof.
  pose proof sample_in_service as Hs. pose proof (in_service_sender _ Hs) as H0.
  destruct (data_req_sender sample_ctxt (sample_req 1 5) _ [] H0 (sv_ring _ Hs)) as (r1 & _ & H1 & H2 & H3 & H4);
    [cbn; lia|done|cbn; lia|].
  destruct (data_req_sender sample_ctxt (sample_req 2 7) r1 _ H1 H2) as (r2 & _ & H5 & _ & H6 & H7);
    [cbn; lia|done|cbn; lia|].
  exists r2. split; [exact H5|]. split; [by rewrite H6, H3|by rewrite H7, H4].
Qed.

Lemma in_order_delivery_witness :
  exists tx tbs tx' rx' sdus, send_all sample_ops tx = Ok (tbs, tx') /\
    receive_all (tb_bytes tbs) sample_arrivals sample_entity = Ok rx' /\
    upper_layer rx' = upper_layer sample_entity ++ map Rlc_data_ind sdus.
Proof.
  destruct sample_sender as (tx & Htx & Hs & Hms). exists tx.
  pose proof sample_in_service as Hrx.
  destruct (sv_rx _ Hrx) as (R1 & R2 & R3 & R4).
  destruct (plan_steps sample_ops 0 sample_queue) as [[steps q']|] eqn:Hplan;
    [|vm_compute in Hplan; discriminate Hplan].
  assert (Hfine : Forall step_fine steps).
  { apply (forallb_Forall step_fineb step_fine); [exact step_fineb_ok|].
    vm_compute in Hplan. injection Hplan as <- <-. vm_compute. reflexivity. }
  destruct (in_order_delivery sample_ops tx sample_queue steps q' sample_entity) as (tbs & tx' & E & Hl & _ & H).
  - exact Htx.
  - by repeat constructor.
  - by rewrite Hs.
  - exact Hfine.
  - rewrite Hs, Hms. vm_compute. discriminate.
  - by rewrite Hs.
  - by rewrite R1.
  - exact R3.
  - exact R4.
  - destruct (H sample_arrivals) as (rx' & n & sdus & sent & E' & _ & _ & Hu & _).
    + rewrite Hl. apply arrivals_okb_ok. vm_compute. reflexivity.
    + exists tbs, tx', rx', sdus. split; [exact E|]. split; [exact E'|exact Hu].
Defined.

Lemma segmentation_spec_witness :
  exists r r' tb info, 2 < nb_bytes_requested_by_mac r /\
    rlc_am_segment_10 sample_ctxt (Some (replicate 16 165)) r = Ok r' /\ vt_s r' = 1 /\
    rlc_am_get_data_pdu_infos tb (Z.of_nat (length tb)) = Ok (0, info) /\ pi_sn info = 0.
Proof.
  destruct sample_sender as (tx & Htx & Hs & Hms). set (r := rlc_am_set_nb_bytes_requested_by_mac 10 tx).
  assert (Hr : sender_ready sample_queue r).
  { pose proof Htx as (_ & _ & _ & _ & _ & Hm & Hl). by apply (sender_frame sample_queue tx). }
  destruct Hr as (Hq & Hinv & _).
  assert (Hsz : segment_data_pdu_size r (nb_bytes_requested_by_mac r) = 10).
  { rewrite (queue_pdu_size_ok r _ sample_queue) by done. vm_compute. reflexivity. }
  destruct (segmentation_spec sample_ctxt (replicate 16 165) r sample_queue) as (m & x & d & Hplan & H); try done.
  - change (vt_s tx <> vt_ms tx). by rewrite Hs, Hms.
  - rewrite Hsz. vm_compute. reflexivity.
  - rewrite Hsz. split; vm_compute; discriminate.
  - assert (Hm : m = 1%nat).
    { unfold segment_plan in Hplan. rewrite Hsz in Hplan. vm_compute in Hplan. by injection Hplan. }
    destruct H as (r' & tb & info & q' & data & pad & E & _ & _ & Hd & Hsn & _ & _ & _ & _ & Hv & _).
    + rewrite Hm. split; [lia|]. split; repeat constructor; try (vm_compute; congruence).
    + exists r, r', tb, info. split; [done|]. split; [exact E|].
      change (vt_s r) with (vt_s tx) in Hv, Hsn. rewrite Hs in Hv, Hsn. by rewrite Hv.
Defined.
