(* ===== verification/RlcUmTypes.v ===== *)
(** * Data of the UM RLC entity (rlc_um_constants.h, rlc_um_structs.h, rlc_um_entity.h)

    As for the AM entity (RlcAmTypes, RlcAmEntity): one record per structure,
    without the mutexes and the message-chart fields, the statistics grouped,
    a [list_t] a Rocq list (MemList).  [rlc_um_timer_t] has the fields of
    [rlc_am_timer_t].  [dar_buffer] is [None] when the pointer is NULL, otherwise
    the array of its 1024 cells, each NULL or the block of a received PDU.
    [upper_layer] records, oldest first, the SDUs handed to [rlc_data_ind]. *)

From S2P Require Import Prelude RlcAmTypes.

(** ** Constants *)
Definition RLC_UM_SN_10_BITS_MODULO : Z := 1024.
Definition RLC_UM_WINDOW_SIZE_SN_10_BITS : Z := 512.
Definition RLC_UM_SN_5_BITS_MODULO : Z := 32.
Definition RLC_UM_WINDOW_SIZE_SN_5_BITS : Z := 16.
Definition RLC_UM_SEGMENT_NB_MAX_LI_PER_PDU : Z := 128.
Definition RLC_SDU_MAX_SIZE_DATA_PLANE : Z := 9000.
Definition RLC_SDU_MAX_SIZE_CONTROL_PLANE : Z := 2000.

Definition RLC_UM_RECEIVE_CRLC_CONFIG_REQ_ENTER_NULL_STATE_EVENT : Z := 0.
Definition RLC_UM_RECEIVE_CRLC_CONFIG_REQ_ENTER_DATA_TRANSFER_READY_STATE_EVENT : Z := 1.
Definition RLC_UM_RECEIVE_CRLC_SUSPEND_REQ_EVENT : Z := 16.
Definition RLC_UM_TRANSMIT_CRLC_SUSPEND_CNF_EVENT : Z := 17.
Definition RLC_UM_RECEIVE_CRLC_RESUME_REQ_EVENT : Z := 18.

(** ** Input SDUs: the management structure at the head of the block and the
    data after it. *)
Record rlc_um_tx_sdu_management_t := Mk_um_sdu {
  sdu_data : list Z;
  sdu_creation_time : Z;
  sdu_remaining_size : Z;
  sdu_segmented_size : Z;
  sdu_size : Z
}.
#[export] Instance eta_um_sdu : Eta rlc_um_tx_sdu_management_t :=
  fun r => Mk_um_sdu (sdu_data r) (sdu_creation_time r) (sdu_remaining_size r)
    (sdu_segmented_size r) (sdu_size r).

(** ** Decoded headers *)
Record rlc_um_pdu_info_t := Mk_um_pdu_info {
  pi_fi : Z;
  pi_e : Z;
  pi_sn : Z;
  pi_num_li : Z;
  pi_li_list : list Z;
  pi_hidden_size : Z;
  pi_payload : list Z;
  pi_payload_size : Z;
  pi_header_size : Z
}.
#[export] Instance eta_um_pdu_info : Eta rlc_um_pdu_info_t :=
  fun r => Mk_um_pdu_info (pi_fi r) (pi_e r) (pi_sn r) (pi_num_li r) (pi_li_list r)
    (pi_hidden_size r) (pi_payload r) (pi_payload_size r) (pi_header_size r).
Definition um_pdu_info_zero : rlc_um_pdu_info_t := Mk_um_pdu_info 0 0 0 0 (replicate 128 0) 0 [] 0 0.

(** ** The counters; [unsigned int] *)
Record rlc_um_stats := Mk_um_stats {
  stat_tx_pdcp_sdu : Z;
  stat_tx_pdcp_bytes : Z;
  stat_tx_pdcp_sdu_discarded : Z;
  stat_tx_pdcp_bytes_discarded : Z;
  stat_tx_data_pdu : Z;
  stat_tx_data_bytes : Z;
  stat_rx_pdcp_sdu : Z;
  stat_rx_pdcp_bytes : Z;
  stat_rx_data_pdus_duplicate : Z;
  stat_rx_data_bytes_duplicate : Z;
  stat_rx_data_pdu : Z;
  stat_rx_data_bytes : Z;
  stat_rx_data_pdu_dropped : Z;
  stat_rx_data_bytes_dropped : Z;
  stat_rx_data_pdu_out_of_window : Z;
  stat_rx_data_bytes_out_of_window : Z;
  stat_timer_reordering_timed_out : Z
}.
#[export] Instance eta_um_stats : Eta rlc_um_stats :=
  fun r => Mk_um_stats (stat_tx_pdcp_sdu r) (stat_tx_pdcp_bytes r) (stat_tx_pdcp_sdu_discarded r)
    (stat_tx_pdcp_bytes_discarded r) (stat_tx_data_pdu r) (stat_tx_data_bytes r)
    (stat_rx_pdcp_sdu r) (stat_rx_pdcp_bytes r) (stat_rx_data_pdus_duplicate r)
    (stat_rx_data_bytes_duplicate r) (stat_rx_data_pdu r) (stat_rx_data_bytes r)
    (stat_rx_data_pdu_dropped r) (stat_rx_data_bytes_dropped r)
    (stat_rx_data_pdu_out_of_window r) (stat_rx_data_bytes_out_of_window r)
    (stat_timer_reordering_timed_out r).

(** ** The entity *)
Definition rlc_um_timer_t : Type := rlc_am_timer_t.

Record rlc_um_entity_t := Mk_um_entity {
  initialized : bool;
  protocol_state : rlc_protocol_state_t;
  is_data_plane : bool;
  is_mxch : bool;
  vt_us : Z;
  vr_ur : Z;
  vr_ux : Z;
  vr_uh : Z;
  t_reordering : rlc_um_timer_t;
  tx_sn_length : Z;
  rx_sn_length : Z;
  tx_header_min_length_in_bytes : Z;
  rx_header_min_length_in_bytes : Z;
  tx_sn_modulo : Z;
  rx_sn_modulo : Z;
  rx_um_window_size : Z;
  tx_um_window_size : Z;
  input_sdus : list rlc_um_tx_sdu_management_t;
  buffer_occupancy : Z;
  nb_bytes_requested_by_mac : Z;
  pdus_to_mac_layer : list mac_tb;
  output_sdu_in_construction : option (list Z);
  output_sdu_size_to_write : Z;
  dar_buffer : option (list (option mac_tb));
  pdus_from_mac_layer : list mac_tb;
  channel_id : Z;
  rb_id : Z;
  last_reassemblied_sn : Z;
  last_reassemblied_missing_sn : Z;
  reassembly_missing_sn_detected : Z;
  first_pdu : bool;
  stats : rlc_um_stats;
  upper_layer : list (list Z)
}.
#[export] Instance eta_um_entity : Eta rlc_um_entity_t :=
  fun r => Mk_um_entity (initialized r) (protocol_state r) (is_data_plane r) (is_mxch r)
    (vt_us r) (vr_ur r) (vr_ux r) (vr_uh r) (t_reordering r) (tx_sn_length r) (rx_sn_length r)
    (tx_header_min_length_in_bytes r) (rx_header_min_length_in_bytes r) (tx_sn_modulo r)
    (rx_sn_modulo r) (rx_um_window_size r) (tx_um_window_size r) (input_sdus r)
    (buffer_occupancy r) (nb_bytes_requested_by_mac r) (pdus_to_mac_layer r)
    (output_sdu_in_construction r) (output_sdu_size_to_write r) (dar_buffer r)
    (pdus_from_mac_layer r) (channel_id r) (rb_id r) (last_reassemblied_sn r)
    (last_reassemblied_missing_sn r) (reassembly_missing_sn_detected r) (first_pdu r)
    (stats r) (upper_layer r).

(** [r->stat += n]. *)
Definition stat_add (proj : rlc_um_stats -> Z) `{!Setter proj} (n : Z) (r : rlc_um_entity_t)
  : rlc_um_entity_t :=
  r <| stats := update_field (proj := proj) (fun x => u32 (x + n)) (stats r) |>.

(** The entity after [memset 0]. *)
Definition um_stats_zero : rlc_um_stats := Mk_um_stats 0 0 0 0 0 0 0 0 0 0 0 0 0 0 0 0 0.
Definition um_entity_zero : rlc_um_entity_t :=
  Mk_um_entity false RLC_NULL_STATE false false 0 0 0 0 timer_zero 0 0 0 0 0 0 0 0 [] 0 0 [] None 0
    None [] 0 0 0 0 0 false um_stats_zero [].
