(* ===== verification/RlcUmWindow.v ===== *)
(** * Sequence numbers and windows of the UM receiver (rlc_um_dar.c)

    [rlc_um_in_window] and [rlc_um_in_reordering_window] compare sequence
    numbers after subtracting the lower edge of the reordering window,
    VR(UH) - UM_Window_Size, with C's remainder, whose sign is that of the
    dividend.  A modulus of 0 (an entity that was not configured) divides by
    zero. *)

From S2P Require Import Prelude RlcAmTypes RlcUmTypes.

Definition c_rem (a b : Z) : res Z := if b =? 0 then Err UndefinedBehaviour else Ok (Z.rem a b).

(** -2 below, -1 above, 0 strictly inside, 1 on the lower bound, 2 on the
    higher one, 3 on both. *)
Definition rlc_um_in_window (r : rlc_um_entity_t) (lower_boundP snP higher_boundP : Z) : res Z :=
  let modulus := i16 (i16 (vr_uh r) - rx_um_window_size r) in
  lower_boundP ← c_rem (i16 lower_boundP - modulus) (rx_sn_modulo r);
  higher_boundP ← c_rem (i16 higher_boundP - modulus) (rx_sn_modulo r);
  snP ← c_rem (i16 snP - modulus) (rx_sn_modulo r);
  Ok (if lower_boundP >? snP then -2
      else if higher_boundP <? snP then -1
      else if lower_boundP =? snP then (if higher_boundP =? snP then 3 else 1)
      else if higher_boundP =? snP then 2
      else 0).

Definition rlc_um_in_reordering_window (r : rlc_um_entity_t) (snP : Z) : res Z :=
  let modulus := i16 (vr_uh r - rx_um_window_size r) in
  sn_mod ← c_rem (i16 snP - modulus) (rx_sn_modulo r);
  Ok (if (0 <=? sn_mod) && (sn_mod <? rx_um_window_size r) then 0 else -1).

(** ** The reception buffer *)
Definition rlc_um_get_pdu_from_dar_buffer (r : rlc_um_entity_t) (snP : Z) : res (option mac_tb) :=
  buf ← deref (dar_buffer r);
  array_get buf (u16 snP).

Definition rlc_um_store_pdu_in_dar_buffer (pdu_pP : option mac_tb) (snP : Z) (r : rlc_um_entity_t)
  : res rlc_um_entity_t :=
  buf ← deref (dar_buffer r);
  buf ← array_set buf (u16 snP) pdu_pP;
  Ok (r <| dar_buffer := Some buf |>).

(** The PDU and the entity without it. *)
Definition rlc_um_remove_pdu_from_dar_buffer (snP : Z) (r : rlc_um_entity_t)
  : res (option mac_tb * rlc_um_entity_t) :=
  pdu_p ← rlc_um_get_pdu_from_dar_buffer r snP;
  r ← rlc_um_store_pdu_in_dar_buffer None snP r;
  Ok (pdu_p, r).

(** ** What the windows are *)

(** The two configurations: 10-bit and 5-bit sequence numbers. *)
Definition um_modulus (M W : Z) : Prop := (M = 1024 /\ W = 512) \/ (M = 32 /\ W = 16).
Definition um_rx_config (M W : Z) (r : rlc_um_entity_t) : Prop :=
  um_modulus M W /\ rx_sn_modulo r = M /\ rx_um_window_size r = W.

(** The distance of [x] from the lower edge of the reordering window. *)
Definition um_pos (M W uh x : Z) : Z := (x - (uh - W)) mod M.

Lemma um_pos_range M W uh x : um_modulus M W -> 0 <= um_pos M W uh x < M.
Proof. intros [[-> ->] | [-> ->]]; apply Z.mod_pos_bound; lia. Qed.

Lemma i16_small x : -32768 <= x < 32768 -> i16 x = x.
Proof. intros H. unfold i16. apply wraps_small; change (2 ^ (16 - 1)) with 32768; lia. Qed.

(** C's remainder is the distance, or a negative number outside the window. *)
Lemma um_rem M W uh x :
  um_modulus M W -> 0 <= uh < M -> - W <= x < M ->
  let s := Z.rem (x - (uh - W)) M in
  (s = um_pos M W uh x \/ (s = um_pos M W uh x - M /\ s < 0)) /\
  (0 <= x \/ x = uh - W -> um_pos M W uh x <= W -> s = um_pos M W uh x).
Proof.
  intros HM Hu Hx s. unfold s, um_pos.
  destruct HM as [[-> ->] | [-> ->]]; (split; [|intros Hx0 Hp; revert Hp]); Z.quot_rem_to_equations;
    Z.div_mod_to_equations; lia.
Qed.

(** The comparison made by [rlc_um_in_window]. *)
Definition window_place (lo s hi : Z) : Z :=
  if lo >? s then -2 else if hi <? s then -1
  else if lo =? s then (if hi =? s then 3 else 1) else if hi =? s then 2 else 0.

Lemma um_in_window_ok M W r lo sn hi :
  um_rx_config M W r -> 0 <= vr_uh r < M ->
  (0 <= lo < M \/ lo = vr_uh r - W) -> 0 <= sn < M -> 0 <= hi < M ->
  um_pos M W (vr_uh r) lo <= W -> um_pos M W (vr_uh r) hi <= W ->
  exists s, rlc_um_in_window r lo sn hi =
      Ok (window_place (um_pos M W (vr_uh r) lo) s (um_pos M W (vr_uh r) hi)) /\
    (s = um_pos M W (vr_uh r) sn \/ (s < 0 /\ W < um_pos M W (vr_uh r) sn)).
Proof.
  intros (HM & E1 & E2) Hu Hlo Hsn Hhi Plo Phi. unfold rlc_um_in_window. rewrite E1, E2.
  assert (Hb : 0 < W /\ M = 2 * W /\ M <= 1024) by (destruct HM as [[-> ->] | [-> ->]]; lia).
  rewrite (i16_small (vr_uh r)), (i16_small (vr_uh r - W)), (i16_small lo), (i16_small hi), (i16_small sn) by lia.
  unfold c_rem. rewrite (proj2 (Z.eqb_neq M 0)) by lia. cbn [mbind res_bind].
  destruct (um_rem M W (vr_uh r) lo HM Hu ltac:(lia)) as [_ Rlo].
  destruct (um_rem M W (vr_uh r) hi HM Hu ltac:(lia)) as [_ Rhi].
  destruct (um_rem M W (vr_uh r) sn HM Hu ltac:(lia)) as [Rs1 Rs2].
  rewrite Rlo, Rhi by (done || lia).
  exists (Z.rem (sn - (vr_uh r - W)) M). split; [done|].
  destruct Rs1 as [|[E Hneg]]; [by left|]. right. split; [done|].
  destruct (Z.le_gt_cases (um_pos M W (vr_uh r) sn) W) as [Hle|]; [|done].
  specialize (Rs2 ltac:(lia) Hle). pose proof (um_pos_range M W (vr_uh r) sn HM). lia.
Qed.

Lemma um_in_reordering_ok M W r sn :
  um_rx_config M W r -> 0 <= vr_uh r < M -> 0 <= sn < M ->
  rlc_um_in_reordering_window r sn = Ok (if um_pos M W (vr_uh r) sn <? W then 0 else -1).
Proof.
  intros (HM & E1 & E2) Hu Hsn. unfold rlc_um_in_reordering_window. rewrite E1, E2.
  assert (Hb : 0 < W /\ M = 2 * W /\ M <= 1024) by (destruct HM as [[-> ->] | [-> ->]]; lia).
  rewrite (i16_small (vr_uh r - W)), (i16_small sn) by lia.
  unfold c_rem. rewrite (proj2 (Z.eqb_neq M 0)) by lia. cbn [mbind res_bind].
  destruct (um_rem M W (vr_uh r) sn HM Hu ltac:(lia)) as [R1 R2].
  pose proof (um_pos_range M W (vr_uh r) sn HM).
  destruct R1 as [-> | [E Hneg]].
  - rewrite (proj2 (Z.leb_le _ _)) by lia. done.
  - rewrite (proj2 (Z.leb_gt _ _)) by lia. cbn [andb].
    destruct (Z.ltb_spec (um_pos M W (vr_uh r) sn) W); [|done].
    specialize (R2 ltac:(lia) ltac:(lia)). lia.
Qed.

Lemma um_windows_ok M W r sn :
  um_rx_config M W r -> 0 <= vr_uh r < M -> 0 <= sn < M -> 0 <= vr_ur r < M ->
  um_pos M W (vr_uh r) (vr_ur r) <= W ->
  let pos := um_pos M W (vr_uh r) in
  rlc_um_in_reordering_window r sn = Ok (if pos sn <? W then 0 else -1) /\
  (exists v, rlc_um_in_window r (vr_uh r - W) sn (vr_ur r) = Ok v /\
     (v = 0 \/ v = 1 <-> pos sn < pos (vr_ur r))) /\
  (exists v, rlc_um_in_window r (vr_ur r) sn (vr_uh r) = Ok v /\
     (v = 0 <-> pos (vr_ur r) < pos sn < W)) /\
  (exists v, rlc_um_in_window r (vr_ur r) (vr_uh r) (vr_uh r) = Ok v /\
     (v = 2 <-> pos (vr_ur r) < W)).
Proof.
  intros Hc Hu Hsn Hur Pur pos.
  assert (Hb : um_modulus M W /\ 0 < W /\ M = 2 * W) by (destruct Hc as ([[-> ->] | [-> ->]] & _); unfold um_modulus; lia).
  destruct Hb as (HM & HW & HMW).
  assert (Puh : pos (vr_uh r) = W).
  { unfold pos, um_pos. replace (_ - _) with W by lia. apply Z.mod_small. lia. }
  assert (Plo : pos (vr_uh r - W) = 0).
  { unfold pos, um_pos. by rewrite Z.sub_diag. }
  pose proof (um_pos_range M W (vr_uh r) sn HM) as Hps. pose proof (um_pos_range M W (vr_uh r) (vr_ur r) HM) as Hpr.
  fold pos in Hps, Hpr, Pur. split; [by apply um_in_reordering_ok|]. split; [|split].
  - destruct (um_in_window_ok M W r (vr_uh r - W) sn (vr_ur r)) as (s & E & Hs); try done; [by right|fold pos; lia|].
    fold pos in E, Hs. rewrite E, Plo. eexists. split; [done|]. unfold window_place.
    destruct (Z.gtb_spec 0 s), (Z.ltb_spec (pos (vr_ur r)) s), (Z.eqb_spec 0 s), (Z.eqb_spec (pos (vr_ur r)) s); lia.
  - destruct (um_in_window_ok M W r (vr_ur r) sn (vr_uh r)) as (s & E & Hs); try done; [by left|fold pos; lia|].
    fold pos in E, Hs. rewrite E, Puh. eexists. split; [done|]. unfold window_place.
    destruct (Z.gtb_spec (pos (vr_ur r)) s), (Z.ltb_spec W s), (Z.eqb_spec (pos (vr_ur r)) s), (Z.eqb_spec W s); lia.
  - destruct (um_in_window_ok M W r (vr_ur r) (vr_uh r) (vr_uh r)) as (s & E & Hs); try done; [by left|fold pos; lia|].
    fold pos in E, Hs. rewrite Puh in E, Hs. rewrite E. eexists. split; [done|]. unfold window_place.
    destruct (Z.gtb_spec (pos (vr_ur r)) s), (Z.ltb_spec W s), (Z.eqb_spec (pos (vr_ur r)) s), (Z.eqb_spec W s); lia.
Qed.

(** The windows of 36.322 5.1.2.2, with 10 or 5 bit sequence numbers.  On
    the circle of sequence numbers, with distances taken from the lower edge
    VR(UH) - UM_Window_Size of the reordering window: a sequence number is in the
    reordering window when its distance is less than the window size; the test
    that discards late PDUs answers exactly when (VR(UH) - UM_Window_Size) <= x <
    VR(UR), the one for duplicates exactly when VR(UR) < x < VR(UH), and the one
    that (re)starts t-Reordering exactly when VR(UH) > VR(UR), for a VR(UR) that
    lies in the window or is VR(UH). *)
Theorem um_windows_spec M W r sn :
  um_rx_config M W r -> 0 <= vr_uh r < M -> 0 <= sn < M -> 0 <= vr_ur r < M ->
  um_pos M W (vr_uh r) (vr_ur r) <= W ->
  let pos := um_pos M W (vr_uh r) in
  rlc_um_in_reordering_window r sn = Ok (if pos sn <? W then 0 else -1) /\
  (exists v, rlc_um_in_window r (vr_uh r - W) sn (vr_ur r) = Ok v /\
     (v = 0 \/ v = 1 <-> pos sn < pos (vr_ur r))) /\
  (exists v, rlc_um_in_window r (vr_ur r) sn (vr_uh r) = Ok v /\
     (v = 0 <-> pos (vr_ur r) < pos sn < W)) /\
  (exists v, rlc_um_in_window r (vr_ur r) (vr_uh r) (vr_uh r) = Ok v /\
     (v = 2 <-> pos (vr_ur r) < W)).
Proof. apply um_windows_ok. Qed.

Definition sample_um_window : rlc_um_entity_t :=
  um_entity_zero <| rx_sn_modulo := 32 |> <| rx_um_window_size := 16 |> <| vr_uh := 3 |> <| vr_ur := 30 |>.
Lemma um_windows_spec_witness :
  um_rx_config 32 16 sample_um_window /\
  rlc_um_in_reordering_window sample_um_window 31 = Ok 0 /\
  rlc_um_in_window sample_um_window (vr_ur sample_um_window) 31 (vr_uh sample_um_window) = Ok 0.
Proof.
  assert (Hc : um_rx_config 32 16 sample_um_window) by (split; [right|]; done).
  destruct (um_windows_spec 32 16 sample_um_window 31 Hc) as (H1 & _ & (v & H2 & H3) & _);
    try (cbn; lia); [vm_compute; discriminate|].
  split; [exact Hc|]. split; [exact H1|]. rewrite H2. f_equal. apply H3. vm_compute. done.
Defined.
