(* ===== verification/RlcUmLi.v ===== *)
(** * Headers of UMD PDUs (rlc_um_dar.c)

    The fixed header (two bytes with a 10-bit sequence number, one byte with a
    5-bit one), the length indicators that [rlc_um_read_length_indicators]
    collects for reassembly, and [rlc_um_get_pdu_infos], which decodes the whole
    header for traces.  [umd_bytes] is the format of 36.322. *)

From S2P Require Import Prelude Bits RlcAmTypes RlcAmLi RlcUmTypes.

(** ** Length indicators *)

(** [li_array_pP[*num_li_pP] = li], in the caller's array of 128 cells; [lis] is
    the part already written. *)
Definition li_array_store (lis : list Z) (li : Z) : res (list Z) :=
  if Z.of_nat (length lis) <? RLC_UM_SEGMENT_NB_MAX_LI_PER_PDU then Ok (lis ++ [li])
  else Err UndefinedBehaviour.

(** The second LI of three bytes, if E1 announces it: whether another LI
    follows, the LIs, and the size left. *)
Definition um_read_li2 (data : list Z) (e_li b2 e1 : Z) (lis : list Z) (data_size : Z)
  : res (bool * list Z * Z) :=
  if negb (e1 =? 0) then
    b3 ← array_get data (e_li + 2);
    let e2 := Z.shiftr (Z.land b2 8) 3 in
    let li2 := Z.shiftl (Z.land b2 7) 8 + Z.land b3 255 in
    lis ← li_array_store lis li2;
    Ok (negb (e2 =? 0), lis, data_size - li2 - 1)
  else Ok (false, lis, data_size).

(** The loop; [e_li] is the offset of the current three bytes.  [None]: -1. *)
Fixpoint um_read_lis (fuel : nat) (data : list Z) (e_li : Z) (lis : list Z) (data_size : Z)
  : res (option (list Z * Z)) :=
  match fuel with
  | O => Err OutOfFuel
  | S fuel' =>
      b1 ← array_get data e_li;
      b2 ← array_get data (e_li + 1);
      let e1 := Z.shiftr (Z.land b1 128) 7 in
      let li1 := Z.shiftl (Z.land b1 127) 4 + Z.shiftr (Z.land b2 240) 4 in
      lis ← li_array_store lis li1;
      let data_size := data_size - li1 - 2 in
      '(continue_loop, lis, data_size) ← um_read_li2 data e_li b2 e1 lis data_size;
      if Z.of_nat (length lis) >? RLC_UM_SEGMENT_NB_MAX_LI_PER_PDU then Ok None
      else if (continue_loop : bool) then um_read_lis fuel' data (e_li + 3) lis data_size
      else Ok (if data_size >? 0 then Some (lis, data_size) else None)
  end.

(** The LIs and the size of what follows the data they announce. *)
Definition rlc_um_read_length_indicators (data : list Z) (e_li data_size : Z)
  : res (option (list Z * Z)) :=
  um_read_lis 65 data e_li [] data_size.

(** ** The whole header *)

(** The loop of [rlc_um_get_pdu_infos]; [e_li] is the offset of the current
    three bytes from [header_pP]. *)
Fixpoint um_info_lis (fuel : nat) (data : list Z) (total_sizeP e_li li_length_in_bytes sum_li : Z)
    (info : rlc_um_pdu_info_t) : res (Z * Z * Z * Z * rlc_um_pdu_info_t) :=
  match fuel with
  | O => Err OutOfFuel
  | S fuel' =>
      let li_length_in_bytes := Z.lxor li_length_in_bytes 3 in
      '(li, li_to_read, e_li', header_size) ←
        (if li_length_in_bytes =? 2 then
           _ ← assert_that (total_sizeP >=? e_li + 1);
           b1 ← array_get data e_li;
           b2 ← array_get data (e_li + 1);
           Ok (Z.lor (Z.land (u16 (Z.shiftl b1 4)) 2032) (Z.land (Z.shiftr b2 4) 15),
               Z.land b1 128, e_li, pi_header_size info + 2)
         else
           _ ← assert_that (total_sizeP >=? e_li + 2);
           b2 ← array_get data (e_li + 1);
           b3 ← array_get data (e_li + 2);
           Ok (Z.lor (Z.land (u16 (Z.shiftl b2 8)) 1792) b3,
               Z.land b2 8, e_li + 3, pi_header_size info + 1));
      li_list ← array_set (pi_li_list info) (pi_num_li info) li;
      let info := info <| pi_li_list := li_list |> <| pi_header_size := i16 header_size |> in
      _ ← assert_that (pi_num_li info <=? RLC_UM_SEGMENT_NB_MAX_LI_PER_PDU);
      let info := info <| pi_num_li := u16 (pi_num_li info + 1) |> in
      let sum_li := i32 (sum_li + li) in
      if pi_num_li info >? RLC_UM_SEGMENT_NB_MAX_LI_PER_PDU then
        Ok (-2, e_li', li_length_in_bytes, sum_li, info)
      else if negb (li_to_read =? 0) then
        um_info_lis fuel' data total_sizeP e_li' li_length_in_bytes sum_li info
      else Ok (0, e_li', li_length_in_bytes, sum_li, info)
  end.

Definition rlc_um_get_pdu_infos (data : list Z) (total_sizeP sn_lengthP : Z)
  : res (Z * rlc_um_pdu_info_t) :=
  _ ← assert_that (total_sizeP >? 0);
  '(info, payload) ←
    (if sn_lengthP =? 10 then
       b1 ← array_get data 0;
       b2 ← array_get data 1;
       Ok (um_pdu_info_zero <| pi_fi := Z.land (Z.shiftr b1 3) 3 |>
             <| pi_e := Z.land (Z.shiftr b1 2) 1 |>
             <| pi_sn := b2 + Z.shiftl (Z.land b1 3) 8 |> <| pi_header_size := 2 |>, 2)
     else if sn_lengthP =? 5 then
       b1 ← array_get data 0;
       Ok (um_pdu_info_zero <| pi_fi := Z.land (Z.shiftr b1 6) 3 |>
             <| pi_e := Z.land (Z.shiftr b1 5) 1 |>
             <| pi_sn := Z.land b1 31 |> <| pi_header_size := 1 |>, 1)
     else Err FatalAssert);
  '(code, payload, sum_li, info) ←
    (if negb (pi_e info =? 0) then
       '(code, e_li, li_length_in_bytes, sum_li, info) ← um_info_lis 130 data total_sizeP payload 1 0 info;
       Ok (code, e_li + (if li_length_in_bytes =? 2 then 2 else 0), sum_li, info)
     else Ok (0, payload, 0, info));
  if code <? 0 then Ok (code, info)
  else
    let info := info <| pi_payload := drop (Z.to_nat payload) data |>
                     <| pi_payload_size := i16 (total_sizeP - pi_header_size info) |> in
    Ok (0, if pi_payload_size info >? sum_li
           then info <| pi_hidden_size := i16 (pi_payload_size info - sum_li) |> else info).

(** ** The format *)
Definition umd_header (sn_length fi e sn : Z) : list Z :=
  if sn_length =? 10 then [8 * fi + 4 * e + sn / 256; sn mod 256] else [64 * fi + 32 * e + sn].
Definition umd_bytes (sn_length fi sn : Z) (lis payload : list Z) : list Z :=
  umd_header sn_length fi (b2z (bool_decide (lis <> []))) sn ++ li_bytes lis ++ payload.
Definition umd_sn_bound (sn_length : Z) : Z := if sn_length =? 10 then 1024 else 32.

(** ** The LIs are read back *)
Lemma um_li_parts m a e :
  is_li a -> m / 16 = a mod 16 ->
  Z.shiftr (Z.land (128 * b2z e + a / 16) 128) 7 = b2z e /\
  Z.shiftl (Z.land (128 * b2z e + a / 16) 127) 4 + Z.shiftr (Z.land m 240) 4 = a.
Proof.
  unfold is_li. intros Ha Hm.
  assert (E1 : Z.land (128 * b2z e + a / 16) 128 = 128 * b2z e).
  { change 128 with (2 ^ 7) at 2. rewrite land_bit by lia. change (2 ^ 7) with 128.
    destruct e; cbn [b2z]; mod_lia. }
  assert (E2 : Z.land (128 * b2z e + a / 16) 127 = a / 16).
  { change 127 with (2 ^ 7 - 1). rewrite land_ones_mod by lia. change (2 ^ 7) with 128.
    destruct e; cbn [b2z]; mod_lia. }
  assert (E3 : Z.shiftr (Z.land m 240) 4 = a mod 16).
  { rewrite Z.shiftr_land. change (Z.shiftr 240 4) with (2 ^ 4 - 1). rewrite land_ones_mod by lia.
    rewrite Z.shiftr_div_pow2 by lia. change (2 ^ 4) with 16. rewrite Hm. apply Z.mod_mod. lia. }
  rewrite E1, E2, E3, Z.shiftl_mul_pow2 by lia. split; [by destruct e|]. change (2 ^ 4) with 16. mod_lia.
Qed.

Lemma um_li_second a b e :
  is_li a -> is_li b -> let m := a mod 16 * 16 + 8 * b2z e + b / 256 in
  Z.shiftr (Z.land m 8) 3 = b2z e /\ Z.shiftl (Z.land m 7) 8 + Z.land (b mod 256) 255 = b.
Proof.
  intros Ha Hb m. unfold is_li in Ha, Hb.
  assert (E1 : Z.land m 8 = 8 * b2z e).
  { unfold m. change 8 with (2 ^ 3) at 2. rewrite land_bit by lia. change (2 ^ 3) with 8.
    destruct e; cbn [b2z]; mod_lia. }
  assert (E2 : Z.land m 7 = b / 256).
  { unfold m. change 7 with (2 ^ 3 - 1). rewrite land_ones_mod by lia. change (2 ^ 3) with 8.
    destruct e; cbn [b2z]; mod_lia. }
  rewrite E1, E2, land255, Z.shiftl_mul_pow2, Z.mod_mod by lia.
  split; [by destruct e|]. change (2 ^ 8) with 256. mod_lia.
Qed.

Lemma array_get_shift {A} (l k : list A) i :
  0 <= i -> array_get (l ++ k) (Z.of_nat (length l) + i) = array_get k i.
Proof.
  intros H. unfold array_get. rewrite (proj2 (Z.leb_le 0 i)), (proj2 (Z.leb_le _ _)) by lia.
  rewrite lookup_app_r by lia. do 2 f_equal. lia.
Qed.

Lemma um_read_lis_ok lis fuel pre rest done_ size :
  lis <> [] -> Forall is_li lis -> (length lis < 2 * fuel)%nat -> (length done_ + length lis <= 128)%nat ->
  um_read_lis fuel (pre ++ li_bytes lis ++ rest) (Z.of_nat (length pre)) done_ size =
    let size' := size - sumZ (fun x => x) lis - Z.of_nat (li_length (length lis)) in
    Ok (if size' >? 0 then Some (done_ ++ lis, size') else None).
Proof.
  revert fuel pre done_ size.
  induction lis as [|a|a b l IH] using pair_ind; intros fuel pre done_ size Hne Hli Hf H128; [done| |];
    (destruct fuel as [|fuel]; [cbn in Hf; lia|]); cbn [um_read_lis]; unfold um_read_li2.
  - apply Forall_cons in Hli as [Ha _].
    change (li_bytes [a]) with [128 * b2z false + a / 16; a mod 16 * 16]. cbn [app].
    set (data := pre ++ _).
    assert (D0 : array_get data (Z.of_nat (length pre)) = Ok (128 * b2z false + a / 16)) by (by apply array_get_app).
    assert (D1 : array_get data (Z.of_nat (length pre) + 1) = Ok (a mod 16 * 16))
      by (unfold data; by rewrite array_get_shift by lia).
    rewrite D0, D1. cbn [mbind res_bind].
    destruct (um_li_parts (a mod 16 * 16) a false Ha (Z.div_mul _ 16 ltac:(done))) as [-> ->].
    unfold li_array_store, RLC_UM_SEGMENT_NB_MAX_LI_PER_PDU. cbn [length] in H128.
    rewrite (proj2 (Z.ltb_lt _ _)) by lia. cbn [b2z Z.eqb negb mbind res_bind].
    rewrite length_app. cbn [length]. rewrite Z.gtb_ltb, (proj2 (Z.ltb_ge _ _)) by lia.
    cbn [sumZ foldr]. change (li_length 1) with 2%nat. cbn zeta.
    replace (size - (a + 0) - Z.of_nat 2) with (size - a - 2) by lia. done.
  - apply Forall_cons in Hli as [Ha [Hb Hli]%Forall_cons]. cbn [length] in Hf, H128.
    set (e := match l with [] => false | _ => true end).
    set (m := a mod 16 * 16 + 8 * b2z e + b / 256).
    assert (Hmb : li_bytes (a :: b :: l) = [128 * b2z true + a / 16; m; b mod 256] ++ li_bytes l).
    { unfold li_bytes, m, e. destruct l; cbn [li_enc b2z app]; [done|]. by rewrite !Z.mul_1_r. }
    rewrite Hmb. set (h := 128 * b2z true + a / 16).
    set (data := pre ++ _ ++ rest).
    assert (D0 : array_get data (Z.of_nat (length pre)) = Ok h) by (by apply array_get_app).
    assert (D1 : array_get data (Z.of_nat (length pre) + 1) = Ok m) by (unfold data; by rewrite array_get_shift by lia).
    assert (D2 : array_get data (Z.of_nat (length pre) + 2) = Ok (b mod 256)) by (unfold data; by rewrite array_get_shift by lia).
    rewrite D0, D1, D2. cbn [mbind res_bind].
    assert (Hm : m / 16 = a mod 16) by (unfold m; unfold is_li in *; destruct e; cbn [b2z]; mod_lia).
    destruct (um_li_parts m a true Ha Hm) as [E1 E2]. fold h in E1, E2. rewrite E1, E2.
    destruct (um_li_second a b e Ha Hb) as [E3 E4]. fold m in E3, E4. rewrite E3, E4.
    unfold li_array_store, RLC_UM_SEGMENT_NB_MAX_LI_PER_PDU.
    rewrite (proj2 (Z.ltb_lt _ _)) by lia. cbn [b2z Z.eqb negb mbind res_bind].
    rewrite (proj2 (Z.ltb_lt _ _)) by (rewrite length_app; cbn [length]; lia). cbn [mbind res_bind].
    rewrite !length_app. cbn [length]. rewrite Z.gtb_ltb, (proj2 (Z.ltb_ge _ _)) by lia.
    rewrite li_length_SS. cbn [sumZ foldr]. fold (sumZ (fun x => x) l).
    rewrite <- app_assoc. cbn [app]. destruct (decide (l = [])) as [-> | Hl0].
    + cbn [sumZ foldr length]. change (li_length 0) with 0%nat. cbn [b2z e Z.eqb negb].
      change (3 + 0)%nat with 3%nat.
      replace (size - (a + (b + 0)) - Z.of_nat 3) with (size - a - 2 - b - 1) by lia. done.
    + assert (b2z e = 1) as -> by (unfold e; by destruct l). cbn [Z.eqb negb].
      replace (Z.of_nat (length pre) + 3) with (Z.of_nat (length (pre ++ [h; m; b mod 256])))
        by (rewrite length_app; cbn [length]; lia).
      replace data with ((pre ++ [h; m; b mod 256]) ++ li_bytes l ++ rest)
        by (unfold data; by rewrite <- !app_assoc).
      rewrite IH by (done || lia || (rewrite ?length_app; cbn [length]; lia)). cbn zeta.
      rewrite <- app_assoc. cbn [app].
      replace (size - a - 2 - b - 1 - sumZ (fun x => x) l - Z.of_nat (li_length (length l)))
        with (size - (a + (b + sumZ (fun x => x) l)) - Z.of_nat (3 + li_length (length l))) by lia. done.
Qed.

Lemma rlc_um_read_length_indicators_ok lis pre payload :
  lis <> [] -> Forall is_li lis -> (length lis <= 128)%nat ->
  sumZ (fun x => x) lis < Z.of_nat (length payload) ->
  rlc_um_read_length_indicators (pre ++ li_bytes lis ++ payload) (Z.of_nat (length pre))
    (Z.of_nat (li_length (length lis) + length payload)) =
  Ok (Some (lis, Z.of_nat (length payload) - sumZ (fun x => x) lis)).
Proof.
  intros Hne Hli H128 Hsum. unfold rlc_um_read_length_indicators.
  rewrite um_read_lis_ok by (done || (cbn [length]; lia)). cbn zeta. rewrite Z.gtb_ltb, (proj2 (Z.ltb_lt _ _)) by lia.
  cbn [app]. do 3 f_equal. lia.
Qed.
