(* ===== verification/RlcUmReassembly.v ===== *)
(** * Reassembly of SDUs from UMD PDUs (rlc_um_reassembly.c, rlc_um_try_reassembly)

    The data of the PDUs in sequence is appended to the SDU in construction and
    delivered at the end of each SDU.  [output_sdu_in_construction] is the bytes
    written so far; only the first [output_sdu_size_to_write] count.
    [reassembly_missing_sn_detected] makes the receiver skip the rest of an SDU
    that lost a PDU.  Blocks of memory are always available. *)

From S2P Require Import Prelude Bits RlcAmTypes RlcAmLi RlcUmTypes RlcUmWindow RlcUmLi.

Definition rlc_um_clear_rx_sdu (r : rlc_um_entity_t) : rlc_um_entity_t :=
  r <| output_sdu_size_to_write := 0 |>.

Definition sdu_max_size (r : rlc_um_entity_t) : Z :=
  if is_data_plane r then RLC_SDU_MAX_SIZE_DATA_PLANE else RLC_SDU_MAX_SIZE_CONTROL_PLANE.

(** [src_pP] is the memory at the pointer. *)
Definition rlc_um_reassembly (src_pP : list Z) (lengthP : Z) (r : rlc_um_entity_t)
  : res rlc_um_entity_t :=
  if lengthP <=? 0 then Ok r
  else
    let r := (match output_sdu_in_construction r with
              | None => r <| output_sdu_in_construction := Some [] |> <| output_sdu_size_to_write := 0 |>
              | Some _ => r
              end) in
    sdu ← deref (output_sdu_in_construction r);
    if output_sdu_size_to_write r + lengthP <=? sdu_max_size r then
      data ← mem_read src_pP 0 lengthP;
      Ok (r <| output_sdu_in_construction :=
                 Some (take (Z.to_nat (output_sdu_size_to_write r)) sdu ++ data) |>
            <| output_sdu_size_to_write := output_sdu_size_to_write r + lengthP |>)
    else Ok (r <| output_sdu_size_to_write := 0 |>).

Definition rlc_um_send_sdu (r : rlc_um_entity_t) : rlc_um_entity_t :=
  match output_sdu_in_construction r with
  | None => r
  | Some sdu =>
      let r :=
        (if output_sdu_size_to_write r >? 0 then
           let r := stat_add stat_rx_pdcp_sdu 1 r in
           let r := stat_add stat_rx_pdcp_bytes (output_sdu_size_to_write r) r in
           r <| upper_layer := upper_layer r ++ [take (Z.to_nat (output_sdu_size_to_write r)) sdu] |>
             <| output_sdu_in_construction := None |>
         else r) in
      r <| output_sdu_size_to_write := 0 |>
  end.

(** ** The PDU of one cell of the reception buffer *)

(** The SDUs announced by the LIs; [j] is the offset [data_p] in the PDU. *)
Fixpoint um_reassemble_lis (data : list Z) (j : Z) (lis : list Z) (r : rlc_um_entity_t)
  : res (Z * rlc_um_entity_t) :=
  match lis with
  | [] => Ok (j, r)
  | li :: rest =>
      r ← rlc_um_reassembly (drop (Z.to_nat j) data) li r;
      um_reassemble_lis data (j + li) rest (rlc_um_send_sdu r)
  end.

Definition um_drop_pdu (tb : mac_tb) (r : rlc_um_entity_t) : rlc_um_entity_t :=
  stat_add stat_rx_data_bytes_dropped (tb_size tb) (stat_add stat_rx_data_pdu_dropped 1 r).

Definition set_missing (v : Z) (r : rlc_um_entity_t) : rlc_um_entity_t :=
  r <| reassembly_missing_sn_detected := v |>.

(** No LI: the four values of FI. *)
Definition um_reassemble_data (tb : mac_tb) (fi data_p size : Z) (r : rlc_um_entity_t)
  : res rlc_um_entity_t :=
  let src := drop (Z.to_nat data_p) (data_ptr tb) in
  if fi =? 0 then
    r ← rlc_um_reassembly src size (rlc_um_clear_rx_sdu r);
    Ok (set_missing 0 (rlc_um_send_sdu r))
  else if fi =? 1 then
    r ← rlc_um_reassembly src size (rlc_um_clear_rx_sdu r);
    Ok (set_missing 0 r)
  else if fi =? 2 then
    r ← (if reassembly_missing_sn_detected r =? 0 then
           r ← rlc_um_reassembly src size r;
           Ok (rlc_um_send_sdu r)
         else Ok (um_drop_pdu tb r));
    Ok (set_missing 0 r)
  else if fi =? 3 then
    if reassembly_missing_sn_detected r =? 0 then rlc_um_reassembly src size r
    else Ok (um_drop_pdu tb (set_missing 1 r))
  else Err FatalAssert.

(** LIs: the SDU in construction is dropped when the first byte begins an SDU,
    the first LI is skipped when its SDU has lost a PDU. *)
Definition um_first_li (fi data_p : Z) (lis : list Z) (r : rlc_um_entity_t)
  : res (list Z * Z * rlc_um_entity_t) :=
  if (fi =? 0) || (fi =? 1) then Ok (lis, data_p, rlc_um_clear_rx_sdu r)
  else if negb (reassembly_missing_sn_detected r =? 0) then
    li ← deref (head lis);
    Ok (tail lis, data_p + li, stat_add stat_rx_data_bytes_dropped li r)
  else Ok (lis, data_p, r).

Definition um_reassemble_with_lis (tb : mac_tb) (fi data_p : Z) (lis : list Z) (size : Z)
    (r : rlc_um_entity_t) : res rlc_um_entity_t :=
  '(lis, data_p, r) ← um_first_li fi data_p lis r;
  '(data_p, r) ← um_reassemble_lis (data_ptr tb) data_p lis r;
  r ← (if size >? 0 then
         r ← rlc_um_reassembly (drop (Z.to_nat data_p) (data_ptr tb)) size r;
         Ok (if (fi =? 0) || (fi =? 2) then rlc_um_send_sdu r else r)
       else if fi =? 3 then Err FatalAssert else Ok r);
  Ok (set_missing 0 r).

Definition um_reassemble_pdu (tb : mac_tb) (r : rlc_um_entity_t) : res rlc_um_entity_t :=
  b1 ← array_get (data_ptr tb) 0;
  let '(e, fi, data_p) :=
    (if rx_sn_length r =? 10 then (Z.shiftr (Z.land b1 4) 2, Z.shiftr (Z.land b1 24) 3, 2)
     else (Z.shiftr (Z.land b1 32) 5, Z.shiftr (Z.land b1 192) 6, 1)) in
  let size := tb_size tb - data_p in
  _ ← assert_that (size >=? 0);
  _ ← assert_that ((e =? 0) || (e =? 1));
  _ ← assert_that ((fi >=? 0) && (fi <=? 3));
  if e =? 0 then um_reassemble_data tb fi data_p size r
  else
    lis ← rlc_um_read_length_indicators (data_ptr tb) data_p size;
    match lis with
    | Some (lis, size) =>
        um_reassemble_with_lis tb fi
          (data_p + Z.shiftr (Z.of_nat (length lis) * 3 + 1) 1) lis size r
    | None => Ok (set_missing 1 (um_drop_pdu tb r))
    end.

(** ** The loop on the sequence numbers *)
Definition um_reassemble_cell (sn : Z) (r : rlc_um_entity_t) : res rlc_um_entity_t :=
  cell ← rlc_um_get_pdu_from_dar_buffer r sn;
  match cell with
  | Some tb =>
      next ← c_rem (last_reassemblied_sn r + 1) (rx_sn_modulo r);
      let r := (if negb (next =? sn) then rlc_um_clear_rx_sdu r else r) in
      r ← um_reassemble_pdu tb (r <| last_reassemblied_sn := u16 sn |>);
      rlc_um_store_pdu_in_dar_buffer None sn r
  | None =>
      Ok (rlc_um_clear_rx_sdu (set_missing 1 (r <| last_reassemblied_missing_sn := u16 sn |>)))
  end.

Fixpoint um_reassembly_loop (fuel : nat) (sn end_snP : Z) (r : rlc_um_entity_t) : res rlc_um_entity_t :=
  match fuel with
  | O => Err OutOfFuel
  | S fuel' =>
      r ← um_reassemble_cell sn r;
      sn ← c_rem (sn + 1) (rx_sn_modulo r);
      if (sn =? vr_uh r) || (sn =? end_snP) then Ok r
      else um_reassembly_loop fuel' sn end_snP r
  end.

Definition rlc_um_try_reassembly (start_snP end_snP : Z) (r : rlc_um_entity_t) : res rlc_um_entity_t :=
  let end_snP := i16 end_snP in
  let start_snP := i16 start_snP in
  let end_snP := (if end_snP <? 0 then i16 (end_snP + rx_sn_modulo r) else end_snP) in
  let start_snP := (if start_snP <? 0 then i16 (start_snP + rx_sn_modulo r) else start_snP) in
  if start_snP =? end_snP then Ok r
  else um_reassembly_loop 1025 start_snP end_snP r.

(** ** What a PDU does to the SDU in construction *)

(** What processing a PDU may change. *)
Definition um_changed (r r' : rlc_um_entity_t) : Prop :=
  r' = r <| output_sdu_in_construction := output_sdu_in_construction r' |>
         <| output_sdu_size_to_write := output_sdu_size_to_write r' |>
         <| reassembly_missing_sn_detected := reassembly_missing_sn_detected r' |>
         <| stats := stats r' |> <| upper_layer := upper_layer r' |>.
Lemma um_changed_refl r : um_changed r r.
Proof. by destruct r. Qed.
Lemma um_changed_trans r1 r2 r3 : um_changed r1 r2 -> um_changed r2 r3 -> um_changed r1 r3.
Proof. unfold um_changed. intros H1 H2. rewrite H2, H1. done. Qed.

(** [p] is the SDU in construction. *)
Definition building (p : list Z) (r : rlc_um_entity_t) : Prop :=
  output_sdu_size_to_write r = Z.of_nat (length p) /\
  (p = [] \/ exists b, output_sdu_in_construction r = Some b /\ take (length p) b = p).

(** From [r] to [r']: [out] is delivered, [p] is left in construction. *)
Definition builds (r : rlc_um_entity_t) (out : list (list Z)) (p : list Z) (r' : rlc_um_entity_t) : Prop :=
  um_changed r r' /\ upper_layer r' = upper_layer r ++ out /\
  reassembly_missing_sn_detected r' = reassembly_missing_sn_detected r /\ building p r'.

Lemma builds_trans r1 r2 r3 out1 out2 p1 p2 :
  builds r1 out1 p1 r2 -> builds r2 out2 p2 r3 -> builds r1 (out1 ++ out2) p2 r3.
Proof.
  intros (A1 & A2 & A3 & _) (B1 & B2 & B3 & B4). split; [by eapply um_changed_trans|].
  rewrite B2, A2, app_assoc, B3, A3. done.
Qed.
Lemma builds_max r out p r' : builds r out p r' -> sdu_max_size r' = sdu_max_size r.
Proof. intros (H & _). unfold um_changed in H. by rewrite H. Qed.
Lemma clear_builds r : builds r [] [] (rlc_um_clear_rx_sdu r).
Proof.
  split; [by destruct r|]. split; [by rewrite app_nil_r|]. split; [done|]. split; [done|by left].
Qed.

Lemma um_append p f rest r :
  building p r -> f <> [] -> Z.of_nat (length (p ++ f)) <= sdu_max_size r ->
  exists r', rlc_um_reassembly (f ++ rest) (Z.of_nat (length f)) r = Ok r' /\ builds r [] (p ++ f) r'.
Proof.
  intros [Hs Hp] Hf Hmax. assert (0 < Z.of_nat (length f)) by (destruct f; cbn [length]; [done|lia]).
  rewrite length_app in Hmax. unfold rlc_um_reassembly. rewrite (proj2 (Z.leb_gt _ _)) by lia.
  assert (Hr : exists r0 b, r0 = (match output_sdu_in_construction r with
      | None => r <| output_sdu_in_construction := Some [] |> <| output_sdu_size_to_write := 0 |>
      | Some _ => r end) /\ output_sdu_in_construction r0 = Some b /\ take (length p) b = p /\
      output_sdu_size_to_write r0 = Z.of_nat (length p) /\ um_changed r r0 /\
      upper_layer r0 = upper_layer r /\
      reassembly_missing_sn_detected r0 = reassembly_missing_sn_detected r).
  { destruct (output_sdu_in_construction r) as [b|] eqn:Eb.
    - exists r, b. split; [done|]. split; [done|]. split; [|by split_and!; try done; destruct r].
      destruct Hp as [-> | (b' & Hb & Ht)]; [done|congruence].
    - eexists _, []. split; [done|]. split; [done|]. destruct Hp as [-> | (b' & Hb & _)]; [|congruence].
      split_and!; try done. }
  destruct Hr as (r0 & b & <- & Eb & Ht & Es & Hch & Hu & Hm). rewrite Eb. cbn [deref mbind res_bind].
  assert (Emax : sdu_max_size r0 = sdu_max_size r) by (unfold um_changed in Hch; by rewrite Hch).
  rewrite Es, Emax, (proj2 (Z.leb_le _ _)) by lia.
  rewrite mem_read_ok by (rewrite ?length_app; lia). cbn [mbind res_bind].
  rewrite Z2Nat.inj_0, drop_0, !Nat2Z.id, take_app_length, Ht.
  eexists. split; [done|]. split; [|split; [|split]].
  - eapply um_changed_trans; [exact Hch|]. unfold um_changed. by destruct r0.
  - by rewrite app_nil_r.
  - done.
  - split; [cbn; rewrite length_app; lia|]. right. eexists. split; [done|]. by rewrite take_ge.
Qed.

Lemma um_send p r : building p r -> p <> [] -> builds r [p] [] (rlc_um_send_sdu r).
Proof.
  intros [Hs [-> | (b & Hb & Ht)]] Hp; [done|].
  assert (0 < Z.of_nat (length p)) by (destruct p; cbn [length]; [done|lia]).
  unfold rlc_um_send_sdu. rewrite Hb, Z.gtb_ltb, Hs, (proj2 (Z.ltb_lt _ _)) by lia.
  split; [by destruct r|]. cbn. rewrite Hs, Nat2Z.id, Ht. split; [done|]. split; [done|].
  split; [done|by left].
Qed.

(** The fragments of a PDU, the first one put after what is in construction
    ([None]: its SDU lost a PDU). *)
Definition um_join (c : option (list Z)) (frags : list (list Z)) : list (list Z) :=
  match frags with
  | [] => []
  | f :: fs => match c with Some p => (p ++ f) :: fs | None => fs end
  end.
(** The SDUs delivered, and what is in construction afterwards. *)
Definition um_split (full : bool) (l : list (list Z)) : list (list Z) * option (list Z) :=
  if full then (l, Some []) else (removelast l, last l).

Definition frag_sizes (frags : list (list Z)) : list Z := map (fun f => Z.of_nat (length f)) frags.
Lemma frag_sizes_sum frags : sumZ (fun x => x) (frag_sizes frags) = Z.of_nat (length (concat frags)).
Proof.
  induction frags as [|f frags IH]; [done|]. cbn [frag_sizes map concat]. rewrite length_app.
  change (sumZ _ (?a :: ?l)) with (a + sumZ (fun x => x) l). fold (frag_sizes frags). lia.
Qed.

Lemma um_lis_ok frags : forall p pre rest r,
  building p r -> Forall (fun f => f <> []) frags ->
  Forall (fun u => Z.of_nat (length u) <= sdu_max_size r) (um_join (Some p) frags) ->
  exists r', um_reassemble_lis (pre ++ concat frags ++ rest) (Z.of_nat (length pre)) (frag_sizes frags) r =
      Ok (Z.of_nat (length (pre ++ concat frags)), r') /\
    builds r (um_join (Some p) frags) (match frags with [] => p | _ => [] end) r'.
Proof.
  induction frags as [|f frags IH]; intros p pre rest r Hb Hne Hfit; cbn [frag_sizes map um_reassemble_lis concat um_join].
  - exists r. rewrite app_nil_r. split; [done|]. split; [apply um_changed_refl|]. by rewrite app_nil_r.
  - apply Forall_cons in Hne as [Hf Hne]. cbn [um_join] in Hfit. apply Forall_cons in Hfit as [Hfit1 Hfit].
    rewrite Nat2Z.id, drop_app_length, <- !app_assoc.
    destruct (um_append p f (concat frags ++ rest) r Hb Hf Hfit1) as (r1 & E1 & B1). rewrite E1. cbn [mbind res_bind].
    assert (Hpf : p ++ f <> []) by (intros [_ ?]%app_eq_nil; done).
    pose proof (um_send (p ++ f) r1 (proj2 (proj2 (proj2 B1))) Hpf) as B2.
    pose proof (builds_trans _ _ _ _ _ _ _ B1 B2) as B3. cbn [app] in B3.
    replace (Z.of_nat (length pre) + Z.of_nat (length f)) with (Z.of_nat (length (pre ++ f)))
      by (rewrite length_app; lia).
    destruct (IH [] (pre ++ f) rest (rlc_um_send_sdu r1)) as (r2 & E2 & B4).
    + apply B3.
    + done.
    + rewrite (builds_max _ _ _ _ B3). by destruct frags.
    + rewrite <- !app_assoc in E2. fold (frag_sizes frags). rewrite E2. exists r2. split; [done|].
      pose proof (builds_trans _ _ _ _ _ _ _ B3 B4) as B5.
      replace (um_join (Some []) frags) with frags in B5 by (by destruct frags). cbn [app] in B5.
      by destruct frags.
Qed.

Lemma um_join_snoc p frags t :
  um_join (Some p) (frags ++ [t]) =
    um_join (Some p) frags ++ [(match frags with [] => p | _ => [] end) ++ t].
Proof. by destruct frags. Qed.
Lemma um_split_snoc full l x :
  um_split full (l ++ [x]) = if full then (l ++ [x], Some []) else (l, Some x).
Proof. unfold um_split. by rewrite removelast_last, last_snoc. Qed.

(** The state of reassembly between two PDUs. *)
Definition carry (c : option (list Z)) (r : rlc_um_entity_t) : Prop :=
  match c with
  | Some p => reassembly_missing_sn_detected r = 0 /\ building p r
  | None => reassembly_missing_sn_detected r = 1 /\ output_sdu_size_to_write r = 0
  end.

(** The effect of a PDU: [out] delivered, carry [c]. *)
Definition um_effect (r : rlc_um_entity_t) (out : list (list Z)) (c : option (list Z))
    (r' : rlc_um_entity_t) : Prop :=
  um_changed r r' /\ upper_layer r' = upper_layer r ++ out /\ carry c r'.

Lemma builds_effect r out p r' : builds r out p r' -> um_effect r out (Some p) (set_missing 0 r').
Proof.
  intros (H1 & H2 & H3 & H4). split; [|done]. eapply um_changed_trans; [exact H1|]. by destruct r'.
Qed.
Lemma builds_keep r out p r' :
  reassembly_missing_sn_detected r = 0 -> builds r out p r' -> um_effect r out (Some p) r'.
Proof. intros Hm (H1 & H2 & H3 & H4). split; [done|]. split; [done|]. split; [congruence|done]. Qed.
Lemma builds_nil r p : building p r -> builds r [] p r.
Proof. intros H. split; [apply um_changed_refl|]. by rewrite app_nil_r. Qed.

(** FI: whether the first byte begins an SDU and the last one ends one. *)
Definition um_fi (fresh full : bool) : Z := (if fresh then 0 else 2) + (if full then 0 else 1).

(** The last fragment. *)
Lemma um_tail_ok (full : bool) p t rest r0 out r :
  builds r0 out p r -> t <> [] -> Z.of_nat (length (p ++ t)) <= sdu_max_size r0 ->
  exists r', rlc_um_reassembly (t ++ rest) (Z.of_nat (length t)) r = Ok r' /\
    let '(out', c) := um_split full [p ++ t] in
    exists q, c = Some q /\ builds r0 (out ++ out') q (if full then rlc_um_send_sdu r' else r').
Proof.
  intros B Ht Hmax. rewrite <- (builds_max _ _ _ _ B) in Hmax.
  destruct (um_append p t rest r (proj2 (proj2 (proj2 B))) Ht Hmax) as (r' & E & B').
  exists r'. split; [done|]. pose proof (builds_trans _ _ _ _ _ _ _ B B') as B2. rewrite app_nil_r in B2.
  destruct full; cbn [um_split removelast last].
  - exists []. split; [done|]. apply (builds_trans _ _ _ _ _ _ _ B2), um_send; [apply B2|].
    by intros [_ ?]%app_eq_nil.
  - exists (p ++ t). split; [done|]. by rewrite app_nil_r.
Qed.

(** No LI. *)
Lemma um_data_ok (fresh full : bool) c t pre tb r :
  data_ptr tb = pre ++ t -> t <> [] -> carry c r ->
  Forall (fun u => Z.of_nat (length u) <= sdu_max_size r) (um_join (if fresh then Some [] else c) [t]) ->
  exists r', um_reassemble_data tb (um_fi fresh full) (Z.of_nat (length pre)) (Z.of_nat (length t)) r = Ok r' /\
    let '(out, c') := um_split full (um_join (if fresh then Some [] else c) [t]) in um_effect r out c' r'.
Proof.
  intros Hd Ht Hc Hfit. unfold um_reassemble_data. rewrite Hd, Nat2Z.id, drop_app_length.
  rewrite <- (app_nil_r t). rewrite length_app, Nat.add_0_r. 
  assert (Hfresh : fresh = true -> exists r1, rlc_um_reassembly (t ++ []) (Z.of_nat (length t)) (rlc_um_clear_rx_sdu r) = Ok r1 /\
    let '(out', c') := um_split full [t] in
    exists q, c' = Some q /\ builds r out' q (if full then rlc_um_send_sdu r1 else r1)).
  { intros ->. apply Forall_cons in Hfit as [Hfit _].
    destruct (um_tail_ok full [] t [] r [] _ (clear_builds r) Ht Hfit) as (r1 & E & H). by exists r1. }
  rewrite app_nil_r in Hfresh |- *.
  destruct fresh.
  - destruct (Hfresh eq_refl) as (r1 & E & H). clear Hfresh. cbn [um_join] in *.
    destruct full; cbn [um_fi Z.add Z.eqb Pos.eqb um_split removelast last] in *; rewrite E; cbn [mbind res_bind];
      eexists; (split; [reflexivity|]); destruct H as (q & Hq & B); injection Hq as <-; by apply builds_effect.
  - clear Hfresh. destruct c as [p|].
    + destruct Hc as [Hm Hb]. apply Forall_cons in Hfit as [Hfit _].
      destruct (um_tail_ok full p t [] r [] r (builds_nil r p Hb) Ht Hfit) as (r1 & E & H).
      rewrite app_nil_r in E. cbn [um_join].
      destruct full; cbn [um_fi Z.add Z.eqb Pos.eqb um_split removelast last] in *; rewrite Hm; cbn [Z.eqb];
        rewrite E; cbn [mbind res_bind]; eexists; (split; [reflexivity|]); destruct H as (q & Hq & B);
        injection Hq as <-; [by apply builds_effect|by apply builds_keep].
    + destruct Hc as [Hm Hs]. cbn [um_join].
      destruct full; cbn [um_fi Z.add Z.eqb Pos.eqb um_split removelast last] in *; rewrite Hm; cbn [Z.eqb mbind res_bind];
        eexists; (split; [reflexivity|]); split; try (by destruct r); (split; [cbn; by rewrite app_nil_r|]); by repeat split; try left.
Qed.

(** With LIs: what is in construction before the first fragment that counts. *)
Lemma um_first_li_ok (fresh full : bool) c f fs pre r :
  carry c r ->
  exists pieces p r0, let skip := match (if fresh then Some [] else c) with Some _ => [] | None => f end in
    um_first_li (um_fi fresh full) (Z.of_nat (length pre)) (frag_sizes (f :: fs)) r =
      Ok (frag_sizes pieces, Z.of_nat (length (pre ++ skip)), r0) /\
    builds r [] p r0 /\ concat (f :: fs) = skip ++ concat pieces /\
    (forall t, um_join (if fresh then Some [] else c) ((f :: fs) ++ [t]) = um_join (Some p) (pieces ++ [t])) /\
    (Forall (fun u => u <> []) (f :: fs) -> Forall (fun u => u <> []) pieces).
Proof.
  intros Hc. unfold um_first_li. destruct fresh.
  - replace ((um_fi true full =? 0) || (um_fi true full =? 1)) with true by (by destruct full).
    exists (f :: fs), [], (rlc_um_clear_rx_sdu r). cbn zeta. rewrite app_nil_r.
    split; [done|]. split; [apply clear_builds|]. by split_and!.
  - replace ((um_fi false full =? 0) || (um_fi false full =? 1)) with false by (by destruct full).
    destruct c as [p|]; destruct Hc as [Hm Hb]; rewrite Hm; cbn [Z.eqb negb].
    + exists (f :: fs), p, r. cbn zeta. rewrite app_nil_r. split; [done|]. split; [by apply builds_nil|]. by split_and!.
    + cbn [frag_sizes map head tail deref mbind res_bind].
      exists fs, [], (stat_add stat_rx_data_bytes_dropped (Z.of_nat (length f)) r). cbn zeta.
      split; [rewrite length_app, Nat2Z.inj_add; done|]. split.
      { split; [by destruct r|]. split; [by rewrite app_nil_r|]. split; [done|]. split; [exact Hb|by left]. }
      split; [done|]. split; [|by intros [_ ?]%Forall_cons]. intros t. by destruct fs.
Qed.

Lemma um_with_lis_ok (fresh full : bool) c pieces t pre tb r :
  data_ptr tb = pre ++ concat pieces ++ t -> pieces <> [] -> Forall (fun u => u <> []) (pieces ++ [t]) ->
  carry c r ->
  Forall (fun u => Z.of_nat (length u) <= sdu_max_size r) (um_join (if fresh then Some [] else c) (pieces ++ [t])) ->
  exists r', um_reassemble_with_lis tb (um_fi fresh full) (Z.of_nat (length pre)) (frag_sizes pieces)
      (Z.of_nat (length t)) r = Ok r' /\
    let '(out, c') := um_split full (um_join (if fresh then Some [] else c) (pieces ++ [t])) in
    um_effect r out c' r'.
Proof.
  intros Hd Hp Hne Hc Hfit. destruct pieces as [|f fs]; [done|]. apply Forall_app in Hne as [Hne Ht].
  apply Forall_cons in Ht as [Ht _].
  destruct (um_first_li_ok fresh full c f fs pre r Hc) as (pieces & p & r0 & E & B & Hcat & Hj & Hn).
  cbn zeta in E, Hcat. unfold um_reassemble_with_lis. rewrite E. cbn [mbind res_bind].
  set (skip := match (if fresh then Some [] else c) with Some _ => [] | None => f end) in *.
  rewrite Hd, Hcat, <- (app_assoc skip), (app_assoc pre).
  rewrite Hj in Hfit. rewrite um_join_snoc in Hfit. apply Forall_app in Hfit as [Hfit1 Hfit2].
  apply Forall_cons in Hfit2 as [Hfit2 _].
  destruct (um_lis_ok pieces p (pre ++ skip) t r0) as (r1 & E1 & B1); try done.
  { apply B. } { by apply Hn. } { by rewrite (builds_max _ _ _ _ B). }
  rewrite E1. cbn [mbind res_bind].
  assert (0 < Z.of_nat (length t)) by (destruct t; cbn [length]; [done|lia]).
  rewrite Z.gtb_ltb, (proj2 (Z.ltb_lt _ _)) by lia.
  rewrite Nat2Z.id, (app_assoc (pre ++ skip)), drop_app_length.
  pose proof (builds_trans _ _ _ _ _ _ _ B B1) as B2. cbn [app] in B2.
  destruct (um_tail_ok full _ t [] r _ r1 B2 Ht) as (r2 & E2 & H2); [exact Hfit2|].
  rewrite app_nil_r in E2. rewrite E2. cbn [mbind res_bind]. rewrite Hj, um_join_snoc, um_split_snoc.
  eexists. split; [reflexivity|].
  destruct full; cbn [um_split removelast last] in H2; destruct H2 as (q & Hq & B3); injection Hq as <-.
  - replace ((um_fi fresh true =? 0) || (um_fi fresh true =? 2)) with true by (by destruct fresh).
    by apply builds_effect.
  - replace ((um_fi fresh false =? 0) || (um_fi fresh false =? 2)) with false by (by destruct fresh).
    rewrite app_nil_r in B3. by apply builds_effect.
Qed.

(** The fixed header read back. *)
Lemma umd_b1_10 fi e sn :
  0 <= fi < 4 -> 0 <= e < 2 -> 0 <= sn < 1024 -> let b1 := 8 * fi + 4 * e + sn / 256 in
  Z.shiftr (Z.land b1 4) 2 = e /\ Z.shiftr (Z.land b1 24) 3 = fi /\ Z.land b1 3 = sn / 256.
Proof.
  intros Hf He Hs b1. split; [|split].
  - rewrite Z.shiftr_land, Z.shiftr_div_pow2 by lia. change (Z.shiftr 4 2) with (2 ^ 1 - 1).
    rewrite land_ones_mod by lia. change (2 ^ 1) with 2. change (2 ^ 2) with 4. unfold b1. mod_lia.
  - rewrite Z.shiftr_land, Z.shiftr_div_pow2 by lia. change (Z.shiftr 24 3) with (2 ^ 2 - 1).
    rewrite land_ones_mod by lia. change (2 ^ 2) with 4. change (2 ^ 3) with 8. unfold b1. mod_lia.
  - change 3 with (2 ^ 2 - 1). rewrite land_ones_mod by lia. change (2 ^ 2) with 4. unfold b1. mod_lia.
Qed.
Lemma umd_b1_5 fi e sn :
  0 <= fi < 4 -> 0 <= e < 2 -> 0 <= sn < 32 -> let b1 := 64 * fi + 32 * e + sn in
  Z.shiftr (Z.land b1 32) 5 = e /\ Z.shiftr (Z.land b1 192) 6 = fi /\ Z.land b1 31 = sn.
Proof.
  intros Hf He Hs b1. split; [|split].
  - rewrite Z.shiftr_land, Z.shiftr_div_pow2 by lia. change (Z.shiftr 32 5) with (2 ^ 1 - 1).
    rewrite land_ones_mod by lia. change (2 ^ 1) with 2. change (2 ^ 5) with 32. unfold b1. mod_lia.
  - rewrite Z.shiftr_land, Z.shiftr_div_pow2 by lia. change (Z.shiftr 192 6) with (2 ^ 2 - 1).
    rewrite land_ones_mod by lia. change (2 ^ 2) with 4. change (2 ^ 6) with 64. unfold b1. mod_lia.
  - change 31 with (2 ^ 5 - 1). rewrite land_ones_mod by lia. change (2 ^ 5) with 32. unfold b1. mod_lia.
Qed.

Definition sn_length_ok (n : Z) : Prop := n = 10 \/ n = 5.

Lemma umd_length n fi e sn : sn_length_ok n -> Z.of_nat (length (umd_header n fi e sn)) = if n =? 10 then 2 else 1.
Proof. by intros [-> | ->]. Qed.

(** A PDU, made of [pieces] that end with an SDU and of the last fragment [t]. *)
Definition umd_pdu (n : Z) (fresh full : bool) (sn : Z) (pieces : list (list Z)) (t : list Z) : list Z :=
  umd_bytes n (um_fi fresh full) sn (frag_sizes pieces) (concat pieces ++ t).
Definition umd_wf (n sn : Z) (pieces : list (list Z)) (t : list Z) : Prop :=
  sn_length_ok n /\ 0 <= sn < umd_sn_bound n /\ (length pieces <= 128)%nat /\
  Forall is_li (frag_sizes pieces) /\ Forall (fun u => u <> []) (pieces ++ [t]).

Lemma um_pdu_ok n (fresh full : bool) sn pieces t c r :
  umd_wf n sn pieces t -> rx_sn_length r = n -> carry c r ->
  Forall (fun u => Z.of_nat (length u) <= sdu_max_size r) (um_join (if fresh then Some [] else c) (pieces ++ [t])) ->
  let b := umd_pdu n fresh full sn pieces t in
  exists r', um_reassemble_pdu (Mk_mac_tb b (Z.of_nat (length b))) r = Ok r' /\
    let '(out, c') := um_split full (um_join (if fresh then Some [] else c) (pieces ++ [t])) in
    um_effect r out c' r'.
Proof.
  intros (Hn & Hsn & H128 & Hli & Hne) Hrx Hc Hfit b.
  assert (Hfi : 0 <= um_fi fresh full < 4) by (by destruct fresh, full).
  set (e := b2z (bool_decide (frag_sizes pieces <> []))).
  assert (He : 0 <= e < 2) by (unfold e; by destruct (bool_decide _)).
  set (h := umd_header n (um_fi fresh full) e sn).
  assert (Hb : b = h ++ li_bytes (frag_sizes pieces) ++ concat pieces ++ t) by done.
  assert (Hl : length (frag_sizes pieces) = length pieces) by apply length_map.
  assert (Hlb : Z.of_nat (length b) - Z.of_nat (length h) =
    Z.of_nat (li_length (length pieces) + length (concat pieces ++ t))).
  { rewrite Hb, !length_app. unfold li_bytes. rewrite length_li_enc, Hl. lia. }
  clearbody b.
  assert (Hhead : exists b1, array_get b 0 = Ok b1 /\
    (if rx_sn_length r =? 10 then (Z.shiftr (Z.land b1 4) 2, Z.shiftr (Z.land b1 24) 3, 2)
     else (Z.shiftr (Z.land b1 32) 5, Z.shiftr (Z.land b1 192) 6, 1)) =
    (e, um_fi fresh full, Z.of_nat (length h))).
  { unfold h. rewrite umd_length, Hrx by done. rewrite Hb. destruct Hn as [-> | ->].
    - destruct (umd_b1_10 (um_fi fresh full) e sn Hfi He Hsn) as (E1 & E2 & _). eexists. split; [reflexivity|].
      cbn [Z.eqb Pos.eqb]. by rewrite E1, E2.
    - destruct (umd_b1_5 (um_fi fresh full) e sn Hfi He Hsn) as (E1 & E2 & _). eexists. split; [reflexivity|].
      cbn [Z.eqb Pos.eqb]. by rewrite E1, E2. }
  destruct Hhead as (b1 & E1 & E2). unfold um_reassemble_pdu. cbn [data_ptr tb_size]. rewrite E1. cbn [mbind res_bind].
  rewrite E2, Hlb.
  replace (Z.of_nat (li_length (length pieces) + length (concat pieces ++ t)) >=? 0) with true
    by (symmetry; bool_lia).
  replace ((e =? 0) || (e =? 1)) with true by (symmetry; bool_lia).
  replace ((um_fi fresh full >=? 0) && (um_fi fresh full <=? 3)) with true by (symmetry; bool_lia).
  cbn [assert_that mbind res_bind]. pose proof Hne as Hne'. apply Forall_app in Hne' as [_ Ht].
  apply Forall_cons in Ht as [Ht _]. destruct (decide (pieces = [])) as [-> | Hp].
  - assert (e = 0) as -> by done. cbn [Z.eqb]. cbn [concat app length]. change (li_length 0) with 0%nat.
    apply um_data_ok; done.
  - assert (e = 1) as ->.
    { unfold e. rewrite bool_decide_eq_true_2; [done|]. by destruct pieces. }
    cbn [Z.eqb].
    assert (Htl : 0 < Z.of_nat (length t)) by (destruct t; cbn [length]; [done|lia]).
    pose proof (frag_sizes_sum pieces) as Hsum.
    pose proof (rlc_um_read_length_indicators_ok (frag_sizes pieces) h (concat pieces ++ t)) as Hrd.
    rewrite <- Hb, Hl in Hrd. rewrite Hrd; [|by destruct pieces|done|lia|rewrite Hsum, length_app; lia].
    cbn [mbind res_bind]. rewrite li_length_offset, Hl, Hsum.
    replace (Z.of_nat (length (concat pieces ++ t)) - Z.of_nat (length (concat pieces))) with (Z.of_nat (length t))
      by (rewrite length_app; lia).
    replace (Z.of_nat (length h) + Z.of_nat (li_length (length pieces)))
      with (Z.of_nat (length (h ++ li_bytes (frag_sizes pieces))))
      by (rewrite length_app; unfold li_bytes; rewrite length_li_enc, Hl; lia).
    apply um_with_lis_ok; try done. cbn [data_ptr]. by rewrite Hb, <- app_assoc.
Qed.

(** Reassembly of one UMD PDU. Take a PDU of the format of 36.322, 10 or 5 bit
    sequence number, whose non-empty fragments are [pieces], at most 128, each ending an
    SDU and below 2048 bytes, and a last one [t]; FI says whether the first byte begins an
    SDU ([fresh]) and the last one ends one ([full]). Given the state of reassembly - the
    bytes [p] of the SDU in construction, or [None] when that SDU has lost a PDU - such
    that no SDU exceeds the maximum size of the bearer, the code parses the PDU and
    delivers exactly the SDUs that end in it and whose first byte it has: the first
    fragment is put after [p], replaces it when the PDU begins an SDU, and is skipped
    after a loss; a last fragment that does not end its SDU is left in construction.
    Beyond these limits SDUs are damaged, see the findings. *)
Theorem um_reassemble_pdu_spec n (fresh full : bool) sn pieces t c r :
  umd_wf n sn pieces t -> rx_sn_length r = n -> carry c r ->
  Forall (fun u => Z.of_nat (length u) <= sdu_max_size r) (um_join (if fresh then Some [] else c) (pieces ++ [t])) ->
  let b := umd_pdu n fresh full sn pieces t in
  exists r', um_reassemble_pdu (Mk_mac_tb b (Z.of_nat (length b))) r = Ok r' /\
    let '(out, c') := um_split full (um_join (if fresh then Some [] else c) (pieces ++ [t])) in
    upper_layer r' = upper_layer r ++ out /\ carry c' r' /\ um_changed r r'.
Proof.
  intros H1 H2 H3 H4 b. destruct (um_pdu_ok n fresh full sn pieces t c r H1 H2 H3 H4) as (r' & E & H).
  exists r'. split; [exact E|]. destruct (um_split _ _) as [out c']. by destruct H as (? & ? & ?).
Qed.

Lemma um_reassemble_pdu_spec_witness :
  exists r', um_reassemble_pdu (Mk_mac_tb (umd_pdu 5 false false 7 [[1; 2]; [3; 4]] [5]) 9)
      (um_entity_zero <| rx_sn_length := 5 |> <| reassembly_missing_sn_detected := 1 |>) = Ok r' /\
    upper_layer r' = [[3; 4]] /\ carry (Some [5]) r'.
Proof.
  set (r := um_entity_zero <| rx_sn_length := 5 |> <| reassembly_missing_sn_detected := 1 |>).
  destruct (um_reassemble_pdu_spec 5 false false 7 [[1; 2]; [3; 4]] [5] None r) as (r' & E & H1 & H2 & _).
  - split; [by right|]. split; [by vm_compute|]. split; [cbn; lia|].
    split; repeat constructor; done.
  - done.
  - by split.
  - by repeat constructor.
  - exists r'. split; [exact E|]. split; [exact H1|exact H2].
Defined.
