(* ===== verification/RlcUmSegment.v ===== *)
(** * Segmentation of SDUs into an UMD PDU (rlc_um_segment.c)

    [rlc_um_segment_10] and [rlc_um_segment_5] have the same text but for the
    fixed header and for the size of the PDU, which only the second reduces
    ([data_pdu_size -= ...]); [trim] tells them apart.  [block] is the memory
    that [get_free_mem_block] returns, from [pdu_p] on, with whatever it last
    held, or [None] when there is none. *)

From S2P Require Import Prelude RlcAmTypes RlcAmLi RlcUmTypes.

(** ** How many SDUs fill the PDU *)
Record um_size_state := Mk_um_size {
  uz_pdu_remaining_size : Z;
  uz_data_pdu_size : Z;
  uz_test_remaining_size : Z;         (* test_pdu_remaining_size *)
  uz_test_li_length : Z;              (* test_li_length_in_bytes *)
  uz_size_to_substract : Z;           (* test_remaining_size_to_substract *)
  uz_num_li_to_substract : Z;         (* test_remaining_num_li_to_substract *)
  uz_test_num_li : Z;
  uz_continue : bool                  (* continue_fill_pdu_with_sdu *)
}.
#[export] Instance eta_um_size : Eta um_size_state :=
  fun s => Mk_um_size (uz_pdu_remaining_size s) (uz_data_pdu_size s) (uz_test_remaining_size s)
    (uz_test_li_length s) (uz_size_to_substract s) (uz_num_li_to_substract s) (uz_test_num_li s)
    (uz_continue s).

(** The branches that end the PDU. *)
Definition um_size_stop (trim : bool) (s : um_size_state) (reduction : Z) : um_size_state :=
  s <| uz_continue := false |> <| uz_test_remaining_size := 0 |> <| uz_size_to_substract := 0 |>
    <| uz_num_li_to_substract := 0 |>
    <| uz_pdu_remaining_size := uz_pdu_remaining_size s - reduction |>
    <| uz_data_pdu_size := if trim then u32 (uz_data_pdu_size s - reduction) else uz_data_pdu_size s |>.

(** The unsigned comparisons are made when the test size is above the
    [uint16_t] remaining size, where nothing wraps. *)
Definition um_size_decide (trim : bool) (sdu_remaining : Z) (s : um_size_state) : um_size_state :=
  let li := Z.lxor (uz_test_li_length s) 3 in
  if sdu_remaining >? uz_test_remaining_size s then um_size_stop trim s 0
  else if sdu_remaining =? uz_test_remaining_size s then um_size_stop trim s 0
  else if sdu_remaining + li =? uz_test_remaining_size s then um_size_stop trim s li
  else if sdu_remaining + li <? uz_test_remaining_size s then
    s <| uz_test_num_li := u32 (uz_test_num_li s + 1) |>
      <| uz_test_remaining_size := uz_test_remaining_size s - (sdu_remaining + li) |>
      <| uz_size_to_substract := li |> <| uz_num_li_to_substract := 1 |>
      <| uz_test_li_length := li |>
  else um_size_stop trim s 1.

Fixpoint um_size_loop (trim : bool) (sdu_in_buffer : list rlc_um_tx_sdu_management_t)
    (s : um_size_state) : um_size_state :=
  match sdu_in_buffer with
  | sdu_mngt_p :: next =>
      if uz_continue s
      then um_size_loop trim next (um_size_decide trim (sdu_remaining_size sdu_mngt_p) s)
      else s
  | [] => s
  end.

Definition um_size_start (hdr data_pdu_size : Z) : um_size_state :=
  Mk_um_size (data_pdu_size - hdr) data_pdu_size (data_pdu_size - hdr) 1 0 0 0 true.

(** There may be an LI that is not necessary. *)
Definition um_size_result (s : um_size_state) : Z * Z :=
  if uz_num_li_to_substract s >? 0
  then (u32 (uz_test_num_li s - 1), uz_pdu_remaining_size s - uz_size_to_substract s)
  else (uz_test_num_li s, uz_pdu_remaining_size s).

(** ** Filling the PDU *)
Record um_fill_state := Mk_um_fill {
  uf_bytes : list Z;            (* the memory block, from pdu_p on *)
  uf_data : Z;                  (* data *)
  uf_e_li : Z;                  (* e_li_p *)
  uf_li_length : Z;             (* li_length_in_bytes *)
  uf_num_li : Z;                (* fill_num_li *)
  uf_pdu_remaining_size : Z;
  uf_buffer_occupancy : Z;
  uf_last : bool                (* fi_last_byte_pdu_is_last_byte_sdu *)
}.
#[export] Instance eta_um_fill : Eta um_fill_state :=
  fun s => Mk_um_fill (uf_bytes s) (uf_data s) (uf_e_li s) (uf_li_length s) (uf_num_li s)
    (uf_pdu_remaining_size s) (uf_buffer_occupancy s) (uf_last s).

(** The loop on the head of [input_sdus]; a round that does not go on ends it. *)
Fixpoint um_fill_loop (test_num_li : Z) (input : list rlc_um_tx_sdu_management_t) (s : um_fill_state)
  : res (list rlc_um_tx_sdu_management_t * um_fill_state) :=
  match input with
  | [] => Ok ([], s)
  | sdu :: rest =>
      let remaining := sdu_remaining_size sdu in
      let li := Z.lxor (uf_li_length s) 3 in
      let n := uf_pdu_remaining_size s in
      if remaining >? n then
        src ← mem_read (sdu_data sdu) (sdu_segmented_size sdu) n;
        b ← mem_write (uf_bytes s) (uf_data s) src;
        let sdu := sdu <| sdu_remaining_size := u16 (remaining - n) |>
                       <| sdu_segmented_size := u16 (sdu_segmented_size sdu + n) |> in
        Ok (sdu :: rest,
            s <| uf_bytes := b |> <| uf_last := false |> <| uf_pdu_remaining_size := 0 |>
              <| uf_buffer_occupancy := uf_buffer_occupancy s - n |>)
      else if remaining =? n then
        src ← mem_read (sdu_data sdu) (sdu_segmented_size sdu) n;
        b ← mem_write (uf_bytes s) (uf_data s) src;
        Ok (rest,
            s <| uf_bytes := b |> <| uf_last := true |> <| uf_pdu_remaining_size := 0 |>
              <| uf_buffer_occupancy := uf_buffer_occupancy s - remaining |>)
      else if remaining + li <? n then
        src ← mem_read (sdu_data sdu) (sdu_segmented_size sdu) remaining;
        b ← mem_write (uf_bytes s) (uf_data s) src;
        let fill_num_li := u32 (uf_num_li s + 1) in
        '(b, e_li_p) ← fill_e_li b (uf_e_li s) li remaining (fill_num_li =? test_num_li);
        um_fill_loop test_num_li rest
          (s <| uf_bytes := b |> <| uf_data := uf_data s + remaining |> <| uf_e_li := e_li_p |>
             <| uf_li_length := li |> <| uf_num_li := fill_num_li |>
             <| uf_pdu_remaining_size := n - (remaining + li) |>
             <| uf_buffer_occupancy := uf_buffer_occupancy s - remaining |>)
      else Err FatalAssert          (* assert(1!=1), USER_MODE is defined by the build *)
  end.

(** ** The PDU *)

(** The size to allocate for [nb] bytes asked by MAC. *)
Definition um_data_pdu_size (r : rlc_um_entity_t) (nb : Z) : Z :=
  let n := Z.of_nat (length (input_sdus r)) in
  let max_li_overhead := (if n <=? 1 then 0 else Z.quot ((n - 1) * 3) 2 + Z.rem (n - 1) 2) in
  let all := u32 (buffer_occupancy r + tx_header_min_length_in_bytes r + max_li_overhead) in
  if u32 nb >=? all then all else u32 nb.

(** The fixed headers. *)
Definition um_header_10 (b : list Z) (fi fill_num_li vt : Z) : res (list Z) :=
  let b1 := u8 (Z.shiftl fi 3) in
  let b1 := (if fill_num_li >? 0 then Z.lor b1 4 else b1) in
  b ← array_set b 0 (Z.lor b1 (Z.land (Z.shiftr vt 8) 3));
  array_set b 1 (Z.land vt 255).
Definition um_header_5 (b : list Z) (fi fill_num_li vt : Z) : res (list Z) :=
  let b1 := u8 (Z.shiftl fi 6) in
  let b1 := (if fill_num_li >? 0 then Z.lor b1 32 else b1) in
  array_set b 0 (Z.lor b1 (Z.land vt 31)).

Definition um_segment_pdu (hdr : Z) (trim : bool) (header : list Z -> Z -> Z -> Z -> res (list Z))
    (block : option (list Z)) (nb : Z) (r : rlc_um_entity_t) : res rlc_um_entity_t :=
  match input_sdus r, block with
  | [], _ => Ok r
  | _, None => Ok r
  | head :: _, Some block =>
      let sz := um_size_loop trim (input_sdus r) (um_size_start hdr (um_data_pdu_size r nb)) in
      let '(test_num_li, pdu_remaining_size) := um_size_result sz in
      let fi_first := sdu_remaining_size head =? sdu_size head in
      block ← mem_write block 0 (replicate 4 0);
      '(input, fl) ← um_fill_loop test_num_li (input_sdus r)
        (Mk_um_fill block (hdr + Z.shiftr (test_num_li * 3 + 1) 1) hdr 1 0 pdu_remaining_size
           (buffer_occupancy r) false);
      let fi := (if fi_first then 0 else 2) + (if uf_last fl then 0 else 1) in
      bytes ← header (uf_bytes fl) fi (uf_num_li fl) (vt_us r);
      let size := i32 (uz_data_pdu_size sz - uf_pdu_remaining_size fl) in
      _ ← assert_that (size >? 0);
      Ok (r <| input_sdus := input |> <| buffer_occupancy := uf_buffer_occupancy fl |>
            <| vt_us := u16 (vt_us r + 1) |>
            <| pdus_to_mac_layer := pdus_to_mac_layer r ++ [Mk_mac_tb bytes size] |>)
  end.

Definition rlc_um_segment_10 (block : option (list Z)) (r : rlc_um_entity_t) : res rlc_um_entity_t :=
  let nb_bytes_to_transmit := i32 (nb_bytes_requested_by_mac r) in
  if nb_bytes_to_transmit <? 3 then Ok r
  else um_segment_pdu 2 false um_header_10 block nb_bytes_to_transmit r.
Definition rlc_um_segment_5 (block : option (list Z)) (r : rlc_um_entity_t) : res rlc_um_entity_t :=
  let nb_bytes_to_transmit := i32 (nb_bytes_requested_by_mac r) in
  if nb_bytes_to_transmit <? 2 then Ok r
  else um_segment_pdu 1 true um_header_5 block nb_bytes_to_transmit r.
