(* ===== verification/RlcUmSegmentSpec.v ===== *)
(** * Segmentation produces UMD PDUs

    The two loops of rlc_um_segment.c follow [pdu_plan] (RlcAmLi); the PDU they
    build has the format of 36.322 ([umd_pdu]), carries the next bytes of the
    queue and leaves the rest in it. *)

From S2P Require Import Prelude Bits RlcAmTypes RlcAmLi RlcUmTypes RlcUmLi RlcUmReassembly RlcUmSegment.


(** ** The queue *)

(** An SDU of the queue: [sdu_segmented_size] bytes were sent, the others not. *)
Definition um_sdu_wf (s : rlc_um_tx_sdu_management_t) : Prop :=
  0 <= sdu_segmented_size s /\ 0 < sdu_remaining_size s /\
  sdu_segmented_size s + sdu_remaining_size s = sdu_size s /\ sdu_size s < 65536 /\
  sdu_size s <= Z.of_nat (length (sdu_data s)).
Definition um_bytes (s : rlc_um_tx_sdu_management_t) : list Z := take (Z.to_nat (sdu_size s)) (sdu_data s).
Definition um_left (s : rlc_um_tx_sdu_management_t) : list Z := drop (Z.to_nat (sdu_segmented_size s)) (um_bytes s).
Definition um_part (x : Z) (s : rlc_um_tx_sdu_management_t) : rlc_um_tx_sdu_management_t :=
  s <| sdu_remaining_size := sdu_remaining_size s - x |> <| sdu_segmented_size := sdu_segmented_size s + x |>.

(** [m] SDUs and [x] bytes of the next one leave the queue. *)
Fixpoint um_rest (m : nat) (x : Z) (q : list rlc_um_tx_sdu_management_t) : list rlc_um_tx_sdu_management_t :=
  match q with
  | [] => []
  | s :: q' =>
      match m with
      | O => if x =? sdu_remaining_size s then q' else um_part x s :: q'
      | S m' => um_rest m' x q'
      end
  end.
Definition um_last_left (m : nat) (x : Z) (q : list rlc_um_tx_sdu_management_t) : list Z :=
  match q !! m with Some s => take (Z.to_nat x) (um_left s) | None => [] end.
Definition um_pieces (m : nat) (q : list rlc_um_tx_sdu_management_t) : list (list Z) := map um_left (take m q).
(** Whether the PDU begins, ends with the begin, the end of an SDU. *)
Definition um_fresh (q : list rlc_um_tx_sdu_management_t) : bool :=
  match q with s :: _ => sdu_remaining_size s =? sdu_size s | [] => false end.
Definition um_full (m : nat) (x : Z) (q : list rlc_um_tx_sdu_management_t) : bool :=
  match q !! m with Some s => x =? sdu_remaining_size s | None => false end.

Lemma length_um_left s : um_sdu_wf s -> Z.of_nat (length (um_left s)) = sdu_remaining_size s.
Proof.
  intros (H1 & H2 & H3 & H4 & H5). unfold um_left, um_bytes. rewrite length_drop, length_take. lia.
Qed.
Lemma read_um_left s n :
  um_sdu_wf s -> 0 <= n <= sdu_remaining_size s ->
  mem_read (sdu_data s) (sdu_segmented_size s) n = Ok (take (Z.to_nat n) (um_left s)).
Proof.
  intros (H1 & H2 & H3 & H4 & H5) Hn. rewrite mem_read_ok by lia. f_equal. unfold um_left, um_bytes.
  rewrite skipn_firstn_comm, take_take. f_equal. lia.
Qed.
Lemma frag_sizes_left m q :
  Forall um_sdu_wf q -> frag_sizes (um_pieces m q) = map sdu_remaining_size (take m q).
Proof.
  revert m. induction q as [|s q IH]; intros [|m] H; try done. apply Forall_cons in H as [Hs Hq].
  cbn [um_pieces take map frag_sizes]. f_equal; [by apply length_um_left|]. by apply IH.
Qed.

(** ** The first loop *)
Lemma um_size_decide_last trim s j n ns x d :
  pdu_plan (uz_test_remaining_size s) j (n :: ns) = Some (O, x, d) ->
  uz_test_li_length s = li_parity j -> um_size_decide trim n s = um_size_stop trim s d.
Proof.
  intros H Hj. cbn [pdu_plan] in H. unfold um_size_decide. rewrite Hj. pose proof (li_width j) as Hw.
  set (li := Z.lxor (li_parity j) 3) in *. set (T := uz_test_remaining_size s) in *. rewrite Z.gtb_ltb.
  destruct (Z.leb_spec T n).
  - injection H as <- <-. destruct (Z.ltb_spec T n); [done|]. by rewrite (proj2 (Z.eqb_eq n T)) by lia.
  - destruct (Z.ltb_spec (n + li) T) as [|Hge].
    { destruct (pdu_plan _ _ ns) as [[[? ?] ?]|]; discriminate H. }
    injection H as <- <-. rewrite (proj2 (Z.ltb_ge T n)), (proj2 (Z.eqb_neq n T)) by lia.
    destruct (Z.eqb_spec (n + li) T); [f_equal; lia|]. f_equal. lia.
Qed.

Lemma um_size_decide_li trim s j n ns m x d :
  pdu_plan (uz_test_remaining_size s) j (n :: ns) = Some (S m, x, d) ->
  uz_test_li_length s = li_parity j ->
  let li := Z.lxor (li_parity j) 3 in
  pdu_plan (uz_test_remaining_size s - (n + li)) (S j) ns = Some (m, x, d) /\
  um_size_decide trim n s =
    s <| uz_test_num_li := u32 (uz_test_num_li s + 1) |>
      <| uz_test_remaining_size := uz_test_remaining_size s - (n + li) |>
      <| uz_size_to_substract := li |> <| uz_num_li_to_substract := 1 |>
      <| uz_test_li_length := li_parity (S j) |>.
Proof.
  intros H Hj li. cbn [pdu_plan] in H. unfold um_size_decide. rewrite Hj, li_parity_S.
  pose proof (li_width j) as Hw. fold li in Hw, H |- *. set (T := uz_test_remaining_size s) in *.
  destruct (Z.leb_spec T n); [discriminate H|]. destruct (Z.ltb_spec (n + li) T); [|discriminate H].
  destruct (pdu_plan _ _ ns) as [[[m' x'] d']|]; [|discriminate H]. injection H as <- <- <-.
  split; [done|]. rewrite Z.gtb_ltb, (proj2 (Z.ltb_ge T n)) by lia.
  by rewrite (proj2 (Z.eqb_neq n T)), (proj2 (Z.eqb_neq (n + li) T)) by lia.
Qed.

Lemma um_size_loop_ok trim q : forall s j m x d,
  uz_continue s = true -> uz_test_li_length s = li_parity j ->
  pdu_plan (uz_test_remaining_size s) j (map sdu_remaining_size q) = Some (m, x, d) ->
  0 <= uz_data_pdu_size s - d < 2 ^ 32 -> 0 <= uz_test_num_li s -> uz_test_num_li s + Z.of_nat m < 2 ^ 32 ->
  let s' := um_size_loop trim q s in
  uz_pdu_remaining_size s' = uz_pdu_remaining_size s - d /\
  uz_data_pdu_size s' = uz_data_pdu_size s - (if trim then d else 0) /\
  uz_test_num_li s' = uz_test_num_li s + Z.of_nat m /\ uz_num_li_to_substract s' = 0.
Proof.
  induction q as [|sdu q IH]; intros s j m x d Hc Hj Hp Hd Hn0 Hn s'; [done|].
  unfold s'. cbn [um_size_loop]. rewrite Hc. cbn [map] in Hp. destruct m as [|m].
  - rewrite (um_size_decide_last _ _ _ _ _ _ _ Hp Hj).
    assert (Hq : um_size_loop trim q (um_size_stop trim s d) = um_size_stop trim s d) by by destruct q.
    rewrite Hq. cbn [um_size_stop uz_pdu_remaining_size uz_data_pdu_size uz_test_num_li uz_num_li_to_substract update_field].
    split; [done|]. split; [|split; [lia|done]]. destruct trim; [|lia]. apply wrapu_small. done.
  - destruct (um_size_decide_li trim _ _ _ _ _ _ _ Hp Hj) as [Hp' ->].
    set (s1 := s <| uz_test_num_li := _ |> <| uz_test_remaining_size := _ |> <| uz_size_to_substract := _ |>
      <| uz_num_li_to_substract := _ |> <| uz_test_li_length := _ |>).
    assert (Hn1 : uz_test_num_li s1 = uz_test_num_li s + 1) by (apply wrapu_small; lia).
    destruct (IH s1 (S j) m x d) as (H1 & H2 & H3 & H4); try done; try (rewrite Hn1; lia).
    rewrite H1, H2, H3, Hn1. split; [done|]. split; [done|]. split; [lia|done].
Qed.

(** ** The second loop *)

(** The round that ends the PDU. *)
Lemma um_fill_last_ok M sdu q s pre area pay tail :
  um_sdu_wf sdu -> 0 < uf_pdu_remaining_size s <= sdu_remaining_size sdu ->
  uf_bytes s = pre ++ area ++ pay ++ tail ->
  uf_data s = Z.of_nat (length pre + length area + length pay) ->
  let n := uf_pdu_remaining_size s in
  n <= Z.of_nat (length tail) ->
  exists s', um_fill_loop M (sdu :: q) s = Ok (um_rest 0 n (sdu :: q), s') /\
    uf_bytes s' = pre ++ area ++ (pay ++ take (Z.to_nat n) (um_left sdu)) ++ drop (Z.to_nat n) tail /\
    uf_num_li s' = uf_num_li s /\ uf_pdu_remaining_size s' = 0 /\ uf_last s' = (n =? sdu_remaining_size sdu) /\
    uf_buffer_occupancy s' = uf_buffer_occupancy s - n.
Proof.
  intros Hs Hn Hb Hd n Hlt. pose proof (length_um_left _ Hs) as Hlen. pose proof Hs as (S1 & S2 & S3 & S4 & S5).
  cbn [um_fill_loop um_rest]. fold n. rewrite (read_um_left sdu n) by (done || lia). rewrite Z.gtb_ltb, Hb.
  pose proof (li_area_write pre area pay tail (uf_data s) (take (Z.to_nat n) (um_left sdu)) Hd) as Hw.
  assert (Hl : length (take (Z.to_nat n) (um_left sdu)) = Z.to_nat n) by (rewrite length_take; lia).
  rewrite Hl in Hw. rewrite (Z.eqb_sym n).
  destruct (Z.ltb_spec n (sdu_remaining_size sdu)) as [Hm|Hm]; destruct (Z.eqb_spec (sdu_remaining_size sdu) n); try lia;
    cbn [mbind res_bind]; rewrite Hw by lia; cbn [mbind res_bind]; eexists.
  - split; [unfold um_part, u16; by rewrite !wrapu_small by (change (2 ^ 16) with 65536; lia)|]. by split_and!.
  - split; [reflexivity|]. cbn [uf_buffer_occupancy update_field]. split_and!; try done. lia.
Qed.

(** The round of an SDU followed by an LI. *)
Lemma um_fill_li_ok M sdu q s pre lis area pay tail :
  um_sdu_wf sdu -> is_li (sdu_remaining_size sdu) ->
  sdu_remaining_size sdu + Z.lxor (li_parity (length lis)) 3 < uf_pdu_remaining_size s ->
  uf_bytes s = pre ++ area ++ pay ++ tail -> li_area M lis area ->
  uf_data s = Z.of_nat (length pre + li_length M + length pay) ->
  uf_e_li s = Z.of_nat (length pre) + 3 * Z.of_nat (length lis / 2) ->
  uf_li_length s = li_parity (length lis) -> uf_num_li s = Z.of_nat (length lis) ->
  (length lis < M)%nat -> Z.of_nat M < 2 ^ 32 -> sdu_remaining_size sdu <= Z.of_nat (length tail) ->
  exists area', li_area M (lis ++ [sdu_remaining_size sdu]) area' /\
    um_fill_loop (Z.of_nat M) (sdu :: q) s = um_fill_loop (Z.of_nat M) q
      (s <| uf_bytes := pre ++ area' ++ (pay ++ um_left sdu) ++ drop (length (um_left sdu)) tail |>
         <| uf_data := uf_data s + sdu_remaining_size sdu |>
         <| uf_e_li := Z.of_nat (length pre) + 3 * Z.of_nat (S (length lis) / 2) |>
         <| uf_li_length := Z.lxor (li_parity (length lis)) 3 |> <| uf_num_li := Z.of_nat (S (length lis)) |>
         <| uf_pdu_remaining_size := uf_pdu_remaining_size s - (sdu_remaining_size sdu + Z.lxor (li_parity (length lis)) 3) |>
         <| uf_buffer_occupancy := uf_buffer_occupancy s - sdu_remaining_size sdu |>).
Proof.
  intros Hs Hsl Hlt Hb Ha Hd He Hli Hnum HM HM32 Ht. pose proof (li_width (length lis)) as Hw.
  pose proof (length_um_left sdu Hs) as Hul. pose proof Hs as (S1 & S2 & S3 & S4 & S5).
  cbn [um_fill_loop]. rewrite Hli, Z.gtb_ltb. set (T := uf_pdu_remaining_size s) in *.
  rewrite (proj2 (Z.ltb_ge T (sdu_remaining_size sdu))) by lia.
  rewrite (proj2 (Z.eqb_neq (sdu_remaining_size sdu) T)) by lia. rewrite (proj2 (Z.ltb_lt _ T)) by lia.
  rewrite (read_um_left sdu) by (done || lia). rewrite take_ge by lia. cbn [mbind res_bind].
  pose proof (proj1 Ha) as Hla. rewrite Hb, li_area_write by lia. cbn [mbind res_bind]. rewrite He, Hnum.
  assert (Hu : u32 (Z.of_nat (length lis) + 1) = Z.of_nat (S (length lis))).
  { unfold u32. rewrite wrapu_small; lia. }
  rewrite Hu. replace (Z.of_nat (S (length lis)) =? Z.of_nat M) with (S (length lis) =? M)%nat
    by (destruct (Nat.eqb_spec (S (length lis)) M), (Z.eqb_spec (Z.of_nat (S (length lis))) (Z.of_nat M)); lia).
  destruct (li_area_next pre M lis area (sdu_remaining_size sdu) ((pay ++ um_left sdu) ++ drop (length (um_left sdu)) tail)
    Ha HM Hsl) as (area' & -> & Ha2).
  exists area'. split; [exact Ha2|]. reflexivity.
Qed.

Lemma um_fill_loop_ok M q : forall s pre lis area pay tail m x,
  Forall um_sdu_wf q ->
  pdu_plan (uf_pdu_remaining_size s) (length lis) (map sdu_remaining_size q) = Some (m, x, 0) ->
  0 < uf_pdu_remaining_size s ->
  uf_bytes s = pre ++ area ++ pay ++ tail -> li_area M lis area ->
  uf_data s = Z.of_nat (length pre + li_length M + length pay) ->
  uf_e_li s = Z.of_nat (length pre) + 3 * Z.of_nat (length lis / 2) ->
  uf_li_length s = li_parity (length lis) -> uf_num_li s = Z.of_nat (length lis) ->
  (length lis + m)%nat = M -> Z.of_nat M < 2 ^ 32 -> Forall is_li (map sdu_remaining_size (take m q)) ->
  let n := sumZ (fun n => n) (map sdu_remaining_size (take m q)) + x in
  n <= Z.of_nat (length tail) ->
  exists s', um_fill_loop (Z.of_nat M) q s = Ok (um_rest m x q, s') /\
    uf_bytes s' = pre ++ li_bytes (lis ++ frag_sizes (um_pieces m q)) ++
      (pay ++ concat (um_pieces m q) ++ um_last_left m x q) ++ drop (Z.to_nat n) tail /\
    uf_num_li s' = Z.of_nat M /\ uf_pdu_remaining_size s' = 0 /\ uf_last s' = um_full m x q /\
    uf_buffer_occupancy s' = uf_buffer_occupancy s - n.
Proof.
  induction q as [|sdu q IH]; intros s pre lis area pay tail m x Hwf Hp HT Hb Ha Hd He Hli Hnum HM HM32 Hlis n Hn;
    [done|].
  pose proof Hwf as [Hs Hq]%Forall_cons. pose proof (length_um_left sdu Hs) as Hul.
  pose proof (li_width (length lis)) as Hw. cbn [map pdu_plan] in Hp.
  destruct (Z.leb_spec (uf_pdu_remaining_size s) (sdu_remaining_size sdu)) as [Hle|Hgt].
  - injection Hp as <- <-. unfold n in *. cbn [take map sumZ foldr] in Hn |- *. rewrite Z.add_0_l in Hn |- *.
    rewrite (li_area_end _ _ _ Ha) in Hb by lia. pose proof (length_li_enc false lis) as Hll.
    destruct (um_fill_last_ok (Z.of_nat M) sdu q s pre (li_bytes lis) pay tail) as (s' & F1 & F2 & F3 & F4 & F5 & F6);
      try done; try lia.
    { unfold li_bytes. rewrite Hd, Hll. by replace (length lis) with M by lia. }
    exists s'. rewrite F1, F2, F3, F4, F5, F6, Hnum. unfold um_last_left, um_full.
    cbn [lookup list_lookup um_pieces take map concat frag_sizes]. rewrite app_nil_r. split_and!; try done. lia.
  - destruct (Z.ltb_spec (sdu_remaining_size sdu + Z.lxor (li_parity (length lis)) 3) (uf_pdu_remaining_size s)) as [Hlt|].
    2:{ injection Hp as _ _ Hp. lia. }
    destruct (pdu_plan _ _ _) as [[[m' x'] d']|] eqn:E; [|discriminate Hp]. injection Hp as <- -> ->.
    cbn [take map] in Hlis. apply Forall_cons in Hlis as [Hsl Hlis].
    assert (Hn' : n = sdu_remaining_size sdu + (sumZ (fun n => n) (map sdu_remaining_size (take m' q)) + x)).
    { unfold n. cbn [take map sumZ foldr]. fold (sumZ (fun n => n) (map sdu_remaining_size (take m' q))). lia. }
    assert (0 <= sumZ (fun n => n) (map sdu_remaining_size (take m' q))).
    { apply sumZ_nonneg. intros y Hy. by destruct (proj1 (Forall_forall _ _) Hlis y Hy). }
    destruct (pdu_plan_spec _ _ _ _ _ _ E) as (n0 & _ & Hx & _); [lia| |].
    { apply Forall_map. eapply Forall_impl; [exact Hq|]. by intros ? (_ & ? & _). }
    destruct (um_fill_li_ok M sdu q s pre lis area pay tail) as (area' & Ha2 & ->); try done; try lia.
    set (s1 := s <| uf_bytes := _ |> <| uf_data := _ |> <| uf_e_li := _ |> <| uf_li_length := _ |> <| uf_num_li := _ |>
      <| uf_pdu_remaining_size := _ |> <| uf_buffer_occupancy := _ |>).
    destruct (IH s1 pre (lis ++ [sdu_remaining_size sdu]) area' (pay ++ um_left sdu) (drop (length (um_left sdu)) tail) m' x)
      as (s' & F1 & F2 & F3 & F4 & F5 & F6); unfold s1;
      cbn [uf_bytes uf_data uf_e_li uf_li_length uf_num_li uf_pdu_remaining_size update_field];
      rewrite ?length_app, ?length_drop; cbn [length]; rewrite ?Nat.add_1_r; try done; try lia.
    { by rewrite <- li_parity_S. }
    exists s'. split; [exact F1|]. split.
    { rewrite F2, drop_drop. unfold um_pieces, um_last_left. cbn [take map concat frag_sizes lookup list_lookup].
      rewrite Hul, <- !app_assoc. cbn [app]. do 6 f_equal. f_equal. lia. }
    split; [done|]. split; [done|]. split; [done|]. rewrite F6. unfold s1. cbn [uf_buffer_occupancy update_field]. lia.
Qed.

(** ** The fixed header *)
Lemma um_header_10_ok p1 p2 rest fi num_li vt :
  0 <= fi < 4 -> 0 <= vt ->
  um_header_10 (p1 :: p2 :: rest) fi num_li vt =
    Ok (umd_header 10 fi (b2z (num_li >? 0)) (vt mod 1024) ++ rest).
Proof.
  intros Hf Hv. unfold um_header_10. set (e := b2z (num_li >? 0)).
  assert (E1 : (if num_li >? 0 then Z.lor (u8 (Z.shiftl fi 3)) 4 else u8 (Z.shiftl fi 3)) = (2 * fi + e) * 2 ^ 2).
  { rewrite Z.shiftl_mul_pow2 by lia. unfold u8. rewrite wrapu_small by (change (2 ^ 8) with 256; change (2 ^ 3) with 8; lia).
    unfold e. destruct (num_li >? 0); cbn [b2z]; [rewrite lor_low by (change (2 ^ 3) with 8; lia)|];
      change (2 ^ 3) with 8; change (2 ^ 2) with 4; lia. }
  assert (E2 : Z.land (Z.shiftr vt 8) 3 = vt mod 1024 / 256).
  { rewrite Z.shiftr_div_pow2 by lia. change 3 with (2 ^ 2 - 1). rewrite land_ones_mod by lia.
    change (2 ^ 2) with 4. change (2 ^ 8) with 256. mod_lia. }
  assert (E3 : Z.land vt 255 = vt mod 1024 mod 256) by (rewrite land255; mod_lia).
  assert (Hx : 0 <= vt mod 1024 / 256 < 2 ^ 2) by (change (2 ^ 2) with 4; mod_lia).
  rewrite E1, E2, E3, (lor_low 2) by lia. rewrite array_set_ok by (cbn [length]; lia). cbn [mbind res_bind].
  rewrite array_set_ok by (rewrite length_insert; cbn [length]; lia). cbn. change (2 ^ 2) with 4.
  change (Z.to_nat 1) with 1%nat. change (Z.to_nat 0) with 0%nat. cbn. do 2 f_equal. lia.
Qed.
Lemma um_header_5_ok p1 rest fi num_li vt :
  0 <= fi < 4 -> 0 <= vt ->
  um_header_5 (p1 :: rest) fi num_li vt = Ok (umd_header 5 fi (b2z (num_li >? 0)) (vt mod 32) ++ rest).
Proof.
  intros Hf Hv. unfold um_header_5. set (e := b2z (num_li >? 0)).
  assert (E1 : (if num_li >? 0 then Z.lor (u8 (Z.shiftl fi 6)) 32 else u8 (Z.shiftl fi 6)) = (2 * fi + e) * 2 ^ 5).
  { rewrite Z.shiftl_mul_pow2 by lia. unfold u8. rewrite wrapu_small by (change (2 ^ 8) with 256; change (2 ^ 6) with 64; lia).
    unfold e. destruct (num_li >? 0); cbn [b2z]; [rewrite lor_low by (change (2 ^ 6) with 64; lia)|];
      change (2 ^ 6) with 64; change (2 ^ 5) with 32; lia. }
  assert (E2 : Z.land vt 31 = vt mod 32) by (change 31 with (2 ^ 5 - 1); by rewrite land_ones_mod by lia).
  assert (Hx : 0 <= vt mod 32 < 2 ^ 5) by (change (2 ^ 5) with 32; mod_lia).
  rewrite E1, E2, (lor_low 5) by lia. rewrite array_set_ok by (cbn [length]; lia). cbn. change (2 ^ 5) with 32.
  change (Z.to_nat 0) with 0%nat. cbn. do 2 f_equal. lia.
Qed.

(** ** The PDU *)
Definition um_segment (n : Z) : option (list Z) -> rlc_um_entity_t -> res rlc_um_entity_t :=
  if n =? 10 then rlc_um_segment_10 else rlc_um_segment_5.
Definition um_hdr (n : Z) : Z := if n =? 10 then 2 else 1.
Definition um_left_sum (q : list rlc_um_tx_sdu_management_t) : Z := sumZ (fun n => n) (map sdu_remaining_size q).

(** The transmitting side. *)
Record um_tx_ok (n : Z) (r : rlc_um_entity_t) : Prop := Mk_um_tx_ok {
  ut_len : sn_length_ok n /\ tx_sn_length r = n;
  ut_hdr : tx_header_min_length_in_bytes r = um_hdr n;
  ut_queue : Forall um_sdu_wf (input_sdus r);
  ut_bo : buffer_occupancy r = um_left_sum (input_sdus r);
  ut_vt : 0 <= vt_us r < 65536;
  ut_size : um_left_sum (input_sdus r) + 2 + Z.of_nat (li_length (length (input_sdus r))) < 2 ^ 31
}.

(** The plan for [nb] bytes. *)
Definition um_plan (n : Z) (r : rlc_um_entity_t) (nb : Z) : option (nat * Z * Z) :=
  pdu_plan (um_data_pdu_size r nb - um_hdr n) 0 (map sdu_remaining_size (input_sdus r)).

Lemma um_overhead k :
  (if Z.of_nat k <=? 1 then 0 else Z.quot ((Z.of_nat k - 1) * 3) 2 + Z.rem (Z.of_nat k - 1) 2) =
  Z.of_nat (li_length (k - 1)).
Proof.
  destruct (Z.leb_spec (Z.of_nat k) 1); [by destruct k as [|[]]; try done; lia|].
  unfold li_length. rewrite !Nat2Z.inj_add, Nat2Z.inj_div, Nat2Z.inj_mod, Nat2Z.inj_sub by lia.
  change (Z.of_nat 1) with 1. change (Z.of_nat 2) with 2.
  rewrite Z.quot_div_nonneg, Z.rem_mod_nonneg by lia. mod_lia.
Qed.

Lemma um_data_size_ok n r nb :
  um_tx_ok n r -> 0 <= nb < 2 ^ 31 ->
  um_data_pdu_size r nb = Z.min nb (um_left_sum (input_sdus r) + um_hdr n +
    Z.of_nat (li_length (length (input_sdus r) - 1))).
Proof.
  intros [T1 T2 T3 T4 T5 T6] Hnb. unfold um_data_pdu_size. rewrite um_overhead, T2, T4.
  pose proof (li_length_mono (length (input_sdus r) - 1) (length (input_sdus r)) ltac:(lia)).
  assert (0 <= um_left_sum (input_sdus r)).
  { apply sumZ_nonneg. intros y Hy. apply list_elem_of_fmap in Hy as (s & -> & Hs).
    by destruct (proj1 (Forall_forall _ _) T3 s Hs) as (_ & ? & _); lia. }
  assert (1 <= um_hdr n <= 2) by (unfold um_hdr; destruct (n =? 10); lia).
  change (2 ^ 31) with 2147483648 in *.
  unfold u32. rewrite !wrapu_small by (change (2 ^ 32) with 4294967296; lia).
  rewrite Z.geb_leb. destruct (Z.leb_spec (um_left_sum (input_sdus r) + um_hdr n +
    Z.of_nat (li_length (length (input_sdus r) - 1))) nb); lia.
Qed.

Definition um_sent (n : Z) (r : rlc_um_entity_t) (m : nat) (x : Z) : list Z :=
  umd_pdu n (um_fresh (input_sdus r)) (um_full m x (input_sdus r)) (vt_us r mod umd_sn_bound n)
    (um_pieces m (input_sdus r)) (um_last_left m x (input_sdus r)).
(** The bytes that leave the queue. *)
Definition um_taken (m : nat) (x : Z) (q : list rlc_um_tx_sdu_management_t) : Z :=
  sumZ (fun n => n) (map sdu_remaining_size (take m q)) + x.
Lemma um_taken_ge m x q : Forall um_sdu_wf q -> x <= um_taken m x q.
Proof.
  intros Hq. unfold um_taken. assert (0 <= sumZ (fun n => n) (map sdu_remaining_size (take m q))); [|lia].
  apply sumZ_nonneg. intros y Hy. apply list_elem_of_fmap in Hy as (s & -> & Hs).
  apply elem_of_take in Hs as (j & Hj & _). destruct (proj1 (Forall_lookup _ _) Hq j s Hj) as (_ & ? & _). lia.
Qed.
Definition um_after (n : Z) (r : rlc_um_entity_t) (m : nat) (x d : Z) (stale : list Z) : rlc_um_entity_t :=
  r <| input_sdus := um_rest m x (input_sdus r) |>
    <| buffer_occupancy := buffer_occupancy r - um_taken m x (input_sdus r) |>
    <| vt_us := u16 (vt_us r + 1) |>
    <| pdus_to_mac_layer := pdus_to_mac_layer r ++
         [Mk_mac_tb (um_sent n r m x ++ stale)
            (Z.of_nat (length (um_sent n r m x)) + (if n =? 10 then d else 0))] |>.

(** What the plan is for the queue. *)
Lemma um_plan_ok n r nb m x d :
  um_tx_ok n r -> input_sdus r <> [] -> um_hdr n < nb < 2 ^ 31 -> um_plan n r nb = Some (m, x, d) ->
  let q := input_sdus r in let T := um_data_pdu_size r nb - um_hdr n in
  0 < T /\ (exists s, q !! m = Some s /\ 0 < x <= sdu_remaining_size s /\ (d <> 0 -> x = sdu_remaining_size s)) /\
  0 <= d <= 2 /\ T = um_taken m x q + d + Z.of_nat (li_length m) /\ (length (take m q) = m)%nat /\
  pdu_plan (T - d) 0 (map sdu_remaining_size q) = Some (m, x, 0).
Proof.
  intros Hok Hne Hnb Hp q T. pose proof (um_data_size_ok n r nb Hok) as Hsz.
  assert (Hh : 1 <= um_hdr n <= 2) by (unfold um_hdr; destruct (n =? 10); lia).
  assert (Hpos : Forall (fun n => 0 < n) (map sdu_remaining_size q)).
  { apply Forall_map. eapply Forall_impl; [exact (ut_queue _ _ Hok)|]. by intros ? (_ & ? & _). }
  assert (0 < um_left_sum q).
  { unfold um_left_sum. subst q. destruct (input_sdus r) as [|s q]; [done|]. cbn [map sumZ foldr] in *.
    apply Forall_cons in Hpos as [Hs Hpos].
    assert (0 <= sumZ (fun n => n) (map sdu_remaining_size q)).
    { apply sumZ_nonneg. intros y Hy. pose proof (proj1 (Forall_forall _ _) Hpos y Hy) as ?. cbn in *. lia. }
    unfold sumZ in *. lia. }
  assert (HT : 0 < T) by (unfold T; rewrite Hsz by lia; fold q; lia).
  split; [exact HT|]. destruct (pdu_plan_spec _ _ _ _ _ _ Hp HT Hpos) as (y & Hy & H1 & H2 & H3 & H4).
  apply list_lookup_fmap_Some in Hy as (s & -> & Hs). fold T in H4. cbn [Nat.add] in H4.
  change (li_length 0) with 0%nat in H4. split; [by exists s|]. split; [done|].
  split. { unfold um_taken, q. rewrite H4, firstn_map. lia. }
  split. { unfold q. rewrite length_take. apply lookup_lt_Some in Hs. lia. }
  by apply pdu_plan_trim.
Qed.

(** The bytes of the PDU. *)
Lemma um_sent_eq n r m x :
  length (take m (input_sdus r)) = m ->
  um_sent n r m x = umd_header n (um_fi (um_fresh (input_sdus r)) (um_full m x (input_sdus r))) (b2z (Z.of_nat m >? 0))
      (vt_us r mod umd_sn_bound n) ++
    li_bytes (frag_sizes (um_pieces m (input_sdus r))) ++
    concat (um_pieces m (input_sdus r)) ++ um_last_left m x (input_sdus r).
Proof.
  intros Hm. unfold um_sent, umd_pdu, umd_bytes. do 3 f_equal.
  assert (Hl : length (frag_sizes (um_pieces m (input_sdus r))) = m)
    by (unfold frag_sizes, um_pieces; by rewrite !length_map).
  destruct m as [|m]; [done|]. by destruct (frag_sizes _).
Qed.
Lemma length_um_sent n r m x s :
  um_tx_ok n r -> length (take m (input_sdus r)) = m -> input_sdus r !! m = Some s -> 0 < x <= sdu_remaining_size s ->
  Z.of_nat (length (um_sent n r m x)) = um_hdr n + Z.of_nat (li_length m) + um_taken m x (input_sdus r).
Proof.
  intros Hok Hm Hs Hx. pose proof (proj1 (Forall_lookup _ _) (ut_queue _ _ Hok) _ _ Hs) as Hwf.
  rewrite um_sent_eq by done. rewrite !length_app. unfold li_bytes. rewrite length_li_enc.
  pose proof (frag_sizes_sum (um_pieces m (input_sdus r))) as E.
  rewrite frag_sizes_left in E |- * by apply Hok. rewrite length_map, Hm. unfold um_taken. rewrite E.
  unfold um_last_left. rewrite Hs. pose proof (length_um_left s Hwf) as Hl.
  rewrite !Nat2Z.inj_add, length_take, umd_length by apply Hok. unfold um_hdr. lia.
Qed.

(** The block: the fixed header, the room of the LIs, the rest. *)
Lemma um_block_split (block : list Z) h k :
  (h + k <= length block)%nat ->
  exists pre area tail, block = pre ++ area ++ tail /\ length pre = h /\ length area = k /\
    length tail = (length block - h - k)%nat.
Proof.
  intros H. exists (take h block), (take k (drop h block)), (drop k (drop h block)).
  rewrite !length_take, !length_drop. by rewrite !take_drop; split_and!; try lia.
Qed.

Lemma um_header_ok n pre rest fi num_li vt :
  sn_length_ok n -> Z.of_nat (length pre) = um_hdr n -> 0 <= fi < 4 -> 0 <= vt ->
  (if n =? 10 then um_header_10 else um_header_5) (pre ++ rest) fi num_li vt =
    Ok (umd_header n fi (b2z (num_li >? 0)) (vt mod umd_sn_bound n) ++ rest).
Proof.
  intros [-> | ->] Hl Hf Hv; cbn in Hl.
  - destruct pre as [|p1 [|p2 [|]]]; cbn [length] in Hl; try lia. by apply um_header_10_ok.
  - destruct pre as [|p1 [|]]; cbn [length] in Hl; try lia. by apply um_header_5_ok.
Qed.

(** The first loop and what follows it. *)
Lemma um_size_result_ok n r nb m x d :
  um_tx_ok n r -> input_sdus r <> [] -> um_hdr n < nb < 2 ^ 31 -> um_plan n r nb = Some (m, x, d) ->
  0 <= um_taken m x (input_sdus r) ->
  let sz := um_size_loop (negb (n =? 10)) (input_sdus r) (um_size_start (um_hdr n) (um_data_pdu_size r nb)) in
  um_size_result sz = (Z.of_nat m, um_data_pdu_size r nb - um_hdr n - d) /\
  uz_data_pdu_size sz = um_data_pdu_size r nb - (if n =? 10 then 0 else d) /\ Z.of_nat m < 2 ^ 32.
Proof.
  intros Hok Hne Hnb Hp Ht0 sz. pose proof (um_plan_ok n r nb m x d Hok Hne Hnb Hp) as (HT & _ & Hd & HTe & _).
  assert (Hh : 1 <= um_hdr n <= 2) by (unfold um_hdr; destruct (n =? 10); lia).
  pose proof (um_data_size_ok n r nb Hok ltac:(lia)) as Hsz.
  assert (Hm : Z.of_nat m < 2 ^ 32).
  { unfold li_length in HTe. change (2 ^ 31) with 2147483648 in *. change (2 ^ 32) with 4294967296. lia. }
  destruct (um_size_loop_ok (negb (n =? 10)) (input_sdus r) (um_size_start (um_hdr n) (um_data_pdu_size r nb)) 0 m x d)
    as (Z1 & Z2 & Z3 & Z4); try done; cbn [um_size_start uz_data_pdu_size uz_test_num_li];
    try (change (2 ^ 31) with 2147483648 in *; change (2 ^ 32) with 4294967296 in *; lia).
  fold sz in Z1, Z2, Z3, Z4. unfold um_size_result. rewrite Z4, Z1, Z2, Z3.
  cbn [um_size_start uz_pdu_remaining_size uz_test_num_li uz_data_pdu_size Z.gtb Z.compare].
  split; [by rewrite Z.add_0_l|]. split; [by destruct (n =? 10)|exact Hm].
Qed.

(** The PDU that the two loops and the header make. *)
Lemma um_segment_pdu_ok n r block nb m x d :
  um_tx_ok n r -> input_sdus r <> [] -> um_hdr n < nb < 2 ^ 31 -> um_plan n r nb = Some (m, x, d) ->
  Forall is_li (map sdu_remaining_size (take m (input_sdus r))) ->
  Z.max 4 (um_data_pdu_size r nb) <= Z.of_nat (length block) ->
  exists stale, d <= Z.of_nat (length stale) /\
    um_segment_pdu (um_hdr n) (negb (n =? 10)) (if n =? 10 then um_header_10 else um_header_5) (Some block) nb r =
      Ok (um_after n r m x d stale).
Proof.
  intros Hok Hne Hnb Hp Hlis Hblock.
  destruct (um_plan_ok n r nb m x d Hok Hne Hnb Hp) as (HT & (s & Hs & Hx & _) & Hd & HTe & Hm & Hp').
  assert (Hh : 1 <= um_hdr n <= 2) by (unfold um_hdr; destruct (n =? 10); lia).
  pose proof (um_taken_ge m x (input_sdus r) (ut_queue _ _ Hok)) as Htk.
  destruct (um_size_result_ok n r nb m x d Hok Hne Hnb Hp ltac:(lia)) as (Z1 & Z2 & Hm32).
  pose proof (length_um_sent n r m x s Hok Hm Hs Hx) as Hlen.
  pose proof (um_data_size_ok n r nb Hok ltac:(lia)) as Hsz.
  unfold um_segment_pdu. set (q := input_sdus r) in *. destruct q as [|s0 q0] eqn:Eq; [done|]. rewrite <- Eq in *.
  rewrite Z1, Z2, li_length_offset. set (T := um_data_pdu_size r nb - um_hdr n) in *.
  rewrite mem_write_ok by (cbn [length replicate]; lia). cbn [mbind res_bind].
  set (blk := take _ block ++ _ ++ _).
  assert (Hbl : length blk = length block).
  { unfold blk. rewrite !length_app, length_take, length_drop, length_replicate. lia. }
  destruct (um_block_split blk (Z.to_nat (um_hdr n)) (li_length m)) as (pre & area & tail & -> & L1 & L2 & L3); [lia|].
  destruct (um_fill_loop_ok m q (Mk_um_fill (pre ++ area ++ tail) (um_hdr n + Z.of_nat (li_length m)) (um_hdr n) 1 0 (T - d)
      (buffer_occupancy r) false) pre [] area [] tail m x) as (fl & F1 & F2 & F3 & F4 & F5 & F6);
    cbn [uf_bytes uf_data uf_e_li uf_li_length uf_num_li uf_pdu_remaining_size length Nat.add];
    try done; try (change (0 / 2)%nat with 0%nat; unfold um_taken in *; lia); try apply Hok; try (by apply li_area_start).
  rewrite F1. cbn [mbind res_bind]. rewrite F2, F3, F4, F5, F6. cbn [uf_buffer_occupancy app].
  assert (Hfi : (if sdu_remaining_size s0 =? sdu_size s0 then 0 else 2) + (if um_full m x q then 0 else 1) =
    um_fi (um_fresh q) (um_full m x q)) by (by rewrite Eq).
  assert (Hfr : 0 <= um_fi (um_fresh q) (um_full m x q) < 4) by (unfold um_fi; destruct (um_fresh q), (um_full m x q); lia).
  rewrite Hfi, (um_header_ok n pre) by (try done; try lia; apply Hok). cbn [mbind res_bind].
  assert (Hi : i32 (um_data_pdu_size r nb - (if n =? 10 then 0 else d) - 0) =
    Z.of_nat (length (um_sent n r m x)) + (if n =? 10 then d else 0)).
  { unfold i32. change (2 ^ 31) with 2147483648 in *.
    rewrite wraps_small by (try done; change (2 ^ (32 - 1)) with 2147483648; destruct (n =? 10); lia).
    destruct (n =? 10); lia. }
  assert (Hpos : 0 < Z.of_nat (length (um_sent n r m x)) + (if n =? 10 then d else 0)) by (destruct (n =? 10); lia).
  rewrite Hi, (proj2 (Z.gtb_lt _ 0) Hpos). cbn [assert_that mbind res_bind].
  exists (drop (Z.to_nat (um_taken m x q)) tail).
  split; [rewrite length_drop; lia|]. unfold um_after. fold q. rewrite um_sent_eq by done. fold q.
  by rewrite <- !app_assoc.
Qed.

(** ** The queue after the PDU *)
Lemma um_left_sum_cons s q : um_left_sum (s :: q) = sdu_remaining_size s + um_left_sum q.
Proof. done. Qed.
Lemma um_left_sum_app q1 q2 : um_left_sum (q1 ++ q2) = um_left_sum q1 + um_left_sum q2.
Proof. unfold um_left_sum. by rewrite map_app, sumZ_app. Qed.
Lemma um_rest_eq m x q s :
  q !! m = Some s -> um_rest m x q = (if um_full m x q then [] else [um_part x s]) ++ drop (S m) q.
Proof.
  revert m. induction q as [|s0 q IH]; intros [|m] Hs; try done.
  - injection Hs as ->. unfold um_full. cbn. by destruct (_ =? _).
  - cbn in Hs. cbn [um_rest]. rewrite (IH m Hs). done.
Qed.
Lemma um_part_wf x s : um_sdu_wf s -> 0 < x < sdu_remaining_size s -> um_sdu_wf (um_part x s).
Proof.
  intros (H1 & H2 & H3 & H4 & H5) Hx. unfold um_sdu_wf, um_part.
  cbn [sdu_segmented_size sdu_remaining_size sdu_size sdu_data update_field]. lia.
Qed.
Lemma um_rest_wf m x q s :
  q !! m = Some s -> Forall um_sdu_wf q -> 0 < x <= sdu_remaining_size s -> Forall um_sdu_wf (um_rest m x q).
Proof.
  intros Hs Hq Hx. rewrite (um_rest_eq _ _ _ s) by done. apply Forall_app. split; [|by apply Forall_drop].
  unfold um_full. rewrite Hs. destruct (Z.eqb_spec x (sdu_remaining_size s)); [done|].
  apply Forall_cons. split; [|done]. apply um_part_wf; [by apply (proj1 (Forall_lookup _ _) Hq m)|lia].
Qed.
Lemma um_rest_sum m x q s :
  q !! m = Some s -> um_left_sum (um_rest m x q) = um_left_sum q - um_taken m x q.
Proof.
  intros Hs. rewrite (um_rest_eq _ _ _ s) by done. unfold um_full. rewrite Hs.
  rewrite <- (take_drop_middle q m s Hs) at 2. rewrite !um_left_sum_app, um_left_sum_cons.
  unfold um_taken. fold (um_left_sum (take m q)). destruct (Z.eqb_spec x (sdu_remaining_size s)) as [-> | ?];
    unfold um_part; cbn [um_left_sum map sumZ foldr sdu_remaining_size update_field]; lia.
Qed.
Lemma um_rest_sizes m x q s (P : Z -> Prop) :
  q !! m = Some s -> Forall (fun s => P (sdu_size s)) q -> Forall (fun s => P (sdu_size s)) (um_rest m x q).
Proof.
  intros Hs Hq. rewrite (um_rest_eq _ _ _ s) by done. apply Forall_app. split; [|by apply Forall_drop].
  destruct (um_full m x q); [done|]. apply Forall_cons. split; [|done]. apply (proj1 (Forall_lookup _ _) Hq m s Hs).
Qed.
Lemma length_um_rest m x q s : q !! m = Some s -> (length (um_rest m x q) <= length q)%nat.
Proof.
  intros Hs. rewrite (um_rest_eq _ _ _ s) by done. apply lookup_lt_Some in Hs. rewrite length_app, length_drop.
  destruct (um_full m x q); cbn [length]; lia.
Qed.
Lemma um_left_part x s :
  um_sdu_wf s -> 0 <= x -> um_left s = take (Z.to_nat x) (um_left s) ++ um_left (um_part x s).
Proof.
  intros (H & _) Hx. rewrite <- (take_drop (Z.to_nat x) (um_left s)) at 1. f_equal. unfold um_left, um_bytes, um_part.
  cbn [sdu_segmented_size sdu_size sdu_data update_field]. rewrite drop_drop. f_equal. lia.
Qed.
(** No byte is lost, doubled or reordered. *)
Lemma um_rest_bytes m x q s :
  q !! m = Some s -> Forall um_sdu_wf q -> 0 < x <= sdu_remaining_size s ->
  concat (map um_left q) = concat (um_pieces m q) ++ um_last_left m x q ++ concat (map um_left (um_rest m x q)).
Proof.
  intros Hs Hwf Hx. pose proof (proj1 (Forall_lookup _ _) Hwf _ _ Hs) as Hw. rewrite (um_rest_eq m x q s Hs).
  rewrite <- (take_drop_middle q m s Hs) at 1. rewrite !map_app, !concat_app. cbn [map concat]. unfold um_pieces, um_last_left.
  rewrite Hs. f_equal. unfold um_full. rewrite Hs. pose proof (length_um_left s Hw) as Hl.
  destruct (Z.eqb_spec x (sdu_remaining_size s)) as [-> | Hne]; cbn [map concat app].
  - rewrite take_ge by lia. done.
  - rewrite (um_left_part x s) at 1 by (done || lia). by rewrite app_nil_r, <- app_assoc.
Qed.

Lemma um_plan_some n r nb :
  um_tx_ok n r -> input_sdus r <> [] -> um_hdr n < nb < 2 ^ 31 -> exists m x d, um_plan n r nb = Some (m, x, d).
Proof.
  intros Hok Hne Hnb. assert (Hh : 1 <= um_hdr n) by (unfold um_hdr; destruct (n =? 10); lia).
  pose proof (um_data_size_ok n r nb Hok ltac:(lia)) as Hsz. unfold um_plan.
  destruct (pdu_plan_total (um_data_pdu_size r nb - um_hdr n) 0 (map sdu_remaining_size (input_sdus r))) as [[[m x] d] E].
  - by destruct (input_sdus r).
  - rewrite length_map. change (li_length 0) with 0%nat. cbn [Nat.add]. fold (um_left_sum (input_sdus r)). lia.
  - by exists m, x, d.
Qed.


(** C27: Segmentation and concatenation. With bytes to send, every SDU's remaining bytes
    fewer than 2048 (the LI field has 11 bits: a longer one damages the header, see the
    findings), a memory block of at least the grant and 4 bytes and a grant of more than
    the header, the code sends one PDU of the format of 36.322: the next sequence number,
    FI telling whether it begins and ends with an SDU, an LI for every SDU that ends in it
    but the last. Its data is a prefix of the bytes in the queue and what is left behind
    it is the rest, byte for byte; it fills the opportunity or takes everything, up to the
    two bytes ([d]) that a last LI would have needed: these are left out with 5 bit
    sequence numbers, and with 10 bit ones [d] stale bytes of the memory block are sent
    behind the data. *)
Theorem um_segment_spec n r block nb :
  um_tx_ok n r -> input_sdus r <> [] -> um_hdr n < nb < 2 ^ 31 -> nb_bytes_requested_by_mac r = nb ->
  Forall is_li (map sdu_remaining_size (input_sdus r)) -> Z.max 4 nb <= Z.of_nat (length block) ->
  exists r' m t d stale,
    let pieces := um_pieces m (input_sdus r) in
    let full := um_full m (Z.of_nat (length t)) (input_sdus r) in
    let pdu := umd_pdu n (um_fresh (input_sdus r)) full (vt_us r mod umd_sn_bound n) pieces t in
    um_segment n (Some block) r = Ok r' /\
    pdus_to_mac_layer r' = pdus_to_mac_layer r ++
      [Mk_mac_tb (pdu ++ stale) (Z.of_nat (length pdu) + (if n =? 10 then d else 0))] /\
    concat (map um_left (input_sdus r)) = (concat pieces ++ t) ++ concat (map um_left (input_sdus r')) /\
    t <> [] /\ 0 <= d <= 2 /\ (d <> 0 -> full = true) /\
    Z.of_nat (length pdu) + d = Z.min nb (um_left_sum (input_sdus r) + um_hdr n +
      Z.of_nat (li_length (length (input_sdus r) - 1))) /\
    vt_us r' = (vt_us r + 1) mod 65536 /\
    buffer_occupancy r' = um_left_sum (input_sdus r') /\ Forall um_sdu_wf (input_sdus r').
Proof.
  intros Hok Hne Hnb Enb Hlis Hb. destruct (um_plan_some n r nb Hok Hne Hnb) as (m & x & d & Hp).
  destruct (um_plan_ok n r nb m x d Hok Hne Hnb Hp) as (HT & (s & Hs & Hx & Hdx) & Hd & HTe & Hm & _).
  assert (Hh : 1 <= um_hdr n) by (unfold um_hdr; destruct (n =? 10); lia).
  pose proof (um_data_size_ok n r nb Hok ltac:(lia)) as Hsz.
  destruct (um_segment_pdu_ok n r block nb m x d Hok Hne Hnb Hp) as (stale & Hst & E); [|lia|].
  { rewrite <- firstn_map. by apply Forall_take. }
  pose proof (length_um_sent n r m x s Hok Hm Hs Hx) as Hlen.
  pose proof (proj1 (Forall_lookup _ _) (ut_queue _ _ Hok) _ _ Hs) as Hw. pose proof (length_um_left s Hw) as Hls.
  assert (Hlx : Z.of_nat (length (um_last_left m x (input_sdus r))) = x).
  { unfold um_last_left. rewrite Hs, length_take. lia. }
  exists (um_after n r m x d stale), m, (um_last_left m x (input_sdus r)), d, stale. rewrite Hlx.
  fold (um_sent n r m x). split_and!; try done; try lia.
  - unfold um_segment. destruct (ut_len _ _ Hok) as [[-> | ->] _]; cbn [Z.eqb Pos.eqb um_hdr negb] in *.
    + unfold rlc_um_segment_10. rewrite Enb. unfold i32. rewrite wraps_small by (done || change (2 ^ (32 - 1)) with (2 ^ 31); lia).
      by rewrite (proj2 (Z.ltb_ge nb 3)) by lia.
    + unfold rlc_um_segment_5. rewrite Enb. unfold i32. rewrite wraps_small by (done || change (2 ^ (32 - 1)) with (2 ^ 31); lia).
      by rewrite (proj2 (Z.ltb_ge nb 2)) by lia.
  - rewrite <- app_assoc. apply (um_rest_bytes m x _ s Hs); [apply Hok|done].
  - intros E0. rewrite E0 in Hlx. cbn in Hlx. lia.
  - intros Hd0. unfold um_full. rewrite Hs. apply Z.eqb_eq. by apply Hdx.
  - fold (um_sent n r m x). lia.
  - pose proof (um_rest_sum m x _ s Hs) as Hr. pose proof (ut_bo _ _ Hok) as Hbo.
    cbn [um_after buffer_occupancy input_sdus update_field]. lia.
  - apply (um_rest_wf m x _ s Hs); [apply Hok|lia].
Qed.
Definition sample_um_queue : list rlc_um_tx_sdu_management_t := [Mk_um_sdu [1; 2; 3] 0 2 1 3; Mk_um_sdu [4; 5; 6; 7] 0 4 0 4].
Definition sample_um_sender : rlc_um_entity_t :=
  um_entity_zero <| tx_sn_length := 10 |> <| tx_header_min_length_in_bytes := 2 |> <| vt_us := 1025 |>
    <| input_sdus := sample_um_queue |> <| buffer_occupancy := 6 |> <| nb_bytes_requested_by_mac := 9 |>.
Lemma um_segment_spec_witness :
  exists m t r', um_segment 10 (Some (replicate 16 0)) sample_um_sender = Ok r' /\
    [2; 3; 4; 5; 6; 7] = (concat (um_pieces m sample_um_queue) ++ t) ++ concat (map um_left (input_sdus r')) /\
    t <> [] /\ vt_us r' = 1026.
Proof.
  destruct (um_segment_spec 10 sample_um_sender (replicate 16 0) 9) as (r' & m & t & d & stale & H1 & _ & H2 & H3 & _ & _ & _ & H4 & _).
  - apply Mk_um_tx_ok; [split; [by left|done]|done| |done| |done].
    + repeat constructor; vm_compute; intuition discriminate.
    + change (vt_us sample_um_sender) with 1025. lia.
  - done.
  - change (um_hdr 10) with 2. change (2 ^ 31) with 2147483648. lia.
  - done.
  - repeat constructor; vm_compute; intuition discriminate.
  - rewrite length_replicate. lia.
  - exists m, t, r'. split; [exact H1|]. split; [exact H2|]. split; [exact H3|exact H4].
Defined.
