(* ===== verification/RlcUmDar.v ===== *)
(** * Duplicate avoidance and reordering of the UM receiver (rlc_um_dar.c, rlc_um_receiver.c)

    The reception buffer, t-Reordering, the processing of a received PDU and of
    the expiry of t-Reordering.  The mutex of the buffer is never contended. *)

From S2P Require Import Prelude RlcAmTypes RlcTimers RlcUmTypes RlcUmWindow RlcUmReassembly.

(** ** t-Reordering *)
Definition rlc_um_stop_and_reset_timer_reordering (r : rlc_um_entity_t) : rlc_um_entity_t :=
  r <| t_reordering := timer_stopped (t_reordering r) |>.

Definition rlc_um_start_timer_reordering (c : protocol_ctxt_t) (r : rlc_um_entity_t) : rlc_um_entity_t :=
  let r := r <| t_reordering := (t_reordering r) <| timed_out := false |> |> in
  if ms_duration (t_reordering r) >? 0
  then r <| t_reordering := timer_started (time_ms c) (t_reordering r) |>
  else r.

Definition rlc_um_init_timer_reordering (ms_durationP : Z) (r : rlc_um_entity_t) : rlc_um_entity_t :=
  r <| t_reordering := (timer_stopped (t_reordering r)) <| ms_duration := ms_durationP |> |>.

(** -if VR(UH) > VR(UR): start t-Reordering and set VR(UX) to VR(UH). *)
Definition um_restart_reordering (c : protocol_ctxt_t) (otherwise : rlc_um_entity_t -> rlc_um_entity_t)
    (r : rlc_um_entity_t) : res rlc_um_entity_t :=
  in_window ← rlc_um_in_window r (vr_ur r) (vr_uh r) (vr_uh r);
  Ok (if in_window =? 2
      then (rlc_um_start_timer_reordering c r) <| vr_ux := vr_uh r |>
      else otherwise r).

Definition occupied (cell : option mac_tb) : bool :=
  match cell with Some _ => true | None => false end.

(** The first SN from [sn] on that is not in the buffer; the second search
    also stops at VR(UH), which it tests after the buffer. *)
Fixpoint um_skip_received (fuel : nat) (sn : Z) (r : rlc_um_entity_t) : res Z :=
  match fuel with
  | O => Err OutOfFuel
  | S fuel' =>
      cell ← rlc_um_get_pdu_from_dar_buffer r sn;
      if occupied cell then
        sn ← c_rem (sn + 1) (rx_sn_modulo r);
        um_skip_received fuel' sn r
      else Ok sn
  end.
Fixpoint um_skip_received_below_uh (fuel : nat) (sn : Z) (r : rlc_um_entity_t) : res Z :=
  match fuel with
  | O => Err OutOfFuel
  | S fuel' =>
      sn ← c_rem (sn + 1) (rx_sn_modulo r);
      cell ← rlc_um_get_pdu_from_dar_buffer r sn;
      if occupied cell && negb (sn =? vr_uh r)
      then um_skip_received_below_uh fuel' sn r
      else Ok sn
  end.

Definition rlc_um_check_timer_dar_time_out (c : protocol_ctxt_t) (r : rlc_um_entity_t)
  : res rlc_um_entity_t :=
  if running (t_reordering r) && timer_expired (t_reordering r) (time_ms c) then
    let r := stat_add stat_timer_reordering_timed_out 1 r in
    let old_vr_ur := vr_ur r in
    sn ← um_skip_received 1025 (vr_ux r) r;
    let r := r <| vr_ur := u16 sn |> in
    r ← rlc_um_try_reassembly old_vr_ur (vr_ur r) r;
    um_restart_reordering c rlc_um_stop_and_reset_timer_reordering r
  else Ok r.

(** ** A received PDU *)

(** x falls outside of the reordering window: VR(UH), the SDUs below the window,
    VR(UR).  ([in_window] keeps another value when VR(UR) is in the window, and
    is not used then.) *)
Definition um_advance_window (sn : Z) (r : rlc_um_entity_t) : res rlc_um_entity_t :=
  uh ← c_rem (sn + 1) (rx_sn_modulo r);
  let r := r <| vr_uh := u16 uh |> in
  ur_in ← rlc_um_in_reordering_window r (vr_ur r);
  '(in_window, r) ←
    (if negb (ur_in =? 0) then
       let in_window := vr_uh r - rx_um_window_size r in
       let in_window := (if in_window <? 0 then in_window + rx_sn_modulo r else in_window) in
       r ← rlc_um_try_reassembly (vr_ur r) in_window r;
       Ok (in_window, r)
     else Ok (ur_in, r));
  ur_in ← rlc_um_in_reordering_window r (vr_ur r);
  Ok (if ur_in <? 0 then r <| vr_ur := u16 in_window |> else r).

(** The received PDU is VR(UR). *)
Definition um_advance_ur (sn : Z) (r : rlc_um_entity_t) : res rlc_um_entity_t :=
  if sn =? vr_ur r then
    cell ← rlc_um_get_pdu_from_dar_buffer r (vr_ur r);
    if occupied cell then
      ur ← um_skip_received_below_uh 1025 (vr_ur r) r;
      let r := r <| vr_ur := u16 ur |> in
      rlc_um_try_reassembly sn (vr_ur r) r
    else Ok r
  else Ok r.

(** t-Reordering after the state variables. *)
Definition um_update_reordering (c : protocol_ctxt_t) (r : rlc_um_entity_t) : res rlc_um_entity_t :=
  r ← (if running (t_reordering r) && negb (vr_uh r =? vr_ux r) then
         in_window ← rlc_um_in_reordering_window r (vr_ux r);
         Ok (if in_window <? 0 then rlc_um_stop_and_reset_timer_reordering r else r)
       else Ok r);
  r ← (if running (t_reordering r) then
         in_window ← rlc_um_in_window r (vr_ur r) (vr_ux r) (vr_uh r);
         Ok (if (in_window =? -2) || (in_window =? 1)
             then rlc_um_stop_and_reset_timer_reordering r else r)
       else Ok r);
  if negb (running (t_reordering r)) then um_restart_reordering c (fun r => r) r else Ok r.

(** Placing the PDU in the buffer; [false] when it is a duplicate and discarded. *)
Definition um_place_pdu (tb : mac_tb) (sn : Z) (r : rlc_um_entity_t)
  : res (bool * rlc_um_entity_t) :=
  cell ← rlc_um_get_pdu_from_dar_buffer r sn;
  match cell with
  | Some _ =>
      in_window ← rlc_um_in_window r (vr_ur r) sn (vr_uh r);
      let r := stat_add stat_rx_data_bytes_duplicate (tb_size tb)
                 (stat_add stat_rx_data_pdus_duplicate 1 r) in
      if in_window =? 0 then Ok (false, r)
      else
        '(_, r) ← rlc_um_remove_pdu_from_dar_buffer sn r;
        r ← rlc_um_store_pdu_in_dar_buffer (Some tb) sn r;
        Ok (true, r)
  | None =>
      r ← rlc_um_store_pdu_in_dar_buffer (Some tb) sn r;
      Ok (true, r)
  end.

Definition um_pdu_sn (tb : mac_tb) (r : rlc_um_entity_t) : res Z :=
  if rx_sn_length r =? 10 then
    b1 ← array_get (data_ptr tb) 0;
    b2 ← array_get (data_ptr tb) 1;
    Ok (Z.shiftl (Z.land b1 3) 8 + b2)
  else if rx_sn_length r =? 5 then
    b1 ← array_get (data_ptr tb) 0;
    Ok (Z.land b1 31)
  else
    (* the block is released and used afterwards *)
    Err UndefinedBehaviour.

Definition rlc_um_receive_process_dar (c : protocol_ctxt_t) (tb : mac_tb) (r : rlc_um_entity_t)
  : res rlc_um_entity_t :=
  sn ← um_pdu_sn tb r;
  in_window ← rlc_um_in_window r (vr_uh r - rx_um_window_size r) sn (vr_ur r);
  if (in_window =? 1) || (in_window =? 0) then
    Ok (stat_add stat_rx_data_bytes_out_of_window (tb_size tb)
          (stat_add stat_rx_data_pdu_out_of_window 1 r))
  else
    '(stored, r) ← um_place_pdu tb sn r;
    if (stored : bool) then
      in_window ← rlc_um_in_reordering_window r sn;
      r ← (if in_window <? 0 then um_advance_window sn r else Ok r);
      r ← um_advance_ur sn r;
      um_update_reordering c r
    else Ok r.

(** The transport blocks of a MAC indication. *)
Fixpoint rlc_um_receive (c : protocol_ctxt_t) (data_indP : list mac_tb) (r : rlc_um_entity_t)
  : res rlc_um_entity_t :=
  match data_indP with
  | [] => Ok r
  | tb :: rest =>
      let r := stat_add stat_rx_data_bytes (tb_size tb) r in
      let r := stat_add stat_rx_data_pdu 1 r in
      r ← (if tb_size tb >? 0 then rlc_um_receive_process_dar c tb r else Ok r);
      rlc_um_receive c rest r
  end.
