(* ===== verification/RlcUmReordering.v ===== *)
(** * The UM receiver on unbounded numbers

    The receiver of rlc_um_dar.c works with sequence numbers modulo 1024 or 32.
    [dar] is the same machine with unbounded numbers.  It is the machine of
    36.322 5.1.2.2 as this code has it, with two deviations from the text:
    VR(UR) moves on only when the PDU just received is VR(UR) itself
    ([dar_in_order], rlc_um_dar.c:1120), and t-Reordering is not stopped when
    VR(UX) = VR(UR) = VR(UH) ([dar_reordering], rlc_um_dar.c:1154).  In it the PDUs of a sender are
    numbered from 0, VR(UR), VR(UX) and VR(UH) are such numbers, [d_held] is the set of
    PDUs in the reception buffer, and [d_slots] tells of each number below
    VR(UR) whether the PDU was there when reassembly passed it.  The C functions
    refine it as long as a PDU that arrives is less than a window away from
    VR(UH), and what they deliver is a function of [d_slots]. *)

From S2P Require Import Prelude RlcAmTypes RlcTimers RlcUmTypes.

(** ** The machine *)
Record dar := Mk_dar {
  d_slots : list bool;
  d_uh : Z;
  d_ux : Z;
  d_held : gset Z;
  d_timer : rlc_um_timer_t
}.
#[export] Instance eta_dar : Eta dar :=
  fun s => Mk_dar (d_slots s) (d_uh s) (d_ux s) (d_held s) (d_timer s).

(** VR(UR): everything below has been reassembled or given up. *)
Definition d_ur (s : dar) : Z := Z.of_nat (length (d_slots s)).

(** The first number from [a] on that is not held, [n] steps at most. *)
Fixpoint run_end (n : nat) (held : gset Z) (a : Z) : Z :=
  match n with
  | O => a
  | S n' => if bool_decide (a ∈ held) then run_end n' held (a + 1) else a
  end.

(** Reassembly passes the numbers below [e]. *)
Definition presence (held : gset Z) (a e : Z) : list bool :=
  map (fun j => bool_decide (j ∈ held)) (seqZ a (e - a)).
Definition dar_deliver (e : Z) (s : dar) : dar :=
  s <| d_slots := d_slots s ++ presence (d_held s) (d_ur s) e |>
    <| d_held := filter (fun j => e <= j) (d_held s) |>.

Definition dar_stop (s : dar) : dar := s <| d_timer := timer_stopped (d_timer s) |>.
Definition dar_restart (c : protocol_ctxt_t) (s : dar) : dar :=
  let t := (d_timer s) <| timed_out := false |> in
  s <| d_timer := if ms_duration t >? 0 then timer_started (time_ms c) t else t |> <| d_ux := d_uh s |>.

(** 5.1.2.2.3: a PDU is placed in the reception buffer.  [W] is UM_Window_Size. *)
Definition dar_window (W i : Z) (s : dar) : dar :=
  if i <? d_uh s then s
  else
    let s := s <| d_uh := i + 1 |> in
    if d_ur s <? d_uh s - W then dar_deliver (d_uh s - W) s else s.
(** As the code does it: only when the PDU received is VR(UR) itself, where 36.322
    looks whether the buffer has VR(UR). *)
Definition dar_in_order (i : Z) (s : dar) : dar :=
  if i =? d_ur s then
    dar_deliver (run_end (Z.to_nat (d_uh s - d_ur s)) (d_held s) (d_ur s)) s
  else s.
(** As the code does it: the case VR(UX) = VR(UR) = VR(UH) does not stop the timer,
    which 36.322 stops when VR(UX) <= VR(UR). *)
Definition dar_reordering (c : protocol_ctxt_t) (s : dar) : dar :=
  let s := (if running (d_timer s) && ((d_ux s <? d_ur s) || ((d_ux s =? d_ur s) && (d_ur s <? d_uh s)))
            then dar_stop s else s) in
  if negb (running (d_timer s)) && (d_ur s <? d_uh s) then dar_restart c s else s.

(** 5.1.2.2.2 and 5.1.2.2.3: a PDU is received. *)
Definition dar_receive (W : Z) (c : protocol_ctxt_t) (i : Z) (s : dar) : dar :=
  if i <? d_ur s then s
  else if bool_decide (i ∈ d_held s) && (d_ur s <? i) then s
  else dar_reordering c (dar_in_order i (dar_window W i (s <| d_held := {[i]} ∪ d_held s |>))).

(** 5.1.2.2.4: t-Reordering expires. *)
Definition dar_check (c : protocol_ctxt_t) (s : dar) : dar :=
  if running (d_timer s) && timer_expired (d_timer s) (time_ms c) then
    let s := dar_deliver (run_end (Z.to_nat (d_uh s - d_ux s)) (d_held s) (d_ux s)) s in
    if d_ur s <? d_uh s then dar_restart c s else dar_stop s
  else s.

(** Its invariant. *)
Record dar_inv (W : Z) (s : dar) : Prop := Mk_dar_inv {
  di_window : d_ur s <= d_uh s <= d_ur s + W;
  di_held : forall j, j ∈ d_held s -> d_ur s <= j < d_uh s;
  di_timer : running (d_timer s) = true ->
    d_ur s <= d_ux s <= d_uh s /\ (d_ux s = d_ur s -> d_ur s = d_uh s)
}.

Lemma run_end_range n held a : a <= run_end n held a <= a + Z.of_nat n.
Proof.
  revert a. induction n as [|n IH]; intros a; cbn [run_end]; [lia|].
  destruct (bool_decide_reflect (a ∈ held)); [|lia]. pose proof (IH (a + 1)). lia.
Qed.
Lemma run_end_held n held a j : a <= j < run_end n held a -> j ∈ held.
Proof.
  revert a. induction n as [|n IH]; intros a; cbn [run_end]; [lia|].
  destruct (bool_decide_reflect (a ∈ held)) as [Ha|]; [|lia]. intros Hj.
  destruct (decide (j = a)) as [-> | Hne]; [done|]. apply (IH (a + 1)). lia.
Qed.
Lemma length_presence held a e : a <= e -> Z.of_nat (length (presence held a e)) = e - a.
Proof. intros H. unfold presence. rewrite length_map, length_seqZ. lia. Qed.
Lemma presence_nil held a : presence held a a = [].
Proof. unfold presence. by rewrite Z.sub_diag. Qed.
Lemma presence_snoc held a e :
  a <= e -> presence held a (e + 1) = presence held a e ++ [bool_decide (e ∈ held)].
Proof.
  intros H. unfold presence. replace (e + 1 - a) with ((e - a) + 1) by lia.
  rewrite seqZ_app by lia. rewrite map_app. replace (a + (e - a)) with e by lia. done.
Qed.

Lemma presence_cons held a e :
  a < e -> presence held a e = bool_decide (a ∈ held) :: presence held (a + 1) e.
Proof.
  intros H. unfold presence. rewrite (seqZ_cons a) by lia. cbn [map fmap list_fmap]. f_equal.
  replace (Z.succ a) with (a + 1) by lia. do 2 f_equal. lia.
Qed.
Lemma presence_ext held1 held2 a e :
  (forall j, a <= j < e -> j ∈ held1 <-> j ∈ held2) -> presence held1 a e = presence held2 a e.
Proof.
  intros H. unfold presence. apply map_ext_in. intros j Hj%list_elem_of_In%elem_of_seqZ.
  apply bool_decide_ext, H. lia.
Qed.

Lemma deliver_ur e s : d_ur s <= e -> d_ur (dar_deliver e s) = e.
Proof.
  intros H. unfold d_ur, dar_deliver. cbn [d_slots update_field]. fold (d_ur s).
  rewrite length_app, Nat2Z.inj_add, length_presence by done. unfold d_ur. lia.
Qed.

(** *** The invariant is kept *)

(** Without t-Reordering, which is updated last. *)
Definition dar_window_inv (W : Z) (s : dar) : Prop :=
  (d_ur s <= d_uh s <= d_ur s + W) /\ (forall j, j ∈ d_held s -> d_ur s <= j < d_uh s) /\
  (running (d_timer s) = true -> d_uh s - 2 * W < d_ux s <= d_uh s).

Lemma deliver_inv W e s :
  dar_window_inv W s -> d_ur s <= e <= d_uh s -> dar_window_inv W (dar_deliver e s).
Proof.
  intros (H1 & H2 & H3) He. unfold dar_window_inv. rewrite deliver_ur by lia.
  cbn [dar_deliver d_uh d_held d_timer d_ux update_field]. split; [lia|]. split; [|done].
  intros j. rewrite elem_of_filter. intros [Hj1 Hj2]. pose proof (H2 j Hj2). lia.
Qed.

Lemma window_inv W i s :
  0 < W -> dar_inv W s -> i < d_uh s + W ->
  dar_window_inv W (dar_window W i (s <| d_held := {[i]} ∪ d_held s |>)) \/ i < d_ur s.
Proof.
  intros HW [H1 H2 H3] Hi. destruct (Z.le_gt_cases (d_ur s) i); [left|by right].
  unfold dar_window. cbn [d_uh update_field]. destruct (Z.ltb_spec i (d_uh s)).
  - split; [done|]. split; [|intros Hr; destruct (H3 Hr); cbn [d_ux d_uh update_field]; lia].
    cbn [d_held update_field]. intros j.
    rewrite elem_of_union, elem_of_singleton. intros [-> | Hj]; [|by apply H2].
    change (d_ur (s <| d_held := {[i]} ∪ d_held s |>)) with (d_ur s). cbn [d_uh update_field]. lia.
  - set (s1 := s <| d_held := {[i]} ∪ d_held s |> <| d_uh := i + 1 |>).
    assert (Hu : d_ur s1 = d_ur s) by done.
    assert (Hh : forall j, j ∈ d_held s1 -> d_ur s <= j < i + 1).
    { unfold s1. cbn [d_held update_field]. intros j. rewrite elem_of_union, elem_of_singleton.
      intros [-> | Hj]; [lia|]. pose proof (H2 j Hj). lia. }
    rewrite Hu. change (d_uh s1) with (i + 1). destruct (Z.ltb_spec (d_ur s) (i + 1 - W)).
    + unfold dar_window_inv. rewrite deliver_ur by (rewrite Hu; lia).
      cbn [dar_deliver d_uh d_held d_timer d_ux update_field]. change (d_uh s1) with (i + 1).
      split; [lia|]. split.
      * intros j. rewrite elem_of_filter. intros [Hj1 Hj2]. pose proof (Hh j Hj2). lia.
      * intros Hr. destruct (H3 Hr). unfold s1. cbn [d_ux d_timer update_field]. lia.
    + split; [rewrite Hu; cbn [d_uh s1 update_field]; lia|]. split; [rewrite Hu; exact Hh|].
      intros Hr. destruct (H3 Hr). unfold s1. cbn [d_ux d_timer d_uh update_field]. lia.
Qed.

Lemma in_order_inv W i s : dar_window_inv W s -> dar_window_inv W (dar_in_order i s).
Proof.
  intros H. unfold dar_in_order. destruct (Z.eqb_spec i (d_ur s)); [|done].
  pose proof H as ((Hw1 & Hw2) & _). pose proof (run_end_range (Z.to_nat (d_uh s - d_ur s)) (d_held s) (d_ur s)).
  apply deliver_inv; [done|lia].
Qed.

Lemma restart_inv W c s :
  dar_window_inv W s -> dar_inv W (dar_restart c s).
Proof.
  intros (H1 & H2 & H3). split; [exact H1|exact H2|]. unfold dar_restart. intros _.
  change (d_ur (s <| d_timer := _ |> <| d_ux := _ |>)) with (d_ur s).
  cbn [d_ux d_uh update_field]. split; [lia|done].
Qed.

Lemma reordering_inv W c s : dar_window_inv W s -> dar_inv W (dar_reordering c s).
Proof.
  intros H. pose proof H as (H1 & H2 & H3). unfold dar_reordering.
  destruct (running (d_timer s)) eqn:Hr; cbn [andb].
  - pose proof (H3 eq_refl) as H4. destruct (_ || _) eqn:E.
    + cbn [dar_stop d_timer timer_stopped running update_field negb andb].
      change (d_ur (dar_stop s)) with (d_ur s). change (d_uh (dar_stop s)) with (d_uh s).
      destruct (Z.ltb_spec (d_ur s) (d_uh s)).
      * apply restart_inv. by split.
      * by split.
    + rewrite Hr. cbn [negb andb]. split; [done|done|]. intros _. bool_prop. lia.
  - rewrite Hr. cbn [negb andb]. destruct (Z.ltb_spec (d_ur s) (d_uh s)); [by apply restart_inv|].
    split; [done|done|]. rewrite Hr. done.
Qed.

Lemma dar_inv_window W s : 0 < W -> dar_inv W s -> dar_window_inv W s.
Proof. intros HW [H1 H2 H3]. split; [done|]. split; [done|]. intros H. destruct (H3 H). lia. Qed.

Lemma dar_receive_inv W c i s :
  0 < W -> dar_inv W s -> i < d_uh s + W -> dar_inv W (dar_receive W c i s).
Proof.
  intros HW H Hi. unfold dar_receive. destruct (Z.ltb_spec i (d_ur s)); [done|].
  destruct (_ && _); [done|]. apply reordering_inv, in_order_inv.
  destruct (window_inv W i s HW H Hi) as [?|?]; [done|lia].
Qed.

Lemma dar_check_inv W c s : 0 < W -> dar_inv W s -> dar_inv W (dar_check c s).
Proof.
  intros HW H. unfold dar_check. destruct (running (d_timer s)) eqn:Hr; [|done].
  destruct (timer_expired _ _); [|done]. cbn [andb].
  destruct (di_timer _ _ H Hr) as [Hx Ht].
  pose proof (run_end_range (Z.to_nat (d_uh s - d_ux s)) (d_held s) (d_ux s)) as He.
  set (e := run_end _ _ _) in *.
  pose proof (deliver_inv W e s (dar_inv_window W s HW H) ltac:(lia)) as Hd.
  destruct (Z.ltb_spec (d_ur (dar_deliver e s)) (d_uh (dar_deliver e s))).
  - by apply restart_inv.
  - destruct Hd as (D1 & D2 & D3). split; [exact D1|exact D2|]. cbn. done.
Qed.

(** ** What the slots tell *)

(** VR(UH) follows the highest PDU received. *)
Lemma receive_uh W c i s : dar_inv W s -> d_uh (dar_receive W c i s) = Z.max (d_uh s) (i + 1).
Proof.
  intros [H1 H2 _]. unfold dar_receive. destruct (Z.ltb_spec i (d_ur s)); [lia|].
  destruct (bool_decide_reflect (i ∈ d_held s)) as [Hi|]; cbn [andb].
  - pose proof (H2 i Hi). destruct (d_ur s <? i); [lia|].
    unfold dar_reordering, dar_in_order, dar_window. cbn [d_uh update_field].
    rewrite (proj2 (Z.ltb_lt i (d_uh s))) by lia.
    repeat match goal with |- context [if ?b then _ else _] => destruct b end; cbn; lia.
  - unfold dar_reordering, dar_in_order, dar_window. cbn [d_uh update_field].
    destruct (Z.ltb_spec i (d_uh s)); rewrite ?Z.max_l, ?Z.max_r by lia;
      repeat match goal with |- context [if ?b then _ else _] => destruct b end; done.
Qed.
Lemma check_uh c s : d_uh (dar_check c s) = d_uh s.
Proof. unfold dar_check. repeat match goal with |- context [if ?b then _ else _] => destruct b end; done. Qed.

(** What is held, and what the slots hold, came from [A]. *)
Definition dar_from (A : Z -> Prop) (s : dar) : Prop :=
  (forall j, j ∈ d_held s -> A j) /\ (forall k : nat, d_slots s !! k = Some true -> A (Z.of_nat k)).

Lemma deliver_from A e s : dar_from A s -> dar_from A (dar_deliver e s).
Proof.
  intros [H1 H2]. split.
  - intros j. cbn [dar_deliver d_held update_field]. rewrite elem_of_filter. intros [_ Hj]. by apply H1.
  - intros k. cbn [dar_deliver d_slots update_field]. intros Hk. apply lookup_app_Some in Hk as [Hk | [Hge Hk]]; [by apply H2|].
    unfold presence in Hk. apply list_lookup_fmap_Some in Hk as (j & Hb & Hj).
    apply lookup_seqZ in Hj as [-> _]. symmetry in Hb. apply bool_decide_eq_true in Hb.
    unfold d_ur in Hb. replace (Z.of_nat k) with (Z.of_nat (length (d_slots s)) + Z.of_nat (k - length (d_slots s))) by lia.
    by apply H1.
Qed.
Lemma reordering_from A c s : dar_from A s -> dar_from A (dar_reordering c s).
Proof.
  intros H. unfold dar_reordering, dar_restart.
  repeat match goal with |- context [if ?b then _ else _] => destruct b end; exact H.
Qed.
Lemma receive_from (A : Z -> Prop) W c i s : dar_from A s -> A i -> dar_from A (dar_receive W c i s).
Proof.
  intros H Hi. unfold dar_receive. destruct (i <? d_ur s); [done|]. destruct (_ && _); [done|].
  apply reordering_from.
  assert (H1 : dar_from A (s <| d_held := {[i]} ∪ d_held s |>)).
  { split; [|apply H]. intros j. cbn [d_held update_field]. rewrite elem_of_union, elem_of_singleton.
    intros [-> | Hj]; [done|by apply H]. }
  set (s1 := s <| d_held := _ |>) in *.
  assert (H2 : dar_from A (dar_window W i s1)).
  { unfold dar_window. destruct (_ <? _); [done|]. destruct (_ <? _); [by apply deliver_from|done]. }
  unfold dar_in_order. destruct (_ =? _); [by apply deliver_from|done].
Qed.
Lemma check_from A c s : dar_from A s -> dar_from A (dar_check c s).
Proof.
  intros H. unfold dar_check. destruct (_ && _); [|done].
  destruct (_ <? _); by apply (deliver_from A) with (e := run_end (Z.to_nat (d_uh s - d_ux s)) (d_held s) (d_ux s)) in H.
Qed.

(** Everything in order: each PDU is delivered when it arrives. *)
Lemma receive_in_order W c s :
  0 < W -> dar_inv W s -> d_uh s = d_ur s -> running (d_timer s) = false ->
  let s' := dar_receive W c (d_ur s) s in
  d_slots s' = d_slots s ++ [true] /\ d_uh s' = d_ur s' /\ running (d_timer s') = false.
Proof.
  intros HW Hinv Hu Hrun. pose proof Hinv as [H1 H2 _]. unfold dar_receive. rewrite Z.ltb_irrefl.
  rewrite bool_decide_eq_false_2 by (intros Hj; pose proof (H2 _ Hj); lia). cbn [andb].
  unfold dar_window. change (d_uh (s <| d_held := {[d_ur s]} ∪ d_held s |>)) with (d_uh s).
  rewrite (proj2 (Z.ltb_ge (d_ur s) (d_uh s))) by lia. cbv zeta.
  set (s1 := s <| d_held := {[d_ur s]} ∪ d_held s |> <| d_uh := d_ur s + 1 |>).
  change (d_ur s1) with (d_ur s). change (d_uh s1) with (d_ur s + 1).
  rewrite (proj2 (Z.ltb_ge (d_ur s) (d_ur s + 1 - W))) by lia.
  unfold dar_in_order. change (d_ur s1) with (d_ur s). change (d_uh s1) with (d_ur s + 1). rewrite Z.eqb_refl.
  replace (Z.to_nat (d_ur s + 1 - d_ur s)) with 1%nat by lia. cbn [run_end].
  rewrite bool_decide_eq_true_2 by (cbn [s1 d_held update_field]; rewrite elem_of_union, elem_of_singleton; by left).
  set (s2 := dar_deliver (d_ur s + 1) s1).
  assert (E2 : d_slots s2 = d_slots s ++ [true] /\ d_uh s2 = d_ur s2).
  { split; [|unfold s2; by rewrite deliver_ur by (change (d_ur s1) with (d_ur s); lia)].
    unfold s2. cbn [dar_deliver d_slots update_field]. change (d_ur s1) with (d_ur s).
    rewrite presence_snoc, presence_nil by lia. cbn [app].
    rewrite bool_decide_eq_true_2; [done|]. cbn [s1 d_held update_field]. rewrite elem_of_union, elem_of_singleton. by left. }
  destruct E2 as [E2 E3]. assert (Ht : running (d_timer s2) = false) by exact Hrun.
  unfold dar_reordering. rewrite Ht. cbn [andb]. rewrite ?Ht, <- E3, Z.ltb_irrefl.
  cbn [negb andb]. by split_and!.
Qed.
