(* ===== verification/RlcUmDarSpec.v ===== *)
(** * The UM receiver refines 36.322 on unbounded numbers

    rlc_um_dar.c keeps sequence numbers modulo 1024 or 32 and a circular
    buffer.  Each of its operations refines the operation of [dar] of the same
    name, as long as a PDU that arrives is less than a window away from VR(UH),
    and the SDUs delivered are a function of [d_slots]. *)

From S2P Require Import Prelude RlcAmTypes RlcTimers RlcUmTypes RlcUmWindow RlcUmReassembly RlcUmDar RlcUmReordering.

(** ** Reassembly of the slots *)
Section refine.
Context (M W L s0 : Z) (HM : um_modulus M W) (HL : L = if M =? 1024 then 10 else 5).
Context (Hs0 : 0 <= s0 < M).

(** The sequence number of PDU [i]. *)
Definition um_sn (i : Z) : Z := (s0 + i) mod M.

(** The sender's PDUs: the first [N] of [tb].  [outs i cl] are the SDUs that
    PDU [i] delivers, [pre i] what is in construction before it, when the SDU
    of its first byte is complete up to there ([cl]), and [next i cl] tells
    whether the SDU of the last byte is. *)
Context (N : Z) (tb : Z -> mac_tb) (dp : bool).
Context (outs : Z -> bool -> list (list Z)) (next : Z -> bool -> bool) (pre : Z -> list Z).
Definition um_carry (i : Z) (cl : bool) : option (list Z) := if cl then Some (pre i) else None.
Context (Hsn : forall i r, 0 <= i < N -> rx_sn_length r = L -> um_pdu_sn (tb i) r = Ok (um_sn i)).
Context (Hpdu : forall i cl r, 0 <= i < N -> rx_sn_length r = L -> is_data_plane r = dp ->
  carry (um_carry i cl) r ->
  exists r', um_reassemble_pdu (tb i) r = Ok r' /\ um_effect r (outs i cl) (um_carry (i + 1) (next i cl)) r').

(** What the slots from [i] on deliver; a PDU that is not there breaks the SDU
    in construction. *)
Fixpoint slots_out (i : Z) (cl : bool) (slots : list bool) : list (list Z) :=
  match slots with
  | [] => []
  | true :: l => outs i cl ++ slots_out (i + 1) (next i cl) l
  | false :: l => slots_out (i + 1) false l
  end.
Fixpoint slots_clean (i : Z) (cl : bool) (slots : list bool) : bool :=
  match slots with
  | [] => cl
  | true :: l => slots_clean (i + 1) (next i cl) l
  | false :: l => slots_clean (i + 1) false l
  end.

Lemma slots_out_snoc i cl slots b :
  slots_out i cl (slots ++ [b]) = slots_out i cl slots ++
    (if b then outs (i + Z.of_nat (length slots)) (slots_clean i cl slots) else []).
Proof.
  revert i cl. induction slots as [|[] slots IH]; intros i cl; cbn [slots_out slots_clean app length].
  - rewrite Z.add_0_r. destruct b; [by rewrite app_nil_r|done].
  - rewrite IH, app_assoc. by replace (i + 1 + Z.of_nat (length slots)) with (i + Z.of_nat (S (length slots))) by lia.
  - rewrite IH. by replace (i + 1 + Z.of_nat (length slots)) with (i + Z.of_nat (S (length slots))) by lia.
Qed.
Lemma slots_clean_snoc i cl slots b :
  slots_clean i cl (slots ++ [b]) =
    (if b then next (i + Z.of_nat (length slots)) (slots_clean i cl slots) else false).
Proof.
  revert i cl. induction slots as [|[] slots IH]; intros i cl; cbn [slots_clean app length].
  - by rewrite Z.add_0_r.
  - rewrite IH. destruct b; [|done]. f_equal. lia.
  - rewrite IH. destruct b; [|done]. f_equal. lia.
Qed.

(** *** Sequence numbers *)
Lemma um_M : (M = 1024 \/ M = 32) /\ M = 2 * W /\ 16 <= W.
Proof. destruct HM as [[-> ->] | [-> ->]]; lia. Qed.
Lemma um_sn_range i : 0 <= um_sn i < M.
Proof. apply Z.mod_pos_bound. pose proof um_M. lia. Qed.
Lemma um_sn_next i : (um_sn i + 1) mod M = um_sn (i + 1).
Proof. unfold um_sn. rewrite Zplus_mod_idemp_l. f_equal. lia. Qed.
Lemma um_sn_inj i j : um_sn i = um_sn j -> Z.abs (i - j) < M -> i = j.
Proof.
  unfold um_sn. intros H Hd. pose proof um_M.
  assert (E : (i - j) mod M = 0).
  { replace (i - j) with ((s0 + i) - (s0 + j)) by lia. rewrite Zminus_mod, H, Z.sub_diag. done. }
  destruct (proj1 (Z.mod_divide (i - j) M ltac:(lia)) E) as [k Hk]. clear H E.
  destruct HM as [[-> ->] | [-> ->]]; lia.
Qed.
Lemma um_sn_eqb i j : Z.abs (i - j) < M -> (um_sn i =? um_sn j) = (i =? j).
Proof.
  intros H. destruct (Z.eqb_spec i j) as [-> | Hne]; [apply Z.eqb_refl|].
  apply Z.eqb_neq. intros E. by apply Hne, um_sn_inj.
Qed.
Lemma um_sn_shift i : um_sn (i - M) = um_sn i.
Proof. unfold um_sn. replace (s0 + (i - M)) with (s0 + i + (-1) * M) by lia. apply Z_mod_plus_full. Qed.
Lemma um_sn_up i : um_sn (i + M) = um_sn i.
Proof. rewrite <- um_sn_shift. f_equal. lia. Qed.
(** The distance of PDU [i] in the window of VR(UH) = [h]. *)
Lemma um_sn_pos h i : h - W <= i < h + W -> um_pos M W (um_sn h) (um_sn i) = i - (h - W).
Proof.
  intros H. pose proof um_M. unfold um_pos, um_sn.
  rewrite Zminus_mod_idemp_l. replace (s0 + i - ((s0 + h) mod M - W)) with (s0 + i + W - (s0 + h) mod M) by lia.
  rewrite Zminus_mod_idemp_r. rewrite Z.mod_small; lia.
Qed.
Lemma um_sn_16 i : u16 (um_sn i) = um_sn i /\ i16 (um_sn i) = um_sn i.
Proof.
  pose proof (um_sn_range i). pose proof um_M. split; [|by apply i16_small; lia].
  unfold u16. rewrite wrapu_small; change (2 ^ 16) with 65536; lia.
Qed.
Lemma um_c_rem i r : rx_sn_modulo r = M -> c_rem (um_sn i + 1) (rx_sn_modulo r) = Ok (um_sn (i + 1)).
Proof.
  intros ->. pose proof um_M. pose proof (um_sn_range i). unfold c_rem.
  rewrite (proj2 (Z.eqb_neq _ _)) by lia. rewrite Z.rem_mod_nonneg by lia. by rewrite um_sn_next.
Qed.

(** *** Reassembly *)

(** The entity between two slots, apart from VR(UR), VR(UX) and t-Reordering. *)
Record um_core (up : list (list Z)) (slots : list bool) (h : Z) (held : gset Z) (r : rlc_um_entity_t)
  : Prop := Mk_um_core {
  uc_cfg : um_rx_config M W r;
  uc_len : rx_sn_length r = L;
  uc_dp : is_data_plane r = dp;
  uc_uh : vr_uh r = um_sn h;
  uc_buf : exists buf, dar_buffer r = Some buf /\ length buf = 1024%nat /\
    forall j, h - M <= j < h ->
      buf !! Z.to_nat (um_sn j) = Some (if bool_decide (j ∈ held) then Some (tb j) else None);
  uc_carry : carry (um_carry (Z.of_nat (length slots)) (slots_clean 0 true slots)) r;
  uc_last : 0 <= last_reassemblied_sn r /\ (slots_clean 0 true slots = true ->
    (last_reassemblied_sn r + 1) mod M = um_sn (Z.of_nat (length slots)));
  uc_up : upper_layer r = up ++ slots_out 0 true slots;
  uc_state : protocol_state r = RLC_DATA_TRANSFER_READY_STATE
}.

Definition same_um_vars (r r' : rlc_um_entity_t) : Prop :=
  vr_ur r' = vr_ur r /\ vr_ux r' = vr_ux r /\ t_reordering r' = t_reordering r.

Lemma um_core_frame up slots h held r r' :
  um_core up slots h held r ->
  rx_sn_modulo r' = rx_sn_modulo r -> rx_um_window_size r' = rx_um_window_size r ->
  rx_sn_length r' = rx_sn_length r -> is_data_plane r' = is_data_plane r -> vr_uh r' = vr_uh r ->
  dar_buffer r' = dar_buffer r ->
  reassembly_missing_sn_detected r' = reassembly_missing_sn_detected r ->
  output_sdu_size_to_write r' = output_sdu_size_to_write r ->
  output_sdu_in_construction r' = output_sdu_in_construction r ->
  last_reassemblied_sn r' = last_reassemblied_sn r -> upper_layer r' = upper_layer r ->
  protocol_state r' = protocol_state r ->
  um_core up slots h held r'.
Proof.
  intros [C1 C2 C3 C4 C5 C6 C7 C8 C9] E1 E2 E3 E4 E5 E6 E7 E8 E9 E10 E11 E12.
  constructor; rewrite ?E3, ?E4, ?E5, ?E6, ?E10, ?E11, ?E12; try done.
  - unfold um_rx_config in *. by rewrite E1, E2.
  - revert C6. unfold carry, building. by rewrite E7, E8, E9.
Qed.

Lemma um_get_cell up slots h held r j :
  um_core up slots h held r -> h - M <= j < h ->
  rlc_um_get_pdu_from_dar_buffer r (um_sn j) = Ok (if bool_decide (j ∈ held) then Some (tb j) else None).
Proof.
  intros [_ _ _ _ (buf & Eb & Hl & Hb) _ _ _ _] Hj. unfold rlc_um_get_pdu_from_dar_buffer. rewrite Eb.
  cbn [deref mbind res_bind]. rewrite (proj1 (um_sn_16 j)). unfold array_get.
  rewrite (proj2 (Z.leb_le _ _)) by apply um_sn_range. by rewrite Hb.
Qed.

(** Writing the cell of [j]. *)
Lemma um_set_cell up slots h held r j v held' :
  um_core up slots h held r -> h - M <= j < h ->
  v = (if bool_decide (j ∈ held') then Some (tb j) else None) ->
  (forall i, i <> j -> i ∈ held' <-> i ∈ held) ->
  exists r', rlc_um_store_pdu_in_dar_buffer v (um_sn j) r = Ok r' /\ um_core up slots h held' r' /\
    r' = r <| dar_buffer := dar_buffer r' |>.
Proof.
  intros [C1 C2 C3 C4 (buf & Eb & Hl & Hb) C6 C7 C8 C9] Hj Hv Hh. unfold rlc_um_store_pdu_in_dar_buffer. rewrite Eb.
  pose proof (um_sn_range j) as Hr. pose proof um_M as HMM.
  cbn [deref mbind res_bind]. rewrite (proj1 (um_sn_16 j)), array_set_ok by lia. cbn [mbind res_bind].
  eexists. split; [reflexivity|]. split; [|by destruct r]. constructor; try done.
  eexists. split; [reflexivity|]. split; [by rewrite length_insert|]. intros i Hi.
  destruct (decide (i = j)) as [-> | Hne].
  - rewrite list_lookup_insert_eq by lia. by rewrite Hv.
  - pose proof (um_sn_range i). rewrite list_lookup_insert_ne.
    + rewrite Hb by done. by rewrite (bool_decide_ext _ _ (Hh i Hne)).
    + intros E. apply Z2Nat.inj in E; [|lia|lia]. apply um_sn_inj in E; [done|lia].
Qed.

Lemma um_cell_ok up slots h held r :
  um_core up slots h held r -> h - M <= Z.of_nat (length slots) < h ->
  (Z.of_nat (length slots) ∈ held -> Z.of_nat (length slots) < N) ->
  exists r', um_reassemble_cell (um_sn (Z.of_nat (length slots))) r = Ok r' /\
    um_core up (slots ++ [bool_decide (Z.of_nat (length slots) ∈ held)]) h
      (held ∖ {[Z.of_nat (length slots)]}) r' /\ same_um_vars r r'.
Proof.
  intros C Hw HN. set (i := Z.of_nat (length slots)) in *.
  assert (Hlen : forall b, Z.of_nat (length (slots ++ [b])) = i + 1)
    by (intros b; rewrite length_app; cbn [length]; lia).
  unfold um_reassemble_cell. rewrite (um_get_cell _ _ _ _ _ _ C Hw). cbn [mbind res_bind].
  destruct (bool_decide_reflect (i ∈ held)) as [Hi | Hi].
  - destruct (uc_last _ _ _ _ _ C) as [Hl0 Hl]. pose proof (uc_cfg _ _ _ _ _ C) as (_ & Hmod & _).
    pose proof um_M as HMM. unfold c_rem. rewrite Hmod, (proj2 (Z.eqb_neq _ _)) by lia.
    rewrite Z.rem_mod_nonneg by lia. cbn [mbind res_bind].
    set (cl := slots_clean 0 true slots) in *.
    set (r1 := if negb _ then rlc_um_clear_rx_sdu r else r).
    assert (Hr1 : carry (um_carry i cl) r1 /\ (r1 = r \/ r1 = rlc_um_clear_rx_sdu r)).
    { pose proof (uc_carry _ _ _ _ _ C) as Hc. fold i cl in Hc. unfold r1. destruct cl.
      - rewrite Hl by done. fold i. rewrite Z.eqb_refl. split; [done|by left].
      - destruct (negb _); [|split; [done|by left]]. split; [|by right]. by destruct Hc. }
    destruct Hr1 as [Hc1 Hr1].
    assert (Hfr : rx_sn_length r1 = L /\ is_data_plane r1 = dp /\ same_um_vars r r1 /\
      rx_sn_modulo r1 = rx_sn_modulo r /\ rx_um_window_size r1 = rx_um_window_size r /\ vr_uh r1 = vr_uh r /\
      dar_buffer r1 = dar_buffer r /\ upper_layer r1 = upper_layer r /\
      protocol_state r1 = protocol_state r).
    { pose proof (uc_len _ _ _ _ _ C). pose proof (uc_dp _ _ _ _ _ C). by destruct Hr1 as [-> | ->]. }
    destruct Hfr as (F1 & F2 & F3 & F4 & F5 & F6 & F7 & F8 & F8'). clearbody r1.
    destruct (Hpdu i cl (r1 <| last_reassemblied_sn := u16 (um_sn i) |>)) as (r2 & E2 & (Hch & Hup & Hc2));
      try done; [split; [lia|by apply HN]|].
    rewrite E2. cbn [mbind res_bind]. unfold um_changed in Hch.
    assert (C2 : um_core up (slots ++ [true]) h held r2).
    { constructor; rewrite ?Hlen, ?slots_clean_snoc, ?slots_out_snoc, ?Z.add_0_l; fold i cl.
      - rewrite Hch. unfold um_rx_config in *. cbn. rewrite F4, F5. apply C.
      - rewrite Hch. exact F1.
      - rewrite Hch. exact F2.
      - rewrite Hch. cbn. rewrite F6. apply C.
      - rewrite Hch. cbn. rewrite F7. apply C.
      - exact Hc2.
      - rewrite Hch. cbn [last_reassemblied_sn update_field]. rewrite (proj1 (um_sn_16 i)).
        split; [apply um_sn_range|]. intros _. apply um_sn_next.
      - rewrite Hup. cbn [upper_layer update_field]. rewrite F8, (uc_up _ _ _ _ _ C). by rewrite app_assoc.
      - rewrite Hch. cbn [protocol_state update_field]. rewrite F8'. apply C. }
    destruct (um_set_cell _ _ _ _ _ i None (held ∖ {[i]}) C2 Hw) as (r3 & E3 & C3 & F9).
    { rewrite bool_decide_eq_false_2; [done|]. rewrite elem_of_difference, elem_of_singleton. tauto. }
    { intros j Hj. rewrite elem_of_difference, elem_of_singleton. tauto. }
    exists r3. split; [exact E3|]. split; [exact C3|]. rewrite F9, Hch. unfold same_um_vars in *. exact F3.
  - eexists. split; [reflexivity|]. split; [|done].
    constructor; rewrite ?Hlen, ?slots_clean_snoc, ?slots_out_snoc, ?app_nil_r; try apply C; try done.
    + destruct (uc_buf _ _ _ _ _ C) as (buf & Eb & Hlb & Hb). exists buf. split; [exact Eb|]. split; [done|].
      intros j Hj. rewrite Hb by done. f_equal.
      assert (Hij : j ∈ held <-> j ∈ held ∖ {[i]}).
      { rewrite elem_of_difference, elem_of_singleton. split; [|tauto]. intros Hjh. split; [done|].
        intros ->. done. }
      by rewrite (bool_decide_ext _ _ Hij).
    + split; [|done]. apply C.
Qed.

Lemma um_loop_ok n : forall fuel up slots h held r,
  let i := Z.of_nat (length slots) in let e := i + Z.of_nat n in
  um_core up slots h held r -> (0 < n <= fuel)%nat -> Z.of_nat n <= M -> h - M <= i -> e <= h ->
  (forall j, j ∈ held -> i <= j) -> (forall j, j ∈ held -> j < N) ->
  exists r', um_reassembly_loop fuel (um_sn i) (um_sn e) r = Ok r' /\
    um_core up (slots ++ presence held i e) h (filter (fun j => e <= j) held) r' /\ same_um_vars r r'.
Proof.
  induction n as [|n IH]; intros fuel up slots h held r i e C Hn HnM Hh He Hlo HN; [lia|].
  destruct fuel as [|fuel]; [lia|]. cbn [um_reassembly_loop].
  destruct (um_cell_ok up slots h held r C ltac:(lia) (HN _)) as (r1 & E1 & C1 & V1). fold i in E1, C1.
  rewrite E1. cbn [mbind res_bind]. rewrite um_c_rem by apply C1. cbn [mbind res_bind].
  rewrite (uc_uh _ _ _ _ _ C1), !um_sn_eqb by lia.
  pose proof (length_presence held i (i + 1) ltac:(lia)) as Hp.
  assert (Hlen : Z.of_nat (length (slots ++ [bool_decide (i ∈ held)])) = i + 1)
    by (rewrite length_app; cbn [length]; lia).
  destruct (Z.eqb_spec (i + 1) e) as [Ee | Hne].
  - rewrite orb_true_r. exists r1. split; [done|]. split; [|done].
    assert (En : n = O) by lia. rewrite (presence_cons held i e) by lia. rewrite <- Ee, presence_nil.
    replace (filter (fun j => i + 1 <= j) held) with (held ∖ {[i]}); [done|].
    apply set_eq. intros j. rewrite elem_of_filter, elem_of_difference, elem_of_singleton.
    split; [intros [Hj Hji]; pose proof (Hlo j Hj); split; [lia|done]|].
    intros [Hj1 Hj2]. split; [done|lia].
  - rewrite (proj2 (Z.eqb_neq (i + 1) h)) by lia. cbn [orb].
    destruct (IH fuel up _ h (held ∖ {[i]}) r1 C1) as (r2 & E2 & C2 & V2);
      rewrite ?Hlen; try lia.
    { intros j. rewrite elem_of_difference, elem_of_singleton. intros [Hj Hji]. pose proof (Hlo j Hj). lia. }
    { intros j. rewrite elem_of_difference. intros [Hj _]. by apply HN. }
    rewrite Hlen in E2, C2. replace (i + 1 + Z.of_nat n) with e in E2, C2 by lia.
    exists r2. split; [exact E2|]. split.
    + rewrite (presence_cons held i e) by lia. rewrite <- app_assoc in C2. cbn [app] in C2.
      rewrite (presence_ext (held ∖ {[i]}) held) in C2.
      * replace (filter (fun j => e <= j) held) with (filter (fun j => e <= j) (held ∖ {[i]})); [done|].
        apply set_eq. intros j. rewrite !elem_of_filter, elem_of_difference, elem_of_singleton.
        split; [tauto|]. intros [Hj1 Hj2]. split; [done|]. split; [done|lia].
      * intros j Hj. rewrite elem_of_difference, elem_of_singleton. split; [tauto|]. intros ?. split; [done|lia].
    + unfold same_um_vars in *. destruct V1 as (V11 & V12 & V13). destruct V2 as (V21 & V22 & V23).
      split_and!; congruence.
Qed.

Lemma um_try_ok up slots h held r e :
  let i := Z.of_nat (length slots) in
  um_core up slots h held r -> i <= e <= h -> h - M <= i -> e < i + M ->
  (forall j, j ∈ held -> i <= j) -> (forall j, j ∈ held -> j < N) ->
  exists r', rlc_um_try_reassembly (um_sn i) (um_sn e) r = Ok r' /\
    um_core up (slots ++ presence held i e) h (filter (fun j => e <= j) held) r' /\ same_um_vars r r'.
Proof.
  intros i C He Hh HeM Hlo HN. unfold rlc_um_try_reassembly. pose proof um_M.
  rewrite (proj2 (um_sn_16 i)), (proj2 (um_sn_16 e)).
  pose proof (um_sn_range i). pose proof (um_sn_range e).
  rewrite !(proj2 (Z.ltb_ge _ 0)) by lia. rewrite um_sn_eqb by lia.
  destruct (Z.eqb_spec i e) as [<- | Hne].
  - exists r. split; [done|]. split; [|done]. rewrite presence_nil, app_nil_r.
    replace (filter (fun j => i <= j) held) with held; [done|].
    apply set_eq. intros j. rewrite elem_of_filter. split; [|tauto]. intros Hj. split; [by apply Hlo|done].
  - pose proof (um_loop_ok (Z.to_nat (e - i)) 1025 up slots h held r) as Hloop. cbn zeta in Hloop.
    fold i in Hloop. replace (i + Z.of_nat (Z.to_nat (e - i))) with e in Hloop by lia.
    apply Hloop; try done; lia.
Qed.

(** *** Searching the buffer *)
Definition held_in (lo h : Z) (held : gset Z) : Prop := forall j, j ∈ held -> lo <= j < h.

(** Nothing is held a whole circle away: the cell of VR(UH) is empty. *)
Lemma um_get_cell_uh up slots h held lo r :
  um_core up slots h held r -> held_in lo h held -> h - M < lo ->
  rlc_um_get_pdu_from_dar_buffer r (um_sn h) = Ok None.
Proof.
  intros C Hin Hlo. rewrite <- um_sn_shift. pose proof um_M.
  rewrite (um_get_cell _ _ _ _ _ _ C) by lia.
  rewrite bool_decide_eq_false_2; [done|]. intros Hj. pose proof (Hin _ Hj). lia.
Qed.

Lemma um_skip_ok up slots h held lo r n : forall fuel a,
  um_core up slots h held r -> held_in lo h held -> h - M < lo ->
  a + Z.of_nat n = h -> h - M <= a -> (n < fuel)%nat ->
  um_skip_received fuel (um_sn a) r = Ok (um_sn (run_end n held a)).
Proof.
  induction n as [|n IH]; intros fuel a C Hin Hlo Ha HaM Hf; (destruct fuel as [|fuel]; [lia|]);
    cbn [um_skip_received run_end].
  - replace a with h by lia. by rewrite (um_get_cell_uh _ _ _ _ _ _ C Hin Hlo).
  - rewrite (um_get_cell _ _ _ _ _ _ C) by lia. cbn [mbind res_bind].
    destruct (bool_decide (a ∈ held)); cbn [occupied]; [|done].
    rewrite um_c_rem by apply C. cbn [mbind res_bind]. apply IH; try done; lia.
Qed.

Lemma um_skip_below_ok up slots h held lo r n : forall fuel a,
  um_core up slots h held r -> held_in lo h held -> h - M < lo ->
  a + 1 + Z.of_nat n = h -> h - M <= a -> (n < fuel)%nat ->
  um_skip_received_below_uh fuel (um_sn a) r = Ok (um_sn (run_end n held (a + 1))).
Proof.
  induction n as [|n IH]; intros fuel a C Hin Hlo Ha HaM Hf; (destruct fuel as [|fuel]; [lia|]);
    cbn [um_skip_received_below_uh run_end]; rewrite um_c_rem by apply C; cbn [mbind res_bind].
  - replace (a + 1) with h by lia. by rewrite (um_get_cell_uh _ _ _ _ _ _ C Hin Hlo).
  - rewrite (um_get_cell _ _ _ _ _ _ C) by lia. cbn [mbind res_bind].
    rewrite (uc_uh _ _ _ _ _ C), um_sn_eqb by lia. rewrite (proj2 (Z.eqb_neq _ _)) by lia.
    destruct (bool_decide (a + 1 ∈ held)); cbn [occupied negb andb]; [|done].
    apply IH; try done; lia.
Qed.

(** *** Refinement *)
Record um_refines (up : list (list Z)) (s : dar) (r : rlc_um_entity_t) : Prop := Mk_um_refines {
  ur_core : um_core up (d_slots s) (d_uh s) (d_held s) r;
  ur_ur : vr_ur r = um_sn (d_ur s);
  ur_ux : vr_ux r = um_sn (d_ux s);
  ur_timer : t_reordering r = d_timer s;
  ur_N : forall j, j ∈ d_held s -> j < N
}.

(** Reassembly up to [e], with VR(UR) set before or after. *)
Lemma um_deliver_ok up s r e :
  um_core up (d_slots s) (d_uh s) (d_held s) r -> vr_ux r = um_sn (d_ux s) ->
  t_reordering r = d_timer s -> (forall j, j ∈ d_held s -> j < N) ->
  d_uh s - M <= d_ur s <= e -> e <= d_uh s -> e < d_ur s + M -> (forall j, j ∈ d_held s -> d_ur s <= j) ->
  exists r', rlc_um_try_reassembly (um_sn (d_ur s)) (um_sn e) r = Ok r' /\
    vr_ur r' = vr_ur r /\
    um_refines up (dar_deliver e s) (r' <| vr_ur := um_sn e |>).
Proof.
  intros C Hux Ht HN He1 He2 HeM Hlo.
  destruct (um_try_ok up (d_slots s) (d_uh s) (d_held s) r e C) as (r' & E & C' & V);
    [unfold d_ur in *; lia|unfold d_ur in *; lia|exact HeM|exact Hlo|done|].
  destruct V as (V1 & V2 & V3). exists r'. split; [exact E|]. split; [done|].
  split.
  - by apply (um_core_frame _ _ _ _ _ _ C').
  - rewrite deliver_ur by lia. done.
  - cbn [vr_ux update_field]. by rewrite V2.
  - cbn [t_reordering update_field]. by rewrite V3.
  - intros j. cbn [dar_deliver d_held update_field]. rewrite elem_of_filter. intros [_ Hj]. by apply HN.
Qed.

Lemma vr_ur_same r u : vr_ur r = u -> r <| vr_ur := u |> = r.
Proof. intros <-. by destruct r. Qed.

(** Inside the window, [rlc_um_in_window] compares the numbers. *)
Lemma um_place up slots h held r a x :
  um_core up slots h held r -> h - W <= a <= h -> h - W <= x <= h ->
  rlc_um_in_window r (um_sn a) (um_sn x) (um_sn h) = Ok (window_place a x h).
Proof.
  intros C Ha Hx. pose proof um_M. pose proof (uc_uh _ _ _ _ _ C) as Eu.
  pose proof (um_sn_range a). pose proof (um_sn_range x). pose proof (um_sn_range h).
  pose proof (um_sn_pos h a ltac:(lia)) as Pa. pose proof (um_sn_pos h x ltac:(lia)) as Px.
  pose proof (um_sn_pos h h ltac:(lia)) as Ph.
  destruct (um_in_window_ok M W r (um_sn a) (um_sn x) (um_sn h)) as (v & Ew & Hv);
    rewrite ?Eu in *; try lia; [apply C|].
  rewrite Ew, Pa, Ph. destruct Hv as [-> | Hv]; [|lia]. rewrite Px. f_equal. unfold window_place.
  rewrite !Z.gtb_ltb.
  destruct (Z.ltb_spec x a), (Z.ltb_spec (x - (h - W)) (a - (h - W))); try lia;
  destruct (Z.ltb_spec h x), (Z.ltb_spec (h - (h - W)) (x - (h - W))); try lia;
  destruct (Z.eqb_spec a x), (Z.eqb_spec (a - (h - W)) (x - (h - W))); try lia;
  destruct (Z.eqb_spec h x), (Z.eqb_spec (h - (h - W)) (x - (h - W))); lia.
Qed.

Lemma um_restart_ok up c f s r :
  um_refines up s r -> dar_window_inv W s ->
  (d_ur s < d_uh s -> exists r', um_restart_reordering c f r = Ok r' /\ um_refines up (dar_restart c s) r') /\
  (d_uh s <= d_ur s -> um_restart_reordering c f r = Ok (f r)).
Proof.
  intros [C E1 E2 E3 E4] (H1 & H2 & H3). pose proof um_M. unfold um_restart_reordering.
  rewrite E1, (uc_uh _ _ _ _ _ C), (um_place _ _ _ _ _ _ _ C) by lia. cbn [mbind res_bind].
  unfold window_place. rewrite Z.ltb_irrefl, Z.eqb_refl, Z.gtb_ltb, (proj2 (Z.ltb_ge _ _)) by lia.
  split; intros Hlt; destruct (Z.eqb_spec (d_ur s) (d_uh s)) as [Heq|Hneq]; try lia; [|done].
  change (2 =? 2) with true. cbv iota.
  eexists. split; [done|].
  assert (Hst : forall r', r' = rlc_um_start_timer_reordering c r ->
    um_core up (d_slots s) (d_uh s) (d_held s) r' /\ vr_ur r' = vr_ur r /\
    t_reordering r' = (let t := (t_reordering r) <| timed_out := false |> in
      if ms_duration t >? 0 then timer_started (time_ms c) t else t)).
  { intros r' ->. unfold rlc_um_start_timer_reordering. cbn [t_reordering update_field].
    destruct (_ >? 0); (split; [by apply (um_core_frame _ _ _ _ _ _ C)|done]). }
  destruct (Hst _ eq_refl) as (C' & F1 & F2). set (r1 := rlc_um_start_timer_reordering c r) in *. clearbody r1.
  split; cbn [vr_ur vr_ux t_reordering update_field]; try done.
  - by apply (um_core_frame _ _ _ _ _ _ C').
  - by rewrite F1.
  - rewrite F2, E3. done.
Qed.

(** t-Reordering expires. *)
Lemma um_check_refines up c s r :
  dar_inv W s -> um_refines up s r ->
  exists r', rlc_um_check_timer_dar_time_out c r = Ok r' /\ um_refines up (dar_check c s) r'.
Proof.
  intros Hi Hr. pose proof um_M as HMM. pose proof (dar_inv_window W s ltac:(lia) Hi) as Hw.
  pose proof Hr as [C E1 E2 E3 E4]. unfold rlc_um_check_timer_dar_time_out, dar_check. rewrite E3.
  destruct (running (d_timer s)) eqn:Hrun; cbn [andb]; [|by exists r].
  destruct (timer_expired _ _); [|by exists r].
  destruct (di_timer _ _ Hi Hrun) as [Hx _]. destruct Hw as (W1 & W2 & W3).
  set (r1 := stat_add stat_timer_reordering_timed_out 1 r).
  assert (C1 : um_core up (d_slots s) (d_uh s) (d_held s) r1) by (by apply (um_core_frame _ _ _ _ _ _ C)).
  change (vr_ux r1) with (vr_ux r). change (vr_ur r1) with (vr_ur r). rewrite E1, E2.
  rewrite (um_skip_ok up _ _ _ (d_ur s) r1 (Z.to_nat (d_uh s - d_ux s)) 1025 (d_ux s) C1) by (done || lia).
  cbn [mbind res_bind]. pose proof (run_end_range (Z.to_nat (d_uh s - d_ux s)) (d_held s) (d_ux s)) as He.
  set (e := run_end _ _ _) in *. rewrite (proj1 (um_sn_16 e)).
  set (r2 := r1 <| vr_ur := um_sn e |>).
  destruct (um_deliver_ok up s r2 e) as (r3 & T1 & T2 & T3); try done; try lia.
  { by apply (um_core_frame _ _ _ _ _ _ C1). }
  { intros j Hj. apply (W2 j Hj). }
  change (vr_ur r2) with (um_sn e) in *. rewrite T1. cbn [mbind res_bind].
  rewrite vr_ur_same in T3 by done.
  pose proof (deliver_inv W e s ltac:(by split) ltac:(lia)) as Hd.
  destruct (um_restart_ok up c rlc_um_stop_and_reset_timer_reordering _ r3 T3 Hd) as [R1 R2].
  destruct (Z.ltb_spec (d_ur (dar_deliver e s)) (d_uh (dar_deliver e s))) as [Hlt | Hge].
  - by destruct (R1 Hlt) as (r' & -> & R3); exists r'.
  - rewrite (R2 Hge). eexists. split; [done|]. destruct T3 as [D1 D2 D3 D4 D5].
    split; try done.
    + by apply (um_core_frame _ _ _ _ _ _ D1).
    + cbn [rlc_um_stop_and_reset_timer_reordering t_reordering update_field]. by rewrite D4.
Qed.
(** *** A PDU is received *)
Lemma um_refines_frame up s r r' :
  um_refines up s r -> um_core up (d_slots s) (d_uh s) (d_held s) r' -> same_um_vars r r' -> um_refines up s r'.
Proof.
  intros [C E1 E2 E3 E4] C' (V1 & V2 & V3). by split; rewrite ?V1, ?V2, ?V3.
Qed.
Lemma um_refines_stat up s r (proj : rlc_um_stats -> Z) `{!Setter proj} n :
  um_refines up s r -> um_refines up s (stat_add proj n r).
Proof.
  intros H. apply (um_refines_frame _ _ _ _ H); [|done]. by apply (um_core_frame _ _ _ _ _ _ (ur_core _ _ _ H)).
Qed.
Lemma um_refines_stop up s r :
  um_refines up s r -> um_refines up (dar_stop s) (rlc_um_stop_and_reset_timer_reordering r).
Proof.
  intros [C E1 E2 E3 E4]. split; try done.
  - by apply (um_core_frame _ _ _ _ _ _ C).
  - cbn [rlc_um_stop_and_reset_timer_reordering t_reordering update_field]. by rewrite E3.
Qed.

(** The circle moves on: the cells that enter it are empty. *)
Lemma um_core_shift up slots h h' held r :
  um_core up slots h held r -> h <= h' < h + M -> (forall j, j ∈ held -> h' - M <= j < h) ->
  um_core up slots h' held (r <| vr_uh := um_sn h' |>).
Proof.
  intros [C1 C2 C3 C4 (buf & Eb & Hl & Hb) C6 C7 C8 C9] Hh Hin. constructor; try done.
  exists buf. split; [done|]. split; [done|]. intros j Hj.
  destruct (Z.lt_ge_cases j h) as [Hlt | Hge]; [apply Hb; lia|].
  rewrite <- um_sn_shift, Hb by lia.
  rewrite !bool_decide_eq_false_2; [done| |]; intros Hj'; pose proof (Hin _ Hj'); lia.
Qed.

Lemma um_store_uh v sn u r r' :
  rlc_um_store_pdu_in_dar_buffer v sn (r <| vr_uh := u |>) = Ok r' ->
  rlc_um_store_pdu_in_dar_buffer v sn r = Ok (r' <| vr_uh := vr_uh r |>) /\ vr_uh r' = u.
Proof.
  unfold rlc_um_store_pdu_in_dar_buffer. cbn [dar_buffer update_field].
  destruct (deref (dar_buffer r)) as [buf|]; [|done]. cbn [mbind res_bind].
  destruct (array_set buf (u16 sn) v) as [buf'|]; [|done]. cbn [mbind res_bind].
  intros [= <-]. split; [by destruct r|done].
Qed.

(** *** t-Reordering after the state variables *)
Lemma um_reordering_stop up s r :
  um_refines up s r -> dar_window_inv W s -> running (d_timer s) = true ->
  exists r', (r ← (if running (t_reordering r) && negb (vr_uh r =? vr_ux r) then
         in_window ← rlc_um_in_reordering_window r (vr_ux r);
         Ok (if in_window <? 0 then rlc_um_stop_and_reset_timer_reordering r else r)
       else Ok r);
     if running (t_reordering r) then
       in_window ← rlc_um_in_window r (vr_ur r) (vr_ux r) (vr_uh r);
       Ok (if (in_window =? -2) || (in_window =? 1)
           then rlc_um_stop_and_reset_timer_reordering r else r)
     else Ok r) = Ok r' /\
    um_refines up (if (d_ux s <? d_ur s) || ((d_ux s =? d_ur s) && (d_ur s <? d_uh s))
      then dar_stop s else s) r'.
Proof.
  intros Hr (H1 & H2 & H3) Hrun. pose proof Hr as [C E1 E2 E3 E4]. pose proof um_M.
  specialize (H3 Hrun). pose proof (um_refines_stop _ _ _ Hr) as Hstop.
  rewrite E3, Hrun, (uc_uh _ _ _ _ _ C), E2, um_sn_eqb by lia. cbn [andb].
  destruct (Z.lt_ge_cases (d_ux s) (d_uh s - W)) as [Hlt | Hge].
  - rewrite (proj2 (Z.eqb_neq _ _)) by lia. cbn [negb].
    rewrite (um_in_reordering_ok M W) by (first [apply C | rewrite ?(uc_uh _ _ _ _ _ C); apply um_sn_range]).
    rewrite (uc_uh _ _ _ _ _ C), <- (um_sn_up (d_ux s)), um_sn_pos by lia.
    rewrite (proj2 (Z.ltb_ge _ _)) by lia. cbn [mbind res_bind Z.ltb Z.compare].
    rewrite (proj2 (Z.ltb_lt (d_ux s) (d_ur s))) by lia.
    exists (rlc_um_stop_and_reset_timer_reordering r). by split.
  - assert (Hskip : (if negb (d_uh s =? d_ux s) then
         in_window ← rlc_um_in_reordering_window r (um_sn (d_ux s));
         Ok (if in_window <? 0 then rlc_um_stop_and_reset_timer_reordering r else r)
       else Ok r) = Ok r).
    { destruct (Z.eqb_spec (d_uh s) (d_ux s)); [done|]. cbn [negb].
      rewrite (um_in_reordering_ok M W) by (first [apply C | rewrite ?(uc_uh _ _ _ _ _ C); apply um_sn_range]).
      rewrite (uc_uh _ _ _ _ _ C), um_sn_pos by lia. by rewrite (proj2 (Z.ltb_lt _ _)) by lia. }
    rewrite Hskip. cbn [mbind res_bind]. rewrite E3, Hrun, E1, E2, (uc_uh _ _ _ _ _ C).
    rewrite (um_place _ _ _ _ _ _ _ C) by lia. cbn [mbind res_bind].
    replace ((window_place (d_ur s) (d_ux s) (d_uh s) =? -2) || (window_place (d_ur s) (d_ux s) (d_uh s) =? 1))
      with ((d_ux s <? d_ur s) || ((d_ux s =? d_ur s) && (d_ur s <? d_uh s))).
    { eexists. split; [reflexivity|]. by destruct (_ || _). }
    unfold window_place. rewrite Z.gtb_ltb. destruct (Z.ltb_spec (d_ux s) (d_ur s)); [done|].
    rewrite (proj2 (Z.ltb_ge (d_uh s) (d_ux s))) by lia. cbn [orb].
    destruct (Z.eqb_spec (d_ur s) (d_ux s)) as [E|], (Z.eqb_spec (d_ux s) (d_ur s)) as [E'|];
      try lia; destruct (Z.eqb_spec (d_uh s) (d_ux s)), (Z.ltb_spec (d_ur s) (d_uh s)); (lia || done).
Qed.

Lemma um_reordering_ok up c s r :
  um_refines up s r -> dar_window_inv W s ->
  exists r', um_update_reordering c r = Ok r' /\ um_refines up (dar_reordering c s) r'.
Proof.
  intros Hr Hw. unfold dar_reordering. set (b := _ || _).
  assert (Hstop : exists r1, um_refines up (if running (d_timer s) && b then dar_stop s else s) r1 /\
    um_update_reordering c r = (if negb (running (t_reordering r1))
      then um_restart_reordering c (fun r => r) r1 else Ok r1)).
  { unfold um_update_reordering. destruct (running (d_timer s)) eqn:Hrun.
    - destruct (um_reordering_stop _ _ _ Hr Hw Hrun) as (r1 & E & Hr1). exists r1. split; [exact Hr1|].
      destruct (if running (t_reordering r) && negb (vr_uh r =? vr_ux r) then _ else _) as [r2|]; [|done].
      cbn [mbind res_bind] in *. by rewrite E.
    - exists r. split; [done|]. rewrite (ur_timer _ _ _ Hr), Hrun. cbn [andb mbind res_bind].
      do 2 (rewrite ?(ur_timer _ _ _ Hr), ?Hrun; cbn [andb negb mbind res_bind]). done. }
  destruct Hstop as (r1 & Hr1 & ->). set (s1 := if running (d_timer s) && b then dar_stop s else s) in *.
  assert (Hw1 : dar_window_inv W s1).
  { unfold s1. destruct (running (d_timer s) && b); [|exact Hw]. destruct Hw as (W1 & W2 & _). split; [exact W1|]. split; [exact W2|]. cbn. done. }
  rewrite (ur_timer _ _ _ Hr1). destruct (um_restart_ok up c (fun r => r) s1 r1 Hr1 Hw1) as [R1 R2].
  destruct (running (d_timer s1)); cbn [negb andb]; [by exists r1|].
  destruct (Z.ltb_spec (d_ur s1) (d_uh s1)) as [Hlt|Hge]; [by apply R1|]. rewrite R2 by done. by exists r1.
Qed.

(** *** The PDU in the buffer *)
Definition dar_put (i : Z) (s : dar) : dar := s <| d_held := {[i]} ∪ d_held s |>.
Lemma put_same i s : i ∈ d_held s -> {[i]} ∪ d_held s = d_held s.
Proof.
  intros Hi. apply set_eq. intros j. rewrite elem_of_union, elem_of_singleton. split; [|tauto].
  by intros [-> | ?].
Qed.

(** Storing PDU [i] in the circle that ends at [h]. *)
Lemma um_store_ok up s r i h :
  um_refines up s r -> h - M <= i < h -> d_uh s <= h < d_uh s + M -> i < N ->
  (forall j, j ∈ d_held s -> h - M <= j < d_uh s) ->
  exists r', rlc_um_store_pdu_in_dar_buffer (Some (tb i)) (um_sn i) r = Ok r' /\
    vr_uh r' = vr_uh r /\ um_rx_config M W r' /\
    um_refines up (dar_put i s <| d_uh := h |>) (r' <| vr_uh := um_sn h |>).
Proof.
  intros [C E1 E2 E3 E4] Hi Hh HiN Hin. pose proof (um_core_shift _ _ _ h _ _ C Hh Hin) as C1.
  destruct (um_set_cell _ _ _ _ _ i (Some (tb i)) ({[i]} ∪ d_held s) C1 Hi) as (r1 & S1 & C2 & F).
  { rewrite bool_decide_eq_true_2; [done|]. rewrite elem_of_union, elem_of_singleton. by left. }
  { intros j Hj. rewrite elem_of_union, elem_of_singleton. tauto. }
  destruct (um_store_uh _ _ _ _ _ S1) as [S2 U]. exists (r1 <| vr_uh := vr_uh r |>).
  split; [exact S2|]. split; [done|]. split; [apply (uc_cfg _ _ _ _ _ C2)|].
  assert (Er : r1 <| vr_uh := vr_uh r |> <| vr_uh := um_sn h |> = r1) by (rewrite <- U; by destruct r1).
  rewrite Er. split; cbn [dar_put d_slots d_uh d_held d_ux d_timer update_field]; try done.
  - by rewrite F.
  - by rewrite F.
  - by rewrite F.
  - intros j. rewrite elem_of_union, elem_of_singleton. intros [-> | Hj]; [done|by apply E4].
Qed.

Lemma um_remove_ok up s r i :
  um_refines up s r -> d_uh s - M <= i < d_uh s ->
  exists cell r', rlc_um_remove_pdu_from_dar_buffer (um_sn i) r = Ok (cell, r') /\
    um_refines up (s <| d_held := d_held s ∖ {[i]} |>) r'.
Proof.
  intros [C E1 E2 E3 E4] Hi. unfold rlc_um_remove_pdu_from_dar_buffer.
  rewrite (um_get_cell _ _ _ _ _ _ C) by lia. cbn [mbind res_bind].
  destruct (um_set_cell _ _ _ _ _ i None (d_held s ∖ {[i]}) C Hi) as (r1 & -> & C2 & F).
  { rewrite bool_decide_eq_false_2; [done|]. rewrite elem_of_difference, elem_of_singleton. tauto. }
  { intros j Hj. rewrite elem_of_difference, elem_of_singleton. tauto. }
  cbn [mbind res_bind]. eexists _, r1. split; [done|].
  split; try done; try by rewrite F.
  intros j. cbn [d_held update_field]. rewrite elem_of_difference. intros [Hj _]. by apply E4.
Qed.
Lemma put_removed i s :
  {[i]} ∪ (d_held s ∖ {[i]}) = {[i]} ∪ d_held s.
Proof.
  apply set_eq. intros j. rewrite !elem_of_union, elem_of_difference, elem_of_singleton.
  destruct (decide (j = i)); tauto.
Qed.
Lemma window_place_inside a x h : a <= x < h -> (window_place a x h =? 0) = (a <? x).
Proof.
  intros H. unfold window_place. rewrite Z.gtb_ltb, (proj2 (Z.ltb_ge x a)), (proj2 (Z.ltb_ge h x)) by lia.
  rewrite (proj2 (Z.eqb_neq h x)) by lia.
  destruct (Z.eqb_spec a x), (Z.ltb_spec a x); (lia || done).
Qed.

Lemma um_place_ok up s r i :
  um_refines up s r -> dar_inv W s -> d_ur s <= i < d_uh s + W -> i < N ->
  exists r', um_place_pdu (tb i) (um_sn i) r = Ok (negb (bool_decide (i ∈ d_held s) && (d_ur s <? i)), r') /\
    if bool_decide (i ∈ d_held s) && (d_ur s <? i) then um_refines up s r'
    else vr_uh r' = um_sn (d_uh s) /\ um_rx_config M W r' /\
      um_refines up (dar_put i s <| d_uh := Z.max (d_uh s) (i + 1) |>)
        (r' <| vr_uh := um_sn (Z.max (d_uh s) (i + 1)) |>).
Proof.
  intros Hr [H1 H2 _] Hi HiN. pose proof Hr as [C E1 _ _ _]. pose proof um_M. unfold um_place_pdu.
  set (h := Z.max (d_uh s) (i + 1)).
  assert (Hin : forall j, j ∈ d_held s -> h - M <= j < d_uh s) by (intros j Hj; pose proof (H2 j Hj); lia).
  assert (Hcell : rlc_um_get_pdu_from_dar_buffer r (um_sn i) =
    Ok (if bool_decide (i ∈ d_held s) then Some (tb i) else None)).
  { destruct (Z.lt_ge_cases i (d_uh s)); [apply (um_get_cell _ _ _ _ _ _ C); lia|].
    rewrite <- um_sn_shift, (um_get_cell _ _ _ _ _ _ C) by lia.
    rewrite !bool_decide_eq_false_2; [done| |]; intros Hj; pose proof (Hin _ Hj); lia. }
  rewrite Hcell. cbn [mbind res_bind].
  destruct (bool_decide_reflect (i ∈ d_held s)) as [Hih | Hih]; cbn [andb negb].
  - pose proof (Hin _ Hih). rewrite E1, (uc_uh _ _ _ _ _ C), (um_place _ _ _ _ _ _ _ C) by lia.
    cbn [mbind res_bind]. rewrite window_place_inside by lia.
    set (r0 := stat_add _ _ _). assert (Hr0 : um_refines up s r0) by (unfold r0; apply um_refines_stat; apply um_refines_stat; exact Hr).
    destruct (Z.ltb_spec (d_ur s) i) as [Hri | Hri]; [by exists r0|]. cbn [negb].
    destruct (um_remove_ok _ _ _ i Hr0) as (cell & r1 & -> & Hr1); [lia|]. cbn [mbind res_bind].
    destruct (um_store_ok _ _ _ i h Hr1) as (r2 & -> & U & Hc & Hr2); cbn [d_uh d_held update_field]; try lia.
    { intros j. rewrite elem_of_difference. intros [Hj _]. by apply Hin. }
    exists r2. split; [done|]. split; [rewrite U; apply (uc_uh _ _ _ _ _ (ur_core _ _ _ Hr1))|]. split; [done|].
    revert Hr2. unfold dar_put. cbn [d_held update_field]. by rewrite put_removed.
  - destruct (um_store_ok _ _ _ i h Hr) as (r2 & -> & U & Hc & Hr2); try done; try lia.
    exists r2. split; [done|]. split; [rewrite U; apply (uc_uh _ _ _ _ _ C)|]. by split.
Qed.

(** *** VR(UH) and the window *)
Lemma um_sn_back i : (let w := um_sn i - W in if w <? 0 then w + M else w) = um_sn (i - W).
Proof.
  pose proof um_M. unfold um_sn. replace (s0 + (i - W)) with (s0 + i - W) by lia.
  set (x := s0 + i). clearbody x. cbv zeta. destruct (Z.ltb_spec (x mod M - W) 0);
    destruct HM as [[-> ->] | [-> ->]]; Z.div_mod_to_equations; lia.
Qed.

Lemma um_window_ok up s r i :
  dar_inv W s -> d_ur s <= i < d_uh s + W -> vr_uh r = um_sn (d_uh s) -> um_rx_config M W r ->
  um_refines up (dar_put i s <| d_uh := Z.max (d_uh s) (i + 1) |>)
    (r <| vr_uh := um_sn (Z.max (d_uh s) (i + 1)) |>) ->
  exists r', (in_window ← rlc_um_in_reordering_window r (um_sn i);
      if in_window <? 0 then um_advance_window (um_sn i) r else Ok r) = Ok r' /\
    um_refines up (dar_window W i (dar_put i s)) r'.
Proof.
  intros [H1 H2 _] Hi Hu Hc Hr. pose proof um_M. pose proof (um_sn_range (d_uh s)). pose proof (um_sn_range i).
  rewrite (um_in_reordering_ok M W), Hu, um_sn_pos by (rewrite ?Hu; done || lia). cbn [mbind res_bind].
  assert (Hd : dar_window W i (dar_put i s) = if i <? d_uh s then dar_put i s else
    let s1 := dar_put i s <| d_uh := i + 1 |> in if d_ur s <? i + 1 - W then dar_deliver (i + 1 - W) s1 else s1)
    by done. rewrite Hd. clear Hd. cbv zeta.
  destruct (Z.ltb_spec i (d_uh s)) as [Hlt | Hge].
  - rewrite (proj2 (Z.ltb_lt (i - (d_uh s - W)) W)) by lia. exists r. split; [done|].
    rewrite Z.max_l, <- Hu in Hr by lia. by destruct r, s.
  - rewrite (proj2 (Z.ltb_ge (i - (d_uh s - W)) W)) by lia. rewrite Z.max_r in Hr by lia. change (-1 <? 0) with true. cbv iota.
    unfold um_advance_window. destruct Hc as (Hc1 & Hc2 & Hc3). rewrite um_c_rem by done. cbn [mbind res_bind].
    rewrite (proj1 (um_sn_16 _)). set (r1 := r <| vr_uh := um_sn (i + 1) |>) in *.
    set (s1 := dar_put i s <| d_uh := i + 1 |>) in *. change (d_ur s1) with (d_ur s). change (d_uh s1) with (i + 1).
    pose proof Hr as [C E1 E2 E3 E4]. change (d_ur s1) with (d_ur s) in E1.
    assert (Hpos : rlc_um_in_reordering_window r1 (vr_ur r1) = Ok (if d_ur s <? i + 1 - W then -1 else 0)).
    { rewrite E1, (um_in_reordering_ok M W) by (first [apply C | rewrite ?(uc_uh _ _ _ _ _ C); apply um_sn_range]).
      rewrite (uc_uh _ _ _ _ _ C). change (d_uh s1) with (i + 1). f_equal.
      destruct (Z.ltb_spec (d_ur s) (i + 1 - W)).
      - rewrite <- (um_sn_up (d_ur s)), um_sn_pos by lia. by rewrite (proj2 (Z.ltb_ge _ _)) by lia.
      - rewrite um_sn_pos by lia. by rewrite (proj2 (Z.ltb_lt _ _)) by lia. }
    rewrite Hpos. cbn [mbind res_bind]. destruct (Z.ltb_spec (d_ur s) (i + 1 - W)) as [Hout | Hins].
    + change (negb (-1 =? 0)) with true. cbv iota.
      rewrite (uc_uh _ _ _ _ _ C). change (d_uh s1) with (i + 1).
      change (rx_um_window_size r1) with (rx_um_window_size r). change (rx_sn_modulo r1) with (rx_sn_modulo r).
      rewrite Hc2, Hc3, um_sn_back, E1.
      destruct (um_deliver_ok up s1 r1 (i + 1 - W)) as (r2 & T1 & T2 & T3); try done;
        change (d_ur s1) with (d_ur s); change (d_uh s1) with (i + 1); try lia.
      { intros j. cbn [s1 dar_put d_held update_field]. rewrite elem_of_union, elem_of_singleton.
        intros [-> | Hj]; [lia|]. pose proof (H2 j Hj). lia. }
      change (d_ur s1) with (d_ur s) in T1. rewrite T1. cbn [mbind res_bind].
      pose proof (ur_core _ _ _ T3) as C3. pose proof (uc_uh _ _ _ _ _ C3) as U3.
      change (vr_uh (r2 <| vr_ur := um_sn (i + 1 - W) |>)) with (vr_uh r2) in U3.
      rewrite T2, E1, (um_in_reordering_ok M W)
        by (first [apply (uc_cfg _ _ _ _ _ C3) | rewrite ?U3; apply um_sn_range]). rewrite U3.
      cbn [dar_deliver d_uh update_field]. change (d_uh s1) with (i + 1).
      rewrite <- (um_sn_up (d_ur s)), um_sn_pos by lia.
      rewrite (proj2 (Z.ltb_ge (d_ur s + M - _) W)) by lia. cbn [mbind res_bind].
      change (-1 <? 0) with true. cbv iota. rewrite (proj1 (um_sn_16 _)). eexists; split; [done|exact T3].
    + change (negb (0 =? 0)) with false. cbn [mbind res_bind]. rewrite Hpos. cbn [mbind res_bind].
      by exists r1.
Qed.

(** *** VR(UR) *)
Lemma um_in_order_ok up s r i :
  um_refines up s r -> dar_window_inv W s -> i ∈ d_held s ->
  exists r', um_advance_ur (um_sn i) r = Ok r' /\ um_refines up (dar_in_order i s) r'.
Proof.
  intros Hr (H1 & H2 & H3) Hi. pose proof Hr as [C E1 E2 E3 E4]. pose proof um_M. pose proof (H2 i Hi).
  unfold um_advance_ur, dar_in_order. rewrite E1, um_sn_eqb by lia.
  destruct (Z.eqb_spec i (d_ur s)) as [-> | Hne]; [|by exists r].
  rewrite (um_get_cell _ _ _ _ _ _ C) by lia. rewrite bool_decide_eq_true_2 by done. cbn [mbind res_bind occupied].
  rewrite (um_skip_below_ok _ _ _ _ (d_ur s) _ (Z.to_nat (d_uh s - d_ur s - 1)) 1025 _ C) by (done || lia).
  cbn [mbind res_bind].
  replace (Z.to_nat (d_uh s - d_ur s)) with (S (Z.to_nat (d_uh s - d_ur s - 1))) by lia. cbn [run_end].
  rewrite bool_decide_eq_true_2 by done.
  pose proof (run_end_range (Z.to_nat (d_uh s - d_ur s - 1)) (d_held s) (d_ur s + 1)) as He.
  set (e := run_end _ _ _) in *. rewrite (proj1 (um_sn_16 e)). set (r1 := r <| vr_ur := um_sn e |>).
  destruct (um_deliver_ok up s r1 e) as (r2 & T1 & T2 & T3); try done; try lia.
  { by apply (um_core_frame _ _ _ _ _ _ C). }
  { intros j Hj. apply (H2 j Hj). }
  change (vr_ur r1) with (um_sn e). rewrite T1. exists r2. split; [done|]. by rewrite vr_ur_same in T3 by done.
Qed.

Lemma window_held i s : i ∈ d_held (dar_window W i (dar_put i s)).
Proof.
  pose proof um_M. assert (Hi : i ∈ {[i]} ∪ d_held s) by (rewrite elem_of_union, elem_of_singleton; by left).
  unfold dar_window. destruct (_ <? _); [done|]. destruct (_ <? _); [|done].
  cbn [dar_deliver dar_put d_held d_uh update_field]. rewrite elem_of_filter. split; [lia|done].
Qed.

(** A PDU of the sender arrives, less than a window away from VR(UH). *)
Lemma um_receive_ok up c s r i :
  dar_inv W s -> um_refines up s r -> 0 <= i < N -> d_uh s - W <= i < d_uh s + W ->
  exists r', rlc_um_receive_process_dar c (tb i) r = Ok r' /\ um_refines up (dar_receive W c i s) r'.
Proof.
  intros Hinv Hr HiN Hi. pose proof Hr as [C E1 E2 E3 E4]. pose proof um_M. pose proof (di_window _ _ Hinv).
  unfold rlc_um_receive_process_dar, dar_receive. rewrite (Hsn i) by (done || apply C). cbn [mbind res_bind].
  pose proof (uc_cfg _ _ _ _ _ C) as Hcfg. pose proof (uc_uh _ _ _ _ _ C) as Euh.
  destruct (um_windows_ok M W r (um_sn i)) as (_ & (v & Ev & Hv) & _); try done;
    rewrite ?E1, ?Euh; try apply um_sn_range; [rewrite um_sn_pos; lia|].
  rewrite E1, Euh in Ev. rewrite Euh, E1, !um_sn_pos in Hv by lia.
  rewrite (proj2 (proj2 Hcfg)), Ev. cbn [mbind res_bind].
  destruct (Z.ltb_spec i (d_ur s)) as [Hlate | Hin].
  - destruct (proj2 Hv) as [-> | ->]; [lia| |]; (eexists; split; [done|]; apply um_refines_stat; apply um_refines_stat; exact Hr).
  - destruct (Z.eqb_spec v 1), (Z.eqb_spec v 0); try (exfalso; lia). cbn [orb].
    destruct (um_place_ok up s r i Hr Hinv) as (r1 & Ep & Hp); [lia|lia|]. rewrite Ep. cbn [mbind res_bind].
    destruct (bool_decide (i ∈ d_held s) && (d_ur s <? i)) eqn:Hdup; cbn [negb]; [by exists r1|].
    destruct Hp as (U1 & C1 & Hp1).
    destruct (um_window_ok up s r1 i Hinv ltac:(lia) U1 C1 Hp1) as (r2 & Ew & Hr2).
    destruct (window_inv W i s ltac:(lia) Hinv ltac:(lia)) as [Hwi|]; [|lia].
    destruct (um_in_order_ok up _ r2 i Hr2 Hwi (window_held i s)) as (r3 & Eo & Hr3).
    destruct (um_reordering_ok up c _ r3 Hr3 (in_order_inv _ _ _ Hwi)) as (r4 & Er & Hr4).
    exists r4. split; [|exact Hr4]. revert Ew.
    destruct (rlc_um_in_reordering_window r1 (um_sn i)) as [w|]; [|done]. cbn [mbind res_bind]. intros ->.
    cbn [mbind res_bind]. by rewrite Eo.
Qed.

End refine.
