(* ===== verification/RlcUm.v ===== *)
(** * The UM entity and its interfaces (rlc_um.c, rlc_um_fsm.c, rlc_um_control_primitives.c)

    Life cycle and configuration, requests of the upper layer, transmission
    opportunities and indications of MAC. *)

From S2P Require Import Prelude RlcAmTypes RlcTimers RlcUmTypes RlcUmReassembly RlcUmSegment RlcUmDar.

(** ** The state machine

    [macphy_exit], called for an unexpected event in the NULL state, asks the
    process to stop and returns. *)
Definition rlc_um_fsm_notify_event (eventP : Z) (r : rlc_um_entity_t) : bool * rlc_um_entity_t :=
  match protocol_state r with
  | RLC_NULL_STATE =>
      if eventP =? RLC_UM_RECEIVE_CRLC_CONFIG_REQ_ENTER_DATA_TRANSFER_READY_STATE_EVENT
      then (true, r <| protocol_state := RLC_DATA_TRANSFER_READY_STATE |>)
      else (false, r)
  | RLC_DATA_TRANSFER_READY_STATE =>
      if eventP =? RLC_UM_RECEIVE_CRLC_CONFIG_REQ_ENTER_NULL_STATE_EVENT
      then (true, r <| protocol_state := RLC_NULL_STATE |>)
      else if (eventP =? RLC_UM_RECEIVE_CRLC_SUSPEND_REQ_EVENT) || (eventP =? RLC_UM_TRANSMIT_CRLC_SUSPEND_CNF_EVENT)
      then (true, r <| protocol_state := RLC_LOCAL_SUSPEND_STATE |>)
      else (false, r)
  | RLC_LOCAL_SUSPEND_STATE =>
      if eventP =? RLC_UM_RECEIVE_CRLC_CONFIG_REQ_ENTER_NULL_STATE_EVENT
      then (true, r <| protocol_state := RLC_NULL_STATE |>)
      else if eventP =? RLC_UM_RECEIVE_CRLC_RESUME_REQ_EVENT
      then (true, r <| protocol_state := RLC_DATA_TRANSFER_READY_STATE |>)
      else (false, r)
  | _ => (false, r)
  end.

(** ** Life cycle *)

(** [upper_layer] is the history of the calls to the layer above and survives
    the [memset]. *)
Definition um_memset_entity (r : rlc_um_entity_t) : rlc_um_entity_t :=
  um_entity_zero <| upper_layer := upper_layer r |>.

(** [dar_ok]: whether [calloc] gives the buffer of received PDUs; its result is not tested. *)
Definition rlc_um_init (dar_ok : bool) (r : rlc_um_entity_t) : rlc_um_entity_t :=
  if initialized r then r
  else
    let r := um_memset_entity r in
    let r := r <| pdus_to_mac_layer := [] |> <| input_sdus := [] |> <| protocol_state := RLC_NULL_STATE |>
               <| pdus_from_mac_layer := [] |> in
    let r := r <| rx_sn_length := 10 |> <| rx_header_min_length_in_bytes := 2 |>
               <| tx_sn_length := 10 |> <| tx_header_min_length_in_bytes := 2 |> in
    let r := (match dar_buffer r with
              | None => r <| dar_buffer := if dar_ok then Some (replicate 1024 None) else None |>
              | Some _ => r
              end) in
    r <| first_pdu := true |> <| initialized := true |>.

Definition rlc_um_reset_state_variables (r : rlc_um_entity_t) : rlc_um_entity_t :=
  r <| buffer_occupancy := 0 |> <| vt_us := 0 |> <| vr_ur := 0 |> <| vr_ux := 0 |> <| vr_uh := 0 |>.

(** Every list and block is freed before the [memset]. *)
Definition rlc_um_cleanup (r : rlc_um_entity_t) : rlc_um_entity_t :=
  let r := r <| pdus_to_mac_layer := [] |> <| input_sdus := [] |> <| pdus_from_mac_layer := [] |>
             <| output_sdu_in_construction := None |> <| dar_buffer := None |> in
  um_memset_entity r.

Definition um_configure_rx (rx_sn_field_lengthP : Z) (r : rlc_um_entity_t) : option rlc_um_entity_t :=
  if rx_sn_field_lengthP =? 10 then
    Some (r <| rx_sn_length := 10 |> <| rx_sn_modulo := RLC_UM_SN_10_BITS_MODULO |>
            <| rx_um_window_size := RLC_UM_WINDOW_SIZE_SN_10_BITS |> <| rx_header_min_length_in_bytes := 2 |>)
  else if rx_sn_field_lengthP =? 5 then
    Some (r <| rx_sn_length := 5 |> <| rx_sn_modulo := RLC_UM_SN_5_BITS_MODULO |>
            <| rx_um_window_size := RLC_UM_WINDOW_SIZE_SN_5_BITS |> <| rx_header_min_length_in_bytes := 1 |>)
  else if negb (rx_sn_field_lengthP =? 0) then None
  else Some r.
Definition um_configure_tx (tx_sn_field_lengthP : Z) (r : rlc_um_entity_t) : option rlc_um_entity_t :=
  if tx_sn_field_lengthP =? 10 then
    Some (r <| tx_sn_length := 10 |> <| tx_sn_modulo := RLC_UM_SN_10_BITS_MODULO |>
            <| tx_um_window_size := RLC_UM_WINDOW_SIZE_SN_10_BITS |> <| tx_header_min_length_in_bytes := 2 |>)
  else if tx_sn_field_lengthP =? 5 then
    Some (r <| tx_sn_length := 5 |> <| tx_sn_modulo := RLC_UM_SN_5_BITS_MODULO |>
            <| tx_um_window_size := RLC_UM_WINDOW_SIZE_SN_5_BITS |> <| tx_header_min_length_in_bytes := 1 |>)
  else if negb (tx_sn_field_lengthP =? 0) then None
  else Some r.

(** A length that is not implemented leaves what was set before it. *)
Definition rlc_um_configure (timer_reorderingP rx_sn_field_lengthP tx_sn_field_lengthP is_mXchP : Z)
    (r : rlc_um_entity_t) : rlc_um_entity_t :=
  match um_configure_rx rx_sn_field_lengthP r with
  | None => r
  | Some r =>
      match um_configure_tx tx_sn_field_lengthP r with
      | None => r
      | Some r =>
          let r := (if is_mXchP >? 0 then r <| tx_um_window_size := 0 |> <| rx_um_window_size := 0 |> else r) in
          let r := r <| is_mxch := negb (is_mXchP =? 0) |> in
          let r := r <| last_reassemblied_sn := u16 (rx_sn_modulo r - 1) |>
                     <| last_reassemblied_missing_sn := u16 (rx_sn_modulo r - 1) |>
                     <| reassembly_missing_sn_detected := 0 |> in
          let r := rlc_um_init_timer_reordering timer_reorderingP r in
          let r := r <| first_pdu := true |> in
          rlc_um_reset_state_variables r
      end
  end.

Definition rlc_um_set_debug_infos (srb_flagP : bool) (rb_idP chan_idP : Z) (r : rlc_um_entity_t)
  : rlc_um_entity_t :=
  r <| rb_id := rb_idP |> <| channel_id := chan_idP |> <| is_data_plane := negb srb_flagP |>.

(** ** Configuration: the entities of the collection, by key *)
Abbreviation rlc_um_collection := (gmap Z rlc_um_entity_t).

Record rlc_um_info_t := Mk_um_info {
  timer_reordering : Z;
  sn_field_length : Z;
  is_mXch : Z
}.

(** [rlc_um_init], and the rest when the state machine accepts the event. *)
Definition um_config_entity (dar_ok srb_flagP : bool) (rb_idP chan_idP : Z)
    (configure : rlc_um_entity_t -> res rlc_um_entity_t) (r : rlc_um_entity_t) : res rlc_um_entity_t :=
  let '(accepted, r) := rlc_um_fsm_notify_event
    RLC_UM_RECEIVE_CRLC_CONFIG_REQ_ENTER_DATA_TRANSFER_READY_STATE_EVENT (rlc_um_init dar_ok r) in
  if (accepted : bool) then configure (rlc_um_set_debug_infos srb_flagP rb_idP chan_idP r) else Ok r.

Definition config_req_rlc_um (dar_ok : bool) (key : Z) (srb_flagP : bool) (config_um_pP : rlc_um_info_t)
    (rb_idP chan_idP : Z) (coll : rlc_um_collection) : res rlc_um_collection :=
  match coll !! key with
  | Some r =>
      r ← um_config_entity dar_ok srb_flagP rb_idP chan_idP
            (fun r => Ok (rlc_um_configure (timer_reordering config_um_pP) (sn_field_length config_um_pP)
                            (sn_field_length config_um_pP) (is_mXch config_um_pP) r)) r;
      Ok (<[key := r]> coll)
  | None => Ok coll
  end.

(** The values of release 14. *)
Definition t_Reordering_tab : list Z :=
  map (fun i => 5 * Z.of_nat i) (seq 0 21) ++ [110; 120; 130; 140; 150; 160; 170; 180; 190; 200; 1600].

(** [SN_FieldLength_size5], [SN_FieldLength_size10]. *)
Definition um_sn_field_length (e : Z) : option Z :=
  if e =? 0 then Some 5 else if e =? 1 then Some 10 else None.

Record DL_UM_RLC_t := Mk_dl_um { dl_sn_FieldLength : Z; dl_t_Reordering : Z }.

(** The lengths and the timer that the ASN.1 values stand for; [None] when one
    is invalid, and nothing is configured. *)
Definition um_asn1_values (ul : option Z) (dl : option DL_UM_RLC_t) : res (option (Z * Z * Z)) :=
  match (match ul with Some e => um_sn_field_length e | None => Some 0 end), dl with
  | None, _ => Ok None
  | Some ul_sn, None => Ok (Some (ul_sn, 0, 0))
  | Some ul_sn, Some d =>
      match um_sn_field_length (dl_sn_FieldLength d) with
      | None => Ok None
      | Some dl_sn =>
          if dl_t_Reordering d <? 32 then
            t ← array_get t_Reordering_tab (dl_t_Reordering d);
            Ok (Some (ul_sn, dl_sn, t))
          else Ok None
      end
  end.

(** What follows the event when it is accepted. *)
Definition um_configure_asn1 (c : protocol_ctxt_t) (mbms_flagP : bool) (ul : option Z) (dl : option DL_UM_RLC_t)
    (r : rlc_um_entity_t) : res rlc_um_entity_t :=
  values ← um_asn1_values ul dl;
  match values with
  | None => Ok r
  | Some (ul_sn, dl_sn, t) =>
      Ok (if enb_flag c then rlc_um_configure t ul_sn dl_sn (b2z mbms_flagP) r
          else rlc_um_configure t dl_sn ul_sn (b2z mbms_flagP) r)
  end.

Definition config_req_rlc_um_asn1 (dar_ok : bool) (c : protocol_ctxt_t) (key : Z) (srb_flagP mbms_flagP : bool)
    (ul_rlc_pP : option Z) (dl_rlc_pP : option DL_UM_RLC_t) (rb_idP chan_idP : Z)
    (coll : rlc_um_collection) : res rlc_um_collection :=
  _ ← assert_that (match dl_rlc_pP, ul_rlc_pP with Some _, None => true | _, _ => negb mbms_flagP end);
  match coll !! key with
  | None => Err FatalAssert
  | Some r =>
      r ← um_config_entity dar_ok srb_flagP rb_idP chan_idP
            (um_configure_asn1 c mbms_flagP ul_rlc_pP dl_rlc_pP) r;
      Ok (<[key := r]> coll)
  end.

(** ** Upper layer: [struct rlc_um_data_req] with the data of the SDU *)
Record rlc_um_data_req_t := Mk_um_data_req {
  um_data_size : Z;
  um_data : list Z
}.

Definition rlc_um_data_req (c : protocol_ctxt_t) (sdu : rlc_um_data_req_t) (r : rlc_um_entity_t)
  : rlc_um_entity_t :=
  let size := u16 (um_data_size sdu) in
  let s := Mk_um_sdu (um_data sdu) (i32 (frame c)) size 0 size in
  let r := stat_add stat_tx_pdcp_sdu 1 r in
  let r := stat_add stat_tx_pdcp_bytes size r in
  r <| buffer_occupancy := i32 (buffer_occupancy r + size) |> <| input_sdus := input_sdus r ++ [s] |>.

(** ** Transmission opportunities *)
Definition rlc_um_get_buffer_occupancy (r : rlc_um_entity_t) : Z :=
  if buffer_occupancy r >? 0 then buffer_occupancy r else 0.

Definition rlc_um_get_pdus (block : option (list Z)) (r : rlc_um_entity_t) : res rlc_um_entity_t :=
  match protocol_state r with
  | RLC_DATA_TRANSFER_READY_STATE =>
      r ← (if tx_sn_length r =? 10 then rlc_um_segment_10 block r else Ok r);
      if tx_sn_length r =? 5 then rlc_um_segment_5 block r else Ok r
  | _ => Ok r
  end.

Definition rlc_um_set_nb_bytes_requested_by_mac (tb_sizeP : Z) (r : rlc_um_entity_t) : rlc_um_entity_t :=
  r <| nb_bytes_requested_by_mac := u32 tb_sizeP |>.

(** The PDUs of the request are counted. *)
Fixpoint um_count_pdus (data : list mac_tb) (r : rlc_um_entity_t) : res rlc_um_entity_t :=
  match data with
  | [] => Ok r
  | tb :: data =>
      let tb_size_in_bytes := i16 (tb_size tb) in
      let r := stat_add stat_tx_data_pdu 1 r in
      let r := stat_add stat_tx_data_bytes tb_size_in_bytes r in
      _ ← assert_that (tb_size_in_bytes >? 0);
      um_count_pdus data r
  end.

Definition rlc_um_mac_data_request (enb_flagP : bool) (block : option (list Z)) (r : rlc_um_entity_t)
  : res (mac_data_req * rlc_um_entity_t) :=
  r ← rlc_um_get_pdus block r;
  let data := pdus_to_mac_layer r in
  let r := r <| pdus_to_mac_layer := [] |> in
  let bo :=
    (if enb_flagP then
       let bo := rlc_um_get_buffer_occupancy r in
       Some (if bo >? 0 then u32 (bo + tx_header_min_length_in_bytes r) else bo)
     else None) in
  let resp := Mk_mac_data_req data bo (protocol_state r) in
  r ← um_count_pdus data r;
  Ok (resp, r).

Definition rlc_um_mac_status_indication (c : protocol_ctxt_t) (tbs_sizeP : Z) (enb_flagP : bool)
    (r : rlc_um_entity_t) : res (mac_status_resp * rlc_um_entity_t) :=
  r ← rlc_um_check_timer_dar_time_out c r;
  let r := r <| nb_bytes_requested_by_mac := u16 tbs_sizeP |> in
  let bo := rlc_um_get_buffer_occupancy r in
  let resp := Mk_status_resp bo 0 0 0 false (protocol_state r) in
  match input_sdus r with
  | head :: _ =>
      if bo >? 0 then
        let diff_time := i32 (frame c - sdu_creation_time head) in
        Ok (resp <| buffer_occupancy_in_bytes :=
                      if enb_flagP then u32 (bo + tx_header_min_length_in_bytes r) else bo |>
                 <| buffer_occupancy_in_pdus := u16 (Z.of_nat (length (input_sdus r))) |>
                 <| head_sdu_creation_time :=
                      if diff_time >? 0 then u32 diff_time else u32 (4294967295 - diff_time + frame c) |>
                 <| head_sdu_remaining_size_to_send := sdu_remaining_size head |>
                 <| head_sdu_is_segmented := negb (sdu_size head =? sdu_remaining_size head) |>, r)
      else Ok (resp, r)
  | [] => Ok (resp, r)
  end.

(** ** Indications of MAC *)
Definition rlc_um_rx (c : protocol_ctxt_t) (data_indP : list mac_tb) (r : rlc_um_entity_t)
  : res rlc_um_entity_t :=
  match protocol_state r with
  | RLC_DATA_TRANSFER_READY_STATE => rlc_um_receive c data_indP r
  | _ => Ok r
  end.
Definition rlc_um_mac_data_indication (c : protocol_ctxt_t) (data_indP : list mac_tb) (r : rlc_um_entity_t)
  : res rlc_um_entity_t :=
  r ← rlc_um_rx c data_indP r;
  rlc_um_check_timer_dar_time_out c r.
