(* ===== verification/RlcUmDelivery.v ===== *)
(** * The SDUs of a stream of UMD PDUs, and those the receiver delivers

    What the PDUs of a sender say of the SDUs, without bytes and sequence
    numbers: the fragments of each PDU and FI.  [um_spans] lists the SDUs that
    end in the stream with the PDUs that carry them, and the receiver, which
    reassembles the PDUs that are there and is told of the others, delivers
    the SDUs all of whose PDUs are there: the slots of the receiver
    (RlcUmReordering) against the SDUs of the stream. *)

From S2P Require Import Prelude RlcAmTypes RlcTimers RlcUmTypes RlcUmWindow RlcUmLi RlcUmReassembly RlcUmDar RlcUmReordering.
From S2P Require Import RlcUmDarSpec.

Record um_frag := Mk_um_frag {
  fg_fresh : bool;                  (* the first byte begins an SDU *)
  fg_full : bool;                   (* the last byte ends one *)
  fg_pieces : list (list Z);        (* the fragments that an LI ends *)
  fg_last : list Z
}.
Definition um_frags (f : um_frag) : list (list Z) := fg_pieces f ++ [fg_last f].

(** The first PDU and the bytes of the SDU in construction. *)
Definition um_start (i : Z) (f : um_frag) (st : Z * list Z) : Z * list Z :=
  if fg_fresh f then (i, []) else st.
Definition um_next (i : Z) (f : um_frag) (st : Z * list Z) : Z * list Z :=
  if fg_full f then (i + 1, [])
  else match fg_pieces f with
       | [] => ((um_start i f st).1, (um_start i f st).2 ++ fg_last f)
       | _ => (i, fg_last f)
       end.

(** An SDU: the numbers of its first and of its last PDU, and its bytes. *)
Definition um_span : Type := Z * Z * list Z.
Definition um_mark (a i : Z) (out : list (list Z)) : list um_span :=
  match out with
  | [] => []
  | u :: us => (a, i, u) :: map (fun u => (i, i, u)) us
  end.
Definition um_ended (i : Z) (f : um_frag) (st : Z * list Z) : list um_span :=
  um_mark (um_start i f st).1 i (um_split (fg_full f) (um_join (Some (um_start i f st).2) (um_frags f))).1.

Fixpoint um_state_from (i : Z) (st : Z * list Z) (frs : list um_frag) : Z * list Z :=
  match frs with
  | [] => st
  | f :: frs => um_state_from (i + 1) (um_next i f st) frs
  end.
Fixpoint um_spans_from (i : Z) (st : Z * list Z) (frs : list um_frag) : list um_span :=
  match frs with
  | [] => []
  | f :: frs => um_ended i f st ++ um_spans_from (i + 1) (um_next i f st) frs
  end.
Definition um_state : list um_frag -> Z * list Z := um_state_from 0 (0, []).
Definition um_spans : list um_frag -> list um_span := um_spans_from 0 (0, []).

(** A PDU begins an SDU when the one before ends one. *)
Definition um_chain (frs : list um_frag) : Prop :=
  forall k f g, frs !! k = Some f -> frs !! S k = Some g -> fg_fresh g = fg_full f.

Lemma um_spans_from_snoc frs f : forall i st,
  um_spans_from i st (frs ++ [f]) =
    um_spans_from i st frs ++ um_ended (i + Z.of_nat (length frs)) f (um_state_from i st frs).
Proof.
  induction frs as [|g frs IH]; intros i st; cbn [app um_spans_from um_state_from length].
  - by rewrite app_nil_r, Z.add_0_r.
  - rewrite IH, app_assoc. by replace (i + 1 + Z.of_nat (length frs)) with (i + Z.of_nat (S (length frs))) by lia.
Qed.
Lemma um_state_from_snoc frs f : forall i st,
  um_state_from i st (frs ++ [f]) = um_next (i + Z.of_nat (length frs)) f (um_state_from i st frs).
Proof.
  induction frs as [|g frs IH]; intros i st; cbn [app um_state_from length].
  - by rewrite Z.add_0_r.
  - rewrite IH. by replace (i + 1 + Z.of_nat (length frs)) with (i + Z.of_nat (S (length frs))) by lia.
Qed.

(** ** What is delivered of a PDU, [c] in construction before it *)
Definition um_carried (f : um_frag) (c : option (list Z)) : option (list Z) :=
  if fg_fresh f then Some [] else c.
Definition um_out (f : um_frag) (c : option (list Z)) : list (list Z) :=
  (um_split (fg_full f) (um_join (um_carried f c) (um_frags f))).1.

Definition um_clean (f : um_frag) (cl : bool) : bool :=
  fg_full f || fg_fresh f || cl || negb (bool_decide (fg_pieces f = [])).

Lemma um_carried_next i f st c :
  c = Some st.2 \/ c = None ->
  (um_split (fg_full f) (um_join (um_carried f c) (um_frags f))).2 =
    if um_clean f (bool_decide (is_Some c)) then Some (um_next i f st).2 else None.
Proof.
  intros Hc. unfold um_clean, um_next, um_split, um_carried, um_start, um_frags.
  destruct (fg_full f); [done|]. cbn [orb fst snd].
  destruct (fg_fresh f), Hc as [-> | ->], (fg_pieces f) as [|p ps]; try done;
    cbn [app um_join orb]; rewrite ?last_cons, ?last_snoc; try done.
Qed.

(** The first SDU that ends is the one in construction; the others do not
    depend on it. *)
Lemma um_out_lost f c p :
  um_carried f c = None -> um_out f c = tl (um_split (fg_full f) (um_join (Some p) (um_frags f))).1.
Proof.
  unfold um_out. intros ->. unfold um_split, um_frags.
  destruct (fg_full f), (fg_pieces f) as [|q qs]; try done.
  cbn [app um_join fst]. by destruct qs.
Qed.

(** ** The stream as functions of the number of the PDU *)
Definition um_before (frs : list um_frag) (i : Z) : Z * list Z := um_state (take (Z.to_nat i) frs).
Definition um_pre (frs : list um_frag) (i : Z) : list Z := (um_before frs i).2.
Definition um_outs (frs : list um_frag) (i : Z) (cl : bool) : list (list Z) :=
  match frs !! Z.to_nat i with Some f => um_out f (um_carry (um_pre frs) i cl) | None => [] end.
Definition um_cleans (frs : list um_frag) (i : Z) (cl : bool) : bool :=
  match frs !! Z.to_nat i with Some f => um_clean f cl | None => false end.

(** Every PDU of the SDU is there. *)
Definition um_present (pres : Z -> bool) (s : um_span) : bool :=
  let '(a, b, _) := s in forallb pres (seqZ a (b - a + 1)).

Lemma um_before_next frs i f :
  0 <= i -> frs !! Z.to_nat i = Some f -> um_before frs (i + 1) = um_next i f (um_before frs i).
Proof.
  intros Hi Hf. unfold um_before, um_state. replace (Z.to_nat (i + 1)) with (S (Z.to_nat i)) by lia.
  rewrite (take_S_r _ _ f) by done. rewrite um_state_from_snoc, length_take.
  apply lookup_lt_Some in Hf. f_equal. lia.
Qed.

Lemma forallb_snoc {A} (p : A -> bool) l x : forallb p (l ++ [x]) = forallb p l && p x.
Proof. rewrite forallb_app. cbn. by rewrite andb_true_r. Qed.
Lemma um_present_last pres a i u :
  a <= i -> um_present pres (a, i, u) = forallb pres (seqZ a (i - a)) && pres i.
Proof.
  intros H. unfold um_present. rewrite seqZ_app by lia. rewrite forallb_app.
  replace (a + (i - a)) with i by lia. rewrite (seqZ_cons i 1) by lia. cbn. by rewrite andb_true_r.
Qed.
Lemma um_present_one pres i u : um_present pres (i, i, u) = pres i.
Proof. rewrite um_present_last, Z.sub_diag by lia. done. Qed.

(** The SDUs that end in PDU [i]. *)
Lemma um_present_mark pres a i out :
  a <= i -> map snd (List.filter (um_present pres) (um_mark a i out)) =
    if pres i then (if forallb pres (seqZ a (i - a)) then out else tl out) else [].
Proof.
  intros Ha. destruct out as [|u us]; [by destruct (pres i), (forallb pres (seqZ a (i - a)))|].
  assert (Hus : map snd (List.filter (um_present pres) (map (fun u => (i, i, u)) us)) = if pres i then us else []).
  { induction us as [|v us IH]; [by destruct (pres i)|]. cbn [map List.filter]. rewrite um_present_one.
    destruct (pres i); cbn [map snd]; by rewrite IH. }
  cbn [um_mark List.filter]. rewrite um_present_last by done.
  destruct (pres i), (forallb pres (seqZ a (i - a))); cbn [andb map snd tl]; by rewrite Hus.
Qed.

Lemma um_start_le i f st : st.1 <= i -> (um_start i f st).1 <= i.
Proof. unfold um_start. destruct (fg_fresh f); cbn; lia. Qed.
Lemma um_next_le i f st : st.1 <= i -> (um_next i f st).1 <= i + 1.
Proof.
  intros H. pose proof (um_start_le i f st H). unfold um_next.
  destruct (fg_full f), (fg_pieces f); cbn [fst]; lia.
Qed.

(** Nothing is there from [i] on. *)
Lemma um_present_none pres suf : forall i st,
  (forall k : nat, pres (i + Z.of_nat k) = false) -> st.1 <= i ->
  List.filter (um_present pres) (um_spans_from i st suf) = [].
Proof.
  induction suf as [|f suf IH]; intros i st Hp Hst; [done|]. cbn [um_spans_from].
  rewrite List.filter_app, IH; [|intros k; replace (i + 1 + Z.of_nat k) with (i + Z.of_nat (S k)) by lia; apply Hp|
    by apply um_next_le].
  rewrite app_nil_r. pose proof (um_present_mark pres (um_start i f st).1 i
    (um_split (fg_full f) (um_join (Some (um_start i f st).2) (um_frags f))).1 (um_start_le i f st Hst)) as H.
  specialize (Hp O). rewrite Z.add_0_r in Hp. rewrite Hp in H. unfold um_ended.
  by apply map_eq_nil in H.
Qed.

(** One PDU: its slot tells what it delivers. *)
Lemma um_slot_out pres frs i f cl :
  frs !! Z.to_nat i = Some f -> 0 <= i -> (um_before frs i).1 <= i -> pres i = true ->
  (fg_fresh f = false -> cl = forallb pres (seqZ (um_before frs i).1 (i - (um_before frs i).1))) ->
  map snd (List.filter (um_present pres) (um_ended i f (um_before frs i))) = um_outs frs i cl.
Proof.
  intros Hf Hi Ha Hp Hcl. unfold um_ended. rewrite um_present_mark by by apply um_start_le.
  rewrite Hp. unfold um_outs. rewrite Hf. unfold um_start. destruct (fg_fresh f) eqn:Hfr.
  - cbn [fst snd]. rewrite Z.sub_diag. cbn [forallb seqZ]. unfold um_out, um_carried. by rewrite Hfr.
  - rewrite <- Hcl by done. destruct cl; cbn [um_carry].
    + unfold um_out, um_carried. by rewrite Hfr.
    + symmetry. apply um_out_lost. unfold um_carried. by rewrite Hfr.
Qed.

(** Whether the SDU in construction after it has all its PDUs. *)
Lemma um_slot_clean pres i f st cl (b : bool) :
  pres i = b -> st.1 <= i -> fg_full f = false ->
  (fg_fresh f = false -> cl = forallb pres (seqZ st.1 (i - st.1))) ->
  (if b then um_clean f cl else false) = forallb pres (seqZ (um_next i f st).1 (i + 1 - (um_next i f st).1)).
Proof.
  intros Hb Hst Hfull Hcl. unfold um_next, um_clean. rewrite Hfull.
  assert (Hone : forallb pres (seqZ i (i + 1 - i)) = b).
  { replace (i + 1 - i) with 1 by lia. rewrite (seqZ_cons i 1) by lia. cbn. by rewrite Hb, andb_true_r. }
  destruct (fg_pieces f) as [|p ps]; cbn [orb fst].
  - pose proof (um_start_le i f st Hst) as Ha. pose proof (um_present_last pres (um_start i f st).1 i [] Ha) as E.
    unfold um_present in E. replace (i + 1 - (um_start i f st).1) with (i - (um_start i f st).1 + 1) by lia.
    rewrite E, Hb. unfold um_start in *. destruct (fg_fresh f) eqn:Hfr; cbn [fst orb negb].
    + rewrite Z.sub_diag. by destruct b.
    + rewrite <- Hcl by done. rewrite bool_decide_eq_true_2 by done. cbn [negb]. rewrite orb_false_r.
      by destruct b, cl.
  - rewrite Hone. destruct b; [|done]. rewrite bool_decide_eq_false_2 by done. by rewrite !orb_true_r.
Qed.

Lemma um_slots_ok pres frs : um_chain frs -> forall suf slots i cl,
  0 <= i -> drop (Z.to_nat i) frs = suf -> (length slots <= length suf)%nat -> (um_before frs i).1 <= i ->
  (forall k, pres (i + Z.of_nat k) = default false (slots !! k)) ->
  (forall f, head suf = Some f -> fg_fresh f = false ->
     cl = forallb pres (seqZ (um_before frs i).1 (i - (um_before frs i).1))) ->
  slots_out (um_outs frs) (um_cleans frs) i cl slots =
    map snd (List.filter (um_present pres) (um_spans_from i (um_before frs i) suf)).
Proof.
  intros Hch. induction suf as [|f suf IH]; intros slots i cl Hi Hd Hl Ha Hp Hcl.
  { destruct slots; [done|cbn in Hl; lia]. }
  assert (Hf : frs !! Z.to_nat i = Some f).
  { rewrite <- (Nat.add_0_r (Z.to_nat i)), <- lookup_drop. by rewrite Hd. }
  destruct slots as [|b slots].
  { rewrite um_present_none by (done || (intros k; apply (Hp k))). done. }
  pose proof (um_before_next frs i f Hi Hf) as Hn.
  pose proof (Hp O) as Hb. rewrite Z.add_0_r in Hb. cbn in Hb.
  assert (Hd' : drop (Z.to_nat (i + 1)) frs = suf).
  { replace (Z.to_nat (i + 1)) with (Z.to_nat i + 1)%nat by lia. rewrite <- drop_drop, Hd. done. }
  assert (Hrest : slots_out (um_outs frs) (um_cleans frs) (i + 1) (if b then um_cleans frs i cl else false) slots =
    map snd (List.filter (um_present pres) (um_spans_from (i + 1) (um_next i f (um_before frs i)) suf))).
  { rewrite <- Hn. apply IH; try done; try lia; cbn [length] in Hl; try lia.
    - rewrite Hn. by apply um_next_le.
    - intros k. change (slots !! k) with ((b :: slots) !! S k). rewrite <- Hp. f_equal. lia.
    - intros g Hg Hgf. destruct suf as [|g' suf]; [done|]. injection Hg as ->.
      assert (Hfg : fg_full f = false).
      { rewrite <- Hgf. symmetry. apply (Hch (Z.to_nat i) f g Hf).
        rewrite <- Nat.add_1_r, <- lookup_drop, Hd. done. }
      rewrite Hn. unfold um_cleans. rewrite Hf. apply um_slot_clean; try done. by apply Hcl. }
  cbn [um_spans_from]. rewrite List.filter_app, map_app. destruct b; cbn [slots_out].
  - apply (f_equal2 app); [|exact Hrest]. symmetry. apply um_slot_out; try done. by apply Hcl.
  - unfold um_ended. rewrite um_present_mark by by apply um_start_le. rewrite Hb. exact Hrest.
Qed.

(** The SDUs of the stream all of whose PDUs have a slot that is set. *)
Definition um_delivered (frs : list um_frag) (slots : list bool) : list (list Z) :=
  map snd (List.filter (um_present (fun i => (0 <=? i) && default false (slots !! Z.to_nat i))) (um_spans frs)).

Lemma um_slots_delivered frs slots :
  um_chain frs -> (length slots <= length frs)%nat ->
  slots_out (um_outs frs) (um_cleans frs) 0 true slots = um_delivered frs slots.
Proof.
  intros Hch Hl. unfold um_delivered, um_spans.
  replace (0, []) with (um_before frs 0) by done. apply um_slots_ok; try done.
  intros k. rewrite (proj2 (Z.leb_le _ _)) by lia. cbn [andb]. f_equal. f_equal. lia.
Qed.
