(* ===== verification/RlcUmLossy.v ===== *)
(** * Transfer over UM

    PDUs of one sender arrive at the receiver late, twice, in another order or
    not at all, the timers run.  Every SDU all of whose PDUs have a slot set is
    delivered, in order, once, and nothing else is. *)

From S2P Require Import Prelude RlcAmTypes RlcAmLi RlcTimers RlcUmTypes RlcUmWindow RlcUmLi RlcUmReassembly RlcUmDelivery RlcUmDar RlcUmReordering RlcUmDarSpec RlcUm.

(** ** The PDUs of a stream *)
Definition um_frag_pdu (n i : Z) (f : um_frag) : list Z :=
  umd_pdu n (fg_fresh f) (fg_full f) (i mod umd_sn_bound n) (fg_pieces f) (fg_last f).
Definition um_frag_tb (n i : Z) (f : um_frag) : mac_tb :=
  Mk_mac_tb (um_frag_pdu n i f) (Z.of_nat (length (um_frag_pdu n i f))).
Definition um_tbs (n : Z) (frs : list um_frag) : list mac_tb := imap (fun k f => um_frag_tb n (Z.of_nat k) f) frs.
Definition um_nth (tbs : list mac_tb) (i : Z) : mac_tb := default (Mk_mac_tb [] 0) (tbs !! Z.to_nat i).
Definition um_tb (n : Z) (frs : list um_frag) : Z -> mac_tb := um_nth (um_tbs n frs).

Definition um_frag_ok (f : um_frag) : Prop :=
  (length (fg_pieces f) <= 128)%nat /\ Forall is_li (frag_sizes (fg_pieces f)) /\
  Forall (fun u => u <> []) (um_frags f).
(** The SDUs fit in the buffer of the receiver. *)
Definition um_fits (max : Z) (frs : list um_frag) : Prop :=
  forall i f, frs !! i = Some f ->
    Forall (fun u => Z.of_nat (length u) <= max)
      (um_join (Some (um_start (Z.of_nat i) f (um_before frs (Z.of_nat i))).2) (um_frags f)).
Record um_stream_ok (max : Z) (frs : list um_frag) : Prop := Mk_um_stream_ok {
  us_frags : Forall um_frag_ok frs;
  us_chain : um_chain frs;
  us_fits : um_fits max frs
}.

Definition um_max (dp : bool) : Z := if dp then RLC_SDU_MAX_SIZE_DATA_PLANE else RLC_SDU_MAX_SIZE_CONTROL_PLANE.
Definition um_window (n : Z) : Z := if n =? 10 then 512 else 16.

Lemma um_stream_lookup n frs i : 0 <= i < Z.of_nat (length frs) ->
  exists f, frs !! Z.to_nat i = Some f /\ um_tb n frs i = um_frag_tb n i f.
Proof.
  intros H. destruct (lookup_lt_is_Some_2 frs (Z.to_nat i)) as [f Hf]; [lia|].
  exists f. split; [done|]. unfold um_tb, um_nth, um_tbs. rewrite list_lookup_imap, Hf. cbn. by rewrite Z2Nat.id by lia.
Qed.

Lemma um_tb_sn n frs i r :
  sn_length_ok n -> 0 <= i < Z.of_nat (length frs) -> rx_sn_length r = n ->
  um_pdu_sn (um_tb n frs i) r = Ok (um_sn (umd_sn_bound n) 0 i).
Proof.
  intros Hn Hi Hr. destruct (um_stream_lookup n frs i Hi) as (f & _ & ->). unfold um_pdu_sn, um_sn. rewrite Hr, Z.add_0_l.
  assert (Hb : 0 < umd_sn_bound n) by (unfold umd_sn_bound; destruct (n =? 10); lia).
  pose proof (Z.mod_pos_bound i (umd_sn_bound n) Hb) as Hs.
  assert (Hfi : 0 <= um_fi (fg_fresh f) (fg_full f) < 4) by (unfold um_fi; destruct (fg_fresh f), (fg_full f); lia).
  set (e := b2z (bool_decide (frag_sizes (fg_pieces f) <> []))).
  assert (He : 0 <= e < 2) by (unfold e; destruct (bool_decide _); cbn; lia).
  destruct Hn as [-> | ->]; unfold um_frag_tb, um_frag_pdu, umd_pdu, umd_bytes, umd_header; fold e;
    cbn [Z.eqb Pos.eqb data_ptr app] in *; unfold umd_sn_bound in *; cbn [Z.eqb Pos.eqb] in *.
  - destruct (umd_b1_10 _ _ _ Hfi He Hs) as (_ & _ & E). unfold array_get.
    change (0 <=? 0) with true. change (0 <=? 1) with true. change (Z.to_nat 0) with 0%nat. change (Z.to_nat 1) with 1%nat.
    cbn [lookup list_lookup deref mbind res_bind]. rewrite E, Z.shiftl_mul_pow2 by lia. change (2 ^ 8) with 256. f_equal. mod_lia.
  - destruct (umd_b1_5 _ _ _ Hfi He Hs) as (_ & _ & E). unfold array_get.
    change (0 <=? 0) with true. change (Z.to_nat 0) with 0%nat. cbn [lookup list_lookup deref mbind res_bind]. by rewrite E.
Qed.

Lemma um_tb_reassemble n dp frs i cl r :
  sn_length_ok n -> um_stream_ok (um_max dp) frs -> 0 <= i < Z.of_nat (length frs) ->
  rx_sn_length r = n -> is_data_plane r = dp -> carry (um_carry (um_pre frs) i cl) r ->
  exists r', um_reassemble_pdu (um_tb n frs i) r = Ok r' /\
    um_effect r (um_outs frs i cl) (um_carry (um_pre frs) (i + 1) (um_cleans frs i cl)) r'.
Proof.
  intros Hn [Hok Hch Hfit] Hi Hr Hdp Hc. destruct (um_stream_lookup n frs i Hi) as (f & Hf & ->).
  destruct (proj1 (Forall_lookup _ _) Hok _ _ Hf) as (F1 & F2 & F3).
  assert (Hb : 0 < umd_sn_bound n) by (unfold umd_sn_bound; destruct (n =? 10); lia).
  set (c := um_carry (um_pre frs) i cl) in *.
  assert (Hc' : c = Some (um_before frs i).2 \/ c = None) by (unfold c; destruct cl; [left|right]; done).
  pose proof (Hfit _ _ Hf) as Hfits. rewrite Z2Nat.id in Hfits by lia.
  destruct (um_pdu_ok n (fg_fresh f) (fg_full f) (i mod umd_sn_bound n) (fg_pieces f) (fg_last f) c r)
    as (r' & E & H); try done.
  { split; [done|]. split; [by apply Z.mod_pos_bound|]. by split_and!. }
  { assert (Hmax : sdu_max_size r = um_max dp) by (unfold sdu_max_size, um_max; by rewrite Hdp).
    rewrite Hmax. fold (um_carried f c). unfold um_start in Hfits. unfold um_carried, um_frags in *.
    destruct (fg_fresh f); [done|]. destruct Hc' as [-> | ->]; [done|].
    destruct (fg_pieces f ++ [fg_last f]) as [|x l]; [done|]. cbn [um_join] in *. by apply Forall_cons in Hfits as [_ ?]. }
  exists r'. split; [exact E|]. fold (um_carried f c) in H. fold (um_frags f) in H.
  pose proof (um_carried_next i f (um_before frs i) c Hc') as Hn2.
  unfold um_outs, um_cleans. rewrite Hf. fold c. unfold um_out.
  destruct (um_split _ _) as [out c'] eqn:Es. cbn [fst snd] in *.
  assert (Hcl : bool_decide (is_Some c) = cl).
  { unfold c. destruct cl; [by apply bool_decide_eq_true_2|]. apply bool_decide_eq_false_2. by intros [? ?]. }
  rewrite Hcl in Hn2. unfold um_carry, um_pre. rewrite (um_before_next frs i f) by (done || lia). by rewrite <- Hn2.
Qed.

(** ** The receiver *)

(** MAC indicates the PDUs [ids] of those sent, [tbs], or asks for the buffer status. *)
Inductive um_rx_event :=
| RxInd (c : protocol_ctxt_t) (ids : list Z)
| RxStatus (c : protocol_ctxt_t) (tbs_size : Z) (enb : bool).

Definition um_rx_step (tbs : list mac_tb) (e : um_rx_event) (r : rlc_um_entity_t)
  : res rlc_um_entity_t :=
  match e with
  | RxInd c ids => rlc_um_mac_data_indication c (map (um_nth tbs) ids) r
  | RxStatus c tbs_size enb =>
      '(_, r) ← rlc_um_mac_status_indication c tbs_size enb r;
      Ok r
  end.
Fixpoint um_rx_run (tbs : list mac_tb) (es : list um_rx_event) (r : rlc_um_entity_t)
  : res rlc_um_entity_t :=
  match es with
  | [] => Ok r
  | e :: es => r ← um_rx_step tbs e r; um_rx_run tbs es r
  end.
Definition um_arrived (e : um_rx_event) : list Z := match e with RxInd _ ids => ids | RxStatus _ _ _ => [] end.
Definition um_arrivals (es : list um_rx_event) : list Z := concat (map um_arrived es).

(** The PDUs are among the [N] of the stream, less than a window ([W]) before or
    after the highest one before them ([h] is its number plus one). *)
Fixpoint um_in_window_run (W N h : Z) (ids : list Z) : Prop :=
  match ids with
  | [] => True
  | i :: ids => (0 <= i < N /\ h - W <= i < h + W) /\ um_in_window_run W N (Z.max h (i + 1)) ids
  end.

(** An entity that was just configured to receive [n] bit sequence numbers. *)
Record um_rx_fresh (n : Z) (r : rlc_um_entity_t) : Prop := Mk_um_rx_fresh {
  uf_cfg : um_rx_config (umd_sn_bound n) (um_window n) r /\ rx_sn_length r = n;
  uf_vr : vr_ur r = 0 /\ vr_ux r = 0 /\ vr_uh r = 0;
  uf_timer : running (RlcUmTypes.t_reordering r) = false;
  uf_buffer : dar_buffer r = Some (replicate 1024 None);
  uf_sdu : reassembly_missing_sn_detected r = 0 /\ output_sdu_size_to_write r = 0;
  uf_lastsn : last_reassemblied_sn r = umd_sn_bound n - 1;
  uf_state : protocol_state r = RLC_DATA_TRANSFER_READY_STATE
}.

Section receiver.
Context (n : Z) (frs : list um_frag) (dp : bool) (up : list (list Z)).
Context (Hn : sn_length_ok n) (Hs : um_stream_ok (um_max dp) frs).
Let N : Z := Z.of_nat (length frs).
Let M : Z := umd_sn_bound n.
Let W : Z := um_window n.
Definition um_matches (s : dar) (r : rlc_um_entity_t) : Prop :=
  um_refines (umd_sn_bound n) (um_window n) n 0 (Z.of_nat (length frs)) (um_tb n frs) dp
    (um_outs frs) (um_cleans frs) (um_pre frs) up s r.

Lemma um_MW : um_modulus M W /\ n = (if M =? 1024 then 10 else 5) /\ 0 <= 0 < M /\ 0 < W.
Proof. unfold M, W, um_modulus. by destruct Hn as [-> | ->]; split_and!; (lia || (left; done) || (right; done) || done). Qed.

Lemma um_matches_receive c s r i :
  dar_inv W s -> um_matches s r -> 0 <= i < N -> d_uh s - W <= i < d_uh s + W ->
  exists r', rlc_um_receive_process_dar c (um_tb n frs i) r = Ok r' /\ um_matches (dar_receive W c i s) r'.
Proof.
  destruct um_MW as (H1 & H2 & H3 & H4). apply (um_receive_ok M W n 0 H1 H2 H3).
  - intros j r' Hj Hr. by apply um_tb_sn.
  - intros j cl r' Hj Hr Hdp Hc. by apply (um_tb_reassemble n dp).
Qed.
Lemma um_matches_check c s r :
  dar_inv W s -> um_matches s r ->
  exists r', rlc_um_check_timer_dar_time_out c r = Ok r' /\ um_matches (dar_check c s) r'.
Proof.
  destruct um_MW as (H1 & H2 & H3 & H4). apply (um_check_refines M W n 0 H1 H2 H3).
  intros j cl r' Hj Hr Hdp Hc. by apply (um_tb_reassemble n dp).
Qed.

Lemma um_matches_state s r : um_matches s r -> protocol_state r = RLC_DATA_TRANSFER_READY_STATE.
Proof. intros [C _ _ _ _]. by destruct C. Qed.
Lemma um_matches_nb s r nb : um_matches s r -> um_matches s (r <| nb_bytes_requested_by_mac := nb |>).
Proof. intros H. eapply um_refines_frame; [exact H| |done]. by eapply um_core_frame; [apply H|..]. Qed.

(** A run of the machine: the PDUs of an indication, then t-Reordering. *)
Definition dar_step (e : um_rx_event) (s : dar) : dar :=
  match e with
  | RxInd c ids => dar_check c (fold_left (fun s i => dar_receive W c i s) ids s)
  | RxStatus c _ _ => dar_check c s
  end.

Record um_rx_inv (A : Z -> Prop) (s : dar) (r : rlc_um_entity_t) : Prop := Mk_um_rx_inv {
  ri_inv : dar_inv W s;
  ri_match : um_matches s r;
  ri_from : dar_from A s;
  ri_uh : 0 <= d_uh s <= N
}.
Lemma um_rx_inv_weaken (A B : Z -> Prop) s r : (forall i, A i -> B i) -> um_rx_inv A s r -> um_rx_inv B s r.
Proof.
  intros H [I1 I2 [I3 I3'] I4]. split; try done. split; intros; apply H; [by apply I3|by apply I3'].
Qed.

Lemma um_inv_check A c s r : um_rx_inv A s r ->
  exists r', rlc_um_check_timer_dar_time_out c r = Ok r' /\ um_rx_inv A (dar_check c s) r'.
Proof.
  intros [I1 I2 I3 I4]. destruct (um_matches_check c s r I1 I2) as (r' & E & H). exists r'. split; [exact E|].
  destruct um_MW as (_ & _ & _ & HW).
  split; [by apply dar_check_inv|done|by apply check_from|by rewrite check_uh].
Qed.

Lemma um_inv_receive (A : Z -> Prop) c ids : forall s r,
  um_rx_inv A s r -> um_in_window_run W N (d_uh s) ids -> (forall i, i ∈ ids -> A i) ->
  exists r', rlc_um_receive c (map (um_tb n frs) ids) r = Ok r' /\
    let s' := fold_left (fun s i => dar_receive W c i s) ids s in
    um_rx_inv A s' r' /\ d_uh s' = fold_left (fun h i => Z.max h (i + 1)) ids (d_uh s).
Proof.
  induction ids as [|i ids IH]; intros s r I Hw HA; [by exists r|].
  destruct Hw as [[Hi Hw] Hws]. destruct um_MW as (_ & _ & _ & HW). cbn [map rlc_um_receive fold_left].
  set (r1 := stat_add _ _ _). destruct I as [I1 I2 I3 I4].
  assert (I2' : um_matches s r1) by (unfold r1; apply um_refines_stat; apply um_refines_stat; exact I2).
  destruct (um_matches_receive c s r1 i I1 I2' Hi Hw) as (r2 & E2 & H2).
  assert (Hsz : (tb_size (um_tb n frs i) >? 0) = true).
  { destruct (um_stream_lookup n frs i Hi) as (f & _ & ->). cbn [um_frag_tb tb_size]. unfold um_frag_pdu, umd_pdu, umd_bytes, umd_header.
    destruct (n =? 10); cbn [app length]; apply Z.gtb_lt; lia. }
  rewrite Hsz, E2. cbn [mbind res_bind]. pose proof (receive_uh W c i s I1) as Hu. rewrite <- Hu in Hws |- *.
  apply IH; [|exact Hws|intros j Hj; apply HA; by right].
  split; [apply dar_receive_inv; [lia|done|lia]|done|apply receive_from; [done|apply HA; by left]|].
  rewrite Hu. lia.
Qed.

Lemma um_inv_step A e s r :
  um_rx_inv A s r -> um_in_window_run W N (d_uh s) (um_arrived e) -> (forall i, i ∈ um_arrived e -> A i) ->
  exists r', um_rx_step (um_tbs n frs) e r = Ok r' /\ um_rx_inv A (dar_step e s) r' /\
    d_uh (dar_step e s) = fold_left (fun h i => Z.max h (i + 1)) (um_arrived e) (d_uh s).
Proof.
  intros I Hw HA. destruct e as [c ids | c nb enb]; cbn [um_rx_step um_arrived dar_step] in *.
  - fold (um_tb n frs). unfold rlc_um_mac_data_indication, rlc_um_rx. rewrite (um_matches_state _ _ (ri_match _ _ _ I)).
    destruct (um_inv_receive A c ids s r I Hw HA) as (r1 & -> & I1 & Hu). cbn [mbind res_bind].
    destruct (um_inv_check A c _ r1 I1) as (r2 & -> & I2). exists r2. by rewrite check_uh.
  - unfold rlc_um_mac_status_indication. destruct (um_inv_check A c s r I) as (r1 & -> & I1). cbn [mbind res_bind fold_left].
    set (r2 := r1 <| nb_bytes_requested_by_mac := u16 nb |>). exists r2. rewrite check_uh.
    assert (I2 : um_rx_inv A (dar_check c s) r2).
    { destruct I1 as [J1 J2 J3 J4]. split; try done. by apply um_matches_nb. }
    split; [|by split]. destruct (input_sdus r2); [done|]. by destruct (_ >? 0).
Qed.
End receiver.

Lemma um_in_window_app W N l k : forall h,
  um_in_window_run W N h (l ++ k) <->
    um_in_window_run W N h l /\ um_in_window_run W N (fold_left (fun h i => Z.max h (i + 1)) l h) k.
Proof.
  induction l as [|i l IH]; intros h; cbn [app um_in_window_run fold_left]; [tauto|]. rewrite IH. tauto.
Qed.

Lemma um_inv_run n frs dp up A es : sn_length_ok n -> um_stream_ok (um_max dp) frs -> forall s r,
  um_rx_inv n frs dp up A s r -> um_in_window_run (um_window n) (Z.of_nat (length frs)) (d_uh s) (um_arrivals es) ->
  (forall i, i ∈ um_arrivals es -> A i) ->
  exists r', um_rx_run (um_tbs n frs) es r = Ok r' /\ um_rx_inv n frs dp up A (fold_left (fun s e => dar_step n e s) es s) r'.
Proof.
  intros Hn Hs. induction es as [|e es IH]; intros s r I Hw HA; [by exists r|].
  unfold um_arrivals in *. cbn [map concat] in *. apply um_in_window_app in Hw as [Hw1 Hw2].
  destruct (um_inv_step n frs dp up Hn Hs A e s r I Hw1) as (r1 & E1 & I1 & Hu).
  { intros i Hi. apply HA, elem_of_app. by left. }
  cbn [um_rx_run fold_left]. rewrite E1. cbn [mbind res_bind]. rewrite <- Hu in Hw2.
  apply (IH _ _ I1 Hw2). intros i Hi. apply HA, elem_of_app. by right.
Qed.

(** The machine of an entity that was just configured. *)
Definition dar_start (r : rlc_um_entity_t) : dar := Mk_dar [] 0 0 ∅ (RlcUmTypes.t_reordering r).

Lemma um_inv_start n frs r A :
  sn_length_ok n -> um_rx_fresh n r -> um_rx_inv n frs (is_data_plane r) (upper_layer r) A (dar_start r) r.
Proof.
  intros Hn [[Hc Hl] (V1 & V2 & V3) Ht Hb [Hm Ho] Hls Hst].
  assert (HM : 1 < umd_sn_bound n <= 1024) by (unfold umd_sn_bound; destruct (n =? 10); lia).
  assert (E0 : um_sn (umd_sn_bound n) 0 0 = 0) by (unfold um_sn; by rewrite Z.mod_0_l by lia).
  split; [| |split; [by intros ? ?%elem_of_empty|by intros k]|cbn; lia].
  - split; [|by intros ? ?%elem_of_empty|cbn [dar_start d_timer]; by rewrite Ht].
    change (0 <= 0 <= 0 + um_window n). unfold um_window. destruct (n =? 10); lia.
  - split; cbn [dar_start d_ur d_slots d_ux d_uh d_timer d_held length Z.of_nat]; rewrite ?E0; try done.
    split; try done; cbn [slots_out slots_clean um_carry length Z.of_nat]; rewrite ?E0, ?app_nil_r; try done.
    + eexists. split; [exact Hb|]. split; [by rewrite length_replicate|]. intros j _.
      rewrite bool_decide_eq_false_2; [|by intros ?%elem_of_empty]. rewrite lookup_replicate. split; [done|].
      pose proof (Z.mod_pos_bound (0 + j) (umd_sn_bound n) ltac:(lia)). unfold um_sn. lia.
    + split; [done|]. split; [by rewrite Ho|by left].
    + rewrite Hls. split; [lia|]. intros _. replace (umd_sn_bound n - 1 + 1) with (umd_sn_bound n) by lia.
      apply Z.mod_same. lia.
Qed.

Lemma um_receiver_ok n frs es r :
  sn_length_ok n -> um_rx_fresh n r -> um_stream_ok (um_max (is_data_plane r)) frs ->
  um_in_window_run (um_window n) (Z.of_nat (length frs)) 0 (um_arrivals es) ->
  let s := fold_left (fun s e => dar_step n e s) es (dar_start r) in
  exists r', um_rx_run (um_tbs n frs) es r = Ok r' /\ upper_layer r' = upper_layer r ++ um_delivered frs (d_slots s) /\
    (length (d_slots s) <= length frs)%nat /\
    (forall k : nat, d_slots s !! k = Some true -> Z.of_nat k ∈ um_arrivals es).
Proof.
  intros Hn Hr Hs Hw s.
  destruct (um_inv_run n frs (is_data_plane r) (upper_layer r) (fun i => i ∈ um_arrivals es) es Hn Hs _ _
    (um_inv_start n frs r _ Hn Hr) Hw) as (r' & E & I); [done|]. fold s in I.
  destruct I as [I1 I2 I3 I4]. exists r'. split; [exact E|].
  pose proof (di_window _ _ I1) as Hwin. unfold d_ur in Hwin.
  assert (Hl : (length (d_slots s) <= length frs)%nat) by lia.
  split; [|split; [exact Hl|apply I3]].
  rewrite <- um_slots_delivered by (done || apply Hs). destruct I2 as [C _ _ _ _]. by destruct C.
Qed.
