(* ===== verification/RlcUmSender.v ===== *)
(** * The UM sender as a stream

    Requests of the upper layer and transmission opportunities turn SDUs into
    the PDUs of a stream (RlcUmDelivery): the SDUs that end in it are those
    handed over, in order, with at most two bytes of padding for 10 bit sequence
    numbers. *)

From S2P Require Import Prelude RlcAmTypes RlcAmLi RlcTimers RlcUmTypes RlcUmLi RlcUmReassembly RlcUmDelivery RlcUmSegment RlcUmSegmentSpec RlcUm RlcUmLossy.

(** ** Events *)
Inductive um_tx_event :=
| TxSdu (c : protocol_ctxt_t) (req : rlc_um_data_req_t)
| TxOpportunity (tb_size : Z) (block : option (list Z)) (enb : bool).

(** The bytes that MAC takes of a transport block. *)
Definition um_wire (tb : mac_tb) : mac_tb := Mk_mac_tb (take (Z.to_nat (tb_size tb)) (data_ptr tb)) (tb_size tb).

Definition um_tx_step (e : um_tx_event) (r : rlc_um_entity_t) : res (list mac_tb * rlc_um_entity_t) :=
  match e with
  | TxSdu c req => Ok ([], rlc_um_data_req c req r)
  | TxOpportunity nb block enb =>
      '(resp, r) ← rlc_um_mac_data_request enb block (rlc_um_set_nb_bytes_requested_by_mac nb r);
      Ok (map um_wire (mdr_data resp), r)
  end.
Fixpoint um_tx_run (es : list um_tx_event) (r : rlc_um_entity_t) : res (list mac_tb * rlc_um_entity_t) :=
  match es with
  | [] => Ok ([], r)
  | e :: es =>
      '(tbs, r) ← um_tx_step e r;
      '(tbs', r) ← um_tx_run es r;
      Ok (tbs ++ tbs', r)
  end.

Definition um_sdus (es : list um_tx_event) : list (list Z) :=
  concat (map (fun e => match e with
                        | TxSdu _ req => [take (Z.to_nat (um_data_size req)) (um_data req)]
                        | _ => []
                        end) es).

(** SDUs of at most 1998 bytes; a queue that does not overflow the 32-bit
    occupancy and, when MAC asks, holds at most 129 SDUs: a PDU has then at most 128 LIs. *)
Definition um_tx_legal (e : um_tx_event) (r : rlc_um_entity_t) : Prop :=
  match e with
  | TxSdu _ req =>
      0 < um_data_size req <= 1998 /\ um_data_size req <= Z.of_nat (length (um_data req)) /\
      buffer_occupancy r < 500000000
  | TxOpportunity nb block _ =>
      0 <= nb < 32768 /\ (length (input_sdus r) <= 129)%nat /\
      match block with Some b => Z.max 4 nb <= Z.of_nat (length b) | None => True end
  end.
Fixpoint um_tx_legal_run (es : list um_tx_event) (r : rlc_um_entity_t) : Prop :=
  match es with
  | [] => True
  | e :: es =>
      um_tx_legal e r /\
      match um_tx_step e r with Ok (_, r') => um_tx_legal_run es r' | Err _ => True end
  end.

(** ** The queue behind the PDUs that were sent *)
Abbreviation um_queue := (list rlc_um_tx_sdu_management_t).

Definition um_part_sent (q : um_queue) : list Z :=
  match q with s :: _ => take (Z.to_nat (sdu_segmented_size s)) (um_bytes s) | [] => [] end.
Definition um_unsent (q : um_queue) : bool :=
  match q with s :: _ => sdu_segmented_size s =? 0 | [] => true end.
Definition um_begins (frs : list um_frag) : bool := match last frs with Some f => fg_full f | None => true end.
Definition um_padded (n : Z) (s u : list Z) : Prop :=
  exists pad, u = s ++ pad /\ Z.of_nat (length pad) <= if n =? 10 then 2 else 0.

Record um_tx_inv (n : Z) (sdus : list (list Z)) (frs : list um_frag) (r : rlc_um_entity_t) : Prop := Mk_um_tx_inv {
  ti_ok : um_tx_ok n r;
  ti_state : protocol_state r = RLC_DATA_TRANSFER_READY_STATE;
  ti_pdus : pdus_to_mac_layer r = [];
  ti_vt : vt_us r = Z.of_nat (length frs) mod 65536;
  ti_sizes : Forall (fun s => sdu_size s <= 1998) (input_sdus r);
  ti_tail : Forall (fun s => sdu_segmented_size s = 0) (tail (input_sdus r));
  ti_begins : um_begins frs = um_unsent (input_sdus r);
  ti_stream : um_stream_ok 2000 frs;
  ti_done : exists done, sdus = done ++ map um_bytes (input_sdus r) /\
    Forall2 (um_padded n) done (map snd (um_spans frs));
  ti_pre : (um_state frs).2 = um_part_sent (input_sdus r)
}.

(** *** The PDU of a plan *)
Definition um_frag_of (m : nat) (x : Z) (pad : list Z) (q : um_queue) : um_frag :=
  Mk_um_frag (um_fresh q) (um_full m x q) (um_pieces m q) (um_last_left m x q ++ pad).

Lemma um_fresh_unsent q : Forall um_sdu_wf q -> q <> [] -> um_fresh q = um_unsent q.
Proof.
  destruct q as [|s q]; [done|]. intros [(H1 & H2 & H3 & _) _]%Forall_cons _. cbn.
  destruct (Z.eqb_spec (sdu_remaining_size s) (sdu_size s)), (Z.eqb_spec (sdu_segmented_size s) 0); lia.
Qed.
Lemma um_left_whole s : sdu_segmented_size s = 0 -> um_left s = um_bytes s.
Proof. intros H. unfold um_left. by rewrite H. Qed.

(** The SDUs of the PDU, with what went before. *)
Lemma um_join_queue m x pad q s :
  q !! m = Some s -> Forall um_sdu_wf q -> Forall (fun s => sdu_segmented_size s = 0) (tail q) -> 0 <= x ->
  um_join (Some (um_part_sent q)) (um_pieces m q ++ [take (Z.to_nat x) (um_left s) ++ pad]) =
    map um_bytes (take m q) ++ [take (Z.to_nat (sdu_segmented_size s + x)) (um_bytes s) ++ pad].
Proof.
  intros Hs Hwf Ht Hx. destruct q as [|s0 q]; [done|]. apply Forall_cons in Hwf as [Hw0 Hwf].
  destruct Hw0 as (H0 & _). cbn [um_part_sent tail] in *. destruct m as [|m].
  - injection Hs as ->. cbn [um_pieces take map app um_join]. unfold um_left.
    rewrite app_assoc, take_take_drop. by rewrite Z2Nat.inj_add by lia.
  - cbn [um_pieces take map app um_join]. unfold um_left at 1. rewrite take_drop. f_equal.
    cbn in Hs. pose proof (proj1 (Forall_lookup _ _) Ht _ _ Hs) as E. cbn in E. rewrite E, um_left_whole, Z.add_0_l by done.
    f_equal. apply map_ext_in. intros s' Hs'%list_elem_of_In. apply um_left_whole.
    apply (proj1 (Forall_forall _ _) Ht). apply elem_of_take in Hs' as (j & Hj & _). by eapply list_elem_of_lookup_2.
Qed.

(** *** An SDU is handed over *)
Lemma um_queue_length q : Forall um_sdu_wf q -> Z.of_nat (length q) <= um_left_sum q.
Proof.
  induction 1 as [|s q (_ & Hs & _) _ IH]; [done|]. rewrite um_left_sum_cons. cbn [length]. lia.
Qed.
Lemma li_length_twice k : (li_length k <= 2 * k)%nat.
Proof. unfold li_length. pose proof (Nat.div_mod_eq k 2). pose proof (Nat.mod_upper_bound k 2). lia. Qed.

Lemma um_sdu_ok n sdus frs c req r :
  um_tx_inv n sdus frs r -> um_tx_legal (TxSdu c req) r ->
  um_tx_inv n (sdus ++ [take (Z.to_nat (um_data_size req)) (um_data req)]) frs (rlc_um_data_req c req r).
Proof.
  intros [[T1 T2 T3 T4 T5 T6] I2 I3 I4 I5 I6 I7 I8 (dn & I9 & I9') I10] (L1 & L2 & L3). unfold rlc_um_data_req.
  assert (Hu : u16 (um_data_size req) = um_data_size req) by (unfold u16; apply wrapu_small; change (2 ^ 16) with 65536; lia).
  rewrite Hu. set (s := Mk_um_sdu _ _ _ _ _).
  assert (Hs : um_sdu_wf s) by (unfold um_sdu_wf, s; cbn [sdu_segmented_size sdu_remaining_size sdu_size sdu_data]; lia).
  pose proof (um_queue_length _ T3) as Hq. pose proof (li_length_twice (length (input_sdus r ++ [s]))) as Hli.
  assert (Hsum : um_left_sum [s] = um_data_size req) by (rewrite um_left_sum_cons; cbn; lia).
  set (r1 := stat_add _ _ (stat_add _ _ r)).
  assert (Ei32 : i32 (buffer_occupancy r1 + um_data_size req) = buffer_occupancy r1 + um_data_size req).
  { change (buffer_occupancy r1) with (buffer_occupancy r). unfold i32. apply wraps_small; lia. }
  rewrite Ei32.
  assert (Ei : input_sdus r1 = input_sdus r) by done. assert (Eb : buffer_occupancy r1 = buffer_occupancy r) by done.
  split; try done; cbn [input_sdus update_field]; rewrite ?Ei.
  - split; cbn [input_sdus buffer_occupancy update_field]; try done; rewrite ?Ei, ?Eb, ?um_left_sum_app, ?Hsum.
    + apply Forall_app. split; [done|]. by apply Forall_cons.
    + lia.
    + rewrite length_app in *. cbn [length] in *. change (2 ^ 31) with 2147483648. lia.
  - apply Forall_app. split; [done|]. apply Forall_cons. split; [cbn; lia|done].
  - destruct (input_sdus r) as [|s0 q]; cbn [app tail] in *; [done|].
    apply Forall_app. split; [done|]. by apply Forall_cons.
  - rewrite I7. by destruct (input_sdus r).
  - exists dn. split; [|done].
    rewrite I9, map_app, <- app_assoc. done.
  - rewrite I10. by destruct (input_sdus r).
Qed.

(** *** A PDU is sent *)
Lemma um_mark_snd a i out : map snd (um_mark a i out) = out.
Proof. destruct out as [|u us]; [done|]. cbn. f_equal. rewrite map_map. apply map_id. Qed.
Lemma um_carried_start i f st : um_carried f (Some st.2) = Some (um_start i f st).2.
Proof. unfold um_carried, um_start. by destruct (fg_fresh f). Qed.
Lemma um_start_pre n sdus frs r m x pad i :
  um_tx_inv n sdus frs r -> input_sdus r <> [] ->
  (um_start i (um_frag_of m x pad (input_sdus r)) (um_state frs)).2 = um_part_sent (input_sdus r).
Proof.
  intros I Hne. unfold um_start. cbn [um_frag_of fg_fresh].
  destruct (um_fresh (input_sdus r)) eqn:E; [|apply I]. cbn [snd].
  rewrite um_fresh_unsent in E by (done || apply I). unfold um_unsent, um_part_sent in *.
  destruct (input_sdus r) as [|s q]; [done|]. apply Z.eqb_eq in E. by rewrite E.
Qed.

Section sent.
Context (n : Z) (sdus : list (list Z)) (frs : list um_frag) (r : rlc_um_entity_t).
Context (m : nat) (x : Z) (pad : list Z) (s : rlc_um_tx_sdu_management_t).
Context (I : um_tx_inv n sdus frs r) (Hs : input_sdus r !! m = Some s) (Hx : 0 < x <= sdu_remaining_size s).
Context (Hpad : Z.of_nat (length pad) <= if n =? 10 then 2 else 0) (Hpx : pad <> [] -> x = sdu_remaining_size s).
Context (H129 : (length (input_sdus r) <= 129)%nat).
Let q : list rlc_um_tx_sdu_management_t := input_sdus r.
Let f : um_frag := um_frag_of m x pad q.

Lemma um_sent_ne : q <> [].
Proof. unfold q. by destruct (input_sdus r). Qed.
Lemma um_sent_wf : um_sdu_wf s.
Proof. exact (proj1 (Forall_lookup _ _) (ut_queue _ _ (ti_ok _ _ _ _ I)) _ _ Hs). Qed.
Lemma um_sent_full : um_full m x q = (x =? sdu_remaining_size s).
Proof. unfold um_full, q. by rewrite Hs. Qed.
Lemma um_sent_last : fg_last f = take (Z.to_nat x) (um_left s) ++ pad.
Proof. unfold f, um_frag_of, um_last_left, q. cbn [fg_last]. by rewrite Hs. Qed.
Lemma um_sent_tail j s' : q !! S j = Some s' -> sdu_segmented_size s' = 0.
Proof.
  intros Hj. pose proof (ti_tail _ _ _ _ I) as Ht. fold q in Ht. destruct q as [|s0 q0]; [done|].
  exact (proj1 (Forall_lookup _ _) Ht j s' Hj).
Qed.

Lemma um_sent_join i :
  um_join (Some (um_start i f (um_state frs)).2) (um_frags f) =
    map um_bytes (take m q) ++ [take (Z.to_nat (sdu_segmented_size s + x)) (um_bytes s) ++ pad].
Proof.
  pose proof (um_start_pre n sdus frs r m x pad i I um_sent_ne) as E. fold q in E. fold f in E.
  rewrite E. unfold um_frags. rewrite um_sent_last.
  apply um_join_queue; [exact Hs|apply I|apply I|lia].
Qed.
Lemma um_sent_whole : x = sdu_remaining_size s -> take (Z.to_nat (sdu_segmented_size s + x)) (um_bytes s) = um_bytes s.
Proof.
  intros ->. destruct um_sent_wf as (H1 & H2 & H3 & H4 & H5). apply take_ge. unfold um_bytes. rewrite length_take. lia.
Qed.

(** The SDUs that end in it, and what is in construction after it. *)
Lemma um_sent_out i :
  (um_split (fg_full f) (um_join (Some (um_start i f (um_state frs)).2) (um_frags f))).1 =
    map um_bytes (take m q) ++ (if um_full m x q then [um_bytes s ++ pad] else []).
Proof.
  rewrite um_sent_join. unfold um_split. cbn [f um_frag_of fg_full]. rewrite um_sent_full.
  destruct (Z.eqb_spec x (sdu_remaining_size s)) as [E|]; cbn [fst]; [by rewrite um_sent_whole|].
  by rewrite removelast_last, app_nil_r.
Qed.
Lemma um_sent_next i :
  (um_next i f (um_state frs)).2 =
    if um_full m x q then [] else take (Z.to_nat (sdu_segmented_size s + x)) (um_bytes s).
Proof.
  pose proof (um_carried_next i f (um_state frs) (Some (um_state frs).2) (or_introl eq_refl)) as E.
  rewrite (um_carried_start i), um_sent_join in E. rewrite bool_decide_eq_true_2 in E by done.
  unfold um_clean in E. rewrite !orb_true_r in E. cbn [orb] in E. unfold um_split in E. cbn [f um_frag_of fg_full] in E.
  rewrite um_sent_full in *. destruct (Z.eqb_spec x (sdu_remaining_size s)) as [|Hne]; cbn [snd] in E; [by injection E|].
  rewrite last_snoc in E. injection E as E. rewrite <- E.
  destruct pad as [|]; [by rewrite app_nil_r|]. by destruct Hne; apply Hpx.
Qed.

Lemma um_sent_frag_ok : um_frag_ok f.
Proof.
  pose proof (ut_queue _ _ (ti_ok _ _ _ _ I)) as Hwf. fold q in Hwf.
  split; [|split].
  - cbn [f um_frag_of fg_pieces]. unfold um_pieces. rewrite length_map, length_take. fold q in H129.
    apply lookup_lt_Some in Hs. fold q in Hs. lia.
  - cbn [f um_frag_of fg_pieces]. rewrite frag_sizes_left by done. apply Forall_map, Forall_take.
    pose proof (ti_sizes _ _ _ _ I) as Hsz. fold q in Hsz. apply Forall_forall. intros s' Hs'.
    destruct (proj1 (Forall_forall _ _) Hwf s' Hs') as (H1 & H2 & H3 & _).
    pose proof (proj1 (Forall_forall _ _) Hsz s' Hs') as H4. unfold is_li. cbn in *. lia.
  - unfold um_frags. apply Forall_app. split.
    + cbn [f um_frag_of fg_pieces]. apply Forall_map, Forall_take. eapply Forall_impl; [exact Hwf|].
      intros s' Hw' E. pose proof (length_um_left s' Hw') as E'. rewrite E in E'. destruct Hw' as (_ & ? & _). cbn in E'. lia.
    + apply Forall_cons. split; [|done]. rewrite um_sent_last. intros [E _]%app_eq_nil.
      pose proof (length_um_left s um_sent_wf) as Hl. apply (f_equal length) in E. rewrite length_take in E. cbn in E. lia.
Qed.
Lemma um_sent_stream : um_stream_ok 2000 (frs ++ [f]).
Proof.
  destruct (ti_stream _ _ _ _ I) as [S1 S2 S3]. split.
  - apply Forall_app. split; [done|]. apply Forall_cons. split; [apply um_sent_frag_ok|done].
  - intros k g g' Hg Hg'. destruct (decide (S k < length frs)%nat).
    { rewrite lookup_app_l in Hg, Hg' by lia. by apply (S2 k). }
    pose proof (lookup_lt_Some _ _ _ Hg') as Hlt. rewrite length_app in Hlt. cbn [length] in Hlt.
    assert (Ek : S k = length frs) by lia. rewrite lookup_app_r in Hg' by lia. rewrite Ek, Nat.sub_diag in Hg'.
    injection Hg' as <-. rewrite lookup_app_l in Hg by lia. cbn [f um_frag_of fg_fresh].
    rewrite um_fresh_unsent by (apply I || apply um_sent_ne). unfold q. rewrite <- (ti_begins _ _ _ _ I). unfold um_begins.
    replace (last frs) with (Some g); [done|]. rewrite last_lookup, <- Ek. done.
  - intros k g Hg. destruct (decide (k < length frs)%nat) as [Hlt|Hge].
    { rewrite lookup_app_l in Hg by done. unfold um_before. rewrite Nat2Z.id, take_app_le by lia.
      pose proof (S3 k g Hg) as H. unfold um_before in H. by rewrite Nat2Z.id in H. }
    pose proof (lookup_lt_Some _ _ _ Hg) as Hlt. rewrite length_app in Hlt. cbn [length] in Hlt.
    assert (k = length frs) as -> by lia. rewrite lookup_app_r, Nat.sub_diag in Hg by lia. injection Hg as <-.
    unfold um_before. rewrite Nat2Z.id, take_app_length, um_sent_join.
    pose proof (ti_sizes _ _ _ _ I) as Hsz. fold q in Hsz.
    assert (Hb : forall s', s' ∈ q -> Z.of_nat (length (um_bytes s')) <= 1998).
    { intros s' Hs'. pose proof (proj1 (Forall_forall _ _) Hsz s' Hs') as H. cbn in H. unfold um_bytes. rewrite length_take. lia. }
    apply Forall_app. split.
    + apply Forall_map, Forall_take, Forall_forall. intros s' Hs'. specialize (Hb s' Hs'). lia.
    + apply Forall_cons. split; [|done]. rewrite length_app, length_take.
      specialize (Hb s (list_elem_of_lookup_2 _ _ _ Hs)). destruct (n =? 10); lia.
Qed.

Lemma um_sent_tail_zero k : Forall (fun s => sdu_segmented_size s = 0) (drop (S k) q).
Proof.
  apply Forall_lookup. intros j s' Hj. rewrite lookup_drop in Hj. by apply (um_sent_tail (k + j)).
Qed.
Lemma um_rest_head :
  um_unsent (um_rest m x q) = um_full m x q /\
  um_part_sent (um_rest m x q) = (if um_full m x q then [] else take (Z.to_nat (sdu_segmented_size s + x)) (um_bytes s)) /\
  Forall (fun s => sdu_segmented_size s = 0) (tail (um_rest m x q)).
Proof.
  rewrite (um_rest_eq m x q s Hs). pose proof (um_sent_tail_zero m) as Hz. pose proof um_sent_wf as (H0 & _).
  destruct (um_full m x q); cbn [app].
  - destruct (drop (S m) q) as [|s' q']; [done|]. apply Forall_cons in Hz as [Hz Hz'].
    cbn [um_unsent um_part_sent tail]. by rewrite Hz.
  - cbn [um_unsent um_part_sent tail]. split; [|by split]. cbn [um_part sdu_segmented_size update_field].
    apply Z.eqb_neq. lia.
Qed.
Lemma um_sent_done dn :
  sdus = dn ++ map um_bytes q ->
  sdus = (dn ++ map um_bytes (take m q) ++ (if um_full m x q then [um_bytes s] else [])) ++
    map um_bytes (um_rest m x q).
Proof.
  intros ->. rewrite (um_rest_eq m x q s Hs). rewrite <- (take_drop_middle q m s Hs) at 1.
  rewrite !map_app, <- !app_assoc. by destruct (um_full m x q).
Qed.
Lemma um_tx_ok_after d stale : um_tx_ok n (um_after n r m x d stale).
Proof.
  destruct (ti_ok _ _ _ _ I) as [T1 T2 T3 T4 T5 T6].
  pose proof (um_rest_sum m x q s Hs) as Hsum. pose proof (um_rest_wf m x q s Hs T3 Hx) as Hwf.
  pose proof (length_um_rest m x q s Hs) as Hlen. fold q in T3, T4, T6.
  pose proof (um_taken_ge m x q T3) as Hn0.
  pose proof (li_length_mono _ _ Hlen) as Hli.
  split; try done; cbn [um_after input_sdus buffer_occupancy vt_us update_field]; fold q; try done; try lia.
  unfold u16, wrapu. apply Z.mod_pos_bound. lia.
Qed.

(** The PDU is sent: it is the next one of the stream. *)
Lemma um_inv_after d stale :
  um_tx_inv n sdus (frs ++ [f]) ((um_after n r m x d stale) <| pdus_to_mac_layer := [] |>).
Proof.
  destruct um_rest_head as (Hu & Hp & Ht). destruct (um_tx_ok_after d stale) as [T1 T2 T3 T4 T5 T6].
  destruct (ti_done _ _ _ _ I) as (dn & I9 & I9').
  apply Mk_um_tx_inv; try apply I; try exact Ht; try apply um_sent_stream.
  - by split.
  - done.
  - cbn [um_after vt_us update_field]. rewrite length_app, (ti_vt _ _ _ _ I). cbn [length]. unfold u16, wrapu.
    change (2 ^ 16) with 65536. mod_lia.
  - apply (um_rest_sizes m x q s (fun z => z <= 1998) Hs). apply I.
  - unfold um_begins. rewrite last_snoc. symmetry. exact Hu.
  - exists (dn ++ map um_bytes (take m q) ++ (if um_full m x q then [um_bytes s] else [])).
    split; [exact (um_sent_done dn I9)|]. unfold um_spans. rewrite um_spans_from_snoc, map_app. apply Forall2_app; [exact I9'|].
    unfold um_ended. rewrite um_mark_snd. fold um_state. rewrite um_sent_out. apply Forall2_app.
    + apply Forall_Forall2_diag, Forall_true. intros u. exists []. rewrite app_nil_r. split; [done|].
      cbn [length]. destruct (n =? 10); lia.
    + destruct (um_full m x q); [|done]. apply Forall2_cons. split; [|done]. by exists pad.
  - unfold um_state. rewrite um_state_from_snoc. fold um_state. rewrite um_sent_next. symmetry. exact Hp.
Qed.
End sent.

(** *** Transmission opportunities *)
Lemma um_tx_frame n sdus frs r r' :
  um_tx_inv n sdus frs r ->
  tx_sn_length r' = tx_sn_length r -> tx_header_min_length_in_bytes r' = tx_header_min_length_in_bytes r ->
  input_sdus r' = input_sdus r -> buffer_occupancy r' = buffer_occupancy r -> vt_us r' = vt_us r ->
  protocol_state r' = protocol_state r -> pdus_to_mac_layer r' = pdus_to_mac_layer r ->
  um_tx_inv n sdus frs r'.
Proof.
  intros [[T1 T2 T3 T4 T5 T6] I2 I3 I4 I5 I6 I7 I8 I9 I10] E1 E2 E3 E4 E5 E6 E7.
  split; [split|..]; rewrite ?E1, ?E2, ?E3, ?E4, ?E5, ?E6, ?E7; done.
Qed.

(** The bytes of the transport block are those of the PDU. *)
Lemma um_sent_wire n r m x d stale (frs : list um_frag) :
  sn_length_ok n -> vt_us r = Z.of_nat (length frs) mod 65536 -> 0 <= d <= Z.of_nat (length stale) ->
  let pad := if n =? 10 then take (Z.to_nat d) stale else [] in
  um_wire (Mk_mac_tb (um_sent n r m x ++ stale) (Z.of_nat (length (um_sent n r m x)) + (if n =? 10 then d else 0))) =
    um_frag_tb n (Z.of_nat (length frs)) (um_frag_of m x pad (input_sdus r)).
Proof.
  intros Hn Hv Hd pad.
  assert (Hb : um_frag_pdu n (Z.of_nat (length frs)) (um_frag_of m x pad (input_sdus r)) = um_sent n r m x ++ pad).
  { unfold um_frag_pdu, um_sent, um_frag_of, umd_pdu, umd_bytes. cbn [fg_fresh fg_full fg_pieces fg_last].
    rewrite Hv, <- !app_assoc. do 2 f_equal. unfold umd_sn_bound. destruct (n =? 10); mod_lia. }
  unfold um_wire, um_frag_tb. rewrite Hb. cbn [data_ptr tb_size]. rewrite length_app. f_equal.
  - unfold pad. destruct (n =? 10).
    + rewrite Z2Nat.inj_add, Nat2Z.id, take_app_add by lia. done.
    + rewrite Z.add_0_r, Nat2Z.id, take_app_length, app_nil_r. done.
  - unfold pad. destruct (n =? 10); [rewrite length_take|cbn [length]]; lia.
Qed.

(** What an opportunity of [nb] bytes sends. *)
Definition um_opportunity (n nb : Z) (frs : list um_frag) (r r' : rlc_um_entity_t) : Prop :=
  r' = r \/ exists m x d stale s,
    r' = um_after n r m x d stale /\ input_sdus r !! m = Some s /\ 0 < x <= sdu_remaining_size s /\
    0 <= d <= 2 /\ d <= Z.of_nat (length stale) /\ (d <> 0 -> x = sdu_remaining_size s) /\
    0 < Z.of_nat (length (um_sent n r m x)) + (if n =? 10 then d else 0) <= nb.

Lemma um_segment_pdu_opportunity n sdus frs r block nb :
  um_tx_inv n sdus frs r -> um_hdr n < nb < 32768 ->
  match block with Some b => Z.max 4 nb <= Z.of_nat (length b) | None => True end ->
  exists r', um_segment_pdu (um_hdr n) (negb (n =? 10)) (if n =? 10 then um_header_10 else um_header_5) block nb r = Ok r' /\
    um_opportunity n nb frs r r'.
Proof.
  intros I Hnb Hb. pose proof (ti_ok _ _ _ _ I) as Hok.
  assert (Hh : 1 <= um_hdr n) by (unfold um_hdr; destruct (n =? 10); lia).
  destruct (decide (input_sdus r = [])) as [E|Hne].
  { exists r. unfold um_segment_pdu. rewrite E. split; [done|by left]. }
  destruct block as [block|].
  2:{ exists r. unfold um_segment_pdu. destruct (input_sdus r); [done|]. split; [done|by left]. }
  assert (Hnb' : um_hdr n < nb < 2 ^ 31) by (change (2 ^ 31) with 2147483648; lia).
  destruct (um_plan_some n r nb Hok Hne Hnb') as (m & x & d & Hp).
  destruct (um_plan_ok n r nb m x d Hok Hne Hnb' Hp) as (HT & (s & Hs & Hx & Hdx) & Hd & HTe & Hm & _).
  pose proof (um_data_size_ok n r nb Hok ltac:(lia)) as Hsz.
  destruct (um_segment_pdu_ok n r block nb m x d Hok Hne Hnb' Hp) as (stale & Hst & E).
  { apply Forall_map, Forall_take. apply Forall_forall. intros s' Hs'.
    destruct (proj1 (Forall_forall _ _) (ut_queue _ _ Hok) s' Hs') as (H1 & H2 & H3 & _).
    pose proof (proj1 (Forall_forall _ _) (ti_sizes _ _ _ _ I) s' Hs') as H4. unfold is_li. cbn in *. lia. }
  { lia. }
  pose proof (um_taken_ge m x (input_sdus r) (ut_queue _ _ Hok)) as Htk.
  exists (um_after n r m x d stale). split; [exact E|]. right. exists m, x, d, stale, s.
  rewrite (length_um_sent n r m x s) by done. split_and!; try done; try (destruct (n =? 10); lia).
Qed.

Lemma um_tbs_snoc n frs f : um_tbs n (frs ++ [f]) = um_tbs n frs ++ [um_frag_tb n (Z.of_nat (length frs)) f].
Proof. unfold um_tbs. rewrite imap_app. cbn. by rewrite Nat.add_0_r. Qed.

Lemma um_get_pdus_ok n sdus frs r block nb :
  um_tx_inv n sdus frs r -> 0 <= nb < 32768 -> nb_bytes_requested_by_mac r = nb ->
  match block with Some b => Z.max 4 nb <= Z.of_nat (length b) | None => True end ->
  exists r', rlc_um_get_pdus block r = Ok r' /\ um_opportunity n nb frs r r'.
Proof.
  intros I Hnb Enb Hb. destruct (ut_len _ _ (ti_ok _ _ _ _ I)) as [Hn Hl].
  unfold rlc_um_get_pdus. rewrite (ti_state _ _ _ _ I), Hl.
  assert (Ei : i32 nb = nb) by (unfold i32; apply wraps_small; [done|change (2 ^ (32 - 1)) with 2147483648; lia]).
  assert (Hstep : um_hdr n < nb -> exists r', um_segment_pdu (um_hdr n) (negb (n =? 10))
    (if n =? 10 then um_header_10 else um_header_5) block nb r = Ok r' /\ um_opportunity n nb frs r r').
  { intros H. apply (um_segment_pdu_opportunity n sdus frs r block nb I); [lia|done]. }
  destruct Hn as [-> | ->]; cbn [Z.eqb Pos.eqb mbind res_bind]; cbn [um_hdr Z.eqb Pos.eqb negb] in Hstep.
  - unfold rlc_um_segment_10. rewrite Enb, Ei. destruct (Z.ltb_spec nb 3) as [Hlt|Hge].
    + exists r. cbn [mbind res_bind]. rewrite Hl. cbn [Z.eqb Pos.eqb]. split; [done|by left].
    + destruct Hstep as (r' & E & Ho); [lia|]. exists r'. rewrite E. cbn [mbind res_bind].
      assert (tx_sn_length r' = 10) as ->; [|done].
      destruct Ho as [-> | (m & x & d & stale & s & -> & _)]; done.
  - rewrite Hl. cbn [Z.eqb Pos.eqb]. unfold rlc_um_segment_5. rewrite Enb, Ei. destruct (Z.ltb_spec nb 2) as [Hlt|Hge].
    + exists r. split; [done|by left].
    + apply Hstep. lia.
Qed.

(** An opportunity of [nb] bytes gives one PDU at most, whose size is that of its bytes. *)
Definition um_grant_ok (nb : Z) (tbs : list mac_tb) : Prop :=
  match tbs with
  | [] => True
  | [tb] => 0 < tb_size tb <= nb /\ Z.of_nat (length (data_ptr tb)) = tb_size tb
  | _ => False
  end.

Lemma um_opportunity_ok n sdus frs nb block enb r :
  um_tx_inv n sdus frs r -> um_tx_legal (TxOpportunity nb block enb) r ->
  exists fs r', um_tx_step (TxOpportunity nb block enb) r = Ok (map (um_frag_tb n (Z.of_nat (length frs))) fs, r') /\
    um_tx_inv n sdus (frs ++ fs) r' /\ um_tbs n (frs ++ fs) = um_tbs n frs ++ map (um_frag_tb n (Z.of_nat (length frs))) fs /\
    um_grant_ok nb (map (um_frag_tb n (Z.of_nat (length frs))) fs).
Proof.
  intros I (L1 & L2 & L3). cbn [um_tx_step]. unfold rlc_um_mac_data_request.
  set (r0 := rlc_um_set_nb_bytes_requested_by_mac nb r).
  assert (Enb : nb_bytes_requested_by_mac r0 = nb).
  { unfold r0, rlc_um_set_nb_bytes_requested_by_mac. cbn [nb_bytes_requested_by_mac update_field].
    unfold u32. apply wrapu_small. change (2 ^ 32) with 4294967296. lia. }
  assert (I0 : um_tx_inv n sdus frs r0) by (by eapply um_tx_frame).
  assert (L2' : (length (input_sdus r0) <= 129)%nat) by exact L2. clearbody r0.
  destruct (um_get_pdus_ok n sdus frs r0 block nb I0 L1 Enb L3) as (r1 & E1 & Ho).
  rewrite E1. cbn [mbind res_bind].
  destruct Ho as [-> | (m & x & d & stale & s & -> & Hs & Hx & Hd & Hst & Hdx & Hsz)].
  - rewrite (ti_pdus _ _ _ _ I0). cbn [um_count_pdus mbind res_bind map mdr_data].
    eexists [], _. split; [reflexivity|]. rewrite !app_nil_r. split; [|by split]. by eapply um_tx_frame; try exact I0; try done; rewrite (ti_pdus _ _ _ _ I0).
  - set (pad := if n =? 10 then take (Z.to_nat d) stale else []).
    destruct (ut_len _ _ (ti_ok _ _ _ _ I0)) as [Hn _].
    pose proof (um_sent_wire n r0 m x d stale frs Hn (ti_vt _ _ _ _ I0) ltac:(lia)) as Hw. fold pad in Hw.
    set (size := Z.of_nat (length (um_sent n r0 m x)) + (if n =? 10 then d else 0)) in *.
    assert (Hdata : pdus_to_mac_layer (um_after n r0 m x d stale) = [Mk_mac_tb (um_sent n r0 m x ++ stale) size]).
    { cbn [um_after pdus_to_mac_layer update_field]. by rewrite (ti_pdus _ _ _ _ I0). }
    assert (I1 : um_tx_inv n sdus (frs ++ [um_frag_of m x pad (input_sdus r0)])
      ((um_after n r0 m x d stale) <| pdus_to_mac_layer := [] |>)).
    { apply (um_inv_after n sdus frs r0 m x pad s I0 Hs Hx); [|intros Hp; apply Hdx; intros ->; apply Hp|exact L2'].
      - unfold pad. destruct (n =? 10); [rewrite length_take|cbn [length]]; lia.
      - unfold pad. by destruct (n =? 10). }
    rewrite Hdata. set (ra := (um_after n r0 m x d stale) <| pdus_to_mac_layer := [] |>) in *. clearbody ra.
    assert (Ei : i16 size = size) by (unfold i16; apply wraps_small; [done|change (2 ^ (16 - 1)) with 32768; lia]).
    cbn [um_count_pdus tb_size]. rewrite Ei, (proj2 (Z.gtb_lt size 0)) by lia. cbn [assert_that mbind res_bind mdr_data map].
    rewrite Hw. eexists [um_frag_of m x pad (input_sdus r0)], _. split; [reflexivity|].
    split; [by eapply um_tx_frame|]. split; [apply um_tbs_snoc|].
    cbn [map um_grant_ok]. rewrite <- Hw. cbn [um_wire tb_size data_ptr]. split; [lia|].
    rewrite length_take, length_app. unfold size in *. destruct (n =? 10); lia.
Qed.

(** *** A run *)
Lemma um_sdus_cons e es : um_sdus (e :: es) = um_sdus [e] ++ um_sdus es.
Proof. unfold um_sdus. cbn [map concat]. by rewrite app_nil_r. Qed.

Lemma um_tx_step_ok n sdus frs e r :
  um_tx_inv n sdus frs r -> um_tx_legal e r ->
  exists fs tbs r', um_tx_step e r = Ok (tbs, r') /\ um_tx_inv n (sdus ++ um_sdus [e]) (frs ++ fs) r' /\
    um_tbs n (frs ++ fs) = um_tbs n frs ++ tbs.
Proof.
  intros I Hl. destruct e as [c req | nb block enb].
  - exists [], [], (rlc_um_data_req c req r). rewrite !app_nil_r. split; [done|]. split; [|done].
    by apply um_sdu_ok.
  - destruct (um_opportunity_ok n sdus frs nb block enb r I Hl) as (fs & r' & E & I' & Ht & _).
    exists fs, (map (um_frag_tb n (Z.of_nat (length frs))) fs), r'. unfold um_sdus. cbn [map concat app].
    rewrite app_nil_r. by split_and!.
Qed.

Lemma um_tx_run_ok n es : forall sdus frs r,
  um_tx_inv n sdus frs r -> um_tx_legal_run es r ->
  exists fs tbs r', um_tx_run es r = Ok (tbs, r') /\ um_tx_inv n (sdus ++ um_sdus es) (frs ++ fs) r' /\
    um_tbs n (frs ++ fs) = um_tbs n frs ++ tbs.
Proof.
  induction es as [|e es IH]; intros sdus frs r I Hl.
  { exists [], [], r. unfold um_sdus. cbn [um_tx_run map concat]. rewrite !app_nil_r. by split_and!. }
  destruct Hl as [Hl Hls]. destruct (um_tx_step_ok n sdus frs e r I Hl) as (f1 & t1 & r1 & E1 & I1 & T1).
  rewrite E1 in Hls. destruct (IH _ _ _ I1 Hls) as (f2 & t2 & r2 & E2 & I2 & T2).
  exists (f1 ++ f2), (t1 ++ t2), r2. cbn [um_tx_run]. rewrite E1. cbn [mbind res_bind]. rewrite E2. cbn [mbind res_bind].
  split; [done|]. rewrite um_sdus_cons, !app_assoc. split; [done|]. by rewrite T2, T1.
Qed.

(** An entity that was just configured to send [n] bit sequence numbers. *)
Record um_tx_fresh (n : Z) (r : rlc_um_entity_t) : Prop := Mk_um_tx_fresh {
  tf_cfg : tx_sn_length r = n /\ tx_header_min_length_in_bytes r = um_hdr n;
  tf_queue : input_sdus r = [] /\ buffer_occupancy r = 0;
  tf_vt : vt_us r = 0;
  tf_pdus : pdus_to_mac_layer r = [];
  tf_state : protocol_state r = RLC_DATA_TRANSFER_READY_STATE
}.

Lemma um_tx_start n r : sn_length_ok n -> um_tx_fresh n r -> um_tx_inv n [] [] r.
Proof.
  intros Hn [[H1 H2] [H3 H4] H5 H6 H7]. apply Mk_um_tx_inv; rewrite ?H3; try reflexivity; try assumption.
  - apply Mk_um_tx_ok; rewrite ?H3, ?H5; try assumption; [by split|constructor|lia|vm_compute; reflexivity].
  - constructor.
  - constructor.
  - apply Mk_um_stream_ok; [constructor|intros [|k] f g Hf; discriminate Hf|intros [|k] f Hf; discriminate Hf].
  - exists []. split; [reflexivity|constructor].
Qed.

Lemma length_um_tbs n frs : length (um_tbs n frs) = length frs.
Proof. apply length_imap. Qed.
