(* ===== verification/RlcUmOrder.v ===== *)
(** * PDUs in sequence

    When the PDUs arrive in the order of their numbers, some of them lost, the
    machine of RlcUmReordering keeps every PDU that arrives: it is held or its
    slot is set.  While one is missing t-Reordering runs, and two expiries bring
    VR(UR) to VR(UH). *)

From S2P Require Import Prelude RlcAmTypes RlcTimers RlcUmTypes RlcUmReassembly RlcUmDar RlcUmReordering RlcUmLossy.

(** [h] is VR(UH): the PDUs come in sequence, less than a window ([W]) is lost in a row. *)
Fixpoint um_in_sequence (W N h : Z) (ids : list Z) : Prop :=
  match ids with
  | [] => True
  | i :: ids => (h <= i < h + W /\ i < N) /\ um_in_sequence W N (i + 1) ids
  end.

Definition dar_got (A : Z -> Prop) (s : dar) : Prop :=
  forall i, A i -> 0 <= i /\ (i ∈ d_held s \/ d_slots s !! Z.to_nat i = Some true).
Definition dar_live (s : dar) : Prop :=
  0 < ms_duration (d_timer s) /\ (d_ur s < d_uh s -> running (d_timer s) = true).
(** t-Reordering is not running, or has expired at the time of the call. *)
Definition timer_over (t : rlc_um_timer_t) (c : protocol_ctxt_t) : Prop :=
  running t = true -> timer_expired t (time_ms c) = true.

Lemma um_in_sequence_window W N ids : forall h,
  0 <= h -> um_in_sequence W N h ids -> um_in_window_run W N h ids.
Proof.
  induction ids as [|i ids IH]; intros h Hh H; [done|]. destruct H as [H Hs]. split; [lia|].
  rewrite Z.max_r by lia. apply IH; [lia|done].
Qed.

(** *** What arrived is kept *)
Lemma lookup_presence held a e k :
  presence held a e !! k = Some true <-> a + Z.of_nat k < e /\ a + Z.of_nat k ∈ held.
Proof.
  unfold presence. split.
  - intros H. apply list_lookup_fmap_Some in H as (j & Hb & Hj). apply lookup_seqZ in Hj as [-> Hk].
    symmetry in Hb. apply bool_decide_eq_true in Hb. split; [lia|done].
  - intros [Hk Hh]. apply list_lookup_fmap_Some. exists (a + Z.of_nat k). rewrite bool_decide_eq_true_2 by done.
    split; [done|]. apply lookup_seqZ. lia.
Qed.
Lemma deliver_got A e s :
  (forall j, j ∈ d_held s -> d_ur s <= j) -> dar_got A s -> dar_got A (dar_deliver e s).
Proof.
  intros Hge H i Hi. destruct (H i Hi) as [Hi0 Hg]. split; [done|].
  cbn [dar_deliver d_held d_slots update_field]. destruct Hg as [Hh | Hs].
  - destruct (Z.lt_ge_cases i e); [right|left; by apply elem_of_filter].
    pose proof (Hge i Hh). unfold d_ur in *. rewrite lookup_app_r by lia. apply lookup_presence.
    replace (Z.of_nat (length (d_slots s)) + Z.of_nat (Z.to_nat i - length (d_slots s))) with i by lia. done.
  - right. by apply lookup_app_l_Some.
Qed.
Lemma reordering_got A c s : dar_got A s -> dar_got A (dar_reordering c s).
Proof.
  intros H. unfold dar_reordering, dar_restart.
  repeat match goal with |- context [if ?b then _ else _] => destruct b end; exact H.
Qed.
Lemma receive_got A W c i s :
  0 < W -> dar_inv W s -> 0 <= d_uh s <= i -> i < d_uh s + W -> dar_got A s ->
  dar_got (fun j => A j \/ j = i) (dar_receive W c i s).
Proof.
  intros HW Hinv Hi Hlt H. pose proof Hinv as [H1 H2 _]. unfold dar_receive.
  rewrite (proj2 (Z.ltb_ge i (d_ur s))) by lia.
  rewrite bool_decide_eq_false_2 by (intros Hj; pose proof (H2 i Hj); lia). cbn [andb].
  apply reordering_got. destruct (window_inv W i s HW Hinv Hlt) as [Hw | Hw]; [|lia].
  set (s1 := s <| d_held := {[i]} ∪ d_held s |>) in *.
  assert (G1 : dar_got (fun j => A j \/ j = i) s1).
  { intros j Hj. cbn [s1 d_held d_slots update_field]. rewrite elem_of_union, elem_of_singleton.
    destruct Hj as [Hj | ->]; [|split; [lia|by left; left]]. destruct (H j Hj) as [? [? | ?]]; auto. }
  assert (G2 : dar_got (fun j => A j \/ j = i) (dar_window W i s1)).
  { unfold dar_window. destruct (_ <? _); [exact G1|]. destruct (_ <? _); [|exact G1].
    apply deliver_got; [|exact G1]. intros j Hj.
    change (j ∈ {[i]} ∪ d_held s) in Hj. rewrite elem_of_union, elem_of_singleton in Hj.
    change (d_ur s <= j). destruct Hj as [-> | Hj]; [lia|]. pose proof (H2 j Hj). lia. }
  unfold dar_in_order. destruct (_ =? _); [|exact G2]. apply deliver_got; [|exact G2].
  intros j Hj. apply Hw in Hj. lia.
Qed.
Lemma check_got A W c s : dar_inv W s -> dar_got A s -> dar_got A (dar_check c s).
Proof.
  intros [_ H2 _] H. unfold dar_check. destruct (_ && _); [|done].
  assert (G : dar_got A (dar_deliver (run_end (Z.to_nat (d_uh s - d_ux s)) (d_held s) (d_ux s)) s)).
  { apply deliver_got; [|exact H]. intros j Hj. pose proof (H2 j Hj). lia. }
  unfold dar_restart. destruct (_ <? _); exact G.
Qed.

(** *** t-Reordering runs while a PDU is missing *)
Lemma restart_running c s :
  0 < ms_duration (d_timer s) ->
  running (d_timer (dar_restart c s)) = true /\ ms_duration (d_timer (dar_restart c s)) = ms_duration (d_timer s).
Proof. intros H. unfold dar_restart. cbn [d_timer update_field ms_duration]. by rewrite (proj2 (Z.gtb_lt _ 0) H). Qed.
Lemma restart_live c s : 0 < ms_duration (d_timer s) -> dar_live (dar_restart c s).
Proof. intros H. destruct (restart_running c s H) as [E1 E2]. split; [by rewrite E2|done]. Qed.
Lemma reordering_live c s : 0 < ms_duration (d_timer s) -> dar_live (dar_reordering c s).
Proof.
  intros H. unfold dar_reordering. cbv zeta.
  assert (Hs : forall s1, 0 < ms_duration (d_timer s1) ->
    dar_live (if negb (running (d_timer s1)) && (d_ur s1 <? d_uh s1) then dar_restart c s1 else s1)).
  { intros s1 H1. destruct (running (d_timer s1)) eqn:Hr; cbn [negb andb]; [by split|].
    destruct (Z.ltb_spec (d_ur s1) (d_uh s1)); [by apply restart_live|]. split; [done|lia]. }
  match goal with |- context [if ?b then dar_stop s else s] => destruct b end; by apply Hs.
Qed.
Lemma receive_live W c i s : dar_live s -> dar_live (dar_receive W c i s).
Proof.
  intros [Hd H]. unfold dar_receive. destruct (_ <? _); [done|]. destruct (_ && _); [done|].
  apply reordering_live. unfold dar_in_order, dar_window.
  repeat match goal with |- context [if ?b then _ else _] => destruct b end; exact Hd.
Qed.
Lemma check_live c s : dar_live s -> dar_live (dar_check c s).
Proof.
  intros [Hd H]. unfold dar_check. destruct (_ && _); [|done]. set (s1 := dar_deliver _ s).
  assert (Hd1 : 0 < ms_duration (d_timer s1)) by exact Hd.
  destruct (Z.ltb_spec (d_ur s1) (d_uh s1)); [by apply restart_live|]. split; [exact Hd|].
  change (d_ur (dar_stop s1)) with (d_ur s1). change (d_uh (dar_stop s1)) with (d_uh s1). lia.
Qed.

(** Two expiries: nothing below VR(UH) is waited for. *)
Lemma check_expired W c s :
  0 < W -> dar_inv W s -> dar_live s -> timer_over (d_timer s) c ->
  let s' := dar_check c s in
  d_ur s' = d_uh s' \/ (running (d_timer s') = true /\ d_ux s' = d_uh s').
Proof.
  intros HW Hinv [Hd Hrun] Hov s'. pose proof Hinv as [H1 _ _]. unfold s', dar_check.
  destruct (running (d_timer s)) eqn:Hr; cbn [andb].
  - rewrite (Hov Hr). set (s1 := dar_deliver _ s).
    assert (H2 : d_ur s1 <= d_uh s1).
    { pose proof (di_timer _ _ Hinv Hr) as [Hx _].
      pose proof (run_end_range (Z.to_nat (d_uh s - d_ux s)) (d_held s) (d_ux s)) as He.
      unfold s1. rewrite deliver_ur by lia. change (d_uh (dar_deliver _ s)) with (d_uh s). lia. }
    destruct (Z.ltb_spec (d_ur s1) (d_uh s1)) as [Hlt | Hge].
    + right. destruct (restart_running c s1 Hd) as [E _]. by split.
    + left. change (d_ur s1 = d_uh s1). lia.
  - left. destruct (Z.lt_ge_cases (d_ur s) (d_uh s)) as [Hlt | Hge]; [|lia]. by apply Hrun in Hlt.
Qed.
Lemma check_flush W c s :
  dar_inv W s -> (d_ur s = d_uh s \/ (running (d_timer s) = true /\ d_ux s = d_uh s)) ->
  dar_live s -> timer_over (d_timer s) c -> d_ur (dar_check c s) = d_uh s.
Proof.
  intros Hinv Hs [Hd Hrun] Hov. pose proof Hinv as [H1 _ H3]. unfold dar_check.
  destruct (running (d_timer s)) eqn:Hr; cbn [andb].
  - rewrite (Hov Hr). destruct (H3 eq_refl) as [Hx Hxx].
    assert (Ex : d_ux s = d_uh s) by (destruct Hs as [? | [_ ?]]; lia).
    rewrite Ex, Z.sub_diag. change (run_end (Z.to_nat 0) (d_held s) (d_uh s)) with (d_uh s). set (s1 := dar_deliver _ s).
    assert (E : d_ur s1 = d_uh s) by (unfold s1; rewrite deliver_ur; lia).
    rewrite E. change (d_uh s1) with (d_uh s). rewrite Z.ltb_irrefl. exact E.
  - by destruct Hs as [? | [? _]].
Qed.

(** *** Runs *)
Record dar_kept (W : Z) (A : Z -> Prop) (s : dar) : Prop := Mk_dar_kept {
  dk_inv : dar_inv W s;
  dk_got : dar_got A s;
  dk_uh : 0 <= d_uh s
}.
Lemma receive_kept W N c ids : 0 < W -> forall A s,
  dar_kept W A s -> um_in_sequence W N (d_uh s) ids ->
  let s' := fold_left (fun s i => dar_receive W c i s) ids s in
  dar_kept W (fun j => A j \/ j ∈ ids) s' /\ (dar_live s -> dar_live s') /\
  d_uh s' = fold_left (fun h i => Z.max h (i + 1)) ids (d_uh s).
Proof.
  intros HW. induction ids as [|i ids IH]; intros A s Hk Hs; cbn [fold_left].
  { split; [|done]. destruct Hk as [K1 K2 K3]. split; try done. intros j [Hj | Hj%not_elem_of_nil]; [by apply K2|done]. }
  destruct Hs as [[Hi HN] Hs]. destruct Hk as [K1 K2 K3]. pose proof (receive_uh W c i s K1) as Hu.
  rewrite Z.max_r in Hu by lia. rewrite <- Hu in Hs.
  assert (Hk' : dar_kept W (fun j => A j \/ j = i) (dar_receive W c i s)).
  { split; [apply dar_receive_inv; (done || lia)|apply receive_got; (done || lia)|lia]. }
  destruct (IH _ _ Hk' Hs) as (I1 & I2 & I3). split; [|split].
  - destruct I1 as [J1 J2 J3]. split; try done. intros j Hj. apply J2.
    rewrite elem_of_cons in Hj. tauto.
  - intros Hl. by apply I2, receive_live.
  - rewrite I3, Hu. f_equal. lia.
Qed.

Lemma um_in_sequence_app W N ids ids' : forall h,
  um_in_sequence W N h (ids ++ ids') ->
  um_in_sequence W N h ids /\ um_in_sequence W N (fold_left (fun h i => Z.max h (i + 1)) ids h) ids'.
Proof.
  induction ids as [|i ids IH]; intros h H; [done|]. destruct H as [H Hs]. apply IH in Hs as [I1 I2].
  cbn [um_in_sequence fold_left]. rewrite Z.max_r by lia. done.
Qed.
Lemma dar_step_kept n N e A s :
  sn_length_ok n -> dar_kept (um_window n) A s -> um_in_sequence (um_window n) N (d_uh s) (um_arrived e) ->
  let s' := dar_step n e s in
  dar_kept (um_window n) (fun j => A j \/ j ∈ um_arrived e) s' /\ (dar_live s -> dar_live s') /\
  d_uh s' = fold_left (fun h i => Z.max h (i + 1)) (um_arrived e) (d_uh s).
Proof.
  intros Hn Hk Hs s'. assert (HW : 0 < um_window n) by (unfold um_window; destruct (n =? 10); lia).
  assert (Hck : forall c A s, dar_kept (um_window n) A s -> dar_kept (um_window n) A (dar_check c s)).
  { intros c A' s1 [K1 K2 K3]. split; [by apply dar_check_inv|by apply (check_got _ (um_window n))|by rewrite check_uh]. }
  destruct e as [c ids | c nb enb]; cbn [um_arrived dar_step] in *; unfold s'.
  - destruct (receive_kept _ N c ids HW A s Hk Hs) as (I1 & I2 & I3). rewrite check_uh. split; [by apply Hck|].
    split; [|done]. intros Hl. by apply check_live, I2.
  - rewrite check_uh. split; [|split; [by apply check_live|done]]. apply Hck.
    destruct Hk as [K1 K2 K3]. split; try done. intros j [Hj | Hj%not_elem_of_nil]; [by apply K2|done].
Qed.
Lemma dar_run_kept n N es : sn_length_ok n -> forall A s,
  dar_kept (um_window n) A s -> um_in_sequence (um_window n) N (d_uh s) (um_arrivals es) ->
  let s' := fold_left (fun s e => dar_step n e s) es s in
  dar_kept (um_window n) (fun j => A j \/ j ∈ um_arrivals es) s' /\ (dar_live s -> dar_live s').
Proof.
  intros Hn. induction es as [|e es IH]; intros A s Hk Hs; unfold um_arrivals in *; cbn [fold_left map concat] in *.
  { split; [|done]. destruct Hk as [K1 K2 K3]. split; try done. intros j [Hj | Hj%not_elem_of_nil]; [by apply K2|done]. }
  apply um_in_sequence_app in Hs as [Hs1 Hs2].
  destruct (dar_step_kept n N e A s Hn Hk Hs1) as (I1 & I2 & I3). rewrite <- I3 in Hs2.
  destruct (IH _ _ I1 Hs2) as [J1 J2]. split; [|intros Hl; by apply J2, I2].
  destruct J1 as [K1 K2 K3]. split; try done. intros j Hj. apply K2. rewrite elem_of_app in Hj. tauto.
Qed.
