(* ===== verification/RlcUmService.v ===== *)
(** * Configuration of UM entities

    What a configuration request makes of a new entity and of one that is in
    use. *)

From S2P Require Import Prelude RlcAmTypes RlcTimers RlcUmTypes RlcUmWindow RlcUmReassembly RlcUmSegment RlcUmSegmentSpec RlcUmDar RlcUm RlcUmLossy RlcUmSender.

Lemma um_sn_field_length_ok e n : um_sn_field_length e = Some n -> sn_length_ok n.
Proof.
  unfold um_sn_field_length, sn_length_ok. destruct (e =? 0); [intros [= <-]; by right|].
  destruct (e =? 1); [intros [= <-]; by left|done].
Qed.
Lemma um_asn1_values_ok ul d nu nd :
  um_sn_field_length ul = Some nu -> um_sn_field_length (dl_sn_FieldLength d) = Some nd ->
  0 <= dl_t_Reordering d < 32 ->
  exists t, t_Reordering_tab !! Z.to_nat (dl_t_Reordering d) = Some t /\
    um_asn1_values (Some ul) (Some d) = Ok (Some (nu, nd, t)).
Proof.
  intros H1 H2 H3. destruct (lookup_lt_is_Some_2 t_Reordering_tab (Z.to_nat (dl_t_Reordering d))) as [t Ht].
  { change (length t_Reordering_tab) with 32%nat. lia. }
  exists t. split; [exact Ht|]. unfold um_asn1_values. rewrite H1, H2, (proj2 (Z.ltb_lt _ _)) by lia.
  unfold array_get. rewrite (proj2 (Z.leb_le _ _)) by lia. by rewrite Ht.
Qed.

Lemma um_window_modulus n : sn_length_ok n -> um_modulus (RlcUmLi.umd_sn_bound n) (um_window n).
Proof. intros [-> | ->]; [by left|by right]. Qed.

(** A new entity when the event is accepted. *)
Definition um_ready_entity (srb : bool) (rb chan : Z) (r : rlc_um_entity_t) : rlc_um_entity_t :=
  rlc_um_set_debug_infos srb rb chan ((rlc_um_init true r) <| protocol_state := RLC_DATA_TRANSFER_READY_STATE |>).
Lemma um_config_entity_new srb rb chan f r :
  initialized r = false -> um_config_entity true srb rb chan f r = f (um_ready_entity srb rb chan r).
Proof.
  intros Hi. unfold um_config_entity, um_ready_entity, rlc_um_fsm_notify_event.
  assert (E : protocol_state (rlc_um_init true r) = RLC_NULL_STATE) by (unfold rlc_um_init; by rewrite Hi).
  rewrite E. cbn [Z.eqb Pos.eqb]. reflexivity.
Qed.

(** What [rlc_um_configure] leaves in an entity that was just initialised. *)
Lemma um_configure_fresh t rx tx srb rb chan r :
  sn_length_ok rx -> sn_length_ok tx -> initialized r = false ->
  let r' := rlc_um_configure t rx tx 0 (um_ready_entity srb rb chan r) in
  um_tx_fresh tx r' /\ um_rx_fresh rx r' /\ is_data_plane r' = negb srb /\
  ms_duration (RlcUmTypes.t_reordering r') = t /\ upper_layer r' = upper_layer r /\ initialized r' = true.
Proof.
  intros Hrx Htx Hi r'. unfold r', um_ready_entity, rlc_um_init. rewrite Hi.
  destruct Hrx as [-> | ->], Htx as [-> | ->]; (split; [|split; [|by repeat split]]); split; repeat split;
    apply um_window_modulus; by (left + right).
Qed.

(** C39: Configuration of a new bearer by RRC. A request with both directions, valid field
    lengths and a t-Reordering among the 32 of the Rel-14 table makes an entity that was
    just created, when the allocation of its reception buffer succeeds, a UM entity in its
    initial state, ready for data transfer: at the eNB it sends with the downlink field
    length and receives with the uplink one, at the UE the other way round, so the
    receiver of each direction has the sequence number space and the window of its sender,
    and t-Reordering is the one of the downlink configuration. *)
Theorem um_config_spec c key srb ul d nu nd rb chan coll r :
  coll !! key = Some r -> initialized r = false ->
  um_sn_field_length ul = Some nu -> um_sn_field_length (dl_sn_FieldLength d) = Some nd ->
  0 <= dl_t_Reordering d < 32 ->
  exists r' t, config_req_rlc_um_asn1 true c key srb false (Some ul) (Some d) rb chan coll = Ok (<[key := r']> coll) /\
    um_tx_fresh (if enb_flag c then nd else nu) r' /\ um_rx_fresh (if enb_flag c then nu else nd) r' /\
    is_data_plane r' = negb srb /\ upper_layer r' = upper_layer r /\
    t_Reordering_tab !! Z.to_nat (dl_t_Reordering d) = Some t /\ ms_duration (RlcUmTypes.t_reordering r') = t.
Proof.
  intros Hr Hi Hu Hd Ht. destruct (um_asn1_values_ok ul d nu nd Hu Hd Ht) as (t & Htab & E).
  apply um_sn_field_length_ok in Hu, Hd. unfold config_req_rlc_um_asn1. rewrite Hr. cbn [negb assert_that mbind res_bind].
  assert (Hc : um_configure_asn1 c false (Some ul) (Some d) = fun r =>
    Ok (if enb_flag c then rlc_um_configure t nu nd 0 r else rlc_um_configure t nd nu 0 r))
    by (unfold um_configure_asn1; by rewrite E).
  rewrite Hc, um_config_entity_new by done. destruct (enb_flag c).
  - destruct (um_configure_fresh t nu nd srb rb chan r Hu Hd Hi) as (H1 & H2 & H3 & H4 & H5 & _).
    eexists _, t. by split_and!.
  - destruct (um_configure_fresh t nd nu srb rb chan r Hd Hu Hi) as (H1 & H2 & H3 & H4 & H5 & _).
    eexists _, t. by split_and!.
Qed.
Lemma um_config_spec_witness :
  exists r' t, config_req_rlc_um_asn1 true (Mk_ctxt 0 0 true) 3 false false (Some 0) (Some (Mk_dl_um 1 8)) 4 5
      {[3 := um_entity_zero]} = Ok (<[3 := r']> {[3 := um_entity_zero]}) /\
    um_tx_fresh 10 r' /\ um_rx_fresh 5 r' /\ ms_duration (RlcUmTypes.t_reordering r') = t /\ t = 40.
Proof.
  destruct (um_config_spec (Mk_ctxt 0 0 true) 3 false 0 (Mk_dl_um 1 8) 5 10 4 5 {[3 := um_entity_zero]} um_entity_zero)
    as (r' & t & H1 & H2 & H3 & _ & _ & H4 & H5); [apply lookup_singleton_eq|done|done|done|cbn; lia|].
  exists r', t. split_and!; try done. vm_compute in H4. by injection H4 as <-.
Defined.

(** An entity in use cannot be configured again. The state machine rejects the event
    of a configuration request in DATA_TRANSFER_READY and in LOCAL_SUSPEND, and both
    requests leave the entity, hence the collection, as it was, whatever the parameters
    (for an MBMS bearer the ASN.1 request must have a downlink and no uplink
    configuration: the code asserts it first). *)
Theorem um_reconfigure_ignored dar_ok c key srb mbms ul dl rb chan coll r :
  coll !! key = Some r -> initialized r = true ->
  protocol_state r = RLC_DATA_TRANSFER_READY_STATE \/ protocol_state r = RLC_LOCAL_SUSPEND_STATE ->
  (forall cfg, config_req_rlc_um dar_ok key srb cfg rb chan coll = Ok coll) /\
  ((mbms = true -> is_Some dl /\ ul = None) ->
   config_req_rlc_um_asn1 dar_ok c key srb mbms ul dl rb chan coll = Ok coll).
Proof.
  intros Hr Hi Hs.
  assert (Hc : forall f, um_config_entity dar_ok srb rb chan f r = Ok r).
  { intros f. unfold um_config_entity, rlc_um_init, rlc_um_fsm_notify_event. rewrite Hi. by destruct Hs as [-> | ->]. }
  split.
  - intros cfg. unfold config_req_rlc_um. rewrite Hr, Hc. cbn [mbind res_bind]. by rewrite insert_id.
  - intros Hm. unfold config_req_rlc_um_asn1. rewrite Hr, Hc.
    assert (E : match dl with Some _ => match ul with None => true | Some _ => negb mbms end | None => negb mbms end = true).
    { destruct mbms; [|by destruct dl, ul]. by destruct Hm as [[d ->] ->]. }
    rewrite E. cbn [assert_that mbind res_bind]. by rewrite insert_id.
Qed.
Lemma um_reconfigure_ignored_witness :
  let r := rlc_um_configure 40 10 10 0
    (rlc_um_set_debug_infos false 4 5 ((rlc_um_init true um_entity_zero) <| protocol_state := RLC_DATA_TRANSFER_READY_STATE |>)) in
  config_req_rlc_um true 3 false (Mk_um_info 200 5 0) 4 5 {[3 := r]} = Ok {[3 := r]}.
Proof.
  intros r. apply (um_reconfigure_ignored true (Mk_ctxt 0 0 true) 3 false false None None 4 5 {[3 := r]} r);
    [apply lookup_singleton_eq|done|by left].
Defined.
