(* ===== verification/RlcUmTransfer.v ===== *)
(** * Transfer of SDUs over UM

    A sender and a receiver that were configured with the same sequence number
    length: what the upper layer of the receiver gets of the SDUs handed to the
    sender. *)

From S2P Require Import Prelude RlcAmTypes RlcTimers RlcUmTypes RlcUmReassembly RlcUmDelivery RlcUmDar RlcUmReordering RlcUmDarSpec RlcUm RlcUmLossy RlcUmSender RlcUmOrder RlcUmService.

Lemma um_stream_weaken a b frs : a <= b -> um_stream_ok a frs -> um_stream_ok b frs.
Proof.
  intros Hab [H1 H2 H3]. split; try done. intros i f Hf. eapply Forall_impl; [by apply (H3 i f)|].
  cbn. intros u Hu. lia.
Qed.
Lemma um_stream_fits frs dp : um_stream_ok 2000 frs -> um_stream_ok (um_max dp) frs.
Proof. apply um_stream_weaken. unfold um_max. destruct dp; [by vm_compute|]. unfold RLC_SDU_MAX_SIZE_CONTROL_PLANE. lia. Qed.

(** What a run of a new sender leaves. *)
Definition um_sent_stream_of (n : Z) (sdus : list (list Z)) (tbs : list mac_tb) (frs : list um_frag) : Prop :=
  tbs = um_tbs n frs /\ um_stream_ok 2000 frs /\
  exists done rest, sdus = done ++ rest /\ Forall2 (um_padded n) done (map snd (um_spans frs)).
Lemma um_sender_ok n es s :
  sn_length_ok n -> um_tx_fresh n s -> um_tx_legal_run es s ->
  exists frs tbs s', um_tx_run es s = Ok (tbs, s') /\ um_sent_stream_of n (um_sdus es) tbs frs /\
    (input_sdus s' = [] -> Forall2 (um_padded n) (um_sdus es) (map snd (um_spans frs))).
Proof.
  intros Hn Hs Hl. destruct (um_tx_run_ok n es [] [] s (um_tx_start n s Hn Hs) Hl) as (frs & tbs & s' & E & I & T).
  cbn [app] in *. exists frs, tbs, s'. split; [exact E|]. destruct (ti_done _ _ _ _ I) as (dn & D1 & D2).
  split.
  - split; [by rewrite T|]. split; [apply I|]. by exists dn, (map RlcUmSegmentSpec.um_bytes (input_sdus s')).
  - intros Eq. rewrite Eq in D1. cbn [map] in D1. rewrite app_nil_r in D1. by rewrite D1.
Qed.

(** C24: The receiver refines an abstract machine on unbounded numbers, [dar_step]: the
    reordering machine of 36.322 5.1.2.2 as this code has it, that is with its two
    deviations from the text, the stop of t-Reordering (rlc_um_dar.c:1154) and the advance
    of VR(UR), which only looks at the PDU received (rlc_um_dar.c:1120); both are
    findings. From a state that matches the machine's, as long as every PDU that arrives
    is less than a window away from VR(UH) and is one of a stream of well-formed PDUs
    whose SDUs fit the maximum size, every event - an indication of MAC with any number of
    PDUs, or a request of the buffer status - is processed without failure and does to the
    entity what [dar_step] does to the machine: VR(UR), VR(UX), VR(UH) are its variables
    modulo the sequence number space, the buffer has the PDUs of its set, t-Reordering is
    its timer, and what was delivered is a function of the PDUs it saw. *)
Theorem um_receiver_refines n frs dp up e s r :
  sn_length_ok n -> um_stream_ok (um_max dp) frs -> dar_inv (um_window n) s -> 0 <= d_uh s <= Z.of_nat (length frs) ->
  um_matches n frs dp up s r ->
  um_in_window_run (um_window n) (Z.of_nat (length frs)) (d_uh s) (um_arrived e) ->
  exists r', um_rx_step (um_tbs n frs) e r = Ok r' /\ um_matches n frs dp up (dar_step n e s) r' /\
    dar_inv (um_window n) (dar_step n e s) /\
    d_uh (dar_step n e s) = fold_left (fun h i => Z.max h (i + 1)) (um_arrived e) (d_uh s).
Proof.
  intros Hn Hs Hi Hu Hm Hw.
  assert (I : um_rx_inv n frs dp up (fun _ => True) s r) by (by split).
  destruct (um_inv_step n frs dp up Hn Hs _ e s r I Hw) as (r' & E & I' & Hu'); [done|].
  exists r'. split; [exact E|]. split; [apply I'|]. split; [apply I'|exact Hu'].
Qed.

(** C1: The UM service under loss, duplication and reordering. A new sender takes SDUs
    (each of 1..1998 bytes, within the data handed over, with less than 500,000,000 bytes
    queued) and transmission opportunities (grants of 0..32767 bytes, at most 129 SDUs
    queued, a block at least as large as the grant and as 4 bytes or no memory) in any
    order. It produces PDUs that carry the SDUs, in order, as [um_spans] says: SDU number,
    its first and last PDU (with 10 bit numbers up to two stale bytes behind an SDU). The
    PDUs reach a new receiver (that has memory) late, twice, out of order or never, in any
    number of indications, with timer calls in between, each less than a window away from
    the highest before it. On such runs the receiver does not fail, and has delivered
    exactly the SDUs all of whose PDUs it accepted, each once, in order; the PDUs it
    accepted are among those that arrived. Outside those limits SDUs are lost or damaged,
    see the findings. *)
Theorem um_transfer_spec n tes s r :
  sn_length_ok n -> um_tx_fresh n s -> um_rx_fresh n r -> um_tx_legal_run tes s ->
  exists tbs s' frs, um_tx_run tes s = Ok (tbs, s') /\ um_sent_stream_of n (um_sdus tes) tbs frs /\
    forall res, um_in_window_run (um_window n) (Z.of_nat (length tbs)) 0 (um_arrivals res) ->
      exists r' accepted, um_rx_run tbs res r = Ok r' /\
        upper_layer r' = upper_layer r ++ map snd (List.filter (um_present accepted) (um_spans frs)) /\
        forall i, accepted i = true -> i ∈ um_arrivals res.
Proof.
  intros Hn Hs Hr Hl. destruct (um_sender_ok n tes s Hn Hs Hl) as (frs & tbs & s' & E & H & _).
  exists tbs, s', frs. split; [exact E|]. split; [exact H|]. destruct H as (-> & Hst & _). intros res Hw.
  rewrite length_um_tbs in Hw.
  destruct (um_receiver_ok n frs res r Hn Hr (um_stream_fits _ _ Hst) Hw) as (r' & Er & Hup & Hlen & Hacc).
  eexists r', _. split; [exact Er|]. split; [exact Hup|]. intros i Hi. cbn beta in Hi.
  apply andb_true_iff in Hi as [Hi1%Z.leb_le Hi2].
  destruct (_ !! Z.to_nat i) as [[|]|] eqn:Ek; try done. apply Hacc in Ek. by rewrite Z2Nat.id in Ek.
Qed.

(** *** PDUs in sequence, some of them lost *)
Lemma um_delivered_eq frs slots A `{forall i, Decision (A i)} :
  (forall i, A i <-> 0 <= i /\ slots !! Z.to_nat i = Some true) ->
  um_delivered frs slots = map snd (List.filter (um_present (fun i => bool_decide (A i))) (um_spans frs)).
Proof.
  intros HA. unfold um_delivered. f_equal. apply List.filter_ext. intros [[a b] u]. unfold um_present.
  induction (seqZ a (b - a + 1)) as [|i l IH]; [done|]. cbn [forallb]. rewrite IH. f_equal.
  destruct (bool_decide_reflect (A i)) as [HAi | HAi].
  - apply HA in HAi as [Hi Hs]. rewrite (proj2 (Z.leb_le _ _)) by done. by rewrite Hs.
  - destruct (Z.leb_spec 0 i); [|done]. cbn [andb]. destruct (slots !! Z.to_nat i) as [[|]|] eqn:E; [|done..].
    by destruct HAi; apply HA.
Qed.

Lemma dar_start_kept n r : sn_length_ok n -> dar_inv (um_window n) (dar_start r) ->
  dar_kept (um_window n) (fun _ => False) (dar_start r).
Proof. intros Hn H. split; [exact H|by intros i|cbn; lia]. Qed.
Lemma dar_start_live n r : um_rx_fresh n r -> 0 < ms_duration (RlcUmTypes.t_reordering r) -> dar_live (dar_start r).
Proof. intros Hr Ht. split; [exact Ht|]. intros H. unfold dar_start, d_ur in H. cbn in H. lia. Qed.

(** The PDUs of the stream in sequence, then two expiries. *)
Lemma um_in_sequence_ok n frs es r :
  sn_length_ok n -> um_rx_fresh n r -> 0 < ms_duration (RlcUmTypes.t_reordering r) -> um_stream_ok 2000 frs ->
  um_in_sequence (um_window n) (Z.of_nat (length frs)) 0 (um_arrivals es) ->
  exists r1, um_rx_run (um_tbs n frs) es r = Ok r1 /\
  forall c1, timer_over (RlcUmTypes.t_reordering r1) c1 ->
  exists r2, rlc_um_check_timer_dar_time_out c1 r1 = Ok r2 /\
  forall c2, timer_over (RlcUmTypes.t_reordering r2) c2 ->
  exists r3, rlc_um_check_timer_dar_time_out c2 r2 = Ok r3 /\
    upper_layer r3 = upper_layer r ++
      map snd (List.filter (um_present (fun i => bool_decide (i ∈ um_arrivals es))) (um_spans frs)).
Proof.
  intros Hn Hr Ht Hst Hseq. pose proof (um_stream_fits frs (is_data_plane r) Hst) as Hst'.
  assert (HW : 0 < um_window n) by (unfold um_window; destruct (n =? 10); lia).
  set (A := fun i => i ∈ um_arrivals es).
  pose proof (um_inv_start n frs r A Hn Hr) as I0. pose proof (ri_inv _ _ _ _ _ _ _ I0) as D0.
  destruct (um_inv_run n frs (is_data_plane r) (upper_layer r) A es Hn Hst' _ _ I0) as (r1 & E1 & I1);
    [by apply um_in_sequence_window|done|].
  destruct (dar_run_kept n _ es Hn _ _ (dar_start_kept n r Hn D0) Hseq) as [K1 L1].
  specialize (L1 (dar_start_live n r Hr Ht)). set (s1 := fold_left _ es _) in *.
  exists r1. split; [exact E1|]. intros c1 Hc1.
  destruct (um_inv_check n frs _ _ Hn Hst' A c1 s1 r1 I1) as (r2 & E2 & I2). exists r2. split; [exact E2|].
  intros c2 Hc2. destruct (um_inv_check n frs _ _ Hn Hst' A c2 _ r2 I2) as (r3 & E3 & I3). exists r3. split; [exact E3|].
  assert (T1 : RlcUmTypes.t_reordering r1 = d_timer s1) by (destruct I1 as [_ [_ _ _ T _] _ _]; exact T).
  assert (T2 : RlcUmTypes.t_reordering r2 = d_timer (dar_check c1 s1)) by (destruct I2 as [_ [_ _ _ T _] _ _]; exact T).
  rewrite T1 in Hc1. rewrite T2 in Hc2.
  pose proof (check_expired _ c1 s1 HW (ri_inv _ _ _ _ _ _ _ I1) L1 Hc1) as X1.
  pose proof (check_flush _ c2 _ (ri_inv _ _ _ _ _ _ _ I2) X1 (check_live c1 s1 L1) Hc2) as X2.
  set (s3 := dar_check c2 (dar_check c1 s1)) in *.
  assert (K3 : dar_got (fun j => False \/ j ∈ um_arrivals es) s3).
  { apply (check_got _ (um_window n)); [apply I2|]. apply (check_got _ (um_window n)); [apply I1|]. apply K1. }
  assert (HA : forall i, A i <-> 0 <= i /\ d_slots s3 !! Z.to_nat i = Some true).
  { intros i. split.
    - intros Hi. destruct (K3 i (or_intror Hi)) as [Hi0 [Hh | Hs]]; [exfalso|done].
      apply (di_held _ _ (ri_inv _ _ _ _ _ _ _ I3)) in Hh. unfold s3 in Hh. rewrite check_uh in Hh. fold s3 in Hh. lia.
    - intros [Hi Hs]. destruct (ri_from _ _ _ _ _ _ _ I3) as [_ HF]. apply HF in Hs. by rewrite Z2Nat.id in Hs. }
  destruct I3 as [J1 J2 J3 J4]. assert (Hlen : (length (d_slots s3) <= length frs)%nat).
  { pose proof (di_window _ _ J1) as Hwin. unfold d_ur in Hwin. lia. }
  destruct J2 as [C _ _ _ _]. rewrite (uc_up _ _ _ _ _ _ _ _ _ _ _ _ _ _ C). f_equal.
  rewrite um_slots_delivered by (done || apply Hst). by apply um_delivered_eq.
Qed.

(** C23: Progress with losses, for a t-Reordering of more than 0 ms (with 0 ms delivery
    stalls, see the findings). A new sender takes SDUs of 1..1998 bytes (within the data
    handed over, less than 500,000,000 bytes queued) and grants of 0..32767 bytes (at most
    129 SDUs queued, a block of at least the grant and 4 bytes or none). When its PDUs
    reach a new receiver (that has memory) in sequence, less than a window lost in a row,
    t-Reordering is all it takes: after the last PDU, two calls of the timer check at
    times when t-Reordering, if it runs, has expired on the 32 bit millisecond clock, and
    the receiver has delivered, in order, exactly the SDUs of which no PDU was lost (with
    10 bit numbers up to two stale bytes behind each), however the PDUs were grouped and
    whenever the timer was looked at before; no call fails. *)
Theorem um_in_sequence_spec n tes s r :
  sn_length_ok n -> um_tx_fresh n s -> um_rx_fresh n r -> um_tx_legal_run tes s ->
  0 < ms_duration (RlcUmTypes.t_reordering r) ->
  exists tbs s' frs, um_tx_run tes s = Ok (tbs, s') /\ um_sent_stream_of n (um_sdus tes) tbs frs /\
    forall res, um_in_sequence (um_window n) (Z.of_nat (length tbs)) 0 (um_arrivals res) ->
      exists r1, um_rx_run tbs res r = Ok r1 /\
      forall c1, timer_over (RlcUmTypes.t_reordering r1) c1 ->
      exists r2, rlc_um_check_timer_dar_time_out c1 r1 = Ok r2 /\
      forall c2, timer_over (RlcUmTypes.t_reordering r2) c2 ->
      exists r3, rlc_um_check_timer_dar_time_out c2 r2 = Ok r3 /\
        upper_layer r3 = upper_layer r ++
          map snd (List.filter (um_present (fun i => bool_decide (i ∈ um_arrivals res))) (um_spans frs)).
Proof.
  intros Hn Hs Hr Hl Ht. destruct (um_sender_ok n tes s Hn Hs Hl) as (frs & tbs & s' & E & H & _).
  exists tbs, s', frs. split; [exact E|]. split; [exact H|]. destruct H as (-> & Hst & _). intros res Hw.
  rewrite length_um_tbs in Hw. by apply um_in_sequence_ok.
Qed.

(** *** Nothing is lost *)
Lemma receive_all_in_order W c k : 0 < W -> forall s,
  dar_inv W s -> d_uh s = d_ur s -> running (d_timer s) = false ->
  let s' := fold_left (fun s i => dar_receive W c i s) (seqZ (d_ur s) (Z.of_nat k)) s in
  d_slots s' = d_slots s ++ replicate k true /\ dar_inv W s' /\ d_uh s' = d_ur s' /\ running (d_timer s') = false.
Proof.
  intros HW. induction k as [|k IH]; intros s Hi Hu Ht.
  { cbn. rewrite app_nil_r. done. }
  rewrite seqZ_cons by lia. cbn [fold_left].
  destruct (receive_in_order W c s HW Hi Hu Ht) as (E1 & E2 & E3).
  assert (Hi' : dar_inv W (dar_receive W c (d_ur s) s)) by (apply dar_receive_inv; [lia|done|lia]).
  set (s1 := dar_receive W c (d_ur s) s) in *.
  assert (Eu : Z.succ (d_ur s) = d_ur s1) by (unfold d_ur; rewrite E1, length_app; cbn [length]; lia).
  replace (Z.pred (Z.of_nat (S k))) with (Z.of_nat k) by lia. rewrite Eu.
  destruct (IH s1 Hi' E2 E3) as (F1 & F2 & F3 & F4). split; [|done]. rewrite F1, E1, <- app_assoc. done.
Qed.
Lemma check_idle c s : running (d_timer s) = false -> dar_check c s = s.
Proof. unfold dar_check. by intros ->. Qed.
Lemma run_all_in_order n es : sn_length_ok n -> forall k s,
  dar_inv (um_window n) s -> d_uh s = d_ur s -> running (d_timer s) = false ->
  um_arrivals es = seqZ (d_ur s) (Z.of_nat k) ->
  d_slots (fold_left (fun s e => dar_step n e s) es s) = d_slots s ++ replicate k true.
Proof.
  intros Hn. assert (HW : 0 < um_window n) by (unfold um_window; destruct (n =? 10); lia).
  induction es as [|e es IH]; intros k s Hi Hu Ht Ha; cbn [fold_left].
  { unfold um_arrivals in Ha. cbn in Ha. destruct k; [by rewrite app_nil_r|]. by rewrite seqZ_cons in Ha by lia. }
  unfold um_arrivals in Ha. cbn [map concat] in Ha. fold (um_arrivals es) in Ha.
  set (j := length (um_arrived e)). assert (Hj : (j <= k)%nat).
  { apply (f_equal length) in Ha. rewrite length_app, length_seqZ in Ha. lia. }
  replace (Z.of_nat k) with (Z.of_nat j + Z.of_nat (k - j)) in Ha by lia. rewrite seqZ_app in Ha by lia.
  apply app_inj_1 in Ha as [Ha1 Ha2]; [|rewrite length_seqZ; lia].
  assert (Hstep : let s1 := dar_step n e s in d_slots s1 = d_slots s ++ replicate j true /\
    dar_inv (um_window n) s1 /\ d_uh s1 = d_ur s1 /\ running (d_timer s1) = false).
  { destruct e as [c ids | c nb enb]; cbn [dar_step um_arrived] in *.
    - rewrite Ha1. destruct (receive_all_in_order _ c j HW s Hi Hu Ht) as (F1 & F2 & F3 & F4). by rewrite check_idle.
    - rewrite check_idle by done. subst j. cbn. by rewrite app_nil_r. }
  destruct Hstep as (F1 & F2 & F3 & F4).
  rewrite (IH (k - j)%nat _ F2 F3 F4).
  - rewrite F1, <- app_assoc, <- replicate_add. do 2 f_equal. lia.
  - rewrite Ha2. f_equal. unfold d_ur. rewrite F1, length_app, length_replicate. lia.
Qed.

Lemma um_in_window_in_order W N k : 0 < W -> forall h,
  0 <= h -> h + Z.of_nat k <= N -> um_in_window_run W N h (seqZ h (Z.of_nat k)).
Proof.
  intros HW. induction k as [|k IH]; intros h Hh HN; [done|]. rewrite seqZ_cons by lia. cbn [um_in_window_run].
  split; [lia|]. replace (Z.pred (Z.of_nat (S k))) with (Z.of_nat k) by lia.
  rewrite Z.max_r by lia. apply IH; lia.
Qed.
Lemma um_padded_5 a b : Forall2 (um_padded 5) a b -> a = b.
Proof.
  induction 1 as [|u v a b (pad & -> & H) _ IH]; [done|]. f_equal; [|done].
  destruct pad as [|]; [by rewrite app_nil_r|]. cbn in H. lia.
Qed.
Lemma um_delivered_all frs : um_chain frs ->
  um_delivered frs (replicate (length frs) true) = map snd (um_spans frs).
Proof.
  intros Hch. unfold um_delivered. f_equal. unfold um_spans.
  set (pres := fun i : Z => (0 <=? i) && _).
  assert (Hp : forall k, 0 <= k < Z.of_nat (length frs) -> pres k = true).
  { intros k Hk. unfold pres. rewrite (proj2 (Z.leb_le _ _)), lookup_replicate_2 by lia. done. }
  clearbody pres. clear Hch.
  enough (H : forall suf i st, 0 <= st.1 <= i -> i + Z.of_nat (length suf) <= Z.of_nat (length frs) ->
    List.filter (um_present pres) (um_spans_from i st suf) = um_spans_from i st suf) by (apply H; cbn; lia).
  induction suf as [|f suf IH]; intros i st Hst Hi; [done|]. cbn [um_spans_from length] in *.
  assert (Hs : 0 <= (um_start i f st).1 <= i) by (unfold um_start; destruct (fg_fresh f); cbn; lia).
  assert (Hn : 0 <= (um_next i f st).1 <= i + 1).
  { unfold um_next. destruct (fg_full f), (fg_pieces f); cbn [fst]; lia. }
  rewrite List.filter_app, IH by lia. f_equal. unfold um_ended, um_mark.
  assert (Hall : forall a u, 0 <= a <= i -> um_present pres (a, i, u) = true).
  { intros a u Ha. unfold um_present. apply forallb_forall. intros k Hk%list_elem_of_In%elem_of_seqZ. apply Hp. lia. }
  destruct (um_split _ _).1 as [|u us]; [done|]. cbn [List.filter]. rewrite Hall by done. f_equal.
  induction us as [|v us IHu]; [done|]. cbn [map List.filter]. by rewrite Hall, IHu by lia.
Qed.

(** The receiver given every PDU in order. *)
Lemma um_delivered_in_order n frs res r :
  sn_length_ok n -> um_rx_fresh n r -> um_stream_ok (um_max (is_data_plane r)) frs -> um_stream_ok 2000 frs ->
  um_arrivals res = seqZ 0 (Z.of_nat (length frs)) ->
  exists r', um_rx_run (um_tbs n frs) res r = Ok r' /\ upper_layer r' = upper_layer r ++ map snd (um_spans frs).
Proof.
  intros Hn Hr Hfit Hst Ha.
  assert (HW : 0 < um_window n) by (unfold um_window; destruct (n =? 10); lia).
  destruct (um_receiver_ok n frs res r Hn Hr Hfit) as (r' & Er & Hup & _).
  { rewrite Ha. by apply um_in_window_in_order. }
  pose proof (ri_inv _ _ _ _ _ _ _ (um_inv_start n frs r (fun _ => True) Hn Hr)) as D0.
  rewrite (run_all_in_order n res Hn (length frs) (dar_start r) D0) in Hup; try done; [|by apply Hr].
  cbn [dar_start d_slots app] in Hup. rewrite um_delivered_all in Hup by apply Hst. by exists r'.
Qed.

(** C25: Transfer without losses. A new sender takes SDUs of 1..1998 bytes (within the data
    handed over, less than 500,000,000 bytes queued before each) and grants of 0..32767
    bytes (at most 129 SDUs queued at each, a memory block of at least the grant and 4
    bytes or none); beyond these limits SDUs are lost, see the findings. When every PDU
    reaches a new receiver (that has memory), in order and once, in any number of
    indications and whatever the timers, the receiver does not fail and has delivered
    every SDU that was sent completely; once the queue of the sender is empty these are
    all the SDUs handed to it, byte for byte with 5 bit sequence numbers, with at most two
    stale bytes of the memory behind each with 10 bit ones. *)
Theorem um_lossless_spec n tes s r :
  sn_length_ok n -> um_tx_fresh n s -> um_rx_fresh n r -> um_tx_legal_run tes s ->
  exists tbs s', um_tx_run tes s = Ok (tbs, s') /\
    forall res, um_arrivals res = seqZ 0 (Z.of_nat (length tbs)) ->
      exists r' us done rest, um_rx_run tbs res r = Ok r' /\ upper_layer r' = upper_layer r ++ us /\
        um_sdus tes = done ++ rest /\ Forall2 (um_padded n) done us /\ (n = 5 -> us = done) /\
        (input_sdus s' = [] -> rest = []).
Proof.
  intros Hn Hs Hr Hl. destruct (um_sender_ok n tes s Hn Hs Hl) as (frs & tbs & s' & E & H & He).
  exists tbs, s'. split; [exact E|]. destruct H as (-> & Hst & dn & rest & D1 & D2). intros res Ha.
  rewrite length_um_tbs in Ha.
  destruct (um_delivered_in_order n frs res r Hn Hr (um_stream_fits _ _ Hst) Hst Ha) as (r' & Er & Hup).
  exists r', (map snd (um_spans frs)), dn, rest. split_and!; try done.
  - intros ->. symmetry. by apply um_padded_5.
  - intros Eq. specialize (He Eq). apply Forall2_length in He, D2. rewrite D1, length_app in He.
    destruct rest; [done|]. cbn [length] in He. lia.
Qed.

(** *** t-Reordering of 0 ms *)

(** Nothing was reassembled, PDU 0 is missing and no timer runs. *)
Record dar_stalled (W : Z) (s : dar) : Prop := Mk_dar_stalled {
  dn_slots : d_slots s = [];
  dn_held : 0 ∉ d_held s;
  dn_uh : 0 <= d_uh s <= W;
  dn_timer : ms_duration (d_timer s) = 0 /\ running (d_timer s) = false
}.
Lemma receive_stalled W c i s : 0 < i < W -> dar_stalled W s -> dar_stalled W (dar_receive W c i s).
Proof.
  intros Hi [S1 S2 S3 [S4 S5]]. unfold dar_receive. assert (Hur : d_ur s = 0) by (unfold d_ur; by rewrite S1).
  rewrite Hur, (proj2 (Z.ltb_ge i 0)) by lia. destruct (_ && _); [done|].
  set (s1 := s <| d_held := {[i]} ∪ d_held s |>).
  assert (H1 : dar_stalled W (dar_window W i s1)).
  { unfold dar_window. change (d_uh s1) with (d_uh s). destruct (Z.ltb_spec i (d_uh s)).
    - split; try done. cbn [s1 d_held update_field]. rewrite elem_of_union, elem_of_singleton. intros [? | ?]; [lia|done].
    - cbv zeta. change (d_ur (s1 <| d_uh := i + 1 |>)) with (d_ur s). cbn [d_uh update_field].
      rewrite Hur, (proj2 (Z.ltb_ge 0 _)) by lia. split; try done; [|cbn [d_uh update_field]; lia].
      cbn [s1 d_held update_field]. rewrite elem_of_union, elem_of_singleton. intros [? | ?]; [lia|done]. }
  destruct H1 as [W1 W2 W3 [W4 W5]]. set (s2 := dar_window W i s1) in *. unfold dar_in_order, d_ur. rewrite W1.
  change (Z.of_nat (length (@nil bool))) with 0. rewrite (proj2 (Z.eqb_neq i 0)) by lia. unfold dar_reordering. rewrite W5. cbn [andb].
  cbv zeta. rewrite W5. cbn [negb andb]. destruct (_ <? _); [|by split].
  assert (Et : d_timer (dar_restart c s2) = (d_timer s2) <| timed_out := false |>).
  { unfold dar_restart. cbn [d_timer update_field ms_duration]. by rewrite W4. }
  split; rewrite ?Et; done.
Qed.
Lemma run_stalled n es : forall s, dar_stalled (um_window n) s ->
  (forall i, i ∈ um_arrivals es -> 0 < i < um_window n) ->
  dar_stalled (um_window n) (fold_left (fun s e => dar_step n e s) es s).
Proof.
  induction es as [|e es IH]; intros s Hs Ha; [done|]. cbn [fold_left]. unfold um_arrivals in Ha. cbn [map concat] in Ha.
  apply IH; [|intros i Hi; apply Ha, elem_of_app; by right].
  assert (Hidle : forall c s, dar_stalled (um_window n) s -> dar_check c s = s).
  { intros c s' [_ _ _ [_ H]]. by apply check_idle. }
  destruct e as [c ids | c nb enb]; cbn [dar_step um_arrived] in *; [|by rewrite Hidle].
  assert (Hr : dar_stalled (um_window n) (fold_left (fun s i => dar_receive (um_window n) c i s) ids s)).
  { assert (Hids : forall i, i ∈ ids -> 0 < i < um_window n) by (intros i Hi; apply Ha, elem_of_app; by left).
    clear Ha. revert s Hs Hids. induction ids as [|i ids IHi]; intros s Hs Hids; [done|]. cbn [fold_left].
    apply IHi; [|intros j Hj; apply Hids; by right]. apply receive_stalled; [apply Hids; by left|done]. }
  by rewrite Hidle.
Qed.

(** Without t-Reordering one loss stops the bearer. The code starts t-Reordering only
    for a duration above 0, whereas 0 ms ([T_Reordering_ms0], and the value the eNB gets
    when only the uplink is configured) means that a gap is not waited for. A new receiver
    with 0 ms that misses the first PDU of a sender (whose run is within the limits of
    [um_tx_legal]) delivers nothing of the PDUs of the whole window behind it, however
    long it takes: everything waits until PDUs further away push the window. *)
Theorem um_zero_timer_stalls n tes s r :
  sn_length_ok n -> um_tx_fresh n s -> um_rx_fresh n r -> um_tx_legal_run tes s ->
  ms_duration (RlcUmTypes.t_reordering r) = 0 ->
  exists tbs s', um_tx_run tes s = Ok (tbs, s') /\
    forall res, (forall i, i ∈ um_arrivals res -> 0 < i < um_window n) ->
      um_in_window_run (um_window n) (Z.of_nat (length tbs)) 0 (um_arrivals res) ->
      exists r', um_rx_run tbs res r = Ok r' /\ upper_layer r' = upper_layer r.
Proof.
  intros Hn Hs Hr Hl Ht. destruct (um_sender_ok n tes s Hn Hs Hl) as (frs & tbs & s' & E & H & _).
  exists tbs, s'. split; [exact E|]. destruct H as (-> & Hst & _). intros res Ha Hw. rewrite length_um_tbs in Hw.
  destruct (um_receiver_ok n frs res r Hn Hr (um_stream_fits _ _ Hst) Hw) as (r' & Er & Hup & _).
  exists r'. split; [exact Er|]. rewrite Hup.
  assert (H0 : dar_stalled (um_window n) (dar_start r)).
  { split; [done|by intros ?%elem_of_empty| |].
    - cbn [dar_start d_uh]. unfold um_window. destruct (n =? 10); lia.
    - split; [exact Ht|]. apply Hr. }
  destruct (run_stalled n res _ H0 Ha) as [-> _ _ _].
  rewrite <- um_slots_delivered by (cbn [length]; lia || apply Hst). cbn [slots_out]. by rewrite app_nil_r.
Qed.

(** *** Examples *)
(** A configured entity ([um_config_entity_new]). *)
Definition um_sample (t n : Z) : rlc_um_entity_t := rlc_um_configure t n n 0 (um_ready_entity false 4 5 um_entity_zero).
Definition sample_ctxt (ms : Z) : protocol_ctxt_t := Mk_ctxt (ms / 10) (ms mod 10) true.
Definition sample_tx : list um_tx_event :=
  [TxSdu (sample_ctxt 0) (Mk_um_data_req 3 [11; 12; 13]); TxSdu (sample_ctxt 0) (Mk_um_data_req 2 [21; 22]);
   TxOpportunity 3 (Some (replicate 8 255)) true; TxSdu (sample_ctxt 1) (Mk_um_data_req 4 [31; 32; 33; 34]);
   TxOpportunity 4 None true; TxOpportunity 7 (Some (replicate 8 255)) true; TxOpportunity 100 (Some (replicate 128 0)) true].
Definition sample_tbs : list mac_tb := match um_tx_run sample_tx (um_sample 40 5) with Ok (tbs, _) => tbs | Err _ => [] end.

Lemma sample_fresh t n : sn_length_ok n -> um_tx_fresh n (um_sample t n) /\ um_rx_fresh n (um_sample t n) /\
  upper_layer (um_sample t n) = [] /\ ms_duration (RlcUmTypes.t_reordering (um_sample t n)) = t.
Proof. intros Hn. destruct (um_configure_fresh t n n false 4 5 um_entity_zero Hn Hn eq_refl) as (? & ? & _ & ? & ? & _). done. Qed.
Lemma sample_legal : um_tx_legal_run sample_tx (um_sample 40 5).
Proof.
  repeat (split; [cbn -[Z.le Z.lt]; lia || (vm_compute; intuition discriminate)|
    match goal with |- match ?x with _ => _ end => let y := eval vm_compute in x in change x with y end; cbv beta iota]).
  exact I.
Qed.

Lemma um_transfer_spec_witness :
  exists r' accepted frs, um_rx_run sample_tbs [RxInd (sample_ctxt 5) [2]; RxStatus (sample_ctxt 90) 0 false; RxInd (sample_ctxt 91) [0; 0]]
      (um_sample 40 5) = Ok r' /\
    upper_layer r' = map snd (List.filter (um_present accepted) (um_spans frs)) /\
    (forall i, accepted i = true -> i ∈ [2; 0; 0]).
Proof.
  destruct (sample_fresh 40 5) as (Hs & Hr & Hup & _); [by right|].
  destruct (um_transfer_spec 5 sample_tx (um_sample 40 5) (um_sample 40 5)) as (tbs & s' & frs & E & _ & F);
    [by right|exact Hs|exact Hr|exact sample_legal|].
  assert (Et : tbs = sample_tbs) by (unfold sample_tbs; by rewrite E). subst tbs.
  destruct (F [RxInd (sample_ctxt 5) [2]; RxStatus (sample_ctxt 90) 0 false; RxInd (sample_ctxt 91) [0; 0]])
    as (r' & acc & E' & H1 & H2).
  { vm_compute. intuition discriminate. }
  exists r', acc, frs. split; [exact E'|]. split; [by rewrite H1, Hup|exact H2].
Defined.

Lemma um_in_sequence_spec_witness :
  exists frs r1 r2 r3, um_rx_run sample_tbs [RxInd (sample_ctxt 5) [0]; RxInd (sample_ctxt 6) [2]] (um_sample 40 5) = Ok r1 /\
    rlc_um_check_timer_dar_time_out (sample_ctxt 46) r1 = Ok r2 /\
    rlc_um_check_timer_dar_time_out (sample_ctxt 47) r2 = Ok r3 /\
    upper_layer r3 = map snd (List.filter (um_present (fun i => bool_decide (i ∈ [0; 2]))) (um_spans frs)) /\
    upper_layer r3 = [[31; 32; 33; 34]].
Proof.
  destruct (sample_fresh 40 5) as (Hs & Hr & Hup & Ht); [by right|].
  destruct (um_in_sequence_spec 5 sample_tx (um_sample 40 5) (um_sample 40 5)) as (tbs & s' & frs & E & _ & F);
    [by right|exact Hs|exact Hr|exact sample_legal|by rewrite Ht|].
  assert (Et : tbs = sample_tbs) by (unfold sample_tbs; by rewrite E). subst tbs.
  destruct (F [RxInd (sample_ctxt 5) [0]; RxInd (sample_ctxt 6) [2]]) as (r1 & E1 & F1).
  { vm_compute. intuition discriminate. }
  destruct (F1 (sample_ctxt 46)) as (r2 & E2 & F2).
  { vm_compute in E1. injection E1 as <-. intros _. by vm_compute. }
  destruct (F2 (sample_ctxt 47)) as (r3 & E3 & F3).
  { vm_compute in E1. injection E1 as <-. vm_compute in E2. injection E2 as <-. intros [=]. }
  exists frs, r1, r2, r3. split; [exact E1|]. split; [exact E2|]. split; [exact E3|]. split; [by rewrite F3, Hup|].
  vm_compute in E1. injection E1 as <-. vm_compute in E2. injection E2 as <-. vm_compute in E3. by injection E3 as <-.
Defined.

Lemma um_lossless_spec_witness :
  exists r', um_rx_run sample_tbs [RxInd (sample_ctxt 5) [0; 1]; RxInd (sample_ctxt 6) [2]] (um_sample 40 5) = Ok r' /\
    upper_layer r' = [[11; 12; 13]; [21; 22]; [31; 32; 33; 34]].
Proof.
  destruct (sample_fresh 40 5) as (Hs & Hr & Hup & _); [by right|].
  destruct (um_lossless_spec 5 sample_tx (um_sample 40 5) (um_sample 40 5)) as (tbs & s' & E & F);
    [by right|exact Hs|exact Hr|exact sample_legal|].
  assert (Et : tbs = sample_tbs) by (unfold sample_tbs; by rewrite E). subst tbs.
  destruct (F [RxInd (sample_ctxt 5) [0; 1]; RxInd (sample_ctxt 6) [2]]) as (r' & us & dn & rest & H1 & H2 & H3 & _ & H4 & H5).
  { by vm_compute. }
  exists r'. split; [exact H1|]. rewrite H2, Hup, H4 by done. rewrite H5 in H3; [by rewrite app_nil_r in H3|].
  vm_compute in E. by injection E as <-.
Defined.

Lemma um_zero_timer_stalls_witness :
  exists r', um_rx_run sample_tbs [RxInd (sample_ctxt 5) [1]; RxInd (sample_ctxt 900) [2]] (um_sample 0 5) = Ok r' /\
    upper_layer r' = [].
Proof.
  destruct (sample_fresh 40 5) as (Hs & _); [by right|]. destruct (sample_fresh 0 5) as (_ & Hr & Hup & Ht); [by right|].
  destruct (um_zero_timer_stalls 5 sample_tx (um_sample 40 5) (um_sample 0 5)) as (tbs & s' & E & F);
    [by right|exact Hs|exact Hr|exact sample_legal|exact Ht|].
  assert (Et : tbs = sample_tbs) by (unfold sample_tbs; by rewrite E). subst tbs.
  destruct (F [RxInd (sample_ctxt 5) [1]; RxInd (sample_ctxt 900) [2]]) as (r' & H1 & H2).
  { clear. intros i Hi%list_elem_of_In. change (In i [1; 2]) in Hi. change (um_window 5) with 16.
    destruct Hi as [<- | [<- | []]]; lia. }
  { vm_compute. intuition discriminate. }
  exists r'. split; [exact H1|by rewrite H2].
Defined.

Lemma um_receiver_refines_witness :
  let frs := [Mk_um_frag true true [] [7; 8]] in
  exists r', um_rx_step (um_tbs 5 frs) (RxInd (sample_ctxt 5) [0]) (um_sample 40 5) = Ok r' /\
    um_matches 5 frs true [] (dar_step 5 (RxInd (sample_ctxt 5) [0]) (dar_start (um_sample 40 5))) r' /\
    upper_layer r' = [[7; 8]].
Proof.
  intros frs. destruct (sample_fresh 40 5) as (_ & Hr & Hup & _); [by right|].
  assert (Hn : sn_length_ok 5) by by right.
  pose proof (um_inv_start 5 frs (um_sample 40 5) (fun _ => True) Hn Hr) as I.
  destruct (um_receiver_refines 5 frs true [] (RxInd (sample_ctxt 5) [0]) (dar_start (um_sample 40 5)) (um_sample 40 5))
    as (r' & E & H & _); [exact Hn| |apply I|cbn; lia|apply I|cbn; lia|].
  - split.
    + repeat constructor; cbn; done || lia.
    + intros [|[|]] f g H1 H2; discriminate H2.
    + intros [|[|]] f H1; try discriminate H1. injection H1 as <-. repeat constructor. vm_compute. discriminate.
  - exists r'. split; [exact E|]. split; [exact H|]. vm_compute in E. by injection E as <-.
Defined.
