(* ===== verification/RlcTm.v ===== *)
(** * Transparent mode (rlc_tm_entity.h, rlc_tm.c, rlc_tm_init.c)

    A ring of 16 SDUs, sent as they are.  [input_sdus] is [None] when nothing is allocated,
    otherwise the cells of the ring, each NULL or an SDU. *)

From S2P Require Import Prelude RlcAmTypes.

(** ** Data *)

(** An SDU in its block: its size and the bytes of the block from the first byte of the SDU on,
    those after the SDU included.  The size is [struct rlc_tm_data_req]'s [data_size], kept in
    [struct rlc_tm_tx_sdu_management]. *)
Record rlc_tm_tx_sdu_management_t := Mk_tm_sdu {
  tm_sdu_size : Z;
  tm_first_byte : list Z
}.

Record rlc_tm_entity_t := Mk_tm_entity {
  allocation : bool;
  protocol_state : rlc_protocol_state_t;
  is_uplink_downlink : bool;
  is_data_plane : bool;
  channel_id : Z;
  rb_id : Z;
  input_sdus : option (list (option rlc_tm_tx_sdu_management_t));
  size_input_sdus_buffer : Z;
  nb_sdu : Z;
  next_sdu_index : Z;
  current_sdu_index : Z;
  pdus_to_mac_layer : list mac_tb;
  rlc_pdu_size : Z;
  buffer_occupancy : Z;
  output_sdu_size_to_write : Z;
  output_sdu_in_construction : option (list Z);
  upper_layer : list (list Z)
}.
#[export] Instance eta_tm_entity : Eta rlc_tm_entity_t :=
  fun r => Mk_tm_entity (allocation r) (protocol_state r) (is_uplink_downlink r) (is_data_plane r)
    (channel_id r) (rb_id r) (input_sdus r) (size_input_sdus_buffer r) (nb_sdu r) (next_sdu_index r)
    (current_sdu_index r) (pdus_to_mac_layer r) (rlc_pdu_size r) (buffer_occupancy r)
    (output_sdu_size_to_write r) (output_sdu_in_construction r) (upper_layer r).

Definition tm_entity_zero : rlc_tm_entity_t :=
  Mk_tm_entity false RLC_NULL_STATE false false 0 0 None 0 0 0 0 [] 0 0 0 None [].
(** [upper_layer] is the history of the calls to the layer above and survives the [memset]. *)
Definition tm_memset_entity (r : rlc_tm_entity_t) : rlc_tm_entity_t :=
  tm_entity_zero <| upper_layer := upper_layer r |>.

Definition tm_get_sdu (r : rlc_tm_entity_t) (i : Z) : res (option rlc_tm_tx_sdu_management_t) :=
  ring ← deref (input_sdus r);
  array_get ring i.
Definition tm_set_sdu (r : rlc_tm_entity_t) (i : Z) (s : option rlc_tm_tx_sdu_management_t) : res rlc_tm_entity_t :=
  ring ← deref (input_sdus r);
  ring ← array_set ring i s;
  Ok (r <| input_sdus := Some ring |>).

(** ** Life cycle (rlc_tm_init.c) *)
(** [block_ok]: whether [get_free_mem_block] succeeds; what it returns is used without a test. *)
Definition rlc_tm_init (block_ok : bool) (r : rlc_tm_entity_t) : res rlc_tm_entity_t :=
  let saved_allocation := allocation r in
  let r := tm_memset_entity r in
  let r := r <| allocation := saved_allocation |> <| pdus_to_mac_layer := [] |>
             <| protocol_state := RLC_NULL_STATE |> <| nb_sdu := 0 |> <| next_sdu_index := 0 |>
             <| current_sdu_index := 0 |> <| output_sdu_size_to_write := 0 |> <| buffer_occupancy := 0 |>
             <| size_input_sdus_buffer := 16 |> in
  match input_sdus r with
  | None =>
      if size_input_sdus_buffer r >? 0 then
        if block_ok then Ok (r <| input_sdus := Some (replicate (Z.to_nat (size_input_sdus_buffer r)) None) |>)
        else Err UndefinedBehaviour
      else Ok r
  | Some _ => Ok r
  end.
Definition rlc_tm_reset_state_variables (r : rlc_tm_entity_t) : rlc_tm_entity_t :=
  r <| output_sdu_size_to_write := 0 |> <| buffer_occupancy := 0 |> <| nb_sdu := 0 |>
    <| next_sdu_index := 0 |> <| current_sdu_index := 0 |>.
(** Every list and block is freed before the [memset]. *)
Definition rlc_tm_cleanup (r : rlc_tm_entity_t) : rlc_tm_entity_t :=
  let r := r <| pdus_to_mac_layer := [] |> <| input_sdus := None |> <| output_sdu_in_construction := None |> in
  tm_memset_entity r.
Definition rlc_tm_configure (is_uplink_downlinkP : bool) (r : rlc_tm_entity_t) : rlc_tm_entity_t :=
  rlc_tm_reset_state_variables (r <| is_uplink_downlink := is_uplink_downlinkP |>).
Definition rlc_tm_set_debug_infos (srb_flagP : bool) (rb_idP chan_idP : Z) (r : rlc_tm_entity_t) : rlc_tm_entity_t :=
  r <| rb_id := rb_idP |> <| channel_id := chan_idP |> <| is_data_plane := negb srb_flagP |>.

(** What a configuration request does to the entity found. *)
Definition tm_config_entity (block_ok srb_flagP is_uplink_downlinkP : bool) (rb_idP chan_idP : Z) (r : rlc_tm_entity_t)
  : res rlc_tm_entity_t :=
  r ← rlc_tm_init block_ok r;
  let r := r <| protocol_state := RLC_DATA_TRANSFER_READY_STATE |> in
  Ok (rlc_tm_configure is_uplink_downlinkP (rlc_tm_set_debug_infos srb_flagP rb_idP chan_idP r)).
Definition config_req_rlc_tm (block_ok : bool) (key : Z) (srb_flagP is_uplink_downlinkP : bool) (rb_idP chan_idP : Z)
    (coll : gmap Z rlc_tm_entity_t) : res (gmap Z rlc_tm_entity_t) :=
  match coll !! key with
  | Some r =>
      r ← tm_config_entity block_ok srb_flagP is_uplink_downlinkP rb_idP chan_idP r;
      Ok (<[key := r]> coll)
  | None => Ok coll
  end.

(** ** Transmission (rlc_tm.c) *)
Definition rlc_tm_data_req (sdu : rlc_tm_tx_sdu_management_t) (r : rlc_tm_entity_t) : res rlc_tm_entity_t :=
  cell ← tm_get_sdu r (next_sdu_index r);
  match cell with
  | None =>
      let sdu := Mk_tm_sdu (u16 (tm_sdu_size sdu)) (tm_first_byte sdu) in
      let r := r <| buffer_occupancy := i32 (buffer_occupancy r + Z.shiftr (tm_sdu_size sdu) 3) |>
                 <| nb_sdu := u16 (nb_sdu r + 1) |> in
      r ← tm_set_sdu r (next_sdu_index r) (Some sdu);
      if size_input_sdus_buffer r =? 0 then Err UndefinedBehaviour
      else Ok (r <| next_sdu_index := Z.rem (next_sdu_index r + 1) (size_input_sdus_buffer r) |>)
  | Some _ => Ok r
  end.

(** [pool]: how many blocks [get_free_mem_block] has left.  [nb_pdu_to_transmit] is 1 throughout. *)
Fixpoint rlc_tm_no_segment (pool : nat) (r : rlc_tm_entity_t) : res rlc_tm_entity_t :=
  cell ← tm_get_sdu r (current_sdu_index r);
  match cell, pool with
  | Some sdu, S pool =>
      data ← mem_read (tm_first_byte sdu) 0 (Z.shiftr (i32 (rlc_pdu_size r + 7)) 3);
      let tb := Mk_mac_tb data (Z.shiftr (rlc_pdu_size r) 3) in
      let r := r <| pdus_to_mac_layer := pdus_to_mac_layer r ++ [tb] |>
                 <| buffer_occupancy := i32 (buffer_occupancy r - Z.shiftr (tm_sdu_size sdu) 3) |> in
      r ← tm_set_sdu r (current_sdu_index r) None;
      if size_input_sdus_buffer r =? 0 then Err UndefinedBehaviour
      else
        let r := r <| current_sdu_index := Z.rem (current_sdu_index r + 1) (size_input_sdus_buffer r) |>
                   <| nb_sdu := u16 (nb_sdu r - 1) |> in
        rlc_tm_no_segment pool r
  | _, _ => Ok r
  end.

(** [buffer_occupancy_in_bytes / rlc_pdu_size], an unsigned division. *)
Definition tm_occupancy_in_pdus (bytes pdu_size : Z) : res Z :=
  if u32 pdu_size =? 0 then Err UndefinedBehaviour else Ok (u16 (bytes / u32 pdu_size)).

Definition rlc_tm_mac_status_indication (tb_sizeP : Z) (r : rlc_tm_entity_t) : res (mac_status_resp * rlc_tm_entity_t) :=
  let r := r <| rlc_pdu_size := tb_sizeP |> in
  let bytes := u32 (buffer_occupancy r) in
  in_pdus ← tm_occupancy_in_pdus bytes (rlc_pdu_size r);
  Ok (Mk_status_resp bytes in_pdus 0 0 false (protocol_state r), r).

Definition rlc_tm_mac_data_request (pool : nat) (r : rlc_tm_entity_t) : res (mac_data_req * rlc_tm_entity_t) :=
  r ← rlc_tm_no_segment pool r;
  let data := pdus_to_mac_layer r in
  let r := r <| pdus_to_mac_layer := [] |> in
  _ ← tm_occupancy_in_pdus (u32 (buffer_occupancy r)) (rlc_pdu_size r);
  Ok (Mk_mac_data_req data (Some (u32 (buffer_occupancy r))) (protocol_state r), r).

(** ** Reception *)

(** [block]: what [get_free_mem_block] returns. *)
Definition rlc_tm_send_sdu (block : option (list Z)) (src : list Z) (length_in_bitsP : Z) (r : rlc_tm_entity_t)
  : res rlc_tm_entity_t :=
  let length_in_bytes := Z.shiftr (length_in_bitsP + 7) 3 in
  let out := (match output_sdu_in_construction r with None => block | Some b => Some b end) in
  match out with
  | Some b =>
      data ← mem_read src 0 length_in_bytes;
      b ← mem_write b (output_sdu_size_to_write r) data;
      sdu ← mem_read b 0 length_in_bytes;
      Ok (r <| upper_layer := upper_layer r ++ [sdu] |> <| output_sdu_in_construction := None |>)
  | None => Ok r
  end.

(** A block of MAC, with the block that [get_free_mem_block] gives while it is processed. *)
Record tm_tb_ind := Mk_tm_tb { tm_tb_data : list Z; tm_tb_block : option (list Z) }.
Fixpoint tm_rx_loop (data : list tm_tb_ind) (tb_size : Z) (r : rlc_tm_entity_t) : res rlc_tm_entity_t :=
  match data with
  | [] => Ok r
  | tb :: data =>
      r ← rlc_tm_send_sdu (tm_tb_block tb) (tm_tb_data tb) tb_size r;
      tm_rx_loop data tb_size r
  end.
Definition rlc_tm_rx (data : list tm_tb_ind) (tb_size : Z) (r : rlc_tm_entity_t) : res rlc_tm_entity_t :=
  tm_rx_loop data tb_size (r <| output_sdu_size_to_write := 0 |>).
Definition rlc_tm_mac_data_indication (data : list tm_tb_ind) (tb_size : Z) (r : rlc_tm_entity_t) : res rlc_tm_entity_t :=
  rlc_tm_rx data tb_size r.

(** ** The ring is a queue *)

(** The sender: requests of the upper layer, and opportunities, a status indication followed by a
    data request. *)
Inductive tm_event :=
| Tm_data_req (sdu : rlc_tm_tx_sdu_management_t)
| Tm_opportunity (tb_size : Z) (pool : nat).

Definition tm_step (ev : tm_event) (r : rlc_tm_entity_t) : res (list mac_tb * rlc_tm_entity_t) :=
  match ev with
  | Tm_data_req sdu => r ← rlc_tm_data_req sdu r; Ok ([], r)
  | Tm_opportunity tb_size pool =>
      '(_, r) ← rlc_tm_mac_status_indication tb_size r;
      '(req, r) ← rlc_tm_mac_data_request pool r;
      Ok (mdr_data req, r)
  end.
Fixpoint tm_run (evs : list tm_event) (r : rlc_tm_entity_t) : res (list mac_tb * rlc_tm_entity_t) :=
  match evs with
  | [] => Ok ([], r)
  | ev :: evs =>
      '(out, r) ← tm_step ev r;
      '(outs, r) ← tm_run evs r;
      Ok (out ++ outs, r)
  end.

(** What it promises: a queue of 16, of which an opportunity sends all that the blocks left allow,
    each SDU as the first bytes of its block. *)
Definition tm_pdu (n : Z) (sdu : rlc_tm_tx_sdu_management_t) : mac_tb :=
  Mk_mac_tb (take (Z.to_nat (Z.shiftr (n + 7) 3)) (tm_first_byte sdu)) (Z.shiftr n 3).
Definition tm_queue_step (ev : tm_event) (q : list rlc_tm_tx_sdu_management_t)
  : list mac_tb * list rlc_tm_tx_sdu_management_t :=
  match ev with
  | Tm_data_req sdu => ([], if (length q <? 16)%nat then q ++ [sdu] else q)
  | Tm_opportunity n pool => (map (tm_pdu n) (take pool q), drop pool q)
  end.
Fixpoint tm_queue_run (evs : list tm_event) (q : list rlc_tm_tx_sdu_management_t)
  : list mac_tb * list rlc_tm_tx_sdu_management_t :=
  match evs with
  | [] => ([], q)
  | ev :: evs =>
      let '(out, q) := tm_queue_step ev q in
      let '(outs, q) := tm_queue_run evs q in
      (out ++ outs, q)
  end.

Definition tm_sizes (q : list rlc_tm_tx_sdu_management_t) : Z :=
  Z.of_nat (sum_list_with (fun s => Z.to_nat (Z.shiftr (tm_sdu_size s) 3)) q).
(** The SDUs fit their 16-bit size and their blocks hold [len] bytes. *)
Definition tm_sdu_ok (len : Z) (s : rlc_tm_tx_sdu_management_t) : Prop :=
  0 <= tm_sdu_size s < 65536 /\ len <= Z.of_nat (length (tm_first_byte s)).

Record tm_holds (q : list rlc_tm_tx_sdu_management_t) (r : rlc_tm_entity_t) : Prop := Mk_tm_holds {
  th_ring : exists ring, input_sdus r = Some ring /\ length ring = 16%nat /\
    forall i, (i < 16)%nat -> ring !! Z.to_nat ((current_sdu_index r + Z.of_nat i) mod 16) = Some (q !! i);
  th_size : size_input_sdus_buffer r = 16;
  th_cur : 0 <= current_sdu_index r < 16;
  th_len : (length q <= 16)%nat;
  th_next : next_sdu_index r = (current_sdu_index r + Z.of_nat (length q)) mod 16;
  th_nb : nb_sdu r = Z.of_nat (length q);
  th_bo : buffer_occupancy r = tm_sizes q;
  th_sdus : Forall (tm_sdu_ok 0) q;
  th_out : pdus_to_mac_layer r = []
}.

Lemma tm_ring_index cur i j :
  (i < 16)%nat -> (j < 16)%nat ->
  Z.to_nat ((cur + Z.of_nat i) mod 16) = Z.to_nat ((cur + Z.of_nat j) mod 16) -> i = j.
Proof.
  intros Hi Hj H. apply Z2Nat.inj in H; [|apply Z.mod_pos_bound; lia..].
  Z.div_mod_to_equations. lia.
Qed.

Lemma tm_shift3 z : 0 <= z < 65536 -> 0 <= Z.shiftr z 3 < 8192.
Proof. intros H. rewrite Z.shiftr_div_pow2 by lia. change (2 ^ 3) with 8. mod_lia. Qed.

Lemma tm_sizes_bound q : Forall (tm_sdu_ok 0) q -> (length q <= 16)%nat -> 0 <= tm_sizes q <= 131072.
Proof.
  intros H Hl. enough (0 <= tm_sizes q <= 8192 * Z.of_nat (length q)) by lia. clear Hl.
  unfold tm_sizes. induction H as [|s q [Hs _] _ IH]; simpl; [lia|].
  apply tm_shift3 in Hs. lia.
Qed.

Lemma tm_sizes_app q q' : tm_sizes (q ++ q') = tm_sizes q + tm_sizes q'.
Proof. unfold tm_sizes. rewrite sum_list_with_app. lia. Qed.
Lemma tm_sizes_cons s q : 0 <= tm_sdu_size s < 65536 -> tm_sizes (s :: q) = Z.shiftr (tm_sdu_size s) 3 + tm_sizes q.
Proof. intros H%tm_shift3. unfold tm_sizes. simpl. lia. Qed.

Lemma tm_get_sdu_holds q r i :
  tm_holds q r -> (i < 16)%nat -> tm_get_sdu r ((current_sdu_index r + Z.of_nat i) mod 16) = Ok (q !! i).
Proof.
  intros H Hi. destruct (th_ring _ _ H) as (ring & E & _ & Hr).
  unfold tm_get_sdu, array_get. rewrite E. simpl.
  destruct (Z.leb_spec 0 ((current_sdu_index r + Z.of_nat i) mod 16)) as [_|Hneg].
  - by rewrite Hr.
  - exfalso. assert (0 <= (current_sdu_index r + Z.of_nat i) mod 16) by (apply Z.mod_pos_bound; lia). lia.
Qed.

(** The cell of the [i]-th SDU replaced. *)
Lemma tm_set_sdu_ring r ring cur (q : list rlc_tm_tx_sdu_management_t) i c :
  input_sdus r = Some ring -> length ring = 16%nat ->
  (forall j, (j < 16)%nat -> ring !! Z.to_nat ((cur + Z.of_nat j) mod 16) = Some (q !! j)) ->
  (i < 16)%nat ->
  exists ring', tm_set_sdu r ((cur + Z.of_nat i) mod 16) c = Ok (r <| input_sdus := Some ring' |>) /\
    length ring' = 16%nat /\
    forall j, (j < 16)%nat -> ring' !! Z.to_nat ((cur + Z.of_nat j) mod 16) = Some (if decide (i = j) then c else q !! j).
Proof.
  intros E Hl Hr Hi.
  assert (0 <= (cur + Z.of_nat i) mod 16 < 16) by (apply Z.mod_pos_bound; lia).
  unfold tm_set_sdu. rewrite E. simpl. rewrite array_set_ok by lia. simpl. eexists. split; [done|].
  split; [by rewrite length_insert|]. intros j Hj. destruct (decide (i = j)) as [->|Hne].
  - apply list_lookup_insert_eq. lia.
  - rewrite list_lookup_insert_ne; [by apply Hr|]. intros Heq. by apply Hne, (tm_ring_index _ _ _ Hi Hj Heq).
Qed.

Lemma tm_rem_mod z : 0 <= z -> Z.rem z 16 = z mod 16.
Proof. intros H. apply Z.rem_mod_nonneg; lia. Qed.

Lemma tm_data_req_holds q r sdu :
  tm_holds q r -> tm_sdu_ok 0 sdu ->
  exists r', rlc_tm_data_req sdu r = Ok r' /\ tm_holds (tm_queue_step (Tm_data_req sdu) q).2 r'.
Proof.
  intros H Hs. simpl. unfold rlc_tm_data_req. rewrite (th_next _ _ H).
  destruct (Nat.ltb_spec (length q) 16) as [Hlt|Hge].
  2:{ assert (Hl := th_len _ _ H). assert (Hc := th_cur _ _ H).
      replace ((current_sdu_index r + Z.of_nat (length q)) mod 16)
        with ((current_sdu_index r + Z.of_nat 0) mod 16) by (Z.div_mod_to_equations; lia).
      rewrite (tm_get_sdu_holds q r _ H) by lia.
      destruct (lookup_lt_is_Some_2 q 0) as [s ->]; [lia|]. by exists r. }
  rewrite (tm_get_sdu_holds q r _ H Hlt). rewrite lookup_ge_None_2 by lia. cbn [mbind res_bind].
  assert (Hu : u16 (tm_sdu_size sdu) = tm_sdu_size sdu) by (apply wrapu_small, Hs).
  rewrite Hu. destruct (th_ring _ _ H) as (ring & E & Hl & Hr).
  set (r1 := r <| buffer_occupancy := _ |> <| nb_sdu := _ |>).
  change (next_sdu_index r1) with (next_sdu_index r). rewrite (th_next _ _ H).
  destruct (tm_set_sdu_ring r1 ring (current_sdu_index r) q (length q) (Some sdu) E Hl Hr Hlt)
    as (ring' & E' & Hl' & Hr').
  destruct sdu as [size bytes]; simpl in *. rewrite E'. simpl. rewrite (th_size _ _ H). simpl.
  eexists. split; [done|]. destruct H as [_ Hsz Hc Hlen Hn Hnb Hbo Hsd Ho]. constructor; simpl.
  - exists ring'. split; [done|]. split; [done|]. intros i Hi. rewrite Hr' by done. f_equal.
    destruct (decide (length q = i)) as [<-|Hne]; [by rewrite list_lookup_middle|].
    destruct (decide (i < length q)%nat); [by rewrite lookup_app_l|].
    rewrite (lookup_ge_None_2 q) by lia. rewrite lookup_ge_None_2; [done|]. rewrite length_app. simpl. lia.
  - done.
  - done.
  - rewrite length_app. simpl. lia.
  - rewrite Hn, length_app. simpl. rewrite tm_rem_mod by (Z.div_mod_to_equations; lia).
    Z.div_mod_to_equations. lia.
  - rewrite Hnb, length_app. simpl. unfold u16. rewrite wrapu_small; lia.
  - rewrite tm_sizes_app, tm_sizes_cons, Hbo by apply Hs. change (tm_sizes []) with 0.
    assert (Hb := tm_sizes_bound q Hsd Hlen). assert (Hz := tm_shift3 _ (proj1 Hs)). simpl in Hz.
    unfold i32. rewrite wraps_small; simpl; lia.
  - apply Forall_app. split; [done|]. constructor; [done|constructor].
  - done.
Qed.

Lemma tm_no_segment_holds n q : forall r pool,
  tm_holds q (r <| pdus_to_mac_layer := [] |>) -> rlc_pdu_size r = n -> 0 <= n < 2 ^ 31 - 7 ->
  Forall (tm_sdu_ok (Z.shiftr (n + 7) 3)) q ->
  exists r', rlc_tm_no_segment pool r = Ok r' /\
    pdus_to_mac_layer r' = pdus_to_mac_layer r ++ map (tm_pdu n) (take pool q) /\
    rlc_pdu_size r' = n /\ tm_holds (drop pool q) (r' <| pdus_to_mac_layer := [] |>).
Proof.
  induction q as [|s q IH]; intros r pool H Hn Hpos Hs.
  - assert (Hget : tm_get_sdu r (current_sdu_index r) = Ok None).
    { assert (Hg := tm_get_sdu_holds _ _ 0 H ltac:(lia)). simpl in Hg.
      rewrite Z.add_0_r, Z.mod_small in Hg by apply (th_cur _ _ H). exact Hg. }
    exists r. rewrite take_nil, drop_nil, app_nil_r.
    split; [destruct pool; simpl; by rewrite Hget|]. done.
  - assert (Hget : tm_get_sdu r (current_sdu_index r) = Ok (Some s)).
    { assert (Hg := tm_get_sdu_holds _ _ 0 H ltac:(lia)). simpl in Hg.
      rewrite Z.add_0_r, Z.mod_small in Hg by apply (th_cur _ _ H). exact Hg. }
    destruct pool as [|pool].
    { exists r. simpl. rewrite Hget, app_nil_r. done. }
    cbn [rlc_tm_no_segment]. rewrite Hget. cbn [mbind res_bind].
    apply Forall_cons_1 in Hs as [[Hs1 Hs2] Hs].
    assert (Hsh : 0 <= Z.shiftr (n + 7) 3) by (apply Z.shiftr_nonneg; lia).
    assert (E7 : i32 (n + 7) = n + 7) by (unfold i32; apply wraps_small; lia).
    rewrite Hn, E7, mem_read_ok by lia. cbn [mbind res_bind]. change (Z.to_nat 0) with 0%nat. rewrite drop_0.
    destruct (th_ring _ _ H) as (ring & E & Hl & Hr). simpl in E, Hr.
    set (r1 := r <| pdus_to_mac_layer := _ |> <| buffer_occupancy := _ |>).
    assert (Hc := th_cur _ _ H). simpl in Hc.
    destruct (tm_set_sdu_ring r1 ring (current_sdu_index r) (s :: q) 0 None E Hl Hr ltac:(lia))
      as (ring' & E' & Hl' & Hr').
    rewrite Z.add_0_r, Z.mod_small in E' by done.
    change (current_sdu_index r1) with (current_sdu_index r). rewrite E'. cbn [mbind res_bind].
    assert (Hsz := th_size _ _ H). simpl in Hsz.
    replace (size_input_sdus_buffer (r1 <| input_sdus := Some ring' |>)) with 16 by done. cbn [Z.eqb].
    set (r2 := _ <| nb_sdu := _ |>).
    destruct (IH r2 pool) as (r' & -> & Hp & Hn' & Hh); [|done|done|done|].
    + destruct H as [_ _ _ Hlen Hnx Hnb Hbo Hsd Ho]. simpl in *.
      apply Forall_cons_1 in Hsd as [Hsd0 Hsd].
      assert (Hrem : Z.rem (current_sdu_index r + 1) 16 = (current_sdu_index r + 1) mod 16) by (apply tm_rem_mod; lia).
      constructor; simpl.
      * exists ring'. split; [done|]. split; [done|]. intros i Hi. rewrite Hrem.
        destruct (decide (i = 15%nat)) as [->|Hi15].
        -- replace (((current_sdu_index r + 1) mod 16 + Z.of_nat 15) mod 16)
             with ((current_sdu_index r + Z.of_nat 0) mod 16) by (Z.div_mod_to_equations; lia).
           rewrite Hr' by lia. simpl. by rewrite lookup_ge_None_2 by lia.
        -- replace (((current_sdu_index r + 1) mod 16 + Z.of_nat i) mod 16)
             with ((current_sdu_index r + Z.of_nat (S i)) mod 16) by (Z.div_mod_to_equations; lia).
           by rewrite Hr' by lia.
      * done.
      * rewrite Hrem. apply Z.mod_pos_bound. lia.
      * lia.
      * rewrite Hnx, Hrem. Z.div_mod_to_equations. lia.
      * rewrite Hnb. unfold u16. rewrite wrapu_small; lia.
      * rewrite Hbo, tm_sizes_cons by apply Hsd0. assert (Hb := tm_sizes_bound q Hsd ltac:(lia)).
        unfold i32. rewrite wraps_small; simpl; lia.
      * done.
      * done.
    + exists r'. split; [done|]. split; [|done]. rewrite Hp. simpl. by rewrite <- app_assoc.
Qed.

(** A configured entity holds an empty queue. *)
Definition tm_configured (srb ud : bool) (rb chan : Z) (r : rlc_tm_entity_t) : rlc_tm_entity_t :=
  Mk_tm_entity (allocation r) RLC_DATA_TRANSFER_READY_STATE ud (negb srb) chan rb (Some (replicate 16 None)) 16 0 0 0
    [] 0 0 0 None (upper_layer r).
Lemma tm_config_entity_ok srb ud rb chan r :
  tm_config_entity true srb ud rb chan r = Ok (tm_configured srb ud rb chan r).
Proof. reflexivity. Qed.
Lemma tm_config_holds srb ud rb chan r : tm_holds [] (tm_configured srb ud rb chan r).
Proof.
  constructor; simpl; try done; try lia.
  exists (replicate 16 None). split; [done|]. split; [done|]. intros i Hi.
  apply lookup_replicate_2. assert (0 <= (0 + Z.of_nat i) mod 16 < 16) by (apply Z.mod_pos_bound; lia). lia.
Qed.

(** The events of a sender whose SDUs have blocks of [len] bytes at least. *)
Definition tm_event_ok (len : Z) (ev : tm_event) : Prop :=
  match ev with
  | Tm_data_req s => tm_sdu_ok len s
  | Tm_opportunity n _ => 0 < n < 2 ^ 31 - 7 /\ Z.shiftr (n + 7) 3 <= len
  end.

Lemma tm_sdu_ok_weaken len len' s : len' <= len -> tm_sdu_ok len s -> tm_sdu_ok len' s.
Proof. intros H [H1 H2]. split; [done|lia]. Qed.

Lemma tm_holds_out q r : tm_holds q r -> tm_holds q (r <| pdus_to_mac_layer := [] |>).
Proof. intros []. by constructor. Qed.
Lemma tm_holds_pdu_size q r n : tm_holds q r -> tm_holds q (r <| rlc_pdu_size := n |>).
Proof. intros []. by constructor. Qed.

Lemma tm_occupancy_ok b n : 0 < n < 2 ^ 31 -> tm_occupancy_in_pdus b n = Ok (u16 (b / n)).
Proof.
  intros H. unfold tm_occupancy_in_pdus. assert (u32 n = n) as -> by (apply wrapu_small; lia).
  destruct (Z.eqb_spec n 0); [lia|done].
Qed.

Lemma tm_step_holds len ev q r :
  tm_holds q r -> 0 <= len -> Forall (tm_sdu_ok len) q -> tm_event_ok len ev ->
  exists r', tm_step ev r = Ok ((tm_queue_step ev q).1, r') /\ tm_holds (tm_queue_step ev q).2 r' /\
    Forall (tm_sdu_ok len) (tm_queue_step ev q).2 /\ upper_layer r' = upper_layer r.
Proof.
  intros H Hl Hq He. destruct ev as [s|n pool]; cbn [tm_step].
  - destruct (tm_data_req_holds q r s H) as (r' & E & H'); [by eapply tm_sdu_ok_weaken|].
    rewrite E. exists r'. split; [done|]. split; [done|]. split.
    + simpl. destruct (_ <? _)%nat; [|done]. apply Forall_app. split; [done|]. by constructor.
    + revert E. unfold rlc_tm_data_req. destruct (tm_get_sdu r _) as [[|]|]; simpl; intros E; simplify_eq; [done|].
      unfold tm_set_sdu in E. simpl in E. destruct (input_sdus r); simpl in E; [|done].
      destruct (array_set _ _ _); simpl in E; [|done]. destruct (_ =? 0); simpl in E; [done|]. by simplify_eq.
  - destruct He as [Hn Hlen]. unfold rlc_tm_mac_status_indication. cbn zeta.
    rewrite (tm_occupancy_ok _ n) by lia. cbn [mbind res_bind].
    set (r0 := r <| rlc_pdu_size := n |>).
    assert (Hn0 : rlc_pdu_size r0 = n) by done.
    destruct (tm_no_segment_holds n q r0 pool) as (r' & E & Hp & Hn' & H');
      [by apply tm_holds_out, tm_holds_pdu_size|done|lia| |].
    { eapply Forall_impl; [exact Hq|]. intros s. by apply tm_sdu_ok_weaken. }
    unfold rlc_tm_mac_data_request. rewrite E. cbn [mbind res_bind].
    change (rlc_pdu_size (r' <| pdus_to_mac_layer := [] |>)) with (rlc_pdu_size r').
    rewrite Hn', (tm_occupancy_ok _ n) by lia. cbn [mbind res_bind mdr_data].
    eexists. split; [rewrite Hp; simpl; by rewrite (th_out _ _ H)|]. split; [exact H'|].
    split; [by apply Forall_drop|].
    enough (Hup : forall pool r r', rlc_tm_no_segment pool r = Ok r' -> upper_layer r' = upper_layer r)
      by (apply (Hup _ _ _ E)).
    clear. intros pool. induction pool as [|pool IH]; intros r r'; cbn [rlc_tm_no_segment];
      destruct (tm_get_sdu r _) as [[s|]|]; cbn [mbind res_bind]; intros E; try by simplify_eq.
    res_inv. destruct (size_input_sdus_buffer _ =? 0); [done|]. apply IH in E. simpl in E. rewrite E.
    unfold tm_set_sdu in *. res_inv. by subst.
Qed.

Lemma tm_run_holds len evs : forall q r,
  tm_holds q r -> 0 <= len -> Forall (tm_sdu_ok len) q -> Forall (tm_event_ok len) evs ->
  exists r', tm_run evs r = Ok ((tm_queue_run evs q).1, r') /\ tm_holds (tm_queue_run evs q).2 r' /\
    upper_layer r' = upper_layer r.
Proof.
  induction evs as [|ev evs IH]; intros q r H Hl Hq Hev; cbn [tm_run tm_queue_run]; [by exists r|].
  apply Forall_cons_1 in Hev as [He Hev].
  destruct (tm_step_holds len ev q r H Hl Hq He) as (r1 & -> & H1 & Hq1 & Hu1).
  destruct (tm_queue_step ev q) as [out q1]. simpl in *.
  destruct (IH q1 r1 H1 Hl Hq1 Hev) as (r2 & -> & H2 & Hu2).
  destruct (tm_queue_run evs q1) as [outs q2]. simpl in *. exists r2. split; [done|]. split; [done|congruence].
Qed.

(** C37: A TM sender is a queue of 16 SDUs. Whatever the requests (SDU sizes of 16 bits)
    and the opportunities, as long as MAC's size n in bits is 0 < n < 2^31 - 7 (n + 7 is a
    32 bit addition), the blocks are long enough for it and the entity's own allocation
    succeeded, the entity never faults; a request enters the queue unless it is full, when
    the SDU is dropped, and an opportunity sends every SDU of the queue for which there is
    a block, not one SDU, in order, each as the first [rlc_pdu_size] bits of its block,
    whatever the size of the SDU. *)
Theorem tm_sender_refines srb ud rb chan r len evs :
  0 <= len -> Forall (tm_event_ok len) evs ->
  exists r', (r0 ← tm_config_entity true srb ud rb chan r; tm_run evs r0) = Ok ((tm_queue_run evs []).1, r') /\
    tm_holds (tm_queue_run evs []).2 r'.
Proof.
  intros Hl Hev. rewrite tm_config_entity_ok. cbn [mbind res_bind].
  destruct (tm_run_holds len evs [] _ (tm_config_holds srb ud rb chan r) Hl (Forall_nil_2 _) Hev) as (r' & E & H & _).
  by exists r'.
Qed.
Definition tm_demo_sdu (b : Z) : rlc_tm_tx_sdu_management_t := Mk_tm_sdu 2 [b; b + 1; 99; 99].
Lemma tm_sender_refines_witness :
  exists r', (r0 ← tm_config_entity true true true 1 1 tm_entity_zero;
              tm_run [Tm_data_req (tm_demo_sdu 1); Tm_data_req (tm_demo_sdu 5); Tm_opportunity 24 9] r0) =
    Ok ([Mk_mac_tb [1; 2; 99] 3; Mk_mac_tb [5; 6; 99] 3], r') /\ tm_holds [] r'.
Proof.
  destruct (tm_sender_refines true true 1 1 tm_entity_zero 4
    [Tm_data_req (tm_demo_sdu 1); Tm_data_req (tm_demo_sdu 5); Tm_opportunity 24 9]) as (r' & H1 & H2).
  - lia.
  - repeat (apply Forall_cons; split); try apply Forall_nil_2; unfold tm_event_ok, tm_sdu_ok;
      try change (Z.shiftr (24 + 7) 3) with 3; simpl; lia.
  - exists r'. split; [exact H1|exact H2].
Defined.

(** ** Sender and receiver *)

(** A block for each PDU, long enough. *)
Definition tm_tb_ok (k : Z) (tb : tm_tb_ind) : Prop :=
  k <= Z.of_nat (length (tm_tb_data tb)) /\
  match tm_tb_block tb with Some b => k <= Z.of_nat (length b) | None => False end.

Lemma tm_rx_loop_ok k tbs : forall r,
  0 <= k -> Forall (tm_tb_ok k) tbs -> output_sdu_in_construction r = None -> output_sdu_size_to_write r = 0 ->
  exists r', tm_rx_loop tbs (8 * k) r = Ok r' /\
    upper_layer r' = upper_layer r ++ map (fun tb => take (Z.to_nat k) (tm_tb_data tb)) tbs.
Proof.
  induction tbs as [|tb tbs IH]; intros r Hk Ht Ho Hw; cbn [tm_rx_loop]; [exists r; by rewrite app_nil_r|].
  apply Forall_cons_1 in Ht as [[H1 H2] Ht]. unfold rlc_tm_send_sdu. rewrite Ho.
  destruct (tm_tb_block tb) as [b|]; [|done].
  assert (Hs : Z.shiftr (8 * k + 7) 3 = k).
  { rewrite Z.shiftr_div_pow2 by lia. change (2 ^ 3) with 8. mod_lia. }
  rewrite Hs, mem_read_ok by lia. cbn [mbind res_bind]. change (Z.to_nat 0) with 0%nat. rewrite drop_0, Hw.
  set (d := take (Z.to_nat k) (tm_tb_data tb)).
  assert (Hd : length d = Z.to_nat k) by (apply length_take_le; lia).
  unfold mem_write. destruct (Z.leb_spec (0 + Z.of_nat (length d)) (Z.of_nat (length b))); [|lia].
  cbn [andb Z.leb Z.compare mbind res_bind]. change (Z.to_nat 0) with 0%nat. rewrite take_0.
  rewrite mem_read_ok; [|lia|lia|rewrite !length_app; lia]. cbn [mbind res_bind app].
  change (Z.to_nat 0) with 0%nat. rewrite drop_0, take_app_le, take_ge by lia.
  edestruct IH as (r' & -> & E); [done|done| | |exists r'; split; [done|]]; [done|done|].
  rewrite E. simpl. by rewrite <- app_assoc.
Qed.

Lemma tm_queue_run_requests evs q : forall q0,
  (length q0 + length q <= 16)%nat -> tm_queue_run (map Tm_data_req q ++ evs) q0 = tm_queue_run evs (q0 ++ q).
Proof.
  induction q as [|s q IH]; intros q0 Hl; simpl; [by rewrite app_nil_r|]. simpl in Hl.
  destruct (Nat.ltb_spec (length q0) 16); [|lia].
  rewrite IH by (rewrite length_app; simpl; lia). rewrite <- app_assoc. simpl. by destruct (tm_queue_run _ _).
Qed.

(** TM from end to end.  Up to 16 SDUs given to a configured sender and sent in one
    opportunity of [n] reach the layer above the receiver in order, one for each; each is the first
    [n / 8] bytes of its block: all of the SDU when [n] is its size in bits, and an eighth of it when
    MAC gives, as it does, the size in bytes. *)
Theorem tm_transfer_spec srb ud rb chan rs srb' ud' rb' chan' rr n len q blocks :
  (length q <= 16)%nat -> Forall (tm_sdu_ok len) q -> 0 < n < 65536 -> Z.shiftr (n + 7) 3 <= len ->
  length blocks = length q -> Forall (fun b : list Z => Z.shiftr n 3 <= Z.of_nat (length b)) blocks ->
  exists pdus s r,
    (s0 ← tm_config_entity true srb ud rb chan rs;
     tm_run (map Tm_data_req q ++ [Tm_opportunity n (length q)]) s0) = Ok (pdus, s) /\
    (r0 ← tm_config_entity true srb' ud' rb' chan' rr;
     rlc_tm_mac_data_indication (zip_with (fun p b => Mk_tm_tb (data_ptr p) (Some b)) pdus blocks)
       (u16 (Z.shiftl (Z.shiftr n 3) 3)) r0) = Ok r /\
    upper_layer r = upper_layer rr ++ map (fun s => take (Z.to_nat (Z.shiftr n 3)) (tm_first_byte s)) q.
Proof.
  intros Hl Hq Hn Hlen Hbl Hb.
  assert (Hk : 8 * Z.shiftr n 3 <= n /\ 0 <= Z.shiftr n 3 <= Z.shiftr (n + 7) 3)
    by (rewrite !Z.shiftr_div_pow2 by lia; change (2 ^ 3) with 8; mod_lia).
  rewrite !tm_config_entity_ok. cbn [mbind res_bind].
  destruct (tm_run_holds len (map Tm_data_req q ++ [Tm_opportunity n (length q)]) [] _
    (tm_config_holds srb ud rb chan rs)) as (s & E & _ & _);
    [lia|constructor| |].
  { apply Forall_app. split; [|apply Forall_singleton; split; [lia|done]].
    apply Forall_map. eapply Forall_impl; [exact Hq|]. done. }
  rewrite tm_queue_run_requests in E by (simpl; lia). cbn [tm_queue_run tm_queue_step app] in E.
  rewrite take_ge, drop_ge, app_nil_r in E by lia. simpl in E.
  destruct (tm_rx_loop_ok (Z.shiftr n 3)
    (zip_with (fun p b => Mk_tm_tb (data_ptr p) (Some b)) (map (tm_pdu n) q) blocks)
    ((tm_configured srb' ud' rb' chan' rr) <| output_sdu_size_to_write := 0 |>)) as (r & Er & Hr); [lia| |done|done|].
  { apply Forall_lookup. intros i tb (p & b & -> & Hp & Hbk)%lookup_zip_with_Some.
    apply list_lookup_fmap_Some in Hp as (sd & -> & Hsd).
    rewrite Forall_lookup in Hq. rewrite Forall_lookup in Hb. apply Hq in Hsd as [_ Hsd]. apply Hb in Hbk.
    split; simpl; [|done]. rewrite length_take. lia. }
  exists (map (tm_pdu n) q), s, r. split; [done|]. split.
  - unfold rlc_tm_mac_data_indication, rlc_tm_rx. rewrite Z.shiftl_mul_pow2 by lia. change (2 ^ 3) with 8.
    unfold u16. rewrite wrapu_small by (change (2 ^ 16) with 65536; lia). replace (Z.shiftr n 3 * 8) with (8 * Z.shiftr n 3) by lia.
    exact Er.
  - rewrite Hr. simpl. f_equal. clear -Hbl Hk. revert blocks Hbl.
    induction q as [|sd q IH]; intros [|b blocks] Hbl; simplify_eq/=; [done|].
    rewrite take_take, Nat.min_l by lia. f_equal. by apply IH.
Qed.
Lemma tm_transfer_spec_witness :
  exists pdus s r,
    (s0 ← tm_config_entity true true true 1 1 tm_entity_zero;
     tm_run [Tm_data_req (tm_demo_sdu 1); Tm_data_req (tm_demo_sdu 5); Tm_opportunity 16 2] s0) = Ok (pdus, s) /\
    (r0 ← tm_config_entity true true true 1 1 tm_entity_zero;
     rlc_tm_mac_data_indication (zip_with (fun p b => Mk_tm_tb (data_ptr p) (Some b)) pdus [[0; 0]; [0; 0]]) 16 r0) = Ok r /\
    upper_layer r = [[1; 2]; [5; 6]].
Proof.
  destruct (tm_transfer_spec true true 1 1 tm_entity_zero true true 1 1 tm_entity_zero 16 4
    [tm_demo_sdu 1; tm_demo_sdu 5] [[0; 0]; [0; 0]]) as (pdus & s & r & H1 & H2 & H3).
  - simpl. lia.
  - repeat (apply Forall_cons; split); try apply Forall_nil_2; unfold tm_sdu_ok; simpl; lia.
  - lia.
  - change (Z.shiftr (16 + 7) 3) with 2. lia.
  - done.
  - repeat (apply Forall_cons; split); try apply Forall_nil_2; change (Z.shiftr 16 3) with 2; simpl; lia.
  - exists pdus, s, r. split; [exact H1|]. split; [exact H2|exact H3].
Defined.

(** A TM entity divides by the size MAC announced: an opportunity of size 0 faults, and so does
    a data request to an entity that has had no status indication, whatever the queue. *)
Theorem tm_zero_size_faults r pool :
  rlc_tm_mac_status_indication 0 r = Err UndefinedBehaviour /\
  (forall q, tm_holds q r -> rlc_pdu_size r = 0 -> rlc_tm_mac_data_request pool r = Err UndefinedBehaviour).
Proof.
  split; [done|]. intros q H Hz. unfold rlc_tm_mac_data_request.
  destruct (tm_no_segment_holds 0 q r pool) as (r' & -> & _ & Hn & _).
  - by apply tm_holds_out.
  - done.
  - done.
  - change (Z.shiftr (0 + 7) 3) with 0. apply (th_sdus _ _ H).
  - cbn [mbind res_bind]. change (rlc_pdu_size (r' <| pdus_to_mac_layer := [] |>)) with (rlc_pdu_size r').
    by rewrite Hn.
Qed.
Lemma tm_zero_size_faults_witness :
  (r0 ← tm_config_entity true true true 1 1 tm_entity_zero; rlc_tm_mac_data_request 1 r0) = Err UndefinedBehaviour.
Proof.
  rewrite tm_config_entity_ok. cbn [mbind res_bind].
  apply (proj2 (tm_zero_size_faults (tm_configured true true 1 1 tm_entity_zero) 1) []); [apply tm_config_holds|done].
Defined.
