(* ===== verification/RlcStore.v ===== *)
(** * The RLC entities and their table (rlc.h, rlc_rrc.c)

    RRC creates, configures and removes RLC entities; each is in the table under two keys, that
    of its radio bearer and that of its logical channel.  The table is any [Table] (HashTable);
    its data are addresses of a heap of entities, given by [calloc]; an entity that was freed
    is no longer in the heap, and using it is undefined behaviour.

    The build is the one for release 14 (MBMS included), without OAI_EMU. *)

From S2P Require Import Prelude HashTable RlcAmTypes.
From S2P Require Import RlcAmEntity RlcAm RlcUmTypes RlcUm RlcTm.

(** ** Constants *)
Definition RLC_OP_STATUS_OK : Z := 1.
Definition RLC_OP_STATUS_BAD_PARAMETER : Z := 22.
Definition RLC_OP_STATUS_INTERNAL_ERROR : Z := 2.
Definition maxDRB : Z := 11.
Definition NB_RB_MAX : Z := maxDRB + 3.
Definition maxSessionPerPMCH : Z := 29.
Definition maxServiceCount : Z := 16.
Definition RLC_MAX_MBMS_LC : Z := maxSessionPerPMCH * maxServiceCount.
Definition NB_RB_MBMS_MAX : Z := maxSessionPerPMCH * maxServiceCount.
Definition max_val_DRB_Identity : Z := 32.
Definition RLC_MAX_LC (NUMBER_OF_UE_MAX : Z) : Z := (max_val_DRB_Identity + 1) * NUMBER_OF_UE_MAX.
Definition RLC_LC_UNALLOCATED : Z := 0.
Definition HASHTABLE_NOT_A_KEY_VALUE : Z := 2 ^ 64 - 1.

(** ** The union of the three entities *)
Inductive rlc_mode_t := RLC_MODE_NONE | RLC_MODE_AM | RLC_MODE_UM | RLC_MODE_TM.

(** [struct rlc_union_s]: the mode says which entity the memory holds. *)
Inductive rlc_union_t :=
| Union_none
| Union_am (am : rlc_am_entity_t)
| Union_um (um : rlc_um_entity_t)
| Union_tm (tm : rlc_tm_entity_t).
Definition mode (u : rlc_union_t) : rlc_mode_t :=
  match u with
  | Union_none => RLC_MODE_NONE
  | Union_am _ => RLC_MODE_AM
  | Union_um _ => RLC_MODE_UM
  | Union_tm _ => RLC_MODE_TM
  end.
#[export] Instance rlc_mode_eq_dec : EqDecision rlc_mode_t.
Proof. solve_decision. Defined.

(** [calloc] and the assignment of the mode. *)
Definition union_calloc (m : rlc_mode_t) : rlc_union_t :=
  match m with
  | RLC_MODE_NONE => Union_none
  | RLC_MODE_AM => Union_am entity_zero
  | RLC_MODE_UM => Union_um um_entity_zero
  | RLC_MODE_TM => Union_tm tm_entity_zero
  end.

(** The logical channel of an entity, [lcid] when the mode is unknown. *)
Definition union_channel (lcid : Z) (u : rlc_union_t) : Z :=
  match u with
  | Union_none => lcid
  | Union_am r => RlcAmEntity.channel_id r
  | Union_um r => RlcUmTypes.channel_id r
  | Union_tm r => RlcTm.channel_id r
  end.

Definition rb_free_rlc_union (u : rlc_union_t) : rlc_union_t :=
  match u with
  | Union_none => Union_none
  | Union_am r => Union_am (rlc_am_cleanup r)
  | Union_um r => Union_um (rlc_um_cleanup r)
  | Union_tm r => Union_tm (rlc_tm_cleanup r)
  end.

(** ** Keys *)

(** [protocol_ctxt_t]: who the request is for, and when. *)
Record rlc_ctxt_t := Mk_rlc_ctxt {
  module_id : Z;
  rnti : Z;
  ctxt : protocol_ctxt_t
}.

(** The key of a logical channel: the tag is 0x0a instead of 0x05. *)
Definition RLC_COLL_KEY_LCID_VALUE (module_id rnti : Z) (is_enb : bool) (lc_id : Z) (is_srb : bool) : Z :=
  Z.lor (Z.lor (Z.lor (Z.lor (Z.lor module_id (Z.shiftl rnti 8)) (Z.shiftl (b2z is_enb) 24))
                      (Z.shiftl lc_id 25)) (Z.shiftl (b2z is_srb) 33)) (Z.shiftl 10 34).
Definition RLC_COLL_KEY_MBMS_VALUE (module_id rnti : Z) (is_enb : bool) (service_id session_id : Z) : Z :=
  Z.lor (Z.lor (Z.lor (Z.lor (Z.lor module_id (Z.shiftl rnti 8)) (Z.shiftl (b2z is_enb) 24))
                      (Z.shiftl service_id 32)) (Z.shiftl session_id 37)) (Z.shiftl 1 63).

Definition rb_key (c : rlc_ctxt_t) (rb_id : Z) (srb_flag : bool) : Z :=
  RLC_COLL_KEY_VALUE (module_id c) (rnti c) (enb_flag (ctxt c)) rb_id srb_flag.
Definition lcid_key (c : rlc_ctxt_t) (lc_id : Z) (srb_flag : bool) : Z :=
  RLC_COLL_KEY_LCID_VALUE (module_id c) (rnti c) (enb_flag (ctxt c)) lc_id srb_flag.

(** ** The state of the sublayer *)

(** A service and a session of MBMS. *)
Definition rlc_mbms_id_t : Type := Z * Z.
Definition get2 {A} (t : list (list A)) (i j : Z) : res A :=
  row ← array_get t i;
  array_get row j.
Definition set2 {A} (t : list (list A)) (i j : Z) (v : A) : res (list (list A)) :=
  row ← array_get t i;
  row ← array_set row j v;
  array_set t i row.

(** [heap_next] is an address that [calloc] has not given yet. *)
Record rlc_store (T : Type) := Mk_store {
  rlc_coll : T;
  heap : gmap Z rlc_union_t;
  heap_next : Z;
  rlc_mbms_lcid2service_session_id_ue : list (list rlc_mbms_id_t);
  rlc_mbms_lcid2service_session_id_eNB : list (list rlc_mbms_id_t);
  rlc_mbms_rbid2lcid_ue : list (list Z);
  rlc_mbms_rbid2lcid_eNB : list (list Z)
}.
Arguments Mk_store {T}.
Arguments rlc_coll {T}.
Arguments heap {T}.
Arguments heap_next {T}.
Arguments rlc_mbms_lcid2service_session_id_ue {T}.
Arguments rlc_mbms_lcid2service_session_id_eNB {T}.
Arguments rlc_mbms_rbid2lcid_ue {T}.
Arguments rlc_mbms_rbid2lcid_eNB {T}.
#[export] Instance eta_store T : Eta (rlc_store T) :=
  fun s => Mk_store (rlc_coll s) (heap s) (heap_next s)
    (rlc_mbms_lcid2service_session_id_ue s) (rlc_mbms_lcid2service_session_id_eNB s)
    (rlc_mbms_rbid2lcid_ue s) (rlc_mbms_rbid2lcid_eNB s).

(** What the allocations of [rrc_rlc_add_rlc] return: whether [calloc] and the two [malloc]s of the
    table succeed. *)
Record add_mem := Mk_add_mem { calloc_ok : bool; node_ok : bool; node_lcid_ok : bool }.

(** What the allocations of a configuration return: those of [rlc_am_init], the buffer of received
    PDUs of [rlc_um_init], the block of [rlc_tm_init]. *)
Record rlc_config_mem := Mk_rlc_config_mem { cm_am : am_init_mem; cm_dar : bool; cm_tm : bool }.

Inductive config_action_t :=
| CONFIG_ACTION_ADD
| CONFIG_ACTION_REMOVE
| CONFIG_ACTION_MODIFY
| CONFIG_ACTION_OTHER.

(** [rlc_info_t]; TM has [is_uplink_downlink]. *)
Inductive rlc_info_t :=
| Info_none
| Info_am (info : rlc_am_info_t)
| Info_um (info : rlc_um_info_t)
| Info_tm (is_uplink_downlink : bool).
Definition info_mode (i : rlc_info_t) : rlc_mode_t :=
  match i with
  | Info_none => RLC_MODE_NONE
  | Info_am _ => RLC_MODE_AM
  | Info_um _ => RLC_MODE_UM
  | Info_tm _ => RLC_MODE_TM
  end.

(** The part of the ASN.1 messages of RRC that the code reads. *)
Inductive RLC_Config_t :=
| RLC_Config_PR_NOTHING
| RLC_Config_PR_am (am : RLC_Config_am)
| RLC_Config_PR_um_Bi_Directional (ul : Z) (dl : DL_UM_RLC_t)
| RLC_Config_PR_um_Uni_Directional_UL (ul : Z)
| RLC_Config_PR_um_Uni_Directional_DL (dl : DL_UM_RLC_t)
| RLC_Config_PR_other.
Inductive SRB_rlc_Config_t :=
| SRB_rlc_Config_PR_NOTHING
| SRB_rlc_Config_PR_explicitValue (v : RLC_Config_t)
| SRB_rlc_Config_PR_defaultValue
| SRB_rlc_Config_PR_other.
Record SRB_ToAddMod_t := Mk_srb { srb_Identity : Z; srb_rlc_Config : option SRB_rlc_Config_t }.
Record DRB_ToAddMod_t := Mk_drb {
  drb_Identity : Z;
  logicalChannelIdentity : option Z;
  drb_rlc_Config : option RLC_Config_t
}.
(** The session and the service of [MBMS_SessionInfo_r9_t]: the first octet of the session
    identifier, the third one of the service identifier. *)
Record MBMS_SessionInfo_t := Mk_mbms { sessionId_r9 : Z; serviceId_r9 : Z }.

(** [T_Reordering_ms35], [T_StatusProhibit_ms0], [T_PollRetransmit_ms45], [PollPDU_pInfinity],
    [PollByte_kBinfinity], [maxRetxThreshold_t4]. *)
Definition default_config_am : RLC_Config_am := Mk_config_am 3 7 14 8 7 0.
(** [SN_FieldLength_size5], [T_Reordering_ms0]. *)
Definition mbms_dl_um_rlc : DL_UM_RLC_t := Mk_dl_um 0 0.

(** ** Operations of RRC *)
Section store.
Context {T : Type} `{!Table T}.
Context (NUMBER_OF_UE_MAX : Z).
Implicit Types (st : rlc_store T) (c : rlc_ctxt_t).

Definition store_get (key : Z) st : res (Z * Z) := tab_get (rlc_coll st) key.
Definition union_at (p : Z) st : res rlc_union_t := deref (heap st !! p).
Definition union_set (p : Z) (u : rlc_union_t) st : rlc_store T := st <| heap := <[p := u]> (heap st) |>.

(** [rb_free_rlc_union] on each of the data that the table frees. *)
Fixpoint free_unions (ps : list Z) (h : gmap Z rlc_union_t) : res (gmap Z rlc_union_t) :=
  match ps with
  | [] => Ok h
  | p :: ps =>
      u ← deref (h !! p);
      free_unions ps (<[p := rb_free_rlc_union u]> h)
  end.
Definition store_insert (ok : bool) (key p : Z) st : res (Z * rlc_store T) :=
  '(rc, t, freed) ← tab_insert ok (rlc_coll st) key p;
  h ← free_unions freed (heap st);
  Ok (rc, st <| rlc_coll := t |> <| heap := h |>).
Definition store_remove (key : Z) st : res (Z * rlc_store T) :=
  '(rc, t, freed) ← tab_remove (rlc_coll st) key;
  h ← free_unions freed (heap st);
  Ok (rc, st <| rlc_coll := t |> <| heap := h |>).

Definition store_calloc (ok : bool) st : Z * rlc_store T :=
  if ok then (heap_next st, st <| heap := <[heap_next st := Union_none]> (heap st) |>
                               <| heap_next := heap_next st + 1 |>)
  else (0, st).
Definition store_free (p : Z) st : rlc_store T := st <| heap := delete p (heap st) |>.

Definition mbms_lcid c (rb_idP : Z) st : res Z :=
  get2 (if enb_flag (ctxt c) then rlc_mbms_rbid2lcid_eNB st else rlc_mbms_rbid2lcid_ue st) (module_id c) rb_idP.
Definition mbms_id c (lcid : Z) st : res rlc_mbms_id_t :=
  get2 (if enb_flag (ctxt c) then rlc_mbms_lcid2service_session_id_eNB st
        else rlc_mbms_lcid2service_session_id_ue st) (module_id c) lcid.
Definition mbms_key c (id : rlc_mbms_id_t) : Z :=
  RLC_COLL_KEY_MBMS_VALUE (module_id c) (rnti c) (enb_flag (ctxt c)) id.1 id.2.

(** The pointer returned, 0 for NULL. *)
Definition rrc_rlc_add_rlc (mem : add_mem) c (srb_flagP MBMS_flagP : bool) (rb_idP chan_idP : Z)
    (rlc_modeP : rlc_mode_t) st : res (Z * rlc_store T) :=
  '(key, key_lcid) ←
    (if MBMS_flagP then
       lcid ← mbms_lcid c rb_idP st;
       id ← mbms_id c lcid st;
       Ok (mbms_key c id, HASHTABLE_NOT_A_KEY_VALUE)
     else
       _ ← assert_that (rb_idP <? NB_RB_MAX);
       _ ← assert_that (chan_idP <? RLC_MAX_LC NUMBER_OF_UE_MAX);
       Ok (rb_key c rb_idP srb_flagP, lcid_key c chan_idP srb_flagP));
  '(h_rc, p) ← store_get key st;
  if h_rc =? HASH_TABLE_OK then
    u ← union_at p st;
    _ ← assert_that (bool_decide (mode u = rlc_modeP));
    Ok (p, st)
  else if h_rc =? HASH_TABLE_KEY_NOT_EXISTS then
    let '(p, st) := store_calloc (calloc_ok mem) st in
    '(h_rc, st) ← store_insert (node_ok mem) key p st;
    '(h_lcid_rc, st) ← store_insert (node_lcid_ok mem) key_lcid p st;
    if (h_rc =? HASH_TABLE_OK) && (h_lcid_rc =? HASH_TABLE_OK) then
      _ ← union_at p st;
      Ok (p, union_set p (union_calloc rlc_modeP) st)
    else Ok (0, store_free p st)
  else Ok (0, st).

(** The key of an MBMS bearer to remove: the identifiers are cleared before they are read. *)
Definition mbms_remove_key c (rb_idP : Z) st : res (Z * Z * rlc_store T) :=
  lcid ← mbms_lcid c rb_idP st;
  eNB_ids ← set2 (rlc_mbms_lcid2service_session_id_eNB st) (module_id c) lcid (0, 0);
  let st := st <| rlc_mbms_lcid2service_session_id_eNB := eNB_ids |> in
  rbid2lcid ← set2 (rlc_mbms_rbid2lcid_ue st) (module_id c) rb_idP RLC_LC_UNALLOCATED;
  let st := st <| rlc_mbms_rbid2lcid_ue := rbid2lcid |> in
  id ← mbms_id c lcid st;
  Ok (lcid, mbms_key c id, st).

Definition rrc_rlc_remove_rlc c (srb_flagP MBMS_flagP : bool) (rb_idP : Z) st : res (Z * rlc_store T) :=
  '(lcid, key, st) ← (if MBMS_flagP then mbms_remove_key c rb_idP st else Ok (0, rb_key c rb_idP srb_flagP, st));
  _ ← assert_that (rb_idP <? NB_RB_MAX);
  '(h_rc, p) ← store_get key st;
  '(key_lcid, h_lcid_rc) ←
    (if h_rc =? HASH_TABLE_OK then
       u ← union_at p st;
       let key_lcid := lcid_key c (union_channel lcid u) srb_flagP in
       '(h_lcid_rc, _) ← store_get key_lcid st;
       Ok (key_lcid, h_lcid_rc)
     else Ok (HASHTABLE_NOT_A_KEY_VALUE, HASH_TABLE_KEY_NOT_EXISTS));
  if (h_rc =? HASH_TABLE_OK) && (h_lcid_rc =? HASH_TABLE_OK) then
    '(_, st) ← store_remove key_lcid st;
    '(_, st) ← store_remove key st;
    Ok (RLC_OP_STATUS_OK, st)
  else Ok (RLC_OP_STATUS_OK, st).

(** Bearers [rb_id], [rb_id + 1], ... in turn. *)
Fixpoint remove_rlcs c (srb_flagP : bool) (rb_ids : list Z) st : res (rlc_store T) :=
  match rb_ids with
  | [] => Ok st
  | rb_id :: rb_ids =>
      '(_, st) ← rrc_rlc_remove_rlc c srb_flagP false rb_id st;
      remove_rlcs c srb_flagP rb_ids st
  end.
Definition rrc_rlc_remove_ue c st : res (Z * rlc_store T) :=
  st ← remove_rlcs c true [1; 2] st;
  st ← remove_rlcs c false (map Z.of_nat (seq 1 (Z.to_nat maxDRB))) st;
  Ok (RLC_OP_STATUS_OK, st).
End store.

(** ** Configuration *)
Section config.
Context {T : Type} `{!Table T}.
Context (NUMBER_OF_UE_MAX : Z).
Implicit Types (st : rlc_store T) (c : rlc_ctxt_t).

Definition as_am (u : rlc_union_t) : option rlc_am_entity_t := match u with Union_am r => Some r | _ => None end.
Definition as_um (u : rlc_union_t) : option rlc_um_entity_t := match u with Union_um r => Some r | _ => None end.
Definition as_tm (u : rlc_union_t) : option rlc_tm_entity_t := match u with Union_tm r => Some r | _ => None end.

(** A configuration request on the entity found under a key.  [f] is the request on the
    entities of its mode (RlcAm, RlcUm, RlcTm), here the one found or none; with another mode the
    memory would be taken for what it is not. *)
Definition config_request {E} (as_entity : rlc_union_t -> option E) (to_union : E -> rlc_union_t)
    (f : gmap Z E -> res (gmap Z E)) (key : Z) st : res (rlc_store T) :=
  '(h_rc, p) ← store_get key st;
  if h_rc =? HASH_TABLE_OK then
    u ← union_at p st;
    r ← deref (as_entity u);
    coll ← f {[key := r]};
    r ← deref (coll !! key);
    Ok (union_set p (to_union r) st)
  else
    _ ← f ∅;
    Ok st.

Definition config_req_rlc_am (cm : rlc_config_mem) c (srb_flagP : bool) (info : rlc_am_info_t) (rb_idP chan_idP : Z) st : res (rlc_store T) :=
  let key := rb_key c rb_idP srb_flagP in
  config_request as_am Union_am
    (fun coll => Ok (RlcAm.config_req_rlc_am (cm_am cm) key srb_flagP info rb_idP chan_idP coll)) key st.
Definition config_req_rlc_um (cm : rlc_config_mem) c (srb_flagP : bool) (info : rlc_um_info_t) (rb_idP chan_idP : Z) st : res (rlc_store T) :=
  let key := rb_key c rb_idP srb_flagP in
  config_request as_um Union_um
    (RlcUm.config_req_rlc_um (cm_dar cm) key srb_flagP info rb_idP chan_idP) key st.
Definition config_req_rlc_tm (cm : rlc_config_mem) c (srb_flagP is_uplink_downlink : bool) (rb_idP chan_idP : Z) st : res (rlc_store T) :=
  let key := rb_key c rb_idP srb_flagP in
  config_request as_tm Union_tm
    (RlcTm.config_req_rlc_tm (cm_tm cm) key srb_flagP is_uplink_downlink rb_idP chan_idP) key st.
Definition config_req_rlc_am_asn1 (cm : rlc_config_mem) c (srb_flagP : bool) (a : RLC_Config_am) (rb_idP chan_idP : Z) st : res (rlc_store T) :=
  let key := rb_key c rb_idP srb_flagP in
  config_request as_am Union_am (RlcAm.config_req_rlc_am_asn1 (cm_am cm) key srb_flagP a rb_idP chan_idP) key st.
(** [mbms]: the identifiers of an MBMS bearer. *)
Definition config_req_rlc_um_asn1 (cm : rlc_config_mem) c (srb_flagP : bool) (mbms : option rlc_mbms_id_t) (ul : option Z)
    (dl : option DL_UM_RLC_t) (rb_idP chan_idP : Z) st : res (rlc_store T) :=
  let key := (match mbms with Some id => mbms_key c id | None => rb_key c rb_idP srb_flagP end) in
  config_request as_um Union_um
    (RlcUm.config_req_rlc_um_asn1 (cm_dar cm) (ctxt c) key srb_flagP (bool_decide (is_Some mbms)) ul dl rb_idP chan_idP) key st.

Definition modify_rb (cm : rlc_config_mem) c (srb_flagP : bool) (rb_idP : Z) (info : rlc_info_t) st : res (Z * rlc_store T) :=
  match info with
  | Info_am i => st ← config_req_rlc_am cm c srb_flagP i rb_idP rb_idP st; Ok (RLC_OP_STATUS_OK, st)
  | Info_um i => st ← config_req_rlc_um cm c srb_flagP i rb_idP rb_idP st; Ok (RLC_OP_STATUS_OK, st)
  | Info_tm b => st ← config_req_rlc_tm cm c srb_flagP b rb_idP rb_idP st; Ok (RLC_OP_STATUS_OK, st)
  | Info_none => Ok (RLC_OP_STATUS_BAD_PARAMETER, st)
  end.
Definition rrc_rlc_config_req (mem : add_mem) (cm : rlc_config_mem) c (srb_flagP mbms_flagP : bool) (actionP : config_action_t)
    (rb_idP : Z) (rlc_infoP : rlc_info_t) st : res (Z * rlc_store T) :=
  _ ← assert_that (rb_idP <? NB_RB_MAX);
  match actionP with
  | CONFIG_ACTION_ADD =>
      '(p, st) ← rrc_rlc_add_rlc NUMBER_OF_UE_MAX mem c srb_flagP false rb_idP rb_idP (info_mode rlc_infoP) st;
      if negb (p =? 0) then Ok (RLC_OP_STATUS_INTERNAL_ERROR, st)
      else modify_rb cm c srb_flagP rb_idP rlc_infoP st
  | CONFIG_ACTION_MODIFY => modify_rb cm c srb_flagP rb_idP rlc_infoP st
  | CONFIG_ACTION_REMOVE => rrc_rlc_remove_rlc c srb_flagP mbms_flagP rb_idP st
  | CONFIG_ACTION_OTHER => Ok (RLC_OP_STATUS_BAD_PARAMETER, st)
  end.

(** ** The request with the messages of RRC *)

(** An AM bearer, then a UM one, is added and, if that succeeded, configured. *)
Definition add_am (mem : add_mem) (cm : rlc_config_mem) c (srb : bool) (a : RLC_Config_am) (rb_id lc_id : Z) st : res (rlc_store T) :=
  '(p, st) ← rrc_rlc_add_rlc NUMBER_OF_UE_MAX mem c srb false rb_id lc_id RLC_MODE_AM st;
  if negb (p =? 0) then config_req_rlc_am_asn1 cm c srb a rb_id lc_id st else Ok st.
Definition add_um (mem : add_mem) (cm : rlc_config_mem) c (srb : bool) (ul : option Z) (dl : option DL_UM_RLC_t) (rb_id lc_id : Z) st
  : res (rlc_store T) :=
  '(p, st) ← rrc_rlc_add_rlc NUMBER_OF_UE_MAX mem c srb false rb_id lc_id RLC_MODE_UM st;
  if negb (p =? 0) then config_req_rlc_um_asn1 cm c srb None ul dl rb_id lc_id st else Ok st.
Definition add_config (mem : add_mem) (cm : rlc_config_mem) c (srb : bool) (v : RLC_Config_t) (rb_id lc_id : Z) st : res (rlc_store T) :=
  match v with
  | RLC_Config_PR_am a => add_am mem cm c srb a rb_id lc_id st
  | RLC_Config_PR_um_Bi_Directional ul dl => add_um mem cm c srb (Some ul) (Some dl) rb_id lc_id st
  | RLC_Config_PR_um_Uni_Directional_UL ul => add_um mem cm c srb (Some ul) None rb_id lc_id st
  | RLC_Config_PR_um_Uni_Directional_DL dl => add_um mem cm c srb None (Some dl) rb_id lc_id st
  | RLC_Config_PR_NOTHING | RLC_Config_PR_other => Ok st
  end.

Definition add_srb (mem : add_mem) (cm : rlc_config_mem) c (s : SRB_ToAddMod_t) st : res (rlc_store T) :=
  let rb_id := u16 (srb_Identity s) in
  let lc_id := rb_id in
  match srb_rlc_Config s with
  | Some (SRB_rlc_Config_PR_explicitValue v) => add_config mem cm c true v rb_id lc_id st
  | Some SRB_rlc_Config_PR_defaultValue => add_am mem cm c true default_config_am rb_id lc_id st
  | Some SRB_rlc_Config_PR_NOTHING | Some SRB_rlc_Config_PR_other | None => Ok st
  end.
Definition add_drb (mem : add_mem) (cm : rlc_config_mem) c (d : DRB_ToAddMod_t) st : res (rlc_store T) :=
  match logicalChannelIdentity d with
  | None => Ok st
  | Some lc =>
      let lc_id := u32 lc in
      if (lc_id =? 1) || (lc_id =? 2) then Ok st
      else
        match drb_rlc_Config d with
        | Some v => add_config mem cm c false v (u16 (drb_Identity d)) lc_id st
        | None => Ok st
        end
  end.

(** One MBMS session.  The existing bearer is searched with the module identifier as RNTI. *)
Definition add_mbms (mem : add_mem) (cm : rlc_config_mem) c (s : MBMS_SessionInfo_t) st : res (rlc_store T) :=
  let id := (serviceId_r9 s, sessionId_r9 s) in
  let lc_id := sessionId_r9 s in
  let rb_id := u16 (serviceId_r9 s * maxSessionPerPMCH + sessionId_r9 s) in
  st ← (if enb_flag (ctxt c) then
          ids ← set2 (rlc_mbms_lcid2service_session_id_eNB st) (module_id c) lc_id id;
          lcids ← set2 (rlc_mbms_rbid2lcid_eNB st) (module_id c) rb_id lc_id;
          Ok (st <| rlc_mbms_lcid2service_session_id_eNB := ids |> <| rlc_mbms_rbid2lcid_eNB := lcids |>)
        else
          ids ← set2 (rlc_mbms_lcid2service_session_id_ue st) (module_id c) lc_id id;
          _ ← assert_that (rb_id <? NB_RB_MAX);
          lcids ← set2 (rlc_mbms_rbid2lcid_ue st) (module_id c) rb_id lc_id;
          Ok (st <| rlc_mbms_lcid2service_session_id_ue := ids |> <| rlc_mbms_rbid2lcid_ue := lcids |>));
  let key := RLC_COLL_KEY_MBMS_VALUE (module_id c) (module_id c) (enb_flag (ctxt c)) id.1 id.2 in
  '(h_rc, _) ← store_get key st;
  st ← (if h_rc =? HASH_TABLE_KEY_NOT_EXISTS then
          '(p, st) ← rrc_rlc_add_rlc NUMBER_OF_UE_MAX mem c false true rb_id lc_id RLC_MODE_UM st;
          _ ← assert_that (negb (p =? 0));
          Ok st
        else Ok st);
  config_req_rlc_um_asn1 cm c false (Some id) None (Some mbms_dl_um_rlc) rb_id lc_id st.

(** Each element of a list in turn. *)
Fixpoint for_each {A} (f : A -> rlc_store T -> res (rlc_store T)) (l : list A) st : res (rlc_store T) :=
  match l with
  | [] => Ok st
  | x :: l =>
      st ← f x st;
      for_each f l st
  end.
(** The lists are empty when the pointers are NULL. *)
Definition rrc_rlc_config_asn1_req (mem : add_mem) (cm : rlc_config_mem) c (srb2add_listP : list SRB_ToAddMod_t)
    (drb2add_listP : list DRB_ToAddMod_t) (drb2release_listP : list Z)
    (pmch_InfoList_r9_pP : list (list MBMS_SessionInfo_t)) st : res (Z * rlc_store T) :=
  st ← for_each (add_srb mem cm c) srb2add_listP st;
  st ← for_each (add_drb mem cm c) drb2add_listP st;
  st ← for_each (fun drb_id st =>
         '(_, st) ← rrc_rlc_remove_rlc c false false (u16 drb_id) st; Ok st) drb2release_listP st;
  st ← for_each (for_each (add_mbms mem cm c)) pmch_InfoList_r9_pP st;
  Ok (RLC_OP_STATUS_OK, st).
End config.

(** ** Initialisation and cleanup of the module (rlc.c) *)
Definition rlc_module_init {T} `{!Table T} (NUMBER_OF_UE_MAX NUMBER_OF_eNB_MAX : Z) : rlc_store T :=
  let table {A} (rows cells : Z) (v : A) := replicate (Z.to_nat rows) (replicate (Z.to_nat cells) v) in
  Mk_store tab_new ∅ 1
    (table NUMBER_OF_UE_MAX RLC_MAX_MBMS_LC (0, 0)) (table NUMBER_OF_eNB_MAX RLC_MAX_MBMS_LC (0, 0))
    (table NUMBER_OF_UE_MAX NB_RB_MBMS_MAX RLC_LC_UNALLOCATED)
    (table NUMBER_OF_eNB_MAX NB_RB_MBMS_MAX RLC_LC_UNALLOCATED).
(** The heap after [hashtable_destroy]. *)
Definition rlc_module_cleanup {T} `{!Table T} (st : rlc_store T) : res (gmap Z rlc_union_t) :=
  free_unions (tab_data (rlc_coll st)) (heap st).
