(* ===== verification/RlcDispatch.v ===== *)
(** * Dispatch (rlc.c, rlc_mac.c)

    Requests of PDCP and RRC find the entity by radio bearer, those of MAC by logical channel;
    both then call the function of the entity's mode. *)

From S2P Require Import Prelude HashTable RlcAmTypes.
From S2P Require Import RlcAmEntity RlcAmRxPdu RlcAmRxList RlcAmStatusTx RlcAmReceiver RlcAm RlcUmTypes RlcUm RlcTm RlcStore.

(** ** Transport blocks and MAC's buffer *)

(** The number of bytes written and the buffer after. *)
Fixpoint serialize_loop (buffer : list Z) (tbs_size : Z) (tbs : list mac_tb) : res (Z * list Z) :=
  match tbs with
  | [] => Ok (tbs_size, buffer)
  | tb :: tbs =>
      data ← mem_read (data_ptr tb) 0 (tb_size tb);
      buffer ← mem_write buffer tbs_size data;
      serialize_loop buffer (i32 (tbs_size + tb_size tb)) tbs
  end.
Definition mac_rlc_serialize_tb (buffer : list Z) (tbs : list mac_tb) : res (Z * list Z) :=
  serialize_loop buffer 0 tbs.

(** A block handed to an entity; [struct mac_data_ind] with the size in bits. *)
Record mac_rx_tb := Mk_rx_tb { rx_data : list Z; rx_size : Z; rx_error : Z }.
Record mac_data_ind := Mk_data_ind { mdi_data : list mac_rx_tb; mdi_no_tb : Z; mdi_tb_size : Z }.

(** [tb_ok]: whether [get_free_mem_block] succeeds, by call. *)
Fixpoint deserialize_loop (tb_ok : nat -> bool) (i : nat) (buffer : list Z) (tb_sizeP : Z) (num_tbP : nat)
    (crcs : option (list Z)) (nb_tb_read tbs_size : Z) : res (list mac_rx_tb * Z) :=
  match num_tbP with
  | O => Ok ([], nb_tb_read)
  | S num_tbP =>
      if tb_ok i then
        crc ← (match crcs with Some l => array_get l nb_tb_read | None => Ok 0 end);
        data ← mem_read buffer tbs_size tb_sizeP;
        '(tbs, n) ← deserialize_loop tb_ok (S i) buffer tb_sizeP num_tbP crcs (u32 (nb_tb_read + 1)) (i32 (tbs_size + tb_sizeP));
        Ok (Mk_rx_tb data (u16 tb_sizeP) (u8 crc) :: tbs, n)
      else deserialize_loop tb_ok (S i) buffer tb_sizeP num_tbP crcs nb_tb_read tbs_size
  end.
Definition mac_rlc_deserialize_tb (tb_ok : nat -> bool) (buffer : list Z) (tb_sizeP num_tbP : Z)
    (crcs : option (list Z)) : res mac_data_ind :=
  '(tbs, n) ← deserialize_loop tb_ok 0 buffer tb_sizeP (Z.to_nat num_tbP) crcs 0 0;
  Ok (Mk_data_ind tbs (u16 n) (u16 (Z.shiftl tb_sizeP 3))).

(** ** What the memory pools give during a call *)
Record rlc_env := Mk_env {
  env_new_sdu : bool;                (* the block of a new SDU *)
  env_slack : list Z;                (* the bytes of that block after the SDU *)
  env_block : option (list Z);       (* the block of a new AM or UM PDU *)
  env_tm_pool : nat;                 (* how many TM PDUs there are blocks for *)
  env_fresh : nat -> fresh_block;    (* blocks of received AM PDUs, by transport block *)
  env_tm_block : nat -> option (list Z);  (* blocks of received TM SDUs *)
  env_tb_ok : nat -> bool;           (* blocks of transport blocks *)
  env_cast : list Z -> rlc_am_tx_sdu_management_t  (* what an AM SDU's bytes are as a structure *)
}.

(** ** The functions of each mode *)

(** [sdu]: the [sdu_sizeP] bytes copied from the SDU of the caller. *)
Definition union_data_req (e : rlc_env) (c : protocol_ctxt_t) (muiP sdu_sizeP : Z) (sdu : list Z) (u : rlc_union_t)
  : res (Z * rlc_union_t) :=
  match u with
  | Union_none => Ok (RLC_OP_STATUS_BAD_PARAMETER, u)
  | Union_am r =>
      if env_new_sdu e then
        r ← rlc_am_data_req c (Mk_data_req muiP sdu_sizeP sdu) r;
        Ok (RLC_OP_STATUS_OK, Union_am r)
      else Ok (RLC_OP_STATUS_INTERNAL_ERROR, u)
  | Union_um r =>
      if env_new_sdu e then Ok (RLC_OP_STATUS_OK, Union_um (rlc_um_data_req c (Mk_um_data_req sdu_sizeP sdu) r))
      else Ok (RLC_OP_STATUS_INTERNAL_ERROR, u)
  | Union_tm r =>
      if env_new_sdu e then
        r ← rlc_tm_data_req (Mk_tm_sdu (u16 sdu_sizeP) (sdu ++ env_slack e)) r;
        Ok (RLC_OP_STATUS_OK, Union_tm r)
      else Ok (RLC_OP_STATUS_INTERNAL_ERROR, u)
  end.

(** The blocks for MAC. *)
Definition union_mac_data_request (e : rlc_env) (c : protocol_ctxt_t) (tb_sizeP : Z) (u : rlc_union_t)
  : res (list mac_tb * rlc_union_t) :=
  match u with
  | Union_none => Ok ([], u)
  | Union_am r =>
      let r := (if enb_flag c then r else RlcAm.rlc_am_set_nb_bytes_requested_by_mac tb_sizeP r) in
      '(req, r) ← rlc_am_mac_data_request c (enb_flag c) (env_block e) r;
      Ok (mdr_data req, Union_am r)
  | Union_um r =>
      let r := (if enb_flag c then r else RlcUm.rlc_um_set_nb_bytes_requested_by_mac tb_sizeP r) in
      '(req, r) ← rlc_um_mac_data_request (enb_flag c) (env_block e) r;
      Ok (mdr_data req, Union_um r)
  | Union_tm r =>
      '(req, r) ← rlc_tm_mac_data_request (env_tm_pool e) r;
      Ok (mdr_data req, Union_tm r)
  end.

Definition union_mac_data_indication (e : rlc_env) (c : protocol_ctxt_t) (ind : mac_data_ind) (u : rlc_union_t)
  : res rlc_union_t :=
  match u with
  | Union_none => Ok u
  | Union_am r =>
      r ← rlc_am_mac_data_indication c
            (imap (fun i tb => Mk_tb_ind (rx_data tb) (rx_size tb) (env_fresh e i)) (mdi_data ind)) r;
      Ok (Union_am r)
  | Union_um r =>
      r ← rlc_um_mac_data_indication c (map (fun tb => Mk_mac_tb (rx_data tb) (rx_size tb)) (mdi_data ind)) r;
      Ok (Union_um r)
  | Union_tm r =>
      r ← rlc_tm_mac_data_indication (imap (fun i tb => Mk_tm_tb (rx_data tb) (env_tm_block e i)) (mdi_data ind))
            (mdi_tb_size ind) r;
      Ok (Union_tm r)
  end.

(** [mac_rlc_status_resp_t]: all zero, and what the mode sets. *)
Record mac_rlc_status_resp_t := Mk_mac_rlc_status {
  bytes_in_buffer : Z;
  pdus_in_buffer : Z;
  status_head_sdu_creation_time : Z;
  status_head_sdu_remaining_size_to_send : Z;
  status_head_sdu_is_segmented : bool
}.
Definition status_zero : mac_rlc_status_resp_t := Mk_mac_rlc_status 0 0 0 0 false.
Definition union_mac_status_indication (e : rlc_env) (c : protocol_ctxt_t) (tb_sizeP : Z) (u : rlc_union_t)
  : res (mac_rlc_status_resp_t * rlc_union_t) :=
  match u with
  | Union_none => Ok (status_zero, u)
  | Union_am r =>
      '(s, r) ← rlc_am_mac_status_indication (env_cast e) c tb_sizeP (enb_flag c) r;
      Ok (Mk_mac_rlc_status (i32 (buffer_occupancy_in_bytes s)) 0 (head_sdu_creation_time s)
            (i32 (head_sdu_remaining_size_to_send s)) (head_sdu_is_segmented s), Union_am r)
  | Union_um r =>
      '(s, r) ← rlc_um_mac_status_indication c tb_sizeP (enb_flag c) r;
      Ok (Mk_mac_rlc_status (i32 (buffer_occupancy_in_bytes s)) (buffer_occupancy_in_pdus s) (head_sdu_creation_time s)
            (i32 (head_sdu_remaining_size_to_send s)) (head_sdu_is_segmented s), Union_um r)
  | Union_tm r =>
      '(s, r) ← rlc_tm_mac_status_indication tb_sizeP r;
      Ok (Mk_mac_rlc_status (i32 (buffer_occupancy_in_bytes s)) (buffer_occupancy_in_pdus s) 0 0 false, Union_tm r)
  end.

Definition union_buffer_occupancy (u : rlc_union_t) : res (Z * rlc_union_t) :=
  match u with
  | Union_am r =>
      '(bo, r) ← rlc_am_get_buffer_occupancy_in_bytes r;
      Ok (i32 bo, Union_am r)
  | Union_um r => Ok (i32 (rlc_um_get_buffer_occupancy r), u)
  | Union_none | Union_tm _ => Ok (0, u)
  end.

(** ** The interface *)

(** The context that the functions called by MAC build from their arguments; its subframe is 0,
    except in [mac_rlc_status_ind], which is given one. *)
Definition mac_ctxt (c : protocol_ctxt_t) : protocol_ctxt_t := Mk_ctxt (frame c) 0 (enb_flag c).

Section dispatch.
Context {T : Type} `{!Table T}.
Implicit Types (st : rlc_store T) (c : rlc_ctxt_t).

(** The bearer with MBMS: the table of the side the context is on.  On the UE side
    [rlc_data_req] takes the RNTI for the module. *)
Definition data_req_key c (srb_flagP MBMS_flagP : bool) (rb_idP : Z) st : res Z :=
  if MBMS_flagP then
    if enb_flag (ctxt c) then
      lcid ← get2 (rlc_mbms_rbid2lcid_eNB st) (module_id c) rb_idP;
      id ← get2 (rlc_mbms_lcid2service_session_id_eNB st) (module_id c) lcid;
      Ok (mbms_key c id)
    else
      lcid ← get2 (rlc_mbms_rbid2lcid_ue st) (rnti c) rb_idP;
      id ← get2 (rlc_mbms_lcid2service_session_id_ue st) (rnti c) lcid;
      Ok (mbms_key c id)
  else Ok (rb_key c rb_idP srb_flagP).

Definition rlc_data_req (e : rlc_env) c (srb_flagP MBMS_flagP : bool) (rb_idP muiP sdu_sizeP : Z) (sdu : list Z) st
  : res (Z * rlc_store T) :=
  _ ← assert_that (rb_idP <? if MBMS_flagP then NB_RB_MBMS_MAX else NB_RB_MAX);
  _ ← assert_that (sdu_sizeP >? 0);
  key ← data_req_key c srb_flagP MBMS_flagP rb_idP st;
  '(h_rc, p) ← store_get key st;
  if h_rc =? HASH_TABLE_OK then
    u ← union_at p st;
    data ← mem_read sdu 0 sdu_sizeP;
    if MBMS_flagP then
      if env_new_sdu e then
        r ← deref (as_um u);
        Ok (RLC_OP_STATUS_OK, union_set p (Union_um (rlc_um_data_req (ctxt c) (Mk_um_data_req sdu_sizeP data) r)) st)
      else Ok (RLC_OP_STATUS_BAD_PARAMETER, st)
    else
      '(rc, u) ← union_data_req e (ctxt c) muiP sdu_sizeP data u;
      Ok (rc, union_set p u st)
  else Err FatalAssert.

(** [sdu_ok]: the copy of the SDU could be allocated. *)
Definition rrc_rlc_data_req (sdu_ok : bool) (e : rlc_env) c (MBMS_flagP : bool) (rb_idP muiP sdu_sizeP : Z) (sdu : list Z) st
  : res (Z * rlc_store T) :=
  if sdu_ok then
    data ← mem_read sdu 0 sdu_sizeP;
    rlc_data_req e c true MBMS_flagP rb_idP muiP sdu_sizeP data st
  else Ok (RLC_OP_STATUS_INTERNAL_ERROR, st).

(** [channel_idP <= 2]. *)
Definition lcid_srb_flag (channel_idP : Z) : bool := channel_idP <=? 2.

(** The number of bytes written to MAC's buffer, and the buffer. *)
Definition mac_rlc_data_req (e : rlc_env) c (MBMS_flagP : bool) (channel_idP tb_sizeP : Z) (buffer : list Z) st
  : res (Z * list Z * rlc_store T) :=
  _ ← assert_that (channel_idP <? if MBMS_flagP then RLC_MAX_MBMS_LC else NB_RB_MAX);
  if MBMS_flagP && negb (enb_flag (ctxt c)) then Ok (0, buffer, st)
  else
    key ← (if MBMS_flagP then
             id ← get2 (rlc_mbms_lcid2service_session_id_eNB st) (module_id c) channel_idP;
             Ok (mbms_key c id)
           else Ok (lcid_key c channel_idP (lcid_srb_flag channel_idP)));
    '(h_rc, p) ← store_get key st;
    if h_rc =? HASH_TABLE_OK then
      u ← union_at p st;
      '(tbs, u) ← union_mac_data_request e (mac_ctxt (ctxt c)) tb_sizeP u;
      '(n, buffer) ← mac_rlc_serialize_tb buffer tbs;
      Ok (n, buffer, union_set p u st)
    else Err FatalAssert.

Definition mac_rlc_data_ind (e : rlc_env) c (MBMS_flagP : bool) (channel_idP : Z) (buffer : list Z)
    (tb_sizeP num_tbP : Z) (crcs : option (list Z)) st : res (rlc_store T) :=
  if MBMS_flagP && enb_flag (ctxt c) then Ok st
  else
    key ← (if MBMS_flagP then
             id ← get2 (rlc_mbms_lcid2service_session_id_ue st) (module_id c) channel_idP;
             Ok (mbms_key c id)
           else Ok (lcid_key c channel_idP (lcid_srb_flag channel_idP)));
    '(h_rc, p) ← store_get key st;
    if h_rc =? HASH_TABLE_OK then
      u ← union_at p st;
      ind ← mac_rlc_deserialize_tb (env_tb_ok e) buffer tb_sizeP num_tbP crcs;
      u ← union_mac_data_indication e (mac_ctxt (ctxt c)) ind u;
      Ok (union_set p u st)
    else
      _ ← mac_rlc_deserialize_tb (env_tb_ok e) buffer tb_sizeP num_tbP crcs;
      Ok st.

Definition mac_rlc_status_ind (e : rlc_env) c (MBMS_flagP : bool) (channel_idP tb_sizeP : Z) st
  : res (mac_rlc_status_resp_t * rlc_store T) :=
  key ← (if MBMS_flagP then
           id ← mbms_id c channel_idP st;
           Ok (mbms_key c id)
         else Ok (lcid_key c channel_idP (lcid_srb_flag channel_idP)));
  '(h_rc, p) ← store_get key st;
  if h_rc =? HASH_TABLE_OK then
    u ← union_at p st;
    '(resp, u) ← union_mac_status_indication e (ctxt c) tb_sizeP u;
    Ok (resp, union_set p u st)
  else Ok (status_zero, st).

Definition mac_rlc_get_buffer_occupancy_ind c (channel_idP : Z) st : res (Z * rlc_store T) :=
  _ ← assert_that (negb (enb_flag (ctxt c)));
  '(h_rc, p) ← store_get (lcid_key c channel_idP (lcid_srb_flag channel_idP)) st;
  if h_rc =? HASH_TABLE_OK then
    u ← union_at p st;
    '(bo, u) ← union_buffer_occupancy u;
    Ok (bo, union_set p u st)
  else Ok (0, st).

(** The status, the mode and the counters.  For UM the counters are asked with the context as the
    first argument, which [rlc_um_stat_req] takes for the entity. *)
Definition rlc_stat_req c (srb_flagP : bool) (rb_idP : Z) st : res (Z * rlc_mode_t * rlc_am_stats) :=
  _ ← assert_that (rb_idP <? NB_RB_MAX);
  '(h_rc, p) ← store_get (rb_key c rb_idP srb_flagP) st;
  u ← (if h_rc =? HASH_TABLE_OK then union_at p st else Ok Union_none);
  match u with
  | Union_none => Ok (RLC_OP_STATUS_BAD_PARAMETER, RLC_MODE_NONE, RlcAmEntity.stats_zero)
  | Union_am r => Ok (RLC_OP_STATUS_OK, RLC_MODE_AM, rlc_am_stat_req r)
  | Union_um _ => Err UndefinedBehaviour
  | Union_tm _ => Ok (RLC_OP_STATUS_BAD_PARAMETER, RLC_MODE_TM, RlcAmEntity.stats_zero)
  end.
End dispatch.
