(* ===== verification/RlcStoreSpec.v ===== *)
(** * The table of entities, abstractly

    Seen from outside, the table is two finite maps: the entities by radio bearer, and the
    radio bearers by logical channel.  Every operation of the sublayer acts on the entity of the
    bearer or channel addressed, and on no other. *)

From S2P Require Import Prelude HashTable RlcAmTypes.
From S2P Require Import RlcAmEntity RlcAmRxPdu RlcAm RlcUmTypes RlcUm RlcTm RlcStore RlcDispatch.

(** ** Keys *)

(** A bearer or a channel: module, RNTI, eNB or UE, radio bearer or logical channel, SRB or DRB. *)
Definition rlc_id : Type := Z * Z * bool * Z * bool.
Definition id_of (c : rlc_ctxt_t) (i : Z) (srb : bool) : rlc_id :=
  (module_id c, rnti c, enb_flag (ctxt c), i, srb).
Definition id_ok (id : rlc_id) : Prop :=
  let '(m, r, _, i, _) := id in 0 <= m < 256 /\ 0 <= r < 65536 /\ 0 <= i < 256.

(** Both keys, with the tag. *)
Definition coll_key (tag : Z) (id : rlc_id) : Z :=
  let '(m, r, e, i, s) := id in
  Z.lor (Z.lor (Z.lor (Z.lor (Z.lor m (Z.shiftl r 8)) (Z.shiftl (b2z e) 24)) (Z.shiftl i 25))
               (Z.shiftl (b2z s) 33)) (Z.shiftl tag 34).

Lemma rb_key_coll c i s : rb_key c i s = coll_key 5 (id_of c i s).
Proof. done. Qed.
Lemma lcid_key_coll c i s : lcid_key c i s = coll_key 10 (id_of c i s).
Proof. done. Qed.

Lemma lor_shift_sum a b n : 0 <= n -> 0 <= a < 2 ^ n -> Z.lor a (Z.shiftl b n) = a + b * 2 ^ n.
Proof. intros Hn Ha. rewrite Z.lor_comm, lor_shiftl_add by done. lia. Qed.

Lemma coll_key_sum tag m r e i s :
  id_ok (m, r, e, i, s) ->
  coll_key tag (m, r, e, i, s) =
    m + r * 256 + b2z e * 16777216 + i * 33554432 + b2z s * 8589934592 + tag * 17179869184.
Proof.
  intros (Hm & Hr & Hi). unfold coll_key.
  assert (He : 0 <= b2z e <= 1) by (destruct e; simpl; lia).
  assert (Hs : 0 <= b2z s <= 1) by (destruct s; simpl; lia).
  rewrite (lor_shift_sum m r 8) by lia. change (2 ^ 8) with 256.
  rewrite (lor_shift_sum _ (b2z e) 24) by lia. change (2 ^ 24) with 16777216.
  rewrite (lor_shift_sum _ i 25) by lia. change (2 ^ 25) with 33554432.
  rewrite (lor_shift_sum _ (b2z s) 33) by lia. change (2 ^ 33) with 8589934592.
  rewrite (lor_shift_sum _ tag 34) by lia. change (2 ^ 34) with 17179869184. done.
Qed.

Lemma coll_key_inj tag tag' id id' :
  id_ok id -> id_ok id' -> coll_key tag id = coll_key tag' id' -> tag = tag' /\ id = id'.
Proof.
  destruct id as [[[[m r] e] i] s], id' as [[[[m' r'] e'] i'] s']. intros H H'.
  rewrite !coll_key_sum by done. destruct H as (? & ? & ?), H' as (? & ? & ?). intros Heq.
  assert (tag = tag' /\ b2z s = b2z s' /\ i = i' /\ b2z e = b2z e' /\ r = r' /\ m = m')
    as (-> & Hs & -> & He & -> & ->).
  { assert (0 <= b2z e <= 1) by (destruct e; simpl; lia). assert (0 <= b2z e' <= 1) by (destruct e'; simpl; lia).
    assert (0 <= b2z s <= 1) by (destruct s; simpl; lia). assert (0 <= b2z s' <= 1) by (destruct s'; simpl; lia).
    generalize dependent (b2z e). generalize dependent (b2z e'). generalize dependent (b2z s).
    generalize dependent (b2z s'). intros. lia. }
  split; [done|]. destruct s, s', e, e'; done.
Qed.

(** ** The abstract state *)
Record rlc_spec := Mk_spec {
  bearers : gmap rlc_id rlc_union_t;
  channels : gmap rlc_id rlc_id
}.
#[export] Instance eta_spec : Eta rlc_spec := fun s => Mk_spec (bearers s) (channels s).
Definition spec_empty : rlc_spec := Mk_spec ∅ ∅.
Definition spec_set (id : rlc_id) (u : rlc_union_t) (sp : rlc_spec) : rlc_spec :=
  sp <| bearers := <[id := u]> (bearers sp) |>.
(** The logical channel an entity was configured with. *)
Definition id_channel (id : rlc_id) (u : rlc_union_t) : rlc_id :=
  let '(m, r, e, _, s) := id in (m, r, e, union_channel 0 u, s).

(** ** Operations *)

(** The configuration requests: with [rlc_info_t], or with the values of the messages of RRC. *)
Inductive rlc_config_request :=
| Config_info (info : rlc_info_t)
| Config_am_asn1 (a : RLC_Config_am)
| Config_um_asn1 (ul : option Z) (dl : option DL_UM_RLC_t).

(** Bearers of UEs: [MBMS_flagP] is false. *)
Inductive rlc_op :=
| Op_add (mem : add_mem) (c : rlc_ctxt_t) (srb : bool) (rb lc : Z) (m : rlc_mode_t)
| Op_config (cm : rlc_config_mem) (c : rlc_ctxt_t) (srb : bool) (rb lc : Z) (req : rlc_config_request)
| Op_remove (c : rlc_ctxt_t) (srb : bool) (rb : Z)
| Op_data_req (e : rlc_env) (c : rlc_ctxt_t) (srb : bool) (rb mui size : Z) (sdu : list Z)
| Op_mac_data_req (e : rlc_env) (c : rlc_ctxt_t) (lc tb_size : Z) (buffer : list Z)
| Op_mac_data_ind (e : rlc_env) (c : rlc_ctxt_t) (lc : Z) (buffer : list Z) (tb_size num_tb : Z) (crcs : option (list Z))
| Op_mac_status_ind (e : rlc_env) (c : rlc_ctxt_t) (lc tb_size : Z).
Inductive rlc_out :=
| Out_none
| Out_added (b : bool)
| Out_rc (rc : Z)
| Out_bytes (n : Z) (buffer : list Z)
| Out_status (s : mac_rlc_status_resp_t).

Definition config_step {T} `{!Table T} (cm : rlc_config_mem) (c : rlc_ctxt_t) (srb : bool) (rb lc : Z)
    (req : rlc_config_request) (st : rlc_store T) : res (rlc_store T) :=
  match req with
  | Config_info (Info_am i) => config_req_rlc_am cm c srb i rb lc st
  | Config_info (Info_um i) => config_req_rlc_um cm c srb i rb lc st
  | Config_info (Info_tm b) => config_req_rlc_tm cm c srb b rb lc st
  | Config_info Info_none => Ok st
  | Config_am_asn1 a => config_req_rlc_am_asn1 cm c srb a rb lc st
  | Config_um_asn1 ul dl => config_req_rlc_um_asn1 cm c srb None ul dl rb lc st
  end.

Definition store_step {T} `{!Table T} (n_ue : Z) (op : rlc_op) (st : rlc_store T) : res (rlc_out * rlc_store T) :=
  match op with
  | Op_add mem c srb rb lc m =>
      '(p, st) ← rrc_rlc_add_rlc n_ue mem c srb false rb lc m st; Ok (Out_added (negb (p =? 0)), st)
  | Op_config cm c srb rb lc req => st ← config_step cm c srb rb lc req st; Ok (Out_none, st)
  | Op_remove c srb rb => '(rc, st) ← rrc_rlc_remove_rlc c srb false rb st; Ok (Out_rc rc, st)
  | Op_data_req e c srb rb mui size sdu =>
      '(rc, st) ← rlc_data_req e c srb false rb mui size sdu st; Ok (Out_rc rc, st)
  | Op_mac_data_req e c lc tb_size buffer =>
      '(n, buffer, st) ← mac_rlc_data_req e c false lc tb_size buffer st; Ok (Out_bytes n buffer, st)
  | Op_mac_data_ind e c lc buffer tb_size num_tb crcs =>
      st ← mac_rlc_data_ind e c false lc buffer tb_size num_tb crcs st; Ok (Out_none, st)
  | Op_mac_status_ind e c lc tb_size =>
      '(s, st) ← mac_rlc_status_ind e c false lc tb_size st; Ok (Out_status s, st)
  end.
Fixpoint store_run {T} `{!Table T} (n_ue : Z) (ops : list rlc_op) (st : rlc_store T) : res (list rlc_out * rlc_store T) :=
  match ops with
  | [] => Ok ([], st)
  | op :: ops =>
      '(o, st) ← store_step n_ue op st;
      '(os, st) ← store_run n_ue ops st;
      Ok (o :: os, st)
  end.

(** What they do to the two maps. *)
Definition spec_config (cm : rlc_config_mem) (c : protocol_ctxt_t) (srb : bool) (rb lc : Z) (req : rlc_config_request)
    (u : rlc_union_t) : res rlc_union_t :=
  match req, u with
  | Config_info Info_none, _ => Ok u
  | Config_info (Info_am i), Union_am r => Ok (Union_am (configure_entity (cm_am cm) srb rb lc i r))
  | Config_info (Info_um i), Union_um r =>
      r ← um_config_entity (cm_dar cm) srb rb lc
            (fun r => Ok (rlc_um_configure (timer_reordering i) (sn_field_length i) (sn_field_length i) (is_mXch i) r)) r;
      Ok (Union_um r)
  | Config_info (Info_tm b), Union_tm r => r ← tm_config_entity (cm_tm cm) srb b rb lc r; Ok (Union_tm r)
  | Config_am_asn1 a, Union_am r =>
      if asn1_legal a then i ← asn1_info a; Ok (Union_am (configure_entity (cm_am cm) srb rb lc i r)) else Ok u
  | Config_um_asn1 ul dl, Union_um r =>
      r ← um_config_entity (cm_dar cm) srb rb lc (um_configure_asn1 c false ul dl) r;
      Ok (Union_um r)
  | _, _ => Err UndefinedBehaviour
  end.
(** Without the bearer: only [config_req_rlc_um_asn1] asserts that it exists. *)
Definition config_needs_bearer (req : rlc_config_request) : bool :=
  match req with Config_um_asn1 _ _ => true | _ => false end.

(** The entity of a channel. *)
Definition channel_entity (ch : rlc_id) (sp : rlc_spec) : option (rlc_id * rlc_union_t) :=
  match channels sp !! ch with
  | Some id => match bearers sp !! id with Some u => Some (id, u) | None => None end
  | None => None
  end.

Definition spec_step (n_ue : Z) (op : rlc_op) (sp : rlc_spec) : res (rlc_out * rlc_spec) :=
  match op with
  | Op_add _ c srb rb lc m =>
      _ ← assert_that (rb <? NB_RB_MAX);
      _ ← assert_that (lc <? RLC_MAX_LC n_ue);
      let id := id_of c rb srb in
      match bearers sp !! id with
      | Some u => _ ← assert_that (bool_decide (mode u = m)); Ok (Out_added true, sp)
      | None => Ok (Out_added true, Mk_spec (<[id := union_calloc m]> (bearers sp)) (<[id_of c lc srb := id]> (channels sp)))
      end
  | Op_config cm c srb rb lc req =>
      match bearers sp !! id_of c rb srb with
      | Some u => u ← spec_config cm (ctxt c) srb rb lc req u; Ok (Out_none, spec_set (id_of c rb srb) u sp)
      | None => if config_needs_bearer req then Err FatalAssert else Ok (Out_none, sp)
      end
  | Op_remove c srb rb =>
      _ ← assert_that (rb <? NB_RB_MAX);
      let id := id_of c rb srb in
      match bearers sp !! id with
      | Some u =>
          match channels sp !! id_channel id u with
          | Some _ => Ok (Out_rc RLC_OP_STATUS_OK, Mk_spec (delete id (bearers sp)) (delete (id_channel id u) (channels sp)))
          | None => Ok (Out_rc RLC_OP_STATUS_OK, sp)
          end
      | None => Ok (Out_rc RLC_OP_STATUS_OK, sp)
      end
  | Op_data_req e c srb rb mui size sdu =>
      _ ← assert_that (rb <? NB_RB_MAX);
      _ ← assert_that (size >? 0);
      match bearers sp !! id_of c rb srb with
      | Some u =>
          data ← mem_read sdu 0 size;
          '(rc, u) ← union_data_req e (ctxt c) mui size data u;
          Ok (Out_rc rc, spec_set (id_of c rb srb) u sp)
      | None => Err FatalAssert
      end
  | Op_mac_data_req e c lc tb_size buffer =>
      _ ← assert_that (lc <? NB_RB_MAX);
      match channel_entity (id_of c lc (lcid_srb_flag lc)) sp with
      | Some (id, u) =>
          '(tbs, u) ← union_mac_data_request e (mac_ctxt (ctxt c)) tb_size u;
          '(n, buffer) ← mac_rlc_serialize_tb buffer tbs;
          Ok (Out_bytes n buffer, spec_set id u sp)
      | None => Err FatalAssert
      end
  | Op_mac_data_ind e c lc buffer tb_size num_tb crcs =>
      ind ← mac_rlc_deserialize_tb (env_tb_ok e) buffer tb_size num_tb crcs;
      match channel_entity (id_of c lc (lcid_srb_flag lc)) sp with
      | Some (id, u) => u ← union_mac_data_indication e (mac_ctxt (ctxt c)) ind u; Ok (Out_none, spec_set id u sp)
      | None => Ok (Out_none, sp)
      end
  | Op_mac_status_ind e c lc tb_size =>
      match channel_entity (id_of c lc (lcid_srb_flag lc)) sp with
      | Some (id, u) =>
          '(s, u) ← union_mac_status_indication e (ctxt c) tb_size u;
          Ok (Out_status s, spec_set id u sp)
      | None => Ok (Out_status status_zero, sp)
      end
  end.
Fixpoint spec_run (n_ue : Z) (ops : list rlc_op) (sp : rlc_spec) : res (list rlc_out * rlc_spec) :=
  match ops with
  | [] => Ok ([], sp)
  | op :: ops =>
      '(o, sp) ← spec_step n_ue op sp;
      '(os, sp) ← spec_run n_ue ops sp;
      Ok (o :: os, sp)
  end.

(** What the table needs of its users: identifiers that fit their fields of the keys, a channel
    of its own for each new bearer, memory; a bearer removed is found under the channel it was
    configured with, or none is. *)
Definition op_legal (op : rlc_op) (sp : rlc_spec) : Prop :=
  match op with
  | Op_add mem c srb rb lc _ =>
      id_ok (id_of c rb srb) /\ id_ok (id_of c lc srb) /\
      (bearers sp !! id_of c rb srb = None ->
       mem = Mk_add_mem true true true /\ channels sp !! id_of c lc srb = None)
  | Op_config _ c srb rb _ _ => id_ok (id_of c rb srb)
  | Op_remove c srb rb =>
      id_ok (id_of c rb srb) /\
      forall u, bearers sp !! id_of c rb srb = Some u ->
        id_ok (id_channel (id_of c rb srb) u) /\
        forall id, channels sp !! id_channel (id_of c rb srb) u = Some id -> id = id_of c rb srb
  | Op_data_req _ c srb rb _ _ _ => id_ok (id_of c rb srb)
  | Op_mac_data_req _ c lc _ _ | Op_mac_data_ind _ c lc _ _ _ _ | Op_mac_status_ind _ c lc _ =>
      id_ok (id_of c lc (lcid_srb_flag lc))
  end.

(** The same, as a test. *)
Definition id_okb (id : rlc_id) : bool :=
  let '(m, r, _, i, _) := id in
  (0 <=? m) && (m <? 256) && (0 <=? r) && (r <? 65536) && (0 <=? i) && (i <? 256).
Definition op_legalb (op : rlc_op) (sp : rlc_spec) : bool :=
  match op with
  | Op_add mem c srb rb lc _ =>
      id_okb (id_of c rb srb) && id_okb (id_of c lc srb) &&
      match bearers sp !! id_of c rb srb with
      | Some _ => true
      | None => calloc_ok mem && node_ok mem && node_lcid_ok mem &&
                match channels sp !! id_of c lc srb with Some _ => false | None => true end
      end
  | Op_config _ c srb rb _ _ => id_okb (id_of c rb srb)
  | Op_remove c srb rb =>
      id_okb (id_of c rb srb) &&
      match bearers sp !! id_of c rb srb with
      | Some u => id_okb (id_channel (id_of c rb srb) u) &&
                  match channels sp !! id_channel (id_of c rb srb) u with
                  | Some id => bool_decide (id = id_of c rb srb)
                  | None => true
                  end
      | None => true
      end
  | Op_data_req _ c srb rb _ _ _ => id_okb (id_of c rb srb)
  | Op_mac_data_req _ c lc _ _ | Op_mac_data_ind _ c lc _ _ _ _ | Op_mac_status_ind _ c lc _ =>
      id_okb (id_of c lc (lcid_srb_flag lc))
  end.
Lemma id_okb_ok id : id_okb id = true -> id_ok id.
Proof. destruct id as [[[[m r] e] i] s]. simpl. rewrite !andb_true_iff, !Z.leb_le, !Z.ltb_lt. tauto. Qed.
Lemma op_legalb_ok op sp : op_legalb op sp = true -> op_legal op sp.
Proof.
  destruct op as [mem c srb rb lc m| |c srb rb| | | |]; unfold op_legal, op_legalb; try apply id_okb_ok.
  - rewrite !andb_true_iff. intros [[H1 H2] H3]. split; [by apply id_okb_ok|]. split; [by apply id_okb_ok|].
    intros Hb. rewrite Hb in H3. destruct mem as [[] [] []]; try done. simpl in H3.
    by destruct (channels sp !! id_of c lc srb).
  - rewrite andb_true_iff. intros [H1 H2]. split; [by apply id_okb_ok|]. intros u Hu. rewrite Hu in H2.
    apply andb_true_iff in H2 as [H2 H3]. split; [by apply id_okb_ok|].
    intros id Hid. rewrite Hid in H3. by apply bool_decide_eq_true in H3.
Qed.

Fixpoint ops_legal (n_ue : Z) (ops : list rlc_op) (sp : rlc_spec) : bool :=
  match ops with
  | [] => true
  | op :: ops =>
      op_legalb op sp && match spec_step n_ue op sp with Ok (_, sp) => ops_legal n_ue ops sp | Err _ => true end
  end.

(** [found_cases Hf] splits on what the search of the store found, and does it. *)
Ltac found_cases Hf :=
  let E := fresh "E" in let Eu := fresh "Eu" in
  inversion Hf as [? E|? ? ? p E Eu Hpos ? Hset]; subst; rewrite E; cbn [mbind res_bind];
  try (rewrite Eu; cbn [mbind res_bind]);
  simpl (_ =? HASH_TABLE_OK); cbn [mbind res_bind].

(** ** The refinement *)
Section refinement.
Context {T : Type} `{!Table T}.
Implicit Types (st : rlc_store T) (sp : rlc_spec) (id ch : rlc_id).

(** [ptrs]: the addresses of the entities in use. *)
Record store_maps (m : gmap Z Z) (ptrs : gmap rlc_id Z) st sp : Prop := Mk_store_maps {
  sm_tab : tab_refines (rlc_coll st) m;
  sm_ptr id p : ptrs !! id = Some p -> is_Some (bearers sp !! id) /\ 0 < p < heap_next st;
  sm_bearer id u : bearers sp !! id = Some u -> exists p, ptrs !! id = Some p /\
    heap st !! p = Some u /\ m !! coll_key 5 id = Some p /\ id_ok id;
  sm_channel ch id : channels sp !! ch = Some id -> exists p, ptrs !! id = Some p /\
    m !! coll_key 10 ch = Some p /\ id_ok ch;
  sm_key k p : m !! k = Some p ->
    (exists id, ptrs !! id = Some p /\ id_ok id /\ k = coll_key 5 id) \/
    (exists ch id, channels sp !! ch = Some id /\ ptrs !! id = Some p /\ k = coll_key 10 ch);
  sm_one ch ch' id : channels sp !! ch = Some id -> channels sp !! ch' = Some id -> ch = ch';
  sm_inj id id' p : ptrs !! id = Some p -> ptrs !! id' = Some p -> id = id';
  sm_next : 0 < heap_next st
}.
Definition store_refines st sp : Prop := exists m ptrs, store_maps m ptrs st sp.

Lemma rb_lookup m ptrs st sp id :
  store_maps m ptrs st sp -> id_ok id -> m !! coll_key 5 id = ptrs !! id.
Proof.
  intros H Hid. destruct (ptrs !! id) as [p|] eqn:Hp.
  - destruct (sm_ptr _ _ _ _ H _ _ Hp) as [[u Hu] _].
    destruct (sm_bearer _ _ _ _ H _ _ Hu) as (p' & Hp' & _ & Hm & _). congruence.
  - apply eq_None_not_Some. intros [p Hm].
    destruct (sm_key _ _ _ _ H _ _ Hm) as [(id' & Hp' & Hok & Hk)|(ch & id' & Hc & Hp' & Hk)].
    + apply coll_key_inj in Hk as [_ ->]; [congruence|done|done].
    + destruct (sm_channel _ _ _ _ H _ _ Hc) as (_ & _ & _ & Hok).
      apply coll_key_inj in Hk as [? _]; [done|done|done].
Qed.

Lemma lcid_lookup m ptrs st sp ch :
  store_maps m ptrs st sp -> id_ok ch -> m !! coll_key 10 ch = channels sp !! ch ≫= (fun id => ptrs !! id).
Proof.
  intros H Hch. destruct (channels sp !! ch) as [id|] eqn:Hc.
  - destruct (sm_channel _ _ _ _ H _ _ Hc) as (p & Hp & Hm & _). simpl. congruence.
  - simpl. apply eq_None_not_Some. intros [p Hm].
    destruct (sm_key _ _ _ _ H _ _ Hm) as [(id' & Hp' & Hok & Hk)|(ch' & id' & Hc' & Hp' & Hk)].
    + apply coll_key_inj in Hk as [? _]; [done|done|done].
    + destruct (sm_channel _ _ _ _ H _ _ Hc') as (_ & _ & _ & Hok).
      apply coll_key_inj in Hk as [_ ->]; [congruence|done|done].
Qed.

Lemma ptrs_bearer m ptrs st sp id :
  store_maps m ptrs st sp -> ptrs !! id = None <-> bearers sp !! id = None.
Proof.
  intros H. rewrite !eq_None_not_Some. split; intros Hn [x Hx]; apply Hn.
  - destruct (sm_bearer _ _ _ _ H _ _ Hx) as (p & Hp & _). eauto.
  - by destruct (sm_ptr _ _ _ _ H _ _ Hx) as [? _].
Qed.

(** What a search by key finds: by bearer, by channel. *)
Inductive found st sp : Z -> option (rlc_id * rlc_union_t) -> Prop :=
| Found_none key : store_get key st = Ok (HASH_TABLE_KEY_NOT_EXISTS, 0) -> found st sp key None
| Found_some key id u p :
    store_get key st = Ok (HASH_TABLE_OK, p) -> union_at p st = Ok u -> 0 < p -> bearers sp !! id = Some u ->
    (forall u', store_refines (union_set p u' st) (spec_set id u' sp)) ->
    found st sp key (Some (id, u)).

(** An entity changes: the others stay. *)
Lemma maps_set m ptrs st sp id p u u' :
  store_maps m ptrs st sp -> ptrs !! id = Some p -> bearers sp !! id = Some u ->
  store_maps m ptrs (union_set p u' st) (spec_set id u' sp).
Proof.
  intros H Hp Hu. constructor; simpl.
  - apply (sm_tab _ _ _ _ H).
  - intros id' p' Hp'. destruct (sm_ptr _ _ _ _ H _ _ Hp') as [Hb ?]. split; [|done].
    destruct (decide (id' = id)) as [->|]; [rewrite lookup_insert_eq; eauto|by rewrite lookup_insert_ne].
  - intros id' u1 Hu1. destruct (decide (id' = id)) as [->|Hne].
    + rewrite lookup_insert_eq in Hu1. injection Hu1 as <-.
      destruct (sm_bearer _ _ _ _ H _ _ Hu) as (p' & Hp' & _ & Hm & Hok). rewrite Hp' in Hp. injection Hp as ->.
      exists p. by rewrite lookup_insert_eq.
    + rewrite lookup_insert_ne in Hu1 by done.
      destruct (sm_bearer _ _ _ _ H _ _ Hu1) as (p' & Hp' & Hh & Hm & Hok).
      exists p'. split; [done|]. split; [|done]. rewrite lookup_insert_ne; [done|].
      intros <-. apply Hne. by eapply (sm_inj _ _ _ _ H).
  - apply (sm_channel _ _ _ _ H).
  - apply (sm_key _ _ _ _ H).
  - apply (sm_one _ _ _ _ H).
  - apply (sm_inj _ _ _ _ H).
  - apply (sm_next _ _ _ _ H).
Qed.

Lemma found_at m ptrs st sp key id p :
  store_maps m ptrs st sp -> m !! key = Some p -> ptrs !! id = Some p ->
  exists u, bearers sp !! id = Some u /\ found st sp key (Some (id, u)).
Proof.
  intros H Hm Hp. destruct (sm_ptr _ _ _ _ H _ _ Hp) as [[u Hu] Hpos]. exists u. split; [done|].
  destruct (sm_bearer _ _ _ _ H _ _ Hu) as (p' & Hp' & Hh & _). rewrite Hp' in Hp. injection Hp as ->.
  apply (Found_some _ _ _ _ _ p); [|unfold union_at; by rewrite Hh|lia|done|].
  - unfold store_get. rewrite (tab_get_spec _ m) by apply (sm_tab _ _ _ _ H). by rewrite Hm.
  - intros u'. exists m, ptrs. by eapply maps_set.
Qed.

Lemma found_rb st sp id :
  store_refines st sp -> id_ok id ->
  found st sp (coll_key 5 id) (match bearers sp !! id with Some u => Some (id, u) | None => None end).
Proof.
  intros (m & ptrs & H) Hid. assert (Hl := rb_lookup _ _ _ _ _ H Hid).
  destruct (ptrs !! id) as [p|] eqn:Hp.
  - destruct (found_at _ _ _ _ _ _ _ H Hl Hp) as (u & -> & Hf). done.
  - assert (Hb : bearers sp !! id = None) by by apply (ptrs_bearer _ _ _ _ _ H). rewrite Hb.
    apply Found_none. unfold store_get. rewrite (tab_get_spec _ m) by apply (sm_tab _ _ _ _ H). by rewrite Hl.
Qed.

Lemma found_lcid st sp ch :
  store_refines st sp -> id_ok ch -> found st sp (coll_key 10 ch) (channel_entity ch sp).
Proof.
  intros (m & ptrs & H) Hch. assert (Hl := lcid_lookup _ _ _ _ _ H Hch). unfold channel_entity.
  destruct (channels sp !! ch) as [id|] eqn:Hc; simpl in Hl.
  - destruct (sm_channel _ _ _ _ H _ _ Hc) as (p & Hp & _). rewrite Hp in Hl.
    destruct (found_at _ _ _ _ _ _ _ H Hl Hp) as (u & -> & Hf). done.
  - apply Found_none. unfold store_get. rewrite (tab_get_spec _ m) by apply (sm_tab _ _ _ _ H). by rewrite Hl.
Qed.

(** One step of the store against one of the maps. *)
Definition step_refines (r : res (rlc_out * rlc_store T)) (r' : res (rlc_out * rlc_spec)) : Prop :=
  match r' with
  | Ok (o, sp') => exists st', r = Ok (o, st') /\ store_refines st' sp'
  | Err f => r = Err f
  end.

Lemma data_req_refines e c srb rb mui size sdu n_ue st sp :
  store_refines st sp -> id_ok (id_of c rb srb) ->
  step_refines (store_step n_ue (Op_data_req e c srb rb mui size sdu) st)
    (spec_step n_ue (Op_data_req e c srb rb mui size sdu) sp).
Proof.
  intros H Hid. cbn [store_step spec_step]. unfold rlc_data_req. cbn [data_req_key].
  destruct (assert_that (rb <? NB_RB_MAX)) as [[]|]; [|done]. cbn [mbind res_bind].
  destruct (assert_that (size >? 0)) as [[]|]; [|done]. cbn [mbind res_bind].
  assert (Hf := found_rb st sp _ H Hid). rewrite rb_key_coll. remember (coll_key _ _) as k.
  destruct (bearers sp !! id_of c rb srb) as [u|]; found_cases Hf; [|done].
  destruct (mem_read sdu 0 size) as [data|]; [|done]. cbn [mbind res_bind].
  destruct (union_data_req _ _ _ _ _ _) as [[rc u']|]; [|done]. cbn [mbind res_bind step_refines]. eauto.
Qed.

Lemma mac_data_req_refines e c lc tb_size buffer n_ue st sp :
  store_refines st sp -> id_ok (id_of c lc (lcid_srb_flag lc)) ->
  step_refines (store_step n_ue (Op_mac_data_req e c lc tb_size buffer) st)
    (spec_step n_ue (Op_mac_data_req e c lc tb_size buffer) sp).
Proof.
  intros H Hid. cbn [store_step spec_step]. unfold mac_rlc_data_req.
  destruct (assert_that (lc <? NB_RB_MAX)) as [[]|]; [|done]. cbn [mbind res_bind andb].
  assert (Hf := found_lcid st sp _ H Hid). rewrite lcid_key_coll. remember (coll_key _ _) as k.
  destruct (channel_entity _ sp) as [[id u]|]; found_cases Hf; [|done].
  destruct (union_mac_data_request _ _ _ _) as [[tbs u']|]; [|done]. cbn [mbind res_bind].
  destruct (mac_rlc_serialize_tb _ _) as [[n b]|]; [|done]. cbn [mbind res_bind step_refines]. eauto.
Qed.

Lemma mac_data_ind_refines e c lc buffer tb_size num_tb crcs n_ue st sp :
  store_refines st sp -> id_ok (id_of c lc (lcid_srb_flag lc)) ->
  step_refines (store_step n_ue (Op_mac_data_ind e c lc buffer tb_size num_tb crcs) st)
    (spec_step n_ue (Op_mac_data_ind e c lc buffer tb_size num_tb crcs) sp).
Proof.
  intros H Hid. cbn [store_step spec_step]. unfold mac_rlc_data_ind. cbn [mbind res_bind andb].
  assert (Hf := found_lcid st sp _ H Hid). rewrite lcid_key_coll. remember (coll_key _ _) as k.
  destruct (channel_entity _ sp) as [[id u]|]; found_cases Hf;
    (destruct (mac_rlc_deserialize_tb _ _ _ _ _) as [ind|]; [|done]); cbn [mbind res_bind step_refines]; [|eauto].
  destruct (union_mac_data_indication _ _ _ _) as [u'|]; [|done]. cbn [mbind res_bind step_refines]. eauto.
Qed.

Lemma mac_status_ind_refines e c lc tb_size n_ue st sp :
  store_refines st sp -> id_ok (id_of c lc (lcid_srb_flag lc)) ->
  step_refines (store_step n_ue (Op_mac_status_ind e c lc tb_size) st)
    (spec_step n_ue (Op_mac_status_ind e c lc tb_size) sp).
Proof.
  intros H Hid. cbn [store_step spec_step]. unfold mac_rlc_status_ind. cbn [mbind res_bind].
  assert (Hf := found_lcid st sp _ H Hid). rewrite lcid_key_coll. remember (coll_key _ _) as k.
  destruct (channel_entity _ sp) as [[id u]|]; found_cases Hf; [|cbn [step_refines]; eauto].
  destruct (union_mac_status_indication _ _ _ _) as [[s u']|]; [|done]. cbn [mbind res_bind step_refines]. eauto.
Qed.

Lemma config_request_found {E} (as_e : rlc_union_t -> option E) (to_u : E -> rlc_union_t) f key st sp id u :
  found st sp key (Some (id, u)) ->
  exists p, union_at p st = Ok u /\ (forall u', store_refines (union_set p u' st) (spec_set id u' sp)) /\
    config_request as_e to_u f key st =
      (r ← deref (as_e u); coll ← f {[key := r]}; r ← deref (coll !! key); Ok (union_set p (to_u r) st)).
Proof.
  intros Hf. unfold config_request. inversion Hf as [|? ? ? p E1 E2 ? ? Hs]; subst.
  exists p. split; [done|]. split; [done|]. rewrite E1. cbn [mbind res_bind]. by rewrite E2.
Qed.
Lemma config_request_none {E} (as_e : rlc_union_t -> option E) (to_u : E -> rlc_union_t) f key st sp :
  found st sp key None -> config_request as_e to_u f key st = (_ ← f ∅; Ok st).
Proof. intros Hf. unfold config_request. inversion Hf as [? E1|]; subst. by rewrite E1. Qed.

Lemma spec_set_id id u sp : bearers sp !! id = Some u -> spec_set id u sp = sp.
Proof. intros H. unfold spec_set. destruct sp as [b ch]. simpl in *.
  transitivity (Mk_spec (<[id := u]> b) ch); [done|]. f_equal. by apply insert_id.
Qed.

(** A request on the collection that holds the entity found, and what it does to the entity. *)
Lemma config_one {E} (as_e : rlc_union_t -> option E) (to_u : E -> rlc_union_t) (f : gmap Z E -> res (gmap Z E))
    (g : rlc_union_t -> res rlc_union_t) key id u st sp :
  found st sp key (Some (id, u)) ->
  (forall r, as_e u = Some r -> (coll ← f {[key := r]}; r ← deref (coll !! key); Ok (to_u r)) = g u) ->
  (as_e u = None -> g u = Err UndefinedBehaviour) ->
  step_refines (st ← config_request as_e to_u f key st; Ok (Out_none, st))
    (u ← g u; Ok (Out_none, spec_set id u sp)).
Proof.
  intros Hf Hsome Hnone. destruct (config_request_found as_e to_u f _ _ _ _ _ Hf) as (p & _ & Hs & ->).
  destruct (as_e u) as [r|] eqn:Er; cbn [deref mbind res_bind].
  - rewrite <- (Hsome r eq_refl). destruct (f {[key := r]}) as [coll|]; cbn [mbind res_bind step_refines]; [|done].
    destruct (coll !! key) as [r'|]; cbn [deref mbind res_bind step_refines]; [|done]. eauto.
  - rewrite Hnone by done. done.
Qed.

Lemma config_refines cm c srb rb lc req n_ue st sp :
  store_refines st sp -> id_ok (id_of c rb srb) ->
  step_refines (store_step n_ue (Op_config cm c srb rb lc req) st) (spec_step n_ue (Op_config cm c srb rb lc req) sp).
Proof.
  intros H Hid. cbn [store_step spec_step].
  assert (Hf := found_rb st sp _ H Hid). rewrite <- rb_key_coll in Hf.
  destruct (bearers sp !! id_of c rb srb) as [u|] eqn:Hb.
  - destruct req as [[|i|i|b]|a|ul dl]; cbn [config_step];
      [cbn [spec_config mbind res_bind step_refines]; rewrite spec_set_id by done; eauto|..];
      unfold config_req_rlc_am, config_req_rlc_um, config_req_rlc_tm, config_req_rlc_am_asn1, config_req_rlc_um_asn1;
      apply config_one; try done; try (by destruct u); intros r Er; destruct u; try done; injection Er as ->;
      unfold RlcAm.config_req_rlc_am, RlcUm.config_req_rlc_um, RlcTm.config_req_rlc_tm, RlcAm.config_req_rlc_am_asn1,
        RlcUm.config_req_rlc_um_asn1; rewrite lookup_singleton_eq; cbn [mbind res_bind spec_config].
    + by rewrite lookup_insert_eq.
    + destruct (um_config_entity _ _ _ _ _ _); cbn [mbind res_bind]; [by rewrite lookup_insert_eq|done].
    + destruct (tm_config_entity _ _ _ _ _ _); cbn [mbind res_bind]; [by rewrite lookup_insert_eq|done].
    + destruct (asn1_legal a); cbn [mbind res_bind]; [|by rewrite lookup_singleton_eq].
      destruct (asn1_info a); cbn [mbind res_bind]; [by rewrite lookup_insert_eq|done].
    + rewrite bool_decide_eq_false_2 by (by intros [? ?]).
      assert (E : match dl with Some _ => match ul with None => true | Some _ => negb false end | None => negb false end = true)
        by (by destruct dl, ul).
      rewrite E. cbn [assert_that mbind res_bind].
      destruct (um_config_entity _ _ _ _ _ _); cbn [mbind res_bind]; [by rewrite lookup_insert_eq|done].
  - destruct req as [[|i|i|b]|a|ul dl]; cbn [config_step config_needs_bearer];
      [cbn [mbind res_bind step_refines]; eauto|..];
      unfold config_req_rlc_am, config_req_rlc_um, config_req_rlc_tm, config_req_rlc_am_asn1, config_req_rlc_um_asn1;
      rewrite (config_request_none _ _ _ _ _ _ Hf);
      try (cbn [mbind res_bind step_refines]; by eauto).
    unfold RlcUm.config_req_rlc_um_asn1. destruct (assert_that _) as [[]|] eqn:Ea; cbn [mbind res_bind]; [done|].
    by destruct (match dl with Some _ => _ | None => _ end); simplify_eq/=.
Qed.

Lemma insert_new ok key p st m :
  tab_refines (rlc_coll st) m -> m !! key = None -> ok = true ->
  exists t, store_insert ok key p st = Ok (HASH_TABLE_OK, st <| rlc_coll := t |> <| heap := heap st |>) /\
    tab_refines t (<[key := p]> m).
Proof.
  intros H Hm ->. destruct (tab_insert_spec true (rlc_coll st) m key p H) as (t & E & Ht); [by right|].
  rewrite Hm in E. exists t. unfold store_insert. rewrite E. done.
Qed.

Lemma remove_known key p u st m :
  tab_refines (rlc_coll st) m -> m !! key = Some p -> p <> 0 -> heap st !! p = Some u ->
  exists t, store_remove key st =
      Ok (HASH_TABLE_OK, st <| rlc_coll := t |> <| heap := <[p := rb_free_rlc_union u]> (heap st) |>) /\
    tab_refines t (delete key m).
Proof.
  intros H Hm Hp Hu. destruct (tab_remove_spec (rlc_coll st) m key H) as (t & E & Ht).
  rewrite Hm in E. exists t. unfold store_remove. rewrite E. cbn [mbind res_bind].
  unfold free_data. destruct (Z.eqb_spec p 0); [done|]. cbn [free_unions]. rewrite Hu. done.
Qed.

Lemma maps_add m ptrs st sp id ch u t tables_st :
  store_maps m ptrs st sp -> id_ok id -> id_ok ch -> bearers sp !! id = None -> channels sp !! ch = None ->
  let p := heap_next st in
  tab_refines t (<[coll_key 10 ch := p]> (<[coll_key 5 id := p]> m)) ->
  rlc_coll tables_st = t -> heap tables_st = <[p := u]> (<[p := Union_none]> (heap st)) ->
  heap_next tables_st = p + 1 ->
  store_maps (<[coll_key 10 ch := p]> (<[coll_key 5 id := p]> m)) (<[id := p]> ptrs) tables_st
    (Mk_spec (<[id := u]> (bearers sp)) (<[ch := id]> (channels sp))).
Proof.
  intros H Hid Hch Hb Hc p Ht Etab Eheap Enext.
  assert (Hpt : ptrs !! id = None) by by apply (ptrs_bearer _ _ _ _ _ H).
  assert (H510 : forall i j, id_ok i -> id_ok j -> coll_key 10 i <> coll_key 5 j)
    by (intros i j Hi Hj E; by apply coll_key_inj in E as [? _]).
  assert (Hlt : forall i q, ptrs !! i = Some q -> q <> p)
    by (intros i q Hq ->; destruct (sm_ptr _ _ _ _ H _ _ Hq) as [_ ?]; unfold p in *; lia).
  constructor; simpl.
  - by rewrite Etab.
  - intros id' q Hq. rewrite Enext. destruct (decide (id' = id)) as [->|Hne].
    + rewrite lookup_insert_eq in Hq. injection Hq as <-. rewrite lookup_insert_eq. split; [eauto|].
      assert (Hn := sm_next _ _ _ _ H). unfold p. lia.
    + rewrite lookup_insert_ne in Hq by done. rewrite lookup_insert_ne by done.
      destruct (sm_ptr _ _ _ _ H _ _ Hq) as [? ?]. split; [done|]. unfold p. lia.
  - intros id' u' Hu'. destruct (decide (id' = id)) as [->|Hne].
    + rewrite lookup_insert_eq in Hu'. injection Hu' as <-. exists p. rewrite Eheap, !lookup_insert_eq.
      rewrite lookup_insert_ne by by apply H510. by rewrite lookup_insert_eq.
    + rewrite lookup_insert_ne in Hu' by done.
      destruct (sm_bearer _ _ _ _ H _ _ Hu') as (q & Hq & Hh & Hm & Hok). exists q.
      rewrite lookup_insert_ne by done. rewrite Eheap, !lookup_insert_ne by (symmetry; by eapply Hlt).
      split; [done|]. split; [done|]. split; [|done].
      rewrite !lookup_insert_ne; [done| |by apply H510]. intros E. by apply coll_key_inj in E as [_ ?].
  - intros ch' id' Hc'. destruct (decide (ch' = ch)) as [->|Hne].
    + rewrite lookup_insert_eq in Hc'. injection Hc' as <-. exists p. by rewrite !lookup_insert_eq.
    + rewrite lookup_insert_ne in Hc' by done.
      destruct (sm_channel _ _ _ _ H _ _ Hc') as (q & Hq & Hm & Hok). exists q.
      rewrite lookup_insert_ne by congruence. split; [done|]. split; [|done].
      rewrite !lookup_insert_ne; [done|apply not_eq_sym; by apply H510|].
      intros E. by apply coll_key_inj in E as [_ ?].
  - intros k q Hk. apply lookup_insert_Some in Hk as [[<- <-]|[Hk1 Hk]].
    { right. exists ch, id. by rewrite !lookup_insert_eq. }
    apply lookup_insert_Some in Hk as [[<- <-]|[Hk2 Hk]].
    { left. exists id. by rewrite lookup_insert_eq. }
    destruct (sm_key _ _ _ _ H _ _ Hk) as [(id' & Hq & Hok & ->)|(ch' & id' & Hc' & Hq & ->)].
    + left. exists id'. rewrite lookup_insert_ne by congruence. done.
    + right. exists ch', id'. rewrite lookup_insert_ne by congruence. rewrite lookup_insert_ne by congruence. done.
  - intros c1 c2 i H1 H2. apply lookup_insert_Some in H1, H2.
    destruct H1 as [[<- <-]|[Hn1 H1]], H2 as [[<- E2]|[Hn2 H2]]; [done| | |by eapply (sm_one _ _ _ _ H)].
    + destruct (sm_channel _ _ _ _ H _ _ H2) as (? & ? & _). congruence.
    + subst. destruct (sm_channel _ _ _ _ H _ _ H1) as (? & ? & _). congruence.
  - intros i1 i2 q H1 H2. apply lookup_insert_Some in H1, H2.
    destruct H1 as [[<- <-]|[Hn1 H1]], H2 as [[<- E2]|[Hn2 H2]]; [done| | |by eapply (sm_inj _ _ _ _ H)].
    + exfalso. by eapply Hlt.
    + subst. exfalso. by eapply Hlt.
  - rewrite Enext. assert (Hn := sm_next _ _ _ _ H). unfold p. lia.
Qed.

Lemma add_refines mem c srb rb lc md n_ue st sp :
  store_refines st sp -> op_legal (Op_add mem c srb rb lc md) sp ->
  step_refines (store_step n_ue (Op_add mem c srb rb lc md) st) (spec_step n_ue (Op_add mem c srb rb lc md) sp).
Proof.
  intros H (Hid & Hch & Hnew). cbn [store_step spec_step]. unfold rrc_rlc_add_rlc.
  destruct (assert_that (rb <? NB_RB_MAX)) as [[]|]; [|done]. cbn [mbind res_bind].
  destruct (assert_that (lc <? RLC_MAX_LC n_ue)) as [[]|]; [|done]. cbn [mbind res_bind].
  assert (Hf := found_rb st sp _ H Hid). rewrite rb_key_coll, lcid_key_coll. remember (coll_key 5 _) as k eqn:Hk.
  destruct (bearers sp !! id_of c rb srb) as [u|] eqn:Hb; found_cases Hf.
  - destruct (assert_that _) as [[]|]; [|done]. cbn [mbind res_bind step_refines].
    destruct (Z.eqb_spec p 0); [lia|]. eauto.
  - destruct (Hnew eq_refl) as [-> Hc]. destruct H as (m & ptrs & H).
    cbn [HASH_TABLE_KEY_NOT_EXISTS Z.eqb Pos.eqb]. unfold store_calloc. cbn [calloc_ok node_ok node_lcid_ok].
    set (q := heap_next st).
    assert (H5 : m !! coll_key 5 (id_of c rb srb) = None).
    { rewrite (rb_lookup _ _ _ _ _ H Hid). by apply (ptrs_bearer _ _ _ _ _ H). }
    assert (H10 : m !! coll_key 10 (id_of c lc srb) = None)
      by (by rewrite (lcid_lookup _ _ _ _ _ H Hch), Hc).
    destruct (insert_new true (coll_key 5 (id_of c rb srb)) q
      (st <| heap := <[q := Union_none]> (heap st) |> <| heap_next := q + 1 |>) m) as (t1 & E1 & Ht1);
      [apply (sm_tab _ _ _ _ H)|done|done|].
    rewrite E1. cbn [mbind res_bind].
    match goal with |- context [store_insert true (coll_key 10 _) q ?s] =>
      destruct (insert_new true (coll_key 10 (id_of c lc srb)) q s (<[coll_key 5 (id_of c rb srb) := q]> m))
        as (t2 & E2 & Ht2); [exact Ht1| |done|] end.
    { rewrite lookup_insert_ne; [done|]. intros E'. by apply coll_key_inj in E' as [? _]. }
    rewrite E2. cbn [mbind res_bind]. cbn [HASH_TABLE_OK Z.eqb andb].
    unfold union_at. simpl. rewrite lookup_insert_eq. cbn [deref mbind res_bind].
    destruct (Z.eqb_spec q 0) as [Hq|_]; [assert (Hn := sm_next _ _ _ _ H); unfold q in Hq; lia|].
    cbn [negb step_refines]. eexists. split; [done|]. eexists _, _.
    by apply (maps_add m ptrs st sp _ _ (union_calloc md) t2).
Qed.

Lemma maps_remove m ptrs st sp id ch p t h tables_st :
  store_maps m ptrs st sp -> id_ok ch -> ptrs !! id = Some p -> channels sp !! ch = Some id ->
  tab_refines t (delete (coll_key 5 id) (delete (coll_key 10 ch) m)) ->
  (forall q, q <> p -> h !! q = heap st !! q) ->
  rlc_coll tables_st = t -> heap tables_st = h -> heap_next tables_st = heap_next st ->
  store_maps (delete (coll_key 5 id) (delete (coll_key 10 ch) m)) (delete id ptrs) tables_st
    (Mk_spec (delete id (bearers sp)) (delete ch (channels sp))).
Proof.
  intros H Hch Hp Hc Ht Hh Etab Eheap Enext.
  assert (Hid : id_ok id).
  { destruct (sm_ptr _ _ _ _ H _ _ Hp) as [[u Hu] _].
    by destruct (sm_bearer _ _ _ _ H _ _ Hu) as (? & _ & _ & _ & ?). }
  assert (H510 : forall i j, id_ok i -> id_ok j -> coll_key 10 i <> coll_key 5 j)
    by (intros i j Hi Hj E; by apply coll_key_inj in E as [? _]).
  constructor; simpl.
  - by rewrite Etab.
  - intros id' q Hq. apply lookup_delete_Some in Hq as [Hne Hq]. rewrite Enext, lookup_delete_ne by done.
    by apply (sm_ptr _ _ _ _ H).
  - intros id' u Hu. apply lookup_delete_Some in Hu as [Hne Hu].
    destruct (sm_bearer _ _ _ _ H _ _ Hu) as (q & Hq & Hhq & Hm & Hok). exists q.
    rewrite lookup_delete_ne by done. split; [done|]. split.
    { rewrite Eheap, Hh; [done|]. intros ->. apply Hne. by eapply (sm_inj _ _ _ _ H). }
    split; [|done]. rewrite lookup_delete_ne by (intros E; by apply coll_key_inj in E as [_ ?]).
    by rewrite lookup_delete_ne by by apply H510.
  - intros ch' id' Hc'. apply lookup_delete_Some in Hc' as [Hne Hc'].
    destruct (sm_channel _ _ _ _ H _ _ Hc') as (q & Hq & Hm & Hok). exists q.
    rewrite lookup_delete_ne by (intros <-; apply Hne; by eapply (sm_one _ _ _ _ H)). split; [done|].
    split; [|done]. rewrite lookup_delete_ne by (apply not_eq_sym; by apply H510).
    rewrite lookup_delete_ne; [done|]. intros E. by apply coll_key_inj in E as [_ ?].
  - intros k q Hk. apply lookup_delete_Some in Hk as [Hk1 Hk]. apply lookup_delete_Some in Hk as [Hk2 Hk].
    destruct (sm_key _ _ _ _ H _ _ Hk) as [(id' & Hq & Hok & ->)|(ch' & id' & Hc' & Hq & ->)].
    + left. exists id'. rewrite lookup_delete_ne by congruence. done.
    + right. assert (ch <> ch') by congruence. exists ch', id'. rewrite lookup_delete_ne by done.
      rewrite lookup_delete_ne; [done|]. intros <-. by eapply (sm_one _ _ _ _ H) in Hc'.
  - intros c1 c2 i [_ H1]%lookup_delete_Some [_ H2]%lookup_delete_Some. by eapply (sm_one _ _ _ _ H).
  - intros i1 i2 q [_ H1]%lookup_delete_Some [_ H2]%lookup_delete_Some. by eapply (sm_inj _ _ _ _ H).
  - rewrite Enext. apply (sm_next _ _ _ _ H).
Qed.

Lemma id_channel_of c rb srb u : id_channel (id_of c rb srb) u = id_of c (union_channel 0 u) srb.
Proof. done. Qed.

Lemma remove_refines c srb rb n_ue st sp :
  store_refines st sp -> op_legal (Op_remove c srb rb) sp ->
  step_refines (store_step n_ue (Op_remove c srb rb) st) (spec_step n_ue (Op_remove c srb rb) sp).
Proof.
  intros H (Hid & Hleg). cbn [store_step spec_step]. unfold rrc_rlc_remove_rlc. cbn [mbind res_bind].
  destruct (assert_that (rb <? NB_RB_MAX)) as [[]|]; [|done]. cbn [mbind res_bind].
  assert (Hf := found_rb st sp _ H Hid). rewrite rb_key_coll. remember (coll_key 5 _) as k eqn:Hk.
  destruct (bearers sp !! id_of c rb srb) as [u|] eqn:Hb; found_cases Hf.
  2:{ cbn [andb mbind res_bind step_refines]. eauto. }
  destruct (Hleg u eq_refl) as [Hch Hone]. rewrite id_channel_of in *. rewrite lcid_key_coll.
  destruct H as (m & ptrs & H).
  destruct (sm_bearer _ _ _ _ H _ _ Hb) as (p' & Hp & Hh & Hm5 & _).
  assert (p' = p) as ->.
  { unfold store_get in E. rewrite (tab_get_spec _ m) in E by apply (sm_tab _ _ _ _ H).
    rewrite Hm5 in E. by injection E. }
  unfold store_get. rewrite (tab_get_spec _ m) by apply (sm_tab _ _ _ _ H).
  rewrite (lcid_lookup _ _ _ _ _ H Hch).
  destruct (channels sp !! id_of c (union_channel 0 u) srb) as [id|] eqn:Hc; cbn [mbind option_bind res_bind].
  2:{ simpl (_ && _). cbn [mbind res_bind step_refines]. eexists. split; [done|]. by exists m, ptrs. }
  rewrite (Hone _ eq_refl) in *. rewrite Hp. cbn [mbind res_bind]. simpl (_ && _). cbn iota.
  assert (Hm10 : m !! coll_key 10 (id_of c (union_channel 0 u) srb) = Some p)
    by (rewrite (lcid_lookup _ _ _ _ _ H Hch), Hc; exact Hp).
  destruct (remove_known _ p u st m (sm_tab _ _ _ _ H) Hm10) as (t1 & E1 & Ht1); [lia|done|].
  rewrite E1. cbn [mbind res_bind].
  match goal with |- context [store_remove (coll_key 5 _) ?s] =>
    destruct (remove_known (coll_key 5 (id_of c rb srb)) p (rb_free_rlc_union u) s
      (delete (coll_key 10 (id_of c (union_channel 0 u) srb)) m)) as (t2 & E2 & Ht2);
      [exact Ht1| |lia| |rewrite E2; cbn [mbind res_bind step_refines]] end.
  { rewrite lookup_delete_ne; [done|]. intros E'. by apply coll_key_inj in E' as [? _]. }
  { simpl. apply lookup_insert_eq. }
  eexists. split; [done|]. eexists _, _.
  eapply (maps_remove m ptrs st sp _ _ p); [done|done|done|done|exact Ht2| |done|done|done].
  intros q Hq. simpl. by rewrite !lookup_insert_ne by done.
Qed.

Lemma store_step_refines n_ue op st sp :
  store_refines st sp -> op_legal op sp -> step_refines (store_step n_ue op st) (spec_step n_ue op sp).
Proof.
  intros H Hl. destruct op.
  - by apply add_refines.
  - by apply config_refines.
  - by apply remove_refines.
  - by apply data_req_refines.
  - by apply mac_data_req_refines.
  - by apply mac_data_ind_refines.
  - by apply mac_status_ind_refines.
Qed.

Lemma store_run_refines n_ue ops : forall st sp,
  store_refines st sp -> ops_legal n_ue ops sp = true ->
  match spec_run n_ue ops sp with
  | Ok (os, sp') => exists st', store_run n_ue ops st = Ok (os, st') /\ store_refines st' sp'
  | Err f => store_run n_ue ops st = Err f
  end.
Proof.
  induction ops as [|op ops IH]; intros st sp H Hl; cbn [spec_run store_run]; [eauto|].
  apply andb_true_iff in Hl as [Hl1%op_legalb_ok Hl2]. assert (Hs := store_step_refines n_ue op st sp H Hl1).
  destruct (spec_step n_ue op sp) as [[o sp1]|f]; cbn [step_refines mbind res_bind] in *; [|by rewrite Hs].
  destruct Hs as (st1 & -> & H1). cbn [mbind res_bind]. specialize (IH st1 sp1 H1 Hl2).
  destruct (spec_run n_ue ops sp1) as [[os sp2]|f]; cbn [mbind res_bind]; [|by rewrite IH].
  destruct IH as (st2 & -> & H2). cbn [mbind res_bind]. eauto.
Qed.

Lemma init_refines n_ue n_enb : store_refines (rlc_module_init n_ue n_enb) spec_empty.
Proof.
  exists ∅, ∅. constructor; simpl; try (intros *; rewrite lookup_empty; done).
  - apply tab_new_refines.
  - lia.
Qed.
End refinement.

(** C21: The sublayer's table of entities, for the bearers of UEs (no MBMS session: a
    second one would overwrite the first one's channel entry, see the findings). Whatever
    table is used, from initialisation on, any sequence of additions, configurations
    (given directly or by the ASN.1 of RRC, AM and UM), removals, requests of PDCP and
    calls of MAC returns what the same sequence returns on two finite maps, entities by
    radio bearer and bearers by logical channel, provided that: identifiers fit the fields
    of the keys, a bearer that is added has a channel of its own and the three allocations
    of its addition succeed, and a bearer is removed while its channel entry is its own or
    absent. Memory in configurations, PDUs and SDUs may fail. A fault occurs only where it
    occurs on the maps: an assertion on a bearer that does not exist or a fault of the
    entity addressed. *)
Theorem rlc_store_refines {T} `{!Table T} n_ue n_enb ops :
  ops_legal n_ue ops spec_empty = true ->
  match spec_run n_ue ops spec_empty with
  | Ok (outs, sp) => exists st, store_run n_ue ops (rlc_module_init (T := T) n_ue n_enb) = Ok (outs, st) /\ store_refines st sp
  | Err f => store_run n_ue ops (rlc_module_init (T := T) n_ue n_enb) = Err f
  end.
Proof. intros H. apply store_run_refines; [apply init_refines|done]. Qed.

(** A UE with a signalling bearer in AM and a data bearer in TM. *)
Definition demo_ctxt : rlc_ctxt_t := Mk_rlc_ctxt 0 4660 (Mk_ctxt 3 1 true).
Definition demo_mem : add_mem := Mk_add_mem true true true.
Definition demo_cm : rlc_config_mem := Mk_rlc_config_mem am_init_ok true true.
Definition demo_env : rlc_env :=
  Mk_env true [] None 16 (fun _ => Mk_fresh_block 0 (Mk_rx_pdu pdu_info_zero 0 RLC_AM_RX_PDU_SEGMENT_REASSEMBLE_NO))
    (fun _ => Some [0; 0; 0; 0]) (fun _ => true) (fun _ => tx_sdu_zero).
Definition demo_ops : list rlc_op :=
  [Op_add demo_mem demo_ctxt true 1 1 RLC_MODE_AM; Op_add demo_mem demo_ctxt false 1 3 RLC_MODE_TM;
   Op_config demo_cm demo_ctxt false 1 3 (Config_info (Info_tm true));
   Op_data_req demo_env demo_ctxt false 1 0 2 [7; 8];
   Op_mac_status_ind demo_env demo_ctxt 3 16;
   Op_mac_data_req demo_env demo_ctxt 3 16 [0; 0; 0];
   Op_config demo_cm demo_ctxt true 1 1 (Config_am_asn1 default_config_am);
   Op_remove demo_ctxt false 1].
Lemma demo_legal : ops_legal 16 demo_ops spec_empty = true.
Proof. vm_compute. reflexivity. Qed.
Lemma rlc_store_refines_witness :
  exists st : rlc_store hash_table_t, store_run 16 demo_ops (rlc_module_init 16 1) =
    Ok ([Out_added true; Out_added true; Out_none; Out_rc 1; Out_status (Mk_mac_rlc_status 0 0 0 0 false);
         Out_bytes 2 [7; 8; 0]; Out_none; Out_rc 1], st) /\
    exists sp, store_refines st sp.
Proof.
  assert (H := rlc_store_refines (T := hash_table_t) 16 1 demo_ops demo_legal).
  assert (E : match spec_run 16 demo_ops spec_empty with Ok (o, _) => o | Err _ => [] end =
    [Out_added true; Out_added true; Out_none; Out_rc 1; Out_status (Mk_mac_rlc_status 0 0 0 0 false);
     Out_bytes 2 [7; 8; 0]; Out_none; Out_rc 1]) by (vm_compute; reflexivity).
  destruct (spec_run 16 demo_ops spec_empty) as [[outs sp]|]; [|discriminate E].
  destruct H as (st & H1 & H2). exists st. rewrite H1, E. split; [reflexivity|]. by exists sp.
Defined.

(** ** Isolation *)

(** The entity of a bearer, and the key under which an operation searches. *)
Definition store_entity {T} `{!Table T} (c : rlc_ctxt_t) (rb : Z) (srb : bool) (st : rlc_store T) : res (option rlc_union_t) :=
  '(h_rc, p) ← store_get (rb_key c rb srb) st;
  if h_rc =? HASH_TABLE_OK then u ← union_at p st; Ok (Some u) else Ok None.
Definition op_key (op : rlc_op) : Z :=
  match op with
  | Op_add _ c srb rb _ _ | Op_config _ c srb rb _ _ | Op_remove c srb rb | Op_data_req _ c srb rb _ _ _ => rb_key c rb srb
  | Op_mac_data_req _ c lc _ _ | Op_mac_data_ind _ c lc _ _ _ _ | Op_mac_status_ind _ c lc _ =>
      lcid_key c lc (lcid_srb_flag lc)
  end.
Definition op_target (op : rlc_op) (sp : rlc_spec) : option rlc_id :=
  match op with
  | Op_add _ c srb rb _ _ | Op_config _ c srb rb _ _ | Op_remove c srb rb | Op_data_req _ c srb rb _ _ _ => Some (id_of c rb srb)
  | Op_mac_data_req _ c lc _ _ | Op_mac_data_ind _ c lc _ _ _ _ | Op_mac_status_ind _ c lc _ =>
      channels sp !! id_of c lc (lcid_srb_flag lc)
  end.

Lemma spec_step_frame n_ue op sp o sp' id :
  spec_step n_ue op sp = Ok (o, sp') -> op_target op sp <> Some id -> bearers sp' !! id = bearers sp !! id.
Proof.
  assert (Hset : forall id' u', id' <> id -> bearers (spec_set id' u' sp) !! id = bearers sp !! id)
    by (intros id' u' Hne; simpl; by rewrite lookup_insert_ne).
  assert (Hch : forall ch id' u', channel_entity ch sp = Some (id', u') -> channels sp !! ch = Some id').
  { unfold channel_entity. intros ch id' u'. destruct (channels sp !! ch) as [x|]; [|done].
    destruct (bearers sp !! x); [by intros [= -> _]|done]. }
  intros H Ht. destruct op; cbn [spec_step op_target] in H, Ht; res_inv.
  - destruct (bearers sp !! id_of c rb srb); res_inv; simplify_eq; [done|].
    simpl. rewrite lookup_insert_ne; [done|congruence].
  - destruct (bearers sp !! id_of c rb srb); [|by destruct (config_needs_bearer req); res_inv; simplify_eq]. res_inv. simplify_eq. apply Hset. congruence.
  - destruct (bearers sp !! id_of c rb srb) as [u|]; [|by res_inv; simplify_eq].
    destruct (channels sp !! _); res_inv; simplify_eq; [|done]. simpl. rewrite lookup_delete_ne; [done|congruence].
  - destruct (bearers sp !! id_of c rb srb); [|done]. res_inv. destruct a2 as [rc u']. res_inv. simplify_eq.
    apply Hset. congruence.
  - destruct (channel_entity _ _) as [[id' u]|] eqn:E; [|done]. res_inv. destruct a0 as [tbs u'].
    res_inv. destruct a0 as [k b]. res_inv. simplify_eq. apply Hset. apply Hch in E. congruence.
  - destruct (channel_entity _ _) as [[id' u]|] eqn:E; res_inv; simplify_eq; [|done].
    apply Hset. apply Hch in E. congruence.
  - destruct (channel_entity _ _) as [[id' u]|] eqn:E; res_inv; [|by simplify_eq]. destruct a as [s u'].
    res_inv. simplify_eq. apply Hset. apply Hch in E. congruence.
Qed.

Section isolation.
Context {T : Type} `{!Table T}.
Implicit Types (st : rlc_store T) (sp : rlc_spec).

Lemma store_entity_ok st sp c rb srb :
  store_refines st sp -> id_ok (id_of c rb srb) ->
  store_entity c rb srb st = Ok (bearers sp !! id_of c rb srb).
Proof.
  intros H Hid. assert (Hf := found_rb st sp _ H Hid). rewrite <- rb_key_coll in Hf. unfold store_entity.
  remember (rb_key c rb srb) as k.
  destruct (bearers sp !! id_of c rb srb) as [u|]; found_cases Hf; done.
Qed.

End isolation.

Lemma ops_legal_app n_ue ops op sp outs sp' :
  ops_legal n_ue (ops ++ [op]) sp = true -> spec_run n_ue ops sp = Ok (outs, sp') ->
  ops_legal n_ue ops sp = true /\ op_legal op sp'.
Proof.
  revert sp outs sp'. induction ops as [|o ops IH]; intros sp outs sp'; cbn [ops_legal spec_run app].
  - intros H [= <- <-]. apply andb_true_iff in H as [H _]. split; [done|]. by apply op_legalb_ok.
  - intros [H1 H2]%andb_true_iff H. destruct (spec_step n_ue o sp) as [[r sp1]|]; [|done].
    cbn [mbind res_bind] in H. destruct (spec_run n_ue ops sp1) as [[rs sp2]|] eqn:E; [|done].
    cbn [mbind res_bind] in H. injection H as <- <-. destruct (IH sp1 rs sp2 H2 E) as [H3 H4].
    by rewrite H1, H3.
Qed.

(** C22: Isolation of the bearers of UEs. No operation is of an MBMS session (adding a
    second session cleans up the first one's entity, rlc_rrc.c:650, see the findings);
    identifiers fit the fields of the keys, every bearer added has a channel of its own
    and memory for its addition, bearers are removed while their channel entry is their
    own or absent. In a state reached so from initialisation, an operation (addition,
    configuration, direct or by ASN.1, removal, request of PDCP, call of MAC) that
    searches under another key than that of a bearer, and does not find that bearer's
    entity, leaves the bearer's entity as it is, operations on other bearers and other UEs
    included. *)
Theorem rlc_isolation {T} `{!Table T} n_ue n_enb ops op c rb srb outs (st : rlc_store T) o st' :
  ops_legal n_ue (ops ++ [op]) spec_empty = true -> id_ok (id_of c rb srb) ->
  store_run n_ue ops (rlc_module_init n_ue n_enb) = Ok (outs, st) -> store_step n_ue op st = Ok (o, st') ->
  op_key op <> rb_key c rb srb ->
  (forall p, store_get (rb_key c rb srb) st = Ok (HASH_TABLE_OK, p) -> store_get (op_key op) st <> Ok (HASH_TABLE_OK, p)) ->
  store_entity c rb srb st' = store_entity c rb srb st.
Proof.
  intros Hl Hid Hrun Hstep Hkey Hptr.
  assert (Hl0 : ops_legal n_ue ops spec_empty = true).
  { clear -Hl. revert Hl. generalize spec_empty. induction ops as [|x ops IH]; intros sp; cbn [app ops_legal]; [done|].
    intros [H1 H2]%andb_true_iff. rewrite H1. destruct (spec_step n_ue x sp) as [[? ?]|]; [|done]. by apply IH. }
  assert (H := store_run_refines n_ue ops _ _ (init_refines (T := T) n_ue n_enb) Hl0).
  destruct (spec_run n_ue ops spec_empty) as [[outs' sp]|f] eqn:Es; [|congruence].
  destruct H as (st1 & E1 & H1). rewrite E1 in Hrun. injection Hrun as -> ->.
  destruct (ops_legal_app _ _ _ _ _ _ Hl Es) as [_ Hleg].
  assert (Hs := store_step_refines n_ue op st sp H1 Hleg). rewrite Hstep in Hs.
  destruct (spec_step n_ue op sp) as [[o' sp']|f] eqn:Eo; [|done]. destruct Hs as (st2 & E2 & H2).
  injection E2 as <- <-. rewrite (store_entity_ok st' sp'), (store_entity_ok st sp) by done. f_equal.
  apply (spec_step_frame n_ue op sp o sp' _ Eo). intros Ht.
  assert (Hb : bearers sp !! id_of c rb srb <> None \/ bearers sp !! id_of c rb srb = None)
    by (destruct (bearers sp !! id_of c rb srb); [by left|by right]).
  assert (Hfound : forall id p, channels sp !! id = Some (id_of c rb srb) -> id_ok id ->
    op_key op = coll_key 10 id -> store_get (coll_key 10 id) st = Ok (HASH_TABLE_OK, p) ->
    store_get (rb_key c rb srb) st = Ok (HASH_TABLE_OK, p)).
  { intros id p Hc Hok _. destruct H1 as (m & ptrs & H1). rewrite rb_key_coll. unfold store_get.
    rewrite !(tab_get_spec _ m) by apply (sm_tab _ _ _ _ H1).
    rewrite (lcid_lookup _ _ _ _ _ H1 Hok), (rb_lookup _ _ _ _ _ H1 Hid), Hc. done. }
  assert (Hany : forall ch, channels sp !! ch = Some (id_of c rb srb) -> id_ok ch ->
    op_key op = coll_key 10 ch -> False).
  { intros ch Hc Hok Hk. destruct H1 as (m & ptrs & H1').
    destruct (sm_channel _ _ _ _ H1' _ _ Hc) as (p & Hp & Hm & _).
    assert (Hg : store_get (coll_key 10 ch) st = Ok (HASH_TABLE_OK, p)).
    { unfold store_get. rewrite (tab_get_spec _ m) by apply (sm_tab _ _ _ _ H1'). by rewrite Hm. }
    apply (Hptr p); [by eapply Hfound|by rewrite Hk]. }
  destruct op; cbn [op_target op_key] in Ht, Hkey, Hany; try (apply Hkey; rewrite !rb_key_coll; congruence).
  all: by eapply Hany.
Qed.
Lemma is_ok_inv {A} (m : res A) : is_ok m = true -> exists a, m = Ok a.
Proof. destruct m as [a|]; [by exists a|done]. Qed.
(** The addresses of the demo's two bearers after three operations. *)
Definition demo_store : res (list rlc_out * rlc_store hash_table_t) := store_run 16 (take 3 demo_ops) (rlc_module_init 16 1).
Definition demo_ptr (srb : bool) : Z :=
  match demo_store with
  | Ok (_, st) => match store_get (rb_key demo_ctxt 1 srb) st with Ok (_, p) => p | Err _ => 0 end
  | Err _ => 0
  end.
Definition demo_op : rlc_op := Op_data_req demo_env demo_ctxt false 1 0 2 [7; 8].
Lemma rlc_isolation_witness :
  exists (st st' : rlc_store hash_table_t) o outs,
    demo_store = Ok (outs, st) /\ store_step 16 demo_op st = Ok (o, st') /\
    store_entity demo_ctxt 1 true st' = store_entity demo_ctxt 1 true st.
Proof.
  destruct (is_ok_inv demo_store ltac:(vm_compute; reflexivity)) as [[outs st] E1].
  assert (E2 : is_ok ('(_, st) ← demo_store; store_step 16 demo_op st) = true) by (vm_compute; reflexivity).
  rewrite E1 in E2. apply is_ok_inv in E2 as [[o st'] E2]. cbn [mbind res_bind] in E2.
  exists st, st', o, outs. split; [exact E1|]. split; [exact E2|].
  apply (rlc_isolation 16 1 (take 3 demo_ops) demo_op demo_ctxt 1 true outs st o st').
  - vm_compute. reflexivity.
  - cbn. lia.
  - exact E1.
  - exact E2.
  - vm_compute. discriminate.
  - intros p Hp Hp2.
    assert (Ht : demo_ptr true = 1) by (vm_compute; reflexivity).
    assert (Hf : demo_ptr false = 2) by (vm_compute; reflexivity).
    unfold demo_ptr in Ht, Hf. rewrite E1 in Ht, Hf. rewrite Hp in Ht. cbn [op_key demo_op] in Hp2.
    rewrite Hp2 in Hf. congruence.
Defined.
