(* ===== verification/RlcDispatchSpec.v ===== *)
(** * What the dispatch does and does not do

    Transport blocks through MAC's buffer, and the requests of RRC that go wrong. *)

From S2P Require Import Prelude HashTable RlcAmTypes.
From S2P Require Import RlcAmEntity RlcAm RlcUmTypes RlcUm RlcTm RlcStore RlcDispatch RlcStoreSpec.

(** ** MAC's buffer *)
Section buffer.
Context (k : Z) (Hk : 0 < k).

Definition tb_of_size (tb : mac_tb) : Prop := tb_size tb = k /\ k <= Z.of_nat (length (data_ptr tb)).
Definition tb_bytes (tb : mac_tb) : list Z := take (Z.to_nat k) (data_ptr tb).

Lemma tb_bytes_length tb : tb_of_size tb -> length (tb_bytes tb) = Z.to_nat k.
Proof. intros [_ H]. apply length_take_le. lia. Qed.

Lemma serialize_loop_ok tbs : forall buffer off,
  Forall tb_of_size tbs -> 0 <= off -> off + k * Z.of_nat (length tbs) <= Z.of_nat (length buffer) ->
  Z.of_nat (length buffer) < 2 ^ 31 ->
  serialize_loop buffer off tbs =
    Ok (off + k * Z.of_nat (length tbs),
        take (Z.to_nat off) buffer ++ concat (map tb_bytes tbs) ++
        drop (Z.to_nat (off + k * Z.of_nat (length tbs))) buffer).
Proof.
  induction tbs as [|tb tbs IH]; intros buffer off Ht Ho Hl Hb; cbn [serialize_loop length map concat].
  { rewrite Z.mul_0_r, Z.add_0_r. simpl. by rewrite take_drop. }
  apply Forall_cons_1 in Ht as [Htb Ht]. assert (Hlen := tb_bytes_length tb Htb). destruct Htb as [Hsz Hd].
  cbn [length] in Hl. rewrite Hsz, mem_read_ok by lia. cbn [mbind res_bind]. change (Z.to_nat 0) with 0%nat. rewrite drop_0.
  fold (tb_bytes tb). unfold mem_write.
  rewrite (proj2 (Z.leb_le 0 off)) by lia.
  rewrite (proj2 (Z.leb_le _ _)) by lia. cbn [andb mbind res_bind].
  assert (Hi : i32 (off + k) = off + k) by (apply wraps_small; [done|simpl; lia]).
  rewrite Hi. set (buf := take (Z.to_nat off) buffer ++ tb_bytes tb ++ drop (Z.to_nat off + length (tb_bytes tb)) buffer).
  assert (Hbl : length buf = length buffer).
  { unfold buf. rewrite !length_app, length_take, length_drop, Hlen. lia. }
  rewrite IH by (try done; lia). f_equal.
  assert (Ht1 : take (Z.to_nat (off + k)) buf = take (Z.to_nat off) buffer ++ tb_bytes tb).
  { unfold buf. rewrite app_assoc. apply take_app_length'. rewrite length_app, length_take, Hlen. lia. }
  assert (Ht2 : forall n, (Z.to_nat (off + k) <= n)%nat -> drop n buf = drop n buffer).
  { intros n Hn. unfold buf. rewrite app_assoc.
    rewrite drop_app_ge by (rewrite length_app, length_take, Hlen; lia).
    rewrite drop_drop. f_equal. rewrite length_app, length_take, Hlen. lia. }
  rewrite Ht1, Ht2 by lia. f_equal; [lia|]. rewrite <- !app_assoc. f_equal. f_equal. f_equal. f_equal. lia.
Qed.

Lemma deserialize_loop_ok n : forall i buffer nb off,
  0 <= off -> off + k * Z.of_nat n <= Z.of_nat (length buffer) -> Z.of_nat (length buffer) < 2 ^ 31 ->
  0 <= nb -> nb + Z.of_nat n < 2 ^ 32 ->
  deserialize_loop (fun _ => true) i buffer k n None nb off =
    Ok (map (fun j => Mk_rx_tb (take (Z.to_nat k) (drop (Z.to_nat (off + k * Z.of_nat j)) buffer)) (u16 k) 0) (seq 0 n),
        nb + Z.of_nat n).
Proof.
  induction n as [|n IH]; intros i buffer nb off Ho Hl Hb Hn Hn2; cbn [deserialize_loop seq map].
  { rewrite Z.add_0_r. done. }
  cbn [mbind res_bind]. rewrite mem_read_ok by lia. cbn [mbind res_bind].
  assert (Hi : i32 (off + k) = off + k) by (apply wraps_small; [done|simpl; lia]).
  assert (Hu : u32 (nb + 1) = nb + 1) by (apply wrapu_small; lia).
  rewrite Hi, Hu, IH by lia. cbn [mbind res_bind]. do 2 f_equal; [|lia].
  rewrite Z.mul_0_r, Z.add_0_r. f_equal. rewrite <- seq_shift, map_map. apply map_ext. intros j.
  f_equal. f_equal. f_equal. lia.
Qed.

Lemma chunk_at tbs : forall j tb rest,
  Forall tb_of_size tbs -> tbs !! j = Some tb ->
  take (Z.to_nat k) (drop (Z.to_nat (k * Z.of_nat j)) (concat (map tb_bytes tbs) ++ rest)) = tb_bytes tb.
Proof.
  induction tbs as [|tb0 tbs IH]; intros j tb rest Ht Hj; [done|].
  apply Forall_cons_1 in Ht as [Htb Ht]. assert (Hlen := tb_bytes_length tb0 Htb).
  cbn [map concat]. rewrite <- app_assoc. destruct j as [|j]; simpl in Hj.
  - injection Hj as ->. rewrite Z.mul_0_r. change (Z.to_nat 0) with 0%nat. rewrite drop_0. by apply take_app_length'.
  - rewrite drop_app_ge by nia. replace (Z.to_nat (k * Z.of_nat (S j)) - length (tb_bytes tb0))%nat
      with (Z.to_nat (k * Z.of_nat j)) by nia. by apply IH.
Qed.
End buffer.

(** What is written is what is read. *)
Lemma tb_carried k tbs buffer :
  0 < k < 8192 -> Forall (tb_of_size k) tbs -> k * Z.of_nat (length tbs) <= Z.of_nat (length buffer) ->
  Z.of_nat (length buffer) < 2 ^ 31 ->
  exists buffer', mac_rlc_serialize_tb buffer tbs = Ok (k * Z.of_nat (length tbs), buffer') /\
    drop (Z.to_nat (k * Z.of_nat (length tbs))) buffer' = drop (Z.to_nat (k * Z.of_nat (length tbs))) buffer /\
    mac_rlc_deserialize_tb (fun _ => true) buffer' k (Z.of_nat (length tbs)) None =
      Ok (Mk_data_ind (map (fun tb => Mk_rx_tb (tb_bytes k tb) k 0) tbs) (u16 (Z.of_nat (length tbs))) (8 * k)).
Proof.
  intros Hk Ht Hl Hb. unfold mac_rlc_serialize_tb. rewrite (serialize_loop_ok k) by (try done; lia).
  set (n := length tbs) in *. rewrite Z.add_0_l. change (Z.to_nat 0) with 0%nat. rewrite take_0. cbn [app].
  set (buf := concat (map (tb_bytes k) tbs) ++ drop (Z.to_nat (k * Z.of_nat n)) buffer).
  assert (Hc : forall l, Forall (tb_of_size k) l -> length (concat (map (tb_bytes k) l)) = (Z.to_nat k * length l)%nat).
  { induction 1 as [|tb l Htb _ IH]; cbn [map concat length]; [lia|].
    rewrite length_app, IH, tb_bytes_length by (try done; lia). lia. }
  assert (Hcn := Hc tbs Ht). fold n in Hcn.
  assert (Hlen : length buf = length buffer) by (unfold buf; rewrite length_app, length_drop, Hcn; nia).
  exists buf. split; [done|]. split.
  { unfold buf. rewrite drop_app_ge by nia. rewrite drop_drop. f_equal. nia. }
  unfold mac_rlc_deserialize_tb. rewrite Nat2Z.id, (deserialize_loop_ok k) by lia. cbn [mbind res_bind].
  assert (H8 : u16 (Z.shiftl k 3) = 8 * k).
  { rewrite Z.shiftl_mul_pow2 by lia. change (2 ^ 3) with 8. unfold u16. rewrite wrapu_small by lia. lia. }
  assert (Hu : u16 k = k) by (apply wrapu_small; lia).
  rewrite H8, Hu, Z.add_0_l. do 2 f_equal.
  apply list_eq. intros j. rewrite !list_lookup_fmap.
  destruct (decide (j < n)%nat) as [Hj|Hj].
  2:{ rewrite lookup_seq_ge by lia. rewrite (lookup_ge_None_2 tbs) by (fold n; lia). done. }
  rewrite lookup_seq_lt by lia. destruct (lookup_lt_is_Some_2 tbs j Hj) as [tb Htb]. rewrite Htb. simpl. do 2 f_equal.
  unfold buf. apply chunk_at; [lia|done|done].
Qed.

(** MAC's buffer carries transport blocks of fewer than 8192 bytes. Blocks of one size
    k, 0 < k < 8192, written to a buffer that is large enough (and below 2^31 bytes) are
    read back from it, in order, each with the bytes of its size, with their number and
    their size in bits, when the memory for them is there; the rest of the buffer is not
    touched. From 8192 bytes on the size in bits, an unsigned short (rlc_mac.c:88), wraps:
    see the findings. *)
Theorem tb_roundtrip k tbs buffer :
  0 < k < 8192 -> Forall (tb_of_size k) tbs -> k * Z.of_nat (length tbs) <= Z.of_nat (length buffer) ->
  Z.of_nat (length buffer) < 2 ^ 31 ->
  exists buffer', mac_rlc_serialize_tb buffer tbs = Ok (k * Z.of_nat (length tbs), buffer') /\
    drop (Z.to_nat (k * Z.of_nat (length tbs))) buffer' = drop (Z.to_nat (k * Z.of_nat (length tbs))) buffer /\
    mac_rlc_deserialize_tb (fun _ => true) buffer' k (Z.of_nat (length tbs)) None =
      Ok (Mk_data_ind (map (fun tb => Mk_rx_tb (tb_bytes k tb) k 0) tbs) (u16 (Z.of_nat (length tbs))) (8 * k)).
Proof. apply tb_carried. Qed.
Lemma tb_roundtrip_witness :
  exists buffer', mac_rlc_serialize_tb [0; 0; 0; 0; 9] [Mk_mac_tb [1; 2; 3] 2; Mk_mac_tb [4; 5] 2] = Ok (4, buffer') /\
    mac_rlc_deserialize_tb (fun _ => true) buffer' 2 2 None = Ok (Mk_data_ind [Mk_rx_tb [1; 2] 2 0; Mk_rx_tb [4; 5] 2 0] 2 16).
Proof.
  destruct (tb_roundtrip 2 [Mk_mac_tb [1; 2; 3] 2; Mk_mac_tb [4; 5] 2] [0; 0; 0; 0; 9]) as (b & H1 & _ & H2);
    [lia| |cbn; lia|cbn; lia|exists b; split; [exact H1|exact H2]].
  repeat (apply Forall_cons; split); try apply Forall_nil_2; split; cbn; lia.
Defined.

(** ** A logical channel in use *)
Section collision.
Context {T : Type} `{!Table T}.
Implicit Types (st : rlc_store T) (sp : rlc_spec).

Lemma get_key t m k st : tab_refines t m -> rlc_coll st = t ->
  store_get k st = Ok (match m !! k with Some d => (HASH_TABLE_OK, d) | None => (HASH_TABLE_KEY_NOT_EXISTS, 0) end).
Proof. intros H <-. unfold store_get. by apply tab_get_spec. Qed.

(** What is left when the second insertion overwrites. *)
Lemma add_overwrites n_ue mem c srb rb lc md st sp id u :
  store_refines st sp -> id_ok (id_of c rb srb) -> id_ok (id_of c lc srb) -> rb < NB_RB_MAX -> lc < RLC_MAX_LC n_ue ->
  mem = Mk_add_mem true true true -> bearers sp !! id_of c rb srb = None ->
  channels sp !! id_of c lc srb = Some id -> bearers sp !! id = Some u ->
  exists st' q p, rrc_rlc_add_rlc n_ue mem c srb false rb lc md st = Ok (0, st') /\
    heap st' !! q = None /\ heap st' !! p = Some (rb_free_rlc_union u) /\
    store_get (rb_key c rb srb) st' = Ok (HASH_TABLE_OK, q) /\
    store_get (lcid_key c lc srb) st' = Ok (HASH_TABLE_OK, q) /\
    store_get (coll_key 5 id) st' = Ok (HASH_TABLE_OK, p).
Proof.
  intros (m & ptrs & H) Hid Hch Hrb Hlc -> Hb Hc Hu. unfold rrc_rlc_add_rlc.
  rewrite (proj2 (Z.ltb_lt _ _) Hrb), (proj2 (Z.ltb_lt _ _) Hlc). cbn [assert_that mbind res_bind].
  rewrite rb_key_coll, lcid_key_coll.
  destruct (sm_bearer _ _ _ _ H _ _ Hu) as (p & Hp & Hh & Hm & Hok).
  destruct (sm_ptr _ _ _ _ H _ _ Hp) as [_ Hpos].
  assert (H5 : m !! coll_key 5 (id_of c rb srb) = None).
  { rewrite (rb_lookup _ _ _ _ _ H Hid). by apply (ptrs_bearer _ _ _ _ _ H). }
  assert (H10 : m !! coll_key 10 (id_of c lc srb) = Some p) by (by rewrite (lcid_lookup _ _ _ _ _ H Hch), Hc).
  rewrite (get_key _ m _ st (sm_tab _ _ _ _ H) eq_refl), H5. cbn [mbind res_bind].
  cbn [HASH_TABLE_OK HASH_TABLE_KEY_NOT_EXISTS Z.eqb Pos.eqb]. unfold store_calloc. cbn [calloc_ok node_ok node_lcid_ok].
  set (q := heap_next st). set (st0 := st <| heap := _ |> <| heap_next := _ |>).
  destruct (insert_new true (coll_key 5 (id_of c rb srb)) q st0 m (sm_tab _ _ _ _ H) H5 eq_refl) as (t1 & E1 & Ht1).
  rewrite E1. cbn [mbind res_bind]. set (st1 := st0 <| rlc_coll := t1 |> <| heap := heap st0 |>).
  destruct (tab_insert_spec true t1 (<[coll_key 5 (id_of c rb srb) := q]> m) (coll_key 10 (id_of c lc srb)) q Ht1)
    as (t2 & E2 & Ht2); [by right|].
  assert (Hne : coll_key 5 (id_of c rb srb) <> coll_key 10 (id_of c lc srb))
    by (intros E; by apply coll_key_inj in E as [? _]).
  rewrite lookup_insert_ne, H10 in E2 by done.
  unfold store_insert. change (rlc_coll st1) with t1. rewrite E2. cbn [mbind res_bind].
  unfold free_data. destruct (Z.eqb_spec p 0); [lia|]. cbn [free_unions].
  change (heap st1) with (<[q := Union_none]> (heap st)).
  assert (Hpq : p <> q) by (unfold q; lia).
  rewrite lookup_insert_ne, Hh by done. cbn [deref mbind res_bind].
  cbn [HASH_TABLE_OK HASH_TABLE_INSERT_OVERWRITTEN_DATA Z.eqb andb].
  eexists _, q, p. split; [reflexivity|]. cbn [store_free heap update_field].
  split; [apply lookup_delete_eq|]. split; [by rewrite lookup_delete_ne, lookup_insert_eq by done|].
  rewrite !(get_key t2 _ _ _ Ht2) by done. split; [|split].
  - rewrite lookup_insert_ne, lookup_insert_eq by done. done.
  - by rewrite lookup_insert_eq.
  - rewrite !lookup_insert_ne; [by rewrite Hm| |].
    + intros E. apply coll_key_inj in E as [_ <-]; [congruence|done|done].
    + intros E. by apply coll_key_inj in E as [? _].
Qed.
End collision.

(** A logical channel that is in use.  A request to add a bearer with the logical channel of
    another bearer of the same UE returns NULL, but has already cleaned up the entity of the other
    bearer, which keeps its own key, and leaves the entity it has freed under the keys of the new
    bearer and of the channel: the next data request to the new bearer, and the next
    transmission opportunity of the channel, use freed memory. *)
Theorem lcid_collision {T} `{!Table T} n_ue c rb lc srb md (st : rlc_store T) sp id u :
  store_refines st sp -> id_ok (id_of c rb srb) -> id_ok (id_of c lc srb) -> rb < NB_RB_MAX -> lc < RLC_MAX_LC n_ue ->
  bearers sp !! id_of c rb srb = None -> channels sp !! id_of c lc srb = Some id -> bearers sp !! id = Some u ->
  exists st', rrc_rlc_add_rlc n_ue (Mk_add_mem true true true) c srb false rb lc md st = Ok (0, st') /\
    (forall c' rb' srb', id_of c' rb' srb' = id -> store_entity c' rb' srb' st' = Ok (Some (rb_free_rlc_union u))) /\
    (forall e mui size sdu, 0 < size -> rlc_data_req e c srb false rb mui size sdu st' = Err UndefinedBehaviour) /\
    (forall e tb_size buffer, lc < NB_RB_MAX -> lcid_srb_flag lc = srb ->
       mac_rlc_data_req e c false lc tb_size buffer st' = Err UndefinedBehaviour).
Proof.
  intros H Hid Hch Hrb Hlc Hb Hc Hu.
  destruct (add_overwrites n_ue _ c srb rb lc md st sp id u H Hid Hch Hrb Hlc eq_refl Hb Hc Hu)
    as (st' & q & p & E & Hq & Hp & G1 & G2 & G3).
  exists st'. split; [exact E|]. split; [|split].
  - intros c' rb' srb' <-. unfold store_entity. rewrite rb_key_coll, G3. cbn [mbind res_bind]. unfold union_at. by rewrite Hp.
  - intros e mui size sdu Hs. unfold rlc_data_req. rewrite (proj2 (Z.ltb_lt _ _) Hrb), (proj2 (Z.gtb_lt _ _) Hs).
    cbn [assert_that mbind res_bind data_req_key]. rewrite G1. cbn [mbind res_bind]. unfold union_at. by rewrite Hq.
  - intros e tb_size buffer Hlc' Hf. unfold mac_rlc_data_req. rewrite (proj2 (Z.ltb_lt _ _) Hlc').
    cbn [assert_that mbind res_bind andb]. rewrite Hf, G2. cbn [mbind res_bind]. unfold union_at. by rewrite Hq.
Qed.

(** Adding a bearer with [rrc_rlc_config_req].  The test of the result is inverted: when the bearer
    is added the request returns an internal error and the entity is left without
    configuration, as [calloc] made it. *)
Theorem config_req_add_fails {T} `{!Table T} n_ue c srb mbms rb info cm (st : rlc_store T) sp :
  store_refines st sp -> id_ok (id_of c rb srb) -> rb < NB_RB_MAX -> rb < RLC_MAX_LC n_ue ->
  bearers sp !! id_of c rb srb = None -> channels sp !! id_of c rb srb = None ->
  exists st', rrc_rlc_config_req n_ue (Mk_add_mem true true true) cm c srb mbms CONFIG_ACTION_ADD rb info st =
      Ok (RLC_OP_STATUS_INTERNAL_ERROR, st') /\
    store_entity c rb srb st' = Ok (Some (union_calloc (info_mode info))).
Proof.
  intros H Hid Hrb Hlc Hb Hc.
  assert (Ha := add_refines (Mk_add_mem true true true) c srb rb rb (info_mode info) n_ue st sp H
    (conj Hid (conj Hid (fun _ => conj eq_refl Hc)))).
  cbn [store_step spec_step] in Ha. unfold rrc_rlc_config_req.
  rewrite (proj2 (Z.ltb_lt _ _) Hrb) in *. rewrite (proj2 (Z.ltb_lt _ _) Hlc) in Ha.
  cbn [assert_that mbind res_bind] in *. rewrite Hb in Ha. destruct Ha as (st' & E & H').
  destruct (rrc_rlc_add_rlc _ _ _ _ _ _ _ _ _) as [[p st1]|]; [|done]. cbn [mbind res_bind] in *.
  injection E as Ep <-. rewrite Ep. exists st1. split; [done|].
  rewrite (store_entity_ok _ _ _ _ _ H' Hid). cbn [bearers]. by rewrite lookup_insert_eq.
Qed.

(** A store with one bearer, SRB 1 on channel 1. *)
Definition one_bearer_ops : list rlc_op := [Op_add demo_mem demo_ctxt true 1 1 RLC_MODE_AM].
Definition one_bearer_spec : rlc_spec :=
  Mk_spec {[id_of demo_ctxt 1 true := union_calloc RLC_MODE_AM]} {[id_of demo_ctxt 1 true := id_of demo_ctxt 1 true]}.
Lemma one_bearer : exists st : rlc_store hash_table_t, store_refines st one_bearer_spec.
Proof.
  assert (H := store_run_refines 16 one_bearer_ops _ _ (init_refines (T := hash_table_t) 16 1)
    ltac:(vm_compute; reflexivity)).
  assert (E : spec_run 16 one_bearer_ops spec_empty = Ok ([Out_added true], one_bearer_spec)) by (vm_compute; reflexivity).
  rewrite E in H. destruct H as (st & _ & H). by exists st.
Qed.
Lemma lcid_collision_witness :
  exists st st' : rlc_store hash_table_t,
    rrc_rlc_add_rlc 16 demo_mem demo_ctxt true false 2 1 RLC_MODE_AM st = Ok (0, st') /\
    rlc_data_req demo_env demo_ctxt true false 2 0 1 [5] st' = Err UndefinedBehaviour.
Proof.
  destruct one_bearer as [st H].
  destruct (lcid_collision 16 demo_ctxt 2 1 true RLC_MODE_AM st one_bearer_spec (id_of demo_ctxt 1 true)
    (union_calloc RLC_MODE_AM) H) as (st' & E & _ & Hd & _);
    [cbn; lia|cbn; lia|reflexivity|reflexivity|reflexivity|reflexivity|reflexivity|].
  exists st, st'. split; [exact E|]. apply Hd. lia.
Defined.
Lemma config_req_add_fails_witness :
  exists st st' : rlc_store hash_table_t,
    rrc_rlc_config_req 16 demo_mem demo_cm demo_ctxt false false CONFIG_ACTION_ADD 4 (Info_tm true) st =
      Ok (RLC_OP_STATUS_INTERNAL_ERROR, st').
Proof.
  destruct one_bearer as [st H].
  destruct (config_req_add_fails 16 demo_ctxt false false 4 (Info_tm true) demo_cm st one_bearer_spec H) as (st' & E & _);
    [cbn; lia|reflexivity|reflexivity|reflexivity|reflexivity|].
  exists st, st'. exact E.
Defined.

(** The bearers of MBMS all have [HASHTABLE_NOT_A_KEY_VALUE] as their second key: the second one
    overwrites the first, and the request stops the process. *)
Example mbms_second_session_aborts :
  let c := Mk_rlc_ctxt 0 65533 (Mk_ctxt 3 1 true) in
  is_ok (rrc_rlc_config_asn1_req (T := hash_table_t) 1 demo_mem demo_cm c [] [] [] [[Mk_mbms 1 2]] (rlc_module_init 1 1)) = true /\
  rrc_rlc_config_asn1_req (T := hash_table_t) 1 demo_mem demo_cm c [] [] [] [[Mk_mbms 1 2; Mk_mbms 2 2]] (rlc_module_init 1 1) =
    Err FatalAssert.
Proof. split; vm_compute; reflexivity. Qed.

(** [rlc_stat_req] on a UM bearer. *)
Example um_stat_req_undefined :
  match ('(_, st) ← rrc_rlc_add_rlc 16 demo_mem demo_ctxt false false 2 4 RLC_MODE_UM (rlc_module_init (T := hash_table_t) 16 1);
         rlc_stat_req demo_ctxt false 2 st) with
  | Ok _ => False
  | Err f => f = UndefinedBehaviour
  end.
Proof. vm_compute. reflexivity. Qed.
