(* ===== verification/RlcLink.v ===== *)
(** * A UM bearer from the sublayer of a UE to that of an eNB

    PDCP's requests at the UE, MAC's grants, the bytes that go through MAC's buffer, and MAC's
    indications at the eNB, with everything between: the tables of entities, the dispatch, segmentation
    and reassembly. *)

From S2P Require Import Prelude HashTable RlcAmTypes RlcTimers.
From S2P Require Import RlcUmTypes RlcUmLi RlcUmReassembly RlcUmDelivery RlcUmSegment RlcUm RlcUmLossy RlcUmSender RlcUmTransfer.
From S2P Require Import RlcStore RlcDispatch RlcStoreSpec RlcDispatchSpec.

(** ** Events *)
Inductive link_event :=
| Link_sdu (e : rlc_env) (c : rlc_ctxt_t) (size : Z) (sdu : list Z)
| Link_grant (e : rlc_env) (c : rlc_ctxt_t) (tb_size : Z) (buffer : list Z) (e' : rlc_env) (c' : rlc_ctxt_t).

(** The bytes that the UE writes for a grant are what the eNB's MAC hands to its RLC, if any. *)
Definition link_step {T T'} `{!Table T} `{!Table T'} (srb : bool) (rb lc : Z) (ev : link_event)
    (s : rlc_store T * rlc_store T') : res (rlc_store T * rlc_store T') :=
  let '(ue, enb) := s in
  match ev with
  | Link_sdu e c size sdu =>
      '(_, ue) ← rlc_data_req e c srb false rb 0 size sdu ue;
      Ok (ue, enb)
  | Link_grant e c tb_size buffer e' c' =>
      '(n, buffer, ue) ← mac_rlc_data_req e c false lc tb_size buffer ue;
      if n =? 0 then Ok (ue, enb)
      else
        enb ← mac_rlc_data_ind e' c' false lc buffer n 1 None enb;
        Ok (ue, enb)
  end.
Fixpoint link_run {T T'} `{!Table T} `{!Table T'} (srb : bool) (rb lc : Z) (evs : list link_event)
    (s : rlc_store T * rlc_store T') : res (rlc_store T * rlc_store T') :=
  match evs with
  | [] => Ok s
  | ev :: evs =>
      s ← link_step srb rb lc ev s;
      link_run srb rb lc evs s
  end.

(** What they are for the two entities. *)
Definition link_tx (ev : link_event) : um_tx_event :=
  match ev with
  | Link_sdu _ c size sdu => TxSdu (ctxt c) (Mk_um_data_req size (take (Z.to_nat size) sdu))
  | Link_grant e _ tb_size _ _ _ => TxOpportunity tb_size (env_block e) false
  end.
Definition link_rx (ev : link_event) (tbs : list mac_tb) (r : rlc_um_entity_t) : res rlc_um_entity_t :=
  match ev, tbs with
  | Link_grant _ _ _ _ _ c', _ :: _ => rlc_um_mac_data_indication (mac_ctxt (ctxt c')) tbs r
  | _, _ => Ok r
  end.
Fixpoint um_link_run (evs : list link_event) (s r : rlc_um_entity_t) : res (rlc_um_entity_t * rlc_um_entity_t) :=
  match evs with
  | [] => Ok (s, r)
  | ev :: evs =>
      '(tbs, s) ← um_tx_step (link_tx ev) s;
      r ← link_rx ev tbs r;
      um_link_run evs s r
  end.

(** The events are for the bearer [idU] with channel [chU] of the UE and the channel [chB] of the
    eNB; there is memory, and MAC's buffer holds what it grants. *)
Definition link_event_ok (srb : bool) (rb lc : Z) (idU chU chB : rlc_id) (ev : link_event) : Prop :=
  match ev with
  | Link_sdu e c size sdu => id_of c rb srb = idU /\ env_new_sdu e = true /\ size <= Z.of_nat (length sdu)
  | Link_grant e c tb_size buffer e' c' =>
      id_of c lc srb = chU /\ enb_flag (ctxt c) = false /\ id_of c' lc srb = chB /\
      (forall i, env_tb_ok e' i = true) /\ tb_size < 8192 /\ tb_size <= Z.of_nat (length buffer) < 2 ^ 31
  end.

(** ** The receiver's run, in order *)
Lemma um_link_in_order evs : forall k s r tbs s' all,
  um_tx_run (map link_tx evs) s = Ok (tbs, s') ->
  (forall j, (j < length tbs)%nat -> all !! (k + j)%nat = tbs !! j) ->
  exists es, um_arrivals es = seqZ (Z.of_nat k) (Z.of_nat (length tbs)) /\
    um_link_run evs s r = (r ← um_rx_run all es r; Ok (s', r)).
Proof.
  induction evs as [|ev evs IH]; intros k s r tbs s' all; cbn [map um_tx_run um_link_run].
  { intros [= <- <-] _. exists []. done. }
  destruct (um_tx_step (link_tx ev) s) as [[t1 s1]|] eqn:E1; [|done]. cbn [mbind res_bind].
  destruct (um_tx_run (map link_tx evs) s1) as [[t2 s2]|] eqn:E2; [|done]. cbn [mbind res_bind].
  intros [= <- <-] Hall. rewrite length_app in Hall.
  assert (Hall2 : forall j, (j < length t2)%nat -> all !! (k + length t1 + j)%nat = t2 !! j).
  { intros j Hj. replace (k + length t1 + j)%nat with (k + (length t1 + j))%nat by lia.
    rewrite Hall by lia. rewrite lookup_app_r by lia. f_equal. lia. }
  assert (Hseq : seqZ (Z.of_nat k) (Z.of_nat (length (t1 ++ t2))) =
    seqZ (Z.of_nat k) (Z.of_nat (length t1)) ++ seqZ (Z.of_nat (k + length t1)) (Z.of_nat (length t2))).
  { rewrite length_app, Nat2Z.inj_add, seqZ_app by lia. by rewrite Nat2Z.inj_add. }
  destruct (IH (k + length t1)%nat s1 (match link_rx ev t1 r with Ok r1 => r1 | Err _ => r end) t2 s2 all E2 Hall2)
    as (es & Ha & Hrun).
  destruct t1 as [|tb t1].
  { exists es. rewrite Hseq, Ha. split; [done|].
    assert (Er : link_rx ev [] r = Ok r) by (by destruct ev). rewrite Er in Hrun |- *. exact Hrun. }
  destruct ev as [|e c n b e' c']; [cbn [link_tx um_tx_step] in E1; by injection E1|].
  exists (RxInd (mac_ctxt (ctxt c')) (seqZ (Z.of_nat k) (Z.of_nat (length (tb :: t1)))) :: es).
  split; [unfold um_arrivals in *; cbn [map concat um_arrived]; by rewrite Ha, Hseq|].
  cbn [um_rx_run um_rx_step mbind res_bind].
  assert (Hmap : map (um_nth all) (seqZ (Z.of_nat k) (Z.of_nat (length (tb :: t1)))) = tb :: t1).
  { apply list_eq. intros j. rewrite list_lookup_fmap.
    destruct (decide (j < length (tb :: t1))%nat) as [Hj|Hj].
    - rewrite lookup_seqZ_lt by lia. cbn [fmap option_fmap option_map]. unfold um_nth.
      replace (Z.to_nat (Z.of_nat k + Z.of_nat j)) with (k + j)%nat by lia.
      rewrite Hall by lia. rewrite lookup_app_l by done.
      destruct (lookup_lt_is_Some_2 (tb :: t1) j Hj) as [x ->]. done.
    - rewrite lookup_seqZ_ge by lia. rewrite lookup_ge_None_2 by lia. done. }
  rewrite Hmap. cbn [link_rx] in Hrun |- *.
  by destruct (rlc_um_mac_data_indication (mac_ctxt (ctxt c')) (tb :: t1) r).
Qed.

(** ** The stores do what the two entities do *)
Section link.
Context {T T' : Type} `{!Table T} `{!Table T'}.
Context (srb : bool) (rb lc : Z) (idU chU idB chB : rlc_id).
Context (Hrb : rb < NB_RB_MAX) (Hlc : lc < NB_RB_MAX) (Hsrb : lcid_srb_flag lc = srb).
Context (HokU : id_ok idU) (HchU : id_ok chU) (HchB : id_ok chB).

(** The bearer of the UE, found by its key and by its channel. *)
Definition has_um (sp : rlc_spec) (id ch : rlc_id) (r : rlc_um_entity_t) : Prop :=
  bearers sp !! id = Some (Union_um r) /\ channels sp !! ch = Some id.

Lemma has_um_set sp id ch r r' : has_um sp id ch r -> has_um (spec_set id (Union_um r') sp) id ch r'.
Proof. intros [H1 H2]. split; [|done]. cbn. apply lookup_insert_eq. Qed.
Lemma spec_set_set id u u' sp : spec_set id u' (spec_set id u sp) = spec_set id u' sp.
Proof. unfold spec_set. cbn. by rewrite insert_insert_eq. Qed.
Lemma has_um_channel sp id ch r : has_um sp id ch r -> channel_entity ch sp = Some (id, Union_um r).
Proof. intros [H1 H2]. unfold channel_entity. by rewrite H2, H1. Qed.

Lemma link_sdu_ok (ue : rlc_store T) sp s e c size sdu :
  store_refines ue sp -> has_um sp idU chU s -> link_event_ok srb rb lc idU chU chB (Link_sdu e c size sdu) ->
  0 < size ->
  exists ue', rlc_data_req e c srb false rb 0 size sdu ue = Ok (RLC_OP_STATUS_OK, ue') /\
    store_refines ue' (spec_set idU
      (Union_um (rlc_um_data_req (ctxt c) (Mk_um_data_req size (take (Z.to_nat size) sdu)) s)) sp).
Proof.
  intros H [Hb _] (Hid & Henv & Hlen) Hsz.
  assert (Hs := data_req_refines e c srb rb 0 size sdu 0 ue sp H). rewrite Hid in Hs. specialize (Hs HokU).
  cbn [store_step spec_step] in Hs. rewrite Hid, Hb in Hs.
  rewrite (proj2 (Z.ltb_lt _ _) Hrb), (proj2 (Z.gtb_lt _ _) Hsz) in Hs. cbn [assert_that mbind res_bind] in Hs.
  rewrite mem_read_ok in Hs by lia. cbn [mbind res_bind union_data_req] in Hs. rewrite Henv in Hs.
  cbn [mbind res_bind step_refines] in Hs. change (Z.to_nat 0) with 0%nat in Hs. rewrite drop_0 in Hs.
  destruct Hs as (st' & E & H'). destruct (rlc_data_req _ _ _ _ _ _ _ _ _) as [[rc ue']|]; [|done].
  cbn [mbind res_bind] in E. injection E as -> ->. by exists st'.
Qed.

Lemma union_um_request e c tb_size s tbs s' :
  enb_flag c = false -> um_tx_step (TxOpportunity tb_size (env_block e) false) s = Ok (tbs, s') ->
  exists raw, union_mac_data_request e c tb_size (Union_um s) = Ok (raw, Union_um s') /\ tbs = map um_wire raw.
Proof.
  intros Hc. cbn [um_tx_step union_mac_data_request]. rewrite Hc.
  destruct (rlc_um_mac_data_request _ _ _) as [[resp s1]|]; [|done]. cbn [mbind res_bind].
  intros [= <- <-]. by exists (mdr_data resp).
Qed.

(** A grant: what is written, and what is read of it. *)
Lemma link_grant_ok (ue : rlc_store T) (enb : rlc_store T') spU spB s r e c tb_size buffer e' c' tbs s' r' :
  store_refines ue spU -> has_um spU idU chU s -> store_refines enb spB -> has_um spB idB chB r ->
  link_event_ok srb rb lc idU chU chB (Link_grant e c tb_size buffer e' c') ->
  um_grant_ok tb_size tbs ->
  um_tx_step (TxOpportunity tb_size (env_block e) false) s = Ok (tbs, s') ->
  link_rx (Link_grant e c tb_size buffer e' c') tbs r = Ok r' ->
  exists ue' enb', link_step srb rb lc (Link_grant e c tb_size buffer e' c') (ue, enb) = Ok (ue', enb') /\
    store_refines ue' (spec_set idU (Union_um s') spU) /\ store_refines enb' (spec_set idB (Union_um r') spB).
Proof.
  intros HU HsU HB HsB (Hid & Henb & Hid' & Hok & Hsz & Hbuf) Hg Htx Hrx.
  destruct (union_um_request e (mac_ctxt (ctxt c)) tb_size s tbs s' Henb Htx) as (raw & Eraw & ->).
  assert (Hs := mac_data_req_refines e c lc tb_size buffer 0 ue spU HU). rewrite Hsrb, Hid in Hs. specialize (Hs HchU).
  cbn [store_step spec_step] in Hs. rewrite Hsrb, Hid, (has_um_channel _ _ _ _ HsU) in Hs.
  rewrite (proj2 (Z.ltb_lt _ _) Hlc) in Hs. cbn [assert_that mbind res_bind] in Hs. rewrite Eraw in Hs. cbn [mbind res_bind] in Hs.
  cbn [link_step].
  destruct raw as [|tb [|]]; [| |done].
  - unfold mac_rlc_serialize_tb in Hs. cbn [serialize_loop mbind res_bind step_refines] in Hs.
    destruct Hs as (st' & E & H'). destruct (mac_rlc_data_req _ _ _ _ _ _ _) as [[[n b] ue']|]; [|done].
    cbn [mbind res_bind] in E. injection E as -> _ ->. cbn [mbind res_bind]. rewrite Z.eqb_refl.
    exists st', enb. split; [done|]. split; [exact H'|]. cbn [link_rx map] in Hrx. injection Hrx as <-.
    rewrite spec_set_id by apply HsB. exact HB.
  - cbn [map um_wire um_grant_ok RlcAmTypes.tb_size data_ptr] in Hg. destruct Hg as [Hpos Hlen].
    set (k := RlcAmTypes.tb_size tb) in *.
    assert (Htb : Forall (tb_of_size k) [tb]).
    { apply Forall_singleton. split; [done|]. rewrite length_take in Hlen. lia. }
    destruct (tb_carried k [tb] buffer) as (buf' & Eser & _ & Ede);
      [lia|exact Htb|cbn [length]; lia|lia|].
    rewrite Eser in Hs. cbn [length Nat.add mbind res_bind step_refines] in Hs, Eser, Ede.
    replace (k * Z.of_nat 1) with k in * by lia.
    destruct Hs as (st' & E & H'). destruct (mac_rlc_data_req _ _ _ _ _ _ _) as [[[n b] ue']|]; [|done].
    cbn [mbind res_bind] in E. injection E as -> -> ->. cbn [mbind res_bind].
    destruct (Z.eqb_spec k 0) as [?|_]; [lia|].
    assert (Hs := mac_data_ind_refines e' c' lc buf' k 1 None 0 enb spB HB). rewrite Hsrb, Hid' in Hs. specialize (Hs HchB).
    cbn [store_step spec_step] in Hs. rewrite Hsrb, Hid', (has_um_channel _ _ _ _ HsB) in Hs.
    assert (Ede' : mac_rlc_deserialize_tb (env_tb_ok e') buf' k 1 None =
      Ok (Mk_data_ind [Mk_rx_tb (tb_bytes k tb) k 0] (u16 1) (8 * k))).
    { etrans; [|exact Ede]. unfold mac_rlc_deserialize_tb. change (Z.to_nat (Z.of_nat 1)) with 1%nat.
      change (Z.to_nat 1) with 1%nat. cbn [deserialize_loop]. by rewrite Hok. }
    rewrite Ede' in Hs. cbn [mbind res_bind union_mac_data_indication mdi_data map rx_data rx_size] in Hs.
    cbn [link_rx map] in Hrx. unfold um_wire in Hrx. fold k in Hrx. unfold tb_bytes in Hs. rewrite Hrx in Hs.
    cbn [mbind res_bind step_refines] in Hs. destruct Hs as (st2 & E2 & H2).
    destruct (mac_rlc_data_ind _ _ _ _ _ _ _ _ _) as [enb'|]; [|done]. cbn [mbind res_bind] in E2 |- *.
    injection E2 as ->. by exists st', st2.
Qed.

Lemma link_run_ok n evs : forall (ue : rlc_store T) (enb : rlc_store T') spU spB s r sdus frs s' r',
  store_refines ue spU -> has_um spU idU chU s -> store_refines enb spB -> has_um spB idB chB r ->
  um_tx_inv n sdus frs s -> um_tx_legal_run (map link_tx evs) s ->
  Forall (link_event_ok srb rb lc idU chU chB) evs ->
  um_link_run evs s r = Ok (s', r') ->
  exists ue' enb', link_run srb rb lc evs (ue, enb) = Ok (ue', enb') /\
    store_refines ue' (spec_set idU (Union_um s') spU) /\ store_refines enb' (spec_set idB (Union_um r') spB).
Proof.
  induction evs as [|ev evs IH]; intros ue enb spU spB s r sdus frs s' r' HU HsU HB HsB I Hl Hev; cbn [um_link_run link_run].
  { intros [= <- <-]. exists ue, enb. rewrite !spec_set_id by (apply HsU || apply HsB). done. }
  apply Forall_cons_1 in Hev as [He Hev]. destruct Hl as [Hl Hls].
  destruct (um_tx_step_ok n sdus frs _ s I Hl) as (fs & tbs & s1 & E1 & I1 & _).
  rewrite E1 in Hls |- *. cbn [mbind res_bind].
  destruct (link_rx ev tbs r) as [r1|] eqn:Er; [|done]. cbn [mbind res_bind]. intros Hrun.
  assert (Hstep : exists ue1 enb1, link_step srb rb lc ev (ue, enb) = Ok (ue1, enb1) /\
    store_refines ue1 (spec_set idU (Union_um s1) spU) /\ store_refines enb1 (spec_set idB (Union_um r1) spB)).
  { destruct ev as [e c size sdu|e c g b e' c'].
    - cbn [link_tx um_tx_step] in E1. injection E1 as <- <-. cbn [link_rx] in Er. injection Er as <-.
      destruct Hl as (Hl & _). cbn [um_data_size] in Hl.
      destruct (link_sdu_ok ue spU s e c size sdu HU HsU He) as (ue1 & Eu & Hu); [lia|].
      exists ue1, enb. cbn [link_step]. rewrite Eu. split; [done|]. split; [exact Hu|].
      rewrite spec_set_id by apply HsB. exact HB.
    - cbn [link_tx] in E1, Hl. destruct (um_opportunity_ok n sdus frs _ _ _ s I Hl) as (fs' & s2 & E2 & _ & _ & Hg).
      rewrite E1 in E2. injection E2 as Et _. rewrite <- Et in Hg. by eapply link_grant_ok. }
  destruct Hstep as (ue1 & enb1 & -> & HU1 & HB1). cbn [mbind res_bind].
  destruct (IH ue1 enb1 _ _ s1 r1 _ _ s' r' HU1 (has_um_set _ _ _ _ _ HsU) HB1 (has_um_set _ _ _ _ _ HsB) I1 Hls Hev Hrun)
    as (ue' & enb' & E & HU' & HB').
  exists ue', enb'. rewrite !spec_set_set in *. done.
Qed.
End link.

(** C3: A UM bearer from end to end. A UE and an eNB, each with its table of entities and
    any other bearers, have a new UM entity each on a bearer with RB and LCID < 14, the
    LCID in the class (SRB or DRB) of the bearer, both with the same sequence number
    length. PDCP gives the UE's sublayer SDUs of 1..1998 bytes (within the data passed,
    memory available, < 500,000,000 bytes queued); MAC gives grants of 0..8191 bytes while
    at most 129 SDUs are queued, with a buffer that holds the grant; the bytes written for
    each grant go to the eNB's sublayer, which has memory for them. Then no call fails;
    the eNB's entity delivers the SDUs sent completely, in order and once, byte for byte
    with 5 bit numbers and with at most two stale bytes behind each with 10 bit ones, and
    all SDUs once the UE's queue is empty; every other bearer on both sides is as it was.
    *)
Theorem um_bearer_transfer {T T'} `{!Table T} `{!Table T'} n srb rb lc idU chU idB chB (ue : rlc_store T)
    (enb : rlc_store T') spU spB s r evs :
  rb < NB_RB_MAX -> lc < NB_RB_MAX -> lcid_srb_flag lc = srb -> id_ok idU -> id_ok chU -> id_ok chB ->
  store_refines ue spU -> has_um spU idU chU s -> store_refines enb spB -> has_um spB idB chB r ->
  sn_length_ok n -> um_tx_fresh n s -> um_rx_fresh n r ->
  Forall (link_event_ok srb rb lc idU chU chB) evs -> um_tx_legal_run (map link_tx evs) s ->
  exists ue' enb' s' r' us done rest,
    link_run srb rb lc evs (ue, enb) = Ok (ue', enb') /\
    store_refines ue' (spec_set idU (Union_um s') spU) /\ store_refines enb' (spec_set idB (Union_um r') spB) /\
    upper_layer r' = upper_layer r ++ us /\
    um_sdus (map link_tx evs) = done ++ rest /\ Forall2 (um_padded n) done us /\ (n = 5 -> us = done) /\
    (input_sdus s' = [] -> rest = []).
Proof.
  intros Hrb Hlc Hsrb HokU HchU HchB HU HsU HB HsB Hn Hs Hr Hev Hl.
  destruct (um_sender_ok n (map link_tx evs) s Hn Hs Hl) as (frs & tbs & s' & E & H & He).
  destruct H as (-> & Hst & dn & rest & D1 & D2).
  destruct (um_link_in_order evs 0 s r (um_tbs n frs) s' (um_tbs n frs) E) as (es & Ha & Hrun); [done|].
  rewrite length_um_tbs in Ha. change (Z.of_nat 0) with 0 in Ha.
  destruct (um_delivered_in_order n frs es r Hn Hr (um_stream_fits _ _ Hst) Hst Ha) as (r' & Er & Hup).
  rewrite Er in Hrun. cbn [mbind res_bind] in Hrun.
  destruct (link_run_ok srb rb lc idU chU idB chB Hrb Hlc Hsrb HokU HchU HchB n evs ue enb spU spB s r [] [] s' r'
    HU HsU HB HsB (um_tx_start n s Hn Hs) Hl Hev Hrun) as (ue' & enb' & Elink & HU' & HB').
  exists ue', enb', s', r', (map snd (um_spans frs)), dn, rest. split_and!; try done.
  - intros ->. symmetry. by apply um_padded_5.
  - intros Eq. specialize (He Eq). apply Forall2_length in He, D2. rewrite D1, length_app in He.
    destruct rest; [done|]. cbn [length] in He. lia.
Qed.

(** Both sides with a data bearer 4 on channel 5 and a signalling bearer. *)
Definition link_ctxt (enb : bool) : rlc_ctxt_t := Mk_rlc_ctxt 0 4660 (Mk_ctxt 3 1 enb).
Definition link_setup (enb : bool) : list rlc_op :=
  [Op_add demo_mem (link_ctxt enb) true 1 1 RLC_MODE_AM; Op_add demo_mem (link_ctxt enb) false 4 5 RLC_MODE_UM;
   Op_config demo_cm (link_ctxt enb) false 4 5 (Config_info (Info_um (Mk_um_info 40 5 0)))].
Definition link_spec (enb : bool) : rlc_spec :=
  match spec_run 16 (link_setup enb) spec_empty with Ok (_, sp) => sp | Err _ => spec_empty end.
Lemma link_setup_ok enb : exists st : rlc_store hash_table_t, store_refines st (link_spec enb).
Proof.
  assert (Hl : ops_legal 16 (link_setup enb) spec_empty = true) by (destruct enb; vm_compute; reflexivity).
  assert (Ho : is_ok (spec_run 16 (link_setup enb) spec_empty) = true) by (destruct enb; vm_compute; reflexivity).
  assert (H := store_run_refines 16 (link_setup enb) _ _ (init_refines (T := hash_table_t) 16 1) Hl).
  unfold link_spec. destruct (spec_run _ _ _) as [[o sp]|]; [|done]. destruct H as (st & _ & H). by exists st.
Qed.
Definition link_env : rlc_env := Mk_env true [] (Some (replicate 8 255)) 0 (env_fresh demo_env) (fun _ => None) (fun _ => true) (env_cast demo_env).
Definition link_demo : list link_event :=
  [Link_sdu link_env (link_ctxt false) 3 [11; 12; 13];
   Link_grant link_env (link_ctxt false) 3 [0; 0; 0; 0] link_env (link_ctxt true);
   Link_grant link_env (link_ctxt false) 4 [0; 0; 0; 0] link_env (link_ctxt true)].
Lemma um_bearer_transfer_witness :
  exists (ue enb ue' enb' : rlc_store hash_table_t) r',
    link_run false 4 5 link_demo (ue, enb) = Ok (ue', enb') /\
    store_refines enb' (spec_set (id_of (link_ctxt true) 4 false) (Union_um r') (link_spec true)) /\
    exists dn us rest, upper_layer r' = us /\ us = dn /\ [[11; 12; 13]] = dn ++ rest.
Proof.
  destruct (link_setup_ok false) as [ue HU]. destruct (link_setup_ok true) as [enb HB].
  destruct (sample_fresh 40 5) as (Hs & Hr & Hup & _); [by right|].
  destruct (um_bearer_transfer 5 false 4 5 (id_of (link_ctxt false) 4 false) (id_of (link_ctxt false) 5 false)
    (id_of (link_ctxt true) 4 false) (id_of (link_ctxt true) 5 false) ue enb (link_spec false) (link_spec true)
    (um_sample 40 5) (um_sample 40 5) link_demo) as (ue' & enb' & s' & r' & us & dn & rest & H1 & _ & H2 & H3 & H4 & _ & H5 & _).
  - reflexivity.
  - reflexivity.
  - reflexivity.
  - cbn. lia.
  - cbn. lia.
  - cbn. lia.
  - exact HU.
  - split; vm_compute; reflexivity.
  - exact HB.
  - split; vm_compute; reflexivity.
  - by right.
  - exact Hs.
  - exact Hr.
  - repeat (apply Forall_cons; split); try apply Forall_nil_2; cbn; repeat split; lia.
  - cbn [map link_tx link_demo].
    repeat (split; [cbn -[Z.le Z.lt]; lia || (vm_compute; intuition discriminate)|
      match goal with |- match ?x with _ => _ end => let y := eval vm_compute in x in change x with y end; cbv beta iota]).
    exact I.
  - exists ue, enb, ue', enb', r'. split; [exact H1|]. split; [exact H2|]. exists dn, us, rest.
    rewrite Hup in H3. split; [exact H3|]. split; [by apply H5|]. exact H4.
Defined.
