(* ===== verification/Snow3g.v ===== *)
(** * SNOW 3G (UTIL/OSA/osa_snow3g.c, osa_rijndael.c)

    The stream cipher of the algorithms EEA1 and EIA1: a linear feedback shift register of 16
    words of 32 bits and a finite state machine of three. *)

From S2P Require Import Prelude Bits.

(** ** S-boxes *)
Definition OSA_SR : list Z :=
  [99; 124; 119; 123; 242; 107; 111; 197; 48; 1; 103; 43; 254; 215; 171; 118;
   202; 130; 201; 125; 250; 89; 71; 240; 173; 212; 162; 175; 156; 164; 114; 192;
   183; 253; 147; 38; 54; 63; 247; 204; 52; 165; 229; 241; 113; 216; 49; 21;
   4; 199; 35; 195; 24; 150; 5; 154; 7; 18; 128; 226; 235; 39; 178; 117;
   9; 131; 44; 26; 27; 110; 90; 160; 82; 59; 214; 179; 41; 227; 47; 132;
   83; 209; 0; 237; 32; 252; 177; 91; 106; 203; 190; 57; 74; 76; 88; 207;
   208; 239; 170; 251; 67; 77; 51; 133; 69; 249; 2; 127; 80; 60; 159; 168;
   81; 163; 64; 143; 146; 157; 56; 245; 188; 182; 218; 33; 16; 255; 243; 210;
   205; 12; 19; 236; 95; 151; 68; 23; 196; 167; 126; 61; 100; 93; 25; 115;
   96; 129; 79; 220; 34; 42; 144; 136; 70; 238; 184; 20; 222; 94; 11; 219;
   224; 50; 58; 10; 73; 6; 36; 92; 194; 211; 172; 98; 145; 149; 228; 121;
   231; 200; 55; 109; 141; 213; 78; 169; 108; 86; 244; 234; 101; 122; 174; 8;
   186; 120; 37; 46; 28; 166; 180; 198; 232; 221; 116; 31; 75; 189; 139; 138;
   112; 62; 181; 102; 72; 3; 246; 14; 97; 53; 87; 185; 134; 193; 29; 158;
   225; 248; 152; 17; 105; 217; 142; 148; 155; 30; 135; 233; 206; 85; 40; 223;
   140; 161; 137; 13; 191; 230; 66; 104; 65; 153; 45; 15; 176; 84; 187; 22].
Definition OSA_SQ : list Z :=
  [37; 36; 115; 103; 215; 174; 92; 48; 164; 238; 110; 203; 125; 181; 130; 219;
   228; 142; 72; 73; 79; 93; 106; 120; 112; 136; 232; 95; 94; 132; 101; 226;
   216; 233; 204; 237; 64; 47; 17; 40; 87; 210; 172; 227; 74; 21; 27; 185;
   178; 128; 133; 166; 46; 2; 71; 41; 7; 75; 14; 193; 81; 170; 137; 212;
   202; 1; 70; 179; 239; 221; 68; 123; 194; 127; 190; 195; 159; 32; 76; 100;
   131; 162; 104; 66; 19; 180; 65; 205; 186; 198; 187; 109; 77; 113; 33; 244;
   141; 176; 229; 147; 254; 143; 230; 207; 67; 69; 49; 34; 55; 54; 150; 250;
   188; 15; 8; 82; 29; 85; 26; 197; 78; 35; 105; 122; 146; 255; 91; 90;
   235; 154; 28; 169; 209; 126; 13; 252; 80; 138; 182; 98; 245; 10; 248; 220;
   3; 60; 12; 57; 241; 184; 243; 61; 242; 213; 151; 102; 129; 50; 160; 0;
   6; 206; 246; 234; 183; 23; 247; 140; 121; 214; 167; 191; 139; 63; 31; 83;
   99; 117; 53; 44; 96; 253; 39; 211; 148; 165; 124; 161; 5; 88; 45; 189;
   217; 199; 175; 107; 84; 11; 224; 56; 4; 200; 157; 231; 20; 177; 135; 156;
   223; 111; 249; 218; 42; 196; 89; 22; 116; 145; 171; 38; 97; 118; 52; 43;
   173; 153; 251; 114; 236; 51; 18; 222; 152; 59; 192; 155; 62; 24; 16; 58;
   86; 225; 119; 201; 30; 158; 149; 163; 144; 25; 168; 108; 9; 208; 240; 134].
(** The index is a [uint8_t] and the table has 256 entries. *)
Definition sbox (t : list Z) (i : Z) : Z := nth (Z.to_nat (u8 i)) t 0.

(** ** Multiplications on bytes *)
Definition OSA_MULx (V c : Z) : Z :=
  if truthy (Z.land V 128) then u8 (Z.lxor (Z.shiftl V 1) c) else u8 (Z.shiftl V 1).
Fixpoint OSA_MULxPOW (V : Z) (i : nat) (c : Z) : Z :=
  match i with
  | O => V
  | S i => OSA_MULx (OSA_MULxPOW V i c) c
  end.

(** Four bytes, the most significant first. *)
Definition word (b3 b2 b1 b0 : Z) : Z :=
  Z.lor (Z.lor (Z.lor (Z.shiftl b3 24) (Z.shiftl b2 16)) (Z.shiftl b1 8)) b0.
Definition OSA_MULalpha (c : Z) : Z :=
  word (OSA_MULxPOW c 23 169) (OSA_MULxPOW c 245 169) (OSA_MULxPOW c 48 169) (OSA_MULxPOW c 239 169).
Definition OSA_DIValpha (c : Z) : Z :=
  word (OSA_MULxPOW c 16 169) (OSA_MULxPOW c 39 169) (OSA_MULxPOW c 6 169) (OSA_MULxPOW c 64 169).

(** ** The S-boxes of 32 bits *)

(** [OSA_S1] with [OSA_SR] and 0x1b, [OSA_S2] with [OSA_SQ] and 0x69. *)
Definition mix (t : list Z) (c w : Z) : Z :=
  let s0 := sbox t (Z.land (Z.shiftr w 24) 255) in
  let s1 := sbox t (Z.land (Z.shiftr w 16) 255) in
  let s2 := sbox t (Z.land (Z.shiftr w 8) 255) in
  let s3 := sbox t (Z.land w 255) in
  let r0 := Z.lxor (Z.lxor (Z.lxor (OSA_MULx s0 c) s1) s2) (Z.lxor (OSA_MULx s3 c) s3) in
  let r1 := Z.lxor (Z.lxor (Z.lxor (Z.lxor (OSA_MULx s0 c) s0) (OSA_MULx s1 c)) s2) s3 in
  let r2 := Z.lxor (Z.lxor (Z.lxor s0 (Z.lxor (OSA_MULx s1 c) s1)) (OSA_MULx s2 c)) s3 in
  let r3 := Z.lxor (Z.lxor (Z.lxor s0 s1) (Z.lxor (OSA_MULx s2 c) s2)) (OSA_MULx s3 c) in
  word r0 r1 r2 r3.
Definition OSA_S1 (w : Z) : Z := mix OSA_SR 27 w.
Definition OSA_S2 (w : Z) : Z := mix OSA_SQ 105 w.

(** ** Registers *)
Record osa_snow_3g_context_t := Mk_snow3g {
  LFSR_S0 : Z; LFSR_S1 : Z; LFSR_S2 : Z; LFSR_S3 : Z; LFSR_S4 : Z; LFSR_S5 : Z; LFSR_S6 : Z; LFSR_S7 : Z;
  LFSR_S8 : Z; LFSR_S9 : Z; LFSR_S10 : Z; LFSR_S11 : Z; LFSR_S12 : Z; LFSR_S13 : Z; LFSR_S14 : Z; LFSR_S15 : Z;
  FSM_R1 : Z; FSM_R2 : Z; FSM_R3 : Z
}.

(** The shift of the registers, [v] going into the last. *)
Definition lfsr_shift (v : Z) (s : osa_snow_3g_context_t) : osa_snow_3g_context_t :=
  Mk_snow3g (LFSR_S1 s) (LFSR_S2 s) (LFSR_S3 s) (LFSR_S4 s) (LFSR_S5 s) (LFSR_S6 s) (LFSR_S7 s) (LFSR_S8 s)
    (LFSR_S9 s) (LFSR_S10 s) (LFSR_S11 s) (LFSR_S12 s) (LFSR_S13 s) (LFSR_S14 s) (LFSR_S15 s) v
    (FSM_R1 s) (FSM_R2 s) (FSM_R3 s).
Definition osa_snow3g_clock_LFSR_initialization_mode (F : Z) (s : osa_snow_3g_context_t) : osa_snow_3g_context_t :=
  let v := Z.lxor (Z.lxor (Z.lxor (Z.lxor (Z.lxor
             (Z.land (u32 (Z.shiftl (LFSR_S0 s) 8)) 4294967040)
             (OSA_MULalpha (Z.land (Z.shiftr (LFSR_S0 s) 24) 255)))
             (LFSR_S2 s))
             (Z.land (Z.shiftr (LFSR_S11 s) 8) 16777215))
             (OSA_DIValpha (Z.land (LFSR_S11 s) 255))) F in
  lfsr_shift v s.
Definition osa_snow3g_clock_LFSR_key_stream_mode (s : osa_snow_3g_context_t) : osa_snow_3g_context_t :=
  let v := Z.lxor (Z.lxor (Z.lxor (Z.lxor
             (Z.land (u32 (Z.shiftl (LFSR_S0 s) 8)) 4294967040)
             (OSA_MULalpha (Z.land (Z.shiftr (LFSR_S0 s) 24) 255)))
             (LFSR_S2 s))
             (Z.land (Z.shiftr (LFSR_S11 s) 8) 16777215))
             (OSA_DIValpha (Z.land (LFSR_S11 s) 255)) in
  lfsr_shift v s.

Definition osa_snow3g_clock_fsm (s : osa_snow_3g_context_t) : Z * osa_snow_3g_context_t :=
  let F := Z.lxor (u32 (LFSR_S15 s + FSM_R1 s)) (FSM_R2 s) in
  let r := u32 (FSM_R2 s + Z.lxor (FSM_R3 s) (LFSR_S5 s)) in
  (F, Mk_snow3g (LFSR_S0 s) (LFSR_S1 s) (LFSR_S2 s) (LFSR_S3 s) (LFSR_S4 s) (LFSR_S5 s) (LFSR_S6 s) (LFSR_S7 s)
        (LFSR_S8 s) (LFSR_S9 s) (LFSR_S10 s) (LFSR_S11 s) (LFSR_S12 s) (LFSR_S13 s) (LFSR_S14 s) (LFSR_S15 s)
        r (OSA_S1 (FSM_R1 s)) (OSA_S2 (FSM_R2 s))).

(** ** Initialisation and key stream *)

(** The four words of the key and of the initialisation vector. *)
Record word4 := Mk_word4 { w0 : Z; w1 : Z; w2 : Z; w3 : Z }.
Fixpoint initialize_loop (i : nat) (s : osa_snow_3g_context_t) : osa_snow_3g_context_t :=
  match i with
  | O => s
  | S i =>
      let '(F, s) := osa_snow3g_clock_fsm s in
      initialize_loop i (osa_snow3g_clock_LFSR_initialization_mode F s)
  end.
Definition osa_snow3g_initialize (k IV : word4) : osa_snow_3g_context_t :=
  let ones := 4294967295 in
  initialize_loop 32
    (Mk_snow3g (Z.lxor (w0 k) ones) (Z.lxor (w1 k) ones) (Z.lxor (w2 k) ones) (Z.lxor (w3 k) ones)
       (w0 k) (w1 k) (w2 k) (w3 k)
       (Z.lxor (w0 k) ones) (Z.lxor (Z.lxor (w1 k) ones) (w3 IV)) (Z.lxor (Z.lxor (w2 k) ones) (w2 IV))
       (Z.lxor (w3 k) ones)
       (Z.lxor (w0 k) (w1 IV)) (w1 k) (w2 k) (Z.lxor (w3 k) (w0 IV)) 0 0 0).

Fixpoint key_stream_loop (n : nat) (s : osa_snow_3g_context_t) : list Z :=
  match n with
  | O => []
  | S n =>
      let '(F, s) := osa_snow3g_clock_fsm s in
      Z.lxor F (LFSR_S0 s) :: key_stream_loop n (osa_snow3g_clock_LFSR_key_stream_mode s)
  end.
Definition osa_snow3g_generate_key_stream (n : nat) (s : osa_snow_3g_context_t) : list Z :=
  let '(_, s) := osa_snow3g_clock_fsm s in
  key_stream_loop n (osa_snow3g_clock_LFSR_key_stream_mode s).

(** The first test of the specification of SNOW 3G. *)
Example snow3g_test_set_1 :
  osa_snow3g_generate_key_stream 2
    (osa_snow3g_initialize (Mk_word4 0x2BD6459F 0x82C5B300 0x952C4910 0x4881FF48)
       (Mk_word4 0xEA024714 0xAD5C4D84 0xDF1F9B25 0x1C0BF45F)) = [0xABEE9704; 0x7AC31373].
Proof. vm_compute. reflexivity. Qed.

(** ** Words *)
Lemma lxor_bound n a b : 0 <= n -> 0 <= a < 2 ^ n -> 0 <= b < 2 ^ n -> 0 <= Z.lxor a b < 2 ^ n.
Proof.
  intros Hn Ha Hb. split; [apply Z.lxor_nonneg; lia|].
  destruct (Z.eq_dec (Z.lxor a b) 0) as [->|H0]; [by apply Z.pow_pos_nonneg|].
  apply Z.log2_lt_pow2; [assert (0 <= Z.lxor a b) by (apply Z.lxor_nonneg; lia); lia|].
  destruct (Z.eq_dec n 0) as [->|]; [assert (a = 0 /\ b = 0) as [-> ->] by lia; by rewrite Z.lxor_0_l in H0|].
  eapply Z.le_lt_trans; [apply Z.log2_lxor; lia|].
  apply Z.max_lub_lt; [destruct (Z.eq_dec a 0) as [->|]|destruct (Z.eq_dec b 0) as [->|]]; try (simpl; lia);
    apply Z.log2_lt_pow2; lia.
Qed.
Lemma lor_bound n a b : 0 <= n -> 0 <= a < 2 ^ n -> 0 <= b < 2 ^ n -> 0 <= Z.lor a b < 2 ^ n.
Proof.
  intros Hn Ha Hb. assert (Hab : 0 <= Z.lor a b) by (apply Z.lor_nonneg; lia). split; [done|].
  destruct (Z.eq_dec (Z.lor a b) 0) as [->|H0]; [by apply Z.pow_pos_nonneg|].
  destruct (Z.eq_dec n 0) as [->|]; [assert (a = 0 /\ b = 0) as [-> ->] by lia; done|].
  apply Z.log2_lt_pow2; [lia|]. rewrite Z.log2_lor by lia.
  apply Z.max_lub_lt; [destruct (Z.eq_dec a 0) as [->|]|destruct (Z.eq_dec b 0) as [->|]]; try (simpl; lia);
    apply Z.log2_lt_pow2; lia.
Qed.

Definition is_word (w : Z) : Prop := 0 <= w < 2 ^ 32.
Create HintDb word.
#[export] Hint Unfold is_byte is_word : word.

Lemma byte_u8 z : is_byte (u8 z).
Proof. by apply (wrapu_range 8). Qed.
Lemma word_u32 z : is_word (u32 z).
Proof. by apply wrapu_range. Qed.
Lemma byte_lxor a b : is_byte a -> is_byte b -> is_byte (Z.lxor a b).
Proof. by apply (lxor_bound 8). Qed.
Lemma word_lxor a b : is_word a -> is_word b -> is_word (Z.lxor a b).
Proof. by apply lxor_bound. Qed.
Lemma byte_land w : is_byte (Z.land w 255).
Proof. change 255 with (2 ^ 8 - 1). rewrite land_ones_mod by lia. by apply (Z.mod_pos_bound w (2 ^ 8)). Qed.
Lemma byte_shift b n : 0 <= n <= 24 -> is_byte b -> is_word (Z.shiftl b n).
Proof.
  intros Hn Hb. unfold is_word, is_byte in *. rewrite Z.shiftl_mul_pow2 by lia.
  assert (0 < 2 ^ n <= 2 ^ 24) by (split; [apply Z.pow_pos_nonneg; lia|apply Z.pow_le_mono_r; lia]).
  change (2 ^ 32) with (2 ^ 8 * 2 ^ 24). nia.
Qed.
Lemma word_word b3 b2 b1 b0 : is_byte b3 -> is_byte b2 -> is_byte b1 -> is_byte b0 -> is_word (word b3 b2 b1 b0).
Proof.
  intros H3 H2 H1 H0. unfold word.
  repeat apply lor_bound; try done; try (apply byte_shift; [lia|done]).
  unfold is_byte in H0. lia.
Qed.
#[export] Hint Resolve byte_u8 word_u32 byte_lxor word_lxor byte_land word_word : word.

Lemma byte_MULx V c : is_byte (OSA_MULx V c).
Proof. unfold OSA_MULx. destruct (negb _); auto with word. Qed.
Lemma byte_MULxPOW V i c : is_byte V -> is_byte (OSA_MULxPOW V i c).
Proof. destruct i; simpl; [done|]. intros _. apply byte_MULx. Qed.
Lemma byte_nth (t : list Z) i : Forall is_byte t -> is_byte (nth i t 0).
Proof.
  intros H. destruct (nth_in_or_default i t 0) as [Hin| ->]; [|by unfold is_byte].
  rewrite Forall_forall in H. apply H. by apply list_elem_of_In.
Qed.
Definition byteb (b : Z) : bool := (0 <=? b) && (b <? 256).
Lemma bytes_forallb t : forallb byteb t = true -> Forall is_byte t.
Proof.
  rewrite forallb_forall, Forall_forall. intros H b Hb. apply list_elem_of_In in Hb.
  specialize (H b Hb). unfold byteb in H. unfold is_byte. lia.
Qed.
Lemma byte_SR i : is_byte (sbox OSA_SR i).
Proof. apply byte_nth, bytes_forallb. by vm_compute. Qed.
Lemma byte_SQ i : is_byte (sbox OSA_SQ i).
Proof. apply byte_nth, bytes_forallb. by vm_compute. Qed.
#[export] Hint Resolve byte_MULx byte_MULxPOW byte_SR byte_SQ : word.

Lemma word_MULalpha c : is_byte c -> is_word (OSA_MULalpha c).
Proof. unfold OSA_MULalpha. auto with word. Qed.
Lemma word_DIValpha c : is_byte c -> is_word (OSA_DIValpha c).
Proof. unfold OSA_DIValpha. auto with word. Qed.
Lemma word_S1 w : is_word (OSA_S1 w).
Proof. unfold OSA_S1, mix. auto 12 with word. Qed.
Lemma word_S2 w : is_word (OSA_S2 w).
Proof. unfold OSA_S2, mix. auto 12 with word. Qed.
#[export] Hint Resolve word_MULalpha word_DIValpha word_S1 word_S2 : word.

(** ** Multiplication and division by alpha *)

(** What [S0] and [S11] contribute to the word that is shifted in. *)
Definition mul_alpha (w : Z) : Z :=
  Z.lxor (Z.land (u32 (Z.shiftl w 8)) 4294967040) (OSA_MULalpha (Z.land (Z.shiftr w 24) 255)).
Definition div_alpha (w : Z) : Z :=
  Z.lxor (Z.land (Z.shiftr w 8) 16777215) (OSA_DIValpha (Z.land w 255)).

Lemma lxor_mod n a b : 0 <= n -> Z.lxor a b mod 2 ^ n = Z.lxor (a mod 2 ^ n) (b mod 2 ^ n).
Proof.
  intros Hn. rewrite <- !Z.land_ones by done. apply Z.bits_inj'. intros i Hi.
  rewrite Z.lxor_spec, !Z.land_spec, Z.lxor_spec. by destruct (Z.testbit (Z.ones n) i), (Z.testbit a i), (Z.testbit b i).
Qed.
Lemma mask_low w : Z.land w 255 = w mod 2 ^ 8.
Proof. change 255 with (2 ^ 8 - 1). by rewrite land_ones_mod. Qed.
Lemma mask_24 w : Z.land w 16777215 = w mod 2 ^ 24.
Proof. change 16777215 with (2 ^ 24 - 1). by rewrite land_ones_mod. Qed.
Lemma mul_alpha_high w : is_word w -> Z.land (u32 (Z.shiftl w 8)) 4294967040 = Z.shiftl (w mod 2 ^ 24) 8.
Proof.
  intros Hw. assert (E : u32 (Z.shiftl w 8) = Z.shiftl (w mod 2 ^ 24) 8).
  { unfold u32, wrapu. rewrite !Z.shiftl_mul_pow2 by lia. change (2 ^ 32) with (2 ^ 24 * 2 ^ 8).
    by rewrite Z.mul_mod_distr_r by lia. }
  rewrite E. change 4294967040 with (Z.shiftl 16777215 8). rewrite <- Z.shiftl_land. by rewrite mask_24, Z.mod_mod by lia.
Qed.
Lemma byte_seq b (P : Z -> bool) :
  is_byte b -> forallb P (map Z.of_nat (seq 0 256)) = true -> P b = true.
Proof.
  intros Hb H. rewrite forallb_forall in H. apply H. apply in_map_iff. exists (Z.to_nat b).
  unfold is_byte in Hb. split; [lia|]. apply in_seq. lia.
Qed.
Lemma shift_in_byte w : is_word w -> is_byte (Z.shiftr w 24).
Proof. intros Hw. unfold is_word, is_byte in *. rewrite Z.shiftr_div_pow2 by lia. mod_lia. Qed.

Lemma div_mul_alpha w : is_word w -> div_alpha (mul_alpha w) = w.
Proof.
  intros Hw. unfold mul_alpha. rewrite mul_alpha_high by done.
  assert (Hh := shift_in_byte w Hw). set (h := Z.shiftr w 24) in *.
  rewrite mask_low, (Z.mod_small h) by exact Hh. set (l := w mod 2 ^ 24).
  assert (Hl : 0 <= l < 2 ^ 24) by (by apply Z.mod_pos_bound).
  assert (HA := word_MULalpha h Hh). unfold div_alpha. rewrite mask_low, mask_24, lxor_mod, Z.shiftr_lxor, lxor_mod by lia.
  rewrite Z.shiftr_shiftl_l, Z.shiftl_0_r by lia. rewrite (Z.mod_small l) by done.
  rewrite Z.shiftl_mul_pow2, Z.mod_mul, Z.lxor_0_l by lia.
  rewrite (Z.mod_small (Z.shiftr _ 8)).
  2: { unfold is_word in HA. rewrite Z.shiftr_div_pow2 by lia. mod_lia. }
  rewrite Z.lxor_assoc.
  assert (E : Z.lxor (Z.shiftr (OSA_MULalpha h) 8) (OSA_DIValpha (OSA_MULalpha h mod 2 ^ 8)) = Z.shiftl h 24).
  { apply Z.eqb_eq. by apply (byte_seq h (fun h => Z.lxor (Z.shiftr (OSA_MULalpha h) 8)
      (OSA_DIValpha (OSA_MULalpha h mod 2 ^ 8)) =? Z.shiftl h 24)); [|vm_compute]. }
  rewrite E, Z.lxor_comm. rewrite Z.lxor_lor.
  - rewrite lor_shiftl_add by lia. unfold h, l. rewrite Z.shiftr_div_pow2 by lia. mod_lia.
  - apply Z.bits_inj'. intros i Hi. rewrite Z.land_spec, Z.bits_0. destruct (Z.ltb_spec i 24).
    + by rewrite Z.shiftl_spec_low.
    + rewrite andb_comm. unfold l. by rewrite Z.mod_pow2_bits_high by lia.
Qed.

(** ** The type of the registers *)
Definition ctx_words (s : osa_snow_3g_context_t) : Prop :=
  Forall is_word
    [LFSR_S0 s; LFSR_S1 s; LFSR_S2 s; LFSR_S3 s; LFSR_S4 s; LFSR_S5 s; LFSR_S6 s; LFSR_S7 s;
     LFSR_S8 s; LFSR_S9 s; LFSR_S10 s; LFSR_S11 s; LFSR_S12 s; LFSR_S13 s; LFSR_S14 s; LFSR_S15 s;
     FSM_R1 s; FSM_R2 s; FSM_R3 s].
Definition word4_ok (k : word4) : Prop := Forall is_word [w0 k; w1 k; w2 k; w3 k].

#[export] Hint Constructors Forall : word.
(** The goals about each register, from those about the registers of the hypotheses. *)
Ltac words :=
  unfold ctx_words, word4_ok in *; repeat rewrite Forall_cons in *; simpl in *;
  repeat match goal with H : _ /\ _ |- _ => destruct H end.

Ltac each_word := repeat match goal with |- _ /\ _ => split end; auto with word.

Lemma mul_alpha_word w : is_word w -> is_word (mul_alpha w).
Proof.
  intros Hw. unfold mul_alpha. apply word_lxor; [|auto with word].
  rewrite mul_alpha_high by done. unfold is_word. rewrite Z.shiftl_mul_pow2 by lia.
  assert (0 <= w mod 2 ^ 24 < 2 ^ 24) by (by apply Z.mod_pos_bound). change (2 ^ 32) with (2 ^ 24 * 2 ^ 8). lia.
Qed.
Lemma div_alpha_word w : is_word (div_alpha w).
Proof.
  unfold div_alpha. apply word_lxor; [|auto with word]. rewrite mask_24. unfold is_word.
  assert (0 <= Z.shiftr w 8 mod 2 ^ 24 < 2 ^ 24) by (by apply Z.mod_pos_bound). lia.
Qed.
#[export] Hint Resolve mul_alpha_word div_alpha_word : word.

(** The word shifted in, by its three contributions. *)
Definition feedback (s : osa_snow_3g_context_t) : Z :=
  Z.lxor (Z.lxor (mul_alpha (LFSR_S0 s)) (LFSR_S2 s)) (div_alpha (LFSR_S11 s)).
Lemma clock_key_stream_eq s :
  osa_snow3g_clock_LFSR_key_stream_mode s = lfsr_shift (feedback s) s.
Proof.
  unfold osa_snow3g_clock_LFSR_key_stream_mode, feedback, mul_alpha, div_alpha. by rewrite !Z.lxor_assoc.
Qed.
Lemma clock_initialization_eq F s :
  osa_snow3g_clock_LFSR_initialization_mode F s = lfsr_shift (Z.lxor (feedback s) F) s.
Proof.
  unfold osa_snow3g_clock_LFSR_initialization_mode, feedback, mul_alpha, div_alpha. by rewrite !Z.lxor_assoc.
Qed.

Lemma feedback_word s : ctx_words s -> is_word (feedback s).
Proof. intros H. words. unfold feedback. auto with word. Qed.
Lemma lfsr_shift_words v s : is_word v -> ctx_words s -> ctx_words (lfsr_shift v s).
Proof. intros Hv H. words. each_word. Qed.
#[export] Hint Resolve feedback_word lfsr_shift_words : word.
Lemma clock_key_stream_words s : ctx_words s -> ctx_words (osa_snow3g_clock_LFSR_key_stream_mode s).
Proof. rewrite clock_key_stream_eq. auto with word. Qed.
Lemma clock_initialization_words F s :
  is_word F -> ctx_words s -> ctx_words (osa_snow3g_clock_LFSR_initialization_mode F s).
Proof. rewrite clock_initialization_eq. auto with word. Qed.
Lemma clock_fsm_words s F s' :
  ctx_words s -> osa_snow3g_clock_fsm s = (F, s') -> is_word F /\ ctx_words s'.
Proof.
  unfold osa_snow3g_clock_fsm. intros H [= <- <-]. words. each_word.
Qed.
Lemma initialize_loop_words i s : ctx_words s -> ctx_words (initialize_loop i s).
Proof.
  revert s. induction i as [|i IH]; intros s Hs; cbn [initialize_loop key_stream_loop]; [done|].
  destruct (osa_snow3g_clock_fsm s) as [F s'] eqn:E. apply clock_fsm_words in E as [HF Hs']; [|done].
  by apply IH, clock_initialization_words.
Qed.
Lemma initialize_words k IV : word4_ok k -> word4_ok IV -> ctx_words (osa_snow3g_initialize k IV).
Proof.
  intros Hk HI. assert (H1 : is_word 4294967295) by (unfold is_word; lia).
  assert (H0 : is_word 0) by (unfold is_word; lia).
  apply initialize_loop_words. words. each_word.
Qed.
Lemma key_stream_loop_words n s :
  ctx_words s -> length (key_stream_loop n s) = n /\ Forall is_word (key_stream_loop n s).
Proof.
  revert s. induction n as [|n IH]; intros s Hs; cbn [initialize_loop key_stream_loop]; [done|].
  destruct (osa_snow3g_clock_fsm s) as [F s'] eqn:E. apply clock_fsm_words in E as [HF Hs']; [|done].
  destruct (IH _ (clock_key_stream_words _ Hs')) as [Hl Hw]. simpl. split; [by rewrite Hl|].
  constructor; [|done]. apply word_lxor; [done|]. by words.
Qed.
Lemma generate_key_stream_words n s :
  ctx_words s ->
  length (osa_snow3g_generate_key_stream n s) = n /\ Forall is_word (osa_snow3g_generate_key_stream n s).
Proof.
  intros Hs. unfold osa_snow3g_generate_key_stream. destruct (osa_snow3g_clock_fsm s) as [F s'] eqn:E.
  apply clock_fsm_words in E as [_ Hs']; [|done]. by apply key_stream_loop_words, clock_key_stream_words.
Qed.

(** The registers of SNOW 3G and the words of its key stream are 32-bit words, of whatever
    key and initialisation vector, and a request for [n] words gives [n]. *)
Theorem snow3g_typed k IV n :
  word4_ok k -> word4_ok IV ->
  let s := osa_snow3g_initialize k IV in
  ctx_words s /\ ctx_words (osa_snow3g_clock_fsm s).2 /\
  length (osa_snow3g_generate_key_stream n s) = n /\ Forall is_word (osa_snow3g_generate_key_stream n s).
Proof.
  intros Hk HI s. assert (Hs : ctx_words s) by (by apply initialize_words).
  split_and!; [done| |by apply generate_key_stream_words|by apply generate_key_stream_words].
  by apply (clock_fsm_words s (osa_snow3g_clock_fsm s).1); [|destruct (osa_snow3g_clock_fsm s)].
Qed.
Lemma snow3g_typed_witness :
  Forall is_word (osa_snow3g_generate_key_stream 2
    (osa_snow3g_initialize (Mk_word4 0x2BD6459F 0x82C5B300 0x952C4910 0x4881FF48) (Mk_word4 0xEA024714 0xAD5C4D84 0xDF1F9B25 0x1C0BF45F))).
Proof.
  apply (snow3g_typed (Mk_word4 0x2BD6459F 0x82C5B300 0x952C4910 0x4881FF48) (Mk_word4 0xEA024714 0xAD5C4D84 0xDF1F9B25 0x1C0BF45F) 2);
    repeat (apply Forall_cons; split); try apply Forall_nil_2; unfold is_word; cbn; lia.
Defined.

(** ** The register runs backwards *)

(** One clock undone: the word that was shifted out, from the one shifted in. *)
Definition lfsr_unshift (s : osa_snow_3g_context_t) : osa_snow_3g_context_t :=
  Mk_snow3g (div_alpha (Z.lxor (Z.lxor (LFSR_S15 s) (LFSR_S1 s)) (div_alpha (LFSR_S10 s))))
    (LFSR_S0 s) (LFSR_S1 s) (LFSR_S2 s) (LFSR_S3 s) (LFSR_S4 s) (LFSR_S5 s) (LFSR_S6 s) (LFSR_S7 s)
    (LFSR_S8 s) (LFSR_S9 s) (LFSR_S10 s) (LFSR_S11 s) (LFSR_S12 s) (LFSR_S13 s) (LFSR_S14 s)
    (FSM_R1 s) (FSM_R2 s) (FSM_R3 s).

Theorem lfsr_reversible s :
  ctx_words s -> lfsr_unshift (osa_snow3g_clock_LFSR_key_stream_mode s) = s.
Proof.
  intros H. rewrite clock_key_stream_eq. unfold lfsr_unshift, lfsr_shift. simpl.
  assert (E : Z.lxor (Z.lxor (feedback s) (LFSR_S2 s)) (div_alpha (LFSR_S11 s)) = mul_alpha (LFSR_S0 s)).
  { unfold feedback. apply Z.bits_inj'. intros i _. rewrite !Z.lxor_spec.
    by destruct (Z.testbit (mul_alpha _) i), (Z.testbit (LFSR_S2 _) i), (Z.testbit (div_alpha _) i). }
  rewrite E, div_mul_alpha by (by words). by destruct s.
Qed.
