(* ===== verification/StreamCipher.v ===== *)
(** * Ciphering and integrity protection (UTIL/OSA/osa_stream_eea.c, osa_stream_eia.c)

    The algorithms that PDCP applies to the bytes of a PDU, in place: EEA0 (none), EEA1 (SNOW 3G)
    and EEA2 (AES in counter mode) for ciphering; EIA1 (a polynomial over SNOW 3G's key stream) and
    EIA2 (AES CMAC) for integrity.

    A pointer to a message is an offset in the block of memory that holds it; the block is the list
    of its bytes, and reading or writing outside of it is undefined behaviour.  AES is nettle's and
    OpenSSL's: [Crypto] is what the code uses of them. *)

From S2P Require Import Prelude Bits Snow3g.

(** ** Constants *)
Definition EIA0_ALG_ID : Z := 0.
Definition EIA1_128_ALG_ID : Z := 1.
Definition EIA2_128_ALG_ID : Z := 2.
Definition EEA0_ALG_ID : Z := EIA0_ALG_ID.
Definition EEA1_128_ALG_ID : Z := EIA1_128_ALG_ID.
Definition EEA2_128_ALG_ID : Z := EIA2_128_ALG_ID.
Definition SECU_DIRECTION_UPLINK : Z := 0.
Definition SECU_DIRECTION_DOWNLINK : Z := 1.

(** ** The libraries

    [aes128_ctr key iv i]: byte [i] of the key stream that [nettle_ctr_crypt] with AES-128 exclusive-ors
    with the message.  [aes128_cmac key message]: the 16 bytes of OpenSSL's CMAC. *)
Class Crypto := {
  aes128_ctr : list Z -> list Z -> nat -> Z;
  aes128_cmac : list Z -> list Z -> list Z;
  aes128_ctr_byte key iv i : is_byte (aes128_ctr key iv i);
  aes128_cmac_length key message : length (aes128_cmac key message) = 16%nat;
  aes128_cmac_bytes key message : Forall is_byte (aes128_cmac key message)
}.

(** ** Parameters of a call *)

(** A pointer to a key: NULL, the bytes it points to, or an address that is none (NULL + 16). *)
Inductive key_ptr := Key_null | Key_at (bytes : list Z) | Key_wild.
Definition key_add (k : key_ptr) (n : nat) : key_ptr :=
  match k with
  | Key_at bytes => Key_at (drop n bytes)
  | _ => Key_wild
  end.
Definition key_read (k : key_ptr) (off n : Z) : res (list Z) :=
  match k with
  | Key_at bytes => mem_read bytes off n
  | _ => Err UndefinedBehaviour
  end.
Definition key_is_null (k : key_ptr) : bool := match k with Key_null => true | _ => false end.

Record stream_cipher_t := Mk_stream_cipher {
  sc_key : key_ptr;
  key_length : Z;
  count : Z;
  bearer : Z;
  direction : Z;
  message : Z;
  blength : Z
}.

(** ** Words in memory *)

(** The processor is little-endian. *)
Definition load32 (b : list Z) : Z :=
  match b with
  | b0 :: b1 :: b2 :: b3 :: _ => word b3 b2 b1 b0
  | _ => 0
  end.
Definition store32 (w : Z) : list Z :=
  [Z.land w 255; Z.land (Z.shiftr w 8) 255; Z.land (Z.shiftr w 16) 255; Z.land (Z.shiftr w 24) 255].
Definition hton_int32 (x : Z) : Z :=
  Z.lor (Z.lor (Z.lor (u32 (Z.shiftl (Z.land x 255) 24)) (u32 (Z.shiftl (Z.land x 65280) 8)))
    (Z.shiftr (Z.land x 16711680) 8)) (Z.shiftr (Z.land x 4278190080) 24).

(** The key for SNOW 3G: [K[3]] is its first four bytes. *)
Definition snow3g_key (k : key_ptr) : res word4 :=
  k3 ← key_read k 0 4;
  k2 ← key_read k 4 4;
  k1 ← key_read k 8 4;
  k0 ← key_read k 12 4;
  Ok (Mk_word4 (hton_int32 (load32 k0)) (hton_int32 (load32 k1)) (hton_int32 (load32 k2)) (hton_int32 (load32 k3))).

(** ** Ciphering *)

(** [*out]: NULL, or an offset in the block of the message; a buffer that the function
    allocates is given as [Out_new]. *)
Inductive out_ptr := Out_null | Out_at (off : Z) | Out_new (data : list Z).

(** The bytes [data] go to [*out]. *)
Definition out_write (out : out_ptr) (data buf : list Z) : res (out_ptr * list Z) :=
  match out with
  | Out_at off =>
      buf ← mem_write buf off data;
      Ok (out, buf)
  | _ => Ok (Out_new data, buf)
  end.

Definition stream_encrypt_eea0 (sc : stream_cipher_t) (out : out_ptr) (buf : list Z) : res (Z * out_ptr * list Z) :=
  let byte_length := Z.shiftr (u32 (blength sc + 7)) 3 in
  data ← mem_read buf (message sc) byte_length;
  '(out, buf) ← out_write out data buf;
  Ok (0, out, buf).

Definition xor_bytes (x y : list Z) : list Z := zip_with Z.lxor x y.

(** [KS[n - 1] & (0xFFFFFFFF << (8 - zero_bit))]. *)
Definition mask_last (zero_bit : Z) (ks : list Z) : list Z :=
  if zero_bit >? 0 then
    alter (fun w => Z.land w (u32 (Z.shiftl 4294967295 (8 - zero_bit)))) (length ks - 1)%nat ks
  else ks.

Definition eea1_initialize (sc : stream_cipher_t) (K : word4) : osa_snow_3g_context_t :=
  let IV3 := count sc in
  let IV2 := u32 (Z.shiftl (Z.lor (Z.shiftl (bearer sc) 3) (Z.shiftl (Z.land (direction sc) 1) 2)) 24) in
  osa_snow3g_initialize K (Mk_word4 IV2 IV3 IV2 IV3).

Definition stream_encrypt_eea1 (sc : stream_cipher_t) (out : out_ptr) (buf : list Z) : res (Z * out_ptr * list Z) :=
  _ ← assert_that (negb (key_is_null (sc_key sc)));
  _ ← assert_that (key_length sc =? 16);
  let n := u32 (blength sc + 31) / 32 in
  let zero_bit := Z.land (blength sc) 7 in
  K ← snow3g_key (sc_key sc);
  let KS := mask_last zero_bit (osa_snow3g_generate_key_stream (Z.to_nat n) (eea1_initialize sc K)) in
  let KS := map hton_int32 KS in
  data ← mem_read buf (message sc) (n * 4);
  buf ← mem_write buf (message sc) (xor_bytes data (concat (map store32 KS)));
  buf ← (if zero_bit >? 0 then
           let ceil_index := Z.shiftr (u32 (blength sc + 7)) 3 in
           b ← array_get buf (message sc + (ceil_index - 1));
           array_set buf (message sc + (ceil_index - 1)) (Z.land b (u8 (Z.shiftl 255 (8 - zero_bit))))
         else Ok buf);
  Ok (0, Out_at (message sc), buf).

Section crypto.
Context `{C : Crypto}.

(** The counter block: COUNT, bearer and direction, and zeros. *)
Definition counter_block (sc : stream_cipher_t) : list Z :=
  store32 (hton_int32 (count sc)) ++
  [u8 (Z.lor (Z.shiftl (Z.land (bearer sc) 31) 3) (Z.shiftl (Z.land (direction sc) 1) 2)); 0; 0; 0].

(** [set_encrypt_key] reads the 16 bytes of the key. *)
Definition stream_encrypt_eea2 (sc : stream_cipher_t) (out : out_ptr) (buf : list Z) : res (Z * out_ptr * list Z) :=
  let zero_bit := Z.land (blength sc) 7 in
  let byte_length := Z.shiftr (blength sc) 3 + (if zero_bit >? 0 then 1 else 0) in
  k ← key_read (sc_key sc) 0 16;
  data ← mem_read buf (message sc) byte_length;
  let data := imap (fun i b => Z.lxor b (aes128_ctr k (counter_block sc ++ replicate 8 0) i)) data in
  data ← (if zero_bit >? 0 then
            b ← array_get data (byte_length - 1);
            array_set data (byte_length - 1) (Z.land b (u8 (Z.shiftl 255 (8 - zero_bit))))
          else Ok data);
  '(out, buf) ← out_write out data buf;
  Ok (0, out, buf).

(** [stream_decrypt] is a macro for it. *)
Definition stream_encrypt (algorithm : Z) (sc : stream_cipher_t) (out : out_ptr) (buf : list Z) : res (Z * out_ptr * list Z) :=
  if algorithm =? EEA0_ALG_ID then stream_encrypt_eea0 sc out buf
  else if algorithm =? EEA1_128_ALG_ID then stream_encrypt_eea1 sc out buf
  else if algorithm =? EEA2_128_ALG_ID then stream_encrypt_eea2 sc out buf
  else Ok (-1, out, buf).
End crypto.

(** ** Integrity *)
Definition OSA_MUL64x (V c : Z) : Z :=
  if truthy (Z.land V (2 ^ 63)) then Z.lxor (wrapu 64 (Z.shiftl V 1)) c else wrapu 64 (Z.shiftl V 1).
Fixpoint OSA_MUL64xPOW (V : Z) (i : nat) (c : Z) : Z :=
  match i with
  | O => V
  | S i => OSA_MUL64x (OSA_MUL64xPOW V i c) c
  end.
Definition OSA_MUL64 (V P c : Z) : Z :=
  fold_left (fun result i => if truthy (Z.land (Z.shiftr P (Z.of_nat i)) 1)
                             then Z.lxor result (OSA_MUL64xPOW V i c) else result) (seq 0 64) 0.
Definition osa_mask32bit (n : Z) : Z :=
  if n mod 32 =? 0 then 4294967295
  else Nat.iter (Z.to_nat n) (fun mask => Z.lxor (Z.shiftr mask 1) 2147483648) 0.

(** [message[i]] of the [uint32_t] array. *)
Definition message_word (sc : stream_cipher_t) (buf : list Z) (i : Z) : res Z :=
  b ← mem_read buf (message sc + 4 * i) 4;
  Ok (hton_int32 (load32 b)).

(** The rounds of the loop over the 64-bit blocks, from block [i] on. *)
Fixpoint eia1_loop (sc : stream_cipher_t) (buf : list Z) (P c : Z) (rounds : nat) (i EVAL : Z) : res Z :=
  match rounds with
  | O => Ok EVAL
  | S rounds =>
      hi ← message_word sc buf (2 * i);
      lo ← message_word sc buf (2 * i + 1);
      eia1_loop sc buf P c rounds (i + 1) (OSA_MUL64 (Z.lxor EVAL (Z.lor (Z.shiftl hi 32) lo)) P c)
  end.

(** The return value and the four bytes written to [out], if they are. *)
Definition stream_compute_integrity_eia1 (sc : stream_cipher_t) (buf : list Z) : res (Z * option (list Z)) :=
  K ← snow3g_key (sc_key sc);
  let dir := direction sc in
  let IV3 := count sc in
  let IV2 := u32 (Z.shiftl (Z.land (bearer sc) 31) 27) in
  let IV1 := Z.lxor (count sc) (u32 (Z.shiftl dir 31)) in
  let IV0 := Z.lxor IV2 (u32 (Z.shiftl (Z.land dir 1) 15)) in
  let z := osa_snow3g_generate_key_stream 5 (osa_snow3g_initialize K (Mk_word4 IV0 IV1 IV2 IV3)) in
  let zi i := nth i z 0 in
  let P := Z.lor (Z.shiftl (zi 0%nat) 32) (zi 1%nat) in
  let Q := Z.lor (Z.shiftl (zi 2%nat) 32) (zi 3%nat) in
  let D := (blength sc + 63) / 64 + 1 in
  let c := 27 in
  EVAL ← eia1_loop sc buf P c (Z.to_nat (D - 2)) 0 0;
  let rem_bits := if blength sc mod 64 =? 0 then 64 else blength sc mod 64 in
  let mask := osa_mask32bit (rem_bits mod 32) in
  hi ← message_word sc buf (2 * (D - 2));
  M_D_2 ← (if rem_bits >? 32 then
             lo ← message_word sc buf (2 * (D - 2) + 1);
             Ok (Z.lor (Z.shiftl hi 32) (Z.land lo mask))
           else Ok (Z.shiftl (Z.land hi mask) 32));
  let EVAL := OSA_MUL64 (Z.lxor EVAL M_D_2) P c in
  let EVAL := OSA_MUL64 (Z.lxor EVAL (blength sc)) Q c in
  let MAC_I := Z.lxor (u32 (Z.shiftr EVAL 32)) (zi 4%nat) in
  Ok (0, Some (store32 (hton_int32 MAC_I))).

Section integrity.
Context `{C : Crypto}.

Definition stream_compute_integrity_eia2 (sc : stream_cipher_t) (buf : list Z) : res (Z * option (list Z)) :=
  _ ← assert_that (negb (key_is_null (sc_key sc)));
  let zero_bit := Z.land (blength sc) 7 in
  let m_length := Z.shiftr (blength sc) 3 + (if zero_bit >? 0 then 1 else 0) in
  data ← mem_read buf (message sc) m_length;
  k ← key_read (sc_key sc) 0 (key_length sc);
  Ok (0, Some (take 4 (aes128_cmac k (counter_block sc ++ data)))).

Definition stream_compute_integrity (algorithm : Z) (sc : stream_cipher_t) (buf : list Z) : res (Z * option (list Z)) :=
  if algorithm =? EIA1_128_ALG_ID then stream_compute_integrity_eia1 sc buf
  else if algorithm =? EIA2_128_ALG_ID then stream_compute_integrity_eia2 sc buf
  else Ok (-1, None).

(** [expected]: the offset of the four bytes of the received MAC-I. *)
Definition stream_check_integrity (algorithm : Z) (sc : stream_cipher_t) (expected : Z) (buf : list Z) : res Z :=
  if algorithm =? EIA0_ALG_ID then Ok 0
  else
    '(rc, result) ← stream_compute_integrity algorithm sc buf;
    match result with
    | Some mac =>
        x ← mem_read buf expected 4;
        Ok (if bool_decide (mac = x) then 0 else -1)
    | None => Ok (-1)
    end.
End integrity.

(** ** Test sets *)

(** Bytes of a number, the most significant first. *)
Definition be_bytes (n : nat) (v : Z) : list Z :=
  map (fun i => Z.land (Z.shiftr v (8 * Z.of_nat (n - 1 - i)%nat)) 255) (seq 0 n).

(** Test set 3 of 128-EEA1 (33.401), 120 bits: the byte after the message changes too. *)
Example eea1_test_set_3 :
  stream_encrypt_eea1 (Mk_stream_cipher (Key_at (be_bytes 16 0x5ACB1D644C0D51204EA5F1451010D852)) 16 0xFA556B26 3 1 0 120)
    (Out_at 0) (be_bytes 16 0xAD9C441F890B38C457A49D421407E800) =
  Ok (0, Out_at 0, be_bytes 16 0xBA0F31300334C56B52A7497CBAC046C6).
Proof. vm_compute. reflexivity. Qed.
(** Test set 4, 253 bits. *)
Example eea1_test_set_4 :
  stream_encrypt_eea1 (Mk_stream_cipher (Key_at (be_bytes 16 0xD3C5D592327FB11C4035C6680AF8C6D1)) 16 0x398A59B4 5 1 0 253)
    (Out_at 0) (be_bytes 32 0x981BA6824C1BFB1AB485472029B71D808CE33E2CC3C0B5FC1F3DE8A6DC66B1F0) =
  Ok (0, Out_at 0, be_bytes 32 0x989B719CDC33CEB7CF276A52827CEF94A56C40C0AB9D81F7A2A9BAC60E11C4B0).
Proof. vm_compute. reflexivity. Qed.
(** Test sets 1 and 2 of 128-EIA1. *)
Example eia1_test_set_1 :
  stream_compute_integrity_eia1
    (Mk_stream_cipher (Key_at (be_bytes 16 0x2bd6459f82c5b300952c49104881ff48)) 16 0x38a6f056 0x1f 0 0 88)
    (be_bytes 16 0x33323462633938613734790000000000) = Ok (0, Some (be_bytes 4 0x731f1165)).
Proof. vm_compute. reflexivity. Qed.
Example eia1_test_set_2 :
  stream_compute_integrity_eia1
    (Mk_stream_cipher (Key_at (be_bytes 16 0x7e5e94431e11d73828d739cc6ced4573)) 16 0x36af6144 0x18 1 0 254)
    (be_bytes 32 0xb3d3c9170a4e1632f60f861013d22d84b726b6a278d802d1eeaf1321ba5929dc) =
  Ok (0, Some (be_bytes 4 0xe3259f6f)).
Proof. vm_compute. reflexivity. Qed.

(** ** Ciphering as an exclusive or *)

(** The [n] bytes from [off] on, with those of a key stream. *)
Definition xor_at (off n : nat) (ks : nat -> Z) (buf : list Z) : list Z :=
  imap (fun i b => if decide (off <= i < off + n)%nat then Z.lxor b (ks (i - off)%nat) else b) buf.

Lemma length_xor_at off n ks buf : length (xor_at off n ks buf) = length buf.
Proof. apply length_imap. Qed.
Lemma lookup_xor_at off n ks buf i :
  xor_at off n ks buf !! i =
    (fun b => if decide (off <= i < off + n)%nat then Z.lxor b (ks (i - off)%nat) else b) <$> buf !! i.
Proof. unfold xor_at. by rewrite list_lookup_imap. Qed.
Lemma xor_at_involutive off n ks buf : xor_at off n ks (xor_at off n ks buf) = buf.
Proof.
  apply list_eq. intros i. rewrite !lookup_xor_at. destruct (buf !! i) as [b|]; [|done]. simpl.
  destruct (decide _); [|done]. by rewrite Z.lxor_assoc, Z.lxor_nilpotent, Z.lxor_0_r.
Qed.
Lemma xor_at_zero off n buf : xor_at off n (fun _ => 0) buf = buf.
Proof.
  apply list_eq. intros i. rewrite lookup_xor_at. destruct (buf !! i) as [b|]; [|done]. simpl.
  destruct (decide _); [|done]. by rewrite Z.lxor_0_r.
Qed.
Lemma take_xor_at k off n ks buf : take k (xor_at off n ks buf) = xor_at off n ks (take k buf).
Proof.
  apply list_eq. intros i. rewrite lookup_xor_at. destruct (decide (i < k)%nat).
  - by rewrite !lookup_take_lt, lookup_xor_at by done.
  - by rewrite !lookup_take_ge by lia.
Qed.
Lemma xor_at_ext off n ks ks' buf :
  (forall i, (i < n)%nat -> ks i = ks' i) -> xor_at off n ks buf = xor_at off n ks' buf.
Proof.
  intros H. apply list_eq. intros i. rewrite !lookup_xor_at. destruct (buf !! i) as [b|]; [|done]. simpl.
  destruct (decide _); [|done]. by rewrite H by lia.
Qed.
(** Read the bytes, combine them with the key stream, write them back. *)
Lemma mem_xor off n (ks : nat -> Z) f buf :
  (off + n <= length buf)%nat ->
  (forall data, length data = n -> f data = imap (fun i b => Z.lxor b (ks i)) data) ->
  (data ← mem_read buf (Z.of_nat off) (Z.of_nat n); mem_write buf (Z.of_nat off) (f data)) =
    Ok (xor_at off n ks buf).
Proof.
  intros Hl Hf. rewrite mem_read_ok by lia. cbn [mbind res_bind]. rewrite !Nat2Z.id.
  assert (Hn : length (take n (drop off buf)) = n) by (rewrite length_take, length_drop; lia).
  rewrite Hf by done. rewrite mem_write_ok by (rewrite ?length_imap; lia). f_equal.
  rewrite !Nat2Z.id, length_imap, Hn. apply list_eq. intros i. rewrite lookup_xor_at.
  destruct (decide (i < off)%nat).
  - rewrite lookup_app_l by (rewrite length_take; lia). rewrite lookup_take_lt by done.
    destruct (buf !! i); [|done]. simpl. destruct (decide _); [lia|done].
  - rewrite lookup_app_r by (rewrite length_take; lia). rewrite length_take_le by lia.
    destruct (decide (i < off + n)%nat).
    + rewrite lookup_app_l by (rewrite length_imap; lia). rewrite list_lookup_imap, lookup_take_lt by lia.
      rewrite lookup_drop. replace (off + (i - off))%nat with i by lia.
      destruct (buf !! i); [|done]. simpl. destruct (decide _); [done|lia].
    + rewrite lookup_app_r by (rewrite length_imap; lia). rewrite length_imap, Hn, lookup_drop.
      replace (off + n + (i - off - n))%nat with i by lia.
      destruct (buf !! i); [|done]. simpl. destruct (decide _); [lia|done].
Qed.

(** The words of a key stream do not depend on how many are asked for. *)
Lemma key_stream_loop_S n s :
  key_stream_loop (S n) s =
    Z.lxor (osa_snow3g_clock_fsm s).1 (LFSR_S0 (osa_snow3g_clock_fsm s).2) ::
      key_stream_loop n (osa_snow3g_clock_LFSR_key_stream_mode (osa_snow3g_clock_fsm s).2).
Proof. done. Qed.
Lemma key_stream_loop_lookup n j s :
  (j < n)%nat -> key_stream_loop n s !! j = key_stream_loop (S j) s !! j.
Proof.
  revert j s. induction n as [|n IH]; intros j s Hj; [lia|].
  destruct j as [|j]; [by rewrite !key_stream_loop_S|].
  rewrite (key_stream_loop_S n), (key_stream_loop_S (S j)). cbn [lookup list_lookup]. apply IH. lia.
Qed.
Lemma generate_key_stream_lookup n j s :
  (j < n)%nat -> osa_snow3g_generate_key_stream n s !! j = osa_snow3g_generate_key_stream (S j) s !! j.
Proof.
  intros Hj. unfold osa_snow3g_generate_key_stream. destruct (osa_snow3g_clock_fsm s) as [F s'].
  by apply key_stream_loop_lookup.
Qed.
Lemma length_generate n s : length (osa_snow3g_generate_key_stream n s) = n.
Proof.
  unfold osa_snow3g_generate_key_stream. destruct (osa_snow3g_clock_fsm s) as [_ s']. generalize (osa_snow3g_clock_LFSR_key_stream_mode s').
  induction n as [|n IH]; intros s1; [done|]. cbn [key_stream_loop]. destruct (osa_snow3g_clock_fsm s1) as [F s2].
  cbn [length]. by rewrite IH.
Qed.
(** Byte [i] of the key stream as it lies in memory. *)
Definition snow3g_byte (s : osa_snow_3g_context_t) (i : nat) : Z :=
  nth (i mod 4) (store32 (hton_int32 (nth (i / 4) (osa_snow3g_generate_key_stream (S (i / 4)) s) 0))) 0.

Lemma lookup_concat_4 {A} (f : A -> list Z) (l : list A) i :
  (forall x, length (f x) = 4%nat) ->
  concat (map f l) !! i = (l !! (i / 4)%nat) ≫= (fun x => f x !! (i mod 4)%nat).
Proof.
  intros H4. revert i. induction l as [|x l IH]; intros i; [done|]. cbn [map concat].
  destruct (decide (i < 4)%nat).
  - rewrite lookup_app_l by (rewrite H4; lia). by rewrite Nat.div_small, Nat.mod_small by done.
  - rewrite lookup_app_r by (rewrite H4; lia). rewrite H4, IH.
    replace (i / 4)%nat with (S ((i - 4) / 4))%nat.
    2: { replace i with (i - 4 + 1 * 4)%nat at 2 by lia. rewrite Nat.div_add by lia. lia. }
    replace (i mod 4)%nat with ((i - 4) mod 4)%nat; [done|].
    replace i with (i - 4 + 1 * 4)%nat at 2 by lia. by rewrite Nat.Div0.mod_add.
Qed.
Lemma key_stream_bytes s n i :
  (i < 4 * n)%nat ->
  concat (map store32 (map hton_int32 (osa_snow3g_generate_key_stream n s))) !! i = Some (snow3g_byte s i).
Proof.
  intros Hi. rewrite map_map. rewrite lookup_concat_4 by done.
  assert (Hj : (i / 4 < n)%nat) by (apply Nat.Div0.div_lt_upper_bound; lia).
  rewrite generate_key_stream_lookup by done. unfold snow3g_byte.
  destruct (lookup_lt_is_Some_2 (osa_snow3g_generate_key_stream (S (i / 4)) s) (i / 4)) as [w Hw]; [rewrite length_generate; lia|].
  rewrite Hw. cbn [mbind option_bind]. rewrite (nth_lookup_Some _ _ 0 _ Hw).
  assert (Hm : (i mod 4 < 4)%nat) by (by apply Nat.mod_upper_bound).
  destruct (lookup_lt_is_Some_2 (store32 (hton_int32 w)) (i mod 4)) as [b Hb]; [exact Hm|].
  change (store32 (hton_int32 w) !! (i mod 4)%nat = Some (nth (i mod 4) (store32 (hton_int32 w)) 0)).
  by rewrite Hb, (nth_lookup_Some _ _ 0 _ Hb).
Qed.
Lemma length_key_stream_bytes (l : list Z) : length (concat (map store32 l)) = (4 * length l)%nat.
Proof. induction l as [|w l IH]; [done|]. cbn [map concat]. rewrite length_app, IH. simpl. lia. Qed.

(** ** What ciphering does to the block, when the message is whole bytes *)
Section spec.
Context `{C : Crypto}.

Definition cipher_ok (algorithm : Z) : Prop := 0 <= algorithm <= 2.
(** The key stream, and the number of bytes it is applied to for a message of [m] bytes. *)
Definition cipher_stream (algorithm : Z) (sc : stream_cipher_t) (i : nat) : Z :=
  if algorithm =? EEA0_ALG_ID then 0
  else if algorithm =? EEA1_128_ALG_ID then
    match snow3g_key (sc_key sc) with Ok K => snow3g_byte (eea1_initialize sc K) i | Err _ => 0 end
  else
    match key_read (sc_key sc) 0 16 with Ok k => aes128_ctr k (counter_block sc ++ replicate 8 0) i | Err _ => 0 end.
Definition cipher_span (algorithm : Z) (m : nat) : nat :=
  if algorithm =? EEA1_128_ALG_ID then (4 * ((m + 3) / 4))%nat else m.
(** The key that an algorithm reads. *)
Definition key_ok (algorithm : Z) (k : key_ptr) : Prop :=
  algorithm = EEA0_ALG_ID \/ exists bytes, k = Key_at bytes /\ (16 <= length bytes)%nat.

Lemma cipher_span_bounds algorithm m : (m <= cipher_span algorithm m <= m + 3)%nat.
Proof.
  unfold cipher_span. destruct (_ =? _); [|lia].
  assert (H := Nat.div_mod_eq (m + 3) 4). assert (H2 := Nat.mod_upper_bound (m + 3) 4). lia.
Qed.

Lemma whole_bytes m : Z.of_nat m < 2 ^ 28 ->
  Z.land (8 * Z.of_nat m) 7 = 0 /\ Z.shiftr (u32 (8 * Z.of_nat m + 7)) 3 = Z.of_nat m /\
  Z.shiftr (8 * Z.of_nat m) 3 = Z.of_nat m /\ u32 (8 * Z.of_nat m + 31) / 32 = Z.of_nat ((m + 3) / 4).
Proof.
  intros Hm. change 7 with (2 ^ 3 - 1) at 1. rewrite land_ones_mod by lia.
  rewrite !Z.shiftr_div_pow2 by lia. unfold u32. rewrite !wrapu_small by lia.
  change (2 ^ 3) with 8. rewrite Nat2Z.inj_div. split_and!; mod_lia.
Qed.

Lemma snow3g_key_ok bytes : (16 <= length bytes)%nat -> exists K, snow3g_key (Key_at bytes) = Ok K.
Proof.
  intros H. unfold snow3g_key, key_read. rewrite !mem_read_ok by lia. cbn [mbind res_bind]. by eexists.
Qed.

Lemma eea1_spec sc m off buf :
  key_ok EEA1_128_ALG_ID (sc_key sc) -> key_length sc = 16 -> message sc = Z.of_nat off ->
  blength sc = 8 * Z.of_nat m -> Z.of_nat m < 2 ^ 28 -> (off + cipher_span EEA1_128_ALG_ID m <= length buf)%nat ->
  stream_encrypt_eea1 sc (Out_at (message sc)) buf =
    Ok (0, Out_at (message sc),
        xor_at off (cipher_span EEA1_128_ALG_ID m) (cipher_stream EEA1_128_ALG_ID sc) buf).
Proof.
  intros [?|(bytes & Hk & Hlen)] Hkl Hoff Hbl Hm Hfit; [done|]. destruct (whole_bytes m Hm) as (E1 & _ & _ & E4).
  destruct (snow3g_key_ok bytes Hlen) as [K HK].
  unfold stream_encrypt_eea1. rewrite Hkl, Hoff, Hbl, E1, E4. unfold cipher_stream. rewrite Hk, HK.
  cbn [key_is_null negb assert_that mbind res_bind Z.eqb Pos.eqb mask_last].
  change (mask_last 0 ?l) with l. change (0 >? 0) with false. cbv iota.
  set (n := ((m + 3) / 4)%nat) in *. change (cipher_span EEA1_128_ALG_ID m) with (4 * n)%nat in *.
  replace (Z.of_nat n * 4) with (Z.of_nat (4 * n)) by lia. rewrite Nat2Z.id.
  change (EEA1_128_ALG_ID =? EEA0_ALG_ID) with false. change (EEA1_128_ALG_ID =? EEA1_128_ALG_ID) with true. cbv iota.
  assert (E := mem_xor off (4 * n) (snow3g_byte (eea1_initialize sc K))
    (fun data => xor_bytes data (concat (map store32 (map hton_int32 (osa_snow3g_generate_key_stream n (eea1_initialize sc K)))))) buf Hfit).
  rewrite mem_read_ok in E |- * by lia. cbn [mbind res_bind] in E |- *. rewrite E; [done|]. clear E.
  intros data Hd. unfold xor_bytes. apply list_eq. intros i.
  rewrite lookup_zip_with, list_lookup_imap. destruct (data !! i) as [b|] eqn:Eb; [|done].
  apply lookup_lt_Some in Eb. by rewrite key_stream_bytes by lia.
Qed.
Lemma eea0_spec sc m off buf :
  message sc = Z.of_nat off -> blength sc = 8 * Z.of_nat m -> Z.of_nat m < 2 ^ 28 -> (off + m <= length buf)%nat ->
  stream_encrypt_eea0 sc (Out_at (message sc)) buf = Ok (0, Out_at (message sc), buf).
Proof.
  intros Hoff Hbl Hm Hfit. destruct (whole_bytes m Hm) as (_ & E2 & _).
  unfold stream_encrypt_eea0. rewrite Hoff, Hbl, E2.
  assert (E := mem_xor off m (fun _ => 0) (fun data => data) buf Hfit).
  rewrite mem_read_ok in E |- * by lia. cbn [mbind res_bind out_write] in E |- *. rewrite E, xor_at_zero; [done|].
  intros data _. apply list_eq. intros i. rewrite list_lookup_imap. destruct (data !! i); [|done]. simpl.
  by rewrite Z.lxor_0_r.
Qed.

Lemma eea2_spec sc m off buf :
  key_ok EEA2_128_ALG_ID (sc_key sc) -> message sc = Z.of_nat off -> blength sc = 8 * Z.of_nat m ->
  Z.of_nat m < 2 ^ 28 -> (off + m <= length buf)%nat ->
  stream_encrypt_eea2 sc (Out_at (message sc)) buf =
    Ok (0, Out_at (message sc), xor_at off m (cipher_stream EEA2_128_ALG_ID sc) buf).
Proof.
  intros [?|(bytes & Hk & Hlen)] Hoff Hbl Hm Hfit; [done|]. destruct (whole_bytes m Hm) as (E1 & _ & E3 & _).
  unfold stream_encrypt_eea2. rewrite Hoff, Hbl, E1, E3, Hk. cbn [key_read].
  rewrite (mem_read_ok bytes) by lia. cbn [mbind res_bind]. change (0 >? 0) with false. cbv iota. rewrite Z.add_0_r.
  assert (E := mem_xor off m (cipher_stream EEA2_128_ALG_ID sc)
    (imap (fun i b => Z.lxor b (cipher_stream EEA2_128_ALG_ID sc i))) buf Hfit (fun _ _ => eq_refl)).
  rewrite mem_read_ok in E |- * by lia. cbn [mbind res_bind out_write] in E |- *.
  unfold cipher_stream in E at 1. rewrite Hk in E. cbn [key_read] in E. rewrite (mem_read_ok bytes) in E by lia.
  change (EEA2_128_ALG_ID =? EEA0_ALG_ID) with false in E. change (EEA2_128_ALG_ID =? EEA1_128_ALG_ID) with false in E.
  cbv iota in E. by rewrite E.
Qed.

(** In place, whole bytes: the bytes of the message, and for EEA1 up to three more, with the key stream. *)
Lemma stream_encrypt_spec algorithm sc m off buf :
  cipher_ok algorithm -> key_ok algorithm (sc_key sc) -> key_length sc = 16 -> message sc = Z.of_nat off ->
  blength sc = 8 * Z.of_nat m -> Z.of_nat m < 2 ^ 28 -> (off + cipher_span algorithm m <= length buf)%nat ->
  stream_encrypt algorithm sc (Out_at (message sc)) buf =
    Ok (0, Out_at (message sc), xor_at off (cipher_span algorithm m) (cipher_stream algorithm sc) buf).
Proof.
  intros Ha Hk Hkl Hoff Hbl Hm Hfit.
  assert (algorithm = EEA0_ALG_ID \/ algorithm = EEA1_128_ALG_ID \/ algorithm = EEA2_128_ALG_ID) as [-> | [-> | ->]].
  { unfold cipher_ok in Ha. change EEA0_ALG_ID with 0. change EEA1_128_ALG_ID with 1. change EEA2_128_ALG_ID with 2. lia. }
  - change (cipher_stream EEA0_ALG_ID sc) with (fun _ : nat => 0). rewrite xor_at_zero. by apply (eea0_spec sc m off).
  - by apply eea1_spec.
  - by apply eea2_spec.
Qed.

End spec.

(** ** What integrity protection depends on *)
Lemma word_val b3 b2 b1 b0 : is_byte b2 -> is_byte b1 -> is_byte b0 ->
  word b3 b2 b1 b0 = b3 * 2 ^ 24 + b2 * 2 ^ 16 + b1 * 2 ^ 8 + b0.
Proof.
  unfold is_byte, word. intros H2 H1 H0.
  rewrite <- !Z.lor_assoc. rewrite (lor_shiftl_add b1 b0 8) by lia.
  rewrite (lor_shiftl_add b2) by lia. rewrite lor_shiftl_add by lia. lia.
Qed.
(** The [m] bits of [x] from bit [k] on. *)
Lemma land_field x k m : 0 <= k -> 0 <= m -> Z.land x (Z.shiftl (Z.ones m) k) = (x / 2 ^ k) mod 2 ^ m * 2 ^ k.
Proof.
  intros Hk Hm. rewrite <- Z.land_ones, <- Z.shiftr_div_pow2, <- Z.shiftl_mul_pow2 by done.
  apply Z.bits_inj'. intros i Hi. rewrite Z.land_spec. destruct (Z.ltb_spec i k).
  - rewrite !Z.shiftl_spec_low by done. apply andb_false_r.
  - rewrite !Z.shiftl_spec by done. rewrite Z.land_spec, Z.shiftr_spec by lia. by replace (i - k + k) with i by lia.
Qed.
Lemma hton_word b3 b2 b1 b0 : is_byte b3 -> is_byte b2 -> is_byte b1 -> is_byte b0 ->
  hton_int32 (word b3 b2 b1 b0) = word b0 b1 b2 b3.
Proof.
  intros H3 H2 H1 H0. assert (V := word_val b3 b2 b1 b0 H2 H1 H0). set (x := word b3 b2 b1 b0) in *.
  unfold hton_int32, word, is_byte in *.
  rewrite (land_field x 0 8 ltac:(lia) ltac:(lia) : Z.land x 255 = _).
  rewrite (land_field x 8 8 ltac:(lia) ltac:(lia) : Z.land x 65280 = _).
  rewrite (land_field x 16 8 ltac:(lia) ltac:(lia) : Z.land x 16711680 = _).
  rewrite (land_field x 24 8 ltac:(lia) ltac:(lia) : Z.land x 4278190080 = _).
  replace ((x / 2 ^ 0) mod 2 ^ 8) with b0 by mod_lia. replace ((x / 2 ^ 8) mod 2 ^ 8) with b1 by mod_lia.
  replace ((x / 2 ^ 16) mod 2 ^ 8) with b2 by mod_lia. replace ((x / 2 ^ 24) mod 2 ^ 8) with b3 by mod_lia.
  rewrite !Z.shiftl_mul_pow2, !Z.shiftr_div_pow2 by lia. unfold u32. rewrite !wrapu_small by lia.
  f_equal; [f_equal; [f_equal|]|]; mod_lia.
Qed.

Lemma word_load b : length b = 4%nat -> Forall is_byte b -> exists b0 b1 b2 b3,
  b = [b0; b1; b2; b3] /\ is_byte b0 /\ is_byte b1 /\ is_byte b2 /\ is_byte b3.
Proof.
  intros Hl Hb. destruct b as [|b0 [|b1 [|b2 [|b3 [|]]]]]; try done.
  repeat rewrite Forall_cons in Hb. destruct Hb as (? & ? & ? & ? & _). by exists b0, b1, b2, b3.
Qed.

(** The first [r] bytes of a word are all that the mask of [8 * r] bits leaves. *)
Lemma masked_word r b b' :
  (1 <= r <= 4)%nat -> length b = 4%nat -> length b' = 4%nat -> Forall is_byte b -> Forall is_byte b' ->
  take r b = take r b' ->
  Z.land (hton_int32 (load32 b)) (osa_mask32bit ((8 * Z.of_nat r) mod 32)) =
  Z.land (hton_int32 (load32 b')) (osa_mask32bit ((8 * Z.of_nat r) mod 32)).
Proof.
  intros Hr Hl Hl' Hb Hb' E.
  destruct (word_load b Hl Hb) as (b0 & b1 & b2 & b3 & -> & H0 & H1 & H2 & H3).
  destruct (word_load b' Hl' Hb') as (c0 & c1 & c2 & c3 & -> & K0 & K1 & K2 & K3).
  cbn [load32]. rewrite !hton_word by done. rewrite !word_val by done. clear Hb Hb'.
  assert (r = 1 \/ r = 2 \/ r = 3 \/ r = 4)%nat as [-> | [-> | [-> | ->]]] by lia; cbn [take] in E; simplify_eq.
  - change (osa_mask32bit _) with (Z.shiftl (Z.ones 8) 24). rewrite !land_field by lia. f_equal.
    unfold is_byte in *. mod_lia.
  - change (osa_mask32bit _) with (Z.shiftl (Z.ones 16) 16). rewrite !land_field by lia. f_equal.
    unfold is_byte in *. mod_lia.
  - change (osa_mask32bit _) with (Z.shiftl (Z.ones 24) 8). rewrite !land_field by lia. f_equal.
    unfold is_byte in *. mod_lia.
  - done.
Qed.

(** Two blocks with the same first [k] bytes. *)
Lemma mem_read_take k b b' off n :
  take k b = take k b' -> 0 <= off -> 0 <= n -> off + n <= Z.of_nat k -> (k <= length b)%nat -> (k <= length b')%nat ->
  mem_read b off n = mem_read b' off n.
Proof.
  intros E H1 H2 H3 H4 H5. rewrite !mem_read_ok by lia. f_equal. apply list_eq. intros i.
  destruct (decide (i < Z.to_nat n)%nat).
  - rewrite !lookup_take_lt, !lookup_drop by done.
    rewrite <- (lookup_take_lt b k), <- (lookup_take_lt b' k) by lia. by rewrite E.
  - by rewrite !lookup_take_ge by lia.
Qed.
Section eia1.
Context (sc : stream_cipher_t) (m : nat) (b b' : list Z).
Context (Hoff : message sc = 0) (Hbl : blength sc = 8 * Z.of_nat m) (Hm : (0 < m)%nat).
Context (E : take m b = take m b') (Hb : Forall is_byte b) (Hb' : Forall is_byte b').
Context (Hl : (m + 3 <= length b)%nat) (Hl' : (m + 3 <= length b')%nat).

Lemma message_word_eq i : 0 <= i -> 4 * i + 4 <= Z.of_nat m -> message_word sc b i = message_word sc b' i.
Proof.
  intros H1 H2. unfold message_word. by rewrite (mem_read_take m b b') by (rewrite ?Hoff; lia || done).
Qed.
Lemma read4 (x : list Z) i : Forall is_byte x -> 0 <= i -> i + 4 <= Z.of_nat (length x) ->
  exists y, mem_read x i 4 = Ok y /\ length y = 4%nat /\ Forall is_byte y /\
    y = take 4 (drop (Z.to_nat i) x).
Proof.
  intros Hx H1 H2. eexists. split; [apply mem_read_ok; lia|]. change (Z.to_nat 4) with 4%nat.
  split; [rewrite length_take, length_drop; lia|]. split; [by apply Forall_take, Forall_drop|done].
Qed.
(** The last word: the [r] bytes of the message in it decide. *)
Lemma message_word_masked i r :
  (1 <= r <= 4)%nat -> 0 <= i -> 4 * i + Z.of_nat r = Z.of_nat m ->
  exists w w', message_word sc b i = Ok w /\ message_word sc b' i = Ok w' /\
    Z.land w (osa_mask32bit ((8 * Z.of_nat r) mod 32)) = Z.land w' (osa_mask32bit ((8 * Z.of_nat r) mod 32)).
Proof.
  intros Hr Hi Him. unfold message_word. rewrite Hoff, Z.add_0_l.
  destruct (read4 b (4 * i)) as (y & -> & Hy & By & Ey); [done|lia|lia|].
  destruct (read4 b' (4 * i)) as (y' & -> & Hy' & By' & Ey'); [done|lia|lia|].
  cbn [mbind res_bind]. eexists _, _. split; [done|]. split; [done|]. apply masked_word; try done.
  rewrite Ey, Ey', !take_take, !Nat.min_l by lia.
  apply list_eq. intros j. destruct (decide (j < r)%nat); [|by rewrite !lookup_take_ge by lia].
  rewrite !lookup_take_lt, !lookup_drop by done.
  rewrite <- (lookup_take_lt b m), <- (lookup_take_lt b' m) by lia. by rewrite E.
Qed.
Lemma eia1_loop_eq P c rounds : forall i EVAL, 0 <= i -> 8 * (i + Z.of_nat rounds) <= Z.of_nat m ->
  eia1_loop sc b P c rounds i EVAL = eia1_loop sc b' P c rounds i EVAL.
Proof.
  induction rounds as [|rounds IH]; intros i EVAL Hi Hr; [done|]. cbn [eia1_loop].
  rewrite !message_word_eq by lia. destruct (message_word sc b' _); [|done]. cbn [mbind res_bind].
  destruct (message_word sc b' _); [|done]. cbn [mbind res_bind]. apply IH; lia.
Qed.
Lemma eia1_eq : stream_compute_integrity_eia1 sc b = stream_compute_integrity_eia1 sc b'.
Proof.
  unfold stream_compute_integrity_eia1. destruct (snow3g_key (sc_key sc)) as [K|]; [|done]. cbn [mbind res_bind].
  generalize (osa_snow3g_generate_key_stream 5 (osa_snow3g_initialize K
     (Mk_word4 (Z.lxor (u32 (Z.shiftl (Z.land (bearer sc) 31) 27)) (u32 (Z.shiftl (Z.land (direction sc) 1) 15)))
        (Z.lxor (count sc) (u32 (Z.shiftl (direction sc) 31))) (u32 (Z.shiftl (Z.land (bearer sc) 31) 27)) (count sc)))).
  intros z. rewrite Hbl.
  set (D := (8 * Z.of_nat m + 63) / 64 + 1).
  assert (HD : 8 * (D - 2) < Z.of_nat m <= 8 * (D - 2) + 8) by (unfold D; mod_lia).
  rewrite eia1_loop_eq by lia. destruct (eia1_loop sc b' _ _ _ _ _) as [EVAL|]; [|done]. cbn [mbind res_bind].
  set (rem := Z.to_nat (Z.of_nat m - 8 * (D - 2))).
  assert (Hrem : (if (8 * Z.of_nat m) mod 64 =? 0 then 64 else (8 * Z.of_nat m) mod 64) = 8 * Z.of_nat rem).
  { destruct (Z.eqb_spec ((8 * Z.of_nat m) mod 64) 0); unfold rem; mod_lia. }
  assert (Hr : Z.of_nat rem = Z.of_nat m - 8 * (D - 2)) by (unfold rem; lia). clearbody rem D.
  rewrite Hrem. destruct (Z.gtb_spec (8 * Z.of_nat rem) 32) as [Hgt|Hle].
  - rewrite (message_word_eq (2 * (D - 2))) by lia. destruct (message_word sc b' (2 * (D - 2))); [|done]. cbn [mbind res_bind].
    destruct (message_word_masked (2 * (D - 2) + 1) (rem - 4)) as (w & w' & -> & -> & Hw); [lia|lia|lia|].
    cbn [mbind res_bind]. replace ((8 * Z.of_nat (rem - 4)) mod 32) with ((8 * Z.of_nat rem) mod 32) in Hw.
    2: { replace (8 * Z.of_nat rem) with (8 * Z.of_nat (rem - 4) + 1 * 32) by lia. by rewrite Z_mod_plus_full. }
    by rewrite Hw.
  - destruct (message_word_masked (2 * (D - 2)) rem) as (w & w' & -> & -> & Hw); [lia|lia|lia|].
    cbn [mbind res_bind]. by rewrite Hw.
Qed.
End eia1.

Section integrity_spec.
Context `{C : Crypto}.

(** The MAC-I of whole bytes depends on them only, although EIA1 reads whole words. *)
Lemma integrity_eq algorithm sc m b b' :
  message sc = 0 -> blength sc = 8 * Z.of_nat m -> (0 < m)%nat -> Z.of_nat m < 2 ^ 28 -> take m b = take m b' ->
  Forall is_byte b -> Forall is_byte b' -> (m + 3 <= length b)%nat -> (m + 3 <= length b')%nat ->
  stream_compute_integrity algorithm sc b = stream_compute_integrity algorithm sc b'.
Proof.
  intros Hoff Hbl Hm Hm' E Hb Hb' Hl Hl'. unfold stream_compute_integrity.
  rewrite (eia1_eq sc m b b') by done. destruct (_ =? _); [done|]. destruct (_ =? _); [|done].
  unfold stream_compute_integrity_eia2. destruct (whole_bytes m Hm') as (E1 & _ & E3 & _).
  rewrite Hbl, E1, E3, Hoff. change (0 >? 0) with false. cbv iota.
  by rewrite (mem_read_take m b b') by (lia || done).
Qed.
Lemma store32_bytes w : Forall is_byte (store32 w).
Proof. unfold store32. auto using byte_land with word. Qed.
Lemma eia1_ok sc m b K :
  snow3g_key (sc_key sc) = Ok K -> message sc = 0 -> blength sc = 8 * Z.of_nat m -> (0 < m)%nat ->
  (m + 3 <= length b)%nat ->
  exists mac, stream_compute_integrity_eia1 sc b = Ok (0, Some mac) /\ length mac = 4%nat /\ Forall is_byte mac.
Proof.
  intros HK Hoff Hbl Hm Hl. unfold stream_compute_integrity_eia1. rewrite HK. cbn [mbind res_bind].
  generalize (osa_snow3g_generate_key_stream 5 (osa_snow3g_initialize K
   (Mk_word4 (Z.lxor (u32 (Z.shiftl (Z.land (bearer sc) 31) 27)) (u32 (Z.shiftl (Z.land (direction sc) 1) 15)))
      (Z.lxor (count sc) (u32 (Z.shiftl (direction sc) 31))) (u32 (Z.shiftl (Z.land (bearer sc) 31) 27)) (count sc)))).
  intros z. rewrite Hbl. set (D := (8 * Z.of_nat m + 63) / 64 + 1).
  assert (HD : 8 * (D - 2) < Z.of_nat m <= 8 * (D - 2) + 8) by (unfold D; mod_lia).
  assert (Hw : forall i, 0 <= i -> 4 * i + 4 <= Z.of_nat m + 3 -> exists w, message_word sc b i = Ok w).
  { intros i H1 H2. unfold message_word. rewrite mem_read_ok by lia. by eexists. }
  assert (Hloop : forall r i v, 0 <= i -> 8 * (i + Z.of_nat r) <= Z.of_nat m ->
    forall P, exists v', eia1_loop sc b P 27 r i v = Ok v').
  { induction r as [|r IH]; intros i v H1 H2 P; [by eexists|]. cbn [eia1_loop].
    destruct (Hw (2 * i)) as [x ->]; [lia|lia|]. destruct (Hw (2 * i + 1)) as [y ->]; [lia|lia|].
    cbn [mbind res_bind]. apply IH; lia. }
  destruct (Hloop (Z.to_nat (D - 2)) 0 0 ltac:(lia) ltac:(lia) (Z.lor (Z.shiftl (nth 0 z 0) 32) (nth 1 z 0))) as [EV ->].
  cbn [mbind res_bind]. destruct (Hw (2 * (D - 2))) as [hi ->]; [lia|lia|]. cbn [mbind res_bind].
  destruct (Z.gtb_spec (if (8 * Z.of_nat m) mod 64 =? 0 then 64 else (8 * Z.of_nat m) mod 64) 32) as [Hgt|_].
  - destruct (Hw (2 * (D - 2) + 1)) as [lo ->].
    { lia. }
    { destruct (Z.eqb_spec ((8 * Z.of_nat m) mod 64) 0); unfold D in *; mod_lia. }
    cbn [mbind res_bind]. eexists. split; [done|]. split; [done|apply store32_bytes].
  - cbn [mbind res_bind]. eexists. split; [done|]. split; [done|apply store32_bytes].
Qed.
Lemma integrity_ok algorithm sc m b :
  1 <= algorithm <= 2 -> key_ok algorithm (sc_key sc) -> key_length sc = 16 ->
  message sc = 0 -> blength sc = 8 * Z.of_nat m -> (0 < m)%nat -> Z.of_nat m < 2 ^ 28 ->
  Forall is_byte b -> (m + 3 <= length b)%nat ->
  exists mac, stream_compute_integrity algorithm sc b = Ok (0, Some mac) /\ length mac = 4%nat /\ Forall is_byte mac.
Proof.
  intros Ha [-> |(bytes & Hk & Hlen)] Hkl Hoff Hbl Hm Hm' Hb Hl; [by change EEA0_ALG_ID with 0 in Ha; lia|].
  unfold stream_compute_integrity. destruct (Z.eqb_spec algorithm EIA1_128_ALG_ID) as [_|Hne].
  - destruct (snow3g_key_ok bytes Hlen) as [K HK]. apply (eia1_ok sc m b K); by rewrite ?Hk.
  - replace algorithm with EIA2_128_ALG_ID by (change EIA2_128_ALG_ID with 2; change EIA1_128_ALG_ID with 1 in Hne; lia).
    change (EIA2_128_ALG_ID =? EIA2_128_ALG_ID) with true. cbv iota. unfold stream_compute_integrity_eia2.
    destruct (whole_bytes m Hm') as (E1 & _ & E3 & _). rewrite Hbl, E1, E3, Hoff, Hk, Hkl. change (0 >? 0) with false. cbv iota.
    cbn [key_is_null negb assert_that mbind res_bind key_read].
    rewrite (mem_read_ok b) by lia. cbn [mbind res_bind]. rewrite (mem_read_ok bytes) by lia. cbn [mbind res_bind].
    eexists. split; [done|]. split; [by rewrite length_take, aes128_cmac_length|]. apply Forall_take, aes128_cmac_bytes.
Qed.
End integrity_spec.

(** A concrete stand-in for the libraries. *)
#[export] Program Instance sample_crypto : Crypto := {|
  aes128_ctr key iv i := u8 (foldr Z.add (Z.of_nat i) key + foldr Z.add 0 iv);
  aes128_cmac key message := replicate 16 (u8 (foldr Z.add 0 key + foldr Z.add 0 message))
|}.
Next Obligation. intros. simpl. apply byte_u8. Qed.
Next Obligation. done. Qed.
Next Obligation. intros. apply Forall_replicate, byte_u8. Qed.

Definition sample_key : list Z := be_bytes 16 0x2BD6459F82C5B300952C49104881FF48.
