(* ===== verification/PdcpTypes.v ===== *)
(** * PDCP entities and headers (pdcp.h, pdcp_primitives.c, pdcp_util.c)

    The entity of a radio bearer, the constants of pdcp.h, the keys of the table of entities, and
    the headers of PDUs. *)

From S2P Require Import Prelude Bits HashTable RlcAmTypes RlcStore.

(** ** Constants *)
Definition PDCP_CONTROL_PDU_BIT_SET : Z := 0.
Definition PDCP_DATA_PDU_BIT_SET : Z := 1.
Definition PDCP_CONTROL_PLANE_DATA_PDU_SN_SIZE : Z := 1.
Definition PDCP_CONTROL_PLANE_DATA_PDU_MAC_I_SIZE : Z := 4.
Definition PDCP_USER_PLANE_DATA_PDU_LONG_SN_HEADER_SIZE : Z := 2.
Definition PDCP_USER_PLANE_DATA_PDU_SHORT_SN_HEADER_SIZE : Z := 1.
Definition PDCP_SN_5BIT : Z := 5.
Definition PDCP_SN_7BIT : Z := 7.
Definition PDCP_SN_12BIT : Z := 12.
Definition REORDERING_WINDOW_SN_7BIT : Z := 64.
Definition REORDERING_WINDOW_SN_12BIT : Z := 2048.
Definition PDCP_Config__rlc_UM__pdcp_SN_Size_len7bits : Z := 0.
Definition PDCP_Config__rlc_UM__pdcp_SN_Size_len12bits : Z := 1.

Inductive pdcp_transmission_mode_t :=
| PDCP_TRANSMISSION_MODE_UNKNOWN
| PDCP_TRANSMISSION_MODE_CONTROL
| PDCP_TRANSMISSION_MODE_DATA
| PDCP_TRANSMISSION_MODE_TRANSPARENT.
#[export] Instance pdcp_mode_eq_dec : EqDecision pdcp_transmission_mode_t.
Proof. solve_decision. Defined.

(** ** The entity

    A key is the address of its bytes, 0 for NULL. *)
Record pdcp_t := Mk_pdcp {
  header_compression_profile : Z;
  is_ue : bool;
  is_srb : bool;
  cipheringAlgorithm : Z;
  integrityProtAlgorithm : Z;
  kUPenc : Z;
  kRRCint : Z;
  kRRCenc : Z;
  security_activated : Z;
  pdcp_rlc_mode : rlc_mode_t;
  status_report : Z;
  seq_num_size : Z;
  lcid : Z;
  rb_id : Z;
  next_pdcp_tx_sn : Z;
  next_pdcp_rx_sn : Z;
  next_pdcp_rx_sn_before_integrity : Z;
  tx_hfn : Z;
  rx_hfn : Z;
  rx_hfn_offset : Z;
  last_submitted_pdcp_rx_sn : Z;
  missing_pdu_bitmap : list Z;
  first_missing_pdu : Z
}.
#[export] Instance eta_pdcp : Eta pdcp_t := fun p =>
  Mk_pdcp (header_compression_profile p) (is_ue p) (is_srb p) (cipheringAlgorithm p) (integrityProtAlgorithm p)
    (kUPenc p) (kRRCint p) (kRRCenc p) (security_activated p) (pdcp_rlc_mode p) (status_report p) (seq_num_size p)
    (lcid p) (rb_id p) (next_pdcp_tx_sn p) (next_pdcp_rx_sn p) (next_pdcp_rx_sn_before_integrity p) (tx_hfn p)
    (rx_hfn p) (rx_hfn_offset p) (last_submitted_pdcp_rx_sn p) (missing_pdu_bitmap p) (first_missing_pdu p).

(** [calloc], and [memset] when an entity is removed. *)
Definition pdcp_zero : pdcp_t :=
  Mk_pdcp 0 false false 0 0 0 0 0 0 RLC_MODE_NONE 0 0 0 0 0 0 0 0 0 0 0 (replicate 512 0) 0.

(** ** Keys *)
Definition PDCP_COLL_KEY_VALUE (module_id rnti : Z) (is_enb : bool) (rb_id : Z) (is_srb : bool) : Z :=
  Z.lor (Z.lor (Z.lor (Z.lor (Z.lor module_id (Z.shiftl rnti 8)) (Z.shiftl (b2z is_enb) 24))
                      (Z.shiftl rb_id 25)) (Z.shiftl (b2z is_srb) 33)) (Z.shiftl 85 34).
(** The default DRB of a UE: the tag is 0xaa instead of 0x55. *)
Definition PDCP_COLL_KEY_DEFAULT_DRB_VALUE (module_id rnti : Z) (is_enb : bool) : Z :=
  Z.lor (Z.lor (Z.lor (Z.lor (Z.lor module_id (Z.shiftl rnti 8)) (Z.shiftl (b2z is_enb) 24))
                      (Z.shiftl 255 25)) (Z.shiftl 0 33)) (Z.shiftl 170 34).
Definition pdcp_key (c : rlc_ctxt_t) (rb_id : Z) (srb_flag : bool) : Z :=
  PDCP_COLL_KEY_VALUE (module_id c) (rnti c) (enb_flag (ctxt c)) rb_id srb_flag.
Definition default_drb_key (c : rlc_ctxt_t) : Z :=
  PDCP_COLL_KEY_DEFAULT_DRB_VALUE (module_id c) (rnti c) (enb_flag (ctxt c)).

(** ** Headers

    [buf] is the memory of the PDU. *)
Definition pdcp_get_dc_filed (buf : list Z) : res Z :=
  b ← array_get buf 0;
  Ok (Z.shiftr (Z.land b 240) 8).
Definition pdcp_get_sequence_number_of_pdu_with_long_sn (buf : list Z) : res Z :=
  b0 ← array_get buf 0;
  b1 ← array_get buf 1;
  Ok (Z.lor (u16 (Z.shiftl (Z.land b0 15) 8)) (Z.land b1 255)).
Definition pdcp_get_sequence_number_of_pdu_with_short_sn (buf : list Z) : res Z :=
  b ← array_get buf 0;
  Ok (Z.land b 127).
Definition pdcp_get_sequence_number_of_pdu_with_SRB_sn (buf : list Z) : res Z :=
  b ← array_get buf 0;
  Ok (Z.land b 31).

Definition pdcp_serialize_control_plane_data_pdu_with_SRB_sn_buffer (buf : list Z) (sn : Z) : res (list Z) :=
  array_set buf 0 (Z.land sn 31).
Definition pdcp_serialize_user_plane_data_pdu_with_long_sn_buffer (buf : list Z) (dc sn : Z) : res (list Z) :=
  buf ← array_set buf 1 (Z.land sn 255);
  let sn := Z.shiftr sn 8 in
  buf ← array_set buf 0 (Z.land sn 255);
  if dc =? PDCP_DATA_PDU_BIT_SET then
    b ← array_get buf 0;
    array_set buf 0 (Z.lor b 128)
  else Ok buf.

(** [*octet |= 0x80 >> index]. *)
Definition util_mark_nth_bit_of_octet (octet index : Z) : Z := Z.lor octet (Z.shiftr 128 index).
(** The header and the bitmap of a status report are or-ed into what the buffer holds. *)
Definition pdcp_serialize_control_pdu_for_pdcp_status_report (buf bitmap : list Z) (first_missing_sn : Z) : res (list Z) :=
  b0 ← array_get buf 0;
  buf ← array_set buf 0 (util_mark_nth_bit_of_octet b0 1);
  b0 ← array_get buf 0;
  buf ← array_set buf 0 (Z.lor b0 (Z.land (Z.shiftr first_missing_sn 8) 255));
  b1 ← array_get buf 1;
  buf ← array_set buf 1 (Z.lor b1 (Z.land first_missing_sn 255));
  bitmap ← mem_read bitmap 0 512;
  mem_write buf 2 bitmap.

(** ** What the headers carry *)
Lemma array_get_set_eq {A} (l : list A) i v l' : array_set l i v = Ok l' -> array_get l' i = Ok v.
Proof.
  intros H. apply array_set_inv in H as [Hi ->]. unfold array_get. rewrite (proj2 (Z.leb_le _ _) (proj1 Hi)).
  by rewrite list_lookup_insert_eq by lia.
Qed.
Lemma array_get_set_ne {A} (l : list A) i j v l' :
  array_set l i v = Ok l' -> i <> j -> array_get l' j = array_get l j.
Proof.
  intros H Hne. apply array_set_inv in H as [Hi ->]. unfold array_get. destruct (Z.leb_spec 0 j); [|done].
  by rewrite list_lookup_insert_ne by lia.
Qed.
Lemma long_sn_bytes sn : 0 <= sn < 4096 -> Z.land sn 255 = sn mod 256 /\ Z.land (Z.shiftr sn 8) 255 = sn / 256.
Proof.
  intros H. change 255 with (2 ^ 8 - 1). rewrite !land_ones_mod, Z.shiftr_div_pow2 by lia. change (2 ^ 8) with 256.
  split; [done|]. mod_lia.
Qed.
Lemma serialize_long_eq b0 b1 buf dc sn :
  0 <= sn < 4096 ->
  pdcp_serialize_user_plane_data_pdu_with_long_sn_buffer (b0 :: b1 :: buf) dc sn =
    Ok ((if dc =? PDCP_DATA_PDU_BIT_SET then sn / 256 + 128 else sn / 256) :: sn mod 256 :: buf).
Proof.
  intros H. unfold pdcp_serialize_user_plane_data_pdu_with_long_sn_buffer. destruct (long_sn_bytes sn H) as [-> ->].
  rewrite array_set_ok by (cbn [length]; lia). cbn [mbind res_bind].
  rewrite array_set_ok by (rewrite length_insert; cbn [length]; lia). cbn [mbind res_bind].
  change (<[Z.to_nat 0:=sn / 256]> (<[Z.to_nat 1:=sn mod 256]> (b0 :: b1 :: buf))) with (sn / 256 :: sn mod 256 :: buf).
  destruct (_ =? _); [|done]. change (array_get (?x :: _) 0) with (Ok x). cbn [mbind res_bind].
  rewrite array_set_ok by (cbn [length]; lia). cbn [Z.to_nat insert list_insert].
  assert (E := lor_shiftl_add 1 (sn / 256) 7 ltac:(lia) ltac:(mod_lia)). change (Z.shiftl 1 7) with 128 in E.
  replace (Z.lor (sn / 256) 128) with (sn / 256 + 128) by (rewrite Z.lor_comm; lia). done.
Qed.
Lemma get_long_eq b0 b1 buf : 0 <= b1 < 256 ->
  pdcp_get_sequence_number_of_pdu_with_long_sn (b0 :: b1 :: buf) = Ok (b0 mod 16 * 256 + b1).
Proof.
  intros H. unfold pdcp_get_sequence_number_of_pdu_with_long_sn.
  change (array_get (?x :: _) 0) with (Ok x). change (array_get (_ :: ?x :: _) 1) with (Ok x). cbn [mbind res_bind].
  f_equal. change 15 with (2 ^ 4 - 1). change 255 with (2 ^ 8 - 1). rewrite !land_ones_mod by lia.
  change (2 ^ 4) with 16. rewrite (Z.mod_small b1) by done. assert (0 <= b0 mod 16 < 16) by (by apply Z.mod_pos_bound).
  unfold u16. rewrite wrapu_small by (rewrite Z.shiftl_mul_pow2 by lia; lia). by rewrite lor_shiftl_add by lia.
Qed.
(** The long header gives back its sequence number. *)
Lemma long_header_roundtrip b0 b1 buf dc sn buf' :
  0 <= sn < 4096 ->
  pdcp_serialize_user_plane_data_pdu_with_long_sn_buffer (b0 :: b1 :: buf) dc sn = Ok buf' ->
  pdcp_get_sequence_number_of_pdu_with_long_sn buf' = Ok sn.
Proof.
  intros H. rewrite serialize_long_eq by done. intros [= <-]. rewrite get_long_eq by mod_lia.
  f_equal. destruct (_ =? _); mod_lia.
Qed.
Lemma serialize_srb_eq b0 buf sn : 0 <= sn < 32 ->
  pdcp_serialize_control_plane_data_pdu_with_SRB_sn_buffer (b0 :: buf) sn = Ok (sn :: buf).
Proof.
  intros H. unfold pdcp_serialize_control_plane_data_pdu_with_SRB_sn_buffer. rewrite array_set_ok by (cbn [length]; lia).
  change 31 with (2 ^ 5 - 1). rewrite land_ones_mod by lia. by rewrite Z.mod_small by done.
Qed.
Lemma get_srb_eq b0 buf : 0 <= b0 < 32 -> pdcp_get_sequence_number_of_pdu_with_SRB_sn (b0 :: buf) = Ok b0.
Proof.
  intros H. unfold pdcp_get_sequence_number_of_pdu_with_SRB_sn. change (array_get (?x :: _) 0) with (Ok x). cbn [mbind res_bind].
  change 31 with (2 ^ 5 - 1). rewrite land_ones_mod by lia. by rewrite Z.mod_small by done.
Qed.
(** The D/C field is never read: the shift loses it. *)
Lemma dc_field_lost buf dc : Forall is_byte buf -> pdcp_get_dc_filed buf = Ok dc -> dc = 0.
Proof.
  intros Hb H. unfold pdcp_get_dc_filed in H. destruct (array_get buf 0) as [b|] eqn:E; [|done]. injection H as <-.
  apply array_get_inv in E as [_ E]. rewrite Forall_lookup in Hb. specialize (Hb _ _ E). unfold is_byte in Hb.
  rewrite Z.shiftr_land. rewrite (Z.shiftr_div_pow2 b) by lia. by rewrite Z.div_small by (change (2 ^ 8) with 256; lia).
Qed.
