(* ===== verification/PdcpSequence.v ===== *)
(** * Sequence numbers of PDCP (pdcp_sequence_manager.c)

    The numbers of the PDUs sent and received and their hyper frame numbers, from which
    PdcpSecurity makes COUNT.  The entity is never NULL here: the tests for it are left out. *)

From S2P Require Import Prelude Bits RlcAmTypes RlcStore PdcpTypes.

Definition pdcp_init_seq_numbers (p : pdcp_t) : pdcp_t :=
  p <| next_pdcp_tx_sn := 0 |> <| next_pdcp_rx_sn := 0 |> <| tx_hfn := 0 |> <| rx_hfn := 0 |>
    <| last_submitted_pdcp_rx_sn := 4095 |>.
Definition pdcp_is_seq_num_size_valid (p : pdcp_t) : bool :=
  (seq_num_size p =? 5) || (seq_num_size p =? 7) || (seq_num_size p =? 12).
Definition pdcp_calculate_max_seq_num_for_given_size (seq_num_size : Z) : Z :=
  u16 (u16 (Z.shiftl 1 seq_num_size) - 1).
Definition pdcp_is_seq_num_valid (seq_num seq_num_size : Z) : bool :=
  (0 <=? seq_num) && (seq_num <=? pdcp_calculate_max_seq_num_for_given_size seq_num_size).

(** The number assigned, 65535 for an entity that is not configured. *)
Definition pdcp_get_next_tx_seq_number (p : pdcp_t) : Z * pdcp_t :=
  if pdcp_is_seq_num_size_valid p then
    (next_pdcp_tx_sn p,
     if next_pdcp_tx_sn p =? pdcp_calculate_max_seq_num_for_given_size (seq_num_size p)
     then p <| next_pdcp_tx_sn := 0 |> <| tx_hfn := u32 (tx_hfn p + 1) |>
     else p <| next_pdcp_tx_sn := u16 (next_pdcp_tx_sn p + 1) |>)
  else (u16 (-1), p).
Definition pdcp_advance_rx_window (p : pdcp_t) : pdcp_t :=
  if pdcp_is_seq_num_size_valid p then
    if next_pdcp_rx_sn p =? pdcp_calculate_max_seq_num_for_given_size (seq_num_size p)
    then p <| next_pdcp_rx_sn := 0 |> <| rx_hfn := u32 (rx_hfn p + 1) |>
    else p <| next_pdcp_rx_sn := u16 (next_pdcp_rx_sn p + 1) |>
  else p.

Definition pdcp_mark_current_pdu_as_received (seq_num : Z) (p : pdcp_t) : res pdcp_t :=
  let octet_index := seq_num / 8 in
  b ← array_get (missing_pdu_bitmap p) octet_index;
  bitmap ← array_set (missing_pdu_bitmap p) octet_index (util_mark_nth_bit_of_octet b (seq_num mod 8));
  Ok (p <| missing_pdu_bitmap := bitmap |>).

(** The hyper frame number goes up when the numbers wrapped; the window moves after the PDU. *)
Definition rx_wrapped (seq_num : Z) (p : pdcp_t) : pdcp_t :=
  if seq_num <? next_pdcp_rx_sn p then p <| rx_hfn := u32 (rx_hfn p + 1) |> else p.
Definition rx_srb (seq_num : Z) (p : pdcp_t) : pdcp_t :=
  let p := (rx_wrapped seq_num p) <| rx_hfn_offset := 0 |> in
  let p := p <| next_pdcp_rx_sn_before_integrity := next_pdcp_rx_sn p |> in
  pdcp_advance_rx_window (p <| next_pdcp_rx_sn := seq_num |>).
Definition rx_drb_um (seq_num : Z) (p : pdcp_t) : pdcp_t :=
  pdcp_advance_rx_window ((rx_wrapped seq_num p) <| next_pdcp_rx_sn := seq_num |>).
Definition rx_drb_am (seq_num : Z) (p : pdcp_t) : bool * pdcp_t :=
  let reordering_window := if seq_num_size p =? PDCP_SN_7BIT then REORDERING_WINDOW_SN_7BIT else REORDERING_WINDOW_SN_12BIT in
  let last := last_submitted_pdcp_rx_sn p in
  if (seq_num - last >? reordering_window) || ((0 <=? last - seq_num) && (last - seq_num <? reordering_window)) then
    (false, p <| rx_hfn_offset := if seq_num >? next_pdcp_rx_sn p then -1 else 0 |>)
  else if next_pdcp_rx_sn p - seq_num >? reordering_window then
    (true, p <| rx_hfn := u32 (rx_hfn p + 1) |> <| rx_hfn_offset := 0 |> <| next_pdcp_rx_sn := u16 (next_pdcp_rx_sn p + 1) |>)
  else if seq_num - next_pdcp_rx_sn p >=? reordering_window then (true, p <| rx_hfn_offset := -1 |>)
  else if seq_num >=? next_pdcp_rx_sn p then
    (true, pdcp_advance_rx_window (p <| rx_hfn_offset := 0 |> <| next_pdcp_rx_sn := seq_num |>))
  else (true, p <| rx_hfn_offset := 0 |>).

Definition pdcp_is_rx_seq_number_valid (seq_num : Z) (p : pdcp_t) (srb_flagP : bool) : res (bool * pdcp_t) :=
  if negb (pdcp_is_seq_num_size_valid p) || negb (pdcp_is_seq_num_valid seq_num (seq_num_size p)) then Ok (false, p)
  else
    p ← pdcp_mark_current_pdu_as_received seq_num p;
    Ok (if srb_flagP then (true, rx_srb seq_num p)
        else match pdcp_rlc_mode p with
             | RLC_MODE_AM => rx_drb_am seq_num p
             | RLC_MODE_UM => (true, rx_drb_um seq_num p)
             | RLC_MODE_TM | RLC_MODE_NONE => (false, p)
             end).

(** ** Numbers and hyper frame numbers of the PDU of index [n]

    PDUs are counted from 0 since the entity was configured; [2 ^ k] numbers. *)
Section numbers.
Context (k : Z) (Hk : k = 5 \/ k = 7 \/ k = 12).
Local Abbreviation M := (2 ^ k).

Lemma sn_sizes : M = 32 \/ M = 128 \/ M = 4096.
Proof. destruct Hk as [-> | [-> | ->]]; auto. Qed.
Ltac sn_lia := destruct sn_sizes as [EM|[EM|EM]]; rewrite ?EM in *; mod_lia.
Lemma sn_size_pos : 32 <= M <= 4096.
Proof. destruct Hk as [-> | [-> | ->]]; lia. Qed.
Lemma max_seq_num : pdcp_calculate_max_seq_num_for_given_size k = M - 1.
Proof. destruct Hk as [-> | [-> | ->]]; reflexivity. Qed.
Lemma size_valid p : seq_num_size p = k -> pdcp_is_seq_num_size_valid p = true.
Proof. unfold pdcp_is_seq_num_size_valid. intros ->. destruct Hk as [-> | [-> | ->]]; reflexivity. Qed.

(** [n] PDUs were sent. *)
Definition tx_at (n : Z) (p : pdcp_t) : Prop :=
  seq_num_size p = k /\ next_pdcp_tx_sn p = n mod M /\ tx_hfn p = u32 (n / M).
(** The PDU of index [n] is the next expected. *)
Definition rx_at (n : Z) (p : pdcp_t) : Prop :=
  seq_num_size p = k /\ next_pdcp_rx_sn p = n mod M /\ rx_hfn p = u32 (n / M) /\ rx_hfn_offset p = 0.

Lemma u32_succ a : u32 (u32 a + 1) = u32 (a + 1).
Proof. unfold u32, wrapu. by rewrite Zplus_mod_idemp_l. Qed.
Lemma succ_wrap n : 0 <= n -> n mod M = M - 1 -> (n + 1) mod M = 0 /\ (n + 1) / M = n / M + 1.
Proof. intros Hn H. sn_lia. Qed.
Lemma succ_no_wrap n : 0 <= n -> n mod M <> M - 1 -> (n + 1) mod M = n mod M + 1 /\ (n + 1) / M = n / M.
Proof. intros Hn H. sn_lia. Qed.
Lemma sn_range n : 0 <= n mod M < 4096.
Proof. assert (HM := sn_size_pos). assert (H := Z.mod_pos_bound n M). lia. Qed.

Lemma next_tx_spec n p :
  0 <= n -> tx_at n p ->
  let '(sn, p') := pdcp_get_next_tx_seq_number p in sn = n mod M /\ tx_at (n + 1) p' /\ p' = p <| next_pdcp_tx_sn := next_pdcp_tx_sn p' |> <| tx_hfn := tx_hfn p' |>.
Proof.
  intros Hn (Hs & Hsn & Hh). unfold pdcp_get_next_tx_seq_number. rewrite (size_valid p Hs), Hs, Hsn, max_seq_num.
  assert (Hr := sn_range n). split; [done|]. destruct (Z.eqb_spec (n mod M) (M - 1)) as [E|E].
  - destruct (succ_wrap n Hn E) as [E1 E2]. split; [|by destruct p]. unfold tx_at. cbn. by rewrite Hh, u32_succ, E1, E2.
  - destruct (succ_no_wrap n Hn E) as [E1 E2]. split; [|by destruct p]. unfold tx_at. cbn.
    unfold u16. rewrite wrapu_small by lia. by rewrite E1, E2.
Qed.

(** What a step of the receiver may change. *)
Definition rx_same (p p' : pdcp_t) : Prop :=
  p' = p <| next_pdcp_rx_sn := next_pdcp_rx_sn p' |> <| next_pdcp_rx_sn_before_integrity := next_pdcp_rx_sn_before_integrity p' |>
         <| rx_hfn := rx_hfn p' |> <| rx_hfn_offset := rx_hfn_offset p' |>.

Lemma advance_spec i p :
  0 <= i -> seq_num_size p = k -> next_pdcp_rx_sn p = i mod M -> rx_hfn p = u32 (i / M) -> rx_hfn_offset p = 0 ->
  rx_at (i + 1) (pdcp_advance_rx_window p) /\ rx_same p (pdcp_advance_rx_window p).
Proof.
  intros Hi Hs Hn Hh Ho. unfold pdcp_advance_rx_window. rewrite (size_valid p Hs), Hs, Hn, max_seq_num.
  assert (Hr := sn_range i). destruct (Z.eqb_spec (i mod M) (M - 1)) as [E|E].
  - destruct (succ_wrap i Hi E) as [E1 E2]. split; [|by destruct p]. unfold rx_at. cbn. by rewrite Hh, u32_succ, E1, E2.
  - destruct (succ_no_wrap i Hi E) as [E1 E2]. split; [|by destruct p]. unfold rx_at. cbn.
    unfold u16. rewrite wrapu_small by lia. by rewrite E1, E2.
Qed.
Lemma rx_same_trans p q r : rx_same p q -> rx_same q r -> rx_same p r.
Proof. unfold rx_same. intros H1 H2. rewrite H2. by rewrite H1. Qed.

(** The PDU of index [i] arrives when [n] is expected, fewer than [2 ^ k] later. *)
Lemma wrapped_spec n i p :
  0 <= n <= i -> i < n + M -> rx_at n p -> let p' := rx_wrapped (i mod M) p in
  rx_hfn p' = u32 (i / M) /\ seq_num_size p' = k /\ rx_hfn_offset p' = 0 /\ rx_same p p'.
Proof.
  intros Hn Hi (Hs & Hsn & Hh & Ho). unfold rx_wrapped. rewrite Hsn.
  destruct (Z.ltb_spec (i mod M) (n mod M)); (split_and!; [|done|done|by destruct p]).
  - cbn. rewrite Hh, u32_succ. f_equal. sn_lia.
  - cbn. rewrite Hh. f_equal. sn_lia.
Qed.
Lemma rx_srb_spec n i p :
  0 <= n <= i -> i < n + M -> rx_at n p -> rx_at (i + 1) (rx_srb (i mod M) p) /\ rx_same p (rx_srb (i mod M) p).
Proof.
  intros Hn Hi H. destruct (wrapped_spec n i p Hn Hi H) as (H1 & H2 & H3 & H4). unfold rx_srb.
  destruct (advance_spec i ((rx_wrapped (i mod M) p) <| rx_hfn_offset := 0 |>
    <| next_pdcp_rx_sn_before_integrity := next_pdcp_rx_sn ((rx_wrapped (i mod M) p) <| rx_hfn_offset := 0 |>) |>
    <| next_pdcp_rx_sn := i mod M |>)) as [A B]; [lia|done|done|done|done|].
  split; [exact A|]. eapply rx_same_trans; [exact H4|]. eapply rx_same_trans; [|exact B]. by destruct p.
Qed.
Lemma rx_drb_um_spec n i p :
  0 <= n <= i -> i < n + M -> rx_at n p -> rx_at (i + 1) (rx_drb_um (i mod M) p) /\ rx_same p (rx_drb_um (i mod M) p).
Proof.
  intros Hn Hi H. destruct (wrapped_spec n i p Hn Hi H) as (H1 & H2 & H3 & H4). unfold rx_drb_um.
  destruct (advance_spec i ((rx_wrapped (i mod M) p) <| next_pdcp_rx_sn := i mod M |>)) as [A B]; [lia|done|done|done|done|].
  split; [exact A|]. eapply rx_same_trans; [exact H4|]. eapply rx_same_trans; [|exact B]. by destruct p.
Qed.
End numbers.

(** AM, 12 bits: within the block of numbers of the expected one. *)
Lemma rx_drb_am_spec n i p :
  0 <= n <= i -> i < n + 2048 -> i / 4096 = n / 4096 -> rx_at 12 n p -> last_submitted_pdcp_rx_sn p = (n - 1) mod 4096 ->
  exists p', rx_drb_am (i mod 4096) p = (true, p') /\ rx_at 12 (i + 1) p' /\ rx_same p p'.
Proof.
  intros Hn Hi Hblk H Hl. assert (Hat := H). destruct H as (Hs & Hsn & Hh & Ho). change (2 ^ 12) with 4096 in *.
  unfold rx_drb_am. rewrite Hs, Hsn, Hl.
  change (12 =? PDCP_SN_7BIT) with false. change REORDERING_WINDOW_SN_12BIT with 2048. cbv iota zeta.
  assert (E1 : (i mod 4096 - (n - 1) mod 4096 >? 2048) = false) by mod_lia.
  assert (E2 : (0 <=? (n - 1) mod 4096 - i mod 4096) && ((n - 1) mod 4096 - i mod 4096 <? 2048) = false).
  { apply andb_false_iff. destruct (Z.leb_spec 0 ((n - 1) mod 4096 - i mod 4096)); [right|by left]. mod_lia. }
  assert (E3 : (n mod 4096 - i mod 4096 >? 2048) = false) by mod_lia.
  assert (E4 : (i mod 4096 - n mod 4096 >=? 2048) = false) by mod_lia.
  assert (E5 : (i mod 4096 >=? n mod 4096) = true) by mod_lia.
  rewrite E1, E2, E3, E4, E5. cbn [orb]. eexists. split; [done|].
  destruct (advance_spec 12 ltac:(lia) i (p <| rx_hfn_offset := 0 |> <| next_pdcp_rx_sn := i mod 4096 |>)) as [A B];
    [lia|done|done| |done|].
  { change (2 ^ 12) with 4096. rewrite Hblk. exact Hh. }
  split; [exact A|]. eapply rx_same_trans; [|exact B]. by destruct p.
Qed.
