(* ===== verification/PdcpSecurity.v ===== *)
(** * Security of PDCP (pdcp_security.c)

    COUNT, and ciphering and integrity protection of a PDU in its block of memory. *)

From S2P Require Import Prelude Bits Snow3g StreamCipher RlcAmTypes RlcStore PdcpTypes PdcpSequence.

(** The test for 7 bits compares the size with the value 0 of an enumeration. *)
Definition pdcp_get_next_count_tx (p : pdcp_t) (srb_flagP : bool) (pdcp_sn : Z) : Z :=
  if srb_flagP then Z.lor (u32 (Z.shiftl (tx_hfn p) 5)) (Z.land pdcp_sn 31)
  else if seq_num_size p =? PDCP_Config__rlc_UM__pdcp_SN_Size_len7bits
  then Z.lor (u32 (Z.shiftl (tx_hfn p) 7)) (Z.land pdcp_sn 127)
  else Z.lor (u32 (Z.shiftl (tx_hfn p) 12)) (Z.land pdcp_sn 4095).
Definition pdcp_get_next_count_rx (p : pdcp_t) (srb_flagP : bool) (pdcp_sn : Z) : Z * pdcp_t :=
  let hfn := u32 (rx_hfn p + rx_hfn_offset p) in
  (if srb_flagP then Z.lor (u32 (Z.shiftl hfn 5)) (Z.land pdcp_sn 31)
   else if seq_num_size p =? PDCP_Config__rlc_UM__pdcp_SN_Size_len7bits
   then Z.lor (u32 (Z.shiftl hfn 7)) (Z.land pdcp_sn 127)
   else Z.lor (u32 (Z.shiftl hfn 12)) (Z.land pdcp_sn 4095),
   p <| rx_hfn_offset := 0 |>).

(** The memory of the keys. *)
Definition key_at (keys : gmap Z (list Z)) (a : Z) : key_ptr :=
  if a =? 0 then Key_null else match keys !! a with Some bytes => Key_at bytes | None => Key_wild end.

Section security.
Context `{C : Crypto}.
Context (keys : gmap Z (list Z)).

(** [kRRCint + 16] and the data key of the bearer. *)
Definition integrity_key (p : pdcp_t) : key_ptr := key_add (key_at keys (kRRCint p)) 16.
Definition cipher_key (p : pdcp_t) (srb_flagP : bool) : key_ptr :=
  key_at keys (if srb_flagP then kRRCenc p else kUPenc p).

(** The return value is 0 always; the block after it. *)
Definition pdcp_apply_security (p : pdcp_t) (srb_flagP : bool) (rb_id pdcp_header_len current_sn : Z)
    (buf : list Z) (sdu_buffer_size : Z) : res (list Z) :=
  _ ← assert_that ((rb_id <? NB_RB_MAX) && (0 <=? rb_id));
  let direction := if is_ue p then SECU_DIRECTION_UPLINK else SECU_DIRECTION_DOWNLINK in
  let bearer := u8 (rb_id - 1) in
  let count := pdcp_get_next_count_tx p srb_flagP current_sn in
  buf ← (if srb_flagP then
           let blength := u32 (Z.shiftl (pdcp_header_len + sdu_buffer_size) 3) in
           '(_, mac_i) ← stream_compute_integrity (integrityProtAlgorithm p)
                           (Mk_stream_cipher (integrity_key p) 16 count bearer direction 0 blength) buf;
           match mac_i with
           | Some mac_i => mem_write buf (pdcp_header_len + sdu_buffer_size) mac_i
           | None => Ok buf
           end
         else Ok buf);
  '(_, _, buf) ← stream_encrypt (cipheringAlgorithm p)
                   (Mk_stream_cipher (cipher_key p srb_flagP) 16 count bearer direction pdcp_header_len
                      (u32 (Z.shiftl sdu_buffer_size 3))) (Out_at pdcp_header_len) buf;
  Ok buf.

(** The return value, the entity and the block. *)
Definition pdcp_validate_security (p : pdcp_t) (srb_flagP : bool) (rb_id pdcp_header_len current_sn : Z)
    (buf : list Z) (sdu_buffer_size : Z) : res (Z * pdcp_t * list Z) :=
  _ ← assert_that ((rb_id <? NB_RB_MAX) && (0 <=? rb_id));
  let direction := if is_ue p then SECU_DIRECTION_DOWNLINK else SECU_DIRECTION_UPLINK in
  let bearer := u8 (rb_id - 1) in
  let '(count, p) := pdcp_get_next_count_rx p srb_flagP current_sn in
  '(_, _, buf) ← stream_encrypt (cipheringAlgorithm p)
                   (Mk_stream_cipher (cipher_key p srb_flagP) 16 count bearer direction pdcp_header_len
                      (u32 (Z.shiftl (sdu_buffer_size - pdcp_header_len) 3))) (Out_at pdcp_header_len) buf;
  if srb_flagP then
    rc ← stream_check_integrity (integrityProtAlgorithm p)
           (Mk_stream_cipher (integrity_key p) 16 count bearer direction 0 (u32 (Z.shiftl sdu_buffer_size 3)))
           sdu_buffer_size buf;
    Ok (if truthy rc then -1 else 0, p, buf)
  else Ok (0, p, buf).
End security.

(** ** COUNT of the PDU of index [i] *)

(** The hyper frame number is already the next one for the last number before the wrap. *)
Definition count_bits (srb_flagP : bool) : Z := if srb_flagP then 5 else 12.
Definition pdcp_count (k : Z) (srb_flagP : bool) (i : Z) : Z :=
  u32 ((i + 1) / 2 ^ k * 2 ^ count_bits srb_flagP) + i mod 2 ^ k.

Lemma count_eq hfn sn n : 0 <= n <= 12 -> 0 <= sn < 2 ^ n ->
  Z.lor (u32 (Z.shiftl (u32 hfn) n)) (Z.land sn (2 ^ n - 1)) = u32 (hfn * 2 ^ n) + sn.
Proof.
  intros Hn Hsn. rewrite land_ones_mod, (Z.mod_small sn) by lia.
  assert (E : u32 (Z.shiftl (u32 hfn) n) = Z.shiftl (hfn mod 2 ^ (32 - n)) n).
  { unfold u32, wrapu. rewrite !Z.shiftl_mul_pow2 by lia. rewrite Z.mul_mod_idemp_l by lia.
    replace (2 ^ 32) with (2 ^ (32 - n) * 2 ^ n) by (rewrite <- Z.pow_add_r by lia; f_equal; lia).
    rewrite Z.mul_mod_distr_r; [done| |]; apply Z.pow_nonzero; lia. }
  rewrite E, lor_shiftl_add by lia. f_equal. rewrite <- Z.shiftl_mul_pow2 by lia. rewrite <- E.
  unfold u32, wrapu. rewrite !Z.shiftl_mul_pow2 by lia. by rewrite Z.mul_mod_idemp_l by lia.
Qed.
(** The sizes of the two kinds of bearers. *)
Definition size_ok (k : Z) (srb_flagP : bool) : Prop := if srb_flagP then k = 5 else k = 7 \/ k = 12.
Lemma size_ok_sizes k srb_flagP : size_ok k srb_flagP -> k = 5 \/ k = 7 \/ k = 12.
Proof. destruct srb_flagP; cbn; lia. Qed.

Lemma count_tx_spec k srb i p :
  size_ok k srb -> 0 <= i -> tx_at k (i + 1) p -> pdcp_get_next_count_tx p srb (i mod 2 ^ k) = pdcp_count k srb i.
Proof.
  intros Hk Hi (Hs & _ & Hh). unfold pdcp_get_next_count_tx, pdcp_count. rewrite Hs, Hh.
  assert (Hb : 0 <= i mod 2 ^ k < 2 ^ k) by (apply Z.mod_pos_bound, Z.pow_pos_nonneg; destruct srb; cbn in Hk; lia).
  destruct srb; cbn [size_ok count_bits] in *.
  - subst k. by apply (count_eq _ _ 5).
  - destruct Hk as [-> | ->]; (change (_ =? PDCP_Config__rlc_UM__pdcp_SN_Size_len7bits) with false); cbv iota;
      apply (count_eq _ _ 12); lia.
Qed.
Lemma count_rx_spec k srb i p :
  size_ok k srb -> 0 <= i -> rx_at k (i + 1) p ->
  pdcp_get_next_count_rx p srb (i mod 2 ^ k) = (pdcp_count k srb i, p).
Proof.
  intros Hk Hi (Hs & _ & Hh & Ho). unfold pdcp_get_next_count_rx, pdcp_count. rewrite Hs, Hh, Ho, Z.add_0_r.
  assert (Hu : u32 (u32 ((i + 1) / 2 ^ k)) = u32 ((i + 1) / 2 ^ k)) by (unfold u32, wrapu; by rewrite Z.mod_mod). rewrite Hu.
  assert (Hb : 0 <= i mod 2 ^ k < 2 ^ k) by (apply Z.mod_pos_bound, Z.pow_pos_nonneg; destruct srb; cbn in Hk; lia).
  f_equal; [|destruct p; cbn in *; by rewrite Ho]. destruct srb; cbn [size_ok count_bits] in *.
  - subst k. by apply (count_eq _ _ 5).
  - destruct Hk as [-> | ->]; (change (_ =? PDCP_Config__rlc_UM__pdcp_SN_Size_len7bits) with false); cbv iota;
      apply (count_eq _ _ 12); lia.
Qed.

(** ** Sender and receiver agree on COUNT *)

(** A PDU sent: its number and its COUNT.  A PDU received: its COUNT; in AM its number is then that of
    the last SDU delivered. *)
Definition tx_count (srb : bool) (p : pdcp_t) : Z * Z * pdcp_t :=
  let '(sn, p) := pdcp_get_next_tx_seq_number p in (sn, pdcp_get_next_count_tx p srb sn, p).
Fixpoint tx_counts (srb : bool) (n : nat) (p : pdcp_t) : list (Z * Z) * pdcp_t :=
  match n with
  | O => ([], p)
  | S n =>
      let '(sn, count, p) := tx_count srb p in
      let '(l, p) := tx_counts srb n p in ((sn, count) :: l, p)
  end.
Definition rx_submitted (sn : Z) (p : pdcp_t) : pdcp_t :=
  match pdcp_rlc_mode p with RLC_MODE_AM => p <| last_submitted_pdcp_rx_sn := sn |> | _ => p end.
Definition rx_count (srb : bool) (sn : Z) (p : pdcp_t) : res (Z * pdcp_t) :=
  '(_, p) ← pdcp_is_rx_seq_number_valid sn p srb;
  let '(count, p) := pdcp_get_next_count_rx p srb sn in
  Ok (count, rx_submitted sn p).
Fixpoint rx_counts (srb : bool) (sns : list Z) (p : pdcp_t) : res (list Z * pdcp_t) :=
  match sns with
  | [] => Ok ([], p)
  | sn :: sns =>
      '(count, p) ← rx_count srb sn p;
      '(l, p) ← rx_counts srb sns p;
      Ok (count :: l, p)
  end.

(** The PDU of index [i] arrives when [n] is expected: fewer than [2 ^ k] numbers are skipped; in AM,
    fewer than 2048 and no wrap. *)
Definition arrives_ok (k : Z) (srb : bool) (m : rlc_mode_t) (n i : Z) : Prop :=
  0 <= n <= i /\
  if srb then i < n + 2 ^ k
  else match m with
       | RLC_MODE_AM => k = 12 /\ i < n + 2048 /\ i / 4096 = n / 4096
       | RLC_MODE_UM => i < n + 2 ^ k
       | _ => False
       end.
Fixpoint arrivals_ok (k : Z) (srb : bool) (m : rlc_mode_t) (n : Z) (idx : list Z) : Prop :=
  match idx with
  | [] => True
  | i :: idx => arrives_ok k srb m n i /\ arrivals_ok k srb m (i + 1) idx
  end.
(** A receiver that expects the PDU of index [n]. *)
Definition rx_ready (k n : Z) (p : pdcp_t) : Prop :=
  rx_at k n p /\ length (missing_pdu_bitmap p) = 512%nat /\
  (pdcp_rlc_mode p = RLC_MODE_AM -> k = 12 -> last_submitted_pdcp_rx_sn p = (n - 1) mod 4096).

Lemma mark_ok sn p : 0 <= sn < 4096 -> length (missing_pdu_bitmap p) = 512%nat ->
  exists bm, pdcp_mark_current_pdu_as_received sn p = Ok (p <| missing_pdu_bitmap := bm |>) /\ length bm = 512%nat.
Proof.
  intros Hsn Hl. unfold pdcp_mark_current_pdu_as_received.
  destruct (array_get_ok (missing_pdu_bitmap p) (sn / 8)) as (b & -> & _); [rewrite Hl; mod_lia|]. cbn [mbind res_bind].
  rewrite array_set_ok by (rewrite Hl; mod_lia). cbn [mbind res_bind]. eexists. split; [done|]. by rewrite length_insert.
Qed.

(** What the receiver keeps: all but its sequence state. *)
Definition rx_frame (p p' : pdcp_t) : Prop :=
  rx_same p (p' <| missing_pdu_bitmap := missing_pdu_bitmap p |> <| last_submitted_pdcp_rx_sn := last_submitted_pdcp_rx_sn p |>).
Lemma rx_frame_trans p q r : rx_frame p q -> rx_frame q r -> rx_frame p r.
Proof. destruct p, q, r. unfold rx_frame, rx_same. cbn. intros [=] [=]. by simplify_eq. Qed.
Lemma rx_frame_same p q : rx_same p q -> rx_frame p q.
Proof. destruct p, q. unfold rx_frame, rx_same. cbn. intros [=]. by simplify_eq. Qed.
Lemma rx_same_bitmap p q : rx_same p q -> missing_pdu_bitmap q = missing_pdu_bitmap p.
Proof. by intros ->. Qed.

Lemma is_rx_valid_spec k srb n i p :
  size_ok k srb -> arrives_ok k srb (pdcp_rlc_mode p) n i -> rx_ready k n p ->
  exists p', pdcp_is_rx_seq_number_valid (i mod 2 ^ k) p srb = Ok (true, p') /\
    rx_at k (i + 1) p' /\ rx_frame p p' /\ length (missing_pdu_bitmap p') = 512%nat.
Proof.
  intros Hk (Hn & Harr) (Hat & Hbm & Hl). assert (Hks := size_ok_sizes k srb Hk). assert (Hs := proj1 Hat).
  assert (Hr : 0 <= i mod 2 ^ k < 2 ^ k) by (apply Z.mod_pos_bound, Z.pow_pos_nonneg; lia).
  unfold pdcp_is_rx_seq_number_valid.
  rewrite (size_valid k Hks p Hs), Hs. unfold pdcp_is_seq_num_valid. rewrite (max_seq_num k Hks).
  rewrite (proj2 (Z.leb_le 0 _)), (proj2 (Z.leb_le _ (2 ^ k - 1))) by lia. cbn [negb orb andb].
  destruct (mark_ok (i mod 2 ^ k) p (sn_range k Hks i) Hbm) as (bm & -> & Hbm'). cbn [mbind res_bind].
  set (q := p <| missing_pdu_bitmap := bm |>).
  assert (Hq : rx_at k n q) by done. assert (Hpq : rx_frame p q) by (by destruct p).
  assert (H : exists p', (if srb then (true, rx_srb (i mod 2 ^ k) q)
    else match pdcp_rlc_mode q with
         | RLC_MODE_AM => rx_drb_am (i mod 2 ^ k) q
         | RLC_MODE_UM => (true, rx_drb_um (i mod 2 ^ k) q)
         | _ => (false, q)
         end) = (true, p') /\ rx_at k (i + 1) p' /\ rx_same q p').
  { destruct srb; [eexists; split; [done|]; by apply (rx_srb_spec k Hks n)|].
    change (pdcp_rlc_mode q) with (pdcp_rlc_mode p). destruct (pdcp_rlc_mode p); try done.
    - destruct Harr as (-> & Hi & Hblk). by apply (rx_drb_am_spec n i q Hn Hi Hblk Hq (Hl eq_refl eq_refl)).
    - eexists. split; [done|]. by apply (rx_drb_um_spec k Hks n). }
  destruct H as (p' & -> & A & B). exists p'. split; [done|]. split; [exact A|].
  split; [by eapply rx_frame_trans; [exact Hpq|apply rx_frame_same]|]. by rewrite (rx_same_bitmap _ _ B).
Qed.
Lemma submitted_frame sn p : rx_frame p (rx_submitted sn p).
Proof. unfold rx_submitted, rx_frame, rx_same. destruct p as [? ? ? ? ? ? ? ? ? []]; reflexivity. Qed.
Lemma submitted_ready k i p :
  rx_at k (i + 1) p -> length (missing_pdu_bitmap p) = 512%nat -> rx_ready k (i + 1) (rx_submitted (i mod 2 ^ k) p).
Proof.
  intros Hat Hbm. unfold rx_ready, rx_submitted.
  destruct (pdcp_rlc_mode p) eqn:Em; (split; [exact Hat|]; split; [exact Hbm|]); cbn; try (by rewrite Em).
  intros _ ->. by replace (i + 1 - 1) with i by lia.
Qed.
Lemma rx_count_spec k srb n i p :
  size_ok k srb -> arrives_ok k srb (pdcp_rlc_mode p) n i -> rx_ready k n p ->
  exists p', rx_count srb (i mod 2 ^ k) p = Ok (pdcp_count k srb i, p') /\ rx_ready k (i + 1) p' /\ rx_frame p p'.
Proof.
  intros Hk Harr Hp. destruct (is_rx_valid_spec k srb n i p Hk Harr Hp) as (p' & E & Hat & Hf & Hbm).
  unfold rx_count. rewrite E. cbn [mbind res_bind]. destruct Harr as [Hn _].
  rewrite (count_rx_spec k srb i p' Hk) by (lia || done). eexists. split; [done|].
  split; [by apply submitted_ready|]. eapply rx_frame_trans; [exact Hf|apply submitted_frame].
Qed.
Lemma rx_counts_spec k srb idx : forall n p,
  size_ok k srb -> arrivals_ok k srb (pdcp_rlc_mode p) n idx -> rx_ready k n p ->
  exists p', rx_counts srb (map (fun i => i mod 2 ^ k) idx) p = Ok (map (pdcp_count k srb) idx, p').
Proof.
  induction idx as [|i idx IH]; intros n p Hk Harr Hp; [by eexists|]. destruct Harr as [Ha Harr].
  destruct (rx_count_spec k srb n i p Hk Ha Hp) as (p1 & E & H1 & Hf). cbn [map rx_counts]. rewrite E. cbn [mbind res_bind].
  destruct (IH (i + 1) p1 Hk) as (p' & E'); [|done|].
  { assert (Em : pdcp_rlc_mode p1 = pdcp_rlc_mode p) by (by apply (f_equal pdcp_rlc_mode) in Hf). by rewrite Em. }
  rewrite E'. cbn [mbind res_bind]. by eexists.
Qed.
Lemma tx_counts_spec k srb n : forall a p,
  size_ok k srb -> 0 <= a -> tx_at k a p ->
  (tx_counts srb n p).1 = map (fun i => (i mod 2 ^ k, pdcp_count k srb i)) (seqZ a (Z.of_nat n)).
Proof.
  induction n as [|n IH]; intros a p Hk Ha Hp; [done|]. cbn [tx_counts]. unfold tx_count.
  assert (H := next_tx_spec k (size_ok_sizes k srb Hk) a p Ha Hp). destruct (pdcp_get_next_tx_seq_number p) as [sn p1].
  destruct H as (-> & H1 & _). rewrite (count_tx_spec k srb a p1 Hk Ha H1).
  assert (H2 := IH (a + 1) p1 Hk ltac:(lia) H1). destruct (tx_counts srb n p1) as [l p2]. cbn [fst] in *.
  rewrite seqZ_cons by lia. cbn [map]. replace (Z.pred (Z.of_nat (S n))) with (Z.of_nat n) by lia. by rewrite H2.
Qed.
(** No COUNT twice before the hyper frame number has gone round. *)
Lemma pdcp_count_inj k srb i j :
  size_ok k srb -> 0 <= i < 2 ^ (k + 32 - count_bits srb) - 1 -> 0 <= j < 2 ^ (k + 32 - count_bits srb) - 1 ->
  pdcp_count k srb i = pdcp_count k srb j -> i = j.
Proof.
  intros Hk Hi Hj. unfold pdcp_count.
  assert (k = 5 /\ srb = true \/ (k = 7 \/ k = 12) /\ srb = false) as [[-> ->]|[[-> | ->] ->]]
    by (destruct srb; cbn in Hk; lia); cbn [count_bits] in *; unfold u32;
    rewrite !wrapu_small by mod_lia; mod_lia.
Qed.

Lemma arrivals_nonneg k srb m idx : forall n, arrivals_ok k srb m n idx -> Forall (fun i => 0 <= i) idx.
Proof.
  induction idx as [|i idx IH]; intros n H; [constructor|]. destruct H as [[H _] H2].
  constructor; [lia|by eapply IH].
Qed.

(** C5: Sender and receiver agree on COUNT. [n] PDUs are sent on a new bearer (5 bit
    numbers for signalling, 7 or 12 for UM data, 12 for AM data); any of them, in order
    and once, reach the receiver, with fewer than a whole round of numbers missing in
    between (in AM, fewer than half a round and not across the wrap, and what is received
    is recorded as submitted). Then the receiver deciphers each one with the COUNT it was
    ciphered with, although the hyper frame number of both sides moves one PDU before the
    numbers wrap; and until the hyper frame number has gone round no two PDUs are sent
    with the same COUNT. *)
Theorem pdcp_count_sync k srb n idx tx rx :
  size_ok k srb -> tx_at k 0 tx -> rx_ready k 0 rx -> arrivals_ok k srb (pdcp_rlc_mode rx) 0 idx ->
  Forall (fun i => i < Z.of_nat n) idx -> Z.of_nat n < 2 ^ (k + 32 - count_bits srb) ->
  let sent := (tx_counts srb n tx).1 in
  let pdu i := nth (Z.to_nat i) sent (0, 0) in
  length sent = n /\ NoDup (map snd sent) /\
  exists rx', rx_counts srb (map (fun i => (pdu i).1) idx) rx = Ok (map (fun i => (pdu i).2) idx, rx').
Proof.
  intros Hk Htx Hrx Harr Hidx Hn sent pdu. unfold pdu, sent. clear pdu sent.
  rewrite (tx_counts_spec k srb n 0 tx Hk) by (lia || done).
  split; [by rewrite length_map, length_seqZ, Nat2Z.id|]. split.
  - rewrite map_map. cbn [snd]. apply (NoDup_fmap_2_strong (pdcp_count k srb)); [|apply NoDup_seqZ].
    intros i j Hi Hj. apply elem_of_seqZ in Hi, Hj. apply pdcp_count_inj; [done|lia|lia].
  - destruct (rx_counts_spec k srb idx 0 rx Hk Harr Hrx) as [rx' E]. exists rx'.
    assert (Hpos := arrivals_nonneg k srb _ idx 0 Harr).
    assert (Hp : forall i, 0 <= i < Z.of_nat n ->
      nth (Z.to_nat i) (map (fun i => (i mod 2 ^ k, pdcp_count k srb i)) (seqZ 0 (Z.of_nat n))) (0, 0) =
      (i mod 2 ^ k, pdcp_count k srb i)).
    { intros i Hi. apply nth_lookup_Some. rewrite list_lookup_fmap, lookup_seqZ_lt by lia. cbn.
      by replace (Z.of_nat (Z.to_nat i)) with i by lia. }
    assert (Hmap : forall {A} (f : Z * Z -> A),
      map (fun i => f (nth (Z.to_nat i) (map (fun i => (i mod 2 ^ k, pdcp_count k srb i)) (seqZ 0 (Z.of_nat n))) (0, 0))) idx =
      map (fun i => f (i mod 2 ^ k, pdcp_count k srb i)) idx).
    { intros A f. apply map_ext_Forall, Forall_forall. intros i Hi. rewrite Forall_forall in Hidx, Hpos.
      by rewrite Hp by (split; [by apply Hpos|by apply Hidx]). }
    rewrite (Hmap _ fst), (Hmap _ snd). exact E.
Qed.

(** An entity as it is configured, of a data bearer over UM. *)
Definition sample_pdcp (ue : bool) (k : Z) (m : rlc_mode_t) : pdcp_t :=
  pdcp_zero <| is_ue := ue |> <| seq_num_size := k |> <| pdcp_rlc_mode := m |> <| rb_id := 4 |>
    <| last_submitted_pdcp_rx_sn := 4095 |> <| first_missing_pdu := -1 |>.
Lemma pdcp_count_sync_witness :
  exists rx', rx_counts false [0; 2] (sample_pdcp false 12 RLC_MODE_UM) = Ok ([0; 2], rx').
Proof.
  destruct (pdcp_count_sync 12 false 3 [0; 2] (sample_pdcp true 12 RLC_MODE_UM) (sample_pdcp false 12 RLC_MODE_UM))
    as (_ & _ & rx' & E).
  - right. reflexivity.
  - repeat split.
  - split; [repeat split|]. split; [reflexivity|]. intros H. discriminate H.
  - repeat split; reflexivity || discriminate.
  - repeat constructor.
  - reflexivity.
  - exists rx'. exact E.
Defined.

(** ** What the sender protects, the receiver recovers *)
Section peers.
Context `{C : Crypto}.

Lemma cipher_stream_byte algorithm sc i : is_byte (cipher_stream algorithm sc i).
Proof.
  unfold cipher_stream. destruct (_ =? _); [by unfold is_byte|]. destruct (_ =? _).
  - destruct (snow3g_key _); [|by unfold is_byte]. unfold snow3g_byte. apply byte_nth. unfold store32. auto using byte_land with word.
  - destruct (key_read _ _ _); [|by unfold is_byte]. apply aes128_ctr_byte.
Qed.
Lemma xor_at_bytes off n ks buf : Forall is_byte buf -> (forall i, is_byte (ks i)) -> Forall is_byte (xor_at off n ks buf).
Proof.
  intros Hb Hks. apply Forall_lookup. intros i x. rewrite lookup_xor_at. destruct (buf !! i) as [b|] eqn:E; [|done].
  rewrite Forall_lookup in Hb. specialize (Hb i b E). intros [= <-]. destruct (decide _); [by apply byte_lxor|done].
Qed.
Lemma take_app_prefix (k : nat) (x y : list Z) : (k <= length x)%nat -> take k (x ++ y) = take k x.
Proof. intros H. rewrite take_app. replace (k - length x)%nat with O by lia. by rewrite take_0, app_nil_r. Qed.

Lemma xor_at_before n ks (buf : list Z) : xor_at (length buf) n ks buf = buf.
Proof.
  apply list_eq. intros i. rewrite lookup_xor_at. destruct (buf !! i) as [b|] eqn:E; [|done].
  apply lookup_lt_Some in E. simpl. destruct (decide _); [lia|done].
Qed.

(** The two entities of a bearer: opposite sides, the same algorithms and keys. *)
Record peers (keysT keysR : gmap Z (list Z)) (tx rx : pdcp_t) (srb : bool) : Prop := {
  peer_side : is_ue rx = negb (is_ue tx);
  peer_cipher : cipheringAlgorithm rx = cipheringAlgorithm tx;
  peer_cipher_ok : cipher_ok (cipheringAlgorithm tx);
  peer_integrity : integrityProtAlgorithm rx = integrityProtAlgorithm tx;
  peer_integrity_ok : cipher_ok (integrityProtAlgorithm tx);
  peer_cipher_key : cipher_key keysR rx srb = cipher_key keysT tx srb;
  peer_cipher_key_ok : key_ok (cipheringAlgorithm tx) (cipher_key keysT tx srb);
  peer_integrity_key : integrity_key keysR rx = integrity_key keysT tx;
  peer_integrity_key_ok : key_ok (integrityProtAlgorithm tx) (integrity_key keysT tx)
}.
(** The four bytes of MAC-I after the SDU of a signalling bearer. *)
Definition tailer (srb : bool) : nat := if srb then 4%nat else 0%nat.
(** There are bytes for the words that EEA1 exclusive-ors. *)
Definition room (srb : bool) (algorithm : Z) (slack : list Z) : Prop :=
  srb = true \/ algorithm <> EEA1_128_ALG_ID \/ (3 <= length slack)%nat.

Lemma room_span srb algorithm h n slack (buf : list Z) :
  room srb algorithm slack -> length buf = (h + n + tailer srb + length slack)%nat ->
  (h + cipher_span algorithm n <= length buf)%nat.
Proof.
  intros Hr Hl. assert (H := cipher_span_bounds algorithm n). destruct Hr as [-> | [Hr | Hr]]; cbn [tailer] in *.
  - lia.
  - unfold cipher_span. apply Z.eqb_neq in Hr. rewrite Hr. lia.
  - lia.
Qed.
Lemma shift3 n : 0 <= n < 2 ^ 28 -> u32 (Z.shiftl n 3) = 8 * n.
Proof. intros H. rewrite Z.shiftl_mul_pow2 by lia. unfold u32. rewrite wrapu_small by lia. lia. Qed.

(** The sender: the block with MAC-I, then ciphered. *)
Lemma apply_security_spec keys p (srb : bool) rb sn (hdr sdu mac0 slack : list Z) :
  0 <= rb < NB_RB_MAX -> cipher_ok (cipheringAlgorithm p) -> cipher_ok (integrityProtAlgorithm p) ->
  key_ok (cipheringAlgorithm p) (cipher_key keys p srb) -> key_ok (integrityProtAlgorithm p) (integrity_key keys p) ->
  length mac0 = tailer srb -> (0 < length sdu)%nat -> Z.of_nat (length hdr + length sdu) < 2 ^ 28 ->
  Forall is_byte (hdr ++ sdu ++ mac0 ++ slack) -> room srb (cipheringAlgorithm p) slack ->
  let h := length hdr in
  let sc key off len := Mk_stream_cipher key 16 (pdcp_get_next_count_tx p srb sn) (u8 (rb - 1))
    (if is_ue p then SECU_DIRECTION_UPLINK else SECU_DIRECTION_DOWNLINK) off (8 * len) in
  exists mac, length mac = tailer srb /\ Forall is_byte mac /\
    (srb = true -> integrityProtAlgorithm p <> 0 ->
      stream_compute_integrity (integrityProtAlgorithm p) (sc (integrity_key keys p) 0 (Z.of_nat (h + length sdu)))
        (hdr ++ sdu ++ mac0 ++ slack) = Ok (0, Some mac)) /\
    pdcp_apply_security keys p srb rb (Z.of_nat h) sn (hdr ++ sdu ++ mac0 ++ slack) (Z.of_nat (length sdu)) =
      Ok (xor_at h (cipher_span (cipheringAlgorithm p) (length sdu))
            (cipher_stream (cipheringAlgorithm p) (sc (cipher_key keys p srb) (Z.of_nat h) (Z.of_nat (length sdu))))
            (hdr ++ sdu ++ mac ++ slack)).
Proof.
  intros Hrb Hc Hi Hkc Hki Hmac0 Hn Hsz Hb Hroom h sc. set (buf := hdr ++ sdu ++ mac0 ++ slack) in *.
  assert (Hlen : length buf = (h + length sdu + tailer srb + length slack)%nat).
  { unfold buf, h. rewrite !length_app, Hmac0. lia. }
  assert (Henc : forall mac, length mac = tailer srb ->
    stream_encrypt (cipheringAlgorithm p) (sc (cipher_key keys p srb) (Z.of_nat h) (Z.of_nat (length sdu))) (Out_at (Z.of_nat h))
      (hdr ++ sdu ++ mac ++ slack) = Ok (0, Out_at (Z.of_nat h),
        xor_at h (cipher_span (cipheringAlgorithm p) (length sdu))
          (cipher_stream (cipheringAlgorithm p) (sc (cipher_key keys p srb) (Z.of_nat h) (Z.of_nat (length sdu))))
          (hdr ++ sdu ++ mac ++ slack))).
  { intros mac Hmac. apply (stream_encrypt_spec _ (sc _ (Z.of_nat h) _)); try done; [lia|].
    eapply room_span; [exact Hroom|]. rewrite !length_app, Hmac. unfold h. lia. }
  unfold pdcp_apply_security. rewrite (proj2 (Z.ltb_lt _ _) (proj2 Hrb)), (proj2 (Z.leb_le _ _) (proj1 Hrb)).
  cbn [andb assert_that mbind res_bind]. replace (Z.of_nat h + Z.of_nat (length sdu)) with (Z.of_nat (h + length sdu)) by lia.
  rewrite !shift3 by lia. fold (sc (cipher_key keys p srb) (Z.of_nat h) (Z.of_nat (length sdu))).
  destruct srb; cbn [tailer] in *.
  - fold (sc (integrity_key keys p) 0 (Z.of_nat (h + length sdu))).
    destruct (Z.eq_dec (integrityProtAlgorithm p) 0) as [E0|E0].
    + rewrite E0. change (stream_compute_integrity 0 ?a ?b) with (Ok (A := Z * option (list Z)) (-1, None)).
      cbn [mbind res_bind]. unfold buf. rewrite Henc by done. exists mac0. split; [done|]. split; [|done].
      unfold buf in Hb. rewrite !Forall_app in Hb. apply Hb.
    + destruct (integrity_ok (integrityProtAlgorithm p) (sc (integrity_key keys p) 0 (Z.of_nat (h + length sdu)))
        (h + length sdu) buf) as (mac & Em & Lm & Bm); try done.
      { unfold cipher_ok in Hi. lia. }
      { lia. }
      { lia. }
      rewrite Em. cbn [mbind res_bind]. rewrite mem_write_ok by (rewrite ?Lm, ?Hlen; lia). cbn [mbind res_bind].
      replace (take _ buf ++ mac ++ drop _ buf) with (hdr ++ sdu ++ mac ++ slack).
      { rewrite Henc by done. exists mac. done. }
      unfold buf. rewrite Nat2Z.id, Lm. rewrite (app_assoc hdr sdu (mac0 ++ slack)), take_app_length' by (rewrite length_app; done).
      rewrite <- drop_drop, drop_app_length' by (rewrite length_app; done). rewrite drop_app_length' by done.
      by rewrite <- app_assoc.
  - destruct mac0; [|done]. cbn [mbind res_bind]. unfold buf. rewrite Henc by done. by exists [].
Qed.

(** The receiver: deciphering, and the check that finds [mac]. *)
Lemma validate_security_spec keys p (srb : bool) rb sn (h n : nat) (mac block : list Z) :
  0 <= rb < NB_RB_MAX -> cipher_ok (cipheringAlgorithm p) ->
  key_ok (cipheringAlgorithm p) (cipher_key keys p srb) -> Z.of_nat (h + n) < 2 ^ 28 ->
  (h + cipher_span (cipheringAlgorithm p) n <= length block)%nat ->
  let sc key off len := Mk_stream_cipher key 16 (pdcp_get_next_count_rx p srb sn).1 (u8 (rb - 1))
    (if is_ue p then SECU_DIRECTION_DOWNLINK else SECU_DIRECTION_UPLINK) off (8 * len) in
  let plain := xor_at h (cipher_span (cipheringAlgorithm p) n)
    (cipher_stream (cipheringAlgorithm p) (sc (cipher_key keys p srb) (Z.of_nat h) (Z.of_nat n))) block in
  (srb = true -> integrityProtAlgorithm p <> 0 ->
    stream_compute_integrity (integrityProtAlgorithm p) (sc (integrity_key keys p) 0 (Z.of_nat (h + n))) plain = Ok (0, Some mac) /\
    mem_read plain (Z.of_nat (h + n)) 4 = Ok mac) ->
  pdcp_validate_security keys p srb rb (Z.of_nat h) sn block (Z.of_nat (h + n)) =
    Ok (0, (pdcp_get_next_count_rx p srb sn).2, plain).
Proof.
  intros Hrb Hc Hkc Hsz Hspan sc plain Hint.
  assert (Henc := stream_encrypt_spec (cipheringAlgorithm p) (sc (cipher_key keys p srb) (Z.of_nat h) (Z.of_nat n)) n h block
    Hc Hkc eq_refl eq_refl eq_refl ltac:(lia) Hspan). fold plain in Henc. unfold sc in Henc at 2. cbn [message] in Henc.
  unfold pdcp_validate_security. rewrite (proj2 (Z.ltb_lt _ _) (proj2 Hrb)), (proj2 (Z.leb_le _ _) (proj1 Hrb)).
  cbn [andb assert_that mbind res_bind]. destruct (pdcp_get_next_count_rx p srb sn) as [count p'] eqn:Ecount.
  cbn [fst snd] in *. assert (Hfr : p' = p <| rx_hfn_offset := 0 |>) by (unfold pdcp_get_next_count_rx in Ecount; congruence).
  replace (Z.of_nat (h + n) - Z.of_nat h) with (Z.of_nat n) by lia. rewrite !shift3 by lia.
  replace (cipheringAlgorithm p') with (cipheringAlgorithm p) by (by rewrite Hfr).
  replace (integrityProtAlgorithm p') with (integrityProtAlgorithm p) by (by rewrite Hfr).
  replace (cipher_key keys p' srb) with (cipher_key keys p srb) by (by rewrite Hfr).
  replace (integrity_key keys p') with (integrity_key keys p) by (by rewrite Hfr).
  fold (sc (cipher_key keys p srb) (Z.of_nat h) (Z.of_nat n)). rewrite Henc. cbn [mbind res_bind].
  destruct srb; [|done]. fold (sc (integrity_key keys p) 0 (Z.of_nat (h + n))). unfold stream_check_integrity.
  destruct (Z.eqb_spec (integrityProtAlgorithm p) EIA0_ALG_ID) as [_|Hne]; [done|].
  destruct (Hint eq_refl Hne) as [-> ->]. cbn [mbind res_bind]. by rewrite bool_decide_true.
Qed.

(** What one entity protects, its peer recovers.  With any of the algorithms, for a signalling or a
    data bearer: when the receiver's COUNT is the one that the sender used and it gets the bytes of the
    PDU (whatever follows them in its block), deciphering gives back the header, the SDU and the MAC-I,
    and the integrity check succeeds. *)
Lemma security_recovered keysT keysR tx rx (srb : bool) rb sn (hdr sdu mac0 slack slack' : list Z) :
  peers keysT keysR tx rx srb -> 0 <= rb < NB_RB_MAX ->
  pdcp_get_next_count_tx tx srb sn = (pdcp_get_next_count_rx rx srb sn).1 ->
  length mac0 = tailer srb -> (0 < length sdu)%nat -> Z.of_nat (length hdr + length sdu) < 2 ^ 28 ->
  Forall is_byte (hdr ++ sdu ++ mac0 ++ slack) -> Forall is_byte slack' ->
  room srb (cipheringAlgorithm tx) slack -> room srb (cipheringAlgorithm tx) slack' ->
  exists pdu rest, pdcp_apply_security keysT tx srb rb (Z.of_nat (length hdr)) sn (hdr ++ sdu ++ mac0 ++ slack)
                     (Z.of_nat (length sdu)) = Ok (pdu ++ rest) /\
    length pdu = (length hdr + length sdu + tailer srb)%nat /\ take (length hdr) pdu = hdr /\
    exists mac rest', length mac = tailer srb /\
      pdcp_validate_security keysR rx srb rb (Z.of_nat (length hdr)) sn (pdu ++ slack') (Z.of_nat (length hdr + length sdu)) =
        Ok (0, (pdcp_get_next_count_rx rx srb sn).2, hdr ++ sdu ++ mac ++ rest').
Proof.
  intros P Hrb Hcount Hmac0 Hn Hsz Hb Hb' Hroom Hroom'. destruct P as [Pside Pc Pcok Pi Piok Pck Pckok Pik Pikok].
  destruct (apply_security_spec keysT tx srb rb sn hdr sdu mac0 slack) as (mac & Lmac & Bmac & Hint & Happ); try done.
  cbv zeta in Hint, Happ. set (ks := cipher_stream (cipheringAlgorithm tx) _) in Happ.
  set (span := cipher_span (cipheringAlgorithm tx) (length sdu)) in *.
  set (len := (length hdr + length sdu + tailer srb)%nat).
  assert (Hplain : take len (hdr ++ sdu ++ mac ++ slack) = hdr ++ sdu ++ mac).
  { rewrite !app_assoc. apply take_app_length'. rewrite !length_app, Lmac. done. }
  set (pdu := xor_at (length hdr) span ks (hdr ++ sdu ++ mac)).
  assert (Hpdu : take len (xor_at (length hdr) span ks (hdr ++ sdu ++ mac ++ slack)) = pdu) by (by rewrite take_xor_at, Hplain).
  assert (Lpdu : length pdu = len) by (unfold pdu; rewrite length_xor_at, !length_app, Lmac; unfold len; lia).
  exists pdu, (drop len (xor_at (length hdr) span ks (hdr ++ sdu ++ mac ++ slack))).
  split; [by rewrite Happ, <- Hpdu, take_drop|]. split; [exact Lpdu|].
  split; [unfold pdu; rewrite take_xor_at, take_app_length; by apply xor_at_before|].
  assert (Bpdu : Forall is_byte (pdu ++ slack')).
  { apply Forall_app. split; [|done]. apply xor_at_bytes; [|intros; apply cipher_stream_byte].
    rewrite !Forall_app in Hb. rewrite !Forall_app. tauto. }
  set (plain := xor_at (length hdr) span ks (pdu ++ slack')).
  assert (Hdec : take len plain = hdr ++ sdu ++ mac).
  { unfold plain. rewrite take_xor_at, take_app_prefix by lia. rewrite <- Lpdu, firstn_all. apply xor_at_involutive. }
  assert (Hrest : plain = hdr ++ sdu ++ mac ++ drop len plain).
  { rewrite <- (take_drop len plain) at 1. by rewrite Hdec, <- !app_assoc. }
  exists mac, (drop len plain). split; [exact Lmac|]. rewrite <- Hrest.
  assert (Hdir : (if is_ue rx then SECU_DIRECTION_DOWNLINK else SECU_DIRECTION_UPLINK) =
    (if is_ue tx then SECU_DIRECTION_UPLINK else SECU_DIRECTION_DOWNLINK)) by (rewrite Pside; by destruct (is_ue tx)).
  assert (Hval := validate_security_spec keysR rx srb rb sn (length hdr) (length sdu) mac (pdu ++ slack') Hrb).
  cbv zeta in Hval. rewrite Pc, Pi, Pck, Pik, Hdir, <- Hcount in Hval. fold span ks plain in Hval. apply Hval; try done.
  { eapply room_span; [exact Hroom'|]. rewrite length_app, Lpdu. unfold len. lia. }
  intros -> Hne. specialize (Hint eq_refl Hne). cbn [tailer] in *. split.
  - rewrite <- Hint. apply (integrity_eq _ _ (length hdr + length sdu)); try done; try lia.
    + rewrite Hrest, !(app_assoc hdr sdu). by rewrite !take_app_length' by (rewrite length_app; done).
    + apply xor_at_bytes; [done|]. intros. apply cipher_stream_byte.
    + unfold plain. rewrite length_xor_at, length_app, Lpdu. unfold len. lia.
    + rewrite !length_app, Hmac0. lia.
  - rewrite mem_read_ok by (unfold plain; rewrite ?length_xor_at, ?length_app, ?Lpdu; unfold len; lia).
    rewrite Nat2Z.id, Hrest, (app_assoc hdr sdu), drop_app_length' by (rewrite length_app; done).
    by rewrite take_app_length'.
Qed.

End peers.

(** A signalling bearer with EEA1 and EIA1. *)
Definition sample_keys : gmap Z (list Z) := <[1 := sample_key]> {[2 := replicate 16 0 ++ sample_key]}.
Definition sample_srb (ue : bool) : pdcp_t :=
  (sample_pdcp ue 5 RLC_MODE_AM) <| is_srb := true |> <| rb_id := 1 |> <| cipheringAlgorithm := 1 |>
    <| integrityProtAlgorithm := 1 |> <| kRRCenc := 1 |> <| kRRCint := 2 |> <| security_activated := 1 |>.
Lemma sample_peers ue : peers sample_keys sample_keys (sample_srb ue) (sample_srb (negb ue)) true.
Proof.
  assert (H1 : key_at sample_keys 1 = Key_at sample_key) by (vm_compute; reflexivity).
  assert (H2 : key_add (key_at sample_keys 2) 16 = Key_at sample_key) by (vm_compute; reflexivity).
  assert (H3 : (16 <= length sample_key)%nat) by (apply Nat.leb_le; vm_compute; reflexivity).
  split; try reflexivity; try (unfold cipher_ok; cbn; lia).
  - right. exists sample_key. unfold cipher_key. cbn [sample_srb kRRCenc]. split; [exact H1|exact H3].
  - right. exists sample_key. unfold integrity_key. split; [exact H2|exact H3].
Qed.
Lemma security_recovered_sample :
  exists pdu rest mac rest',
    pdcp_apply_security sample_keys (sample_srb true) true 1 1 0 [0; 11; 12; 13; 14; 15; 0; 0; 0; 0] 5 = Ok (pdu ++ rest) /\
    length pdu = 10%nat /\ length mac = 4%nat /\
    pdcp_validate_security sample_keys (sample_srb false) true 1 1 0 (pdu ++ []) 6 =
      Ok (0, (pdcp_get_next_count_rx (sample_srb false) true 0).2, [0; 11; 12; 13; 14; 15] ++ mac ++ rest').
Proof.
  destruct (security_recovered sample_keys sample_keys (sample_srb true) (sample_srb false) true 1 0 [0]
    [11; 12; 13; 14; 15] [0; 0; 0; 0] [] []) as (pdu & rest & H1 & H2 & _ & mac & rest' & H3 & H4).
  - exact (sample_peers true).
  - unfold NB_RB_MAX, maxDRB. lia.
  - reflexivity.
  - reflexivity.
  - cbn. lia.
  - cbn. lia.
  - repeat (apply Forall_cons; split); try apply Forall_nil_2; unfold is_byte; lia.
  - apply Forall_nil_2.
  - left. reflexivity.
  - left. reflexivity.
  - exists pdu, rest, mac, rest'. split; [exact H1|]. split; [exact H2|]. split; [exact H3|exact H4].
Defined.
