(* ===== verification/Pdcp.v ===== *)
(** * PDCP (pdcp.c)

    The entities of all UEs in a table, data requests from the upper layers to RLC and data
    indications from RLC to the upper layers.

    The build has release 14, ENABLE_SECURITY and no OAI_EMU; LINK_ENB_PDCP_TO_GTPV1U and
    ENABLE_USE_MME are arguments, as is what the memory pools give.  The table is any [Table]; its data
    are addresses of entities, given by [calloc], and the keys of the entities are addresses of memory
    that RRC allocated. *)

From S2P Require Import Prelude Bits HashTable Snow3g StreamCipher RlcAmTypes RlcStore RlcDispatch.
From S2P Require Import PdcpTypes PdcpSequence PdcpSecurity.

(** ** State *)

(** [pdcp_data_ind_header_t] and the SDU after it. *)
Record pdcp_ind := Mk_pdcp_ind { ind_rb_id : Z; ind_data_size : Z; ind_inst : Z; ind_data : list Z }.
(** A call of [rrc_data_ind], a message [GTPV1U_ENB_TUNNEL_DATA_REQ]. *)
Record rrc_ind := Mk_rrc_ind { rrc_rb_id : Z; rrc_data : list Z }.
Record gtpu_req := Mk_gtpu_req { gtpu_rnti : Z; gtpu_rab_id : Z; gtpu_data : list Z }.
Record pdcp_mbms_t := Mk_pdcp_mbms { instanciated_instance : bool; mbms_rb_id : Z }.

(** [rrc_inds] and [gtpu_reqs]: what was handed to RRC and to GTP-U so far. *)
Record pdcp_store (T : Type) := Mk_pdcp_store {
  pdcp_coll : T;
  pdcp_heap : gmap Z pdcp_t;
  pdcp_next : Z;
  pdcp_keys : gmap Z (list Z);
  pdcp_sdu_list : list pdcp_ind;
  rrc_inds : list rrc_ind;
  gtpu_reqs : list gtpu_req;
  pdcp_eNB_UE_instance_to_rnti : list Z;
  pdcp_UE_UE_module_id_to_rnti : list Z;
  pdcp_mbms_array_ue : list (list (list pdcp_mbms_t));
  pdcp_mbms_array_eNB : list (list (list pdcp_mbms_t))
}.
Arguments Mk_pdcp_store {T}.
Arguments pdcp_coll {T}.
Arguments pdcp_heap {T}.
Arguments pdcp_next {T}.
Arguments pdcp_keys {T}.
Arguments pdcp_sdu_list {T}.
Arguments rrc_inds {T}.
Arguments gtpu_reqs {T}.
Arguments pdcp_eNB_UE_instance_to_rnti {T}.
Arguments pdcp_UE_UE_module_id_to_rnti {T}.
Arguments pdcp_mbms_array_ue {T}.
Arguments pdcp_mbms_array_eNB {T}.
#[export] Instance eta_pdcp_store T : Eta (pdcp_store T) := fun s =>
  Mk_pdcp_store (pdcp_coll s) (pdcp_heap s) (pdcp_next s) (pdcp_keys s) (pdcp_sdu_list s) (rrc_inds s) (gtpu_reqs s)
    (pdcp_eNB_UE_instance_to_rnti s) (pdcp_UE_UE_module_id_to_rnti s) (pdcp_mbms_array_ue s) (pdcp_mbms_array_eNB s).

(** [boolean_t]. *)
Definition TRUE : Z := 1.
Definition FALSE : Z := 0.

(** Blocks that [get_free_mem_block] gives for a size, all their memory; the build and the options. *)
Record pdcp_env := Mk_pdcp_env {
  env_pdu : Z -> option (list Z);
  env_ind : Z -> bool;
  env_gtpu_ok : bool;
  otg_enabled : Z;
  LINK_ENB_PDCP_TO_GTPV1U : bool;
  ENABLE_USE_MME : bool;
  MAX_IP_PACKET_SIZE : Z
}.

(** ** Memory *)
Section memory.
Context {T : Type} `{!Table T}.
Implicit Types (ps : pdcp_store T).

Definition pdcp_get (key : Z) ps : res (Z * Z) := tab_get (pdcp_coll ps) key.
Definition pdcp_at (a : Z) ps : res pdcp_t := deref (pdcp_heap ps !! a).
Definition pdcp_set (a : Z) (p : pdcp_t) ps : pdcp_store T := ps <| pdcp_heap := <[a := p]> (pdcp_heap ps) |>.
Definition pdcp_calloc (ok : bool) ps : Z * pdcp_store T :=
  if ok then (pdcp_next ps, (pdcp_set (pdcp_next ps) pdcp_zero ps) <| pdcp_next := pdcp_next ps + 1 |>) else (0, ps).

(** [free] of an address that is not allocated is undefined behaviour. *)
Definition heap_free {A} (a : Z) (h : gmap Z A) : res (gmap Z A) :=
  if a =? 0 then Ok h
  else
    _ ← deref (h !! a);
    Ok (delete a h).
Definition free_keys (p : pdcp_t) (keys : gmap Z (list Z)) : res (gmap Z (list Z)) :=
  keys ← heap_free (kUPenc p) keys;
  keys ← heap_free (kRRCint p) keys;
  heap_free (kRRCenc p) keys.
Definition pdcp_free (a : Z) ps : res (pdcp_store T) :=
  if a =? 0 then Ok ps
  else
    p ← pdcp_at a ps;
    keys ← free_keys p (pdcp_keys ps);
    Ok (ps <| pdcp_keys := keys |> <| pdcp_heap := delete a (pdcp_heap ps) |>).
(** What the table frees. *)
Fixpoint pdcp_frees (l : list Z) ps : res (pdcp_store T) :=
  match l with
  | [] => Ok ps
  | a :: l =>
      ps ← pdcp_free a ps;
      pdcp_frees l ps
  end.
Definition pdcp_insert (ok : bool) (key a : Z) ps : res (Z * pdcp_store T) :=
  '(rc, t, freed) ← tab_insert ok (pdcp_coll ps) key a;
  ps ← pdcp_frees freed (ps <| pdcp_coll := t |>);
  Ok (rc, ps).
Definition pdcp_remove (key : Z) ps : res (Z * pdcp_store T) :=
  '(rc, t, freed) ← tab_remove (pdcp_coll ps) key;
  ps ← pdcp_frees freed (ps <| pdcp_coll := t |>);
  Ok (rc, ps).
End memory.

(** ** Data *)
Section data.
Context {T T' : Type} `{!Table T} `{!Table T'} `{C : Crypto}.
Implicit Types (ps : pdcp_store T) (rs : rlc_store T') (c : rlc_ctxt_t) (e : pdcp_env) (re : rlc_env).

(** The header in the block; the number used, and whether it is one of the entity's size. *)
Definition pdu_header (srb_flagP : bool) (mode : pdcp_transmission_mode_t) (sdu_size : Z) (block : list Z) (p : pdcp_t)
  : res (Z * list Z * pdcp_t) :=
  let '(sn, p) := pdcp_get_next_tx_seq_number p in
  if srb_flagP then
    let sn := u8 sn in
    block ← mem_write block (sdu_size + PDCP_CONTROL_PLANE_DATA_PDU_SN_SIZE) (replicate 4 0);
    block ← pdcp_serialize_control_plane_data_pdu_with_SRB_sn_buffer block sn;
    Ok (sn, block, p)
  else
    let dc := if decide (mode = PDCP_TRANSMISSION_MODE_DATA) then PDCP_DATA_PDU_BIT_SET else PDCP_CONTROL_PDU_BIT_SET in
    block ← pdcp_serialize_user_plane_data_pdu_with_long_sn_buffer block dc sn;
    Ok (sn, block, p).
Definition security_on (p : pdcp_t) : bool :=
  truthy (security_activated p) && (truthy (cipheringAlgorithm p) || truthy (integrityProtAlgorithm p)).

(** The PDU of an SDU: whether the number is one, the block and the entity. *)
Definition pdcp_build_pdu (keys : gmap Z (list Z)) (srb_flagP : bool) (rb_idP : Z) (mode : pdcp_transmission_mode_t)
    (sdu_size : Z) (sdu block : list Z) (p : pdcp_t) : res (bool * list Z * pdcp_t) :=
  let header_len := if srb_flagP then PDCP_CONTROL_PLANE_DATA_PDU_SN_SIZE else PDCP_USER_PLANE_DATA_PDU_LONG_SN_HEADER_SIZE in
  '(sn, block, p) ← pdu_header srb_flagP mode sdu_size block p;
  if sn >? pdcp_calculate_max_seq_num_for_given_size (seq_num_size p) then Ok (false, block, p)
  else
    data ← mem_read sdu 0 sdu_size;
    block ← mem_write block header_len data;
    block ← (if srb_flagP then mem_write block (header_len + sdu_size) (replicate 4 0) else Ok block);
    block ← (if security_on p
             then pdcp_apply_security keys p srb_flagP (rb_idP mod maxDRB) header_len sn block sdu_size
             else Ok block);
    Ok (true, block, p).

Definition status_ret (rlc_status : Z) : Z := if rlc_status =? RLC_OP_STATUS_OK then TRUE else FALSE.

(** The return value, what becomes of [ctxt_pP->configured] ([None]: nothing) and the two stores. *)
Definition pdcp_data_req e re c (srb_flagP : bool) (rb_idP muiP sdu_size : Z) (sdu : list Z)
    (mode : pdcp_transmission_mode_t) ps rs : res (Z * option bool * pdcp_store T * rlc_store T') :=
  if sdu_size =? 0 then Ok (FALSE, None, ps, rs)
  else
    _ ← assert_that (sdu_size <=? MAX_IP_PACKET_SIZE e);
    let tm := bool_decide (mode = PDCP_TRANSMISSION_MODE_TRANSPARENT) in
    if negb (rb_idP <? if tm then NB_RB_MBMS_MAX else if srb_flagP then 3 else maxDRB) then Ok (FALSE, None, ps, rs)
    else
      '(h_rc, a) ← pdcp_get (pdcp_key c rb_idP srb_flagP) ps;
      if negb (h_rc =? HASH_TABLE_OK) && negb tm then Ok (FALSE, Some false, ps, rs)
      else
        let configured := if h_rc =? HASH_TABLE_OK then Some true else None in
        if tm then
          match env_pdu e sdu_size with
          | Some block =>
              data ← mem_read sdu 0 sdu_size;
              block ← mem_write block 0 data;
              '(rlc_status, rs) ← rlc_data_req re c srb_flagP true rb_idP muiP sdu_size block rs;
              Ok (status_ret rlc_status, configured, ps, rs)
          | None => Ok (FALSE, configured, ps, rs)
          end
        else
          p ← pdcp_at a ps;
          let pdu_size := u16 (sdu_size + if srb_flagP then 5 else 2) in
          match env_pdu e pdu_size with
          | Some block =>
              '(ok, block, p) ← pdcp_build_pdu (pdcp_keys ps) srb_flagP rb_idP mode sdu_size sdu block p;
              let ps := pdcp_set a p ps in
              if negb ok then Ok (FALSE, configured, ps, rs)
              else
                '(rlc_status, rs) ← rlc_data_req re c srb_flagP false rb_idP muiP pdu_size block rs;
                Ok (status_ret rlc_status, configured, ps, rs)
          | None => Ok (FALSE, configured, ps, rs)
          end.

(** The sizes of the header and of MAC-I and the sequence number; a data bearer with a size that is
    neither 7 nor 12 has no header. *)
Definition parse_header (srb_flagP : bool) (block : list Z) (p : pdcp_t) : res (Z * Z * Z) :=
  if srb_flagP then
    sn ← pdcp_get_sequence_number_of_pdu_with_SRB_sn block;
    Ok (PDCP_CONTROL_PLANE_DATA_PDU_SN_SIZE, PDCP_CONTROL_PLANE_DATA_PDU_MAC_I_SIZE, sn)
  else if seq_num_size p =? PDCP_SN_7BIT then
    sn ← pdcp_get_sequence_number_of_pdu_with_short_sn block;
    Ok (PDCP_USER_PLANE_DATA_PDU_SHORT_SN_HEADER_SIZE, 0, sn)
  else if seq_num_size p =? PDCP_SN_12BIT then
    sn ← pdcp_get_sequence_number_of_pdu_with_long_sn block;
    Ok (PDCP_USER_PLANE_DATA_PDU_LONG_SN_HEADER_SIZE, 0, sn)
  else Ok (0, 0, 0).

(** The end of an indication: to GTP-U at the eNB when they are linked, to the list of SDUs otherwise.
    [p]: the entity and its address, none for MBMS. *)
Definition pdcp_deliver e c (srb_flagP : bool) (rb_id sequence_number payload_offset size : Z) (block : list Z)
    (p : option (Z * pdcp_t)) ps : res (pdcp_store T) :=
  if LINK_ENB_PDCP_TO_GTPV1U e && enb_flag (ctxt c) && negb srb_flagP then
    _ ← assert_that (env_gtpu_ok e);
    data ← mem_read block payload_offset (size - payload_offset);
    Ok (ps <| gtpu_reqs := gtpu_reqs ps ++ [Mk_gtpu_req (rnti c) (rb_id + 4) data] |>)
  else if env_ind e (size - payload_offset) then
    '(a, p) ← deref p;
    let p := match pdcp_rlc_mode p with
             | RLC_MODE_AM => p <| last_submitted_pdcp_rx_sn := sequence_number |>
             | _ => p
             end in
    _ ← assert_that (0 <=? size - payload_offset);
    data ← mem_read block payload_offset (size - payload_offset);
    let ind :=
      if enb_flag (ctxt c) then Mk_pdcp_ind (u16 (rb_id + module_id c * maxDRB)) (size - payload_offset) 0 data
      else Mk_pdcp_ind rb_id (size - payload_offset) (b2z (ENABLE_USE_MME e)) data in
    Ok ((pdcp_set a p ps) <| pdcp_sdu_list := pdcp_sdu_list ps ++ [ind] |>)
  else Ok ps.

(** A PDU of an entity: the return value and the stores. *)
Definition pdcp_pdu_ind e c (srb_flagP : bool) (rb_idP a size : Z) (block : list Z) (p : pdcp_t) ps
  : res (Z * pdcp_store T) :=
  let rb_id := rb_idP mod maxDRB in
  '(header_len, tailer_len, sn) ← parse_header srb_flagP block p;
  if size <? header_len + tailer_len then Ok (FALSE, ps)
  else
    '(_, p) ← pdcp_is_rx_seq_number_valid sn p srb_flagP;
    '(p, block) ← (if security_activated p =? 1 then
                     '(_, p, block) ← pdcp_validate_security (pdcp_keys ps) p srb_flagP rb_idP header_len sn block
                                        (u16 (size - tailer_len));
                     Ok (p, block)
                   else Ok (p, block));
    let ps := pdcp_set a p ps in
    if srb_flagP then
      data ← mem_read block header_len (size - header_len - tailer_len);
      Ok (TRUE, ps <| rrc_inds := rrc_inds ps ++ [Mk_rrc_ind rb_id data] |>)
    else if otg_enabled e =? 1 then Ok (TRUE, ps)
    else
      ps ← pdcp_deliver e c srb_flagP rb_id sn header_len size block (Some (a, p)) ps;
      Ok (TRUE, ps).

Definition pdcp_data_ind e c (srb_flagP MBMS_flagP : bool) (rb_idP size : Z) (block : list Z) ps
  : res (Z * pdcp_store T) :=
  if MBMS_flagP then
    if negb (rb_idP <? NB_RB_MBMS_MAX) then Ok (FALSE, ps)
    else if size =? 0 then Ok (FALSE, ps)
    else if otg_enabled e =? 1 then Ok (TRUE, ps)
    else
      ps ← pdcp_deliver e c srb_flagP rb_idP 0 0 size block None ps;
      Ok (TRUE, ps)
  else
    let rb_id := rb_idP mod maxDRB in
    if negb (rb_id >? 0) then Ok (FALSE, ps)
    else
      '(h_rc, a) ← pdcp_get (pdcp_key c rb_id srb_flagP) ps;
      if negb (h_rc =? HASH_TABLE_OK) then Ok (FALSE, ps)
      else if size =? 0 then Ok (FALSE, ps)
      else
        p ← pdcp_at a ps;
        pdcp_pdu_ind e c srb_flagP rb_idP a size block p ps.
End data.
