(* ===== verification/PdcpConfig.v ===== *)
(** * Configuration of PDCP (pdcp.c)

    What RRC does to the entities: the lists of an RRC message, one entity at a time, security, and
    the initialisation and the end of the layer. *)

From S2P Require Import Prelude Bits HashTable Snow3g StreamCipher RlcAmTypes RlcStore RlcDispatch.
From S2P Require Import PdcpTypes PdcpSequence PdcpSecurity Pdcp.

Inductive pdcp_action_t :=
| PDCP_ADD | PDCP_REMOVE | PDCP_MODIFY | PDCP_SET_SECURITY_MODE | PDCP_MBMS_ADD | PDCP_MBMS_MODIFY | PDCP_ACTION_OTHER.
Definition DTCH : Z := 3.
Definition NOT_A_RNTI : Z := 0.

(** The addresses of the keys of a request. *)
Record pdcp_request_keys := Mk_request_keys { req_kRRCenc : Z; req_kRRCint : Z; req_kUPenc : Z }.

Definition pdcp_config_set_security (security_modeP : Z) (k : pdcp_request_keys) (p : pdcp_t) : pdcp_t :=
  if (0 <=? security_modeP) && (security_modeP <=? 119) then
    p <| cipheringAlgorithm := Z.land security_modeP 15 |>
      <| integrityProtAlgorithm := Z.land (Z.shiftr security_modeP 4) 15 |>
      <| kRRCenc := req_kRRCenc k |> <| kRRCint := req_kRRCint k |> <| kUPenc := req_kUPenc k |>
      <| security_activated := 1 |>
  else p.

(** [rb_snP] is a value of the enumeration of RRC for DRBs, 5 for SRBs. *)
Definition sn_size_of (rb_snP : Z) : Z :=
  if rb_snP =? PDCP_Config__rlc_UM__pdcp_SN_Size_len12bits then PDCP_SN_12BIT
  else if rb_snP =? PDCP_Config__rlc_UM__pdcp_SN_Size_len7bits then PDCP_SN_7BIT
  else PDCP_SN_5BIT.

(** What a request says of a bearer. *)
Record pdcp_bearer := Mk_pdcp_bearer {
  pb_srb : bool;
  pb_rlc_mode : rlc_mode_t;
  pb_lc_id : Z;
  pb_rb_id : Z;
  pb_sn : Z;
  pb_report : Z;
  pb_compression : Z
}.

Definition config_add (ue : bool) (b : pdcp_bearer) (p : pdcp_t) : pdcp_t :=
  p <| is_ue := ue |> <| is_srb := pb_srb b |> <| lcid := pb_lc_id b |> <| rb_id := pb_rb_id b |>
    <| header_compression_profile := pb_compression b |> <| status_report := pb_report b |>
    <| seq_num_size := sn_size_of (pb_sn b) |> <| pdcp_rlc_mode := pb_rlc_mode b |>
    <| next_pdcp_tx_sn := 0 |> <| next_pdcp_rx_sn := 0 |> <| next_pdcp_rx_sn_before_integrity := 0 |>
    <| tx_hfn := 0 |> <| rx_hfn := 0 |> <| last_submitted_pdcp_rx_sn := 4095 |> <| first_missing_pdu := -1 |>
    <| rx_hfn_offset := 0 |>.
Definition config_modify (b : pdcp_bearer) (p : pdcp_t) : pdcp_t :=
  p <| header_compression_profile := pb_compression b |> <| status_report := pb_report b |>
    <| pdcp_rlc_mode := pb_rlc_mode b |>.
Definition config_security (security_modeP : Z) (k : pdcp_request_keys) (p : pdcp_t) : pdcp_t :=
  if security_modeP =? 255 then p else pdcp_config_set_security security_modeP k p.

Definition set3 {A} (t : list (list (list A))) (i j l : Z) (v : A) : res (list (list (list A))) :=
  plane ← array_get t i;
  plane ← set2 plane j l v;
  array_set t i plane.
Definition get3 {A} (t : list (list (list A))) (i j l : Z) : res A :=
  plane ← array_get t i;
  get2 plane j l.

Section config.
Context {T : Type} `{!Table T}.
Implicit Types (ps : pdcp_store T) (c : rlc_ctxt_t).

(** The tables of RNTIs; the index of the eNB's is 0 always. *)
Definition record_rnti c ps : res (pdcp_store T) :=
  if enb_flag (ctxt c) then
    l ← array_set (pdcp_eNB_UE_instance_to_rnti ps) 0 (rnti c);
    Ok (ps <| pdcp_eNB_UE_instance_to_rnti := l |>)
  else
    l ← array_set (pdcp_UE_UE_module_id_to_rnti ps) (module_id c) (rnti c);
    Ok (ps <| pdcp_UE_UE_module_id_to_rnti := l |>).

(** [a]: the address of the entity, 0 for NULL; the return value is 0 always.  The identifiers are
    converted to 16 bits. *)
Definition pdcp_config_req_asn1 c (a : Z) (action : pdcp_action_t) (mch_id security_modeP : Z)
    (k : pdcp_request_keys) (b : pdcp_bearer) ps : res (pdcp_store T) :=
  match action with
  | PDCP_ADD =>
      _ ← assert_that (negb (a =? 0));
      ps ← record_rnti c ps;
      p ← pdcp_at a ps;
      Ok (pdcp_set a (config_security security_modeP k (config_add (negb (enb_flag (ctxt c))) b p)) ps)
  | PDCP_MODIFY =>
      _ ← assert_that (negb (a =? 0));
      p ← pdcp_at a ps;
      let p := config_security security_modeP k (config_modify b p) in
      Ok (pdcp_set a (p <| seq_num_size := sn_size_of (pb_sn b) |>) ps)
  | PDCP_REMOVE =>
      _ ← assert_that (negb (a =? 0));
      p ← pdcp_at a ps;
      keys ← free_keys p (pdcp_keys ps);
      Ok ((pdcp_set a pdcp_zero ps) <| pdcp_keys := keys |>)
  | PDCP_MBMS_ADD | PDCP_MBMS_MODIFY =>
      let entry := Mk_pdcp_mbms true (pb_rb_id b) in
      if enb_flag (ctxt c) then
        t ← set3 (pdcp_mbms_array_eNB ps) (module_id c) mch_id (pb_lc_id b) entry;
        Ok (ps <| pdcp_mbms_array_eNB := t |>)
      else
        t ← set3 (pdcp_mbms_array_ue ps) (module_id c) mch_id (pb_lc_id b) entry;
        Ok (ps <| pdcp_mbms_array_ue := t |>)
  | PDCP_SET_SECURITY_MODE =>
      _ ← assert_that (negb (a =? 0));
      p ← pdcp_at a ps;
      Ok (pdcp_set a (pdcp_config_set_security security_modeP k p) ps)
  | PDCP_ACTION_OTHER => Err FatalAssert
  end.

(** [rrc_pdcp_config_req]: an entity by its identifiers, without lists. *)
Definition simple_add c (srb_flagP : bool) (rb_idP : Z) (p : pdcp_t) : pdcp_t :=
  p <| is_srb := srb_flagP |> <| rb_id := rb_idP |> <| is_ue := negb (enb_flag (ctxt c)) |>
    <| next_pdcp_tx_sn := 0 |> <| next_pdcp_rx_sn := 0 |> <| tx_hfn := 0 |> <| rx_hfn := 0 |>
    <| last_submitted_pdcp_rx_sn := 4095 |> <| seq_num_size := if rb_idP <? DTCH then 5 else 12 |>
    <| first_missing_pdu := -1 |>.
Definition simple_remove (p : pdcp_t) : pdcp_t :=
  p <| next_pdcp_tx_sn := 0 |> <| next_pdcp_rx_sn := 0 |> <| tx_hfn := 0 |> <| rx_hfn := 0 |>
    <| last_submitted_pdcp_rx_sn := 4095 |> <| seq_num_size := 0 |> <| first_missing_pdu := -1 |>
    <| security_activated := 0 |>.
Definition simple_security (security_modeP : Z) (p : pdcp_t) : pdcp_t :=
  if (0 <=? security_modeP) && (security_modeP <=? 119) then
    p <| cipheringAlgorithm := Z.land security_modeP 15 |>
      <| integrityProtAlgorithm := Z.land (Z.shiftr security_modeP 4) 15 |>
  else p.
(** [calloc_ok], [node_ok]: the allocations of the entity and of the table's node. *)
Definition rrc_pdcp_config_req (calloc_ok node_ok : bool) c (srb_flagP : bool) (action : pdcp_action_t)
    (rb_idP security_modeP : Z) ps : res (pdcp_store T) :=
  let key := pdcp_key c rb_idP srb_flagP in
  '(h_rc, a) ← pdcp_get key ps;
  if h_rc =? HASH_TABLE_OK then
    p ← pdcp_at a ps;
    match action with
    | PDCP_ADD => Ok (pdcp_set a (simple_add c srb_flagP rb_idP p) ps)
    | PDCP_MODIFY => Ok ps
    | PDCP_REMOVE =>
        '(_, ps) ← pdcp_remove key (pdcp_set a (simple_remove p) ps);
        Ok ps
    | PDCP_SET_SECURITY_MODE => Ok (pdcp_set a (simple_security security_modeP p) ps)
    | _ => Err FatalAssert
    end
  else
    match action with
    | PDCP_ADD =>
        let '(a, ps) := pdcp_calloc calloc_ok ps in
        '(h_rc, ps) ← pdcp_insert node_ok key a ps;
        if h_rc =? HASH_TABLE_OK then
          p ← pdcp_at a ps;
          Ok (pdcp_set a (simple_add c srb_flagP rb_idP p) ps)
        else
          heap ← heap_free a (pdcp_heap ps);
          Ok (ps <| pdcp_heap := heap |>)
    | _ => Ok ps
    end.

(** [pdcp_remove_UE]: signalling bearers 0 and 1, data bearers 0 to [maxDRB - 1]. *)
Fixpoint pdcp_remove_bearers c (srb_flagP : bool) (ids : list Z) ps : res (pdcp_store T) :=
  match ids with
  | [] => Ok ps
  | id :: ids =>
      '(_, ps) ← pdcp_remove (pdcp_key c id srb_flagP) ps;
      pdcp_remove_bearers c srb_flagP ids ps
  end.
Definition pdcp_remove_UE c ps : res (pdcp_store T) :=
  ps ← pdcp_remove_bearers c true [0; 1] ps;
  pdcp_remove_bearers c false (seqZ 0 maxDRB) ps.

(** [pdcp_layer_init], from the tables it allocates and clears; the table of the UE's RNTIs is left. *)
Definition pdcp_layer_init (NUMBER_OF_UE_MAX NUMBER_OF_eNB_MAX : Z) ps : pdcp_store T :=
  let mbms n := replicate (Z.to_nat n) (replicate (Z.to_nat maxServiceCount)
                  (replicate (Z.to_nat maxSessionPerPMCH) (Mk_pdcp_mbms false 0))) in
  ps <| pdcp_sdu_list := [] |> <| pdcp_coll := tab_new |>
     <| pdcp_mbms_array_ue := mbms NUMBER_OF_UE_MAX |> <| pdcp_mbms_array_eNB := mbms NUMBER_OF_eNB_MAX |>
     <| pdcp_eNB_UE_instance_to_rnti := replicate (Z.to_nat NUMBER_OF_UE_MAX) NOT_A_RNTI |>.
Definition pdcp_layer_cleanup ps : res (pdcp_store T) :=
  pdcp_frees (tab_data (pdcp_coll ps)) (ps <| pdcp_sdu_list := [] |>).
End config.

(** ** The lists of an RRC message *)

(** The parts of [DRB_ToAddMod] that the code reads. *)
Inductive header_compression_t :=
| PDCP_Config__headerCompression_notUsed
| PDCP_Config__headerCompression_rohc (profiles : list Z)
| PDCP_Config__headerCompression_other.
Record PDCP_Config_t := Mk_pdcp_config {
  pc_rlc_AM : option Z;       (* statusReportRequired *)
  pc_rlc_UM : option Z;       (* pdcp_SN_Size *)
  pc_headerCompression : header_compression_t
}.
Record PDCP_DRB_ToAddMod_t := Mk_pdcp_drb {
  pdrb_Identity : Z;
  pdrb_logicalChannelIdentity : option Z;
  pdrb_pdcp_Config : option PDCP_Config_t
}.
(** The first profile present, in the order of the code. *)
Definition rohc_profile (profiles : list Z) : Z :=
  match filter (fun x => x ∈ profiles) [1; 2; 3; 4; 6; 257; 258; 259; 260] with
  | x :: _ => x
  | [] => 0
  end.

(** The local variables of [rrc_pdcp_config_asn1_req] that keep their values from one element of a list
    to the next. *)
Record config_locals := Mk_locals {
  l_lc_id : Z; l_srb_id : Z; l_rlc_type : rlc_mode_t; l_drb_sn : Z; l_drb_report : Z; l_compression : Z
}.
#[export] Instance eta_locals : Eta config_locals := fun l =>
  Mk_locals (l_lc_id l) (l_srb_id l) (l_rlc_type l) (l_drb_sn l) (l_drb_report l) (l_compression l).
Definition locals_start : config_locals := Mk_locals 0 0 RLC_MODE_NONE 12 0 0.
(** The allocations for one element: the entity, the node of its key, that of the default DRB. *)
Record config_mem := Mk_config_mem { cm_calloc : bool; cm_node : bool; cm_default : bool }.

Section lists.
Context {T : Type} `{!Table T}.
Implicit Types (ps : pdcp_store T) (c : rlc_ctxt_t) (l : config_locals).
Context (c : rlc_ctxt_t) (security_modeP : Z) (k : pdcp_request_keys) (defaultDRB : option Z).

Definition free_entity (a : Z) ps : res (pdcp_store T) :=
  heap ← heap_free a (pdcp_heap ps);
  Ok (ps <| pdcp_heap := heap |>).

(** [None]: the function returns TRUE. *)
Definition config_srb (m : config_mem) (srb : SRB_ToAddMod_t) l ps : res (option config_locals * pdcp_store T) :=
  let id := srb_Identity srb in
  let l := l <| l_srb_id := id |> <| l_rlc_type := RLC_MODE_AM |> <| l_lc_id := id |> in
  let key := pdcp_key c id true in
  '(h_rc, a) ← pdcp_get key ps;
  '(action, h_rc, a, ps) ←
    (if h_rc =? HASH_TABLE_OK then Ok (PDCP_MODIFY, h_rc, a, ps)
     else
       let '(a, ps) := pdcp_calloc (cm_calloc m) ps in
       '(h_rc, ps) ← pdcp_insert (cm_node m) key a ps;
       Ok (PDCP_ADD, h_rc, a, ps));
  if negb (h_rc =? HASH_TABLE_OK) then
    ps ← free_entity a ps;
    Ok (None, ps)
  else
    let b := Mk_pdcp_bearer true RLC_MODE_AM (u16 (l_lc_id l)) (u16 id) 5 0 0 in
    match srb_rlc_Config srb with
    | None | Some SRB_rlc_Config_PR_NOTHING | Some (SRB_rlc_Config_PR_explicitValue RLC_Config_PR_NOTHING) => Ok (Some l, ps)
    | Some SRB_rlc_Config_PR_other => Err FatalAssert
    | Some _ =>
        ps ← pdcp_config_req_asn1 c a action 0 security_modeP k b ps;
        Ok (Some l, ps)
    end.
Fixpoint config_srbs (srbs : list (config_mem * SRB_ToAddMod_t)) l ps : res (option config_locals * pdcp_store T) :=
  match srbs with
  | [] => Ok (Some l, ps)
  | (m, srb) :: srbs =>
      '(l, ps) ← config_srb m srb l ps;
      match l with
      | Some l => config_srbs srbs l ps
      | None => Ok (None, ps)
      end
  end.

Definition drb_locals (pc : PDCP_Config_t) l : config_locals :=
  let l := match pc_rlc_AM pc with
           | Some report => l <| l_drb_report := u8 report |> <| l_drb_sn := PDCP_Config__rlc_UM__pdcp_SN_Size_len12bits |>
                              <| l_rlc_type := RLC_MODE_AM |>
           | None => l
           end in
  let l := match pc_rlc_UM pc with
           | Some sn => l <| l_drb_sn := u8 sn |> <| l_rlc_type := RLC_MODE_UM |>
           | None => l
           end in
  match pc_headerCompression pc with
  | PDCP_Config__headerCompression_notUsed => l <| l_compression := 0 |>
  | PDCP_Config__headerCompression_rohc profiles => l <| l_compression := rohc_profile profiles |>
  | PDCP_Config__headerCompression_other => l
  end.
(** The entity of a DRB, found or new, and under the key of the default DRB if it is that one; when one
    of the two insertions fails the entity is freed. *)
Definition drb_entity (m : config_mem) (id : Z) ps : res (option (pdcp_action_t * Z) * pdcp_store T) :=
  let key := pdcp_key c id false in
  '(h_rc, a) ← pdcp_get key ps;
  if h_rc =? HASH_TABLE_OK then Ok (Some (PDCP_MODIFY, a), ps)
  else
    let '(a, ps) := pdcp_calloc (cm_calloc m) ps in
    '(h_rc, ps) ← pdcp_insert (cm_node m) key a ps;
    '(h_default_rc, ps) ← (if decide (defaultDRB = Some id) then pdcp_insert (cm_default m) (default_drb_key c) a ps
                           else Ok (HASH_TABLE_OK, ps));
    if (h_default_rc =? HASH_TABLE_OK) && (h_rc =? HASH_TABLE_OK) then Ok (Some (PDCP_ADD, a), ps)
    else
      ps ← free_entity a ps;
      Ok (None, ps).
Definition config_drb (m : config_mem) (drb : PDCP_DRB_ToAddMod_t) l ps : res (option config_locals * pdcp_store T) :=
  match pdrb_logicalChannelIdentity drb with
  | None => Ok (Some l, ps)
  | Some lc_id =>
      let l := l <| l_lc_id := lc_id |> in
      if (lc_id =? 1) || (lc_id =? 2) then Ok (Some l, ps)
      else
        let id := pdrb_Identity drb in
        _ ← assert_that (id <? maxDRB);
        '(entity, ps) ← drb_entity m id ps;
        match entity, pdrb_pdcp_Config drb with
        | None, _ => Ok (None, ps)
        | Some _, None => Ok (Some l, ps)
        | Some (action, a), Some pc =>
            let l := drb_locals pc l in
            ps ← pdcp_config_req_asn1 c a action 0 security_modeP k
                   (Mk_pdcp_bearer false (l_rlc_type l) (u16 (l_lc_id l)) (u16 id) (l_drb_sn l) (l_drb_report l)
                      (l_compression l)) ps;
            Ok (Some l, ps)
        end
  end.
Fixpoint config_drbs (drbs : list (config_mem * PDCP_DRB_ToAddMod_t)) l ps : res (option config_locals * pdcp_store T) :=
  match drbs with
  | [] => Ok (Some l, ps)
  | (m, drb) :: drbs =>
      '(l, ps) ← config_drb m drb l ps;
      match l with
      | Some l => config_drbs drbs l ps
      | None => Ok (None, ps)
      end
  end.

(** The key is that of the last signalling bearer of the message, not of the DRB to release. *)
Definition release_drb (drb_id : Z) l ps : res (config_locals * pdcp_store T) :=
  let key := pdcp_key c (l_srb_id l) false in
  '(h_rc, a) ← pdcp_get key ps;
  if negb (h_rc =? HASH_TABLE_OK) then Ok (l, ps)
  else
    p ← pdcp_at a ps;
    let l := l <| l_lc_id := lcid p |> in
    ps ← pdcp_config_req_asn1 c a PDCP_REMOVE 0 security_modeP k
           (Mk_pdcp_bearer false (l_rlc_type l) (u16 (l_lc_id l)) (u16 drb_id) 0 0 0) ps;
    '(_, ps) ← pdcp_remove key ps;
    if decide (defaultDRB = Some drb_id) then
      '(h_rc, _) ← pdcp_get (default_drb_key c) ps;
      if h_rc =? HASH_TABLE_OK then
        '(_, ps) ← pdcp_remove (default_drb_key c) ps;
        Ok (l, ps)
      else Ok (l, ps)
    else Ok (l, ps).
Fixpoint release_drbs (ids : list Z) l ps : res (config_locals * pdcp_store T) :=
  match ids with
  | [] => Ok (l, ps)
  | id :: ids =>
      '(l, ps) ← release_drb id l ps;
      release_drbs ids l ps
  end.

Fixpoint config_mbms (sessions : list MBMS_SessionInfo_t) ps : res (pdcp_store T) :=
  match sessions with
  | [] => Ok ps
  | s :: sessions =>
      let lc_id := sessionId_r9 s in
      let mch_id := serviceId_r9 s in
      x ← get3 (if enb_flag (ctxt c) then pdcp_mbms_array_eNB ps else pdcp_mbms_array_ue ps) (module_id c) mch_id lc_id;
      let action := if instanciated_instance x then PDCP_MBMS_MODIFY else PDCP_MBMS_ADD in
      ps ← pdcp_config_req_asn1 c 0 action mch_id 0 (Mk_request_keys 0 0 0)
             (Mk_pdcp_bearer false RLC_MODE_NONE lc_id (u16 (mch_id * maxSessionPerPMCH + lc_id)) 0 0 0) ps;
      config_mbms sessions ps
  end.

(** The return value, and the layer.  A list that is absent is empty. *)
Definition rrc_pdcp_config_asn1_req (srbs : list (config_mem * SRB_ToAddMod_t))
    (drbs : list (config_mem * PDCP_DRB_ToAddMod_t)) (releases : list Z) (sessions : list MBMS_SessionInfo_t) ps
  : res (Z * pdcp_store T) :=
  '(l, ps) ← config_srbs srbs locals_start ps;
  match l with
  | None => Ok (TRUE, ps)
  | Some l =>
      '(l, ps) ← config_drbs drbs l ps;
      match l with
      | None => Ok (TRUE, ps)
      | Some l =>
          '(_, ps) ← release_drbs releases l ps;
          ps ← config_mbms sessions ps;
          Ok (0, ps)
      end
  end.
End lists.
