(* ===== verification/PdcpTransfer.v ===== *)
(** * A PDU from one PDCP entity to its peer

    What [pdcp_data_req] makes of an SDU and what [pdcp_data_ind] of its peer makes of the PDU: header,
    COUNT, MAC-I and ciphering together. *)

From S2P Require Import Prelude Bits HashTable Snow3g StreamCipher RlcAmTypes RlcStore RlcDispatch RlcStoreSpec.
From S2P Require Import PdcpTypes PdcpSequence PdcpSecurity Pdcp.

(** A block cut into the parts of a PDU. *)
Lemma block_parts (block : list Z) h n t :
  (h + n + t <= length block)%nat -> exists x y z slack,
    block = x ++ y ++ z ++ slack /\ length x = h /\ length y = n /\ length z = t /\ slack = drop (h + n + t) block.
Proof.
  intros H. exists (take h block), (take n (drop h block)), (take t (drop (h + n) block)), (drop (h + n + t) block).
  split_and!; [|rewrite length_take; lia|rewrite length_take, length_drop; lia|rewrite length_take, length_drop; lia|done].
  rewrite <- (take_drop h block) at 1. f_equal. rewrite <- (take_drop n (drop h block)) at 1. f_equal.
  rewrite drop_drop. rewrite <- (take_drop t (drop (h + n) block)) at 1. f_equal. by rewrite drop_drop.
Qed.

Definition header_size (srb : bool) : nat := if srb then 1%nat else 2%nat.
(** The header of the PDU of index [i]; data PDUs have the D/C bit. *)
Definition header_of (srb : bool) (sn : Z) : list Z := if srb then [sn] else [sn / 256 + 128; sn mod 256].

(** Numbers of 5 bits for signalling bearers and, as the sender always writes the long header, 12 for
    data bearers. *)
Definition pdu_size_ok (k : Z) (srb : bool) : Prop := k = if srb then 5 else 12.
Lemma pdu_size_sizes k srb : pdu_size_ok k srb -> size_ok k srb.
Proof. unfold pdu_size_ok. destruct srb; cbn; lia. Qed.

Definition tx_frame (p p' : pdcp_t) : Prop := p' = p <| next_pdcp_tx_sn := next_pdcp_tx_sn p' |> <| tx_hfn := tx_hfn p' |>.

Section transfer.
Context `{C : Crypto}.

Lemma pdu_header_spec k srb i p x y z slack :
  pdu_size_ok k srb -> 0 <= i -> tx_at k i p ->
  length x = header_size srb -> length z = tailer srb ->
  exists p', pdu_header srb PDCP_TRANSMISSION_MODE_DATA (Z.of_nat (length y)) (x ++ y ++ z ++ slack) p =
      Ok (i mod 2 ^ k, header_of srb (i mod 2 ^ k) ++ y ++ replicate (tailer srb) 0 ++ slack, p') /\
    tx_at k (i + 1) p' /\ tx_frame p p'.
Proof.
  intros Hk Hi Hp Hx Hz. unfold pdu_header. assert (Hks := size_ok_sizes _ _ (pdu_size_sizes k srb Hk)).
  assert (H := next_tx_spec k Hks i p Hi Hp). destruct (pdcp_get_next_tx_seq_number p) as [sn p'].
  destruct H as (-> & Hat & Hf). exists p'. split; [|by split].
  assert (Hr : 0 <= i mod 2 ^ k < 2 ^ k) by (apply Z.mod_pos_bound, Z.pow_pos_nonneg; lia).
  unfold pdu_size_ok in Hk. destruct srb; subst k; cbn [header_size tailer header_of replicate] in *.
  - rewrite app_assoc. change PDCP_CONTROL_PLANE_DATA_PDU_SN_SIZE with 1.
    rewrite (mem_write_between (x ++ y) z slack) by (rewrite ?length_app, ?Hx, ?Hz; cbn [length]; lia).
    cbn [mbind res_bind]. unfold u8. rewrite wrapu_small by lia. destruct x as [|x0 [|]]; try done.
    cbn [app]. by rewrite serialize_srb_eq.
  - destruct z; [|done]. destruct x as [|x0 [|x1 [|]]]; try done. rewrite decide_True by done. cbn [app].
    rewrite serialize_long_eq by lia. done.
Qed.

(** Security is on with the same algorithms and keys on both sides, or off. *)
Definition paired (keysT keysR : gmap Z (list Z)) (tx rx : pdcp_t) (srb : bool) : Prop :=
  (security_activated tx = 0 /\ security_activated rx = 0) \/
  (security_activated tx = 1 /\ security_activated rx = 1 /\ peers keysT keysR tx rx srb).
(** The bytes that EEA1 may reach after the PDU. *)
Definition paired_room (p : pdcp_t) (srb : bool) (slack : list Z) : Prop :=
  security_activated p = 0 \/ room srb (cipheringAlgorithm p) slack.

(** The PDU before it is protected. *)
Lemma build_plain k srb i keys rb p (sdu block : list Z) :
  pdu_size_ok k srb -> 0 <= i -> tx_at k i p -> (header_size srb + length sdu + tailer srb <= length block)%nat ->
  exists p', tx_at k (i + 1) p' /\ tx_frame p p' /\
    let slack := drop (header_size srb + length sdu + tailer srb) block in
    let plain := header_of srb (i mod 2 ^ k) ++ sdu ++ replicate (tailer srb) 0 ++ slack in
    pdcp_build_pdu keys srb rb PDCP_TRANSMISSION_MODE_DATA (Z.of_nat (length sdu)) sdu block p =
      (block ← (if security_on p'
                then pdcp_apply_security keys p' srb (rb mod maxDRB) (Z.of_nat (header_size srb)) (i mod 2 ^ k) plain
                       (Z.of_nat (length sdu))
                else Ok plain);
       Ok (true, block, p')).
Proof.
  intros Hk Hi Hp Hl. destruct (block_parts block _ _ _ Hl) as (x & y & z & slack & Hblk & Hx & Hy & Hz & Hs).
  destruct (pdu_header_spec k srb i p x y z slack Hk Hi Hp Hx Hz) as (p' & E & Hat & Hf).
  exists p'. split; [exact Hat|]. split; [exact Hf|]. cbv zeta. rewrite <- Hs. unfold pdcp_build_pdu. rewrite Hblk, <- Hy, E.
  cbn [mbind res_bind]. assert (Hks := size_ok_sizes _ _ (pdu_size_sizes k srb Hk)).
  rewrite (proj1 Hat), (max_seq_num k Hks).
  assert (Hr : 0 <= i mod 2 ^ k < 2 ^ k) by (apply Z.mod_pos_bound, Z.pow_pos_nonneg; lia).
  destruct (Z.gtb_spec (i mod 2 ^ k) (2 ^ k - 1)); [lia|].
  rewrite Hy, mem_read_ok by lia. cbn [mbind res_bind]. change (Z.to_nat 0) with O. rewrite drop_0, Nat2Z.id, firstn_all.
  assert (Hh : Z.of_nat (length (header_of srb (i mod 2 ^ k))) = Z.of_nat (header_size srb)) by (by destruct srb).
  assert (Eh : (if srb then PDCP_CONTROL_PLANE_DATA_PDU_SN_SIZE else PDCP_USER_PLANE_DATA_PDU_LONG_SN_HEADER_SIZE) =
    Z.of_nat (header_size srb)) by (by destruct srb). rewrite Eh.
  rewrite (mem_write_between (header_of srb _) y) by (lia || done). cbn [mbind res_bind].
  destruct srb; cbn [tailer] in *; [|done].
  rewrite app_assoc. rewrite (mem_write_between (header_of true _ ++ sdu)) by (rewrite ?length_app; cbn [length header_of header_size] in *; lia).
  cbn [mbind res_bind]. by rewrite <- app_assoc.
Qed.

(** Without algorithms nothing is done. *)
Lemma apply_null keys p (srb : bool) rb sn (h n : nat) buf :
  0 <= rb < NB_RB_MAX -> cipheringAlgorithm p = 0 -> integrityProtAlgorithm p = 0 -> Z.of_nat n < 2 ^ 28 ->
  (h + n <= length buf)%nat ->
  pdcp_apply_security keys p srb rb (Z.of_nat h) sn buf (Z.of_nat n) = Ok buf.
Proof.
  intros Hrb Hc Hi Hn Hl. unfold pdcp_apply_security. rewrite (proj2 (Z.ltb_lt _ _) (proj2 Hrb)), (proj2 (Z.leb_le _ _) (proj1 Hrb)).
  cbn [andb assert_that mbind res_bind]. rewrite Hc, Hi.
  assert (Hs : forall sc, (if srb then
    '(_, mac_i) ← stream_compute_integrity 0 sc buf;
    match mac_i with Some mac_i => mem_write buf (Z.of_nat h + Z.of_nat n) mac_i | None => Ok buf end
    else Ok buf) = Ok buf) by (by destruct srb).
  rewrite Hs. cbn [mbind res_bind]. rewrite shift3 by lia. change (stream_encrypt 0 ?sc ?o ?b) with (stream_encrypt_eea0 sc o b).
  by rewrite (eea0_spec (Mk_stream_cipher _ 16 _ _ _ (Z.of_nat h) (8 * Z.of_nat n)) n h buf eq_refl eq_refl Hn Hl).
Qed.

(** The PDU is what the peer opens. *)
Lemma protected k srb i keysT keysR rb tx rx (sdu slack slack' : list Z) :
  pdu_size_ok k srb -> 0 <= i -> tx_at k (i + 1) tx -> rx_at k (i + 1) rx -> paired keysT keysR tx rx srb ->
  0 <= rb < NB_RB_MAX -> (0 < length sdu)%nat -> Z.of_nat (length sdu) < 2 ^ 15 ->
  Forall is_byte sdu -> Forall is_byte slack -> Forall is_byte slack' ->
  paired_room tx srb slack -> paired_room tx srb slack' ->
  let sn := i mod 2 ^ k in let h := Z.of_nat (header_size srb) in let n := Z.of_nat (length sdu) in
  exists pdu rest,
    (if security_on tx
     then pdcp_apply_security keysT tx srb rb h sn (header_of srb sn ++ sdu ++ replicate (tailer srb) 0 ++ slack) n
     else Ok (header_of srb sn ++ sdu ++ replicate (tailer srb) 0 ++ slack)) = Ok (pdu ++ rest) /\
    length pdu = (header_size srb + length sdu + tailer srb)%nat /\ take (header_size srb) pdu = header_of srb sn /\
    exists mac rest', length mac = tailer srb /\
      (if security_activated rx =? 1
       then '(_, p, block) ← pdcp_validate_security keysR rx srb rb h sn (pdu ++ slack') (u16 (h + n)); Ok (p, block)
       else Ok (rx, pdu ++ slack')) = Ok (rx, header_of srb sn ++ sdu ++ mac ++ rest').
Proof.
  intros Hk Hi Htx Hrx Hpair Hrb Hn Hsz Hb Hbs Hbs' Hr Hr' sn h n.
  assert (Hr0 : 0 <= sn < 2 ^ k) by (apply Z.mod_pos_bound, Z.pow_pos_nonneg; destruct srb; unfold pdu_size_ok in Hk; lia).
  assert (Hhdr : length (header_of srb sn) = header_size srb) by (by destruct srb).
  assert (Hbh : Forall is_byte (header_of srb sn)).
  { unfold pdu_size_ok in Hk. destruct srb; subst k; repeat constructor; unfold is_byte; mod_lia. }
  assert (Hb4 : Forall is_byte (replicate (tailer srb) 0)) by (apply Forall_replicate; unfold is_byte; lia).
  destruct Hpair as [[Ht0 Hr1]|(Ht1 & Hr1 & P)].
  - unfold security_on. rewrite Ht0, Hr1. cbn [Z.eqb negb andb].
    eexists _, slack. split; [by rewrite !app_assoc|]. split; [rewrite !length_app, length_replicate; lia|].
    split; [by rewrite <- app_assoc, take_app_length'|].
    exists (replicate (tailer srb) 0), slack'. split; [apply length_replicate|]. by rewrite <- !app_assoc.
  - assert (Ecount : pdcp_get_next_count_rx rx srb sn = (pdcp_count k srb i, rx))
      by (by apply count_rx_spec; [apply pdu_size_sizes|..]).
    destruct Hr as [?|Hr]; [lia|]. destruct Hr' as [?|Hr']; [lia|].
    destruct (security_recovered keysT keysR tx rx srb rb sn (header_of srb sn) sdu (replicate (tailer srb) 0) slack slack')
      as (pdu & rest & E1 & L1 & H1 & mac & rest' & L2 & E2); try done.
    { rewrite Ecount. by apply count_tx_spec; [apply pdu_size_sizes|..]. }
    { apply length_replicate. }
    { rewrite Hhdr. destruct srb; cbn [header_size]; lia. }
    { rewrite !Forall_app. done. }
    rewrite Hhdr in *. exists pdu, rest. split; [|].
    + fold h n in E1. destruct (security_on tx) eqn:Eon; [exact E1|]. rewrite <- E1. symmetry. unfold security_on in Eon.
      rewrite Ht1 in Eon. apply apply_null; [done| | |lia|rewrite !length_app; lia];
        destruct (Z.eqb_spec (cipheringAlgorithm tx) 0), (Z.eqb_spec (integrityProtAlgorithm tx) 0); done.
    + split; [exact L1|]. split; [exact H1|]. exists mac, rest'. split; [exact L2|]. rewrite Hr1. change (1 =? 1) with true. cbv iota.
      replace (u16 (h + n)) with (Z.of_nat (header_size srb + length sdu)).
      { unfold h. rewrite E2, Ecount. done. }
      unfold u16, h, n. rewrite wrapu_small by (destruct srb; cbn [header_size]; lia). lia.
Qed.
End transfer.

(** ** Reception *)
Section reception.
Context {T : Type} `{!Table T} `{C : Crypto}.
Implicit Types (ps : pdcp_store T) (c : rlc_ctxt_t) (e : pdcp_env).

(** The SDU goes to RRC, to GTP-U or to the list of SDUs for the network. *)
Definition to_gtpu e c : bool := LINK_ENB_PDCP_TO_GTPV1U e && enb_flag (ctxt c).
Definition hand_over e c (srb : bool) (rb : Z) (sdu : list Z) ps : pdcp_store T :=
  if srb then ps <| rrc_inds := rrc_inds ps ++ [Mk_rrc_ind rb sdu] |>
  else if to_gtpu e c then ps <| gtpu_reqs := gtpu_reqs ps ++ [Mk_gtpu_req (rnti c) (rb + 4) sdu] |>
  else ps <| pdcp_sdu_list := pdcp_sdu_list ps ++
         [if enb_flag (ctxt c) then Mk_pdcp_ind (u16 (rb + module_id c * maxDRB)) (Z.of_nat (length sdu)) 0 sdu
          else Mk_pdcp_ind rb (Z.of_nat (length sdu)) (b2z (ENABLE_USE_MME e)) sdu] |>.
(** There is memory, the traffic generator is off; over AM the SDUs of a data bearer do not go to
    GTP-U, since their number would not be recorded as submitted. *)
Definition ind_ok e c (srb : bool) (m : rlc_mode_t) (n : nat) : Prop :=
  srb = true \/
  (otg_enabled e <> 1 /\ (to_gtpu e c = true -> env_gtpu_ok e = true /\ m <> RLC_MODE_AM) /\
   (to_gtpu e c = false -> env_ind e (Z.of_nat n) = true)).

Lemma pdcp_set_set a p q ps : pdcp_set a q (pdcp_set a p ps) = pdcp_set a q ps.
Proof. unfold pdcp_set. destruct ps. cbn. by rewrite insert_insert_eq. Qed.

Lemma parse_header_spec k srb sn pdu rest p :
  pdu_size_ok k srb -> 0 <= sn < 2 ^ k -> seq_num_size p = k -> take (header_size srb) pdu = header_of srb sn ->
  parse_header srb (pdu ++ rest) p = Ok (Z.of_nat (header_size srb), Z.of_nat (tailer srb), sn).
Proof.
  intros Hk Hsn Hs Ht. assert (E : pdu = header_of srb sn ++ drop (header_size srb) pdu) by (by rewrite <- Ht, take_drop).
  rewrite E. unfold parse_header, pdu_size_ok in *. destruct srb; subst k.
  - cbn [header_of app]. rewrite get_srb_eq by done. done.
  - rewrite Hs. cbn [header_of app]. change (12 =? PDCP_SN_7BIT) with false. change (12 =? PDCP_SN_12BIT) with true.
    cbv iota. rewrite get_long_eq by mod_lia. cbn [mbind res_bind]. repeat f_equal. mod_lia.
Qed.

Lemma deliver_spec e c rb sn h mac rest (hdr sdu : list Z) a p ps :
  length hdr = h -> ind_ok e c false (pdcp_rlc_mode p) (length sdu) -> pdcp_heap ps !! a = Some p ->
  exists p', pdcp_deliver e c false rb sn (Z.of_nat h) (Z.of_nat (h + length sdu)) (hdr ++ sdu ++ mac ++ rest) (Some (a, p)) ps =
      Ok (hand_over e c false rb sdu (pdcp_set a p' ps)) /\
    p' = if to_gtpu e c then p else rx_submitted sn p.
Proof.
  intros Hh [?|(_ & Hg & Hl)] Ha; [done|]. unfold pdcp_deliver, hand_over, to_gtpu in *.
  replace (Z.of_nat (h + length sdu) - Z.of_nat h) with (Z.of_nat (length sdu)) by lia. rewrite andb_true_r.
  destruct (LINK_ENB_PDCP_TO_GTPV1U e && enb_flag (ctxt c)) eqn:Elink.
  - destruct (Hg eq_refl) as [-> _]. cbn [assert_that mbind res_bind]. rewrite mem_read_mid by lia. cbn [mbind res_bind].
    exists p. split; [|done]. f_equal. unfold pdcp_set. rewrite insert_id by done. by destruct ps.
  - rewrite (Hl eq_refl). cbn [deref mbind res_bind]. rewrite (proj2 (Z.leb_le _ _)) by lia. cbn [assert_that mbind res_bind].
    rewrite mem_read_mid by lia. cbn [mbind res_bind]. eexists. split; [done|]. done.
Qed.

Lemma pdu_received k srb i j rb e c a rx (sdu pdu rest : list Z) ps :
  pdu_size_ok k srb -> 0 < rb < maxDRB -> arrives_ok k srb (pdcp_rlc_mode rx) j i -> rx_ready k j rx ->
  pdcp_heap ps !! a = Some rx -> ind_ok e c srb (pdcp_rlc_mode rx) (length sdu) -> (0 < length sdu)%nat ->
  length pdu = (header_size srb + length sdu + tailer srb)%nat ->
  take (header_size srb) pdu = header_of srb (i mod 2 ^ k) ->
  (forall rx', rx_at k (i + 1) rx' -> rx_frame rx rx' -> exists mac rest',
    (if security_activated rx' =? 1
     then '(_, p, block) ← pdcp_validate_security (pdcp_keys ps) rx' srb rb (Z.of_nat (header_size srb)) (i mod 2 ^ k) (pdu ++ rest)
            (u16 (Z.of_nat (header_size srb) + Z.of_nat (length sdu))); Ok (p, block)
     else Ok (rx', pdu ++ rest)) = Ok (rx', header_of srb (i mod 2 ^ k) ++ sdu ++ mac ++ rest')) ->
  exists rx', rx_ready k (i + 1) rx' /\ rx_frame rx rx' /\
    pdcp_pdu_ind e c srb rb a (Z.of_nat (length pdu)) (pdu ++ rest) rx ps =
      Ok (TRUE, hand_over e c srb rb sdu (pdcp_set a rx' ps)).
Proof.
  intros Hk Hrb Harr Hrx Ha Hind Hn Hlen Hhdr Hopen. assert (Hks := pdu_size_sizes k srb Hk).
  destruct (is_rx_valid_spec k srb j i rx Hks Harr Hrx) as (rx1 & Ev & Hat & Hf & Hbm).
  assert (Hsn : 0 <= i mod 2 ^ k < 2 ^ k) by (apply Z.mod_pos_bound, Z.pow_pos_nonneg; destruct (size_ok_sizes _ _ Hks); lia).
  unfold pdcp_pdu_ind. rewrite (parse_header_spec k srb (i mod 2 ^ k)) by (done || apply Hrx). cbn [mbind res_bind].
  rewrite (proj2 (Z.ltb_ge _ _)) by lia. rewrite Ev. cbn [mbind res_bind].
  rewrite (Z.mod_small rb) by lia.
  replace (Z.of_nat (length pdu) - Z.of_nat (tailer srb)) with (Z.of_nat (header_size srb) + Z.of_nat (length sdu)) by lia.
  destruct (Hopen rx1 Hat Hf) as (mac & rest' & ->). cbn [mbind res_bind].
  assert (Em : pdcp_rlc_mode rx1 = pdcp_rlc_mode rx) by (by apply (f_equal pdcp_rlc_mode) in Hf).
  assert (Hh : length (header_of srb (i mod 2 ^ k)) = header_size srb) by (by destruct srb).
  destruct srb.
  - rewrite mem_read_mid by (rewrite ?Hh; lia). cbn [mbind res_bind]. exists rx1. split; [|done].
    split; [exact Hat|]. split; [exact Hbm|]. intros _ ?. unfold pdu_size_ok in Hk. lia.
  - destruct Hind as [?|Hind]; [done|]. destruct (Z.eqb_spec (otg_enabled e) 1); [by destruct Hind|].
    replace (Z.of_nat (length pdu)) with (Z.of_nat (header_size false + length sdu)) by (cbn [tailer] in *; lia).
    destruct (deliver_spec e c rb (i mod 2 ^ k) (header_size false) mac rest' (header_of false (i mod 2 ^ k)) sdu a rx1 (pdcp_set a rx1 ps))
      as (p' & E & Hp'); [done|right; by rewrite Em|apply lookup_insert_eq|].
    rewrite E, pdcp_set_set. cbn [mbind res_bind]. exists p'. split; [|split; [|done]].
    + destruct Hind as (_ & Hg & _). subst p'. destruct (to_gtpu e c).
      * split; [exact Hat|]. split; [exact Hbm|]. intros Hm. rewrite Em in Hm. by destruct (Hg eq_refl).
      * by apply submitted_ready.
    + subst p'. destruct (to_gtpu e c); [done|]. eapply rx_frame_trans; [exact Hf|apply submitted_frame].
Qed.
End reception.

(** ** From a request to an indication *)
Section store.
Context {T : Type} `{!Table T}.

(** The entity of a bearer and its address. *)
Definition pdcp_has (ps : pdcp_store T) (c : rlc_ctxt_t) (rb : Z) (srb : bool) (a : Z) (p : pdcp_t) : Prop :=
  (exists m, tab_refines (pdcp_coll ps) m /\ m !! pdcp_key c rb srb = Some a) /\ pdcp_heap ps !! a = Some p.

Lemma pdcp_has_get ps c rb srb a p :
  pdcp_has ps c rb srb a p -> pdcp_get (pdcp_key c rb srb) ps = Ok (HASH_TABLE_OK, a) /\ pdcp_at a ps = Ok p.
Proof.
  intros [(m & Hm & Ha) Hp]. unfold pdcp_get, pdcp_at. by rewrite (tab_get_spec _ _ _ Hm), Ha, Hp.
Qed.
Lemma pdcp_has_set ps c rb srb a p p' : pdcp_has ps c rb srb a p -> pdcp_has (pdcp_set a p' ps) c rb srb a p'.
Proof. intros [H _]. split; [exact H|]. apply lookup_insert_eq. Qed.
Lemma pdcp_has_hand_over e c' srb' rb' sdu ps c rb srb a p :
  pdcp_has ps c rb srb a p -> pdcp_has (hand_over e c' srb' rb' sdu ps) c rb srb a p.
Proof. intros H. unfold hand_over. destruct srb'; [done|]. by destruct (to_gtpu e c'). Qed.
End store.

Section data_transfer.
Context {T T' R : Type} `{!Table T} `{!Table T'} `{!Table R} `{C : Crypto}.

(** What the two entities of a bearer have in common stays as they exchange PDUs. *)
Definition same_security (p p' : pdcp_t) : Prop :=
  security_activated p' = security_activated p /\ is_ue p' = is_ue p /\
  cipheringAlgorithm p' = cipheringAlgorithm p /\ integrityProtAlgorithm p' = integrityProtAlgorithm p /\
  kUPenc p' = kUPenc p /\ kRRCint p' = kRRCint p /\ kRRCenc p' = kRRCenc p.
Lemma tx_frame_security p p' : tx_frame p p' -> same_security p p'.
Proof. intros H. repeat split; match goal with |- ?f p' = _ => exact (f_equal f H) end. Qed.
Lemma rx_frame_security p p' : rx_frame p p' -> same_security p p'.
Proof. intros H. repeat split; match goal with |- ?f p' = _ => exact (f_equal f H) end. Qed.
Lemma paired_frame keysT keysR tx tx' rx rx' srb :
  tx_frame tx tx' -> rx_frame rx rx' -> paired keysT keysR tx rx srb -> paired keysT keysR tx' rx' srb.
Proof.
  intros Ht Hr. apply tx_frame_security in Ht as (T0 & T1 & T2 & T3 & T4 & T5 & T6).
  apply rx_frame_security in Hr as (R0 & R1 & R2 & R3 & R4 & R5 & R6). unfold paired. rewrite T0, R0.
  intros [?|(? & ? & P)]; [by left|right]. split; [done|]. split; [done|].
  destruct P as [P1 P2 P3 P4 P5 P6 P7 P8 P9]. unfold cipher_key, integrity_key in *.
  constructor; unfold cipher_key, integrity_key; rewrite ?T1, ?T2, ?T3, ?T4, ?T5, ?T6, ?R1, ?R2, ?R3, ?R4, ?R5, ?R6; done.
Qed.
Definition bearer_limit (srb : bool) : Z := if srb then 3 else maxDRB.

Lemma data_req_pdu e re c srb rb mui (sdu block : list Z) k i a tx (ps : pdcp_store T) (rs : rlc_store R) :
  pdu_size_ok k srb -> 0 <= i -> tx_at k i tx -> pdcp_has ps c rb srb a tx -> 0 < rb < bearer_limit srb ->
  (0 < length sdu)%nat -> Z.of_nat (length sdu) <= MAX_IP_PACKET_SIZE e -> Z.of_nat (length sdu) < 2 ^ 15 ->
  env_pdu e (Z.of_nat (header_size srb + length sdu + tailer srb)) = Some block ->
  (header_size srb + length sdu + tailer srb <= length block)%nat ->
  exists tx', tx_at k (i + 1) tx' /\ tx_frame tx tx' /\
    let slack := drop (header_size srb + length sdu + tailer srb) block in
    let plain := header_of srb (i mod 2 ^ k) ++ sdu ++ replicate (tailer srb) 0 ++ slack in
    pdcp_data_req e re c srb rb mui (Z.of_nat (length sdu)) sdu PDCP_TRANSMISSION_MODE_DATA ps rs =
      (block ← (if security_on tx'
                then pdcp_apply_security (pdcp_keys ps) tx' srb rb (Z.of_nat (header_size srb)) (i mod 2 ^ k) plain
                       (Z.of_nat (length sdu))
                else Ok plain);
       '(st, rs) ← rlc_data_req re c srb false rb mui (Z.of_nat (header_size srb + length sdu + tailer srb)) block rs;
       Ok (status_ret st, Some true, pdcp_set a tx' ps, rs)).
Proof.
  intros Hk Hi Htx Hhas Hrb Hn Hmax Hsz Henv Hl. destruct (pdcp_has_get _ _ _ _ _ _ Hhas) as [Eget Eat].
  destruct (build_plain k srb i (pdcp_keys ps) rb tx sdu block Hk Hi Htx Hl) as (tx' & Hat & Hf & Eb).
  exists tx'. split; [exact Hat|]. split; [exact Hf|]. cbv zeta in Eb |- *. unfold pdcp_data_req.
  destruct (Z.eqb_spec (Z.of_nat (length sdu)) 0); [lia|]. rewrite (proj2 (Z.leb_le _ _) Hmax). cbn [assert_that mbind res_bind].
  rewrite bool_decide_false by done. unfold bearer_limit in Hrb. rewrite (proj2 (Z.ltb_lt _ _) (proj2 Hrb)). cbn [negb].
  rewrite Eget. cbn [mbind res_bind]. rewrite Z.eqb_refl. cbn [negb andb]. rewrite Eat. cbn [mbind res_bind].
  replace (u16 (Z.of_nat (length sdu) + (if srb then 5 else 2))) with (Z.of_nat (header_size srb + length sdu + tailer srb)).
  2: { unfold u16. rewrite wrapu_small; destruct srb; cbn [header_size tailer]; lia. }
  rewrite Henv, Eb. assert (Hmod : rb mod maxDRB = rb) by (apply Z.mod_small; destruct srb; unfold maxDRB in *; lia).
  rewrite Hmod. clear.
  match goal with |- context [if security_on tx' then ?x else ?y] => by destruct (if security_on tx' then x else y) end.
Qed.

(** C4: An SDU that one PDCP entity sends is what its peer delivers, on a signalling
    bearer with 5 bit numbers or a UM or AM data bearer with 12 bit ones (with 7 the two
    sides disagree, see the findings). Keys and algorithms (EEA0-2) are the same on both
    sides, or there is no security. The sender sent [i] PDUs; the receiver gets this one
    after fewer missing ones than in [pdcp_count_sync]. The SDU has 1..32767 bytes, at
    most the IP packet maximum; there is memory for the PDU and, for EEA1, up to three
    bytes behind it; the receiver has memory, no traffic generator, and over AM does not
    hand data to GTP-U (that breaks its numbers, see the findings). Then the request gives
    RLC one PDU, and when the peer's RLC indicates these bytes, whatever follows them in
    the block, its PDCP hands over exactly the SDU, to RRC, GTP-U or the network; both
    entities are then ready for the next PDU. *)
Theorem pdcp_data_transfer eT re cT eR cR srb rb mui (sdu block : list Z) k i j aT aR tx rx
    (psT : pdcp_store T) (psR : pdcp_store T') (rs : rlc_store R) :
  pdu_size_ok k srb -> 0 < rb < bearer_limit srb -> 0 <= i ->
  pdcp_has psT cT rb srb aT tx -> tx_at k i tx -> pdcp_has psR cR rb srb aR rx -> rx_ready k j rx ->
  arrives_ok k srb (pdcp_rlc_mode rx) j i -> paired (pdcp_keys psT) (pdcp_keys psR) tx rx srb ->
  ind_ok eR cR srb (pdcp_rlc_mode rx) (length sdu) ->
  (0 < length sdu)%nat -> Z.of_nat (length sdu) <= MAX_IP_PACKET_SIZE eT -> Z.of_nat (length sdu) < 2 ^ 15 ->
  env_pdu eT (Z.of_nat (header_size srb + length sdu + tailer srb)) = Some block ->
  (header_size srb + length sdu + tailer srb <= length block)%nat -> Forall is_byte sdu -> Forall is_byte block ->
  paired_room tx srb (drop (header_size srb + length sdu + tailer srb) block) ->
  exists pdu rest tx', length pdu = (header_size srb + length sdu + tailer srb)%nat /\
    tx_at k (i + 1) tx' /\ tx_frame tx tx' /\
    pdcp_data_req eT re cT srb rb mui (Z.of_nat (length sdu)) sdu PDCP_TRANSMISSION_MODE_DATA psT rs =
      ('(st, rs) ← rlc_data_req re cT srb false rb mui (Z.of_nat (length pdu)) (pdu ++ rest) rs;
       Ok (status_ret st, Some true, pdcp_set aT tx' psT, rs)) /\
    forall slack, Forall is_byte slack -> paired_room tx srb slack ->
      exists rx', rx_ready k (i + 1) rx' /\ rx_frame rx rx' /\
        pdcp_data_ind eR cR srb false rb (Z.of_nat (length pdu)) (pdu ++ slack) psR =
          Ok (TRUE, hand_over eR cR srb rb sdu (pdcp_set aR rx' psR)).
Proof.
  intros Hk Hrb Hi HhasT Htx HhasR Hrx Harr Hpair Hind Hn Hmax Hsz Henv Hl Hbs Hbb Hroom.
  destruct (data_req_pdu eT re cT srb rb mui sdu block k i aT tx psT rs) as (tx' & Htx' & Hft & Ereq); try done.
  cbv zeta in Ereq. set (slack0 := drop (header_size srb + length sdu + tailer srb) block) in *.
  assert (Hroom' : forall s, paired_room tx srb s -> paired_room tx' srb s).
  { destruct (tx_frame_security _ _ Hft) as (E1 & _ & E2 & _). unfold paired_room. intros s. by rewrite E1, E2. }
  assert (Hrb' : 0 <= rb < NB_RB_MAX) by (unfold NB_RB_MAX, bearer_limit, maxDRB in *; destruct srb; lia).
  assert (Hprot : forall rx' s, rx_at k (i + 1) rx' -> rx_frame rx rx' -> Forall is_byte s -> paired_room tx srb s -> _) by
    (intros rx' s H1 H2 H3 H4; exact (protected k srb i (pdcp_keys psT) (pdcp_keys psR) rb tx' rx' sdu slack0 s Hk Hi Htx' H1
      (paired_frame _ _ _ _ _ _ _ Hft H2 Hpair) Hrb' Hn Hsz Hbs (Forall_drop _ _ _ Hbb) H3 (Hroom' _ Hroom) (Hroom' _ H4))).
  cbv zeta in Hprot.
  destruct (is_rx_valid_spec k srb j i rx (pdu_size_sizes k srb Hk) Harr Hrx) as (rx0 & _ & Hat0 & Hf0 & _).
  destruct (Hprot rx0 slack0 Hat0 Hf0 (Forall_drop _ _ _ Hbb) Hroom) as (pdu & rest & Eapp & Lpdu & Hhdr & _).
  exists pdu, rest, tx'. split; [exact Lpdu|]. split; [exact Htx'|]. split; [exact Hft|].
  split; [by rewrite Ereq, Eapp, Lpdu|]. intros slack Hslack Hrs.
  destruct (pdcp_has_get _ _ _ _ _ _ HhasR) as [Eget Eat].
  assert (Hopen : forall rx', rx_at k (i + 1) rx' -> rx_frame rx rx' -> exists mac rest',
    (if security_activated rx' =? 1
     then '(_, p, block) ← pdcp_validate_security (pdcp_keys psR) rx' srb rb (Z.of_nat (header_size srb)) (i mod 2 ^ k) (pdu ++ slack)
            (u16 (Z.of_nat (header_size srb) + Z.of_nat (length sdu))); Ok (p, block)
     else Ok (rx', pdu ++ slack)) = Ok (rx', header_of srb (i mod 2 ^ k) ++ sdu ++ mac ++ rest')).
  { intros rx' H1 H2. destruct (Hprot rx' slack H1 H2 Hslack Hrs) as (pdu2 & rest2 & E2 & L2 & _ & mac & rest' & _ & E').
    rewrite Eapp in E2. injection E2 as E2. apply app_inj_1 in E2 as [<- _]; [|by rewrite Lpdu, L2]. by exists mac, rest'. }
  destruct (pdu_received k srb i j rb eR cR aR rx sdu pdu slack psR) as (rx' & H1 & H2 & E); try done.
  { unfold bearer_limit, maxDRB in *. destruct srb; lia. }
  { by destruct HhasR. }
  exists rx'. split; [exact H1|]. split; [exact H2|]. unfold pdcp_data_ind.
  assert (Hmod : rb mod maxDRB = rb) by (apply Z.mod_small; unfold bearer_limit, maxDRB in *; destruct srb; lia).
  rewrite Hmod. destruct (Z.gtb_spec rb 0); [|lia]. cbn [negb]. rewrite Eget. cbn [mbind res_bind]. rewrite Z.eqb_refl. cbn [negb].
  destruct (Z.eqb_spec (Z.of_nat (length pdu)) 0); [lia|]. rewrite Eat. cbn [mbind res_bind]. exact E.
Qed.
End data_transfer.

(** A data bearer ciphered with EEA1, its entity in a table of its own. *)
Definition sample_drb (ue : bool) : pdcp_t :=
  (sample_pdcp ue 12 RLC_MODE_UM) <| cipheringAlgorithm := 1 |> <| kUPenc := 1 |> <| security_activated := 1 |>.
Definition sample_env : pdcp_env :=
  Mk_pdcp_env (fun n => Some (replicate (Z.to_nat n + 3) 0)) (fun _ => true) true 0 true true 1500.
Definition sample_ctxt (enb : bool) : rlc_ctxt_t := Mk_rlc_ctxt 0 4660 (Mk_ctxt 3 1 enb).
Lemma sample_store {T} `{!Table T} enb rb srb p :
  exists ps : pdcp_store T, pdcp_has ps (sample_ctxt enb) rb srb 1 p /\ pdcp_keys ps = sample_keys /\ gtpu_reqs ps = [].
Proof.
  destruct (tab_insert_spec true tab_new ∅ (pdcp_key (sample_ctxt enb) rb srb) 1 tab_new_refines) as (t & _ & Ht); [by right|].
  exists (Mk_pdcp_store t {[1 := p]} 2 sample_keys [] [] [] [] [] [] []). split; [|done]. split; [|apply lookup_singleton_eq].
  exists (<[pdcp_key (sample_ctxt enb) rb srb := 1]> ∅). split; [exact Ht|apply lookup_insert_eq].
Qed.
Lemma sample_drb_peers ue : paired sample_keys sample_keys (sample_drb ue) (sample_drb (negb ue)) false.
Proof.
  assert (H1 : key_at sample_keys 1 = Key_at sample_key) by (vm_compute; reflexivity).
  assert (H3 : (16 <= length sample_key)%nat) by (apply Nat.leb_le; vm_compute; reflexivity).
  right. split; [reflexivity|]. split; [reflexivity|]. split; try reflexivity; try (unfold cipher_ok; cbn; lia).
  - right. exists sample_key. unfold cipher_key. cbn [sample_drb kUPenc]. split; [exact H1|exact H3].
  - left. reflexivity.
Qed.
Lemma pdcp_data_transfer_witness :
  exists (psT psR : pdcp_store hash_table_t) pdu rx' tx' rest,
    length pdu = 5%nat /\
    pdcp_data_req sample_env demo_env (sample_ctxt false) false 4 0 3 [11; 12; 13] PDCP_TRANSMISSION_MODE_DATA psT
        (rlc_module_init (T := hash_table_t) 16 1) =
      ('(st, rs) ← rlc_data_req demo_env (sample_ctxt false) false false 4 0 (Z.of_nat (length pdu)) (pdu ++ rest)
                     (rlc_module_init (T := hash_table_t) 16 1);
       Ok (status_ret st, Some true, pdcp_set 1 tx' psT, rs)) /\
    pdcp_data_ind sample_env (sample_ctxt true) false false 4 (Z.of_nat (length pdu)) (pdu ++ [0; 0; 0]) psR =
      Ok (TRUE, hand_over sample_env (sample_ctxt true) false 4 [11; 12; 13] (pdcp_set 1 rx' psR)).
Proof.
  destruct (sample_store (T := hash_table_t) false 4 false (sample_drb true)) as (psT & HT & KT & _).
  destruct (sample_store (T := hash_table_t) true 4 false (sample_drb false)) as (psR & HR & KR & _).
  destruct (pdcp_data_transfer sample_env demo_env (sample_ctxt false) sample_env (sample_ctxt true) false 4 0 [11; 12; 13]
    (replicate 8 0) 12 0 0 1 1 (sample_drb true) (sample_drb false) psT psR (rlc_module_init (T := hash_table_t) 16 1))
    as (pdu & rest & tx' & L & _ & _ & E1 & E2).
  - reflexivity.
  - split; reflexivity.
  - lia.
  - exact HT.
  - repeat split.
  - exact HR.
  - split; [repeat split|]. split; [reflexivity|]. intros H. discriminate H.
  - repeat split; reflexivity || discriminate.
  - rewrite KT, KR. exact (sample_drb_peers true).
  - right. split; [discriminate|]. split; [intros _; split; [reflexivity|discriminate]|]. discriminate.
  - apply Nat.ltb_lt. reflexivity.
  - discriminate.
  - reflexivity.
  - reflexivity.
  - apply Nat.leb_le. reflexivity.
  - repeat (apply Forall_cons; split); try apply Forall_nil_2; unfold is_byte; lia.
  - apply Forall_replicate. unfold is_byte. lia.
  - right. right. right. apply Nat.leb_le. reflexivity.
  - destruct (E2 [0; 0; 0]) as (rx' & _ & _ & E3).
    + repeat (apply Forall_cons; split); try apply Forall_nil_2; unfold is_byte; lia.
    + right. right. right. apply Nat.leb_le. reflexivity.
    + exists psT, psR, pdu, rx', tx', rest. split; [exact L|]. split; [exact E1|exact E3].
Defined.
