(* ===== verification/PdcpConfigSpec.v ===== *)
(** * What configuration does (PdcpConfig)

    A configured entity is ready to send and to receive its first PDU; what the removal of a UE
    removes, and what happens to keys that several entities share. *)

From S2P Require Import Prelude Bits HashTable Snow3g StreamCipher RlcAmTypes RlcStore RlcDispatch RlcStoreSpec.
From S2P Require Import PdcpTypes PdcpSequence PdcpSecurity Pdcp PdcpConfig PdcpTransfer.

(** ** Keys of the table *)
Lemma pdcp_key_coll c i s : pdcp_key c i s = coll_key 85 (id_of c i s).
Proof. done. Qed.
Definition ctxt_ok (c : rlc_ctxt_t) : Prop := 0 <= module_id c < 256 /\ 0 <= rnti c < 65536.
Lemma pdcp_key_inj c i s i' s' :
  ctxt_ok c -> 0 <= i < 256 -> 0 <= i' < 256 -> pdcp_key c i s = pdcp_key c i' s' -> i = i' /\ s = s'.
Proof.
  intros [Hm Hr] Hi Hi' E. rewrite !pdcp_key_coll in E.
  apply coll_key_inj in E as [_ E]; [|by cbn; lia..]. unfold id_of in E. by injection E.
Qed.

(** ** A new entity *)

Lemma size_pos n : 0 < 2 ^ sn_size_of n.
Proof. apply Z.pow_pos_nonneg; [lia|]. unfold sn_size_of. by repeat case_match. Qed.
Lemma config_ready m k ue b :
  let p := config_security m k (config_add ue b pdcp_zero) in
  tx_at (sn_size_of (pb_sn b)) 0 p /\ rx_ready (sn_size_of (pb_sn b)) 0 p /\
  pdcp_rlc_mode p = pb_rlc_mode b /\ is_ue p = ue.
Proof.
  assert (H := size_pos (pb_sn b)). unfold config_security, pdcp_config_set_security.
  repeat case_match; (split_and!; [|split_and!|..]); cbn; try done; unfold tx_at, rx_at; cbn;
    rewrite ?Z.mod_0_l, ?Z.div_0_l by lia; done || (intros _ ->; done).
Qed.
Lemma security_halves m : 0 <= m <= 119 ->
  m = 16 * Z.land (Z.shiftr m 4) 15 + Z.land m 15 /\ 0 <= Z.land m 15 < 16.
Proof.
  intros H. change 15 with (2 ^ 4 - 1). rewrite !land_ones_mod, Z.shiftr_div_pow2 by lia. change (2 ^ 4) with 16.
  split; mod_lia.
Qed.


(** ** Removal *)
Section removal.
Context {T : Type} `{!Table T}.
Implicit Types (ps : pdcp_store T) (m : gmap Z Z).

(** Memory that is freed, nothing else. *)
Definition shrinks ps ps' : Prop := pdcp_heap ps' ⊆ pdcp_heap ps /\ pdcp_keys ps' ⊆ pdcp_keys ps.
Lemma shrinks_trans ps1 ps2 ps3 : shrinks ps1 ps2 -> shrinks ps2 ps3 -> shrinks ps1 ps3.
Proof. intros [H1 H2] [H3 H4]. split; by etrans. Qed.
#[local] Instance shrinks_refl : Reflexive shrinks.
Proof. intros ps. by split. Qed.

Lemma heap_free_sub {A} a (h h' : gmap Z A) :
  heap_free a h = Ok h' -> h' ⊆ h /\ (a <> 0 -> is_Some (h !! a) /\ h' !! a = None).
Proof.
  unfold heap_free. destruct (Z.eqb_spec a 0); intros H; [by injection H as <-|]. res_inv. subst.
  split; [apply delete_subseteq|]. intros _. split; [by eexists|]. apply lookup_delete_eq.
Qed.
Lemma lookup_sub_Some {A} (h h' : gmap Z A) a : h' ⊆ h -> is_Some (h' !! a) -> is_Some (h !! a).
Proof. intros Hs [x Hx]. exists x. by eapply lookup_weaken. Qed.
(** The addresses of an entity's keys, NULL left out. *)
Definition key_of (p : pdcp_t) (a : Z) : Prop := a <> 0 /\ (a = kUPenc p \/ a = kRRCint p \/ a = kRRCenc p).
Lemma lookup_sub_None {A} (h h' : gmap Z A) a : h' ⊆ h -> h !! a = None -> h' !! a = None.
Proof. intros Hs H. apply eq_None_not_Some. intros [x Hx]. eapply lookup_weaken in Hx; [|exact Hs]. congruence. Qed.
Lemma free_keys_sub p keys keys' : free_keys p keys = Ok keys' ->
  keys' ⊆ keys /\ forall a, key_of p a -> is_Some (keys !! a) /\ keys' !! a = None.
Proof.
  unfold free_keys. intros H. apply bind_ok_inv in H as (k1 & H1 & H). apply bind_ok_inv in H as (k2 & H2 & H3).
  apply heap_free_sub in H1 as [S1 N1], H2 as [S2 N2], H3 as [S3 N3].
  split; [by do 2 (etrans; [eassumption|])|]. intros a [Ha [-> | [-> | ->]]].
  - destruct (N1 Ha). eauto using lookup_sub_None.
  - destruct (N2 Ha). eauto using lookup_sub_None, lookup_sub_Some.
  - destruct (N3 Ha). eauto using lookup_sub_None, lookup_sub_Some.
Qed.
Lemma pdcp_free_spec a ps ps' : pdcp_free a ps = Ok ps' ->
  pdcp_coll ps' = pdcp_coll ps /\ shrinks ps ps' /\
  (a <> 0 -> exists p, pdcp_heap ps !! a = Some p /\ pdcp_heap ps' !! a = None /\
    forall k, key_of p k -> is_Some (pdcp_keys ps !! k) /\ pdcp_keys ps' !! k = None).
Proof.
  unfold pdcp_free. destruct (Z.eqb_spec a 0); intros H; [injection H as <-; by repeat split|].
  apply bind_ok_inv in H as (p & Hp & H). apply bind_ok_inv in H as (keys & Hk & H). injection H as <-.
  apply free_keys_sub in Hk as [S N]. apply deref_ok_inv in Hp. split; [done|].
  split; [split; [apply delete_subseteq|exact S]|]. intros _. exists p. split; [done|].
  split; [apply lookup_delete_eq|exact N].
Qed.
Lemma pdcp_frees_spec l : forall ps ps', pdcp_frees l ps = Ok ps' -> pdcp_coll ps' = pdcp_coll ps /\ shrinks ps ps'.
Proof.
  induction l as [|a l IH]; intros ps ps' H; [by injection H as <-|].
  cbn [pdcp_frees] in H. apply bind_ok_inv in H as (ps1 & H1 & H). apply pdcp_free_spec in H1 as (C1 & S1 & _).
  apply IH in H as [C2 S2]. split; [by rewrite C2|by eapply shrinks_trans].
Qed.
Lemma pdcp_remove_spec key ps rc ps' m :
  tab_refines (pdcp_coll ps) m -> pdcp_remove key ps = Ok (rc, ps') ->
  tab_refines (pdcp_coll ps') (delete key m) /\ shrinks ps ps' /\
  (forall a, m !! key = Some a -> a <> 0 -> exists p, pdcp_heap ps !! a = Some p /\ pdcp_heap ps' !! a = None /\
    forall k, key_of p k -> is_Some (pdcp_keys ps !! k) /\ pdcp_keys ps' !! k = None).
Proof.
  intros Hm H. unfold pdcp_remove in H. destruct (tab_remove_spec _ _ key Hm) as (t & E & Ht). rewrite E in H.
  destruct (m !! key) as [a|] eqn:Ea; cbn [mbind res_bind] in H; apply bind_ok_inv in H as (ps1 & H1 & H); injection H as <- <-.
  - unfold free_data in H1. destruct (Z.eqb_spec a 0) as [->|Hne]; cbn [pdcp_frees] in H1.
    + injection H1 as <-. split; [exact Ht|]. split; [by split|]. by intros a [= <-].
    + apply bind_ok_inv in H1 as (ps2 & H1 & H). injection H as <-. apply pdcp_free_spec in H1 as (C & S & F).
      rewrite C. split; [exact Ht|]. split; [exact S|]. intros a' [= <-]. exact F.
  - cbn [pdcp_frees] in H1. injection H1 as <-. split; [exact Ht|]. by split.
Qed.
Lemma pdcp_remove_bearers_spec c srb ids : forall ps ps' m,
  tab_refines (pdcp_coll ps) m -> pdcp_remove_bearers c srb ids ps = Ok ps' ->
  shrinks ps ps' /\ exists m', tab_refines (pdcp_coll ps') m' /\
    forall k, m' !! k = if decide (k ∈ map (fun id => pdcp_key c id srb) ids) then None else m !! k.
Proof.
  induction ids as [|id ids IH]; intros ps ps' m Hm H.
  - injection H as <-. split; [done|]. exists m. by split.
  - cbn [pdcp_remove_bearers] in H. apply bind_ok_inv in H as ([rc ps1] & H1 & H).
    apply (pdcp_remove_spec _ _ _ _ m Hm) in H1 as (Hm1 & S1 & _). destruct (IH _ _ _ Hm1 H) as (S2 & m' & Hm' & E).
    split; [by eapply shrinks_trans|]. exists m'. split; [exact Hm'|]. intros k. rewrite E. cbn [map].
    destruct (decide (k ∈ map (fun id => pdcp_key c id srb) ids)); [by rewrite decide_True by (by right)|].
    destruct (decide (pdcp_key c id srb = k)) as [<-|Hne].
    + by rewrite lookup_delete_eq, decide_True by left.
    + rewrite lookup_delete_ne by done. rewrite decide_False; [done|]. intros [E'|?]%list_elem_of_In; [by apply Hne|]. by apply n, list_elem_of_In.
Qed.
Lemma pdcp_remove_bearers_app c srb l1 l2 ps :
  pdcp_remove_bearers c srb (l1 ++ l2) ps = (ps ← pdcp_remove_bearers c srb l1 ps; pdcp_remove_bearers c srb l2 ps).
Proof.
  revert ps. induction l1 as [|id l1 IH]; intros ps; [done|]. cbn [app pdcp_remove_bearers].
  destruct (pdcp_remove _ ps) as [[rc ps1]|]; [|done]. cbn [mbind res_bind]. apply IH.
Qed.

(** The only failure is undefined behaviour. *)
Definition only_ub {A} (r : res A) : Prop := forall f, r = Err f -> f = UndefinedBehaviour.
Lemma only_ub_ok {A} (a : A) : only_ub (Ok a).
Proof. by intros f. Qed.
Lemma only_ub_deref {A} (o : option A) : only_ub (deref o).
Proof. destruct o; intros f H; [done|by injection H]. Qed.
Lemma only_ub_bind {A B} (r : res A) (g : A -> res B) : only_ub r -> (forall a, only_ub (g a)) -> only_ub (r ≫= g).
Proof. intros H1 H2. destruct r; [apply H2|]. intros f' H. apply H1. by injection H as ->. Qed.
Lemma only_ub_heap_free {A} a (h : gmap Z A) : only_ub (heap_free a h).
Proof. unfold heap_free. destruct (_ =? _); [apply only_ub_ok|]. apply only_ub_bind; [apply only_ub_deref|]. intros. apply only_ub_ok. Qed.
Create HintDb only_ub.
#[local] Hint Resolve only_ub_ok only_ub_deref only_ub_bind only_ub_heap_free : only_ub.
Lemma only_ub_frees l ps : only_ub (pdcp_frees l ps).
Proof.
  revert ps. induction l as [|a l IH]; intros ps; cbn [pdcp_frees]; [auto with only_ub|].
  apply only_ub_bind; [|done]. unfold pdcp_free, pdcp_at, free_keys. destruct (_ =? _); auto 8 with only_ub.
Qed.
Lemma only_ub_remove key ps m : tab_refines (pdcp_coll ps) m -> only_ub (pdcp_remove key ps).
Proof.
  intros Hm. unfold pdcp_remove. destruct (tab_remove_spec _ _ key Hm) as (t & E & _). rewrite E.
  destruct (m !! key); cbn [mbind res_bind]; (apply only_ub_bind; [apply only_ub_frees|auto with only_ub]).
Qed.
Lemma only_ub_remove_bearers c srb ids : forall ps m, tab_refines (pdcp_coll ps) m -> only_ub (pdcp_remove_bearers c srb ids ps).
Proof.
  induction ids as [|id ids IH]; intros ps m Hm; cbn [pdcp_remove_bearers]; [auto with only_ub|].
  destruct (pdcp_remove (pdcp_key c id srb) ps) as [[rc ps1]|] eqn:E.
  - cbn [mbind res_bind]. apply (pdcp_remove_spec _ _ _ _ m Hm) in E as (Hm1 & _). by eapply IH.
  - intros f' [= <-]. by eapply only_ub_remove.
Qed.

(** A key of two entities is freed twice. *)
Lemma shared_key_fails c srb l1 d1 l2 d2 l3 ps m a1 a2 k :
  tab_refines (pdcp_coll ps) m ->
  (forall id, id ∈ l1 ++ d1 :: l2 -> pdcp_key c id srb <> pdcp_key c d2 srb) ->
  (forall id, id ∈ l1 -> pdcp_key c id srb <> pdcp_key c d1 srb) ->
  m !! pdcp_key c d1 srb = Some a1 -> a1 <> 0 -> (forall p, pdcp_heap ps !! a1 = Some p -> key_of p k) ->
  m !! pdcp_key c d2 srb = Some a2 -> a2 <> 0 -> (forall p, pdcp_heap ps !! a2 = Some p -> key_of p k) ->
  pdcp_remove_bearers c srb (l1 ++ d1 :: l2 ++ d2 :: l3) ps = Err UndefinedBehaviour.
Proof.
  intros Hm Hd2 Hd1 M1 N1 K1 M2 N2 K2.
  destruct (pdcp_remove_bearers c srb (l1 ++ d1 :: l2 ++ d2 :: l3) ps) as [ps'|f] eqn:E.
  2: { f_equal. by eapply only_ub_remove_bearers. }
  exfalso. rewrite pdcp_remove_bearers_app in E. apply bind_ok_inv in E as (q1 & E1 & E).
  destruct (pdcp_remove_bearers_spec _ _ _ _ _ _ Hm E1) as (S1 & m1 & Hm1 & L1).
  cbn [pdcp_remove_bearers] in E. apply bind_ok_inv in E as ([rc q2] & E2 & E).
  apply (pdcp_remove_spec _ _ _ _ _ Hm1) in E2 as (Hm2 & S2 & F2).
  rewrite L1, decide_False in F2 by (intros (id & Eid & Hid)%list_elem_of_fmap; by apply (Hd1 id)).
  destruct (F2 a1 M1 N1) as (p1' & P1' & _ & G1). eapply lookup_weaken in P1'; [|apply S1].
  destruct (G1 k (K1 _ P1')) as [_ Hnone]. clear G1.
  rewrite pdcp_remove_bearers_app in E. apply bind_ok_inv in E as (q3 & E3 & E).
  destruct (pdcp_remove_bearers_spec _ _ _ _ _ _ Hm2 E3) as (S3 & m3 & Hm3 & L3).
  cbn [pdcp_remove_bearers] in E. apply bind_ok_inv in E as ([rc' q4] & E4 & _).
  apply (pdcp_remove_spec _ _ _ _ _ Hm3) in E4 as (_ & _ & F4).
  assert (Hm4 : m3 !! pdcp_key c d2 srb = Some a2).
  { rewrite L3, decide_False by (intros (id & Eid & Hid)%list_elem_of_fmap; apply (Hd2 id); [set_solver|done]).
    rewrite lookup_delete_ne by (apply Hd2; set_solver).
    rewrite L1, decide_False; [done|]. intros (id & Eid & Hid)%list_elem_of_fmap. apply (Hd2 id); [set_solver|done]. }
  destruct (F4 a2 Hm4 N2) as (p2' & P2' & _ & G2).
  assert (S : pdcp_heap q3 ⊆ pdcp_heap ps) by (etrans; [apply S3|]; etrans; [apply S2|apply S1]).
  eapply lookup_weaken in P2'; [|exact S].
  destruct (G2 k (K2 _ P2')) as [Hsome _]. eapply lookup_sub_Some in Hsome; [|apply S3]. rewrite Hnone in Hsome. by destruct Hsome.
Qed.
End removal.

(** The signalling and the data bearers that are removed. *)
Definition removed_keys (c : rlc_ctxt_t) : list Z :=
  map (fun id => pdcp_key c id true) [0; 1] ++ map (fun id => pdcp_key c id false) (seqZ 0 maxDRB).

Lemma in_01 id : id ∈ [0; 1] -> id = 0 \/ id = 1.
Proof. rewrite !elem_of_cons. intros [-> | [-> | H]]; [by left|by right|]. by apply not_elem_of_nil in H. Qed.
Lemma seqZ_split b d e : b <= d < b + e -> seqZ b e = seqZ b (d - b) ++ d :: seqZ (d + 1) (b + e - d - 1).
Proof.
  intros H. replace e with (d - b + (e - (d - b))) at 1 by lia. rewrite seqZ_app by lia. f_equal.
  rewrite seqZ_cons by lia. repeat f_equal; lia.
Qed.

Section remove_UE.
Context {T : Type} `{!Table T}.
Implicit Types (ps : pdcp_store T) (m : gmap Z Z).

Lemma removed_not_srb2 c : ctxt_ok c -> pdcp_key c 2 true ∉ removed_keys c.
Proof.
  intros Hc. unfold removed_keys. rewrite elem_of_app. intros [H|H]; apply list_elem_of_fmap in H as (id & E & H).
  - apply in_01 in H as [-> | ->]; apply pdcp_key_inj in E as [E _]; done || lia.
  - apply elem_of_seqZ in H. apply pdcp_key_inj in E as [_ E]; try done; unfold maxDRB in *; lia.
Qed.
Lemma removed_not_default c : ctxt_ok c -> default_drb_key c ∉ removed_keys c.
Proof.
  intros [Hm Hr]. unfold removed_keys. assert (E0 : default_drb_key c = coll_key 170 (id_of c 255 false)) by done.
  assert (H255 : id_ok (id_of c 255 false)) by (cbn; lia).
  rewrite elem_of_app. intros [H|H]; apply list_elem_of_fmap in H as (id & E & H); rewrite E0, pdcp_key_coll in E;
    (apply coll_key_inj in E as [E _]; [done|done|]); cbn.
  - rewrite !elem_of_cons in H. destruct H as [-> |[-> |H]]; [lia|lia|by apply not_elem_of_nil in H].
  - apply elem_of_seqZ in H. unfold maxDRB in H. lia.
Qed.

(** C35: What the removal of a UE leaves (module id of 8 bits, RNTI of 16). When it
    succeeds, the signalling bearers 0 and 1 and all data bearers of the UE are no longer
    in the table, the entities of the data bearers are freed, and the table keeps every
    other entry: the entity of signalling bearer 2 stays in the table, and so does the
    entry of the default data bearer, whose entity is freed when that bearer is one of
    them. *)
Theorem pdcp_remove_UE_spec c ps m ps' :
  ctxt_ok c -> tab_refines (pdcp_coll ps) m -> pdcp_remove_UE c ps = Ok ps' ->
  exists m', tab_refines (pdcp_coll ps') m' /\
    (forall k, m' !! k = if decide (k ∈ removed_keys c) then None else m !! k) /\
    m' !! pdcp_key c 2 true = m !! pdcp_key c 2 true /\ m' !! default_drb_key c = m !! default_drb_key c /\
    pdcp_heap ps' ⊆ pdcp_heap ps /\ pdcp_keys ps' ⊆ pdcp_keys ps /\
    (forall id a, 0 <= id < maxDRB -> m !! pdcp_key c id false = Some a -> a <> 0 -> pdcp_heap ps' !! a = None).
Proof.
  intros Hc Hm H. unfold pdcp_remove_UE in H. apply bind_ok_inv in H as (ps1 & H1 & H2).
  destruct (pdcp_remove_bearers_spec _ _ _ _ _ _ Hm H1) as (S1 & m1 & Hm1 & L1).
  destruct (pdcp_remove_bearers_spec _ _ _ _ _ _ Hm1 H2) as (S2 & m2 & Hm2 & L2).
  assert (L : forall k, m2 !! k = if decide (k ∈ removed_keys c) then None else m !! k).
  { intros k. rewrite L2, L1. unfold removed_keys.
    destruct (decide (k ∈ map (fun id => pdcp_key c id false) (seqZ 0 maxDRB))) as [Hi|Hi].
    - by rewrite decide_True by (apply elem_of_app; by right).
    - destruct (decide (k ∈ map (fun id => pdcp_key c id true) [0; 1])) as [Hj|Hj].
      + by rewrite decide_True by (apply elem_of_app; by left).
      + rewrite decide_False; [done|]. by intros [?|?]%elem_of_app. }
  exists m2. split; [exact Hm2|]. split; [exact L|].
  split; [by rewrite L, decide_False by (by apply removed_not_srb2)|].
  split; [by rewrite L, decide_False by (by apply removed_not_default)|].
  destruct (shrinks_trans _ _ _ S1 S2) as [Sh Sk]. split; [exact Sh|]. split; [exact Sk|].
  intros id a Hid Ha Hne. assert (Hin := seqZ_split 0 id maxDRB ltac:(lia)).
  rewrite Hin, pdcp_remove_bearers_app in H2. apply bind_ok_inv in H2 as (ps2 & H2 & H3).
  destruct (pdcp_remove_bearers_spec _ _ _ _ _ _ Hm1 H2) as (_ & m3 & Hm3 & L3).
  cbn [pdcp_remove_bearers] in H3. apply bind_ok_inv in H3 as ([rc ps3] & H3 & H4).
  apply (pdcp_remove_spec _ _ _ _ _ Hm3) in H3 as (Hm4 & _ & F).
  destruct (pdcp_remove_bearers_spec _ _ _ _ _ _ Hm4 H4) as (S4 & _).
  destruct (F a) as (p & _ & Hnone & _); [|done|eapply lookup_sub_None; [apply S4|exact Hnone]].
  unfold maxDRB in Hid. rewrite L3, decide_False.
  - rewrite L1, decide_False; [exact Ha|]. intros (id' & E & Hi)%list_elem_of_fmap.
    apply pdcp_key_inj in E as [_ E]; [done|done|lia|]. apply in_01 in Hi. lia.
  - intros (id' & E & Hi)%list_elem_of_fmap. apply elem_of_seqZ in Hi. apply pdcp_key_inj in E as [E _]; lia || done.
Qed.

(** Keys that two data bearers share are freed twice.  RRC configures the bearers of one message with
    the same addresses of keys; if two data bearers of a UE have a key in common, removing the UE is
    undefined behaviour. *)
Theorem pdcp_shared_keys_double_free c ps m d1 d2 a1 a2 p1 p2 k :
  ctxt_ok c -> tab_refines (pdcp_coll ps) m -> 0 <= d1 < d2 -> d2 < maxDRB ->
  m !! pdcp_key c d1 false = Some a1 -> a1 <> 0 -> pdcp_heap ps !! a1 = Some p1 -> key_of p1 k ->
  m !! pdcp_key c d2 false = Some a2 -> a2 <> 0 -> pdcp_heap ps !! a2 = Some p2 -> key_of p2 k ->
  pdcp_remove_UE c ps = Err UndefinedBehaviour.
Proof.
  intros Hc Hm Hd Hd2 M1 N1 P1 K1 M2 N2 P2 K2. unfold maxDRB in *. unfold pdcp_remove_UE.
  destruct (pdcp_remove_bearers c true [0; 1] ps) as [ps1|f] eqn:E.
  2: { cbn [mbind res_bind]. f_equal. by eapply only_ub_remove_bearers. }
  cbn [mbind res_bind]. destruct (pdcp_remove_bearers_spec _ _ _ _ _ _ Hm E) as ([S _] & m1 & Hm1 & L1).
  assert (Hsame : forall d a, 0 <= d < 11 -> m !! pdcp_key c d false = Some a -> m1 !! pdcp_key c d false = Some a).
  { intros d a Hda Ha. rewrite L1, decide_False; [exact Ha|]. intros (id & Ek & Hi)%list_elem_of_fmap.
    apply pdcp_key_inj in Ek as [_ Ek]; [done|done|lia|]. apply in_01 in Hi. lia. }
  assert (Hseq : seqZ 0 maxDRB = seqZ 0 d1 ++ d1 :: seqZ (d1 + 1) (d2 - d1 - 1) ++ d2 :: seqZ (d2 + 1) (10 - d2)).
  { rewrite (seqZ_split 0 d1 maxDRB), (seqZ_split (d1 + 1) d2) by (unfold maxDRB; lia).
    unfold maxDRB. rewrite !Z.sub_0_r. replace (d1 + 1 + (0 + 11 - d1 - 1) - d2 - 1) with (10 - d2) by lia.
    replace (d2 - (d1 + 1)) with (d2 - d1 - 1) by lia. done. }
  rewrite Hseq. apply (shared_key_fails c false _ _ _ _ _ ps1 m1 a1 a2 k Hm1); try done.
  - intros id Hid Ek. apply pdcp_key_inj in Ek as [-> _]; try lia; [|done|].
    + rewrite elem_of_app, elem_of_cons, !elem_of_seqZ in Hid. lia.
    + rewrite elem_of_app, elem_of_cons, !elem_of_seqZ in Hid. lia.
  - intros id Hid Ek. apply elem_of_seqZ in Hid. apply pdcp_key_inj in Ek as [-> _]; lia || done.
  - apply Hsame; [lia|done].
  - intros p Hp. eapply lookup_weaken in Hp; [|exact S]. by simplify_eq.
  - apply Hsame; [lia|done].
  - intros p Hp. eapply lookup_weaken in Hp; [|exact S]. by simplify_eq.
Qed.
End remove_UE.

(** Two bearers in a table. *)
Definition tab_put {T} `{!Table T} (t : T) (k d : Z) : T := match tab_insert true t k d with Ok (_, t', _) => t' | Err _ => t end.
Lemma tab_put_refines {T} `{!Table T} t m k d : tab_refines t m -> tab_refines (tab_put t k d) (<[k := d]> m).
Proof. intros H. unfold tab_put. destruct (tab_insert_spec true t m k d H) as (t' & -> & Ht); [by right|]. by destruct (m !! k). Qed.
Definition two_bearers (k1 k2 : Z) (p1 p2 : pdcp_t) : pdcp_store hash_table_t :=
  Mk_pdcp_store (tab_put (tab_put tab_new k1 1) k2 2) {[1 := p1; 2 := p2]} 3 sample_keys [] [] [] [] [] [] [].
Lemma two_bearers_refines k1 k2 p1 p2 : tab_refines (pdcp_coll (two_bearers k1 k2 p1 p2)) {[k2 := 2; k1 := 1]}.
Proof. apply tab_put_refines, tab_put_refines, tab_new_refines. Qed.
Lemma sample_ctxt_ok enb : ctxt_ok (sample_ctxt enb).
Proof. unfold ctxt_ok. cbn. lia. Qed.

Lemma pdcp_remove_UE_spec_witness :
  exists ps' m', let c := sample_ctxt true in
    pdcp_remove_UE c (two_bearers (pdcp_key c 4 false) (pdcp_key c 2 true) (sample_drb false) (sample_srb false)) = Ok ps' /\
    tab_refines (pdcp_coll ps') m' /\ m' !! pdcp_key c 2 true = Some 2 /\ pdcp_heap ps' !! 1 = None.
Proof.
  assert (R := two_bearers_refines (pdcp_key (sample_ctxt true) 4 false) (pdcp_key (sample_ctxt true) 2 true) (sample_drb false) (sample_srb false)).
  assert (H : is_ok (pdcp_remove_UE (sample_ctxt true) (two_bearers (pdcp_key (sample_ctxt true) 4 false)
    (pdcp_key (sample_ctxt true) 2 true) (sample_drb false) (sample_srb false))) = true) by (vm_compute; reflexivity).
  cbv zeta. revert R H. generalize (two_bearers (pdcp_key (sample_ctxt true) 4 false) (pdcp_key (sample_ctxt true) 2 true)
    (sample_drb false) (sample_srb false)). intros ps R H.
  destruct (pdcp_remove_UE (sample_ctxt true) ps) as [ps'|] eqn:E; [|discriminate H].
  destruct (pdcp_remove_UE_spec (sample_ctxt true) ps _ ps' (sample_ctxt_ok true) R E) as (m' & H1 & _ & H2 & _ & _ & _ & H3).
  exists ps', m'. split; [reflexivity|]. split; [exact H1|]. split.
  - rewrite H2. apply lookup_insert_eq.
  - apply (H3 4 1); [unfold maxDRB; lia| |discriminate]. vm_compute. reflexivity.
Defined.

Lemma pdcp_shared_keys_double_free_witness :
  let c := sample_ctxt true in
  pdcp_remove_UE c (two_bearers (pdcp_key c 4 false) (pdcp_key c 5 false) (sample_drb false) (sample_drb false)) = Err UndefinedBehaviour.
Proof.
  apply (pdcp_shared_keys_double_free (sample_ctxt true) _ _ 4 5 1 2 (sample_drb false) (sample_drb false) 1
    (sample_ctxt_ok true) (two_bearers_refines _ _ _ _)); try (vm_compute; reflexivity); try discriminate.
  - lia.
  - split; [discriminate|]. left. reflexivity.
  - split; [discriminate|]. left. reflexivity.
Defined.
