(* ===== verification/PdcpErrors.v ===== *)
(** * Where PDCP does not protect or loses step

    Integrity protection that is computed and not enforced, key stream written past a PDU, the COUNT of
    acknowledged-mode bearers linked to GTP-U, and data bearers with short sequence numbers. *)

From S2P Require Import Prelude Bits HashTable Snow3g StreamCipher RlcAmTypes RlcStore RlcDispatch RlcStoreSpec.
From S2P Require Import PdcpTypes PdcpSequence PdcpSecurity Pdcp PdcpTransfer.

(** ** Integrity *)
Section integrity.
Context `{C : Crypto}.

(** Whatever MAC-I comes with the PDU, the block is the deciphered one. *)
Lemma validate_security_any keys p rb sn (h n : nat) :
  0 <= rb < NB_RB_MAX -> cipher_ok (cipheringAlgorithm p) -> cipher_ok (integrityProtAlgorithm p) ->
  key_ok (cipheringAlgorithm p) (cipher_key keys p true) -> key_ok (integrityProtAlgorithm p) (integrity_key keys p) ->
  (0 < n)%nat -> Z.of_nat (h + n) < 2 ^ 28 ->
  exists ks, forall block, Forall is_byte block -> (h + n + 4 <= length block)%nat ->
    exists rc, pdcp_validate_security keys p true rb (Z.of_nat h) sn block (Z.of_nat (h + n)) =
      Ok (rc, (pdcp_get_next_count_rx p true sn).2, xor_at h (cipher_span (cipheringAlgorithm p) n) ks block).
Proof.
  intros Hrb Hc Hi Hkc Hki Hn Hsz. unfold pdcp_validate_security.
  rewrite (proj2 (Z.ltb_lt _ _) (proj2 Hrb)), (proj2 (Z.leb_le _ _) (proj1 Hrb)). cbn [andb assert_that mbind res_bind].
  destruct (pdcp_get_next_count_rx p true sn) as [count p'] eqn:Ecount.
  assert (Hfr : p' = p <| rx_hfn_offset := 0 |>) by (unfold pdcp_get_next_count_rx in Ecount; congruence). cbn [fst snd].
  replace (Z.of_nat (h + n) - Z.of_nat h) with (Z.of_nat n) by lia. rewrite !shift3 by lia.
  replace (cipheringAlgorithm p') with (cipheringAlgorithm p) by (by rewrite Hfr).
  replace (integrityProtAlgorithm p') with (integrityProtAlgorithm p) by (by rewrite Hfr).
  replace (cipher_key keys p' true) with (cipher_key keys p true) by (by rewrite Hfr).
  replace (integrity_key keys p') with (integrity_key keys p) by (by rewrite Hfr).
  set (sc := Mk_stream_cipher (cipher_key keys p true) _ _ _ _ _ _).
  exists (cipher_stream (cipheringAlgorithm p) sc). intros block Hb Hl.
  assert (Hspan := cipher_span_bounds (cipheringAlgorithm p) n).
  rewrite (stream_encrypt_spec _ sc n h block Hc Hkc eq_refl eq_refl eq_refl) by lia. cbn [mbind res_bind].
  set (plain := xor_at _ _ _ _). assert (Hlen : length plain = length block) by apply length_xor_at.
  unfold stream_check_integrity. destruct (Z.eqb_spec (integrityProtAlgorithm p) EIA0_ALG_ID) as [_|Hne]; [by eexists|].
  destruct (integrity_ok (integrityProtAlgorithm p) (Mk_stream_cipher (integrity_key keys p) 16 count (u8 (rb - 1))
    (if is_ue p then SECU_DIRECTION_DOWNLINK else SECU_DIRECTION_UPLINK) 0 (8 * Z.of_nat (h + n))) (h + n) plain)
    as (mac & -> & _); try done; try lia.
  { change EIA0_ALG_ID with 0 in Hne. unfold cipher_ok in Hi. lia. }
  { apply xor_at_bytes; [done|]. intros. apply cipher_stream_byte. }
  cbn [mbind res_bind]. rewrite mem_read_ok by lia. by eexists.
Qed.

(** A number of 5 bits is always accepted. *)
Lemma rx_srb_same sn p : rx_same p (rx_srb sn p).
Proof.
  unfold rx_srb, rx_wrapped, pdcp_advance_rx_window, rx_same. repeat case_match; destruct p; reflexivity.
Qed.
Lemma rx_valid_srb sn p :
  seq_num_size p = 5 -> length (missing_pdu_bitmap p) = 512%nat -> 0 <= sn < 32 ->
  exists p', pdcp_is_rx_seq_number_valid sn p true = Ok (true, p') /\ rx_frame p p'.
Proof.
  intros Hs Hbm Hsn. unfold pdcp_is_rx_seq_number_valid, pdcp_is_seq_num_valid. rewrite (size_valid 5) by (done || lia).
  rewrite Hs, (max_seq_num 5) by lia. rewrite (proj2 (Z.leb_le 0 _)), (proj2 (Z.leb_le _ (2 ^ 5 - 1))) by lia. cbn [negb orb andb].
  destruct (mark_ok sn p ltac:(lia) Hbm) as (bm & -> & _). cbn [mbind res_bind]. eexists. split; [done|].
  eapply rx_frame_trans; [|apply rx_frame_same, rx_srb_same]. by destruct p.
Qed.
End integrity.

Section forged.
Context {T : Type} `{!Table T} `{C : Crypto}.

(** C20: The integrity of signalling is not enforced. Security is on for a signalling
    bearer with 5 bit numbers, with any of the three ciphering and the three integrity
    algorithms and keys of 16 bytes or more. A PDU of any bytes (1 to 32767 of them
    between the header and the MAC-I), whatever its sequence number, is handed to RRC, and
    neither this nor what RRC gets depends on its MAC-I. *)
Theorem integrity_not_enforced e c rb a rx hdr (body rest : list Z) (ps : pdcp_store T) :
  0 < rb < maxDRB -> pdcp_has ps c rb true a rx -> security_activated rx = 1 ->
  seq_num_size rx = 5 -> length (missing_pdu_bitmap rx) = 512%nat ->
  cipher_ok (cipheringAlgorithm rx) -> key_ok (cipheringAlgorithm rx) (cipher_key (pdcp_keys ps) rx true) ->
  cipher_ok (integrityProtAlgorithm rx) -> key_ok (integrityProtAlgorithm rx) (integrity_key (pdcp_keys ps) rx) ->
  (0 < length body)%nat -> Z.of_nat (length body) < 2 ^ 15 -> Forall is_byte (hdr :: body ++ rest) ->
  exists rx' data, length data = length body /\ forall mac, length mac = 4%nat -> Forall is_byte mac ->
    pdcp_data_ind e c true false rb (Z.of_nat (5 + length body)) (hdr :: body ++ mac ++ rest) ps =
      Ok (TRUE, (pdcp_set a rx' ps) <| rrc_inds := rrc_inds ps ++ [Mk_rrc_ind rb data] |>).
Proof.
  intros Hrb Hhas Hon Hs Hbm Hc Hkc Hi Hki Hn Hsz Hb. destruct (pdcp_has_get _ _ _ _ _ _ Hhas) as [Eget Eat].
  assert (Hsn : 0 <= Z.land hdr 31 < 32) by (change 31 with (2 ^ 5 - 1); rewrite land_ones_mod by lia; by apply Z.mod_pos_bound).
  destruct (rx_valid_srb (Z.land hdr 31) rx Hs Hbm Hsn) as (p & Ev & Hf).
  destruct (rx_frame_security _ _ Hf) as (F1 & _ & F2 & F3 & _ & F5 & F6).
  destruct (validate_security_any (pdcp_keys ps) p rb (Z.land hdr 31) 1 (length body)) as (ks & Eval);
    try (rewrite ?F2, ?F3; unfold cipher_key, integrity_key in *; rewrite ?F5, ?F6; done);
    [unfold NB_RB_MAX, maxDRB in *; lia|lia|].
  set (span := cipher_span (cipheringAlgorithm p) (length body)) in *.
  exists (pdcp_get_next_count_rx p true (Z.land hdr 31)).2, (drop 1 (xor_at 1 span ks (hdr :: body))).
  split; [rewrite length_drop, length_xor_at; cbn [length]; lia|]. intros mac Hmac Hbmac.
  unfold pdcp_data_ind. rewrite (Z.mod_small rb) by lia. destruct (Z.gtb_spec rb 0); [|lia]. cbn [negb].
  rewrite Eget. cbn [mbind res_bind]. rewrite Z.eqb_refl. cbn [negb].
  destruct (Z.eqb_spec (Z.of_nat (5 + length body)) 0); [lia|]. rewrite Eat. cbn [mbind res_bind].
  unfold pdcp_pdu_ind, parse_header, pdcp_get_sequence_number_of_pdu_with_SRB_sn.
  change (array_get (hdr :: ?l) 0) with (Ok hdr). cbn [mbind res_bind].
  change (PDCP_CONTROL_PLANE_DATA_PDU_SN_SIZE + PDCP_CONTROL_PLANE_DATA_PDU_MAC_I_SIZE) with 5.
  rewrite (proj2 (Z.ltb_ge _ _)) by lia. rewrite Ev. cbn [mbind res_bind]. rewrite F1, Hon, (Z.mod_small rb) by lia.
  change (1 =? 1) with true. cbv iota. change PDCP_CONTROL_PLANE_DATA_PDU_MAC_I_SIZE with 4. change PDCP_CONTROL_PLANE_DATA_PDU_SN_SIZE with (Z.of_nat 1).
  replace (u16 (Z.of_nat (5 + length body) - 4)) with (Z.of_nat (1 + length body)) by (unfold u16; rewrite wrapu_small; lia).
  destruct (Eval (hdr :: body ++ mac ++ rest)) as (rc & ->).
  { inversion_clear Hb as [|? ? Hh Hr]. apply Forall_app in Hr as [? ?]. constructor; [done|]. rewrite !Forall_app. done. }
  { cbn [length]. rewrite !length_app. lia. }
  cbn [mbind res_bind].
  rewrite mem_read_ok by (rewrite ?length_xor_at; cbn [length]; rewrite ?length_app; lia). cbn [mbind res_bind].
  do 5 f_equal. replace (Z.to_nat (Z.of_nat (5 + length body) - Z.of_nat 1 - 4)) with (length body) by lia.
  rewrite Nat2Z.id, take_drop_commute, take_xor_at. do 2 f_equal. cbn [Nat.add take]. by rewrite take_app_length.
Qed.
End forged.
Lemma integrity_not_enforced_witness :
  exists (ps : pdcp_store hash_table_t) rx' data, forall mac, length mac = 4%nat -> Forall is_byte mac ->
    pdcp_data_ind sample_env (sample_ctxt true) true false 1 7 (0 :: [104; 105] ++ mac ++ []) ps =
      Ok (TRUE, (pdcp_set 1 rx' ps) <| rrc_inds := rrc_inds ps ++ [Mk_rrc_ind 1 data] |>).
Proof.
  destruct (sample_store (T := hash_table_t) true 1 true (sample_srb false)) as (ps & Hhas & Hkeys & _).
  destruct (integrity_not_enforced sample_env (sample_ctxt true) 1 1 (sample_srb false) 0 [104; 105] [] ps)
    as (rx' & data & _ & H).
  - split; reflexivity.
  - exact Hhas.
  - reflexivity.
  - reflexivity.
  - reflexivity.
  - unfold cipher_ok. cbn. lia.
  - rewrite Hkeys. apply (peer_cipher_key_ok _ _ _ _ _ (sample_peers false)).
  - unfold cipher_ok. cbn. lia.
  - rewrite Hkeys. apply (peer_integrity_key_ok _ _ _ _ _ (sample_peers false)).
  - apply Nat.ltb_lt. reflexivity.
  - reflexivity.
  - repeat (apply Forall_cons; split); try apply Forall_nil_2; unfold is_byte; lia.
  - exists ps, rx', data. exact H.
Defined.

(** ** Key stream past the end of a PDU *)
Section overrun.
Context `{C : Crypto}.

Lemma eea1_short sc m off buf :
  key_ok EEA1_128_ALG_ID (sc_key sc) -> key_length sc = 16 -> message sc = Z.of_nat off ->
  blength sc = 8 * Z.of_nat m -> Z.of_nat m < 2 ^ 28 -> (length buf < off + cipher_span EEA1_128_ALG_ID m)%nat ->
  stream_encrypt_eea1 sc (Out_at (message sc)) buf = Err UndefinedBehaviour.
Proof.
  intros [?|(bytes & Hk & Hlen)] Hkl Hoff Hbl Hm Hl; [done|]. destruct (snow3g_key_ok bytes Hlen) as [K HK].
  unfold stream_encrypt_eea1. rewrite Hk, Hkl, Hoff, Hbl, HK. cbn [key_is_null negb assert_that mbind res_bind Z.eqb Pos.eqb].
  unfold mem_read. rewrite (proj2 (Z.leb_gt (Z.of_nat off + _) _)); [by rewrite andb_false_r|].
  change (cipher_span EEA1_128_ALG_ID m) with (4 * ((m + 3) / 4))%nat in Hl. destruct (whole_bytes m Hm) as (_ & _ & _ & ->). lia.
Qed.
Lemma eea1_span_odd m : (m mod 4 <> 0)%nat -> (m < cipher_span EEA1_128_ALG_ID m)%nat.
Proof.
  intros H. change (cipher_span EEA1_128_ALG_ID m) with (4 * ((m + 3) / 4))%nat.
  assert (E := Nat.div_mod_eq m 4). assert (E' := Nat.div_mod_eq (m + 3) 4).
  assert (B := Nat.mod_upper_bound m 4). assert (B' := Nat.mod_upper_bound (m + 3) 4). lia.
Qed.
End overrun.

Section overrun_request.
Context {T R : Type} `{!Table T} `{!Table R} `{C : Crypto}.

(** EEA1 ciphers whole words, past the end of a PDU.  A data bearer is ciphered with EEA1.  When the
    length of the SDU is not a multiple of 4 and the block of memory is exactly as long as the PDU, the
    request reads and writes after the end of the block. *)
Theorem eea1_overruns_pdu e re c rb mui (sdu block : list Z) i a tx (ps : pdcp_store T) (rs : rlc_store R) :
  0 <= i -> tx_at 12 i tx -> pdcp_has ps c rb false a tx -> 0 < rb < maxDRB ->
  security_activated tx = 1 -> cipheringAlgorithm tx = EEA1_128_ALG_ID ->
  key_ok EEA1_128_ALG_ID (cipher_key (pdcp_keys ps) tx false) ->
  Z.of_nat (length sdu) <= MAX_IP_PACKET_SIZE e -> Z.of_nat (length sdu) < 2 ^ 15 ->
  (length sdu mod 4 <> 0)%nat -> env_pdu e (Z.of_nat (2 + length sdu)) = Some block -> length block = (2 + length sdu)%nat ->
  pdcp_data_req e re c false rb mui (Z.of_nat (length sdu)) sdu PDCP_TRANSMISSION_MODE_DATA ps rs = Err UndefinedBehaviour.
Proof.
  intros Hi Htx Hhas Hrb Hon Halg Hkey Hmax Hsz Hodd Henv Hl.
  assert (Hn : (0 < length sdu)%nat) by (destruct sdu; [done|cbn; lia]).
  destruct (data_req_pdu e re c false rb mui sdu block 12 i a tx ps rs) as (tx' & _ & Hf & ->); try done;
    cbn [header_size tailer]; rewrite ?Nat.add_0_r; try done; [lia|].
  destruct (tx_frame_security _ _ Hf) as (F1 & _ & F2 & _ & F4 & _). unfold security_on. rewrite F1, F2, Hon, Halg.
  change (truthy 1 && (truthy EEA1_128_ALG_ID || _)) with true. cbv iota.
  unfold pdcp_apply_security. unfold NB_RB_MAX, maxDRB in *.
  rewrite (proj2 (Z.ltb_lt rb _)), (proj2 (Z.leb_le 0 rb)) by lia. cbn [andb assert_that mbind res_bind].
  rewrite shift3 by lia. rewrite F2, Halg. change (stream_encrypt EEA1_128_ALG_ID ?sc ?o ?b) with (stream_encrypt_eea1 sc o b).
  assert (Hk : cipher_key (pdcp_keys ps) tx' false = cipher_key (pdcp_keys ps) tx false) by (unfold cipher_key; by rewrite F4).
  rewrite Hk.
  match goal with |- context [stream_encrypt_eea1 ?sc _ ?b] =>
    assert (E := eea1_short sc (length sdu) 2 b Hkey eq_refl eq_refl eq_refl ltac:(lia)) end.
  cbn [message] in E. rewrite E; [done|].
  assert (H := eea1_span_odd _ Hodd). rewrite !length_app, length_drop, Hl. cbn [length header_of replicate]. lia.
Qed.
End overrun_request.
Lemma eea1_overruns_pdu_witness :
  exists ps : pdcp_store hash_table_t,
    pdcp_data_req (Mk_pdcp_env (fun n => Some (replicate (Z.to_nat n) 0)) (fun _ => true) true 0 true true 1500) demo_env (sample_ctxt false) false 4 0
      3 [11; 12; 13] PDCP_TRANSMISSION_MODE_DATA ps (rlc_module_init (T := hash_table_t) 16 1) = Err UndefinedBehaviour.
Proof.
  destruct (sample_store (T := hash_table_t) false 4 false (sample_drb true)) as (ps & Hhas & Hkeys & _).
  exists ps. apply (eea1_overruns_pdu _ demo_env (sample_ctxt false) 4 0 [11; 12; 13] (replicate 5 0) 0 1 (sample_drb true) ps).
  - lia.
  - repeat split.
  - exact Hhas.
  - split; reflexivity.
  - reflexivity.
  - reflexivity.
  - right. exists sample_key. rewrite Hkeys. unfold cipher_key. cbn [sample_drb kUPenc].
    split; [vm_compute; reflexivity|]. apply Nat.leb_le. vm_compute. reflexivity.
  - cbn. lia.
  - reflexivity.
  - discriminate.
  - reflexivity.
  - reflexivity.
Defined.

(** ** Acknowledged mode linked to GTP-U

    The number of the last SDU submitted is not recorded for SDUs that go to GTP-U. *)
Fixpoint rx_counts_gtpu (sns : list Z) (p : pdcp_t) : res (list (bool * Z) * pdcp_t) :=
  match sns with
  | [] => Ok ([], p)
  | sn :: sns =>
      '(valid, p) ← pdcp_is_rx_seq_number_valid sn p false;
      let '(count, p) := pdcp_get_next_count_rx p false sn in
      '(l, p) ← rx_counts_gtpu sns p;
      Ok ((valid, count) :: l, p)
  end.
Lemma rx_counts_gtpu_app l1 l2 p :
  rx_counts_gtpu (l1 ++ l2) p = ('(x, p) ← rx_counts_gtpu l1 p; '(y, p) ← rx_counts_gtpu l2 p; Ok (x ++ y, p)).
Proof.
  revert p. induction l1 as [|sn l1 IH]; intros p; cbn [app rx_counts_gtpu mbind res_bind].
  - destruct (rx_counts_gtpu l2 p) as [[y q]|]; done.
  - destruct (pdcp_is_rx_seq_number_valid sn p false) as [[v q]|]; [|done]. cbn [mbind res_bind].
    destruct (pdcp_get_next_count_rx q false sn) as [count q']. rewrite IH.
    destruct (rx_counts_gtpu l1 q') as [[x r]|]; [|done]. cbn [mbind res_bind].
    destruct (rx_counts_gtpu l2 r) as [[y r']|]; done.
Qed.

(** A receiver in acknowledged mode that has recorded no SDU as submitted. *)
Definition rx_unsubmitted (n : Z) (p : pdcp_t) : Prop :=
  seq_num_size p = 12 /\ next_pdcp_rx_sn p = n /\ rx_hfn p = 0 /\ rx_hfn_offset p = 0 /\
  last_submitted_pdcp_rx_sn p = 4095 /\ pdcp_rlc_mode p = RLC_MODE_AM /\ length (missing_pdu_bitmap p) = 512%nat.

Lemma am_valid n p :
  rx_unsubmitted n p -> 0 <= n < 4096 -> forall sn, 0 <= sn < 4096 -> exists bm, length bm = 512%nat /\
    pdcp_is_rx_seq_number_valid sn p false = Ok (rx_drb_am sn (p <| missing_pdu_bitmap := bm |>)).
Proof.
  intros (Hs & _ & _ & _ & _ & Hm & Hbm) Hn sn Hsn. unfold pdcp_is_rx_seq_number_valid, pdcp_is_seq_num_valid.
  rewrite (size_valid 12) by (done || lia). rewrite Hs, (max_seq_num 12) by lia.
  rewrite (proj2 (Z.leb_le 0 _)), (proj2 (Z.leb_le _ (2 ^ 12 - 1))) by lia. cbn [negb orb andb].
  destruct (mark_ok sn p Hsn Hbm) as (bm & -> & Hb). exists bm. split; [exact Hb|]. cbn. by rewrite Hm.
Qed.
Lemma unsubmitted_step n p :
  rx_unsubmitted n p -> 0 <= n < 2048 ->
  exists p', pdcp_is_rx_seq_number_valid n p false = Ok (true, p') /\ rx_unsubmitted (n + 1) p' /\
    pdcp_get_next_count_rx p' false n = (n, p').
Proof.
  intros H Hn. destruct (am_valid n p H ltac:(lia) n ltac:(lia)) as (bm & Hbm & ->).
  destruct H as (Hs & Hsn & Hh & Ho & Hl & Hm & _). unfold rx_drb_am. cbn. rewrite Hs, Hsn, Hl.
  change (12 =? PDCP_SN_7BIT) with false. change REORDERING_WINDOW_SN_12BIT with 2048. cbv iota zeta.
  replace (n - 4095 >? 2048) with false by lia. replace ((0 <=? 4095 - n) && (4095 - n <? 2048)) with false by lia.
  replace (n - n >? 2048) with false by lia. replace (n - n >=? 2048) with false by lia. replace (n >=? n) with true by lia.
  cbn [orb]. eexists. split; [done|]. unfold pdcp_advance_rx_window. rewrite (size_valid 12) by (done || lia). cbn.
  rewrite Hs, (max_seq_num 12) by lia. destruct (Z.eqb_spec n (2 ^ 12 - 1)); [lia|]. unfold u16. rewrite wrapu_small by lia.
  split; [by repeat split|]. unfold pdcp_get_next_count_rx. cbn. rewrite Hs, Hh.
  change (12 =? PDCP_Config__rlc_UM__pdcp_SN_Size_len7bits) with false. change (u32 (0 + 0)) with (u32 0). cbv iota.
  change 4095 with (2 ^ 12 - 1). rewrite (count_eq 0 n 12) by lia. change (u32 (0 * 2 ^ 12)) with 0.
  by destruct p.
Qed.
Lemma unsubmitted_run (m : nat) p :
  rx_unsubmitted 0 p -> (m <= 2048)%nat ->
  exists p', rx_counts_gtpu (seqZ 0 (Z.of_nat m)) p = Ok (map (fun i => (true, i)) (seqZ 0 (Z.of_nat m)), p') /\
    rx_unsubmitted (Z.of_nat m) p'.
Proof.
  intros H. induction m as [|m IH]; intros Hm; [by exists p|]. destruct IH as (q & E & Hq); [lia|].
  destruct (unsubmitted_step _ q Hq ltac:(lia)) as (r & Ev & Hr & Ec). exists r.
  rewrite seqZ_S, rx_counts_gtpu_app, E, map_app. cbn [mbind res_bind rx_counts_gtpu].
  rewrite Z.add_0_l, Ev. cbn [mbind res_bind]. rewrite Ec. split; [done|].
  by replace (Z.of_nat (S m)) with (Z.of_nat m + 1) by lia.
Qed.

(** An acknowledged-mode bearer that goes to GTP-U loses its hyper frame number.  The first 2048 PDUs
    that arrive in order have the COUNT of the sender.  As no SDU is recorded as submitted, the next ones
    count as outside the window; the PDU 2049 is deciphered with the COUNT of the hyper frame number
    before. *)
Theorem am_gtpu_desync p :
  rx_unsubmitted 0 p ->
  exists l p', rx_counts_gtpu (seqZ 0 2050) p = Ok (l, p') /\
    take 2048 l = map (fun i => (true, pdcp_count 12 false i)) (seqZ 0 2048) /\
    drop 2048 l = [(false, pdcp_count 12 false 2048); (false, 4294963200 + 2049)] /\
    pdcp_count 12 false 2049 = 2049.
Proof.
  intros H. destruct (unsubmitted_run 2048 p H ltac:(lia)) as (q & E & Hq). change (Z.of_nat 2048) with 2048 in *.
  destruct (am_valid 2048 q Hq ltac:(lia) 2048 ltac:(lia)) as (bm & Hbm & Ev1).
  set (r := q <| missing_pdu_bitmap := bm |>) in Ev1. assert (Hr : rx_unsubmitted 2048 r).
  { destruct Hq as (H1 & H2 & H3 & H4 & H5 & H6 & _). by repeat split. }
  clearbody r. assert (Er : rx_drb_am 2048 r = (false, r)).
  { destruct Hr as (H1 & H2 & _ & H4 & H5 & _). unfold rx_drb_am. rewrite H1, H2, H5.
    cbn. destruct r. cbn in *. by subst. }
  assert (Ec : pdcp_get_next_count_rx r false 2048 = (2048, r)).
  { destruct Hr as (H1 & H2 & H3 & H4 & _). unfold pdcp_get_next_count_rx. rewrite H1, H3, H4. cbn. destruct r. cbn in *. by subst. }
  destruct (am_valid 2048 r Hr ltac:(lia) 2049 ltac:(lia)) as (bm' & Hbm' & Ev2).
  set (s := r <| missing_pdu_bitmap := bm' |>) in Ev2.
  assert (Es : rx_drb_am 2049 s = (false, s <| rx_hfn_offset := -1 |>)).
  { destruct Hr as (H1 & H2 & _ & H4 & H5 & _). unfold rx_drb_am, s. cbn. rewrite H1, H2, H5. done. }
  assert (Ec2 : exists s', pdcp_get_next_count_rx (s <| rx_hfn_offset := -1 |>) false 2049 = (4294963200 + 2049, s')).
  { destruct Hr as (H1 & H2 & H3 & H4 & _). unfold pdcp_get_next_count_rx, s. cbn. rewrite H1, H3. cbn. by eexists. }
  destruct Ec2 as (s' & Ec2).
  assert (E2 : rx_counts_gtpu [2048; 2049] q = Ok ([(false, 2048); (false, 4294963200 + 2049)], s')).
  { cbn [rx_counts_gtpu]. rewrite Ev1, Er. cbn [mbind res_bind]. rewrite Ec, Ev2, Es. cbn [mbind res_bind].
    by rewrite Ec2. }
  exists (map (fun i => (true, i)) (seqZ 0 2048) ++ [(false, 2048); (false, 4294963200 + 2049)]), s'.
  assert (Hl : length (map (fun i => (true, i)) (seqZ 0 2048)) = 2048%nat) by (by rewrite length_map, length_seqZ).
  split; [change 2050 with (2048 + 2); rewrite seqZ_app, rx_counts_gtpu_app by lia; change (seqZ (0 + 2048) 2) with [2048; 2049];
          by rewrite E; cbn [mbind res_bind]; rewrite E2|].
  split; [rewrite <- Hl at 1; rewrite take_app_length; apply map_ext_in; intros i Hi|].
  - apply list_elem_of_In, elem_of_seqZ in Hi. unfold pdcp_count. f_equal. change (2 ^ 12) with 4096.
    replace ((i + 1) / 4096) with 0 by mod_lia. change (u32 (0 * _)) with 0. mod_lia.
  - split; [rewrite <- Hl at 1; by rewrite drop_app_length|done].
Qed.
Lemma am_gtpu_desync_witness :
  exists l p', rx_counts_gtpu (seqZ 0 2050) (sample_pdcp false 12 RLC_MODE_AM) = Ok (l, p') /\
    drop 2048 l = [(false, 2048); (false, 4294965249)].
Proof.
  destruct (am_gtpu_desync (sample_pdcp false 12 RLC_MODE_AM)) as (l & p' & H1 & _ & H2 & _).
  - repeat split.
  - exists l, p'. split; [exact H1|exact H2].
Defined.

(** ** Short sequence numbers *)
Lemma rx_drb_um_same sn p : rx_same p (rx_drb_um sn p).
Proof. unfold rx_drb_um, rx_wrapped, pdcp_advance_rx_window, rx_same. repeat case_match; destruct p; reflexivity. Qed.

Section short_sn.
Context {T : Type} `{!Table T} `{C : Crypto}.

(** A data bearer with 7-bit numbers delivers a byte too many.  The sender writes the long header for
    every data bearer, the receiver strips the short one: it reads the number 0 from each PDU, and hands
    over the sequence number followed by the SDU. *)
Theorem short_sn_mismatch e c rb i a tx rx (sdu : list Z) b0 b1 (room : list Z) (ps : pdcp_store T) keys :
  0 < rb < maxDRB -> 0 <= i -> tx_at 7 i tx -> security_activated tx = 0 ->
  seq_num_size rx = 7 -> length (missing_pdu_bitmap rx) = 512%nat -> pdcp_rlc_mode rx = RLC_MODE_UM ->
  security_activated rx = 0 -> pdcp_heap ps !! a = Some rx -> ind_ok e c false RLC_MODE_UM (S (length sdu)) ->
  (length sdu <= length room)%nat ->
  exists pdu tx' rx',
    pdcp_build_pdu keys false rb PDCP_TRANSMISSION_MODE_DATA (Z.of_nat (length sdu)) sdu (b0 :: b1 :: room) tx = Ok (true, pdu, tx') /\
    take (2 + length sdu) pdu = 128 :: i mod 128 :: sdu /\ tx_at 7 (i + 1) tx' /\
    parse_header false pdu rx = Ok (1, 0, 0) /\
    pdcp_pdu_ind e c false rb a (Z.of_nat (2 + length sdu)) pdu rx ps =
      Ok (TRUE, hand_over e c false rb (i mod 128 :: sdu) (pdcp_set a rx' ps)).
Proof.
  intros Hrb Hi Htx Ht0 Hs Hbm Hm Hr0 Ha Hind Hroom.
  assert (Hsn : 0 <= i mod 128 < 128) by (by apply Z.mod_pos_bound).
  assert (Hnext := next_tx_spec 7 ltac:(lia) i tx Hi Htx). destruct (pdcp_get_next_tx_seq_number tx) as [sn tx'] eqn:Etx.
  destruct Hnext as (-> & Htx' & Hf). change (2 ^ 7) with 128 in *. set (slack := drop (length sdu) room).
  assert (Eb : pdcp_build_pdu keys false rb PDCP_TRANSMISSION_MODE_DATA (Z.of_nat (length sdu)) sdu (b0 :: b1 :: room) tx =
    Ok (true, [128] ++ (i mod 128 :: sdu) ++ slack, tx')).
  { unfold pdcp_build_pdu, pdu_header. rewrite Etx, decide_True by done. cbv iota zeta.
    rewrite serialize_long_eq by lia. change (PDCP_DATA_PDU_BIT_SET =? PDCP_DATA_PDU_BIT_SET) with true. cbn [mbind res_bind].
    rewrite (proj1 Htx'), (max_seq_num 7) by lia. destruct (Z.gtb_spec (i mod 128) (2 ^ 7 - 1)); [lia|].
    rewrite mem_read_ok by lia. cbn [mbind res_bind]. change (Z.to_nat 0) with O. rewrite drop_0, Nat2Z.id, firstn_all.
    rewrite Z.div_small, (Z.mod_small (i mod 128)) by lia.
    rewrite <- (take_drop (length sdu) room) at 1. fold slack.
    rewrite (mem_write_between [0 + 128; i mod 128] (take (length sdu) room) slack sdu) by (done || rewrite length_take; lia).
    cbn [mbind res_bind]. assert (E0 : security_on tx' = false).
    { unfold security_on. replace (security_activated tx') with 0 by (by rewrite Hf). done. }
    by rewrite E0. }
  destruct (mark_ok 0 rx ltac:(lia) Hbm) as (bm & Emark & _).
  set (rx1 := rx_drb_um 0 (rx <| missing_pdu_bitmap := bm |>)).
  assert (Hsame := rx_drb_um_same 0 (rx <| missing_pdu_bitmap := bm |>)). fold rx1 in Hsame.
  assert (Ehdr : parse_header false ([128] ++ (i mod 128 :: sdu) ++ slack) rx = Ok (1, 0, 0)).
  { unfold parse_header. by rewrite Hs. }
  destruct (deliver_spec e c rb 0 1 [] slack [128] (i mod 128 :: sdu) a rx1 (pdcp_set a rx1 ps)) as (rx' & Ed & _).
  { done. }
  { replace (pdcp_rlc_mode rx1) with RLC_MODE_UM by (rewrite Hsame; done). exact Hind. }
  { apply lookup_insert_eq. }
  exists ([128] ++ (i mod 128 :: sdu) ++ slack), tx', rx'. split; [exact Eb|].
  split; [cbn [app take Nat.add]; by rewrite take_app_length|]. split; [exact Htx'|]. split; [exact Ehdr|].
  unfold pdcp_pdu_ind. rewrite Ehdr. cbn [mbind res_bind]. rewrite (proj2 (Z.ltb_ge _ _)) by lia.
  unfold pdcp_is_rx_seq_number_valid. rewrite (size_valid 7), Hs by (done || lia). change (negb (pdcp_is_seq_num_valid 0 7)) with false.
  cbn [negb orb]. rewrite Emark. cbn [mbind res_bind]. change (pdcp_rlc_mode (rx <| missing_pdu_bitmap := bm |>)) with (pdcp_rlc_mode rx).
  rewrite Hm. fold rx1. replace (security_activated rx1) with 0 by (rewrite Hsame; done). change (0 =? 1) with false.
  cbn [mbind res_bind]. rewrite (Z.mod_small rb) by lia.
  destruct Hind as [?|Hind]; [done|]. destruct (Z.eqb_spec (otg_enabled e) 1); [by destruct Hind|].
  change (Z.of_nat 1) with 1 in Ed. cbn [app] in Ed |- *. change (Z.of_nat (2 + length sdu)) with (Z.of_nat (1 + length (i mod 128 :: sdu))). rewrite Ed, pdcp_set_set. done.
Qed.
End short_sn.
Lemma short_sn_mismatch_witness :
  exists pdu rx', take 5 pdu = [128; 3; 11; 12; 13] /\
    pdcp_pdu_ind sample_env (sample_ctxt true) false 4 1 5 pdu (sample_pdcp false 7 RLC_MODE_UM)
        (Mk_pdcp_store (T := hash_table_t) tab_new {[1 := sample_pdcp false 7 RLC_MODE_UM]} 2 ∅ [] [] [] [] [] [] []) =
      Ok (TRUE, hand_over sample_env (sample_ctxt true) false 4 [3; 11; 12; 13]
        (pdcp_set 1 rx' (Mk_pdcp_store (T := hash_table_t) tab_new {[1 := sample_pdcp false 7 RLC_MODE_UM]} 2 ∅ [] [] [] [] [] [] []))).
Proof.
  destruct (short_sn_mismatch sample_env (sample_ctxt true) 4 3 1 ((sample_pdcp true 7 RLC_MODE_UM) <| next_pdcp_tx_sn := 3 |>)
    (sample_pdcp false 7 RLC_MODE_UM) [11; 12; 13] 0 0 [0; 0; 0]
    (Mk_pdcp_store (T := hash_table_t) tab_new {[1 := sample_pdcp false 7 RLC_MODE_UM]} 2 ∅ [] [] [] [] [] [] []) ∅)
    as (pdu & _ & rx' & _ & H1 & _ & _ & H2).
  - split; reflexivity.
  - discriminate.
  - repeat split.
  - reflexivity.
  - reflexivity.
  - reflexivity.
  - reflexivity.
  - reflexivity.
  - apply lookup_singleton_eq.
  - right. split; [discriminate|]. split; [intros _; split; [reflexivity|discriminate]|]. discriminate.
  - apply Nat.leb_le. reflexivity.
  - exists pdu, rx'. split; [exact H1|exact H2].
Defined.
