(* ===== verification/MacPdu.v ===== *)
(** * MAC PDUs (MAC/defs.h, eNB_scheduler_dlsch.c, eNB_scheduler_ulsch.c, ue_procedures.c)

    The subheaders and control elements of a transport block: the functions that write them at the eNB
    and at the UE, those that read them at the other side, and what the UE does with the parts of a
    block.  A bit field of one byte, assigned with its neighbours, is the byte.  Logs and traces are left
    out. *)

From S2P Require Import Prelude RlcStore.

(** ** Constants *)
Definition MAX_NUM_CE : Z := 5.
Definition CCCH : Z := 0.
Definition DCCH : Z := 1.
Definition DCCH1 : Z := 2.
Definition UE_CONT_RES : Z := 28.
Definition TIMING_ADV_CMD : Z := 29.
Definition DRX_CMD : Z := 30.
Definition SHORT_PADDING : Z := 31.
Definition EXTENDED_POWER_HEADROOM : Z := 25.
Definition POWER_HEADROOM : Z := 26.
Definition CRNTI : Z := 27.
Definition TRUNCATED_BSR : Z := 28.
Definition SHORT_BSR : Z := 29.
Definition LONG_BSR : Z := 30.

Record BSR_LONG := Mk_bsr_long { Buffer_size0 : Z; Buffer_size1 : Z; Buffer_size2 : Z; Buffer_size3 : Z }.

(** ** Writing subheaders

    The memory of the header, [mac_header_ptr] as an offset in it, [first_element], [last_size], and the
    control elements gathered so far. *)
Record hdr_state := Mk_hdr { h_mem : list Z; h_pos : Z; first_element : bool; last_size : Z; h_ces : list Z }.
#[export] Instance eta_hdr : Eta hdr_state := fun s =>
  Mk_hdr (h_mem s) (h_pos s) (first_element s) (last_size s) (h_ces s).

(** [mac_header_ptr->E = 1]. *)
Definition set_E (s : hdr_state) : res hdr_state :=
  b ← array_get (h_mem s) (h_pos s);
  m ← array_set (h_mem s) (h_pos s) (Z.lor b 32);
  Ok (s <| h_mem := m |>).
(** R, E and LCID of one byte. *)
Definition put_fixed (lcid : Z) (s : hdr_state) : res hdr_state :=
  m ← array_set (h_mem s) (h_pos s) (Z.land lcid 31);
  Ok (s <| h_mem := m |>).
(** To the next subheader, by one byte or by the size of the last one. *)
Definition next_element (size : hdr_state -> Z) (s : hdr_state) : res hdr_state :=
  if first_element s then
    s' ← set_E s;
    Ok (s' <| h_pos := h_pos s + size s |>)
  else Ok (s <| first_element := true |>).
(** The subheader of a control element, and the element. *)
Definition put_ce (lcid : Z) (ce : list Z) (s : hdr_state) : res hdr_state :=
  s ← next_element (fun _ => 1) s;
  s ← put_fixed lcid s;
  Ok (s <| last_size := 1 |> <| h_ces := h_ces s ++ ce |>).
Definition put_short_padding (short_padding : Z) (s : hdr_state) : res hdr_state :=
  s ← (if (short_padding =? 1) || (short_padding =? 2) then
         s ← put_fixed SHORT_PADDING s;
         Ok (s <| first_element := true |> <| last_size := 1 |>)
       else Ok s);
  if short_padding =? 2 then
    s ← set_E s;
    s ← put_fixed SHORT_PADDING (s <| h_pos := h_pos s + 1 |>);
    Ok (s <| last_size := 1 |>)
  else Ok s.
(** [SCH_SUBHEADER_SHORT] or [SCH_SUBHEADER_LONG], whose fourth byte is written too. *)
Definition put_sdu (lcid len : Z) (s : hdr_state) : res hdr_state :=
  s ← put_fixed lcid s;
  if len <? 128 then
    m ← array_set (h_mem s) (h_pos s + 1) (Z.land (u8 len) 127);
    Ok (s <| h_mem := m |> <| last_size := 2 |>)
  else
    m ← array_set (h_mem s) (h_pos s + 1) (Z.lor 128 (Z.land (Z.shiftr len 8) 127));
    m ← array_set m (h_pos s + 2) (Z.land len 255);
    m ← array_set m (h_pos s + 3) 0;
    Ok (s <| h_mem := m |> <| last_size := 3 |>).
(** The padding subheader or the end of the last one, then the control elements; the size and the memory. *)
Definition finish_header (post_padding : Z) (s : hdr_state) : res (Z * list Z) :=
  s ← (if post_padding >? 0 then
         s' ← set_E s;
         s ← put_fixed SHORT_PADDING (s' <| h_pos := h_pos s + last_size s |>);
         Ok (s <| h_pos := h_pos s + 1 |>)
       else Ok (s <| h_pos := h_pos s + 1 |>));
  m ← (if Z.of_nat (length (h_ces s)) >? 0 then mem_write (h_mem s) (h_pos s) (h_ces s) else Ok (h_mem s));
  Ok (u8 (h_pos s + Z.of_nat (length (h_ces s))), m).

(** The SDUs are given by their LCIDs and lengths. *)
Fixpoint dl_sdus (sdus : list (Z * Z)) (s : hdr_state) : res hdr_state :=
  match sdus with
  | [] => Ok s
  | (lcid, len) :: sdus =>
      s ← next_element last_size s;
      s ← put_sdu lcid len s;
      dl_sdus sdus s
  end.
Definition generate_dlsch_header (mac_header : list Z) (sdus : list (Z * Z)) (drx_cmd timing_advance_cmd : Z)
    (ue_cont_res_id : option (list Z)) (short_padding post_padding : Z) : res (Z * list Z) :=
  s ← put_short_padding short_padding (Mk_hdr mac_header 0 false 0 []);
  s ← (if drx_cmd =? 255 then Ok s else put_ce DRX_CMD [] s);
  s ← (if timing_advance_cmd =? 0 then Ok s
       else put_ce TIMING_ADV_CMD [Z.land (timing_advance_cmd + 31) 63] s);
  s ← match ue_cont_res_id with
      | Some id =>
          id ← mem_read id 0 6;
          put_ce UE_CONT_RES id s
      | None => Ok s
      end;
  s ← dl_sdus sdus s;
  finish_header post_padding s.

(** The bytes of the control elements of the UE; the RNTI is in the order of the processor. *)
Definition crnti_bytes (crnti : Z) : list Z := [Z.land crnti 255; Z.shiftr crnti 8].
Definition long_bsr_bytes (b : BSR_LONG) : list Z :=
  [u8 (Z.lor (Z.shiftl (Buffer_size0 b) 2) (Z.shiftr (Z.land (Buffer_size1 b) 48) 4));
   u8 (Z.lor (Z.shiftl (Z.land (Buffer_size1 b) 15) 4) (Z.shiftr (Z.land (Buffer_size2 b) 60) 2));
   u8 (Z.lor (Z.shiftl (Z.land (Buffer_size2 b) 3) 2) (Z.land (Buffer_size3 b) 63))].
(** The subheader of the last SDU has no length when no padding follows; [last_size] stays. *)
Fixpoint ul_sdus (short_padding post_padding : Z) (sdus : list (Z * Z)) (s : hdr_state) : res hdr_state :=
  match sdus with
  | [] => Ok s
  | (lcid, len) :: sdus =>
      if bool_decide (sdus = []) && (truthy short_padding || (post_padding =? 0)) then
        s ← (if first_element s then next_element last_size s else Ok s);
        put_fixed lcid s
      else
        s ← next_element last_size s;
        s ← put_sdu lcid len s;
        ul_sdus short_padding post_padding sdus s
  end.
Definition generate_ulsch_header (mac_header : list Z) (short_padding : Z) (sdus : list (Z * Z))
    (power_headroom crnti truncated_bsr short_bsr : option Z) (long_bsr : option BSR_LONG) (post_padding : Z)
  : res (Z * list Z) :=
  s ← put_short_padding short_padding (Mk_hdr mac_header 0 false 0 []);
  s ← match power_headroom with Some b => put_ce POWER_HEADROOM [b] s | None => Ok s end;
  s ← match crnti with Some c => put_ce CRNTI (crnti_bytes c) s | None => Ok s end;
  s ← match truncated_bsr, short_bsr, long_bsr with
      | Some b, _, _ => put_ce TRUNCATED_BSR [b] s
      | None, Some b, _ => put_ce SHORT_BSR [b] s
      | None, None, Some b => put_ce LONG_BSR (long_bsr_bytes b) s
      | None, None, None => Ok s
      end;
  s ← ul_sdus short_padding post_padding sdus s;
  finish_header post_padding s.

(** ** Reading subheaders

    [mac_header_ptr] as an offset, the control elements and the SDUs found, the counts of contention
    resolutions and of paddings, and the length of the control elements. *)
Record parse_state := Mk_parse {
  p_ptr : Z; p_ces : list Z; p_sdus : list (Z * Z); num_cont_res : Z; num_padding : Z; ce_len : Z
}.
#[export] Instance eta_parse : Eta parse_state := fun s =>
  Mk_parse (p_ptr s) (p_ces s) (p_sdus s) (num_cont_res s) (num_padding s) (ce_len s).
Definition parse_start : parse_state := Mk_parse 0 [] [] 0 0 0.

(** The length of an SDU: implicit for the last one. *)
Definition read_sdu_length (mem : list Z) (tb_length : Z) (last : bool) (s : parse_state) : res (Z * Z) :=
  if last then
    let ptr := p_ptr s + 1 in
    Ok (foldl (fun len (sdu : Z * Z) => u16 (len - sdu.2)) (u16 (tb_length - ptr - ce_len s)) (p_sdus s), ptr)
  else
    b1 ← array_get mem (p_ptr s + 1);
    if Z.testbit b1 7 then
      b2 ← array_get mem (p_ptr s + 2);
      Ok (Z.lor (Z.shiftl (Z.land b1 127) 8) b2, p_ptr s + 3)
    else Ok (Z.land b1 127, p_ptr s + 2).
(** [rx_lcids] and [rx_lengths] have [NB_RB_MAX] cells, [rx_ces] has [MAX_NUM_CE]. *)
Definition add_sdu (lcid len ptr : Z) (s : parse_state) : res parse_state :=
  if Z.of_nat (length (p_sdus s)) <? NB_RB_MAX
  then Ok (s <| p_ptr := ptr |> <| p_sdus := p_sdus s ++ [(lcid, len)] |>)
  else Err UndefinedBehaviour.
Definition add_ce (lcid : Z) (s : parse_state) : res parse_state :=
  if Z.of_nat (length (p_ces s)) <? MAX_NUM_CE
  then Ok (s <| p_ptr := p_ptr s + 1 |> <| p_ces := p_ces s ++ [lcid] |>)
  else Err UndefinedBehaviour.

(** A control element at the UE; [None]: the function returns NULL. *)
Definition dl_ce (lcid : Z) (last : bool) (s : parse_state) : res (option parse_state) :=
  if lcid =? SHORT_PADDING then Ok (Some (s <| num_padding := u8 (num_padding s + 1) |> <| p_ptr := p_ptr s + 1 |>))
  else
    s ← add_ce lcid s;
    if lcid =? TIMING_ADV_CMD then Ok (Some (s <| ce_len := u16 (ce_len s + 1) |>))
    else if lcid =? UE_CONT_RES then
      if truthy (num_cont_res s) then Ok None
      else if last && (negb (bool_decide (p_sdus s = [])) || (1 <? Z.of_nat (length (p_ces s))) || truthy (num_padding s))
      then Ok None
      else Ok (Some (s <| num_cont_res := num_cont_res s + 1 |> <| ce_len := u16 (ce_len s + 6) |>))
    else Ok (Some s).
(** A control element at the eNB. *)
Definition ul_ce (lcid : Z) (_ : bool) (s : parse_state) : res (option parse_state) :=
  if lcid =? SHORT_PADDING then Ok (Some (s <| p_ptr := p_ptr s + 1 |>))
  else
    s ← add_ce lcid s;
    if lcid =? LONG_BSR then Ok (Some (s <| ce_len := u16 (ce_len s + 3) |>))
    else if lcid =? CRNTI then Ok (Some (s <| ce_len := u16 (ce_len s + 2) |>))
    else if (lcid =? POWER_HEADROOM) || (lcid =? TRUNCATED_BSR) || (lcid =? SHORT_BSR)
    then Ok (Some (s <| ce_len := u16 (ce_len s + 1) |>))
    else Err FatalAssert.
(** On MCH every other LCID is padding. *)
Definition mch_ce (lcid : Z) (_ : bool) (s : parse_state) : res (option parse_state) :=
  Ok (Some (s <| p_ptr := p_ptr s + 1 |>)).

(** The loop of the three parsers: LCIDs below [limit] are SDUs. *)
Fixpoint parse_loop (limit : Z) (ce : Z -> bool -> parse_state -> res (option parse_state)) (mem : list Z) (tb_length : Z)
    (fuel : nat) (s : parse_state) : res (option parse_state) :=
  match fuel with
  | O => Err OutOfFuel
  | S fuel =>
      b ← array_get mem (p_ptr s);
      let last := negb (Z.testbit b 5) in
      let lcid := Z.land b 31 in
      s' ← (if lcid <? limit then
              '(len, ptr) ← read_sdu_length mem tb_length last s;
              s ← add_sdu lcid len ptr s;
              Ok (Some s)
            else ce lcid last s);
      match s' with
      | None => Ok None
      | Some s => if last then Ok (Some s) else parse_loop limit ce mem tb_length fuel s
      end
  end.
Definition parse_header (mac_header : list Z) (tb_length : Z) : res (option parse_state) :=
  parse_loop UE_CONT_RES dl_ce mac_header tb_length (S (length mac_header)) parse_start.
Definition parse_ulsch_header (mac_header : list Z) (tb_length : Z) : res (option parse_state) :=
  parse_loop EXTENDED_POWER_HEADROOM ul_ce mac_header tb_length (S (length mac_header)) parse_start.
Definition parse_mch_header (mac_header : list Z) (tb_length : Z) : res (option parse_state) :=
  parse_loop SHORT_PADDING mch_ce mac_header tb_length (S (length mac_header)) parse_start.
