(* ===== verification/MacDemux.v ===== *)
(** * What the UE does with a transport block (MAC/ue_procedures.c, vars.h)

    [ue_send_sdu] and [ue_send_mch_sdu] take a block apart; the calls they make of the physical layer,
    RRC and RLC are the events they return, in their order.  The buffer status tables of both sides are
    here too. *)

From S2P Require Import Prelude RlcStore MacPdu.

Definition MCCH : Z := 4.
Definition MTCH : Z := 1.
Definition MCCH_LCHANID : Z := 0.
Definition MCH_SCHDL_INFO : Z := 3.

(** The fields of [UE_mac_inst] used here; [CCCH_payload] is [CCCH_pdu.payload]. *)
Record UE_MAC_INST := Mk_ue_mac {
  ue_RA_active : Z; RA_contention_resolution_timer_active : Z; CCCH_payload : list Z;
  mcch_status : Z; msi_status : Z
}.
#[export] Instance eta_ue_mac : Eta UE_MAC_INST := fun u =>
  Mk_ue_mac (ue_RA_active u) (RA_contention_resolution_timer_active u) (CCCH_payload u) (mcch_status u) (msi_status u).

Inductive mac_event :=
| Ra_failed
| Ra_succeeded
| Process_timing_advance (timing_advance : Z)
| Mac_rrc_data_ind (channel : Z) (sdu : list Z)
| Mac_rlc_data_ind (MBMS_flag : bool) (channel : Z) (tb : list Z).

(** [for (i=0; i<6; i++) if (tx_sdu[i] != payload_ptr[i])]: is there a difference? *)
Fixpoint contention_detected (n : nat) (tx_sdu payload_ptr i : Z) (ccch sdu : list Z) : res bool :=
  match n with
  | O => Ok false
  | S n =>
      a ← array_get ccch (tx_sdu + i);
      b ← array_get sdu (payload_ptr + i);
      if a =? b then contention_detected n tx_sdu payload_ptr (i + 1) ccch sdu else Ok true
  end.

(** The loop over the control elements; the index of the inner loop is that of the outer one.  [None] for
    the pointer: the function has returned. *)
Fixpoint ue_ces (fuel : nat) (sdu rx_ces : list Z) (i payload_ptr : Z) (u : UE_MAC_INST) (out : list mac_event)
  : res (option Z * UE_MAC_INST * list mac_event) :=
  if negb (i <? Z.of_nat (length rx_ces)) then Ok (Some payload_ptr, u, out) else
  match fuel with
  | O => Err OutOfFuel
  | S fuel =>
      ce ← array_get rx_ces i;
      if ce =? UE_CONT_RES then
        if ue_RA_active u =? 1 then
          d ← contention_detected 6 3 payload_ptr 0 (CCCH_payload u) sdu;
          let u := u <| ue_RA_active := 0 |> <| RA_contention_resolution_timer_active := 0 |> in
          if (d : bool) then Ok (None, u, out ++ [Ra_failed])
          else ue_ces fuel sdu rx_ces (6 + 1) (payload_ptr + 6) u (out ++ [Ra_succeeded])
        else ue_ces fuel sdu rx_ces (i + 1) (payload_ptr + 6) u out
      else if ce =? TIMING_ADV_CMD then
        ta ← array_get sdu payload_ptr;
        ue_ces fuel sdu rx_ces (i + 1) (payload_ptr + 1) u (out ++ [Process_timing_advance ta])
      else if ce =? DRX_CMD then ue_ces fuel sdu rx_ces (i + 1) (payload_ptr + 1) u out
      else ue_ces fuel sdu rx_ces (i + 1) payload_ptr u out
  end.

(** The layer above of an SDU of the DL-SCH. *)
Definition dl_dispatch (lcid : Z) (sdu : list Z) : list mac_event :=
  if lcid =? CCCH then [Mac_rrc_data_ind CCCH sdu]
  else if (lcid =? DCCH) || (lcid =? DCCH1) then [Mac_rlc_data_ind false lcid sdu]
  else if (lcid <? NB_RB_MAX) && (lcid >? DCCH1) then [Mac_rlc_data_ind false lcid sdu]
  else [].
Fixpoint ue_sdus (sdu : list Z) (sdus : list (Z * Z)) (payload_ptr : Z) (out : list mac_event) : res (list mac_event) :=
  match sdus with
  | [] => Ok out
  | (lcid, len) :: sdus =>
      bytes ← mem_read sdu payload_ptr len;
      ue_sdus sdu sdus (payload_ptr + len) (out ++ dl_dispatch lcid bytes)
  end.
Definition ue_send_sdu (u : UE_MAC_INST) (sdu : list Z) (sdu_len : Z) : res (UE_MAC_INST * list mac_event) :=
  p ← parse_header sdu sdu_len;
  match p with
  | None => Ok (u, [])
  | Some s =>
      '(payload_ptr, u, out) ← ue_ces (S (length (p_ces s))) sdu (p_ces s) 0 (p_ptr s) u [];
      match payload_ptr with
      | None => Ok (u, out)
      | Some payload_ptr =>
          out ← ue_sdus sdu (p_sdus s) payload_ptr out;
          Ok (u, out)
      end
  end.

(** The SDUs of the MCH. *)
Definition mch_dispatch (u : UE_MAC_INST) (lcid : Z) (sdu : list Z) : UE_MAC_INST * list mac_event :=
  if lcid =? MCH_SCHDL_INFO then (if mcch_status u =? 1 then u <| msi_status := 1 |> else u, [])
  else if lcid =? MCCH_LCHANID then (u, [Mac_rrc_data_ind MCCH sdu])
  else if lcid =? MTCH then (u, if msi_status u =? 1 then [Mac_rlc_data_ind true MTCH sdu] else [])
  else (u, []).
Fixpoint ue_mch_sdus (sdu : list Z) (sdus : list (Z * Z)) (payload_ptr : Z) (u : UE_MAC_INST) (out : list mac_event)
  : res (UE_MAC_INST * list mac_event) :=
  match sdus with
  | [] => Ok (u, out)
  | (lcid, len) :: sdus =>
      bytes ← mem_read sdu payload_ptr len;
      let '(u, ev) := mch_dispatch u lcid bytes in
      ue_mch_sdus sdu sdus (payload_ptr + len) u (out ++ ev)
  end.
Definition ue_send_mch_sdu (u : UE_MAC_INST) (sdu : list Z) (sdu_len : Z) : res (UE_MAC_INST * list mac_event) :=
  p ← parse_mch_header sdu sdu_len;
  match p with
  | None => Ok (u, [])
  | Some s => ue_mch_sdus sdu (p_sdus s) (p_ptr s) u []
  end.

(** ** Buffer status reports *)
Definition BSR_TABLE_SIZE : Z := 64.
Definition BSR_TABLE : list Z :=
  [0; 10; 12; 14; 17; 19; 22; 26; 31; 36; 42; 49; 57; 67; 78; 91;
   105; 125; 146; 171; 200; 234; 274; 321; 376; 440; 515; 603; 706; 826; 967; 1132;
   1326; 1552; 1817; 2127; 2490; 2915; 3413; 3995; 4677; 5467; 6411; 7505; 8787; 10287; 12043; 14099;
   16507; 19325; 22624; 26487; 31009; 36304; 42502; 49759; 58255; 68201; 79846; 93479; 109439; 128125; 150000; 300000].

(** The table is of [uint32_t]: the comparison with an [int] is of unsigned values. *)
Fixpoint bsr_loop (fuel : nat) (i nbytes : Z) : res Z :=
  if negb (i <? BSR_TABLE_SIZE) then Ok i else
  match fuel with
  | O => Err OutOfFuel
  | S fuel =>
      t ← array_get BSR_TABLE i;
      if t <=? u32 nbytes then bsr_loop fuel (i + 1) nbytes else Ok i
  end.
Definition bytes_to_bsr_index (nbytes : Z) : res Z :=
  if nbytes <? 0 then Ok 0
  else
    i ← bsr_loop 64 0 nbytes;
    Ok (u32 (i - 1)).

(** The bisection of the UE. *)
Fixpoint locate_loop (fuel : nat) (table : list Z) (ascend : bool) (value jl ju : Z) : res Z :=
  if negb (ju - jl >? 1) then Ok jl else
  match fuel with
  | O => Err OutOfFuel
  | S fuel =>
      let jm := Z.shiftr (ju + jl) 1 in
      t ← array_get table jm;
      if Bool.eqb (u32 value >=? t) ascend then locate_loop fuel table ascend value jm ju
      else locate_loop fuel table ascend value jl jm
  end.
Definition locate_BsrIndexByBufferSize (table : list Z) (size value : Z) : res Z :=
  _ ← assert_that (size >? 0);
  _ ← assert_that (size <=? 256);
  if value =? 0 then Ok 0
  else
    let ju := u8 (size - 1) in
    tu ← array_get table ju;
    tl ← array_get table 0;
    jl ← locate_loop (S (length table)) table (tu >=? tl) value 0 ju;
    t ← array_get table jl;
    if u32 value =? t then Ok jl else Ok (u8 (jl + 1)).
