(* ===== verification/MacPduSpec.v ===== *)
(** * The subheaders of MacPdu.v, element by element

    A header is a list of elements: every subheader but the last carries its mark [E], and the last one is
    an LCID.  The writers build such a header ([writes], [finish_last], [finish_padding]), the parsers read
    it back one element at a time ([parse_marked], [parse_last_sdu]). *)

From S2P Require Import Prelude RlcStore MacPdu.

(** ** Elements *)
Inductive element := EFixed (lcid : Z) | ESdu (lcid len : Z).
Definition elt_lcid (e : element) : Z := match e with EFixed l => l | ESdu l _ => l end.
Definition enc (e : element) : list Z :=
  match e with
  | EFixed l => [l]
  | ESdu l n => if n <? 128 then [l; n] else [l; Z.lor 128 (Z.shiftr n 8); Z.land n 255]
  end.
Definition mark (l : list Z) : list Z := match l with [] => [] | b :: l => Z.lor b 32 :: l end.
Definition marked (es : list element) : list Z := concat (map (fun e => mark (enc e)) es).
Definition elt_ok (e : element) : Prop :=
  match e with EFixed l => 0 <= l < 32 | ESdu l n => 0 <= l < 32 /\ 0 <= n < 32768 end.
Definition is_fixed (e : element) : Prop := match e with EFixed _ => True | ESdu _ _ => False end.

Lemma length_mark l : length (mark l) = length l.
Proof. by destruct l. Qed.
Lemma enc_cons e : exists r, enc e = elt_lcid e :: r /\ (length r <= 2)%nat.
Proof.
  destruct e as [l | l n]; cbn [enc elt_lcid]; [by exists []; cbn; auto|].
  destruct (n <? 128); eexists; (split; [reflexivity | cbn; lia]).
Qed.
Lemma marked_app es fs : marked (es ++ fs) = marked es ++ marked fs.
Proof. unfold marked. by rewrite map_app, concat_app. Qed.
Lemma marked_snoc es e : marked (es ++ [e]) = marked es ++ mark (enc e).
Proof. rewrite marked_app. unfold marked at 2. cbn. by rewrite app_nil_r. Qed.
Lemma marked_cons e es : marked (e :: es) = mark (enc e) ++ marked es.
Proof. done. Qed.
Lemma length_marked es : (length (marked es) <= 3 * length es)%nat.
Proof.
  induction es as [|e es IH]; [cbn; lia|]. rewrite marked_cons, length_app, length_mark.
  destruct (enc_cons e) as (r & -> & ?). cbn [length]. lia.
Qed.
Lemma land_31_small l : 0 <= l < 32 -> Z.land l 31 = l.
Proof. intros H. change 31 with (Z.ones 5). rewrite Z.land_ones by lia. by apply Z.mod_small. Qed.
Lemma lor_32 l : 0 <= l < 32 -> Z.lor l 32 = l + 32.
Proof.
  intros H. rewrite Z.lor_comm. change 32 with (Z.shiftl 1 5) at 1.
  rewrite lor_shiftl_add by lia. lia.
Qed.
Lemma marked_byte l : 0 <= l < 32 -> Z.testbit (l + 32) 5 = true /\ Z.land (l + 32) 31 = l.
Proof.
  intros H. split.
  - rewrite Z.testbit_true by lia. replace ((l + 32) / 2 ^ 5) with 1; [done|].
    change (2 ^ 5) with 32. mod_lia.
  - change 31 with (Z.ones 5). rewrite Z.land_ones by lia. change (2 ^ 5) with 32. mod_lia.
Qed.
Lemma plain_byte l : 0 <= l < 32 -> Z.testbit l 5 = false /\ Z.land l 31 = l.
Proof.
  intros H. split; [|by apply land_31_small]. rewrite Z.testbit_false by lia.
  rewrite Z.div_small by (change (2 ^ 5) with 32; lia). done.
Qed.

Lemma array_set_0 {A} (b v : A) mem : array_set (b :: mem) 0 v = Ok (v :: mem).
Proof. by apply (array_set_app [] mem b). Qed.

(** ** Writing *)
Definition ready (N : nat) (s : hdr_state) (es : list element) : Prop :=
  length (h_mem s) = N /\ first_element s = true /\ h_pos s = Z.of_nat (length (marked es)) /\
  exists rest, h_mem s = marked es ++ rest.
Definition writes (N : nat) (s : hdr_state) (es : list element) : Prop :=
  length (h_mem s) = N /\
  ((es = [] /\ h_pos s = 0 /\ first_element s = false /\ last_size s = 0) \/
   exists es0 e rest, es = es0 ++ [e] /\ elt_ok e /\ first_element s = true /\
     h_mem s = marked es0 ++ enc e ++ rest /\ h_pos s = Z.of_nat (length (marked es0)) /\
     last_size s = Z.of_nat (length (enc e))).
(** The last subheader is the byte [l]. *)
Definition last_at (N : nat) (s : hdr_state) (es : list element) (l : Z) : Prop :=
  length (h_mem s) = N /\ h_pos s = Z.of_nat (length (marked es)) /\
  exists rest, h_mem s = marked es ++ l :: rest.

Lemma writes_nonempty N s es : writes N s es -> first_element s = true <-> es <> [].
Proof.
  intros (_ & [(-> & _ & -> & _) | (es0 & e & rest & -> & _ & -> & _)]); [split; done|].
  split; [|done]. intros _ H. by apply app_nil in H as [_ H].
Qed.

(** To the place after the last element. *)
Lemma advance_last N s es0 e :
  writes N s (es0 ++ [e]) ->
  exists s', set_E s = Ok s' /\ h_ces s' = h_ces s /\ ready N (s' <| h_pos := h_pos s + last_size s |>) (es0 ++ [e]).
Proof.
  intros (Hl & [(H & _) | (es1 & e1 & rest & He & Hok & Hf & Hm & Hp & Hs)]); [by apply app_nil in H as [_ H]|].
  apply app_inj_tail in He as [-> ->]. destruct (enc_cons e1) as (r & He & _).
  rewrite He in Hm, Hs. cbn [app] in Hm. unfold set_E. rewrite Hm.
  rewrite array_get_app by done. cbn [mbind res_bind].
  rewrite array_set_app by done. cbn [mbind res_bind]. eexists. split; [reflexivity|]. split; [done|].
  unfold ready. cbn. rewrite marked_snoc, He. cbn [mark].
  split; [rewrite <- Hl, Hm, !length_app; cbn; lia|]. split; [done|]. split.
  - rewrite Hp, Hs, length_app. cbn [length]. lia.
  - exists rest. by rewrite <- app_assoc.
Qed.
Lemma next_ready N s es size :
  writes N s es -> (es <> [] -> size s = last_size s) ->
  exists s', next_element size s = Ok s' /\ ready N s' es /\ h_ces s' = h_ces s.
Proof.
  intros Hw Hsz. assert (Hl : length (h_mem s) = N) by apply Hw. unfold next_element.
  destruct (first_element s) eqn:Hf.
  - apply (writes_nonempty _ _ _ Hw) in Hf as Hne. destruct es as [|e es _] using rev_ind; [done|].
    destruct (advance_last _ _ _ _ Hw) as (s' & -> & Hc & Hr). cbn [mbind res_bind].
    eexists. split; [reflexivity|]. rewrite Hsz by done. by split.
  - destruct Hw as (_ & [(-> & Hp & _) | (es0 & e & rest & _ & _ & Hf' & _)]); [|congruence].
    eexists. split; [reflexivity|]. split; [|done]. unfold ready. cbn. repeat split; [done | done|].
    by exists (h_mem s).
Qed.
Lemma put_fixed_ready N s es l :
  ready N s es -> (length (marked es) < N)%nat -> 0 <= l < 32 ->
  exists s' rest, put_fixed l s = Ok s' /\ h_ces s' = h_ces s /\ length (h_mem s') = N /\ first_element s' = true /\
    h_pos s' = h_pos s /\ h_mem s' = marked es ++ l :: rest /\ (length rest = N - length (marked es) - 1)%nat.
Proof.
  intros (Hl & Hf & Hp & rest & Hm) HN Hb. unfold put_fixed. rewrite Hm in Hl |- *. rewrite length_app in Hl.
  destruct rest as [|b rest]; [cbn in Hl; lia|]. cbn [length] in Hl.
  rewrite array_set_app by done. cbn [mbind res_bind]. rewrite land_31_small by done.
  eexists _, rest. split; [reflexivity|]. cbn. rewrite length_app. cbn [length]. repeat split; [lia | done | lia].
Qed.
Lemma writes_fixed N s es l : length (h_mem s) = N -> first_element s = true -> 0 <= l < 32 ->
  h_pos s = Z.of_nat (length (marked es)) -> last_size s = 1 -> (exists rest, h_mem s = marked es ++ l :: rest) ->
  writes N s (es ++ [EFixed l]).
Proof. intros ? ? ? ? ? (rest & ?). split; [done|]. right. by exists es, (EFixed l), rest. Qed.

Lemma writes_last_size N s es : writes N s es -> Forall is_fixed es -> es <> [] -> 1 = last_size s.
Proof.
  intros (_ & [(-> & _) | (es0 & e & rest & -> & _ & _ & _ & _ & ->)]) Hall; [done|].
  apply Forall_app in Hall as [_ Hall]. apply Forall_cons in Hall as [He _]. by destruct e.
Qed.
Lemma put_ce_writes N s es l ce :
  writes N s es -> Forall is_fixed es -> (length (marked es) < N)%nat -> 0 <= l < 32 ->
  exists s', put_ce l ce s = Ok s' /\ writes N s' (es ++ [EFixed l]) /\ h_ces s' = h_ces s ++ ce.
Proof.
  intros Hw Hall HN Hl. unfold put_ce.
  destruct (next_ready N s es (fun _ => 1) Hw) as (s1 & -> & Hr & Hc); [intros Hne; by apply (writes_last_size N s es)|].
  cbn [mbind res_bind].
  assert (Hp1 : h_pos s1 = Z.of_nat (length (marked es))) by apply Hr.
  destruct (put_fixed_ready N s1 es l Hr HN Hl) as (s2 & rest & -> & Hc2 & Hl2 & Hf2 & Hp2 & Hm2 & _). cbn [mbind res_bind].
  eexists. split; [reflexivity|]. split; [|cbn; congruence].
  apply writes_fixed; cbn; [done | done | done | congruence | done | by exists rest].
Qed.
Lemma put_short_padding_writes mem n :
  0 <= n <= 2 -> (2 <= length mem)%nat ->
  exists s', put_short_padding n (Mk_hdr mem 0 false 0 []) = Ok s' /\
    writes (length mem) s' (replicate (Z.to_nat n) (EFixed SHORT_PADDING)) /\ h_ces s' = [].
Proof.
  intros Hn Hl. destruct mem as [|a [|b mem]]; [cbn in Hl; lia | cbn in Hl; lia |].
  assert (n = 0 \/ n = 1 \/ n = 2) as [-> | [-> | ->]] by lia.
  - eexists. split; [reflexivity|]. split; [|done]. split; [done|]. by left.
  - eexists. split; [reflexivity|]. split; [|done]. change (replicate _ _) with ([] ++ [EFixed SHORT_PADDING]).
    apply writes_fixed; [done | done | unfold SHORT_PADDING; lia | done | done | by exists (b :: mem)].
  - pose proof (array_set_app [63] mem b 31 1 eq_refl) as E. cbn [app] in E. eexists. split.
    { lazy -[array_set].
      change (array_set (a :: b :: mem) 0 31) with (Ok (31 :: b :: mem)). lazy -[array_set].
      change (array_set (31 :: b :: mem) 0 63) with (Ok (63 :: b :: mem)). lazy -[array_set].
      rewrite E. reflexivity. }
    split; [|done]. change (replicate _ _) with ([EFixed SHORT_PADDING] ++ [EFixed SHORT_PADDING]).
    apply writes_fixed; [done | done | unfold SHORT_PADDING; lia | done | done | by exists mem].
Qed.
Lemma put_sdu_writes N s es l n :
  ready N s es -> (length (marked es) + 4 <= N)%nat -> 0 <= l < 32 -> 0 <= n < 32768 ->
  exists s', put_sdu l n s = Ok s' /\ writes N s' (es ++ [ESdu l n]) /\ h_ces s' = h_ces s.
Proof.
  intros Hr HN Hl Hn. assert (Hp : h_pos s = Z.of_nat (length (marked es))) by apply Hr. unfold put_sdu.
  destruct (put_fixed_ready N s es l Hr) as (s1 & rest & -> & Hc & Hl1 & Hf & Hp1 & Hm & Hrest); [lia | done|].
  cbn [mbind res_bind]. rewrite Hp1, Hp. rewrite Hm.
  destruct rest as [|b0 [|b1 [|b2 rest]]]; cbn [length] in Hrest; try lia.
  replace (marked es ++ l :: b0 :: b1 :: b2 :: rest) with ((marked es ++ [l]) ++ b0 :: b1 :: b2 :: rest)
    by by rewrite <- app_assoc.
  rewrite !array_set_app by (rewrite length_app; cbn; lia). cbn [mbind res_bind].
  destruct (Z.ltb_spec n 128) as [Hs | Hb].
  - eexists. split; [reflexivity|]. split; [|done]. split.
    + cbn. rewrite !length_app. cbn [length]. lia.
    + right. exists es, (ESdu l n), (b1 :: b2 :: rest). cbn. destruct (Z.ltb_spec n 128); [|lia].
      rewrite (wrapu_small 8) by (change (2 ^ 8) with 256; lia). change 127 with (2 ^ 7 - 1). rewrite land_ones_mod, Z.mod_small by lia.
      rewrite <- app_assoc. repeat split; (done || congruence || lia).
  - replace ((marked es ++ [l]) ++ Z.lor 128 (Z.land (Z.shiftr n 8) 127) :: b1 :: b2 :: rest)
      with ((marked es ++ [l; Z.lor 128 (Z.land (Z.shiftr n 8) 127)]) ++ b1 :: b2 :: rest) by by rewrite <- !app_assoc.
    rewrite array_set_app by (rewrite length_app; cbn; lia). cbn [mbind res_bind].
    replace ((marked es ++ [l; Z.lor 128 (Z.land (Z.shiftr n 8) 127)]) ++ Z.land n 255 :: b2 :: rest)
      with ((marked es ++ [l; Z.lor 128 (Z.land (Z.shiftr n 8) 127); Z.land n 255]) ++ b2 :: rest) by by rewrite <- !app_assoc.
    rewrite array_set_app by (rewrite length_app; cbn; lia). cbn [mbind res_bind].
    eexists. split; [reflexivity|]. split; [|done]. split.
    + cbn. rewrite !length_app. cbn [length]. lia.
    + right. exists es, (ESdu l n), (0 :: rest). cbn. destruct (Z.ltb_spec n 128); [lia|].
      change 127 with (2 ^ 7 - 1). rewrite land_ones_mod by lia.
      rewrite (Z.mod_small (Z.shiftr n 8)) by (rewrite Z.shiftr_div_pow2 by lia; change (2 ^ 8) with 256; mod_lia).
      rewrite <- app_assoc. repeat split; (done || congruence || lia).
Qed.

(** The SDUs, given by LCID and length. *)
Definition sdu_ok (sdu : Z * Z) : Prop := 0 <= sdu.1 < 32 /\ 0 <= sdu.2 < 32768.
Definition sdu_elts (sdus : list (Z * Z)) : list element := map (fun sdu => ESdu sdu.1 sdu.2) sdus.
Lemma next_sdu_writes N s es l n :
  writes N s es -> (length (marked es) + 4 <= N)%nat -> 0 <= l < 32 -> 0 <= n < 32768 ->
  exists s', (s ← next_element last_size s; put_sdu l n s) = Ok s' /\ writes N s' (es ++ [ESdu l n]) /\ h_ces s' = h_ces s.
Proof.
  intros Hw HN Hl Hn. destruct (next_ready N s es last_size Hw) as (s1 & -> & Hr & Hc); [done|]. cbn [mbind res_bind].
  destruct (put_sdu_writes N s1 es l n Hr HN Hl Hn) as (s2 & -> & Hw2 & Hc2). exists s2. repeat split; [apply Hw2 | apply Hw2 | congruence].
Qed.
Lemma dl_sdus_writes N sdus : forall s es,
  writes N s es -> Forall sdu_ok sdus -> (3 * (length es + length sdus) + 4 <= N)%nat ->
  exists s', dl_sdus sdus s = Ok s' /\ writes N s' (es ++ sdu_elts sdus) /\ h_ces s' = h_ces s.
Proof.
  induction sdus as [|[l n] sdus IH]; intros s es Hw Hok HN.
  - exists s. cbn. by rewrite app_nil_r.
  - apply Forall_cons in Hok as [[Hl Hn] Hok]. cbn [fst snd length] in *.
    pose proof (length_marked es). destruct (next_sdu_writes N s es l n Hw) as (s1 & E1 & Hw1 & Hc1); [lia | done | done|].
    destruct (IH s1 (es ++ [ESdu l n])) as (s2 & E2 & Hw2 & Hc2); [done | done | rewrite length_app; cbn; lia|].
    exists s2. split.
    + cbn [dl_sdus]. destruct (next_element last_size s) as [s0|]; [|discriminate E1]. cbn [mbind res_bind] in *. by rewrite E1.
    + cbn [sdu_elts map fst snd]. rewrite <- app_assoc in Hw2. split; [done | congruence].
Qed.

(** The end of the header. *)
Lemma writes_last_at N s es e : writes N s (es ++ [e]) -> last_at N s es (elt_lcid e).
Proof.
  intros (Hl & [(H & _) | (es1 & e1 & rest & He & _ & _ & Hm & Hp & _)]); [by apply app_nil in H as [_ H]|].
  apply app_inj_tail in He as [-> ->]. destruct (enc_cons e1) as (r & He & _). rewrite He in Hm.
  split; [done|]. split; [done|]. by exists (r ++ rest).
Qed.
Lemma write_ces pre l rest ces off :
  off = Z.of_nat (length pre) + 1 -> (length ces <= length rest)%nat ->
  exists rest', (if Z.of_nat (length ces) >? 0 then mem_write (pre ++ l :: rest) off ces else Ok (pre ++ l :: rest)) =
    Ok (pre ++ [l] ++ ces ++ rest') /\ length rest = (length ces + length rest')%nat.
Proof.
  intros -> Hl. exists (drop (length ces) rest). split; [|rewrite length_drop; lia].
  replace (pre ++ l :: rest) with ((pre ++ [l]) ++ rest) by by rewrite <- app_assoc.
  rewrite (app_assoc pre [l]).
  destruct (Z.gtb_spec (Z.of_nat (length ces)) 0) as [H | H].
  - rewrite mem_write_ok by (rewrite ?length_app; cbn [length]; lia).
    replace (Z.to_nat (Z.of_nat (length pre) + 1)) with (length (pre ++ [l])) by (rewrite length_app; cbn; lia).
    by rewrite take_app_length, drop_app_add.
  - destruct ces; [done | cbn in H; lia].
Qed.
(** The bytes of a header: marked subheaders, the last one, and the control elements. *)
Definition header (es : list element) (l : Z) (ces : list Z) : list Z := marked es ++ [l] ++ ces.
Lemma header_result es l ces m rest n :
  m = marked es ++ [l] ++ ces ++ rest -> n = Z.of_nat (length (header es l ces)) -> take (Z.to_nat n) m = header es l ces.
Proof.
  intros -> ->. unfold header. rewrite Nat2Z.id.
  replace (marked es ++ [l] ++ ces ++ rest) with ((marked es ++ [l] ++ ces) ++ rest) by by rewrite <- !app_assoc.
  by rewrite take_app_length.
Qed.
Lemma finish_last N s es l :
  last_at N s es l -> (length (marked es) + 1 + length (h_ces s) <= N)%nat ->
  (length (header es l (h_ces s)) < 256)%nat ->
  exists m, finish_header 0 s = Ok (Z.of_nat (length (header es l (h_ces s))), m) /\ length m = N /\
    take (length (header es l (h_ces s))) m = header es l (h_ces s).
Proof.
  intros (Hl & Hp & rest & Hm) HN Hlt. unfold finish_header. cbn [Z.gtb Z.compare]. cbn [mbind res_bind].
  assert (HL : length (header es l (h_ces s)) = (length (marked es) + 1 + length (h_ces s))%nat)
    by (unfold header; rewrite !length_app; cbn; lia).
  cbn [h_mem h_ces h_pos]. rewrite Hm in *. rewrite length_app in Hl. cbn [length] in Hl.
  destruct (write_ces (marked es) l rest (h_ces s) (h_pos s + 1)) as (rest' & E & Hrest); [lia | lia|].
  lazymatch goal with |- context [update_field (proj := h_pos) ?f s] =>
    change (h_ces (update_field (proj := h_pos) f s)) with (h_ces s);
    change (h_mem (update_field (proj := h_pos) f s)) with (h_mem s);
    change (h_pos (update_field (proj := h_pos) f s)) with (h_pos s + 1) end.
  rewrite Hm, E. cbn [mbind res_bind]. eexists. split.
  - do 2 f_equal. unfold u8. rewrite wrapu_small by (change (2 ^ 8) with 256; lia). lia.
  - split; [rewrite !length_app; cbn; lia|]. rewrite <- (Nat2Z.id (length _)). by eapply header_result.
Qed.
Lemma finish_padding N s es pp :
  writes N s es -> 0 < pp -> (length (marked es) + 1 + length (h_ces s) <= N)%nat ->
  (length (header es SHORT_PADDING (h_ces s)) < 256)%nat ->
  exists m, finish_header pp s = Ok (Z.of_nat (length (header es SHORT_PADDING (h_ces s))), m) /\ length m = N /\
    take (length (header es SHORT_PADDING (h_ces s))) m = header es SHORT_PADDING (h_ces s).
Proof.
  intros Hw Hpp HN Hlt.
  enough (exists s', (s' ← set_E s; put_fixed SHORT_PADDING (s' <| h_pos := h_pos s + last_size s |>)) = Ok s' /\
    last_at N s' es SHORT_PADDING /\ h_ces s' = h_ces s) as (s' & E & Hat & Hc).
  { destruct (finish_last N s' es SHORT_PADDING Hat) as (m & E2 & Hm); [by rewrite Hc | by rewrite Hc|].
    exists m. rewrite Hc in *. split; [|done]. rewrite <- E2. unfold finish_header.
    destruct (Z.gtb_spec pp 0); [|lia]. destruct (set_E s) as [s1|]; [|discriminate E]. cbn [mbind res_bind] in E |- *.
    by rewrite E. }
  destruct es as [|e es _] using rev_ind.
  - destruct Hw as (Hl & [(_ & Hp & _ & Hs) | (es0 & e & rest & H & _)]); [|by symmetry in H; apply app_nil in H as [_ H]].
    unfold marked in *. cbn in HN. destruct (h_mem s) as [|b mem] eqn:Hm; [cbn in Hl; lia|].
    unfold set_E. rewrite Hm, Hp. change (array_get (b :: mem) 0) with (Ok b). cbn [mbind res_bind].
    rewrite array_set_0. cbn [mbind res_bind].
    unfold put_fixed. cbn -[array_set]. rewrite Hs, array_set_0. cbn [mbind res_bind].
    eexists. split; [reflexivity|]. split; [|done]. split; [done|]. split; [by cbn|]. by exists mem.
  - destruct (advance_last N s es e Hw) as (s1 & -> & Hc & Hr). cbn [mbind res_bind].
    destruct (put_fixed_ready N _ _ SHORT_PADDING Hr) as (s2 & rest & -> & Hc2 & Hl2 & _ & Hp2 & Hm2 & _);
      [lia | unfold SHORT_PADDING; lia|].
    exists s2. split; [done|]. split; [|by rewrite Hc2, <- Hc]. split; [done|]. split; [|by exists rest].
    rewrite Hp2. apply Hr.
Qed.

(** ** Reading *)
#[export] Instance element_eq_dec : EqDecision element.
Proof. solve_decision. Defined.
Definition parse_element (ce : Z -> bool -> parse_state -> res (option parse_state)) (e : element) (s : parse_state)
  : res (option parse_state) :=
  match e with
  | EFixed l => ce l false s
  | ESdu l n => s ← add_sdu l n (p_ptr s + Z.of_nat (length (enc e))) s; Ok (Some s)
  end.
(** An element in its place: LCIDs below [limit] are SDUs. *)
Definition placed (limit : Z) (e : element) : Prop :=
  match e with EFixed l => limit <= l < 32 | ESdu l n => 0 <= l < limit /\ 0 <= n < 32768 end.

Lemma long_length n : 128 <= n < 32768 ->
  Z.testbit (Z.lor 128 (Z.shiftr n 8)) 7 = true /\
  Z.lor (Z.shiftl (Z.land (Z.lor 128 (Z.shiftr n 8)) 127) 8) (Z.land n 255) = n.
Proof.
  intros Hn. assert (Hs : 0 <= Z.shiftr n 8 < 128)
    by (rewrite Z.shiftr_div_pow2 by lia; change (2 ^ 8) with 256; mod_lia).
  change 128 with (Z.shiftl 1 7) at 1 2. rewrite lor_shiftl_add by lia. change (1 * 2 ^ 7) with 128.
  change 127 with (2 ^ 7 - 1). rewrite land_ones_mod by lia. split.
  - rewrite Z.testbit_true by lia. change (2 ^ 7) with 128. replace ((128 + Z.shiftr n 8) / 128) with 1 by mod_lia. done.
  - replace ((128 + Z.shiftr n 8) mod 2 ^ 7) with (Z.shiftr n 8) by (change (2 ^ 7) with 128; mod_lia).
    change 255 with (2 ^ 8 - 1). rewrite land_ones_mod by lia.
    rewrite lor_shiftl_add by (try lia; apply Z.mod_pos_bound; lia). rewrite Z.shiftr_div_pow2 by lia.
    rewrite Z.mul_comm. symmetry. by apply Z.div_mod.
Qed.
Lemma short_length n : 0 <= n < 128 -> Z.testbit n 7 = false /\ Z.land n 127 = n.
Proof.
  intros Hn. split.
  - rewrite Z.testbit_false by lia. by rewrite Z.div_small by (change (2 ^ 7) with 128; lia).
  - change 127 with (2 ^ 7 - 1). rewrite land_ones_mod by lia. by apply Z.mod_small.
Qed.

Lemma array_get_after {A} (pre mid : list A) x post i :
  i = Z.of_nat (length mid) -> array_get (pre ++ mid ++ x :: post) (Z.of_nat (length pre) + i) = Ok x.
Proof. intros ->. rewrite app_assoc. apply array_get_app. rewrite length_app. lia. Qed.

Section Parse.
Context (limit : Z) (ce : Z -> bool -> parse_state -> res (option parse_state)) (Hlimit : 0 <= limit <= 32).

Lemma parse_step mem tb fuel s pre e post :
  placed limit e -> mem = pre ++ mark (enc e) ++ post -> p_ptr s = Z.of_nat (length pre) ->
  parse_loop limit ce mem tb (S fuel) s =
    (s' ← parse_element ce e s;
     match s' with None => Ok None | Some s => parse_loop limit ce mem tb fuel s end).
Proof using Hlimit.
  intros Hpl -> Hp. cbn [parse_loop]. rewrite Hp. destruct e as [l | l n]; cbn [placed enc parse_element] in *.
  - cbn [mark app]. rewrite (array_get_app pre _ _ (Z.of_nat (length pre)) eq_refl). cbn [mbind res_bind]. rewrite lor_32 by lia.
    destruct (marked_byte l) as [-> ->]; [lia|]. cbn [negb]. by rewrite (proj2 (Z.ltb_ge _ _)) by lia.
  - destruct Hpl as [Hl Hn]. unfold read_sdu_length. destruct (Z.ltb_spec n 128) as [Hs | Hb]; cbn [mark app length].
    + rewrite (array_get_app pre _ _ (Z.of_nat (length pre)) eq_refl). cbn [mbind res_bind]. rewrite lor_32 by lia.
      destruct (marked_byte l) as [-> ->]; [lia|]. cbn [negb]. rewrite (proj2 (Z.ltb_lt _ _)) by lia. rewrite Hp.
      rewrite (array_get_after pre [l + 32] n post 1 eq_refl : array_get (pre ++ l + 32 :: _) _ = _). cbn [mbind res_bind].
      destruct (short_length n) as [-> ->]; [lia|]. cbn [mbind res_bind]. change (Z.of_nat 2) with 2.
      by destruct (add_sdu _ _ _ _).
    + rewrite (array_get_app pre _ _ (Z.of_nat (length pre)) eq_refl). cbn [mbind res_bind]. rewrite lor_32 by lia.
      destruct (marked_byte l) as [-> ->]; [lia|]. cbn [negb]. rewrite (proj2 (Z.ltb_lt _ _)) by lia. rewrite Hp.
      set (b := Z.lor 128 (Z.shiftr n 8)). set (c := Z.land n 255).
      rewrite (array_get_after pre [l + 32] b (c :: post) 1 eq_refl : array_get (pre ++ l + 32 :: _) _ = _). cbn [mbind res_bind].
      rewrite (array_get_after pre [l + 32; b] c post 2 eq_refl : array_get (pre ++ l + 32 :: _) _ = _).
      destruct (long_length n) as [H1 H2]; [lia|]. fold b in H1, H2. fold c in H2. rewrite H1. cbn [mbind res_bind].
      rewrite H2. change (Z.of_nat 3) with 3. by destruct (add_sdu _ _ _ _).
Qed.

(** [st es] is the state of the parser after [es]. *)
Context (st : list element -> parse_state) (Hst : forall es, p_ptr (st es) = Z.of_nat (length (marked es))).
Lemma parse_marked mem tb fuel tail es : forall es0,
  mem = marked es0 ++ marked es ++ tail -> Forall (placed limit) es ->
  (forall pre e post, es = pre ++ e :: post ->
     parse_element ce e (st (es0 ++ pre)) = Ok (Some (st ((es0 ++ pre) ++ [e])))) ->
  parse_loop limit ce mem tb (length es + fuel) (st es0) = parse_loop limit ce mem tb fuel (st (es0 ++ es)).
Proof using Hlimit Hst.
  induction es as [|e es IH]; intros es0 Hm Hpl Hstep; [by rewrite app_nil_r|].
  apply Forall_cons in Hpl as [He Hpl]. cbn [length Nat.add].
  rewrite (parse_step _ _ _ _ (marked es0) e (marked es ++ tail)); [|done | by rewrite Hm, marked_cons, <- app_assoc | done].
  specialize (Hstep [] e es eq_refl) as H0. rewrite app_nil_r in H0. rewrite H0. cbn [mbind res_bind].
  rewrite (IH (es0 ++ [e])).
  - by rewrite <- app_assoc.
  - rewrite Hm, marked_snoc, marked_cons. by rewrite <- !app_assoc.
  - done.
  - intros pre e' post ->. rewrite <- !(app_assoc es0 [e]). cbn [app]. rewrite (Hstep (e :: pre) e' post eq_refl).
    by rewrite <- (app_assoc es0).
Qed.
End Parse.

(** The length of the last SDU is what the others leave. *)
Lemma implicit_length sdus : forall len,
  foldl (fun len (sdu : Z * Z) => u16 (len - sdu.2)) (u16 len) sdus = u16 (len - sumZ snd sdus).
Proof.
  induction sdus as [|[l n] sdus IH]; intros len; cbn [foldl sumZ foldr snd]; [f_equal; lia|].
  replace (u16 (u16 len - n)) with (u16 (len - n)) by (unfold u16, wrapu; by rewrite Zminus_mod_idemp_l).
  rewrite IH. f_equal. unfold sumZ. lia.
Qed.
Lemma parse_last_sdu limit ce mem tb fuel s pre l post len :
  0 <= l < limit -> limit <= 32 -> mem = pre ++ l :: post -> p_ptr s = Z.of_nat (length pre) ->
  (length (p_sdus s) < 14)%nat -> 0 <= len < 65536 ->
  len = tb - (Z.of_nat (length pre) + 1) - ce_len s - sumZ snd (p_sdus s) ->
  parse_loop limit ce mem tb (S fuel) s =
    Ok (Some (s <| p_ptr := Z.of_nat (length pre) + 1 |> <| p_sdus := p_sdus s ++ [(l, len)] |>)).
Proof.
  intros Hl H32 -> Hp Hn Hlen Heq. cbn [parse_loop]. rewrite Hp, array_get_app by done. cbn [mbind res_bind].
  destruct (plain_byte l) as [-> ->]; [lia|]. cbn [negb]. rewrite (proj2 (Z.ltb_lt _ _)) by lia.
  cbn [read_sdu_length mbind res_bind]. rewrite Hp, implicit_length, <- Heq. unfold u16.
  rewrite wrapu_small by (change (2 ^ 16) with 65536; lia).
  unfold add_sdu. rewrite (proj2 (Z.ltb_lt _ _)) by (unfold NB_RB_MAX, maxDRB; lia). done.
Qed.
