(* ===== verification/MacHeaderSpec.v ===== *)
(** * The headers of the DL-SCH and of the UL-SCH, written and read

    What [generate_dlsch_header] and [generate_ulsch_header] write is a header over the elements of
    MacPduSpec.v ([dl_header_writes], [finish_closed], [ulsch_closed]), and what the parser of the other side reads in it, with
    any bytes behind, is the control elements and the SDUs that were written ([dl_parse], [ul_parse]). *)

From S2P Require Import Prelude RlcStore MacPdu MacPduSpec.

(** ** The parsers, over elements *)
Definition ces_of (es : list element) : list Z :=
  omap (fun e => match e with EFixed l => if l =? SHORT_PADDING then None else Some l | ESdu _ _ => None end) es.
Definition sdus_of (es : list element) : list (Z * Z) :=
  omap (fun e => match e with EFixed _ => None | ESdu l n => Some (l, n) end) es.
Definition count (l : Z) (es : list element) : Z := sumZ (fun e => b2z (bool_decide (e = EFixed l))) es.
(** The bytes of the control elements. *)
Definition ce_total (size : Z -> Z) (es : list element) : Z :=
  sumZ (fun e => match e with EFixed l => size l | ESdu _ _ => 0 end) es.
Definition dl_ce_size (l : Z) : Z := if l =? TIMING_ADV_CMD then 1 else if l =? UE_CONT_RES then 6 else 0.
Definition ul_ce_size (l : Z) : Z :=
  if l =? LONG_BSR then 3 else if l =? CRNTI then 2
  else if (l =? POWER_HEADROOM) || (l =? TRUNCATED_BSR) || (l =? SHORT_BSR) then 1 else 0.
Definition dl_state (es : list element) : parse_state :=
  Mk_parse (Z.of_nat (length (marked es))) (ces_of es) (sdus_of es) (count UE_CONT_RES es) (count SHORT_PADDING es)
    (ce_total dl_ce_size es).
Definition ul_state (es : list element) : parse_state :=
  Mk_parse (Z.of_nat (length (marked es))) (ces_of es) (sdus_of es) 0 0 (ce_total ul_ce_size es).

Lemma count_range l es : 0 <= count l es <= Z.of_nat (length es).
Proof.
  induction es as [|e es IH]; [cbn; lia|]. unfold count, sumZ in *. cbn [foldr length].
  destruct (bool_decide _); cbn [b2z]; lia.
Qed.
Lemma count_snoc l es e : count l (es ++ [e]) = count l es + b2z (bool_decide (e = EFixed l)).
Proof. unfold count. rewrite sumZ_app. cbn. lia. Qed.
Lemma ce_total_snoc size es l : ce_total size (es ++ [EFixed l]) = ce_total size es + size l.
Proof. unfold ce_total. rewrite sumZ_app. cbn. lia. Qed.
Lemma ce_total_sdu size es l n : ce_total size (es ++ [ESdu l n]) = ce_total size es.
Proof. unfold ce_total. rewrite sumZ_app. cbn. lia. Qed.
Lemma ce_total_nonneg size es : (forall l, 0 <= size l) -> 0 <= ce_total size es.
Proof. intros H. apply sumZ_nonneg. intros [l | l n] _; [apply H | lia]. Qed.
Lemma ces_of_app es fs : ces_of (es ++ fs) = ces_of es ++ ces_of fs.
Proof. apply omap_app. Qed.
Lemma sdus_of_app es fs : sdus_of (es ++ fs) = sdus_of es ++ sdus_of fs.
Proof. apply omap_app. Qed.
Lemma marked_len_snoc es e : Z.of_nat (length (marked (es ++ [e]))) = Z.of_nat (length (marked es)) + Z.of_nat (length (enc e)).
Proof. rewrite marked_snoc, length_app, length_mark. lia. Qed.
Lemma dl_ce_size_nonneg l : 0 <= dl_ce_size l.
Proof. unfold dl_ce_size. repeat case_cond; lia. Qed.
Lemma ul_ce_size_nonneg l : 0 <= ul_ce_size l.
Proof. unfold ul_ce_size. repeat case_cond; lia. Qed.

(** What a parser can take: the sizes of its arrays. *)
Definition parsable (limit : Z) (size : Z -> Z) (es : list element) : Prop :=
  Forall (placed limit) es /\ (length (ces_of es) <= 5)%nat /\ (length (sdus_of es) <= 14)%nat /\
  (length es < 256)%nat /\ ce_total size es < 65536.
Lemma add_ce_ok l s : (length (p_ces s) < 5)%nat ->
  add_ce l s = Ok (s <| p_ptr := p_ptr s + 1 |> <| p_ces := p_ces s ++ [l] |>).
Proof. intros H. unfold add_ce. by rewrite (proj2 (Z.ltb_lt _ _)) by (unfold MAX_NUM_CE; lia). Qed.
Lemma add_sdu_ok l n ptr s : (length (p_sdus s) < 14)%nat ->
  add_sdu l n ptr s = Ok (s <| p_ptr := ptr |> <| p_sdus := p_sdus s ++ [(l, n)] |>).
Proof. intros H. unfold add_sdu. by rewrite (proj2 (Z.ltb_lt _ _)) by (unfold NB_RB_MAX, maxDRB; lia). Qed.
Lemma u16_small z : 0 <= z < 65536 -> u16 z = z.
Proof. intros H. by apply wrapu_small. Qed.
Lemma u8_small z : 0 <= z < 256 -> u8 z = z.
Proof. intros H. by apply wrapu_small. Qed.

(** The sizes of a prefix are below those of the whole. *)
Lemma parsable_prefix limit size es pre e post :
  (forall l, 0 <= size l) -> parsable limit size es -> es = pre ++ e :: post ->
  placed limit e /\ (forall l, e = EFixed l -> l <> SHORT_PADDING -> (length (ces_of pre) < 5)%nat) /\
  (forall l n, e = ESdu l n -> (length (sdus_of pre) < 14)%nat) /\ (length pre < 255)%nat /\
  0 <= ce_total size pre /\ ce_total size (pre ++ [e]) < 65536.
Proof.
  intros Hs (Hpl & Hc & Hsd & Hlen & Htot) ->.
  apply Forall_app in Hpl as [_ Hpl]. apply Forall_cons in Hpl as [Hpl _]. split; [done|].
  rewrite ces_of_app, length_app in Hc. rewrite sdus_of_app, length_app in Hsd. rewrite length_app in Hlen. cbn [length] in Hlen.
  replace (pre ++ e :: post) with ((pre ++ [e]) ++ post) in Htot by by rewrite <- app_assoc.
  unfold ce_total in Htot at 1. rewrite sumZ_app in Htot. fold (ce_total size (pre ++ [e])) (ce_total size post) in Htot.
  pose proof (ce_total_nonneg size post Hs). pose proof (ce_total_nonneg size pre Hs).
  repeat split; try lia.
  - intros l -> Hl. cbn in Hc. destruct (Z.eqb_spec l SHORT_PADDING); [done | cbn in Hc; lia].
  - intros l n ->. cbn in Hsd. lia.
Qed.
Lemma parse_sdu_step st pre l n :
  p_ptr st = Z.of_nat (length (marked pre)) -> p_sdus st = sdus_of pre -> (length (sdus_of pre) < 14)%nat ->
  (s ← add_sdu l n (p_ptr st + Z.of_nat (length (enc (ESdu l n)))) st; Ok (Some s)) =
    Ok (Some (st <| p_ptr := Z.of_nat (length (marked (pre ++ [ESdu l n]))) |> <| p_sdus := sdus_of (pre ++ [ESdu l n]) |>)).
Proof.
  intros Hp Hs Hn. rewrite add_sdu_ok by congruence. cbn [mbind res_bind].
  rewrite marked_len_snoc, sdus_of_app, Hp, Hs. done.
Qed.

Lemma dl_step es pre e post :
  parsable UE_CONT_RES dl_ce_size es -> count UE_CONT_RES es <= 1 -> es = pre ++ e :: post ->
  parse_element dl_ce e (dl_state pre) = Ok (Some (dl_state (pre ++ [e]))).
Proof.
  intros Hp Hone E. destruct (parsable_prefix _ _ _ _ _ _ dl_ce_size_nonneg Hp E) as (Hpl & Hc & Hs & Hlen & Ht0 & Ht).
  pose proof (count_range SHORT_PADDING pre). pose proof (count_range UE_CONT_RES pre). pose proof (count_range UE_CONT_RES post).
  destruct e as [l | l n]; cbn [parse_element placed] in *.
  - unfold dl_ce. destruct (Z.eqb_spec l SHORT_PADDING) as [-> | Hl].
    + unfold dl_state. cbn -[marked ces_of sdus_of count ce_total]. do 2 f_equal. unfold update_field. cbn -[marked ces_of sdus_of count ce_total].
      rewrite marked_len_snoc, ces_of_app, sdus_of_app, !count_snoc, ce_total_snoc, u8_small by lia.
      rewrite (bool_decide_false (_ = EFixed UE_CONT_RES)), (bool_decide_true (_ = EFixed SHORT_PADDING)) by done. cbn.
      rewrite !app_nil_r. f_equal; lia.
    + rewrite add_ce_ok by (apply (Hc l); done). cbn [mbind res_bind]. rewrite ce_total_snoc in Ht.
      assert (Hces : ces_of (pre ++ [EFixed l]) = ces_of pre ++ [l])
        by (rewrite ces_of_app; cbn; by rewrite (proj2 (Z.eqb_neq _ _) Hl)).
      assert (Hct : forall k, k <> l -> count k (pre ++ [EFixed l]) = count k pre)
        by (intros k Hk; rewrite count_snoc, bool_decide_false by congruence; cbn; lia).
      unfold dl_state. rewrite Hces, marked_len_snoc, sdus_of_app, app_nil_r, ce_total_snoc, (Hct SHORT_PADDING) by done.
      cbn -[marked ces_of sdus_of count ce_total dl_ce_size].
      destruct (Z.eqb_spec l TIMING_ADV_CMD) as [-> | Hta]; [|destruct (Z.eqb_spec l UE_CONT_RES) as [-> | Hcr]].
      * change (dl_ce_size TIMING_ADV_CMD) with 1 in *. rewrite u16_small, (Hct UE_CONT_RES) by (done || lia). done.
      * change (dl_ce_size UE_CONT_RES) with 6 in *. rewrite count_snoc, bool_decide_true by done. cbn [b2z].
        assert (count UE_CONT_RES pre = 0) as ->.
        { rewrite E in Hone. replace (pre ++ EFixed UE_CONT_RES :: post) with ((pre ++ [EFixed UE_CONT_RES]) ++ post) in Hone by by rewrite <- app_assoc.
          unfold count in Hone at 1. rewrite sumZ_app in Hone. fold (count UE_CONT_RES (pre ++ [EFixed UE_CONT_RES])) (count UE_CONT_RES post) in Hone.
          rewrite count_snoc, bool_decide_true in Hone by done. cbn [b2z] in Hone. lia. }
        cbn -[marked ces_of sdus_of count ce_total]. rewrite u16_small by lia. done.
      * assert (dl_ce_size l = 0) as -> by (unfold dl_ce_size; by rewrite !(proj2 (Z.eqb_neq _ _)) by done).
        rewrite (Hct UE_CONT_RES), Z.add_0_r by done. done.
  - rewrite (parse_sdu_step (dl_state pre) pre l n) by (done || by apply (Hs l n)).
    do 2 f_equal. unfold dl_state. rewrite ces_of_app, app_nil_r, !count_snoc, ce_total_sdu. rewrite !bool_decide_false by done.
    cbn [b2z]. rewrite !Z.add_0_r. done.
Qed.
Lemma ul_step es pre e post :
  parsable EXTENDED_POWER_HEADROOM ul_ce_size es -> Forall (fun e => e <> EFixed EXTENDED_POWER_HEADROOM) es ->
  es = pre ++ e :: post -> parse_element ul_ce e (ul_state pre) = Ok (Some (ul_state (pre ++ [e]))).
Proof.
  intros Hp Hne E. destruct (parsable_prefix _ _ _ _ _ _ ul_ce_size_nonneg Hp E) as (Hpl & Hc & Hs & Hlen & Ht0 & Ht).
  assert (He : e <> EFixed EXTENDED_POWER_HEADROOM) by (rewrite Forall_forall in Hne; apply Hne; rewrite E; set_solver).
  destruct e as [l | l n]; cbn [parse_element placed] in *.
  - unfold ul_ce. destruct (Z.eqb_spec l SHORT_PADDING) as [-> | Hl].
    + unfold ul_state. rewrite marked_len_snoc, ces_of_app, sdus_of_app, ce_total_snoc, !app_nil_r, Z.add_0_r. done.
    + rewrite add_ce_ok by (apply (Hc l); done). cbn [mbind res_bind]. rewrite ce_total_snoc in Ht.
      unfold ul_state. rewrite ces_of_app, marked_len_snoc, sdus_of_app, app_nil_r, ce_total_snoc.
      replace (ces_of [EFixed l]) with [l] by (cbn; by rewrite (proj2 (Z.eqb_neq _ _) Hl)).
      assert (l <> 25) by (intros ->; by apply He). unfold ul_ce_size in *. unfold LONG_BSR, CRNTI, POWER_HEADROOM, TRUNCATED_BSR, SHORT_BSR, SHORT_PADDING, EXTENDED_POWER_HEADROOM in *.
      cbn -[marked ces_of sdus_of ce_total Z.eqb].
      assert (l = 26 \/ l = 27 \/ l = 28 \/ l = 29 \/ l = 30) as [-> | [-> | [-> | [-> | ->]]]] by lia;
        cbn -[marked ces_of sdus_of ce_total] in Ht |- *; rewrite u16_small by lia; done.
  - rewrite (parse_sdu_step (ul_state pre) pre l n) by (done || by apply (Hs l n)).
    do 2 f_equal. unfold ul_state. rewrite ces_of_app, app_nil_r, ce_total_sdu. done.
Qed.

(** ** A header written and read back *)
Lemma length_le_marked es : (length es <= length (marked es))%nat.
Proof.
  induction es as [|e es IH]; [cbn; lia|]. rewrite marked_cons, length_app, length_mark.
  destruct (enc_cons e) as (r & -> & _). cbn [length]. lia.
Qed.
Lemma parse_fuel es l rest : exists f, S (length (marked es ++ l :: rest)) = (length es + S f)%nat.
Proof.
  exists (S (length (marked es ++ l :: rest)) - length es - 1)%nat. pose proof (length_le_marked es).
  rewrite length_app. cbn [length]. lia.
Qed.
(** The last subheader, of an SDU or of padding. *)
Inductive closes (es : list element) : list element -> Z -> Prop :=
| closes_padding : closes es es SHORT_PADDING
| closes_sdu es0 l n : es = es0 ++ [ESdu l n] -> closes es es0 l.

Section Closed.
Context (limit : Z) (ce : Z -> bool -> parse_state -> res (option parse_state)) (size : Z -> Z)
  (st : list element -> parse_state) (es : list element).
Hypothesis Hlimit : 0 <= limit <= 31.
Hypothesis Hstart : st [] = parse_start.
Hypothesis Hptr : forall es, p_ptr (st es) = Z.of_nat (length (marked es)).
Hypothesis Hces : forall es, p_ces (st es) = ces_of es.
Hypothesis Hsdus : forall es, p_sdus (st es) = sdus_of es.
Hypothesis Hsize : forall es, ce_len (st es) = ce_total size es.
Hypothesis Hpadding : exists s', ce SHORT_PADDING true (st es) = Ok (Some s') /\ p_ptr s' = p_ptr (st es) + 1 /\
  p_ces s' = p_ces (st es) /\ p_sdus s' = p_sdus (st es).
Hypothesis Hstep : forall pre e post, es = pre ++ e :: post -> parse_element ce e (st pre) = Ok (Some (st (pre ++ [e]))).
Hypothesis Hparsable : parsable limit size es.

Lemma parse_closed es0 l ces payload :
  closes es es0 l -> ce_total size es = Z.of_nat (length ces) ->
  (l <> SHORT_PADDING -> Z.of_nat (length payload) = sumZ snd (sdus_of es)) ->
  exists s, parse_loop limit ce (header es0 l ces ++ payload) (Z.of_nat (length (header es0 l ces)) + Z.of_nat (length payload))
      (S (length (header es0 l ces ++ payload))) parse_start = Ok (Some s) /\
    p_ptr s = Z.of_nat (length (marked es0)) + 1 /\ p_ces s = ces_of es /\ p_sdus s = sdus_of es.
Proof using All.
  intros Hclose Hce Htb. destruct Hparsable as (Hpl & _ & Hn & _ & _).
  assert (Hmem : header es0 l ces ++ payload = marked es0 ++ l :: ces ++ payload) by (unfold header; by rewrite <- !app_assoc).
  assert (Hlen : length (header es0 l ces) = (length (marked es0) + 1 + length ces)%nat)
    by (unfold header; rewrite !length_app; cbn; lia).
  rewrite Hmem. destruct (parse_fuel es0 l (ces ++ payload)) as (f & ->). rewrite <- Hstart.
  assert (exists post, es = es0 ++ post) as (post0 & Hes0)
    by (destruct Hclose as [| es0 l n ->]; [exists []; by rewrite app_nil_r | by exists [ESdu l n]]).
  rewrite (parse_marked limit ce ltac:(lia) st Hptr _ _ (S f) (l :: ces ++ payload) es0 []); cycle 1.
  { done. } { rewrite Hes0 in Hpl. by apply Forall_app in Hpl as [? _]. }
  { intros pre e post E. cbn [app]. apply (Hstep pre e (post ++ post0)). rewrite Hes0, E. by rewrite <- app_assoc. }
  cbn [app]. destruct Hclose as [| es0 l n Hes].
  - cbn [parse_loop]. rewrite Hptr, (array_get_app (marked es) _ _ _ eq_refl). cbn [mbind res_bind].
    change (Z.testbit SHORT_PADDING 5) with false. change (Z.land SHORT_PADDING 31) with SHORT_PADDING. cbn [negb].
    rewrite (proj2 (Z.ltb_ge SHORT_PADDING limit)) by (unfold SHORT_PADDING; lia).
    destruct Hpadding as (s' & -> & Hp & Hc & Hs). cbn [mbind res_bind]. exists s'.
    split; [done|]. rewrite Hp, Hc, Hs, Hptr, Hces, Hsdus. done.
  - rewrite Hes in Hpl, Hn, Htb, Hce |- *. rewrite sdus_of_app, length_app in Hn. cbn in Hn.
    apply Forall_app in Hpl as [_ Hpl]. apply Forall_cons in Hpl as [[Hl Hnn] _].
    rewrite sdus_of_app, sumZ_app in Htb. cbn in Htb. rewrite ce_total_sdu in Hce.
    specialize (Htb ltac:(unfold SHORT_PADDING; lia)).
    eexists. split; [apply (parse_last_sdu limit ce _ _ f (st es0) (marked es0) l (ces ++ payload) n);
      rewrite ?Hptr, ?Hsdus, ?Hsize; (done || lia)|].
    cbn. by rewrite Hces, Hsdus, ces_of_app, sdus_of_app, app_nil_r.
Qed.
End Closed.

(** ** The header of the DL-SCH *)
Definition dl_ce_lcids (drx ta : Z) (ucr : option (list Z)) : list Z :=
  (if drx =? 255 then [] else [DRX_CMD]) ++ (if ta =? 0 then [] else [TIMING_ADV_CMD]) ++
  (match ucr with Some _ => [UE_CONT_RES] | None => [] end).
Definition dl_ce_bytes (ta : Z) (ucr : option (list Z)) : list Z :=
  (if ta =? 0 then [] else [Z.land (ta + 31) 63]) ++ default [] ucr.
Definition elements (sp : Z) (ces : list Z) (sdus : list (Z * Z)) : list element :=
  replicate (Z.to_nat sp) (EFixed SHORT_PADDING) ++ map EFixed ces ++ sdu_elts sdus.

Lemma Forall_fixed_replicate n : Forall is_fixed (replicate n (EFixed SHORT_PADDING)).
Proof. apply Forall_forall. intros e He. apply elem_of_replicate in He as [-> _]. done. Qed.
Lemma Forall_fixed_map ces : Forall is_fixed (map EFixed ces).
Proof. induction ces; by constructor. Qed.
Lemma elements_bound sp ces sdus : 0 <= sp <= 2 ->
  (length (marked (elements sp ces sdus)) <= 6 + length ces + 3 * length sdus)%nat.
Proof.
  intros Hsp. unfold elements, sdu_elts. rewrite !marked_app, !length_app.
  pose proof (length_marked (replicate (Z.to_nat sp) (EFixed SHORT_PADDING))) as H1. rewrite length_replicate in H1.
  pose proof (length_marked (map (fun sdu : Z * Z => ESdu sdu.1 sdu.2) sdus)) as H2. rewrite length_map in H2.
  assert (length (marked (map EFixed ces)) = length ces) by (induction ces; [done|]; cbn; by f_equal). lia.
Qed.
(** The control elements, one after another, after [sp] paddings. *)
Definition ce_stage (N : nat) (sp : Z) (ces bytes : list Z) (s : hdr_state) : Prop :=
  writes N s (replicate (Z.to_nat sp) (EFixed SHORT_PADDING) ++ map EFixed ces) /\ h_ces s = bytes.
Lemma ce_stage_start mem sp : 0 <= sp <= 2 -> (2 <= length mem)%nat ->
  exists s, put_short_padding sp (Mk_hdr mem 0 false 0 []) = Ok s /\ ce_stage (length mem) sp [] [] s.
Proof.
  intros Hsp Hl. destruct (put_short_padding_writes mem sp Hsp Hl) as (s & E & Hw & Hc).
  exists s. unfold ce_stage. cbn. by rewrite app_nil_r.
Qed.
Lemma put_ce_stage N sp ces bytes s l ce :
  ce_stage N sp ces bytes s -> 0 <= sp <= 2 -> (length ces + 3 <= N)%nat -> 0 <= l < 32 ->
  exists s', put_ce l ce s = Ok s' /\ ce_stage N sp (ces ++ [l]) (bytes ++ ce) s'.
Proof.
  intros [Hw Hc] Hsp HN Hl.
  destruct (put_ce_writes N s _ l ce Hw) as (s' & E & Hw' & Hc').
  - apply Forall_app. split; [apply Forall_fixed_replicate | apply Forall_fixed_map].
  - pose proof (elements_bound sp ces [] Hsp) as H. unfold elements in H. cbn [sdu_elts map length] in H. rewrite app_nil_r in H.
    assert (length (marked (map EFixed ces)) = length ces) by (clear; induction ces; [done|]; cbn; by f_equal).
    assert (length (marked (replicate (Z.to_nat sp) (EFixed SHORT_PADDING))) = Z.to_nat sp)
      by (generalize (Z.to_nat sp); clear; intros n; induction n; [done|]; cbn; by f_equal).
    rewrite marked_app, length_app. lia.
  - done.
  - exists s'. split; [done|]. split; [|by rewrite Hc', Hc]. by rewrite map_app, app_assoc.
Qed.
Lemma ce_stage_sdus N sp ces bytes s sdus :
  ce_stage N sp ces bytes s -> 0 <= sp <= 2 -> Forall sdu_ok sdus -> (3 * (2 + length ces + length sdus) + 4 <= N)%nat ->
  exists s', dl_sdus sdus s = Ok s' /\ writes N s' (elements sp ces sdus) /\ h_ces s' = bytes.
Proof.
  intros [Hw Hc] Hsp Hok HN. destruct (dl_sdus_writes N sdus s _ Hw Hok) as (s' & E & Hw' & Hc').
  - rewrite length_app, length_replicate, length_map. lia.
  - exists s'. split; [done|]. split; [|by rewrite Hc', Hc]. unfold elements. by rewrite app_assoc.
Qed.

Lemma dl_header_writes mac_header sdus drx ta ucr sp pp :
  0 <= sp <= 2 -> Forall sdu_ok sdus -> (length sdus <= 14)%nat -> (80 <= length mac_header)%nat ->
  match ucr with Some id => length id = 6%nat | None => True end ->
  exists s, generate_dlsch_header mac_header sdus drx ta ucr sp pp = finish_header pp s /\
    writes (length mac_header) s (elements sp (dl_ce_lcids drx ta ucr) sdus) /\ h_ces s = dl_ce_bytes ta ucr.
Proof.
  intros Hsp Hsdus Hn HN Hid. unfold generate_dlsch_header, dl_ce_lcids, dl_ce_bytes. set (N := length mac_header) in *.
  destruct (ce_stage_start mac_header sp Hsp ltac:(lia)) as (s0 & -> & H0). cbn [mbind res_bind].
  assert (exists s1, (if drx =? 255 then Ok s0 else put_ce DRX_CMD [] s0) = Ok s1 /\
    ce_stage N sp (if drx =? 255 then [] else [DRX_CMD]) [] s1) as (s1 & -> & H1).
  { destruct (drx =? 255); [by exists s0|]. by apply (put_ce_stage N sp [] [] s0 DRX_CMD [] H0 Hsp ltac:(cbn; lia)). }
  cbn [mbind res_bind]. set (ces1 := if drx =? 255 then [] else [DRX_CMD]) in *.
  assert (Hl1 : (length ces1 <= 1)%nat) by (subst ces1; destruct (drx =? 255); cbn; lia). clearbody ces1.
  assert (exists s2, (if ta =? 0 then Ok s1 else put_ce TIMING_ADV_CMD [Z.land (ta + 31) 63] s1) = Ok s2 /\
    ce_stage N sp (ces1 ++ if ta =? 0 then [] else [TIMING_ADV_CMD]) (if ta =? 0 then [] else [Z.land (ta + 31) 63]) s2) as (s2 & -> & H2).
  { destruct (ta =? 0); [exists s1; by rewrite app_nil_r|].
    by apply (put_ce_stage N sp _ [] s1 TIMING_ADV_CMD _ H1 Hsp ltac:(lia)). }
  cbn [mbind res_bind]. rewrite app_assoc. set (ces2 := ces1 ++ _) in *.
  assert (Hl2 : (length ces2 <= 2)%nat) by (subst ces2; rewrite length_app; destruct (ta =? 0); cbn; lia). clearbody ces2.
  destruct ucr as [id|]; cbn [default from_option].
  - rewrite (mem_read_ok id 0 6) by lia. rewrite take_ge by (rewrite length_drop; lia). rewrite drop_0. cbn [mbind res_bind].
    destruct (put_ce_stage N sp ces2 _ s2 UE_CONT_RES id H2 Hsp) as (s3 & -> & Hs3); [lia | done|]. cbn [mbind res_bind].
    destruct (ce_stage_sdus N sp _ _ s3 sdus Hs3 Hsp Hsdus) as (s4 & -> & Hs4 & Hc4); [rewrite length_app; cbn; lia|].
    by exists s4.
  - cbn [mbind res_bind]. rewrite !app_nil_r.
    destruct (ce_stage_sdus N sp _ _ s2 sdus H2 Hsp Hsdus) as (s4 & -> & Hs4 & Hc4); [lia|].
    by exists s4.
Qed.

(** A header and what follows it: the last element is closed by padding, or is the last SDU. *)
Definition closed_header (pp : Z) (es : list element) (ces : list Z) (r : res (Z * list Z)) (N : nat) : Prop :=
  exists es0 l m, closes es es0 l /\ (l = SHORT_PADDING \/ pp = 0) /\
    r = Ok (Z.of_nat (length (header es0 l ces)), m) /\ length m = N /\
    take (length (header es0 l ces)) m = header es0 l ces.
Lemma closes_length es es0 l ces : closes es es0 l ->
  (length (header es0 l ces) <= length (marked es) + 1 + length ces)%nat.
Proof.
  intros H. unfold header. rewrite !length_app. cbn [length].
  destruct H as [| es0 l n ->]; [lia|]. rewrite marked_snoc, length_app. lia.
Qed.
Lemma finish_closed N s sp ces sdus bytes pp :
  writes N s (elements sp ces sdus) -> h_ces s = bytes -> 0 <= sp <= 2 -> (length sdus <= 14)%nat -> (length ces <= 5)%nat ->
  (length bytes <= 16)%nat -> (80 <= N)%nat -> 0 <= pp -> (pp = 0 -> sdus <> []) ->
  closed_header pp (elements sp ces sdus) bytes (finish_header pp s) N.
Proof.
  intros Hw Hc Hsp Hn Hces Hb HN Hpp Hne. pose proof (elements_bound sp ces sdus Hsp) as Hlen.
  destruct (decide (pp = 0)) as [-> | Hp].
  - destruct sdus as [|[l n] sdus _] using rev_ind; [by specialize (Hne eq_refl)|].
    assert (He : elements sp ces (sdus ++ [(l, n)]) = elements sp ces sdus ++ [ESdu l n])
      by (unfold elements, sdu_elts; rewrite map_app, <- !app_assoc; done).
    rewrite He in *. pose proof (closes_sdu _ (elements sp ces sdus) l n eq_refl) as Hcl.
    pose proof (closes_length _ _ _ bytes Hcl) as Hh. rewrite length_app in Hn, Hlen. cbn [length] in Hn, Hlen.
    pose proof (writes_last_at _ _ _ _ Hw) as Hat. cbn [elt_lcid] in Hat.
    destruct (finish_last N s (elements sp ces sdus) l Hat) as (m & E & Hm);
      [rewrite Hc; rewrite marked_snoc, length_app in Hlen; lia | rewrite Hc; lia|].
    rewrite Hc in E, Hm. exists (elements sp ces sdus), l, m. split; [done|]. split; [by right | done].
  - pose proof (closes_padding (elements sp ces sdus)) as Hcl. pose proof (closes_length _ _ _ bytes Hcl) as Hh.
    destruct (finish_padding N s (elements sp ces sdus) pp Hw) as (m & E & Hm); [lia | rewrite Hc; lia | rewrite Hc; lia|].
    rewrite Hc in E, Hm. exists (elements sp ces sdus), SHORT_PADDING, m. split; [done|]. split; [by left | done].
Qed.

Lemma ces_of_elements sp ces sdus : Forall (fun l => l <> SHORT_PADDING) ces -> ces_of (elements sp ces sdus) = ces.
Proof.
  intros H. unfold elements. rewrite !ces_of_app.
  assert (ces_of (sdu_elts sdus) = []) as -> by (induction sdus as [|[]]; done). rewrite app_nil_r.
  assert (ces_of (replicate (Z.to_nat sp) (EFixed SHORT_PADDING)) = []) as -> by (induction (Z.to_nat sp); done).
  induction H as [|l ces Hl _ IH]; [done|]. cbn. rewrite (proj2 (Z.eqb_neq _ _) Hl). cbn in *. by f_equal.
Qed.
Lemma sdus_of_elements sp ces sdus : sdus_of (elements sp ces sdus) = sdus.
Proof.
  unfold elements. rewrite !sdus_of_app.
  assert (sdus_of (replicate (Z.to_nat sp) (EFixed SHORT_PADDING)) = []) as -> by (induction (Z.to_nat sp); done).
  assert (sdus_of (map EFixed ces) = []) as -> by (induction ces; done).
  induction sdus as [|[l n] sdus IH]; [done|]. cbn in *. by f_equal.
Qed.
Lemma ce_total_elements size sp ces sdus : size SHORT_PADDING = 0 ->
  ce_total size (elements sp ces sdus) = sumZ size ces.
Proof.
  intros H. unfold elements, ce_total. rewrite !sumZ_app.
  assert (forall n, sumZ (fun e => match e with EFixed l => size l | ESdu _ _ => 0 end) (replicate n (EFixed SHORT_PADDING)) = 0) as ->
    by (intros n; unfold sumZ; induction n as [|n IH]; [done|]; cbn [replicate foldr]; by rewrite IH, H).
  assert (sumZ (fun e => match e with EFixed l => size l | ESdu _ _ => 0 end) (sdu_elts sdus) = 0) as ->.
  { unfold sdu_elts, sumZ. induction sdus as [|sdu sdus IH]; [done|]. cbn [map foldr]. by rewrite IH. }
  unfold sumZ. induction ces as [|l ces IH]; [done|]. cbn [map foldr] in *. lia.
Qed.
Lemma placed_elements limit sp ces sdus :
  0 <= limit <= 31 -> Forall (fun l => limit <= l < 32) ces -> Forall (fun sdu => 0 <= sdu.1 < limit /\ 0 <= sdu.2 < 32768) sdus ->
  Forall (placed limit) (elements sp ces sdus).
Proof.
  intros Hl Hc Hs. unfold elements. rewrite !Forall_app. repeat split.
  - apply Forall_forall. intros e He. apply elem_of_replicate in He as [-> _]. cbn. unfold SHORT_PADDING. lia.
  - by apply Forall_map.
  - apply Forall_map. by apply (Forall_impl _ _ _ Hs).
Qed.
Lemma elements_parsable limit size sp ces sdus :
  0 <= limit <= 31 -> size SHORT_PADDING = 0 -> 0 <= sp <= 2 -> Forall (fun l => limit <= l < 31) ces -> (length ces <= 5)%nat ->
  Forall (fun sdu => 0 <= sdu.1 < limit /\ 0 <= sdu.2 < 32768) sdus -> (length sdus <= 14)%nat -> sumZ size ces < 65536 ->
  parsable limit size (elements sp ces sdus).
Proof.
  intros Hl Hz Hsp Hces Hn Hsdus Hm Hsum. split; [|repeat split].
  - apply placed_elements; [done | | done]. apply (Forall_impl _ _ _ Hces). cbn. intros; lia.
  - rewrite ces_of_elements; [done|]. apply (Forall_impl _ _ _ Hces). unfold SHORT_PADDING. cbn. intros; lia.
  - by rewrite sdus_of_elements.
  - unfold elements, sdu_elts. rewrite !length_app, length_replicate, !length_map. lia.
  - by rewrite ce_total_elements.
Qed.

Lemma count_elements k sp ces sdus : k <> SHORT_PADDING -> count k (elements sp ces sdus) = count k (map EFixed ces).
Proof.
  intros Hk. unfold elements, count. rewrite !sumZ_app.
  assert (forall n, sumZ (fun e => b2z (bool_decide (e = EFixed k))) (replicate n (EFixed SHORT_PADDING)) = 0) as ->
    by (intros n; unfold sumZ; induction n as [|n IH]; [done|]; cbn [replicate foldr]; by rewrite IH, bool_decide_false by congruence).
  assert (sumZ (fun e => b2z (bool_decide (e = EFixed k))) (sdu_elts sdus) = 0) as ->
    by (unfold sumZ, sdu_elts; induction sdus as [|sdu sdus IH]; [done|]; cbn [map foldr]; by rewrite IH, bool_decide_false by done).
  lia.
Qed.

(** The parser of the UE on a header of the eNB. *)
Lemma dl_parse sp drx ta ucr sdus es0 l bytes payload :
  0 <= sp <= 2 -> Forall (fun sdu => 0 <= sdu.1 < UE_CONT_RES /\ 0 <= sdu.2 < 32768) sdus -> (length sdus <= 14)%nat ->
  match ucr with Some id => length id = 6%nat | None => True end ->
  let ces := dl_ce_lcids drx ta ucr in
  bytes = dl_ce_bytes ta ucr -> closes (elements sp ces sdus) es0 l ->
  (l <> SHORT_PADDING -> Z.of_nat (length payload) = sumZ snd sdus) ->
  exists s, parse_header (header es0 l bytes ++ payload) (Z.of_nat (length (header es0 l bytes)) + Z.of_nat (length payload)) = Ok (Some s) /\
    p_ptr s = Z.of_nat (length (marked es0)) + 1 /\ p_ces s = ces /\ p_sdus s = sdus.
Proof.
  intros Hsp Hsdus Hn Hid ces -> Hcl Htb.
  assert (Hces : Forall (fun l => UE_CONT_RES <= l < 31) ces /\ (length ces <= 3)%nat /\ sumZ dl_ce_size ces = Z.of_nat (length (dl_ce_bytes ta ucr)) /\
    count UE_CONT_RES (elements sp ces sdus) <= 1).
  { subst ces. unfold dl_ce_lcids, dl_ce_bytes, DRX_CMD, TIMING_ADV_CMD, UE_CONT_RES. 
    rewrite count_elements by done. destruct (drx =? 255), (ta =? 0), ucr as [id|]; cbn [app map default from_option];
      (split; [repeat (apply Forall_cons; split); try apply Forall_nil_2; lia | split; [cbn; lia | split; [cbn; rewrite ?length_app; cbn; lia|]]]);
      unfold count, sumZ; cbn [foldr]; repeat case_bool_decide; cbn; (lia || congruence). }
  destruct Hces as (Hc1 & Hc2 & Hc3 & Hc4).
  pose proof (elements_parsable UE_CONT_RES dl_ce_size sp ces sdus ltac:(done) eq_refl Hsp Hc1 ltac:(lia) Hsdus Hn) as Hpar.
  assert (Hsz : (length (dl_ce_bytes ta ucr) <= 7)%nat)
    by (unfold dl_ce_bytes; rewrite length_app; destruct (ta =? 0), ucr as [id|]; cbn in *; lia).
  destruct (parse_closed UE_CONT_RES dl_ce dl_ce_size dl_state (elements sp ces sdus)) with (es0 := es0) (l := l)
    (ces := dl_ce_bytes ta ucr) (payload := payload) as (s & E & Hs); try done.
  - eexists. split; [reflexivity|]. done.
  - intros pre e post E. apply (dl_step (elements sp ces sdus) pre e post); [apply Hpar; lia | done | done].
  - apply Hpar. lia.
  - by rewrite ce_total_elements.
  - by rewrite sdus_of_elements.
  - exists s. rewrite sdus_of_elements, ces_of_elements in Hs; [done|]. apply (Forall_impl _ _ _ Hc1). unfold SHORT_PADDING. cbn. intros; lia.
Qed.

(** ** The header of the UL-SCH *)
Definition bsr_ce (truncated_bsr short_bsr : option Z) (long_bsr : option BSR_LONG) : list Z * list Z :=
  match truncated_bsr, short_bsr, long_bsr with
  | Some b, _, _ => ([TRUNCATED_BSR], [b])
  | None, Some b, _ => ([SHORT_BSR], [b])
  | None, None, Some b => ([LONG_BSR], long_bsr_bytes b)
  | None, None, None => ([], [])
  end.
Definition ul_ce_lcids (phr crnti tb sb : option Z) (lb : option BSR_LONG) : list Z :=
  (match phr with Some _ => [POWER_HEADROOM] | None => [] end) ++ (match crnti with Some _ => [CRNTI] | None => [] end) ++ (bsr_ce tb sb lb).1.
Definition ul_ce_bytes (phr crnti tb sb : option Z) (lb : option BSR_LONG) : list Z :=
  (match phr with Some b => [b] | None => [] end) ++ (match crnti with Some c => crnti_bytes c | None => [] end) ++
  (bsr_ce tb sb lb).2.

(** With padding to come every SDU has its length; without, the last one has none. *)
Lemma ul_sdus_padding pp sdus s : 0 < pp -> ul_sdus 0 pp sdus s = dl_sdus sdus s.
Proof.
  intros Hpp. revert s. induction sdus as [|[l n] sdus IH]; intros s; [done|]. cbn [ul_sdus dl_sdus].
  rewrite (proj2 (Z.eqb_neq pp 0)) by lia. cbn [Z.eqb negb orb]. rewrite andb_false_r.
  destruct (next_element last_size s) as [s1|]; [|done]. cbn [mbind res_bind].
  destruct (put_sdu l n s1) as [s2|]; [|done]. cbn [mbind res_bind]. apply IH.
Qed.
Lemma ul_sdus_last sp sdus l n s :
  ul_sdus sp 0 (sdus ++ [(l, n)]) s =
    (s ← dl_sdus sdus s; s ← (if first_element s then next_element last_size s else Ok s); put_fixed l s).
Proof.
  revert s. induction sdus as [|[l1 n1] sdus IH]; intros s; cbn [app ul_sdus dl_sdus].
  - rewrite bool_decide_true by done. rewrite (Z.eqb_refl 0), orb_true_r. done.
  - rewrite bool_decide_false by (intros H; by apply app_nil in H as [_ H]). cbn [andb].
    destruct (next_element last_size s) as [s1|]; [|done]. cbn [mbind res_bind].
    destruct (put_sdu l1 n1 s1) as [s2|]; [|done]. cbn [mbind res_bind]. apply IH.
Qed.
Lemma last_fixed_at N s es l :
  writes N s es -> (length (marked es) < N)%nat -> 0 <= l < 32 ->
  exists s', (s ← (if first_element s then next_element last_size s else Ok s); put_fixed l s) = Ok s' /\
    last_at N s' es l /\ h_ces s' = h_ces s.
Proof.
  intros Hw HN Hl. destruct (first_element s) eqn:Hf.
  - destruct (next_ready N s es last_size Hw) as (s1 & -> & Hr & Hc); [done|]. cbn [mbind res_bind].
    destruct (put_fixed_ready N s1 es l Hr HN Hl) as (s2 & rest & -> & Hc2 & Hl2 & _ & Hp2 & Hm2 & _).
    exists s2. split; [done|]. split; [|congruence]. split; [done|]. split; [|by exists rest]. rewrite Hp2. apply Hr.
  - destruct Hw as (HL & [(-> & Hp & _) | (es0 & e & rest & _ & _ & Hf' & _)]); [|congruence].
    unfold marked in HN |- *. cbn in HN |- *. unfold put_fixed.
    destruct (h_mem s) as [|b mem] eqn:Hm; [cbn in HL; lia|]. rewrite Hp, array_set_0. cbn [mbind res_bind].
    rewrite land_31_small by done. eexists. split; [reflexivity|]. split; [|done]. split; [done|]. split; [done|]. by exists mem.
Qed.

Definition opt_ce (N : nat) (sp : Z) (l : Z) (ce : option (list Z)) : Prop :=
  forall ces bytes s, ce_stage N sp ces bytes s -> (length ces + 3 <= N)%nat ->
  exists s', match ce with Some b => put_ce l b s | None => Ok s end = Ok s' /\
    ce_stage N sp (ces ++ match ce with Some _ => [l] | None => [] end) (bytes ++ default [] ce) s'.
Lemma opt_ce_ok N sp l ce : 0 <= sp <= 2 -> 0 <= l < 32 -> opt_ce N sp l ce.
Proof.
  intros Hsp Hl ces bytes s Hs HN. destruct ce as [b|]; cbn [default from_option].
  - by apply (put_ce_stage N sp ces bytes s l b).
  - exists s. by rewrite !app_nil_r.
Qed.
Lemma ul_header_stage mac_header sp phr crnti tb sb lb :
  0 <= sp <= 2 -> (80 <= length mac_header)%nat ->
  exists s, ce_stage (length mac_header) sp (ul_ce_lcids phr crnti tb sb lb) (ul_ce_bytes phr crnti tb sb lb) s /\
    forall sdus pp, generate_ulsch_header mac_header sp sdus phr crnti tb sb lb pp =
      (s ← ul_sdus sp pp sdus s; finish_header pp s).
Proof.
  intros Hsp HN. set (N := length mac_header) in *. unfold generate_ulsch_header, ul_ce_lcids, ul_ce_bytes.
  destruct (ce_stage_start mac_header sp Hsp ltac:(lia)) as (s0 & -> & H0). cbn [mbind res_bind]. fold N in H0.
  destruct (opt_ce_ok N sp POWER_HEADROOM ((fun b => [b]) <$> phr) Hsp ltac:(done) _ _ s0 H0) as (s1 & E1 & H1); [cbn; lia|].
  destruct (opt_ce_ok N sp CRNTI (crnti_bytes <$> crnti) Hsp ltac:(done) _ _ s1 H1) as (s2 & E2 & H2); [destruct phr; cbn; lia|].
  assert (exists s3, match tb, sb, lb with
      | Some b, _, _ => put_ce TRUNCATED_BSR [b] s2
      | None, Some b, _ => put_ce SHORT_BSR [b] s2
      | None, None, Some b => put_ce LONG_BSR (long_bsr_bytes b) s2
      | None, None, None => Ok s2
      end = Ok s3 /\ ce_stage N sp (ul_ce_lcids phr crnti tb sb lb) (ul_ce_bytes phr crnti tb sb lb) s3) as (s3 & E3 & H3).
  { unfold ul_ce_lcids, ul_ce_bytes, bsr_ce.
    match type of H2 with ce_stage _ _ ?l _ _ => assert (Hl : (length l <= 2)%nat) by (destruct phr, crnti; cbn; lia) end.
    destruct tb as [b|], sb as [b'|], lb as [b''|];
      first [ edestruct (put_ce_stage N sp _ _ s2 TRUNCATED_BSR [b] H2 Hsp) as (s3 & E & H3); [lia | done|]
            | edestruct (put_ce_stage N sp _ _ s2 SHORT_BSR [b'] H2 Hsp) as (s3 & E & H3); [lia | done|]
            | edestruct (put_ce_stage N sp _ _ s2 LONG_BSR (long_bsr_bytes b'') H2 Hsp) as (s3 & E & H3); [lia | done|]
            | exists s2; split; [done|]; destruct phr, crnti; cbn in *; exact H2 ];
      (exists s3; split; [exact E|]; destruct phr, crnti; cbn in *; exact H3). }
  unfold ul_ce_lcids, ul_ce_bytes in H3.
  exists s3. split; [exact H3|]. intros sdus pp.
  destruct phr as [b|]; cbn [fmap option_fmap option_map] in E1; rewrite ?E1; [|injection E1 as <-]; cbn [mbind res_bind];
    (destruct crnti as [c|]; cbn [fmap option_fmap option_map] in E2; rewrite ?E2; [|injection E2 as <-]; cbn [mbind res_bind]);
    rewrite E3; done.
Qed.
Lemma ulsch_closed mac_header sp phr crnti tb sb lb sdus pp :
  0 <= sp <= 2 -> Forall sdu_ok sdus -> (length sdus <= 14)%nat -> (80 <= length mac_header)%nat ->
  0 <= pp -> (pp = 0 -> sdus <> []) -> (sp = 0 \/ pp = 0) ->
  closed_header pp (elements sp (ul_ce_lcids phr crnti tb sb lb) sdus) (ul_ce_bytes phr crnti tb sb lb)
    (generate_ulsch_header mac_header sp sdus phr crnti tb sb lb pp) (length mac_header).
Proof.
  intros Hsp Hsdus Hn HN Hpp Hne Hor. destruct (ul_header_stage mac_header sp phr crnti tb sb lb Hsp HN) as (s & Hs & ->).
  set (ces := ul_ce_lcids phr crnti tb sb lb) in *. set (bytes := ul_ce_bytes phr crnti tb sb lb) in *.
  assert (Hces : (length ces <= 3)%nat) by (subst ces; unfold ul_ce_lcids, bsr_ce; destruct phr, crnti, tb, sb, lb; cbn; lia).
  assert (Hb : (length bytes <= 6)%nat) by (subst bytes; unfold ul_ce_bytes, bsr_ce; destruct phr, crnti, tb, sb, lb; cbn; lia).
  clearbody ces bytes. destruct (decide (pp = 0)) as [-> | Hp].
  - destruct sdus as [|[l n] sdus _] using rev_ind; [by specialize (Hne eq_refl)|].
    rewrite length_app in Hn. cbn in Hn. apply Forall_app in Hsdus as [Hsdus Hl]. apply Forall_cons in Hl as [[Hl Hln] _]. cbn in Hl.
    rewrite ul_sdus_last. destruct (ce_stage_sdus _ sp ces bytes s sdus Hs Hsp Hsdus) as (s1 & -> & Hw & Hc); [lia|].
    cbn [mbind res_bind]. pose proof (elements_bound sp ces sdus Hsp) as Hlen.
    destruct (last_fixed_at _ s1 _ l Hw) as (s2 & E2 & Hat & Hc2); [lia | done|].
    destruct (if first_element s1 then next_element last_size s1 else Ok s1) as [s1'|]; [|discriminate E2]. cbn [mbind res_bind] in E2 |- *.
    rewrite E2. cbn [mbind res_bind].
    assert (He : elements sp ces (sdus ++ [(l, n)]) = elements sp ces sdus ++ [ESdu l n])
      by (unfold elements, sdu_elts; rewrite map_app, <- !app_assoc; done).
    rewrite Hc in Hc2. pose proof (closes_sdu _ (elements sp ces sdus) l n He) as Hcl. 
    destruct (finish_last _ s2 _ l Hat) as (m & E & Hm); [rewrite Hc2; lia | rewrite Hc2; unfold header; rewrite !length_app; cbn; lia|].
    rewrite Hc2 in E, Hm. exists (elements sp ces sdus), l, m. split; [done|]. split; [by right | done].
  - destruct Hor as [-> | ->]; [|done]. rewrite ul_sdus_padding by lia.
    destruct (ce_stage_sdus _ 0 ces bytes s sdus Hs Hsp Hsdus) as (s1 & -> & Hw & Hc); [lia|].
    cbn [mbind res_bind]. apply finish_closed; try done; lia.
Qed.

(** The parser of the eNB on a header of the UE. *)
Lemma ul_ce_lcids_ok phr crnti tb sb lb : let ces := ul_ce_lcids phr crnti tb sb lb in
  Forall (fun l => EXTENDED_POWER_HEADROOM < l < 31) ces /\ (length ces <= 3)%nat /\
  sumZ ul_ce_size ces = Z.of_nat (length (ul_ce_bytes phr crnti tb sb lb)).
Proof.
  cbn zeta. unfold ul_ce_lcids, ul_ce_bytes, bsr_ce.
  destruct phr, crnti, tb, sb, lb; cbn [fst snd app]; (split; [|split; [cbn; lia | done]]);
    repeat (apply Forall_cons; split); try apply Forall_nil_2; done.
Qed.
Lemma ul_parse sp phr crnti tb sb lb sdus es0 l bytes payload :
  0 <= sp <= 2 -> Forall (fun sdu => 0 <= sdu.1 < EXTENDED_POWER_HEADROOM /\ 0 <= sdu.2 < 32768) sdus -> (length sdus <= 14)%nat ->
  let ces := ul_ce_lcids phr crnti tb sb lb in
  bytes = ul_ce_bytes phr crnti tb sb lb -> closes (elements sp ces sdus) es0 l ->
  (l <> SHORT_PADDING -> Z.of_nat (length payload) = sumZ snd sdus) ->
  exists s, parse_ulsch_header (header es0 l bytes ++ payload) (Z.of_nat (length (header es0 l bytes)) + Z.of_nat (length payload)) = Ok (Some s) /\
    p_ptr s = Z.of_nat (length (marked es0)) + 1 /\ p_ces s = ces /\ p_sdus s = sdus.
Proof.
  intros Hsp Hsdus Hn ces -> Hcl Htb.
  destruct (ul_ce_lcids_ok phr crnti tb sb lb) as (Hc1 & Hc2 & Hc3). fold ces in Hc1, Hc2, Hc3.
  assert (Hsz : (length (ul_ce_bytes phr crnti tb sb lb) <= 6)%nat)
    by (unfold ul_ce_bytes, bsr_ce; destruct phr, crnti, tb, sb, lb; cbn; lia).
  assert (Hc1' : Forall (fun l => EXTENDED_POWER_HEADROOM <= l < 31) ces) by (apply (Forall_impl _ _ _ Hc1); cbn; intros; lia).
  pose proof (elements_parsable EXTENDED_POWER_HEADROOM ul_ce_size sp ces sdus ltac:(done) eq_refl Hsp Hc1' ltac:(lia) Hsdus Hn ltac:(lia)) as Hpar.
  assert (Hne : Forall (fun e => e <> EFixed EXTENDED_POWER_HEADROOM) (elements sp ces sdus)).
  { unfold elements. rewrite !Forall_app. repeat split.
    - apply Forall_forall. intros e He. apply elem_of_replicate in He as [-> _]. done.
    - apply Forall_map, (Forall_impl _ _ _ Hc1). intros x Hx [=]. lia.
    - apply Forall_map, (Forall_impl _ _ _ Hsdus). done. }
  destruct (parse_closed EXTENDED_POWER_HEADROOM ul_ce ul_ce_size ul_state (elements sp ces sdus)) with (es0 := es0) (l := l)
    (ces := ul_ce_bytes phr crnti tb sb lb) (payload := payload) as (s & E & Hs); try done.
  - eexists. split; [reflexivity|]. done.
  - intros pre e post E. by apply (ul_step (elements sp ces sdus) pre e post).
  - by rewrite ce_total_elements.
  - by rewrite sdus_of_elements.
  - exists s. rewrite sdus_of_elements, ces_of_elements in Hs; [done|]. apply (Forall_impl _ _ _ Hc1). unfold SHORT_PADDING. cbn. intros; lia.
Qed.
