(* ===== verification/MacTransfer.v ===== *)
(** * A transport block of the DL-SCH, from the eNB to the UE

    The header of MacPdu.v, the control elements and the SDUs, taken apart by [ue_send_sdu]: the UE gives
    every SDU to the layer above that its LCID names, in the order of the block, after the control
    elements.  With them, the theorems on the buffer status tables and on the control elements whose
    writer and reader disagree. *)

From S2P Require Import Prelude RlcStore MacPdu MacDemux MacPduSpec MacHeaderSpec.

(** ** What the UE does with a block *)
Definition sdu_lengths (sdus : list (Z * list Z)) : list (Z * Z) := map (fun sdu => (sdu.1, Z.of_nat (length sdu.2))) sdus.
Definition sdu_bytes (sdus : list (Z * list Z)) : list Z := concat (map snd sdus).
Definition deliver (sdus : list (Z * list Z)) : list mac_event := concat (map (fun sdu => dl_dispatch sdu.1 sdu.2) sdus).
(** The identity the UE expects: the bytes of its CCCH message after the header of Msg3. *)
Definition expected_id (u : UE_MAC_INST) : list Z := take 6 (drop 3 (CCCH_payload u)).
Definition ra_over (u : UE_MAC_INST) : UE_MAC_INST :=
  u <| ue_RA_active := 0 |> <| RA_contention_resolution_timer_active := 0 |>.
Definition dl_outcome (u : UE_MAC_INST) (ta : Z) (ucr : option (list Z)) (sdus : list (Z * list Z))
  : UE_MAC_INST * list mac_event :=
  let advance := if ta =? 0 then [] else [Process_timing_advance (Z.land (ta + 31) 63)] in
  match ucr with
  | Some id =>
      if ue_RA_active u =? 1 then
        if bool_decide (id = expected_id u) then (ra_over u, advance ++ [Ra_succeeded] ++ deliver sdus)
        else (ra_over u, advance ++ [Ra_failed])
      else (u, advance ++ deliver sdus)
  | None => (u, advance ++ deliver sdus)
  end.

Lemma contention_spec n : forall i p1 x r1 p2 y r2 a b,
  length x = n -> length y = n -> a + i = Z.of_nat (length p1) -> b + i = Z.of_nat (length p2) ->
  contention_detected n a b i (p1 ++ x ++ r1) (p2 ++ y ++ r2) = Ok (negb (bool_decide (y = x))).
Proof.
  induction n as [|n IH]; intros i p1 x r1 p2 y r2 a b Hx Hy Ha Hb.
  - apply nil_length_inv in Hx as ->. apply nil_length_inv in Hy as ->. by rewrite bool_decide_true.
  - destruct x as [|c x]; [done|]. destruct y as [|d y]; [done|]. cbn [contention_detected app length] in *.
    rewrite (array_get_app p1), (array_get_app p2) by done. cbn [mbind res_bind].
    destruct (Z.eqb_spec c d) as [-> | Hcd].
    + replace (p1 ++ d :: x ++ r1) with ((p1 ++ [d]) ++ x ++ r1) by by rewrite <- app_assoc.
      replace (p2 ++ d :: y ++ r2) with ((p2 ++ [d]) ++ y ++ r2) by by rewrite <- app_assoc.
      rewrite IH by (rewrite ?length_app; cbn [length]; lia). do 2 f_equal. apply bool_decide_ext. split; congruence.
    + rewrite bool_decide_false by congruence. done.
Qed.

(** The loop over the SDUs. *)
Lemma ue_sdus_spec pre sdus post out :
  ue_sdus (pre ++ sdu_bytes sdus ++ post) (sdu_lengths sdus) (Z.of_nat (length pre)) out = Ok (out ++ deliver sdus).
Proof.
  revert pre out. induction sdus as [|[l bs] sdus IH]; intros pre out; cbn [sdu_lengths map ue_sdus fst snd].
  - by rewrite app_nil_r.
  - unfold sdu_bytes, deliver. cbn [map concat fst snd]. fold (sdu_bytes sdus) (deliver sdus).
    rewrite <- (app_assoc bs), mem_read_app by (rewrite ?length_app; lia).
    rewrite Nat2Z.id, take_app_length. cbn [mbind res_bind]. rewrite (app_assoc pre bs).
    replace (Z.of_nat (length pre) + Z.of_nat (length bs)) with (Z.of_nat (length (pre ++ bs))) by (rewrite length_app; lia).
    fold (sdu_lengths sdus). rewrite IH. by rewrite <- app_assoc.
Qed.

Section Demux.
Context (u : UE_MAC_INST) (Hccch : (9 <= length (CCCH_payload u))%nat).

Lemma contention_at pre id rest : length id = 6%nat ->
  contention_detected 6 3 (Z.of_nat (length pre)) 0 (CCCH_payload u) (pre ++ id ++ rest) = Ok (negb (bool_decide (id = expected_id u))).
Proof using Hccch.
  intros Hid. unfold expected_id.
  assert (E : CCCH_payload u = take 3 (CCCH_payload u) ++ take 6 (drop 3 (CCCH_payload u)) ++ drop 6 (drop 3 (CCCH_payload u)))
    by by rewrite !take_drop.
  rewrite E at 1. apply contention_spec; rewrite ?length_take, ?length_drop; lia.
Qed.

Lemma ue_ces_done fuel mem ces p out : ue_ces fuel mem ces (Z.of_nat (length ces)) p u out = Ok (Some p, u, out).
Proof using Type. destruct fuel; cbn [ue_ces]; by rewrite Z.ltb_irrefl. Qed.
Lemma ue_ces_last_ucr fuel pre id rest ces0 out :
  length id = 6%nat -> (length ces0 <= 5)%nat ->
  ue_ces (S (S fuel)) (pre ++ id ++ rest) (ces0 ++ [UE_CONT_RES]) (Z.of_nat (length ces0)) (Z.of_nat (length pre)) u out =
    Ok (if ue_RA_active u =? 1 then
          if bool_decide (id = expected_id u) then (Some (Z.of_nat (length (pre ++ id))), ra_over u, out ++ [Ra_succeeded])
          else (None, ra_over u, out ++ [Ra_failed])
        else (Some (Z.of_nat (length (pre ++ id))), u, out)).
Proof using Hccch.
  intros Hid Hces. remember (S fuel) as f eqn:Ef. cbn [ue_ces]. rewrite (proj2 (Z.ltb_lt _ _)) by (rewrite length_app; cbn; lia).
  cbn [negb]. rewrite array_get_app by done. cbn [mbind res_bind]. rewrite Z.eqb_refl.
  replace (Z.of_nat (length pre) + 6) with (Z.of_nat (length (pre ++ id))) by (rewrite length_app; lia).
  destruct (ue_RA_active u =? 1).
  - rewrite contention_at by done. cbn [mbind res_bind]. destruct (bool_decide _); cbn [negb]; [|done].
    subst f. cbn [ue_ces]. by rewrite (proj2 (Z.ltb_ge _ _)) by (rewrite length_app; cbn; lia).
  - replace (Z.of_nat (length ces0) + 1) with (Z.of_nat (length (ces0 ++ [UE_CONT_RES]))) by (rewrite length_app; cbn; lia).
    apply ue_ces_done.
Qed.
Lemma ue_ces_ta fuel pre t rest ces0 ces out :
  ue_ces (S fuel) (pre ++ t :: rest) (ces0 ++ TIMING_ADV_CMD :: ces) (Z.of_nat (length ces0)) (Z.of_nat (length pre)) u out =
    ue_ces fuel ((pre ++ [t]) ++ rest) ((ces0 ++ [TIMING_ADV_CMD]) ++ ces) (Z.of_nat (length (ces0 ++ [TIMING_ADV_CMD])))
      (Z.of_nat (length (pre ++ [t]))) u (out ++ [Process_timing_advance t]).
Proof using Hccch.
  cbn [ue_ces]. rewrite (proj2 (Z.ltb_lt _ _)) by (rewrite length_app; cbn; lia). cbn [negb].
  rewrite array_get_app by done. cbn [mbind res_bind]. cbn [TIMING_ADV_CMD UE_CONT_RES Z.eqb Pos.eqb].
  rewrite array_get_app by done. cbn [mbind res_bind]. rewrite <- !app_assoc. cbn [app]. rewrite !length_app. cbn [length].
  f_equal; lia.
Qed.

(** The control elements of a block without DRX, and the SDUs. *)
Lemma ue_demux pre ta ucr sdus post :
  match ucr with Some id => length id = 6%nat | None => True end ->
  let mem := pre ++ dl_ce_bytes ta ucr ++ sdu_bytes sdus ++ post in
  ('(p, u', out) ← ue_ces (S (length (dl_ce_lcids 255 ta ucr))) mem (dl_ce_lcids 255 ta ucr) 0 (Z.of_nat (length pre)) u [];
   match p with
   | None => Ok (u', out)
   | Some p => out ← ue_sdus mem (sdu_lengths sdus) p out; Ok (u', out)
   end) = Ok (dl_outcome u ta ucr sdus).
Proof using Hccch.
  intros Hid. cbn zeta. unfold dl_ce_bytes, dl_ce_lcids, dl_outcome. cbn [Z.eqb Pos.eqb app].
  set (t := Z.land (ta + 31) 63). clearbody t.
  assert (Htail : forall pre ces0 out, (length ces0 <= 1)%nat ->
    ('(p, u', out) ← ue_ces (S (length (match ucr with Some _ => [UE_CONT_RES] | None => [] end))) (pre ++ default [] ucr ++ sdu_bytes sdus ++ post)
        (ces0 ++ match ucr with Some _ => [UE_CONT_RES] | None => [] end) (Z.of_nat (length ces0)) (Z.of_nat (length pre)) u out;
     match p with
     | None => Ok (u', out)
     | Some p => out ← ue_sdus (pre ++ default [] ucr ++ sdu_bytes sdus ++ post) (sdu_lengths sdus) p out; Ok (u', out)
     end) = Ok match ucr with
               | Some id =>
                   if ue_RA_active u =? 1 then
                     if bool_decide (id = expected_id u) then (ra_over u, out ++ [Ra_succeeded] ++ deliver sdus)
                     else (ra_over u, out ++ [Ra_failed])
                   else (u, out ++ deliver sdus)
               | None => (u, out ++ deliver sdus)
               end).
  { intros pr ces0 out Hc. destruct ucr as [id|]; cbn [default from_option length].
    - rewrite ue_ces_last_ucr by (done || lia). cbn [mbind res_bind]. rewrite (app_assoc pr id).
      destruct (ue_RA_active u =? 1); [destruct (bool_decide _)|]; cbn [mbind res_bind]; [| done |];
        rewrite ue_sdus_spec; cbn [mbind res_bind]; by rewrite <- ?app_assoc.
    - rewrite app_nil_r, ue_ces_done. cbn [mbind res_bind app]. rewrite ue_sdus_spec. done. }
  destruct (ta =? 0); cbn [app].
  - apply (Htail pre [] []). cbn. lia.
  - pose proof (Htail (pre ++ [t]) [TIMING_ADV_CMD] [Process_timing_advance t] ltac:(cbn; lia)) as H.
    rewrite <- (app_assoc pre [t]) in H. etransitivity; [|exact H]. cbn [length].
    pose proof (ue_ces_ta (S (length (match ucr with Some _ => [UE_CONT_RES] | None => [] end))) pre t
      (default [] ucr ++ sdu_bytes sdus ++ post) [] (match ucr with Some _ => [UE_CONT_RES] | None => [] end) []) as H1.
    cbn [app] in H1. rewrite <- (app_assoc pre [t]) in H1. cbn [app length] in H1 |- *.
    change (Z.of_nat 0) with 0 in H1. rewrite H1. done.
Qed.
End Demux.

(** ** The contract of the DL-SCH *)
Lemma header_split es l bytes : header es l bytes = (marked es ++ [l]) ++ bytes.
Proof. unfold header. by rewrite <- app_assoc. Qed.
Lemma sum_lengths sdus : sumZ snd (sdu_lengths sdus) = Z.of_nat (length (sdu_bytes sdus)).
Proof.
  unfold sdu_lengths, sdu_bytes, sumZ. induction sdus as [|[l bs] sdus IH]; [done|]. cbn [map foldr concat fst snd].
  rewrite IH, length_app. lia.
Qed.
Definition sdus_fit (limit : Z) (sdus : list (Z * list Z)) : Prop :=
  Forall (fun sdu => 0 <= sdu.1 < limit /\ Z.of_nat (length sdu.2) < 32768) sdus /\ (length sdus <= 14)%nat.
Lemma sdus_fit_lengths limit sdus : limit <= 32 -> sdus_fit limit sdus ->
  Forall (fun sdu => 0 <= sdu.1 < limit /\ 0 <= sdu.2 < 32768) (sdu_lengths sdus) /\ Forall sdu_ok (sdu_lengths sdus) /\
  (length (sdu_lengths sdus) <= 14)%nat.
Proof.
  intros Hl [H Hn]. unfold sdu_lengths. rewrite length_map. split; [|split; [|done]];
    apply Forall_map, (Forall_impl _ _ _ H); intros [l bs] [H1 H2]; cbn in *; unfold sdu_ok; cbn; lia.
Qed.

(** The header of a block, and what the UE reads in it. *)
Lemma dl_sch_header mac_header ta ucr short_padding post_padding sdus filler :
  (80 <= length mac_header)%nat -> sdus_fit UE_CONT_RES sdus ->
  match ucr with Some id => length id = 6%nat | None => True end ->
  0 <= short_padding <= 2 -> 0 <= post_padding -> (post_padding = 0 -> sdus <> [] /\ filler = []) ->
  exists size m hdr st,
    generate_dlsch_header mac_header (sdu_lengths sdus) 255 ta ucr short_padding post_padding = Ok (size, m) /\
    take (Z.to_nat size) m = hdr ++ dl_ce_bytes ta ucr /\
    (let block := (hdr ++ dl_ce_bytes ta ucr) ++ sdu_bytes sdus ++ filler in
     parse_header block (Z.of_nat (length block)) = Ok (Some st)) /\
    p_ptr st = Z.of_nat (length hdr) /\ p_ces st = dl_ce_lcids 255 ta ucr /\ p_sdus st = sdu_lengths sdus.
Proof.
  intros HN Hfit Hid Hsp Hpp Hend. destruct (sdus_fit_lengths UE_CONT_RES sdus ltac:(done) Hfit) as (Hpl & Hok & Hn).
  destruct (dl_header_writes mac_header (sdu_lengths sdus) 255 ta ucr short_padding post_padding Hsp Hok Hn HN Hid) as (s & Hgen & Hw & Hc).
  assert (Hces : (length (dl_ce_lcids 255 ta ucr) <= 5)%nat) by (unfold dl_ce_lcids; destruct (ta =? 0), ucr; cbn; lia).
  assert (Hb : (length (dl_ce_bytes ta ucr) <= 16)%nat) by (unfold dl_ce_bytes; destruct (ta =? 0), ucr; cbn in *; lia).
  destruct (finish_closed _ s _ _ _ _ post_padding Hw Hc Hsp Hn Hces Hb HN Hpp) as (es0 & l & m & Hcl & Hl & E & Hm & Htake).
  { intros Hp. destruct (Hend Hp) as [Hne _]. by destruct sdus. }
  rewrite E in Hgen.
  destruct (dl_parse short_padding 255 ta ucr (sdu_lengths sdus) es0 l _ (sdu_bytes sdus ++ filler) Hsp Hpl Hn Hid eq_refl Hcl)
    as (st & Hparse & Hptr & Hpces & Hpsdus).
  { intros Hl31. destruct Hl as [-> | Hp]; [done|]. destruct (Hend Hp) as [_ ->]. by rewrite app_nil_r, sum_lengths. }
  eexists _, m, (marked es0 ++ [l]), st. split; [exact Hgen|]. rewrite Nat2Z.id, <- header_split. split; [exact Htake|].
  cbn zeta. rewrite length_app, Nat2Z.inj_add. split; [exact Hparse|]. split; [|done].
  rewrite Hptr, length_app. cbn. lia.
Qed.

(** C7: What [ue_send_sdu] does with a transport block made by [generate_dlsch_header] in
    an array of at least 80 bytes, the SDUs (at most 14, LCID below 28, fewer than 32768
    bytes each) and any padding: a timing advance goes to the physical layer, a contention
    resolution ends the random access of a UE that is in one (with the failure of the
    procedure, and nothing of the block delivered, when the identity is not that of the
    UE's own message), and every SDU goes where [dl_dispatch] takes its LCID, with its
    bytes, in the order of the block. This holds for short and long SDUs, for one or two
    bytes of padding in front and any number at the end, and, when nothing follows the
    last SDU, without its length in the header; the UE's CCCH buffer has at least 9 bytes.
    *)
Theorem dl_sch_transfer mac_header u ta ucr short_padding post_padding sdus filler :
  (80 <= length mac_header)%nat -> (9 <= length (CCCH_payload u))%nat -> sdus_fit UE_CONT_RES sdus ->
  match ucr with Some id => length id = 6%nat | None => True end ->
  0 <= short_padding <= 2 -> 0 <= post_padding -> (post_padding = 0 -> sdus <> [] /\ filler = []) ->
  exists size m,
    generate_dlsch_header mac_header (sdu_lengths sdus) 255 ta ucr short_padding post_padding = Ok (size, m) /\
    let block := take (Z.to_nat size) m ++ sdu_bytes sdus ++ filler in
    ue_send_sdu u block (Z.of_nat (length block)) = Ok (dl_outcome u ta ucr sdus).
Proof.
  intros HN Hccch Hfit Hid Hsp Hpp Hend.
  destruct (dl_sch_header mac_header ta ucr short_padding post_padding sdus filler HN Hfit Hid Hsp Hpp Hend)
    as (size & m & hdr & st & Hgen & Htake & Hparse & Hptr & Hces & Hsdus).
  exists size, m. split; [exact Hgen|]. rewrite Htake. cbn zeta in Hparse |- *. unfold ue_send_sdu. rewrite Hparse.
  cbn [mbind res_bind]. rewrite Hptr, Hces, Hsdus, <- app_assoc. exact (ue_demux u Hccch hdr ta ucr sdus filler Hid).
Qed.

(** ** Buffer status indices *)
Definition bsr_entry (i : Z) : Z := nth (Z.to_nat i) BSR_TABLE 0.
Lemma bsr_entry_get i : 0 <= i < 64 -> array_get BSR_TABLE i = Ok (bsr_entry i).
Proof.
  intros Hi. unfold bsr_entry, array_get. rewrite (proj2 (Z.leb_le _ _)) by lia.
  destruct (lookup_lt_is_Some_2 BSR_TABLE (Z.to_nat i)) as [v Hv]; [change (length BSR_TABLE) with 64%nat; lia|].
  rewrite Hv. by rewrite (nth_lookup_Some _ _ 0 v Hv).
Qed.
(** The bisection keeps the value between the two entries; above the last but one it stops there. *)
Lemma locate_loop_spec v : 0 <= v < 2 ^ 31 -> forall fuel jl ju, (Z.to_nat (ju - jl) <= fuel)%nat -> 0 <= jl < ju -> ju <= 63 ->
  bsr_entry jl <= v -> (v < bsr_entry ju \/ ju = 63) ->
  exists j, locate_loop fuel BSR_TABLE true v jl ju = Ok j /\ 0 <= j < 63 /\ bsr_entry j <= v /\ (v < bsr_entry (j + 1) \/ j = 62).
Proof.
  intros Hv. induction fuel as [|fuel IH]; intros jl ju Hf Hj Hu Hlo Hhi; [lia|]. cbn [locate_loop].
  destruct (Z.gtb_spec (ju - jl) 1) as [H1 | H1]; cbn [negb].
  - rewrite Z.shiftr_div_pow2 by lia. change (2 ^ 1) with 2. set (jm := (ju + jl) / 2). assert (jl < jm < ju) by (subst jm; mod_lia).
    rewrite bsr_entry_get by lia. cbn [mbind res_bind]. unfold u32. rewrite wrapu_small by lia.
    destruct (Z.geb_spec v (bsr_entry jm)); cbn [Bool.eqb]; apply IH; (lia || (by left) || done).
  - exists jl. assert (ju = jl + 1) as -> by lia. split; [done|]. split; [lia|]. split; [done|]. destruct Hhi; [by left | right; lia].
Qed.
Lemma bsr_sorted i j : 0 <= i < j -> j < 64 -> bsr_entry i < bsr_entry j.
Proof.
  intros Hi Hj. assert (H : forallb (fun a => forallb (fun b => negb (a <? b)%nat || (nth a BSR_TABLE 0 <? nth b BSR_TABLE 0)) (seq 0 64)) (seq 0 64) = true)
    by (vm_compute; reflexivity).
  rewrite forallb_forall in H. specialize (H (Z.to_nat i) ltac:(apply in_seq; lia)). rewrite forallb_forall in H.
  specialize (H (Z.to_nat j) ltac:(apply in_seq; lia)). unfold bsr_entry. apply orb_true_iff in H as [H | H]; [|by apply Z.ltb_lt].
  apply negb_true_iff, Nat.ltb_ge in H. lia.
Qed.

(** The linear search of the eNB. *)
Lemma bsr_loop_spec n : 0 <= n < 2 ^ 31 -> forall fuel i, Z.of_nat fuel = 64 - i -> 1 <= i -> bsr_entry (i - 1) <= n ->
  exists j, bsr_loop fuel i n = Ok j /\ 1 <= j <= 64 /\ bsr_entry (j - 1) <= n /\ (j < 64 -> n < bsr_entry j).
Proof.
  intros Hn. induction fuel as [|fuel IH]; intros i Hf Hi Hlo; cbn [bsr_loop]; unfold BSR_TABLE_SIZE.
  - rewrite (proj2 (Z.ltb_ge _ _)) by lia. cbn [negb]. exists i. repeat (split; [done || lia|]). lia.
  - rewrite (proj2 (Z.ltb_lt _ _)) by lia. cbn [negb]. rewrite bsr_entry_get by lia. cbn [mbind res_bind].
    unfold u32. rewrite wrapu_small by lia. destruct (Z.leb_spec (bsr_entry i) n).
    + apply IH; [lia | lia | by replace (i + 1 - 1) with i by lia].
    + exists i. repeat (split; [done || lia|]). lia.
Qed.

(** The two searches of the buffer status table.  The bisection of the UE ends on the least index whose
    size is not below the bytes in the buffer, and on the last index above the table; so the size the eNB
    takes from the index it receives is never below the bytes that wait, for up to 300000 of them, and the
    index before would be.  The search of the eNB ends on the greatest index whose size is not above the
    bytes. *)
Theorem bsr_index_bounds v : 0 <= v < 2 ^ 31 ->
  (exists i, locate_BsrIndexByBufferSize BSR_TABLE BSR_TABLE_SIZE v = Ok i /\ 0 <= i < 64 /\
     (v <= 300000 -> v <= bsr_entry i) /\ (0 < i -> bsr_entry (i - 1) < v)) /\
  (exists i, bytes_to_bsr_index v = Ok i /\ 0 <= i < 64 /\ bsr_entry i <= v /\ (i < 63 -> v < bsr_entry (i + 1))).
Proof.
  intros Hv. assert (Hu : u32 v = v) by (apply wrapu_small; lia). split.
  - unfold locate_BsrIndexByBufferSize. cbn [assert_that BSR_TABLE_SIZE Z.gtb Z.leb Z.compare Pos.compare Pos.compare_cont mbind res_bind].
    destruct (Z.eqb_spec v 0) as [-> | Hne]; [exists 0; repeat split; try done; lia|].
    change (u8 (BSR_TABLE_SIZE - 1)) with 63. rewrite !bsr_entry_get by lia. cbn [mbind res_bind].
    change (bsr_entry 63 >=? bsr_entry 0) with true.
    destruct (locate_loop_spec v Hv (S (length BSR_TABLE)) 0 63) as (j & -> & Hj & Hlo & Hhi);
      [change (length BSR_TABLE) with 64%nat; lia | lia | lia | change (bsr_entry 0) with 0; lia | by right|].
    cbn [mbind res_bind]. rewrite bsr_entry_get by lia. cbn [mbind res_bind]. rewrite Hu.
    destruct (Z.eqb_spec v (bsr_entry j)) as [-> | Hvj].
    + exists j. repeat split; try lia. intros Hj0. apply bsr_sorted; lia.
    + exists (j + 1). unfold u8. rewrite wrapu_small by (change (2 ^ 8) with 256; lia). replace (j + 1 - 1) with j by lia.
      repeat split; try lia. intros H3. destruct Hhi as [Hhi | ->]; [lia | exact H3].
  - unfold bytes_to_bsr_index. rewrite (proj2 (Z.ltb_ge v 0)) by lia.
    change (bsr_loop 64 0 v) with (t ← array_get BSR_TABLE 0; if t <=? u32 v then bsr_loop 63 (0 + 1) v else Ok 0).
    rewrite bsr_entry_get by lia. cbn [mbind res_bind]. change (bsr_entry 0) with 0. rewrite Hu.
    rewrite (proj2 (Z.leb_le 0 v)) by lia.
    destruct (bsr_loop_spec v Hv 63 1) as (j & E & Hj & Hlo & Hhi); [lia | lia | change (bsr_entry (1 - 1)) with 0; lia|].
    change (0 + 1) with 1. rewrite E. cbn [mbind res_bind]. exists (j - 1). unfold u32. rewrite wrapu_small by lia.
    split; [done|]. split; [lia|]. split; [done|]. intros H. replace (j - 1 + 1) with j by lia. apply Hhi. lia.
Qed.
Lemma bsr_index_bounds_witness : 0 <= 1000 < 2 ^ 31 /\
  (exists i, locate_BsrIndexByBufferSize BSR_TABLE BSR_TABLE_SIZE 1000 = Ok i /\ 0 <= i < 64 /\
     (1000 <= 300000 -> 1000 <= bsr_entry i) /\ (0 < i -> bsr_entry (i - 1) < 1000)) /\
  locate_BsrIndexByBufferSize BSR_TABLE BSR_TABLE_SIZE 1000 = Ok 31.
Proof.
  split; [lia|]. split; [exact (proj1 (bsr_index_bounds 1000 ltac:(lia))) | reflexivity].
Defined.

(** A short and a long SDU behind a timing advance and a contention resolution, with one byte of padding. *)
Definition sample_ue : UE_MAC_INST := Mk_ue_mac 1 1 ([32; 6; 31; 1; 2; 3; 4; 5; 6] ++ replicate 119 0) 0 0.
Definition sample_sdus : list (Z * list Z) := [(CCCH, [10; 20; 30]); (3, replicate 130 7)].
Lemma dl_sch_transfer_witness :
  exists size m,
    generate_dlsch_header (replicate 80 0) (sdu_lengths sample_sdus) 255 1 (Some [1; 2; 3; 4; 5; 6]) 1 0 = Ok (size, m) /\
    let block := take (Z.to_nat size) m ++ sdu_bytes sample_sdus ++ [] in
    ue_send_sdu sample_ue block (Z.of_nat (length block)) =
      Ok (ra_over sample_ue, [Process_timing_advance 32; Ra_succeeded; Mac_rrc_data_ind CCCH [10; 20; 30];
                              Mac_rlc_data_ind false 3 (replicate 130 7)]).
Proof.
  apply (dl_sch_transfer (replicate 80 0) sample_ue 1 (Some [1; 2; 3; 4; 5; 6]) 1 0 sample_sdus []).
  - rewrite length_replicate. lia.
  - cbn. lia.
  - split; [|cbn; lia]. repeat (apply Forall_cons; split); try apply Forall_nil_2; cbn; unfold UE_CONT_RES, CCCH; lia.
  - reflexivity.
  - lia.
  - lia.
  - intros _. split; [discriminate | reflexivity].
Defined.

(** ** The multicast channel *)
Definition mch_state (es : list element) : parse_state :=
  Mk_parse (Z.of_nat (length (marked es))) (ces_of es) (sdus_of es) 0 0 0.
Definition mch_outcome (u : UE_MAC_INST) (sdus : list (Z * list Z)) : UE_MAC_INST * list mac_event :=
  foldl (fun r (sdu : Z * list Z) => let '(u, ev) := mch_dispatch r.1 sdu.1 sdu.2 in (u, r.2 ++ ev)) (u, []) sdus.
Lemma ce_total_zero es : ce_total (fun _ => 0) es = 0.
Proof. unfold ce_total, sumZ. induction es as [|[l | l n] es IH]; cbn [foldr]; [done | lia | lia]. Qed.
Lemma mch_parse sp sdus es0 l payload :
  0 <= sp <= 2 -> Forall (fun sdu => 0 <= sdu.1 < SHORT_PADDING /\ 0 <= sdu.2 < 32768) sdus -> (length sdus <= 14)%nat ->
  closes (elements sp [] sdus) es0 l -> (l <> SHORT_PADDING -> Z.of_nat (length payload) = sumZ snd sdus) ->
  exists s, parse_mch_header (header es0 l [] ++ payload) (Z.of_nat (length (header es0 l [])) + Z.of_nat (length payload)) = Ok (Some s) /\
    p_ptr s = Z.of_nat (length (marked es0)) + 1 /\ p_sdus s = sdus.
Proof.
  intros Hsp Hsdus Hn Hcl Htb.
  assert (Hpar : parsable SHORT_PADDING (fun _ => 0) (elements sp [] sdus)) by (apply elements_parsable; [done | done | done | by apply Forall_nil_2 | cbn; lia | done | done | done]).
  assert (Hstep : forall pre e post, elements sp [] sdus = pre ++ e :: post ->
    parse_element mch_ce e (mch_state pre) = Ok (Some (mch_state (pre ++ [e])))).
  { intros pre e post E.
    destruct (parsable_prefix _ _ _ _ _ _ (fun _ => Z.le_refl 0) Hpar E) as (Hpl & _ & Hs & _).
    destruct e as [k | k n]; cbn [parse_element placed] in *.
    - assert (k = SHORT_PADDING) as -> by (unfold SHORT_PADDING in *; lia). unfold mch_ce, mch_state.
      rewrite marked_len_snoc, ces_of_app, sdus_of_app, !app_nil_r. done.
    - rewrite (parse_sdu_step (mch_state pre) pre k n) by (done || by apply (Hs k n)).
      do 2 f_equal. unfold mch_state. rewrite ces_of_app, app_nil_r. done. }
  destruct (parse_closed SHORT_PADDING mch_ce (fun _ => 0) mch_state (elements sp [] sdus)) with (es0 := es0) (l := l)
    (ces := @nil Z) (payload := payload) as (s & E & Hp & _ & Hs); try done.
  - intros es. by rewrite ce_total_zero.
  - eexists. split; [reflexivity|]. done.
  - by rewrite ce_total_zero.
  - by rewrite sdus_of_elements.
  - exists s. by rewrite sdus_of_elements in Hs.
Qed.
Lemma ue_mch_sdus_spec sdus : forall pre post u out,
  ue_mch_sdus (pre ++ sdu_bytes sdus ++ post) (sdu_lengths sdus) (Z.of_nat (length pre)) u out =
    Ok (foldl (fun r (sdu : Z * list Z) => let '(u, ev) := mch_dispatch r.1 sdu.1 sdu.2 in (u, r.2 ++ ev)) (u, out) sdus).
Proof.
  induction sdus as [|[l bs] sdus IH]; intros pre post u out; [done|]. cbn [sdu_lengths map ue_mch_sdus fst snd foldl].
  unfold sdu_bytes. cbn [map concat fst snd]. fold (sdu_bytes sdus).
  rewrite <- (app_assoc bs), mem_read_app by (rewrite ?length_app; lia).
  rewrite Nat2Z.id, take_app_length. cbn [mbind res_bind]. destruct (mch_dispatch u l bs) as [u' ev]. rewrite (app_assoc pre bs).
  replace (Z.of_nat (length pre) + Z.of_nat (length bs)) with (Z.of_nat (length (pre ++ bs))) by (rewrite length_app; lia).
  fold (sdu_lengths sdus). apply IH.
Qed.
(** The transport block of the MCH is made with the writer of the DL-SCH, without control elements: the UE
    takes its SDUs in their order, the scheduling information in its state, the MCCH to RRC, and the MTCH,
    when it has the scheduling information, to RLC. *)
Theorem mch_transfer mac_header u short_padding post_padding sdus filler :
  (80 <= length mac_header)%nat -> sdus_fit SHORT_PADDING sdus -> 0 <= short_padding <= 2 -> 0 <= post_padding ->
  (post_padding = 0 -> sdus <> [] /\ filler = []) ->
  exists size m,
    generate_dlsch_header mac_header (sdu_lengths sdus) 255 0 None short_padding post_padding = Ok (size, m) /\
    let block := take (Z.to_nat size) m ++ sdu_bytes sdus ++ filler in
    ue_send_mch_sdu u block (Z.of_nat (length block)) = Ok (mch_outcome u sdus).
Proof.
  intros HN Hfit Hsp Hpp Hend. destruct (sdus_fit_lengths SHORT_PADDING sdus ltac:(done) Hfit) as (Hpl & Hok & Hn).
  destruct (dl_header_writes mac_header (sdu_lengths sdus) 255 0 None short_padding post_padding Hsp Hok Hn HN I) as (s & Hgen & Hw & Hc).
  destruct (finish_closed _ s _ _ _ _ post_padding Hw Hc Hsp Hn) as (es0 & l & m & Hcl & Hl & E & Hm & Htake);
    [cbn; lia | cbn; lia | done | done | intros Hp; destruct (Hend Hp); by destruct sdus|].
  rewrite E in Hgen. eexists _, m. split; [exact Hgen|]. rewrite Nat2Z.id, Htake. cbn zeta.
  destruct (mch_parse short_padding (sdu_lengths sdus) es0 l (sdu_bytes sdus ++ filler) Hsp Hpl Hn Hcl) as (st & Hparse & Hptr & Hpsdus).
  { intros Hl31. destruct Hl as [-> | Hp]; [done|]. destruct (Hend Hp) as [_ ->]. by rewrite app_nil_r, sum_lengths. }
  unfold ue_send_mch_sdu. change (dl_ce_bytes 0 None) with (@nil Z). rewrite length_app, Nat2Z.inj_add, Hparse. cbn [mbind res_bind].
  rewrite Hptr, Hpsdus, header_split, app_nil_r.
  replace (Z.of_nat (length (marked es0)) + 1) with (Z.of_nat (length (marked es0 ++ [l]))) by (rewrite length_app; cbn; lia).
  apply ue_mch_sdus_spec.
Qed.
