(* ===== verification/MacUlsch.v ===== *)
(** * The list of UEs and the reception of the UL-SCH (MAC/defs.h, eNB_scheduler_primitives.c, eNB_scheduler_ulsch.c)

    The part of the state of the eNB that the reception of a transport block uses, the operations on the
    list of UEs, and [rx_sdu].  The instance of the eNB is fixed; an array of the source is a list, and an
    index outside it is undefined behaviour.  The calls of RRC, RLC and the physical layer are events. *)

From S2P Require Import Prelude RlcStore MacPdu MacDemux.

Definition NUMBER_OF_UE_MAX : Z := 16.
Definition NB_RA_PROC_MAX : Z := 4.
Definition NOT_A_RNTI : Z := 0.
Definition PHR_MAPPING_OFFSET : Z := 23.
Definition CCCH_PAYLOAD_SIZE_MAX : Z := 128.
Definition SCH_PAYLOAD_SIZE_MAX : Z := 4096.

(** ** State *)
Record UE_TEMPLATE := Mk_template {
  t_rnti : Z; oldNDI : list Z; oldNDI_UL : list Z; ul_active : Z; configured : Z; ul_SR : Z; bsr_info : list Z;
  lcgidmap : list Z; phr_info : Z; phr_info_configured : Z; ul_total_buffer : Z; ul_buffer_creation_time : list Z;
  ul_buffer_info : list Z
}.
#[export] Instance eta_template : Eta UE_TEMPLATE := fun t =>
  Mk_template (t_rnti t) (oldNDI t) (oldNDI_UL t) (ul_active t) (configured t) (ul_SR t) (bsr_info t) (lcgidmap t)
    (phr_info t) (phr_info_configured t) (ul_total_buffer t) (ul_buffer_creation_time t) (ul_buffer_info t).
Record UE_sched_ctrl := Mk_sched {
  ul_inactivity_timer : Z; ul_failure_timer : Z; ul_scheduled : Z; ul_out_of_sync : Z; phr_received : Z
}.
#[export] Instance eta_sched : Eta UE_sched_ctrl := fun s =>
  Mk_sched (ul_inactivity_timer s) (ul_failure_timer s) (ul_scheduled s) (ul_out_of_sync s) (phr_received s).
Record eNB_UE_STATS := Mk_stats {
  num_pdu_rx : list Z; num_bytes_rx : list Z; num_errors_rx : Z; pdu_bytes_rx : Z; total_pdu_bytes_rx : Z;
  total_num_pdus_rx : Z; total_num_errors_rx : Z
}.
#[export] Instance eta_stats : Eta eNB_UE_STATS := fun s =>
  Mk_stats (num_pdu_rx s) (num_bytes_rx s) (num_errors_rx s) (pdu_bytes_rx s) (total_pdu_bytes_rx s)
    (total_num_pdus_rx s) (total_num_errors_rx s).
Record RA_TEMPLATE := Mk_ra {
  ra_active : Z; generate_rar : Z; generate_Msg4 : Z; wait_ack_Msg4 : Z; ra_rnti : Z; cont_res_id : list Z;
  timing_offset : Z; RRC_timer : Z
}.
#[export] Instance eta_ra : Eta RA_TEMPLATE := fun r =>
  Mk_ra (ra_active r) (generate_rar r) (generate_Msg4 r) (wait_ack_Msg4 r) (ra_rnti r) (cont_res_id r)
    (timing_offset r) (RRC_timer r).
Inductive UE_ULSCH_STATUS := S_UL_NONE | S_UL_WAITING | S_UL_SCHEDULED | S_UL_BUFFERED.
Inductive UE_DLSCH_STATUS := S_DL_NONE | S_DL_WAITING | S_DL_SCHEDULED | S_DL_BUFFERED.
Record eNB_STATS := Mk_enb_stats { ulsch_bytes_rx : Z; total_ulsch_bytes_rx : Z; total_ulsch_pdus_rx : Z }.
(** [eNB_mac_inst[enb_mod_idP]], its [UE_list], and the two tables of scheduling information; an array over
    the carriers and the UEs is a list of lists. *)
Record eNB_MAC_INST := Mk_enb {
  UE_template : list (list UE_TEMPLATE); pCC_id : list Z; ordered_CCids : list Z; numactiveCCs : list Z;
  ordered_ULCCids : list Z; numactiveULCCs : list Z; eNB_UE_stats : list (list eNB_UE_STATS);
  sched_ctrl : list UE_sched_ctrl; num_UEs : Z; active : list Z;
  RA_template : list (list RA_TEMPLATE); enb_stats : list eNB_STATS;
  ulsch_info : list (list (Z * UE_ULSCH_STATUS)); dlsch_info : list (list (Z * UE_DLSCH_STATUS))
}.
#[export] Instance eta_enb : Eta eNB_MAC_INST := fun e =>
  Mk_enb (UE_template e) (pCC_id e) (ordered_CCids e) (numactiveCCs e) (ordered_ULCCids e) (numactiveULCCs e)
    (eNB_UE_stats e) (sched_ctrl e) (num_UEs e) (active e) (RA_template e) (enb_stats e) (ulsch_info e) (dlsch_info e).

Inductive enb_event :=
| Ul_in_sync (rnti : Z)
| Pusch_stats_bsr (UE_id tti bsr : Z)
| Enb_rrc_data_ind (rnti channel : Z) (sdu : list Z)
| Enb_rlc_data_ind (rnti channel : Z) (tb : list Z)
| Phy_remove_ue (rnti : Z).

(** Arrays of two dimensions, and a change of one element. *)
Definition array2_get {A} (l : list (list A)) (i j : Z) : res A := r ← array_get l i; array_get r j.
Definition array_upd {A} (l : list A) (i : Z) (f : A -> res A) : res (list A) :=
  x ← array_get l i; y ← f x; array_set l i y.
Definition array2_upd {A} (l : list (list A)) (i j : Z) (f : A -> res A) : res (list (list A)) :=
  array_upd l i (fun r => array_upd r j f).
Definition upd_template (CC_id UE_id : Z) (f : UE_TEMPLATE -> res UE_TEMPLATE) (e : eNB_MAC_INST) : res eNB_MAC_INST :=
  ts ← array2_upd (UE_template e) CC_id UE_id f; Ok (e <| UE_template := ts |>).
Definition upd_sched (UE_id : Z) (f : UE_sched_ctrl -> UE_sched_ctrl) (e : eNB_MAC_INST) : res eNB_MAC_INST :=
  l ← array_upd (sched_ctrl e) UE_id (fun s => Ok (f s)); Ok (e <| sched_ctrl := l |>).
Definition upd_stats (CC_id UE_id : Z) (f : eNB_UE_STATS -> res eNB_UE_STATS) (e : eNB_MAC_INST) : res eNB_MAC_INST :=
  l ← array2_upd (eNB_UE_stats e) CC_id UE_id f; Ok (e <| eNB_UE_stats := l |>).

(** ** The list of UEs *)
Fixpoint find_loop (fuel : nat) (e : eNB_MAC_INST) (rntiP UE_id : Z) : res Z :=
  if negb (UE_id <? NUMBER_OF_UE_MAX) then Ok (-1) else
  match fuel with
  | O => Err OutOfFuel
  | S fuel =>
      a ← array_get (active e) UE_id;
      if negb (a =? 1) then find_loop fuel e rntiP (UE_id + 1)
      else
        cc ← array_get (pCC_id e) UE_id;
        t ← array2_get (UE_template e) cc UE_id;
        if t_rnti t =? rntiP then Ok UE_id else find_loop fuel e rntiP (UE_id + 1)
  end.
Definition find_UE_id (e : eNB_MAC_INST) (rntiP : Z) : res Z := find_loop 16 e rntiP 0.
Definition UE_RNTI (e : eNB_MAC_INST) (UE_id : Z) : res Z :=
  cc ← array_get (pCC_id e) UE_id;
  t ← array2_get (UE_template e) cc UE_id;
  Ok (if t_rnti t >? 0 then t_rnti t else NOT_A_RNTI).

Definition ndi_start (t : UE_TEMPLATE) (harq_pidP : Z) : UE_TEMPLATE :=
  t <| oldNDI := [1; 0; 0; 0; 0; 0; 0; 0] |>
    <| oldNDI_UL := map (fun j => if j =? harq_pidP then 0 else 1) [0; 1; 2; 3; 4; 5; 6; 7] |>.
(** The [memset] of the scheduling control. *)
Definition sched_zero : UE_sched_ctrl := Mk_sched 0 0 0 0 0.
Definition enter_ue (e : eNB_MAC_INST) (cc_idP rntiP harq_pidP UE_id : Z) : res eNB_MAC_INST :=
  e ← upd_template cc_idP UE_id (fun t => Ok (ndi_start (t <| t_rnti := rntiP |> <| configured := 0 |>) harq_pidP)) e;
  n ← array_set (numactiveCCs e) UE_id 1;
  nu ← array_set (numactiveULCCs e) UE_id 1;
  p ← array_set (pCC_id e) UE_id cc_idP;
  o ← array_set (ordered_CCids e) UE_id cc_idP;
  ou ← array_set (ordered_ULCCids e) UE_id cc_idP;
  a ← array_set (active e) UE_id 1;
  e ← upd_sched UE_id (fun _ => sched_zero)
        (e <| numactiveCCs := n |> <| numactiveULCCs := nu |> <| pCC_id := p |> <| ordered_CCids := o |>
           <| ordered_ULCCids := ou |> <| num_UEs := num_UEs e + 1 |> <| active := a |>);
  ul ← array2_upd (ulsch_info e) cc_idP UE_id (fun i => Ok (i.1, S_UL_WAITING));
  dl ← array2_upd (dlsch_info e) cc_idP UE_id (fun i => Ok (i.1, S_DL_WAITING));
  Ok (e <| ulsch_info := ul |> <| dlsch_info := dl |>).
Fixpoint add_loop (fuel : nat) (e : eNB_MAC_INST) (cc_idP rntiP harq_pidP i : Z) : res (eNB_MAC_INST * Z) :=
  if negb (i <? NUMBER_OF_UE_MAX) then Ok (e, -1) else
  match fuel with
  | O => Err OutOfFuel
  | S fuel =>
      a ← array_get (active e) i;
      if a =? 1 then add_loop fuel e cc_idP rntiP harq_pidP (i + 1)
      else e ← enter_ue e cc_idP rntiP harq_pidP i; Ok (e, i)
  end.
Definition add_new_ue (e : eNB_MAC_INST) (cc_idP rntiP harq_pidP : Z) : res (eNB_MAC_INST * Z) :=
  add_loop 16 e cc_idP rntiP harq_pidP 0.

(** The random access processes of a UE that is removed. *)
Definition ra_clear (rntiP : Z) (r : RA_TEMPLATE) : RA_TEMPLATE :=
  if ra_rnti r =? rntiP then
    r <| ra_active := 0 |> <| generate_rar := 0 |> <| generate_Msg4 := 0 |> <| wait_ack_Msg4 := 0 |>
      <| timing_offset := 0 |> <| RRC_timer := 20 |> <| ra_rnti := 0 |>
  else r.
Definition rrc_mac_remove_ue (e : eNB_MAC_INST) (rntiP : Z) : res (eNB_MAC_INST * list enb_event) :=
  UE_id ← find_UE_id e rntiP;
  if UE_id =? -1 then Ok (e, [Phy_remove_ue rntiP])
  else
    cc ← array_get (pCC_id e) UE_id;
    a ← array_set (active e) UE_id 0;
    e ← upd_template cc UE_id (fun t =>
          Ok (t <| bsr_info := [0; 0; 0; 0] |> <| ul_SR := 0 |> <| t_rnti := NOT_A_RNTI |> <| ul_active := 0 |>))
          (e <| active := a |> <| num_UEs := num_UEs e - 1 |>);
    ul ← array2_upd (ulsch_info e) cc UE_id (fun _ => Ok (NOT_A_RNTI, S_UL_NONE));
    dl ← array2_upd (dlsch_info e) cc UE_id (fun _ => Ok (NOT_A_RNTI, S_DL_NONE));
    ra ← array_upd (RA_template e) cc (fun l => Ok (map (ra_clear rntiP) l));
    Ok (e <| ulsch_info := ul |> <| dlsch_info := dl |> <| RA_template := ra |>, [Phy_remove_ue rntiP]).

(** ** Control elements of the UL-SCH *)
(** Activity of a UE: its timers stop, and a UE out of synchronisation is in it again. *)
Definition ue_alive (e : eNB_MAC_INST) (UE_id : Z) : res (eNB_MAC_INST * bool) :=
  s ← array_get (sched_ctrl e) UE_id;
  e ← upd_sched UE_id (fun s => s <| ul_inactivity_timer := 0 |> <| ul_failure_timer := 0 |>) e;
  if ul_out_of_sync s >? 0 then
    e ← upd_sched UE_id (fun s => s <| ul_out_of_sync := 0 |>) e;
    Ok (e, true)
  else Ok (e, false).
Definition phr_ce (b CC_id UE_id : Z) (e : eNB_MAC_INST) : res eNB_MAC_INST :=
  e ← upd_template CC_id UE_id (fun t =>
        Ok (t <| phr_info := i8 (Z.land b 63 - PHR_MAPPING_OFFSET) |> <| phr_info_configured := 1 |>)) e;
  upd_sched UE_id (fun s => s <| phr_received := 1 |>) e.
(** The frame of the first report of a group. *)
Definition creation_time (frameP : Z) (t : Z) : Z := if t =? 0 then u32 frameP else t.
Definition short_bsr_ce (b CC_id UE_id frameP : Z) (e : eNB_MAC_INST) : res eNB_MAC_INST :=
  let lcgid := Z.shiftr b 6 in
  upd_template CC_id UE_id (fun t =>
    v ← array_get BSR_TABLE (Z.land b 63);
    bi ← array_set (bsr_info t) lcgid (Z.land b 63);
    ui ← array_set (ul_buffer_info t) lcgid v;
    ct ← array_upd (ul_buffer_creation_time t) lcgid (fun c => Ok (creation_time frameP c));
    Ok (t <| bsr_info := bi |> <| ul_buffer_info := ui |> <| ul_total_buffer := v |> <| ul_buffer_creation_time := ct |>)) e.
(** The four sizes of a long report. *)
Definition long_bsr_sizes (b0 b1 b2 : Z) : list Z :=
  [Z.shiftr (Z.land b0 252) 2;
   Z.lor (Z.shiftl (Z.land b0 3) 4) (Z.shiftr (Z.land b1 240) 4);
   Z.lor (Z.shiftl (Z.land b1 15) 2) (Z.shiftr (Z.land b2 192) 6);
   Z.land b2 63].
(** The size of one group, and the total. *)
Definition long_bsr_group (lcgid : Z) (t : UE_TEMPLATE) : res UE_TEMPLATE :=
  old ← array_get (ul_buffer_info t) lcgid;
  b ← array_get (bsr_info t) lcgid;
  v ← array_get BSR_TABLE b;
  ui ← array_set (ul_buffer_info t) lcgid v;
  let total := u32 (ul_total_buffer t + v) in
  Ok (t <| ul_buffer_info := ui |>
        <| ul_total_buffer := if total >=? u32 (i32 old) then total - u32 (i32 old) else 0 |>).
Definition long_bsr_time (frameP lcgid : Z) (t : UE_TEMPLATE) : res UE_TEMPLATE :=
  b ← array_get (bsr_info t) lcgid;
  ct ← array_upd (ul_buffer_creation_time t) lcgid (fun c => Ok (if b =? 0 then 0 else creation_time frameP c));
  Ok (t <| ul_buffer_creation_time := ct |>).
Definition long_bsr_ce (b0 b1 b2 CC_id UE_id frameP : Z) (e : eNB_MAC_INST) : res eNB_MAC_INST :=
  upd_template CC_id UE_id (fun t =>
    t ← long_bsr_group 0 (t <| bsr_info := long_bsr_sizes b0 b1 b2 |>);
    t ← long_bsr_group 1 t;
    t ← long_bsr_group 2 t;
    t ← long_bsr_group 3 t;
    t ← long_bsr_time frameP 0 t;
    t ← long_bsr_time frameP 1 t;
    t ← long_bsr_time frameP 2 t;
    long_bsr_time frameP 3 t) e.

(** The state of [rx_sdu]: the eNB, [UE_id], [payload_ptr], [*msg3_flagP] and the calls made. *)
Record rx_state := Mk_rx {
  rx_enb : eNB_MAC_INST; rx_ue : Z; rx_ptr : Z; rx_msg3 : option Z; rx_out : list enb_event
}.
#[export] Instance eta_rx : Eta rx_state := fun r =>
  Mk_rx (rx_enb r) (rx_ue r) (rx_ptr r) (rx_msg3 r) (rx_out r).

Section Rx.
Context (CC_id frameP subframeP rntiP harq_pidP : Z) (sdu : list Z) (Is_rrc_registered : bool).

Definition rx_ce (ce : Z) (r : rx_state) : res rx_state :=
  let UE_id := rx_ue r in
  if ce =? POWER_HEADROOM then
    e ← (if UE_id =? -1 then Ok (rx_enb r)
         else b ← array_get sdu (rx_ptr r); phr_ce b CC_id UE_id (rx_enb r));
    Ok (r <| rx_enb := e |> <| rx_ptr := rx_ptr r + 1 |>)
  else if ce =? CRNTI then
    b0 ← array_get sdu (rx_ptr r);
    b1 ← array_get sdu (rx_ptr r + 1);
    let crnti := Z.shiftl b0 8 + b1 in
    UE_id ← find_UE_id (rx_enb r) crnti;
    '(e, sync) ← (if UE_id =? -1 then Ok (rx_enb r, false) else ue_alive (rx_enb r) UE_id);
    Ok (r <| rx_enb := e |> <| rx_ue := UE_id |> <| rx_ptr := rx_ptr r + 2 |>
          <| rx_msg3 := (fun _ => 0) <$> rx_msg3 r |>
          <| rx_out := rx_out r ++ if (sync : bool) then [Ul_in_sync (u16 crnti)] else [] |>)
  else if (ce =? TRUNCATED_BSR) || (ce =? SHORT_BSR) then
    '(e, ev) ← (if UE_id =? -1 then Ok (rx_enb r, [])
                else
                  b ← array_get sdu (rx_ptr r);
                  e ← short_bsr_ce b CC_id UE_id frameP (rx_enb r);
                  Ok (e, [Pusch_stats_bsr UE_id (frameP * 10 + subframeP) (Z.land b 63)]));
    Ok (r <| rx_enb := e |> <| rx_ptr := rx_ptr r + 1 |> <| rx_out := rx_out r ++ ev |>)
  else if ce =? LONG_BSR then
    e ← (if UE_id =? -1 then Ok (rx_enb r)
         else
           b0 ← array_get sdu (rx_ptr r);
           b1 ← array_get sdu (rx_ptr r + 1);
           b2 ← array_get sdu (rx_ptr r + 2);
           long_bsr_ce b0 b1 b2 CC_id UE_id frameP (rx_enb r));
    Ok (r <| rx_enb := e |> <| rx_ptr := rx_ptr r + 3 |>)
  else Ok r.
Fixpoint rx_ces (ces : list Z) (r : rx_state) : res rx_state :=
  match ces with
  | [] => Ok r
  | ce :: ces => r ← rx_ce ce r; rx_ces ces r
  end.

(** The random access process of a CCCH message. *)
Definition rx_ccch_ra (ii len : Z) (r : rx_state) : res rx_state :=
  ra ← array2_get (RA_template (rx_enb r)) CC_id ii;
  if (ra_rnti ra =? rntiP) && (ra_active ra =? 1) then
    '(e, UE_id) ←
      (if rx_ue r <? 0 then
         id ← mem_read sdu (rx_ptr r) 6;
         ras ← array2_upd (RA_template (rx_enb r)) CC_id ii (fun ra => Ok (ra <| cont_res_id := id |>));
         '(e, UE_id) ← add_new_ue ((rx_enb r) <| RA_template := ras |>) CC_id (ra_rnti ra) harq_pidP;
         _ ← assert_that (negb (UE_id =? -1));
         Ok (e, UE_id)
       else Ok (rx_enb r, rx_ue r));
    ev ← (if Is_rrc_registered then
            bytes ← mem_read sdu (rx_ptr r) len;
            Ok [Enb_rrc_data_ind rntiP CCCH bytes]
          else Ok []);
    ras ← array2_upd (RA_template e) CC_id ii (fun ra => Ok (ra <| generate_Msg4 := 1 |> <| wait_ack_Msg4 := 0 |>));
    Ok (r <| rx_enb := e <| RA_template := ras |> |> <| rx_ue := UE_id |> <| rx_out := rx_out r ++ ev |>)
  else Ok r.
Definition rx_ccch (len : Z) (r : rx_state) : res rx_state :=
  if len >? CCCH_PAYLOAD_SIZE_MAX then Ok r
  else
    r ← rx_ccch_ra 0 len r;
    r ← rx_ccch_ra 1 len r;
    r ← rx_ccch_ra 2 len r;
    rx_ccch_ra 3 len r.
(** The buffer occupancy of the group of the channel. *)
Definition less_buffer (lcid len : Z) (t : UE_TEMPLATE) : res UE_TEMPLATE :=
  g ← array_get (lcgidmap t) lcid;
  ui ← array_upd (ul_buffer_info t) g (fun v => Ok (if v >=? len then v - len else 0));
  Ok (t <| ul_buffer_info := ui |>).
Definition count_pdu (lcid len : Z) (s : eNB_UE_STATS) : res eNB_UE_STATS :=
  np ← array_upd (num_pdu_rx s) lcid (fun n => Ok (u32 (n + 1)));
  nb ← array_upd (num_bytes_rx s) lcid (fun n => Ok (u32 (n + len)));
  Ok (s <| num_pdu_rx := np |> <| num_bytes_rx := nb |>).
Definition rx_to_rlc (lcid len : Z) (r : rx_state) : res rx_state :=
  bytes ← mem_read sdu (rx_ptr r) len;
  e ← upd_stats CC_id (rx_ue r) (count_pdu lcid len) (rx_enb r);
  Ok (r <| rx_enb := e |> <| rx_out := rx_out r ++ [Enb_rlc_data_ind rntiP lcid bytes] |>).
Definition rx_one_sdu (lcid len : Z) (r : rx_state) : res rx_state :=
  if lcid =? CCCH then rx_ccch len r
  else if (lcid =? DCCH) || (lcid =? DCCH1) then
    if rx_ue r =? -1 then Ok r
    else
      e ← upd_template CC_id (rx_ue r) (less_buffer lcid len) (rx_enb r);
      rx_to_rlc lcid len (r <| rx_enb := e |>)
  else if lcid <? NB_RB_MAX then
    if rx_ue r =? -1 then Ok r
    else
      e ← upd_template CC_id (rx_ue r) (less_buffer lcid len) (rx_enb r);
      if (len <? SCH_PAYLOAD_SIZE_MAX) && (len >? 0) then rx_to_rlc lcid len (r <| rx_enb := e |>)
      else
        e ← upd_stats CC_id (rx_ue r) (fun s => Ok (s <| num_errors_rx := u32 (num_errors_rx s + 1) |>)) e;
        Ok (r <| rx_enb := e |>)
  else Ok r.
Fixpoint rx_sdus (sdus : list (Z * Z)) (r : rx_state) : res rx_state :=
  match sdus with
  | [] => Ok r
  | (lcid, len) :: sdus =>
      r ← rx_one_sdu lcid len r;
      rx_sdus sdus (r <| rx_ptr := rx_ptr r + len |>)
  end.

(** The transport block of a UE known or not; [sduP == NULL] is [rx_no_sdu]. *)
Definition rx_known (UE_id : Z) (e : eNB_MAC_INST) : res (eNB_MAC_INST * list enb_event) :=
  if UE_id =? -1 then Ok (e, [])
  else
    '(e, sync) ← ue_alive e UE_id;
    e ← upd_sched UE_id (fun s => s <| ul_scheduled := Z.land (ul_scheduled s) (Z.lnot (Z.shiftl 1 harq_pidP)) |>) e;
    ev ← (if (sync : bool) then rnti ← UE_RNTI e UE_id; Ok [Ul_in_sync rnti] else Ok []);
    Ok (e, ev).
Definition rx_block_stats (sdu_lenP : Z) (e : eNB_MAC_INST) : res eNB_MAC_INST :=
  l ← array_upd (enb_stats e) CC_id (fun s =>
        Ok (Mk_enb_stats sdu_lenP (u32 (total_ulsch_bytes_rx s + sdu_lenP)) (u32 (total_ulsch_pdus_rx s + 1))));
  Ok (e <| enb_stats := l |>).
Definition rx_end (sdu_lenP : Z) (none : bool) (r : rx_state) : res rx_state :=
  let UE_id := rx_ue r in
  if none then
    e ← (if UE_id =? -1 then Ok (rx_enb r)
         else upd_stats CC_id UE_id (fun s => Ok (s <| total_num_errors_rx := u32 (total_num_errors_rx s + 1) |>)) (rx_enb r));
    Ok (r <| rx_enb := e |> <| rx_msg3 := (fun f => if f =? 1 then 0 else f) <$> rx_msg3 r |>)
  else
    e ← (if UE_id =? -1 then Ok (rx_enb r)
         else upd_stats CC_id UE_id (fun s =>
                Ok (s <| pdu_bytes_rx := sdu_lenP |> <| total_pdu_bytes_rx := wrapu 64 (total_pdu_bytes_rx s + sdu_lenP) |>
                      <| total_num_pdus_rx := u32 (total_num_pdus_rx s + 1) |>)) (rx_enb r));
    Ok (r <| rx_enb := e |>).
Definition rx_sdu (sdu_lenP : Z) (msg3_flagP : option Z) (e : eNB_MAC_INST) : res rx_state :=
  UE_id ← find_UE_id e rntiP;
  '(e, out) ← rx_known UE_id e;
  p ← parse_ulsch_header sdu sdu_lenP;
  match p with
  | None => Err UndefinedBehaviour
  | Some s =>
      e ← rx_block_stats sdu_lenP e;
      r ← rx_ces (p_ces s) (Mk_rx e UE_id (p_ptr s) msg3_flagP out);
      r ← rx_sdus (p_sdus s) r;
      rx_end sdu_lenP (bool_decide (p_sdus s = []) && bool_decide (p_ces s = [])) r
  end.
Definition rx_no_sdu (e : eNB_MAC_INST) : res eNB_MAC_INST :=
  UE_id ← find_UE_id e rntiP;
  upd_sched UE_id (fun s => s <| ul_scheduled := Z.land (ul_scheduled s) (Z.lnot (Z.shiftl 1 harq_pidP)) |>) e.
End Rx.
