(* ===== verification/MacUeList.v ===== *)
(** * The list of UEs of the eNB, as slots

    [slots e] is what the list of UEs of MacUlsch.v means: for every index, the RNTI of the UE there, if any.
    Looking up, entering and removing a UE are operations on the slots, and change no slot but one. *)

From S2P Require Import Prelude RlcStore MacPdu MacDemux MacUlsch.

(** ** Arrays *)
Lemma array_get_lookup {A} (l : list A) i x : 0 <= i -> l !! Z.to_nat i = Some x -> array_get l i = Ok x.
Proof. intros Hi Hx. unfold array_get. by rewrite (proj2 (Z.leb_le _ _) Hi), Hx. Qed.
Lemma array_set_lookup {A} (l : list A) i x y : 0 <= i -> l !! Z.to_nat i = Some x -> array_set l i y = Ok (<[Z.to_nat i := y]> l).
Proof. intros Hi Hx. apply array_set_ok. apply lookup_lt_Some in Hx. lia. Qed.
Lemma array_upd_ok {A} (l : list A) i f x y : 0 <= i -> l !! Z.to_nat i = Some x -> f x = Ok y ->
  array_upd l i f = Ok (<[Z.to_nat i := y]> l).
Proof.
  intros Hi Hx Hf. unfold array_upd. rewrite (array_get_lookup _ _ x) by done. cbn [mbind res_bind]. rewrite Hf. cbn [mbind res_bind].
  by apply (array_set_lookup l i x).
Qed.
Lemma array2_get_ok {A} (l : list (list A)) i j row x : 0 <= i -> 0 <= j -> l !! Z.to_nat i = Some row ->
  row !! Z.to_nat j = Some x -> array2_get l i j = Ok x.
Proof.
  intros Hi Hj Hr Hx. unfold array2_get. rewrite (array_get_lookup _ _ row) by done. cbn [mbind res_bind]. by apply array_get_lookup.
Qed.
Lemma array2_upd_ok {A} (l : list (list A)) i j f row x y : 0 <= i -> 0 <= j -> l !! Z.to_nat i = Some row ->
  row !! Z.to_nat j = Some x -> f x = Ok y -> array2_upd l i j f = Ok (<[Z.to_nat i := <[Z.to_nat j := y]> row]> l).
Proof.
  intros Hi Hj Hr Hx Hf. unfold array2_upd. apply (array_upd_ok l i _ row); [done | done|]. by apply (array_upd_ok row j f x).
Qed.
Lemma array2_upd_pure {A} (l : list (list A)) i j (g : A -> A) row x : 0 <= i -> 0 <= j -> l !! Z.to_nat i = Some row ->
  row !! Z.to_nat j = Some x ->
  array2_upd l i j (fun x => Ok (g x)) = Ok (<[Z.to_nat i := <[Z.to_nat j := g x]> row]> l).
Proof. intros. by apply (array2_upd_ok l i j _ row x). Qed.
Lemma array_upd_pure {A} (l : list A) i (g : A -> A) x : 0 <= i -> l !! Z.to_nat i = Some x ->
  array_upd l i (fun x => Ok (g x)) = Ok (<[Z.to_nat i := g x]> l).
Proof. intros. by apply (array_upd_ok l i _ x). Qed.

(** ** Well-formed lists *)
Definition table {A} (n : nat) (l : list (list A)) : Prop := length l = n /\ Forall (fun row => length row = 16%nat) l.
Record wf_enb (e : eNB_MAC_INST) : Prop := {
  wf_active : length (active e) = 16%nat;
  wf_pcc : length (pCC_id e) = 16%nat /\ Forall (fun cc => 0 <= cc < Z.of_nat (length (UE_template e))) (pCC_id e);
  wf_lists : length (ordered_CCids e) = 16%nat /\ length (ordered_ULCCids e) = 16%nat /\ length (numactiveCCs e) = 16%nat /\
    length (numactiveULCCs e) = 16%nat /\ length (sched_ctrl e) = 16%nat;
  wf_templates : table (length (UE_template e)) (UE_template e);
  wf_infos : table (length (UE_template e)) (ulsch_info e) /\ table (length (UE_template e)) (dlsch_info e);
  wf_ra : length (RA_template e) = length (UE_template e)
}.
Lemma table_lookup {A} n (l : list (list A)) i j : table n l -> (i < n)%nat -> (j < 16)%nat ->
  exists row x, l !! i = Some row /\ length row = 16%nat /\ row !! j = Some x.
Proof.
  intros [Hn Hall] Hi Hj. destruct (lookup_lt_is_Some_2 l i) as [row Hr]; [lia|].
  assert (Hl : length row = 16%nat) by (by apply (proj1 (Forall_lookup _ _) Hall i row)).
  destruct (lookup_lt_is_Some_2 row j) as [x Hx]; [lia|]. by exists row, x.
Qed.
Lemma table_insert {A} n (l : list (list A)) i row : table n l -> length row = 16%nat -> table n (<[i := row]> l).
Proof. intros [Hn Hall] Hr. split; [by rewrite length_insert|]. by apply Forall_insert. Qed.

(** The RNTI in a slot. *)
Definition slot (e : eNB_MAC_INST) (i : nat) : option Z :=
  if bool_decide (active e !! i = Some 1) then
    cc ← pCC_id e !! i;
    row ← UE_template e !! Z.to_nat cc;
    t ← row !! i;
    Some (t_rnti t)
  else None.
Definition slots (e : eNB_MAC_INST) : list (option Z) := map (slot e) (seq 0 16).
(** The first index of a slot, as the source counts it. *)
Definition first_index (P : option Z -> bool) (l : list (option Z)) : Z :=
  match list_find (fun o => P o = true) l with Some (i, _) => Z.of_nat i | None => -1 end.
Definition is_ue (rnti : Z) (o : option Z) : bool := bool_decide (o = Some rnti).
Definition is_free (o : option Z) : bool := bool_decide (o = None).

Lemma slot_active e i : wf_enb e -> (i < 16)%nat -> active e !! i = Some 1 ->
  exists cc row t, 0 <= cc /\ pCC_id e !! i = Some cc /\ UE_template e !! Z.to_nat cc = Some row /\ row !! i = Some t /\
    slot e i = Some (t_rnti t).
Proof.
  intros [Ha [Hp Hcc] _ Ht _ _] Hi Hact. destruct (lookup_lt_is_Some_2 (pCC_id e) i) as [cc Ecc]; [lia|].
  pose proof (proj1 (Forall_lookup _ _) Hcc i cc Ecc) as Hc. cbn in Hc.
  destruct (table_lookup _ _ (Z.to_nat cc) i Ht) as (row & t & Er & _ & Et); [lia | lia|].
  exists cc, row, t. split; [lia|]. split; [done|]. split; [done|]. split; [done|].
  unfold slot. rewrite bool_decide_true by done. rewrite Ecc. cbn. rewrite Er. cbn. by rewrite Et.
Qed.
Lemma slot_inactive e i : active e !! i <> Some 1 -> slot e i = None.
Proof. intros H. unfold slot. by rewrite bool_decide_false. Qed.

Lemma first_index_app P l k : Forall (fun o => P o = false) l -> first_index P (l ++ k) =
  (if first_index P k =? -1 then -1 else Z.of_nat (length l) + first_index P k).
Proof.
  intros H. unfold first_index. rewrite list_find_app_r by (apply list_find_None, (Forall_impl _ _ _ H); intros o Ho; cbn; congruence).
  destruct (list_find _ k) as [[i o]|]; cbn; [|done]. destruct (Z.eqb_spec (Z.of_nat i) (-1)); lia.
Qed.
Lemma first_index_cons_no P o k : P o = false -> first_index P (o :: k) =
  (if first_index P k =? -1 then -1 else 1 + first_index P k).
Proof. intros H. apply (first_index_app P [o] k). by constructor. Qed.
Lemma first_index_cons_yes P o k : P o = true -> first_index P (o :: k) = 0.
Proof. intros H. unfold first_index. cbn. by rewrite decide_True. Qed.

(** ** Lookup *)
Lemma find_loop_spec e rnti : wf_enb e -> forall n k, (k + n = 16)%nat ->
  find_loop n e rnti (Z.of_nat k) =
    Ok (let j := first_index (is_ue rnti) (map (slot e) (seq k n)) in if j =? -1 then -1 else Z.of_nat k + j).
Proof.
  intros Hwf. induction n as [|n IH]; intros k Hk; cbn [find_loop seq map].
  - rewrite (proj2 (Z.ltb_ge _ _)) by (unfold NUMBER_OF_UE_MAX; lia). done.
  - rewrite (proj2 (Z.ltb_lt _ _)) by (unfold NUMBER_OF_UE_MAX; lia). cbn [negb].
    destruct (lookup_lt_is_Some_2 (active e) k) as [a Ha]; [rewrite (wf_active e Hwf); lia|].
    rewrite (array_get_lookup (active e) (Z.of_nat k) a) by (rewrite ?Nat2Z.id; done || lia). cbn [mbind res_bind].
    replace (Z.of_nat k + 1) with (Z.of_nat (S k)) by lia.
    assert (Hnext : find_loop n e rnti (Z.of_nat (S k)) = Ok (let j := (if first_index (is_ue rnti) (map (slot e) (seq (S k) n)) =? -1 then -1
        else 1 + first_index (is_ue rnti) (map (slot e) (seq (S k) n))) in if j =? -1 then -1 else Z.of_nat k + j)).
    { rewrite IH by lia. cbn zeta. f_equal.
      assert (-1 <= first_index (is_ue rnti) (map (slot e) (seq (S k) n)))
        by (unfold first_index; destruct (list_find _ _) as [[i o]|]; lia).
      destruct (Z.eqb_spec (first_index (is_ue rnti) (map (slot e) (seq (S k) n))) (-1)) as [H1 | H1]; [done|].
      rewrite (proj2 (Z.eqb_neq _ _)) by lia. lia. }
    destruct (Z.eqb_spec a 1) as [-> | Hne]; cbn [negb].
    + destruct (slot_active e k Hwf) as (cc & row & t & Hc0 & Hcc & Hrow & Ht & Hs); [lia | done|].
      rewrite (array_get_lookup (pCC_id e) (Z.of_nat k) cc) by (rewrite ?Nat2Z.id; done || lia). cbn [mbind res_bind].
      rewrite (array2_get_ok (UE_template e) cc (Z.of_nat k) row t) by (rewrite ?Nat2Z.id; done || lia). cbn [mbind res_bind].
      rewrite Hs. destruct (Z.eqb_spec (t_rnti t) rnti) as [-> | Hr].
      * rewrite first_index_cons_yes by (unfold is_ue; by rewrite bool_decide_true). cbn. do 2 f_equal. lia.
      * rewrite Hnext, first_index_cons_no by (unfold is_ue; by rewrite bool_decide_false by congruence). done.
    + rewrite (slot_inactive e k), first_index_cons_no by (congruence || (unfold is_ue; by rewrite bool_decide_false)).
      by rewrite Hnext.
Qed.
Lemma find_UE_id_ok e rnti : wf_enb e -> find_UE_id e rnti = Ok (first_index (is_ue rnti) (slots e)).
Proof.
  intros Hwf. unfold find_UE_id, slots. etransitivity; [exact (find_loop_spec e rnti Hwf 16 0 eq_refl)|]. cbn zeta. f_equal.
  destruct (Z.eqb_spec (first_index (is_ue rnti) (map (slot e) (seq 0 16))) (-1)) as [E | _]; [done | lia].
Qed.

(** ** Entry *)
Lemma slots_lookup e i : (i < 16)%nat -> slots e !! i = Some (slot e i).
Proof. intros Hi. unfold slots. by rewrite list_lookup_fmap, lookup_seq_lt. Qed.
Lemma length_slots e : length (slots e) = 16%nat.
Proof. unfold slots. by rewrite length_map, length_seq. Qed.
(** Two lists of UEs that differ in one slot. *)
Lemma slots_insert e e' i o : (i < 16)%nat -> slot e' i = o -> (forall j, (j < 16)%nat -> j <> i -> slot e' j = slot e j) ->
  slots e' = <[i := o]> (slots e).
Proof.
  intros Hi Ho Hj. apply list_eq_same_length with (n := 16%nat); [by rewrite length_insert, length_slots | by rewrite length_slots|].
  intros j x y Hlt. rewrite slots_lookup by done. destruct (decide (j = i)) as [-> | Hne].
  - rewrite list_lookup_insert_eq by (by rewrite length_slots). congruence.
  - rewrite list_lookup_insert_ne, slots_lookup by done. rewrite Hj by done. congruence.
Qed.

(** The template of a new UE. *)
Definition new_template (rnti harq : Z) (t : UE_TEMPLATE) : UE_TEMPLATE :=
  ndi_start (t <| t_rnti := rnti |> <| configured := 0 |>) harq.
Definition entered (cc rnti harq : Z) (i : nat) (e e' : eNB_MAC_INST) : Prop :=
  exists row t, UE_template e !! Z.to_nat cc = Some row /\ row !! i = Some t /\
    UE_template e' = <[Z.to_nat cc := <[i := new_template rnti harq t]> row]> (UE_template e) /\ RA_template e' = RA_template e /\
    eNB_UE_stats e' = eNB_UE_stats e.
Lemma enter_ue_ok e cc rnti harq i :
  wf_enb e -> (i < 16)%nat -> 0 <= cc < Z.of_nat (length (UE_template e)) ->
  exists e', enter_ue e cc rnti harq (Z.of_nat i) = Ok e' /\ wf_enb e' /\ slots e' = <[i := Some rnti]> (slots e) /\
    active e' = <[i := 1]> (active e) /\ num_UEs e' = num_UEs e + 1 /\ length (UE_template e') = length (UE_template e) /\
    entered cc rnti harq i e e'.
Proof.
  intros Hwf Hi Hcc. pose proof Hwf as [Ha [Hp Hpc] (Ho & Hou & Hn & Hnu & Hsc) Ht [Hul Hdl] Hra].
  destruct (table_lookup _ _ (Z.to_nat cc) i Ht) as (row & t & Er & Hrow & Et); [lia | done|].
  destruct (table_lookup _ _ (Z.to_nat cc) i Hul) as (urow & ut & Eur & Hurow & Eut); [lia | done|].
  destruct (table_lookup _ _ (Z.to_nat cc) i Hdl) as (drow & dt & Edr & Hdrow & Edt); [lia | done|].
  destruct (lookup_lt_is_Some_2 (sched_ctrl e) i) as [sc Hs]; [lia|].
  unfold enter_ue, upd_template. rewrite <- (Nat2Z.id i) in Et, Eut, Edt, Hs.
  rewrite (array2_upd_pure (UE_template e) cc (Z.of_nat i) _ row t ltac:(lia) ltac:(lia) Er Et). cbn [mbind res_bind].
  set (t' := ndi_start _ harq).
  lazymatch goal with |- context [update_field (proj := UE_template) ?f e] => set (e1 := update_field (proj := UE_template) f e) end.
  change (numactiveCCs e1) with (numactiveCCs e). change (numactiveULCCs e1) with (numactiveULCCs e).
  change (pCC_id e1) with (pCC_id e). change (ordered_CCids e1) with (ordered_CCids e).
  change (ordered_ULCCids e1) with (ordered_ULCCids e). change (active e1) with (active e). change (num_UEs e1) with (num_UEs e).
  rewrite !array_set_ok by lia. cbn [mbind res_bind]. unfold upd_sched.
  lazymatch goal with |- context [array_upd (sched_ctrl ?x) _ _] => set (e2 := x) end.
  rewrite (array_upd_pure (sched_ctrl e2) (Z.of_nat i) _ sc ltac:(lia) Hs). cbn [mbind res_bind].
  lazymatch goal with |- context [array2_upd (ulsch_info ?x) _ _ _] => set (e3 := x) end.
  change (ulsch_info e3) with (ulsch_info e). change (dlsch_info e3) with (dlsch_info e).
  rewrite (array2_upd_pure (ulsch_info e) cc (Z.of_nat i) _ urow ut ltac:(lia) ltac:(lia) Eur Eut). cbn [mbind res_bind].
  rewrite (array2_upd_pure (dlsch_info e) cc (Z.of_nat i) _ drow dt ltac:(lia) ltac:(lia) Edr Edt). cbn [mbind res_bind].
  eexists. split; [reflexivity|]. set (k := Z.to_nat (Z.of_nat i)) in *.
  lazymatch goal with |- wf_enb ?x /\ _ => set (e' := x) end.
  assert (HT : UE_template e' = <[Z.to_nat cc := <[k := t']> row]> (UE_template e)) by done.
  assert (HA : active e' = <[k := 1]> (active e)) by done. assert (HP : pCC_id e' = <[k := cc]> (pCC_id e)) by done.
  assert (HU : ulsch_info e' = <[Z.to_nat cc := <[k := (ut.1, S_UL_WAITING)]> urow]> (ulsch_info e)) by done.
  assert (HD : dlsch_info e' = <[Z.to_nat cc := <[k := (dt.1, S_DL_WAITING)]> drow]> (dlsch_info e)) by done.
  assert (HLs : length (ordered_CCids e') = 16%nat /\ length (ordered_ULCCids e') = 16%nat /\ length (numactiveCCs e') = 16%nat /\
    length (numactiveULCCs e') = 16%nat /\ length (sched_ctrl e') = 16%nat)
    by (subst e'; cbn; rewrite !length_insert; done).
  assert (HR : RA_template e' = RA_template e) by done. assert (HN : num_UEs e' = num_UEs e + 1) by done.
  assert (Ht' : t_rnti t' = rnti) by done.
  assert (Hnew : t' = new_template rnti harq t) by done. assert (HST : eNB_UE_stats e' = eNB_UE_stats e) by done.
  clearbody e' t'. assert (Hk : k = i) by apply Nat2Z.id. clearbody k. subst k.
  split; [|split; [|split; [done | split; [done | split; [by rewrite HT, length_insert|]]]]].
  3:{ exists row, t. by rewrite HT, Hnew, HR, HST. }
  - constructor; rewrite ?HT, ?HA, ?HP, ?HU, ?HD, ?HR, ?length_insert; try done.
    + split; [done|]. by apply Forall_insert.
    + apply table_insert; [done | by rewrite length_insert].
    + split; apply table_insert; (done || by rewrite length_insert).
  - apply slots_insert; [done | |].
    + unfold slot. rewrite HA, HP, HT, !list_lookup_insert_eq by lia. rewrite bool_decide_true by done. cbn.
      rewrite list_lookup_insert_eq by lia. cbn. rewrite list_lookup_insert_eq by lia. cbn. by rewrite Ht'.
    + intros j Hj Hne. unfold slot. rewrite HA, HP, HT, !list_lookup_insert_ne by done.
      case_bool_decide; [|done]. destruct (pCC_id e !! j) as [cj|]; [|done]. cbn.
      destruct (decide (Z.to_nat cj = Z.to_nat cc)) as [-> | Hcj].
      * rewrite list_lookup_insert_eq by lia. rewrite Er. cbn. by rewrite list_lookup_insert_ne.
      * by rewrite list_lookup_insert_ne.
Qed.

Lemma add_loop_ok cc rnti harq e : wf_enb e -> 0 <= cc < Z.of_nat (length (UE_template e)) -> forall n k, (k + n = 16)%nat ->
  Forall (fun o => is_free o = false) (take k (slots e)) ->
  exists e' i, add_loop n e cc rnti harq (Z.of_nat k) = Ok (e', i) /\ i = first_index is_free (slots e) /\
    (i = -1 -> e' = e) /\
    (forall j, i = Z.of_nat j -> wf_enb e' /\ slots e' = <[j := Some rnti]> (slots e) /\ active e' = <[j := 1]> (active e) /\
       num_UEs e' = num_UEs e + 1 /\ length (UE_template e') = length (UE_template e) /\ entered cc rnti harq j e e' /\ (j < 16)%nat).
Proof.
  intros Hwf Hcc. induction n as [|n IH]; intros k Hk Hbusy; cbn [add_loop].
  - rewrite (proj2 (Z.ltb_ge _ _)) by (unfold NUMBER_OF_UE_MAX; lia). cbn [negb]. eexists _, _. split; [reflexivity|].
    rewrite take_ge in Hbusy by (rewrite length_slots; lia). split; [|split; [done | lia]].
    unfold first_index. replace (list_find _ (slots e)) with (@None (nat * option Z)); [done|].
    symmetry. apply list_find_None, (Forall_impl _ _ _ Hbusy). intros o Ho. cbn. congruence.
  - rewrite (proj2 (Z.ltb_lt _ _)) by (unfold NUMBER_OF_UE_MAX; lia). cbn [negb].
    destruct (lookup_lt_is_Some_2 (active e) k) as [a Ha]; [rewrite (wf_active e Hwf); lia|].
    rewrite (array_get_lookup (active e) (Z.of_nat k) a) by (rewrite ?Nat2Z.id; done || lia). cbn [mbind res_bind].
    destruct (Z.eqb_spec a 1) as [-> | Hne].
    + replace (Z.of_nat k + 1) with (Z.of_nat (S k)) by lia. apply IH; [lia|].
      destruct (slot_active e k Hwf) as (cc' & row & t & _ & _ & _ & _ & Hs); [lia | done|].
      rewrite (take_S_r _ _ (slot e k)) by (apply slots_lookup; lia). apply Forall_app. split; [done|].
      constructor; [|done]. rewrite Hs. done.
    + destruct (enter_ue_ok e cc rnti harq k Hwf) as (e' & -> & H); [lia | done|]. cbn [mbind res_bind].
      eexists _, _. split; [reflexivity|]. split; [|split; [lia|]].
      * assert (E : slots e = take k (slots e) ++ slot e k :: drop (S k) (slots e))
          by (symmetry; apply take_drop_middle, slots_lookup; lia).
        rewrite E, first_index_app, first_index_cons_yes by (done || (rewrite slot_inactive by congruence; done)).
        change (0 =? -1) with false. cbn iota. rewrite length_take, length_slots. lia.
      * intros j Hj. apply Nat2Z.inj in Hj as <-. repeat (split; [apply H|]). lia.
Qed.

(** ** Removal *)
Lemma remove_ok e rnti :
  wf_enb e ->
  exists e', rrc_mac_remove_ue e rnti = Ok (e', [Phy_remove_ue rnti]) /\ wf_enb e' /\
    let i := first_index (is_ue rnti) (slots e) in
    (i = -1 -> e' = e) /\
    (forall j, i = Z.of_nat j -> slots e' = <[j := None]> (slots e) /\ active e' = <[j := 0]> (active e) /\
       num_UEs e' = num_UEs e - 1 /\ (j < 16)%nat).
Proof.
  intros Hwf. unfold rrc_mac_remove_ue. rewrite find_UE_id_ok by done. cbn [mbind res_bind]. cbn zeta.
  destruct (Z.eqb_spec (first_index (is_ue rnti) (slots e)) (-1)) as [E | E].
  { exists e. rewrite E. split; [done|]. split; [done|]. split; [done | lia]. }
  unfold first_index in *. destruct (list_find _ (slots e)) as [[i o]|] eqn:Ef; [|done]. clear E.
  apply list_find_Some in Ef as (Hlook & Ho & _). unfold is_ue in Ho. apply bool_decide_eq_true in Ho as ->.
  assert (Hi : (i < 16)%nat) by (apply lookup_lt_Some in Hlook; by rewrite length_slots in Hlook).
  rewrite slots_lookup in Hlook by done. injection Hlook as Hslot.
  assert (Hact : active e !! i = Some 1) by (unfold slot in Hslot; by case_bool_decide).
  destruct (slot_active e i Hwf Hi Hact) as (cc & row & t & Hc0 & Ecc & Er & Et & _).
  pose proof Hwf as [Ha [Hp Hpc] Hls Ht [Hul Hdl] Hra].
  pose proof (proj1 (Forall_lookup _ _) Hpc i cc Ecc) as Hcc. cbn in Hcc.
  destruct (table_lookup _ _ (Z.to_nat cc) i Hul) as (urow & ut & Eur & Hurow & Eut); [lia | done|].
  destruct (table_lookup _ _ (Z.to_nat cc) i Hdl) as (drow & dt & Edr & Hdrow & Edt); [lia | done|].
  destruct (lookup_lt_is_Some_2 (RA_template e) (Z.to_nat cc)) as [ras Eras]; [lia|].
  rewrite <- (Nat2Z.id i) in Ecc, Et, Eut, Edt, Hact.
  rewrite (array_get_lookup (pCC_id e) (Z.of_nat i) cc ltac:(lia) Ecc). cbn [mbind res_bind].
  rewrite (array_set_lookup (active e) (Z.of_nat i) 1 0 ltac:(lia) Hact). cbn [mbind res_bind].
  unfold upd_template. lazymatch goal with |- context [array2_upd (UE_template ?x) _ _ _] => set (e1 := x) end.
  change (UE_template e1) with (UE_template e).
  rewrite (array2_upd_pure (UE_template e) cc (Z.of_nat i) _ row t ltac:(lia) ltac:(lia) Er Et). cbn [mbind res_bind].
  set (t' := update_field (proj := ul_active) _ _).
  lazymatch goal with |- context [array2_upd (ulsch_info ?x) _ _ _] => set (e2 := x) end.
  change (ulsch_info e2) with (ulsch_info e). change (dlsch_info e2) with (dlsch_info e). change (RA_template e2) with (RA_template e).
  rewrite (array2_upd_pure (ulsch_info e) cc (Z.of_nat i) _ urow ut ltac:(lia) ltac:(lia) Eur Eut). cbn [mbind res_bind].
  rewrite (array2_upd_pure (dlsch_info e) cc (Z.of_nat i) _ drow dt ltac:(lia) ltac:(lia) Edr Edt). cbn [mbind res_bind].
  rewrite (array_upd_pure (RA_template e) cc _ ras ltac:(lia) Eras). cbn [mbind res_bind].
  eexists. split; [reflexivity|]. set (k := Z.to_nat (Z.of_nat i)) in *.
  lazymatch goal with |- wf_enb ?x /\ _ => set (e' := x) end.
  assert (HT : UE_template e' = <[Z.to_nat cc := <[k := t']> row]> (UE_template e)) by done.
  assert (HA : active e' = <[k := 0]> (active e)) by done. assert (HP : pCC_id e' = pCC_id e) by done.
  assert (HU : ulsch_info e' = <[Z.to_nat cc := <[k := (NOT_A_RNTI, S_UL_NONE)]> urow]> (ulsch_info e)) by done.
  assert (HD : dlsch_info e' = <[Z.to_nat cc := <[k := (NOT_A_RNTI, S_DL_NONE)]> drow]> (dlsch_info e)) by done.
  assert (HLs : length (ordered_CCids e') = 16%nat /\ length (ordered_ULCCids e') = 16%nat /\ length (numactiveCCs e') = 16%nat /\
    length (numactiveULCCs e') = 16%nat /\ length (sched_ctrl e') = 16%nat) by exact Hls.
  assert (HR : length (RA_template e') = length (RA_template e)) by (subst e'; cbn; by rewrite length_insert).
  assert (HN : num_UEs e' = num_UEs e - 1) by done.
  clearbody e' t'. assert (Hk : k = i) by apply Nat2Z.id. clearbody k. subst k. split.
  - constructor; rewrite ?HT, ?HA, ?HP, ?HU, ?HD, ?HR, ?length_insert; try done.
    + apply table_insert; [done|]. rewrite length_insert. by apply (proj1 (Forall_lookup _ _) (proj2 Ht) _ _ Er).
    + split; apply table_insert; (done || by rewrite length_insert).
  - split; [lia|]. intros j Hj. apply Nat2Z.inj in Hj as <-. split; [|done].
    apply slots_insert; [done | |].
    + unfold slot. rewrite HA, list_lookup_insert_eq by lia. by rewrite bool_decide_false.
    + intros j Hj Hne. unfold slot. rewrite HA, HP, HT, !list_lookup_insert_ne by done.
      case_bool_decide; [|done]. destruct (pCC_id e !! j) as [cj|]; [|done]. cbn.
      destruct (decide (Z.to_nat cj = Z.to_nat cc)) as [-> | Hcj].
      * rewrite list_lookup_insert_eq by lia. rewrite Er. cbn. by rewrite list_lookup_insert_ne.
      * by rewrite list_lookup_insert_ne.
Qed.

(** ** The list as an abstract table *)
Definition ues (l : list (option Z)) : list Z := omap id l.
Lemma first_index_found P l : first_index P l <> -1 ->
  exists i o, first_index P l = Z.of_nat i /\ l !! i = Some o /\ P o = true /\ (forall j o', (j < i)%nat -> l !! j = Some o' -> P o' = false).
Proof.
  unfold first_index. destruct (list_find _ l) as [[i o]|] eqn:E; [|done]. intros _. apply list_find_Some in E as (Hl & Ho & Hb).
  exists i, o. repeat split; [done | done|]. intros j o' Hj Hlo. apply not_true_is_false. by apply (Hb j o').
Qed.
Lemma first_index_none P l : first_index P l = -1 -> Forall (fun o => P o = false) l.
Proof.
  unfold first_index. destruct (list_find _ l) as [[i o]|] eqn:E; [lia|]. intros _. apply list_find_None in E.
  apply (Forall_impl _ _ _ E). intros o Ho. by apply not_true_is_false.
Qed.
Lemma ues_split l i o : l !! i = Some o -> ues l = ues (take i l) ++ ues [o] ++ ues (drop (S i) l).
Proof.
  intros H. unfold ues. rewrite <- (take_drop_middle l i o H) at 1. rewrite omap_app. f_equal. by destruct o.
Qed.
Lemma ues_insert l i o : (i < length l)%nat -> ues (<[i := o]> l) = ues (take i l) ++ ues [o] ++ ues (drop (S i) l).
Proof.
  intros H. rewrite insert_take_drop by done. unfold ues. rewrite omap_app. f_equal. by destruct o.
Qed.
Lemma ues_not_in l rnti : first_index (is_ue rnti) l = -1 <-> rnti ∉ ues l.
Proof.
  split.
  - intros H Hin. apply first_index_none in H. unfold ues in Hin. apply list_elem_of_omap in Hin as (o & Ho & Hid).
    cbn in Hid. subst o. rewrite Forall_forall in H. specialize (H _ Ho). unfold is_ue in H. by rewrite bool_decide_true in H.
  - intros H. destruct (decide (first_index (is_ue rnti) l = -1)) as [|Hne]; [done|].
    destruct (first_index_found _ _ Hne) as (i & o & _ & Hl & Ho & _). unfold is_ue in Ho. apply bool_decide_eq_true in Ho as ->.
    exfalso. apply H, list_elem_of_omap. exists (Some rnti). split; [by apply list_elem_of_lookup_2 in Hl | done].
Qed.

(** What the three operations do to the slots. *)
Definition enter_slot (rnti : Z) (l : list (option Z)) : list (option Z) :=
  let i := first_index is_free l in if i =? -1 then l else <[Z.to_nat i := Some rnti]> l.
Definition leave_slot (rnti : Z) (l : list (option Z)) : list (option Z) :=
  let i := first_index (is_ue rnti) l in if i =? -1 then l else <[Z.to_nat i := None]> l.

Lemma add_new_ue_ok e cc rnti harq : wf_enb e -> 0 <= cc < Z.of_nat (length (UE_template e)) ->
  exists e', add_new_ue e cc rnti harq = Ok (e', first_index is_free (slots e)) /\ wf_enb e' /\ slots e' = enter_slot rnti (slots e) /\
    num_UEs e' = num_UEs e + (if first_index is_free (slots e) =? -1 then 0 else 1) /\ length (UE_template e') = length (UE_template e) /\
    (first_index is_free (slots e) <> -1 -> entered cc rnti harq (Z.to_nat (first_index is_free (slots e))) e e').
Proof.
  intros Hwf Hcc. unfold add_new_ue. destruct (add_loop_ok cc rnti harq e Hwf Hcc 16 0 eq_refl) as (e' & i & E & Hi & Hno & Hyes); [done|].
  exists e'. rewrite <- Hi. split; [exact E|]. unfold enter_slot. rewrite <- Hi.
  destruct (Z.eqb_spec i (-1)) as [H1 | H1]; [rewrite (Hno H1); repeat (split; [done || lia|]); lia|].
  assert (exists j, i = Z.of_nat j) as (j & ->).
  { destruct (first_index_found is_free (slots e)) as (j & _ & Hj & _); [congruence|]. exists j. congruence. }
  rewrite Nat2Z.id. destruct (Hyes j eq_refl) as (? & ? & ? & ? & ? & ? & ?). done.
Qed.
Lemma remove_ue_ok e rnti : wf_enb e ->
  exists e', rrc_mac_remove_ue e rnti = Ok (e', [Phy_remove_ue rnti]) /\ wf_enb e' /\ slots e' = leave_slot rnti (slots e) /\
    num_UEs e' = num_UEs e - (if first_index (is_ue rnti) (slots e) =? -1 then 0 else 1).
Proof.
  intros Hwf. destruct (remove_ok e rnti Hwf) as (e' & E & Hwf' & Hno & Hyes). cbn zeta in Hno, Hyes. exists e'. split; [done|]. split; [done|].
  unfold leave_slot. destruct (Z.eqb_spec (first_index (is_ue rnti) (slots e)) (-1)) as [H1 | H1]; [rewrite (Hno H1); split; [done | lia]|].
  destruct (first_index_found _ _ H1) as (j & _ & Hj & _). destruct (Hyes j Hj) as (Hs & _ & Hn & _). rewrite Hj, Nat2Z.id. done.
Qed.

(** C10: The list of UEs of the eNB, when its arrays have their sizes and the carrier
    exists, is a table of sixteen slots. [find_UE_id] is the first slot that holds the
    RNTI, and -1 when there is none; [add_new_ue] puts the RNTI in the first free slot and
    returns it, or changes nothing and returns -1 when all are taken; [rrc_mac_remove_ue]
    empties the slot of the RNTI, or does nothing when there is none, and tells the
    physical layer in both cases. No other slot changes, none of the three leaves an
    array, and the arrays keep their sizes. *)
Theorem ue_list_refines e cc rnti harq_pid :
  wf_enb e -> 0 <= cc < Z.of_nat (length (UE_template e)) ->
  find_UE_id e rnti = Ok (first_index (is_ue rnti) (slots e)) /\
  (exists e', add_new_ue e cc rnti harq_pid = Ok (e', first_index is_free (slots e)) /\ wf_enb e' /\
     slots e' = enter_slot rnti (slots e)) /\
  (exists e', rrc_mac_remove_ue e rnti = Ok (e', [Phy_remove_ue rnti]) /\ wf_enb e' /\ slots e' = leave_slot rnti (slots e)).
Proof.
  intros Hwf Hcc. split; [by apply find_UE_id_ok|]. split.
  - destruct (add_new_ue_ok e cc rnti harq_pid Hwf Hcc) as (e' & ? & ? & ? & _). by exists e'.
  - destruct (remove_ue_ok e rnti Hwf) as (e' & ? & ? & ? & _). by exists e'.
Qed.

(** ** Reachable lists *)
Inductive ue_list_reachable : eNB_MAC_INST -> Prop :=
| ue_list_start e : wf_enb e -> Forall (fun a => a = 0) (active e) -> num_UEs e = 0 -> ue_list_reachable e
| ue_list_add e cc rnti harq_pid e' i : ue_list_reachable e -> 0 <= cc < Z.of_nat (length (UE_template e)) ->
    find_UE_id e rnti = Ok (-1) -> add_new_ue e cc rnti harq_pid = Ok (e', i) -> ue_list_reachable e'
| ue_list_remove e rnti e' out : ue_list_reachable e -> rrc_mac_remove_ue e rnti = Ok (e', out) -> ue_list_reachable e'.

Lemma ues_enter rnti l : ues (enter_slot rnti l) = ues l /\ first_index is_free l = -1 \/
  ues (enter_slot rnti l) ≡ₚ rnti :: ues l /\ first_index is_free l <> -1.
Proof.
  unfold enter_slot. destruct (Z.eqb_spec (first_index is_free l) (-1)) as [E | E]; [by left | right].
  destruct (first_index_found _ _ E) as (i & o & -> & Hl & Ho & _). unfold is_free in Ho. apply bool_decide_eq_true in Ho as ->.
  split; [|lia]. rewrite Nat2Z.id, ues_insert by (by apply lookup_lt_Some in Hl). rewrite (ues_split _ _ _ Hl).
  cbn. apply Permutation_sym, Permutation_middle.
Qed.
Lemma ues_leave rnti l : ues (leave_slot rnti l) = ues l /\ first_index (is_ue rnti) l = -1 \/
  ues l ≡ₚ rnti :: ues (leave_slot rnti l) /\ first_index (is_ue rnti) l <> -1.
Proof.
  unfold leave_slot. destruct (Z.eqb_spec (first_index (is_ue rnti) l) (-1)) as [E | E]; [by left | right].
  destruct (first_index_found _ _ E) as (i & o & -> & Hl & Ho & _). unfold is_ue in Ho. apply bool_decide_eq_true in Ho as ->.
  split; [|lia]. rewrite Nat2Z.id, ues_insert by (by apply lookup_lt_Some in Hl). rewrite (ues_split _ _ _ Hl).
  cbn. apply Permutation_sym, Permutation_middle.
Qed.

(** C33: In every list of UEs reached from an empty one by entering UEs whose RNTI is not
    in the list (on an existing carrier) and by removing any, no two UEs have one RNTI,
    and [num_UEs] is the number of UEs in the list; so a UE that is removed is not found
    again. *)
Theorem ue_list_invariant e : ue_list_reachable e ->
  wf_enb e /\ NoDup (ues (slots e)) /\ num_UEs e = Z.of_nat (length (ues (slots e))) /\
  forall rnti e' out, rrc_mac_remove_ue e rnti = Ok (e', out) -> find_UE_id e' rnti = Ok (-1).
Proof.
  intros Hreach.
  assert (H : wf_enb e /\ NoDup (ues (slots e)) /\ num_UEs e = Z.of_nat (length (ues (slots e)))).
  { induction Hreach as [e Hwf Hact Hn | e cc rnti harq_pid e' i _ (Hwf & Hnd & Hn) Hcc Hfind Hadd | e rnti e' out _ (Hwf & Hnd & Hn) Hrem].
    - split; [done|]. assert (slots e = replicate 16 None) as ->; [|split; [constructor | done]].
      apply list_eq_same_length with (n := 16%nat); [by rewrite length_replicate | by rewrite length_slots|].
      intros i x y Hi. rewrite slots_lookup, lookup_replicate_2 by done. intros [= <-] [= <-]. apply slot_inactive.
      intros Ha. pose proof (proj1 (Forall_lookup _ _) Hact i 1 Ha) as H. cbn in H. lia.
    - destruct (add_new_ue_ok e cc rnti harq_pid Hwf Hcc) as (e1 & E & Hwf1 & Hs & Hn1 & _). rewrite E in Hadd. injection Hadd as <- <-.
      rewrite find_UE_id_ok in Hfind by done. injection Hfind as Hfind. apply ues_not_in in Hfind.
      split; [done|]. rewrite Hs, Hn1. destruct (ues_enter rnti (slots e)) as [[Hu Hi] | [Hu Hi]].
      + rewrite Hu, Hi. split; [done | change (-1 =? -1) with true; cbn iota; lia].
      + rewrite (proj2 (Z.eqb_neq _ _) Hi). split; [rewrite Hu; by constructor | rewrite Hu; cbn [length]; lia].
    - destruct (remove_ue_ok e rnti Hwf) as (e1 & E & Hwf1 & Hs & Hn1). rewrite E in Hrem. injection Hrem as <- <-.
      split; [done|]. rewrite Hs, Hn1. destruct (ues_leave rnti (slots e)) as [[Hu Hi] | [Hu Hi]].
      + rewrite Hu, Hi. split; [done | change (-1 =? -1) with true; cbn iota; lia].
      + rewrite (proj2 (Z.eqb_neq _ _) Hi). rewrite Hu in Hnd, Hn. apply NoDup_cons in Hnd as [_ Hnd]. split; [done | cbn [length] in Hn; lia]. }
  destruct H as (Hwf & Hnd & Hn). split; [done|]. split; [done|]. split; [done|].
  intros rnti e' out Hrem. destruct (remove_ue_ok e rnti Hwf) as (e1 & E & Hwf1 & Hs & _). rewrite E in Hrem. injection Hrem as <- <-.
  rewrite find_UE_id_ok by done. f_equal. apply ues_not_in. rewrite Hs.
  destruct (ues_leave rnti (slots e)) as [[Hu Hi] | [Hu Hi]]; [rewrite Hu; by apply ues_not_in|].
  rewrite Hu in Hnd. by apply NoDup_cons in Hnd as [Hnd _].
Qed.

(** A UE that enters the list takes over the uplink buffer state of the slot: whatever the UE that had
    the slot before left there, its total and the buffer of every group, its reports and its mapping of
    channels to groups are those of the new UE until it reports. *)
Theorem new_ue_inherits_buffers e cc rnti harq_pid e' i row t :
  wf_enb e -> 0 <= cc < Z.of_nat (length (UE_template e)) -> add_new_ue e cc rnti harq_pid = Ok (e', i) -> i <> -1 ->
  UE_template e !! Z.to_nat cc = Some row -> row !! Z.to_nat i = Some t ->
  exists t', array2_get (UE_template e') cc i = Ok t' /\ t_rnti t' = rnti /\ ul_total_buffer t' = ul_total_buffer t /\
    ul_buffer_info t' = ul_buffer_info t /\ phr_info_configured t' = phr_info_configured t /\ lcgidmap t' = lcgidmap t.
Proof.
  intros Hwf Hcc Hadd Hi Hrow Ht. destruct (add_new_ue_ok e cc rnti harq_pid Hwf Hcc) as (e1 & E & _ & _ & _ & Hlen & Hent).
  rewrite E in Hadd. injection Hadd as <- <-. destruct (Hent Hi) as (row' & t0 & Hrow' & Ht0 & HT & _).
  destruct (first_index_found _ _ Hi) as (j & o & Hj & Hlook & _). rewrite Hj in *. rewrite Nat2Z.id in *.
  assert (row' = row) as -> by congruence. assert (t0 = t) as -> by congruence. exists (new_template rnti harq_pid t). split; [|done].
  apply (array2_get_ok _ _ _ (<[j := new_template rnti harq_pid t]> row)); [lia | lia | |].
  - rewrite HT. by rewrite list_lookup_insert_eq by lia.
  - rewrite Nat2Z.id. rewrite list_lookup_insert_eq; [done|]. by apply lookup_lt_Some in Ht.
Qed.

(** ** A list with one carrier *)
Definition sample_template : UE_TEMPLATE :=
  Mk_template 0 [] [] 0 0 0 [0; 0; 0; 0] [0; 1; 1; 2; 2; 2; 3; 3; 3; 3; 3] 0 0 0 [0; 0; 0; 0] [0; 0; 0; 0].
Definition sample_stats : eNB_UE_STATS := Mk_stats (replicate 14 0) (replicate 14 0) 0 0 0 0 0.
Definition sample_process : RA_TEMPLATE := Mk_ra 0 0 0 0 0 [0; 0; 0; 0; 0; 0] 0 0.
Definition empty_list : eNB_MAC_INST :=
  Mk_enb [replicate 16 sample_template] (replicate 16 0) (replicate 16 0) (replicate 16 0) (replicate 16 0) (replicate 16 0)
    [replicate 16 sample_stats] (replicate 16 sched_zero) 0 (replicate 16 0) [replicate 4 sample_process]
    [Mk_enb_stats 0 0 0] [replicate 16 (0, S_UL_NONE)] [replicate 16 (0, S_DL_NONE)].
(** The UE 0x1234 is in it, out of synchronisation and with 500 bytes in its buffer. *)
Definition sample_list : eNB_MAC_INST :=
  empty_list
    <| UE_template := [(sample_template <| t_rnti := 4660 |> <| ul_total_buffer := 500 |> <| ul_buffer_info := [0; 500; 0; 0] |>)
                       :: replicate 15 sample_template] |>
    <| active := 1 :: replicate 15 0 |> <| num_UEs := 1 |>
    <| sched_ctrl := (sched_zero <| ul_out_of_sync := 1 |>) :: replicate 15 sched_zero |>.
Ltac wf_sample :=
  constructor; cbn; repeat (apply Forall_cons; split); try apply Forall_nil_2; repeat split;
  repeat (apply Forall_cons; split); try apply Forall_nil_2; done.
Lemma wf_empty_list : wf_enb empty_list.
Proof. wf_sample. Qed.
Lemma wf_sample_list : wf_enb sample_list.
Proof. wf_sample. Qed.

Lemma ue_list_refines_witness :
  wf_enb sample_list /\ find_UE_id sample_list 4660 = Ok 0 /\ find_UE_id sample_list 77 = Ok (-1) /\
  (exists e', add_new_ue sample_list 0 77 0 = Ok (e', 1) /\ wf_enb e' /\ slots e' = enter_slot 77 (slots sample_list)) /\
  (exists e', rrc_mac_remove_ue sample_list 4660 = Ok (e', [Phy_remove_ue 4660]) /\ wf_enb e' /\
     slots e' = leave_slot 4660 (slots sample_list)).
Proof.
  destruct (ue_list_refines sample_list 0 77 0 wf_sample_list ltac:(cbn; lia)) as (H1 & H2 & _).
  destruct (ue_list_refines sample_list 0 4660 0 wf_sample_list ltac:(cbn; lia)) as (H3 & _ & H4).
  split; [exact wf_sample_list|]. split; [exact H3|]. split; [exact H1|]. split; [exact H2 | exact H4].
Defined.
Lemma sample_reachable : ue_list_reachable empty_list.
Proof. apply ue_list_start; [exact wf_empty_list | by apply Forall_replicate | done]. Qed.
Lemma ue_list_invariant_witness :
  ue_list_reachable empty_list /\ wf_enb empty_list /\ NoDup (ues (slots empty_list)) /\ num_UEs empty_list = 0 /\
  find_UE_id empty_list 77 = Ok (-1).
Proof.
  destruct (ue_list_invariant empty_list sample_reachable) as (H1 & H2 & H3 & H4).
  split; [exact sample_reachable|]. split; [exact H1|]. split; [exact H2|]. split; [exact H3|].
  exact (H4 77 empty_list [Phy_remove_ue 77] eq_refl).
Defined.
(** The UE 77 enters the place of the UE that had 500 bytes in its buffer. *)
Definition after_removal : eNB_MAC_INST :=
  match rrc_mac_remove_ue sample_list 4660 with Ok (e, _) => e | Err _ => sample_list end.
Definition after_entry : eNB_MAC_INST := match add_new_ue after_removal 0 77 0 with Ok (e, _) => e | Err _ => sample_list end.
Lemma wf_after_removal : wf_enb after_removal.
Proof. change after_removal with (let e := after_removal in e). vm_compute. wf_sample. Qed.
Lemma new_ue_inherits_buffers_witness :
  add_new_ue after_removal 0 77 0 = Ok (after_entry, 0) /\
  exists t', array2_get (UE_template after_entry) 0 0 = Ok t' /\ t_rnti t' = 77 /\ ul_total_buffer t' = 500 /\
    ul_buffer_info t' = [0; 500; 0; 0].
Proof.
  assert (E : add_new_ue after_removal 0 77 0 = Ok (after_entry, 0)) by (vm_compute; reflexivity).
  split; [exact E|].
  destruct (new_ue_inherits_buffers after_removal 0 77 0 after_entry 0
    ((sample_template <| t_rnti := 0 |> <| ul_total_buffer := 500 |> <| ul_buffer_info := [0; 500; 0; 0] |>) :: replicate 15 sample_template)
    (sample_template <| t_rnti := 0 |> <| ul_total_buffer := 500 |> <| ul_buffer_info := [0; 500; 0; 0] |>)
    wf_after_removal ltac:(vm_compute; split; congruence) E ltac:(lia) ltac:(vm_compute; reflexivity) ltac:(reflexivity)) as (t' & H1 & H2 & H3 & H4 & _).
  exists t'. split; [exact H1|]. split; [exact H2|]. split; [exact H3 | exact H4].
Defined.
