(* ===== verification/MacUplink.v ===== *)
(** * A transport block of the UL-SCH, from the UE to the eNB

    The header that [generate_ulsch_header] writes, with the control elements and the SDUs behind it, taken
    apart by [rx_sdu] of MacUlsch.v for a UE in the list: its reports go to its template, and its SDUs to
    RLC. *)

From S2P Require Import Prelude RlcStore MacPdu MacDemux MacPduSpec MacHeaderSpec MacTransfer MacUlsch MacUeList.

(** ** The UE that is served *)
Definition wf_template (t : UE_TEMPLATE) : Prop :=
  length (bsr_info t) = 4%nat /\ length (ul_buffer_info t) = 4%nat /\ length (ul_buffer_creation_time t) = 4%nat /\
  length (lcgidmap t) = 11%nat /\ Forall (fun g => 0 <= g < 4) (lcgidmap t).
Definition wf_stats (s : eNB_UE_STATS) : Prop := length (num_pdu_rx s) = 14%nat /\ length (num_bytes_rx s) = 14%nat.

Section Ue.
Context (CC UE : Z) (HCC : 0 <= CC) (HUE : 0 <= UE).

(** The template, the scheduling control and the statistics of the UE. *)
Definition has_template (e : eNB_MAC_INST) (t : UE_TEMPLATE) : Prop :=
  exists row, UE_template e !! Z.to_nat CC = Some row /\ row !! Z.to_nat UE = Some t.
Definition ue_ready (e : eNB_MAC_INST) (t : UE_TEMPLATE) : Prop :=
  has_template e t /\ wf_template t /\ (exists s, sched_ctrl e !! Z.to_nat UE = Some s) /\
  (exists row st, eNB_UE_stats e !! Z.to_nat CC = Some row /\ row !! Z.to_nat UE = Some st /\ wf_stats st) /\
  (exists s, enb_stats e !! Z.to_nat CC = Some s).

Lemma upd_template_ready e t f t' : ue_ready e t -> f t = Ok t' -> wf_template t' ->
  exists e', upd_template CC UE f e = Ok e' /\ ue_ready e' t'.
Proof using HCC HUE.
  intros ((row & Hr & Ht) & _ & Hrest) Hf Hwf. unfold upd_template.
  rewrite (array2_upd_ok (UE_template e) CC UE f row t t' HCC HUE Hr Ht Hf). cbn [mbind res_bind].
  eexists. split; [reflexivity|]. split; [|done]. eexists. cbn.
  split; [apply list_lookup_insert_eq; by apply lookup_lt_Some in Hr | apply list_lookup_insert_eq; by apply lookup_lt_Some in Ht].
Qed.
Lemma upd_sched_ready e t f : ue_ready e t -> exists e', upd_sched UE f e = Ok e' /\ ue_ready e' t /\
  UE_template e' = UE_template e /\ pCC_id e' = pCC_id e /\ RA_template e' = RA_template e.
Proof using HUE.
  intros (Ht & Hwf & (s & Hs) & Hrest). unfold upd_sched.
  rewrite (array_upd_pure (sched_ctrl e) UE f s HUE Hs). cbn [mbind res_bind].
  eexists. split; [reflexivity|]. split; [|done]. split; [done|]. split; [done|]. split; [|done].
  exists (f s). apply list_lookup_insert_eq. by apply lookup_lt_Some in Hs.
Qed.
Lemma upd_stats_ready e t f : ue_ready e t -> (forall st, wf_stats st -> exists st', f st = Ok st' /\ wf_stats st') ->
  exists e', upd_stats CC UE f e = Ok e' /\ ue_ready e' t.
Proof using HCC HUE.
  intros (Ht & Hwf & Hs & (row & st & Hr & Hst & Hwst) & He) Hf. unfold upd_stats.
  destruct (Hf st Hwst) as (st' & Est & Hwst').
  rewrite (array2_upd_ok (eNB_UE_stats e) CC UE f row st st' HCC HUE Hr Hst Est). cbn [mbind res_bind].
  eexists. split; [reflexivity|]. split; [done|]. split; [done|]. split; [done|]. split; [|done].
  eexists _, st'. cbn. split; [apply list_lookup_insert_eq; by apply lookup_lt_Some in Hr|].
  split; [apply list_lookup_insert_eq; by apply lookup_lt_Some in Hst | done].
Qed.
Lemma ue_alive_ready e t s : ue_ready e t -> sched_ctrl e !! Z.to_nat UE = Some s ->
  exists e', ue_alive e UE = Ok (e', ul_out_of_sync s >? 0) /\ ue_ready e' t /\
    UE_template e' = UE_template e /\ pCC_id e' = pCC_id e /\ RA_template e' = RA_template e.
Proof using HUE.
  intros Hrd Hs. unfold ue_alive. rewrite (array_get_lookup (sched_ctrl e) UE s HUE Hs). cbn [mbind res_bind].
  destruct (upd_sched_ready e t (fun s => s <| ul_inactivity_timer := 0 |> <| ul_failure_timer := 0 |>) Hrd) as (e1 & -> & Hrd1 & Ht1 & Hp1 & Hr1).
  cbn [mbind res_bind]. destruct (ul_out_of_sync s >? 0); [|by exists e1].
  destruct (upd_sched_ready e1 t (fun s => s <| ul_out_of_sync := 0 |>) Hrd1) as (e2 & -> & Hrd2 & Ht2 & Hp2 & Hr2).
  exists e2. repeat (split; [done || congruence|]). congruence.
Qed.

(** ** Control elements *)
Definition bsr_value (b : Z) : Z := nth (Z.to_nat b) BSR_TABLE 0.
Lemma bsr_table_get b : 0 <= b < 64 -> array_get BSR_TABLE b = Ok (bsr_value b).
Proof using Type.
  intros Hb. unfold bsr_value. apply array_get_lookup; [lia|].
  destruct (lookup_lt_is_Some_2 BSR_TABLE (Z.to_nat b)) as [v Hv]; [change (length BSR_TABLE) with 64%nat; lia|].
  rewrite Hv. by rewrite (nth_lookup_Some _ _ 0 v Hv).
Qed.
Lemma land_63 b : 0 <= Z.land b 63 < 64.
Proof using Type. change 63 with (2 ^ 6 - 1). rewrite land_ones_mod by lia. apply Z.mod_pos_bound. lia. Qed.

Lemma phr_ce_ready b e t : ue_ready e t -> exists e', phr_ce b CC UE e = Ok e' /\
  ue_ready e' (t <| phr_info := i8 (Z.land b 63 - PHR_MAPPING_OFFSET) |> <| phr_info_configured := 1 |>).
Proof using HCC HUE.
  intros Hrd. unfold phr_ce.
  destruct (upd_template_ready e t (fun t => Ok (t <| phr_info := i8 (Z.land b 63 - PHR_MAPPING_OFFSET) |> <| phr_info_configured := 1 |>)) _ Hrd eq_refl)
    as (e1 & -> & Hrd1); [by destruct Hrd as (_ & ? & _)|].
  cbn [mbind res_bind]. destruct (upd_sched_ready e1 _ (fun s => s <| phr_received := 1 |>) Hrd1) as (e2 & -> & Hrd2 & _). by exists e2.
Qed.
(** A short report, of the group in its two high bits. *)
Definition short_report (b frameP : Z) (t t' : UE_TEMPLATE) : Prop :=
  bsr_info t' = <[Z.to_nat (Z.shiftr b 6) := Z.land b 63]> (bsr_info t) /\
  ul_buffer_info t' = <[Z.to_nat (Z.shiftr b 6) := bsr_value (Z.land b 63)]> (ul_buffer_info t) /\
  ul_total_buffer t' = bsr_value (Z.land b 63) /\ lcgidmap t' = lcgidmap t /\ phr_info t' = phr_info t /\
  phr_info_configured t' = phr_info_configured t.
Lemma short_bsr_ready b frameP e t : ue_ready e t -> 0 <= b < 256 -> exists e' t', short_bsr_ce b CC UE frameP e = Ok e' /\
  ue_ready e' t' /\ short_report b frameP t t'.
Proof using HCC HUE.
  intros Hrd Hb. unfold short_bsr_ce.
  assert (Hg : 0 <= Z.shiftr b 6 < 4) by (rewrite Z.shiftr_div_pow2 by lia; change (2 ^ 6) with 64; mod_lia).
  destruct Hrd as (Ht & Hwf & Hrest). pose proof Hwf as (H1 & H2 & H3 & H4 & H5).
  destruct (lookup_lt_is_Some_2 (ul_buffer_creation_time t) (Z.to_nat (Z.shiftr b 6))) as [c Hc]; [lia|].
  edestruct (upd_template_ready e t) as (e' & E & Hrd'); [by split | | | exists e'; eexists; split; [exact E | split; [exact Hrd' |]]].
  - cbn beta. rewrite bsr_table_get by apply land_63. cbn [mbind res_bind].
    rewrite !array_set_ok by lia. cbn [mbind res_bind].
    rewrite (array_upd_pure (ul_buffer_creation_time t) _ _ c (proj1 Hg) Hc). reflexivity.
  - unfold wf_template. cbn. rewrite !length_insert. done.
  - done.
Qed.
(** A long report, of the four groups. *)
Definition long_report (sizes : list Z) (t t' : UE_TEMPLATE) : Prop :=
  bsr_info t' = sizes /\ ul_buffer_info t' = map bsr_value sizes /\ lcgidmap t' = lcgidmap t /\ phr_info t' = phr_info t /\
  phr_info_configured t' = phr_info_configured t.
Lemma long_bsr_group_ok g t b : wf_template t -> (g < 4)%nat -> bsr_info t !! g = Some b -> 0 <= b < 64 ->
  exists t', long_bsr_group (Z.of_nat g) t = Ok t' /\ wf_template t' /\ bsr_info t' = bsr_info t /\
    ul_buffer_info t' = <[g := bsr_value b]> (ul_buffer_info t) /\ lcgidmap t' = lcgidmap t /\ phr_info t' = phr_info t /\
    phr_info_configured t' = phr_info_configured t /\ ul_buffer_creation_time t' = ul_buffer_creation_time t.
Proof using Type.
  intros Hwf Hg Hb Hb64. pose proof Hwf as (H1 & H2 & H3 & H4 & H5). unfold long_bsr_group.
  destruct (lookup_lt_is_Some_2 (ul_buffer_info t) g) as [v Hv]; [lia|]. rewrite <- (Nat2Z.id g) in Hv, Hb.
  rewrite (array_get_lookup (ul_buffer_info t) (Z.of_nat g) v ltac:(lia) Hv). cbn [mbind res_bind].
  rewrite (array_get_lookup (bsr_info t) (Z.of_nat g) b ltac:(lia) Hb). cbn [mbind res_bind].
  rewrite bsr_table_get by done. cbn [mbind res_bind]. rewrite array_set_ok by lia. cbn [mbind res_bind].
  eexists. split; [reflexivity|]. rewrite Nat2Z.id. split; [|done]. unfold wf_template. cbn. rewrite length_insert. done.
Qed.
Lemma long_bsr_time_ok frameP g t : wf_template t -> (g < 4)%nat ->
  exists t', long_bsr_time frameP (Z.of_nat g) t = Ok t' /\ wf_template t' /\ bsr_info t' = bsr_info t /\
    ul_buffer_info t' = ul_buffer_info t /\ lcgidmap t' = lcgidmap t /\ phr_info t' = phr_info t /\
    phr_info_configured t' = phr_info_configured t.
Proof using Type.
  intros Hwf Hg. pose proof Hwf as (H1 & H2 & H3 & H4 & H5). unfold long_bsr_time.
  destruct (lookup_lt_is_Some_2 (bsr_info t) g) as [b Hb]; [lia|].
  destruct (lookup_lt_is_Some_2 (ul_buffer_creation_time t) g) as [c Hc]; [lia|]. rewrite <- (Nat2Z.id g) in Hb, Hc.
  rewrite (array_get_lookup (bsr_info t) (Z.of_nat g) b ltac:(lia) Hb). cbn [mbind res_bind].
  rewrite (array_upd_pure (ul_buffer_creation_time t) (Z.of_nat g) _ c ltac:(lia) Hc). cbn [mbind res_bind].
  eexists. split; [reflexivity|]. split; [|done]. unfold wf_template. cbn. rewrite length_insert. done.
Qed.
Lemma long_bsr_ready b0 b1 b2 frameP e t : ue_ready e t -> Forall (fun b => 0 <= b < 64) (long_bsr_sizes b0 b1 b2) ->
  exists e' t', long_bsr_ce b0 b1 b2 CC UE frameP e = Ok e' /\ ue_ready e' t' /\ long_report (long_bsr_sizes b0 b1 b2) t t'.
Proof using HCC HUE.
  intros Hrd Hsz. unfold long_bsr_ce. destruct (long_bsr_sizes b0 b1 b2) as [|s0 [|s1 [|s2 [|s3 [|]]]]] eqn:Esz; try discriminate Esz.
  clear Esz. destruct Hrd as (Ht & Hwf & Hrest). set (t0 := t <| bsr_info := [s0; s1; s2; s3] |>).
  assert (Hwf0 : wf_template t0) by by destruct Hwf as (_ & ?).
  assert (H0 : lcgidmap t0 = lcgidmap t /\ phr_info t0 = phr_info t /\ phr_info_configured t0 = phr_info_configured t) by done.
  destruct H0 as (Hl0 & Hp0 & Hq0).
  assert (Hui : exists v0 v1 v2 v3, ul_buffer_info t0 = [v0; v1; v2; v3]).
  { destruct Hwf0 as (_ & H & _). destruct (ul_buffer_info t0) as [|v0 [|v1 [|v2 [|v3 [|]]]]]; try discriminate H. by exists v0, v1, v2, v3. }
  destruct Hui as (v0 & v1 & v2 & v3 & Hui).
  repeat match goal with H : Forall _ (_ :: _) |- _ => apply Forall_cons in H as [? ?] end.
  destruct (long_bsr_group_ok 0 t0 s0) as (t1 & E1 & Hwf1 & Hb1 & Hu1 & Hl1 & Hp1 & Hq1 & _); [done | lia | done | done|].
  destruct (long_bsr_group_ok 1 t1 s1) as (t2 & E2 & Hwf2 & Hb2 & Hu2 & Hl2 & Hp2 & Hq2 & _); [done | lia | by rewrite Hb1 | done|].
  destruct (long_bsr_group_ok 2 t2 s2) as (t3 & E3 & Hwf3 & Hb3 & Hu3 & Hl3 & Hp3 & Hq3 & _); [done | lia | by rewrite Hb2, Hb1 | done|].
  destruct (long_bsr_group_ok 3 t3 s3) as (t4 & E4 & Hwf4 & Hb4 & Hu4 & Hl4 & Hp4 & Hq4 & _); [done | lia | by rewrite Hb3, Hb2, Hb1 | done|].
  destruct (long_bsr_time_ok frameP 0 t4) as (t5 & E5 & Hwf5 & Hb5 & Hu5 & Hl5 & Hp5 & Hq5); [done | lia|].
  destruct (long_bsr_time_ok frameP 1 t5) as (t6 & E6 & Hwf6 & Hb6 & Hu6 & Hl6 & Hp6 & Hq6); [done | lia|].
  destruct (long_bsr_time_ok frameP 2 t6) as (t7 & E7 & Hwf7 & Hb7 & Hu7 & Hl7 & Hp7 & Hq7); [done | lia|].
  destruct (long_bsr_time_ok frameP 3 t7) as (t8 & E8 & Hwf8 & Hb8 & Hu8 & Hl8 & Hp8 & Hq8); [done | lia|].
  edestruct (upd_template_ready e t) as (e' & E & Hrd'); [by split | | exact Hwf8 | exists e', t8; split; [exact E | split; [exact Hrd' |]]].
  - cbn beta. fold t0. cbn [Z.of_nat] in *. change (Z.of_nat 0) with 0 in *. change (Z.of_nat 1) with 1 in *.
    change (Z.of_nat 2) with 2 in *. change (Z.of_nat 3) with 3 in *.
    rewrite E1. cbn [mbind res_bind]. rewrite E2. cbn [mbind res_bind]. rewrite E3. cbn [mbind res_bind]. rewrite E4. cbn [mbind res_bind].
    rewrite E5. cbn [mbind res_bind]. rewrite E6. cbn [mbind res_bind]. rewrite E7. cbn [mbind res_bind]. exact E8.
  - split; [rewrite Hb8, Hb7, Hb6, Hb5, Hb4, Hb3, Hb2, Hb1; done|].
    split; [rewrite Hu8, Hu7, Hu6, Hu5, Hu4, Hu3, Hu2, Hu1, Hui; done|]. repeat split; congruence.
Qed.
End Ue.

(** ** The long report, written and read *)
Definition sixes : list Z := map Z.of_nat (seq 0 64).
Lemma in_sixes x : 0 <= x < 64 -> x ∈ sixes.
Proof. intros H. apply list_elem_of_fmap. exists (Z.to_nat x). split; [lia|]. apply elem_of_seq. lia. Qed.
Lemma check_six (f : Z -> bool) : forallb f sixes = true -> forall x, 0 <= x < 64 -> f x = true.
Proof. intros H x Hx. rewrite forallb_forall in H. by apply H, list_elem_of_In, in_sixes. Qed.
Lemma check_six_pair (f : Z -> Z -> bool) : forallb (fun x => forallb (f x) sixes) sixes = true ->
  forall x y, 0 <= x < 64 -> 0 <= y < 64 -> f x y = true.
Proof. intros H x y Hx Hy. apply (check_six (fun x => forallb (f x) sixes)) with (x := x) in H; [|done]. by apply (check_six (f x)). Qed.
Definition bsr_fields (b : BSR_LONG) : Prop :=
  0 <= Buffer_size0 b < 64 /\ 0 <= Buffer_size1 b < 64 /\ 0 <= Buffer_size2 b < 64 /\ 0 <= Buffer_size3 b < 64.
(** What the eNB reads: the two low bits of the third size are in the fourth. *)
Definition long_bsr_read (b : BSR_LONG) : list Z :=
  [Buffer_size0 b; Buffer_size1 b; Z.land (Buffer_size2 b) 60; Z.lor (Z.shiftl (Z.land (Buffer_size2 b) 3) 2) (Buffer_size3 b)].
Lemma long_bsr_decode b : bsr_fields b ->
  exists b0 b1 b2, long_bsr_bytes b = [b0; b1; b2] /\ long_bsr_sizes b0 b1 b2 = long_bsr_read b /\
    Forall (fun s => 0 <= s < 64) (long_bsr_read b).
Proof.
  destruct b as [s0 s1 s2 s3]. intros (H0 & H1 & H2 & H3). cbn in H0, H1, H2, H3. unfold long_bsr_bytes, long_bsr_sizes, long_bsr_read.
  cbn [Buffer_size0 Buffer_size1 Buffer_size2 Buffer_size3].
  eexists _, _, _. split; [reflexivity|].
  pose proof (check_six_pair (fun s0 s1 => let b0 := u8 (Z.lor (Z.shiftl s0 2) (Z.shiftr (Z.land s1 48) 4)) in
    (Z.shiftr (Z.land b0 252) 2 =? s0) && (Z.shiftl (Z.land b0 3) 4 =? Z.land s1 48)) ltac:(vm_compute; reflexivity) s0 s1 H0 H1) as E0.
  pose proof (check_six_pair (fun s1 s2 => let b1 := u8 (Z.lor (Z.shiftl (Z.land s1 15) 4) (Z.shiftr (Z.land s2 60) 2)) in
    (Z.shiftr (Z.land b1 240) 4 =? Z.land s1 15) && (Z.shiftl (Z.land b1 15) 2 =? Z.land s2 60)) ltac:(vm_compute; reflexivity) s1 s2 H1 H2) as E1.
  pose proof (check_six_pair (fun s2 s3 => let b2 := u8 (Z.lor (Z.shiftl (Z.land s2 3) 2) (Z.land s3 63)) in
    (Z.shiftr (Z.land b2 192) 6 =? 0) && (Z.land b2 63 =? Z.lor (Z.shiftl (Z.land s2 3) 2) s3) &&
    (Z.land b2 63 <? 64) && (0 <=? Z.land b2 63)) ltac:(vm_compute; reflexivity) s2 s3 H2 H3) as E2.
  pose proof (check_six (fun s => (Z.lor (Z.land s 48) (Z.land s 15) =? s) && (0 <=? Z.land s 60) && (Z.land s 60 <? 64)) ltac:(vm_compute; reflexivity)) as E3.
  pose proof (E3 s1 H1) as E31. pose proof (E3 s2 H2) as E32. cbn beta zeta in *.
  rewrite !andb_true_iff, !Z.eqb_eq, ?Z.leb_le, ?Z.ltb_lt in *.
  destruct E0 as [-> ->], E1 as [-> ->], E2 as [[[-> E2] E2a] E2b]. rewrite E2 in *. rewrite Z.lor_0_r. destruct E31 as [[-> _] _].
  split; [done|]. repeat (apply Forall_cons; split); try apply Forall_nil_2; lia.
Qed.

(** A long buffer status report of the UE is read back by the eNB with its four sizes exactly when the
    third is a multiple of four: the two low bits of the third size, which belong in the two high bits of
    the last byte, are written two bits up only, so the eNB reads the third size without them and the
    fourth mixed with them. *)
Theorem long_bsr_mismatch b : bsr_fields b ->
  exists b0 b1 b2, long_bsr_bytes b = [b0; b1; b2] /\ long_bsr_sizes b0 b1 b2 = long_bsr_read b /\
    (long_bsr_read b = [Buffer_size0 b; Buffer_size1 b; Buffer_size2 b; Buffer_size3 b] <-> Buffer_size2 b mod 4 = 0).
Proof.
  intros H. destruct (long_bsr_decode b H) as (b0 & b1 & b2 & E & Es & _). exists b0, b1, b2. split; [done|]. split; [done|].
  destruct b as [s0 s1 s2 s3]. destruct H as (_ & _ & H2 & H3). unfold long_bsr_read. cbn in *.
  pose proof (check_six (fun s => Bool.eqb (Z.land s 60 =? s) (s mod 4 =? 0) && (Z.land s 3 =? s mod 4)) ltac:(vm_compute; reflexivity) s2 H2) as E1.
  cbn beta in E1. rewrite andb_true_iff, Bool.eqb_true_iff, Z.eqb_eq in E1. destruct E1 as [E1 E3]. split.
  - intros [= Hs2 _]. rewrite Hs2, Z.eqb_refl in E1. by apply Z.eqb_eq.
  - intros Hm. rewrite E3, Hm in *. cbn [Z.shiftl Z.lor]. rewrite Z.eqb_refl, Z.eqb_eq in E1. by rewrite E1.
Qed.

(** ** The reception of a block *)
Definition short_bsr_of (tb sb : option Z) : option Z := match tb with Some b => Some b | None => sb end.
(** What the control elements leave in the template. *)
Definition reported (phr tb sb : option Z) (lb : option BSR_LONG) (t t' : UE_TEMPLATE) : Prop :=
  (bsr_info t', ul_buffer_info t') =
    match short_bsr_of tb sb, lb with
    | Some b, _ => (<[Z.to_nat (Z.shiftr b 6) := Z.land b 63]> (bsr_info t),
                    <[Z.to_nat (Z.shiftr b 6) := bsr_value (Z.land b 63)]> (ul_buffer_info t))
    | None, Some b => (long_bsr_read b, map bsr_value (long_bsr_read b))
    | None, None => (bsr_info t, ul_buffer_info t)
    end /\
  (phr_info t', phr_info_configured t') =
    match phr with
    | Some b => (i8 (Z.land b 63 - PHR_MAPPING_OFFSET), 1)
    | None => (phr_info t, phr_info_configured t)
    end /\
  lcgidmap t' = lcgidmap t.
Definition ce_fields (phr tb sb : option Z) (lb : option BSR_LONG) : Prop :=
  match short_bsr_of tb sb with Some b => 0 <= b < 256 | None => True end /\
  match lb with Some b => bsr_fields b | None => True end.
(** An SDU takes its length from the buffer of its group. *)
Definition drain (groups ui : list Z) (sdu : Z * list Z) : list Z :=
  let len := Z.of_nat (length sdu.2) in
  let g := Z.to_nat (default 0 (groups !! Z.to_nat sdu.1)) in
  let v := default 0 (ui !! g) in
  <[g := if v >=? len then v - len else 0]> ui.

Lemma rx_ces_app CC frameP subframeP sdu l k r :
  rx_ces CC frameP subframeP sdu (l ++ k) r = (r ← rx_ces CC frameP subframeP sdu l r; rx_ces CC frameP subframeP sdu k r).
Proof.
  revert r. induction l as [|c l IH]; intros r; [done|]. cbn [app rx_ces].
  destruct (rx_ce CC frameP subframeP sdu c r) as [r1|]; cbn [mbind res_bind]; [apply IH | done].
Qed.

Section Block.
Context (CC UE frameP subframeP rntiP harq_pidP : Z) (Is_rrc_registered : bool) (HCC : 0 <= CC) (HUE : 0 <= UE).
Lemma UE_known : (UE =? -1) = false.
Proof using HUE. apply Z.eqb_neq. lia. Qed.

Lemma rx_phr pre phr rest r t : rx_ue r = UE -> rx_ptr r = Z.of_nat (length pre) -> ue_ready CC UE (rx_enb r) t ->
  let bytes := match phr with Some b => [b] | None => [] end in
  exists r' t', rx_ces CC frameP subframeP (pre ++ bytes ++ rest) (match phr with Some _ => [POWER_HEADROOM] | None => [] end) r = Ok r' /\
    rx_ue r' = UE /\ rx_ptr r' = Z.of_nat (length (pre ++ bytes)) /\ rx_out r' = rx_out r /\ ue_ready CC UE (rx_enb r') t' /\
    reported phr None None None t t'.
Proof using HCC HUE.
  intros Hue Hptr Hrd. destruct phr as [b|]; cbn zeta.
  - cbn [rx_ces]. unfold rx_ce. rewrite Z.eqb_refl, Hue, UE_known, Hptr. cbn [app].
    rewrite array_get_app by done. cbn [mbind res_bind].
    destruct (phr_ce_ready CC UE HCC HUE b _ t Hrd) as (e' & -> & Hrd'). cbn [mbind res_bind].
    eexists _, _. split; [reflexivity|]. split; [done|]. split; [rewrite length_app; cbn; lia|]. split; [done|]. split; [exact Hrd' | done].
  - exists r, t. rewrite app_nil_r. done.
Qed.
Lemma rx_bsr pre tb sb lb rest r t : rx_ue r = UE -> rx_ptr r = Z.of_nat (length pre) -> ue_ready CC UE (rx_enb r) t ->
  ce_fields None tb sb lb ->
  exists r' t', rx_ces CC frameP subframeP (pre ++ (bsr_ce tb sb lb).2 ++ rest) (bsr_ce tb sb lb).1 r = Ok r' /\
    rx_ue r' = UE /\ rx_ptr r' = Z.of_nat (length (pre ++ (bsr_ce tb sb lb).2)) /\
    rx_out r' = rx_out r ++ (match short_bsr_of tb sb with
                             | Some b => [Pusch_stats_bsr UE (frameP * 10 + subframeP) (Z.land b 63)] | None => [] end) /\
    ue_ready CC UE (rx_enb r') t' /\ reported None tb sb lb t t'.
Proof using HCC HUE.
  intros Hue Hptr Hrd [Hb Hlb].
  assert (Hshort : forall ce b, (ce = TRUNCATED_BSR \/ ce = SHORT_BSR) -> 0 <= b < 256 ->
    exists r' t', rx_ces CC frameP subframeP (pre ++ [b] ++ rest) [ce] r = Ok r' /\ rx_ue r' = UE /\
      rx_ptr r' = Z.of_nat (length (pre ++ [b])) /\ rx_out r' = rx_out r ++ [Pusch_stats_bsr UE (frameP * 10 + subframeP) (Z.land b 63)] /\
      ue_ready CC UE (rx_enb r') t' /\ short_report b frameP t t').
  { intros ce b Hce Hbb. cbn [rx_ces]. unfold rx_ce.
    assert ((ce =? POWER_HEADROOM) = false /\ (ce =? CRNTI) = false /\ (ce =? TRUNCATED_BSR) || (ce =? SHORT_BSR) = true) as (-> & -> & ->)
      by (destruct Hce as [-> | ->]; done).
    rewrite Hue, UE_known, Hptr. cbn [app]. rewrite array_get_app by done. cbn [mbind res_bind].
    destruct (short_bsr_ready CC UE HCC HUE b frameP _ t Hrd Hbb) as (e' & t' & -> & Hrd' & Hrep). cbn [mbind res_bind].
    eexists _, t'. split; [reflexivity|]. split; [done|]. split; [rewrite length_app; cbn; lia|]. done. }
  assert (Hrepd : forall b t', short_report b frameP t t' -> short_bsr_of tb sb = Some b -> reported None tb sb lb t t').
  { intros b t' (H1 & H2 & _ & H3 & H4 & H5) E. unfold reported. rewrite E, H1, H2, H3, H4, H5. done. }
  destruct tb as [b|]; [|destruct sb as [b|]; [|destruct lb as [b|]]]; cbn [bsr_ce fst snd short_bsr_of] in *.
  - destruct (Hshort TRUNCATED_BSR b) as (r' & t' & ? & ? & ? & ? & ? & Hrep); [by left | done|].
    exists r', t'. repeat (split; [done|]). by apply (Hrepd b).
  - destruct (Hshort SHORT_BSR b) as (r' & t' & ? & ? & ? & ? & ? & Hrep); [by right | done|].
    exists r', t'. repeat (split; [done|]). by apply (Hrepd b).
  - destruct (long_bsr_decode b Hlb) as (b0 & b1 & b2 & -> & Hsz & Hrange). cbn [rx_ces]. unfold rx_ce.
    change (LONG_BSR =? POWER_HEADROOM) with false. change (LONG_BSR =? CRNTI) with false.
    change ((LONG_BSR =? TRUNCATED_BSR) || (LONG_BSR =? SHORT_BSR)) with false. rewrite (Z.eqb_refl LONG_BSR). cbn iota.
    rewrite Hue, UE_known, Hptr. rewrite (array_get_app pre ([b1; b2] ++ rest) b0 (Z.of_nat (length pre)) eq_refl : array_get (pre ++ [b0; b1; b2] ++ rest) _ = _).
    cbn [mbind res_bind].
    rewrite (array_get_after pre [b0] b1 ([b2] ++ rest) 1 eq_refl : array_get (pre ++ [b0; b1; b2] ++ rest) _ = _). cbn [mbind res_bind].
    rewrite (array_get_after pre [b0; b1] b2 rest 2 eq_refl : array_get (pre ++ [b0; b1; b2] ++ rest) _ = _). cbn [mbind res_bind].
    rewrite <- Hsz in Hrange. destruct (long_bsr_ready CC UE HCC HUE b0 b1 b2 frameP _ t Hrd Hrange) as (e' & t' & -> & Hrd' & Hrep).
    cbn [mbind res_bind]. eexists _, t'. split; [reflexivity|]. split; [done|]. split; [rewrite length_app; cbn; lia|].
    split; [by rewrite app_nil_r|]. split; [done|]. rewrite Hsz in Hrep. destruct Hrep as (H1 & H2 & H3 & H4 & H5).
    unfold reported. cbn [short_bsr_of]. by rewrite H1, H2, H3, H4, H5.
  - exists r, t. rewrite !app_nil_r. done.
Qed.
Lemma rx_ces_spec pre phr tb sb lb rest r t : rx_ue r = UE -> rx_ptr r = Z.of_nat (length pre) -> ue_ready CC UE (rx_enb r) t ->
  ce_fields phr tb sb lb ->
  exists r' t', rx_ces CC frameP subframeP (pre ++ ul_ce_bytes phr None tb sb lb ++ rest) (ul_ce_lcids phr None tb sb lb) r = Ok r' /\
    rx_ue r' = UE /\ rx_ptr r' = Z.of_nat (length (pre ++ ul_ce_bytes phr None tb sb lb)) /\
    rx_out r' = rx_out r ++ (match short_bsr_of tb sb with
                             | Some b => [Pusch_stats_bsr UE (frameP * 10 + subframeP) (Z.land b 63)] | None => [] end) /\
    ue_ready CC UE (rx_enb r') t' /\ reported phr tb sb lb t t'.
Proof using HCC HUE.
  intros Hue Hptr Hrd Hce. unfold ul_ce_lcids, ul_ce_bytes. cbn [app]. rewrite rx_ces_app.
  destruct (rx_phr pre phr ((bsr_ce tb sb lb).2 ++ rest) r t Hue Hptr Hrd) as (r1 & t1 & E1 & Hue1 & Hptr1 & Hout1 & Hrd1 & Hrep1).
  cbn zeta in *. rewrite <- app_assoc. rewrite E1. cbn [mbind res_bind].
  destruct (rx_bsr _ tb sb lb rest r1 t1 Hue1 Hptr1 Hrd1 Hce) as (r2 & t2 & E2 & Hue2 & Hptr2 & Hout2 & Hrd2 & Hrep2).
  rewrite (app_assoc pre), E2. exists r2, t2. split; [done|]. split; [done|]. split; [by rewrite Hptr2, app_assoc|].
  split; [by rewrite Hout2, Hout1|]. split; [done|].
  destruct Hrep1 as (H1 & H2 & H3), Hrep2 as (G1 & G2 & G3). unfold reported in *. cbn [short_bsr_of] in *. injection H1 as Ha Hb.
  rewrite Ha, Hb in G1. rewrite G1, G2, G3, H2, H3. done.
Qed.

(** The SDUs of the data and signalling channels. *)
Definition ul_sdu_ok (sdu : Z * list Z) : Prop := 1 <= sdu.1 <= 10 /\ 0 < Z.of_nat (length sdu.2) < SCH_PAYLOAD_SIZE_MAX.
Lemma rx_one_sdu_spec pre lcid bytes rest r t : ul_sdu_ok (lcid, bytes) -> rx_ue r = UE -> rx_ptr r = Z.of_nat (length pre) ->
  ue_ready CC UE (rx_enb r) t ->
  exists r', rx_one_sdu CC rntiP harq_pidP (pre ++ bytes ++ rest) Is_rrc_registered lcid (Z.of_nat (length bytes)) r = Ok r' /\
    rx_ue r' = UE /\ rx_ptr r' = rx_ptr r /\ rx_msg3 r' = rx_msg3 r /\ rx_out r' = rx_out r ++ [Enb_rlc_data_ind rntiP lcid bytes] /\
    ue_ready CC UE (rx_enb r') (t <| ul_buffer_info := drain (lcgidmap t) (ul_buffer_info t) (lcid, bytes) |>).
Proof using HCC HUE.
  intros [Hl Hlen] Hue Hptr Hrd. cbn [fst snd] in *. pose proof Hrd as (_ & Hwf & _). pose proof Hwf as (H1 & H2 & H3 & H4 & H5).
  destruct (lookup_lt_is_Some_2 (lcgidmap t) (Z.to_nat lcid)) as [g Hg]; [lia|].
  pose proof (proj1 (Forall_lookup _ _) H5 _ g Hg) as Hg4. cbn in Hg4.
  destruct (lookup_lt_is_Some_2 (ul_buffer_info t) (Z.to_nat g)) as [v Hv]; [lia|].
  set (t' := t <| ul_buffer_info := drain (lcgidmap t) (ul_buffer_info t) (lcid, bytes) |>).
  assert (Hdr : drain (lcgidmap t) (ul_buffer_info t) (lcid, bytes) =
    <[Z.to_nat g := if v >=? Z.of_nat (length bytes) then v - Z.of_nat (length bytes) else 0]> (ul_buffer_info t)).
  { unfold drain. cbn [fst snd]. rewrite Hg. change (default 0 (Some g)) with g. by rewrite Hv. }
  assert (Hless : less_buffer lcid (Z.of_nat (length bytes)) t = Ok t').
  { unfold less_buffer. rewrite (array_get_lookup (lcgidmap t) lcid g) by (done || lia). cbn [mbind res_bind].
    rewrite (array_upd_pure (ul_buffer_info t) g _ v) by (done || lia). cbn [mbind res_bind]. subst t'. by rewrite Hdr. }
  assert (Hwf' : wf_template t').
  { subst t'. unfold wf_template. cbn. rewrite Hdr, length_insert. done. }
  destruct (upd_template_ready CC UE HCC HUE (rx_enb r) t (less_buffer lcid (Z.of_nat (length bytes))) t' Hrd Hless Hwf') as (e1 & E1 & Hrd1).
  assert (Hrlc : exists r', rx_to_rlc CC rntiP (pre ++ bytes ++ rest) lcid (Z.of_nat (length bytes)) (r <| rx_enb := e1 |>) = Ok r' /\
    rx_ue r' = UE /\ rx_ptr r' = rx_ptr r /\ rx_msg3 r' = rx_msg3 r /\ rx_out r' = rx_out r ++ [Enb_rlc_data_ind rntiP lcid bytes] /\ ue_ready CC UE (rx_enb r') t').
  { unfold rx_to_rlc. cbn [rx_ptr rx_ue rx_enb rx_out]. change (rx_ptr (r <| rx_enb := e1 |>)) with (rx_ptr r).
    rewrite Hptr, mem_read_app by (rewrite ?length_app; lia). rewrite Nat2Z.id, take_app_length. cbn [mbind res_bind].
    change (rx_ue (r <| rx_enb := e1 |>)) with (rx_ue r). rewrite Hue.
    destruct (upd_stats_ready CC UE HCC HUE e1 t' (count_pdu lcid (Z.of_nat (length bytes))) Hrd1) as (e2 & E2 & Hrd2).
    { intros st [Hs1 Hs2]. unfold count_pdu.
      destruct (lookup_lt_is_Some_2 (num_pdu_rx st) (Z.to_nat lcid)) as [n1 Hn1]; [lia|].
      destruct (lookup_lt_is_Some_2 (num_bytes_rx st) (Z.to_nat lcid)) as [n2 Hn2]; [lia|].
      rewrite (array_upd_pure (num_pdu_rx st) lcid _ n1) by (done || lia). cbn [mbind res_bind].
      rewrite (array_upd_pure (num_bytes_rx st) lcid _ n2) by (done || lia). cbn [mbind res_bind].
      eexists. split; [reflexivity|]. split; cbn; by rewrite length_insert. }
    change (rx_enb (r <| rx_enb := e1 |>)) with e1. rewrite E2. cbn [mbind res_bind].
    eexists. split; [reflexivity|]. split; [exact Hue|]. split; [exact Hptr|]. split; [done|]. split; [done|]. exact Hrd2. }
  destruct Hrlc as (r' & Er & Hr'). exists r'. split; [|done]. unfold rx_one_sdu.
  rewrite (proj2 (Z.eqb_neq lcid CCCH)) by (unfold CCCH; lia). rewrite Hue, UE_known, E1. cbn [mbind res_bind].
  destruct ((lcid =? DCCH) || (lcid =? DCCH1)); [done|].
  rewrite (proj2 (Z.ltb_lt lcid NB_RB_MAX)) by (unfold NB_RB_MAX, maxDRB; lia).
  rewrite (proj2 (Z.ltb_lt _ SCH_PAYLOAD_SIZE_MAX)), (proj2 (Z.gtb_gt _ 0)) by lia. done.
Qed.
Lemma rx_sdus_spec sdus : forall pre rest r t, Forall ul_sdu_ok sdus -> rx_ue r = UE -> rx_ptr r = Z.of_nat (length pre) ->
  ue_ready CC UE (rx_enb r) t ->
  exists r', rx_sdus CC rntiP harq_pidP (pre ++ sdu_bytes sdus ++ rest) Is_rrc_registered (sdu_lengths sdus) r = Ok r' /\
    rx_ue r' = UE /\ rx_out r' = rx_out r ++ map (fun sdu => Enb_rlc_data_ind rntiP sdu.1 sdu.2) sdus /\
    ue_ready CC UE (rx_enb r') (t <| ul_buffer_info := foldl (drain (lcgidmap t)) (ul_buffer_info t) sdus |>).
Proof using HCC HUE.
  induction sdus as [|[lcid bytes] sdus IH]; intros pre rest r t Hok Hue Hptr Hrd.
  - exists r. cbn. rewrite app_nil_r. split; [done|]. split; [done|]. split; [done|]. by destruct t.
  - apply Forall_cons in Hok as [Hs Hok]. cbn [sdu_lengths map rx_sdus fst snd foldl].
    unfold sdu_bytes. cbn [map concat fst snd]. fold (sdu_bytes sdus). rewrite <- (app_assoc bytes).
    destruct (rx_one_sdu_spec pre lcid bytes (sdu_bytes sdus ++ rest) r t Hs Hue Hptr Hrd) as (r1 & -> & Hue1 & Hptr1 & _ & Hout1 & Hrd1).
    cbn [mbind res_bind]. rewrite (app_assoc pre bytes).
    assert (Hp : rx_ptr r1 + Z.of_nat (length bytes) = Z.of_nat (length (pre ++ bytes))) by (rewrite length_app; lia).
    set (r1' := r1 <| rx_ptr := rx_ptr r1 + Z.of_nat (length bytes) |>).
    change (rx_ptr r1' = Z.of_nat (length (pre ++ bytes))) in Hp.
    destruct (IH (pre ++ bytes) rest r1' _ Hok Hue1 Hp Hrd1) as (r2 & E2 & Hue2 & Hout2 & Hrd2).
    fold (sdu_lengths sdus). rewrite E2. exists r2. split; [done|]. split; [done|]. split; [|exact Hrd2].
    rewrite Hout2. cbn. rewrite Hout1, <- app_assoc. done.
Qed.
End Block.

(** ** The contract of the UL-SCH *)
Lemma find_slot e rnti UE : wf_enb e -> find_UE_id e rnti = Ok UE -> 0 <= UE ->
  exists cc row t, 0 <= cc /\ pCC_id e !! Z.to_nat UE = Some cc /\ UE_template e !! Z.to_nat cc = Some row /\
    row !! Z.to_nat UE = Some t /\ t_rnti t = rnti.
Proof.
  intros Hwf Hf HUE. rewrite find_UE_id_ok in Hf by done. injection Hf as Hf.
  destruct (first_index_found (is_ue rnti) (slots e)) as (j & o & Hj & Hl & Ho & _); [lia|].
  unfold is_ue in Ho. apply bool_decide_eq_true in Ho as ->.
  assert (Hj16 : (j < 16)%nat) by (apply lookup_lt_Some in Hl; by rewrite length_slots in Hl).
  rewrite slots_lookup in Hl by done. injection Hl as Hs.
  assert (Hact : active e !! j = Some 1) by (unfold slot in Hs; by case_bool_decide).
  destruct (slot_active e j Hwf Hj16 Hact) as (cc & row & t & Hc & Hp & Hr & Ht & Hst).
  assert (Z.to_nat UE = j) as -> by lia. exists cc, row, t. repeat (split; [done|]). congruence.
Qed.
Lemma rx_known_spec CC e rnti harq UE t s : wf_enb e -> find_UE_id e rnti = Ok UE -> 0 <= UE -> 0 <= rnti ->
  ue_ready CC UE e t -> sched_ctrl e !! Z.to_nat UE = Some s ->
  exists e', rx_known harq UE e = Ok (e', if ul_out_of_sync s >? 0 then [Ul_in_sync rnti] else []) /\ ue_ready CC UE e' t.
Proof.
  intros Hwf Hf HUE Hr0 Hrd Hs. destruct (find_slot e rnti UE Hwf Hf HUE) as (cc & row & t0 & Hcc & Hp & Hrow & Ht0 & Hrnti).
  unfold rx_known. rewrite (UE_known UE HUE).
  destruct (ue_alive_ready CC UE HUE e t s Hrd Hs) as (e1 & -> & Hrd1 & HT1 & HP1 & _). cbn [mbind res_bind].
  destruct (upd_sched_ready CC UE HUE e1 t (fun s => s <| ul_scheduled := Z.land (ul_scheduled s) (Z.lnot (Z.shiftl 1 harq)) |>) Hrd1)
    as (e2 & -> & Hrd2 & HT2 & HP2 & _). cbn [mbind res_bind].
  destruct (ul_out_of_sync s >? 0); [|by exists e2]. unfold UE_RNTI. rewrite HP2, HP1, HT2, HT1.
  rewrite (array_get_lookup (pCC_id e) UE cc HUE Hp). cbn [mbind res_bind].
  rewrite (array2_get_ok (UE_template e) cc UE row t0 Hcc HUE Hrow Ht0). cbn [mbind res_bind]. exists e2. split; [|done].
  do 4 f_equal. rewrite Hrnti. unfold NOT_A_RNTI. destruct (Z.gtb_spec rnti 0); lia.
Qed.
Lemma rx_end_spec CC UE len none r t : 0 <= CC -> 0 <= UE -> rx_ue r = UE -> ue_ready CC UE (rx_enb r) t ->
  exists r', rx_end CC len none r = Ok r' /\ rx_out r' = rx_out r /\ ue_ready CC UE (rx_enb r') t.
Proof.
  intros HCC HUE Hue Hrd. unfold rx_end. rewrite Hue, (UE_known UE HUE).
  assert (H : forall f, (forall st, wf_stats st -> exists st', f st = Ok st' /\ wf_stats st') ->
    exists e', upd_stats CC UE f (rx_enb r) = Ok e' /\ ue_ready CC UE e' t) by (intros f; by apply upd_stats_ready).
  destruct none; (edestruct H as (e' & -> & Hrd'); [|cbn [mbind res_bind]; eexists; split; [reflexivity | done]]);
    intros st Hst; (eexists; split; [reflexivity | done]).
Qed.

(** C8: What [rx_sdu] does with a transport block that a UE in the eNB's (well-formed)
    list made with [generate_ulsch_header]: at most 14 SDUs on LCIDs 1..10, each non-empty
    and below SCH_PAYLOAD_SIZE_MAX; power headroom, truncated, short and long buffer
    status, no C-RNTI element; padding in front or at the end, not both. Every SDU goes to
    RLC, with its bytes and in the order of the block, for the RNTI of the block; a UE out
    of synchronisation is reported to RRC before; the power headroom and the buffer status
    of the block are in the template of the UE - the long report as [long_bsr_mismatch]
    says - and every SDU has taken its length from the buffer of its group, down to zero.
    *)
Theorem ul_sch_transfer e CC UE rntiP harq_pid t s phr tb sb lb short_padding post_padding mac_header sdus filler
    frameP subframeP registered msg3 :
  wf_enb e -> find_UE_id e rntiP = Ok UE -> 0 <= UE -> 0 <= CC -> 0 <= rntiP -> ue_ready CC UE e t ->
  sched_ctrl e !! Z.to_nat UE = Some s -> Forall ul_sdu_ok sdus -> (length sdus <= 14)%nat -> ce_fields phr tb sb lb ->
  (80 <= length mac_header)%nat -> 0 <= short_padding <= 2 -> 0 <= post_padding -> short_padding = 0 \/ post_padding = 0 ->
  (post_padding = 0 -> sdus <> [] /\ filler = []) ->
  exists size m r t1,
    generate_ulsch_header mac_header short_padding (sdu_lengths sdus) phr None tb sb lb post_padding = Ok (size, m) /\
    (let block := take (Z.to_nat size) m ++ sdu_bytes sdus ++ filler in
     rx_sdu CC frameP subframeP rntiP harq_pid block registered (Z.of_nat (length block)) msg3 e = Ok r) /\
    rx_out r = (if ul_out_of_sync s >? 0 then [Ul_in_sync rntiP] else []) ++
      (match short_bsr_of tb sb with Some b => [Pusch_stats_bsr UE (frameP * 10 + subframeP) (Z.land b 63)] | None => [] end) ++
      map (fun sdu => Enb_rlc_data_ind rntiP sdu.1 sdu.2) sdus /\
    reported phr tb sb lb t t1 /\
    ue_ready CC UE (rx_enb r) (t1 <| ul_buffer_info := foldl (drain (lcgidmap t)) (ul_buffer_info t1) sdus |>).
Proof.
  intros Hwf Hf HUE HCC Hr0 Hrd Hs Hsdus Hn Hce HN Hsp Hpp Hor Hend.
  assert (Hfit : sdus_fit EXTENDED_POWER_HEADROOM sdus).
  { split; [|done]. apply (Forall_impl _ _ _ Hsdus). intros [l bs] [H1 H2]. clear -H1 H2. cbn [fst snd] in *. unfold SCH_PAYLOAD_SIZE_MAX, EXTENDED_POWER_HEADROOM in *. lia. }
  destruct (sdus_fit_lengths EXTENDED_POWER_HEADROOM sdus ltac:(done) Hfit) as (Hpl & Hok & Hln).
  destruct (ulsch_closed mac_header short_padding phr None tb sb lb (sdu_lengths sdus) post_padding Hsp Hok Hln HN Hpp)
    as (es0 & l & m & Hcl & Hl & Hgen & _ & Htake); [intros Hp; destruct (Hend Hp); by destruct sdus | done|].
  destruct (ul_parse short_padding phr None tb sb lb (sdu_lengths sdus) es0 l _ (sdu_bytes sdus ++ filler) Hsp Hpl Hln eq_refl Hcl)
    as (st & Hparse & Hptr & Hpces & Hpsdus).
  { intros Hl31. destruct Hl as [-> | Hp]; [done|]. destruct (Hend Hp) as [_ ->]. by rewrite app_nil_r, sum_lengths. }
  destruct (rx_known_spec CC e rntiP harq_pid UE t s Hwf Hf HUE Hr0 Hrd Hs) as (e1 & Ekn & Hrd1).
  set (bytes := ul_ce_bytes phr None tb sb lb) in *. set (hdr := header es0 l bytes) in *.
  assert (Hst : exists e2, rx_block_stats CC (Z.of_nat (length (hdr ++ sdu_bytes sdus ++ filler))) e1 = Ok e2 /\ ue_ready CC UE e2 t).
  { destruct Hrd1 as (? & ? & ? & ? & (x & Hx)). unfold rx_block_stats. erewrite (array_upd_pure (enb_stats e1) CC _ x HCC Hx). cbn [mbind res_bind].
    eexists. split; [reflexivity|]. repeat (split; [done|]). eexists. apply list_lookup_insert_eq. by apply lookup_lt_Some in Hx. }
  destruct Hst as (e2 & Est & Hrd2).
  assert (Hsplit : hdr ++ sdu_bytes sdus ++ filler = (marked es0 ++ [l]) ++ bytes ++ sdu_bytes sdus ++ filler)
    by (subst hdr; by rewrite header_split, <- app_assoc).
  set (r0 := Mk_rx e2 UE (p_ptr st) msg3 (if ul_out_of_sync s >? 0 then [Ul_in_sync rntiP] else [])).
  assert (Hp0 : rx_ptr r0 = Z.of_nat (length (marked es0 ++ [l]))) by (cbn; rewrite Hptr, length_app; cbn; lia).
  destruct (rx_ces_spec CC UE frameP subframeP HCC HUE (marked es0 ++ [l]) phr tb sb lb (sdu_bytes sdus ++ filler) r0 t eq_refl Hp0 Hrd2 Hce)
    as (r1 & t1 & E1 & Hue1 & Hptr1 & Hout1 & Hrd1' & Hrep).
  destruct (rx_sdus_spec CC UE rntiP harq_pid registered HCC HUE sdus ((marked es0 ++ [l]) ++ bytes) filler r1 t1 Hsdus Hue1 Hptr1 Hrd1')
    as (r2 & E2 & Hue2 & Hout2 & Hrd2').
  destruct (rx_end_spec CC UE (Z.of_nat (length (hdr ++ sdu_bytes sdus ++ filler)))
    (bool_decide (p_sdus st = []) && bool_decide (p_ces st = [])) r2 _ HCC HUE Hue2 Hrd2') as (r3 & E3 & Hout3 & Hrd3).
  eexists _, m, r3, t1. split; [exact Hgen|]. rewrite Nat2Z.id, Htake. fold hdr. cbn zeta. split; [|split; [|split; [done|]]].
  - unfold rx_sdu. rewrite Hf. cbn [mbind res_bind]. rewrite Ekn. cbn [mbind res_bind].
    rewrite (length_app hdr), Nat2Z.inj_add, Hparse. cbn [mbind res_bind]. rewrite <- Nat2Z.inj_add, <- length_app, Est. cbn [mbind res_bind].
    fold bytes in E1. rewrite <- Hsplit in E1. rewrite <- (app_assoc (marked es0 ++ [l])), <- Hsplit in E2.
    fold r0. rewrite Hpces, Hpsdus in *. rewrite E1. cbn [mbind res_bind]. rewrite E2. cbn [mbind res_bind]. exact E3.
  - rewrite Hout3, Hout2, Hout1. cbn. by rewrite <- !app_assoc.
  - destruct Hrep as (_ & _ & <-). exact Hrd3.
Qed.

(** ** Witnesses *)
Lemma long_bsr_mismatch_witness :
  bsr_fields (Mk_bsr_long 1 2 7 4) /\
  exists b0 b1 b2, long_bsr_bytes (Mk_bsr_long 1 2 7 4) = [b0; b1; b2] /\ long_bsr_sizes b0 b1 b2 = [1; 2; 4; 12].
Proof.
  assert (H : bsr_fields (Mk_bsr_long 1 2 7 4)) by (unfold bsr_fields; cbn; lia). split; [exact H|].
  destruct (long_bsr_mismatch _ H) as (b0 & b1 & b2 & E & Es & _). exists b0, b1, b2. split; [exact E | exact Es].
Defined.

(** A short report of group 1 and two SDUs of the UE 0x1234. *)
Definition sample_ul_sdus : list (Z * list Z) := [(1, [1; 2; 3]); (3, replicate 130 9)].
Definition sample_ul_template : UE_TEMPLATE :=
  sample_template <| t_rnti := 4660 |> <| ul_total_buffer := 500 |> <| ul_buffer_info := [0; 500; 0; 0] |>.
Lemma sample_ready : ue_ready 0 0 sample_list sample_ul_template.
Proof.
  split; [by eexists|]. split.
  { repeat split; repeat (apply Forall_cons; split); try apply Forall_nil_2; done. }
  split; [by eexists|]. split; [|by eexists]. eexists _, _. by split.
Qed.
Lemma ul_sch_transfer_witness :
  exists size m r t1,
    generate_ulsch_header (replicate 80 0) 0 (sdu_lengths sample_ul_sdus) (Some 40) None None (Some 95) None 5 = Ok (size, m) /\
    (let block := take (Z.to_nat size) m ++ sdu_bytes sample_ul_sdus ++ replicate 5 0 in
     rx_sdu 0 10 3 4660 0 block true (Z.of_nat (length block)) None sample_list = Ok r) /\
    rx_out r = [Ul_in_sync 4660; Pusch_stats_bsr 0 103 31; Enb_rlc_data_ind 4660 1 [1; 2; 3]; Enb_rlc_data_ind 4660 3 (replicate 130 9)] /\
    reported (Some 40) None (Some 95) None sample_ul_template t1 /\
    ue_ready 0 0 (rx_enb r) (t1 <| ul_buffer_info := foldl (drain (lcgidmap sample_ul_template)) (ul_buffer_info t1) sample_ul_sdus |>).
Proof.
  apply (ul_sch_transfer sample_list 0 0 4660 0 sample_ul_template (Mk_sched 0 0 0 1 0) (Some 40) None (Some 95) None 0 5
    (replicate 80 0) sample_ul_sdus (replicate 5 0) 10 3 true None);
    [ exact wf_sample_list | reflexivity | lia | lia | lia | exact sample_ready | reflexivity | | cbn; lia | split; [cbn; lia | exact I]
    | rewrite length_replicate; lia | lia | lia | left; reflexivity | intros H; discriminate H ].
  repeat (apply Forall_cons; split); try apply Forall_nil_2; split; cbn; unfold SCH_PAYLOAD_SIZE_MAX; lia.
Defined.
