(* ===== verification/MacAccess.v ===== *)
(** * Random access: Msg3 and Msg4

    Msg3 is the first block of the UL-SCH of a UE: its CCCH message, or a C-RNTI when it is known already.
    [contention_resolved] follows the identity of the first from the UE to the eNB and back;
    [crnti_msg3_lost] shows what happens to the second. *)

From S2P Require Import Prelude RlcStore MacPdu MacDemux MacPduSpec MacHeaderSpec MacTransfer MacUlsch MacUeList MacUplink.

Section Access.
Context (CC frameP subframeP rntiP harq_pidP : Z) (HCC : 0 <= CC).

(** ** The random access processes *)
Definition ra_matches (ra : RA_TEMPLATE) : bool := (ra_rnti ra =? rntiP) && (ra_active ra =? 1).
Lemma rx_ccch_ra_other sdu reg ii len r ras ra :
  0 <= ii -> RA_template (rx_enb r) !! Z.to_nat CC = Some ras -> ras !! Z.to_nat ii = Some ra -> ra_matches ra = false ->
  rx_ccch_ra CC rntiP harq_pidP sdu reg ii len r = Ok r.
Proof using HCC.
  intros Hii Hras Hra Hm. unfold rx_ccch_ra.
  rewrite (array2_get_ok (RA_template (rx_enb r)) CC ii ras ra HCC Hii Hras Hra). cbn [mbind res_bind].
  fold (ra_matches ra). by rewrite Hm.
Qed.
(** The process of the UE: its identity is kept, the UE enters the list, and Msg4 is due. *)
Lemma rx_ccch_ra_match pre id bytes rest reg ii len r ras ra :
  wf_enb (rx_enb r) -> CC < Z.of_nat (length (UE_template (rx_enb r))) -> first_index is_free (slots (rx_enb r)) <> -1 ->
  0 <= ii -> RA_template (rx_enb r) !! Z.to_nat CC = Some ras -> ras !! Z.to_nat ii = Some ra -> ra_matches ra = true ->
  rx_ue r = -1 -> rx_ptr r = Z.of_nat (length pre) -> length id = 6%nat -> id ++ bytes = rest -> 0 <= len <= Z.of_nat (length rest) ->
  exists r' ra', rx_ccch_ra CC rntiP harq_pidP (pre ++ rest) reg ii len r = Ok r' /\
    rx_ue r' = first_index is_free (slots (rx_enb r)) /\ rx_ptr r' = rx_ptr r /\
    rx_out r' = rx_out r ++ (if (reg : bool) then [Enb_rrc_data_ind rntiP CCCH (take (Z.to_nat len) rest)] else []) /\
    RA_template (rx_enb r') !! Z.to_nat CC = Some (<[Z.to_nat ii := ra']> ras) /\
    cont_res_id ra' = id /\ generate_Msg4 ra' = 1 /\ wait_ack_Msg4 ra' = 0 /\ ra_rnti ra' = ra_rnti ra /\
    wf_enb (rx_enb r') /\ slots (rx_enb r') = enter_slot rntiP (slots (rx_enb r)) /\
    eNB_UE_stats (rx_enb r') = eNB_UE_stats (rx_enb r).
Proof using HCC.
  intros Hwf Hcc Hfree Hii Hras Hra Hm Hue Hptr Hid Hrest Hlen. unfold rx_ccch_ra.
  rewrite (array2_get_ok (RA_template (rx_enb r)) CC ii ras ra HCC Hii Hras Hra). cbn [mbind res_bind].
  fold (ra_matches ra). rewrite Hm. unfold ra_matches in Hm. apply andb_true_iff in Hm as [Hr _]. apply Z.eqb_eq in Hr.
  rewrite Hue. change (-1 <? 0) with true. cbn iota. rewrite Hptr.
  rewrite (mem_read_app pre rest (Z.of_nat (length pre)) 6 eq_refl) by (rewrite <- Hrest, length_app; lia).
  assert (take (Z.to_nat 6) rest = id) as -> by (rewrite <- Hrest; change (Z.to_nat 6) with 6%nat; by rewrite <- Hid, take_app_length).
  cbn [mbind res_bind].
  rewrite (array2_upd_pure (RA_template (rx_enb r)) CC ii _ ras ra HCC Hii Hras Hra). cbn [mbind res_bind].
  set (ra1 := ra <| cont_res_id := id |>).
  lazymatch goal with |- context [add_new_ue ?e _ _ _] => set (e1 := e) end.
  assert (Hwf1 : wf_enb e1).
  { destruct Hwf as [H1 H2 H3 H4 H5 H6]. constructor; try done. subst e1. cbn. by rewrite length_insert. }
  assert (Hs1 : slots e1 = slots (rx_enb r)) by done.
  destruct (add_new_ue_ok e1 CC (ra_rnti ra) harq_pidP Hwf1 (conj HCC Hcc)) as (e2 & E2 & Hwf2 & Hs2 & _ & _ & Hent).
  rewrite E2. cbn [mbind res_bind]. rewrite Hs1 in *. rewrite (proj2 (Z.eqb_neq _ _) Hfree). cbn [negb assert_that mbind res_bind].
  assert (Hev : (if reg then bytes0 ← mem_read (pre ++ rest) (Z.of_nat (length pre)) len; Ok [Enb_rrc_data_ind rntiP CCCH bytes0] else Ok []) =
    Ok (if reg then [Enb_rrc_data_ind rntiP CCCH (take (Z.to_nat len) rest)] else [])).
  { destruct reg; [|done]. by rewrite mem_read_app. }
  rewrite Hev. cbn [mbind res_bind]. destruct (Hent Hfree) as (_ & _ & _ & _ & _ & HRA & HST).
  assert (Hlook : RA_template e2 !! Z.to_nat CC = Some (<[Z.to_nat ii := ra1]> ras)).
  { rewrite HRA. subst e1. apply list_lookup_insert_eq. by apply lookup_lt_Some in Hras. }
  rewrite (array2_upd_pure (RA_template e2) CC ii _ _ ra1 HCC Hii Hlook) by (apply list_lookup_insert_eq; by apply lookup_lt_Some in Hra).
  cbn [mbind res_bind]. eexists _, (ra1 <| generate_Msg4 := 1 |> <| wait_ack_Msg4 := 0 |>). split; [reflexivity|].
  split; [done|]. split; [done|]. split; [done|].
  lazymatch goal with |- _ !! _ = _ /\ _ => idtac end. split.
  { cbn. rewrite list_lookup_insert_eq by (by apply lookup_lt_Some in Hlook). by rewrite list_insert_insert_eq. }
  repeat (split; [done|]). split; [|split; [by rewrite <- Hr | exact HST]].
  destruct Hwf2 as [H1 H2 H3 H4 H5 H6]. constructor; try done. cbn. by rewrite length_insert.
Qed.

(** The four processes, one of which is that of the UE. *)
Lemma rx_ccch_spec pre id bytes rest reg ii len r ras ra :
  wf_enb (rx_enb r) -> CC < Z.of_nat (length (UE_template (rx_enb r))) -> first_index is_free (slots (rx_enb r)) <> -1 ->
  (ii < 4)%nat -> RA_template (rx_enb r) !! Z.to_nat CC = Some ras -> length ras = 4%nat -> ras !! ii = Some ra -> ra_matches ra = true ->
  (forall j x, j <> ii -> ras !! j = Some x -> ra_matches x = false) ->
  rx_ue r = -1 -> rx_ptr r = Z.of_nat (length pre) -> length id = 6%nat -> id ++ bytes = rest ->
  0 <= len <= CCCH_PAYLOAD_SIZE_MAX -> len <= Z.of_nat (length rest) ->
  exists r' ra', rx_ccch CC rntiP harq_pidP (pre ++ rest) reg len r = Ok r' /\
    rx_ue r' = first_index is_free (slots (rx_enb r)) /\ rx_ptr r' = rx_ptr r /\
    rx_out r' = rx_out r ++ (if (reg : bool) then [Enb_rrc_data_ind rntiP CCCH (take (Z.to_nat len) rest)] else []) /\
    RA_template (rx_enb r') !! Z.to_nat CC = Some (<[ii := ra']> ras) /\
    cont_res_id ra' = id /\ generate_Msg4 ra' = 1 /\ wait_ack_Msg4 ra' = 0 /\ ra_rnti ra' = ra_rnti ra /\
    wf_enb (rx_enb r') /\ slots (rx_enb r') = enter_slot rntiP (slots (rx_enb r)) /\
    eNB_UE_stats (rx_enb r') = eNB_UE_stats (rx_enb r).
Proof using HCC.
  intros Hwf Hcc Hfree Hii Hras Hlen4 Hra Hm Hothers Hue Hptr Hid Hrest Hlen Hlen2. unfold rx_ccch.
  assert ((len >? CCCH_PAYLOAD_SIZE_MAX) = false) as -> by (destruct (Z.gtb_spec len CCCH_PAYLOAD_SIZE_MAX); lia).
  rewrite <- (Nat2Z.id ii) in Hra.
  destruct (rx_ccch_ra_match pre id bytes rest reg (Z.of_nat ii) len r ras ra Hwf Hcc Hfree ltac:(lia) Hras Hra Hm Hue Hptr Hid Hrest ltac:(lia))
    as (r' & ra' & E & H1 & H2 & H3 & H4 & H5). rewrite Nat2Z.id in H4.
  assert (Hpre : forall j, (j < 4)%nat -> j <> ii -> rx_ccch_ra CC rntiP harq_pidP (pre ++ rest) reg (Z.of_nat j) len r = Ok r).
  { intros j Hj Hne. destruct (lookup_lt_is_Some_2 ras j) as [x Hx]; [lia|].
    apply (rx_ccch_ra_other _ _ _ _ r ras x); [lia | done | by rewrite Nat2Z.id | by apply (Hothers j)]. }
  assert (Hpost : forall j, (j < 4)%nat -> j <> ii -> rx_ccch_ra CC rntiP harq_pidP (pre ++ rest) reg (Z.of_nat j) len r' = Ok r').
  { intros j Hj Hne. destruct (lookup_lt_is_Some_2 ras j) as [x Hx]; [lia|].
    apply (rx_ccch_ra_other _ _ _ _ r' (<[ii := ra']> ras) x); [lia | done | | by apply (Hothers j)].
    by rewrite Nat2Z.id, list_lookup_insert_ne. }
  pose proof (Hpre 0%nat) as P0. pose proof (Hpre 1%nat) as P1. pose proof (Hpre 2%nat) as P2. pose proof (Hpre 3%nat) as P3.
  pose proof (Hpost 0%nat) as Q0. pose proof (Hpost 1%nat) as Q1. pose proof (Hpost 2%nat) as Q2. pose proof (Hpost 3%nat) as Q3.
  change (Z.of_nat 0) with 0 in *. change (Z.of_nat 1) with 1 in *. change (Z.of_nat 2) with 2 in *. change (Z.of_nat 3) with 3 in *.
  exists r', ra'. split; [|done].
  destruct ii as [|[|[|[|]]]]; [| | | | lia];
    change (Z.of_nat 0) with 0 in *; change (Z.of_nat 1) with 1 in *; change (Z.of_nat 2) with 2 in *; change (Z.of_nat 3) with 3 in *;
    repeat first [ rewrite E | rewrite P0 by lia | rewrite P1 by lia | rewrite P2 by lia | rewrite P3 by lia
                 | rewrite Q0 by lia | rewrite Q1 by lia | rewrite Q2 by lia | rewrite Q3 by lia
                 | progress cbn [mbind res_bind] ]; done.
Qed.
End Access.

(** ** Msg3 with a CCCH message *)
Lemma array_set_1 {A} (a b v : A) l : array_set (a :: b :: l) 1 v = Ok (a :: v :: l).
Proof. apply (array_set_app [a] l b v). done. Qed.
Lemma array_set_2 {A} (a b c v : A) l : array_set (a :: b :: c :: l) 2 v = Ok (a :: b :: v :: l).
Proof. apply (array_set_app [a; b] l c v). done. Qed.
Lemma msg3_header a b c rest len : 0 <= len < 128 ->
  generate_ulsch_header (a :: b :: c :: rest) 0 [(CCCH, len)] None None None None None 1 = Ok (3, 32 :: len :: 31 :: rest).
Proof.
  intros Hl.
  assert (Hput : put_sdu CCCH len (Mk_hdr (a :: b :: c :: rest) 0 true 0 []) = Ok (Mk_hdr (0 :: len :: c :: rest) 0 true 2 [])).
  { unfold put_sdu, put_fixed. cbn [h_mem h_pos]. rewrite array_set_0. cbn [mbind res_bind]. rewrite (proj2 (Z.ltb_lt _ _)) by lia.
    rewrite u8_small by lia. destruct (short_length len) as [_ ->]; [lia|].
    lazymatch goal with |- context [array_set (h_mem ?s) (h_pos ?s + 1) _] =>
      change (h_mem s) with (0 :: b :: c :: rest); change (h_pos s + 1) with 1 end.
    rewrite array_set_1. done. }
  assert (Hfin : finish_header 1 (Mk_hdr (0 :: len :: c :: rest) 0 true 2 []) = Ok (3, 32 :: len :: 31 :: rest)).
  { unfold finish_header, set_E. cbn [h_mem h_pos h_ces last_size]. change (array_get (0 :: len :: c :: rest) 0) with (Ok 0).
    change (1 >? 0) with true. cbn [mbind res_bind]. rewrite array_set_0. cbn [mbind res_bind]. unfold put_fixed.
    lazymatch goal with |- context [array_set (h_mem ?s) (h_pos ?s) _] =>
      change (h_mem s) with (32 :: len :: c :: rest); change (h_pos s) with 2 end.
    rewrite array_set_2. done. }
  unfold generate_ulsch_header.
  change (put_short_padding 0 (Mk_hdr (a :: b :: c :: rest) 0 false 0 [])) with (Ok (Mk_hdr (a :: b :: c :: rest) 0 false 0 [])).
  cbn [mbind res_bind ul_sdus]. change (truthy 0 || (1 =? 0)) with false. rewrite andb_false_r.
  change (next_element last_size (Mk_hdr (a :: b :: c :: rest) 0 false 0 [])) with (Ok (Mk_hdr (a :: b :: c :: rest) 0 true 0 [])).
  cbn [mbind res_bind]. rewrite Hput. cbn [mbind res_bind]. exact Hfin.
Qed.

(** The place of a UE that was not in the list. *)
Lemma enter_first rnti l : first_index (is_ue rnti) l = -1 -> first_index is_free l <> -1 ->
  first_index (is_ue rnti) (enter_slot rnti l) = first_index is_free l.
Proof.
  intros Hno Hfree. unfold enter_slot. rewrite (proj2 (Z.eqb_neq _ _) Hfree).
  destruct (first_index_found _ _ Hfree) as (i & o & -> & Hl & _). rewrite Nat2Z.id.
  apply first_index_none in Hno. rewrite insert_take_drop by (by apply lookup_lt_Some in Hl).
  rewrite first_index_app by (by apply Forall_take). rewrite first_index_cons_yes by (unfold is_ue; by rewrite bool_decide_true).
  change (0 =? -1) with false. cbn iota. apply lookup_lt_Some in Hl. rewrite length_take. lia.
Qed.
Lemma msg3_parse len rest : 0 <= Z.of_nat len < 128 ->
  exists st, parse_ulsch_header ([32; Z.of_nat len; 31] ++ rest) (3 + Z.of_nat (length rest)) = Ok (Some st) /\
    p_ptr st = 3 /\ p_ces st = [] /\ p_sdus st = [(CCCH, Z.of_nat len)].
Proof.
  intros Hlen.
  destruct (ul_parse 0 None None None None None [(CCCH, Z.of_nat len)] (elements 0 [] [(CCCH, Z.of_nat len)]) SHORT_PADDING [] rest)
    as (st & E & Hp & Hc & Hs); [lia | | cbn; lia | done | by apply closes_padding | intros H; by destruct H |].
  - apply Forall_cons. split; [|by apply Forall_nil_2]. cbn. unfold EXTENDED_POWER_HEADROOM, CCCH. lia.
  - assert (Hmk : marked (elements 0 [] [(CCCH, Z.of_nat len)]) = [32; Z.of_nat len]).
    { change (elements 0 [] [(CCCH, Z.of_nat len)]) with [ESdu CCCH (Z.of_nat len)]. rewrite marked_cons. unfold enc.
      by rewrite (proj2 (Z.ltb_lt _ _)) by lia. }
    unfold header in E. rewrite Hmk in E, Hp. exists st. by split.
Qed.

(** The block of an RNTI that is not in the list. *)
Definition counted (CC len : Z) (s : eNB_STATS) (e : eNB_MAC_INST) : eNB_MAC_INST :=
  e <| enb_stats := <[Z.to_nat CC := Mk_enb_stats len (u32 (total_ulsch_bytes_rx s + len)) (u32 (total_ulsch_pdus_rx s + 1))]> (enb_stats e) |>.
Lemma rx_sdu_unknown CC frameP subframeP rntiP harq_pid block registered len msg3 e s st :
  0 <= CC -> find_UE_id e rntiP = Ok (-1) -> enb_stats e !! Z.to_nat CC = Some s -> parse_ulsch_header block len = Ok (Some st) ->
  rx_sdu CC frameP subframeP rntiP harq_pid block registered len msg3 e =
    (r ← rx_ces CC frameP subframeP block (p_ces st) (Mk_rx (counted CC len s e) (-1) (p_ptr st) msg3 []);
     r ← rx_sdus CC rntiP harq_pid block registered (p_sdus st) r;
     rx_end CC len (bool_decide (p_sdus st = []) && bool_decide (p_ces st = [])) r).
Proof.
  intros HCC Hfind Hs Hparse. unfold rx_sdu. rewrite Hfind. cbn [mbind res_bind]. unfold rx_known. rewrite Z.eqb_refl.
  cbn [mbind res_bind]. rewrite Hparse. cbn [mbind res_bind]. unfold rx_block_stats.
  by erewrite (array_upd_pure (enb_stats e) CC _ s HCC Hs).
Qed.
Lemma counted_wf CC len s e : wf_enb e -> wf_enb (counted CC len s e).
Proof. intros []. by constructor. Qed.
(** The end of a block of a UE in the list: only its statistics change. *)
Lemma rx_end_counts CC len r row :
  0 <= CC -> 0 <= rx_ue r < Z.of_nat (length row) -> eNB_UE_stats (rx_enb r) !! Z.to_nat CC = Some row -> wf_enb (rx_enb r) ->
  exists r', rx_end CC len false r = Ok r' /\ rx_out r' = rx_out r /\ rx_ue r' = rx_ue r /\
    RA_template (rx_enb r') = RA_template (rx_enb r) /\ wf_enb (rx_enb r') /\ slots (rx_enb r') = slots (rx_enb r).
Proof.
  intros HCC Hue Hrow Hwf. unfold rx_end. rewrite (proj2 (Z.eqb_neq (rx_ue r) (-1))) by lia.
  destruct (lookup_lt_is_Some_2 row (Z.to_nat (rx_ue r))) as [x Hx]; [lia|]. unfold upd_stats.
  rewrite (array2_upd_pure (eNB_UE_stats (rx_enb r)) CC (rx_ue r) _ row x HCC ltac:(lia) Hrow Hx). cbn [mbind res_bind].
  eexists. split; [reflexivity|]. repeat (split; [done|]). split; [destruct Hwf; by constructor | done].
Qed.
(** Msg4 at the UE whose identity it has. *)
Lemma msg4_outcome u mac_header sdus filler short_padding post_padding :
  (9 <= length (CCCH_payload u))%nat -> ue_RA_active u = 1 -> length (expected_id u) = 6%nat -> (80 <= length mac_header)%nat ->
  sdus_fit UE_CONT_RES sdus -> 0 <= short_padding <= 2 -> 0 <= post_padding -> (post_padding = 0 -> sdus <> [] /\ filler = []) ->
  exists size m,
    generate_dlsch_header mac_header (sdu_lengths sdus) 255 0 (Some (expected_id u)) short_padding post_padding = Ok (size, m) /\
    let msg4 := take (Z.to_nat size) m ++ sdu_bytes sdus ++ filler in
    ue_send_sdu u msg4 (Z.of_nat (length msg4)) = Ok (ra_over u, Ra_succeeded :: deliver sdus).
Proof.
  intros Hccch Hact Hid HN Hfit Hsp Hpp Hend.
  destruct (dl_sch_header mac_header 0 (Some (expected_id u)) short_padding post_padding sdus filler HN Hfit Hid Hsp Hpp Hend)
    as (size & m & hdr & st & Hgen & Htake & Hparse & Hptr & Hces & Hsdus).
  exists size, m. split; [exact Hgen|]. rewrite Htake. cbn zeta in Hparse |- *. unfold ue_send_sdu. rewrite Hparse.
  cbn [mbind res_bind]. rewrite Hptr, Hces, Hsdus, <- app_assoc.
  etransitivity; [exact (ue_demux u Hccch hdr 0 (Some (expected_id u)) sdus filler Hid)|].
  unfold dl_outcome. by rewrite Hact, bool_decide_true.
Qed.

(** C9: Contention resolution, from the UE to the eNB and back. A UE in random access
    writes the header of Msg3 (SDU of 6..125 bytes) before the CCCH message in its buffer,
    and sends the block. The eNB, in whose list of UEs (well formed, a place free) the
    RNTI is not, has exactly one random access process for it, active on this carrier.
    Then the eNB enters the UE in the list, gives the CCCH message to RRC if that is
    registered, keeps the identity and makes Msg4 due. Msg4, made with that identity and
    with any SDUs behind it (at most 14, LCID below 28, below 32768 bytes), ends the
    random access of this UE with success, and its SDUs are delivered. *)
Theorem contention_resolved CC e rntiP harq_pid frameP subframeP registered ras ii ra a b c ccch len tbs :
  0 <= CC < Z.of_nat (length (UE_template e)) -> wf_enb e -> find_UE_id e rntiP = Ok (-1) ->
  first_index is_free (slots e) <> -1 -> (exists s, enb_stats e !! Z.to_nat CC = Some s) ->
  (exists row, eNB_UE_stats e !! Z.to_nat CC = Some row /\ length row = 16%nat) ->
  RA_template e !! Z.to_nat CC = Some ras -> length ras = 4%nat -> ras !! ii = Some ra -> ra_matches rntiP ra = true ->
  (forall j x, j <> ii -> ras !! j = Some x -> ra_matches rntiP x = false) ->
  (6 <= len)%nat -> (len <= tbs <= length ccch)%nat -> (len <= 125)%nat ->
  let msg3 := 32 :: Z.of_nat len :: 31 :: ccch in
  exists r ra',
    generate_ulsch_header (a :: b :: c :: ccch) 0 [(CCCH, Z.of_nat len)] None None None None None 1 = Ok (3, msg3) /\
    rx_sdu CC frameP subframeP rntiP harq_pid (take (3 + tbs) msg3) registered (3 + Z.of_nat tbs) (Some 1) e = Ok r /\
    rx_out r = (if (registered : bool) then [Enb_rrc_data_ind rntiP CCCH (take len ccch)] else []) /\
    find_UE_id (rx_enb r) rntiP = Ok (rx_ue r) /\ 0 <= rx_ue r /\
    RA_template (rx_enb r) !! Z.to_nat CC = Some (<[ii := ra']> ras) /\ generate_Msg4 ra' = 1 /\ wait_ack_Msg4 ra' = 0 /\
    forall u mac_header sdus filler short_padding post_padding,
      CCCH_payload u = msg3 -> ue_RA_active u = 1 -> (80 <= length mac_header)%nat -> sdus_fit UE_CONT_RES sdus ->
      0 <= short_padding <= 2 -> 0 <= post_padding -> (post_padding = 0 -> sdus <> [] /\ filler = []) ->
      exists size m, generate_dlsch_header mac_header (sdu_lengths sdus) 255 0 (Some (cont_res_id ra')) short_padding post_padding = Ok (size, m) /\
        let msg4 := take (Z.to_nat size) m ++ sdu_bytes sdus ++ filler in
        ue_send_sdu u msg4 (Z.of_nat (length msg4)) = Ok (ra_over u, Ra_succeeded :: deliver sdus).
Proof.
  intros HCC Hwf Hfind Hfree (se & Hse) (row & Hrow & Hl16) Hras Hl4 Hra Hm Hothers Hlen6 Htbs Hlen. cbn zeta.
  set (msg3 := 32 :: Z.of_nat len :: 31 :: ccch).
  set (pre := [32; Z.of_nat len; 31]). set (rest := take tbs ccch). set (id := take 6 rest).
  assert (Hblock : take (3 + tbs) msg3 = pre ++ rest) by done.
  assert (Hrest : length rest = tbs) by (unfold rest; rewrite length_take; lia).
  assert (Hidl : length id = 6%nat) by (unfold id; rewrite length_take; lia).
  destruct (msg3_parse len rest) as (st & Hparse & Hptr & Hces & Hsdus); [lia|]. fold pre in Hparse. rewrite Hrest in Hparse.
  set (e1 := counted CC (3 + Z.of_nat tbs) se e).
  destruct (rx_ccch_spec CC rntiP harq_pid (proj1 HCC) pre id (drop 6 rest) rest registered ii (Z.of_nat len) (Mk_rx e1 (-1) 3 (Some 1) []) ras ra)
    as (r & ra' & E & Hue & _ & Hout & HRA & Hcid & Hm4 & Hw4 & _ & Hwf2 & Hs2 & HST); try done;
    [by apply counted_wf | by apply HCC | apply lookup_lt_Some in Hra; lia | apply take_drop | unfold CCCH_PAYLOAD_SIZE_MAX; lia | rewrite Hrest; lia |].
  change (rx_enb (Mk_rx e1 (-1) 3 (Some 1) [])) with e1 in *. change (slots e1) with (slots e) in *.
  rewrite Nat2Z.id in Hout. assert (Htake : take len rest = take len ccch) by (unfold rest; rewrite take_take; f_equal; lia). rewrite Htake in Hout.
  assert (Hue0 : 0 <= rx_ue r < 16).
  { rewrite Hue. destruct (first_index_found _ _ Hfree) as (j & o & Hj & Hl & _). rewrite Hj. apply lookup_lt_Some in Hl. rewrite length_slots in Hl. lia. }
  destruct (rx_end_counts CC (3 + Z.of_nat tbs) (r <| rx_ptr := rx_ptr r + Z.of_nat len |>) row (proj1 HCC))
    as (r2 & Er2 & Hout2 & Hue2 & HRA2 & Hwf3 & Hs3);
    [change (0 <= rx_ue r < Z.of_nat (length row)); lia | etransitivity; [apply (f_equal (fun l => l !! Z.to_nat CC) HST) | exact Hrow] | exact Hwf2 |].
  exists r2, ra'. split; [apply msg3_header; lia|]. split; [|split; [|split; [|split; [|split; [|split; [done | split; [done|]]]]]]].
  - rewrite Hblock, (rx_sdu_unknown CC frameP subframeP rntiP harq_pid _ registered _ (Some 1) e se st (proj1 HCC) Hfind Hse Hparse).
    rewrite Hces, Hsdus, Hptr. fold e1. cbn [rx_ces mbind res_bind rx_sdus]. unfold rx_one_sdu. rewrite Z.eqb_refl, E. cbn [mbind res_bind]. exact Er2.
  - rewrite Hout2. exact Hout.
  - rewrite find_UE_id_ok by done. f_equal. rewrite Hs3, Hue2. change (first_index (is_ue rntiP) (slots (rx_enb r)) = rx_ue r).
    rewrite Hs2, Hue. apply enter_first; [|done]. rewrite find_UE_id_ok in Hfind by done. by injection Hfind as ->.
  - rewrite Hue2. change (0 <= rx_ue r). lia.
  - rewrite HRA2. exact HRA.
  - intros u mac_header sdus filler sp pp Hccch Hact HN Hfit Hsp Hpp Hpend.
    assert (Hexp : expected_id u = id) by (unfold expected_id, id, rest; rewrite Hccch, take_take, Nat.min_l by lia; done).
    rewrite Hcid, <- Hexp. apply msg4_outcome; try done; [rewrite Hccch; unfold msg3; cbn [length]; lia | by rewrite Hexp].
Qed.

(** ** Msg3 with a C-RNTI *)
Definition swapped (c : Z) : Z := c mod 256 * 256 + c / 256.
Lemma rx_sdus_unknown CC rntiP harq reg sdu lens : forall r, Forall (fun l : Z * Z => 1 <= l.1 <= 10) lens -> rx_ue r = -1 ->
  exists r', rx_sdus CC rntiP harq sdu reg lens r = Ok r' /\ rx_ue r' = -1 /\ rx_out r' = rx_out r /\ rx_enb r' = rx_enb r /\
    rx_msg3 r' = rx_msg3 r.
Proof.
  induction lens as [|[l n] lens IH]; intros r Hl Hue; [by exists r|].
  apply Forall_cons in Hl as [H1 Hl]. cbn [fst] in H1. cbn [rx_sdus]. unfold rx_one_sdu.
  rewrite (proj2 (Z.eqb_neq l CCCH)) by (unfold CCCH; lia). rewrite Hue, Z.eqb_refl.
  rewrite (proj2 (Z.ltb_lt l NB_RB_MAX)) by (unfold NB_RB_MAX, maxDRB; lia).
  assert (E : (if (l =? DCCH) || (l =? DCCH1) then Ok r else Ok r) = Ok r) by by destruct (_ || _).
  rewrite E. cbn [mbind res_bind].
  destruct r as [e u p m o]. by apply (IH (Mk_rx e u (p + n) m o)).
Qed.

(** A C-RNTI control element does not reach its UE.  The UE writes the two bytes of its RNTI in the order
    of its processor, the eNB reads them high byte first: in a block of a UE that the eNB does not know by
    the RNTI of the block, the element names the UE with the bytes of the RNTI exchanged.  When no UE has
    that RNTI the block is lost: no SDU of a signalling or data channel is delivered and nothing about any
    UE changes, although the list has the UE; only the flag of Msg3 is cleared. *)
Theorem crnti_msg3_lost CC e rntiP harq_pid frameP subframeP registered c UE mac_header sdus :
  0 <= CC -> wf_enb e -> find_UE_id e rntiP = Ok (-1) -> (exists s, enb_stats e !! Z.to_nat CC = Some s) -> 0 <= c < 65536 ->
  find_UE_id e c = Ok UE -> 0 <= UE -> find_UE_id e (swapped c) = Ok (-1) ->
  Forall ul_sdu_ok sdus -> sdus <> [] -> (length sdus <= 14)%nat -> (80 <= length mac_header)%nat ->
  exists size m r,
    generate_ulsch_header mac_header 0 (sdu_lengths sdus) None (Some c) None None None 0 = Ok (size, m) /\
    (let block := take (Z.to_nat size) m ++ sdu_bytes sdus in
     rx_sdu CC frameP subframeP rntiP harq_pid block registered (Z.of_nat (length block)) (Some 1) e = Ok r) /\
    rx_out r = [] /\ rx_msg3 r = Some 0 /\ slots (rx_enb r) = slots e /\ UE_template (rx_enb r) = UE_template e /\
    sched_ctrl (rx_enb r) = sched_ctrl e /\ eNB_UE_stats (rx_enb r) = eNB_UE_stats e.
Proof.
  intros HCC Hwf Hfind (se & Hse) Hc _ _ Hswap Hsdus Hne Hn HN.
  assert (Hfit : sdus_fit EXTENDED_POWER_HEADROOM sdus).
  { split; [|done]. apply (Forall_impl _ _ _ Hsdus). intros [l bs] [H1 H2]. clear -H1 H2. cbn [fst snd] in *.
    unfold SCH_PAYLOAD_SIZE_MAX, EXTENDED_POWER_HEADROOM in *. lia. }
  destruct (sdus_fit_lengths EXTENDED_POWER_HEADROOM sdus ltac:(done) Hfit) as (Hpl & Hok & Hln).
  destruct (ulsch_closed mac_header 0 None (Some c) None None None (sdu_lengths sdus) 0 ltac:(lia) Hok Hln HN ltac:(lia))
    as (es0 & l & m & Hcl & _ & Hgen & _ & Htake); [intros _; by destruct sdus | by left|].
  destruct (ul_parse 0 None (Some c) None None None (sdu_lengths sdus) es0 l _ (sdu_bytes sdus) ltac:(lia) Hpl Hln eq_refl Hcl)
    as (st & Hparse & Hptr & Hces & Hpsdus); [intros _; by rewrite sum_lengths|].
  change (ul_ce_bytes None (Some c) None None None) with (crnti_bytes c) in *. change (ul_ce_lcids None (Some c) None None None) with [CRNTI] in *.
  set (hdr := header es0 l (crnti_bytes c)) in *. set (block := hdr ++ sdu_bytes sdus).
  assert (Hsplit : block = (marked es0 ++ [l]) ++ [Z.land c 255] ++ Z.shiftr c 8 :: sdu_bytes sdus)
    by (unfold block, hdr; by rewrite header_split, <- app_assoc).
  assert (Hval : Z.shiftl (Z.land c 255) 8 + Z.shiftr c 8 = swapped c).
  { unfold swapped. change 255 with (2 ^ 8 - 1). rewrite land_ones_mod, Z.shiftl_mul_pow2, Z.shiftr_div_pow2 by lia. done. }
  set (e1 := counted CC (Z.of_nat (length block)) se e).
  assert (Hf1 : find_UE_id e1 (swapped c) = Ok (-1)).
  { rewrite find_UE_id_ok in Hswap |- * by (destruct Hwf; by constructor). exact Hswap. }
  assert (Hp0 : p_ptr st = Z.of_nat (length (marked es0 ++ [l]))) by (rewrite Hptr, length_app; cbn; lia).
  assert (Hrx : rx_ces CC frameP subframeP block [CRNTI] (Mk_rx e1 (-1) (p_ptr st) (Some 1) []) =
    Ok (Mk_rx e1 (-1) (p_ptr st + 2) (Some 0) [])).
  { cbn [rx_ces]. unfold rx_ce. change (CRNTI =? POWER_HEADROOM) with false. rewrite (Z.eqb_refl CRNTI). cbn iota. cbn [rx_ptr rx_enb].
    rewrite Hsplit, Hp0. rewrite (array_get_app (marked es0 ++ [l]) (Z.shiftr c 8 :: sdu_bytes sdus) (Z.land c 255) _ eq_refl : array_get (_ ++ [_] ++ _ :: _) _ = _).
    cbn [mbind res_bind]. rewrite array_get_after by done. cbn [mbind res_bind]. rewrite Hval, Hf1. done. }
  destruct (rx_sdus_unknown CC rntiP harq_pid registered block (sdu_lengths sdus) (Mk_rx e1 (-1) (p_ptr st + 2) (Some 0) []))
    as (r & Er & Hue & Hout & Henb & Hm3); [|done|].
  { unfold sdu_lengths. apply Forall_map, (Forall_impl _ _ _ Hsdus). intros [l' bs] [H1 _]. exact H1. }
  eexists _, m, r. split; [exact Hgen|]. rewrite Nat2Z.id, Htake. fold hdr block. cbn zeta.
  split; [|split; [done | split; [done | by rewrite Henb]]].
  assert (Hlb : Z.of_nat (length block) = Z.of_nat (length hdr) + Z.of_nat (length (sdu_bytes sdus))) by (unfold block; rewrite length_app; lia).
  fold block in Hparse. rewrite <- Hlb in Hparse.
  rewrite (rx_sdu_unknown CC frameP subframeP rntiP harq_pid _ registered _ (Some 1) e se st HCC Hfind Hse Hparse), Hces, Hpsdus.
  fold e1. rewrite Hrx. cbn [mbind res_bind]. rewrite Er. cbn [mbind res_bind]. unfold rx_end.
  rewrite (bool_decide_false ([CRNTI] = [])), andb_false_r by done. rewrite Hue, Z.eqb_refl. cbn [mbind res_bind]. by destruct r.
Qed.

(** ** Witnesses *)
(** The third process waits for Msg3 of the RNTI 777. *)
Definition waiting_process : RA_TEMPLATE := Mk_ra 1 0 0 0 777 [0; 0; 0; 0; 0; 0] 0 0.
Definition waiting_processes : list RA_TEMPLATE := [sample_process; sample_process; waiting_process; sample_process].
Definition waiting_list : eNB_MAC_INST := sample_list <| RA_template := [waiting_processes] |>.
Lemma contention_resolved_witness :
  exists r ra',
    generate_ulsch_header (0 :: 0 :: 0 :: ([11; 12; 13; 14; 15; 16] ++ replicate 119 0)) 0 [(CCCH, 6)] None None None None None 1 =
      Ok (3, 32 :: 6 :: 31 :: ([11; 12; 13; 14; 15; 16] ++ replicate 119 0)) /\
    rx_sdu 0 10 3 777 0 [32; 6; 31; 11; 12; 13; 14; 15; 16; 0] true 10 (Some 1) waiting_list = Ok r /\
    rx_out r = [Enb_rrc_data_ind 777 CCCH [11; 12; 13; 14; 15; 16]] /\ find_UE_id (rx_enb r) 777 = Ok (rx_ue r) /\
    RA_template (rx_enb r) !! 0%nat = Some (<[2%nat := ra']> waiting_processes) /\ generate_Msg4 ra' = 1 /\
    exists size m, generate_dlsch_header (replicate 80 0) (sdu_lengths [(CCCH, [42])]) 255 0 (Some (cont_res_id ra')) 0 1 = Ok (size, m) /\
      let msg4 := take (Z.to_nat size) m ++ sdu_bytes [(CCCH, [42])] ++ [] in
      ue_send_sdu (Mk_ue_mac 1 1 (32 :: 6 :: 31 :: ([11; 12; 13; 14; 15; 16] ++ replicate 119 0)) 0 0) msg4 (Z.of_nat (length msg4)) =
        Ok (ra_over (Mk_ue_mac 1 1 (32 :: 6 :: 31 :: ([11; 12; 13; 14; 15; 16] ++ replicate 119 0)) 0 0),
            [Ra_succeeded; Mac_rrc_data_ind CCCH [42]]).
Proof.
  assert (Hwf : wf_enb waiting_list) by wf_sample.
  destruct (contention_resolved 0 waiting_list 777 0 10 3 true waiting_processes 2 waiting_process 0 0 0
    ([11; 12; 13; 14; 15; 16] ++ replicate 119 0) 6 7) as (r & ra' & H1 & H2 & H3 & H4 & _ & H5 & H6 & _ & H7);
    [ cbn; lia | exact Hwf | reflexivity | discriminate | eexists; reflexivity | eexists; split; reflexivity | reflexivity
    | reflexivity | reflexivity | reflexivity | | lia | cbn; lia | lia |].
  { intros [|[|[|[|j]]]] x Hj Hx; [| | by destruct Hj | | discriminate Hx]; by injection Hx as <-. }
  exists r, ra'. split; [exact H1|]. split; [exact H2|]. split; [exact H3|]. split; [exact H4|]. split; [exact H5|]. split; [exact H6|].
  apply (H7 _ (replicate 80 0) [(CCCH, [42])] [] 0 1);
    [ reflexivity | reflexivity | rewrite length_replicate; lia | | lia | lia | intros H; discriminate H ].
  split; [|cbn; lia]. apply Forall_cons. split; [cbn; unfold UE_CONT_RES, CCCH; lia | apply Forall_nil_2].
Defined.
Lemma crnti_msg3_lost_witness :
  find_UE_id sample_list 4660 = Ok 0 /\
  exists size m r,
    generate_ulsch_header (replicate 80 0) 0 (sdu_lengths [(1, [1; 2; 3])]) None (Some 4660) None None None 0 = Ok (size, m) /\
    (let block := take (Z.to_nat size) m ++ sdu_bytes [(1, [1; 2; 3])] in
     rx_sdu 0 10 3 777 0 block true (Z.of_nat (length block)) (Some 1) sample_list = Ok r) /\
    rx_out r = [] /\ rx_msg3 r = Some 0.
Proof.
  split; [reflexivity|].
  destruct (crnti_msg3_lost 0 sample_list 777 0 10 3 true 4660 0 (replicate 80 0) [(1, [1; 2; 3])])
    as (size & m & r & H1 & H2 & H3 & H4 & _);
    [ lia | exact wf_sample_list | reflexivity | eexists; reflexivity | lia | reflexivity | lia | reflexivity | | discriminate | cbn; lia
    | rewrite length_replicate; lia |].
  { apply Forall_cons. split; [|apply Forall_nil_2]. split; cbn; unfold SCH_PAYLOAD_SIZE_MAX; lia. }
  exists size, m, r. split; [exact H1|]. split; [exact H2|]. split; [exact H3 | exact H4].
Defined.
