(* ===== verification/PhyCrc.v ===== *)
(** * Cyclic redundancy checks (openair1/PHY/CODING/crc_byte.c)

    The five checks of LTE (TS 36.212 5.1.1), bit by bit and with tables of 256 entries.  The register of
    every check is left-aligned in 32 bits.  A shift into the sign bit of an [int] is the shift of the bits,
    as the compiler defines it.  [crc_remainder] shows that all of them compute the remainder of the message
    by the generator of the standard, for messages of any number of bits; [crc_detects] what errors they
    find. *)

From S2P Require Import Prelude Bits.

Definition poly24a : Z := 0x864cfb00.
Definition poly24b : Z := 0x80006300.
Definition poly16 : Z := 0x10210000.
Definition poly12 : Z := 0x80F00000.
Definition poly8 : Z := 0x9B000000.

(** ** Bit by bit *)
Fixpoint crcbit_byte (i : nat) (poly c crc : Z) : Z :=
  match i with
  | O => crc
  | S i =>
      let crc :=
        if truthy (Z.land (Z.shiftl 1 31) (Z.lxor c crc)) then Z.lxor (u32 (Z.shiftl crc 1)) poly
        else u32 (Z.shiftl crc 1) in
      crcbit_byte i poly (u32 (Z.shiftl c 1)) crc
  end.
Fixpoint crcbit_loop (mem : list Z) (inputptr : Z) (octetlen : nat) (poly crc : Z) : res Z :=
  match octetlen with
  | O => Ok crc
  | S octetlen =>
      b ← array_get mem inputptr;
      crcbit_loop mem (inputptr + 1) octetlen poly (crcbit_byte 8 poly (u32 (Z.shiftl b 24)) crc)
  end.
Definition crcbit (mem : list Z) (inputptr octetlen poly : Z) : res Z :=
  crcbit_loop mem inputptr (Z.to_nat octetlen) poly 0.

(** ** With tables *)
Record crc_tables := Mk_crc_tables {
  crc24aTable : list Z; crc24bTable : list Z; crc16Table : list Z; crc12Table : list Z; crc8Table : list Z
}.
Definition crcTableInit : res crc_tables :=
  a ← mapM (fun c => crcbit [c] 0 1 poly24a) (seqZ 0 256);
  b ← mapM (fun c => crcbit [c] 0 1 poly24b) (seqZ 0 256);
  t16 ← mapM (fun c => r ← crcbit [c] 0 1 poly16; Ok (u16 (Z.shiftr r 16))) (seqZ 0 256);
  t12 ← mapM (fun c => r ← crcbit [c] 0 1 poly12; Ok (u16 (Z.shiftr r 16))) (seqZ 0 256);
  t8 ← mapM (fun c => r ← crcbit [c] 0 1 poly8; Ok (u8 (Z.shiftr r 24))) (seqZ 0 256);
  Ok (Mk_crc_tables a b t16 t12 t8).

(** The loop over the octets; [upd] is the assignment to [crc]. *)
Fixpoint crc_octets (upd : Z -> Z -> Z) (table mem : list Z) (inptr : Z) (octetlen : nat) (crc : Z) : res Z :=
  match octetlen with
  | O => Ok crc
  | S octetlen =>
      b ← array_get mem inptr;
      t ← array_get table (Z.lxor b (Z.shiftr crc 24));
      crc_octets upd table mem (inptr + 1) octetlen (upd crc t)
  end.
(** The bits that are left; [shift] is that of the entry of the table. *)
Definition crc_resbit (shift : Z) (table mem : list Z) (inptr resbit crc : Z) : res Z :=
  if resbit >? 0 then
    b ← array_get mem inptr;
    t ← array_get table (Z.lxor (Z.shiftr b (8 - resbit)) (Z.shiftr crc (32 - resbit)));
    Ok (Z.lxor (u32 (Z.shiftl crc resbit)) (u32 (Z.shiftl t shift)))
  else Ok crc.
Definition crc24a (T : crc_tables) (mem : list Z) (inptr bitlen : Z) : res Z :=
  let octetlen := Z.quot bitlen 8 in
  crc ← crc_octets (fun crc t => Z.lxor (u32 (Z.shiftl crc 8)) t) (crc24aTable T) mem inptr (Z.to_nat octetlen) 0;
  crc_resbit 0 (crc24aTable T) mem (inptr + octetlen) (Z.rem bitlen 8) crc.

Definition crc24b (T : crc_tables) (mem : list Z) (inptr bitlen : Z) : res Z :=
  let octetlen := Z.quot bitlen 8 in
  crc ← crc_octets (fun crc t => Z.lxor (u32 (Z.shiftl crc 8)) t) (crc24bTable T) mem inptr (Z.to_nat octetlen) 0;
  crc_resbit 0 (crc24bTable T) mem (inptr + octetlen) (Z.rem bitlen 8) crc.

Definition crc16 (T : crc_tables) (mem : list Z) (inptr bitlen : Z) : res Z :=
  let octetlen := Z.quot bitlen 8 in
  crc ← crc_octets (fun crc t => Z.lxor (u32 (Z.shiftl crc 8)) (u32 (Z.shiftl t 16))) (crc16Table T) mem inptr (Z.to_nat octetlen) 0;
  crc_resbit 16 (crc16Table T) mem (inptr + octetlen) (Z.rem bitlen 8) crc.

Definition crc12 (T : crc_tables) (mem : list Z) (inptr bitlen : Z) : res Z :=
  let octetlen := Z.quot bitlen 8 in
  crc ← crc_octets (fun crc t => Z.lxor (u32 (Z.shiftl crc 8)) (u32 (Z.shiftl t 16))) (crc12Table T) mem inptr (Z.to_nat octetlen) 0;
  crc_resbit 16 (crc12Table T) mem (inptr + octetlen) (Z.rem bitlen 8) crc.

Definition crc8 (T : crc_tables) (mem : list Z) (inptr bitlen : Z) : res Z :=
  let octetlen := Z.quot bitlen 8 in
  crc ← crc_octets (fun _ t => u32 (Z.shiftl t 24)) (crc8Table T) mem inptr (Z.to_nat octetlen) 0;
  crc_resbit 24 (crc8Table T) mem (inptr + octetlen) (Z.rem bitlen 8) crc.

(** The check value of the message "123456789" with the generator D^16 + D^12 + D^5 + 1. *)
Example crc16_check_value :
  (T ← crcTableInit; crc16 T [49; 50; 51; 52; 53; 54; 55; 56; 57] 0 72) = Ok (Z.shiftl 0x31C3 16).
Proof. vm_compute. reflexivity. Qed.

(** ** The register, one bit at a time *)
Definition crc_step (poly crc : Z) (b : bool) : Z :=
  if xorb (Z.testbit crc 31) b then Z.lxor (u32 (Z.shiftl crc 1)) poly else u32 (Z.shiftl crc 1).
Definition crc_run (poly crc : Z) (bs : list bool) : Z := foldl (crc_step poly) crc bs.
Definition crc_of (poly : Z) (bs : list bool) : Z := crc_run poly 0 bs.

Lemma testbit_u32 x i : 0 <= i -> Z.testbit (u32 x) i = (i <? 32) && Z.testbit x i.
Proof.
  intros Hi. unfold u32, wrapu. destruct (Z.ltb_spec i 32).
  - by rewrite Z.mod_pow2_bits_low.
  - by rewrite Z.mod_pow2_bits_high by lia.
Qed.
Lemma testbit_shiftl_u32 x n i : 0 <= i -> Z.testbit (u32 (Z.shiftl x n)) i = (i <? 32) && Z.testbit x (i - n).
Proof. intros Hi. rewrite testbit_u32 by done. by rewrite Z.shiftl_spec. Qed.
Lemma u32_bound x : 0 <= x < 2 ^ 32 -> forall i, 32 <= i -> Z.testbit x i = false.
Proof. intros Hx i Hi. rewrite <- (Z.mod_small x (2 ^ 32)) by done. by rewrite Z.mod_pow2_bits_high by lia. Qed.
Lemma bits_bound x n : 0 <= n -> 0 <= x -> (forall i, n <= i -> Z.testbit x i = false) -> x < 2 ^ n.
Proof.
  intros Hn Hx H. assert (x mod 2 ^ n = x) as <-.
  { apply Z.bits_inj'. intros i Hi. destruct (Z.ltb_spec i n); [by rewrite Z.mod_pow2_bits_low|].
    rewrite Z.mod_pow2_bits_high by lia. by rewrite H. }
  apply Z.mod_pos_bound. lia.
Qed.
Lemma lxor_word x y : 0 <= x < 2 ^ 32 -> 0 <= y < 2 ^ 32 -> 0 <= Z.lxor x y < 2 ^ 32.
Proof.
  intros Hx Hy. assert (0 <= Z.lxor x y) by (rewrite Z.lxor_nonneg; lia). split; [done|].
  apply bits_bound; [lia | done|]. intros i Hi. by rewrite Z.lxor_spec, (u32_bound x), (u32_bound y).
Qed.
Lemma u32_word x : 0 <= u32 x < 2 ^ 32.
Proof. apply wrapu_range. lia. Qed.
Lemma bits_of_spec n v (i : nat) : (i < n)%nat -> bits_of n v !! i = Some (Z.testbit v (Z.of_nat (n - 1 - i))).
Proof.
  revert i. induction n as [|n IH]; intros i Hi; [lia|]. destruct i as [|i]; cbn [bits_of].
  - change ((?b :: _) !! 0%nat) with (Some b). do 2 f_equal. lia.
  - change ((?b :: ?l) !! S i) with (l !! i). rewrite IH by lia. do 2 f_equal. lia.
Qed.
Lemma bits_of_ext n v w : (forall i, 0 <= i < Z.of_nat n -> Z.testbit v i = Z.testbit w i) -> bits_of n v = bits_of n w.
Proof.
  induction n as [|n IH]; intros H; [done|]. cbn [bits_of]. rewrite (H (Z.of_nat n)) by lia. f_equal. apply IH. intros i Hi. apply H. lia.
Qed.

Section Poly.
Context (poly : Z) (Hpoly : 0 <= poly < 2 ^ 32).

Lemma crc_step_word crc b : 0 <= crc_step poly crc b < 2 ^ 32.
Proof using Hpoly. unfold crc_step. pose proof (u32_word (Z.shiftl crc 1)). destruct (xorb _ b); [by apply lxor_word | done]. Qed.
Lemma crc_run_word bs : forall crc, 0 <= crc < 2 ^ 32 -> 0 <= crc_run poly crc bs < 2 ^ 32.
Proof using Hpoly. induction bs as [|b bs IH]; intros crc H; [done|]. apply IH, crc_step_word. Qed.
Lemma crc_run_app crc xs ys : crc_run poly crc (xs ++ ys) = crc_run poly (crc_run poly crc xs) ys.
Proof using. unfold crc_run. by rewrite foldl_app. Qed.

(** The loops of [crcbit]. *)
Lemma crcbit_byte_spec i : (i <= 32)%nat -> forall c crc, 0 <= c < 2 ^ 32 ->
  crcbit_byte i poly c crc = crc_run poly crc (bits_of i (Z.shiftr c (32 - Z.of_nat i))).
Proof using.
  induction i as [|i IH]; intros Hi c crc Hc; [done|]. cbn [crcbit_byte bits_of]. unfold crc_run. cbn [foldl].
  rewrite Z.shiftr_spec by lia. replace (Z.of_nat i + (32 - Z.of_nat (S i))) with 31 by lia.
  change (Z.shiftl 1 31) with (2 ^ 31). rewrite Z.land_comm, land_bit by lia. rewrite <- Z.testbit_spec' by lia.
  assert (truthy (Z.b2z (Z.testbit (Z.lxor c crc) 31) * 2 ^ 31) = xorb (Z.testbit crc 31) (Z.testbit c 31)) as ->.
  { rewrite Z.lxor_spec, xorb_comm. by destruct (xorb _ _). }
  rewrite IH by (apply u32_word || lia). unfold crc_run. f_equal. apply bits_of_ext. intros j Hj.
  rewrite !Z.shiftr_spec, testbit_shiftl_u32 by lia. rewrite (proj2 (Z.ltb_lt _ _)) by lia. cbn [andb]. f_equal. lia.
Qed.
Lemma crcbit_octet b crc : is_byte b -> crcbit_byte 8 poly (u32 (Z.shiftl b 24)) crc = crc_run poly crc (bits_of 8 b).
Proof using.
  intros Hb. rewrite crcbit_byte_spec by (lia || apply u32_word). f_equal. apply bits_of_ext. intros i Hi.
  rewrite Z.shiftr_spec, testbit_shiftl_u32 by lia. rewrite (proj2 (Z.ltb_lt _ _)) by lia. cbn [andb]. f_equal. lia.
Qed.

(** The register is linear, and takes its own high bits back. *)
Lemma crc_run_lxor xs : forall ys a b, length xs = length ys ->
  crc_run poly (Z.lxor a b) (zip_with xorb xs ys) = Z.lxor (crc_run poly a xs) (crc_run poly b ys).
Proof using.
  induction xs as [|x xs IH]; intros [|y ys] a b Hl; try discriminate Hl; [done|].
  unfold crc_run in *. cbn [foldl zip_with]. rewrite <- IH by (cbn in Hl; lia). f_equal. unfold crc_step.
  assert (u32 (Z.shiftl (Z.lxor a b) 1) = Z.lxor (u32 (Z.shiftl a 1)) (u32 (Z.shiftl b 1))) as ->.
  { apply Z.bits_inj'. intros i Hi. rewrite Z.lxor_spec, !testbit_shiftl_u32, Z.lxor_spec by done. by destruct (i <? 32). }
  rewrite Z.lxor_spec. generalize (u32 (Z.shiftl a 1)) (u32 (Z.shiftl b 1)). intros u v.
  destruct (Z.testbit a 31), (Z.testbit b 31), x, y; cbn [xorb]; rewrite ?Z.lxor_assoc; try done;
    first [ by rewrite (Z.lxor_comm v poly), <- !Z.lxor_assoc, (Z.lxor_comm (Z.lxor u poly)), <- ?Z.lxor_assoc
          | by rewrite (Z.lxor_comm v poly)
          | by rewrite <- (Z.lxor_assoc poly v poly), (Z.lxor_comm poly v), Z.lxor_assoc, Z.lxor_nilpotent, Z.lxor_0_r ].
Qed.
Lemma crc_run_own n : (n <= 32)%nat -> forall crc,
  crc_run poly crc (bits_of n (Z.shiftr crc (32 - Z.of_nat n))) = if (n =? 0)%nat then crc else u32 (Z.shiftl crc (Z.of_nat n)).
Proof using.
  induction n as [|n IH]; intros Hn crc; [done|]. cbn [bits_of Nat.eqb]. unfold crc_run in *. cbn [foldl].
  rewrite Z.shiftr_spec by lia. replace (Z.of_nat n + (32 - Z.of_nat (S n))) with 31 by lia.
  unfold crc_step at 2. rewrite xorb_nilpotent.
  transitivity (foldl (crc_step poly) (u32 (Z.shiftl crc 1)) (bits_of n (Z.shiftr (u32 (Z.shiftl crc 1)) (32 - Z.of_nat n)))).
  { f_equal. apply bits_of_ext. intros i Hi. rewrite !Z.shiftr_spec, testbit_shiftl_u32 by lia.
    rewrite (proj2 (Z.ltb_lt _ _)) by lia. cbn [andb]. f_equal. lia. }
  rewrite IH by lia. destruct n as [|n]; [done|]. cbn [Nat.eqb].
  apply Z.bits_inj'. intros i Hi. rewrite (testbit_shiftl_u32 (u32 _)), (testbit_shiftl_u32 crc (Z.of_nat (S (S n)))) by lia.
  destruct (Z.ltb_spec i 32); [|done]. cbn [andb]. destruct (Z.leb_spec (Z.of_nat (S n)) i).
  - rewrite testbit_shiftl_u32 by lia. rewrite (proj2 (Z.ltb_lt _ _)) by lia. cbn [andb]. f_equal. lia.
  - rewrite !Z.testbit_neg_r by lia. done.
Qed.
(** [n] bits at once. *)
Lemma crc_run_table n v crc : (0 < n <= 32)%nat ->
  crc_run poly crc (bits_of n v) =
    Z.lxor (u32 (Z.shiftl crc (Z.of_nat n))) (crc_of poly (bits_of n (Z.lxor v (Z.shiftr crc (32 - Z.of_nat n))))).
Proof using.
  intros Hn. pose proof (crc_run_own n ltac:(lia) crc) as H. rewrite (proj2 (Nat.eqb_neq n 0)) in H by lia.
  rewrite <- H. unfold crc_of.
  rewrite <- (crc_run_lxor (bits_of n _) (bits_of n _) crc 0) by (by rewrite !length_bits_of). rewrite Z.lxor_0_r. f_equal.
  apply list_eq_same_length with (n := n); [rewrite length_zip_with, !length_bits_of; lia | by rewrite length_bits_of|].
  intros i x y Hi. rewrite lookup_zip_with, !bits_of_spec by done. cbn. intros [= <-] [= <-].
  rewrite Z.lxor_spec. by destruct (Z.testbit v _), (Z.testbit (Z.shiftr crc _) _).
Qed.
Lemma crc_of_zeros n bs : crc_of poly (replicate n false ++ bs) = crc_of poly bs.
Proof using. induction n as [|n IH]; [done|]. exact IH. Qed.
End Poly.

(** ** The tables *)
Definition table_ok (shift poly : Z) (table : list Z) : bool :=
  (length table =? 256)%nat &&
  forallb (fun x => (0 <=? nth x table 0) && (nth x table 0 <? 2 ^ (32 - shift)) &&
                    (u32 (Z.shiftl (nth x table 0) shift) =? crc_of poly (bits_of 8 (Z.of_nat x)))) (seq 0 256).
Definition initial_tables : res crc_tables := Eval vm_compute in crcTableInit.
Lemma crcTableInit_eq : crcTableInit = initial_tables.
Proof. vm_compute. reflexivity. Qed.
Lemma tables_ok T : crcTableInit = Ok T ->
  table_ok 0 poly24a (crc24aTable T) = true /\ table_ok 0 poly24b (crc24bTable T) = true /\
  table_ok 16 poly16 (crc16Table T) = true /\ table_ok 16 poly12 (crc12Table T) = true /\ table_ok 24 poly8 (crc8Table T) = true.
Proof. rewrite crcTableInit_eq. intros [= <-]. do 4 (split; [vm_compute; reflexivity|]). vm_compute. reflexivity. Qed.
Lemma table_entry shift poly table x : table_ok shift poly table = true -> 0 <= x < 256 ->
  exists t, array_get table x = Ok t /\ 0 <= t < 2 ^ (32 - shift) /\ u32 (Z.shiftl t shift) = crc_of poly (bits_of 8 x).
Proof.
  unfold table_ok. rewrite andb_true_iff, Nat.eqb_eq, forallb_forall. intros [Hl H] Hx.
  specialize (H (Z.to_nat x) ltac:(apply in_seq; lia)). rewrite !andb_true_iff, Z.leb_le, Z.ltb_lt, Z.eqb_eq in H.
  destruct H as [[H1 H2] H3]. destruct (array_get_ok table x) as (t & E & Ht); [lia|]. exists t. split; [done|].
  rewrite (nth_lookup_Some _ _ 0 t Ht) in *. by rewrite Z2Nat.id in H3 by lia.
Qed.

Lemma drop_bits_whole p mem : drop (8 * p) (bits mem) = bits (drop p mem).
Proof.
  destruct (Nat.le_gt_cases p (length mem)) as [H | H].
  - rewrite <- (take_drop p mem) at 1. rewrite bits_app. apply drop_app_length'. rewrite length_bits, length_take. lia.
  - rewrite !drop_ge; [done | lia | rewrite length_bits; lia].
Qed.
Lemma take_bits_whole p mem : take (8 * p) (bits mem) = bits (take p mem).
Proof.
  destruct (Nat.le_gt_cases p (length mem)) as [H | H].
  - rewrite <- (take_drop p mem) at 1. rewrite bits_app. apply take_app_length'. rewrite length_bits, length_take. lia.
  - rewrite !take_ge; [done | lia | rewrite length_bits; lia].
Qed.
Lemma byte_top b (r : nat) : (r <= 8)%nat -> take r (bits_of 8 b) = bits_of r (Z.shiftr b (8 - Z.of_nat r)).
Proof.
  intros Hr. replace 8%nat with (r + (8 - r))%nat at 1 by lia. rewrite take_bits_of. do 2 f_equal. lia.
Qed.
Lemma lxor_index a b n : 0 <= n -> 0 <= a < 2 ^ n -> 0 <= b < 2 ^ n -> 0 <= Z.lxor a b < 2 ^ n.
Proof.
  intros Hn Ha Hb. assert (0 <= Z.lxor a b) by (rewrite Z.lxor_nonneg; lia). split; [done|].
  apply bits_bound; [done | done|]. intros i Hi.
  rewrite Z.lxor_spec, <- (Z.mod_small a (2 ^ n)), <- (Z.mod_small b (2 ^ n)), !Z.mod_pow2_bits_high by lia. done.
Qed.
Lemma shiftr_range x a b : 0 <= a <= b -> 0 <= x < 2 ^ b -> 0 <= Z.shiftr x (b - a) < 2 ^ a.
Proof.
  intros Ha Hx. rewrite Z.shiftr_div_pow2 by lia. split; [apply Z.div_pos; lia|]. apply Z.div_lt_upper_bound; [lia|].
  rewrite <- Z.pow_add_r by lia. replace (b - a + a) with b by lia. lia.
Qed.

Section Table.
Context (poly shift low : Z) (table : list Z) (upd : Z -> Z -> Z).
Context (Hpoly : 0 <= poly < 2 ^ 32) (Hlow : 0 <= low < 32) (Hdiv : (2 ^ low | poly)) (Htab : table_ok shift poly table = true).
Context (Hupd : forall crc t, 0 <= crc < 2 ^ 32 -> (2 ^ low | crc) -> 0 <= t < 2 ^ (32 - shift) ->
  upd crc t = Z.lxor (u32 (Z.shiftl crc 8)) (u32 (Z.shiftl t shift))).

Lemma low_zero x : (2 ^ low | x) <-> forall i, 0 <= i < low -> Z.testbit x i = false.
Proof using Hlow.
  split.
  - intros [k ->] i Hi. rewrite Z.mul_comm, <- (Z.mod_pow2_bits_low _ low) by lia. rewrite Z.mul_comm, Z_mod_mult. apply Z.bits_0.
  - intros H. apply Z.mod_divide; [lia|]. apply Z.bits_inj'. intros i Hi. rewrite Z.bits_0.
    destruct (Z.ltb_spec i low); [rewrite Z.mod_pow2_bits_low by lia; by apply H | by rewrite Z.mod_pow2_bits_high by lia].
Qed.
Lemma crc_step_low crc b : (2 ^ low | crc) -> (2 ^ low | crc_step poly crc b).
Proof using Hlow Hdiv.
  rewrite !low_zero. intros H i Hi. apply low_zero with (i := i) in Hdiv; [|done]. unfold crc_step.
  assert (Hs : Z.testbit (u32 (Z.shiftl crc 1)) i = false).
  { rewrite testbit_shiftl_u32 by lia. destruct (Z.leb_spec 1 i); [rewrite H by lia | rewrite Z.testbit_neg_r by lia]; apply andb_false_r. }
  destruct (xorb _ b); [by rewrite Z.lxor_spec, Hs, Hdiv | done].
Qed.
Lemma crc_run_low bs : forall crc, (2 ^ low | crc) -> (2 ^ low | crc_run poly crc bs).
Proof using Hlow Hdiv. induction bs as [|b bs IH]; intros crc H; [done|]. by apply IH, crc_step_low. Qed.

Lemma crc_octets_spec mem n : forall inptr crc, Forall is_byte mem -> 0 <= crc < 2 ^ 32 -> (2 ^ low | crc) ->
  0 <= inptr -> inptr + Z.of_nat n <= Z.of_nat (length mem) ->
  crc_octets upd table mem inptr n crc = Ok (crc_run poly crc (bits (take n (drop (Z.to_nat inptr) mem)))).
Proof using Hpoly Hlow Hdiv Htab Hupd.
  induction n as [|n IH]; intros inptr crc Hb Hc Hcl Hp Hn; [done|]. cbn [crc_octets].
  destruct (array_get_ok mem inptr) as (b & E & Hbl); [lia|]. rewrite E. cbn [mbind res_bind].
  assert (Hbyte : is_byte b) by (by eapply Forall_lookup_1). unfold is_byte in Hbyte.
  pose proof (shiftr_range crc 8 32 ltac:(lia) Hc) as Hs. change (32 - 8) with 24 in Hs. change (2 ^ 8) with 256 in Hs.
  pose proof (lxor_index b (Z.shiftr crc 24) 8 ltac:(lia) Hbyte Hs) as Hx.
  destruct (table_entry shift poly table _ Htab Hx) as (t & Et & Ht & Etc). rewrite Et. cbn [mbind res_bind].
  rewrite Hupd, Etc by done.
  pose proof (crc_run_table poly 8 b crc ltac:(lia)) as Hstep. change (Z.of_nat 8) with 8 in Hstep. change (32 - 8) with 24 in Hstep.
  rewrite <- Hstep. rewrite IH; [| done | by apply crc_run_word | by apply crc_run_low | lia | lia].
  rewrite (drop_S mem b (Z.to_nat inptr) Hbl). cbn [take]. rewrite bits_cons, crc_run_app. do 5 f_equal. lia.
Qed.
Lemma crc_resbit_spec mem inptr (r : nat) crc : Forall is_byte mem -> 0 <= crc < 2 ^ 32 -> 0 <= inptr -> (r < 8)%nat ->
  ((0 < r)%nat -> inptr < Z.of_nat (length mem)) ->
  crc_resbit shift table mem inptr (Z.of_nat r) crc = Ok (crc_run poly crc (take r (bits (drop (Z.to_nat inptr) mem)))).
Proof using Hlow Htab.
  intros Hb Hc Hp Hr Hm. unfold crc_resbit. destruct (Z.gtb_spec (Z.of_nat r) 0) as [H0 | H0]; [|by replace r with 0%nat by lia].
  destruct (array_get_ok mem inptr) as (b & E & Hbl); [lia|]. rewrite E. cbn [mbind res_bind].
  assert (Hbyte : is_byte b) by (by eapply Forall_lookup_1). unfold is_byte in Hbyte.
  pose proof (shiftr_range crc (Z.of_nat r) 32 ltac:(lia) Hc) as Hs. pose proof (shiftr_range b (Z.of_nat r) 8 ltac:(lia) Hbyte) as Hs2.
  pose proof (lxor_index _ _ (Z.of_nat r) ltac:(lia) Hs2 Hs) as Hx. set (x := Z.lxor _ _) in *.
  assert (Hx8 : 0 <= x < 256) by (change 256 with (2 ^ 8); pose proof (Z.pow_le_mono_r 2 (Z.of_nat r) 8); lia).
  destruct (table_entry shift poly table _ Htab Hx8) as (t & Et & _ & Etc). rewrite Et. cbn [mbind res_bind]. rewrite Etc.
  rewrite (drop_S mem b (Z.to_nat inptr) Hbl), bits_cons, take_app_le by (rewrite length_bits_of; lia).
  rewrite byte_top by lia. rewrite crc_run_table by lia. fold x. do 2 f_equal.
  replace 8%nat with (8 - r + r)%nat by lia. rewrite bits_of_app, (bits_of_zero (8 - r)), crc_of_zeros; [done|].
  rewrite Z.shiftr_div_pow2, Z.div_small by lia. apply Z.mod_0_l. lia.
Qed.
(** The whole of a table-driven function. *)
Lemma crc_table_spec mem inptr bitlen : Forall is_byte mem -> 0 <= inptr -> 0 <= bitlen ->
  8 * inptr + bitlen <= 8 * Z.of_nat (length mem) ->
  (crc ← crc_octets upd table mem inptr (Z.to_nat (Z.quot bitlen 8)) 0;
   crc_resbit shift table mem (inptr + Z.quot bitlen 8) (Z.rem bitlen 8) crc) =
    Ok (crc_of poly (take (Z.to_nat bitlen) (drop (8 * Z.to_nat inptr) (bits mem)))).
Proof using Hpoly Hlow Hdiv Htab Hupd.
  intros Hb Hp Hl Hm. rewrite Z.quot_div_nonneg, Z.rem_mod_nonneg by lia.
  set (n := bitlen / 8). assert (Hn : 0 <= n) by (apply Z.div_pos; lia). pose proof (Z.div_mod bitlen 8 ltac:(lia)) as Hd. fold n in Hd.
  pose proof (Z.mod_pos_bound bitlen 8 ltac:(lia)) as Hr. set (r := bitlen mod 8) in *.
  rewrite crc_octets_spec; [| done | lia | apply Z.divide_0_r | lia | lia]. cbn [mbind res_bind]. rewrite <- (Z2Nat.id r) by lia.
  rewrite crc_resbit_spec; [| done | apply crc_run_word; done || lia | lia | lia | lia].
  rewrite <- crc_run_app. unfold crc_of. do 2 f_equal.
  rewrite drop_bits_whole, Z2Nat.inj_add, <- drop_drop by lia. generalize (drop (Z.to_nat inptr) mem). intros l.
  replace (Z.to_nat bitlen) with (8 * Z.to_nat n + Z.to_nat r)%nat by lia.
  by rewrite <- take_take_drop, take_bits_whole, drop_bits_whole.
Qed.
End Table.

(** ** Polynomials over two elements

    A polynomial is the number of its coefficients.  [gmul q g]: the product of the polynomial with the
    coefficients [q], the highest first, and [g]. *)
Definition gpoly (exponents : list Z) : Z := foldr (fun i acc => Z.lxor (2 ^ i) acc) 0 exponents.
Definition gmul (q : list bool) (g : Z) : Z := foldl (fun (acc : Z) (b : bool) => Z.lxor (Z.shiftl acc 1) (if b then g else 0)) 0 q.

Lemma gmul_shiftl q g n : 0 <= n -> gmul q (Z.shiftl g n) = Z.shiftl (gmul q g) n.
Proof.
  intros Hn. induction q as [|b q IH] using rev_ind; [by rewrite Z.shiftl_0_l|]. unfold gmul in *. rewrite !foldl_app. cbn [foldl].
  rewrite IH, Z.shiftl_lxor. f_equal; [rewrite !Z.shiftl_shiftl by lia; f_equal; lia | destruct b; [done | by rewrite Z.shiftl_0_l]].
Qed.
Lemma crc_of_remainder poly bs : 0 <= poly < 2 ^ 32 ->
  exists q, Z.lxor (Z.shiftl (val_of bs) 32) (crc_of poly bs) = gmul q (Z.lxor (2 ^ 32) poly).
Proof.
  intros Hp. induction bs as [|b bs [q IH]] using rev_ind; [by exists ([] : list bool)|].
  exists (q ++ [xorb (Z.testbit (crc_of poly bs) 31) b]). unfold gmul in *. rewrite foldl_app. cbn [foldl]. rewrite <- IH.
  unfold crc_of at 1. rewrite crc_run_app. fold (crc_of poly bs). unfold crc_run. cbn [foldl].
  pose proof (crc_run_word poly Hp bs 0 ltac:(lia)) as Hc. fold (crc_of poly bs) in Hc. set (c := crc_of poly bs) in *. clearbody c.
  rewrite val_of_app. change (val_of [b]) with (0 + b2z b). change (2 ^ Z.of_nat (length [b])) with 2. set (v := val_of bs). clearbody v.
  rewrite Z.shiftl_lxor, Z.shiftl_shiftl by lia. change (32 + 1) with 33.
  apply Z.bits_inj'. intros i Hi. rewrite !Z.lxor_spec, !Z.shiftl_spec by lia.
  assert (Hstep : Z.testbit (crc_step poly c b) i =
    xorb ((i <? 32) && Z.testbit c (i - 1)) (xorb (Z.testbit c 31) b && Z.testbit poly i)).
  { unfold crc_step. destruct (xorb _ b); rewrite ?Z.lxor_spec, testbit_shiftl_u32 by done; cbn [andb]; by rewrite ?xorb_false_r. }
  rewrite Hstep.
  assert (Hg : Z.testbit (if xorb (Z.testbit c 31) b then Z.lxor (2 ^ 32) poly else 0) i =
    xorb (Z.testbit c 31) b && xorb (i =? 32) (Z.testbit poly i)).
  { destruct (xorb _ b); [|by rewrite Z.bits_0]. rewrite Z.lxor_spec, Z.pow2_bits_eqb by lia. by rewrite (Z.eqb_sym 32 i). }
  rewrite Hg. replace (v * 2 + (0 + b2z b)) with (2 * v + Z.b2z b) by (change (Z.b2z b) with (b2z b); lia).
  destruct (Z.lt_trichotomy i 32) as [H | [-> | H]].
  - rewrite (proj2 (Z.ltb_lt _ _)), (proj2 (Z.eqb_neq i 32)) by lia. rewrite (Z.testbit_neg_r _ (i - 32)), (Z.testbit_neg_r _ (i - 33)) by lia.
    cbn [andb xorb]. by destruct (Z.testbit c (i - 1)), (Z.testbit c 31), b, (Z.testbit poly i).
  - rewrite (u32_bound poly Hp) by lia. change (32 - 32) with 0. change (32 - 33) with (-1). change (32 - 1) with 31.
    rewrite (Z.testbit_neg_r v) by lia. rewrite Z.testbit_0_r.
    change (32 <? 32) with false. change (32 =? 32) with true. by destruct (Z.testbit c 31), b.
  - rewrite (proj2 (Z.ltb_ge _ _)), (proj2 (Z.eqb_neq i 32)), (u32_bound poly Hp), (u32_bound c Hc) by lia.
    replace (i - 32) with (Z.succ (i - 33)) by lia. rewrite Z.testbit_succ_r by lia.
    cbn [andb xorb]. rewrite andb_false_r, !xorb_false_r. done.
Qed.

(** ** Errors *)
Section Errors.
Context (poly low : Z) (Hpoly : 0 <= poly < 2 ^ 32) (Hlow : 0 <= low < 32) (Hdiv : (2 ^ low | poly)) (Hbit : Z.testbit poly low = true).

(** The register is zero after no more bits than the check has only when it held them. *)
Lemma crc_run_zero bs : Z.of_nat (length bs) <= 32 - low -> forall crc, 0 <= crc < 2 ^ 32 -> (2 ^ low | crc) ->
  crc_run poly crc bs = 0 -> crc = Z.shiftl (val_of bs) (32 - Z.of_nat (length bs)).
Proof using Hpoly Hlow Hdiv Hbit.
  induction bs as [|b bs IH]; intros Hl crc Hc Hcl H0; [done|]. cbn [length] in *.
  change (crc_run poly (crc_step poly crc b) bs = 0) in H0.
  apply IH in H0; [|lia | by apply crc_step_word | by eapply crc_step_low].
  pose proof (val_of_bound bs) as Hv. set (v := val_of bs) in *. set (n := Z.of_nat (length bs)) in *.
  assert (Hz : Z.testbit (crc_step poly crc b) low = false) by (rewrite H0, Z.shiftl_spec, Z.testbit_neg_r by lia; done).
  assert (Hu : Z.testbit (u32 (Z.shiftl crc 1)) low = false).
  { rewrite testbit_shiftl_u32 by lia. destruct (Z.leb_spec 1 low); [|rewrite Z.testbit_neg_r by lia; apply andb_false_r].
    rewrite (proj1 (low_zero low Hlow crc) Hcl) by lia. apply andb_false_r. }
  unfold crc_step in H0, Hz. destruct (xorb (Z.testbit crc 31) b) eqn:Ex; [by rewrite Z.lxor_spec, Hu, Hbit in Hz|].
  rewrite val_of_cons. fold v n. replace (32 - Z.of_nat (S (length bs))) with (31 - n) by lia.
  assert (Eb : Z.testbit crc 31 = b) by (by destruct (Z.testbit crc 31), b).
  rewrite Z.shiftl_mul_pow2 in H0 |- * by lia. rewrite Z.mul_add_distr_r, <- Z.mul_assoc, <- Z.pow_add_r by lia.
  replace (n + (31 - n)) with 31 by lia. unfold u32, wrapu in H0. rewrite Z.shiftl_mul_pow2 in H0 by lia.
  pose proof (Z.testbit_spec' crc 31 ltac:(lia)) as Hs. rewrite Eb in Hs. change (Z.b2z b) with (b2z b) in Hs.
  rewrite Z.mod_small in Hs by (split; [apply Z.div_pos; lia | apply Z.div_lt_upper_bound; lia]).
  assert (E2 : 2 ^ (32 - n) = 2 * 2 ^ (31 - n)) by (rewrite <- Z.pow_succ_r by lia; f_equal; lia). rewrite E2 in H0.
  change (2 ^ 32) with (2 * 2 ^ 31) in *. rewrite (Z.mul_comm crc (2 ^ 1)), Z.mul_mod_distr_l in H0 by lia.
  pose proof (Z.div_mod crc (2 ^ 31) ltac:(lia)). lia.
Qed.
Lemma crc_run_silence n crc : 0 < 32 - low -> 0 <= crc < 2 ^ 32 -> (2 ^ low | crc) -> crc_run poly crc (replicate n false) = 0 -> crc = 0.
Proof using Hpoly Hlow Hdiv Hbit.
  intros Hw. revert crc. induction n as [|n IH]; intros crc Hc Hcl H0; [done|].
  change (crc_run poly (crc_step poly crc false) (replicate n false) = 0) in H0.
  apply IH in H0; [|by apply crc_step_word | by eapply crc_step_low].
  by apply (crc_run_zero [false]) in H0; [|cbn; lia | |].
Qed.
(** Parity bits bring the register to zero exactly when they are those of the message. *)
Lemma crc_run_match (w : nat) p crc : Z.of_nat w = 32 - low -> (0 < w)%nat -> 0 <= p < 2 ^ Z.of_nat w -> 0 <= crc < 2 ^ 32 -> (2 ^ low | crc) ->
  crc_run poly crc (bits_of w p) = 0 <-> crc = Z.shiftl p low.
Proof using Hpoly Hlow Hdiv Hbit.
  intros Hw Hw0 Hp Hc Hcl. split.
  - intros H. apply crc_run_zero in H; [|rewrite length_bits_of; lia | done | done].
    rewrite length_bits_of, val_of_bits_of, Z.mod_small in H by lia. rewrite H. f_equal. lia.
  - intros ->. pose proof (crc_run_own poly w ltac:(lia) (Z.shiftl p low)) as H.
    replace (32 - Z.of_nat w) with low in H by lia. rewrite Z.shiftr_shiftl_l, Z.sub_diag, Z.shiftl_0_r in H by lia.
    rewrite H, (proj2 (Nat.eqb_neq w 0)) by lia. rewrite Z.shiftl_shiftl by lia. replace (low + Z.of_nat w) with 32 by lia.
    unfold u32, wrapu. rewrite Z.shiftl_mul_pow2 by lia. apply Z.mod_mul. lia.
Qed.
(** A burst. *)
Lemma crc_burst i j burst : Z.of_nat (length burst) <= 32 - low -> 0 < 32 - low ->
  crc_of poly (replicate i false ++ burst ++ replicate j false) = 0 -> burst = replicate (length burst) false.
Proof using Hpoly Hlow Hdiv Hbit.
  intros Hl Hw H. rewrite crc_of_zeros in H. unfold crc_of in H. rewrite crc_run_app in H.
  apply crc_run_silence in H; [|done | by apply crc_run_word | apply crc_run_low; try done; apply Z.divide_0_r].
  apply crc_run_zero in H; [|done | lia | apply Z.divide_0_r].
  rewrite Z.shiftl_mul_pow2 in H by lia. pose proof (Z.pow_pos_nonneg 2 (32 - Z.of_nat (length burst))).
  assert (Hv : val_of burst = 0) by nia. rewrite <- (bits_of_val_of burst) at 1. rewrite Hv. symmetry. apply replicate_bits_of.
Qed.
End Errors.

(** ** The five checks *)
Inductive crc_kind := Crc24a | Crc24b | Crc16 | Crc12 | Crc8.
Definition crc_fun (k : crc_kind) : crc_tables -> list Z -> Z -> Z -> res Z :=
  match k with Crc24a => crc24a | Crc24b => crc24b | Crc16 => crc16 | Crc12 => crc12 | Crc8 => crc8 end.
Definition crc_poly (k : crc_kind) : Z :=
  match k with Crc24a => poly24a | Crc24b => poly24b | Crc16 => poly16 | Crc12 => poly12 | Crc8 => poly8 end.
Definition crc_width (k : crc_kind) : Z := match k with Crc24a | Crc24b => 24 | Crc16 => 16 | Crc12 => 12 | Crc8 => 8 end.
(** The generators of TS 36.212 5.1.1; D^12 + D^11 + D^3 + D^2 + D + 1 is that of the source. *)
Definition crc_gen (k : crc_kind) : Z :=
  gpoly match k with
        | Crc24a => [24; 23; 18; 17; 14; 11; 10; 7; 6; 5; 4; 3; 1; 0]
        | Crc24b => [24; 23; 6; 5; 1; 0]
        | Crc16 => [16; 12; 5; 0]
        | Crc12 => [12; 11; 3; 2; 1; 0]
        | Crc8 => [8; 7; 4; 3; 1; 0]
        end.
Lemma crc_poly_word k : 0 <= crc_poly k < 2 ^ 32.
Proof. destruct k; by vm_compute. Qed.
Lemma crc_poly_low k : (2 ^ (32 - crc_width k) | crc_poly k) /\ Z.testbit (crc_poly k) (32 - crc_width k) = true.
Proof. split; [apply Z.mod_divide; [by destruct k|] |]; by destruct k. Qed.
Lemma crc_gen_poly k : Z.shiftl (crc_gen k) (32 - crc_width k) = Z.lxor (2 ^ 32) (crc_poly k).
Proof. by destruct k. Qed.
Lemma crc_width_range k : 8 <= crc_width k <= 24.
Proof. destruct k; cbn; lia. Qed.

(** The bits that a check covers. *)
Definition crc_bits (mem : list Z) (inptr bitlen : Z) : list bool := take (Z.to_nat bitlen) (drop (8 * Z.to_nat inptr) (bits mem)).
Lemma crc_fun_spec k T mem inptr bitlen : crcTableInit = Ok T -> Forall is_byte mem -> 0 <= inptr -> 0 <= bitlen ->
  8 * inptr + bitlen <= 8 * Z.of_nat (length mem) -> crc_fun k T mem inptr bitlen = Ok (crc_of (crc_poly k) (crc_bits mem inptr bitlen)).
Proof.
  intros HT Hb Hp Hl Hm. destruct (tables_ok T HT) as (Ha & Hbt & H16 & H12 & H8).
  pose proof (crc_poly_word k) as Hw. destruct (crc_poly_low k) as [Hd _]. pose proof (crc_width_range k) as Hr.
  assert (Hsmall : forall t, 0 <= t < 2 ^ 32 -> u32 (Z.shiftl t 0) = t) by (intros t Ht; rewrite Z.shiftl_0_r; by apply wrapu_small).
  assert (Hlo : 0 <= 32 - crc_width k < 32) by lia. clear Hr.
  unfold crc_bits.
  destruct k; unfold crc_fun, crc24a, crc24b, crc16, crc12, crc8;
    [ apply (crc_table_spec _ 0 _ _ _ Hw Hlo Hd Ha) | apply (crc_table_spec _ 0 _ _ _ Hw Hlo Hd Hbt)
    | apply (crc_table_spec _ 16 _ _ _ Hw Hlo Hd H16) | apply (crc_table_spec _ 16 _ _ _ Hw Hlo Hd H12)
    | apply (crc_table_spec _ 24 _ _ _ Hw Hlo Hd H8) ]; try assumption.
  - intros crc t _ _ Ht. by rewrite Hsmall.
  - intros crc t _ _ Ht. by rewrite Hsmall.
  - reflexivity.
  - reflexivity.
  - intros crc t _ [q ->] _. change (32 - crc_width Crc8) with 24.
    assert (u32 (Z.shiftl (q * 2 ^ 24) 8) = 0) as ->; [|by rewrite Z.lxor_0_l].
    rewrite Z.shiftl_mul_pow2, <- Z.mul_assoc by lia. unfold u32, wrapu. change (2 ^ 24 * 2 ^ 8) with (2 ^ 32). apply Z.mod_mul. lia.
Qed.
Lemma crcbit_loop_spec poly mem n : 0 <= poly < 2 ^ 32 -> Forall is_byte mem -> forall inputptr crc, 0 <= inputptr ->
  inputptr + Z.of_nat n <= Z.of_nat (length mem) ->
  crcbit_loop mem inputptr n poly crc = Ok (crc_run poly crc (bits (take n (drop (Z.to_nat inputptr) mem)))).
Proof.
  intros Hpoly Hb. induction n as [|n IH]; intros p crc Hp Hn; [done|]. cbn [crcbit_loop].
  destruct (array_get_ok mem p) as (b & E & Hbl); [lia|]. rewrite E. cbn [mbind res_bind].
  rewrite crcbit_octet by (by eapply Forall_lookup_1). rewrite IH by lia.
  rewrite (drop_S mem b (Z.to_nat p) Hbl). cbn [take]. rewrite bits_cons, crc_run_app. do 5 f_equal. lia.
Qed.
Lemma crc_of_low k bs : exists p, crc_of (crc_poly k) bs = Z.shiftl p (32 - crc_width k) /\ 0 <= p < 2 ^ crc_width k.
Proof.
  pose proof (crc_width_range k). destruct (crc_poly_low k) as [Hd _].
  destruct (crc_run_low (crc_poly k) (32 - crc_width k) ltac:(lia) Hd bs 0 (Z.divide_0_r _)) as [p Hp].
  pose proof (crc_run_word (crc_poly k) (crc_poly_word k) bs 0 ltac:(lia)) as Hw. fold (crc_of (crc_poly k) bs) in Hp, Hw.
  exists p. rewrite Z.shiftl_mul_pow2 by lia. split; [done|]. rewrite Hp in Hw.
  assert (2 ^ 32 = 2 ^ crc_width k * 2 ^ (32 - crc_width k)) as E32 by (rewrite <- Z.pow_add_r by lia; f_equal; lia).
  rewrite E32 in Hw. pose proof (Z.pow_pos_nonneg 2 (32 - crc_width k)). nia.
Qed.

(** C13: Each table-driven check (24A, 24B, 16, 12, 8) of [bitlen] bits of a buffer is the
    remainder, by the generator of the source, of the message multiplied by D^w: the
    message with these parity bits behind it is a multiple of the generator. This holds
    from any byte of the buffer and for numbers of bits that are no multiple of 8, within
    the buffer; for whole octets the bit-by-bit function gives the same. *)
Theorem crc_remainder k T mem inptr bitlen :
  crcTableInit = Ok T -> Forall is_byte mem -> 0 <= inptr -> 0 <= bitlen -> 8 * inptr + bitlen <= 8 * Z.of_nat (length mem) ->
  (exists p q, crc_fun k T mem inptr bitlen = Ok (Z.shiftl p (32 - crc_width k)) /\ 0 <= p < 2 ^ crc_width k /\
     Z.lxor (Z.shiftl (val_of (crc_bits mem inptr bitlen)) (crc_width k)) p = gmul q (crc_gen k)) /\
  (bitlen mod 8 = 0 -> crcbit mem inptr (bitlen / 8) (crc_poly k) = crc_fun k T mem inptr bitlen).
Proof.
  intros HT Hb Hp Hl Hm. rewrite (crc_fun_spec k T) by done. set (bs := crc_bits mem inptr bitlen). pose proof (crc_width_range k) as Hw.
  split.
  - destruct (crc_of_low k bs) as (p & E & Hpr). destruct (crc_of_remainder (crc_poly k) bs (crc_poly_word k)) as [q Hq].
    exists p, q. split; [by rewrite E|]. split; [done|]. rewrite E, <- crc_gen_poly, gmul_shiftl in Hq by lia.
    replace 32 with (crc_width k + (32 - crc_width k)) in Hq at 1 by lia.
    rewrite <- Z.shiftl_shiftl, <- Z.shiftl_lxor, !Z.shiftl_mul_pow2 in Hq by lia.
    apply Z.mul_cancel_r in Hq; [|apply Z.pow_nonzero; lia]. by rewrite Z.shiftl_mul_pow2 by lia.
  - intros H8. unfold crcbit. rewrite crcbit_loop_spec; [| apply crc_poly_word | done | done | pose proof (Z.div_mod bitlen 8); lia].
    unfold crc_of, bs, crc_bits. rewrite drop_bits_whole.
    replace (Z.to_nat bitlen) with (8 * Z.to_nat (bitlen / 8))%nat by (pose proof (Z.div_mod bitlen 8); pose proof (Z.div_pos bitlen 8); lia).
    by rewrite take_bits_whole.
Qed.

(** The octets of a number, the most significant first. *)
Fixpoint be_bytes (n : nat) (p : Z) : list Z :=
  match n with
  | O => []
  | S n => u8 (Z.shiftr p (8 * Z.of_nat n)) :: be_bytes n p
  end.
Lemma length_be_bytes n p : length (be_bytes n p) = n.
Proof. induction n as [|n IH]; [done|]. cbn. by rewrite IH. Qed.
Lemma be_bytes_byte n p : Forall is_byte (be_bytes n p).
Proof. induction n as [|n IH]; [done|]. constructor; [|done]. apply (wrapu_range 8). lia. Qed.
Lemma bits_be_bytes n p : bits (be_bytes n p) = bits_of (8 * n) p.
Proof.
  induction n as [|n IH]; [done|]. cbn [be_bytes]. rewrite bits_cons, IH. replace (8 * S n)%nat with (8 + 8 * n)%nat by lia.
  rewrite bits_of_app. f_equal. apply bits_of_mod. unfold u8, wrapu. rewrite Z.mod_mod by lia. do 2 f_equal. lia.
Qed.
Lemma crc_bits_all mem : crc_bits mem 0 (8 * Z.of_nat (length mem)) = bits mem.
Proof. unfold crc_bits. change (Z.to_nat 0) with 0%nat. rewrite drop_0. apply take_ge. rewrite length_bits. lia. Qed.
(** A message with parity bits behind it: the check is zero exactly when they are its own. *)
Lemma crc_whole k T data p : crcTableInit = Ok T -> crc_width k mod 8 = 0 -> Forall is_byte data -> 0 <= p < 2 ^ crc_width k ->
  let whole := data ++ be_bytes (Z.to_nat (crc_width k / 8)) p in
  exists c, crc_fun k T whole 0 (8 * Z.of_nat (length whole)) = Ok c /\
    (c = 0 <-> crc_fun k T data 0 (8 * Z.of_nat (length data)) = Ok (Z.shiftl p (32 - crc_width k))).
Proof.
  intros HT H8 Hb Hp. cbn zeta. pose proof (crc_width_range k) as Hw. set (n := Z.to_nat (crc_width k / 8)).
  assert (Hn : (8 * n)%nat = Z.to_nat (crc_width k)) by (pose proof (Z.div_mod (crc_width k) 8); pose proof (Z.div_pos (crc_width k) 8); lia).
  assert (Hwb : Forall is_byte (data ++ be_bytes n p)) by (apply Forall_app; split; [done | apply be_bytes_byte]).
  rewrite !crc_fun_spec by (done || lia).
  rewrite !crc_bits_all, bits_app, bits_be_bytes, Hn. unfold crc_of. rewrite crc_run_app.
  eexists. split; [reflexivity|]. destruct (crc_poly_low k) as [Hd Hbit].
  rewrite (crc_run_match (crc_poly k) (32 - crc_width k) (crc_poly_word k) ltac:(lia) Hd Hbit (Z.to_nat (crc_width k)) p);
    [ split; [by intros -> | by intros [= ->]] | lia | lia | rewrite Z2Nat.id; lia
    | apply (crc_run_word _ (crc_poly_word k)); lia | apply crc_run_low; try done; [lia | apply Z.divide_0_r] ].
Qed.

(** C14: What the checks of 8, 16 and 24 bits find. The message with its parity octets
    behind it has the check 0, and a block of the same length that differs from it by one
    burst of errors - any error in a run of bits no longer than the check, a single bit
    for one - has another check. (The check of 12 bits is not of whole octets.) *)
Theorem crc_detects k T data p recv (i : nat) burst :
  crcTableInit = Ok T -> crc_width k mod 8 = 0 -> Forall is_byte data -> 0 <= p < 2 ^ crc_width k ->
  crc_fun k T data 0 (8 * Z.of_nat (length data)) = Ok (Z.shiftl p (32 - crc_width k)) ->
  let sent := data ++ be_bytes (Z.to_nat (crc_width k / 8)) p in
  Forall is_byte recv -> length recv = length sent ->
  Z.of_nat (length burst) <= crc_width k -> (i + length burst <= 8 * length sent)%nat -> true ∈ burst ->
  bits recv = zip_with xorb (bits sent) (replicate i false ++ burst ++ replicate (8 * length sent - i - length burst) false) ->
  crc_fun k T sent 0 (8 * Z.of_nat (length sent)) = Ok 0 /\
  exists c, crc_fun k T recv 0 (8 * Z.of_nat (length recv)) = Ok c /\ c <> 0.
Proof.
  intros HT H8 Hb Hp Hdata sent Hrb Hl Hburst Hi Htrue Hrecv. pose proof (crc_width_range k) as Hw. destruct (crc_poly_low k) as [Hd Hbit].
  destruct (crc_whole k T data p HT H8 Hb Hp) as (c & E & Hc). fold sent in E. rewrite (proj2 Hc Hdata) in E.
  split; [exact E|]. assert (Hsb : Forall is_byte sent) by (apply Forall_app; split; [done | apply be_bytes_byte]).
  rewrite crc_fun_spec, crc_bits_all in E |- * by (done || lia). injection E as E. eexists. split; [reflexivity|]. rewrite Hrecv.
  unfold crc_of in *. rewrite <- (Z.lxor_0_l 0) at 1. rewrite crc_run_lxor, E, Z.lxor_0_l
    by (rewrite !length_app, !length_replicate, length_bits; lia).
  intros H0. apply (crc_burst (crc_poly k) (32 - crc_width k) (crc_poly_word k)) in H0; [|lia | done | done | lia | lia].
  rewrite H0, elem_of_replicate in Htrue. by destruct Htrue as [Htrue _].
Qed.

Lemma sample_bytes : Forall is_byte [49; 50; 51; 52; 53].
Proof. repeat constructor; unfold is_byte; lia. Qed.
Lemma crc_remainder_witness : exists T p q, crcTableInit = Ok T /\
  crc_fun Crc24a T [49; 50; 51; 52; 53] 1 27 = Ok (Z.shiftl p 8) /\ Z.lxor (Z.shiftl (val_of (crc_bits [49; 50; 51; 52; 53] 1 27)) 24) p = gmul q (crc_gen Crc24a).
Proof.
  destruct crcTableInit as [T|] eqn:HT; [|by rewrite crcTableInit_eq in HT].
  destruct (crc_remainder Crc24a T [49; 50; 51; 52; 53] 1 27 HT sample_bytes) as [(p & q & H1 & _ & H2) _]; [lia | lia | cbn; lia|].
  exists T, p, q. split; [reflexivity|]. split; [exact H1 | exact H2].
Defined.
(** Two of the bits of a block of five octets and its CRC16 are received wrong. *)
Lemma crc_detects_witness : exists T c, crcTableInit = Ok T /\ crc_fun Crc16 T [49; 50; 51; 52; 53] 0 40 = Ok (Z.shiftl 21612 16) /\
  crc_fun Crc16 T ([49; 50; 51; 52; 53] ++ be_bytes 2 21612) 0 56 = Ok 0 /\
  crc_fun Crc16 T ([48; 178; 51; 52; 53] ++ be_bytes 2 21612) 0 56 = Ok c /\ c <> 0.
Proof.
  destruct initial_tables as [T|] eqn:ET; [|discriminate ET].
  assert (HT : crcTableInit = Ok T) by (rewrite crcTableInit_eq; exact ET).
  assert (H1 : crc_fun Crc16 T [49; 50; 51; 52; 53] 0 40 = Ok (Z.shiftl 21612 16)) by (injection ET as <-; vm_compute; reflexivity).
  destruct (crc_detects Crc16 T [49; 50; 51; 52; 53] 21612 ([48; 178; 51; 52; 53] ++ be_bytes 2 21612) 7 [true; true] HT)
    as (Hs & c & Hr & Hc);
    [ reflexivity | exact sample_bytes | vm_compute; split; [discriminate | reflexivity] | exact H1 | | reflexivity
    | discriminate | vm_compute; lia | left | vm_compute; reflexivity | ].
  - apply Forall_app. split; [repeat constructor; unfold is_byte; lia | apply be_bytes_byte].
  - exists T, c. split; [exact HT|]. split; [exact H1|]. split; [exact Hs|]. split; [exact Hr | exact Hc].
Defined.
