(* ===== verification/PhySegmentation.v ===== *)
(** * Segmentation of transport blocks (openair1/PHY/CODING/lte_segmentation.c)

    A transport block with its CRC24A is cut into code blocks of sizes that the turbo code has, each with its
    own CRC24B when there are several.  The definitions follow the function, parts of its body having names of
    their own; the theorem is about the sizes it finds. *)

From S2P Require Import Prelude Bits PhyCrc.

Definition MAX_NUM_DLSCH_SEGMENTS : Z := 16.

(** What [lte_segmentation] writes through its pointers. *)
Record seg_info := Mk_seg { seg_C : Z; seg_Cplus : Z; seg_Cminus : Z; seg_Kplus : Z; seg_Kminus : Z; seg_F : Z }.
#[export] Instance eta_seg : Eta seg_info := fun s =>
  Mk_seg (seg_C s) (seg_Cplus s) (seg_Cminus s) (seg_Kplus s) (seg_Kminus s) (seg_F s).

(** [L], [Bprime] and the number of blocks. *)
Definition seg_count (B : Z) (s : seg_info) : Z * Z * seg_info :=
  if B <=? 6144 then (0, B, s <| seg_C := 1 |>)
  else
    let L := 24 in
    let C := B / (6144 - L) in
    let C := if u32 ((6144 - L) * C) <? B then C + 1 else C in
    (L, u32 (B + C * L), s <| seg_C := C |>).

(** The sizes of the two kinds of blocks; [None]: no size is large enough. *)
Definition seg_sizes (Bprime_by_C : Z) (s : seg_info) : option seg_info :=
  let round n step :=
    let Kplus := Z.shiftl (Z.shiftr Bprime_by_C n) n in
    let Kplus := if Kplus <? Bprime_by_C then Kplus + step else Kplus in
    s <| seg_Kplus := Kplus |> <| seg_Kminus := u32 (Kplus - step) |> in
  if Bprime_by_C <=? 40 then Some (s <| seg_Kplus := 40 |> <| seg_Kminus := 0 |>)
  else if Bprime_by_C <=? 512 then
    Some (s <| seg_Kplus := Z.shiftl (Z.shiftr Bprime_by_C 3) 3 |> <| seg_Kminus := u32 (Bprime_by_C - 8) |>)
  else if Bprime_by_C <=? 1024 then Some (round 4 16)
  else if Bprime_by_C <=? 2048 then Some (round 5 32)
  else if Bprime_by_C <=? 6144 then Some (round 6 64)
  else None.
(** How many blocks of each kind, and the filler bits. *)
Definition seg_split (Bprime : Z) (s : seg_info) : seg_info :=
  let s :=
    if seg_C s =? 1 then s <| seg_Cplus := seg_C s |> <| seg_Kminus := 0 |> <| seg_Cminus := 0 |>
    else
      let Cminus := u32 (seg_C s * seg_Kplus s - Bprime) / u32 (seg_Kplus s - seg_Kminus s) in
      s <| seg_Cminus := Cminus |> <| seg_Cplus := u32 (seg_C s - Cminus) |> in
  s <| seg_F := u32 (seg_Cplus s * seg_Kplus s + seg_Cminus s * seg_Kminus s - Bprime) |>.
Definition seg_size (s : seg_info) (r : Z) : Z := if r <? seg_Cminus s then seg_Kminus s else seg_Kplus s.

(** [output_buffers[r][k] = v]. *)
Definition buffer_set (bufs : list (list Z)) (r k v : Z) : res (list (list Z)) :=
  b ← array_get bufs r;
  b ← array_set b k v;
  array_set bufs r b.
(** The filler bytes, then the bytes of a block, then its CRC. *)
Fixpoint seg_fill (n : nat) (k : Z) (bufs : list (list Z)) : res (Z * list (list Z)) :=
  match n with
  | O => Ok (k, bufs)
  | S n => bufs ← buffer_set bufs 0 k 0; seg_fill n (k + 1) bufs
  end.
Fixpoint seg_copy (fuel : nat) (input : list Z) (r limit k s : Z) (bufs : list (list Z)) : res (Z * list (list Z)) :=
  if negb (k <? limit) then Ok (s, bufs) else
  match fuel with
  | O => Err OutOfFuel
  | S fuel =>
      v ← array_get input s;
      bufs ← buffer_set bufs r k v;
      seg_copy fuel input r limit (k + 1) (s + 1) bufs
  end.
Definition put_crc (crc at_ : Z) (b : list Z) : res (list Z) :=
  b ← array_set b at_ (Z.land (Z.shiftr crc 16) 255);
  b ← array_set b (1 + at_) (Z.land (Z.shiftr crc 8) 255);
  array_set b (2 + at_) (Z.land crc 255).
Definition seg_crc (T : crc_tables) (r Kr : Z) (bufs : list (list Z)) : res (list (list Z)) :=
  b ← array_get bufs r;
  crc ← crc24b T b 0 (i32 (Kr - 24));
  b ← put_crc (Z.shiftr crc 8) (Z.shiftr (u32 (Kr - 24)) 3) b;
  array_set bufs r b.
Fixpoint seg_loop (T : crc_tables) (input : list Z) (L : Z) (i : seg_info) (n : nat) (r k s : Z) (bufs : list (list Z))
  : res (list (list Z)) :=
  match n with
  | O => Ok bufs
  | S n =>
      let Kr := seg_size i r in
      let limit := Z.shiftr (u32 (Kr - L)) 3 in
      '(s, bufs) ← seg_copy (Z.to_nat limit) input r limit k s bufs;
      bufs ← (if seg_C i >? 1 then seg_crc T r Kr bufs else Ok bufs);
      seg_loop T input L i n (r + 1) 0 s bufs
  end.
(** The buffers are given by the encoder; the decoder passes NULL and wants the sizes only. *)
Definition lte_segmentation (T : crc_tables) (buffers : option (list Z * list (list Z))) (B : Z) (i : seg_info)
  : res (Z * seg_info * option (list (list Z))) :=
  let '(L, Bprime, i) := seg_count B i in
  if seg_C i >? MAX_NUM_DLSCH_SEGMENTS then Ok (-1, i, snd <$> buffers)
  else
    match seg_sizes (Bprime / seg_C i) i with
    | None => Ok (-1, i, snd <$> buffers)
    | Some i =>
        let i := seg_split Bprime i in
        match buffers with
        | None => Ok (0, i, None)
        | Some (input, bufs) =>
            '(k, bufs) ← seg_fill (Z.to_nat (Z.shiftr (seg_F i) 3)) 0 bufs;
            bufs ← seg_loop T input L i (Z.to_nat (seg_C i)) 0 k 0 bufs;
            Ok (0, i, Some bufs)
        end
    end.

(** ** Sizes *)
Definition blocks (B : Z) : Z := if B <=? 6144 then 1 else (B + 6119) / 6120.
Definition total (B : Z) : Z := if B <=? 6144 then B else B + 24 * blocks B.
Definition overhead (B : Z) : Z := if B <=? 6144 then 0 else 24.
(** The sizes of table 5.1.3-3 of TS 36.212. *)
Definition turbo_size (K : Z) : Prop :=
  40 <= K <= 512 /\ K mod 8 = 0 \/ 512 <= K <= 1024 /\ K mod 16 = 0 \/ 1024 <= K <= 2048 /\ K mod 32 = 0 \/ 2048 <= K <= 6144 /\ K mod 64 = 0.
Lemma turbo_size_range K : turbo_size K -> 40 <= K <= 6144 /\ K mod 8 = 0.
Proof. unfold turbo_size. mod_lia. Qed.
(** The case the code does not handle: the quotient is a size, but not the exact one. *)
Definition splittable (B : Z) : Prop := (total B / blocks B) mod 64 = 0 -> total B mod blocks B = 0.
Definition well_split (B : Z) (i : seg_info) : Prop :=
  seg_C i = blocks B /\ seg_Cplus i + seg_Cminus i = blocks B /\ 0 <= seg_Cminus i < blocks B /\
  turbo_size (seg_Kplus i) /\ (1 < blocks B -> turbo_size (seg_Kminus i) /\ seg_Kminus i = seg_Kplus i - 64) /\
  (blocks B = 1 -> seg_Cminus i = 0) /\ (forall K, turbo_size K -> total B <= blocks B * K -> seg_Kplus i <= K) /\
  seg_Cplus i * seg_Kplus i + seg_Cminus i * seg_Kminus i = total B + seg_F i /\ 0 <= seg_F i < 64 /\ seg_F i mod 8 = 0.

Lemma blocks_range B : 6144 < B -> blocks B <= 16 ->
  2 <= blocks B /\ 6120 * (blocks B - 1) < B <= 6120 * blocks B /\ 3000 < total B / blocks B <= 6144.
Proof.
  intros HB H16. unfold total. rewrite (proj2 (Z.leb_gt B 6144)) by lia. unfold blocks in *. rewrite (proj2 (Z.leb_gt B 6144)) in * by lia.
  set (c := (B + 6119) / 6120) in *. pose proof (Z.div_mod (B + 6119) 6120 ltac:(lia)) as Hd. fold c in Hd.
  pose proof (Z.mod_pos_bound (B + 6119) 6120 ltac:(lia)). assert (2 <= c) by lia. split; [done|]. split; [lia|]. split.
  - assert (3001 <= (B + 24 * c) / c); [|lia]. apply Z.div_le_lower_bound; lia.
  - apply Z.div_le_upper_bound; lia.
Qed.
Lemma seg_count_spec B i : 0 < B -> blocks B <= 16 -> seg_count B i = (overhead B, total B, i <| seg_C := blocks B |>).
Proof.
  intros HB H16. unfold seg_count, overhead, total. destruct (Z.leb_spec B 6144) as [H | H].
  - unfold blocks. by rewrite (proj2 (Z.leb_le _ _)) by lia.
  - destruct (blocks_range B H H16) as (H2 & Hb & _). change (6144 - 24) with 6120.
    pose proof (Z.div_mod B 6120 ltac:(lia)) as Hd. pose proof (Z.mod_pos_bound B 6120 ltac:(lia)) as Hm.
    unfold u32. rewrite (wrapu_small 32 (6120 * _)) by lia.
    assert ((if 6120 * (B / 6120) <? B then B / 6120 + 1 else B / 6120) = blocks B) as ->.
    { destruct (Z.ltb_spec (6120 * (B / 6120)) B); lia. }
    rewrite wrapu_small by lia. do 3 f_equal. lia.
Qed.

Lemma shift_down x n : 0 <= n -> Z.shiftl (Z.shiftr x n) n = 2 ^ n * (x / 2 ^ n).
Proof. intros Hn. rewrite Z.shiftl_mul_pow2, Z.shiftr_div_pow2 by done. lia. Qed.
(** One block. *)
Lemma seg_sizes_one B i : 0 < B <= 6144 -> B mod 8 = 0 -> seg_C i = 1 ->
  exists i', seg_sizes (B / 1) i = Some i' /\ well_split B (seg_split B i').
Proof.
  intros HB H8 HC. rewrite Z.div_1_r. unfold seg_sizes. rewrite (proj2 (Z.leb_le B 6144)) by lia.
  rewrite !shift_down by lia. change (2 ^ 3) with 8. change (2 ^ 4) with 16. change (2 ^ 5) with 32. change (2 ^ 6) with 64.
  assert (Hone : forall i', seg_C i' = 1 -> B <= seg_Kplus i' < B + 64 -> seg_Kplus i' mod 8 = 0 -> turbo_size (seg_Kplus i') ->
    (forall K, turbo_size K -> B <= K -> seg_Kplus i' <= K) -> exists i2, Some i' = Some i2 /\ well_split B (seg_split B i2)).
  { intros i' HC' HK HK8 Ht Hmin. exists i'. split; [done|]. unfold well_split, blocks, total, seg_split.
    rewrite (proj2 (Z.leb_le B 6144)) by lia. rewrite HC'. destruct i' as [c cp cm kp km f]. cbn in *.
    unfold u32. rewrite wrapu_small by lia. split; [done|]. split; [done|]. split; [lia|]. split; [done|]. split; [lia|]. split; [done|].
    split; [intros K HK' HKB; apply Hmin; [done | lia]|]. split; [lia|]. split; [lia|].
    replace (1 * kp + 0 * 0 - B) with (kp - B) by lia. apply Z.mod_divide; [lia|]. apply Z.divide_sub_r; by apply Z.mod_divide. }
  pose proof (Z.div_mod B 16 ltac:(lia)). pose proof (Z.div_mod B 32 ltac:(lia)). pose proof (Z.div_mod B 64 ltac:(lia)).
  pose proof (Z.mod_pos_bound B 16 ltac:(lia)). pose proof (Z.mod_pos_bound B 32 ltac:(lia)). pose proof (Z.mod_pos_bound B 64 ltac:(lia)).
  pose proof (Z.div_mod B 8 ltac:(lia)). unfold turbo_size in Hone.
  destruct (Z.leb_spec B 40); [apply Hone; destruct i; cbn in *; try (intros K); try done; mod_lia|].
  destruct (Z.leb_spec B 512); [apply Hone; destruct i; cbn in *; try (intros K); try done; mod_lia|].
  destruct (Z.leb_spec B 1024); [apply Hone; destruct i; cbn in *; try (intros K); try done; destruct (Z.ltb_spec (16 * (B / 16)) B); mod_lia|].
  destruct (Z.leb_spec B 2048); [apply Hone; destruct i; cbn in *; try (intros K); try done; destruct (Z.ltb_spec (32 * (B / 32)) B); mod_lia|].
  apply Hone; destruct i; cbn in *; try (intros K); try done; destruct (Z.ltb_spec (64 * (B / 64)) B); mod_lia.
Qed.
(** Several blocks. *)
Lemma seg_sizes_many B i : 6144 < B -> B mod 8 = 0 -> blocks B <= 16 -> splittable B -> seg_C i = blocks B ->
  exists i', seg_sizes (total B / blocks B) i = Some i' /\ well_split B (seg_split (total B) i').
Proof.
  intros HB H8 H16 Hsp HC. destruct (blocks_range B HB H16) as (H2 & Hb & Hq). unfold splittable in Hsp.
  assert (Ht8 : total B mod 8 = 0).
  { unfold total. rewrite (proj2 (Z.leb_gt B 6144)) by lia. mod_lia. }
  assert (Htot : total B <= 6144 * 16) by (unfold total; rewrite (proj2 (Z.leb_gt B 6144)) by lia; lia).
  set (c := blocks B) in *. set (t := total B) in *. set (q := t / c) in *.
  pose proof (Z.div_mod t c ltac:(lia)) as Hd. fold q in Hd. pose proof (Z.mod_pos_bound t c ltac:(lia)) as Hm.
  unfold seg_sizes. rewrite (proj2 (Z.leb_gt q 40)), (proj2 (Z.leb_gt q 512)), (proj2 (Z.leb_gt q 1024)), (proj2 (Z.leb_gt q 2048)), (proj2 (Z.leb_le q 6144)) by lia.
  rewrite shift_down by lia. change (2 ^ 6) with 64. set (K := if 64 * (q / 64) <? q then 64 * (q / 64) + 64 else 64 * (q / 64)).
  pose proof (Z.div_mod q 64 ltac:(lia)) as Hq6. pose proof (Z.mod_pos_bound q 64 ltac:(lia)) as Hq7.
  assert (HK : q <= K < q + 64 /\ K mod 64 = 0 /\ K <= 6144 /\ (K = q -> q mod 64 = 0)).
  { unfold K. destruct (Z.ltb_spec (64 * (q / 64)) q); mod_lia. }
  destruct HK as (HKq & HK64 & HKmax & HKeq).
  assert (Hge : 0 <= c * K - t < 64 * c).
  { destruct (Z.eq_dec K q) as [E | E]; [pose proof (Hsp (HKeq E)); nia | nia]. }
  eexists. split; [reflexivity|]. unfold well_split. fold c t. unfold seg_split. destruct i as [c0 cp cm kp km f]. cbn in HC. subst c0. cbn.
  rewrite (proj2 (Z.eqb_neq c 1)) by lia. cbn. assert (HKm : u32 (K - 64) = K - 64) by (apply wrapu_small; lia). rewrite HKm.
  assert (u32 (K - (K - 64)) = 64) as -> by (replace (K - (K - 64)) with 64 by lia; done).
  assert (u32 (c * K - t) = c * K - t) as -> by (apply wrapu_small; lia).
  set (m := (c * K - t) / 64). pose proof (Z.div_mod (c * K - t) 64 ltac:(lia)) as Hdm. fold m in Hdm. pose proof (Z.mod_pos_bound (c * K - t) 64 ltac:(lia)).
  assert (0 <= m < c) by (split; [apply Z.div_pos; lia | apply Z.div_lt_upper_bound; lia]).
  assert (u32 (c - m) = c - m) as -> by (apply wrapu_small; lia).
  assert (EF : (c - m) * K + m * (K - 64) - t = (c * K - t) mod 64) by nia. rewrite EF.
  assert (u32 ((c * K - t) mod 64) = (c * K - t) mod 64) as -> by (apply wrapu_small; lia).
  split; [done|]. split; [lia|]. split; [lia|].
  split; [|split; [intros _; split; [|done] | split; [lia | split; [|split; [lia | split; [lia|]]]]]].
  - unfold turbo_size. right; right; right. split; [lia | done].
  - unfold turbo_size. right; right; right. split; [lia|]. mod_lia.
  - intros L HL HtL. destruct (Z.le_gt_cases K L) as [|HLK]; [done|]. exfalso. clear Hge Hdm EF.
    assert (HLq : L < q) by (unfold turbo_size in HL; mod_lia). nia.
  - assert (E8 : ((c * K - t) mod 64) mod 8 = (c * K - t) mod 8).
    { symmetry. rewrite (Z.div_mod (c * K - t) 64) at 1 by lia. mod_lia. }
    rewrite E8. apply Z.mod_divide; [lia|]. apply Z.divide_sub_r; [apply Z.divide_mul_r|]; apply Z.mod_divide; mod_lia.
Qed.
Lemma small_splittable B : 0 < B <= 48960 -> B mod 8 = 0 -> splittable B.
Proof.
  intros HB H8. unfold splittable. destruct (Z.le_gt_cases B 6144) as [H | H].
  - intros _. unfold blocks. rewrite (proj2 (Z.leb_le _ _)) by lia. apply Z.mod_1_r.
  - assert (H16 : blocks B <= 8).
    { unfold blocks. rewrite (proj2 (Z.leb_gt _ _)) by lia. assert (H1 : (B + 6119) / 6120 < 9) by (apply Z.div_lt_upper_bound; lia). lia. }
    destruct (blocks_range B H ltac:(lia)) as (H2 & _ & _). unfold total. rewrite (proj2 (Z.leb_gt B 6144)) by lia.
    set (c := blocks B) in *. set (t := B + 24 * c). intros Hq. pose proof (Z.div_mod t c ltac:(lia)) as Hd. pose proof (Z.mod_pos_bound t c ltac:(lia)).
    assert (H8t : t mod 8 = 0) by (unfold t; mod_lia).
    assert (H8r : (t mod c) mod 8 = 0).
    { replace (t mod c) with (t - c * (t / c)) by lia. apply Z.mod_divide; [lia|]. apply Z.divide_sub_r; [by apply Z.mod_divide|].
      apply Z.divide_mul_r. apply Z.mod_divide; [lia|]. mod_lia. }
    mod_lia.
Qed.
Lemma seg_info_spec B i : 0 < B -> B mod 8 = 0 -> blocks B <= 16 -> splittable B ->
  exists i1, seg_sizes (total B / blocks B) (i <| seg_C := blocks B |>) = Some i1 /\ well_split B (seg_split (total B) i1).
Proof.
  intros HB H8 H16 Hsp. destruct (Z.le_gt_cases B 6144) as [H | H].
  - unfold total, blocks. rewrite (proj2 (Z.leb_le B 6144)) by lia. by apply seg_sizes_one; [lia | |].
  - by apply seg_sizes_many.
Qed.

(** The sizes do not depend on what was in the fields: encoder and decoder find the same. *)
Lemma seg_sizes_same q c i i' i1 : seg_sizes q (i <| seg_C := c |>) = Some i1 ->
  exists i2, seg_sizes q (i' <| seg_C := c |>) = Some i2 /\ forall t, seg_split t i2 = seg_split t i1.
Proof.
  destruct i, i'. unfold seg_sizes.
  destruct (q <=? 40); [|destruct (q <=? 512); [|destruct (q <=? 1024); [|destruct (q <=? 2048); [|destruct (q <=? 6144)]]]]; intros [= <-];
    eexists; (split; [reflexivity|]); intros t; unfold seg_split; cbn; by destruct (c =? 1).
Qed.

Lemma overhead_blocks B : blocks B <= 16 -> overhead B = (if blocks B >? 1 then 24 else 0).
Proof.
  intros H16. unfold overhead. destruct (Z.leb_spec B 6144) as [H | H]; [unfold blocks; by rewrite (proj2 (Z.leb_le _ _)) by lia|].
  destruct (blocks_range B H H16) as (H2 & _ & _). by rewrite (proj2 (Z.gtb_lt _ _)) by lia.
Qed.
Lemma blocks_pos B : 0 < B -> 1 <= blocks B.
Proof. intros HB. unfold blocks. destruct (Z.leb_spec B 6144); [lia|]. apply Z.div_le_lower_bound; lia. Qed.
(** What the function finds, whatever was in the fields before. *)
Lemma segmentation_info T B : 0 < B -> B mod 8 = 0 -> blocks B <= 16 -> splittable B ->
  exists i1, well_split B i1 /\ forall i buffers, lte_segmentation T buffers B i =
    match buffers with
    | None => Ok (0, i1, None)
    | Some (input, bufs) =>
        '(k, bufs) ← seg_fill (Z.to_nat (Z.shiftr (seg_F i1) 3)) 0 bufs;
        bufs ← seg_loop T input (overhead B) i1 (Z.to_nat (seg_C i1)) 0 k 0 bufs;
        Ok (0, i1, Some bufs)
    end.
Proof.
  intros HB H8 H16 Hsp. set (i0 := Mk_seg 0 0 0 0 0 0). destruct (seg_info_spec B i0 HB H8 H16 Hsp) as (i1 & E1 & Hw).
  exists (seg_split (total B) i1). split; [done|]. intros i buffers. unfold lte_segmentation. rewrite seg_count_spec by done.
  destruct (seg_sizes_same _ _ i0 i i1 E1) as (i2 & E2 & Hsame).
  assert (HC : seg_C (i <| seg_C := blocks B |>) = blocks B) by done. rewrite HC.
  rewrite Z.gtb_ltb, (proj2 (Z.ltb_ge _ _)) by (unfold MAX_NUM_DLSCH_SEGMENTS; lia).
  by rewrite E2, Hsame.
Qed.
(** C16: [lte_segmentation] finds, for every block of whole bytes of at most 48960 bits and
    every longer one up to 16 blocks whose quotient is not cut down to a size (the others
    are a finding), the number of blocks of TS 36.212, the smallest turbo size that is
    enough for all of them, the number of blocks of the next smaller size, and less than
    64 filler bits. 16 blocks are the arrays' limit. *)
Theorem segmentation_sizes T B i :
  0 < B -> B mod 8 = 0 -> blocks B <= 16 -> B <= 48960 \/ splittable B ->
  exists i1, lte_segmentation T None B i = Ok (0, i1, None) /\ well_split B i1.
Proof.
  intros HB H8 H16 Hsp. assert (Hs : splittable B) by (destruct Hsp; [by apply small_splittable | done]).
  destruct (segmentation_info T B HB H8 H16 Hs) as (i1 & Hw & E). exists i1. by rewrite E.
Qed.
Lemma segmentation_sizes_witness : exists i1, lte_segmentation (Mk_crc_tables [] [] [] [] []) None 6248 (Mk_seg 7 7 7 7 7 7) = Ok (0, i1, None) /\
  well_split 6248 i1 /\ i1 = Mk_seg 2 1 1 3200 3136 40.
Proof.
  destruct (segmentation_sizes (Mk_crc_tables [] [] [] [] []) 6248 (Mk_seg 7 7 7 7 7 7)) as (i1 & H1 & H2);
    [lia | reflexivity | vm_compute; discriminate | left; lia |].
  exists i1. split; [exact H1|]. split; [exact H2|]. vm_compute in H1. injection H1 as <-. reflexivity.
Defined.
(** A quotient that is cut down to a size is too small: nine blocks, whose sizes do not even sum up. *)
Lemma segmentation_underflow T i : lte_segmentation T None 49328 i = Ok (0, Mk_seg 9 4227858442 67108863 5504 5440 56, None) /\
  total 49328 = 49544 /\ 9 * 5504 = 49536 /\ ~ splittable 49328.
Proof. destruct i. split; [vm_compute; reflexivity|]. split; [done|]. split; [done|]. intros H. discriminate (H eq_refl). Qed.
