(* ===== verification/PhyTransportBlock.v ===== *)
(** * Transport blocks through segmentation and reassembly (openair1/PHY/LTE_TRANSPORT/dlsch_coding.c, dlsch_decoding.c)

    The eNB attaches the CRC24A and cuts the block in [dlsch_encoding]; the UE, whose turbo decoder checks the
    code blocks, puts it together again in [dlsch_decoding].  The turbo decoder itself is not part of the model:
    the blocks that it gives out are arguments, and its test of them is a definition. *)

From S2P Require Import Prelude Bits PhyCrc PhySegmentation.

(** ** Encoder and decoder *)
(** The start of [dlsch_encoding] for a new packet: [b] is [harq_process->b]. *)
Definition dlsch_attach_crc (T : crc_tables) (a b : list Z) (A : Z) : res (list Z * list Z) :=
  crc ← crc24a T a 0 (i32 A);
  a ← put_crc (Z.shiftr crc 8) (Z.shiftr A 3) a;
  bytes ← mem_read a 0 (A / 8 + 4);
  b ← mem_write b 0 bytes;
  Ok (a, b).
(** The test of the decoded block in the turbo decoder, for the two checks of 24 bits: [n] bits, [F] of them
    fillers. *)
Definition turbo_crc_a (T : crc_tables) (decoded_bytes : list Z) (n F : Z) : res bool :=
  oldcrc ← mem_read decoded_bytes (Z.shiftr n 3 - 3) 4;
  crc ← crc24a T decoded_bytes (Z.shiftr F 3) (n - 24 - F);
  Ok (bool_decide (take 3 oldcrc =
    [Z.land (Z.shiftr crc 24) 255; Z.land (Z.shiftr crc 16) 255; Z.land (Z.shiftr crc 8) 255])).
Definition turbo_crc_b (T : crc_tables) (decoded_bytes : list Z) (n : Z) : res bool :=
  oldcrc ← mem_read decoded_bytes (Z.shiftr n 3 - 3) 4;
  crc ← crc24b T decoded_bytes 0 (n - 24);
  Ok (bool_decide (take 3 oldcrc =
    [Z.land (Z.shiftr crc 24) 255; Z.land (Z.shiftr crc 16) 255; Z.land (Z.shiftr crc 8) 255])).
(** The reassembly of [dlsch_decoding]; [c] are the decoded blocks. *)
Fixpoint dlsch_reassembly (i : seg_info) (n : nat) (r offset : Z) (c : list (list Z)) (b : list Z) : res (list Z) :=
  match n with
  | O => Ok b
  | S n =>
      let Kr_bytes := Z.shiftr (seg_size i r) 3 in
      let crc_bytes := if seg_C i >? 1 then 3 else 0 in
      cr ← array_get c r;
      if r =? 0 then
        let size := Kr_bytes - Z.shiftr (seg_F i) 3 - crc_bytes in
        bytes ← mem_read cr (Z.shiftr (seg_F i) 3) size;
        b ← mem_write b 0 bytes;
        dlsch_reassembly i n (r + 1) size c b
      else
        bytes ← mem_read cr 0 (Kr_bytes - crc_bytes);
        b ← mem_write b offset bytes;
        dlsch_reassembly i n (r + 1) (offset + (Kr_bytes - crc_bytes)) c b
  end.

(** The [r]-th block, as the decoder tests it, and all of them: after a failure the others are not decoded.
    Nothing is put together unless all are good. *)
Definition dlsch_block_crc (T : crc_tables) (i : seg_info) (r : Z) (c : list (list Z)) : res bool :=
  cr ← array_get c r;
  if seg_C i =? 1 then turbo_crc_a T cr (seg_size i r) (if r =? 0 then seg_F i else 0)
  else turbo_crc_b T cr (seg_size i r).
Fixpoint dlsch_check (T : crc_tables) (i : seg_info) (n : nat) (r : Z) (c : list (list Z)) (err_flag : bool) : res bool :=
  match n with
  | O => Ok err_flag
  | S n =>
      err_flag ← (if err_flag then Ok true else ok ← dlsch_block_crc T i r c; Ok (negb ok));
      dlsch_check T i n (r + 1) c err_flag
  end.
(** The acknowledgement, and [b]. *)
Definition dlsch_receive (T : crc_tables) (i : seg_info) (c : list (list Z)) (b : list Z) : res (bool * list Z) :=
  err_flag ← dlsch_check T i (Z.to_nat (seg_C i)) 0 c false;
  if (err_flag : bool) then Ok (false, b)
  else
    b ← dlsch_reassembly i (Z.to_nat (seg_C i)) 0 0 c b;
    Ok (true, b).

(** ** Copying *)
Lemma array_get_list {A} (l : list A) (i : nat) x : l !! i = Some x -> array_get l (Z.of_nat i) = Ok x.
Proof. intros H. unfold array_get. rewrite (proj2 (Z.leb_le _ _)) by lia. by rewrite Nat2Z.id, H. Qed.
Lemma array_set_list {A} (l : list A) (i : nat) x v : l !! i = Some x -> array_set l (Z.of_nat i) v = Ok (<[i := v]> l).
Proof. intros H. apply lookup_lt_Some in H. rewrite array_set_ok by lia. by rewrite Nat2Z.id. Qed.
Lemma buffer_set_at bufs (r : nat) pre x post k v : bufs !! r = Some (pre ++ x :: post) -> k = Z.of_nat (length pre) ->
  buffer_set bufs (Z.of_nat r) k v = Ok (<[r := pre ++ v :: post]> bufs).
Proof.
  intros H ->. unfold buffer_set. rewrite (array_get_list _ _ _ H). cbn [mbind res_bind]. rewrite array_set_app by done.
  cbn [mbind res_bind]. by rewrite (array_set_list _ _ _ _ H).
Qed.
Lemma seg_fill_spec mid : forall bufs pre post k, bufs !! 0%nat = Some (pre ++ mid ++ post) -> k = Z.of_nat (length pre) ->
  seg_fill (length mid) k bufs = Ok (k + Z.of_nat (length mid), <[0%nat := pre ++ replicate (length mid) 0 ++ post]> bufs).
Proof.
  induction mid as [|x mid IH]; intros bufs pre post k H Hk.
  - cbn [length seg_fill replicate app]. rewrite Z.add_0_r. by rewrite list_insert_id.
  - cbn [length seg_fill]. change 0 with (Z.of_nat 0) at 1. rewrite (buffer_set_at bufs 0 pre x (mid ++ post) k 0 H Hk). cbn [mbind res_bind].
    rewrite (IH _ (pre ++ [0]) post (k + 1)).
    + rewrite list_insert_insert_eq. rewrite <- app_assoc. do 2 f_equal. lia.
    + rewrite list_lookup_insert_eq by (by apply lookup_lt_Some in H). by rewrite <- app_assoc.
    + rewrite length_app. cbn. lia.
Qed.
Lemma seg_copy_spec src : forall fuel in1 in2 (r : nat) limit k s bufs pre mid post,
  bufs !! r = Some (pre ++ mid ++ post) -> length mid = length src -> k = Z.of_nat (length pre) -> limit = k + Z.of_nat (length src) ->
  s = Z.of_nat (length in1) -> (length src <= fuel)%nat ->
  seg_copy fuel (in1 ++ src ++ in2) (Z.of_nat r) limit k s bufs =
    Ok (s + Z.of_nat (length src), <[r := pre ++ src ++ post]> bufs).
Proof.
  induction src as [|v src IH]; intros fuel in1 in2 r limit k s bufs pre mid post H Hl Hk Hlim Hs Hf.
  - destruct mid; [|done]. assert (Hn : negb (k <? limit) = true) by (cbn in Hlim; bool_lia).
    destruct fuel; cbn [seg_copy]; rewrite Hn; cbn [length]; rewrite Z.add_0_r, list_insert_id; done.
  - destruct mid as [|x mid]; [done|]. destruct fuel as [|fuel]; [cbn in Hf; lia|]. cbn [seg_copy length] in *.
    rewrite (proj2 (Z.ltb_lt k limit)) by lia. cbn [negb]. rewrite (array_get_app in1 (src ++ in2) v s Hs : array_get (in1 ++ (v :: src) ++ in2) s = _).
    cbn [mbind res_bind]. rewrite (buffer_set_at bufs r pre x (mid ++ post) k v H Hk). cbn [mbind res_bind].
    rewrite (app_assoc in1 [v] (src ++ in2) : in1 ++ (v :: src) ++ in2 = _).
    rewrite (IH fuel (in1 ++ [v]) in2 r limit (k + 1) (s + 1) _ (pre ++ [v]) mid post).
    + rewrite list_insert_insert_eq, <- app_assoc. do 2 f_equal. lia.
    + rewrite list_lookup_insert_eq by (by apply lookup_lt_Some in H). by rewrite <- app_assoc.
    + lia.
    + rewrite length_app. cbn. lia.
    + lia.
    + rewrite length_app. cbn. lia.
    + lia.
Qed.
Lemma land_255 x : Z.land x 255 = u8 x.
Proof. change 255 with (2 ^ 8 - 1). by rewrite land_ones_mod. Qed.
Lemma put_crc_spec crc at_ pre x y z post : at_ = Z.of_nat (length pre) ->
  put_crc crc at_ (pre ++ x :: y :: z :: post) = Ok (pre ++ be_bytes 3 crc ++ post).
Proof.
  intros ->. unfold put_crc. rewrite array_set_app by done. cbn [mbind res_bind].
  rewrite (app_assoc pre [_] (y :: z :: post) : pre ++ _ :: y :: z :: post = _).
  rewrite array_set_app by (rewrite length_app; cbn; lia). cbn [mbind res_bind].
  rewrite (app_assoc (pre ++ [_]) [_] (z :: post) : (pre ++ [_]) ++ _ :: z :: post = _).
  rewrite array_set_app by (rewrite !length_app; cbn; lia). rewrite !land_255, <- !app_assoc. cbn [be_bytes app]. by rewrite Z.shiftr_0_r.
Qed.
(** ** Code blocks *)
Lemma crc_prefix k T data post : crcTableInit = Ok T -> Forall is_byte (data ++ post) ->
  crc_fun k T (data ++ post) 0 (8 * Z.of_nat (length data)) = crc_fun k T data 0 (8 * Z.of_nat (length data)).
Proof.
  intros HT Hb. pose proof (proj1 (Forall_app _ _ _) Hb) as [Hd _].
  rewrite !crc_fun_spec by (done || rewrite ?length_app; lia). rewrite crc_bits_all. unfold crc_bits. do 2 f_equal.
  change (8 * Z.to_nat 0)%nat with 0%nat. rewrite drop_0, bits_app. apply take_app_length'. rewrite length_bits. lia.
Qed.
Lemma crc_parity k T data : crcTableInit = Ok T -> Forall is_byte data ->
  exists p, crc_fun k T data 0 (8 * Z.of_nat (length data)) = Ok (Z.shiftl p (32 - crc_width k)) /\ 0 <= p < 2 ^ crc_width k.
Proof.
  intros HT Hb. rewrite crc_fun_spec by (done || lia). destruct (crc_of_low k (crc_bits data 0 (8 * Z.of_nat (length data)))) as (p & -> & Hp).
  by exists p.
Qed.
(** The buffer of a block: its bytes, their CRC24B when there are several blocks, and what was there before. *)
Definition parity24 (k : crc_kind) (T : crc_tables) (data par : list Z) : Prop :=
  exists p, par = be_bytes 3 p /\ 0 <= p < 2 ^ 24 /\ crc_fun k T data 0 (8 * Z.of_nat (length data)) = Ok (Z.shiftl p 8).
Definition is_block (T : crc_tables) (several : bool) (data b : list Z) : Prop :=
  Forall is_byte b /\ exists par slack, b = data ++ par ++ slack /\ if several then parity24 Crc24b T data par else par = [].
Lemma seg_crc_spec T (r : nat) Kr bufs data x y z post : crcTableInit = Ok T ->
  bufs !! r = Some (data ++ x :: y :: z :: post) -> Forall is_byte (data ++ x :: y :: z :: post) ->
  Kr = 8 * Z.of_nat (length data) + 24 -> Kr < 2 ^ 31 ->
  exists b, seg_crc T (Z.of_nat r) Kr bufs = Ok (<[r := b]> bufs) /\ length b = length (data ++ x :: y :: z :: post) /\ is_block T true data b.
Proof.
  intros HT Hr Hb -> HK. pose proof (proj1 (Forall_app _ _ _) Hb) as [Hd Hpost].
  destruct (crc_parity Crc24b T data HT Hd) as (p & Hp & Hpr). cbn [crc_width] in Hp, Hpr. change (32 - 24) with 8 in Hp.
  exists (data ++ be_bytes 3 p ++ post). unfold seg_crc. rewrite (array_get_list _ _ _ Hr). cbn [mbind res_bind].
  replace (8 * Z.of_nat (length data) + 24 - 24) with (8 * Z.of_nat (length data)) by lia.
  assert (i32 (8 * Z.of_nat (length data)) = 8 * Z.of_nat (length data)) as -> by (apply wraps_small; lia).
  assert (u32 (8 * Z.of_nat (length data)) = 8 * Z.of_nat (length data)) as -> by (apply wrapu_small; lia).
  pose proof (crc_prefix Crc24b T data (x :: y :: z :: post) HT Hb) as E. cbn [crc_fun] in E. rewrite E.
  cbn [crc_fun] in Hp. rewrite Hp. cbn [mbind res_bind]. rewrite Z.shiftr_shiftl_l, Z.sub_diag, Z.shiftl_0_r by lia.
  rewrite put_crc_spec by (rewrite Z.shiftr_div_pow2 by lia; change (2 ^ 3) with 8; rewrite Z.mul_comm, Z.div_mul; lia).
  cbn [mbind res_bind]. rewrite (array_set_list _ _ _ _ Hr). split; [done|]. split; [rewrite !length_app; cbn; lia|].
  split.
  - apply Forall_app. split; [done|]. apply Forall_app. split; [apply be_bytes_byte|]. by do 3 apply Forall_cons in Hpost as [_ Hpost].
  - exists (be_bytes 3 p), post. split; [done|]. exists p. by rewrite <- (Z.sub_diag 0).
Qed.

(** The blocks from the [r]-th on carry [data], the first of them behind the fillers. *)
Fixpoint carries (T : crc_tables) (i : seg_info) (L : Z) (n r : nat) (filler data : list Z) (bufs : list (list Z)) : Prop :=
  match n with
  | O => data = []
  | S n =>
      exists chunk rest b, data = chunk ++ rest /\ 8 * Z.of_nat (length (filler ++ chunk)) + L = seg_size i (Z.of_nat r) /\
        bufs !! r = Some b /\ is_block T (seg_C i >? 1) (filler ++ chunk) b /\ carries T i L n (S r) [] rest bufs
  end.
Lemma carries_other T i L n : forall (r : nat) filler data bufs (j : nat) b, (j < r)%nat ->
  carries T i L n r filler data bufs -> carries T i L n r filler data (<[j := b]> bufs).
Proof.
  induction n as [|n IH]; intros r filler data bufs j b Hj H; [done|]. destruct H as (chunk & rest & b0 & H1 & H2 & H3 & H4 & H5).
  exists chunk, rest, b0. split; [done|]. split; [done|]. split; [by rewrite list_lookup_insert_ne by lia|]. split; [done|].
  apply IH; [lia | done].
Qed.
Lemma carries_buffers T i L n : L = (if seg_C i >? 1 then 24 else 0) -> forall (r : nat) filler data bufs,
  carries T i L n r filler data bufs -> forall j, (r <= j < r + n)%nat ->
  exists b, bufs !! j = Some b /\ Forall is_byte b /\ seg_size i (Z.of_nat j) <= 8 * Z.of_nat (length b).
Proof.
  intros HL. induction n as [|n IH]; intros r filler data bufs H j Hj; [lia|].
  destruct H as (chunk & rest & b & _ & HK & Hb & (Hbb & par & slack & E & Hp) & Hrest).
  destruct (Nat.eq_dec j r) as [-> | Hne]; [|apply (IH _ _ _ _ Hrest); lia].
  exists b. split; [done|]. split; [done|]. rewrite <- HK, HL, E, !length_app.
  destruct (seg_C i >? 1); [destruct Hp as (p & -> & _); rewrite length_be_bytes|]; lia.
Qed.
(** The bytes that [n] blocks hold. *)
Fixpoint room (i : seg_info) (L : Z) (n r : nat) : Z :=
  match n with
  | O => 0
  | S n => (seg_size i (Z.of_nat r) - L) / 8 + room i L n (S r)
  end.
(** One block: its bytes behind the fillers, and its CRC. *)
Lemma seg_block_spec T i L K (r : nat) bufs b filler chunk b0 in1 in2 s :
  crcTableInit = Ok T -> L = (if seg_C i >? 1 then 24 else 0) -> bufs !! r = Some b -> Forall is_byte b -> K <= 8 * Z.of_nat (length b) ->
  b = filler ++ b0 \/ filler = [] -> Forall is_byte chunk -> 8 * Z.of_nat (length (filler ++ chunk)) + L = K -> K < 2 ^ 31 ->
  s = Z.of_nat (length in1) ->
  exists b2, ('(s, bufs) ← seg_copy (Z.to_nat ((K - L) / 8)) (in1 ++ chunk ++ in2) (Z.of_nat r) ((K - L) / 8) (Z.of_nat (length filler)) s bufs;
              bufs ← (if seg_C i >? 1 then seg_crc T (Z.of_nat r) K bufs else Ok bufs);
              Ok (s, bufs)) = Ok (s + Z.of_nat (length chunk), <[r := b2]> bufs) /\
    is_block T (seg_C i >? 1) (filler ++ chunk) b2.
Proof.
  intros HT HL Hbr Hbb Hbl Hfill Hcb HK HK31 Hs.
  assert (HL0 : L = 8 * (L / 8) /\ 0 <= L / 8) by (rewrite HL; destruct (seg_C i >? 1); done). destruct HL0 as [HL8 HL0].
  assert (HKL : (K - L) / 8 = Z.of_nat (length (filler ++ chunk))) by (rewrite <- HK; mod_lia). rewrite HKL, length_app, Nat2Z.id.
  assert (Hbuf : exists mid par3 post, b = filler ++ mid ++ par3 ++ post /\ length mid = length chunk /\ length par3 = Z.to_nat (L / 8)).
  { assert (exists b1, b = filler ++ b1) as [b1 ->] by (destruct Hfill as [-> | ->]; [by exists b0 | by exists b]).
    rewrite length_app in Hbl, HK.
    exists (take (length chunk) b1), (take (Z.to_nat (L / 8)) (drop (length chunk) b1)), (drop (Z.to_nat (L / 8)) (drop (length chunk) b1)).
    rewrite !take_drop. split; [done|]. rewrite !length_take, length_drop. lia. }
  destruct Hbuf as (mid & par3 & post & -> & Hmid & Hpar).
  rewrite (seg_copy_spec chunk _ in1 in2 r _ (Z.of_nat (length filler)) s bufs filler mid (par3 ++ post) Hbr) by (lia || done).
  cbn [mbind res_bind]. set (bufs1 := <[r := _]> bufs).
  assert (Hr1 : bufs1 !! r = Some ((filler ++ chunk) ++ par3 ++ post)).
  { unfold bufs1. rewrite list_lookup_insert_eq by (by apply lookup_lt_Some in Hbr). by rewrite app_assoc. }
  rewrite !Forall_app in Hbb. destruct Hbb as (Hfb & _ & Hpb & Hqb).
  assert (Hb1 : Forall is_byte ((filler ++ chunk) ++ par3 ++ post)) by (rewrite !Forall_app; done).
  assert (Hover : forall b2, <[r := b2]> bufs1 = <[r := b2]> bufs) by (intros b2; apply list_insert_insert_eq).
  destruct (seg_C i >? 1) eqn:EC.
  - destruct par3 as [|x [|y [|z [|? ?]]]]; rewrite HL in Hpar; try discriminate Hpar.
    destruct (seg_crc_spec T r K bufs1 (filler ++ chunk) x y z post HT Hr1 Hb1 ltac:(lia) ltac:(lia)) as (b2 & E & _ & Hblk).
    rewrite E. exists b2. cbn [mbind res_bind]. by rewrite Hover.
  - exists ((filler ++ chunk) ++ par3 ++ post). cbn [mbind res_bind]. rewrite <- Hover, list_insert_id by done. split; [done|]. split; [done|].
    exists [], (par3 ++ post). by split.
Qed.
(** Every block of the loop. *)
Definition block_room (i : seg_info) (L : Z) (bufs : list (list Z)) (j : nat) : Prop :=
  seg_size i (Z.of_nat j) mod 8 = 0 /\ L <= seg_size i (Z.of_nat j) < 2 ^ 31 /\
  exists b, bufs !! j = Some b /\ Forall is_byte b /\ seg_size i (Z.of_nat j) <= 8 * Z.of_nat (length b).
Lemma room_nonneg i L bufs n : forall r : nat, (forall j, (r <= j < r + n)%nat -> block_room i L bufs j) -> 0 <= room i L n r.
Proof.
  induction n as [|n IH]; intros r H; [done|]. cbn [room]. destruct (H r) as (_ & Hr & _); [lia|].
  assert (0 <= (seg_size i (Z.of_nat r) - L) / 8) by (apply Z.div_pos; lia).
  assert (0 <= room i L n (S r)) by (apply IH; intros j Hj; apply H; lia). lia.
Qed.
Lemma seg_loop_spec T i L in2 n : crcTableInit = Ok T -> L = (if seg_C i >? 1 then 24 else 0) -> forall (r : nat) filler data bufs b0 in1,
  (forall j, (r <= j < r + n)%nat -> block_room i L bufs j) ->
  bufs !! r = Some (filler ++ b0) \/ filler = [] -> Forall is_byte data -> (n = 0%nat -> filler = []) ->
  8 * Z.of_nat (length filler) <= seg_size i (Z.of_nat r) - L \/ n = 0%nat ->
  Z.of_nat (length filler) + Z.of_nat (length data) = room i L n r ->
  exists bufs', seg_loop T (in1 ++ data ++ in2) L i n (Z.of_nat r) (Z.of_nat (length filler)) (Z.of_nat (length in1)) bufs = Ok bufs' /\
    carries T i L n r filler data bufs' /\ (forall j, (j < r)%nat -> bufs' !! j = bufs !! j).
Proof.
  intros HT HL. induction n as [|n IH]; intros r filler data bufs b0 in1 Hsize Hfill Hb Hn Hfit Hroom.
  { exists bufs. cbn in *. rewrite (Hn eq_refl) in Hroom. cbn in Hroom. destruct data; [|cbn in Hroom; lia]. by split. }
  cbn [seg_loop room] in *. destruct (Hsize r) as (H8 & HLr & b & Hbr & Hbb & Hbl); [lia|].
  set (K := seg_size i (Z.of_nat r)) in *. assert (HL0 : L mod 8 = 0 /\ 0 <= L) by (rewrite HL; destruct (seg_C i >? 1); done).
  destruct HL0 as [HL8 HL0]. destruct Hfit as [Hfit | Hfit]; [|lia].
  assert (Hlim : Z.shiftr (u32 (K - L)) 3 = (K - L) / 8) by (unfold u32; rewrite wrapu_small, Z.shiftr_div_pow2 by lia; done). rewrite Hlim.
  assert (HKL : 8 * ((K - L) / 8) = K - L) by mod_lia.
  assert (Hroom' : 0 <= room i L n (S r)) by (apply (room_nonneg i L bufs); intros j Hj; apply Hsize; lia).
  set (m := Z.to_nat ((K - L) / 8 - Z.of_nat (length filler))). set (chunk := take m data). set (rest := drop m data).
  assert (Hdata : data = chunk ++ rest) by (symmetry; apply take_drop).
  assert (Hcl : length chunk = m) by (unfold chunk; rewrite length_take; lia).
  assert (Hcb : Forall is_byte chunk /\ Forall is_byte rest) by (apply Forall_app; by rewrite <- Hdata). destruct Hcb as [Hcb Hrb].
  assert (HK : 8 * Z.of_nat (length (filler ++ chunk)) + L = K) by (rewrite length_app, Hcl; unfold m; lia).
  assert (Hbf : b = filler ++ b0 \/ filler = []) by (destruct Hfill as [Hfill | ->]; [left; congruence | by right]).
  destruct (seg_block_spec T i L K r bufs b filler chunk b0 in1 (rest ++ in2) (Z.of_nat (length in1)) HT HL Hbr Hbb Hbl Hbf Hcb HK) as (b2 & E & Hblk);
    [lia | done |].
  rewrite Hdata, <- (app_assoc chunk rest in2). apply bind_ok_inv in E as ([s1 bufs1] & E1 & E). rewrite E1. cbn [mbind res_bind] in *.
  apply bind_ok_inv in E as (bufs2 & E2 & [= -> ->]). rewrite E2. cbn [mbind res_bind].
  replace (Z.of_nat r + 1) with (Z.of_nat (S r)) by lia. rewrite <- Nat2Z.inj_add, <- length_app.
  assert (Hother : forall j, j <> r -> (<[r := b2]> bufs) !! j = bufs !! j) by (intros j Hj; by rewrite list_lookup_insert_ne).
  destruct (IH (S r) [] rest (<[r := b2]> bufs) [] (in1 ++ chunk)) as (bufs' & E' & Hc & Hlow); try done.
  - intros j Hj. destruct (Hsize j) as (Hj1 & Hj2 & bj & Hj3); [lia|]. split; [done|]. split; [done|]. exists bj. by rewrite Hother by lia.
  - by right.
  - destruct n as [|n]; [by right|]. left. destruct (Hsize (S r)) as (_ & Hj2 & _); [lia|]. cbn. lia.
  - cbn [length]. rewrite Hdata, length_app, Hcl in Hroom. unfold m in Hroom. lia.
  - exists bufs'. rewrite <- (app_assoc in1 chunk) in E'. split; [exact E'|]. split.
    + exists chunk, rest, b2. split; [done|]. split; [done|]. split; [|by split].
      rewrite Hlow by lia. apply list_lookup_insert_eq. by apply lookup_lt_Some in Hbr.
    + intros j Hj. rewrite Hlow by lia. apply Hother. lia.
Qed.

(** ** What the blocks hold *)
Lemma room_sum i L n : L mod 8 = 0 -> forall r : nat, (forall j : nat, (r <= j < r + n)%nat -> seg_size i (Z.of_nat j) mod 8 = 0) ->
  8 * room i L n r = Z.of_nat n * (seg_Kplus i - L) -
    (seg_Kplus i - seg_Kminus i) * (Z.min (Z.max (seg_Cminus i) (Z.of_nat r)) (Z.of_nat r + Z.of_nat n) - Z.of_nat r).
Proof.
  intros HL. induction n as [|n IH]; intros r H; [cbn; lia|]. cbn [room]. rewrite Z.mul_add_distr_l, IH by (intros j Hj; apply H; lia).
  pose proof (H r ltac:(lia)) as H8. assert (E : 8 * ((seg_size i (Z.of_nat r) - L) / 8) = seg_size i (Z.of_nat r) - L) by mod_lia.
  rewrite E. unfold seg_size. rewrite Nat2Z.inj_succ. destruct (Z.ltb_spec (Z.of_nat r) (seg_Cminus i)) as [Hc | Hc].
  - replace (Z.max (seg_Cminus i) (Z.of_nat r)) with (seg_Cminus i) by lia.
    replace (Z.max (seg_Cminus i) (Z.succ (Z.of_nat r))) with (seg_Cminus i) by lia. rewrite Nat2Z.inj_succ.
    replace (Z.succ (Z.of_nat r) + Z.of_nat n) with (Z.of_nat r + Z.succ (Z.of_nat n)) by lia. lia.
  - replace (Z.max (seg_Cminus i) (Z.of_nat r)) with (Z.of_nat r) by lia.
    replace (Z.max (seg_Cminus i) (Z.succ (Z.of_nat r))) with (Z.succ (Z.of_nat r)) by lia. rewrite Nat2Z.inj_succ.
    replace (Z.min (Z.of_nat r) _) with (Z.of_nat r) by lia. replace (Z.min (Z.succ (Z.of_nat r)) _) with (Z.succ (Z.of_nat r)) by lia. lia.
Qed.
Lemma well_split_size B i (r : nat) : well_split B i -> Z.of_nat r < blocks B -> turbo_size (seg_size i (Z.of_nat r)).
Proof.
  intros (HC & Hs & Hm & Hp & Hk & H1 & _) Hr. unfold seg_size. destruct (Z.ltb_spec (Z.of_nat r) (seg_Cminus i)); [apply Hk; lia | done].
Qed.
Lemma well_split_room B i : well_split B i -> 0 <= blocks B -> overhead B = (if blocks B >? 1 then 24 else 0) ->
  8 * room i (overhead B) (Z.to_nat (blocks B)) 0 = B + seg_F i.
Proof.
  intros Hw HB HL. rewrite room_sum.
  - destruct Hw as (HC & Hs & Hm & Hp & Hk & H1 & _ & Ht & _). rewrite Z2Nat.id by done.
    replace (Z.min (Z.max (seg_Cminus i) (Z.of_nat 0)) (Z.of_nat 0 + blocks B) - Z.of_nat 0) with (seg_Cminus i) by lia.
    unfold total, overhead in *. destruct (Z.leb_spec B 6144); nia.
  - rewrite HL. by destruct (blocks B >? 1).
  - intros j Hj. apply turbo_size_range. apply (well_split_size B); [done | lia].
Qed.

(** ** The receiver *)
(** The decoder gives out the bytes of a block, in a buffer with room behind them. *)
Definition received (i : seg_info) (r : nat) (bufs c : list (list Z)) : Prop :=
  exists b cr, bufs !! r = Some b /\ c !! r = Some cr /\ Forall is_byte cr /\
    seg_size i (Z.of_nat r) < 8 * Z.of_nat (length cr) /\
    take (Z.to_nat (seg_size i (Z.of_nat r) / 8)) cr = take (Z.to_nat (seg_size i (Z.of_nat r) / 8)) b.
Lemma received_block T i L several (r : nat) bufs c data : received i r bufs c -> L = (if several : bool then 24 else 0) ->
  8 * Z.of_nat (length data) + L = seg_size i (Z.of_nat r) -> (exists b, bufs !! r = Some b /\ is_block T several data b) ->
  exists par slack, c !! r = Some (data ++ par ++ slack) /\ Forall is_byte (data ++ par ++ slack) /\ slack <> [] /\
    8 * Z.of_nat (length par) = L /\ if several then parity24 Crc24b T data par else par = [].
Proof.
  intros (b & cr & Hb & Hc & Hcb & Hl & Ht) HL HK (b' & Hb' & _ & par & slack & -> & Hp). rewrite Hb' in Hb. injection Hb as <-.
  assert (Hpl : 8 * Z.of_nat (length par) = L).
  { destruct several; [destruct Hp as (p & -> & _); by rewrite length_be_bytes, HL | by subst]. }
  assert (Hn : Z.to_nat (seg_size i (Z.of_nat r) / 8) = length (data ++ par)) by (rewrite length_app, <- HK; mod_lia).
  rewrite Hn, app_assoc, take_app_length in Ht. exists par, (drop (length (data ++ par)) cr).
  rewrite app_assoc, <- Ht, length_take_le, take_drop by (rewrite length_app; lia). split; [done|]. split; [done|].
  split; [|by split]. intros E. apply (f_equal length) in E. rewrite length_drop, length_app in E. cbn in E. lia.
Qed.
Lemma parity_bytes p : 0 <= p < 2 ^ 24 ->
  [Z.land (Z.shiftr (Z.shiftl p 8) 24) 255; Z.land (Z.shiftr (Z.shiftl p 8) 16) 255; Z.land (Z.shiftr (Z.shiftl p 8) 8) 255] = be_bytes 3 p.
Proof.
  intros Hp. rewrite !land_255. cbn [be_bytes]. change (8 * Z.of_nat 2) with 16. change (8 * Z.of_nat 1) with 8. change (8 * Z.of_nat 0) with 0.
  assert (E : Z.shiftr (Z.shiftl p 8) 8 = p) by (rewrite Z.shiftr_shiftl_l, Z.sub_diag, Z.shiftl_0_r by lia; done).
  assert (E24 : Z.shiftr (Z.shiftl p 8) 24 = Z.shiftr p 16) by (rewrite <- E at 2; by rewrite Z.shiftr_shiftr by lia).
  assert (E16 : Z.shiftr (Z.shiftl p 8) 16 = Z.shiftr p 8) by (rewrite <- E at 2; by rewrite Z.shiftr_shiftr by lia).
  by rewrite E24, E16, E, Z.shiftr_0_r.
Qed.
Lemma crc_drop k T pre data n : crcTableInit = Ok T -> Forall is_byte (pre ++ data) -> 0 <= n <= 8 * Z.of_nat (length data) ->
  crc_fun k T (pre ++ data) (Z.of_nat (length pre)) n = crc_fun k T data 0 n.
Proof.
  intros HT Hb Hn. pose proof (proj1 (Forall_app _ _ _) Hb) as [_ Hd]. rewrite !crc_fun_spec by (done || rewrite ?length_app; lia).
  unfold crc_bits. rewrite Nat2Z.id, bits_app. change (8 * Z.to_nat 0)%nat with 0%nat. rewrite drop_0.
  by rewrite drop_app_length' by (rewrite length_bits; lia).
Qed.
(** The parity bits behind the bytes are the ones compared. *)
Lemma parity_read pre p slack at_ : 0 <= p < 2 ^ 24 -> slack <> [] -> at_ = Z.of_nat (length pre) ->
  exists x, mem_read (pre ++ be_bytes 3 p ++ slack) at_ 4 = Ok (be_bytes 3 p ++ [x]).
Proof.
  intros Hp Hs ->. destruct slack as [|x slack]; [done|]. exists x.
  rewrite (app_assoc (be_bytes 3 p) [x] slack : be_bytes 3 p ++ x :: slack = _). by apply mem_read_mid.
Qed.
Lemma shiftr3 n : Z.shiftr n 3 = n / 8.
Proof. by rewrite Z.shiftr_div_pow2. Qed.
Lemma turbo_crc_a_ok T filler data par slack n F : crcTableInit = Ok T -> Forall is_byte (filler ++ data ++ par ++ slack) -> slack <> [] ->
  parity24 Crc24a T data par -> n = 8 * Z.of_nat (length (filler ++ data)) + 24 -> F = 8 * Z.of_nat (length filler) ->
  turbo_crc_a T (filler ++ data ++ par ++ slack) n F = Ok true.
Proof.
  intros HT Hb Hs (p & -> & Hp & Hc) Hn HF. rewrite length_app in Hn. unfold turbo_crc_a. rewrite !shiftr3.
  assert (n / 8 - 3 = Z.of_nat (length (filler ++ data))) as -> by (rewrite length_app; mod_lia).
  assert (F / 8 = Z.of_nat (length filler)) as -> by mod_lia.
  assert (n - 24 - F = 8 * Z.of_nat (length data)) as -> by lia.
  destruct (parity_read (filler ++ data) p slack _ Hp Hs eq_refl) as [x Hr]. rewrite <- app_assoc in Hr. rewrite Hr. cbn [mbind res_bind].
  change crc24a with (crc_fun Crc24a). rewrite crc_drop by (done || rewrite ?length_app; lia).
  rewrite crc_prefix by (done || by apply Forall_app in Hb as [_ Hb]). rewrite Hc. cbn [mbind res_bind].
  rewrite parity_bytes, take_app_length' by (done || apply length_be_bytes). by rewrite bool_decide_true.
Qed.
Lemma turbo_crc_b_ok T data par slack n : crcTableInit = Ok T -> Forall is_byte (data ++ par ++ slack) -> slack <> [] ->
  parity24 Crc24b T data par -> n = 8 * Z.of_nat (length data) + 24 -> turbo_crc_b T (data ++ par ++ slack) n = Ok true.
Proof.
  intros HT Hb Hs (p & -> & Hp & Hc) Hn. unfold turbo_crc_b. rewrite !shiftr3.
  assert (n / 8 - 3 = Z.of_nat (length data)) as -> by mod_lia. assert (n - 24 = 8 * Z.of_nat (length data)) as -> by lia.
  destruct (parity_read data p slack _ Hp Hs eq_refl) as [x Hr]. rewrite Hr. cbn [mbind res_bind].
  change crc24b with (crc_fun Crc24b). rewrite crc_prefix by done. rewrite Hc. cbn [mbind res_bind].
  rewrite parity_bytes, take_app_length' by (done || apply length_be_bytes). by rewrite bool_decide_true.
Qed.

(** All blocks good. *)
Lemma dlsch_check_several T i n : crcTableInit = Ok T -> seg_C i > 1 -> forall (r : nat) filler data bufs c,
  carries T i 24 n r filler data bufs -> (forall j, (r <= j < r + n)%nat -> received i j bufs c) ->
  dlsch_check T i n (Z.of_nat r) c false = Ok false.
Proof.
  intros HT HC. assert (EC : (seg_C i >? 1) = true) by bool_lia. assert (E1 : (seg_C i =? 1) = false) by bool_lia.
  induction n as [|n IH]; intros r filler data bufs c H Hrec; [done|]. cbn [dlsch_check].
  destruct H as (chunk & rest & b & _ & HK & Hb & Hblk & Hrest). rewrite EC in Hblk.
  destruct (received_block T i 24 true r bufs c (filler ++ chunk)) as (par & slack & Hc & Hcb & Hs & _ & Hp); try done.
  { apply Hrec. lia. } { by exists b. }
  unfold dlsch_block_crc. rewrite (array_get_list _ _ _ Hc). cbn [mbind res_bind]. rewrite E1.
  rewrite (turbo_crc_b_ok T (filler ++ chunk) par slack) by done. cbn [mbind res_bind negb].
  replace (Z.of_nat r + 1) with (Z.of_nat (S r)) by lia. apply (IH (S r) [] rest bufs c Hrest). intros j Hj. apply Hrec. lia.
Qed.
Lemma crc_bytes_room i L : L = (if seg_C i >? 1 then 24 else 0) -> (if seg_C i >? 1 then 3 else 0) = L / 8.
Proof. intros ->. by destruct (seg_C i >? 1). Qed.
Lemma dlsch_reassembly_rest T i L n : L = (if seg_C i >? 1 then 24 else 0) -> forall (r : nat) data bufs c pre mid post offset,
  carries T i L n r [] data bufs -> (forall j, (r <= j < r + n)%nat -> received i j bufs c) -> (0 < r)%nat ->
  length mid = length data -> offset = Z.of_nat (length pre) ->
  dlsch_reassembly i n (Z.of_nat r) offset c (pre ++ mid ++ post) = Ok (pre ++ data ++ post).
Proof.
  intros HL. induction n as [|n IH]; intros r data bufs c pre mid post offset H Hrec Hr Hm ->.
  { cbn in H. subst data. by destruct mid. }
  destruct H as (chunk & rest & b & -> & HK & Hb & Hblk & Hrest). cbn [dlsch_reassembly app] in *.
  destruct (received_block T i L (seg_C i >? 1) r bufs c chunk) as (par & slack & Hc & _ & _ & Hpl & _); try done.
  { apply Hrec. lia. } { by exists b. }
  rewrite (array_get_list _ _ _ Hc). cbn [mbind res_bind]. rewrite (proj2 (Z.eqb_neq _ _)) by lia.
  rewrite (crc_bytes_room i L HL), shiftr3.
  assert (seg_size i (Z.of_nat r) / 8 - L / 8 = Z.of_nat (length chunk)) as -> by mod_lia.
  change (chunk ++ par ++ slack) with ([] ++ chunk ++ par ++ slack). rewrite mem_read_mid by done. cbn [mbind res_bind].
  rewrite length_app in Hm. rewrite <- (take_drop (length chunk) mid). set (m1 := take _ mid). set (m2 := drop _ mid).
  assert (H1 : length m1 = length chunk) by (unfold m1; rewrite length_take; lia).
  assert (H2 : length m2 = length rest) by (unfold m2; rewrite length_drop; lia).
  rewrite <- app_assoc, (mem_write_between pre m1 (m2 ++ post) chunk) by done. cbn [mbind res_bind].
  replace (Z.of_nat r + 1) with (Z.of_nat (S r)) by lia. rewrite (app_assoc pre).
  rewrite (IH (S r) rest bufs c (pre ++ chunk) m2 post); try done; [by rewrite <- !app_assoc | | lia | rewrite length_app; lia].
  intros j Hj. apply Hrec. lia.
Qed.
Lemma dlsch_reassembly_ok T i L n filler data bufs c mid post : L = (if seg_C i >? 1 then 24 else 0) ->
  carries T i L n 0 filler data bufs -> (forall j, (j < n)%nat -> received i j bufs c) ->
  seg_F i = 8 * Z.of_nat (length filler) -> length mid = length data ->
  dlsch_reassembly i n 0 0 c (mid ++ post) = Ok (data ++ post).
Proof.
  intros HL H Hrec HF Hm. destruct n as [|n].
  { cbn in H. subst data. by destruct mid. }
  destruct H as (chunk & rest & b & -> & HK & Hb & Hblk & Hrest). cbn [dlsch_reassembly].
  destruct (received_block T i L (seg_C i >? 1) 0 bufs c (filler ++ chunk)) as (par & slack & Hc & _ & _ & Hpl & _); try done.
  { apply Hrec. lia. } { by exists b. }
  rewrite (array_get_list c 0 _ Hc : array_get c 0 = _). cbn [mbind res_bind Z.eqb].
  rewrite (crc_bytes_room i L HL), !shiftr3, HF. rewrite length_app in HK. change (Z.of_nat 0) with 0 in HK.
  assert (seg_size i 0 / 8 - 8 * Z.of_nat (length filler) / 8 - L / 8 = Z.of_nat (length chunk)) as -> by mod_lia.
  rewrite <- (app_assoc filler), (mem_read_mid filler chunk) by (done || mod_lia). cbn [mbind res_bind].
  rewrite length_app in Hm. rewrite <- (take_drop (length chunk) mid). set (m1 := take _ mid). set (m2 := drop _ mid).
  assert (H1 : length m1 = length chunk) by (unfold m1; rewrite length_take; lia).
  assert (H2 : length m2 = length rest) by (unfold m2; rewrite length_drop; lia).
  rewrite <- app_assoc. change (m1 ++ m2 ++ post) with ([] ++ m1 ++ m2 ++ post). rewrite (mem_write_between [] m1 (m2 ++ post) chunk) by done.
  cbn [mbind res_bind app]. change (0 + 1) with (Z.of_nat 1).
  rewrite (dlsch_reassembly_rest T i L n HL 1 rest bufs c chunk m2 post); try done; [by rewrite <- app_assoc | | lia].
  intros j Hj. apply Hrec. lia.
Qed.

(** ** The whole way *)
(** The fillers are all in the first block. *)
Lemma filler_fits B i : well_split B i -> 0 < B -> blocks B <= 16 -> seg_F i <= seg_size i (Z.of_nat 0) - overhead B.
Proof.
  intros (_ & Hs & Hm & Hp & Hk & H1 & _ & Ht & HF & _) HB H16. pose proof (blocks_pos B HB) as Hpos. unfold seg_size. change (Z.of_nat 0) with 0.
  destruct (Z.le_gt_cases B 6144) as [H | H].
  - assert (Hb : blocks B = 1) by (unfold blocks; by rewrite (proj2 (Z.leb_le _ _)) by lia). rewrite (H1 Hb) in *. rewrite Z.ltb_irrefl.
    unfold total, overhead in *. rewrite (proj2 (Z.leb_le B 6144)) in * by lia. nia.
  - destruct (blocks_range B H H16) as (H2 & _ & Hq). destruct (Hk ltac:(lia)) as [_ Hkm].
    assert (Hov : overhead B = 24) by (unfold overhead; by rewrite (proj2 (Z.leb_gt _ _)) by lia). rewrite Hov.
    assert (3000 <= seg_Kplus i).
    { pose proof (Z.mul_div_le (total B) (blocks B) ltac:(lia)). nia. }
    destruct (0 <? seg_Cminus i); lia.
Qed.
Lemma seg_encode T B i1 input slack bufs : crcTableInit = Ok T -> well_split B i1 -> 0 < B -> blocks B <= 16 ->
  Forall is_byte input -> 8 * Z.of_nat (length input) = B ->
  (forall j : nat, Z.of_nat j < blocks B -> exists b, bufs !! j = Some b /\ Forall is_byte b /\ (768 <= length b)%nat) ->
  exists bufs' filler,
    ('(k, bufs) ← seg_fill (Z.to_nat (Z.shiftr (seg_F i1) 3)) 0 bufs;
     bufs ← seg_loop T (input ++ slack) (overhead B) i1 (Z.to_nat (seg_C i1)) 0 k 0 bufs;
     Ok (0, i1, Some bufs)) = Ok (0, i1, Some bufs') /\
    seg_F i1 = 8 * Z.of_nat (length filler) /\ carries T i1 (overhead B) (Z.to_nat (blocks B)) 0 filler input bufs'.
Proof.
  intros HT Hw HB H16 Hb Hl Hbufs. pose proof (blocks_pos B HB) as H1. pose proof (overhead_blocks B H16) as HL.
  pose proof (well_split_room B i1 Hw ltac:(lia) HL) as Hroom.
  assert (Hsize : forall j : nat, Z.of_nat j < blocks B -> 40 <= seg_size i1 (Z.of_nat j) <= 6144 /\ seg_size i1 (Z.of_nat j) mod 8 = 0).
  { intros j Hj. by apply turbo_size_range, (well_split_size B). }
  pose proof (filler_fits B i1 Hw HB H16) as Hfit.
  destruct Hw as (HC & _ & _ & _ & _ & _ & _ & _ & HF & HF8). rewrite HC, shiftr3.
  destruct (Hbufs 0%nat ltac:(lia)) as (b0 & Hb0 & Hbb0 & Hbl0). set (nf := Z.to_nat (seg_F i1 / 8)).
  rewrite <- (take_drop nf b0) in Hb0. assert (Hnf : length (take nf b0) = nf) by (rewrite length_take; unfold nf; mod_lia).
  pose proof (seg_fill_spec (take nf b0) bufs [] (drop nf b0) 0 Hb0 eq_refl) as E. rewrite Hnf in E. rewrite E. cbn [mbind res_bind app].
  set (bufs1 := <[0%nat := _]> bufs). set (filler := replicate nf 0).
  assert (Hfl : length filler = nf) by apply length_replicate. assert (Hf8 : seg_F i1 = 8 * Z.of_nat nf) by (unfold nf; mod_lia).
  assert (H10 : bufs1 !! 0%nat = Some (filler ++ drop nf b0)) by (apply list_lookup_insert_eq; by apply lookup_lt_Some in Hb0).
  destruct (seg_loop_spec T i1 (overhead B) slack (Z.to_nat (blocks B)) HT ltac:(by rewrite HC)) with
    (r := 0%nat) (filler := filler) (data := input) (bufs := bufs1) (b0 := drop nf b0) (in1 := @nil Z) as (bufs' & E' & Hc & _).
  - intros j Hj. destruct (Hsize j ltac:(lia)) as [Hs1 Hs2]. split; [done|]. split; [rewrite HL; destruct (blocks B >? 1); lia|].
    destruct j as [|j].
    + exists (filler ++ drop nf b0). split; [done|]. split.
      * apply Forall_app. split; [apply Forall_replicate; unfold is_byte; lia | by apply Forall_drop].
      * rewrite length_app, Hfl, length_drop. unfold nf. mod_lia.
    + destruct (Hbufs (S j) ltac:(lia)) as (b & Hbj & Hbb & Hbl). exists b. unfold bufs1. rewrite list_lookup_insert_ne by done.
      split; [done|]. split; [done | lia].
  - by left.
  - done.
  - lia.
  - left. rewrite Hfl, <- Hf8. done.
  - rewrite Hfl. lia.
  - exists bufs', filler. rewrite Hfl in E'. cbn [app length] in E'. change (Z.of_nat 0) with 0 in E'. rewrite Z.add_0_l, E'. cbn [mbind res_bind]. rewrite Hfl. by split.
Qed.
Lemma dlsch_check_one T i filler payload par bufs c : crcTableInit = Ok T -> seg_C i = 1 -> carries T i 0 1 0 filler (payload ++ par) bufs ->
  parity24 Crc24a T payload par -> seg_F i = 8 * Z.of_nat (length filler) -> received i 0 bufs c ->
  dlsch_check T i 1 0 c false = Ok false.
Proof.
  intros HT HC H Hp HF Hrec. destruct H as (chunk & rest & b & Hd & HK & Hb & Hblk & Hrest). cbn in Hrest. subst rest.
  rewrite app_nil_r in Hd. subst chunk. rewrite HC in Hblk.
  destruct (received_block T i 0 false 0 bufs c (filler ++ payload ++ par) Hrec eq_refl HK) as (p0 & slack & Hc & Hcb & Hs & _ & ->).
  { by exists b. }
  cbn [dlsch_check]. unfold dlsch_block_crc. rewrite (array_get_list c 0 _ Hc : array_get c 0 = _). cbn [mbind res_bind].
  rewrite HC. cbn [Z.eqb Pos.eqb]. cbn [app] in *. change (Z.of_nat 0) with 0 in HK.
  rewrite <- !app_assoc in *. rewrite (turbo_crc_a_ok T filler payload par slack); try done.
  destruct Hp as (p & -> & _). rewrite !length_app, length_be_bytes in *. lia.
Qed.
Lemma dlsch_receive_ok T B i1 filler payload par bufs c bu : crcTableInit = Ok T -> well_split B i1 -> 0 < B -> blocks B <= 16 ->
  carries T i1 (overhead B) (Z.to_nat (blocks B)) 0 filler (payload ++ par) bufs -> seg_F i1 = 8 * Z.of_nat (length filler) ->
  parity24 Crc24a T payload par -> (forall r : nat, Z.of_nat r < blocks B -> received i1 r bufs c) ->
  (length payload + 3 <= length bu)%nat ->
  dlsch_receive T i1 c bu = Ok (true, payload ++ par ++ drop (length payload + 3) bu).
Proof.
  intros HT Hw HB H16 Hc HF Hp Hrec Hbu. pose proof (overhead_blocks B H16) as HL. pose proof (blocks_pos B HB) as Hpos.
  destruct Hw as (HC & _). unfold dlsch_receive. rewrite HC.
  assert (Hchk : dlsch_check T i1 (Z.to_nat (blocks B)) 0 c false = Ok false).
  { destruct (Z.eq_dec (blocks B) 1) as [E | E].
    - rewrite E in *. change (overhead B) with (overhead B) in Hc. rewrite HL in Hc. apply (dlsch_check_one T i1 filler payload par bufs c HT HC Hc Hp HF).
      apply Hrec. lia.
    - assert (EB : (blocks B >? 1) = true) by bool_lia. rewrite EB in HL. rewrite HL in Hc.
      apply (dlsch_check_several T i1 (Z.to_nat (blocks B)) HT ltac:(lia) 0 filler _ bufs c Hc). intros j Hj. apply Hrec. lia. }
  rewrite Hchk. cbn [mbind res_bind].
  assert (Hpl : length (payload ++ par) = (length payload + 3)%nat) by (destruct Hp as (p & -> & _); by rewrite length_app, length_be_bytes).
  rewrite <- (take_drop (length payload + 3) bu) at 1.
  rewrite (dlsch_reassembly_ok T i1 (overhead B) _ filler (payload ++ par) bufs c); try done.
  - cbn [mbind res_bind]. by rewrite <- app_assoc.
  - by rewrite HC.
  - intros j Hj. apply Hrec. lia.
  - rewrite length_take. lia.
Qed.
Lemma dlsch_attach_crc_ok T payload after b A : crcTableInit = Ok T -> Forall is_byte payload -> Forall is_byte after ->
  (4 <= length after)%nat -> (length payload + 4 <= length b)%nat -> A = 8 * Z.of_nat (length payload) -> A < 2 ^ 31 ->
  exists par a' slack, dlsch_attach_crc T (payload ++ after) b A = Ok (a', (payload ++ par) ++ slack) /\ parity24 Crc24a T payload par.
Proof.
  intros HT Hb Hab Ha Hbl HA HA31. destruct (crc_parity Crc24a T payload HT Hb) as (p & Hp & Hpr). cbn [crc_width] in Hp, Hpr. change (32 - 24) with 8 in Hp.
  destruct after as [|x [|y [|z [|w after]]]]; cbn in Ha; try lia. exists (be_bytes 3 p).
  unfold dlsch_attach_crc. assert (i32 A = 8 * Z.of_nat (length payload)) as -> by (rewrite <- HA; apply wraps_small; lia).
  change crc24a with (crc_fun Crc24a). rewrite crc_prefix by (done || by apply Forall_app). rewrite Hp. cbn [mbind res_bind].
  rewrite Z.shiftr_shiftl_l, Z.sub_diag, Z.shiftl_0_r, shiftr3 by lia.
  assert (HA8 : A / 8 = Z.of_nat (length payload)) by (rewrite HA; mod_lia). rewrite HA8, put_crc_spec by done. cbn [mbind res_bind].
  set (bytes := payload ++ be_bytes 3 p ++ [w]).
  assert (Hbytes : length bytes = (length payload + 4)%nat) by (unfold bytes; rewrite !length_app, length_be_bytes; cbn; lia).
  assert (E : payload ++ be_bytes 3 p ++ w :: after = [] ++ bytes ++ after) by (unfold bytes; by rewrite <- !app_assoc). rewrite E.
  rewrite (mem_read_mid [] bytes after) by (done || lia). cbn [mbind res_bind].
  rewrite <- (take_drop (length bytes) b). change (take (length bytes) b ++ drop (length bytes) b) with ([] ++ take (length bytes) b ++ drop (length bytes) b).
  rewrite (mem_write_between [] _ _ bytes) by (done || rewrite length_take; lia). cbn [mbind res_bind app].
  eexists _, ([w] ++ drop (length bytes) b). split; [unfold bytes; by rewrite <- !app_assoc | by exists p].
Qed.
(** C11: A transport block of whole bytes that goes through the encoder (its CRC24A
    attached, cut into at most 16 code blocks with their CRC24Bs, of a size for which the
    division into blocks is exact or not a turbo size, see the findings for the others)
    and comes out of the turbo decoder as it went in is accepted by the receiver, which
    puts the same bytes together again; it finds the sizes of the blocks from the number
    of bits only. The buffers have their sizes: 768 bytes for each code block, four bytes
    behind the payload. The turbo coder itself is not modelled: the decoder's output is
    assumed to be the coder's input ([received]). *)
Theorem transport_block_roundtrip T payload after b bufs i iu A B :
  crcTableInit = Ok T -> Forall is_byte payload -> Forall is_byte after -> (4 <= length after)%nat -> (length payload + 4 <= length b)%nat ->
  A = 8 * Z.of_nat (length payload) -> B = A + 24 -> blocks B <= 16 -> splittable B ->
  (forall j : nat, Z.of_nat j < blocks B -> exists buf, bufs !! j = Some buf /\ Forall is_byte buf /\ (768 <= length buf)%nat) ->
  exists par a' b' i1 bufs', dlsch_attach_crc T (payload ++ after) b A = Ok (a', b') /\ parity24 Crc24a T payload par /\
    lte_segmentation T (Some (b', bufs)) B i = Ok (0, i1, Some bufs') /\ lte_segmentation T None B iu = Ok (0, i1, None) /\
    (forall r : nat, Z.of_nat r < blocks B -> exists buf, bufs' !! r = Some buf /\ Forall is_byte buf /\ seg_size i1 (Z.of_nat r) <= 8 * Z.of_nat (length buf)) /\
    forall c bu, (forall r : nat, Z.of_nat r < blocks B -> received i1 r bufs' c) -> (length payload + 3 <= length bu)%nat ->
      dlsch_receive T i1 c bu = Ok (true, payload ++ par ++ drop (length payload + 3) bu).
Proof.
  intros HT Hb Hab Ha Hbl HA HB H16 Hsp Hbufs.
  assert (HB31 : 0 < B /\ A < 2 ^ 31 /\ B mod 8 = 0).
  { split; [lia|]. split; [|mod_lia]. unfold blocks in H16. destruct (Z.leb_spec B 6144); [lia|]. mod_lia. }
  destruct HB31 as (HB0 & HA31 & H8).
  destruct (dlsch_attach_crc_ok T payload after b A HT Hb Hab Ha Hbl HA HA31) as (par & a' & slack & Eatt & Hpar).
  destruct (segmentation_info T B HB0 H8 H16 Hsp) as (i1 & Hw & Einfo).
  assert (Hin : Forall is_byte (payload ++ par) /\ 8 * Z.of_nat (length (payload ++ par)) = B).
  { destruct Hpar as (p & -> & _). rewrite length_app, length_be_bytes. split; [|lia]. apply Forall_app. split; [done | apply be_bytes_byte]. }
  destruct Hin as [Hin1 Hin2].
  destruct (seg_encode T B i1 (payload ++ par) slack bufs HT Hw HB0 H16 Hin1 Hin2 Hbufs) as (bufs' & filler & Eseg & HF & Hc).
  exists par, a', ((payload ++ par) ++ slack), i1, bufs'. split; [done|]. split; [done|]. rewrite !Einfo. split; [exact Eseg|]. split; [done|].
  assert (HL : overhead B = (if seg_C i1 >? 1 then 24 else 0)) by (destruct Hw as (-> & _); by apply overhead_blocks).
  split; [intros r Hr; apply (carries_buffers T i1 (overhead B) (Z.to_nat (blocks B)) HL 0 filler (payload ++ par)); [done | lia]|].
  intros c bu Hrec Hbu. by apply (dlsch_receive_ok T B i1 filler payload par bufs').
Qed.

(** 800 bytes in two blocks. *)
Lemma transport_block_roundtrip_witness : exists T par i1 c, crcTableInit = Ok T /\ seg_C i1 = 2 /\
  dlsch_receive T i1 c (replicate 803 0) = Ok (true, replicate 800 49 ++ par).
Proof.
  destruct crcTableInit as [T|] eqn:HT; [|by rewrite crcTableInit_eq in HT].
  destruct (transport_block_roundtrip T (replicate 800 49) [0; 0; 0; 0] (replicate 804 0) (replicate 2 (replicate 771 0))
    (Mk_seg 0 0 0 0 0 0) (Mk_seg 0 0 0 0 0 0) 6400 6424 HT) as (par & a' & b' & i1 & bufs' & _ & _ & Hseg & Hinfo & Hb & Hrec);
    [ apply Forall_replicate; unfold is_byte; lia | repeat constructor; unfold is_byte; lia | reflexivity | rewrite !length_replicate; lia
    | reflexivity | reflexivity | vm_compute; discriminate | vm_compute; discriminate | |].
  - intros j Hj. change (blocks 6424) with 2 in Hj. exists (replicate 771 0). split; [|split; [apply Forall_replicate; unfold is_byte; lia | rewrite length_replicate; lia]].
    destruct j as [|[|j]]; [reflexivity | reflexivity | lia].
  - exists T, par, i1, ((fun b => b ++ [0]) <$> bufs'). split; [done|]. split; [vm_compute in Hinfo; by injection Hinfo as <-|].
    rewrite (Hrec ((fun b => b ++ [0]) <$> bufs') (replicate 803 0)).
    + rewrite length_replicate. change (drop (800 + 3) (replicate 803 0)) with (@nil Z). by rewrite app_nil_r.
    + intros r Hr. destruct (Hb r Hr) as (b & H1 & H2 & H3). exists b, (b ++ [0]). rewrite list_lookup_fmap, H1.
      split; [done|]. split; [done|]. split; [apply Forall_app; split; [done | by repeat constructor]|].
      rewrite length_app. cbn [length]. split; [lia|]. rewrite take_app_le; [done|]. mod_lia.
    + rewrite !length_replicate. lia.
Defined.
