(* ===== verification/PhyRateMatching.v ===== *)
(** * Interleaving and rate matching of the turbo code (openair1/PHY/CODING/lte_rate_matching.c)

    The sub-block interleaver and its inverse, the dummy buffer by which the receiver knows where the sender has
    no bits, the selection of bits for transmission and the accumulation of soft bits.  A pointer into the middle
    of a buffer ([d], behind 96 NULL bits) is the buffer and the index it points to. *)

From S2P Require Import Prelude.

Definition LTE_NULL : Z := 2.
Definition bitrev : list Z := [0;16;8;24;4;20;12;28;2;18;10;26;6;22;14;30;1;17;9;25;5;21;13;29;3;19;11;27;7;23;15;31].
Definition bitrev_x3 : list Z := [0;48;24;72;12;60;36;84;6;54;30;78;18;66;42;90;3;51;27;75;15;63;39;87;9;57;33;81;21;69;45;93].
Definition c_div (a b : Z) : res Z := if b =? 0 then Err UndefinedBehaviour else Ok (a / b).
Definition c_mod (a b : Z) : res Z := if b =? 0 then Err UndefinedBehaviour else Ok (a mod b).
Definition cmin (a b : Z) : Z := if a <? b then a else b.

(** The rows of the interleaver's matrix, which has 32 columns. *)
Definition RTC_of (D : Z) : Z :=
  let RTC := Z.shiftr D 5 in
  if Z.land D 31 >? 0 then u32 (RTC + 1) else RTC.

(** ** The sender's interleaver *)
Fixpoint interleave_rows (n : nat) (d : list Z) (d1 d2 d3 Kpi index3 k k2 : Z) (w : list Z) : res (Z * Z * list Z) :=
  match n with
  | O => Ok (k, k2, w)
  | S n =>
      x ← array_get d (d1 + index3);
      w ← array_set w k x;
      y ← array_get d (d2 + index3);
      w ← array_set w (Kpi + k2) y;
      z ← array_get d (d3 + index3);
      w ← array_set w (Kpi + 1 + k2) z;
      interleave_rows n d d1 d2 d3 Kpi (index3 + 96) (k + 1) (k2 + 2) w
  end.
Fixpoint interleave_cols (cols : list Z) (RTC : Z) (d : list Z) (d1 d2 d3 Kpi k k2 : Z) (w : list Z) : res (Z * Z * list Z) :=
  match cols with
  | [] => Ok (k, k2, w)
  | index3 :: cols =>
      '(k, k2, w) ← interleave_rows (Z.to_nat RTC) d d1 d2 d3 Kpi index3 k k2 w;
      interleave_cols cols RTC d d1 d2 d3 Kpi k k2 w
  end.
(** [base]: where [d] points to. *)
Definition sub_block_interleaving_turbo (D : Z) (d : list Z) (base : Z) (w : list Z) : res (Z * list Z * list Z) :=
  let RTC := RTC_of D in
  let Kpi := u32 (Z.shiftl RTC 5) in
  let ND := u32 (Kpi - D) in
  let ND3 := u32 (ND * 3) in
  x ← array_get d (base + 2);
  d ← array_set d (base + u32 (3 * D) + 2) x;
  let d1 := base - ND3 in
  let d2 := d1 + 1 in
  let d3 := d1 + 5 in
  '(_, _, w) ← interleave_cols bitrev_x3 RTC d d1 d2 d3 Kpi 0 0 w;
  w ← (if ND >? 0 then array_set w (u32 (3 * Kpi) - 1) LTE_NULL else Ok w);
  Ok (RTC, d, w).

(** ** The receiver's *)
Fixpoint deinterleave_rows (n : nat) (w : list Z) (d1 d2 d3 Kpi index3 k k2 : Z) (d : list Z) : res (Z * Z * list Z) :=
  match n with
  | O => Ok (k, k2, d)
  | S n =>
      x ← array_get w k;
      d ← array_set d (d1 + index3) x;
      y ← array_get w (Kpi + k2);
      d ← array_set d (d2 + index3) y;
      z ← array_get w (Kpi + 1 + k2);
      d ← array_set d (d3 + index3) z;
      deinterleave_rows n w d1 d2 d3 Kpi (index3 + 96) (k + 1) (k2 + 2) d
  end.
Fixpoint deinterleave_cols (cols : list Z) (RTC : Z) (w : list Z) (d1 d2 d3 Kpi k k2 : Z) (d : list Z) : res (Z * Z * list Z) :=
  match cols with
  | [] => Ok (k, k2, d)
  | index3 :: cols =>
      '(k, k2, d) ← deinterleave_rows (Z.to_nat RTC) w d1 d2 d3 Kpi index3 k k2 d;
      deinterleave_cols cols RTC w d1 d2 d3 Kpi k k2 d
  end.
Definition sub_block_deinterleaving_turbo (D : Z) (d : list Z) (base : Z) (w : list Z) : res (list Z) :=
  let RTC := RTC_of D in
  let Kpi := u32 (Z.shiftl RTC 5) in
  let ND := u32 (Kpi - D) in
  let ND3 := u32 (ND * 3) in
  let d1 := base - ND3 in
  let d2 := d1 + 1 in
  let d3 := d1 + 5 in
  '(_, _, d) ← deinterleave_cols bitrev_x3 RTC w d1 d2 d3 Kpi 0 0 d;
  Ok d.

(** ** The dummy buffer: where the sender has NULL, from the sizes only *)
Definition set_if (b : bool) (w : list Z) (i v : Z) : res (list Z) := if b then array_set w i v else Ok w.
Fixpoint dummy_cols (cols : list Z) (RTC Kpi ND F k : Z) (w : list Z) : res (list Z) :=
  match cols with
  | [] => Ok w
  | index :: cols =>
      let k2 := Z.shiftl k 1 in
      w ← set_if (index <? ND + F) w k LTE_NULL;
      w ← set_if (index <? ND + F) w (Kpi + k2) LTE_NULL;
      w ← set_if (index + 32 <? ND + F) w (k + 1) LTE_NULL;
      w ← set_if (index + 32 <? ND + F) w (Kpi + 2 + k2) LTE_NULL;
      w ← set_if (index + 64 <? ND + F) w (k + 2) LTE_NULL;
      w ← set_if (index + 64 <? ND + F) w (Kpi + 4 + k2) LTE_NULL;
      w ← set_if (index + 1 <? ND) w (Kpi + 1 + k2) LTE_NULL;
      dummy_cols cols RTC Kpi ND F (k + RTC) w
  end.
Definition generate_dummy_w (D : Z) (w : list Z) (F : Z) : res (Z * list Z) :=
  let RTC := RTC_of D in
  let Kpi := u32 (Z.shiftl RTC 5) in
  let ND := u32 (Kpi - D) in
  w ← dummy_cols bitrev RTC Kpi ND F 0 w;
  w ← set_if (ND >? 0) w (u32 (3 * Kpi) - 1) LTE_NULL;
  Ok (RTC, w).

(** ** Selection of the bits *)
Record rm_params := Mk_rm { rm_G : Z; rm_C : Z; rm_Nsoft : Z; rm_Mdlharq : Z; rm_Kmimo : Z; rm_rvidx : Z; rm_Qm : Z; rm_Nl : Z }.
(** The size of the circular buffer, the number of bits of block [r], and the first index. *)
Definition rm_Ncb (p : rm_params) (RTC : Z) : res Z :=
  if rm_Mdlharq p >? 0 then
    n ← c_div (rm_Nsoft p) (rm_Kmimo p);
    Nir ← c_div n (cmin 8 (rm_Mdlharq p));
    n ← c_div Nir (rm_C p);
    Ok (cmin n (u32 (3 * Z.shiftl RTC 5)))
  else Ok (u32 (3 * Z.shiftl RTC 5)).
Definition rm_E (p : rm_params) (r : Z) : res Z :=
  g ← c_div (rm_G p) (rm_Nl p);
  Gp ← c_div g (rm_Qm p);
  GpmodC ← c_mod Gp (rm_C p);
  Ok (if r <? u32 (rm_C p - GpmodC) then u32 (rm_Nl p * rm_Qm p * (Gp / rm_C p))
      else u32 (rm_Nl p * rm_Qm p * ((if GpmodC =? 0 then 0 else 1) + Gp / rm_C p))).
Definition rm_k0 (p : rm_params) (RTC Ncb : Z) : res Z :=
  Ncbmod ← c_mod Ncb (u32 (Z.shiftl RTC 3));
  q ← c_div Ncb (u32 (Z.shiftl RTC 3));
  Ok (u32 (RTC * (2 + rm_rvidx p * ((if Ncbmod =? 0 then 0 else 1) + q) * 2))).

(** From [ind] to the end of the circular buffer, or until [E] bits are there. *)
Fixpoint rm_pass (fuel : nat) (w e : list Z) (off ind Ncb k E : Z) : res (Z * list Z) :=
  if negb ((ind <? Ncb) && (k <? E)) then Ok (k, e) else
  match fuel with
  | O => Err OutOfFuel
  | S fuel =>
      x ← array_get w ind;
      if x =? LTE_NULL then rm_pass fuel w e off (ind + 1) Ncb k E
      else
        e ← array_set e (off + k) x;
        rm_pass fuel w e off (ind + 1) Ncb (k + 1) E
  end.
Fixpoint rm_while (fuel : nat) (w e : list Z) (off Ncb k E : Z) : res (list Z) :=
  if negb (k <? E) then Ok e else
  match fuel with
  | O => Err OutOfFuel
  | S fuel =>
      '(k, e) ← rm_pass (Z.to_nat Ncb) w e off 0 Ncb k E;
      rm_while fuel w e off Ncb k E
  end.
(** [e + off] is the argument; the result is the number of bits and the buffer.  The fuel of the second loop is
    enough when some bit is not NULL. *)
Definition lte_rate_matching_turbo (p : rm_params) (RTC : Z) (w e : list Z) (off r : Z) : res (Z * list Z) :=
  Ncb ← rm_Ncb p RTC;
  _ ← assert_that (negb (Ncb >? u32 (3 * Z.shiftl RTC 5)));
  E ← rm_E p r;
  k0 ← rm_k0 p RTC Ncb;
  '(k, e) ← rm_pass (Z.to_nat Ncb) w e off k0 Ncb 0 E;
  e ← rm_while (Z.to_nat E) w e off Ncb k E;
  Ok (E, e).

(** ** Accumulation of the soft bits *)
Fixpoint rx_pass (fuel : nat) (w dummy_w soft : list Z) (off ind Ncb k E : Z) : res (Z * list Z) :=
  if negb ((ind <? Ncb) && (k <? E)) then Ok (k, w) else
  match fuel with
  | O => Err OutOfFuel
  | S fuel =>
      x ← array_get dummy_w ind;
      if x =? LTE_NULL then rx_pass fuel w dummy_w soft off (ind + 1) Ncb k E
      else
        v ← array_get w ind;
        s ← array_get soft (off + k);
        w ← array_set w ind (i16 (v + s));
        rx_pass fuel w dummy_w soft off (ind + 1) Ncb (k + 1) E
  end.
Fixpoint rx_while (fuel : nat) (w dummy_w soft : list Z) (off Ncb k E : Z) : res (list Z) :=
  if negb (k <? E) then Ok w else
  match fuel with
  | O => Err OutOfFuel
  | S fuel =>
      '(k, w) ← rx_pass (Z.to_nat Ncb) w dummy_w soft off 0 Ncb k E;
      rx_while fuel w dummy_w soft off Ncb k E
  end.
(** -1 for bad parameters; otherwise 0, with [E_out] and the buffer. *)
Definition lte_rate_matching_turbo_rx (p : rm_params) (RTC : Z) (w dummy_w soft : list Z) (off clear r : Z)
  : res (Z * option Z * list Z) :=
  if (rm_Kmimo p =? 0) || (rm_C p =? 0) || (rm_Qm p =? 0) || (rm_Nl p =? 0) then Ok (-1, None, w)
  else
    Ncb ← rm_Ncb p RTC;
    E ← rm_E p r;
    k0 ← rm_k0 p RTC Ncb;
    w ← (if clear =? 1 then mem_write w 0 (replicate (Z.to_nat Ncb) 0) else Ok w);
    '(k, w) ← rx_pass (Z.to_nat Ncb) w dummy_w soft off k0 Ncb 0 E;
    w ← rx_while (Z.to_nat E) w dummy_w soft off Ncb k E;
    Ok (0, Some E, w).
(** The loop of [dlsch_encoding] over the code blocks: their bits one behind the other in [e]. *)
Fixpoint dlsch_rate_matching (p : rm_params) (blocks : list (Z * list Z)) (r r_offset : Z) (e : list Z) : res (Z * list Z) :=
  match blocks with
  | [] => Ok (r_offset, e)
  | (RTC, w) :: blocks =>
      '(E, e) ← lte_rate_matching_turbo p RTC w e r_offset r;
      dlsch_rate_matching p blocks (r + 1) (r_offset + E) e
  end.
