(* ===== verification/PhyRateMatchingSpec.v ===== *)
(** * What the interleaver does (openair1/PHY/CODING/lte_rate_matching.c)

    The permutation in closed form; the deinterleaver undoes the interleaver, and the dummy buffer is NULL exactly
    where the sender's is. *)

From S2P Require Import Prelude PhyRateMatching.

Lemma array_get_set {A} (l : list A) i v l' : array_set l i v = Ok l' ->
  length l' = length l /\ forall j, array_get l' j = if j =? i then Ok v else array_get l j.
Proof.
  intros H. apply array_set_inv in H as [Hi ->]. split; [by rewrite length_insert|]. intros j. unfold array_get.
  destruct (Z.eqb_spec j i) as [-> | Hne].
  - rewrite (proj2 (Z.leb_le _ _) (proj1 Hi)). by rewrite list_lookup_insert_eq by lia.
  - destruct (Z.leb_spec 0 j); [|done]. by rewrite list_lookup_insert_ne by lia.
Qed.
Lemma array_get_some {A} (l : list A) i : 0 <= i < Z.of_nat (length l) -> exists v, array_get l i = Ok v.
Proof. intros H. destruct (array_get_ok l i H) as (v & E & _). by exists v. Qed.
Lemma array_set_some {A} (l : list A) i v : 0 <= i < Z.of_nat (length l) -> exists l', array_set l i v = Ok l'.
Proof. intros H. rewrite array_set_ok by done. by eexists. Qed.

(** ** The permutation *)
Definition col_of (c : Z) : Z := nth (Z.to_nat c) bitrev 0.
Definition pi_of (R n : Z) : Z := col_of (n / R) + 32 * (n mod R).
Lemma bitrev_x3_eq : bitrev_x3 = map (Z.mul 3) bitrev.
Proof. reflexivity. Qed.
Lemma col_check : forallb (fun c => (0 <=? col_of (Z.of_nat c)) && (col_of (Z.of_nat c) <? 32) && (col_of (col_of (Z.of_nat c)) =? Z.of_nat c)) (seq 0 32) = true.
Proof. vm_compute. reflexivity. Qed.
Lemma col_spec c : 0 <= c < 32 -> 0 <= col_of c < 32 /\ col_of (col_of c) = c.
Proof.
  intros Hc. assert (Hin : In (Z.to_nat c) (seq 0 32)) by (apply in_seq; lia). pose proof (proj1 (forallb_forall _ _) col_check _ Hin) as H.
  cbn beta in H. rewrite Z2Nat.id in H by lia. rewrite !andb_true_iff, Z.leb_le, Z.ltb_lt, Z.eqb_eq in H. lia.
Qed.
Lemma pi_row R c j : 0 <= j < R -> pi_of R (c * R + j) = col_of c + 32 * j.
Proof.
  intros Hj. unfold pi_of. rewrite (Z.add_comm (c * R) j), Z.div_add, Z.mod_add by lia. by rewrite Z.div_small, Z.mod_small, Z.add_0_l by lia.
Qed.
Lemma pi_parts R n : 0 <= n < 32 * R -> 0 <= n / R < 32 /\ 0 <= n mod R < R /\ n = n / R * R + n mod R.
Proof.
  intros Hn. pose proof (Z.mod_pos_bound n R ltac:(lia)). pose proof (Z.div_mod n R ltac:(lia)). split; [|lia].
  split; [apply Z.div_pos; lia | apply Z.div_lt_upper_bound; lia].
Qed.
Lemma pi_range R n : 0 <= n < 32 * R -> 0 <= pi_of R n < 32 * R.
Proof. intros Hn. destruct (pi_parts R n Hn) as (Hc & Hr & _). unfold pi_of. destruct (col_spec (n / R) Hc) as [H _]. nia. Qed.
Lemma pi_inj R n m : 0 <= n < 32 * R -> 0 <= m < 32 * R -> pi_of R n = pi_of R m -> n = m.
Proof.
  intros Hn Hm E. destruct (pi_parts R n Hn) as (Hc & Hr & Hn'), (pi_parts R m Hm) as (Hc' & Hr' & Hm'). unfold pi_of in E.
  destruct (col_spec _ Hc) as [H1 H2], (col_spec _ Hc') as [H1' H2'].
  assert (col_of (n / R) = col_of (m / R) /\ n mod R = m mod R) as [E1 E2] by lia. rewrite E1 in H2. rewrite Hn', Hm'. lia.
Qed.

(** ** The interleaver *)
Definition interleaved (R d1 k : Z) (d w : list Z) : Prop := forall n, 0 <= n < k ->
  array_get w n = array_get d (d1 + 3 * pi_of R n) /\ array_get w (32 * R + 2 * n) = array_get d (d1 + 1 + 3 * pi_of R n) /\
  array_get w (32 * R + 1 + 2 * n) = array_get d (d1 + 5 + 3 * pi_of R n).
Lemma interleave_rows_ok R d1 d n : 0 <= d1 -> d1 + 96 * R + 2 < Z.of_nat (length d) -> forall c j w, 0 <= c < 32 -> 0 <= j -> j + Z.of_nat n <= R ->
  96 * R <= Z.of_nat (length w) -> interleaved R d1 (c * R + j) d w ->
  exists w', interleave_rows n d d1 (d1 + 1) (d1 + 5) (32 * R) (3 * (col_of c + 32 * j)) (c * R + j) (2 * (c * R + j)) w =
      Ok (c * R + j + Z.of_nat n, 2 * (c * R + j + Z.of_nat n), w') /\
    length w' = length w /\ interleaved R d1 (c * R + j + Z.of_nat n) d w'.
Proof.
  intros Hd1 Hd. induction n as [|n IH]; intros c j w Hc Hj HR Hw Hi.
  { exists w. cbn [interleave_rows]. rewrite !Z.add_0_r. by split. }
  cbn [interleave_rows]. set (k := c * R + j) in *. assert (Hk : 0 <= k < 32 * R) by (unfold k; nia).
  assert (Ep : col_of c + 32 * j = pi_of R k) by (symmetry; apply pi_row; lia). pose proof (pi_range R k Hk) as Hp. rewrite Ep.
  destruct (array_get_some d (d1 + 3 * pi_of R k)) as [x Hx]; [lia|]. destruct (array_get_some d (d1 + 1 + 3 * pi_of R k)) as [y Hy]; [lia|].
  destruct (array_get_some d (d1 + 5 + 3 * pi_of R k)) as [z Hz]; [lia|].
  rewrite Hx. cbn [mbind res_bind]. destruct (array_set_some w k x) as [w1 E1]; [lia|]. rewrite E1. cbn [mbind res_bind]. apply array_get_set in E1 as [L1 G1].
  rewrite Hy. cbn [mbind res_bind]. destruct (array_set_some w1 (32 * R + 2 * k) y) as [w2 E2]; [lia|]. rewrite E2. cbn [mbind res_bind]. apply array_get_set in E2 as [L2 G2].
  rewrite Hz. cbn [mbind res_bind]. destruct (array_set_some w2 (32 * R + 1 + 2 * k) z) as [w3 E3]; [lia|]. rewrite E3. cbn [mbind res_bind]. apply array_get_set in E3 as [L3 G3].
  destruct (IH c (j + 1) w3) as (w' & E & L & I); [done | lia | lia | lia | |].
  - intros m Hm. rewrite !G3, !G2, !G1. destruct (Z.eq_dec m k) as [-> | Hne].
    + rewrite Hx, Hy, Hz. repeat (case_match; bool_prop; try lia). done.
    + destruct (Hi m ltac:(unfold k in *; lia)) as (H1 & H2 & H3). rewrite <- H1, <- H2, <- H3. repeat (case_match; bool_prop; try lia). done.
  - exists w'. replace (c * R + (j + 1)) with (k + 1) in * by (unfold k; lia).
    replace (3 * (col_of c + 32 * (j + 1))) with (3 * pi_of R k + 96) in E by lia. replace (2 * (k + 1)) with (2 * k + 2) in E by lia.
    rewrite E. replace (k + Z.of_nat (S n)) with (k + 1 + Z.of_nat n) by lia. split; [done|]. split; [congruence | done].
Qed.
(** The columns from the [c]-th on. *)
Lemma bitrev_split c : 0 <= c < 32 -> drop (Z.to_nat c) bitrev = col_of c :: drop (Z.to_nat (c + 1)) bitrev.
Proof.
  intros Hc. replace (Z.to_nat (c + 1)) with (S (Z.to_nat c)) by lia.
  apply drop_S. destruct (lookup_lt_is_Some_2 bitrev (Z.to_nat c)) as [x Hx]; [change (length bitrev) with 32%nat; lia|].
  rewrite Hx. f_equal. symmetry. unfold col_of. by apply nth_lookup_Some.
Qed.
Lemma x3_split c : 0 <= c < 32 -> drop (Z.to_nat c) bitrev_x3 = 3 * col_of c :: drop (Z.to_nat (c + 1)) bitrev_x3.
Proof. intros Hc. rewrite bitrev_x3_eq, <- !fmap_drop. by rewrite (bitrev_split c Hc). Qed.
Lemma interleave_cols_ok R d1 d : 0 <= R -> 0 <= d1 -> d1 + 96 * R + 2 < Z.of_nat (length d) -> forall m c w, c + Z.of_nat m = 32 -> 0 <= c ->
  96 * R <= Z.of_nat (length w) -> interleaved R d1 (c * R) d w ->
  exists w', interleave_cols (drop (Z.to_nat c) bitrev_x3) R d d1 (d1 + 1) (d1 + 5) (32 * R) (c * R) (2 * (c * R)) w =
      Ok (32 * R, 2 * (32 * R), w') /\
    length w' = length w /\ interleaved R d1 (32 * R) d w'.
Proof.
  intros HR Hd1 Hd. induction m as [|m IH]; intros c w Hc Hc0 Hw Hi.
  { replace c with 32 in * by lia. exists w. by split. }
  rewrite x3_split by lia. cbn [interleave_cols].
  destruct (interleave_rows_ok R d1 d (Z.to_nat R) Hd1 Hd c 0 w) as (w1 & E & L & I); [lia | lia | lia | done | by rewrite Z.add_0_r|].
  rewrite Z.mul_0_r, !Z.add_0_r, Z2Nat.id in * by done. rewrite E. cbn [mbind res_bind]. replace (c * R + R) with ((c + 1) * R) in * by lia.
  destruct (IH (c + 1) w1) as (w' & E' & L' & I'); [lia | lia | by rewrite L | done|]. exists w'. rewrite E'. split; [done|]. split; [congruence | done].
Qed.
(** The sizes. *)
Lemma RTC_ok D : 0 < D < 2 ^ 24 -> 32 * RTC_of D - 32 < D <= 32 * RTC_of D /\ u32 (Z.shiftl (RTC_of D) 5) = 32 * RTC_of D /\ 1 <= RTC_of D.
Proof.
  intros HD. assert (H : 32 * RTC_of D - 32 < D <= 32 * RTC_of D).
  { unfold RTC_of. change 31 with (2 ^ 5 - 1). rewrite land_ones_mod, Z.shiftr_div_pow2 by lia. change (2 ^ 5) with 32.
    pose proof (Z.div_mod D 32 ltac:(lia)). pose proof (Z.mod_pos_bound D 32 ltac:(lia)).
    rewrite Z.gtb_ltb. destruct (Z.ltb_spec 0 (D mod 32)); [|lia]. unfold u32. rewrite wrapu_small by lia. lia. }
  split; [done|]. split; [|lia]. rewrite Z.shiftl_mul_pow2 by lia. unfold u32. rewrite wrapu_small; lia.
Qed.
(** The buffer [d]: the bits of three streams from [base] on, and room before and behind them. *)
Definition d_room (D base : Z) (d : list Z) : Prop := 96 <= base /\ base + 3 * D + 2 < Z.of_nat (length d).
Lemma sub_block_interleaving_ok D d base w : 0 < D < 2 ^ 24 -> d_room D base d -> 96 * RTC_of D <= Z.of_nat (length w) ->
  let R := RTC_of D in let ND := 32 * R - D in
  exists d' w', sub_block_interleaving_turbo D d base w = Ok (R, d', w') /\ length w' = length w /\
    (forall i, i <> base + 3 * D + 2 -> array_get d' i = array_get d i) /\
    (forall n, 0 <= n < 32 * R -> array_get w' n = array_get d' (base - 3 * ND + 3 * pi_of R n) /\
       array_get w' (32 * R + 2 * n) = array_get d' (base - 3 * ND + 1 + 3 * pi_of R n) /\
       array_get w' (32 * R + 1 + 2 * n) = if (0 <? ND) && (n =? 32 * R - 1) then Ok LTE_NULL else array_get d' (base - 3 * ND + 5 + 3 * pi_of R n)).
Proof.
  intros HD [Hb Hd] Hw R ND. destruct (RTC_ok D HD) as (HR & EK & HR1). fold R in HR, EK, HR1, Hw. unfold sub_block_interleaving_turbo. fold R. rewrite EK.
  assert (u32 (32 * R - D) = ND) as -> by (apply wrapu_small; lia). assert (u32 (ND * 3) = 3 * ND) as -> by (unfold u32; rewrite wrapu_small; lia).
  assert (u32 (3 * D) = 3 * D) as -> by (apply wrapu_small; lia). assert (u32 (3 * (32 * R)) = 96 * R) as -> by (unfold u32; rewrite wrapu_small; lia).
  destruct (array_get_some d (base + 2)) as [x Hx]; [lia|]. rewrite Hx. cbn [mbind res_bind].
  destruct (array_set_some d (base + 3 * D + 2) x) as [d' Ed]; [lia|]. rewrite Ed. cbn [mbind res_bind]. apply array_get_set in Ed as [Ld Gd].
  assert (A1 : 0 <= R) by lia. assert (A2 : 0 <= base - 3 * ND) by lia. assert (A3 : base - 3 * ND + 96 * R + 2 < Z.of_nat (length d')) by lia.
  destruct (interleave_cols_ok R (base - 3 * ND) d' A1 A2 A3 32 0 w eq_refl ltac:(lia) Hw) as (w1 & E & L & I); [intros n Hn; lia|].
  change (drop (Z.to_nat 0) bitrev_x3) with bitrev_x3 in E. rewrite !Z.mul_0_l, Z.mul_0_r in E. rewrite E. cbn [mbind res_bind].
  assert (Hlast : exists w', (if ND >? 0 then array_set w1 (96 * R - 1) LTE_NULL else Ok w1) = Ok w' /\ length w' = length w1 /\
    forall j, array_get w' j = if (0 <? ND) && (j =? 96 * R - 1) then Ok LTE_NULL else array_get w1 j).
  { rewrite Z.gtb_ltb. destruct (0 <? ND); [|by exists w1]. destruct (array_set_some w1 (96 * R - 1) LTE_NULL) as [w' E']; [lia|]. exists w'.
    split; [done|]. by apply array_get_set in E'. }
  destruct Hlast as (w' & E' & L' & G'). rewrite E'. cbn [mbind res_bind]. exists d', w'. split; [done|]. split; [congruence|].
  split; [intros i Hi; by rewrite Gd, (proj2 (Z.eqb_neq _ _) Hi)|]. intros n Hn. rewrite !G'. destruct (I n Hn) as (H1 & H2 & H3).
  rewrite <- H1, <- H2, <- H3. split; [|split]; destruct (0 <? ND); cbn [andb]; repeat (case_match; bool_prop; try lia); done.
Qed.

(** ** The deinterleaver *)
Definition deinterleaved (R d1 k : Z) (w d : list Z) : Prop := forall n, 0 <= n < k ->
  array_get d (d1 + 3 * pi_of R n) = array_get w n /\ array_get d (d1 + 1 + 3 * pi_of R n) = array_get w (32 * R + 2 * n) /\
  array_get d (d1 + 5 + 3 * pi_of R n) = array_get w (32 * R + 1 + 2 * n).
Lemma deinterleave_rows_ok R d1 w n : 0 <= d1 -> 96 * R <= Z.of_nat (length w) -> forall c j d, 0 <= c < 32 -> 0 <= j -> j + Z.of_nat n <= R ->
  d1 + 96 * R + 2 < Z.of_nat (length d) -> deinterleaved R d1 (c * R + j) w d ->
  exists d', deinterleave_rows n w d1 (d1 + 1) (d1 + 5) (32 * R) (3 * (col_of c + 32 * j)) (c * R + j) (2 * (c * R + j)) d =
      Ok (c * R + j + Z.of_nat n, 2 * (c * R + j + Z.of_nat n), d') /\
    length d' = length d /\ deinterleaved R d1 (c * R + j + Z.of_nat n) w d'.
Proof.
  intros Hd1 Hw. induction n as [|n IH]; intros c j d Hc Hj HR Hd Hi.
  { exists d. cbn [deinterleave_rows]. rewrite !Z.add_0_r. by split. }
  cbn [deinterleave_rows]. set (k := c * R + j) in *. assert (Hk : 0 <= k < 32 * R) by (unfold k; nia).
  assert (Ep : col_of c + 32 * j = pi_of R k) by (symmetry; apply pi_row; lia). pose proof (pi_range R k Hk) as Hp. rewrite Ep.
  destruct (array_get_some w k) as [x Hx]; [lia|]. destruct (array_get_some w (32 * R + 2 * k)) as [y Hy]; [lia|].
  destruct (array_get_some w (32 * R + 1 + 2 * k)) as [z Hz]; [lia|].
  rewrite Hx. cbn [mbind res_bind]. destruct (array_set_some d (d1 + 3 * pi_of R k) x) as [w1 E1]; [lia|]. rewrite E1. cbn [mbind res_bind]. apply array_get_set in E1 as [L1 G1].
  rewrite Hy. cbn [mbind res_bind]. destruct (array_set_some w1 (d1 + 1 + 3 * pi_of R k) y) as [w2 E2]; [lia|]. rewrite E2. cbn [mbind res_bind]. apply array_get_set in E2 as [L2 G2].
  rewrite Hz. cbn [mbind res_bind]. destruct (array_set_some w2 (d1 + 5 + 3 * pi_of R k) z) as [w3 E3]; [lia|]. rewrite E3. cbn [mbind res_bind]. apply array_get_set in E3 as [L3 G3].
  destruct (IH c (j + 1) w3) as (w' & E & L & I); [done | lia | lia | lia | |].
  - intros m Hm. rewrite !G3, !G2, !G1. destruct (Z.eq_dec m k) as [-> | Hne].
    + rewrite Hx, Hy, Hz. repeat (case_match; bool_prop; try lia). done.
    + assert (Hpm : pi_of R m <> pi_of R k) by (intros Hpi; apply Hne; apply (pi_inj R); unfold k in *; (lia || done)).
      destruct (Hi m ltac:(unfold k in *; lia)) as (H1 & H2 & H3). rewrite H1, H2, H3. repeat (case_match; bool_prop; try lia). done.
  - exists w'. replace (c * R + (j + 1)) with (k + 1) in * by (unfold k; lia).
    replace (3 * (col_of c + 32 * (j + 1))) with (3 * pi_of R k + 96) in E by lia. replace (2 * (k + 1)) with (2 * k + 2) in E by lia.
    rewrite E. replace (k + Z.of_nat (S n)) with (k + 1 + Z.of_nat n) by lia. split; [done|]. split; [congruence | done].
Qed.
Lemma deinterleave_cols_ok R d1 w : 0 <= R -> 0 <= d1 -> 96 * R <= Z.of_nat (length w) -> forall m c d, c + Z.of_nat m = 32 -> 0 <= c ->
  d1 + 96 * R + 2 < Z.of_nat (length d) -> deinterleaved R d1 (c * R) w d ->
  exists d', deinterleave_cols (drop (Z.to_nat c) bitrev_x3) R w d1 (d1 + 1) (d1 + 5) (32 * R) (c * R) (2 * (c * R)) d =
      Ok (32 * R, 2 * (32 * R), d') /\
    length d' = length d /\ deinterleaved R d1 (32 * R) w d'.
Proof.
  intros HR Hd1 Hw. induction m as [|m IH]; intros c d Hc Hc0 Hd Hi.
  { replace c with 32 in * by lia. exists d. by split. }
  rewrite x3_split by lia. cbn [deinterleave_cols].
  destruct (deinterleave_rows_ok R d1 w (Z.to_nat R) Hd1 Hw c 0 d) as (d2 & E & L & I); [lia | lia | lia | done | by rewrite Z.add_0_r|].
  rewrite Z.mul_0_r, !Z.add_0_r, Z2Nat.id in * by done. rewrite E. cbn [mbind res_bind]. replace (c * R + R) with ((c + 1) * R) in * by lia.
  destruct (IH (c + 1) d2) as (d' & E' & L' & I'); [lia | lia | by rewrite L | done|]. exists d'. rewrite E'. split; [done|]. split; [congruence | done].
Qed.
Lemma sub_block_deinterleaving_ok D d base w : 0 < D < 2 ^ 24 -> d_room D base d -> 96 * RTC_of D <= Z.of_nat (length w) ->
  let R := RTC_of D in let ND := 32 * R - D in
  exists d', sub_block_deinterleaving_turbo D d base w = Ok d' /\ length d' = length d /\ deinterleaved R (base - 3 * ND) (32 * R) w d'.
Proof.
  intros HD [Hb Hd] Hw R ND. destruct (RTC_ok D HD) as (HR & EK & HR1). fold R in HR, EK, HR1, Hw. unfold sub_block_deinterleaving_turbo. fold R. rewrite EK.
  assert (u32 (32 * R - D) = ND) as -> by (apply wrapu_small; lia). assert (u32 (ND * 3) = 3 * ND) as -> by (unfold u32; rewrite wrapu_small; lia).
  assert (A1 : 0 <= R) by lia. assert (A2 : 0 <= base - 3 * ND) by lia. assert (A3 : base - 3 * ND + 96 * R + 2 < Z.of_nat (length d)) by lia.
  destruct (deinterleave_cols_ok R (base - 3 * ND) w A1 A2 Hw 32 0 d eq_refl ltac:(lia) A3) as (d' & E & L & I); [intros n Hn; lia|].
  change (drop (Z.to_nat 0) bitrev_x3) with bitrev_x3 in E. rewrite !Z.mul_0_l, Z.mul_0_r in E. rewrite E. cbn [mbind res_bind]. by exists d'.
Qed.

(** ** The dummy buffer *)
Lemma set_if_ok b w i v : (b = true -> 0 <= i < Z.of_nat (length w)) ->
  exists w', set_if b w i v = Ok w' /\ length w' = length w /\ forall j, array_get w' j = if b && (j =? i) then Ok v else array_get w j.
Proof.
  intros Hi. unfold set_if. destruct b; [|by exists w]. destruct (array_set_some w i v (Hi eq_refl)) as [w' E]. exists w'. split; [done|].
  by apply array_get_set in E.
Qed.
(** NULL where the index is below [ND + F], below [ND] for the third stream. *)
Definition dummied (R ND F k : Z) (w : list Z) : Prop := forall n, 0 <= n < 32 * R ->
  array_get w n = Ok (if (n <? k) && (pi_of R n <? ND + F) then LTE_NULL else 0) /\
  array_get w (32 * R + 2 * n) = Ok (if (n <? k) && (pi_of R n <? ND + F) then LTE_NULL else 0) /\
  array_get w (32 * R + 1 + 2 * n) = Ok (if (n <? k) && (pi_of R n + 1 <? ND) then LTE_NULL else 0).
Lemma dummy_cell R lim k c n : 0 <= c < 32 -> 1 <= R -> lim <= 96 -> lim <= 32 * R -> k = c * R -> 0 <= n < 32 * R ->
  (if (col_of c + 64 <? lim) && (n =? k + 2) then Ok LTE_NULL else if (col_of c + 32 <? lim) && (n =? k + 1) then Ok LTE_NULL else
   if (col_of c <? lim) && (n =? k) then Ok LTE_NULL else Ok (if (n <? k) && (pi_of R n <? lim) then LTE_NULL else 0))
  = Ok (if (n <? k + R) && (pi_of R n <? lim) then LTE_NULL else 0).
Proof.
  intros Hc HR Hl96 HlR -> Hn. destruct (col_spec c Hc) as [Hcol _].
  destruct (Z.lt_ge_cases n (c * R)) as [Hlt | Hge].
  { rewrite (proj2 (Z.eqb_neq n (c * R + 2))), (proj2 (Z.eqb_neq n (c * R + 1))), (proj2 (Z.eqb_neq n (c * R))), !andb_false_r by lia.
    by rewrite (proj2 (Z.ltb_lt n (c * R))), (proj2 (Z.ltb_lt n (c * R + R))) by lia. }
  rewrite (proj2 (Z.ltb_ge n (c * R))) by lia. destruct (Z.lt_ge_cases n (c * R + R)) as [Hin | Hout].
  - assert (Ep : pi_of R n = col_of c + 32 * (n - c * R)) by (rewrite <- (pi_row R c (n - c * R)) by lia; f_equal; lia). rewrite Ep, (proj2 (Z.ltb_lt n (c * R + R))) by lia.
    cbn [andb]. destruct (Z.ltb_spec (col_of c + 64) lim), (Z.ltb_spec (col_of c + 32) lim), (Z.ltb_spec (col_of c) lim),
      (Z.ltb_spec (col_of c + 32 * (n - c * R)) lim), (Z.eqb_spec n (c * R + 2)), (Z.eqb_spec n (c * R + 1)), (Z.eqb_spec n (c * R)); cbn [andb]; (done || lia).
  - rewrite (proj2 (Z.ltb_ge n (c * R + R))) by lia. cbn [andb].
    destruct (Z.ltb_spec (col_of c + 64) lim), (Z.ltb_spec (col_of c + 32) lim), (Z.ltb_spec (col_of c) lim),
      (Z.eqb_spec n (c * R + 2)), (Z.eqb_spec n (c * R + 1)), (Z.eqb_spec n (c * R)); cbn [andb]; (done || lia).
Qed.
Lemma dummy_cell3 R ND k c n : 0 <= c < 32 -> 1 <= R -> ND < 32 -> k = c * R -> 0 <= n < 32 * R ->
  (if (col_of c + 1 <? ND) && (n =? k) then Ok LTE_NULL else Ok (if (n <? k) && (pi_of R n + 1 <? ND) then LTE_NULL else 0))
  = Ok (if (n <? k + R) && (pi_of R n + 1 <? ND) then LTE_NULL else 0).
Proof.
  intros Hc HR HND Hk Hn. pose proof (dummy_cell R (ND - 1) k c n Hc HR ltac:(lia) ltac:(lia) Hk Hn) as E.
  destruct (col_spec c Hc) as [Hcol _]. rewrite (proj2 (Z.ltb_ge (col_of c + 64) _)), (proj2 (Z.ltb_ge (col_of c + 32) _)) in E by lia.
  cbn [andb] in E. assert (E1 : forall x, (x <? ND - 1) = (x + 1 <? ND)) by (intros x; destruct (Z.ltb_spec x (ND - 1)), (Z.ltb_spec (x + 1) ND); (done || lia)).
  rewrite !E1 in E. exact E.
Qed.
Lemma dummy_cols_ok R ND F : 1 <= R -> 0 <= ND < 32 -> 0 <= F -> ND + F <= 96 -> ND + F <= 32 * R -> forall m c w, c + Z.of_nat m = 32 -> 0 <= c ->
  96 * R <= Z.of_nat (length w) -> dummied R ND F (c * R) w ->
  exists w', dummy_cols (drop (Z.to_nat c) bitrev) R (32 * R) ND F (c * R) w = Ok w' /\ length w' = length w /\ dummied R ND F (32 * R) w'.
Proof.
  intros HR HND HF H96 HlR. induction m as [|m IH]; intros c w Hc Hc0 Hw Hi.
  { replace c with 32 in * by lia. by exists w. }
  rewrite bitrev_split by lia. cbn [dummy_cols]. rewrite Z.shiftl_mul_pow2 by lia. change (2 ^ 1) with 2. set (k := c * R) in *.
  destruct (col_spec c ltac:(lia)) as [Hcol _]. assert (Hk : 0 <= k /\ k + R <= 32 * R) by (unfold k; nia). destruct Hk as [Hk0 HkR].
  destruct (set_if_ok (col_of c <? ND + F) w k LTE_NULL) as (w1 & -> & L1 & G1); [lia|]. cbn [mbind res_bind].
  destruct (set_if_ok (col_of c <? ND + F) w1 (32 * R + k * 2) LTE_NULL) as (w2 & -> & L2 & G2); [lia|]. cbn [mbind res_bind].
  destruct (set_if_ok (col_of c + 32 <? ND + F) w2 (k + 1) LTE_NULL) as (w3 & -> & L3 & G3); [rewrite Z.ltb_lt; lia|]. cbn [mbind res_bind].
  destruct (set_if_ok (col_of c + 32 <? ND + F) w3 (32 * R + 2 + k * 2) LTE_NULL) as (w4 & -> & L4 & G4); [rewrite Z.ltb_lt; lia|]. cbn [mbind res_bind].
  destruct (set_if_ok (col_of c + 64 <? ND + F) w4 (k + 2) LTE_NULL) as (w5 & -> & L5 & G5); [rewrite Z.ltb_lt; lia|]. cbn [mbind res_bind].
  destruct (set_if_ok (col_of c + 64 <? ND + F) w5 (32 * R + 4 + k * 2) LTE_NULL) as (w6 & -> & L6 & G6); [rewrite Z.ltb_lt; lia|]. cbn [mbind res_bind].
  destruct (set_if_ok (col_of c + 1 <? ND) w6 (32 * R + 1 + k * 2) LTE_NULL) as (w7 & -> & L7 & G7); [lia|]. cbn [mbind res_bind].
  destruct (IH (c + 1) w7) as (w' & E' & L' & I'); [lia | lia | lia | | exists w'; replace (k + R) with ((c + 1) * R) by (unfold k; lia); split; [done|]; split; [congruence | done]].
  intros n Hn. replace ((c + 1) * R) with (k + R) by (unfold k; lia). destruct (Hi n Hn) as (H1 & H2 & H3).
  assert (Enq : forall b (x y : Z), (b = true -> x <> y) -> b && (x =? y) = false)
    by (intros [] x y Hxy; [by rewrite (proj2 (Z.eqb_neq x y) (Hxy eq_refl)) | done]).
  assert (Etw : forall x y a, (a + 2 * x =? a + y * 2) = (x =? y)) by (intros x y a; destruct (Z.eqb_spec x y), (Z.eqb_spec (a + 2 * x) (a + y * 2)); (done || lia)).
  rewrite <- (dummy_cell R (ND + F) k c n), <- (dummy_cell3 R ND k c n) by (done || lia). rewrite <- H3. split; [|split].
  - rewrite G7, (Enq _ n) by (rewrite ?Z.ltb_lt; lia). rewrite G6, (Enq _ n) by (rewrite ?Z.ltb_lt; lia). rewrite G5, G4, (Enq _ n (_ + 2 + _)) by (rewrite ?Z.ltb_lt; lia). rewrite G3, G2, (Enq _ n (32 * R + k * 2)) by (rewrite ?Z.ltb_lt; lia).
    by rewrite G1, H1.
  - rewrite G7, Enq by (rewrite ?Z.ltb_lt; lia). rewrite G6, G5, (Enq _ _ (k + 2)) by (rewrite ?Z.ltb_lt; lia). rewrite G4, G3, (Enq _ _ (k + 1)) by (rewrite ?Z.ltb_lt; lia). rewrite G2, G1, (Enq _ _ k) by (rewrite ?Z.ltb_lt; lia).
    rewrite H2. replace (32 * R + 4 + k * 2) with (32 * R + (k + 2) * 2) by (rewrite ?Z.ltb_lt; lia). replace (32 * R + 2 + k * 2) with (32 * R + (k + 1) * 2) by (rewrite ?Z.ltb_lt; lia).
    by rewrite !Etw.
  - rewrite G7, G6, (Enq _ _ (32 * R + 4 + k * 2)) by (rewrite ?Z.ltb_lt; lia). rewrite G5, (Enq _ _ (k + 2)) by (rewrite ?Z.ltb_lt; lia). rewrite G4, (Enq _ _ (32 * R + 2 + k * 2)) by (rewrite ?Z.ltb_lt; lia).
    rewrite G3, (Enq _ _ (k + 1)) by (rewrite ?Z.ltb_lt; lia). rewrite G2, (Enq _ _ (32 * R + k * 2)) by (rewrite ?Z.ltb_lt; lia). rewrite G1, (Enq _ _ k) by (rewrite ?Z.ltb_lt; lia). by rewrite Etw.
Qed.
Lemma generate_dummy_w_ok D F w : 0 < D < 2 ^ 24 -> 0 <= F -> 96 * RTC_of D <= Z.of_nat (length w) ->
  let R := RTC_of D in let ND := 32 * R - D in ND + F <= 96 -> F <= D -> (forall i, 0 <= i < 96 * R -> array_get w i = Ok 0) ->
  exists w', generate_dummy_w D w F = Ok (R, w') /\ length w' = length w /\
    (forall n, 0 <= n < 32 * R -> array_get w' n = Ok (if pi_of R n <? ND + F then LTE_NULL else 0) /\
       array_get w' (32 * R + 2 * n) = Ok (if pi_of R n <? ND + F then LTE_NULL else 0) /\
       array_get w' (32 * R + 1 + 2 * n) = if (0 <? ND) && (n =? 32 * R - 1) then Ok LTE_NULL else Ok (if pi_of R n + 1 <? ND then LTE_NULL else 0)).
Proof.
  intros HD HF Hw R ND H96 HFD H0. destruct (RTC_ok D HD) as (HR & EK & HR1). fold R in HR, EK, HR1, Hw. unfold generate_dummy_w. fold R. rewrite EK.
  assert (u32 (32 * R - D) = ND) as -> by (apply wrapu_small; lia). assert (u32 (3 * (32 * R)) = 96 * R) as -> by (unfold u32; rewrite wrapu_small; lia).
  assert (Hi : dummied R ND F (0 * R) w).
  { intros n Hn. rewrite Z.mul_0_l, (proj2 (Z.ltb_ge n 0)) by lia. cbn [andb]. rewrite !H0 by lia. done. }
  destruct (dummy_cols_ok R ND F HR1 ltac:(lia) HF H96 ltac:(lia) 32 0 w eq_refl ltac:(lia) Hw Hi) as (w1 & E & L & I).
  change (drop (Z.to_nat 0) bitrev) with bitrev in E. rewrite Z.mul_0_l in E. rewrite E. cbn [mbind res_bind]. rewrite Z.gtb_ltb.
  destruct (set_if_ok (0 <? ND) w1 (96 * R - 1) LTE_NULL) as (w2 & -> & L2 & G2); [lia|]. cbn [mbind res_bind]. exists w2. split; [done|]. split; [congruence|].
  intros n Hn. rewrite !G2. destruct (I n Hn) as (H1 & H2 & H3). rewrite (proj2 (Z.ltb_lt n (32 * R))) in * by lia. cbn [andb] in *. rewrite H1, H2, H3.
  rewrite (proj2 (Z.eqb_neq n (96 * R - 1))), (proj2 (Z.eqb_neq (32 * R + 2 * n) (96 * R - 1))), !andb_false_r by lia. split; [done|]. split; [done|].
  destruct (0 <? ND); [|done]. cbn [andb]. destruct (Z.eqb_spec (32 * R + 1 + 2 * n) (96 * R - 1)), (Z.eqb_spec n (32 * R - 1)); (done || lia).
Qed.

(** ** The two ends together *)
(** What the turbo encoder leaves: NULL before [base], the first [F] bits of the first two streams NULL. *)
Definition coded (D F base : Z) (d : list Z) : Prop :=
  (forall i, 1 <= i <= 96 -> array_get d (base - i) = Ok LTE_NULL) /\
  (forall j, 0 <= j < D -> exists x y z, array_get d (base + 3 * j) = Ok x /\ array_get d (base + 3 * j + 1) = Ok y /\ array_get d (base + 3 * j + 2) = Ok z /\
    (x = LTE_NULL <-> j < F) /\ (y = LTE_NULL <-> j < F) /\ z <> LTE_NULL).
Lemma w_index R i : 0 <= i < 96 * R -> exists n, 0 <= n < 32 * R /\ (i = n \/ i = 32 * R + 2 * n \/ i = 32 * R + 1 + 2 * n).
Proof.
  intros Hi. destruct (Z.lt_ge_cases i (32 * R)); [exists i; lia|]. exists ((i - 32 * R) / 2).
  pose proof (Z.div_mod (i - 32 * R) 2 ltac:(lia)). pose proof (Z.mod_pos_bound (i - 32 * R) 2 ltac:(lia)). lia.
Qed.
Lemma pi_last R : 1 <= R -> pi_of R (32 * R - 1) = 32 * R - 1.
Proof. intros HR. replace (32 * R - 1) with (31 * R + (R - 1)) at 1 by lia. rewrite pi_row by lia. change (col_of 31) with 31. lia. Qed.
Lemma ND_pos R D : D <= 32 * R -> D mod 32 <> 0 -> 0 < 32 * R - D.
Proof. intros H H32. destruct (Z.eq_dec D (32 * R)) as [-> | E]; [|lia]. by rewrite Z.mul_comm, Z.mod_mul in H32. Qed.
Lemma nulls_agree D F base d w w0 : 0 < D < 2 ^ 24 -> D mod 32 <> 0 -> 0 <= F <= D -> d_room D base d -> coded D F base d ->
  let R := RTC_of D in 32 * R - D + F <= 96 -> 96 * R <= Z.of_nat (length w) -> 96 * R <= Z.of_nat (length w0) ->
  (forall i, 0 <= i < 96 * R -> array_get w0 i = Ok 0) ->
  exists d' w' dw, sub_block_interleaving_turbo D d base w = Ok (R, d', w') /\ generate_dummy_w D w0 F = Ok (R, dw) /\
    length w' = length w /\ length dw = length w0 /\
    forall i, 0 <= i < 96 * R -> exists a b, array_get w' i = Ok a /\ array_get dw i = Ok b /\ (a = LTE_NULL <-> b = LTE_NULL).
Proof.
  intros HD H32 HF Hroom [Hlow Hbits] R HND Hw Hw0 H0. destruct (RTC_ok D HD) as (HR & _ & HR1). fold R in HR, HR1.
  assert (HN : 0 < 32 * R - D) by (apply ND_pos; done || lia).
  destruct (sub_block_interleaving_ok D d base w HD Hroom Hw) as (d' & w' & E1 & L1 & Hsame & I1).
  destruct (generate_dummy_w_ok D F w0 HD ltac:(lia) Hw0 HND ltac:(lia) H0) as (dw & E2 & L2 & I2). fold R in E1, E2, I1, I2.
  exists d', w', dw. split; [done|]. split; [done|]. split; [done|]. split; [done|]. set (ND := 32 * R - D) in *.
  assert (Hd : forall p, 0 <= p < 32 * R -> exists x y, array_get d' (base - 3 * ND + 3 * p) = Ok x /\ array_get d' (base - 3 * ND + 1 + 3 * p) = Ok y /\
    (x = LTE_NULL <-> p < ND + F) /\ (y = LTE_NULL <-> p < ND + F)).
  { intros p Hp. rewrite !Hsame by lia. destruct (Z.lt_ge_cases p ND).
    - exists LTE_NULL, LTE_NULL. replace (base - 3 * ND + 3 * p) with (base - (3 * (ND - p))) by lia.
      replace (base - 3 * ND + 1 + 3 * p) with (base - (3 * (ND - p) - 1)) by lia. rewrite !Hlow by lia. split; [done|]. split; [done|]. split; (split; [lia | done]).
    - destruct (Hbits (p - ND) ltac:(lia)) as (x & y & z & Hx & Hy & _ & Hxn & Hyn & _). exists x, y.
      replace (base - 3 * ND + 3 * p) with (base + 3 * (p - ND)) by lia. replace (base - 3 * ND + 1 + 3 * p) with (base + 3 * (p - ND) + 1) by lia.
      rewrite Hx, Hy, Hxn, Hyn. split; [done|]. split; [done|]. lia. }
  intros i Hi. destruct (w_index R i Hi) as (n & Hn & Hin). destruct (I1 n Hn) as (A1 & A2 & A3), (I2 n Hn) as (B1 & B2 & B3).
  pose proof (pi_range R n Hn) as Hp. destruct (Hd (pi_of R n) Hp) as (x & y & Hx & Hy & Hxn & Hyn).
  assert (Hnull : forall (b : bool) P, (P <-> b = true) -> (P <-> (if b then LTE_NULL else 0) = LTE_NULL)) by (intros [] P HP; by rewrite HP).
  destruct Hin as [-> | [-> | ->]].
  - rewrite A1, B1, Hx. do 2 eexists. split; [done|]. split; [done|]. apply Hnull. by rewrite Hxn, Z.ltb_lt.
  - rewrite A2, B2, Hy. do 2 eexists. split; [done|]. split; [done|]. apply Hnull. by rewrite Hyn, Z.ltb_lt.
  - rewrite A3, B3. rewrite (proj2 (Z.ltb_lt 0 ND)) by lia. cbn [andb]. destruct (Z.eqb_spec n (32 * R - 1)) as [-> | Hne]; [by exists LTE_NULL, LTE_NULL|].
    assert (Hpl : pi_of R n <> 32 * R - 1) by (intros E; apply Hne, (pi_inj R); [lia | lia | by rewrite pi_last]).
    rewrite Hsame by lia. destruct (Z.lt_ge_cases (pi_of R n + 1) ND) as [Hlt | Hge].
    + replace (base - 3 * ND + 5 + 3 * pi_of R n) with (base - (3 * (ND - pi_of R n - 1) - 2)) by lia. rewrite Hlow by lia.
      rewrite (proj2 (Z.ltb_lt _ _)) by lia. by exists LTE_NULL, LTE_NULL.
    + destruct (Hbits (pi_of R n + 1 - ND) ltac:(lia)) as (_ & _ & z & _ & _ & Hz & _ & _ & Hzn).
      replace (base - 3 * ND + 5 + 3 * pi_of R n) with (base + 3 * (pi_of R n + 1 - ND) + 2) by lia. rewrite Hz, (proj2 (Z.ltb_ge _ _)) by lia.
      exists z, 0. split; [done|]. split; [done|]. done.
Qed.
(** Where the [i]-th bit is in the buffers of sender and receiver. *)
Definition pi_inv (R p : Z) : Z := col_of (p mod 32) * R + p / 32.
Definition place (D i : Z) : Z :=
  let R := RTC_of D in let ND := 32 * R - D in
  if i mod 3 =? 0 then pi_inv R (ND + i / 3) else if i mod 3 =? 1 then 32 * R + 2 * pi_inv R (ND + i / 3)
  else 32 * R + 1 + 2 * pi_inv R (ND + i / 3 - 1).
Lemma pi_inv_spec R p : 0 <= p < 32 * R -> 0 <= pi_inv R p < 32 * R /\ pi_of R (pi_inv R p) = p.
Proof.
  intros Hp. pose proof (Z.mod_pos_bound p 32 ltac:(lia)). pose proof (Z.div_mod p 32 ltac:(lia)).
  destruct (col_spec (p mod 32) ltac:(lia)) as [H1 H2]. assert (0 <= p / 32 < R) by (split; [apply Z.div_pos; lia | apply Z.div_lt_upper_bound; lia]).
  unfold pi_inv. split; [nia|]. rewrite pi_row by lia. lia.
Qed.
Lemma pi_inv_pi R n : 0 <= n < 32 * R -> pi_inv R (pi_of R n) = n.
Proof. intros Hn. pose proof (pi_range R n Hn) as Hp. destruct (pi_inv_spec R _ Hp) as [H1 H2]. by apply (pi_inj R). Qed.
Section Places.
Context (D : Z) (HD : 0 < D < 2 ^ 24) (H32 : D mod 32 <> 0).
Let R := RTC_of D.
Let ND := 32 * R - D.
Lemma place_sizes : 32 * R - 32 < D < 32 * R /\ 1 <= R /\ 0 < ND < 32.
Proof. destruct (RTC_ok D HD) as (HR & _ & HR1). pose proof (ND_pos (RTC_of D) D ltac:(lia) H32). unfold ND, R. lia. Qed.
(** The index in the matrix, and the stream. *)
Lemma place_cases i : 0 <= i < 3 * D -> exists n s, 0 <= n < 32 * R /\ 0 <= s < 3 /\ i = 3 * (i / 3) + s /\ i mod 3 = s /\ 0 <= i / 3 < D /\
  pi_of R n = ND + i / 3 - (if s =? 2 then 1 else 0) /\ place D i = (if s =? 0 then n else if s =? 1 then 32 * R + 2 * n else 32 * R + 1 + 2 * n).
Proof.
  intros Hi. destruct place_sizes as (HR & HR1 & HN). pose proof (Z.div_mod i 3 ltac:(lia)) as Hdm. pose proof (Z.mod_pos_bound i 3 ltac:(lia)) as Hm3.
  assert (Hi3 : 0 <= i / 3 < D) by lia. set (p := ND + i / 3 - (if i mod 3 =? 2 then 1 else 0)).
  assert (Hp : 0 <= p < 32 * R) by (unfold p, ND; fold R in HR; destruct (i mod 3 =? 2); unfold ND in *; lia).
  destruct (pi_inv_spec R p Hp) as [H1 H2]. exists (pi_inv R p), (i mod 3). split; [done|]. split; [done|]. split; [done|]. split; [done|]. split; [done|].
  split; [done|]. unfold place. fold R ND. unfold p. destruct (Z.eqb_spec (i mod 3) 0) as [-> | H0]; [by rewrite Z.sub_0_r|].
  destruct (Z.eqb_spec (i mod 3) 1) as [-> | H3]; [by rewrite Z.sub_0_r|]. by rewrite (proj2 (Z.eqb_eq (i mod 3) 2)) by lia.
Qed.
Lemma place_range i : 0 <= i < 3 * D -> 0 <= place D i < 96 * R.
Proof. intros Hi. destruct (place_cases i Hi) as (n & s & Hn & Hs & _ & _ & _ & _ & ->). destruct (s =? 0); [lia|]. destruct (s =? 1); lia. Qed.
Lemma place_inj i j : 0 <= i < 3 * D -> 0 <= j < 3 * D -> place D i = place D j -> i = j.
Proof.
  intros Hi Hj E. destruct (place_cases i Hi) as (n & s & Hn & Hs & Ei & _ & _ & Hp & Pi), (place_cases j Hj) as (m & t & Hm & Ht & Ej & _ & _ & Hq & Pj).
  rewrite Pi, Pj in E. assert (Hst : s = t /\ n = m).
  { destruct (Z.eqb_spec s 0), (Z.eqb_spec s 1), (Z.eqb_spec t 0), (Z.eqb_spec t 1); lia. }
  destruct Hst as [-> ->]. rewrite Hp in Hq. lia.
Qed.
Lemma place_sent i d base w d' w' : 0 <= i < 3 * D -> d_room D base d -> 96 * R <= Z.of_nat (length w) ->
  sub_block_interleaving_turbo D d base w = Ok (R, d', w') -> array_get w' (place D i) = array_get d (base + i).
Proof.
  intros Hi Hroom Hw E. destruct place_sizes as (HR & HR1 & HN). destruct (sub_block_interleaving_ok D d base w HD Hroom Hw) as (d2 & w2 & E2 & _ & Hsame & I).
  fold R in E2, I. rewrite E in E2. injection E2 as <- <-. fold ND in I. rewrite <- Hsame by lia.
  destruct (place_cases i Hi) as (n & s & Hn & Hs & Ei & _ & Hj & Hp & ->). destruct (I n Hn) as (H1 & H2 & H3).
  assert (Hst : s = 0 \/ s = 1 \/ s = 2) by lia. destruct Hst as [-> | [-> | ->]]; cbn [Z.eqb Pos.eqb] in *; rewrite ?H1, ?H2, ?H3, Hp.
  - f_equal. lia.
  - f_equal. lia.
  - assert (Hnl : n <> 32 * R - 1) by (intros ->; rewrite pi_last in Hp by done; unfold ND in *; lia).
    rewrite (proj2 (Z.eqb_neq n _) Hnl), andb_false_r. f_equal. lia.
Qed.
Lemma place_received i d base w d' : 0 <= i < 3 * D -> d_room D base d -> 96 * R <= Z.of_nat (length w) ->
  sub_block_deinterleaving_turbo D d base w = Ok d' -> array_get d' (base + i) = array_get w (place D i).
Proof.
  intros Hi Hroom Hw E. destruct (sub_block_deinterleaving_ok D d base w HD Hroom Hw) as (d2 & E2 & _ & I).
  fold R in I. rewrite E in E2. injection E2 as <-. fold ND in I.
  destruct (place_cases i Hi) as (n & s & Hn & Hs & Ei & _ & Hj & Hp & ->). destruct (I n Hn) as (H1 & H2 & H3).
  assert (Hst : s = 0 \/ s = 1 \/ s = 2) by lia. destruct Hst as [-> | [-> | ->]]; cbn [Z.eqb Pos.eqb] in *; rewrite <- ?H1, <- ?H2, <- ?H3, Hp; f_equal; lia.
Qed.
(** Every other place is NULL. *)
Lemma place_surj q d base w d' w' F : 0 <= q < 96 * R -> d_room D base d -> coded D F base d -> 96 * R <= Z.of_nat (length w) ->
  sub_block_interleaving_turbo D d base w = Ok (R, d', w') -> array_get w' q = Ok LTE_NULL \/ exists i, 0 <= i < 3 * D /\ place D i = q.
Proof.
  intros Hq Hroom [Hlow _] Hw E. destruct place_sizes as (HR & HR1 & HN). destruct (sub_block_interleaving_ok D d base w HD Hroom Hw) as (d2 & w2 & E2 & _ & Hsame & I).
  fold R in E2, I. rewrite E in E2. injection E2 as <- <-. fold ND in I. destruct (w_index R q Hq) as (n & Hn & Hqn). destruct (I n Hn) as (H1 & H2 & H3).
  pose proof (pi_range R n Hn) as Hp. unfold place. fold R ND.
  assert (Hmid : forall s, 0 <= s < 3 -> (3 * (pi_of R n - ND) + s) mod 3 = s /\ (3 * (pi_of R n - ND) + s) / 3 = pi_of R n - ND).
  { intros s Hs. rewrite (Z.add_comm _ s), (Z.mul_comm 3), Z.mod_add, Z.div_add by lia. rewrite Z.mod_small, Z.div_small by lia. lia. }
  destruct Hqn as [-> | [-> | ->]].
  - rewrite H1, Hsame by lia. destruct (Z.lt_ge_cases (pi_of R n) ND) as [Hlt | Hge].
    + left. replace (base - 3 * ND + 3 * pi_of R n) with (base - 3 * (ND - pi_of R n)) by lia. apply Hlow. lia.
    + right. exists (3 * (pi_of R n - ND) + 0). destruct (Hmid 0 ltac:(lia)) as [-> ->]. split; [lia|]. cbn. rewrite Zplus_minus. by apply pi_inv_pi.
  - rewrite H2, Hsame by lia. destruct (Z.lt_ge_cases (pi_of R n) ND) as [Hlt | Hge].
    + left. replace (base - 3 * ND + 1 + 3 * pi_of R n) with (base - (3 * (ND - pi_of R n) - 1)) by lia. apply Hlow. lia.
    + right. exists (3 * (pi_of R n - ND) + 1). destruct (Hmid 1 ltac:(lia)) as [-> ->]. split; [lia|]. cbn [Z.eqb Pos.eqb]. rewrite Zplus_minus.
      by rewrite pi_inv_pi.
  - rewrite H3. destruct (Z.eqb_spec n (32 * R - 1)) as [-> | Hne]; [left; by rewrite (proj2 (Z.ltb_lt 0 ND)) by lia|]. rewrite andb_false_r.
    assert (Hpl : pi_of R n <> 32 * R - 1) by (intros E'; apply Hne, (pi_inj R); [lia | lia | by rewrite pi_last]).
    rewrite Hsame by lia. destruct (Z.lt_ge_cases (pi_of R n + 1) ND) as [Hlt | Hge].
    + left. replace (base - 3 * ND + 5 + 3 * pi_of R n) with (base - (3 * (ND - pi_of R n - 1) - 2)) by lia. apply Hlow. lia.
    + right. exists (3 * (pi_of R n + 1 - ND) + 2). replace (3 * (pi_of R n + 1 - ND) + 2) with (2 + (pi_of R n + 1 - ND) * 3) by lia.
      rewrite Z.mod_add, Z.div_add by lia. cbn [Z.eqb Pos.eqb]. change (2 mod 3) with 2. change (2 / 3) with 0. cbn [Z.eqb Pos.eqb]. split; [lia|].
      replace (ND + (0 + (pi_of R n + 1 - ND)) - 1) with (pi_of R n) by lia. by rewrite pi_inv_pi.
Qed.
End Places.
