(* ===== verification/PhyRateLink.v ===== *)
(** * Rate matching from end to end (openair1/PHY/CODING/lte_rate_matching.c)

    The loops of both ends go through the same places of the circular buffer; a bit of the code word arrives in
    its place as the sum of the soft bits it was sent as. *)

From S2P Require Import Prelude PhySegmentation PhyRateMatching PhyRateMatchingSpec.

(** ** The places in their order *)
Definition null_at (w : list Z) (i : Z) : bool := match array_get w i with Ok x => x =? LTE_NULL | Err _ => true end.
Definition cell (w : list Z) (i : Z) : Z := match array_get w i with Ok x => x | Err _ => 0 end.
Definition usable (w : list Z) (a n : Z) : list Z := List.filter (fun i => negb (null_at w i)) (seqZ a n).
Definition positions (w : list Z) (k0 Ncb E : Z) : list Z :=
  take (Z.to_nat E) (usable w k0 (Ncb - k0) ++ concat (replicate (Z.to_nat E) (usable w 0 Ncb))).

Lemma usable_step w a n : 0 < n -> usable w a n = if null_at w a then usable w (a + 1) (n - 1) else a :: usable w (a + 1) (n - 1).
Proof. intros Hn. unfold usable. rewrite seqZ_cons by done. cbn [List.filter]. rewrite <- Z.add_1_r, <- Z.sub_1_r. by destruct (null_at w a). Qed.
Lemma usable_none w a n : n <= 0 -> usable w a n = [].
Proof. intros Hn. unfold usable. by rewrite seqZ_nil by done. Qed.
Lemma usable_in w a n i : In i (usable w a n) <-> a <= i < a + n /\ null_at w i = false.
Proof. unfold usable. rewrite List.filter_In, <- list_elem_of_In, elem_of_seqZ, negb_true_iff. done. Qed.
Lemma usable_split w a m n : 0 <= m <= n -> usable w a n = usable w a m ++ usable w (a + m) (n - m).
Proof. intros Hm. unfold usable. rewrite <- List.filter_app. f_equal. rewrite <- seqZ_app by lia. f_equal. lia. Qed.
Lemma usable_NoDup w a n : List.NoDup (usable w a n).
Proof. apply List.NoDup_filter. apply NoDup_ListNoDup, NoDup_seqZ. Qed.
Lemma usable_same w w' a n : (forall i, a <= i < a + n -> null_at w i = null_at w' i) -> usable w a n = usable w' a n.
Proof.
  intros H. unfold usable. apply List.filter_ext_in. intros i Hi. rewrite <- list_elem_of_In, elem_of_seqZ in Hi. by rewrite H.
Qed.

(** ** The sender *)
Lemma rm_pass_ok w off Ncb E : forall fuel ind k pre rest, 0 <= ind -> Ncb <= Z.of_nat (length w) -> Ncb - ind <= Z.of_nat fuel -> 0 <= k <= E ->
  off + k = Z.of_nat (length pre) ->
  let sel := take (Z.to_nat (E - k)) (usable w ind (Ncb - ind)) in (length sel <= length rest)%nat ->
  rm_pass fuel w (pre ++ rest) off ind Ncb k E = Ok (k + Z.of_nat (length sel), pre ++ map (cell w) sel ++ drop (length sel) rest).
Proof.
  induction fuel as [|fuel IH]; intros ind k pre rest Hind Hw Hf Hk Hoff sel Hl.
  all: cbn [rm_pass]; destruct (Z.ltb_spec ind Ncb) as [Hi | Hi]; cbn [andb negb];
    [|subst sel; rewrite usable_none, take_nil by lia; cbn; by rewrite Z.add_0_r].
  { lia. }
  destruct (Z.ltb_spec k E) as [HkE | HkE]; cbn [negb]; [|subst sel; replace (Z.to_nat (E - k)) with 0%nat by lia; cbn; by rewrite Z.add_0_r].
  destruct (array_get_some w ind) as [x Hx]; [lia|]. rewrite Hx. cbn [mbind res_bind]. subst sel.
  rewrite usable_step in * by lia. unfold null_at in *. rewrite Hx in *. replace (Ncb - ind - 1) with (Ncb - (ind + 1)) in * by lia.
  destruct (x =? LTE_NULL); [apply IH; done || lia|]. destruct rest as [|y rest].
  { replace (Z.to_nat (E - k)) with (S (Z.to_nat (E - (k + 1)))) in Hl by lia. cbn in Hl. lia. }
  rewrite array_set_app by done. cbn [mbind res_bind]. rewrite (app_assoc pre [x] rest : pre ++ x :: rest = _).
  replace (Z.to_nat (E - k)) with (S (Z.to_nat (E - (k + 1)))) in * by lia. cbn [take length] in *.
  rewrite IH by (lia || (rewrite length_app; cbn; lia)). cbn [map drop]. unfold cell at 2. rewrite Hx, <- app_assoc. do 2 f_equal. lia.
Qed.
Lemma rm_while_ok w off Ncb E : 0 <= Ncb <= Z.of_nat (length w) -> usable w 0 Ncb <> [] -> forall fuel k pre rest, 0 <= k <= E -> E - k <= Z.of_nat fuel ->
  off + k = Z.of_nat (length pre) -> E - k <= Z.of_nat (length rest) ->
  let sel := take (Z.to_nat (E - k)) (concat (replicate fuel (usable w 0 Ncb))) in
  rm_while fuel w (pre ++ rest) off Ncb k E = Ok (pre ++ map (cell w) sel ++ drop (length sel) rest).
Proof.
  intros Hw Hne. induction fuel as [|fuel IH]; intros k pre rest Hk Hf Hoff Hl sel; cbn [rm_while];
    (destruct (Z.ltb_spec k E) as [HkE | HkE]; cbn [negb]; [|subst sel; replace (Z.to_nat (E - k)) with 0%nat by lia; done]).
  { lia. }
  set (idx := usable w 0 Ncb) in *. pose proof (rm_pass_ok w off Ncb E (Z.to_nat Ncb) 0 k pre rest ltac:(lia) ltac:(lia) ltac:(lia) Hk Hoff) as P.
  cbn zeta in P. rewrite Z.sub_0_r in P. fold idx in P. set (s1 := take (Z.to_nat (E - k)) idx) in *.
  assert (Hs1 : Z.of_nat (length s1) = Z.min (E - k) (Z.of_nat (length idx))) by (unfold s1; rewrite length_take; lia).
  assert (Hidx : (0 < length idx)%nat) by (destruct idx; [done | cbn; lia]).
  rewrite P by lia. cbn [mbind res_bind]. rewrite app_assoc.
  rewrite (IH (k + Z.of_nat (length s1)) (pre ++ map (cell w) s1) (drop (length s1) rest)); [|lia | lia | rewrite length_app, length_map; lia | rewrite length_drop; lia].
  subst sel. cbn [replicate concat]. rewrite take_app. fold s1. replace (Z.to_nat (E - (k + Z.of_nat (length s1)))) with (Z.to_nat (E - k) - length idx)%nat by lia.
  set (s2 := take _ (concat _)). by rewrite map_app, length_app, drop_drop, <- !app_assoc.
Qed.
Lemma length_repeat_ge n (idx : list Z) : idx <> [] -> (n <= length (concat (replicate n idx)))%nat.
Proof. intros H. induction n as [|n IH]; [cbn; lia|]. cbn [replicate concat]. rewrite length_app. destruct idx; [done | cbn [length]; lia]. Qed.
Lemma length_positions w k0 Ncb E : usable w 0 Ncb <> [] -> length (positions w k0 Ncb E) = Z.to_nat E.
Proof. intros H. unfold positions. rewrite length_take, length_app. pose proof (length_repeat_ge (Z.to_nat E) _ H). lia. Qed.
(** Both loops of the sender. *)
Lemma rm_loops_ok w off k0 Ncb E pre rest : 0 <= k0 -> 0 <= Ncb <= Z.of_nat (length w) -> usable w 0 Ncb <> [] -> 0 <= E <= Z.of_nat (length rest) ->
  off = Z.of_nat (length pre) ->
  ('(k, e) ← rm_pass (Z.to_nat Ncb) w (pre ++ rest) off k0 Ncb 0 E; rm_while (Z.to_nat E) w e off Ncb k E) =
    Ok (pre ++ map (cell w) (positions w k0 Ncb E) ++ drop (Z.to_nat E) rest).
Proof.
  intros Hk0 Hw Hne HE Hoff. rewrite rm_pass_ok; try lia; [|rewrite length_take; lia]. cbn [mbind res_bind]. rewrite Z.sub_0_r, Z.add_0_l.
  set (s1 := take (Z.to_nat E) (usable w k0 (Ncb - k0))). assert (Hs1 : (length s1 <= Z.to_nat E)%nat) by (unfold s1; rewrite length_take; lia).
  rewrite app_assoc, rm_while_ok; try done; try lia; [|rewrite length_app, length_map; lia | rewrite length_drop; lia].
  pose proof (length_positions w k0 Ncb E Hne) as HL. unfold positions in *. rewrite take_app in *. fold s1 in HL |- *.
  replace (Z.to_nat (E - Z.of_nat (length s1))) with (Z.to_nat E - length (usable w k0 (Ncb - k0)))%nat by (unfold s1; rewrite length_take; lia).
  set (s2 := take _ (concat _)) in *. rewrite map_app, drop_drop, <- !app_assoc. rewrite length_app in HL. by rewrite HL.
Qed.

(** ** The receiver *)
Fixpoint total_at (j : Z) (sel soft : list Z) : Z :=
  match sel, soft with
  | i :: sel, x :: soft => (if i =? j then x else 0) + total_at j sel soft
  | _, _ => 0
  end.
Lemma total_at_app j s1 : forall s2 soft, (length s1 <= length soft)%nat -> total_at j (s1 ++ s2) soft = total_at j s1 soft + total_at j s2 (drop (length s1) soft).
Proof.
  induction s1 as [|i s1 IH]; intros s2 soft Hl; [done|]. destruct soft as [|x soft]; [cbn in Hl; lia|]. cbn [total_at app length drop] in *.
  rewrite IH by lia. lia.
Qed.
Lemma i16_add a b : i16 (i16 a + b) = i16 (a + b).
Proof.
  unfold i16, wraps. change (2 ^ 16) with 65536. change (2 ^ (16 - 1)) with 32768. f_equal.
  replace ((a + 32768) mod 65536 - 32768 + b + 32768) with ((a + 32768) mod 65536 + b) by lia. rewrite Z.add_mod_idemp_l by lia. f_equal. lia.
Qed.
(** [w'] is [w] with the soft bits added in their places. *)
Definition added (sel soft w w' : list Z) : Prop :=
  length w' = length w /\ forall j v, array_get w j = Ok (i16 v) -> array_get w' j = Ok (i16 (v + total_at j sel soft)).
Lemma added_app s1 s2 soft w w1 w2 : (length s1 <= length soft)%nat -> added s1 soft w w1 -> added s2 (drop (length s1) soft) w1 w2 -> added (s1 ++ s2) soft w w2.
Proof.
  intros Hl [L1 H1] [L2 H2]. split; [congruence|]. intros j v Hj. rewrite total_at_app by done. rewrite Z.add_assoc. by apply H2, H1.
Qed.
Lemma added_nil soft w : added [] soft w w.
Proof. split; [done|]. intros j v Hj. by rewrite Z.add_0_r. Qed.
Lemma rx_pass_ok dw off Ncb E pre : forall fuel ind k w gone rest, 0 <= ind -> Ncb <= Z.of_nat (length dw) -> Ncb <= Z.of_nat (length w) ->
  Ncb - ind <= Z.of_nat fuel -> 0 <= k <= E -> off + k = Z.of_nat (length (pre ++ gone)) ->
  (forall i, 0 <= i < Ncb -> exists v, array_get w i = Ok (i16 v)) ->
  let sel := take (Z.to_nat (E - k)) (usable dw ind (Ncb - ind)) in (length sel <= length rest)%nat ->
  exists w', rx_pass fuel w dw (pre ++ gone ++ rest) off ind Ncb k E = Ok (k + Z.of_nat (length sel), w') /\ added sel rest w w'.
Proof.
  induction fuel as [|fuel IH]; intros ind k w gone rest Hind Hdw Hw Hf Hk Hoff Hv sel Hl.
  all: cbn [rx_pass]; destruct (Z.ltb_spec ind Ncb) as [Hi | Hi]; cbn [andb negb];
    [|subst sel; rewrite usable_none, take_nil by lia; exists w; cbn; rewrite Z.add_0_r; split; [done | apply added_nil]].
  { lia. }
  destruct (Z.ltb_spec k E) as [HkE | HkE]; cbn [negb];
    [|subst sel; replace (Z.to_nat (E - k)) with 0%nat by lia; exists w; cbn; rewrite Z.add_0_r; split; [done | apply added_nil]].
  destruct (array_get_some dw ind) as [x Hx]; [lia|]. rewrite Hx. cbn [mbind res_bind]. subst sel.
  rewrite usable_step in * by lia. unfold null_at in *. rewrite Hx in *. replace (Ncb - ind - 1) with (Ncb - (ind + 1)) in * by lia.
  destruct (x =? LTE_NULL); [apply IH; done || lia|].
  replace (Z.to_nat (E - k)) with (S (Z.to_nat (E - (k + 1)))) in * by lia. cbn [take length] in *.
  destruct rest as [|y rest]; [cbn in Hl; lia|]. destruct (Hv ind ltac:(lia)) as [v Hgv]. rewrite Hgv. cbn [mbind res_bind].
  rewrite (app_assoc pre gone (y :: rest)), array_get_app by done. cbn [mbind res_bind].
  destruct (array_set_some w ind (i16 (i16 v + y))) as [w1 E1]; [lia|]. rewrite E1. cbn [mbind res_bind]. rewrite i16_add in E1.
  apply array_get_set in E1 as [L1 G1]. rewrite <- (app_assoc pre gone (y :: rest)), (app_assoc gone [y] rest : gone ++ y :: rest = _).
  destruct (IH (ind + 1) (k + 1) w1 (gone ++ [y]) rest) as (w' & E' & A); try lia.
  - rewrite !length_app in *. cbn. lia.
  - intros i Hi2. rewrite G1. destruct (i =? ind); [by eexists | by apply Hv].
  - cbn in Hl. lia.
  - exists w'. rewrite E'. split; [do 2 f_equal; lia|]. destruct A as [L A]. split; [congruence|]. intros j u Hj. cbn [total_at].
    rewrite Z.add_assoc. apply A. rewrite G1. destruct (Z.eqb_spec j ind) as [-> | Hne].
    + rewrite Z.eqb_refl. rewrite Hgv in Hj. injection Hj as Hj. by rewrite <- (i16_add v), Hj, i16_add.
    + rewrite (proj2 (Z.eqb_neq ind j)) by lia. by rewrite Z.add_0_r.
Qed.
Lemma added_cells sel soft w w' Ncb : added sel soft w w' -> (forall i, 0 <= i < Ncb -> exists v, array_get w i = Ok (i16 v)) ->
  forall i, 0 <= i < Ncb -> exists v, array_get w' i = Ok (i16 v).
Proof. intros [_ A] H i Hi. destruct (H i Hi) as [v Hv]. eexists. by apply A. Qed.
Lemma rx_while_ok dw off Ncb E pre : 0 <= Ncb <= Z.of_nat (length dw) -> usable dw 0 Ncb <> [] -> forall fuel k w gone rest,
  0 <= k <= E -> E - k <= Z.of_nat fuel -> off + k = Z.of_nat (length (pre ++ gone)) -> E - k <= Z.of_nat (length rest) -> Ncb <= Z.of_nat (length w) ->
  (forall i, 0 <= i < Ncb -> exists v, array_get w i = Ok (i16 v)) ->
  exists w', rx_while fuel w dw (pre ++ gone ++ rest) off Ncb k E = Ok w' /\
    added (take (Z.to_nat (E - k)) (concat (replicate fuel (usable dw 0 Ncb)))) rest w w'.
Proof.
  intros Hdw Hne. induction fuel as [|fuel IH]; intros k w gone rest Hk Hf Hoff Hl Hw Hv; cbn [rx_while];
    (destruct (Z.ltb_spec k E) as [HkE | HkE]; cbn [negb]; [|replace (Z.to_nat (E - k)) with 0%nat by lia; exists w; split; [done | apply added_nil]]).
  { lia. }
  set (idx := usable dw 0 Ncb) in *.
  pose proof (rx_pass_ok dw off Ncb E pre (Z.to_nat Ncb) 0 k w gone rest ltac:(lia) ltac:(lia) Hw ltac:(lia) Hk Hoff Hv) as P.
  cbn zeta in P. rewrite Z.sub_0_r in P. fold idx in P. set (s1 := take (Z.to_nat (E - k)) idx) in *.
  assert (Hs1 : Z.of_nat (length s1) = Z.min (E - k) (Z.of_nat (length idx))) by (unfold s1; rewrite length_take; lia).
  assert (Hidx : (0 < length idx)%nat) by (destruct idx; [done | cbn; lia]).
  destruct P as (w1 & P & A1); [lia|]. rewrite P. cbn [mbind res_bind].
  assert (Er : pre ++ gone ++ rest = pre ++ (gone ++ take (length s1) rest) ++ drop (length s1) rest) by (by rewrite <- app_assoc, take_drop). rewrite Er.
  destruct (IH (k + Z.of_nat (length s1)) w1 (gone ++ take (length s1) rest) (drop (length s1) rest)) as (w' & E' & A2); try lia.
  - rewrite !length_app, length_take in *. lia.
  - rewrite length_drop. lia.
  - destruct A1 as [-> _]. lia.
  - by apply (added_cells s1 rest w).
  - exists w'. split; [done|]. cbn [replicate concat]. rewrite take_app. fold s1. apply (added_app _ _ _ _ w1); [lia | done|].
    replace (Z.to_nat (E - k) - length idx)%nat with (Z.to_nat (E - (k + Z.of_nat (length s1)))) by lia. done.
Qed.
(** Both loops of the receiver. *)
Lemma rx_loops_ok dw off k0 Ncb E w pre rest : 0 <= k0 -> 0 <= Ncb <= Z.of_nat (length dw) -> usable dw 0 Ncb <> [] -> 0 <= E <= Z.of_nat (length rest) ->
  off = Z.of_nat (length pre) -> Ncb <= Z.of_nat (length w) -> (forall i, 0 <= i < Ncb -> exists v, array_get w i = Ok (i16 v)) ->
  exists w', ('(k, w) ← rx_pass (Z.to_nat Ncb) w dw (pre ++ rest) off k0 Ncb 0 E; rx_while (Z.to_nat E) w dw (pre ++ rest) off Ncb k E) = Ok w' /\
    added (positions dw k0 Ncb E) rest w w'.
Proof.
  intros Hk0 Hdw Hne HE Hoff Hw Hv. change (pre ++ rest) with (pre ++ [] ++ rest).
  destruct (rx_pass_ok dw off Ncb E pre (Z.to_nat Ncb) k0 0 w [] rest) as (w1 & E1 & A1); try (lia || done).
  { by rewrite app_nil_r, Z.add_0_r. } { rewrite length_take. lia. }
  rewrite E1. cbn [mbind res_bind]. rewrite Z.sub_0_r, Z.add_0_l in *.
  set (s1 := take (Z.to_nat E) (usable dw k0 (Ncb - k0))) in *. assert (Hs1 : (length s1 <= Z.to_nat E)%nat) by (unfold s1; rewrite length_take; lia).
  assert (Er : pre ++ [] ++ rest = pre ++ take (length s1) rest ++ drop (length s1) rest) by (by rewrite take_drop). rewrite Er.
  destruct (rx_while_ok dw off Ncb E pre Hdw Hne (Z.to_nat E) (Z.of_nat (length s1)) w1 (take (length s1) rest) (drop (length s1) rest)) as (w' & E' & A2); try lia.
  - rewrite length_app, length_take. lia.
  - rewrite length_drop. lia.
  - destruct A1 as [-> _]. lia.
  - by apply (added_cells s1 rest w).
  - exists w'. split; [done|]. unfold positions. rewrite take_app. fold s1. apply (added_app _ _ _ _ w1); [lia | done|].
    replace (Z.to_nat E - length (usable dw k0 (Ncb - k0)))%nat with (Z.to_nat (E - Z.of_nat (length s1))) by (unfold s1; rewrite length_take; lia). done.
Qed.

(** ** How often a place is used *)
Definition times (j : Z) (l : list Z) : Z := Z.of_nat (count_occ Z.eq_dec l j).
Lemma times_app j l k : times j (l ++ k) = times j l + times j k.
Proof. unfold times. rewrite count_occ_app. lia. Qed.
Lemma times_take j l n : times j (take n l) <= times j l.
Proof. rewrite <- (take_drop n l) at 2. rewrite times_app. unfold times. lia. Qed.
Lemma times_nodup j l : List.NoDup l -> times j l <= 1.
Proof. intros H. unfold times. pose proof (proj1 (NoDup_count_occ Z.eq_dec l) H j). lia. Qed.
Lemma times_in j l : In j l -> 1 <= times j l.
Proof. intros H. unfold times. apply (count_occ_In Z.eq_dec) in H. lia. Qed.
Lemma total_times (f : Z -> Z) j sel slack : total_at j sel (map f sel ++ slack) = times j sel * f j.
Proof.
  induction sel as [|i sel IH]; [done|]. cbn [map app total_at]. rewrite IH. unfold times. cbn [count_occ].
  destruct (Z.eqb_spec i j) as [-> | Hne]; [destruct (Z.eq_dec j j); [|done] | destruct (Z.eq_dec i j); [done|]]; lia.
Qed.
Lemma times_repeat j (idx : list Z) q : List.NoDup idx -> idx <> [] -> forall m : nat, times j (take m (concat (replicate q idx))) <= Z.of_nat m / Z.of_nat (length idx) + 1.
Proof.
  intros Hnd Hne. assert (Hl : 0 < Z.of_nat (length idx)) by (destruct idx; [done | cbn; lia]).
  induction q as [|q IH]; intros m.
  { cbn [replicate concat]. rewrite take_nil. change (times j []) with 0. assert (0 <= Z.of_nat m / Z.of_nat (length idx)) by (apply Z.div_pos; lia). lia. }
  cbn [replicate concat]. rewrite take_app, times_app. pose proof (times_take j idx m) as H1. pose proof (times_nodup j idx Hnd) as H2.
  destruct (Nat.le_gt_cases m (length idx)) as [Hm | Hm].
  - replace (m - length idx)%nat with 0%nat by lia. change (times j (take 0 _)) with 0.
    assert (0 <= Z.of_nat m / Z.of_nat (length idx)) by (apply Z.div_pos; lia). lia.
  - specialize (IH (m - length idx)%nat). rewrite Nat2Z.inj_sub in IH by lia.
    replace (Z.of_nat m - Z.of_nat (length idx)) with (Z.of_nat m + (-1) * Z.of_nat (length idx)) in IH by lia. rewrite Z.div_add in IH by lia. lia.
Qed.
(** Every place at most once more than the passes, and at least once when there are bits enough. *)
Lemma times_positions w k0 Ncb E j : 0 <= E -> usable w 0 Ncb <> [] ->
  times j (positions w k0 Ncb E) <= E / Z.of_nat (length (usable w 0 Ncb)) + 2.
Proof.
  intros HE Hne. unfold positions. set (idx := usable w 0 Ncb) in *. rewrite take_app, times_app.
  pose proof (times_take j (usable w k0 (Ncb - k0)) (Z.to_nat E)) as H1. pose proof (times_nodup j _ (usable_NoDup w k0 (Ncb - k0))) as H2.
  pose proof (times_repeat j idx (Z.to_nat E) (usable_NoDup w 0 Ncb) Hne (Z.to_nat E - length (usable w k0 (Ncb - k0)))) as H3.
  assert (Z.of_nat (Z.to_nat E - length (usable w k0 (Ncb - k0))) / Z.of_nat (length idx) <= E / Z.of_nat (length idx)).
  { apply Z.div_le_mono; [destruct idx; [done | cbn; lia] | lia]. }
  lia.
Qed.
Lemma positions_all w k0 Ncb E j : 0 <= k0 -> In j (usable w 0 Ncb) -> Z.of_nat (length (usable w 0 Ncb)) <= E -> In j (positions w k0 Ncb E).
Proof.
  intros Hk0 Hj HE. unfold positions. set (idx := usable w 0 Ncb) in *.
  assert (Hidx : (0 < length idx)%nat) by (destruct idx; [done | cbn; lia]).
  destruct (Z.to_nat E) as [|n] eqn:EE; [lia|]. cbn [replicate concat]. set (tail := concat (replicate n idx)). rewrite <- EE. clearbody tail. clear n EE.
  destruct (Z.le_gt_cases Ncb k0) as [Hk | Hk].
  - rewrite usable_none by lia. cbn [app]. rewrite take_app, take_ge by lia. apply in_or_app. by left.
  - set (a := usable w k0 (Ncb - k0)). set (b := usable w 0 k0).
    assert (Esplit : idx = b ++ a) by (unfold idx; by rewrite (usable_split w 0 k0 Ncb) by lia). rewrite Esplit in *. rewrite length_app in HE.
    assert (El : a ++ (b ++ a) ++ tail = (a ++ b) ++ a ++ tail) by (by rewrite <- !app_assoc). rewrite El, take_app, take_ge by (rewrite length_app; lia).
    apply in_or_app. left. apply in_or_app. apply in_app_or in Hj. tauto.
Qed.

(** ** The link *)
Lemma code_sizes K F : turbo_size K -> 0 <= F < 64 -> let D := K + 4 in let R := RTC_of D in
  0 < D < 2 ^ 24 /\ D mod 32 <> 0 /\ 32 * R - D + F <= 96 /\ 1 <= R /\ R < 2 ^ 19.
Proof.
  intros HK HF D R. destruct (turbo_size_range K HK) as [Hr H8]. assert (HD : 0 < D < 2 ^ 24) by (unfold D; lia). destruct (RTC_ok D HD) as (HR & _ & HR1).
  fold R in HR, HR1. split; [done|]. split; [unfold D; mod_lia|]. split; [unfold D in *; mod_lia|]. split; [done | lia].
Qed.
Lemma rm_E_range p r E : rm_E p r = Ok E -> 0 <= E < 2 ^ 32.
Proof. intros H. unfold rm_E in H. res_inv. destruct (r <? _); subst; apply (wrapu_range 32); lia. Qed.
Lemma rm_k0_ok p R Ncb : 1 <= R < 2 ^ 19 -> exists k0, rm_k0 p R Ncb = Ok k0 /\ 0 <= k0.
Proof.
  intros HR. unfold rm_k0, c_mod, c_div. rewrite Z.shiftl_mul_pow2 by lia. change (2 ^ 3) with 8.
  assert (u32 (R * 8) = R * 8) as -> by (apply wrapu_small; lia). rewrite (proj2 (Z.eqb_neq _ _)) by lia. cbn [mbind res_bind].
  eexists. split; [reflexivity|]. apply (wrapu_range 32). lia.
Qed.
Lemma take_rest (l : list Z) off : 0 <= off <= Z.of_nat (length l) -> exists pre rest, l = pre ++ rest /\ Z.of_nat (length pre) = off /\ length rest = (length l - Z.to_nat off)%nat.
Proof.
  intros H. exists (take (Z.to_nat off) l), (drop (Z.to_nat off) l). rewrite take_drop, length_take, length_drop. split; [done|]. split; [lia | done].
Qed.
Lemma array_get_pre {A} (pre l : list A) off k : off = Z.of_nat (length pre) -> 0 <= k -> array_get (pre ++ l) (off + k) = array_get l k.
Proof.
  intros -> Hk. unfold array_get. rewrite !(proj2 (Z.leb_le _ _)) by lia. rewrite lookup_app_r by lia. do 2 f_equal. lia.
Qed.
(** The soft bits are what [phi] makes of the bits sent. *)
Lemma soft_bits (phi : Z -> Z) bits rest soft : (forall k, 0 <= k < Z.of_nat (length bits) -> exists b, array_get (bits ++ rest) k = Ok b /\ array_get soft k = Ok (phi b)) ->
  exists slack, soft = map phi bits ++ slack.
Proof.
  revert soft. induction bits as [|b bits IH]; intros soft H; [by exists soft|].
  destruct (H 0 ltac:(cbn; lia)) as (b0 & H1 & H2). cbn in H1. injection H1 as <-. destruct soft as [|x soft]; [discriminate H2|].
  cbn in H2. injection H2 as ->. destruct (IH soft) as [slack ->]; [|by exists slack].
  intros k Hk. destruct (H (1 + k) ltac:(cbn [length]; lia)) as (b1 & H1 & H2). exists b1.
  change ((b :: bits) ++ rest) with ([b] ++ bits ++ rest) in H1. change (phi b :: soft) with ([phi b] ++ soft) in H2.
  by rewrite array_get_pre in H1, H2 by (done || lia).
Qed.
Lemma map_NoDup (f : Z -> Z) n : (forall i j, 0 <= i < n -> 0 <= j < n -> f i = f j -> i = j) -> List.NoDup (map f (seqZ 0 n)).
Proof.
  intros Hf. apply NoDup_ListNoDup. change (NoDup (f <$> seqZ 0 n)). apply NoDup_fmap_2_strong; [|apply NoDup_seqZ].
  intros i j Hi Hj. rewrite elem_of_seqZ in Hi, Hj. apply Hf; lia.
Qed.
Lemma length_map_seqZ (f : Z -> Z) n : 0 <= n -> Z.of_nat (length (map f (seqZ 0 n))) = n.
Proof. intros Hn. rewrite length_map, length_seqZ. lia. Qed.
(** Between one and three thirds of the places carry bits. *)
Lemma usable_count D F base d w d' w' : 0 < D < 2 ^ 24 -> D mod 32 <> 0 -> d_room D base d -> coded D F base d -> 96 * RTC_of D <= Z.of_nat (length w) ->
  sub_block_interleaving_turbo D d base w = Ok (RTC_of D, d', w') -> D <= Z.of_nat (length (usable w' 0 (96 * RTC_of D))) <= 3 * D.
Proof.
  intros HD H32 Hroom Hc Hw E. set (R := RTC_of D) in *. split.
  - rewrite <- (length_map_seqZ (fun j => place D (3 * j + 2)) D) at 1 by lia. apply inj_le, NoDup_incl_length.
    + apply map_NoDup. intros i j Hi Hj Hp. apply (place_inj D HD H32) in Hp; lia.
    + intros q Hq. apply in_map_iff in Hq as (j & <- & Hj). rewrite <- list_elem_of_In, elem_of_seqZ in Hj. apply usable_in.
      split; [apply place_range; (done || lia)|]. unfold null_at. rewrite (place_sent D HD H32 _ d base w d' w') by (done || lia).
      destruct Hc as [_ Hbits]. destruct (Hbits j ltac:(lia)) as (_ & _ & z & _ & _ & Hz & _ & _ & Hzn). rewrite Z.add_assoc, Hz. by apply Z.eqb_neq.
  - rewrite <- (length_map_seqZ (place D) (3 * D)) by lia. apply inj_le, NoDup_incl_length; [apply usable_NoDup|]. intros q Hq.
    apply usable_in in Hq as [Hq Hn]. destruct (place_surj D HD H32 q d base w d' w' F) as [E0 | (i & Hi & <-)]; [lia | done | done | done | done | |].
    + unfold null_at in Hn. by rewrite E0 in Hn.
    + apply in_map. rewrite <- list_elem_of_In, elem_of_seqZ. lia.
Qed.
Section Link.
Context (p : rm_params) (D F base : Z) (d w w0 : list Z) (E : Z) (r : Z).
Let R := RTC_of D.
Context (HD : 0 < D < 2 ^ 24) (H32 : D mod 32 <> 0) (HR : 1 <= R < 2 ^ 19) (HF : 0 <= F <= D) (HND : 32 * R - D + F <= 96).
Context (Hroom : d_room D base d) (Hc : coded D F base d) (Hw : 96 * R <= Z.of_nat (length w)) (Hw0 : 96 * R <= Z.of_nat (length w0)).
Context (H0 : forall i, 0 <= i < 96 * R -> array_get w0 i = Ok 0) (HN : rm_Ncb p R = Ok (96 * R)) (HE : rm_E p r = Ok E).
Context (Hp : rm_Kmimo p <> 0 /\ rm_C p <> 0 /\ rm_Qm p <> 0 /\ rm_Nl p <> 0).

Lemma three_R : u32 (3 * Z.shiftl R 5) = 96 * R.
Proof. rewrite Z.shiftl_mul_pow2 by lia. change (2 ^ 5) with 32. unfold u32. rewrite wrapu_small; lia. Qed.
(** The sender: the bits at the positions. *)
Lemma link_sent e eo : 0 <= eo -> eo + E <= Z.of_nat (length e) -> exists d' w' dw k0 pre rest,
  sub_block_interleaving_turbo D d base w = Ok (R, d', w') /\ generate_dummy_w D w0 F = Ok (R, dw) /\ length w' = length w /\ length dw = length w0 /\
  (forall i, 0 <= i < 96 * R -> null_at w' i = null_at dw i) /\ rm_k0 p R (96 * R) = Ok k0 /\ 0 <= k0 /\ Z.of_nat (length pre) = eo /\
  lte_rate_matching_turbo p R w' e eo r = Ok (E, pre ++ map (cell w') (positions w' k0 (96 * R) E) ++ rest).
Proof.
  intros Heo HeE. destruct (nulls_agree D F base d w w0 HD H32 HF Hroom Hc HND Hw Hw0 H0) as (d' & w' & dw & E1 & E2 & L1 & L2 & Hn).
  fold R in E1, E2, Hn. destruct (rm_k0_ok p R (96 * R) HR) as (k0 & Ek & Hk0). pose proof (rm_E_range p r E HE) as HE0.
  destruct (take_rest e eo ltac:(lia)) as (pre & rest & -> & Hpre & Hrest). rewrite length_app in HeE.
  exists d', w', dw, k0, pre, (drop (Z.to_nat E) rest). split; [done|]. split; [done|]. split; [done|]. split; [done|]. split.
  { intros i Hi. destruct (Hn i Hi) as (a & b & Ha & Hb & Hab). unfold null_at. rewrite Ha, Hb. apply Bool.eq_iff_eq_true. by rewrite !Z.eqb_eq. }
  split; [done|]. split; [done|]. split; [done|]. unfold lte_rate_matching_turbo. rewrite HN. cbn [mbind res_bind]. rewrite three_R, Z.gtb_ltb, Z.ltb_irrefl.
  cbn [negb assert_that mbind res_bind]. rewrite HE. cbn [mbind res_bind]. rewrite Ek. cbn [mbind res_bind].
  pose proof (usable_count D F base d w d' w' HD H32 Hroom Hc Hw E1) as Hcount. fold R in Hcount.
  pose proof (rm_loops_ok w' eo k0 (96 * R) E pre rest Hk0 ltac:(lia)) as HL. apply bind_ok_inv in HL as ([k e1] & P1 & P2); [|intros E0; rewrite E0 in Hcount; cbn in Hcount; lia | lia | done].
  rewrite P1. cbn [mbind res_bind]. rewrite P2. done.
Qed.
(** The receiver: the soft bits of a bit, added up. *)
Lemma link_received w' dw k0 wr soft so phi : 0 <= k0 -> rm_k0 p R (96 * R) = Ok k0 -> length dw = length w0 -> (forall i, 0 <= i < 96 * R -> null_at w' i = null_at dw i) ->
  usable w' 0 (96 * R) <> [] -> 96 * R <= Z.of_nat (length wr) -> 0 <= so -> so + E <= Z.of_nat (length soft) ->
  (exists pre slack, soft = pre ++ map (fun i => phi (cell w' i)) (positions w' k0 (96 * R) E) ++ slack /\ Z.of_nat (length pre) = so) ->
  exists wr', lte_rate_matching_turbo_rx p R wr dw soft so 1 r = Ok (0, Some E, wr') /\ length wr' = length wr /\
    forall q, 0 <= q < 96 * R -> array_get wr' q = Ok (i16 (times q (positions w' k0 (96 * R) E) * phi (cell w' q))).
Proof.
  intros Hk0 Ek Ldw Hn Hne Hwr Hso HsE (pre & slack & -> & Hpre). pose proof (rm_E_range p r E HE) as HE0. unfold lte_rate_matching_turbo_rx.
  destruct Hp as (P1 & P2 & P3 & P4). rewrite (proj2 (Z.eqb_neq _ _) P1), (proj2 (Z.eqb_neq _ _) P2), (proj2 (Z.eqb_neq _ _) P3), (proj2 (Z.eqb_neq _ _) P4).
  cbn [orb]. rewrite HN. cbn [mbind res_bind]. rewrite HE. cbn [mbind res_bind]. rewrite Ek. cbn [mbind res_bind Z.eqb Pos.eqb].
  assert (Hu : forall a n, 0 <= a -> a + n <= 96 * R -> usable dw a n = usable w' a n) by (intros a n Ha Han; apply usable_same; intros i Hi; symmetry; apply Hn; lia).
  assert (Hpos : positions dw k0 (96 * R) E = positions w' k0 (96 * R) E) by (unfold positions; by rewrite !Hu by lia).
  rewrite mem_write_ok by (rewrite ?length_replicate; lia). cbn [mbind res_bind]. set (wz := take _ wr ++ _).
  assert (Lz : length wz = length wr) by (unfold wz; rewrite !length_app, length_take, length_drop, length_replicate; lia).
  assert (Hz : forall i, 0 <= i < 96 * R -> array_get wz i = Ok (i16 0)).
  { intros i Hi. change wz with (replicate (Z.to_nat (96 * R)) 0 ++ drop (Z.to_nat 0 + length (replicate (Z.to_nat (96 * R)) 0)) wr). unfold array_get. rewrite (proj2 (Z.leb_le _ _)) by lia.
    rewrite lookup_app_l by (rewrite length_replicate; lia). by rewrite lookup_replicate_2 by lia. }
  set (bits := map _ _) in *.
  assert (Hb : length bits = Z.to_nat E) by (unfold bits; rewrite length_map; by apply length_positions).
  destruct (rx_loops_ok dw so k0 (96 * R) E wz pre (bits ++ slack)) as (wr' & P & A); try lia.
  - by rewrite Hu by lia.
  - rewrite length_app. lia.
  - intros i Hi. exists 0. by apply Hz.
  - apply bind_ok_inv in P as ([k w1] & Q1 & Q2). rewrite Q1. cbn [mbind res_bind]. rewrite Q2. cbn [mbind res_bind]. exists wr'. split; [done|].
    destruct A as [L A]. split; [congruence|]. intros q Hq. rewrite (A q 0 (Hz q Hq)), Z.add_0_l, Hpos. unfold bits. by rewrite (total_times (fun i => phi (cell w' i))).
Qed.
End Link.
(** ** All code blocks *)
Lemma rm_Ncb_le p R Ncb : rm_Ncb p R = Ok Ncb -> Ncb <= u32 (3 * Z.shiftl R 5).
Proof.
  unfold rm_Ncb. destruct (rm_Mdlharq p >? 0); intros H; res_inv; subst; [|done]. unfold cmin. destruct (Z.ltb_spec a1 (u32 (3 * Z.shiftl R 5))); lia.
Qed.
Lemma rate_matching_ok p R w e eo r E Ncb : 1 <= R < 2 ^ 19 -> rm_Ncb p R = Ok Ncb -> 0 <= Ncb <= Z.of_nat (length w) -> usable w 0 Ncb <> [] ->
  rm_E p r = Ok E -> 0 <= eo -> eo + E <= Z.of_nat (length e) ->
  exists e', lte_rate_matching_turbo p R w e eo r = Ok (E, e') /\ length e' = length e.
Proof.
  intros HR HN HNw Hne HE Heo HeE. pose proof (rm_E_range p r E HE) as HE0. destruct (rm_k0_ok p R Ncb HR) as (k0 & Ek & Hk0).
  destruct (take_rest e eo ltac:(lia)) as (pre & rest & -> & Hpre & Hrest). rewrite length_app in HeE.
  unfold lte_rate_matching_turbo. rewrite HN. cbn [mbind res_bind]. rewrite Z.gtb_ltb, (proj2 (Z.ltb_ge _ _) (rm_Ncb_le p R Ncb HN)).
  cbn [negb assert_that mbind res_bind]. rewrite HE. cbn [mbind res_bind]. rewrite Ek. cbn [mbind res_bind].
  pose proof (rm_loops_ok w eo k0 Ncb E pre rest Hk0 HNw Hne ltac:(lia) ltac:(lia)) as HL. apply bind_ok_inv in HL as ([k e1] & P1 & P2).
  rewrite P1. cbn [mbind res_bind]. rewrite P2. cbn [mbind res_bind]. eexists. split; [reflexivity|].
  rewrite !length_app, length_map, length_positions, length_drop by done. lia.
Qed.
(** What the blocks before the [n]-th take. *)
Definition rm_before (p : rm_params) (n : Z) : Z :=
  let Gp := rm_G p / rm_Nl p / rm_Qm p in
  rm_Nl p * rm_Qm p * (n * (Gp / rm_C p) + Z.max 0 (n - (rm_C p - Gp mod rm_C p))).
Record rm_sizes (p : rm_params) : Prop := Mk_rm_sizes {
  rs_G : 0 <= rm_G p < 2 ^ 32; rs_C : 0 < rm_C p < 256; rs_Qm : 0 < rm_Qm p < 256; rs_Nl : 0 < rm_Nl p < 256 }.
Lemma rm_total p : rm_sizes p -> rm_before p (rm_C p) = rm_Nl p * rm_Qm p * (rm_G p / rm_Nl p / rm_Qm p) /\ rm_before p (rm_C p) <= rm_G p.
Proof.
  intros [HG HC HQ HN]. unfold rm_before. set (Gp := rm_G p / rm_Nl p / rm_Qm p). pose proof (Z.div_mod Gp (rm_C p) ltac:(lia)).
  pose proof (Z.mod_pos_bound Gp (rm_C p) ltac:(lia)). replace (Z.max 0 _) with (Gp mod rm_C p) by lia. rewrite <- Z.div_mod by lia. split; [done|].
  unfold Gp. rewrite Z.div_div by lia. rewrite <- (Z.mul_div_le (rm_G p) (rm_Nl p * rm_Qm p)) at 2 by nia. lia.
Qed.
Lemma rm_E_ok p r : rm_sizes p -> 0 <= r < rm_C p -> rm_E p r = Ok (rm_before p (r + 1) - rm_before p r) /\ 0 <= rm_before p r <= rm_before p (r + 1) /\
  rm_before p (r + 1) <= rm_before p (rm_C p).
Proof.
  intros Hs Hr. destruct (rm_total p Hs) as [HT HT2]. destruct Hs as [HG HC HQ HN]. unfold rm_E, c_div, c_mod.
  rewrite (proj2 (Z.eqb_neq (rm_Nl p) 0)), (proj2 (Z.eqb_neq (rm_Qm p) 0)), (proj2 (Z.eqb_neq (rm_C p) 0)) by lia. cbn [mbind res_bind].
  unfold rm_before in *. set (Gp := rm_G p / rm_Nl p / rm_Qm p) in *. set (nq := rm_Nl p * rm_Qm p) in *. assert (Hnq : 0 < nq) by (unfold nq; nia).
  pose proof (Z.mod_pos_bound Gp (rm_C p) ltac:(lia)) as Hg. set (g := Gp mod rm_C p) in *. assert (Hq : 0 <= Gp / rm_C p) by (apply Z.div_pos; [|lia]; unfold Gp; apply Z.div_pos; [apply Z.div_pos; lia | lia]).
  set (q := Gp / rm_C p) in *. assert (Hmono : nq * ((r + 1) * q + Z.max 0 (r + 1 - (rm_C p - g))) <= nq * (rm_C p * q + Z.max 0 (rm_C p - (rm_C p - g)))) by (apply Z.mul_le_mono_nonneg_l; nia).
  assert (Hlow : 0 <= nq * (r * q + Z.max 0 (r - (rm_C p - g)))) by (apply Z.mul_nonneg_nonneg; nia).
  assert (Hstep : nq * (r * q + Z.max 0 (r - (rm_C p - g))) <= nq * ((r + 1) * q + Z.max 0 (r + 1 - (rm_C p - g)))) by (apply Z.mul_le_mono_nonneg_l; nia).
  split; [|lia]. assert (Hu : u32 (rm_C p - g) = rm_C p - g) by (apply wrapu_small; lia). rewrite Hu. f_equal.
  destruct (Z.ltb_spec r (rm_C p - g)) as [Hlt | Hge].
  - replace (Z.max 0 (r + 1 - (rm_C p - g))) with 0 in * by lia. replace (Z.max 0 (r - (rm_C p - g))) with 0 in * by lia.
    unfold u32. rewrite wrapu_small by nia. lia.
  - rewrite (proj2 (Z.eqb_neq g 0)) by lia. replace (Z.max 0 (r + 1 - (rm_C p - g))) with (r + 1 - (rm_C p - g)) in * by lia.
    replace (Z.max 0 (r - (rm_C p - g))) with (r - (rm_C p - g)) in * by lia. unfold u32. rewrite wrapu_small by nia. lia.
Qed.
Definition block_ready (p : rm_params) (b : Z * list Z) : Prop :=
  1 <= b.1 < 2 ^ 19 /\ exists Ncb, rm_Ncb p b.1 = Ok Ncb /\ 0 <= Ncb <= Z.of_nat (length b.2) /\ usable b.2 0 Ncb <> [].
Lemma rate_matching_blocks p blocks : rm_sizes p -> Forall (block_ready p) blocks -> forall r e, 0 <= r -> r + Z.of_nat (length blocks) = rm_C p ->
  rm_G p <= Z.of_nat (length e) ->
  exists e', dlsch_rate_matching p blocks r (rm_before p r) e = Ok (rm_before p (rm_C p), e') /\ length e' = length e.
Proof.
  intros Hs Hb. destruct (rm_total p Hs) as [_ HT]. induction Hb as [|[R w] blocks (HR & Ncb & HN & HNw & Hne) _ IH]; intros r e Hr HC HG.
  { cbn in HC. rewrite Z.add_0_r in HC. subst. by exists e. }
  cbn [length fst snd] in *. cbn [dlsch_rate_matching]. destruct (rm_E_ok p r Hs ltac:(lia)) as (HE & H1 & H2).
  destruct (rate_matching_ok p R w e (rm_before p r) r _ Ncb HR HN HNw Hne HE) as (e1 & E1 & L1); [lia | lia|]. rewrite E1. cbn [mbind res_bind].
  rewrite Zplus_minus. destruct (IH (r + 1) e1) as (e' & E' & L'); [lia | lia | by rewrite L1|]. exists e'. split; [done | congruence].
Qed.
(** C17: The code blocks of a transport block are written one behind the other into a
    buffer of exactly [G] bits: the loops end, write nothing outside of it, and fill it
    when [G] is a multiple of the bits of a symbol. The counts C, Qm and Nl are 1..255, G
    is of 32 bits, and in each block's circular buffer, whose size is defined, some place
    is not NULL (without one the code does not end). *)
Theorem rate_matching_fills p blocks e : rm_sizes p -> Forall (block_ready p) blocks -> Z.of_nat (length blocks) = rm_C p ->
  Z.of_nat (length e) = rm_G p ->
  exists n e', dlsch_rate_matching p blocks 0 0 e = Ok (n, e') /\ length e' = length e /\ n <= rm_G p /\
    n = rm_Nl p * rm_Qm p * (rm_G p / rm_Nl p / rm_Qm p) /\ (rm_G p mod (rm_Nl p * rm_Qm p) = 0 -> n = rm_G p).
Proof.
  intros Hs Hb HC HG. destruct (rate_matching_blocks p blocks Hs Hb 0 e) as (e' & E & L); [lia | lia | lia|]. destruct (rm_total p Hs) as [H1 H2].
  exists (rm_before p (rm_C p)), e'. assert (H0 : rm_before p 0 = 0).
  { unfold rm_before. pose proof (Z.mod_pos_bound (rm_G p / rm_Nl p / rm_Qm p) (rm_C p) ltac:(destruct Hs; lia)). rewrite Z.max_l by lia. lia. }
  rewrite H0 in E. split; [exact E|]. split; [done|]. split; [done|]. split; [done|]. intros Hm. rewrite H1. destruct Hs as [_ _ HQ HN].
  rewrite Z.div_div by lia. rewrite (Z.div_mod (rm_G p) (rm_Nl p * rm_Qm p)) at 2 by nia. lia.
Qed.
Lemma usable_nonempty D w : 0 < D -> D <= Z.of_nat (length (usable w 0 (96 * RTC_of D))) -> usable w 0 (96 * RTC_of D) <> [].
Proof. intros HD H E. rewrite E in H. cbn in H. lia. Qed.

(** For every turbo size of a code block and every number of filler bits below 64, the
    dummy buffer that the receiver makes of the sizes alone, in a zeroed buffer, is NULL
    exactly where the interleaved code word of the sender is: the loops of both ends skip
    the same places. *)
Theorem dummy_w_nulls K F base d w w0 : let D := K + 4 in let R := RTC_of D in
  turbo_size K -> 0 <= F < 64 -> F <= K -> d_room D base d -> coded D F base d ->
  96 * R <= Z.of_nat (length w) -> 96 * R <= Z.of_nat (length w0) -> (forall i, 0 <= i < 96 * R -> array_get w0 i = Ok 0) ->
  exists d' w' dw, sub_block_interleaving_turbo D d base w = Ok (R, d', w') /\ generate_dummy_w D w0 F = Ok (R, dw) /\
    forall i, 0 <= i < 96 * R -> exists a b, array_get w' i = Ok a /\ array_get dw i = Ok b /\ (a = LTE_NULL <-> b = LTE_NULL).
Proof.
  intros D R HK HF HFK Hroom Hc Hw Hw0 H0. destruct (code_sizes K F HK HF) as (HD & H32 & HND & _). fold D in HD, H32, HND.
  destruct (nulls_agree D F base d w w0 HD H32 ltac:(unfold D; lia) Hroom Hc HND Hw Hw0 H0) as (d' & w' & dw & E1 & E2 & _ & _ & Hn).
  by exists d', w', dw.
Qed.
(** C12: A code word of a turbo size K, with at most 63 filler bits, that is interleaved,
    rate matched with the full circular buffer (Ncb = 3 * 32 * RTC), received without
    noise, accumulated in a cleared buffer and deinterleaved comes out with every bit in
    its place: as the soft value of that bit, times the number of times it was sent (on 16
    bits, wrapping). For any redundancy version; no bit is sent more than E / D + 2 times,
    and with at least E = 3 D bits sent for the block every bit is sent. All buffers have
    room for what is written. *)
Theorem rate_matching_roundtrip p K F base d w w0 wr dr e eo so r E phi : let D := K + 4 in let R := RTC_of D in
  turbo_size K -> 0 <= F < 64 -> F <= K -> d_room D base d -> coded D F base d -> d_room D base dr ->
  96 * R <= Z.of_nat (length w) -> 96 * R <= Z.of_nat (length w0) -> 96 * R <= Z.of_nat (length wr) ->
  (forall i, 0 <= i < 96 * R -> array_get w0 i = Ok 0) -> rm_Ncb p R = Ok (96 * R) -> rm_E p r = Ok E ->
  rm_Kmimo p <> 0 /\ rm_C p <> 0 /\ rm_Qm p <> 0 /\ rm_Nl p <> 0 -> 0 <= eo -> eo + E <= Z.of_nat (length e) -> 0 <= so ->
  exists d' w' dw e', sub_block_interleaving_turbo D d base w = Ok (R, d', w') /\ generate_dummy_w D w0 F = Ok (R, dw) /\
    lte_rate_matching_turbo p R w' e eo r = Ok (E, e') /\
    forall soft, so + E <= Z.of_nat (length soft) ->
      (forall k, 0 <= k < E -> exists b, array_get e' (eo + k) = Ok b /\ array_get soft (so + k) = Ok (phi b)) ->
      exists wr' dr', lte_rate_matching_turbo_rx p R wr dw soft so 1 r = Ok (0, Some E, wr') /\ sub_block_deinterleaving_turbo D dr base wr' = Ok dr' /\
        forall i b, 0 <= i < 3 * D -> array_get d (base + i) = Ok b -> b <> LTE_NULL ->
          exists m, 0 <= m <= E / D + 2 /\ (3 * D <= E -> 1 <= m) /\ array_get dr' (base + i) = Ok (i16 (m * phi b)).
Proof.
  intros D R HK HF HFK Hroom Hc Hroomr Hw Hw0 Hwr H0 HN HE Hp Heo HeE Hso. destruct (code_sizes K F HK HF) as (HD & H32 & HND & HR). fold D R in HD, H32, HND, HR.
  pose proof (rm_E_range p r E HE) as HE0. assert (HFD : 0 <= F <= D) by (unfold D; lia).
  destruct (link_sent p D F base d w w0 E r HD H32 HR HFD HND Hroom Hc Hw Hw0 H0 HN HE e eo Heo HeE) as
    (d' & w' & dw & k0 & pre & rest & E1 & E2 & L1 & L2 & Hn & Ek & Hk0 & Hpre & E3). fold R in E1, E2, Hn, Ek, E3.
  eexists d', w', dw, _. split; [exact E1|]. split; [exact E2|]. split; [exact E3|]. intros soft Hs Hsoft.
  pose proof (usable_count D F base d w d' w' HD H32 Hroom Hc Hw E1) as Hcount. pose proof (usable_nonempty D w' ltac:(lia) (proj1 Hcount)) as Hne. fold R in Hcount, Hne.
  pose proof (length_positions w' k0 (96 * R) E Hne) as Hlen.
  destruct (take_rest soft so ltac:(lia)) as (pre2 & rest2 & -> & Hpre2 & _).
  destruct (soft_bits phi (map (cell w') (positions w' k0 (96 * R) E)) rest rest2) as [slack ->].
  { intros k Hk. rewrite length_map, Hlen in Hk. destruct (Hsoft k ltac:(lia)) as (b & B1 & B2). exists b. by rewrite !array_get_pre in B1, B2 by lia. }
  destruct (link_received p D w w0 E r HR Hw0 HN HE Hp w' dw k0 wr (pre2 ++ map phi (map (cell w') (positions w' k0 (96 * R) E)) ++ slack) so phi Hk0 Ek L2 Hn Hne Hwr Hso Hs)
    as (wr' & E4 & L4 & Hq).
  { exists pre2, slack. by rewrite map_map. }
  fold R in E4, Hq. destruct (sub_block_deinterleaving_ok D dr base wr' HD Hroomr ltac:(fold R; lia)) as (dr' & E5 & _ & _).
  exists wr', dr'. split; [exact E4|]. split; [exact E5|]. intros i b Hi Hb Hbn.
  exists (times (place D i) (positions w' k0 (96 * R) E)). pose proof (place_range D HD H32 i Hi) as Hpl. fold R in Hpl.
  assert (Hcell : array_get w' (place D i) = Ok b) by (by rewrite (place_sent D HD H32 i d base w d' w' Hi Hroom Hw E1)).
  assert (Hin : In (place D i) (usable w' 0 (96 * R))) by (apply usable_in; split; [lia|]; unfold null_at; rewrite Hcell; by apply Z.eqb_neq).
  split; [split; [unfold times; lia|]|split].
  - pose proof (times_positions w' k0 (96 * R) E (place D i) (proj1 HE0) Hne) as Ht.
    assert (E / Z.of_nat (length (usable w' 0 (96 * R))) <= E / D) by (apply Z.div_le_compat_l; lia). lia.
  - intros H3. apply times_in, positions_all; [done | done | lia].
  - rewrite (place_received D HD H32 i dr base wr' dr' Hi Hroomr ltac:(fold R; lia) E5), Hq by lia. unfold cell. by rewrite Hcell.
Qed.

(** ** A small code word *)
Definition sample_word : list Z :=
  replicate 96 LTE_NULL ++ concat (map (fun j => if (j <? 8)%nat then [LTE_NULL; LTE_NULL; Z.of_nat j mod 2] else [Z.of_nat j mod 2; (Z.of_nat j / 2) mod 2; (Z.of_nat j / 3) mod 2]) (seq 0 44)) ++ replicate 8 0.
Definition sample_rm : rm_params := Mk_rm 160 1 0 0 1 0 2 1.
Lemma array_get_nth (l : list Z) i : 0 <= i < Z.of_nat (length l) -> array_get l i = Ok (nth (Z.to_nat i) l 0).
Proof.
  intros Hi. destruct (array_get_ok l i Hi) as (v & E & Hv). rewrite E. f_equal. symmetry. by apply nth_lookup_Some.
Qed.
Lemma sample_coded : coded 44 8 96 sample_word.
Proof.
  split.
  - intros i Hi. rewrite array_get_nth by (vm_compute length; lia).
    assert (H : forallb (fun n => nth n sample_word 0 =? LTE_NULL) (seq 0 96) = true) by (vm_compute; reflexivity).
    rewrite forallb_forall in H. specialize (H (Z.to_nat (96 - i)) ltac:(apply in_seq; lia)). apply Z.eqb_eq in H. by rewrite H.
  - intros j Hj. rewrite !array_get_nth by (vm_compute length; lia). do 3 eexists. do 3 (split; [reflexivity|]).
    assert (H : forallb (fun n => Bool.eqb (nth (96 + 3 * n) sample_word 0 =? LTE_NULL) (n <? 8)%nat && Bool.eqb (nth (96 + 3 * n + 1) sample_word 0 =? LTE_NULL) (n <? 8)%nat &&
      negb (nth (96 + 3 * n + 2) sample_word 0 =? LTE_NULL)) (seq 0 44) = true) by (vm_compute; reflexivity).
    rewrite forallb_forall in H. specialize (H (Z.to_nat j) ltac:(apply in_seq; lia)). rewrite !andb_true_iff, !eqb_true_iff, negb_true_iff, Z.eqb_neq in H.
    destruct H as [[H1 H2] H3]. replace (Z.to_nat (96 + 3 * j)) with (96 + 3 * Z.to_nat j)%nat by lia.
    replace (Z.to_nat (96 + 3 * j + 1)) with (96 + 3 * Z.to_nat j + 1)%nat by lia. replace (Z.to_nat (96 + 3 * j + 2)) with (96 + 3 * Z.to_nat j + 2)%nat by lia.
    assert (HP : forall x (b : bool) (P : Prop), (x =? LTE_NULL) = b -> (b = true <-> P) -> (x = LTE_NULL <-> P)) by (intros x b P <- <-; by rewrite Z.eqb_eq).
    split; [apply (HP _ _ _ H1); rewrite Nat.ltb_lt; lia|]. split; [apply (HP _ _ _ H2); rewrite Nat.ltb_lt; lia | done].
Qed.
Lemma sample_zeros i : 0 <= i < 96 * RTC_of (40 + 4) -> array_get (replicate 192 0) i = Ok 0.
Proof. intros Hi. unfold array_get. rewrite (proj2 (Z.leb_le _ _)) by lia. by rewrite lookup_replicate_2 by (vm_compute RTC_of in Hi; lia). Qed.
Lemma dummy_w_nulls_witness : turbo_size 40 /\ exists d' w' dw, sub_block_interleaving_turbo 44 sample_word 96 (replicate 192 9) = Ok (2, d', w') /\
  generate_dummy_w 44 (replicate 192 0) 8 = Ok (2, dw) /\ exists a b, array_get w' 63 = Ok a /\ array_get dw 63 = Ok b /\ (a = LTE_NULL <-> b = LTE_NULL).
Proof.
  assert (Ht : turbo_size 40) by (left; split; [lia | reflexivity]). split; [exact Ht|].
  destruct (dummy_w_nulls 40 8 96 sample_word (replicate 192 9) (replicate 192 0) Ht) as (d' & w' & dw & H1 & H2 & H3);
    [lia | lia | split; [lia | vm_compute; reflexivity] | exact sample_coded | vm_compute; discriminate | vm_compute; discriminate | exact sample_zeros |].
  exists d', w', dw. split; [exact H1|]. split; [exact H2|]. apply H3. vm_compute. split; [discriminate | reflexivity].
Defined.
(** The receiver gets 10 for 0 and -10 for 1. *)
Lemma rate_matching_roundtrip_witness : exists d' w' dw e', sub_block_interleaving_turbo 44 sample_word 96 (replicate 192 9) = Ok (2, d', w') /\
  generate_dummy_w 44 (replicate 192 0) 8 = Ok (2, dw) /\ lte_rate_matching_turbo sample_rm 2 w' (replicate 160 7) 0 0 = Ok (160, e') /\
  exists wr' dr' m, lte_rate_matching_turbo_rx sample_rm 2 (replicate 192 5) dw (map (fun b => 10 - 20 * b) e') 0 1 0 = Ok (0, Some 160, wr') /\
    sub_block_deinterleaving_turbo 44 (replicate 240 0) 96 wr' = Ok dr' /\ 1 <= m <= 5 /\ array_get dr' (96 + 131) = Ok (i16 (m * 10)).
Proof.
  assert (Ht : turbo_size 40) by (left; split; [lia | reflexivity]).
  destruct (rate_matching_roundtrip sample_rm 40 8 96 sample_word (replicate 192 9) (replicate 192 0) (replicate 192 5) (replicate 240 0) (replicate 160 7) 0 0 0 160
    (fun b => 10 - 20 * b) Ht) as (d' & w' & dw & e' & H1 & H2 & H3 & H4);
    [ lia | lia | split; [lia | vm_compute; reflexivity] | exact sample_coded | split; [lia | vm_compute; reflexivity]
    | vm_compute; discriminate | vm_compute; discriminate | vm_compute; discriminate | exact sample_zeros | reflexivity | reflexivity
    | vm_compute; repeat split; discriminate | lia | vm_compute; discriminate | lia |].
  exists d', w', dw, e'. split; [exact H1|]. split; [exact H2|]. split; [exact H3|].
  assert (He : length e' = 160%nat) by (vm_compute in H1; injection H1 as <- <-; vm_compute in H3; injection H3 as <-; reflexivity).
  destruct (H4 (map (fun b => 10 - 20 * b) e')) as (wr' & dr' & H5 & H6 & H7).
  - rewrite length_map, He. reflexivity.
  - intros k Hk. exists (nth (Z.to_nat k) e' 0). rewrite !Z.add_0_l, !array_get_nth by (rewrite ?length_map; lia). split; [reflexivity|].
    f_equal. rewrite (nth_indep _ 0 ((fun b => 10 - 20 * b) 0)) by (rewrite length_map; lia). exact (map_nth (fun b => 10 - 20 * b) e' 0 (Z.to_nat k)).
  - destruct (H7 131 0) as (m & Hm & Hm1 & Hout); [lia | reflexivity | discriminate |]. exists wr', dr', m. split; [exact H5|]. split; [exact H6|].
    split; [|exact Hout]. split; [apply Hm1; lia | change (160 / (40 + 4)) with 3 in Hm; lia].
Defined.
Lemma rate_matching_fills_witness : exists e', dlsch_rate_matching (Mk_rm 170 2 0 0 1 1 2 1) [(2, replicate 192 1); (2, replicate 192 0)] 0 0 (replicate 170 7) = Ok (170, e') /\
  e' = replicate 84 1 ++ replicate 86 0.
Proof.
  assert (Hb : forall x, x <> LTE_NULL -> block_ready (Mk_rm 170 2 0 0 1 1 2 1) (2, replicate 192 x)).
  { intros x Hx. split; [cbn; lia|]. exists 192. split; [reflexivity|]. split; [cbn [snd]; rewrite length_replicate; lia|]. intros E.
    assert (Hin : In 0 (usable (replicate 192 x) 0 192)) by (apply usable_in; split; [lia|]; unfold null_at; cbn; by apply Z.eqb_neq).
    cbn [snd] in E. rewrite E in Hin. destruct Hin. }
  destruct (rate_matching_fills (Mk_rm 170 2 0 0 1 1 2 1) [(2, replicate 192 1); (2, replicate 192 0)] (replicate 170 7)) as (n & e' & H1 & _ & _ & _ & H5);
    [constructor; cbn; lia | constructor; [by apply Hb | constructor; [by apply Hb | constructor]] | reflexivity | reflexivity |].
  rewrite (H5 eq_refl) in H1. exists e'. split; [exact H1|]. vm_compute in H1. injection H1 as <-. reflexivity.
Defined.
