(* ===== verification/PhyScrambling.v ===== *)
(** * Scrambling of the DL-SCH (openair1/PHY/LTE_TRANSPORT/dlsch_scrambling.c)

    The generator, 32 bits of the pseudo-random sequence at a time, against the sequence of TS 36.211 7.2, and the
    scrambling of the eNB against the unscrambling of the UE. *)

From S2P Require Import Prelude.

(** ** The generator *)
Definition x1_next (x1 : Z) : Z :=
  let x1 := Z.lxor (Z.shiftr x1 1) (Z.shiftr x1 4) in
  Z.lxor (Z.lxor x1 (u32 (Z.shiftl x1 31))) (u32 (Z.shiftl x1 28)).
Definition x2_next (x2 : Z) : Z :=
  let x2 := Z.lxor (Z.lxor (Z.lxor (Z.shiftr x2 1) (Z.shiftr x2 2)) (Z.shiftr x2 3)) (Z.shiftr x2 4) in
  Z.lxor (Z.lxor (Z.lxor (Z.lxor x2 (u32 (Z.shiftl x2 31))) (u32 (Z.shiftl x2 30))) (u32 (Z.shiftl x2 29))) (u32 (Z.shiftl x2 28)).
Definition x2_start (x2 : Z) : Z :=
  Z.lxor x2 (u32 (Z.shiftl (Z.lxor (Z.lxor (Z.lxor x2 (Z.shiftr x2 1)) (Z.shiftr x2 2)) (Z.shiftr x2 3)) 31)).
(** The word, and what the pointers then hold. *)
Definition lte_gold_scram (x1 x2 : Z) (reset : bool) : Z * Z * Z :=
  let '(x1, x2) :=
    if reset then (Nat.iter 49 x1_next (1 + Z.shiftl 1 31), Nat.iter 49 x2_next (x2_start x2)) else (x1, x2) in
  let x1 := x1_next x1 in
  let x2 := x2_next x2 in
  (Z.lxor x1 x2, x1, x2).

(** ** Scrambling *)
Definition scrambling_init (rnti q Ns Nid_cell : Z) : Z := u32 (Z.shiftl rnti 14 + Z.shiftl q 13 + Z.shiftl (Z.shiftr Ns 1) 9 + Nid_cell).
(** The loops of both ends: 32 cells with the bits of a word, and a new word.  [f] is what is done to a cell. *)
Fixpoint scramble_word (f : Z -> Z -> Z) (n : nat) (j : Z) (s : Z) (k : Z) (e : list Z) : res (list Z) :=
  match n with
  | O => Ok e
  | S n =>
      x ← array_get e (k + j);
      e ← array_set e (k + j) (f (Z.land (Z.shiftr s j) 1) x);
      scramble_word f n (j + 1) s k e
  end.
Fixpoint scramble_loop (f : Z -> Z -> Z) (n : nat) (x1 x2 s k : Z) (e : list Z) : res (list Z) :=
  match n with
  | O => Ok e
  | S n =>
      e ← scramble_word f 32 0 s k e;
      let '(s, x1, x2) := lte_gold_scram x1 x2 false in
      scramble_loop f n x1 x2 s (k + 32) e
  end.
(** [x2]: the initial value, of [scrambling_init] or, for MBSFN, without the RNTI. *)
Definition dlsch_scrambling (x2 : Z) (G : Z) (e : list Z) : res (list Z) :=
  let '(s, x1, x2) := lte_gold_scram 0 x2 true in
  scramble_loop (fun b x => Z.lxor x b) (Z.to_nat (1 + Z.shiftr G 5)) x1 x2 s 0 e.
Definition dlsch_unscrambling (x2 : Z) (G : Z) (llr : list Z) : res (list Z) :=
  let '(s, x1, x2) := lte_gold_scram 0 x2 true in
  scramble_loop (fun b x => i16 ((2 * b - 1) * x)) (Z.to_nat (1 + Z.shiftr G 5)) x1 x2 s 0 llr.

(** ** The sequence of TS 36.211 7.2, from its recurrences *)
(** A window of 31 bits moves over the sequence. *)
Definition slide (taps : list nat) (w : list bool) : list bool := tail w ++ [foldr (fun t acc => xorb (nth t w false) acc) false taps].
Definition x_seq (taps : list nat) (w : list bool) (n : nat) : bool := nth 0 (Nat.iter n (slide taps) w) false.
Definition x1_taps : list nat := [3; 0]%nat.
Definition x2_taps : list nat := [3; 2; 1; 0]%nat.
Definition x1_window : list bool := true :: replicate 30 false.
Definition x2_window (c_init : Z) : list bool := map (fun i => Z.testbit c_init (Z.of_nat i)) (seq 0 31).
Definition c_seq (c_init : Z) (n : nat) : bool :=
  xorb (x_seq x1_taps x1_window (n + 1600)) (x_seq x2_taps (x2_window c_init) (n + 1600)).

Lemma length_slides taps w n : length w = 31%nat -> length (Nat.iter n (slide taps) w) = 31%nat.
Proof.
  intros Hw. induction n as [|n IH]; [done|]. cbn [Nat.iter nat_rect]. unfold slide at 1. fold (Nat.iter n (slide taps) w).
  rewrite length_app. destruct (Nat.iter n (slide taps) w); [done|]. cbn in *. lia.
Qed.
Lemma nth_slide taps w j : length w = 31%nat -> (S j < 31)%nat -> nth j (slide taps w) false = nth (S j) w false.
Proof. intros Hw Hj. unfold slide. destruct w as [|b w]; [done|]. cbn [tail nth length] in *. by rewrite app_nth1 by lia. Qed.
Lemma x_seq_nth taps w : length w = 31%nat -> forall j n, (j < 31)%nat -> nth j (Nat.iter n (slide taps) w) false = x_seq taps w (n + j).
Proof.
  intros Hw. induction j as [|j IH]; intros n Hj; [by rewrite Nat.add_0_r|].
  rewrite <- (nth_slide taps) by (try apply length_slides; (done || lia)).
  change (slide taps (Nat.iter n (slide taps) w)) with (Nat.iter (S n) (slide taps) w). rewrite IH by lia. f_equal. lia.
Qed.
Lemma x_seq_rec taps w n : length w = 31%nat -> Forall (fun t => (t < 31)%nat) taps ->
  x_seq taps w (n + 31) = foldr (fun t acc => xorb (x_seq taps w (n + t)) acc) false taps.
Proof.
  intros Hw Ht. replace (n + 31)%nat with (S n + 30)%nat by lia. rewrite <- (x_seq_nth taps w Hw) by lia.
  cbn [Nat.iter nat_rect]. unfold slide at 1. fold (Nat.iter n (slide taps) w). pose proof (length_slides taps w n Hw) as Hl.
  rewrite app_nth2 by (destruct (Nat.iter n (slide taps) w); cbn in *; lia).
  replace (30 - length (tail (Nat.iter n (slide taps) w)))%nat with 0%nat by (destruct (Nat.iter n (slide taps) w); cbn in *; lia). cbn [nth].
  assert (H : forall ts, Forall (fun t => (t < 31)%nat) ts -> foldr (fun t acc => xorb (nth t (Nat.iter n (slide taps) w) false) acc) false ts =
    foldr (fun t acc => xorb (x_seq taps w (n + t)) acc) false ts); [|by apply H].
  induction 1 as [|t ts Ht1 _ IH]; [done|]. cbn [foldr]. by rewrite (x_seq_nth taps w Hw), IH by done.
Qed.
Lemma x1_rec n : x_seq x1_taps x1_window (n + 31) = xorb (x_seq x1_taps x1_window (n + 3)) (x_seq x1_taps x1_window n).
Proof. rewrite x_seq_rec by (done || (repeat constructor; lia)). cbn [foldr x1_taps]. by rewrite xorb_false_r, Nat.add_0_r. Qed.
Lemma length_x2 c : length (x2_window c) = 31%nat.
Proof. unfold x2_window. by rewrite length_map, length_seq. Qed.
Lemma x2_rec c n : let x := x_seq x2_taps (x2_window c) in x (n + 31)%nat = xorb (x (n + 3)%nat) (xorb (x (n + 2)%nat) (xorb (x (n + 1)%nat) (x n))).
Proof. cbn zeta. rewrite x_seq_rec by (apply length_x2 || (repeat constructor; lia)). cbn [foldr x2_taps]. by rewrite xorb_false_r, Nat.add_0_r. Qed.

(** ** The words *)
(** The [k]-th word holds the bits from [32 k] on. *)
Definition holds (x : nat -> bool) (k : nat) (v : Z) : Prop := 0 <= v < 2 ^ 32 /\ forall j, (j < 32)%nat -> Z.testbit v (Z.of_nat j) = x (32 * k + j)%nat.
Lemma gold_testbit_u32 v i : 0 <= i < 32 -> Z.testbit (u32 v) i = Z.testbit v i.
Proof. intros Hi. unfold u32, wrapu. by rewrite Z.mod_pow2_bits_low by lia. Qed.
Lemma word_high v i : 0 <= v < 2 ^ 32 -> 32 <= i -> Z.testbit v i = false.
Proof. intros Hv Hi. destruct (Z.eq_dec v 0) as [-> | Hz]; [apply Z.bits_0|]. apply Z.bits_above_log2; [lia|]. apply Z.lt_le_trans with 32; [|done]. apply Z.log2_lt_pow2; lia. Qed.
Lemma gold_lxor_word a b : 0 <= a < 2 ^ 32 -> 0 <= b < 2 ^ 32 -> 0 <= Z.lxor a b < 2 ^ 32.
Proof.
  intros Ha Hb. assert (H0 : 0 <= Z.lxor a b) by (apply Z.lxor_nonneg; lia). split; [done|].
  destruct (Z.eq_dec (Z.lxor a b) 0) as [-> | Hz]; [done|]. apply Z.log2_lt_pow2; [lia|].
  destruct (Z.lt_ge_cases (Z.log2 (Z.lxor a b)) 32) as [|Hge]; [done|]. pose proof (Z.bit_log2 (Z.lxor a b) ltac:(lia)) as Hbit.
  by rewrite Z.lxor_spec, !word_high in Hbit by done.
Qed.
Lemma shiftr_word a n : 0 <= a < 2 ^ 32 -> 0 <= n -> 0 <= Z.shiftr a n < 2 ^ 32.
Proof.
  intros Ha Hn. rewrite Z.shiftr_div_pow2 by done. split; [apply Z.div_pos; lia|]. apply Z.le_lt_trans with a; [|lia].
  apply Z.div_le_upper_bound; [lia|]. nia.
Qed.
Lemma shl_bit t n j : 0 <= n -> 0 <= j < 32 -> Z.testbit (u32 (Z.shiftl t n)) j = (n <=? j) && Z.testbit t (j - n).
Proof.
  intros Hn Hj. rewrite gold_testbit_u32 by done. rewrite Z.shiftl_spec by lia. destruct (Z.leb_spec n j); [done|]. by rewrite Z.testbit_neg_r by lia.
Qed.
Lemma holds_bit x k v i : holds x k v -> 0 <= i -> Z.testbit v i = (i <? 32) && x (32 * k + Z.to_nat i)%nat.
Proof.
  intros [Hv H] Hi. destruct (Z.ltb_spec i 32) as [Hlt | Hge]; [|by apply word_high].
  rewrite <- (Z2Nat.id i) at 1 by done. apply H. lia.
Qed.
Lemma below_32 (P : nat -> Prop) : Forall P (seq 0 32) -> forall j, (j < 32)%nat -> P j.
Proof. intros H j Hj. rewrite List.Forall_forall in H. apply H, in_seq. lia. Qed.
(** One bit of a new word: the bits of the old one it is made of. *)
Ltac word_bit Hb :=
  match goal with |- Z.testbit _ ?n = _ => let m := eval vm_compute in n in change n with m end;
  rewrite ?Z.lxor_spec, ?shl_bit by lia;
  repeat match goal with |- context [?a <=? ?b] => let m := eval vm_compute in (a <=? b) in change (a <=? b) with m end;
  cbn [andb]; rewrite ?Z.lxor_spec, ?Z.shiftr_spec by lia;
  repeat match goal with |- context [Z.testbit ?v ?n] => rewrite (Hb n) by lia end;
  repeat match goal with
  | |- context [?a <? ?b] => let m := eval vm_compute in (a <? b) in change (a <? b) with m
  | |- context [Z.to_nat ?a] => let m := eval vm_compute in (Z.to_nat a) in change (Z.to_nat a) with m
  end;
  cbn [andb].
Ltac next_bit f Hf :=
  match goal with |- _ = f ?n => let m := eval cbn in (n - 31)%nat in let E := fresh in pose proof (Hf m) as E; cbn [Nat.add] in E |- *; rewrite E; clear E end.
Ltac xor_bits f := repeat match goal with |- context [f ?n] => destruct (f n) end; reflexivity.
Lemma x1_next_word v : 0 <= v < 2 ^ 32 -> 0 <= x1_next v < 2 ^ 32.
Proof. intros Hv. unfold x1_next. repeat first [apply gold_lxor_word | apply shiftr_word | apply (wrapu_range 32); lia | done | lia]. Qed.
Lemma x2_next_word v : 0 <= v < 2 ^ 32 -> 0 <= x2_next v < 2 ^ 32.
Proof. intros Hv. unfold x2_next. repeat first [apply gold_lxor_word | apply shiftr_word | apply (wrapu_range 32); lia | done | lia]. Qed.
Lemma x1_next_holds x k v : (forall n, x (n + 31)%nat = xorb (x (n + 3)%nat) (x n)) -> holds x k v -> holds x (S k) (x1_next v).
Proof.
  intros Hrec Hh. split; [apply x1_next_word, Hh|]. apply below_32. set (f i := x (32 * k + i)%nat).
  assert (Hb : forall i, 0 <= i -> Z.testbit v i = (i <? 32) && f (Z.to_nat i)) by (intros i Hi; by apply holds_bit).
  assert (Hf : forall i, f (i + 31)%nat = xorb (f (i + 3)%nat) (f i)).
  { intros i. unfold f. rewrite Nat.add_assoc, Hrec. do 2 f_equal. lia. }
  assert (HS : forall j, x (32 * S k + j)%nat = f (32 + j)%nat) by (intros j; unfold f; f_equal; lia).
  pose proof (Hf 1%nat) as F1. pose proof (Hf 2%nat) as F2. pose proof (Hf 3%nat) as F3. pose proof (Hf 4%nat) as F4. cbn [Nat.add] in F1, F2, F3, F4.
  cbn [seq]. repeat (apply List.Forall_cons; [rewrite HS; unfold x1_next; next_bit f Hf; rewrite ?F1, ?F2, ?F3, ?F4; word_bit Hb; xor_bits f |]).
  apply List.Forall_nil.
Qed.
Lemma x2_next_holds x k v : (forall n, x (n + 31)%nat = xorb (x (n + 3)%nat) (xorb (x (n + 2)%nat) (xorb (x (n + 1)%nat) (x n)))) ->
  holds x k v -> holds x (S k) (x2_next v).
Proof.
  intros Hrec Hh. split; [apply x2_next_word, Hh|]. apply below_32. set (f i := x (32 * k + i)%nat).
  assert (Hb : forall i, 0 <= i -> Z.testbit v i = (i <? 32) && f (Z.to_nat i)) by (intros i Hi; by apply holds_bit).
  assert (Hf : forall i, f (i + 31)%nat = xorb (f (i + 3)%nat) (xorb (f (i + 2)%nat) (xorb (f (i + 1)%nat) (f i)))).
  { intros i. unfold f. rewrite Nat.add_assoc, Hrec. by rewrite <- !Nat.add_assoc. }
  assert (HS : forall j, x (32 * S k + j)%nat = f (32 + j)%nat) by (intros j; unfold f; f_equal; lia).
  pose proof (Hf 1%nat) as F1. pose proof (Hf 2%nat) as F2. pose proof (Hf 3%nat) as F3. pose proof (Hf 4%nat) as F4. cbn [Nat.add] in F1, F2, F3, F4.
  cbn [seq]. repeat (apply List.Forall_cons; [rewrite HS; unfold x2_next; next_bit f Hf; rewrite ?F4, ?F3, ?F2, ?F1; word_bit Hb; xor_bits f |]).
  apply List.Forall_nil.
Qed.
Lemma x1_start : holds (x_seq x1_taps x1_window) 0 (1 + Z.shiftl 1 31).
Proof.
  split; [vm_compute; split; [discriminate | reflexivity]|]. apply below_32. repeat (apply List.Forall_cons; [vm_compute; reflexivity|]). apply List.Forall_nil.
Qed.
Lemma x2_start_holds c : 0 <= c < 2 ^ 31 -> holds (x_seq x2_taps (x2_window c)) 0 (x2_start c).
Proof.
  intros Hc. assert (Hx : forall j, (j < 31)%nat -> x_seq x2_taps (x2_window c) j = Z.testbit c (Z.of_nat j)).
  { intros j Hj. rewrite <- (Nat.add_0_l j) at 1. rewrite <- (x_seq_nth _ _ (length_x2 c)) by done. cbn [Nat.iter nat_rect]. unfold x2_window.
    rewrite (nth_indep _ false (Z.testbit c (Z.of_nat 0))) by (rewrite length_map, length_seq; lia). rewrite (map_nth (fun i => Z.testbit c (Z.of_nat i))).
    by rewrite seq_nth by lia. }
  assert (H31 : Z.testbit c 31 = false).
  { destruct (Z.eq_dec c 0) as [-> | Hz]; [apply Z.bits_0|]. apply Z.bits_above_log2; [lia|]. apply Z.log2_lt_pow2; lia. }
  split.
  - unfold x2_start. apply gold_lxor_word; [lia | apply (wrapu_range 32); lia].
  - intros j Hj. rewrite Nat.mul_0_r, Nat.add_0_l. unfold x2_start. rewrite Z.lxor_spec, shl_bit by lia.
    destruct (Nat.eq_dec j 31) as [-> | Hne].
    + change (Z.of_nat 31) with 31. rewrite H31. cbn [Z.leb Z.compare Pos.compare Pos.compare_cont andb]. rewrite Z.sub_diag, !Z.lxor_spec, !Z.shiftr_spec by lia.
      change 31%nat with (0 + 31)%nat. rewrite x2_rec, !Hx by lia. 
      change (xorb (xorb (xorb (Z.testbit c 0) (Z.testbit c 1)) (Z.testbit c 2)) (Z.testbit c 3) =
        xorb (Z.testbit c 3) (xorb (Z.testbit c 2) (xorb (Z.testbit c 1) (Z.testbit c 0)))).
      by destruct (Z.testbit c 0), (Z.testbit c 1), (Z.testbit c 2), (Z.testbit c 3).
    + rewrite (proj2 (Z.leb_gt _ _)) by lia. cbn [andb]. by rewrite xorb_false_r, Hx by lia.
Qed.
Lemma iter_holds x next n : (forall k v, holds x k v -> holds x (S k) (next v)) -> forall k v, holds x k v -> holds x (k + n)%nat (Nat.iter n next v).
Proof.
  intros Hn. induction n as [|n IH]; intros k v H; [by rewrite Nat.add_0_r|]. cbn [Nat.iter nat_rect]. rewrite Nat.add_succ_r. by apply Hn, IH.
Qed.
(** What the [n]-th call, from the one with [reset] on, returns and leaves. *)
Definition gold_call (c_init : Z) (n : nat) : Z * Z * Z :=
  Nat.iter n (fun '(_, x1, x2) => lte_gold_scram x1 x2 false) (lte_gold_scram 0 c_init true).
Lemma gold_call_holds c n : 0 <= c < 2 ^ 31 -> exists x1 x2, gold_call c n = (Z.lxor x1 x2, x1, x2) /\
  holds (x_seq x1_taps x1_window) (50 + n) x1 /\ holds (x_seq x2_taps (x2_window c)) (50 + n) x2.
Proof.
  intros Hc. induction n as [|n IH].
  - exists (x1_next (Nat.iter 49 x1_next (1 + Z.shiftl 1 31))), (x2_next (Nat.iter 49 x2_next (x2_start c))). split; [reflexivity|].
    split; [apply x1_next_holds; [exact x1_rec|] | apply x2_next_holds; [exact (x2_rec c)|]].
    + apply (iter_holds _ _ 49 (fun k v => x1_next_holds _ k v x1_rec) 0), x1_start.
    + by apply (iter_holds _ _ 49 (fun k v => x2_next_holds _ k v (x2_rec c)) 0), x2_start_holds.
  - destruct IH as (x1 & x2 & E & H1 & H2). exists (x1_next x1), (x2_next x2). split.
    + change (gold_call c (S n)) with (let '(_, x1, x2) := gold_call c n in lte_gold_scram x1 x2 false). by rewrite E.
    + rewrite Nat.add_succ_r. split; [by apply x1_next_holds; [exact x1_rec|] | by apply x2_next_holds; [exact (x2_rec c)|]].
Qed.
Lemma gold_call_bit c n j : 0 <= c < 2 ^ 31 -> (j < 32)%nat -> Z.testbit (gold_call c n).1.1 (Z.of_nat j) = c_seq c (32 * n + j).
Proof.
  intros Hc Hj. destruct (gold_call_holds c n Hc) as (x1 & x2 & -> & [_ H1] & [_ H2]). cbn [fst]. rewrite Z.lxor_spec, H1, H2 by done.
  unfold c_seq. do 2 f_equal; lia.
Qed.

(** C15: The generator is the pseudo-random sequence of TS 36.211 7.2: bit [j] of the word
    of the [n]-th call after a reset is c(32 n + j), the two recurrences advanced by 1600,
    for every initial value of 31 bits. *)
Theorem gold_sequence_spec c_init n j : 0 <= c_init < 2 ^ 31 -> (j < 32)%nat ->
  Z.testbit (gold_call c_init n).1.1 (Z.of_nat j) = c_seq c_init (32 * n + j) /\
  (forall m, x_seq x1_taps x1_window (m + 31) = xorb (x_seq x1_taps x1_window (m + 3)) (x_seq x1_taps x1_window m)) /\
  (forall m, let x2 := x_seq x2_taps (x2_window c_init) in x2 (m + 31)%nat = xorb (x2 (m + 3)%nat) (xorb (x2 (m + 2)%nat) (xorb (x2 (m + 1)%nat) (x2 m)))).
Proof. intros Hc Hj. split; [by apply gold_call_bit|]. split; [exact x1_rec | exact (x2_rec c_init)]. Qed.

(** ** Both ends *)
Definition c_bit (c_init k : Z) : Z := b2z (c_seq c_init (Z.to_nat k)).
Lemma word_bit_value s j : 0 <= j -> Z.land (Z.shiftr s j) 1 = b2z (Z.testbit s j).
Proof.
  intros Hj. change 1 with (Z.ones 1). rewrite Z.land_ones, Z.shiftr_div_pow2 by lia. change (2 ^ 1) with 2. rewrite <- Z.testbit_spec' by done. done.
Qed.
Lemma scramble_word_ok f n : forall j s k e, 0 <= j -> 0 <= k -> k + j + Z.of_nat n <= Z.of_nat (length e) ->
  exists e', scramble_word f n j s k e = Ok e' /\ length e' = length e /\ forall i, 0 <= i ->
    array_get e' i = (x ← array_get e i; Ok (if (k + j <=? i) && (i <? k + j + Z.of_nat n) then f (b2z (Z.testbit s (i - k))) x else x)).
Proof.
  induction n as [|n IH]; intros j s k e Hj Hk He.
  { exists e. split; [done|]. split; [done|]. intros i Hi. rewrite Z.add_0_r. destruct (Z.leb_spec (k + j) i), (Z.ltb_spec i (k + j)); try lia; by destruct (array_get e i). }
  cbn [scramble_word]. destruct (array_get_ok e (k + j)) as (x & Hx & _); [lia|]. rewrite Hx. cbn [mbind res_bind].
  rewrite word_bit_value by done. rewrite array_set_ok by lia. cbn [mbind res_bind]. set (e1 := <[_ := _]> e).
  destruct (IH (j + 1) s k e1) as (e' & E & L & G); [lia | done | unfold e1; rewrite length_insert; lia|]. exists e'. split; [done|].
  split; [unfold e1 in L; by rewrite length_insert in L|]. intros i Hi. rewrite G by done.
  assert (G1 : array_get e1 i = if i =? k + j then Ok (f (b2z (Z.testbit s j)) x) else array_get e i).
  { unfold e1, array_get. rewrite (proj2 (Z.leb_le 0 i)) by done. destruct (Z.eqb_spec i (k + j)) as [-> | Hne].
    - by rewrite list_lookup_insert_eq by lia.
    - by rewrite list_lookup_insert_ne by lia. }
  rewrite G1. destruct (Z.eqb_spec i (k + j)) as [-> | Hne].
  - rewrite Hx. cbn [mbind res_bind]. replace (k + j - k) with j by lia.
    destruct (Z.leb_spec (k + (j + 1)) (k + j)), (Z.leb_spec (k + j) (k + j)), (Z.ltb_spec (k + j) (k + j + Z.of_nat (S n))); try lia. done.
  - destruct (array_get e i); [cbn [mbind res_bind] | done].
    destruct (Z.leb_spec (k + (j + 1)) i), (Z.ltb_spec i (k + (j + 1) + Z.of_nat n)), (Z.leb_spec (k + j) i), (Z.ltb_spec i (k + j + Z.of_nat (S n))); try lia; done.
Qed.
Lemma scramble_loop_ok f c n : 0 <= c < 2 ^ 31 -> forall m e, 32 * (Z.of_nat m + Z.of_nat n) <= Z.of_nat (length e) ->
  exists e', (let '(s, x1, x2) := gold_call c m in scramble_loop f n x1 x2 s (32 * Z.of_nat m) e) = Ok e' /\ length e' = length e /\ forall i, 0 <= i ->
    array_get e' i = (x ← array_get e i; Ok (if (32 * Z.of_nat m <=? i) && (i <? 32 * (Z.of_nat m + Z.of_nat n)) then f (c_bit c i) x else x)).
Proof.
  intros Hc. induction n as [|n IH]; intros m e He.
  { exists e. destruct (gold_call c m) as [[s x1] x2]. split; [done|]. split; [done|]. intros i Hi. rewrite Z.add_0_r.
    destruct (Z.leb_spec (32 * Z.of_nat m) i), (Z.ltb_spec i (32 * Z.of_nat m)); try lia; by destruct (array_get e i). }
  destruct (gold_call c m) as [[s x1] x2] eqn:Em. cbn [scramble_loop].
  destruct (scramble_word_ok f 32 0 s (32 * Z.of_nat m) e) as (e1 & E1 & L1 & G1); [lia | lia | lia|]. rewrite E1. cbn [mbind res_bind].
  pose proof (IH (S m) e1 ltac:(lia)) as (e' & E' & L' & G').
  change (gold_call c (S m)) with (let '(_, x1, x2) := gold_call c m in lte_gold_scram x1 x2 false) in E'. rewrite Em in E'.
  replace (32 * Z.of_nat m + 32) with (32 * Z.of_nat (S m)) by lia. exists e'. split; [exact E'|]. split; [congruence|].
  intros i Hi. rewrite G', G1 by done. destruct (array_get e i) as [x|]; [cbn [mbind res_bind] | done]. rewrite !Z.add_0_r.
  assert (Hbit : 32 * Z.of_nat m <= i < 32 * Z.of_nat m + 32 -> b2z (Z.testbit s (i - 32 * Z.of_nat m)) = c_bit c i).
  { intros Him. unfold c_bit. f_equal. pose proof (gold_call_bit c m (Z.to_nat (i - 32 * Z.of_nat m)) Hc ltac:(lia)) as Hb. rewrite Em in Hb. cbn [fst] in Hb.
    rewrite Z2Nat.id in Hb by lia. rewrite Hb. f_equal. lia. }
  change (Z.of_nat 32) with 32.
  destruct (Z.leb_spec (32 * Z.of_nat m) i), (Z.ltb_spec i (32 * Z.of_nat m + 32)), (Z.leb_spec (32 * Z.of_nat (S m)) i),
    (Z.ltb_spec i (32 * (Z.of_nat (S m) + Z.of_nat n))), (Z.ltb_spec i (32 * (Z.of_nat m + Z.of_nat (S n)))); cbn [andb]; try lia; try done.
  by rewrite Hbit by lia.
Qed.
Lemma scrambling_init_range rnti q Ns Nid : 0 <= rnti < 2 ^ 16 -> 0 <= q < 2 -> 0 <= Ns < 20 -> 0 <= Nid < 504 -> 0 <= scrambling_init rnti q Ns Nid < 2 ^ 31.
Proof.
  intros H1 H2 H3 H4. unfold scrambling_init. rewrite !Z.shiftl_mul_pow2, Z.shiftr_div_pow2 by lia.
  change (2 ^ 14) with 16384. change (2 ^ 13) with 8192. change (2 ^ 9) with 512. change (2 ^ 1) with 2.
  assert (0 <= Ns / 2 < 10) by (split; [apply Z.div_pos; lia | apply Z.div_lt_upper_bound; lia]). unfold u32. rewrite wrapu_small by lia. lia.
Qed.
Definition scrambled_cells (G : Z) : Z := 32 * (1 + G / 32).
Lemma scrambling_cells f c G e : 0 <= c < 2 ^ 31 -> 0 <= G -> scrambled_cells G <= Z.of_nat (length e) ->
  exists e', (let '(s, x1, x2) := lte_gold_scram 0 c true in scramble_loop f (Z.to_nat (1 + Z.shiftr G 5)) x1 x2 s 0 e) = Ok e' /\
    length e' = length e /\ forall k, 0 <= k < scrambled_cells G -> array_get e' k = (x ← array_get e k; Ok (f (c_bit c k) x)).
Proof.
  intros Hc HG He. unfold scrambled_cells in *. rewrite Z.shiftr_div_pow2 by lia. change (2 ^ 5) with 32. assert (0 <= G / 32) by (apply Z.div_pos; lia).
  destruct (scramble_loop_ok f c (Z.to_nat (1 + G / 32)) Hc 0 e) as (e' & E & L & H1); [lia|]. exists e'. split; [exact E|]. split; [done|].
  intros k Hk. rewrite H1 by lia. rewrite (proj2 (Z.leb_le _ _)), (proj2 (Z.ltb_lt _ _)) by lia. done.
Qed.
Lemma c_bit_range c k : c_bit c k = 0 \/ c_bit c k = 1.
Proof. unfold c_bit. destruct (c_seq c (Z.to_nat k)); [by right | by left]. Qed.
(** C18: The UE undoes the eNB's scrambling, for valid RNTI, code word, slot and cell
    numbers and buffers of whole 32 bit words (G / 32 + 1 of them): of a bit that is
    scrambled, sent as +1 (for 0) or -1 and received with any gain from -32767 to 32767,
    unscrambling makes the gain itself for a 1 and its opposite for a 0. *)
Theorem scrambling_roundtrip rnti q Ns Nid G e llr gain : let c := scrambling_init rnti q Ns Nid in
  0 <= rnti < 2 ^ 16 -> 0 <= q < 2 -> 0 <= Ns < 20 -> 0 <= Nid < 504 -> 0 <= G ->
  scrambled_cells G <= Z.of_nat (length e) -> scrambled_cells G <= Z.of_nat (length llr) ->
  (forall k, 0 <= k < scrambled_cells G -> array_get e k = Ok 0 \/ array_get e k = Ok 1) ->
  exists e', dlsch_scrambling c G e = Ok e' /\ length e' = length e /\
    (forall k, 0 <= k < scrambled_cells G -> array_get e' k = Ok 0 \/ array_get e' k = Ok 1) /\
    ((forall k b, 0 <= k < scrambled_cells G -> array_get e' k = Ok b -> array_get llr k = Ok ((1 - 2 * b) * gain k) /\ - 32767 <= gain k <= 32767) ->
      exists llr', dlsch_unscrambling c G llr = Ok llr' /\
        forall k b, 0 <= k < scrambled_cells G -> array_get e k = Ok b -> array_get llr' k = Ok ((2 * b - 1) * gain k)).
Proof.
  intros c H1 H2 H3 H4 HG He Hllr Hbits. pose proof (scrambling_init_range rnti q Ns Nid H1 H2 H3 H4) as Hc. fold c in Hc.
  destruct (scrambling_cells (fun b x => Z.lxor x b) c G e Hc HG He) as (e' & E & L & He'). exists e'. split; [exact E|]. split; [done|].
  split; [intros k Hk; rewrite (He' k Hk); destruct (Hbits k Hk) as [-> | ->], (c_bit_range c k) as [-> | ->]; cbn; auto|].
  intros Hrx. destruct (scrambling_cells (fun b x => i16 ((2 * b - 1) * x)) c G llr Hc HG Hllr) as (llr' & E2 & _ & Hl). exists llr'. split; [exact E2|].
  intros k b Hk Hb. specialize (He' k Hk). rewrite Hb in He'. cbn [mbind res_bind] in He'. destruct (Hrx k _ Hk He') as [Hx Hg].
  rewrite (Hl k Hk), Hx. cbn [mbind res_bind]. f_equal.
  destruct (Hbits k Hk) as [H0 | H0]; rewrite Hb in H0; injection H0 as ->; destruct (c_bit_range c k) as [-> | ->]; cbn -[Z.mul Z.add Z.sub i16];
    change (Z.lxor 0 0) with 0; change (Z.lxor 0 1) with 1; change (Z.lxor 1 0) with 1; change (Z.lxor 1 1) with 0; unfold i16; rewrite wraps_small by lia; lia.
Qed.
Lemma gold_sequence_spec_witness : 0 <= 1234567 < 2 ^ 31 /\ Z.testbit (gold_call 1234567 2).1.1 (Z.of_nat 5) = c_seq 1234567 69 /\ c_seq 1234567 69 = true.
Proof.
  split; [lia|]. destruct (gold_sequence_spec 1234567 2 5) as [H _]; [lia | lia |]. split; [exact H | vm_compute; reflexivity].
Defined.
Lemma scrambling_roundtrip_witness : exists e' llr', dlsch_scrambling (scrambling_init 4660 0 4 17) 40 (concat (replicate 32 [0; 1])) = Ok e' /\
  dlsch_unscrambling (scrambling_init 4660 0 4 17) 40 (map (fun b => (1 - 2 * b) * 100) e') = Ok llr' /\ array_get llr' 39 = Ok 100.
Proof.
  assert (Hbits : forall k, 0 <= k < scrambled_cells 40 -> array_get (concat (replicate 32 [0; 1])) k = Ok 0 \/ array_get (concat (replicate 32 [0; 1])) k = Ok 1).
  { intros k Hk. change (scrambled_cells 40) with 64 in Hk. rewrite <- (Z2Nat.id k) by lia. assert (Hn : (Z.to_nat k < 64)%nat) by lia. revert Hn. generalize (Z.to_nat k) as n.
    intros n Hn. assert (H : forallb (fun n => match array_get (concat (replicate 32 [0; 1])) (Z.of_nat n) with Ok 0 | Ok 1 => true | _ => false end) (seq 0 64) = true) by (vm_compute; reflexivity).
    rewrite forallb_forall in H. specialize (H n ltac:(apply in_seq; lia)). destruct (array_get _ (Z.of_nat n)) as [[|[| |]|]|]; (discriminate H || auto). }
  destruct (scrambling_roundtrip 4660 0 4 17 40 (concat (replicate 32 [0; 1])) (match dlsch_scrambling (scrambling_init 4660 0 4 17) 40 (concat (replicate 32 [0; 1])) with Ok e => map (fun b => (1 - 2 * b) * 100) e | Err _ => [] end) (fun _ => 100))
    as (e' & E & L & _ & Hrx); [lia | lia | lia | lia | lia | vm_compute; discriminate | vm_compute; discriminate | exact Hbits |].
  rewrite E in Hrx. destruct Hrx as (llr' & E2 & Hout).
  - intros k b Hk Hb. split; [|lia]. apply array_get_inv in Hb as [Hk2 Hb]. unfold array_get. rewrite (proj2 (Z.leb_le 0 k)) by lia.
    change (map (fun b0 => (1 - 2 * b0) * 100) e') with ((fun b0 => (1 - 2 * b0) * 100) <$> e'). by rewrite list_lookup_fmap, Hb.
  - exists e', llr'. split; [exact E|]. split; [exact E2|]. change 100 with ((2 * 1 - 1) * 100). apply Hout; [vm_compute; split; [discriminate | reflexivity] | vm_compute; reflexivity].
Defined.
