(* ===== verification/PhyMcs.v ===== *)
(** * Modulation and coding schemes, transport block sizes, channel bits (openair1/PHY/LTE_TRANSPORT/lte_mcs.c, dlsch_tbs_full.h, pmch.c)

    The tables, the sizes they give, and what segmentation and rate matching make of every one of them. *)

From S2P Require Import Prelude Bits PhyCrc PhySegmentation.

Definition TBStable : list (list Z) := [
[16;32;56;88;120;152;176;208;224;256;288;328;344;376;392;424;456;488;504;536;568;600;616;648;680;712;744;776;776;808;840;872;904;936;968;1000;1032;1032;1064;1096;1128;1160;1192;1224;1256;1256;1288;1320;1352;1384;1416;1416;1480;1480;1544;1544;1608;1608;1608;1672;1672;1736;1736;1800;1800;1800;1864;1864;1928;1928;1992;1992;2024;2088;2088;2088;2152;2152;2216;2216;2280;2280;2280;2344;2344;2408;2408;2472;2472;2536;2536;2536;2600;2600;2664;2664;2728;2728;2728;2792;2792;2856;2856;2856;2984;2984;2984;2984;2984;3112];
[24;56;88;144;176;208;224;256;328;344;376;424;456;488;520;568;600;632;680;712;744;776;808;872;904;936;968;1000;1032;1064;1128;1160;1192;1224;1256;1288;1352;1384;1416;1416;1480;1544;1544;1608;1608;1672;1736;1736;1800;1800;1864;1864;1928;1992;1992;2024;2088;2088;2152;2152;2216;2280;2280;2344;2344;2408;2472;2472;2536;2536;2600;2600;2664;2728;2728;2792;2792;2856;2856;2856;2984;2984;2984;3112;3112;3112;3240;3240;3240;3240;3368;3368;3368;3496;3496;3496;3496;3624;3624;3624;3752;3752;3752;3752;3880;3880;3880;4008;4008;4008];
[32;72;144;176;208;256;296;328;376;424;472;520;568;616;648;696;744;776;840;872;936;968;1000;1064;1096;1160;1192;1256;1288;1320;1384;1416;1480;1544;1544;1608;1672;1672;1736;1800;1800;1864;1928;1992;2024;2088;2088;2152;2216;2216;2280;2344;2344;2408;2472;2536;2536;2600;2664;2664;2728;2792;2856;2856;2856;2984;2984;3112;3112;3112;3240;3240;3240;3368;3368;3368;3496;3496;3496;3624;3624;3624;3752;3752;3880;3880;3880;4008;4008;4008;4136;4136;4136;4264;4264;4264;4392;4392;4392;4584;4584;4584;4584;4584;4776;4776;4776;4776;4968;4968];
[40;104;176;208;256;328;392;440;504;568;616;680;744;808;872;904;968;1032;1096;1160;1224;1256;1320;1384;1416;1480;1544;1608;1672;1736;1800;1864;1928;1992;2024;2088;2152;2216;2280;2344;2408;2472;2536;2536;2600;2664;2728;2792;2856;2856;2984;2984;3112;3112;3240;3240;3368;3368;3496;3496;3624;3624;3624;3752;3752;3880;3880;4008;4008;4136;4136;4264;4264;4392;4392;4392;4584;4584;4584;4776;4776;4776;4776;4968;4968;4968;5160;5160;5160;5352;5352;5352;5352;5544;5544;5544;5736;5736;5736;5736;5992;5992;5992;5992;6200;6200;6200;6200;6456;6456];
[56;120;208;256;328;408;488;552;632;696;776;840;904;1000;1064;1128;1192;1288;1352;1416;1480;1544;1608;1736;1800;1864;1928;1992;2088;2152;2216;2280;2344;2408;2472;2600;2664;2728;2792;2856;2984;2984;3112;3112;3240;3240;3368;3496;3496;3624;3624;3752;3752;3880;4008;4008;4136;4136;4264;4264;4392;4392;4584;4584;4584;4776;4776;4968;4968;4968;5160;5160;5160;5352;5352;5544;5544;5544;5736;5736;5736;5992;5992;5992;5992;6200;6200;6200;6456;6456;6456;6456;6712;6712;6712;6968;6968;6968;6968;7224;7224;7224;7480;7480;7480;7480;7736;7736;7736;7992];
[72;144;224;328;424;504;600;680;776;872;968;1032;1128;1224;1320;1384;1480;1544;1672;1736;1864;1928;2024;2088;2216;2280;2344;2472;2536;2664;2728;2792;2856;2984;3112;3112;3240;3368;3496;3496;3624;3752;3752;3880;4008;4008;4136;4264;4392;4392;4584;4584;4776;4776;4776;4968;4968;5160;5160;5352;5352;5544;5544;5736;5736;5736;5992;5992;5992;6200;6200;6200;6456;6456;6712;6712;6712;6968;6968;6968;7224;7224;7224;7480;7480;7480;7736;7736;7736;7992;7992;7992;8248;8248;8248;8504;8504;8760;8760;8760;8760;9144;9144;9144;9144;9528;9528;9528;9528;9528];
[328;176;256;392;504;600;712;808;936;1032;1128;1224;1352;1480;1544;1672;1736;1864;1992;2088;2216;2280;2408;2472;2600;2728;2792;2984;2984;3112;3240;3368;3496;3496;3624;3752;3880;4008;4136;4136;4264;4392;4584;4584;4776;4776;4968;4968;5160;5160;5352;5352;5544;5736;5736;5992;5992;5992;6200;6200;6456;6456;6456;6712;6712;6968;6968;6968;7224;7224;7480;7480;7736;7736;7736;7992;7992;8248;8248;8248;8504;8504;8760;8760;8760;9144;9144;9144;9144;9528;9528;9528;9528;9912;9912;9912;10296;10296;10296;10296;10680;10680;10680;10680;11064;11064;11064;11448;11448;11448];
[104;224;328;472;584;712;840;968;1096;1224;1320;1480;1608;1672;1800;1928;2088;2216;2344;2472;2536;2664;2792;2984;3112;3240;3368;3368;3496;3624;3752;3880;4008;4136;4264;4392;4584;4584;4776;4968;4968;5160;5352;5352;5544;5736;5736;5992;5992;6200;6200;6456;6456;6712;6712;6712;6968;6968;7224;7224;7480;7480;7736;7736;7992;7992;8248;8248;8504;8504;8760;8760;8760;9144;9144;9144;9528;9528;9528;9912;9912;9912;10296;10296;10296;10680;10680;10680;11064;11064;11064;11448;11448;11448;11448;11832;11832;11832;12216;12216;12216;12576;12576;12576;12960;12960;12960;12960;13536;13536];
[120;256;392;536;680;808;968;1096;1256;1384;1544;1672;1800;1928;2088;2216;2344;2536;2664;2792;2984;3112;3240;3368;3496;3624;3752;3880;4008;4264;4392;4584;4584;4776;4968;4968;5160;5352;5544;5544;5736;5992;5992;6200;6200;6456;6456;6712;6968;6968;7224;7224;7480;7480;7736;7736;7992;7992;8248;8504;8504;8760;8760;9144;9144;9144;9528;9528;9528;9912;9912;9912;10296;10296;10680;10680;10680;11064;11064;11064;11448;11448;11448;11832;11832;12216;12216;12216;12576;12576;12576;12960;12960;12960;13536;13536;13536;13536;14112;14112;14112;14112;14688;14688;14688;14688;15264;15264;15264;15264];
[136;296;456;616;776;936;1096;1256;1416;1544;1736;1864;2024;2216;2344;2536;2664;2856;2984;3112;3368;3496;3624;3752;4008;4136;4264;4392;4584;4776;4968;5160;5160;5352;5544;5736;5736;5992;6200;6200;6456;6712;6712;6968;6968;7224;7480;7480;7736;7992;7992;8248;8248;8504;8760;8760;9144;9144;9144;9528;9528;9912;9912;10296;10296;10296;10680;10680;11064;11064;11064;11448;11448;11832;11832;11832;12216;12216;12576;12576;12960;12960;12960;13536;13536;13536;13536;14112;14112;14112;14112;14688;14688;14688;15264;15264;15264;15264;15840;15840;15840;16416;16416;16416;16416;16992;16992;16992;16992;17568];
[144;328;504;680;872;1032;1224;1384;1544;1736;1928;2088;2280;2472;2664;2792;2984;3112;3368;3496;3752;3880;4008;4264;4392;4584;4776;4968;5160;5352;5544;5736;5736;5992;6200;6200;6456;6712;6712;6968;7224;7480;7480;7736;7992;7992;8248;8504;8504;8760;9144;9144;9144;9528;9528;9912;9912;10296;10296;10680;10680;11064;11064;11448;11448;11448;11832;11832;12216;12216;12576;12576;12960;12960;12960;13536;13536;13536;14112;14112;14112;14688;14688;14688;14688;15264;15264;15264;15840;15840;15840;16416;16416;16416;16992;16992;16992;16992;17568;17568;17568;18336;18336;18336;18336;18336;19080;19080;19080;19080];
[176;376;584;776;1000;1192;1384;1608;1800;2024;2216;2408;2600;2792;2984;3240;3496;3624;3880;4008;4264;4392;4584;4776;4968;5352;5544;5736;5992;5992;6200;6456;6712;6968;6968;7224;7480;7736;7736;7992;8248;8504;8760;8760;9144;9144;9528;9528;9912;9912;10296;10680;10680;11064;11064;11448;11448;11832;11832;12216;12216;12576;12576;12960;12960;13536;13536;13536;14112;14112;14112;14688;14688;14688;15264;15264;15840;15840;15840;16416;16416;16416;16992;16992;16992;17568;17568;17568;18336;18336;18336;18336;19080;19080;19080;19080;19848;19848;19848;19848;20616;20616;20616;21384;21384;21384;21384;22152;22152;22152];
[208;440;680;904;1128;1352;1608;1800;2024;2280;2472;2728;2984;3240;3368;3624;3880;4136;4392;4584;4776;4968;5352;5544;5736;5992;6200;6456;6712;6712;6968;7224;7480;7736;7992;8248;8504;8760;8760;9144;9528;9528;9912;9912;10296;10680;10680;11064;11064;11448;11832;11832;12216;12216;12576;12576;12960;12960;13536;13536;14112;14112;14112;14688;14688;15264;15264;15264;15840;15840;16416;16416;16416;16992;16992;17568;17568;17568;18336;18336;18336;19080;19080;19080;19080;19848;19848;19848;20616;20616;20616;21384;21384;21384;21384;22152;22152;22152;22920;22920;22920;23688;23688;23688;23688;24496;24496;24496;24496;25456];
[224;488;744;1000;1256;1544;1800;2024;2280;2536;2856;3112;3368;3624;3880;4136;4392;4584;4968;5160;5352;5736;5992;6200;6456;6712;6968;7224;7480;7736;7992;8248;8504;8760;9144;9144;9528;9912;9912;10296;10680;10680;11064;11448;11448;11832;12216;12216;12576;12960;12960;13536;13536;14112;14112;14688;14688;14688;15264;15264;15840;15840;16416;16416;16992;16992;16992;17568;17568;18336;18336;18336;19080;19080;19080;19848;19848;19848;20616;20616;20616;21384;21384;21384;22152;22152;22152;22920;22920;22920;23688;23688;23688;24496;24496;24496;25456;25456;25456;25456;26416;26416;26416;26416;27376;27376;27376;27376;28336;28336];
[256;552;840;1128;1416;1736;1992;2280;2600;2856;3112;3496;3752;4008;4264;4584;4968;5160;5544;5736;5992;6200;6456;6968;7224;7480;7736;7992;8248;8504;8760;9144;9528;9912;9912;10296;10680;11064;11064;11448;11832;12216;12216;12576;12960;12960;13536;13536;14112;14112;14688;14688;15264;15264;15840;15840;16416;16416;16992;16992;17568;17568;18336;18336;18336;19080;19080;19848;19848;19848;20616;20616;20616;21384;21384;22152;22152;22152;22920;22920;22920;23688;23688;24496;24496;24496;25456;25456;25456;25456;26416;26416;26416;27376;27376;27376;28336;28336;28336;28336;29296;29296;29296;29296;30576;30576;30576;30576;31704;31704];
[280;600;904;1224;1544;1800;2152;2472;2728;3112;3368;3624;4008;4264;4584;4968;5160;5544;5736;6200;6456;6712;6968;7224;7736;7992;8248;8504;8760;9144;9528;9912;10296;10296;10680;11064;11448;11832;11832;12216;12576;12960;12960;13536;13536;14112;14688;14688;15264;15264;15840;15840;16416;16416;16992;16992;17568;17568;18336;18336;18336;19080;19080;19848;19848;20616;20616;20616;21384;21384;22152;22152;22152;22920;22920;23688;23688;23688;24496;24496;24496;25456;25456;25456;26416;26416;26416;27376;27376;27376;28336;28336;28336;29296;29296;29296;29296;30576;30576;30576;30576;31704;31704;31704;31704;32856;32856;32856;34008;34008];
[328;632;968;1288;1608;1928;2280;2600;2984;3240;3624;3880;4264;4584;4968;5160;5544;5992;6200;6456;6712;7224;7480;7736;7992;8504;8760;9144;9528;9912;9912;10296;10680;11064;11448;11832;12216;12216;12576;12960;13536;13536;14112;14112;14688;14688;15264;15840;15840;16416;16416;16992;16992;17568;17568;18336;18336;19080;19080;19848;19848;19848;20616;20616;21384;21384;22152;22152;22152;22920;22920;23688;23688;24496;24496;24496;25456;25456;25456;26416;26416;26416;27376;27376;27376;28336;28336;28336;29296;29296;29296;30576;30576;30576;30576;31704;31704;31704;31704;32856;32856;32856;34008;34008;34008;34008;35160;35160;35160;35160];
[336;696;1064;1416;1800;2152;2536;2856;3240;3624;4008;4392;4776;5160;5352;5736;6200;6456;6712;7224;7480;7992;8248;8760;9144;9528;9912;10296;10296;10680;11064;11448;11832;12216;12576;12960;13536;13536;14112;14688;14688;15264;15264;15840;16416;16416;16992;17568;17568;18336;18336;19080;19080;19848;19848;20616;20616;20616;21384;21384;22152;22152;22920;22920;23688;23688;24496;24496;24496;25456;25456;26416;26416;26416;27376;27376;27376;28336;28336;29296;29296;29296;30576;30576;30576;30576;31704;31704;31704;32856;32856;32856;34008;34008;34008;35160;35160;35160;35160;36696;36696;36696;36696;37888;37888;37888;39232;39232;39232;39232];
[376;776;1160;1544;1992;2344;2792;3112;3624;4008;4392;4776;5160;5544;5992;6200;6712;7224;7480;7992;8248;8760;9144;9528;9912;10296;10680;11064;11448;11832;12216;12576;12960;13536;14112;14112;14688;15264;15264;15840;16416;16416;16992;17568;17568;18336;18336;19080;19080;19848;19848;20616;21384;21384;22152;22152;22920;22920;23688;23688;24496;24496;24496;25456;25456;26416;26416;27376;27376;27376;28336;28336;29296;29296;29296;30576;30576;30576;31704;31704;31704;32856;32856;32856;34008;34008;34008;35160;35160;35160;36696;36696;36696;37888;37888;37888;37888;39232;39232;39232;40576;40576;40576;40576;42368;42368;42368;42368;43816;43816];
[408;840;1288;1736;2152;2600;2984;3496;3880;4264;4776;5160;5544;5992;6456;6968;7224;7736;8248;8504;9144;9528;9912;10296;10680;11064;11448;12216;12576;12960;13536;13536;14112;14688;15264;15264;15840;16416;16992;16992;17568;18336;18336;19080;19080;19848;20616;20616;21384;21384;22152;22152;22920;22920;23688;24496;24496;25456;25456;25456;26416;26416;27376;27376;28336;28336;29296;29296;29296;30576;30576;30576;31704;31704;32856;32856;32856;34008;34008;34008;35160;35160;35160;36696;36696;36696;37888;37888;37888;39232;39232;39232;40576;40576;40576;40576;42368;42368;42368;43816;43816;43816;43816;45352;45352;45352;46888;46888;46888;46888];
[440;904;1384;1864;2344;2792;3240;3752;4136;4584;5160;5544;5992;6456;6968;7480;7992;8248;8760;9144;9912;10296;10680;11064;11448;12216;12576;12960;13536;14112;14688;14688;15264;15840;16416;16992;16992;17568;18336;18336;19080;19848;19848;20616;20616;21384;22152;22152;22920;22920;23688;24496;24496;25456;25456;26416;26416;27376;27376;28336;28336;29296;29296;29296;30576;30576;31704;31704;31704;32856;32856;34008;34008;34008;35160;35160;35160;36696;36696;36696;37888;37888;39232;39232;39232;40576;40576;40576;42368;42368;42368;42368;43816;43816;43816;45352;45352;45352;46888;46888;46888;46888;48936;48936;48936;48936;48936;51024;51024;51024];
[488;1000;1480;1992;2472;2984;3496;4008;4584;4968;5544;5992;6456;6968;7480;7992;8504;9144;9528;9912;10680;11064;11448;12216;12576;12960;13536;14112;14688;15264;15840;15840;16416;16992;17568;18336;18336;19080;19848;19848;20616;21384;21384;22152;22920;22920;23688;24496;24496;25456;25456;26416;26416;27376;27376;28336;28336;29296;29296;30576;30576;31704;31704;31704;32856;32856;34008;34008;35160;35160;35160;36696;36696;36696;37888;37888;39232;39232;39232;40576;40576;40576;42368;42368;42368;43816;43816;43816;45352;45352;45352;46888;46888;46888;46888;48936;48936;48936;48936;51024;51024;51024;51024;52752;52752;52752;52752;55056;55056;55056];
[520;1064;1608;2152;2664;3240;3752;4264;4776;5352;5992;6456;6968;7480;7992;8504;9144;9528;10296;10680;11448;11832;12576;12960;13536;14112;14688;15264;15840;16416;16992;16992;17568;18336;19080;19080;19848;20616;21384;21384;22152;22920;22920;23688;24496;24496;25456;25456;26416;27376;27376;28336;28336;29296;29296;30576;30576;31704;31704;32856;32856;34008;34008;34008;35160;35160;36696;36696;36696;37888;37888;39232;39232;40576;40576;40576;42368;42368;42368;43816;43816;43816;45352;45352;45352;46888;46888;46888;48936;48936;48936;48936;51024;51024;51024;51024;52752;52752;52752;55056;55056;55056;55056;57336;57336;57336;57336;59256;59256;59256];
[552;1128;1736;2280;2856;3496;4008;4584;5160;5736;6200;6968;7480;7992;8504;9144;9912;10296;11064;11448;12216;12576;12960;13536;14112;14688;15264;15840;16416;16992;17568;18336;19080;19848;19848;20616;21384;22152;22152;22920;23688;24496;24496;25456;25456;26416;27376;27376;28336;28336;29296;29296;30576;30576;31704;31704;32856;32856;34008;34008;35160;35160;36696;36696;37888;37888;37888;39232;39232;40576;40576;40576;42368;42368;43816;43816;43816;45352;45352;45352;46888;46888;46888;48936;48936;48936;51024;51024;51024;51024;52752;52752;52752;55056;55056;55056;55056;57336;57336;57336;57336;59256;59256;59256;59256;61664;61664;61664;61664;63776];
[584;1192;1800;2408;2984;3624;4264;4968;5544;5992;6712;7224;7992;8504;9144;9912;10296;11064;11448;12216;12960;13536;14112;14688;15264;15840;16416;16992;17568;18336;19080;19848;19848;20616;21384;22152;22920;22920;23688;24496;25456;25456;26416;26416;27376;28336;28336;29296;29296;30576;31704;31704;32856;32856;34008;34008;35160;35160;36696;36696;36696;37888;37888;39232;39232;40576;40576;42368;42368;42368;43816;43816;45352;45352;45352;46888;46888;46888;48936;48936;48936;51024;51024;51024;52752;52752;52752;52752;55056;55056;55056;57336;57336;57336;57336;59256;59256;59256;61664;61664;61664;61664;63776;63776;63776;63776;66592;66592;66592;66592];
[616;1256;1864;2536;3112;3752;4392;5160;5736;6200;6968;7480;8248;8760;9528;10296;10680;11448;12216;12576;13536;14112;14688;15264;15840;16416;16992;17568;18336;19080;19848;20616;20616;21384;22152;22920;23688;24496;24496;25456;26416;26416;27376;28336;28336;29296;29296;30576;31704;31704;32856;32856;34008;34008;35160;35160;36696;36696;37888;37888;39232;39232;40576;40576;40576;42368;42368;43816;43816;43816;45352;45352;46888;46888;46888;48936;48936;48936;51024;51024;51024;52752;52752;52752;55056;55056;55056;55056;57336;57336;57336;59256;59256;59256;61664;61664;61664;61664;63776;63776;63776;63776;66592;66592;66592;66592;68808;68808;68808;71112];
[712;1480;2216;2984;3752;4392;5160;5992;6712;7480;8248;8760;9528;10296;11064;11832;12576;13536;14112;14688;15264;16416;16992;17568;18336;19080;19848;20616;21384;22152;22920;23688;24496;25456;25456;26416;27376;28336;29296;29296;30576;30576;31704;32856;32856;34008;35160;35160;36696;36696;37888;37888;39232;40576;40576;40576;42368;42368;43816;43816;45352;45352;46888;46888;48936;48936;48936;51024;51024;52752;52752;52752;55056;55056;55056;55056;57336;57336;57336;59256;59256;59256;61664;61664;61664;63776;63776;63776;66592;66592;66592;68808;68808;68808;71112;71112;71112;73712;73712;75376;75376;75376;75376;75376;75376;75376;75376;75376;75376;75376]].

(** ** Schemes *)
Definition get_Qm (I_MCS : Z) : Z := if I_MCS <? 10 then 2 else if I_MCS <? 17 then 4 else 6.
Definition get_Qm_ul (I_MCS : Z) : Z := if I_MCS <? 11 then 2 else if I_MCS <? 21 then 4 else 6.
Definition get_I_TBS (I_MCS : Z) : Z :=
  if I_MCS <? 10 then I_MCS else if I_MCS =? 10 then 9 else if I_MCS <? 17 then u8 (I_MCS - 1) else if I_MCS =? 17 then 15 else u8 (I_MCS - 2).
Definition get_I_TBS_UL (I_MCS : Z) : Z :=
  if I_MCS <=? 10 then I_MCS else if I_MCS =? 10 then 10 else if I_MCS <? 21 then u8 (I_MCS - 1) else u8 (I_MCS - 2).
Definition I_TBS2I_MCS (I_TBS : Z) : Z :=
  if I_TBS <=? 9 then I_TBS else if I_TBS <=? 15 then u8 (I_TBS + 1) else if (I_TBS >? 15) && (I_TBS <=? 26) then u8 (I_TBS + 2) else u8 (-1).
(** In bytes. *)
Definition get_TBS_DL (mcs nb_rb : Z) : res Z :=
  if (nb_rb >? 0) && (mcs <? 29) then
    row ← array_get TBStable (get_I_TBS mcs);
    TBS ← array_get row (nb_rb - 1);
    Ok (Z.shiftr TBS 3)
  else Ok 0.
Definition get_TBS_UL (mcs nb_rb : Z) : res Z :=
  if (nb_rb >? 0) && (mcs <? 29) then
    row ← array_get TBStable (get_I_TBS_UL mcs);
    TBS ← array_get row (nb_rb - 1);
    Ok (Z.shiftr TBS 3)
  else Ok 0.

(** ** Channel bits *)
Definition FDD : Z := 0.
Definition TDD : Z := 1.
Definition NORMAL : Z := 0.
Record mbsfn_config := Mk_mbsfn { radioframeAllocationPeriod : Z; radioframeAllocationOffset : Z; fourFrames_flag : Z; mbsfn_SubframeConfig : Z }.
Record frame_parms := Mk_frame_parms { fp_N_RB_DL : Z; fp_Ncp : Z; fp_frame_type : Z; fp_mode1_flag : Z; fp_MBSFN_config : list mbsfn_config }.
Definition MBSFN_FDD_masks : list (Z * Z) := [(1, 128); (2, 64); (3, 32); (6, 16); (7, 8); (8, 4)].
Definition MBSFN_TDD_masks : list (Z * Z) := [(3, 128); (4, 64); (7, 32); (8, 16); (9, 8)].
(** The case of the subframe. *)
Definition mbsfn_mask (masks : list (Z * Z)) (subframe : Z) : option Z := snd <$> List.find (fun '(sf, _) => sf =? subframe) masks.
Definition mbsfn_match (fp : frame_parms) (frame subframe : Z) (c : mbsfn_config) : bool :=
  (frame mod u32 (Z.shiftl 1 (radioframeAllocationPeriod c)) =? radioframeAllocationOffset c) && (fourFrames_flag c =? 0) &&
  match mbsfn_mask (if fp_frame_type fp =? FDD then MBSFN_FDD_masks else MBSFN_TDD_masks) subframe with
  | Some mask => Z.land (mbsfn_SubframeConfig c) mask >? 0
  | None => false
  end.
Definition is_pmch_subframe (frame subframe : Z) (fp : frame_parms) : bool := existsb (mbsfn_match fp frame subframe) (fp_MBSFN_config fp).

(** Is resource block [rb] allocated? *)
Definition rb_allocated (rb_alloc : list Z) (rb : Z) : res Z :=
  if rb <? 32 then w ← array_get rb_alloc 0; Ok (Z.land (Z.shiftr w rb) 1)
  else if rb <? 64 then w ← array_get rb_alloc 1; Ok (Z.land (Z.shiftr w (rb - 32)) 1)
  else if rb <? 96 then w ← array_get rb_alloc 2; Ok (Z.land (Z.shiftr w (rb - 64)) 1)
  else if rb <? 100 then w ← array_get rb_alloc 3; Ok (Z.land (Z.shiftr w (rb - 96)) 1)
  else Ok 0.
(** The resource elements of the six blocks in the middle: with an odd number of blocks the two outer ones count
    half. *)
Fixpoint pbch_sss (fp : frame_parms) (rb_alloc : list Z) (n : nat) (rb re : Z) : res Z :=
  match n with
  | O => Ok re
  | S n =>
      a ← rb_allocated rb_alloc rb;
      let mid := Z.shiftr (fp_N_RB_DL fp) 1 in
      let re :=
        if a =? 1 then
          if (Z.land (fp_N_RB_DL fp) 1 =? 1) && ((rb =? mid - 3) || (rb =? mid + 3)) then re + 6 else re + 12
        else re in
      pbch_sss fp rb_alloc n (rb + 1) re
  end.
Definition adjust_G (fp : frame_parms) (rb_alloc : list Z) (mod_order subframe : Z) : res Z :=
  if negb (subframe =? 0) && negb (subframe =? 5) && negb (subframe =? 6) then Ok 0
  else
    re ← pbch_sss fp rb_alloc (if Z.land (fp_N_RB_DL fp) 1 =? 1 then 7 else 6) (Z.shiftr (fp_N_RB_DL fp) 1 - 3) 0;
    Ok (if subframe =? 0 then
          if fp_frame_type fp =? TDD then
            if fp_mode1_flag fp =? 0 then (- fp_Ncp fp + 14) * re * mod_order / 3 else (- fp_Ncp fp + 29) * re * mod_order / 6
          else
            if fp_mode1_flag fp =? 0 then (- fp_Ncp fp + 17) * re * mod_order / 3 else (- fp_Ncp fp + 35) * re * mod_order / 6
        else if subframe =? 5 then (if fp_frame_type fp =? FDD then 2 else 1) * re * 1 * mod_order
        else if (subframe =? 6) && (fp_frame_type fp =? TDD) then re * 1 * mod_order
        else 0).
Definition get_G (fp : frame_parms) (nb_rb : Z) (rb_alloc : list Z) (mod_order Nl num_pdcch_symbols frame subframe beamforming_mode : Z) : res Z :=
  if negb (is_pmch_subframe frame subframe fp) then
    G_adj ← adjust_G fp rb_alloc mod_order subframe;
    Ok (if fp_Ncp fp =? NORMAL then
          if (beamforming_mode =? 0) && (fp_mode1_flag fp =? 0) then (nb_rb * mod_order * ((11 - num_pdcch_symbols) * 12 + 3 * 8) - G_adj) * Nl
          else if beamforming_mode =? 7 then nb_rb * mod_order * ((7 - num_pdcch_symbols) * 12 + 3 * 10 + 4 * 9) - G_adj
          else nb_rb * mod_order * ((11 - num_pdcch_symbols) * 12 + 3 * 10) - G_adj
        else
          if fp_mode1_flag fp =? 0 then (nb_rb * mod_order * ((9 - num_pdcch_symbols) * 12 + 3 * 8) - G_adj) * Nl
          else if beamforming_mode =? 7 then nb_rb * mod_order * ((5 - num_pdcch_symbols) * 12 + 3 * 8 + 4 * 9) - G_adj
          else nb_rb * mod_order * ((9 - num_pdcch_symbols) * 12 + 3 * 10) - G_adj)
  else Ok (fp_N_RB_DL fp * mod_order * 102).

(** ** Every size of the table *)
Definition no_info : seg_info := Mk_seg 0 0 0 0 0 0.
Definition no_tables : crc_tables := Mk_crc_tables [] [] [] [] [].
(** Segmentation of a block of [t] bits leaves no filler. *)
Definition tbs_fine (t : Z) : bool :=
  let B := t + 24 in
  (0 <? t) && (t mod 8 =? 0) && (blocks B <=? 16) && (negb ((total B / blocks B) mod 64 =? 0) || (total B mod blocks B =? 0)) &&
  match lte_segmentation no_tables None B no_info with Ok (0, i, None) => seg_F i =? 0 | _ => false end.
Lemma table_fine : forallb (fun row => (length row =? 110)%nat && forallb tbs_fine row) TBStable = true.
Proof. vm_compute. reflexivity. Qed.
Lemma table_length : length TBStable = 27%nat.
Proof. reflexivity. Qed.
Lemma table_entry_fine i n : 0 <= i < 27 -> 1 <= n <= 110 -> exists row t, array_get TBStable i = Ok row /\ array_get row (n - 1) = Ok t /\ tbs_fine t = true.
Proof.
  intros Hi Hn. destruct (array_get_ok TBStable i) as (row & Er & Hr); [rewrite table_length; lia|].
  pose proof (proj1 (forallb_forall _ _) table_fine row) as Hrow. rewrite <- list_elem_of_In in Hrow. specialize (Hrow (list_elem_of_lookup_2 _ _ _ Hr)).
  apply andb_true_iff in Hrow as [Hl Hf]. apply Nat.eqb_eq in Hl. destruct (array_get_ok row (n - 1)) as (t & Et & Ht); [lia|].
  exists row, t. split; [done|]. split; [done|]. rewrite forallb_forall in Hf. apply Hf. rewrite <- list_elem_of_In. by apply list_elem_of_lookup_2 in Ht.
Qed.
Lemma I_TBS_range m : 0 <= m < 29 -> 0 <= get_I_TBS m < 27 /\ 0 <= get_I_TBS_UL m < 27.
Proof.
  intros Hm. unfold get_I_TBS, get_I_TBS_UL, u8.
  destruct (Z.ltb_spec m 10), (Z.eqb_spec m 10), (Z.ltb_spec m 17), (Z.eqb_spec m 17), (Z.leb_spec m 10), (Z.ltb_spec m 21);
    rewrite ?wrapu_small by lia; lia.
Qed.
Lemma fine_segmented t T i : tbs_fine t = true -> exists i1, lte_segmentation T None (t + 24) i = Ok (0, i1, None) /\ well_split (t + 24) i1 /\ seg_F i1 = 0 /\
  0 < t /\ t mod 8 = 0.
Proof.
  unfold tbs_fine. rewrite !andb_true_iff, orb_true_iff, negb_true_iff, Z.ltb_lt, Z.leb_le, !Z.eqb_eq, Z.eqb_neq. intros [[[[Ht H8] H16] Hs] HF].
  assert (Hsp : splittable (t + 24)) by (unfold splittable; tauto).
  destruct (segmentation_info T (t + 24) ltac:(lia) ltac:(mod_lia) H16 Hsp) as (i1 & Hw & E).
  assert (Hany : forall T', lte_segmentation T' None (t + 24) no_info = lte_segmentation T None (t + 24) no_info).
  { intros T'. unfold lte_segmentation. destruct (seg_count (t + 24) no_info) as [[L B'] i0]. by destruct (seg_C i0 >? MAX_NUM_DLSCH_SEGMENTS); [|destruct (seg_sizes (B' / seg_C i0) i0)]. }
  exists i1. rewrite E. split; [done|]. split; [done|]. split; [|done]. rewrite Hany, E in HF. by apply Z.eqb_eq in HF.
Qed.
(** C19: For every scheme 0..28 and every number of resource blocks 1..110 that the table
    has, downlink and uplink, the transport block is a whole number of bytes that
    segmentation, with 24 bits of CRC, handles, and it leaves no filler bits. *)
Theorem tbs_no_filler T mcs nb_rb i : 0 <= mcs < 29 -> 1 <= nb_rb <= 110 ->
  exists dl ul i1 i2, get_TBS_DL mcs nb_rb = Ok dl /\ get_TBS_UL mcs nb_rb = Ok ul /\
    lte_segmentation T None (8 * dl + 24) i = Ok (0, i1, None) /\ well_split (8 * dl + 24) i1 /\ seg_F i1 = 0 /\
    lte_segmentation T None (8 * ul + 24) i = Ok (0, i2, None) /\ well_split (8 * ul + 24) i2 /\ seg_F i2 = 0.
Proof.
  intros Hm Hn. destruct (I_TBS_range mcs Hm) as [Hd Hu].
  destruct (table_entry_fine _ nb_rb Hd Hn) as (r1 & t1 & R1 & T1 & F1), (table_entry_fine _ nb_rb Hu Hn) as (r2 & t2 & R2 & T2 & F2).
  destruct (fine_segmented t1 T i F1) as (i1 & S1 & W1 & Z1 & P1 & M1), (fine_segmented t2 T i F2) as (i2 & S2 & W2 & Z2 & P2 & M2).
  assert (H8 : forall t, t mod 8 = 0 -> 8 * Z.shiftr t 3 = t) by (intros t Ht; rewrite Z.shiftr_div_pow2 by lia; change (2 ^ 3) with 8; mod_lia).
  exists (Z.shiftr t1 3), (Z.shiftr t2 3), i1, i2. rewrite !H8 by done. unfold get_TBS_DL, get_TBS_UL.
  assert (Hg : (nb_rb >? 0) && (mcs <? 29) = true) by (rewrite andb_true_iff, Z.gtb_lt, Z.ltb_lt; lia). rewrite Hg, R1, R2. cbn [mbind res_bind]. by rewrite T1, T2.
Qed.
Lemma tbs_no_filler_witness : exists dl ul i1 i2, get_TBS_DL 28 100 = Ok dl /\ get_TBS_UL 28 100 = Ok ul /\
  lte_segmentation no_tables None (8 * dl + 24) no_info = Ok (0, i1, None) /\ well_split (8 * dl + 24) i1 /\ seg_F i1 = 0 /\
  lte_segmentation no_tables None (8 * ul + 24) no_info = Ok (0, i2, None) /\ well_split (8 * ul + 24) i2 /\ seg_F i2 = 0.
Proof. apply (tbs_no_filler no_tables 28 100 no_info); lia. Defined.
(** The scheme of a row of the table is found again. *)
Lemma I_TBS_roundtrip t : 0 <= t < 27 -> get_I_TBS (I_TBS2I_MCS t) = t.
Proof.
  intros Ht. unfold I_TBS2I_MCS, u8. destruct (Z.leb_spec t 9); [unfold get_I_TBS; by rewrite (proj2 (Z.ltb_lt _ _)) by lia|].
  destruct (Z.leb_spec t 15).
  - rewrite wrapu_small by lia. unfold get_I_TBS, u8. rewrite (proj2 (Z.ltb_ge _ _)), (proj2 (Z.eqb_neq _ 10)), (proj2 (Z.ltb_lt (t + 1) 17)) by lia. rewrite wrapu_small; lia.
  - rewrite (proj2 (Z.gtb_lt _ _)), (proj2 (Z.leb_le t 26)) by lia. cbn [andb]. rewrite wrapu_small by lia. unfold get_I_TBS, u8.
    rewrite (proj2 (Z.ltb_ge _ 10)), (proj2 (Z.eqb_neq _ 10)), (proj2 (Z.ltb_ge _ 17)), (proj2 (Z.eqb_neq _ 17)) by lia. rewrite wrapu_small; lia.
Qed.

(** ** Whole symbols *)
Lemma pbch_sss_six fp rb_alloc n : forall rb re, re mod 6 = 0 -> forall re', pbch_sss fp rb_alloc n rb re = Ok re' -> re' mod 6 = 0.
Proof.
  induction n as [|n IH]; intros rb re Hre re' H; cbn [pbch_sss] in H; [by injection H as <-|].
  apply bind_ok_inv in H as (a & _ & H). apply IH in H; [done|]. destruct (a =? 1); [|done]. destruct (_ && _); mod_lia.
Qed.
Lemma divide_scaled q a re : re mod 6 = 0 -> (q | a * re * q / 3) /\ (q | a * re * q / 6).
Proof.
  intros H. pose proof (Z.div_mod re 6 ltac:(lia)) as Hd. rewrite H, Z.add_0_r in Hd. set (k := re / 6) in *. rewrite Hd.
  replace (a * (6 * k) * q) with (2 * a * k * q * 3) by lia. rewrite Z.div_mul by lia. replace (2 * a * k * q * 3) with (a * k * q * 6) by lia. rewrite Z.div_mul by lia.
  split; apply Z.divide_factor_r.
Qed.
Lemma adjust_G_divide fp rb_alloc mod_order subframe g : adjust_G fp rb_alloc mod_order subframe = Ok g -> (mod_order | g).
Proof.
  unfold adjust_G. destruct (_ && _); intros H; [injection H as <-; apply Z.divide_0_r|]. apply bind_ok_inv in H as (re & Hre & H). apply pbch_sss_six in Hre; [|done].
  injection H as <-. destruct (subframe =? 0).
  - destruct (_ =? TDD), (_ =? 0); by apply divide_scaled.
  - destruct (subframe =? 5); [apply Z.divide_factor_r|]. destruct (_ && _); [apply Z.divide_factor_r | apply Z.divide_0_r].
Qed.
(** The bits of a subframe are a whole number of modulation symbols, whatever is taken off for the broadcast
    channel and the synchronisation signals; with transmit diversity, one for each layer. *)
Theorem G_whole_symbols fp nb_rb rb_alloc mod_order Nl pdcch frame subframe mode G :
  get_G fp nb_rb rb_alloc mod_order Nl pdcch frame subframe mode = Ok G ->
  (mod_order | G) /\ (is_pmch_subframe frame subframe fp = false -> fp_mode1_flag fp = 0 -> mode = 0 \/ fp_Ncp fp <> NORMAL -> (mod_order * Nl | G)).
Proof.
  unfold get_G. destruct (is_pmch_subframe frame subframe fp); cbn [negb]; intros H.
  { injection H as <-. split; [|done]. apply Z.divide_mul_l, Z.divide_factor_r. }
  apply bind_ok_inv in H as (g & Hg & H). injection H as <-. apply adjust_G_divide in Hg as [k ->].
  assert (Hfac : forall a x, a * mod_order * x - k * mod_order = (a * x - k) * mod_order) by (intros; lia). rewrite !Hfac.
  assert (Hq : forall x, (mod_order | x * mod_order) /\ (mod_order | x * mod_order * Nl) /\ (mod_order * Nl | x * mod_order * Nl)).
  { intros x. split; [apply Z.divide_factor_r|]. split; [apply Z.divide_mul_l, Z.divide_factor_r|]. rewrite <- Z.mul_assoc. apply Z.divide_factor_r. }
  destruct (Z.eqb_spec (fp_Ncp fp) NORMAL) as [HN | HN].
  - destruct (Z.eqb_spec mode 0) as [Hm | Hm], (Z.eqb_spec (fp_mode1_flag fp) 0) as [H1 | H1]; cbn [andb]; (split; [destruct (mode =? 7); apply Hq|]);
      intros _ E [E' | E']; try done; apply Hq.
  - destruct (Z.eqb_spec (fp_mode1_flag fp) 0) as [H1 | H1]; (split; [destruct (mode =? 7); apply Hq|]); intros _ E; try done; intros _; apply Hq.
Qed.
Lemma G_whole_symbols_witness : get_G (Mk_frame_parms 25 0 0 0 []) 10 [8191; 0; 0; 0] 6 1 2 0 0 0 = Ok 6492 /\ (6 | 6492).
Proof.
  assert (H : get_G (Mk_frame_parms 25 0 0 0 []) 10 [8191; 0; 0; 0] 6 1 2 0 0 0 = Ok 6492) by (vm_compute; reflexivity).
  split; [exact H|]. exact (proj1 (G_whole_symbols _ _ _ _ _ _ _ _ _ _ H)).
Defined.
